(* ===== verification/_CoqProject ===== *)
-Q . S2P
Prelude.v
Cstring.v
BinString.v
Float64.v
MathConstants.v
GalileoData.v
InavTables.v
InavWords.v
InavReaders.v
FieldLayout.v
InavMessage.v
InavProofs.v
InavFec.v
InavPages.v
ReedSolomonTables.v
ReedSolomon.v
GF256.v
RSAlgebra.v
ReedSolomonProofs.v
ReedSolomonEncode.v
InavRecovery.v
Viterbi.v
ViterbiProofs.v
HasData.v
CnavMessage.v
FnavTables.v
FnavMessage.v
FnavProofs.v
TlmDecoder.v
TlmSync.v
TlmPages.v
TlmTime.v
TlmPolarity.v
HasReceiver.v
HasProofs.v
HasCollection.v
HasFields.v
HasInvariant.v
OsnmaSubframe.v
OsnmaDsm.v
OsnmaDsmProofs.v
OsnmaProcessor.v
OsnmaProcessorProofs.v
GnssSignal.v
ChannelFsm.v
Flowgraph.v
ControlThread.v
FlowgraphProofs.v
ReceiverProofs.v
ReceiverSync.v
ReceiverLive.v
GpsTables.v
GpsMessage.v
GpsTlm.v
GpsParity.v
GpsFrames.v
GpsEncode.v
GpsFields.v
GpsBroadcast.v
GpsReceiver.v
GpsSafety.v
GpsProofs.v
GnavTables.v
GnavMessage.v
GnavTlm.v
FloatBounds.v
GnavTime.v
GnavHamming.v
GnavCode.v
GnavMark.v
GnavReceiver.v
GnavFields.v
GnavBroadcast.v
GnavProofs.v
