(* ===== verification/Prelude.v ===== *)
(** * A verification library for gnss-sdr-osnma

    GNSS-SDR is a software receiver of satellite navigation signals.  This
    library models its Galileo data chain, from the demodulated symbols of a
    channel to navigation data, High Accuracy Service (HAS) corrections and
    authenticated OSNMA messages; its GPS L1 C/A and GLONASS C/A data chains; and
    its control plane, which assigns satellites to channels; and proves what makes
    them correct.
    Paths are relative to [src/src].

    ** How the parts interact

    A channel tracks one signal of one satellite and gives a prompt correlator
    output per symbol.  The telemetry decoder block finds the page boundaries in
    these symbols (preambles, twice at the right distance), undoes the block
    interleaver, decodes the convolutional code and hands the bits to the
    message decoder of the signal: I/NAV (E1-B, E5b), F/NAV (E5a) or C/NAV
    (E6-B).  It gives each symbol a time of week.  The I/NAV decoder joins the
    halves of a page, checks the CRC, reads the words, and recovers missing
    ephemeris words with a Reed-Solomon code; its OSNMA fields go to the OSNMA
    worker, which collects subframes and the messages in them.  C/NAV pages go
    to the HAS receiver, which collects the pages of a message and decodes them
    with the same Reed-Solomon codec.  The GPS block finds the preamble of a
    subframe, checks the parity of its words and hands them to the GPS message
    decoder; the GLONASS block finds the time mark of a string, undoes its
    bi-binary and relative codes and hands the bits to the GNAV decoder, which
    checks their Hamming code.  The flow graph assigns signals to channels and
    reacts to the events of their state machines.

    ** The files

    - Prelude.v: record updates, exceptions and stateful programs ([prog]: a
      state transformer that returns or throws, and keeps what was written before
      the throw), machine integers ([wrap], [swrap]), C++ containers, counted
      loops ([for_range], [for_prog]) and their induction principles.
      Cstring.v: [std::string], [std::bitset] and numerals.  Float64.v:
      [double] and [float] through the Standard Library's SpecFloat.
    - MathConstants.v, GalileoData.v: core/system_parameters/MATH_CONSTANTS.h and
      the data classes (ephemeris, almanac, ionosphere, UTC, reduced CED).
    - InavTables.v, InavWords.v, InavMessage.v: Galileo_INAV.h and
      galileo_inav_message.{h,cc}.  InavReaders.v (the bit readers against binary
      and two's complement values), InavProofs.v and InavFec.v (the FEC2
      collection), InavPages.v (pages and reports) hold the theorems.
    - ReedSolomonTables.v, ReedSolomon.v: reed_solomon.{h,cc}.  GF256.v shows that
      the tables are a field; RSAlgebra.v has the algebra of erasure correction;
      ReedSolomonProofs.v and ReedSolomonEncode.v relate the loops to it;
      InavRecovery.v composes the codec with the I/NAV decoder through the
      classes [RSDecoder], [RSShape] and [RSErasures].
    - Viterbi.v, ViterbiProofs.v: telemetry_decoder/libs/viterbi_decoder.{h,cc}.
    - FnavTables.v, FnavMessage.v, FnavProofs.v: galileo_fnav_message.{h,cc}.
      CnavMessage.v: galileo_cnav_message.{h,cc}.
    - TlmDecoder.v: galileo_telemetry_decoder_gs.{h,cc}, one program per call of
      [general_work].  TlmSync.v (an abstract synchroniser that it refines),
      TlmPages.v (safety, interleaver), TlmTime.v (time of week), TlmPolarity.v
      (inverted carrier).
    - HasData.v, HasReceiver.v: galileo_has_data.{h,cc} and
      galileo_e6_has_msg_receiver.{h,cc}.  HasProofs.v (columns), HasCollection.v
      (pages to message), HasFields.v (fields), HasInvariant.v (what every page
      keeps).
    - BinString.v, OsnmaSubframe.v, OsnmaDsm.v, OsnmaProcessor.v:
      algorithms/security/libs/osnma and galileo_osnma_worker.cc.
      OsnmaDsmProofs.v and OsnmaProcessorProofs.v hold the theorems.
    - GpsTables.v, GpsMessage.v, GpsTlm.v: GPS_L1_CA.h,
      gps_navigation_message.{h,cc} and gps_l1_ca_telemetry_decoder_gs.{h,cc}.
      GpsParity.v (the parity check and the equations of IS-GPS-200), GpsFrames.v
      (words of a subframe), GpsEncode.v (an encoder of the standard), GpsFields.v
      and GpsBroadcast.v (subframes written from numbers and read back),
      GpsReceiver.v (runs of the block), GpsSafety.v (its invariant) and
      GpsProofs.v hold the theorems.  FieldLayout.v is shared by the two systems:
      bits written from a list of fields.
    - GnavTables.v, GnavMessage.v, GnavTlm.v: GLONASS_L1_L2_CA.h,
      glonass_gnav_navigation_message.{h,cc} with the ephemeris, almanac and UTC
      classes, and glonass_l1_ca_telemetry_decoder_gs.{h,cc}, which
      glonass_l2_ca_telemetry_decoder_gs.{h,cc} repeats.  FloatBounds.v (rounding
      errors of binary64), GnavTime.v (dates and milliseconds), GnavHamming.v,
      GnavCode.v (an encoder of the strings), GnavMark.v (the time mark),
      GnavReceiver.v (runs of the block), GnavFields.v and GnavBroadcast.v (strings
      written from numbers and read back) and GnavProofs.v hold the theorems.
    - GnssSignal.v: gnss_satellite.{h,cc}, gnss_signal.{h,cc}.  ChannelFsm.v:
      channel_fsm.{h,cc}, channel_msg_receiver_cc.cc, channel.{h,cc}.
      Flowgraph.v: the acquisition management of gnss_flowgraph.{h,cc} and
      channel_status_msg_receiver.cc.  ControlThread.v: the dispatcher and main
      loop of control_thread.{h,cc}, and the receiver as a sequence of events.
      FlowgraphProofs.v (the lists and the assignment), ReceiverProofs.v (no
      operation fails, no satellite is lost), ReceiverSync.v (flow graph, queue
      and state machines agree) and ReceiverLive.v (no channel idles without a
      reason) hold the theorems.

    A class of the code is a Record; its members keep their names.  Members that
    only one word or page type fills are grouped in a record of their own.  A
    member function is a function on the record, or a [prog] over it when it can
    throw or write before throwing.  An access that C++ leaves undefined (a
    vector out of range, [front] of an empty list, a conversion out of range) is
    [Throws undefined_behaviour]; the exceptions of the standard library are
    [out_of_range] and [invalid_argument].

    ** What the theorems show

    - Authenticity: every DSM-KROOT message ever marked processed is authentic
      under a key of the store ([processed_messages_authentic]); the worker
      refines a specification on page lists and never dereferences a null
      subframe.
    - Recovery: the ephemeris is recovered from any four of the eight words; a HAS
      message from any sufficient set of its encoded pages; the Reed-Solomon
      decoder restores every pattern of at most [nroots] erasures, and leaves
      others unanswered.
    - Synchronisation: [general_work] refines a synchroniser of three states; it
      locks when preambles arrive and loses the lock after the limit of bad
      pages; the carrier polarity does not matter; the time of week follows the
      pages.
    - Safety: no symbols, pages or messages make the I/NAV decoder or the OSNMA
      worker throw; the buffers keep their sizes.
    - Data: every field read is the field of the page in its unit; every data set
      is reported once; round trips of the interleaver and the code.
    - GPS: a stream of subframes encoded by the standard is heard from any symbol,
      in either polarity, and its ephemeris, ionosphere and UTC model are
      published as sent ([gps_broadcast_received]); the parity check is that of
      the standard and rejects up to three wrong bits of a word; the time of week
      of every symbol; no symbols, changes of satellite or resets make the block
      throw or mix two issues of data.
    - GLONASS: a stream of strings is heard from any symbol, in either polarity, and
      its ephemeris is published as sent, in the GPS week and at the time of week of
      its date ([gnav_broadcast_received]); the Hamming check accepts one wrong
      check bit and rejects two errors; data are never taken for the time mark;
      the rounding errors of the time of week never show in its milliseconds.
    - Assignment: from its setup on the receiver never reads an empty list; every
      satellite is in the list of its signal or with a channel; without standby
      every event meets the channel state it was sent for and the count of
      acquisitions is exact; an idle turn of the main loop serves every channel
      that can be served.  Two configurations show where the code's own check of
      the number of channels is too lax.

    ** Bounds and fuel

    [mod255] reduces by at most 8 rounds (a 32-bit value), the table constructor
    looks for an inverse in 256 rounds, population counts take 64: each with a
    lemma that the fuel suffices where a property rests on it ([mod255_spec]).
    The time of week of GLONASS, a [double] incremented by 1 ms, is followed for
    four million symbols ([gnav_tow_exact]); the error of each addition is bounded
    in units of the least significant bit ([FloatBounds.rounds]).
    All other recursion is structural or a counted loop.

    ** Concurrency

    A GNU Radio block handles one call at a time; [set_satellite] and [reset],
    which another thread calls, are atomic with respect to [general_work] in
    the model (the code takes no lock there).  An event of a
    channel's state machine and a turn of the control thread are atomic
    (both are under mutexes in the code); between them any interleaving is
    allowed.  The control thread changes the state of a channel before it starts
    the acquisition; a channel at rest sends nothing in between.

    ** Assumptions

    Code outside the repository is a parameter: Boost's CRC and bit packing
    ([Boost], [Boost_FNAV], [Boost_CNAV]), its calendar ([Calendar], with the
    Gregorian rule as the hypothesis [Gregorian] where a date matters), GnuTLS ([GnuTLS]), the mathematical
    library ([Libm]), the tokenizer of PRN lists ([Boost_Tokenizer]); the values
    of the configuration file are the class [Configuration].  No property of them is assumed except where a theorem
    names it.

    ** Not modelled

    Acquisition, tracking, observables and positioning (numerical signal
    processing and estimation on floating-point vectors, mostly through VOLK,
    Armadillo and RTKLIB); signal sources, conditioners, filters and resamplers
    (sample I/O); the GPS L2C and L5 (CNAV), BeiDou and SBAS messages and blocks;
    the orbit propagation of the data classes; the construction and connection of GNU Radio graphs; the monitors, file
    printers and assistance clients (pure I/O); vendored and generated code.
    Of modelled files, logging, printing and dump files are left out; so are
    the key and certificate loaders of the OSNMA processor, which only read
    files through external libraries. *)

From stdpp Require Import gmap list strings.
From Stdlib Require Import ZArith Lia Ascii Morphisms.

(** ** Record updates

    [r <| field := v |>] replaces one field of a record, [r <| field ::= f |>]
    applies a function to it.  A record opts in by an [Eta] instance that
    writes the record out field by field; the setter of a field is derived from
    that term by type class resolution. *)

Class Eta (R : Type) := eta : R -> R.

Class Update {R E : Type} (proj : R -> E) := update : (E -> E) -> R -> R.

Ltac derive_update R proj :=
  let e := constr:(_ : Eta R) in
  let e' := eval hnf in e in
  exact (fun f r =>
    ltac:(let t := eval cbv beta in (e' r) in
          match t with
          | context C [proj r] =>
              let t' := context C [f (proj r)] in exact t'
          end)).

#[export] Hint Extern 1 (@Update ?R ?E ?proj) =>
  derive_update R proj : typeclass_instances.

Declare Scope record_scope.
Delimit Scope record_scope with rec.
Notation "r <| proj := v |>" := (update (proj := proj) (fun _ => v) r)
  (at level 1, left associativity, proj at level 9, v at level 200) : record_scope.
Notation "r <| proj ::= f |>" := (update (proj := proj) f r)
  (at level 1, left associativity, proj at level 9, f at level 200) : record_scope.
#[export] Set Warnings "-notation-overridden,-clear-no-such-hyp".
Open Scope record_scope.

(** ** C++ exceptions and stateful programs

    An operation of the code either returns or throws; what it wrote to the
    object before the throw stays written, so a program returns the state in
    both cases.  [undefined_behaviour] stands for an access that C++ leaves
    undefined (a null pointer dereferenced, a [vector] read out of range). *)

Inductive exn :=
  | out_of_range
  | invalid_argument
  | undefined_behaviour.

#[export] Instance exn_eq_dec : EqDecision exn.
Proof. solve_decision. Defined.

Inductive outcome (A : Type) :=
  | Returns (a : A)
  | Throws (e : exn).
Arguments Returns {A} a.
Arguments Throws {A} e.

Definition outcome_bind {A B} (o : outcome A) (k : A -> outcome B) : outcome B :=
  match o with
  | Returns a => k a
  | Throws e => Throws e
  end.

Definition returns {A} (o : outcome A) : bool :=
  match o with Returns _ => true | Throws _ => false end.

Definition prog (S A : Type) := S -> outcome A * S.

Definition ret {S A} (a : A) : prog S A := fun s => (Returns a, s).
Definition throw {S A} (e : exn) : prog S A := fun s => (Throws e, s).
Definition lift {S A} (o : outcome A) : prog S A := fun s => (o, s).
Definition gets {S A} (f : S -> A) : prog S A := fun s => (Returns (f s), s).
Definition modify {S} (f : S -> S) : prog S unit := fun s => (Returns tt, f s).
Definition bind {S A B} (c : prog S A) (k : A -> prog S B) : prog S B :=
  fun s =>
    match c s with
    | (Returns a, s') => k a s'
    | (Throws e, s') => (Throws e, s')
    end.

Declare Scope cxx_scope.
Delimit Scope cxx_scope with cxx.
Notation "x <- c ;; k" := (bind c (fun x => k))
  (at level 100, c at next level, right associativity) : cxx_scope.
Notation "c ;; k" := (bind c (fun _ => k))
  (at level 100, right associativity) : cxx_scope.
Notation "'let*' x := c 'in' k" := (outcome_bind c (fun x => k))
  (at level 100, x name, right associativity) : cxx_scope.

(** Programs that agree on every state are interchangeable. *)
Definition prog_eq {S A} (c d : prog S A) : Prop := forall s, c s = d s.
Infix "=p" := prog_eq (at level 70) : cxx_scope.
Local Open Scope cxx_scope.

#[export] Instance prog_eq_equivalence {S A} : Equivalence (@prog_eq S A).
Proof.
  split.
  - intros c s. reflexivity.
  - intros c d H s. symmetry. apply H.
  - intros c d e H1 H2 s. rewrite (H1 s). apply H2.
Qed.

#[export] Instance bind_proper {S A B} :
  Proper (prog_eq ==> pointwise_relation A prog_eq ==> prog_eq) (@bind S A B).
Proof.
  intros c c' Hc k k' Hk s. unfold bind. rewrite (Hc s).
  destruct (c' s) as [[a|e] s']; [apply Hk | reflexivity].
Qed.

Lemma bind_ret_l {S A B} (a : A) (k : A -> prog S B) : bind (ret a) k =p k a.
Proof. intros s. reflexivity. Qed.

Lemma bind_throw_l {S A B} (e : exn) (k : A -> prog S B) :
  bind (throw e) k =p throw e.
Proof. intros s. reflexivity. Qed.

Lemma bind_ret_r {S A} (c : prog S A) : bind c ret =p c.
Proof. intros s. unfold bind. destruct (c s) as [[a|e] s']; reflexivity. Qed.

Lemma bind_assoc {S A B C} (c : prog S A) (k : A -> prog S B) (h : B -> prog S C) :
  bind (bind c k) h =p bind c (fun a => bind (k a) h).
Proof. intros s. unfold bind. destruct (c s) as [[a|e] s']; reflexivity. Qed.

(** Running a program whose first step reads the state. *)
Lemma run_gets {S A B} (f : S -> A) (k : A -> prog S B) s : bind (gets f) k s = k (f s) s.
Proof. reflexivity. Qed.
Lemma run_modify {S B} (f : S -> S) (k : unit -> prog S B) s : bind (modify f) k s = k tt (f s).
Proof. reflexivity. Qed.

(** [run_inv P c]: from every state satisfying [P], [c] ends in one that
    satisfies it, whether it returns or throws. *)
Definition run_inv {S A} (P : S -> Prop) (c : prog S A) : Prop :=
  forall s, P s -> P (c s).2.

Lemma run_inv_bind {S A B} (P : S -> Prop) (c : prog S A) (k : A -> prog S B) :
  run_inv P c -> (forall a, run_inv P (k a)) -> run_inv P (bind c k).
Proof.
  intros Hc Hk s Hs. unfold bind. specialize (Hc s Hs).
  destruct (c s) as [[a|e] s']; simpl in *; [apply Hk|]; assumption.
Qed.

Lemma run_inv_ret {S A} (P : S -> Prop) (a : A) : run_inv P (ret a).
Proof. intros s Hs. exact Hs. Qed.

Lemma run_inv_lift {S A} (P : S -> Prop) (o : outcome A) : run_inv P (lift o).
Proof. intros s Hs. exact Hs. Qed.

Lemma run_inv_gets {S A} (P : S -> Prop) (f : S -> A) : run_inv P (gets f).
Proof. intros s Hs. exact Hs. Qed.

Lemma run_inv_modify {S} (P : S -> Prop) (f : S -> S) :
  (forall s, P s -> P (f s)) -> run_inv P (modify f).
Proof. intros H s Hs. apply H, Hs. Qed.

(** [hoare P c Q E]: from a state satisfying [P], [c] either returns [a] in a
    state satisfying [Q a] or throws [e] in one satisfying [E e]. *)
Definition hoare {S A} (P : S -> Prop) (c : prog S A) (Q : A -> S -> Prop)
    (E : exn -> S -> Prop) : Prop :=
  forall s, P s ->
    match c s with
    | (Returns a, s') => Q a s'
    | (Throws e, s') => E e s'
    end.

Lemma hoare_bind {S A B} P (c : prog S A) (k : A -> prog S B) R Q E :
  hoare P c R E -> (forall a, hoare (R a) (k a) Q E) -> hoare P (bind c k) Q E.
Proof.
  intros Hc Hk s Hs. specialize (Hc s Hs). unfold bind.
  destruct (c s) as [[a|e] s']; [apply (Hk a s' Hc) | exact Hc].
Qed.

Lemma hoare_conseq {S A} (P P' : S -> Prop) (c : prog S A) (Q Q' : A -> S -> Prop)
    (E E' : exn -> S -> Prop) :
  hoare P' c Q' E' -> (forall s, P s -> P' s) -> (forall a s, Q' a s -> Q a s) ->
  (forall e s, E' e s -> E e s) -> hoare P c Q E.
Proof.
  intros Hc HP HQ HE s Hs. specialize (Hc s (HP s Hs)).
  destruct (c s) as [[a|e] s']; auto.
Qed.

Lemma hoare_ret {S A} (a : A) (Q : A -> S -> Prop) E : hoare (Q a) (ret a) Q E.
Proof. intros s Hs. exact Hs. Qed.

Lemma hoare_gets {S A} (P : S -> Prop) (f : S -> A) (Q : A -> S -> Prop) E :
  (forall s, P s -> Q (f s) s) -> hoare P (gets f) Q E.
Proof. intros H s Hs. exact (H s Hs). Qed.

Lemma hoare_modify {S} (P : S -> Prop) (f : S -> S) (Q : unit -> S -> Prop) E :
  (forall s, P s -> Q tt (f s)) -> hoare P (modify f) Q E.
Proof. intros H s Hs. exact (H s Hs). Qed.

(** A computation that does not touch the state. *)
Lemma hoare_lift {S A} (P : S -> Prop) (o : outcome A) (Q : A -> S -> Prop) E :
  (forall a s, o = Returns a -> P s -> Q a s) ->
  (forall e s, o = Throws e -> P s -> E e s) -> hoare P (lift o) Q E.
Proof. intros H1 H2 s Hs. unfold lift. destruct o; auto. Qed.

(** An outcome that is not undefined behaviour. *)
Definition defined {A} (o : outcome A) : Prop := o <> Throws undefined_behaviour.

Lemma defined_bind {A B} (o : outcome A) (k : A -> outcome B) :
  defined o -> (forall a, defined (k a)) -> defined (outcome_bind o k).
Proof. intros Ho Hk. destruct o; [apply Hk | unfold defined in *; cbn; congruence]. Qed.

Lemma defined_returns {A} (a : A) : defined (Returns a).
Proof. discriminate. Qed.

Definition never_ub {S A} (c : prog S A) : Prop := forall s, defined (c s).1.

Lemma never_ub_bind {S A B} (c : prog S A) (k : A -> prog S B) :
  never_ub c -> (forall a, never_ub (k a)) -> never_ub (bind c k).
Proof.
  intros Hc Hk s. specialize (Hc s). unfold bind.
  destruct (c s) as [[a|e] s']; [apply Hk|]. unfold defined in *. cbn in *. congruence.
Qed.

Lemma never_ub_ret {S A} (a : A) : never_ub (S := S) (ret a).
Proof. discriminate. Qed.

Lemma never_ub_gets {S A} (f : S -> A) : never_ub (gets f).
Proof. discriminate. Qed.

Lemma never_ub_modify {S} (f : S -> S) : never_ub (modify f).
Proof. discriminate. Qed.

Lemma never_ub_lift {S A} (o : outcome A) : defined o -> never_ub (S := S) (lift o).
Proof. intros H s. exact H. Qed.

Create HintDb cxx.
Create Rewrite HintDb cxx.
#[export] Hint Resolve never_ub_bind never_ub_ret never_ub_gets never_ub_modify
  never_ub_lift : cxx.
#[export] Hint Resolve defined_bind defined_returns : cxx.
#[export] Hint Resolve run_inv_bind run_inv_ret run_inv_lift run_inv_gets
  run_inv_modify : cxx.

(** ** Machine integers *)

Definition wrap (w z : Z) : Z := z mod 2 ^ w.
Definition swrap (w z : Z) : Z := (z + 2 ^ (w - 1)) mod 2 ^ w - 2 ^ (w - 1).
Abbreviation u8 := (wrap 8).
Abbreviation u32 := (wrap 32).
Abbreviation u64 := (wrap 64).
Abbreviation i32 := (swrap 32).
Abbreviation i64 := (swrap 64).

Lemma wrap_range w z : (0 <= w)%Z -> (0 <= wrap w z < 2 ^ w)%Z.
Proof. intros Hw. apply Z.mod_pos_bound. apply Z.pow_pos_nonneg; lia. Qed.

Lemma wrap_small w z : (0 <= z < 2 ^ w)%Z -> wrap w z = z.
Proof. apply Z.mod_small. Qed.

Lemma swrap_small w z :
  (0 < w)%Z -> (- 2 ^ (w - 1) <= z < 2 ^ (w - 1))%Z -> swrap w z = z.
Proof.
  intros Hw Hz. unfold swrap. rewrite Z.mod_small; [lia|].
  replace w with (Z.succ (w - 1)) at 3 by lia.
  rewrite Z.pow_succ_r by lia. lia.
Qed.

Lemma swrap_range w z :
  (0 < w)%Z -> (- 2 ^ (w - 1) <= swrap w z < 2 ^ (w - 1))%Z.
Proof.
  intros Hw. unfold swrap.
  assert (2 ^ w = 2 * 2 ^ (w - 1))%Z as E.
  { rewrite <- Z.pow_succ_r by lia. f_equal. lia. }
  pose proof (Z.pow_pos_nonneg 2 (w - 1)).
  pose proof (Z.mod_pos_bound (z + 2 ^ (w - 1)) (2 ^ w)). lia.
Qed.

(** [static_cast<uint32_t>] of a [double] of integral value: undefined when the
    value is not a [uint32_t]. *)
Definition uint32_of_double (z : Z) : outcome Z :=
  if (0 <=? z)%Z && (z <? 2 ^ 32)%Z then Returns z else Throws undefined_behaviour.

(** The first index at which a test holds. *)
Lemma least_index (f : nat -> bool) n : f n = true ->
  exists m, (m <= n)%nat /\ f m = true /\ forall k, (k < m)%nat -> f k = false.
Proof.
  induction n as [n IH] using lt_wf_ind. intros Hn.
  destruct (existsb f (seq 0 n)) eqn:E.
  - apply existsb_exists in E as (k & Hk & Ek). apply in_seq in Hk.
    destruct (IH k ltac:(lia) Ek) as (m & Hm & Em & Hl). exists m. split; [lia|auto].
  - exists n. split; [lia|]. split; [exact Hn|]. intros k Hk.
    destruct (f k) eqn:Ek; [|reflexivity].
    rewrite <- not_true_iff_false in E. exfalso. apply E. apply existsb_exists.
    exists k. split; [apply in_seq; lia|exact Ek].
Qed.

(** ** Counted loops

    [for_range lo hi body s] is [for (i = lo; i < hi; i++)]: the body runs on
    each index in increasing order, threading the state. *)

Definition for_range {St} (lo hi : Z) (body : Z -> St -> St) (s : St) : St :=
  fold_left (fun s i => body i s) (seqZ lo (hi - lo)) s.

Lemma for_range_nil {St} lo hi (body : Z -> St -> St) s :
  (hi <= lo)%Z -> for_range lo hi body s = s.
Proof. intros H. unfold for_range. rewrite seqZ_nil by lia. reflexivity. Qed.

Lemma for_range_step {St} lo hi (body : Z -> St -> St) s :
  (lo < hi)%Z -> for_range lo hi body s = for_range (lo + 1) hi body (body lo s).
Proof.
  intros H. unfold for_range. rewrite seqZ_cons by lia. simpl.
  replace (Z.succ lo) with (lo + 1)%Z by lia.
  replace (Z.pred (hi - lo)) with (hi - (lo + 1))%Z by lia. reflexivity.
Qed.

Lemma for_range_last {St} lo hi (body : Z -> St -> St) s :
  (lo <= hi)%Z ->
  for_range lo (hi + 1) body s = body hi (for_range lo hi body s).
Proof.
  intros H. unfold for_range.
  replace (hi + 1 - lo)%Z with ((hi - lo) + 1)%Z by lia.
  rewrite seqZ_app by lia. rewrite fold_left_app.
  rewrite (seqZ_cons _ 1) by lia. rewrite seqZ_nil by lia. simpl.
  replace (lo + (hi - lo))%Z with hi by lia. reflexivity.
Qed.

Lemma for_range_ind {St} (P : Z -> St -> Prop) lo hi (body : Z -> St -> St) s :
  (lo <= hi)%Z -> P lo s ->
  (forall i t, (lo <= i < hi)%Z -> P i t -> P (i + 1)%Z (body i t)) ->
  P hi (for_range lo hi body s).
Proof.
  intros Hle H0 Hstep.
  assert (forall n : nat, (lo + Z.of_nat n <= hi)%Z ->
    P (lo + Z.of_nat n)%Z (for_range lo (lo + Z.of_nat n) body s)) as H.
  { induction n as [|n IH]; intros Hn.
    - rewrite for_range_nil by lia. replace (lo + Z.of_nat 0)%Z with lo by lia. exact H0.
    - replace (lo + Z.of_nat (S n))%Z with ((lo + Z.of_nat n) + 1)%Z by lia.
      rewrite for_range_last by lia. apply Hstep; [lia|]. apply IH; lia. }
  specialize (H (Z.to_nat (hi - lo))).
  rewrite Z2Nat.id in H by lia.
  replace (lo + (hi - lo))%Z with hi in H by lia. apply H; lia.
Qed.

(** A loop body that keeps a property keeps it through the loop. *)
Lemma for_range_inv {St} (P : St -> Prop) lo hi (body : Z -> St -> St) s :
  P s -> (forall i t, (lo <= i < hi)%Z -> P t -> P (body i t)) ->
  P (for_range lo hi body s).
Proof.
  intros H0 Hstep. destruct (decide (lo <= hi)%Z) as [Hle|Hgt].
  - apply (for_range_ind (fun _ => P)); auto.
  - rewrite for_range_nil by lia. exact H0.
Qed.

(** Two loops in step. *)
Lemma for_range_rel {St Tt} (R : St -> Tt -> Prop) lo hi f g s t :
  R s t -> (forall i x y, (lo <= i < hi)%Z -> R x y -> R (f i x) (g i y)) ->
  R (for_range lo hi f s) (for_range lo hi g t).
Proof.
  intros H0 Hstep. destruct (decide (lo <= hi)%Z) as [Hle|Hgt].
  2:{ rewrite !for_range_nil by lia. exact H0. }
  assert (forall n : nat, (lo + Z.of_nat n <= hi)%Z ->
    R (for_range lo (lo + Z.of_nat n) f s) (for_range lo (lo + Z.of_nat n) g t)) as H.
  { induction n as [|n IH]; intros Hn.
    - rewrite !for_range_nil by lia. exact H0.
    - replace (lo + Z.of_nat (S n))%Z with ((lo + Z.of_nat n) + 1)%Z by lia.
      rewrite !for_range_last by lia. apply Hstep; [lia|]. apply IH; lia. }
  specialize (H (Z.to_nat (hi - lo))). rewrite Z2Nat.id in H by lia.
  replace (lo + (hi - lo))%Z with hi in H by lia. apply H; lia.
Qed.

Lemma for_range_ext {St} lo hi (f g : Z -> St -> St) s :
  (forall i t, (lo <= i < hi)%Z -> f i t = g i t) ->
  for_range lo hi f s = for_range lo hi g s.
Proof.
  intros H. destruct (decide (lo <= hi)%Z) as [Hle|Hgt].
  - apply (for_range_ind (fun i t => t = for_range lo i g s)); [done| |].
    + rewrite for_range_nil by lia. reflexivity.
    + intros i t Hi ->. rewrite for_range_last by lia. apply H. lia.
  - rewrite !for_range_nil by lia. reflexivity.
Qed.

(** ** Arrays

    A [std::vector] (or C array) is a list read and written at [Z] indices.
    [vget d l i] is an unchecked read, with [d] for what C++ leaves undefined;
    [vset l i x] writes, and does nothing out of range.  The components prove
    that their indices are in range. *)

Definition vget {A} (d : A) (l : list A) (i : Z) : A :=
  if (i <? 0)%Z then d else nth (Z.to_nat i) l d.

Definition vset {A} (l : list A) (i : Z) (x : A) : list A :=
  if (i <? 0)%Z then l else <[Z.to_nat i := x]> l.

Definition in_range {A} (l : list A) (i : Z) : Prop := (0 <= i < Z.of_nat (length l))%Z.

#[export] Instance in_range_dec {A} (l : list A) i : Decision (in_range l i).
Proof. unfold in_range. apply _. Defined.

Lemma length_vset {A} (l : list A) i x : length (vset l i x) = length l.
Proof. unfold vset. destruct (i <? 0)%Z; [done|]. apply length_insert. Qed.

Lemma vget_vset_eq {A} (d : A) l i x : in_range l i -> vget d (vset l i x) i = x.
Proof.
  unfold in_range, vget, vset. intros H.
  destruct (Z.ltb_spec i 0) as [?|_]; [lia|].
  apply nth_lookup_Some. apply list_lookup_insert_eq. lia.
Qed.

Lemma vget_vset_ne {A} (d : A) l i j x : i <> j -> vget d (vset l i x) j = vget d l j.
Proof.
  unfold vget, vset. intros H.
  destruct (Z.ltb_spec j 0) as [?|Hj]; [done|].
  destruct (Z.ltb_spec i 0) as [?|Hi]; [done|].
  rewrite !nth_lookup. rewrite list_lookup_insert_ne by lia. reflexivity.
Qed.

Lemma Forall_vset {A} (P : A -> Prop) l i x :
  Forall P l -> P x -> Forall P (vset l i x).
Proof.
  unfold vset. intros Hl Hx. destruct (i <? 0)%Z; [done|].
  apply Forall_insert; assumption.
Qed.

Lemma Forall_vget {A} (P : A -> Prop) (d : A) l i :
  Forall P l -> P d -> P (vget d l i).
Proof.
  unfold vget. intros Hl Hd. destruct (i <? 0)%Z; [done|].
  rewrite nth_lookup. destruct (l !! Z.to_nat i) eqn:E; simpl; [|done].
  exact (Forall_lookup_1 _ _ _ _ Hl E).
Qed.

Lemma vget_ext {A} (d : A) (l l' : list A) :
  length l = length l' ->
  (forall i, (0 <= i < Z.of_nat (length l))%Z -> vget d l i = vget d l' i) -> l = l'.
Proof.
  intros Hl H. apply list_eq_same_length with (n := length l); [done|done|].
  intros i x y Hi Hx Hy. specialize (H (Z.of_nat i) ltac:(lia)). unfold vget in H.
  destruct (Z.ltb_spec (Z.of_nat i) 0); [lia|]. rewrite Nat2Z.id, !nth_lookup, Hx, Hy in H.
  exact H.
Qed.

Lemma vget_rev {A} (d : A) (l : list A) i :
  (0 <= i < Z.of_nat (length l))%Z -> vget d (rev l) i = vget d l (Z.of_nat (length l) - 1 - i).
Proof.
  intros Hi. unfold vget.
  destruct (Z.ltb_spec i 0), (Z.ltb_spec (Z.of_nat (length l) - 1 - i) 0); try lia.
  rewrite rev_nth by lia. f_equal. lia.
Qed.

Lemma vget_lookup {A} (d : A) (l : list A) i x :
  (0 <= i)%Z -> l !! Z.to_nat i = Some x -> vget d l i = x.
Proof.
  intros Hi H. unfold vget. destruct (Z.ltb_spec i 0); [lia|]. apply nth_lookup_Some, H.
Qed.

Lemma lookup_vget {A} (d : A) (l : list A) i : in_range l i -> l !! Z.to_nat i = Some (vget d l i).
Proof.
  intros [H0 H1]. destruct (lookup_lt_is_Some_2 l (Z.to_nat i)) as [x Hx]; [lia|].
  rewrite Hx. f_equal. symmetry. apply vget_lookup; assumption.
Qed.

Lemma vget_fmap {A B} (d : A) (e : B) (f : A -> B) (l : list A) i :
  in_range l i -> vget e (map f l) i = f (vget d l i).
Proof.
  intros H. apply vget_lookup; [apply H|]. rewrite list_lookup_fmap, (lookup_vget d) by exact H.
  reflexivity.
Qed.

Lemma vget_seqZ (d : Z) m n i : (0 <= i < n)%Z -> vget d (seqZ m n) i = (m + i)%Z.
Proof.
  intros H. apply vget_lookup; [lia|]. rewrite lookup_seqZ_lt by lia. f_equal. lia.
Qed.

Lemma vget_replicate {A} (d : A) n i : vget d (replicate n d) i = d.
Proof. apply (Forall_vget (fun x => x = d)); [apply Forall_replicate|]; reflexivity. Qed.

Lemma elem_of_vget {A} (d : A) (l : list A) i : in_range l i -> vget d l i ∈ l.
Proof. intros H. apply (list_elem_of_lookup_2 _ (Z.to_nat i)), lookup_vget, H. Qed.

Lemma Forall_from_vget {A} (d : A) (P : A -> Prop) (l : list A) :
  (forall i, in_range l i -> P (vget d l i)) -> Forall P l.
Proof.
  intros H. apply Forall_lookup. intros i x Hx. pose proof (lookup_lt_Some _ _ _ Hx).
  rewrite <- (vget_lookup d l (Z.of_nat i) x); [|lia|rewrite Nat2Z.id; exact Hx].
  apply H. unfold in_range. lia.
Qed.

(** A loop of writes to distinct places in range. *)
Lemma vset_loop {A} (d : A) (pos : Z -> Z) (f : Z -> A) lo hi (b : list A) :
  (lo <= hi)%Z ->
  (forall i j, (lo <= i < hi)%Z -> (lo <= j < hi)%Z -> pos i = pos j -> i = j) ->
  (forall i, (lo <= i < hi)%Z -> in_range b (pos i)) ->
  let r := for_range lo hi (fun i b => vset b (pos i) (f i)) b in
  length r = length b /\
  (forall i, (lo <= i < hi)%Z -> vget d r (pos i) = f i) /\
  (forall j, (forall i, (lo <= i < hi)%Z -> pos i <> j) -> vget d r j = vget d b j).
Proof.
  intros Hle Hinj Hin. cbv zeta.
  apply (for_range_ind (fun k r => length r = length b /\
    (forall i, (lo <= i < k)%Z -> vget d r (pos i) = f i) /\
    (forall j, (forall i, (lo <= i < k)%Z -> pos i <> j) -> vget d r j = vget d b j)));
    [exact Hle| |].
  - split; [done|]. split; [lia|done].
  - intros k r Hk (Hl & H1 & H2). rewrite length_vset. split; [exact Hl|]. split.
    + intros i Hi. destruct (decide (i = k)) as [->|Hne].
      * apply vget_vset_eq. specialize (Hin k Hk). unfold in_range in *. lia.
      * rewrite vget_vset_ne; [apply H1; lia|]. intros E. apply Hne. symmetry.
        apply Hinj; [lia..|exact E].
    + intros j Hj. rewrite vget_vset_ne by (apply Hj; lia). apply H2. intros i Hi. apply Hj. lia.
Qed.

Lemma concat_length_const {A B} (f : A -> list B) (k : nat) (l : list A) :
  Forall (fun x => length (f x) = k) l -> length (concat (map f l)) = (k * length l)%nat.
Proof.
  induction 1 as [|x l Hx Hl IH]; simpl; [lia|]. rewrite length_app, Hx, IH. lia.
Qed.

(** An element of equal parts put together. *)
Lemma vget_concat {A} (d : A) (n : Z) (ls : list (list A)) (i j : Z) :
  (0 <= i)%Z -> (0 <= j < n)%Z -> Forall (fun l => Z.of_nat (length l) = n) ls ->
  vget d (concat ls) (n * i + j) = vget d (vget [] ls i) j.
Proof.
  intros Hi Hj Hls. revert i Hi. induction Hls as [|l ls Hl _ IH]; intros i Hi.
  - unfold vget. cbn. destruct (n * i + j <? 0)%Z, (i <? 0)%Z, (j <? 0)%Z;
      repeat match goal with |- context [Z.to_nat ?x] => destruct (Z.to_nat x) end; reflexivity.
  - cbn [concat]. destruct (Z.eq_dec i 0) as [->|Hne].
    + rewrite Z.mul_0_r. unfold vget. destruct (Z.ltb_spec (0 + j) 0), (Z.ltb_spec j 0); try lia. cbn [Z.ltb Z.compare].
      rewrite app_nth1 by lia. reflexivity.
    + transitivity (vget d (concat ls) (n * (i - 1) + j)).
      * unfold vget. destruct (Z.ltb_spec (n * i + j) 0), (Z.ltb_spec (n * (i - 1) + j) 0); try nia.
        rewrite app_nth2 by nia. f_equal. nia.
      * rewrite IH by lia. f_equal. unfold vget. destruct (Z.ltb_spec i 0), (Z.ltb_spec (i - 1) 0); try lia.
        replace (Z.to_nat i) with (S (Z.to_nat (i - 1))) by lia. reflexivity.
Qed.

Lemma pair_eq_inv {A B} (a : A) (b : B) (p : A * B) : (a, b) = p -> a = p.1 /\ b = p.2.
Proof. intros <-. split; reflexivity. Qed.

(** ** Checked accesses and loops of programs

    [vat] and [vput] are accesses to a vector that C++ leaves undefined out of
    range. *)

Definition vat {A} (l : list A) (i : Z) : outcome A :=
  if (i <? 0)%Z then Throws undefined_behaviour else
  match l !! Z.to_nat i with
  | Some x => Returns x
  | None => Throws undefined_behaviour
  end.

Definition vput {A} (l : list A) (i : Z) (x : A) : outcome (list A) :=
  let* _ := vat l i in Returns (vset l i x).

Lemma vat_lookup {A} (l : list A) (i : nat) x : l !! i = Some x -> vat l (Z.of_nat i) = Returns x.
Proof.
  intros H. unfold vat. destruct (Z.ltb_spec (Z.of_nat i) 0); [lia|]. now rewrite Nat2Z.id, H.
Qed.

(** [for (i = lo; i < hi; i++)] around a program. *)
Fixpoint iter_prog {S A} (l : list A) (f : A -> prog S unit) : prog S unit :=
  match l with
  | [] => ret tt
  | i :: l => f i;; iter_prog l f
  end.
Definition for_prog {S} (lo hi : Z) (f : Z -> prog S unit) : prog S unit :=
  iter_prog (seqZ lo (hi - lo)) f.

(** A loop whose turns all return runs through its states. *)
Lemma for_prog_returns {S} (st : Z -> S) lo hi (f : Z -> prog S unit) :
  (lo <= hi)%Z -> (forall i, (lo <= i < hi)%Z -> f i (st i) = (Returns tt, st (i + 1)%Z)) ->
  for_prog lo hi f (st lo) = (Returns tt, st hi).
Proof.
  intros Hle Hf. unfold for_prog. remember (Z.to_nat (hi - lo)) as n eqn:E.
  revert lo Hle Hf E. induction n as [|n IH]; intros lo Hle Hf E.
  - rewrite seqZ_nil by lia. replace hi with lo by lia. reflexivity.
  - rewrite seqZ_cons by lia. cbn [iter_prog]. unfold bind. rewrite Hf by lia.
    replace (Z.succ lo) with (lo + 1)%Z by lia. replace (Z.pred (hi - lo)%Z) with (hi - (lo + 1))%Z by lia.
    apply IH; [lia| |lia]. intros i Hi. apply Hf. lia.
Qed.

Lemma bind_returns {S A B} (c : prog S A) (k : A -> prog S B) s a s' :
  c s = (Returns a, s') -> bind c k s = k a s'.
Proof. intros H. unfold bind. rewrite H. reflexivity. Qed.

Lemma run_pair {S A} (c : prog S A) s o : (c s).1 = o -> c s = (o, (c s).2).
Proof. intros <-. apply surjective_pairing. Qed.

(** A loop with an assertion for each of its turns. *)
Lemma hoare_for {S} (P : Z -> S -> Prop) lo hi (f : Z -> prog S unit) E : (lo <= hi)%Z ->
  (forall i, (lo <= i < hi)%Z -> hoare (P i) (f i) (fun _ => P (i + 1)%Z) E) ->
  hoare (P lo) (for_prog lo hi f) (fun _ => P hi) E.
Proof.
  intros Hle Hf. unfold for_prog. remember (Z.to_nat (hi - lo)) as n eqn:En.
  revert lo Hle Hf En. induction n as [|n IH]; intros lo Hle Hf En.
  - rewrite seqZ_nil by lia. replace hi with lo by lia. apply (hoare_ret tt (fun _ => P lo)).
  - rewrite seqZ_cons by lia. cbn [iter_prog].
    apply (hoare_bind _ _ _ (fun _ => P (lo + 1)%Z)); [apply Hf; lia|intros _].
    replace (Z.succ lo) with (lo + 1)%Z by lia. replace (Z.pred (hi - lo)%Z) with (hi - (lo + 1))%Z by lia.
    apply IH; [lia| |lia]. intros i Hi. apply Hf. lia.
Qed.

Lemma hoare_iter {S A} (P : S -> Prop) (l : list A) (f : A -> prog S unit) E :
  (forall a, a ∈ l -> hoare P (f a) (fun _ => P) E) -> hoare P (iter_prog l f) (fun _ => P) E.
Proof.
  intros Hf. induction l as [|a l IH]; [apply (hoare_ret tt (fun _ => P))|]. cbn [iter_prog].
  apply (hoare_bind _ _ _ (fun _ => P)); [apply Hf; left|intros _].
  apply IH. intros b Hb. apply Hf. now right.
Qed.

Lemma run_inv_iter {S A} (P : S -> Prop) (l : list A) (f : A -> prog S unit) :
  (forall a, run_inv P (f a)) -> run_inv P (iter_prog l f).
Proof.
  intros Hf. induction l as [|a l IH]; [apply run_inv_ret|]. cbn [iter_prog].
  apply run_inv_bind; [apply Hf|intros _; exact IH].
Qed.

Lemma run_inv_throw {S A} (P : S -> Prop) (e : exn) : run_inv P (throw (A := A) e).
Proof. intros s Hs. exact Hs. Qed.

#[export] Hint Rewrite @length_vset @length_insert @length_app @length_take
  @length_drop @length_fmap @length_replicate @length_seqZ : cxx.
#[export] Hint Resolve Forall_vset : cxx.
