(* ===== verification/Cstring.v ===== *)
(** * Cstring: [std::string], [std::bitset] and binary numerals

    The receiver carries decoded frames as strings of the characters ['0'] and
    ['1'].  This file models the standard-library operations it applies to
    them, and the value of a binary numeral, on which the OSNMA helpers and the
    navigation-message readers rest. *)

From S2P Require Import Prelude.
From stdpp Require Import gmap list strings.
From Stdlib Require Import ZArith Lia Ascii.
Local Open Scope Z_scope.
Local Open Scope cxx_scope.

(** ** Strings *)

Abbreviation cstring := (list ascii).
Definition str (s : string) : cstring := String.list_ascii_of_string s.

(** [s.size()]. *)
Definition str_size (s : cstring) : Z := Z.of_nat (length s).

(** [std::string::npos], and any negative [int] converted to [size_t]. *)
Definition size_t (z : Z) : Z := wrap 64 z.

(** [s.substr(pos, len)]: throws when [pos > size()], and takes what is left
    when fewer than [len] characters remain. *)
Definition substr (s : cstring) (pos len : Z) : outcome cstring :=
  let size := Z.of_nat (length s) in
  let pos := size_t pos in
  if size <? pos then Throws out_of_range
  else Returns (take (Z.to_nat (Z.min (size_t len) (size - pos)))
                     (drop (Z.to_nat pos) s)).

(** [s.at(i)]. *)
Definition str_at (s : cstring) (i : Z) : outcome ascii :=
  match s !! Z.to_nat (size_t i) with
  | Some c => if size_t i <? Z.of_nat (length s) then Returns c else Throws out_of_range
  | None => Throws out_of_range
  end.

(** A substring that lies inside the string is the slice of that length. *)
Lemma substr_inside (s : cstring) (pos len : nat) :
  (pos + len <= length s)%nat -> Z.of_nat (length s) < 2 ^ 64 ->
  substr s (Z.of_nat pos) (Z.of_nat len) = Returns (take len (drop pos s)).
Proof.
  intros H Hs. unfold substr, size_t. rewrite !wrap_small by lia.
  destruct (Z.ltb_spec (Z.of_nat (length s)) (Z.of_nat pos)) as [?|_]; [lia|].
  repeat f_equal; lia.
Qed.

Lemma substr_inside_Z (s : cstring) (pos len : Z) :
  0 <= pos -> 0 <= len -> pos + len <= Z.of_nat (length s) ->
  Z.of_nat (length s) < 2 ^ 64 ->
  substr s pos len = Returns (take (Z.to_nat len) (drop (Z.to_nat pos) s)).
Proof.
  intros. rewrite <- (Z2Nat.id pos), <- (Z2Nat.id len) at 1 by lia.
  apply substr_inside; lia.
Qed.

(** A substring that starts beyond the end throws. *)
Lemma substr_beyond (s : cstring) (pos len : Z) :
  Z.of_nat (length s) < size_t pos -> substr s pos len = Throws out_of_range.
Proof.
  intros H. unfold substr.
  destruct (Z.ltb_spec (Z.of_nat (length s)) (size_t pos)); [done | lia].
Qed.

Lemma substr_length (s t : cstring) (pos len : Z) :
  substr s pos len = Returns t ->
  Z.of_nat (length t) = Z.min (size_t len) (Z.of_nat (length s) - size_t pos).
Proof.
  unfold substr. pose proof (wrap_range 64 pos ltac:(lia)) as Hp.
  pose proof (wrap_range 64 len ltac:(lia)) as Hl. fold (size_t pos) (size_t len) in *.
  destruct (Z.ltb_spec (Z.of_nat (length s)) (size_t pos)); [done|].
  intros [= <-]. rewrite length_take, length_drop. lia.
Qed.

(** ** Binary numerals, most significant digit first *)

Definition bit_char (b : bool) : ascii := if b then "1"%char else "0"%char.
Definition bits_str (bs : list bool) : cstring := map bit_char bs.

Definition char_bit (c : ascii) : option bool :=
  if Ascii.eqb c "1" then Some true
  else if Ascii.eqb c "0" then Some false
  else None.

Definition bin_value (bs : list bool) : Z :=
  fold_left (fun v b => 2 * v + Z.b2z b) bs 0.

Fixpoint to_bin (w : nat) (v : Z) : list bool :=
  match w with
  | O => []
  | S w' => Z.testbit v (Z.of_nat w') :: to_bin w' v
  end.

Lemma char_bit_char b : char_bit (bit_char b) = Some b.
Proof. destruct b; reflexivity. Qed.

Lemma length_bits_str bs : length (bits_str bs) = length bs.
Proof. apply length_map. Qed.

Lemma bits_str_app a b : bits_str (a ++ b) = bits_str a ++ bits_str b.
Proof. apply map_app. Qed.

Lemma bits_str_take n bs : take n (bits_str bs) = bits_str (take n bs).
Proof. unfold bits_str. apply firstn_map. Qed.

Lemma bits_str_drop n bs : drop n (bits_str bs) = bits_str (drop n bs).
Proof. unfold bits_str. apply skipn_map. Qed.

Lemma length_to_bin w v : length (to_bin w v) = w.
Proof. induction w; simpl; congruence. Qed.

Lemma bin_value_acc bs a :
  fold_left (fun v b => 2 * v + Z.b2z b) bs a =
  a * 2 ^ Z.of_nat (length bs) + bin_value bs.
Proof.
  unfold bin_value. revert a. induction bs as [|b bs IH]; intros a; simpl length.
  - simpl. lia.
  - cbn [fold_left]. rewrite IH, (IH (2 * 0 + Z.b2z b)).
    rewrite Nat2Z.inj_succ, Z.pow_succ_r by lia. ring.
Qed.

Lemma bin_value_cons b bs :
  bin_value (b :: bs) = Z.b2z b * 2 ^ Z.of_nat (length bs) + bin_value bs.
Proof. unfold bin_value at 1. cbn [fold_left]. rewrite bin_value_acc. f_equal. Qed.

Lemma bin_value_app a b :
  bin_value (a ++ b) = bin_value a * 2 ^ Z.of_nat (length b) + bin_value b.
Proof. unfold bin_value at 1. rewrite fold_left_app. apply bin_value_acc. Qed.

Lemma bin_value_snoc a b : bin_value (a ++ [b]) = 2 * bin_value a + Z.b2z b.
Proof.
  rewrite bin_value_app. change (bin_value [b]) with (2 * 0 + Z.b2z b).
  change (2 ^ Z.of_nat (length [b])) with 2. lia.
Qed.

Lemma bin_value_range bs : 0 <= bin_value bs < 2 ^ Z.of_nat (length bs).
Proof.
  induction bs as [|b bs IH]; [unfold bin_value; simpl; lia|].
  rewrite bin_value_cons. simpl length. rewrite Nat2Z.inj_succ, Z.pow_succ_r by lia.
  destruct b; simpl Z.b2z; lia.
Qed.

Lemma testbit_mod_step v (n : Z) :
  0 <= n ->
  v mod 2 ^ Z.succ n = Z.b2z (Z.testbit v n) * 2 ^ n + v mod 2 ^ n.
Proof.
  intros Hn. rewrite Z.pow_succ_r, (Z.mul_comm 2), Z.rem_mul_r by lia.
  rewrite <- Z.testbit_spec' by lia. lia.
Qed.

Lemma bin_value_to_bin w v : bin_value (to_bin w v) = v mod 2 ^ Z.of_nat w.
Proof.
  induction w as [|w IH]; [simpl; symmetry; apply Z.mod_1_r|].
  cbn [to_bin]. rewrite bin_value_cons, length_to_bin, IH.
  rewrite Nat2Z.inj_succ, testbit_mod_step by lia. reflexivity.
Qed.

Lemma to_bin_ext w v v' :
  v mod 2 ^ Z.of_nat w = v' mod 2 ^ Z.of_nat w -> to_bin w v = to_bin w v'.
Proof.
  intros H. induction w as [|w IH]; [done|]. cbn [to_bin].
  rewrite Nat2Z.inj_succ in H. rewrite !testbit_mod_step in H by lia.
  pose proof (Z.mod_pos_bound v (2 ^ Z.of_nat w)).
  pose proof (Z.mod_pos_bound v' (2 ^ Z.of_nat w)).
  destruct (Z.testbit v (Z.of_nat w)), (Z.testbit v' (Z.of_nat w));
    simpl Z.b2z in H; solve [f_equal; apply IH; lia | lia].
Qed.

Lemma to_bin_bin_value bs : to_bin (length bs) (bin_value bs) = bs.
Proof.
  induction bs as [|b bs IH]; [done|].
  pose proof (bin_value_range bs) as Hr.
  cbn [length to_bin]. rewrite bin_value_cons. f_equal.
  - rewrite Z.testbit_eqb by lia.
    rewrite Z.div_add_l by lia. rewrite Z.div_small by lia.
    destruct b; reflexivity.
  - etransitivity; [|exact IH]. apply to_bin_ext.
    rewrite Z.add_comm, Z.mod_add by lia. reflexivity.
Qed.

Lemma bin_value_inj a b :
  length a = length b -> bin_value a = bin_value b -> a = b.
Proof.
  intros Hl Hv. rewrite <- (to_bin_bin_value a), <- (to_bin_bin_value b), Hl, Hv.
  reflexivity.
Qed.

(** ** Fallible maps *)

Fixpoint outcome_mapM {A B} (f : A -> outcome B) (l : list A) : outcome (list B) :=
  match l with
  | [] => Returns []
  | x :: l' => let* y := f x in let* ys := outcome_mapM f l' in Returns (y :: ys)
  end.

Lemma outcome_mapM_returns {A B} (f : A -> outcome B) (g : A -> B) l :
  (forall x, x ∈ l -> f x = Returns (g x)) -> outcome_mapM f l = Returns (map g l).
Proof.
  induction l as [|x l IH]; intros H; [done|]. simpl.
  rewrite H by set_solver. simpl. rewrite IH; [done|]. intros y Hy. apply H. set_solver.
Qed.

(** ** [std::bitset<N>]: a list of [N] bits, bit 0 first *)

Fixpoint char_bits (s : cstring) : option (list bool) :=
  match s with
  | [] => Some []
  | c :: s' =>
      match char_bit c, char_bits s' with
      | Some b, Some bs => Some (b :: bs)
      | _, _ => None
      end
  end.

(** [std::bitset<N>(s)]: the last of the first [N] characters is bit 0; the
    constructor throws on any other character than ['0'] and ['1']. *)
Definition bitset_of_string (N : nat) (s : cstring) : outcome (list bool) :=
  match char_bits (take N s) with
  | Some bs => Returns (rev bs ++ replicate (N - length bs) false)
  | None => Throws invalid_argument
  end.

(** [std::bitset<N>(v)], [to_ulong()] and [to_string()]. *)
Definition bitset_of_ulong (N : nat) (v : Z) : list bool := rev (to_bin N v).
Definition bitset_to_ulong (b : list bool) : Z := bin_value (rev b).
Definition bitset_to_string (b : list bool) : cstring := bits_str (rev b).

Lemma char_bits_str bs : char_bits (bits_str bs) = Some bs.
Proof.
  induction bs as [|b bs IH]; [done|]. cbn [bits_str map char_bits].
  rewrite char_bit_char. fold (bits_str bs). rewrite IH. reflexivity.
Qed.

Lemma bitset_of_bits N bs :
  length bs = N -> bitset_of_string N (bits_str bs) = Returns (rev bs).
Proof.
  intros <-. unfold bitset_of_string.
  rewrite take_ge by (rewrite length_bits_str; lia).
  rewrite char_bits_str, Nat.sub_diag. cbn [replicate]. rewrite app_nil_r. reflexivity.
Qed.

Lemma bitset_of_string_length N s b :
  bitset_of_string N s = Returns b -> length b = N.
Proof.
  unfold bitset_of_string. destruct (char_bits (take N s)) as [bs|] eqn:E; [|done].
  intros [= <-]. rewrite length_app, length_rev, length_replicate.
  assert (length bs = length (take N s)) as H.
  { clear -E. revert bs E. induction (take N s) as [|c t IH]; intros bs E; simpl in *.
    - injection E as <-. done.
    - destruct (char_bit c), (char_bits t) as [bs'|]; try done.
      injection E as <-. simpl. f_equal. apply IH. done. }
  rewrite length_take in H. lia.
Qed.

(** ** [std::stoi(s, nullptr, 2)] *)

Definition is_space (c : ascii) : bool :=
  let n := Ascii.nat_of_ascii c in
  Nat.eqb n 32 || (Nat.leb 9 n && Nat.leb n 13).

Fixpoint skip_spaces (s : cstring) : cstring :=
  match s with
  | c :: s' => if is_space c then skip_spaces s' else s
  | [] => []
  end.

(** The longest prefix of binary digits. *)
Fixpoint digits2 (s : cstring) : list bool :=
  match s with
  | c :: s' => match char_bit c with Some b => b :: digits2 s' | None => [] end
  | [] => []
  end.

Definition int_max : Z := 2 ^ 31 - 1.
Definition int_min : Z := - 2 ^ 31.

Definition stoi2 (s : cstring) : outcome Z :=
  let s := skip_spaces s in
  let '(neg, s) :=
    match s with
    | c :: s' => if Ascii.eqb c "-" then (true, s')
                 else if Ascii.eqb c "+" then (false, s') else (false, s)
    | [] => (false, s)
    end in
  match digits2 s with
  | [] => Throws invalid_argument
  | ds => let v := if neg : bool then - bin_value ds else bin_value ds in
          if (int_min <=? v) && (v <=? int_max) then Returns v else Throws out_of_range
  end.

Lemma digits2_bits bs : digits2 (bits_str bs) = bs.
Proof.
  induction bs as [|b bs IH]; [done|]. cbn [bits_str map digits2].
  rewrite char_bit_char. f_equal. exact IH.
Qed.

Lemma skip_spaces_bits bs : skip_spaces (bits_str bs) = bits_str bs.
Proof. destruct bs as [|[] bs]; reflexivity. Qed.

(** On a string of binary digits, [stoi] is its value; the empty string and a
    value that does not fit an [int] throw. *)
Lemma stoi2_bits bs :
  stoi2 (bits_str bs) =
  match bs with
  | [] => Throws invalid_argument
  | _ => if bin_value bs <=? int_max then Returns (bin_value bs) else Throws out_of_range
  end.
Proof.
  unfold stoi2. rewrite skip_spaces_bits.
  destruct bs as [|b bs]; [reflexivity|].
  assert (forall A (x y : A), (if Ascii.eqb (bit_char b) "-" then x else y) = y) as E1
    by (intros; destruct b; reflexivity).
  assert (forall A (x y : A), (if Ascii.eqb (bit_char b) "+" then x else y) = y) as E2
    by (intros; destruct b; reflexivity).
  cbn [bits_str map]. rewrite E1, E2. change (bit_char b :: map bit_char bs) with (bits_str (b :: bs)).
  rewrite digits2_bits. pose proof (bin_value_range (b :: bs)) as Hr.
  replace (int_min <=? bin_value (b :: bs)) with true; [reflexivity|].
  symmetry. apply Z.leb_le. unfold int_min. lia.
Qed.

(** None of these operations is undefined on any input. *)
Lemma substr_defined s pos len : defined (substr s pos len).
Proof. unfold substr. destruct (_ <? _); discriminate. Qed.

Lemma stoi2_defined s : defined (stoi2 s).
Proof.
  unfold stoi2. destruct (match skip_spaces s with [] => _ | _ :: _ => _ end) as [neg t].
  destruct (digits2 t); [discriminate|]. destruct (_ && _); discriminate.
Qed.

Lemma bitset_of_string_defined N s : defined (bitset_of_string N s).
Proof. unfold bitset_of_string. destruct (char_bits _); discriminate. Qed.

Lemma outcome_mapM_defined {A B} (f : A -> outcome B) l :
  (forall x, defined (f x)) -> defined (outcome_mapM f l).
Proof.
  intros H. induction l as [|x l IH]; [discriminate|]. cbn. auto with cxx.
Qed.

#[export] Hint Resolve substr_defined stoi2_defined bitset_of_string_defined
  outcome_mapM_defined : cxx.
