(* ===== verification/BinString.v ===== *)
(** * BinString: the OSNMA bit-string helpers

    [src/src/algorithms/security/libs/osnma/utils.cc]: reading an integer field
    of a bit string, and packing bit strings into bytes and back.  The theorems
    give the value and the error of every field read, and the two round trips
    between bytes and bit strings. *)

From S2P Require Import Prelude Cstring.
From stdpp Require Import gmap list strings.
From Stdlib Require Import ZArith Lia Ascii.
Local Open Scope Z_scope.
Local Open Scope cxx_scope.

(** ** The three helpers *)

Definition read_bin_string_as_int (s : cstring) (start_i length : Z) : outcome Z :=
  let length :=
    if length <? 0 then i32 (u64 (Z.of_nat (List.length s) - start_i)) else length in
  let* sub := substr s start_i length in
  stoi2 sub.

(** The value of the byte that [bin_string_to_byte_array] appends at index [i]
    of the padded string. *)
Definition byte_at (padded : cstring) (i : Z) : outcome Z :=
  let* byte_bin_str := substr padded (i * 8) 8 in
  let* b := bitset_of_string 8 byte_bin_str in
  Returns (u8 (Z.land (bitset_to_ulong b) 255)).

Definition pad_to_byte (s : cstring) : cstring :=
  let padding := u8 ((8 - Z.of_nat (length s) mod 8) mod 8) in
  s ++ replicate (Z.to_nat padding) "0"%char.

Definition bin_string_to_byte_array (s : cstring) : outcome (list Z) :=
  let padded_string := pad_to_byte s in
  let n_bytes := Z.of_nat (length padded_string) / 8 in
  outcome_mapM (byte_at padded_string) (seqZ 0 n_bytes).

Definition byte_array_to_bin_str (byte_array : list Z) : cstring :=
  fold_left (fun bin_str b => bin_str ++ bitset_to_string (bitset_of_ulong 8 b))
    byte_array [].

(** ** Field reads *)

Lemma take_clamped {A} (n : nat) (l : list A) :
  take (Z.to_nat (Z.min (Z.of_nat n) (Z.of_nat (length l)))) l = take n l.
Proof.
  destruct (decide (n <= length l)%nat).
  - rewrite Z.min_l, Nat2Z.id by lia. reflexivity.
  - rewrite Z.min_r, Nat2Z.id by lia. rewrite !take_ge by lia. reflexivity.
Qed.

(** A field of at most 31 bits that starts inside the string has the value of
    the digits that remain of it. *)
Lemma read_bits_field (bs : list bool) (start len : nat) :
  (start < length bs)%nat -> Z.of_nat (length bs) < 2 ^ 64 ->
  (0 < len <= 31)%nat ->
  read_bin_string_as_int (bits_str bs) (Z.of_nat start) (Z.of_nat len) =
  Returns (bin_value (take len (drop start bs))).
Proof.
  intros H Hs Hl. unfold read_bin_string_as_int.
  destruct (Z.ltb_spec (Z.of_nat len) 0); [lia|].
  unfold substr, size_t. rewrite !wrap_small by lia. rewrite length_bits_str.
  destruct (Z.ltb_spec (Z.of_nat (length bs)) (Z.of_nat start)); [lia|].
  cbn [outcome_bind]. rewrite Nat2Z.id, bits_str_drop.
  replace (Z.of_nat (length bs) - Z.of_nat start)
    with (Z.of_nat (length (bits_str (drop start bs))))
    by (rewrite length_bits_str, length_drop; lia).
  rewrite take_clamped, bits_str_take, stoi2_bits.
  assert (0 < length (take len (drop start bs)) <= len)%nat as Elen
    by (rewrite length_take, length_drop; lia).
  pose proof (bin_value_range (take len (drop start bs))) as Hr.
  destruct (take len (drop start bs)) as [|b t] eqn:E; [simpl in Elen; lia|].
  assert (2 ^ Z.of_nat (length (b :: t)) <= 2 ^ 31) by (apply Z.pow_le_mono_r; lia).
  replace (bin_value (b :: t) <=? int_max) with true; [done|].
  symmetry. apply Z.leb_le. unfold int_max. lia.
Qed.

Lemma read_defined s start_i length : defined (read_bin_string_as_int s start_i length).
Proof. unfold read_bin_string_as_int. destruct (length <? 0); auto with cxx. Qed.

Lemma pack_defined s : defined (bin_string_to_byte_array s).
Proof. unfold bin_string_to_byte_array, byte_at. auto 10 with cxx. Qed.

#[export] Hint Resolve read_defined pack_defined : cxx.

(** ** Slices of bit lists *)

Definition slice (bs : list bool) (pos len : Z) : list bool :=
  take (Z.to_nat len) (drop (Z.to_nat pos) bs).
Definition field (bs : list bool) (pos len : Z) : Z := bin_value (slice bs pos len).

Definition blen (bs : list bool) : Z := Z.of_nat (length bs).

Lemma substr_slice bs pos len :
  0 <= pos <= blen bs -> 0 <= len < 2 ^ 64 -> blen bs < 2 ^ 64 ->
  substr (bits_str bs) pos len = Returns (bits_str (slice bs pos len)).
Proof.
  unfold blen. intros H Hl Hs. unfold substr, size_t. rewrite !wrap_small by lia.
  rewrite length_bits_str. destruct (Z.ltb_spec (Z.of_nat (length bs)) pos); [lia|].
  f_equal. rewrite bits_str_drop.
  replace (Z.of_nat (length bs) - pos)
    with (Z.of_nat (length (bits_str (drop (Z.to_nat pos) bs))))
    by (rewrite length_bits_str, length_drop; lia).
  rewrite <- (Z2Nat.id len) by lia.
  rewrite take_clamped, bits_str_take. unfold slice. rewrite Nat2Z.id. reflexivity.
Qed.

Lemma read_slice bs pos len :
  0 <= pos < blen bs -> 0 < len <= 31 -> blen bs < 2 ^ 64 ->
  read_bin_string_as_int (bits_str bs) pos len = Returns (field bs pos len).
Proof.
  unfold blen. intros H Hl Hs.
  rewrite <- (Z2Nat.id pos), <- (Z2Nat.id len) at 1 by lia.
  apply read_bits_field; lia.
Qed.

Lemma length_slice_le bs pos len : 0 <= len -> blen (slice bs pos len) <= len.
Proof. intros. unfold blen, slice. rewrite length_take. lia. Qed.

Lemma field_range bs pos len : 0 <= len -> 0 <= field bs pos len < 2 ^ len.
Proof.
  intros Hl. unfold field. pose proof (bin_value_range (slice bs pos len)) as H.
  pose proof (length_slice_le bs pos len Hl). unfold blen in *.
  assert (2 ^ Z.of_nat (length (slice bs pos len)) <= 2 ^ len)
    by (apply Z.pow_le_mono_r; lia). lia.
Qed.

Lemma blen_app a b : blen (a ++ b) = blen a + blen b.
Proof. unfold blen. rewrite length_app. lia. Qed.

Lemma bits_str_inj a b : bits_str a = bits_str b -> a = b.
Proof.
  intros H. assert (Some a = Some b) as E; [|congruence].
  rewrite <- !char_bits_str, H. reflexivity.
Qed.

Lemma slice_length bs pos len :
  0 <= pos -> 0 <= len -> pos + len <= blen bs -> length (slice bs pos len) = Z.to_nat len.
Proof. unfold blen, slice. intros. rewrite length_take, length_drop. lia. Qed.

(** Reads of a bit string at constant offsets become fields. *)
Ltac bit_fields bs :=
  repeat match goal with
  | |- context [read_bin_string_as_int (bits_str bs) ?o ?l] =>
      let o' := eval vm_compute in o in let l' := eval vm_compute in l in
      change (read_bin_string_as_int (bits_str bs) o l)
        with (read_bin_string_as_int (bits_str bs) o' l');
      rewrite (read_slice bs o' l') by lia; cbn [outcome_bind]
  end.

(** ** Packing *)

Lemma byte_array_to_bin_str_flat bytes :
  byte_array_to_bin_str bytes = bits_str (concat (map (to_bin 8) bytes)).
Proof.
  unfold byte_array_to_bin_str.
  assert (forall acc, fold_left (fun s b => s ++ bitset_to_string (bitset_of_ulong 8 b)) bytes acc
    = acc ++ bits_str (concat (map (to_bin 8) bytes))) as H; [|apply H].
  induction bytes as [|b bytes IH]; intros acc; simpl fold_left.
  - simpl. rewrite app_nil_r. reflexivity.
  - rewrite IH. cbn [map concat]. rewrite bits_str_app, <- app_assoc.
    unfold bitset_to_string, bitset_of_ulong. rewrite rev_involutive. reflexivity.
Qed.

Lemma concat_chunks {A} (k n : nat) (l : list A) :
  concat (map (fun i => take k (drop (k * i) l)) (seq 0 n)) = take (k * n) l.
Proof.
  induction n as [|n IH].
  - rewrite Nat.mul_0_r. reflexivity.
  - rewrite seq_S, map_app, concat_app, IH. cbn [map concat Nat.add].
    rewrite app_nil_r. replace (k * S n)%nat with (k * n + k)%nat by lia.
    rewrite take_take_drop. reflexivity.
Qed.

Lemma byte_at_bits (bs : list bool) (i : nat) :
  (8 * i + 8 <= length bs)%nat -> Z.of_nat (length bs) < 2 ^ 64 ->
  byte_at (bits_str bs) (Z.of_nat i) = Returns (bin_value (take 8 (drop (8 * i) bs))).
Proof.
  intros H Hs. unfold byte_at.
  replace (Z.of_nat i * 8) with (Z.of_nat (8 * i)) by lia.
  change (substr (bits_str bs) (Z.of_nat (8 * i)) 8)
    with (substr (bits_str bs) (Z.of_nat (8 * i)) (Z.of_nat 8)).
  rewrite substr_inside by (rewrite length_bits_str; lia). cbn [outcome_bind].
  rewrite bits_str_drop, bits_str_take.
  rewrite bitset_of_bits by (rewrite length_take, length_drop; lia).
  cbn [outcome_bind]. unfold bitset_to_ulong. rewrite rev_involutive.
  set (c := take 8 (drop (8 * i) bs)).
  assert (length c = 8%nat) as Hc by (unfold c; rewrite length_take, length_drop; lia).
  pose proof (bin_value_range c) as Hr. rewrite Hc in Hr.
  change 255 with (Z.ones 8). rewrite Z.land_ones by lia.
  rewrite Z.mod_small by lia. rewrite wrap_small by lia. reflexivity.
Qed.

Lemma pack_bits (bs : list bool) (n : nat) :
  length bs = (8 * n)%nat -> Z.of_nat (length bs) < 2 ^ 64 ->
  outcome_mapM (byte_at (bits_str bs)) (seqZ 0 (Z.of_nat n)) =
  Returns (map (fun i => bin_value (take 8 (drop (8 * i) bs))) (seq 0 n)).
Proof.
  intros Hn Hs. unfold seqZ. rewrite Nat2Z.id.
  rewrite (outcome_mapM_returns _
    (fun z => bin_value (take 8 (drop (8 * Z.to_nat z) bs)))).
  - rewrite map_map. f_equal. apply map_ext_in. intros i Hi.
    rewrite Z.add_0_r, Nat2Z.id. reflexivity.
  - intros z Hz. apply list_elem_of_fmap in Hz as [i [-> Hi]].
    apply elem_of_seq in Hi. rewrite Z.add_0_r, Nat2Z.id. apply byte_at_bits; lia.
Qed.

Definition padding_of (n : nat) : nat := Z.to_nat ((8 - Z.of_nat n mod 8) mod 8).

Lemma pad_to_byte_bits bs :
  pad_to_byte (bits_str bs) = bits_str (bs ++ replicate (padding_of (length bs)) false).
Proof.
  unfold pad_to_byte, padding_of. rewrite length_bits_str, bits_str_app. f_equal.
  pose proof (Z.mod_pos_bound (8 - Z.of_nat (length bs) mod 8) 8 ltac:(lia)).
  rewrite wrap_small by lia.
  induction (Z.to_nat _) as [|k IH]; simpl; congruence.
Qed.

Lemma padded_length n : exists k, (n + padding_of n = 8 * k)%nat.
Proof.
  exists (Z.to_nat ((Z.of_nat n + (8 - Z.of_nat n mod 8) mod 8) / 8)).
  unfold padding_of.
  pose proof (Z.mod_pos_bound (Z.of_nat n) 8 ltac:(lia)).
  pose proof (Z.mod_pos_bound (8 - Z.of_nat n mod 8) 8 ltac:(lia)).
  assert ((Z.of_nat n + (8 - Z.of_nat n mod 8) mod 8) mod 8 = 0) as Hm.
  { rewrite Z.add_mod_idemp_r by lia.
    replace (Z.of_nat n + (8 - Z.of_nat n mod 8)) with (8 * (1 + Z.of_nat n / 8)).
    - rewrite Z.mul_comm. apply Z.mod_mul. lia.
    - rewrite (Z.div_mod (Z.of_nat n) 8) at 2 by lia. lia. }
  pose proof (Z.div_mod (Z.of_nat n + (8 - Z.of_nat n mod 8) mod 8) 8 ltac:(lia)).
  pose proof (Z.div_pos (Z.of_nat n + (8 - Z.of_nat n mod 8) mod 8) 8 ltac:(lia) ltac:(lia)).
  lia.
Qed.

(** What the packing of a bit string is: the bytes of its padding to a multiple
    of eight bits. *)
Definition padded_bits (bs : list bool) : list bool :=
  bs ++ replicate (padding_of (length bs)) false.

Definition bytes_of (bs : list bool) : list Z :=
  map (fun i => bin_value (take 8 (drop (8 * i) (padded_bits bs))))
    (seq 0 (length (padded_bits bs) / 8)).

Lemma padded_bits_length bs :
  length (padded_bits bs) = (8 * (length (padded_bits bs) / 8))%nat.
Proof.
  unfold padded_bits. rewrite length_app, length_replicate.
  destruct (padded_length (length bs)) as [n ->].
  rewrite (Nat.mul_comm 8 n), Nat.div_mul; lia.
Qed.

Lemma padding_small n : (padding_of n < 8)%nat.
Proof.
  unfold padding_of. pose proof (Z.mod_pos_bound (8 - Z.of_nat n mod 8) 8). lia.
Qed.

Lemma pack_returns (bs : list bool) :
  Z.of_nat (length bs) + 8 < 2 ^ 64 ->
  bin_string_to_byte_array (bits_str bs) = Returns (bytes_of bs).
Proof.
  intros Hs. pose proof (padding_small (length bs)) as Hp.
  assert (length (padded_bits bs) = length bs + padding_of (length bs))%nat as Hl
    by (unfold padded_bits; rewrite length_app, length_replicate; done).
  unfold bin_string_to_byte_array. rewrite pad_to_byte_bits. fold (padded_bits bs).
  rewrite length_bits_str. pose proof (padded_bits_length bs) as H8.
  set (n := (length (padded_bits bs) / 8)%nat) in *.
  replace (Z.of_nat (length (padded_bits bs)) / 8) with (Z.of_nat n)
    by (rewrite H8, Nat2Z.inj_mul, Z.mul_comm, Z.div_mul by lia; done).
  apply pack_bits; [exact H8 | lia].
Qed.

Lemma chunk_length bs i :
  i ∈ seq 0 (length (padded_bits bs) / 8) ->
  length (take 8 (drop (8 * i) (padded_bits bs))) = 8%nat.
Proof.
  intros Hi%elem_of_seq. pose proof (padded_bits_length bs).
  rewrite length_take, length_drop. lia.
Qed.

Lemma bytes_of_bits bs : concat (map (to_bin 8) (bytes_of bs)) = padded_bits bs.
Proof.
  unfold bytes_of. rewrite map_map.
  rewrite (map_ext_in _ (fun i => take 8 (drop (8 * i) (padded_bits bs)))).
  - rewrite concat_chunks, <- padded_bits_length. apply take_ge. lia.
  - intros i Hi. rewrite <- (chunk_length bs i) at 1 by (apply list_elem_of_In; exact Hi).
    apply to_bin_bin_value.
Qed.

Lemma bytes_of_range bs : Forall (fun b => 0 <= b < 256) (bytes_of bs).
Proof.
  apply Forall_map, Forall_forall. intros i Hi.
  pose proof (bin_value_range (take 8 (drop (8 * i) (padded_bits bs)))) as Hr.
  rewrite chunk_length in Hr by exact Hi. exact Hr.
Qed.

Lemma concat_to_bin_inj (a b : list Z) :
  Forall (fun x => 0 <= x < 256) a -> Forall (fun x => 0 <= x < 256) b ->
  concat (map (to_bin 8) a) = concat (map (to_bin 8) b) -> a = b.
Proof.
  intros Ha. revert b. induction Ha as [|x a Hx Ha IH]; intros b Hb E.
  - destruct Hb as [|y b Hy Hb]; [done|]. exfalso. apply (f_equal length) in E.
    simpl in E. lia.
  - destruct Hb as [|y b Hy Hb].
    { exfalso. apply (f_equal length) in E. simpl in E. lia. }
    cbn [map concat] in E. apply app_inj_1 in E as [E1 E2];
      [|rewrite !length_to_bin; done].
    f_equal; [|apply IH; assumption].
    apply (f_equal bin_value) in E1. rewrite !bin_value_to_bin in E1.
    rewrite !Z.mod_small in E1 by lia. exact E1.
Qed.

(** ** Properties *)

(** Reading an integer field of a bit string has one of three outcomes: a
    field that starts inside the string has the value of its digits (the digits
    that remain, when the string ends before the field does); one that starts
    exactly at the end throws [std::invalid_argument], and one that starts
    beyond it [std::out_of_range]. *)
Theorem read_bin_string_total (bs : list bool) (start len : nat) :
  Z.of_nat (length bs) < 2 ^ 31 -> Z.of_nat start < 2 ^ 31 -> (0 < len <= 31)%nat ->
  read_bin_string_as_int (bits_str bs) (Z.of_nat start) (Z.of_nat len) =
  if decide (length bs < start)%nat then Throws out_of_range
  else if decide (length bs = start) then Throws invalid_argument
  else Returns (bin_value (take len (drop start bs))).
Proof.
  intros Hs Hst Hl. case_decide as H1; [|case_decide as H2].
  - unfold read_bin_string_as_int. destruct (Z.ltb_spec (Z.of_nat len) 0); [lia|].
    rewrite substr_beyond; [done|]. unfold size_t.
    rewrite wrap_small by lia. rewrite length_bits_str. lia.
  - unfold read_bin_string_as_int. destruct (Z.ltb_spec (Z.of_nat len) 0); [lia|].
    unfold substr, size_t. rewrite !wrap_small by lia. rewrite length_bits_str, H2.
    rewrite Z.ltb_irrefl. cbn [outcome_bind]. rewrite Z.sub_diag, Z.min_r by lia. reflexivity.
  - apply read_bits_field; lia.
Qed.

Lemma read_bin_string_total_witness :
  read_bin_string_as_int (str "0101100000") 2 4 = Returns 6 /\
  read_bin_string_as_int (str "0101") 4 2 = Throws invalid_argument.
Proof.
  split.
  - exact (read_bin_string_total
      [false; true; false; true; true; false; false; false; false; false] 2 4
      eq_refl eq_refl ltac:(lia)).
  - exact (read_bin_string_total [false; true; false; true] 4 2 eq_refl eq_refl ltac:(lia)).
Defined.

(** Writing bytes as a bit string and packing the string again gives the
    bytes back. *)
Theorem byte_array_roundtrip (bytes : list Z) :
  Forall (fun b => 0 <= b < 256) bytes -> 8 * Z.of_nat (length bytes) + 8 < 2 ^ 64 ->
  bin_string_to_byte_array (byte_array_to_bin_str bytes) = Returns bytes.
Proof.
  intros Hb Hs. rewrite byte_array_to_bin_str_flat.
  assert (length (concat (map (to_bin 8) bytes)) = (8 * length bytes)%nat) as Hlen.
  { clear. induction bytes as [|b bytes IH]; [done|].
    cbn [map concat length]. rewrite length_app, IH, length_to_bin. lia. }
  rewrite pack_returns by lia. f_equal.
  apply concat_to_bin_inj; [apply bytes_of_range | assumption |].
  rewrite bytes_of_bits. unfold padded_bits, padding_of. rewrite Hlen.
  replace (Z.of_nat (8 * length bytes) mod 8) with 0
    by (rewrite Nat2Z.inj_mul, Z.mul_comm, Z.mod_mul; lia).
  cbn. apply app_nil_r.
Qed.

Lemma byte_array_roundtrip_witness :
  bin_string_to_byte_array (byte_array_to_bin_str [18; 255; 0; 97]) =
  Returns [18; 255; 0; 97].
Proof.
  apply byte_array_roundtrip; [repeat constructor; lia | simpl; lia].
Defined.

(** Packing a bit string into bytes never fails, and writing the bytes out
    again gives the string followed by the zeros that pad it to whole bytes. *)
Theorem bit_string_roundtrip (bs : list bool) :
  Z.of_nat (length bs) + 8 < 2 ^ 64 ->
  exists bytes,
    bin_string_to_byte_array (bits_str bs) = Returns bytes /\
    byte_array_to_bin_str bytes =
      bits_str bs ++ replicate (padding_of (length bs)) "0"%char /\
    Forall (fun b => 0 <= b < 256) bytes.
Proof.
  intros Hs. exists (bytes_of bs). split; [apply pack_returns, Hs|].
  split; [|apply bytes_of_range].
  rewrite byte_array_to_bin_str_flat, bytes_of_bits.
  unfold padded_bits. rewrite bits_str_app. f_equal.
  exact (fmap_replicate bit_char _ false).
Qed.

Lemma bit_string_roundtrip_witness :
  exists bytes,
    bin_string_to_byte_array (str "1011") = Returns bytes /\
    byte_array_to_bin_str bytes = str "10110000" /\
    Forall (fun b => 0 <= b < 256) bytes.
Proof. exact (bit_string_roundtrip [true; false; true; true] eq_refl). Defined.
