(* ===== verification/Float64.v ===== *)
(** * Float64: IEEE 754 arithmetic of [double] and [float]

    The Standard Library's [SpecFloat] is the executable reference of IEEE 754
    with rounding to nearest, ties to even.  This file fixes its parameters to
    binary64 and binary32 and adds the conversions the code performs: integer
    to floating point, decimal literals, [ceil] and the truncating cast. *)

From Stdlib Require Import ZArith Lia QArith SpecFloat.
Local Open Scope Z_scope.

Abbreviation double := spec_float.
Abbreviation float := spec_float.

(** ** binary64 *)

Definition dmul : double -> double -> double := SFmul 53 1024.
Definition dadd : double -> double -> double := SFadd 53 1024.
Definition dsub : double -> double -> double := SFsub 53 1024.
Definition ddiv : double -> double -> double := SFdiv 53 1024.

(** [static_cast<double>(n)] of an integer, correctly rounded. *)
Definition double_of_Z (n : Z) : double := binary_normalize 53 1024 n 0 false.

Definition dzero : double := double_of_Z 0.
Definition dsqrt : double -> double := SFsqrt 53 1024.
Definition dgt (x y : double) : bool := SFltb y x.

(** The decimal literal [m * 10^e], correctly rounded. *)
Definition double_lit (m e : Z) : double :=
  if 0 <=? e then double_of_Z (m * 10 ^ e)
  else match m with
       | 0 => S754_zero false
       | Zpos p => ddiv (S754_finite false p 0) (S754_finite false (Z.to_pos (10 ^ (- e))) 0)
       | Zneg p => ddiv (S754_finite true p 0) (S754_finite false (Z.to_pos (10 ^ (- e))) 0)
       end.

(** ** binary32 *)

Definition fadd : float -> float -> float := SFadd 24 128.
Definition fsub : float -> float -> float := SFsub 24 128.
Definition fopp : float -> float := SFopp.
Definition float_of_Z (n : Z) : float := binary_normalize 24 128 n 0 false.
Definition fgt (x y : float) : bool := SFltb y x.

(** The narrowing of a [double] to a [float]. *)
Definition float_of_double (x : double) : float :=
  match x with
  | S754_finite s m e => binary_normalize 24 128 (if s then Zneg m else Zpos m) e s
  | _ => x
  end.

(** [static_cast<double>] of a [float], which is exact. *)
Definition double_of_float (x : float) : double :=
  match x with
  | S754_finite s m e => binary_normalize 53 1024 (if s then Zneg m else Zpos m) e s
  | _ => x
  end.

(** ** Conversions to integers *)

(** [ceil], and [floor], of a finite number; 0 for the others, which no use in
    the code reaches. *)
Definition floor_Z (x : double) : Z :=
  match x with
  | S754_finite s m e =>
      let n := if s then Zneg m else Zpos m in
      if 0 <=? e then n * 2 ^ e else n / 2 ^ (- e)
  | _ => 0
  end.

Definition ceil_Z (x : double) : Z := - floor_Z (SFopp x).

(** [static_cast<intN_t>(x)]: rounding towards zero. *)
Definition trunc_Z (x : double) : Z :=
  match x with
  | S754_finite true _ _ => ceil_Z x
  | _ => floor_Z x
  end.

(** ** The rational value of a finite number *)

Definition value_Q (x : double) : Q :=
  match x with
  | S754_finite s m e =>
      let n := if s then Zneg m else Zpos m in
      if 0 <=? e then inject_Z (n * 2 ^ e) else n # Z.to_pos (2 ^ (- e))
  | _ => 0%Q
  end.

(** [x] approximates [q] within the relative error [eps]. *)
Definition close (eps q : Q) (x : double) : bool :=
  Qle_bool (value_Q x) (q * (1 + eps)) && Qle_bool (q * (1 - eps)) (value_Q x).

Example double_lit_tenth : double_lit 1 (-1) = S754_finite false 7205759403792794 (-56).
Proof. reflexivity. Qed.
Example ceil_half : ceil_Z (double_lit 5 (-1)) = 1 /\ ceil_Z (double_lit (-5) (-1)) = 0.
Proof. split; reflexivity. Qed.
