(* ===== verification/MathConstants.v ===== *)
(** * MathConstants: the numeric constants of the receiver

    [src/src/core/system_parameters/MATH_CONSTANTS.h].  Every constant is the
    [double] that its decimal literal denotes.  The scale factors named
    [TWO_N...], [TWO_P...] and [PI_TWO_N...] are decimal literals in the code;
    the theorems say how close they are to the powers of two they stand for. *)

From S2P Require Import Float64.
From Stdlib Require Import ZArith Lia QArith Bool List SpecFloat.
Import ListNotations.
Local Open Scope Z_scope.

Definition GNSS_OMEGA_EARTH_DOT : double := double_lit 72921151467 (-15).
Definition SPEED_OF_LIGHT_M_S : double := double_lit 2997924580 (-1).
Definition SPEED_OF_LIGHT_M_MS : double := double_lit 2997924580 (-4).
Definition GPS_GM : double := double_lit 3986005 8.
Definition GPS_F : double := double_lit (-4442807633) (-19).
Definition GALILEO_GM : double := double_lit 3986004418 5.
Definition GALILEO_F : double := double_lit (-4442807309) (-19).
Definition GLONASS_OMEGA_EARTH_DOT : double := double_lit 7292115 (-11).
Definition GLONASS_GM : double := double_lit 39860044 7.
Definition BEIDOU_OMEGA_EARTH_DOT : double := double_lit 72921150 (-12).
Definition BEIDOU_GM : double := double_lit 3986004418 5.
Definition BEIDOU_F : double := double_lit (-4442807309) (-19).
Definition GNSS_PI : double := double_lit 31415926535898 (-13).
Definition HALF_PI : double := ddiv GNSS_PI (double_lit 20 (-1)).
Definition TWO_PI : double := dmul (double_lit 20 (-1)) GNSS_PI.
Definition TWO_P3 : double := double_lit 80 (-1).
Definition TWO_P4 : double := double_lit 160 (-1).
Definition TWO_P8 : double := double_lit 2560 (-1).
Definition TWO_P11 : double := double_lit 20480 (-1).
Definition TWO_P12 : double := double_lit 40960 (-1).
Definition TWO_P14 : double := double_lit 163840 (-1).
Definition TWO_P16 : double := double_lit 655360 (-1).
Definition TWO_P19 : double := double_lit 5242880 (-1).
Definition TWO_P31 : double := double_lit 21474836480 (-1).
Definition TWO_P32 : double := double_lit 42949672960 (-1).
Definition TWO_P56 : double := double_lit 7205759403792794 1.
Definition TWO_P57 : double := double_lit 1441151880758559 2.
Definition TWO_N2 : double := double_lit 25 (-2).
Definition TWO_N5 : double := double_lit 3125 (-5).
Definition TWO_N6 : double := double_lit 15625 (-6).
Definition TWO_N8 : double := double_lit 390625 (-8).
Definition TWO_N9 : double := double_lit 1953125 (-9).
Definition TWO_N10 : double := double_lit 9765625 (-10).
Definition TWO_N11 : double := double_lit 4882812500000000 (-19).
Definition TWO_N14 : double := double_lit 6103515625 (-14).
Definition TWO_N15 : double := double_lit 3051757812500000 (-20).
Definition TWO_N16 : double := double_lit 1525878906250000 (-20).
Definition TWO_N17 : double := double_lit 7629394531250000 (-21).
Definition TWO_N18 : double := double_lit 3814697265625000 (-21).
Definition TWO_N19 : double := double_lit 1907348632812500 (-21).
Definition TWO_N20 : double := double_lit 9536743164062500 (-22).
Definition TWO_N21 : double := double_lit 4768371582031250 (-22).
Definition TWO_N22 : double := double_lit 2384185791015625 (-22).
Definition TWO_N23 : double := double_lit 1192092895507810 (-22).
Definition TWO_N24 : double := double_lit 5960464477539063 (-23).
Definition TWO_N25 : double := double_lit 2980232238769531 (-23).
Definition TWO_N26 : double := double_lit 1490116119384765 (-24).
Definition TWO_N27 : double := double_lit 7450580596923828 (-24).
Definition TWO_N29 : double := double_lit 1862645149230957 (-24).
Definition TWO_N30 : double := double_lit 9313225746154785 (-25).
Definition TWO_N31 : double := double_lit 4656612873077393 (-25).
Definition TWO_N32 : double := double_lit 2328306436538696 (-25).
Definition TWO_N33 : double := double_lit 1164153218269348 (-25).
Definition TWO_N34 : double := double_lit 582076609134674 (-25).
Definition TWO_N35 : double := double_lit 291038304567337 (-25).
Definition TWO_N38 : double := double_lit 3637978807091713 (-27).
Definition TWO_N39 : double := double_lit 1818989403545856 (-27).
Definition TWO_N40 : double := double_lit 9094947017729280 (-28).
Definition TWO_N43 : double := double_lit 1136868377216160 (-28).
Definition TWO_N44 : double := double_lit 5684341886080802 (-29).
Definition TWO_N46 : double := double_lit 14210854715202 (-27).
Definition TWO_N48 : double := double_lit 3552713678800501 (-30).
Definition TWO_N50 : double := double_lit 8881784197001252 (-31).
Definition TWO_N51 : double := double_lit 444089209850063 (-30).
Definition TWO_N55 : double := double_lit 2775557561562891 (-32).
Definition TWO_N57 : double := double_lit 6938893903907228 (-33).
Definition TWO_N59 : double := double_lit 173472347597681 (-32).
Definition TWO_N60 : double := double_lit 8673617379884036 (-34).
Definition TWO_N66 : double := double_lit 13552527156068805425093160010874271392822265625 (-66).
Definition TWO_N68 : double := double_lit 3388131789017201 (-36).
Definition PI_TWO_N19 : double := double_lit 5992112452678286 (-21).
Definition PI_TWO_N43 : double := double_lit 3571577341960839 (-28).
Definition PI_TWO_N31 : double := double_lit 1462918079267160 (-24).
Definition PI_TWO_N38 : double := double_lit 1142904749427469 (-26).
Definition PI_TWO_N23 : double := double_lit 3745070282923929 (-22).
Definition D2R : double := ddiv GNSS_PI (double_lit 1800 (-1)).
Definition R2D : double := ddiv (double_lit 1800 (-1)) GNSS_PI.
Definition SC2RAD : double := GNSS_PI.
Definition AS2R : double := ddiv D2R (double_lit 36000 (-1)).
Definition AU : double := double_lit 1495978706910 (-1).

(** ** The scale factors *)

Definition two_p (n : Z) : Q := inject_Z (2 ^ n).
Definition two_n (n : Z) : Q := 1 # Z.to_pos (2 ^ n).

(** The factors of the header with the value that their name and comment
    announce, all but one. *)
Definition scale_factors : list (double * Q) :=
  [(TWO_P3, two_p 3); (TWO_P4, two_p 4); (TWO_P8, two_p 8); (TWO_P11, two_p 11);
   (TWO_P12, two_p 12); (TWO_P14, two_p 14); (TWO_P16, two_p 16); (TWO_P19, two_p 19);
   (TWO_P31, two_p 31); (TWO_P32, two_p 32); (TWO_P56, two_p 56); (TWO_P57, two_p 57);
   (TWO_N2, two_n 2); (TWO_N5, two_n 5); (TWO_N6, two_n 6); (TWO_N8, two_n 8);
   (TWO_N9, two_n 9); (TWO_N10, two_n 10); (TWO_N11, two_n 11); (TWO_N14, two_n 14);
   (TWO_N15, two_n 15); (TWO_N16, two_n 16); (TWO_N17, two_n 17); (TWO_N18, two_n 18);
   (TWO_N19, two_n 19); (TWO_N20, two_n 20); (TWO_N21, two_n 21); (TWO_N22, two_n 22);
   (TWO_N23, two_n 23); (TWO_N24, two_n 24); (TWO_N25, two_n 25); (TWO_N27, two_n 27);
   (TWO_N29, two_n 29); (TWO_N30, two_n 30); (TWO_N31, two_n 31); (TWO_N32, two_n 32);
   (TWO_N33, two_n 33); (TWO_N34, two_n 34); (TWO_N35, two_n 35); (TWO_N38, two_n 38);
   (TWO_N39, two_n 39); (TWO_N40, two_n 40); (TWO_N43, two_n 43); (TWO_N44, two_n 44);
   (TWO_N46, two_n 46); (TWO_N48, two_n 48); (TWO_N50, two_n 50); (TWO_N51, two_n 51);
   (TWO_N55, two_n 55); (TWO_N57, two_n 57); (TWO_N59, two_n 59); (TWO_N60, two_n 60);
   (TWO_N66, two_n 66); (TWO_N68, two_n 68);
   (PI_TWO_N19, value_Q GNSS_PI * two_n 19); (PI_TWO_N23, value_Q GNSS_PI * two_n 23);
   (PI_TWO_N31, value_Q GNSS_PI * two_n 31); (PI_TWO_N38, value_Q GNSS_PI * two_n 38);
   (PI_TWO_N43, value_Q GNSS_PI * two_n 43)]%Q.

(** Every scale factor of the header but [TWO_N26] is the power of two (or
    the multiple of it by the header's pi) that its name announces, to a
    relative error below 1e-13. *)
Theorem scale_factors_accurate :
  Forall (fun f => close (1 # 10000000000000) (snd f) (fst f) = true) scale_factors.
Proof. repeat constructor; vm_compute; reflexivity. Qed.

(** [TWO_N26], the scale of the clock bias in the reduced clock and
    ephemeris data, is ten times too small: 1.49e-9 where 2^-26 is 1.49e-8. *)
Theorem two_n26_tenfold :
  close (1 # 10000000000000) (two_n 26 / 10) TWO_N26 = true /\
  close (1 # 2) (two_n 26) TWO_N26 = false.
Proof. split; vm_compute; reflexivity. Qed.
