(* ===== verification/GalileoData.v ===== *)
(** * GalileoData: the data classes of Galileo navigation messages

    The classes of [src/src/core/system_parameters] that the I/NAV decoder
    fills, each a record in a module of its class's name, and their conversions:
    the reduced clock and ephemeris data to an ephemeris, the almanac set to the
    almanac of one satellite.  [atan2] is the mathematical library's. *)

From S2P Require Import Prelude Cstring Float64 MathConstants.
From stdpp Require Import list.
From Stdlib Require Import ZArith Lia.
Local Open Scope Z_scope.

(** ** Classes *)

(** [class Galileo_Ephemeris : public Gnss_Ephemeris]. *)
Module Galileo_Ephemeris.
Record t := mk {
  PRN : Z;
  M_0 : double;
  delta_n : double;
  ecc : double;
  sqrtA : double;
  OMEGA_0 : double;
  i_0 : double;
  omega : double;
  OMEGAdot : double;
  idot : double;
  Cuc : double;
  Cus : double;
  Crc : double;
  Crs : double;
  Cic : double;
  Cis : double;
  toe : Z;
  toc : Z;
  af0 : double;
  af1 : double;
  af2 : double;
  satClkDrift : double;
  dtr : double;
  WN : Z;
  tow : Z;
  satpos_X : double;
  satpos_Y : double;
  satpos_Z : double;
  satvel_X : double;
  satvel_Y : double;
  satvel_Z : double;
  IOD_ephemeris : Z;
  IOD_nav : Z;
  SISA : Z;
  E5a_HS : Z;
  E5b_HS : Z;
  E1B_HS : Z;
  E5a_DVS : bool;
  E5b_DVS : bool;
  E1B_DVS : bool;
  BGD_E1E5a : double;
  BGD_E1E5b : double;
  flag_all_ephemeris : bool
}.
Definition new : t := mk 0 dzero dzero dzero dzero dzero dzero dzero dzero dzero dzero dzero dzero dzero dzero dzero 0 0 dzero dzero dzero dzero dzero 0 0 dzero dzero dzero dzero dzero dzero 0 0 0 0 0 0 false false false dzero dzero false.
#[global] Instance eta : Eta t := fun r =>
  mk (PRN r) (M_0 r) (delta_n r) (ecc r) (sqrtA r) (OMEGA_0 r) (i_0 r) (omega r) (OMEGAdot r) (idot r) (Cuc r) (Cus r) (Crc r) (Crs r) (Cic r) (Cis r) (toe r) (toc r) (af0 r) (af1 r) (af2 r) (satClkDrift r) (dtr r) (WN r) (tow r) (satpos_X r) (satpos_Y r) (satpos_Z r) (satvel_X r) (satvel_Y r) (satvel_Z r) (IOD_ephemeris r) (IOD_nav r) (SISA r) (E5a_HS r) (E5b_HS r) (E1B_HS r) (E5a_DVS r) (E5b_DVS r) (E1B_DVS r) (BGD_E1E5a r) (BGD_E1E5b r) (flag_all_ephemeris r).
End Galileo_Ephemeris.

(** [class Galileo_Iono]. *)
Module Galileo_Iono.
Record t := mk {
  ai0 : double;
  ai1 : double;
  ai2 : double;
  tow : Z;
  WN : Z;
  Region1_flag : bool;
  Region2_flag : bool;
  Region3_flag : bool;
  Region4_flag : bool;
  Region5_flag : bool
}.
Definition new : t := mk dzero dzero dzero 0 0 false false false false false.
#[global] Instance eta : Eta t := fun r =>
  mk (ai0 r) (ai1 r) (ai2 r) (tow r) (WN r) (Region1_flag r) (Region2_flag r) (Region3_flag r) (Region4_flag r) (Region5_flag r).
End Galileo_Iono.

(** [class Galileo_Utc_Model]. *)
Module Galileo_Utc_Model.
Record t := mk {
  A0 : double;
  A1 : double;
  Delta_tLS : Z;
  tot : Z;
  WNot : Z;
  WN_LSF : Z;
  DN : Z;
  Delta_tLSF : Z;
  A_0G : double;
  A_1G : double;
  t_0G : Z;
  WN_0G : Z;
  flag_utc_model : bool
}.
Definition new : t := mk dzero dzero 0 0 0 0 0 0 dzero dzero 0 0 false.
#[global] Instance eta : Eta t := fun r =>
  mk (A0 r) (A1 r) (Delta_tLS r) (tot r) (WNot r) (WN_LSF r) (DN r) (Delta_tLSF r) (A_0G r) (A_1G r) (t_0G r) (WN_0G r) (flag_utc_model r).
End Galileo_Utc_Model.

(** [class Galileo_Almanac_Helper]. *)
Module Galileo_Almanac_Helper.
Record t := mk {
  IOD_a_7 : Z;
  WN_a_7 : Z;
  t0a_7 : Z;
  SVID1_7 : Z;
  DELTA_A_7 : double;
  e_7 : double;
  omega_7 : double;
  delta_i_7 : double;
  Omega0_7 : double;
  Omega_dot_7 : double;
  M0_7 : double;
  IOD_a_8 : Z;
  af0_8 : double;
  af1_8 : double;
  E5b_HS_8 : Z;
  E1B_HS_8 : Z;
  E5a_HS_8 : Z;
  SVID2_8 : Z;
  DELTA_A_8 : double;
  e_8 : double;
  omega_8 : double;
  delta_i_8 : double;
  Omega0_8 : double;
  Omega_dot_8 : double;
  IOD_a_9 : Z;
  WN_a_9 : Z;
  t0a_9 : Z;
  M0_9 : double;
  af0_9 : double;
  af1_9 : double;
  E5b_HS_9 : Z;
  E1B_HS_9 : Z;
  E5a_HS_9 : Z;
  SVID3_9 : Z;
  DELTA_A_9 : double;
  e_9 : double;
  omega_9 : double;
  delta_i_9 : double;
  IOD_a_10 : Z;
  Omega0_10 : double;
  Omega_dot_10 : double;
  M0_10 : double;
  af0_10 : double;
  af1_10 : double;
  E5b_HS_10 : Z;
  E1B_HS_10 : Z;
  E5a_HS_10 : Z
}.
Definition new : t := mk 0 0 0 0 dzero dzero dzero dzero dzero dzero dzero 0 dzero dzero 0 0 0 0 dzero dzero dzero dzero dzero dzero 0 0 0 dzero dzero dzero 0 0 0 0 dzero dzero dzero dzero 0 dzero dzero dzero dzero dzero 0 0 0.
#[global] Instance eta : Eta t := fun r =>
  mk (IOD_a_7 r) (WN_a_7 r) (t0a_7 r) (SVID1_7 r) (DELTA_A_7 r) (e_7 r) (omega_7 r) (delta_i_7 r) (Omega0_7 r) (Omega_dot_7 r) (M0_7 r) (IOD_a_8 r) (af0_8 r) (af1_8 r) (E5b_HS_8 r) (E1B_HS_8 r) (E5a_HS_8 r) (SVID2_8 r) (DELTA_A_8 r) (e_8 r) (omega_8 r) (delta_i_8 r) (Omega0_8 r) (Omega_dot_8 r) (IOD_a_9 r) (WN_a_9 r) (t0a_9 r) (M0_9 r) (af0_9 r) (af1_9 r) (E5b_HS_9 r) (E1B_HS_9 r) (E5a_HS_9 r) (SVID3_9 r) (DELTA_A_9 r) (e_9 r) (omega_9 r) (delta_i_9 r) (IOD_a_10 r) (Omega0_10 r) (Omega_dot_10 r) (M0_10 r) (af0_10 r) (af1_10 r) (E5b_HS_10 r) (E1B_HS_10 r) (E5a_HS_10 r).
End Galileo_Almanac_Helper.

(** [class Galileo_Reduced_CED]. *)
Module Galileo_Reduced_CED.
Record t := mk {
  PRN : Z;
  TOTRedCED : Z;
  IODnav : Z;
  DeltaAred : double;
  exred : double;
  eyred : double;
  Deltai0red : double;
  Omega0red : double;
  lambda0red : double;
  af0red : double;
  af1red : double
}.
Definition new : t := mk 0 0 0 dzero dzero dzero dzero dzero dzero dzero dzero.
#[global] Instance eta : Eta t := fun r =>
  mk (PRN r) (TOTRedCED r) (IODnav r) (DeltaAred r) (exred r) (eyred r) (Deltai0red r) (Omega0red r) (lambda0red r) (af0red r) (af1red r).
End Galileo_Reduced_CED.

(** [class Galileo_Almanac : public Gnss_Almanac]. *)
Module Galileo_Almanac.
Record t := mk {
  PRN : Z;
  delta_i : double;
  toa : Z;
  WNa : Z;
  M_0 : double;
  ecc : double;
  sqrtA : double;
  OMEGA_0 : double;
  omega : double;
  OMEGAdot : double;
  af0 : double;
  af1 : double;
  IODa : Z;
  E5b_HS : Z;
  E1B_HS : Z;
  E5a_HS : Z
}.
Definition new : t := mk 0 dzero 0 0 dzero dzero dzero dzero dzero dzero dzero dzero 0 0 0 0.
#[global] Instance eta : Eta t := fun r =>
  mk (PRN r) (delta_i r) (toa r) (WNa r) (M_0 r) (ecc r) (sqrtA r) (OMEGA_0 r) (omega r) (OMEGAdot r) (af0 r) (af1 r) (IODa r) (E5b_HS r) (E1B_HS r) (E5a_HS r).
End Galileo_Almanac.

(** [class Galileo_OSNMA]: the OSNMA field and the navigation word of one page. *)
Record Galileo_OSNMA := mkGalileo_OSNMA {
  PRN : Z;
  OSNMA_data : cstring;
  nav_data : cstring
}.

(** ** Almanac set to almanac *)

(** [5440.588203494]. *)
Definition sqrtAnominal : double := double_lit 5440588203494 (-9).

(** [get_almanac(i)]: the almanac of the [i]-th satellite of the set. *)
Definition get_almanac_of (h : Galileo_Almanac_Helper.t) (i : Z) : Galileo_Almanac.t :=
  let a := Galileo_Almanac.new in
  match i with
  | 1 =>
      a
       <| Galileo_Almanac.PRN := u32 (Galileo_Almanac_Helper.SVID1_7 h) |>
       <| Galileo_Almanac.toa := Galileo_Almanac_Helper.t0a_7 h |>
       <| Galileo_Almanac.WNa := Galileo_Almanac_Helper.WN_a_7 h |>
       <| Galileo_Almanac.IODa := Galileo_Almanac_Helper.IOD_a_7 h |>
       <| Galileo_Almanac.delta_i := Galileo_Almanac_Helper.delta_i_7 h |>
       <| Galileo_Almanac.M_0 := Galileo_Almanac_Helper.M0_7 h |>
       <| Galileo_Almanac.ecc := Galileo_Almanac_Helper.e_7 h |>
       <| Galileo_Almanac.sqrtA := dadd sqrtAnominal (Galileo_Almanac_Helper.DELTA_A_7 h) |>
       <| Galileo_Almanac.OMEGA_0 := Galileo_Almanac_Helper.Omega0_7 h |>
       <| Galileo_Almanac.omega := Galileo_Almanac_Helper.omega_7 h |>
       <| Galileo_Almanac.OMEGAdot := Galileo_Almanac_Helper.Omega_dot_7 h |>
       <| Galileo_Almanac.af0 := Galileo_Almanac_Helper.af0_8 h |>
       <| Galileo_Almanac.af1 := Galileo_Almanac_Helper.af1_8 h |>
       <| Galileo_Almanac.E5b_HS := Galileo_Almanac_Helper.E5b_HS_8 h |>
       <| Galileo_Almanac.E1B_HS := Galileo_Almanac_Helper.E1B_HS_8 h |>
       <| Galileo_Almanac.E5a_HS := Galileo_Almanac_Helper.E5a_HS_8 h |>
  | 2 =>
      a
       <| Galileo_Almanac.PRN := u32 (Galileo_Almanac_Helper.SVID2_8 h) |>
       <| Galileo_Almanac.toa := Galileo_Almanac_Helper.t0a_9 h |>
       <| Galileo_Almanac.WNa := Galileo_Almanac_Helper.WN_a_9 h |>
       <| Galileo_Almanac.IODa := Galileo_Almanac_Helper.IOD_a_9 h |>
       <| Galileo_Almanac.delta_i := Galileo_Almanac_Helper.delta_i_8 h |>
       <| Galileo_Almanac.M_0 := Galileo_Almanac_Helper.M0_9 h |>
       <| Galileo_Almanac.ecc := Galileo_Almanac_Helper.e_8 h |>
       <| Galileo_Almanac.sqrtA := dadd sqrtAnominal (Galileo_Almanac_Helper.DELTA_A_8 h) |>
       <| Galileo_Almanac.OMEGA_0 := Galileo_Almanac_Helper.Omega0_8 h |>
       <| Galileo_Almanac.omega := Galileo_Almanac_Helper.omega_8 h |>
       <| Galileo_Almanac.OMEGAdot := Galileo_Almanac_Helper.Omega_dot_8 h |>
       <| Galileo_Almanac.af0 := Galileo_Almanac_Helper.af0_9 h |>
       <| Galileo_Almanac.af1 := Galileo_Almanac_Helper.af1_9 h |>
       <| Galileo_Almanac.E1B_HS := Galileo_Almanac_Helper.E1B_HS_9 h |>
       <| Galileo_Almanac.E5a_HS := Galileo_Almanac_Helper.E5a_HS_9 h |>
  | 3 =>
      a
       <| Galileo_Almanac.PRN := u32 (Galileo_Almanac_Helper.SVID3_9 h) |>
       <| Galileo_Almanac.toa := Galileo_Almanac_Helper.t0a_9 h |>
       <| Galileo_Almanac.WNa := Galileo_Almanac_Helper.WN_a_9 h |>
       <| Galileo_Almanac.IODa := Galileo_Almanac_Helper.IOD_a_10 h |>
       <| Galileo_Almanac.delta_i := Galileo_Almanac_Helper.delta_i_9 h |>
       <| Galileo_Almanac.M_0 := Galileo_Almanac_Helper.M0_10 h |>
       <| Galileo_Almanac.ecc := Galileo_Almanac_Helper.e_9 h |>
       <| Galileo_Almanac.sqrtA := dadd sqrtAnominal (Galileo_Almanac_Helper.DELTA_A_9 h) |>
       <| Galileo_Almanac.OMEGA_0 := Galileo_Almanac_Helper.Omega0_10 h |>
       <| Galileo_Almanac.omega := Galileo_Almanac_Helper.omega_9 h |>
       <| Galileo_Almanac.OMEGAdot := Galileo_Almanac_Helper.Omega_dot_10 h |>
       <| Galileo_Almanac.af0 := Galileo_Almanac_Helper.af0_10 h |>
       <| Galileo_Almanac.af1 := Galileo_Almanac_Helper.af1_10 h |>
       <| Galileo_Almanac.E5b_HS := Galileo_Almanac_Helper.E5b_HS_10 h |>
       <| Galileo_Almanac.E1B_HS := Galileo_Almanac_Helper.E1B_HS_10 h |>
       <| Galileo_Almanac.E5a_HS := Galileo_Almanac_Helper.E5a_HS_10 h |>
  | _ => a
  end.

(** ** Reduced clock and ephemeris data to ephemeris *)

Class Libm := { atan2 : double -> double -> double }.

Definition compute_eph `{Libm} (ced : Galileo_Reduced_CED.t) : Galileo_Ephemeris.t :=
  let A_nominal := double_of_Z 29600000 in
  let Ared := dadd (Galileo_Reduced_CED.DeltaAred ced) A_nominal in
  let i_nominal := double_lit 560 (-1) in
  let i0red := dadd (Galileo_Reduced_CED.Deltai0red ced) (ddiv i_nominal (double_lit 1800 (-1))) in
  let exred := Galileo_Reduced_CED.exred ced in
  let eyred := Galileo_Reduced_CED.eyred ced in
  let omega := atan2 eyred exred in
  let TOTRedCED := Galileo_Reduced_CED.TOTRedCED ced in
  let t0r := Z.rem (i32 (i32 (30 * Z.quot TOTRedCED 30) + 1)) 604800 in
  Galileo_Ephemeris.new
    <| Galileo_Ephemeris.sqrtA := dsqrt Ared |>
    <| Galileo_Ephemeris.i_0 := dmul i0red GNSS_PI |>
    <| Galileo_Ephemeris.ecc := dsqrt (dadd (dmul exred exred) (dmul eyred eyred)) |>
    <| Galileo_Ephemeris.omega := omega |>
    <| Galileo_Ephemeris.M_0 := dsub (dmul (Galileo_Reduced_CED.lambda0red ced) GNSS_PI) omega |>
    <| Galileo_Ephemeris.OMEGA_0 := dmul (Galileo_Reduced_CED.Omega0red ced) GNSS_PI |>
    <| Galileo_Ephemeris.flag_all_ephemeris := true |>
    <| Galileo_Ephemeris.IOD_ephemeris := Galileo_Reduced_CED.IODnav ced |>
    <| Galileo_Ephemeris.IOD_nav := Galileo_Reduced_CED.IODnav ced |>
    <| Galileo_Ephemeris.PRN := Galileo_Reduced_CED.PRN ced |>
    <| Galileo_Ephemeris.toe := t0r |>
    <| Galileo_Ephemeris.toc := t0r |>
    <| Galileo_Ephemeris.af0 := Galileo_Reduced_CED.af0red ced |>
    <| Galileo_Ephemeris.af1 := Galileo_Reduced_CED.af1red ced |>
    <| Galileo_Ephemeris.WN := Z.quot TOTRedCED 604800 |>
    <| Galileo_Ephemeris.tow := Z.rem TOTRedCED 604800 |>.

(** [Galileo_System_Time]. *)
Definition Galileo_System_Time (week_number TOW : double) : double :=
  let sec_in_day := double_of_Z 86400 in
  let day_in_week := double_of_Z 7 in
  dadd (dmul (dmul week_number sec_in_day) day_in_week) TOW.
