(* ===== verification/InavWords.v ===== *)
(** * InavWords: reading the parameters of an I/NAV word

    The bit readers of [src/src/core/system_parameters/galileo_inav_message.cc]
    and, for each word type, the parameters it carries and how they are read.
    The members of [Galileo_Inav_Message] that one word fills are grouped in a
    record of their own. *)

From S2P Require Import Prelude Cstring Float64 MathConstants InavTables.
From stdpp Require Import list strings.
From Stdlib Require Import ZArith Lia.
Local Open Scope Z_scope.

(** A [std::bitset]: bit 0 first. *)
Abbreviation bitset := (list bool).

(** ** The readers

    [for_slices f p v] runs [f first j] for every bit [j] of every slice. *)

Definition for_slices {St} (parameter : bit_field) (f : Z -> Z -> St -> St) (s : St) : St :=
  fold_left (fun s '(first, len) => for_range 0 len (f first) s) parameter s.

Definition read_navigation_unsigned (bits : bitset) (parameter : bit_field) : Z :=
  for_slices parameter
    (fun first j value =>
       let value := u64 (Z.shiftl value 1) in
       if vget false bits (GALILEO_DATA_JK_BITS - first - j) then u64 (value + 1) else value)
    0.

Definition read_octet_unsigned (bits : bitset) (parameter : bit_field) : Z :=
  for_slices parameter
    (fun first j value =>
       let value := u8 (Z.shiftl value 1) in
       if vget false bits (GALILEO_DATA_JK_BITS - first - j) then u8 (value + 1) else value)
    0.

Definition read_page_type_unsigned (bits : bitset) (parameter : bit_field) : Z :=
  for_slices parameter
    (fun first j value =>
       let value := u64 (Z.shiftl value 1) in
       if vget false bits (GALILEO_PAGE_TYPE_BITS - first - j) then u64 (value + 1) else value)
    0.

(** [parameter[0].first]. *)
Definition first_bit (parameter : bit_field) : Z :=
  match parameter with (first, _) :: _ => first | [] => 0 end.

(** [value *= 2; value &= 0xFFFFFFFFFFFFFFFE]. *)
Definition shift_signed (value : Z) : Z :=
  i64 (Z.land (u64 (i64 (value * 2))) (2 ^ 64 - 2)).

Definition read_navigation_signed (bits : bitset) (parameter : bit_field) : Z :=
  let sign := if vget false bits (GALILEO_DATA_JK_BITS - first_bit parameter) then -1 else 0 in
  for_slices parameter
    (fun first j value =>
       let value := shift_signed value in
       if vget false bits (GALILEO_DATA_JK_BITS - first - j) then i64 (value + 1) else value)
    sign.

Definition read_navigation_bool (bits : bitset) (parameter : bit_field) : bool :=
  vget false bits (GALILEO_DATA_JK_BITS - first_bit parameter).

(** ** Word types *)

(** Word type 1. *)
Record Word1 := mkWord1 {
  IOD_nav_1 : Z;
  t0e_1 : Z;
  M0_1 : double;
  e_1 : double;
  A_1 : double
}.
Definition new_Word1 : Word1 :=
  mkWord1 0 0 dzero dzero dzero.

Definition read_word_1 (data_bits : bitset) : Word1 := {|
  IOD_nav_1 := i32 (read_navigation_unsigned data_bits IOD_NAV_1_BIT);
  t0e_1 := i32 (i32 (read_navigation_unsigned data_bits T0_E_1_BIT) * T0E_1_LSB);
  M0_1 := dmul (double_of_Z (read_navigation_signed data_bits M0_1_BIT)) M0_1_LSB;
  e_1 := dmul (double_of_Z (read_navigation_unsigned data_bits E_1_BIT)) E_1_LSB;
  A_1 := dmul (double_of_Z (read_navigation_unsigned data_bits A_1_BIT)) A_1_LSB_GAL
|}.

(** Word type 2. *)
Record Word2 := mkWord2 {
  IOD_nav_2 : Z;
  OMEGA_0_2 : double;
  i_0_2 : double;
  omega_2 : double;
  iDot_2 : double
}.
Definition new_Word2 : Word2 :=
  mkWord2 0 dzero dzero dzero dzero.

Definition read_word_2 (data_bits : bitset) : Word2 := {|
  IOD_nav_2 := i32 (read_navigation_unsigned data_bits IOD_NAV_2_BIT);
  OMEGA_0_2 := dmul (double_of_Z (read_navigation_signed data_bits OMEGA_0_2_BIT)) OMEGA_0_2_LSB;
  i_0_2 := dmul (double_of_Z (read_navigation_signed data_bits I_0_2_BIT)) I_0_2_LSB;
  omega_2 := dmul (double_of_Z (read_navigation_signed data_bits OMEGA_2_BIT)) OMEGA_2_LSB;
  iDot_2 := dmul (double_of_Z (read_navigation_signed data_bits I_DOT_2_BIT)) I_DOT_2_LSB
|}.

(** Word type 3. *)
Record Word3 := mkWord3 {
  IOD_nav_3 : Z;
  SISA_3 : Z;
  OMEGA_dot_3 : double;
  delta_n_3 : double;
  C_uc_3 : double;
  C_us_3 : double;
  C_rc_3 : double;
  C_rs_3 : double
}.
Definition new_Word3 : Word3 :=
  mkWord3 0 0 dzero dzero dzero dzero dzero dzero.

Definition read_word_3 (data_bits : bitset) : Word3 := {|
  IOD_nav_3 := i32 (read_navigation_unsigned data_bits IOD_NAV_3_BIT);
  OMEGA_dot_3 := dmul (double_of_Z (read_navigation_signed data_bits OMEGA_DOT_3_BIT)) OMEGA_DOT_3_LSB;
  delta_n_3 := dmul (double_of_Z (read_navigation_signed data_bits DELTA_N_3_BIT)) DELTA_N_3_LSB;
  C_uc_3 := dmul (double_of_Z (read_navigation_signed data_bits C_UC_3_BIT)) C_UC_3_LSB;
  C_us_3 := dmul (double_of_Z (read_navigation_signed data_bits C_US_3_BIT)) C_US_3_LSB;
  C_rc_3 := dmul (double_of_Z (read_navigation_signed data_bits C_RC_3_BIT)) C_RC_3_LSB;
  C_rs_3 := dmul (double_of_Z (read_navigation_signed data_bits C_RS_3_BIT)) C_RS_3_LSB;
  SISA_3 := i32 (read_navigation_unsigned data_bits SISA_3_BIT)
|}.

(** Word type 4. *)
Record Word4 := mkWord4 {
  IOD_nav_4 : Z;
  SV_ID_PRN_4 : Z;
  C_ic_4 : double;
  C_is_4 : double;
  t0c_4 : Z;
  af0_4 : double;
  af1_4 : double;
  af2_4 : double;
  spare_4 : double
}.
Definition new_Word4 : Word4 :=
  mkWord4 0 0 dzero dzero 0 dzero dzero dzero dzero.

Definition read_word_4 (data_bits : bitset) : Word4 := {|
  IOD_nav_4 := i32 (read_navigation_unsigned data_bits IOD_NAV_4_BIT);
  SV_ID_PRN_4 := i32 (read_navigation_unsigned data_bits SV_ID_PRN_4_BIT);
  C_ic_4 := dmul (double_of_Z (read_navigation_signed data_bits C_IC_4_BIT)) C_IC_4_LSB;
  C_is_4 := dmul (double_of_Z (read_navigation_signed data_bits C_IS_4_BIT)) C_IS_4_LSB;
  t0c_4 := i32 (i32 (read_navigation_unsigned data_bits T0C_4_BIT) * T0C_4_LSB);
  af0_4 := dmul (double_of_Z (read_navigation_signed data_bits AF0_4_BIT)) AF0_4_LSB;
  af1_4 := dmul (double_of_Z (read_navigation_signed data_bits AF1_4_BIT)) AF1_4_LSB;
  af2_4 := dmul (double_of_Z (read_navigation_signed data_bits AF2_4_BIT)) AF2_4_LSB;
  spare_4 := double_of_Z (read_navigation_unsigned data_bits SPARE_4_BIT)
|}.

(** Word type 5. *)
Record Word5 := mkWord5 {
  ai0_5 : double;
  ai1_5 : double;
  ai2_5 : double;
  BGD_E1E5a_5 : double;
  BGD_E1E5b_5 : double;
  E5b_HS_5 : Z;
  E1B_HS_5 : Z;
  Region1_flag_5 : bool;
  Region2_flag_5 : bool;
  Region3_flag_5 : bool;
  Region4_flag_5 : bool;
  Region5_flag_5 : bool;
  E5b_DVS_5 : bool;
  E1B_DVS_5 : bool;
  WN_5 : Z;
  TOW_5 : Z;
  spare_5 : double
}.
Definition new_Word5 : Word5 :=
  mkWord5 dzero dzero dzero dzero dzero 0 0 false false false false false false false 0 0 dzero.

Definition read_word_5 (data_bits : bitset) : Word5 := {|
  ai0_5 := dmul (double_of_Z (read_navigation_unsigned data_bits AI0_5_BIT)) AI0_5_LSB;
  ai1_5 := dmul (double_of_Z (read_navigation_signed data_bits AI1_5_BIT)) AI1_5_LSB;
  ai2_5 := dmul (double_of_Z (read_navigation_signed data_bits AI2_5_BIT)) AI2_5_LSB;
  Region1_flag_5 := read_navigation_bool data_bits REGION1_5_BIT;
  Region2_flag_5 := read_navigation_bool data_bits REGION2_5_BIT;
  Region3_flag_5 := read_navigation_bool data_bits REGION3_5_BIT;
  Region4_flag_5 := read_navigation_bool data_bits REGION4_5_BIT;
  Region5_flag_5 := read_navigation_bool data_bits REGION5_5_BIT;
  BGD_E1E5a_5 := dmul (double_of_Z (read_navigation_signed data_bits BGD_E1_E5A_5_BIT)) BGD_E1_E5A_5_LSB;
  BGD_E1E5b_5 := dmul (double_of_Z (read_navigation_signed data_bits BGD_E1_E5B_5_BIT)) BGD_E1_E5B_5_LSB;
  E5b_HS_5 := i32 (read_navigation_unsigned data_bits E5B_HS_5_BIT);
  E1B_HS_5 := i32 (read_navigation_unsigned data_bits E1_B_HS_5_BIT);
  E5b_DVS_5 := negb (read_navigation_unsigned data_bits E5B_DVS_5_BIT =? 0);
  E1B_DVS_5 := negb (read_navigation_unsigned data_bits E1_B_DVS_5_BIT =? 0);
  WN_5 := i32 (read_navigation_unsigned data_bits WN_5_BIT);
  TOW_5 := i32 (read_navigation_unsigned data_bits TOW_5_BIT);
  spare_5 := double_of_Z (read_navigation_unsigned data_bits SPARE_5_BIT)
|}.

(** Word type 6. *)
Record Word6 := mkWord6 {
  A0_6 : double;
  A1_6 : double;
  Delta_tLS_6 : Z;
  t0t_6 : Z;
  WNot_6 : Z;
  WN_LSF_6 : Z;
  DN_6 : Z;
  Delta_tLSF_6 : Z;
  TOW_6 : Z
}.
Definition new_Word6 : Word6 :=
  mkWord6 dzero dzero 0 0 0 0 0 0 0.

Definition read_word_6 (data_bits : bitset) : Word6 := {|
  A0_6 := dmul (double_of_Z (read_navigation_signed data_bits A0_6_BIT)) A0_6_LSB;
  A1_6 := dmul (double_of_Z (read_navigation_signed data_bits A1_6_BIT)) A1_6_LSB;
  Delta_tLS_6 := i32 (read_navigation_signed data_bits DELTA_T_LS_6_BIT);
  t0t_6 := i32 (i32 (read_navigation_unsigned data_bits T0T_6_BIT) * T0T_6_LSB);
  WNot_6 := i32 (read_navigation_unsigned data_bits W_NOT_6_BIT);
  WN_LSF_6 := i32 (read_navigation_unsigned data_bits WN_LSF_6_BIT);
  DN_6 := i32 (read_navigation_unsigned data_bits DN_6_BIT);
  Delta_tLSF_6 := i32 (read_navigation_signed data_bits DELTA_T_LSF_6_BIT);
  TOW_6 := i32 (read_navigation_unsigned data_bits TOW_6_BIT)
|}.

(** Word type 7. *)
Record Word7 := mkWord7 {
  IOD_a_7 : Z;
  WN_a_7 : Z;
  t0a_7 : Z;
  SVID1_7 : Z;
  DELTA_A_7 : double;
  e_7 : double;
  omega_7 : double;
  delta_i_7 : double;
  Omega0_7 : double;
  Omega_dot_7 : double;
  M0_7 : double
}.
Definition new_Word7 : Word7 :=
  mkWord7 0 0 0 0 dzero dzero dzero dzero dzero dzero dzero.

Definition read_word_7 (data_bits : bitset) : Word7 := {|
  IOD_a_7 := i32 (read_navigation_unsigned data_bits IOD_A_7_BIT);
  WN_a_7 := i32 (read_navigation_unsigned data_bits WN_A_7_BIT);
  t0a_7 := i32 (i32 (read_navigation_unsigned data_bits T0A_7_BIT) * T0A_7_LSB);
  SVID1_7 := i32 (read_navigation_unsigned data_bits SVI_D1_7_BIT);
  DELTA_A_7 := dmul (double_of_Z (read_navigation_signed data_bits DELTA_A_7_BIT)) DELTA_A_7_LSB;
  e_7 := dmul (double_of_Z (read_navigation_unsigned data_bits E_7_BIT)) E_7_LSB;
  omega_7 := dmul (double_of_Z (read_navigation_signed data_bits OMEGA_7_BIT)) OMEGA_7_LSB;
  delta_i_7 := dmul (double_of_Z (read_navigation_signed data_bits DELTA_I_7_BIT)) DELTA_I_7_LSB;
  Omega0_7 := dmul (double_of_Z (read_navigation_signed data_bits OMEGA0_7_BIT)) OMEGA0_7_LSB;
  Omega_dot_7 := dmul (double_of_Z (read_navigation_signed data_bits OMEGA_DOT_7_BIT)) OMEGA_DOT_7_LSB;
  M0_7 := dmul (double_of_Z (read_navigation_signed data_bits M0_7_BIT)) M0_7_LSB
|}.

(** Word type 8. *)
Record Word8 := mkWord8 {
  IOD_a_8 : Z;
  E5b_HS_8 : Z;
  E1B_HS_8 : Z;
  SVID2_8 : Z;
  af0_8 : double;
  af1_8 : double;
  DELTA_A_8 : double;
  e_8 : double;
  omega_8 : double;
  delta_i_8 : double;
  Omega0_8 : double;
  Omega_dot_8 : double
}.
Definition new_Word8 : Word8 :=
  mkWord8 0 0 0 0 dzero dzero dzero dzero dzero dzero dzero dzero.

Definition read_word_8 (data_bits : bitset) : Word8 := {|
  IOD_a_8 := i32 (read_navigation_unsigned data_bits IOD_A_8_BIT);
  af0_8 := dmul (double_of_Z (read_navigation_signed data_bits AF0_8_BIT)) AF0_8_LSB;
  af1_8 := dmul (double_of_Z (read_navigation_signed data_bits AF1_8_BIT)) AF1_8_LSB;
  E5b_HS_8 := i32 (read_navigation_unsigned data_bits E5B_HS_8_BIT);
  E1B_HS_8 := i32 (read_navigation_unsigned data_bits E1_B_HS_8_BIT);
  SVID2_8 := i32 (read_navigation_unsigned data_bits SVI_D2_8_BIT);
  DELTA_A_8 := dmul (double_of_Z (read_navigation_signed data_bits DELTA_A_8_BIT)) DELTA_A_8_LSB;
  e_8 := dmul (double_of_Z (read_navigation_unsigned data_bits E_8_BIT)) E_8_LSB;
  omega_8 := dmul (double_of_Z (read_navigation_signed data_bits OMEGA_8_BIT)) OMEGA_8_LSB;
  delta_i_8 := dmul (double_of_Z (read_navigation_signed data_bits DELTA_I_8_BIT)) DELTA_I_8_LSB;
  Omega0_8 := dmul (double_of_Z (read_navigation_signed data_bits OMEGA0_8_BIT)) OMEGA0_8_LSB;
  Omega_dot_8 := dmul (double_of_Z (read_navigation_signed data_bits OMEGA_DOT_8_BIT)) OMEGA_DOT_8_LSB
|}.

(** Word type 9. *)
Record Word9 := mkWord9 {
  IOD_a_9 : Z;
  WN_a_9 : Z;
  t0a_9 : Z;
  M0_9 : double;
  af0_9 : double;
  af1_9 : double;
  E5b_HS_9 : Z;
  E1B_HS_9 : Z;
  SVID3_9 : Z;
  DELTA_A_9 : double;
  e_9 : double;
  omega_9 : double;
  delta_i_9 : double
}.
Definition new_Word9 : Word9 :=
  mkWord9 0 0 0 dzero dzero dzero 0 0 0 dzero dzero dzero dzero.

Definition read_word_9 (data_bits : bitset) : Word9 := {|
  IOD_a_9 := i32 (read_navigation_unsigned data_bits IOD_A_9_BIT);
  WN_a_9 := i32 (read_navigation_unsigned data_bits WN_A_9_BIT);
  t0a_9 := i32 (i32 (read_navigation_unsigned data_bits T0A_9_BIT) * T0A_9_LSB);
  M0_9 := dmul (double_of_Z (read_navigation_signed data_bits M0_9_BIT)) M0_9_LSB;
  af0_9 := dmul (double_of_Z (read_navigation_signed data_bits AF0_9_BIT)) AF0_9_LSB;
  af1_9 := dmul (double_of_Z (read_navigation_signed data_bits AF1_9_BIT)) AF1_9_LSB;
  E5b_HS_9 := i32 (read_navigation_unsigned data_bits E5B_HS_9_BIT);
  E1B_HS_9 := i32 (read_navigation_unsigned data_bits E1_B_HS_9_BIT);
  SVID3_9 := i32 (read_navigation_unsigned data_bits SVI_D3_9_BIT);
  DELTA_A_9 := dmul (double_of_Z (read_navigation_signed data_bits DELTA_A_9_BIT)) DELTA_A_9_LSB;
  e_9 := dmul (double_of_Z (read_navigation_unsigned data_bits E_9_BIT)) E_9_LSB;
  omega_9 := dmul (double_of_Z (read_navigation_signed data_bits OMEGA_9_BIT)) OMEGA_9_LSB;
  delta_i_9 := dmul (double_of_Z (read_navigation_signed data_bits DELTA_I_9_BIT)) DELTA_I_9_LSB
|}.

(** Word type 10. *)
Record Word10 := mkWord10 {
  IOD_a_10 : Z;
  Omega0_10 : double;
  Omega_dot_10 : double;
  M0_10 : double;
  af0_10 : double;
  af1_10 : double;
  E5b_HS_10 : Z;
  E1B_HS_10 : Z;
  A_0G_10 : double;
  A_1G_10 : double;
  t_0G_10 : Z;
  WN_0G_10 : Z
}.
Definition new_Word10 : Word10 :=
  mkWord10 0 dzero dzero dzero dzero dzero 0 0 dzero dzero 0 0.

Definition read_word_10 (data_bits : bitset) : Word10 := {|
  IOD_a_10 := i32 (read_navigation_unsigned data_bits IOD_A_10_BIT);
  Omega0_10 := dmul (double_of_Z (read_navigation_signed data_bits OMEGA0_10_BIT)) OMEGA0_10_LSB;
  Omega_dot_10 := dmul (double_of_Z (read_navigation_signed data_bits OMEGA_DOT_10_BIT)) OMEGA_DOT_10_LSB;
  M0_10 := dmul (double_of_Z (read_navigation_signed data_bits M0_10_BIT)) M0_10_LSB;
  af0_10 := dmul (double_of_Z (read_navigation_signed data_bits AF0_10_BIT)) AF0_10_LSB;
  af1_10 := dmul (double_of_Z (read_navigation_signed data_bits AF1_10_BIT)) AF1_10_LSB;
  E5b_HS_10 := i32 (read_navigation_unsigned data_bits E5B_HS_10_BIT);
  E1B_HS_10 := i32 (read_navigation_unsigned data_bits E1_B_HS_10_BIT);
  A_0G_10 := dmul (double_of_Z (read_navigation_signed data_bits A_0_G_10_BIT)) A_0G_10_LSB;
  A_1G_10 := dmul (double_of_Z (read_navigation_signed data_bits A_1_G_10_BIT)) A_1G_10_LSB;
  t_0G_10 := i32 (i32 (read_navigation_unsigned data_bits T_0_G_10_BIT) * T_0_G_10_LSB);
  WN_0G_10 := i32 (read_navigation_unsigned data_bits WN_0_G_10_BIT)
|}.

(** Word type 16. *)
Record Word16 := mkWord16 {
  ced_DeltaAred : double;
  ced_exred : double;
  ced_eyred : double;
  ced_Deltai0red : double;
  ced_Omega0red : double;
  ced_lambda0red : double;
  ced_af0red : double;
  ced_af1red : double
}.
Definition new_Word16 : Word16 :=
  mkWord16 dzero dzero dzero dzero dzero dzero dzero dzero.

Definition read_word_16 (data_bits : bitset) : Word16 := {|
  ced_DeltaAred := dmul (double_of_Z (read_navigation_signed data_bits CED_DeltaAred_BIT)) CED_DeltaAred_LSB;
  ced_exred := dmul (double_of_Z (read_navigation_signed data_bits CED_exred_BIT)) CED_exred_LSB;
  ced_eyred := dmul (double_of_Z (read_navigation_signed data_bits CED_eyred_BIT)) CED_eyred_LSB;
  ced_Deltai0red := dmul (double_of_Z (read_navigation_signed data_bits CED_Deltai0red_BIT)) CED_Deltai0red_LSB;
  ced_Omega0red := dmul (double_of_Z (read_navigation_signed data_bits CED_Omega0red_BIT)) CED_Omega0red_LSB;
  ced_lambda0red := dmul (double_of_Z (read_navigation_signed data_bits CED_lambda0red_BIT)) CED_lambda0red_LSB;
  ced_af0red := dmul (double_of_Z (read_navigation_signed data_bits CED_af0red_BIT)) CED_af0red_LSB;
  ced_af1red := dmul (double_of_Z (read_navigation_signed data_bits CED_af1red_BIT)) CED_af1red_LSB
|}.

(** Word type 0: the time is read when the field [Time_0] is 2. *)
Record Word0 := mkWord0 {
  Time_0 : Z;
  WN_0 : Z;
  TOW_0 : Z
}.
Definition new_Word0 : Word0 := mkWord0 0 0 0.

#[export] Instance eta_Word4 : Eta Word4 := fun w =>
  mkWord4 (IOD_nav_4 w) (SV_ID_PRN_4 w) (C_ic_4 w) (C_is_4 w) (t0c_4 w) (af0_4 w) (af1_4 w)
    (af2_4 w) (spare_4 w).
#[export] Instance eta_Word5 : Eta Word5 := fun w =>
  mkWord5 (ai0_5 w) (ai1_5 w) (ai2_5 w) (BGD_E1E5a_5 w) (BGD_E1E5b_5 w) (E5b_HS_5 w)
    (E1B_HS_5 w) (Region1_flag_5 w) (Region2_flag_5 w) (Region3_flag_5 w) (Region4_flag_5 w)
    (Region5_flag_5 w) (E5b_DVS_5 w) (E1B_DVS_5 w) (WN_5 w) (TOW_5 w) (spare_5 w).
#[export] Instance eta_Word0 : Eta Word0 := fun w => mkWord0 (Time_0 w) (WN_0 w) (TOW_0 w).
