(* ===== verification/InavReaders.v ===== *)
(** * InavReaders: the bit readers read the fields they name

    The readers of InavWords.v compute the binary value, or the two's complement
    value, of the digits of their slices; every slice of the tables lies inside
    its word and the slices of a word are disjoint. *)

From S2P Require Import Prelude Cstring Float64 MathConstants InavTables InavWords.
From stdpp Require Import list strings.
From Stdlib Require Import ZArith Lia.
Local Open Scope Z_scope.

(** ** The digits of a parameter *)

(** The bits that a slice of a bitset of [N] bits visits, in order. *)
Definition slice_bits (N : Z) (bits : bitset) (first len : Z) : list bool :=
  map (fun j => vget false bits (N - first - j)) (seqZ 0 len).

Definition field_bits (N : Z) (bits : bitset) (parameter : bit_field) : list bool :=
  concat (map (fun '(first, len) => slice_bits N bits first len) parameter).

Lemma slice_bits_snoc N bits first len :
  0 <= len ->
  slice_bits N bits first (len + 1) =
  slice_bits N bits first len ++ [vget false bits (N - first - len)].
Proof.
  intros H. unfold slice_bits. rewrite seqZ_app by lia. rewrite map_app.
  rewrite (seqZ_cons _ 1), (seqZ_nil _ (Z.pred 1)) by lia.
  rewrite Z.add_0_l. reflexivity.
Qed.

Lemma slice_bits_nil N bits first len : len <= 0 -> slice_bits N bits first len = [].
Proof. intros H. unfold slice_bits. rewrite seqZ_nil by lia. reflexivity. Qed.

(** A slice that lies inside the bitset is the substring of its digits written
    highest bit first. *)
Lemma slice_bits_rev (N : nat) (bs : list bool) (first len : nat) :
  length bs = N -> (1 <= first)%nat -> (first - 1 + len <= N)%nat ->
  slice_bits (Z.of_nat N) (rev bs) (Z.of_nat first) (Z.of_nat len) =
  take len (drop (first - 1) bs).
Proof.
  intros Hl H1 H2. apply list_eq. intros i. unfold slice_bits.
  destruct (decide (i < len)%nat) as [Hi|Hi].
  - rewrite list_lookup_fmap.
    rewrite lookup_seqZ_lt by lia. cbn [fmap option_fmap option_map].
    rewrite lookup_take_lt, lookup_drop by lia. unfold vget.
    destruct (Z.ltb_spec (Z.of_nat N - Z.of_nat first - (0 + Z.of_nat i)) 0); [lia|].
    rewrite rev_nth by lia.
    replace (length bs - S (Z.to_nat (Z.of_nat N - Z.of_nat first - (0 + Z.of_nat i))))%nat
      with (first - 1 + i)%nat by lia.
    rewrite nth_lookup. destruct (lookup_lt_is_Some_2 bs (first - 1 + i)) as [b ->]; [lia|].
    reflexivity.
  - rewrite !lookup_ge_None_2; [done| |].
    + rewrite length_take. lia.
    + rewrite length_map, length_seqZ. lia.
Qed.

(** ** Unsigned readers *)

Lemma wrap_step w v b :
  0 <= w ->
  (if b : bool then wrap w (wrap w (Z.shiftl (wrap w v) 1) + 1)
   else wrap w (Z.shiftl (wrap w v) 1)) =
  wrap w (2 * v + Z.b2z b).
Proof.
  intros Hw. rewrite Z.shiftl_mul_pow2 by lia. change (2 ^ 1) with 2.
  unfold wrap. destruct b; cbn [Z.b2z].
  - rewrite Zplus_mod_idemp_l, (Z.mul_comm _ 2), Z.add_comm.
    rewrite <- Zplus_mod_idemp_r, Zmult_mod_idemp_r, Zplus_mod_idemp_r. f_equal. lia.
  - rewrite (Z.mul_comm _ 2), Zmult_mod_idemp_r. f_equal. lia.
Qed.

Lemma unsigned_slice w N bits first len v :
  0 <= w -> 0 <= len ->
  for_range 0 len
    (fun j value => if vget false bits (N - first - j)
       then wrap w (wrap w (Z.shiftl value 1) + 1) else wrap w (Z.shiftl value 1)) (wrap w v) =
  wrap w (v * 2 ^ len + bin_value (slice_bits N bits first len)).
Proof.
  intros Hw Hlen.
  apply (for_range_ind (fun k value =>
    value = wrap w (v * 2 ^ k + bin_value (slice_bits N bits first k)))); [lia| |].
  - rewrite slice_bits_nil by lia. f_equal. change (bin_value []) with 0. lia.
  - intros k t Hk ->. rewrite slice_bits_snoc by lia. rewrite bin_value_snoc.
    rewrite (wrap_step w _ (vget false bits (N - first - k))) by lia.
    f_equal. rewrite Z.pow_add_r by lia. change (2 ^ 1) with 2. lia.
Qed.

Definition nonneg_field (p : bit_field) : Prop := Forall (fun '(_, len) => 0 <= len) p.

Lemma slice_bits_length N bits first len :
  0 <= len -> Z.of_nat (length (slice_bits N bits first len)) = len.
Proof. intros H. unfold slice_bits. rewrite length_map, length_seqZ. lia. Qed.

Lemma unsigned_fold w N bits p v :
  0 <= w -> nonneg_field p ->
  for_slices p
    (fun first j value => if vget false bits (N - first - j)
       then wrap w (wrap w (Z.shiftl value 1) + 1) else wrap w (Z.shiftl value 1)) (wrap w v) =
  wrap w (v * 2 ^ Z.of_nat (length (field_bits N bits p)) + bin_value (field_bits N bits p)).
Proof.
  intros Hw Hp. revert v. induction Hp as [|[first len] p Hlen Hp IH]; intros v.
  - cbn. f_equal. change (bin_value []) with 0. lia.
  - unfold for_slices in *. cbn [fold_left]. cbv beta iota.
    rewrite (unsigned_slice w N bits first len v) by lia. rewrite IH. f_equal.
    unfold field_bits. cbn [map concat]. fold (field_bits N bits p).
    rewrite bin_value_app, length_app, Nat2Z.inj_add, Z.pow_add_r by lia.
    rewrite slice_bits_length by lia. ring.
Qed.

(** The unsigned readers, at the width [w] of the value. *)
Lemma unsigned_reader w N bits p :
  0 <= w -> nonneg_field p -> Z.of_nat (length (field_bits N bits p)) <= w ->
  for_slices p
    (fun first j value => if vget false bits (N - first - j)
       then wrap w (wrap w (Z.shiftl value 1) + 1) else wrap w (Z.shiftl value 1)) 0 =
  bin_value (field_bits N bits p).
Proof.
  intros Hw Hp Hl. rewrite <- (wrap_small w 0) at 1 by lia.
  rewrite (unsigned_fold w) by (lia || exact Hp).
  pose proof (bin_value_range (field_bits N bits p)).
  apply wrap_small. assert (2 ^ Z.of_nat (length (field_bits N bits p)) <= 2 ^ w)
    by (apply Z.pow_le_mono_r; lia). lia.
Qed.

Lemma read_unsigned_value bits p :
  nonneg_field p -> (length (field_bits GALILEO_DATA_JK_BITS bits p) <= 64)%nat ->
  read_navigation_unsigned bits p = bin_value (field_bits GALILEO_DATA_JK_BITS bits p).
Proof. intros Hp Hl. apply (unsigned_reader 64); (lia || exact Hp). Qed.

Lemma read_octet_value bits p :
  nonneg_field p -> (length (field_bits GALILEO_DATA_JK_BITS bits p) <= 8)%nat ->
  read_octet_unsigned bits p = bin_value (field_bits GALILEO_DATA_JK_BITS bits p).
Proof. intros Hp Hl. apply (unsigned_reader 8); (lia || exact Hp). Qed.

(** ** The signed reader *)

Lemma even_mask x : Z.land (2 * x) (2 ^ 64 - 2) = (2 * x) mod 2 ^ 64.
Proof.
  replace (2 ^ 64 - 2) with (Z.shiftl (Z.ones 63) 1) by reflexivity.
  replace (2 * x) with (Z.shiftl x 1) by (rewrite Z.shiftl_mul_pow2; lia).
  rewrite <- Z.shiftl_land, Z.land_ones by lia.
  rewrite !Z.shiftl_mul_pow2 by lia. change (2 ^ 64) with (2 ^ 63 * 2 ^ 1).
  rewrite Zmult_mod_distr_r. reflexivity.
Qed.

Lemma swrap_mod w z : swrap w z = wrap w (z + 2 ^ (w - 1)) - 2 ^ (w - 1).
Proof. reflexivity. Qed.

Lemma swrap_wrap w z : 0 < w -> swrap w (wrap w z) = swrap w z.
Proof. intros Hw. unfold swrap, wrap. rewrite Zplus_mod_idemp_l. reflexivity. Qed.

Lemma wrap_swrap w z : 0 < w -> wrap w (swrap w z) = wrap w z.
Proof.
  intros Hw. unfold swrap, wrap. rewrite Zminus_mod_idemp_l. f_equal. lia.
Qed.

Lemma swrap_eq w a b : 0 < w -> wrap w a = wrap w b -> swrap w a = swrap w b.
Proof. intros Hw H. rewrite <- (swrap_wrap w a), <- (swrap_wrap w b), H by lia. reflexivity. Qed.

Lemma shift_signed_eq v : shift_signed v = i64 (2 * v).
Proof.
  unfold shift_signed. rewrite wrap_swrap by lia. rewrite (Z.mul_comm v 2).
  assert (u64 (2 * v) = 2 * (v mod 2 ^ 63)) as E
    by (unfold wrap; change (2 ^ 64) with (2 * 2 ^ 63); apply Zmult_mod_distr_l).
  pose proof (Z.mod_pos_bound v (2 ^ 63) ltac:(lia)).
  rewrite E, even_mask, Z.mod_small, <- E by lia. apply swrap_wrap. lia.
Qed.

Lemma signed_step v b :
  (if b : bool then i64 (shift_signed (i64 v) + 1) else shift_signed (i64 v)) = i64 (2 * v + Z.b2z b).
Proof.
  rewrite shift_signed_eq. destruct b; cbn [Z.b2z]; apply swrap_eq; try lia.
  - unfold wrap. rewrite <- Zplus_mod_idemp_l. fold (wrap 64 (i64 (2 * i64 v))).
    rewrite wrap_swrap by lia. unfold wrap. rewrite Zplus_mod_idemp_l.
    rewrite <- Zplus_mod_idemp_l, <- Zmult_mod_idemp_r. fold (wrap 64 (i64 v)).
    rewrite wrap_swrap by lia. unfold wrap.
    rewrite Zmult_mod_idemp_r, Zplus_mod_idemp_l. reflexivity.
  - unfold wrap. rewrite <- Zmult_mod_idemp_r. fold (wrap 64 (i64 v)).
    rewrite wrap_swrap by lia. unfold wrap. rewrite Zmult_mod_idemp_r. f_equal. lia.
Qed.

Lemma signed_fold N bits p v :
  nonneg_field p ->
  for_slices p
    (fun first j value => if vget false bits (N - first - j)
       then i64 (shift_signed value + 1) else shift_signed value) (i64 v) =
  i64 (v * 2 ^ Z.of_nat (length (field_bits N bits p)) + bin_value (field_bits N bits p)).
Proof.
  intros Hp. revert v. induction Hp as [|[first len] p Hlen Hp IH]; intros v.
  - cbn. f_equal. change (bin_value []) with 0. lia.
  - unfold for_slices in *. cbn [fold_left]. cbv beta iota.
    replace (for_range 0 len _ (i64 v))
      with (i64 (v * 2 ^ len + bin_value (slice_bits N bits first len))).
    + rewrite IH. f_equal. unfold field_bits. cbn [map concat]. fold (field_bits N bits p).
      rewrite bin_value_app, length_app, Nat2Z.inj_add, Z.pow_add_r by lia.
      rewrite slice_bits_length by lia. ring.
    + symmetry. apply (for_range_ind (fun k value =>
        value = i64 (v * 2 ^ k + bin_value (slice_bits N bits first k)))); [lia| |].
      * rewrite slice_bits_nil by lia. f_equal. change (bin_value []) with 0. lia.
      * intros k t Hk ->. rewrite slice_bits_snoc by lia. rewrite bin_value_snoc.
        rewrite (signed_step _ (vget false bits (N - first - k))).
        f_equal. rewrite Z.pow_add_r by lia. change (2 ^ 1) with 2. lia.
Qed.

(** The two's complement value of a digit list. *)
Definition signed_value (bs : list bool) : Z :=
  match bs with
  | [] => 0
  | b :: _ => bin_value bs - (if b then 2 ^ Z.of_nat (length bs) else 0)
  end.

Lemma signed_value_range b bs :
  - 2 ^ Z.of_nat (length bs) <= signed_value (b :: bs) < 2 ^ Z.of_nat (length bs).
Proof.
  unfold signed_value. rewrite bin_value_cons. pose proof (bin_value_range bs).
  cbn [length]. rewrite Nat2Z.inj_succ, Z.pow_succ_r by lia. destruct b; cbn [Z.b2z]; lia.
Qed.

Lemma signed_reader N bits first len p :
  0 < len -> nonneg_field p -> (length (field_bits N bits ((first, len) :: p)) <= 64)%nat ->
  for_slices ((first, len) :: p)
    (fun first j value => if vget false bits (N - first - j)
       then i64 (shift_signed value + 1) else shift_signed value)
    (if vget false bits (N - first) then -1 else 0) =
  signed_value (field_bits N bits ((first, len) :: p)).
Proof.
  intros Hlen Hp Hl.
  assert (exists tl, field_bits N bits ((first, len) :: p) = vget false bits (N - first) :: tl) as [tl E].
  { unfold field_bits. cbn [map concat]. unfold slice_bits. rewrite seqZ_cons by lia.
    cbn [map]. rewrite Z.sub_0_r. eauto. }
  set (b := vget false bits (N - first)) in *.
  replace (if b then -1 else 0) with (i64 (if b then -1 else 0)) by (destruct b; reflexivity).
  rewrite signed_fold by (constructor; [lia|exact Hp]).
  rewrite E in *. pose proof (signed_value_range b tl) as Hr.
  replace ((if b then -1 else 0) * 2 ^ Z.of_nat (length (b :: tl)) + bin_value (b :: tl))
    with (signed_value (b :: tl)) by (unfold signed_value; destruct b; lia).
  cbn [length] in Hl. assert (2 ^ Z.of_nat (length tl) <= 2 ^ 63) by (apply Z.pow_le_mono_r; lia).
  apply swrap_small; lia.
Qed.

Lemma read_signed_value bits first len p :
  0 < len -> nonneg_field p ->
  (length (field_bits GALILEO_DATA_JK_BITS bits ((first, len) :: p)) <= 64)%nat ->
  read_navigation_signed bits ((first, len) :: p) =
  signed_value (field_bits GALILEO_DATA_JK_BITS bits ((first, len) :: p)).
Proof. apply signed_reader. Qed.

Lemma field_bits_single (bs : list bool) (first len : nat) :
  length bs = 128%nat -> (1 <= first)%nat -> (first - 1 + len <= 128)%nat ->
  field_bits GALILEO_DATA_JK_BITS (rev bs) [(Z.of_nat first, Z.of_nat len)] =
  take len (drop (first - 1) bs).
Proof.
  intros Hl H1 H2. unfold field_bits. cbn [map concat]. rewrite app_nil_r.
  exact (slice_bits_rev 128 bs first len Hl H1 H2).
Qed.

(** ** The tables *)

(** The parameters of each word type, in order of position. *)
Definition inav_words : list (list bit_field) :=
  [[PAGE_TYPE_BIT; IOD_NAV_1_BIT; T0_E_1_BIT; M0_1_BIT; E_1_BIT; A_1_BIT];
   [PAGE_TYPE_BIT; IOD_NAV_2_BIT; OMEGA_0_2_BIT; I_0_2_BIT; OMEGA_2_BIT; I_DOT_2_BIT];
   [PAGE_TYPE_BIT; IOD_NAV_3_BIT; OMEGA_DOT_3_BIT; DELTA_N_3_BIT; C_UC_3_BIT; C_US_3_BIT;
    C_RC_3_BIT; C_RS_3_BIT; SISA_3_BIT];
   [PAGE_TYPE_BIT; IOD_NAV_4_BIT; SV_ID_PRN_4_BIT; C_IC_4_BIT; C_IS_4_BIT; T0C_4_BIT; AF0_4_BIT;
    AF1_4_BIT; AF2_4_BIT; SPARE_4_BIT];
   [PAGE_TYPE_BIT; AI0_5_BIT; AI1_5_BIT; AI2_5_BIT; REGION1_5_BIT; REGION2_5_BIT; REGION3_5_BIT;
    REGION4_5_BIT; REGION5_5_BIT; BGD_E1_E5A_5_BIT; BGD_E1_E5B_5_BIT; E5B_HS_5_BIT;
    E1_B_HS_5_BIT; E5B_DVS_5_BIT; E1_B_DVS_5_BIT; WN_5_BIT; TOW_5_BIT; SPARE_5_BIT];
   [PAGE_TYPE_BIT; A0_6_BIT; A1_6_BIT; DELTA_T_LS_6_BIT; T0T_6_BIT; W_NOT_6_BIT; WN_LSF_6_BIT;
    DN_6_BIT; DELTA_T_LSF_6_BIT; TOW_6_BIT];
   [PAGE_TYPE_BIT; IOD_A_7_BIT; WN_A_7_BIT; T0A_7_BIT; SVI_D1_7_BIT; DELTA_A_7_BIT; E_7_BIT;
    OMEGA_7_BIT; DELTA_I_7_BIT; OMEGA0_7_BIT; OMEGA_DOT_7_BIT; M0_7_BIT];
   [PAGE_TYPE_BIT; IOD_A_8_BIT; AF0_8_BIT; AF1_8_BIT; E5B_HS_8_BIT; E1_B_HS_8_BIT; SVI_D2_8_BIT;
    DELTA_A_8_BIT; E_8_BIT; OMEGA_8_BIT; DELTA_I_8_BIT; OMEGA0_8_BIT; OMEGA_DOT_8_BIT];
   [PAGE_TYPE_BIT; IOD_A_9_BIT; WN_A_9_BIT; T0A_9_BIT; M0_9_BIT; AF0_9_BIT; AF1_9_BIT;
    E5B_HS_9_BIT; E1_B_HS_9_BIT; SVI_D3_9_BIT; DELTA_A_9_BIT; E_9_BIT; OMEGA_9_BIT; DELTA_I_9_BIT];
   [PAGE_TYPE_BIT; IOD_A_10_BIT; OMEGA0_10_BIT; OMEGA_DOT_10_BIT; M0_10_BIT; AF0_10_BIT;
    AF1_10_BIT; E5B_HS_10_BIT; E1_B_HS_10_BIT; A_0_G_10_BIT; A_1_G_10_BIT; T_0_G_10_BIT;
    WN_0_G_10_BIT];
   [PAGE_TYPE_BIT; CED_DeltaAred_BIT; CED_exred_BIT; CED_eyred_BIT; CED_Deltai0red_BIT;
    CED_Omega0red_BIT; CED_lambda0red_BIT; CED_af0red_BIT; CED_af1red_BIT];
   [PAGE_TYPE_BIT; [(FIRST_RS_BIT, BITS_IN_OCTET)]; RS_IODNAV_LSBS;
    [(FIRST_RS_BIT_AFTER_IODNAV, 14 * BITS_IN_OCTET)]];
   [PAGE_TYPE_BIT; TIME_0_BIT; WN_0_BIT; TOW_0_BIT]].

(** The slices of a word from bit [from] on: in order, without overlap, each at
    least one bit, within the 128 bits of the word. *)
Fixpoint slices_ok (from : Z) (w : bit_field) : bool :=
  match w with
  | [] => from <=? GALILEO_DATA_JK_BITS + 1
  | (first, len) :: w' => (from <=? first) && (1 <=? len) && slices_ok (first + len) w'
  end.

(** The parameter tables are well formed: in every word type the slices of
    the parameters lie inside the 128 bits of the word, follow one another and
    never overlap. *)
Theorem inav_tables_wellformed :
  Forall (fun w => slices_ok 1 (concat w) = true) inav_words.
Proof. repeat constructor; vm_compute; reflexivity. Qed.

(** On a 128-bit word, reading a parameter of up to 64 bits yields exactly
    the digits of its slice: their binary value with the unsigned reader, their
    two's complement value with the signed one, and, up to 8 bits, their value
    with the octet reader. *)
Theorem readers_read_slice (bs : list bool) (first len : nat) :
  length bs = 128%nat -> (1 <= first)%nat -> (first - 1 + len <= 128)%nat ->
  (1 <= len <= 64)%nat ->
  let p := [(Z.of_nat first, Z.of_nat len)] in
  let digits := take len (drop (first - 1) bs) in
  read_navigation_unsigned (rev bs) p = bin_value digits /\
  read_navigation_signed (rev bs) p = signed_value digits /\
  ((len <= 8)%nat -> read_octet_unsigned (rev bs) p = bin_value digits).
Proof.
  intros Hl H1 H2 H3 p digits.
  pose proof (field_bits_single bs first len Hl H1 H2) as E. fold p digits in E.
  assert (length digits = len) as Hd by (unfold digits; rewrite length_take, length_drop; lia).
  assert (nonneg_field p) as Hp by (repeat constructor; lia).
  rewrite <- E. split; [|split; [|intros H8]].
  - apply read_unsigned_value; [exact Hp|rewrite E; lia].
  - apply read_signed_value; [lia|constructor|]. fold p. rewrite E. lia.
  - apply read_octet_value; [exact Hp|rewrite E; lia].
Qed.

Lemma readers_read_slice_witness :
  let bs := replicate 16 false ++ [true; false; true] ++ replicate 109 true in
  read_navigation_unsigned (rev bs) [(17, 3)] = 5 /\
  read_navigation_signed (rev bs) [(17, 3)] = -3.
Proof.
  intros bs. destruct (readers_read_slice bs 17 3) as (H1 & H2 & _); [reflexivity|lia..|].
  split; [exact H1|exact H2].
Defined.
