(* ===== verification/FieldLayout.v ===== *)
(** * FieldLayout: messages written field by field

    A message of [n] bits as a list of fields at their positions, from 1, and
    what the readers of InavReaders find in it when the fields do not overlap. *)

From S2P Require Import Prelude Cstring Float64 InavTables InavWords InavReaders.
From stdpp Require Import list.
From Stdlib Require Import ZArith Lia.
Local Open Scope Z_scope.

(** ** Writing *)

(** The positions of a field, from 1, the most significant bit first. *)
Definition positions (p : bit_field) : list Z :=
  concat (map (fun '(first, len) => seqZ first len) p).

Definition width (p : bit_field) : Z := Z.of_nat (length (positions p)).

(** The bit at a position: that of the field there, or zero. *)
Fixpoint bit_at (fields : list (bit_field * Z)) (pos : Z) : bool :=
  match fields with
  | [] => false
  | (p, v) :: fields =>
      match list_find (eq pos) (positions p) with
      | Some (k, _) => Z.testbit v (width p - 1 - Z.of_nat k)
      | None => bit_at fields pos
      end
  end.

Lemma vget_to_bin n v i : 0 <= i < Z.of_nat n ->
  vget false (to_bin n v) i = Z.testbit v (Z.of_nat n - 1 - i).
Proof.
  revert i. induction n as [|n IH]; intros i Hi; [lia|]. cbn [to_bin].
  destruct (Z.eq_dec i 0) as [->|Hne]; [cbn; f_equal; lia|].
  transitivity (vget false (to_bin n v) (i - 1)); [|rewrite IH by lia; f_equal; lia].
  unfold vget. destruct (Z.ltb_spec i 0), (Z.ltb_spec (i - 1) 0); try lia.
  replace (Z.to_nat i) with (S (Z.to_nat (i - 1))) by lia. reflexivity.
Qed.

Section layout.
Context (n : nat).

(** A message of [n] bits. *)
Definition write_bits (fields : list (bit_field * Z)) : list bool :=
  map (bit_at fields) (seqZ 1 (Z.of_nat n)).

(** Fields inside the message that do not overlap. *)
Definition layout_in (fields : list (bit_field * Z)) : bool :=
  let all := concat (map (fun f => positions f.1) fields) in
  bool_decide (NoDup all) && forallb (fun pos => (1 <=? pos) && (pos <=? Z.of_nat n)) all.

Lemma write_bits_length fields : length (write_bits fields) = n.
Proof. unfold write_bits. rewrite length_map, length_seqZ. lia. Qed.

(** ** Reading *)

Lemma field_bits_written fields p : Forall (fun pos => 1 <= pos <= Z.of_nat n) (positions p) ->
  field_bits (Z.of_nat n) (rev (write_bits fields)) p = map (bit_at fields) (positions p).
Proof.
  unfold field_bits, positions. induction p as [|[first len] p IH]; intros Hp; [reflexivity|].
  cbn [map concat] in *. apply Forall_app in Hp as [Hs Hp].
  rewrite map_app, IH by exact Hp. f_equal. unfold slice_bits.
  assert (seqZ first len = map (fun j => first + j) (seqZ 0 len)) as E
    by (symmetry; etransitivity; [apply (fmap_add_seqZ first 0 len)|now rewrite Z.add_0_r]).
  rewrite E in *. rewrite map_map. apply map_ext_in. intros j Hj.
  rewrite Forall_map, Forall_forall in Hs. specialize (Hs j (proj2 (list_elem_of_In _ _) Hj)).
  cbn in Hs. rewrite vget_rev, write_bits_length by (rewrite write_bits_length; lia).
  unfold write_bits. rewrite (vget_fmap 0) by (unfold in_range; rewrite length_seqZ; lia).
  rewrite vget_seqZ by lia. f_equal. lia.
Qed.

Lemma own_bits v (ps : list Z) w : NoDup ps ->
  map (fun pos => match list_find (eq pos) ps with
                  | Some (k, _) => Z.testbit v (w - 1 - Z.of_nat k) | None => false end) ps =
  map (fun k => Z.testbit v (w - 1 - Z.of_nat k)) (seq 0 (length ps)).
Proof.
  intros Hnd. apply (list_eq_same_length _ _ (length ps)); [now rewrite ?length_map, ?length_seq|now rewrite ?length_map, ?length_seq|].
  intros i x y Hi. rewrite !list_lookup_fmap, lookup_seq_lt by exact Hi.
  destruct (ps !! i) as [pos|] eqn:E; [|discriminate]. cbn. intros [= <-] [= <-].
  assert (list_find (eq pos) ps = Some (i, pos)) as ->; [|reflexivity].
  apply list_find_Some. split; [exact E|]. split; [reflexivity|].
  intros j z Hj Hlt <-. pose proof (NoDup_lookup ps i j pos Hnd E Hj). lia.
Qed.

Lemma to_bin_map v w : map (fun k => Z.testbit v (Z.of_nat w - 1 - Z.of_nat k)) (seq 0 w) = to_bin w v.
Proof.
  apply (vget_ext false); [now rewrite length_map, length_seq, length_to_bin|].
  rewrite length_map, length_seq. intros i Hi. rewrite vget_to_bin by exact Hi.
  rewrite (vget_fmap 0%nat) by (unfold in_range; rewrite length_seq; lia).
  unfold vget. destruct (Z.ltb_spec i 0); [lia|]. rewrite seq_nth by lia. f_equal. lia.
Qed.

Lemma bits_written fields p v : layout_in fields = true -> In (p, v) fields ->
  map (bit_at fields) (positions p) = to_bin (length (positions p)) v.
Proof.
  intros Hok Hin. apply andb_true_iff in Hok as [Hnd _]. apply bool_decide_eq_true in Hnd.
  induction fields as [|[p' v'] fields IH]; [destruct Hin|]. cbn [map concat fst] in Hnd.
  apply NoDup_app in Hnd as (Hnd & Hdisj & Hnds). destruct Hin as [[= -> ->]|Hin].
  - rewrite <- to_bin_map, <- (own_bits v (positions p)) by exact Hnd.
    apply map_ext_in. intros pos Hpos. cbn [bit_at].
    destruct (list_find (eq pos) (positions p)) as [[k x]|] eqn:E; [reflexivity|].
    apply list_find_None in E. rewrite Forall_forall in E.
    destruct (E pos (proj2 (list_elem_of_In _ _) Hpos) eq_refl).
  - rewrite <- IH by assumption. apply map_ext_in. intros pos Hpos. cbn [bit_at].
    destruct (list_find (eq pos) (positions p')) as [[k x]|] eqn:E; [|reflexivity].
    apply list_find_Some in E as (E & <- & _). apply list_elem_of_lookup_2 in E.
    destruct (Hdisj pos E). apply list_elem_of_In, in_concat. exists (positions p). split; [|exact Hpos].
    apply in_map_iff. exists (p, v). split; [reflexivity|exact Hin].
Qed.

Lemma positions_inside fields p v : layout_in fields = true -> In (p, v) fields ->
  Forall (fun pos => 1 <= pos <= Z.of_nat n) (positions p).
Proof.
  intros Hok Hin. apply andb_true_iff in Hok as [_ Hr]. rewrite forallb_forall in Hr.
  apply Forall_forall. intros pos Hpos. specialize (Hr pos).
  rewrite andb_true_iff in Hr. destruct Hr as [H1 H2]; [|lia].
  apply in_concat. exists (positions p). split; [|now apply list_elem_of_In].
  apply in_map_iff. exists (p, v). split; [reflexivity|exact Hin].
Qed.

Lemma field_written_in fields p v : layout_in fields = true -> In (p, v) fields ->
  field_bits (Z.of_nat n) (rev (write_bits fields)) p = to_bin (length (positions p)) v.
Proof.
  intros Hok Hin. rewrite field_bits_written by (eapply positions_inside; eassumption).
  now apply bits_written.
Qed.
End layout.

(** ** Widths *)

Definition first_length (p : bit_field) : Z := match p with (_, len) :: _ => len | [] => 0 end.

Definition width_ok (p : bit_field) : bool :=
  forallb (fun s => 0 <=? s.2) p && (0 <? first_length p) && (width p <=? 63).

Lemma width_ok_nonneg p : width_ok p = true -> nonneg_field p.
Proof.
  intros H. unfold width_ok in H. rewrite !andb_true_iff in H. destruct H as [[H _] _].
  rewrite forallb_forall in H. apply List.Forall_forall. intros [first len] Hi.
  specialize (H _ Hi). cbn in H. lia.
Qed.

Lemma signed_to_bin n v : (0 < n)%nat -> - 2 ^ (Z.of_nat n - 1) <= v < 2 ^ (Z.of_nat n - 1) ->
  signed_value (to_bin n v) = v.
Proof.
  intros Hn Hv. destruct n as [|n]; [lia|].
  assert (2 ^ Z.of_nat (S n) = 2 * 2 ^ Z.of_nat n) as E2
    by (rewrite Nat2Z.inj_succ, Z.pow_succ_r; lia).
  replace (Z.of_nat (S n) - 1) with (Z.of_nat n) in Hv by lia.
  pose proof (Z.pow_pos_nonneg 2 (Z.of_nat n)).
  change (signed_value (to_bin (S n) v)) with (bin_value (to_bin (S n) v) -
    (if Z.testbit v (Z.of_nat n) then 2 ^ Z.of_nat (S (length (to_bin n v))) else 0)).
  rewrite bin_value_to_bin, length_to_bin. rewrite Z.testbit_eqb by lia.
  destruct (Z_lt_ge_dec v 0).
  - assert (v / 2 ^ Z.of_nat n = -1) as -> by (symmetry; apply (Z.div_unique _ _ _ (v + 2 ^ Z.of_nat n)); lia).
    cbn [Z.modulo Z.eqb]. replace (-1 mod 2 =? 1) with true by reflexivity.
    rewrite <- (Z.mod_unique v (2 ^ Z.of_nat (S n)) (-1) (v + 2 ^ Z.of_nat (S n))); lia.
  - rewrite Z.div_small by lia. change (0 mod 2 =? 1) with false. cbv iota. rewrite Z.mod_small; lia.
Qed.
