(* ===== verification/InavMessage.v ===== *)
(** * InavMessage: the Galileo I/NAV message decoder

    [class Galileo_Inav_Message] of
    [src/src/core/system_parameters/galileo_inav_message.{h,cc}]: joining page
    halves and checking their CRC, dispatching on the word type, collecting the
    octets of the FEC2 Reed-Solomon code, regenerating missing words, and
    reporting complete data sets.  The CRC and the bit-to-byte packing are
    Boost's ([Boost]); the Reed-Solomon decoder is the interface [RSDecoder],
    which ReedSolomon.v implements.  Members of one word type are grouped in a
    record ([word_1] holds [IOD_nav_1], [t0e_1], ...). *)

From S2P Require Import Prelude Cstring Float64 MathConstants InavTables InavWords GalileoData.
From stdpp Require Import gmap list strings.
From Stdlib Require Import ZArith Lia Ascii.
Local Open Scope Z_scope.
Local Open Scope cxx_scope.

Class Boost := {
  (** The blocks of [boost::dynamic_bitset<unsigned char>(s)], lowest first. *)
  to_block_range : cstring -> list Z;
  (** The checksum of [CRC_Galileo_INAV_type] after [process_bytes]. *)
  crc_galileo_inav : list Z -> Z
}.

Class RSDecoder := {
  (** [rs->decode(data, erasure_positions)]: the result and the data after. *)
  rs_decode : list Z -> list Z -> Z * list Z
}.

(** ** State *)

Record Galileo_Inav_Message := mkGalileo_Inav_Message {
  page_Even : cstring;
  data_OSNMA : cstring;
  data_nav : cstring;
  rs_buffer : list Z;
  inav_rs_pages : list Z;
  Page_type_time_stamp : Z;
  IOD_ephemeris : Z;
  word_1 : Word1;
  word_2 : Word2;
  word_3 : Word3;
  word_4 : Word4;
  word_5 : Word5;
  word_6 : Word6;
  word_7 : Word7;
  word_8 : Word8;
  word_9 : Word9;
  word_10 : Word10;
  word_0 : Word0;
  word_16 : Word16;
  Galileo_satClkDrift : double;
  current_IODnav : Z;
  IODnav_LSB17 : Z;
  IODnav_LSB18 : Z;
  IODnav_LSB19 : Z;
  IODnav_LSB20 : Z;
  flag_CRC_test : bool;
  flag_all_ephemeris : bool;
  flag_ephemeris_1 : bool;
  flag_ephemeris_2 : bool;
  flag_ephemeris_3 : bool;
  flag_ephemeris_4 : bool;
  flag_iono_and_GST : bool;
  flag_TOW_5 : bool;
  flag_TOW_6 : bool;
  flag_TOW_0 : bool;
  flag_TOW_set : bool;
  flag_utc_model : bool;
  flag_all_almanac : bool;
  flag_almanac_1 : bool;
  flag_almanac_2 : bool;
  flag_almanac_3 : bool;
  flag_almanac_4 : bool;
  flag_GGTO_1 : bool;
  flag_GGTO_2 : bool;
  flag_GGTO_3 : bool;
  flag_GGTO_4 : bool;
  flag_CED : bool;
  enable_rs : bool
}.
#[export] Instance eta_Galileo_Inav_Message : Eta Galileo_Inav_Message := fun m =>
  mkGalileo_Inav_Message (page_Even m) (data_OSNMA m) (data_nav m) (rs_buffer m) (inav_rs_pages m)
    (Page_type_time_stamp m) (IOD_ephemeris m) (word_1 m) (word_2 m) (word_3 m)
    (word_4 m) (word_5 m) (word_6 m) (word_7 m) (word_8 m) (word_9 m) (word_10 m)
    (word_0 m) (word_16 m) (Galileo_satClkDrift m) (current_IODnav m) (IODnav_LSB17 m)
    (IODnav_LSB18 m) (IODnav_LSB19 m) (IODnav_LSB20 m) (flag_CRC_test m)
    (flag_all_ephemeris m) (flag_ephemeris_1 m) (flag_ephemeris_2 m) (flag_ephemeris_3 m)
    (flag_ephemeris_4 m) (flag_iono_and_GST m) (flag_TOW_5 m) (flag_TOW_6 m)
    (flag_TOW_0 m) (flag_TOW_set m) (flag_utc_model m) (flag_all_almanac m)
    (flag_almanac_1 m) (flag_almanac_2 m) (flag_almanac_3 m) (flag_almanac_4 m)
    (flag_GGTO_1 m) (flag_GGTO_2 m) (flag_GGTO_3 m) (flag_GGTO_4 m) (flag_CED m)
    (enable_rs m).

(** The constructor. *)
Definition new_Galileo_Inav_Message : Galileo_Inav_Message := {|
  page_Even := [];
  data_OSNMA := [];
  data_nav := [];
  rs_buffer := replicate (Z.to_nat INAV_RS_BUFFER_LENGTH) 0;
  inav_rs_pages := replicate 8 0;
  Page_type_time_stamp := 0;
  IOD_ephemeris := 0;
  word_1 := new_Word1;
  word_2 := new_Word2;
  word_3 := new_Word3;
  word_4 := new_Word4;
  word_5 := new_Word5;
  word_6 := new_Word6;
  word_7 := new_Word7;
  word_8 := new_Word8;
  word_9 := new_Word9;
  word_10 := new_Word10;
  word_0 := new_Word0;
  word_16 := new_Word16;
  Galileo_satClkDrift := dzero;
  current_IODnav := 0;
  IODnav_LSB17 := 0;
  IODnav_LSB18 := 0;
  IODnav_LSB19 := 0;
  IODnav_LSB20 := 0;
  flag_CRC_test := false;
  flag_all_ephemeris := false;
  flag_ephemeris_1 := false;
  flag_ephemeris_2 := false;
  flag_ephemeris_3 := false;
  flag_ephemeris_4 := false;
  flag_iono_and_GST := false;
  flag_TOW_5 := false;
  flag_TOW_6 := false;
  flag_TOW_0 := false;
  flag_TOW_set := false;
  flag_utc_model := false;
  flag_all_almanac := false;
  flag_almanac_1 := false;
  flag_almanac_2 := false;
  flag_almanac_3 := false;
  flag_almanac_4 := false;
  flag_GGTO_1 := false;
  flag_GGTO_2 := false;
  flag_GGTO_3 := false;
  flag_GGTO_4 := false;
  flag_CED := false;
  enable_rs := false
|}.

(** ** CRC *)

Definition CRC_test `{Boost} (bits : bitset) (checksum : Z) : bool :=
  let bytes := rev (to_block_range (bitset_to_string bits)) in
  checksum =? crc_galileo_inav (take (Z.to_nat GALILEO_DATA_FRAME_BYTES) bytes).

(** ** Reading the ephemeris words *)

Definition read_page_1 (data_bits : bitset) (m : Galileo_Inav_Message) : Galileo_Inav_Message :=
  m <| word_1 := read_word_1 data_bits |> <| flag_ephemeris_1 := true |>.
Definition read_page_2 (data_bits : bitset) (m : Galileo_Inav_Message) : Galileo_Inav_Message :=
  m <| word_2 := read_word_2 data_bits |> <| flag_ephemeris_2 := true |>.
Definition read_page_3 (data_bits : bitset) (m : Galileo_Inav_Message) : Galileo_Inav_Message :=
  m <| word_3 := read_word_3 data_bits |> <| flag_ephemeris_3 := true |>.
Definition read_page_4 (data_bits : bitset) (m : Galileo_Inav_Message) : Galileo_Inav_Message :=
  m <| word_4 := read_word_4 data_bits |> <| flag_ephemeris_4 := true |>.

(** ** Regenerating a word from the decoded octets

    [data_bits] is written in transmission order, bit 0 first sent, then
    reversed into the order of [std::bitset]. *)

Definition bitset_set (b : bitset) (i : Z) : bitset := vset b i true.
Definition new_bitset : bitset := replicate (Z.to_nat GALILEO_DATA_JK_BITS) false.

Definition reverse_bits (data_bits : bitset) : bitset :=
  for_range 0 GALILEO_DATA_JK_BITS
    (fun i r => vset r (GALILEO_DATA_JK_BITS - i - 1) (vget false data_bits i)) new_bitset.

(** [data_bits[at + i] = octet[8 - i - 1]] for [i] from 0 to 7. *)
Definition put_octet (at_bit : Z) (v : Z) (data_bits : bitset) : bitset :=
  let octet := bitset_of_ulong 8 v in
  for_range 0 8 (fun i b => vset b (at_bit + i) (vget false octet (8 - i - 1))) data_bits.

Definition put_iodnav (v : Z) (data_bits : bitset) : bitset :=
  let iodnav := bitset_of_ulong 10 v in
  for_range 0 10 (fun i b => vset b (6 + i) (vget false iodnav (10 - i - 1))) data_bits.

Definition regenerate_page_1 (decoded : list Z) : bitset :=
  let data_bits := bitset_set new_bitset 5 in
  let c0 := bitset_of_ulong 8 (vget 0 decoded 0) in
  let c1 := bitset_of_ulong 8 (vget 0 decoded 1) in
  let data_bits :=
    for_range 0 8 (fun i b => vset b (6 + i) (vget false c1 (8 - i - 1))) data_bits in
  let data_bits := vset data_bits 14 (vget false c0 1) in
  let data_bits := vset data_bits 15 (vget false c0 0) in
  let data_bits := for_range 2 16 (fun k b => put_octet (k * 8) (vget 0 decoded k) b) data_bits in
  reverse_bits data_bits.

Definition regenerate_page_2 (current_IODnav : Z) (decoded : list Z) : bitset :=
  let data_bits := bitset_set new_bitset 4 in
  let data_bits := put_iodnav current_IODnav data_bits in
  reverse_bits
    (for_range 0 14 (fun k b => put_octet (16 + k * 8) (vget 0 decoded (k + 16)) b) data_bits).

Definition regenerate_page_3 (current_IODnav : Z) (decoded : list Z) : bitset :=
  let data_bits := bitset_set (bitset_set new_bitset 4) 5 in
  let data_bits := put_iodnav current_IODnav data_bits in
  reverse_bits
    (for_range 0 14 (fun k b => put_octet (16 + k * 8) (vget 0 decoded (k + 30)) b) data_bits).

Definition regenerate_page_4 (current_IODnav : Z) (decoded : list Z) : bitset :=
  let data_bits := bitset_set new_bitset 3 in
  let data_bits := put_iodnav current_IODnav data_bits in
  reverse_bits
    (for_range 0 14 (fun k b => put_octet (16 + k * 8) (vget 0 decoded (k + 44)) b) data_bits).

(** ** Storing the Reed-Solomon octets *)

Definition zero_rs_buffer : list Z := replicate (Z.to_nat INAV_RS_BUFFER_LENGTH) 0.
Definition zero_rs_pages : list Z := replicate 8 0.

(** An ephemeris word with another IODnav than the one being collected restarts
    the collection. *)
Definition follow_IODnav (iod : Z) (m : Galileo_Inav_Message) : Galileo_Inav_Message :=
  let m := if current_IODnav m =? 0 then m <| current_IODnav := iod |> else m in
  if negb (current_IODnav m =? iod)
  then m <| current_IODnav := iod |> <| rs_buffer := zero_rs_buffer |>
         <| inav_rs_pages := zero_rs_pages |>
  else m.

(** [rs_buffer[at + i] = read_octet_unsigned(bits, {start_bit, 8})] for [i] in
    a range, with [start_bit] advancing by an octet. *)
Definition store_octets (bits : bitset) (at_i lo hi : Z) (buffer : list Z) : list Z :=
  (for_range lo hi
     (fun i '(buffer, start_bit) =>
        (vset buffer (at_i + i) (read_octet_unsigned bits [(start_bit, BITS_IN_OCTET)]),
         start_bit + BITS_IN_OCTET))
     (buffer, FIRST_RS_BIT_AFTER_IODNAV)).1.

(** [rs_buffer[0] = 4 + current_IODnav % 4]. *)
Definition known_octet (current_IODnav : Z) : Z := u8 (4 + Z.rem current_IODnav 4).

Definition page_arrived (k : Z) (m : Galileo_Inav_Message) : Galileo_Inav_Message :=
  m <| inav_rs_pages ::= fun p => vset p k 1 |>.

Definition store_info_1 (bits : bitset) (m : Galileo_Inav_Message) : Galileo_Inav_Message :=
  let m := follow_IODnav (IOD_nav_1 (word_1 m)) m in
  let m := m <| rs_buffer ::= fun b => vset b 0 (read_octet_unsigned bits [(1, 6); (15, 2)]) |> in
  let m := m <| rs_buffer ::= fun b => vset b 1 (read_octet_unsigned bits [(7, BITS_IN_OCTET)]) |> in
  page_arrived 0 (m <| rs_buffer ::= store_octets bits 0 2 16 |>).

Definition store_info_2 (bits : bitset) (m : Galileo_Inav_Message) : Galileo_Inav_Message :=
  let m := follow_IODnav (IOD_nav_2 (word_2 m)) m in
  let m := m <| rs_buffer ::= fun b => vset b 0 (known_octet (current_IODnav m)) |> in
  page_arrived 1 (m <| rs_buffer ::= store_octets bits 0 16 30 |>).

Definition store_info_3 (bits : bitset) (m : Galileo_Inav_Message) : Galileo_Inav_Message :=
  let m := follow_IODnav (IOD_nav_3 (word_3 m)) m in
  let m := m <| rs_buffer ::= fun b => vset b 0 (known_octet (current_IODnav m)) |> in
  page_arrived 2 (m <| rs_buffer ::= store_octets bits 0 30 44 |>).

Definition store_info_4 (bits : bitset) (m : Galileo_Inav_Message) : Galileo_Inav_Message :=
  let m := follow_IODnav (IOD_nav_4 (word_4 m)) m in
  let m := m <| rs_buffer ::= fun b => vset b 0 (known_octet (current_IODnav m)) |> in
  page_arrived 3 (m <| rs_buffer ::= store_octets bits 0 44 INAV_RS_INFO_VECTOR_LENGTH |>).

(** A parity word whose two IODnav bits differ invalidates the ephemeris words
    collected so far. *)
Definition check_IODnav_LSB (lsb : Z) (m : Galileo_Inav_Message) : Galileo_Inav_Message :=
  if negb (lsb =? u8 (Z.rem (current_IODnav m) 4))
  then m <| inav_rs_pages ::= fun p => vset (vset (vset (vset p 0 0) 1 0) 2 0) 3 0 |>
  else m.

(** The parity octets of the [k]-th parity word. *)
Definition store_parity (k : Z) (bits : bitset) (m : Galileo_Inav_Message) : Galileo_Inav_Message :=
  let m := m <| rs_buffer ::= fun b =>
    vset b (INAV_RS_INFO_VECTOR_LENGTH + k * INAV_RS_SUBVECTOR_LENGTH)
      (read_octet_unsigned bits [(FIRST_RS_BIT, BITS_IN_OCTET)]) |> in
  m <| rs_buffer ::= store_octets bits INAV_RS_INFO_VECTOR_LENGTH
         (k * INAV_RS_SUBVECTOR_LENGTH + 1) ((k + 1) * INAV_RS_SUBVECTOR_LENGTH) |>.

(** ** The words, by type *)

Definition decode_word_1 (bits : bitset) (m : Galileo_Inav_Message) : Galileo_Inav_Message :=
  let m := read_page_1 bits m in
  if enable_rs m then store_info_1 bits m else m.
Definition decode_word_2 (bits : bitset) (m : Galileo_Inav_Message) : Galileo_Inav_Message :=
  let m := read_page_2 bits m in
  if enable_rs m then store_info_2 bits m else m.
Definition decode_word_3 (bits : bitset) (m : Galileo_Inav_Message) : Galileo_Inav_Message :=
  let m := read_page_3 bits m in
  if enable_rs m then store_info_3 bits m else m.
Definition decode_word_4 (bits : bitset) (m : Galileo_Inav_Message) : Galileo_Inav_Message :=
  let m := read_page_4 bits m in
  if enable_rs m then store_info_4 bits m else m.

Definition decode_word_5 (bits : bitset) (m : Galileo_Inav_Message) : Galileo_Inav_Message :=
  m <| word_5 := read_word_5 bits |>
    <| word_0 ::= fun w => w <| WN_0 := WN_5 (read_word_5 bits) |> |>
    <| flag_TOW_5 := true |> <| flag_iono_and_GST := true |> <| flag_TOW_set := true |>.

Definition decode_word_6 (bits : bitset) (m : Galileo_Inav_Message) : Galileo_Inav_Message :=
  m <| word_6 := read_word_6 bits |>
    <| flag_TOW_6 := true |> <| flag_utc_model := true |> <| flag_TOW_set := true |>.

Definition decode_word_7 (bits : bitset) (m : Galileo_Inav_Message) : Galileo_Inav_Message :=
  m <| word_7 := read_word_7 bits |> <| flag_almanac_1 := true |>.
Definition decode_word_8 (bits : bitset) (m : Galileo_Inav_Message) : Galileo_Inav_Message :=
  m <| word_8 := read_word_8 bits |> <| flag_almanac_2 := true |>.
Definition decode_word_9 (bits : bitset) (m : Galileo_Inav_Message) : Galileo_Inav_Message :=
  m <| word_9 := read_word_9 bits |> <| flag_almanac_3 := true |>.
Definition decode_word_10 (bits : bitset) (m : Galileo_Inav_Message) : Galileo_Inav_Message :=
  m <| word_10 := read_word_10 bits |>
    <| flag_GGTO_1 := true |> <| flag_GGTO_2 := true |> <| flag_GGTO_3 := true |>
    <| flag_GGTO_4 := true |> <| flag_almanac_4 := true |>.

Definition decode_word_16 (bits : bitset) (m : Galileo_Inav_Message) : Galileo_Inav_Message :=
  m <| word_16 := read_word_16 bits |> <| flag_CED := true |>.

Definition decode_word_17 (bits : bitset) (m : Galileo_Inav_Message) : Galileo_Inav_Message :=
  if enable_rs m then
    let m := m <| IODnav_LSB17 := read_octet_unsigned bits RS_IODNAV_LSBS |> in
    let m := check_IODnav_LSB (IODnav_LSB17 m) m in
    page_arrived 4 (store_parity 0 bits m)
  else m.
Definition decode_word_18 (bits : bitset) (m : Galileo_Inav_Message) : Galileo_Inav_Message :=
  if enable_rs m then
    let m := m <| IODnav_LSB18 := read_octet_unsigned bits RS_IODNAV_LSBS |> in
    let m := check_IODnav_LSB (IODnav_LSB18 m) m in
    page_arrived 5 (store_parity 1 bits m)
  else m.
Definition decode_word_19 (bits : bitset) (m : Galileo_Inav_Message) : Galileo_Inav_Message :=
  if enable_rs m then
    let m := m <| IODnav_LSB19 := read_octet_unsigned bits RS_IODNAV_LSBS |> in
    let m := check_IODnav_LSB (IODnav_LSB19 m) m in
    page_arrived 6 (store_parity 2 bits m)
  else m.
Definition decode_word_20 (bits : bitset) (m : Galileo_Inav_Message) : Galileo_Inav_Message :=
  if enable_rs m then
    let m := m <| IODnav_LSB20 := read_octet_unsigned bits RS_IODNAV_LSBS |> in
    let m := check_IODnav_LSB (IODnav_LSB20 m) m in
    page_arrived 7 (store_parity 3 bits m)
  else m.

Definition decode_word_0 (bits : bitset) (m : Galileo_Inav_Message) : Galileo_Inav_Message :=
  let m := m <| word_0 ::= fun w => w <| Time_0 := i32 (read_navigation_unsigned bits TIME_0_BIT) |> |> in
  if Time_0 (word_0 m) =? 2 then
    let m := m <| word_0 ::= fun w => w <| WN_0 := i32 (read_navigation_unsigned bits WN_0_BIT) |> |> in
    let m := m <| word_5 ::= fun w => w <| WN_5 := WN_0 (word_0 m) |> |> in
    let m := m <| word_0 ::= fun w => w <| TOW_0 := i32 (read_navigation_unsigned bits TOW_0_BIT) |> |> in
    m <| flag_TOW_set := true |> <| flag_TOW_0 := true |>
  else m.

(** The [switch] of [page_jk_decoder]. *)
Definition decode_word (page_number : Z) (bits : bitset) (m : Galileo_Inav_Message)
  : Galileo_Inav_Message :=
  match page_number with
  | 0 => decode_word_0 bits m
  | 1 => decode_word_1 bits m
  | 2 => decode_word_2 bits m
  | 3 => decode_word_3 bits m
  | 4 => decode_word_4 bits m
  | 5 => decode_word_5 bits m
  | 6 => decode_word_6 bits m
  | 7 => decode_word_7 bits m
  | 8 => decode_word_8 bits m
  | 9 => decode_word_9 bits m
  | 10 => decode_word_10 bits m
  | 16 => decode_word_16 bits m
  | 17 => decode_word_17 bits m
  | 18 => decode_word_18 bits m
  | 19 => decode_word_19 bits m
  | 20 => decode_word_20 bits m
  | _ => m
  end.

Definition page_jk_decoder (data_jk : cstring) : prog Galileo_Inav_Message Z :=
  data_jk_bits <- lift (bitset_of_string (Z.to_nat GALILEO_DATA_JK_BITS) data_jk);;
  let page_number := i32 (read_navigation_unsigned data_jk_bits PAGE_TYPE_BIT) in
  modify (decode_word page_number data_jk_bits);;
  ret page_number.

(** ** Joining page halves *)

(** An odd page joined with the even page kept in memory.  The [substr]s whose
    results the code does not use still throw when the page is too short. *)
Definition join_page `{Boost} (page_Odd : cstring) : prog Galileo_Inav_Message unit :=
  page_INAV_even <- gets page_Even;;
  let page_INAV := page_INAV_even ++ page_Odd in
  lift (substr page_INAV 0 1);;
  lift (substr page_INAV 1 1);;
  Data_k <- lift (substr page_INAV 2 112);;
  lift (substr page_INAV 114 1);;
  lift (substr page_INAV 115 1);;
  Data_j <- lift (substr page_INAV 116 16);;
  Reserved_1 <- lift (substr page_INAV 132 40);;
  lift (substr page_INAV 172 22);;
  lift (substr page_INAV 194 2);;
  CRC_data <- lift (substr page_INAV 196 24);;
  lift (substr page_INAV 220 8);;
  lift (substr page_INAV 228 6);;
  TLM_word_for_CRC <- lift (substr page_INAV 0 GALILEO_DATA_FRAME_BITS);;
  TLM_word_for_CRC_bits <-
    lift (bitset_of_string (Z.to_nat GALILEO_DATA_FRAME_BITS) TLM_word_for_CRC);;
  checksum <- lift (bitset_of_string 24 CRC_data);;
  if CRC_test TLM_word_for_CRC_bits (u32 (bitset_to_ulong checksum)) then
    modify (fun m => m <| flag_CRC_test := true |>);;
    page_number_bits <- lift (substr Data_k 0 6);;
    page_type_bits <- lift (bitset_of_string (Z.to_nat GALILEO_PAGE_TYPE_BITS) page_number_bits);;
    let Page_type := i32 (read_page_type_unsigned page_type_bits TYPE) in
    modify (fun m => m <| Page_type_time_stamp := Page_type |>);;
    let Data_jk_ephemeris := Data_k ++ Data_j in
    page_jk_decoder Data_jk_ephemeris;;
    modify (fun m => m <| data_nav := Data_jk_ephemeris |>);;
    modify (fun m => m <| data_OSNMA := Reserved_1 |>)
  else modify (fun m => m <| flag_CRC_test := false |>).

Definition split_page `{Boost} (page_string : cstring) (flag_even_word : Z)
  : prog Galileo_Inav_Message unit :=
  c <- lift (str_at page_string 0);;
  if Ascii.eqb c "1" then
    if flag_even_word =? 1 then join_page page_string else ret tt
  else
    page <- lift (substr page_string 0 114);;
    modify (fun m => m <| page_Even := page |>).

(** ** Complete data sets *)

Definition same_IODnav (m : Galileo_Inav_Message) : bool :=
  (IOD_nav_1 (word_1 m) =? IOD_nav_2 (word_2 m)) && (IOD_nav_3 (word_3 m) =? IOD_nav_4 (word_4 m))
  && (IOD_nav_1 (word_1 m) =? IOD_nav_3 (word_3 m)).

Definition clear_ephemeris_flags (m : Galileo_Inav_Message) : Galileo_Inav_Message :=
  m <| flag_ephemeris_1 := false |> <| flag_ephemeris_2 := false |>
    <| flag_ephemeris_3 := false |> <| flag_ephemeris_4 := false |>.

(** [flag_all_ephemeris = true; IOD_ephemeris = IOD_nav_1; enable_rs = false]. *)
Definition set_all_ephemeris (m : Galileo_Inav_Message) : Galileo_Inav_Message :=
  m <| flag_all_ephemeris := true |> <| IOD_ephemeris := IOD_nav_1 (word_1 m) |>
    <| enable_rs := false |>.

(** The octets of the pages that have not arrived; parity positions refer to the
    unshortened code. *)
Definition missing (pages : list Z) (k lo hi shift : Z) : list Z :=
  if vget 0 pages k =? 0 then map (fun i => i + shift) (seqZ lo (hi - lo)) else [].

Definition erasure_positions (pages : list Z) : list Z :=
  missing pages 0 1 16 0 ++ missing pages 1 16 30 0 ++ missing pages 2 30 44 0 ++
  missing pages 3 44 58 0 ++ missing pages 4 58 73 137 ++ missing pages 5 73 88 137 ++
  missing pages 6 88 103 137 ++ missing pages 7 103 118 137.

(** The ephemeris words that have not arrived, read from the decoded octets. *)
Definition read_missing_pages (m : Galileo_Inav_Message) : Galileo_Inav_Message :=
  let m := if vget 0 (inav_rs_pages m) 0 =? 0
           then read_page_1 (regenerate_page_1 (rs_buffer m)) m else m in
  let m := if vget 0 (inav_rs_pages m) 1 =? 0
           then read_page_2 (regenerate_page_2 (current_IODnav m) (rs_buffer m)) m else m in
  let m := if vget 0 (inav_rs_pages m) 2 =? 0
           then read_page_3 (regenerate_page_3 (current_IODnav m) (rs_buffer m)) m else m in
  if vget 0 (inav_rs_pages m) 3 =? 0
  then read_page_4 (regenerate_page_4 (current_IODnav m) (rs_buffer m)) m else m.

(** The FEC2 branch of [have_new_ephemeris]. *)
Definition recover_ephemeris `{RSDecoder} (m : Galileo_Inav_Message) : bool * Galileo_Inav_Message :=
  if fold_left Z.add (inav_rs_pages m) 0 =? 4 then
    let '(result, data) := rs_decode (rs_buffer m) (erasure_positions (inav_rs_pages m)) in
    let m := m <| rs_buffer := data |> in
    if 0 <=? result then
      let m := read_missing_pages m in
      let m := m <| inav_rs_pages := zero_rs_pages |> in
      (true, set_all_ephemeris (clear_ephemeris_flags m))
    else (false, m)
  else (false, m).

Definition have_new_ephemeris `{RSDecoder} (m : Galileo_Inav_Message) : bool * Galileo_Inav_Message :=
  if (flag_ephemeris_1 m && flag_ephemeris_2 m && flag_ephemeris_3 m && flag_ephemeris_4 m
      && flag_iono_and_GST m) && same_IODnav m
  then (true, set_all_ephemeris (clear_ephemeris_flags m))
  else if enable_rs m then recover_ephemeris m
  else (false, m).

Definition have_new_iono_and_GST (m : Galileo_Inav_Message) : bool * Galileo_Inav_Message :=
  if flag_iono_and_GST m && flag_utc_model m
  then (true, m <| flag_iono_and_GST := false |>) else (false, m).

Definition have_new_utc_model (m : Galileo_Inav_Message) : bool * Galileo_Inav_Message :=
  if flag_utc_model m then (true, m <| flag_utc_model := false |>) else (false, m).

Definition have_new_almanac (m : Galileo_Inav_Message) : bool * Galileo_Inav_Message :=
  if flag_almanac_1 m && flag_almanac_2 m && flag_almanac_3 m && flag_almanac_4 m
  then (true, m <| flag_almanac_1 := false |> <| flag_almanac_2 := false |>
                <| flag_almanac_3 := false |> <| flag_almanac_4 := false |>
                <| flag_all_almanac := true |>)
  else (false, m).

Definition have_new_reduced_ced (m : Galileo_Inav_Message) : bool * Galileo_Inav_Message :=
  if flag_CED m && (0 <? WN_5 (word_5 m)) then (true, m <| flag_CED := false |>) else (false, m).

(** ** Getters *)

Definition get_flag_CRC_test (m : Galileo_Inav_Message) : bool := flag_CRC_test m.
Definition get_flag_TOW_set (m : Galileo_Inav_Message) : bool := flag_TOW_set m.
Definition get_Galileo_week (m : Galileo_Inav_Message) : Z := WN_0 (word_0 m).
Definition get_TOW5 (m : Galileo_Inav_Message) : Z := TOW_5 (word_5 m).
Definition get_TOW6 (m : Galileo_Inav_Message) : Z := TOW_6 (word_6 m).
Definition is_TOW5_set (m : Galileo_Inav_Message) : bool := flag_TOW_5 m.
Definition is_TOW6_set (m : Galileo_Inav_Message) : bool := flag_TOW_6 m.
Definition get_TOW0 (m : Galileo_Inav_Message) : Z := TOW_0 (word_0 m).
Definition is_TOW0_set (m : Galileo_Inav_Message) : bool := flag_TOW_0 m.
Definition get_A0G (m : Galileo_Inav_Message) : double := A_0G_10 (word_10 m).
Definition get_A1G (m : Galileo_Inav_Message) : double := A_1G_10 (word_10 m).
Definition get_t0G (m : Galileo_Inav_Message) : double := double_of_Z (t_0G_10 (word_10 m)).
Definition get_WN0G (m : Galileo_Inav_Message) : double := double_of_Z (WN_0G_10 (word_10 m)).

Definition get_flag_GGTO (m : Galileo_Inav_Message) : bool :=
  flag_GGTO_1 m && flag_GGTO_2 m && flag_GGTO_3 m && flag_GGTO_4 m.
Definition set_flag_TOW_set (flag_tow : bool) (m : Galileo_Inav_Message) : Galileo_Inav_Message :=
  m <| flag_TOW_set := flag_tow |>.
Definition set_TOW5_flag (flag_tow5 : bool) (m : Galileo_Inav_Message) : Galileo_Inav_Message :=
  m <| flag_TOW_5 := flag_tow5 |>.
Definition set_TOW6_flag (flag_tow6 : bool) (m : Galileo_Inav_Message) : Galileo_Inav_Message :=
  m <| flag_TOW_6 := flag_tow6 |>.
Definition set_TOW0_flag (flag_tow0 : bool) (m : Galileo_Inav_Message) : Galileo_Inav_Message :=
  m <| flag_TOW_0 := flag_tow0 |>.
Definition init_PRN (prn : Z) (m : Galileo_Inav_Message) : Galileo_Inav_Message :=
  m <| word_4 ::= fun w => w <| SV_ID_PRN_4 := i32 prn |> |>.
Definition enable_reed_solomon (m : Galileo_Inav_Message) : Galileo_Inav_Message :=
  m <| enable_rs := true |>.

Definition get_osnma (m : Galileo_Inav_Message) : Galileo_OSNMA :=
  mkGalileo_OSNMA (SV_ID_PRN_4 (word_4 m)) (data_OSNMA m) (data_nav m).

Definition get_ephemeris (m : Galileo_Inav_Message) : Galileo_Ephemeris.t :=
  Galileo_Ephemeris.new
    <| Galileo_Ephemeris.flag_all_ephemeris := flag_all_ephemeris m |>
    <| Galileo_Ephemeris.IOD_ephemeris := IOD_ephemeris m |>
    <| Galileo_Ephemeris.IOD_nav := IOD_nav_1 (word_1 m) |>
    <| Galileo_Ephemeris.PRN := u32 (SV_ID_PRN_4 (word_4 m)) |>
    <| Galileo_Ephemeris.M_0 := M0_1 (word_1 m) |>
    <| Galileo_Ephemeris.delta_n := delta_n_3 (word_3 m) |>
    <| Galileo_Ephemeris.ecc := e_1 (word_1 m) |>
    <| Galileo_Ephemeris.sqrtA := A_1 (word_1 m) |>
    <| Galileo_Ephemeris.OMEGA_0 := OMEGA_0_2 (word_2 m) |>
    <| Galileo_Ephemeris.i_0 := i_0_2 (word_2 m) |>
    <| Galileo_Ephemeris.omega := omega_2 (word_2 m) |>
    <| Galileo_Ephemeris.OMEGAdot := OMEGA_dot_3 (word_3 m) |>
    <| Galileo_Ephemeris.idot := iDot_2 (word_2 m) |>
    <| Galileo_Ephemeris.Cuc := C_uc_3 (word_3 m) |>
    <| Galileo_Ephemeris.Cus := C_us_3 (word_3 m) |>
    <| Galileo_Ephemeris.Crc := C_rc_3 (word_3 m) |>
    <| Galileo_Ephemeris.Crs := C_rs_3 (word_3 m) |>
    <| Galileo_Ephemeris.Cic := C_ic_4 (word_4 m) |>
    <| Galileo_Ephemeris.Cis := C_is_4 (word_4 m) |>
    <| Galileo_Ephemeris.toe := t0e_1 (word_1 m) |>
    <| Galileo_Ephemeris.toc := t0c_4 (word_4 m) |>
    <| Galileo_Ephemeris.af0 := af0_4 (word_4 m) |>
    <| Galileo_Ephemeris.af1 := af1_4 (word_4 m) |>
    <| Galileo_Ephemeris.af2 := af2_4 (word_4 m) |>
    <| Galileo_Ephemeris.WN := WN_5 (word_5 m) |>
    <| Galileo_Ephemeris.tow := TOW_5 (word_5 m) |>
    <| Galileo_Ephemeris.SISA := SISA_3 (word_3 m) |>
    <| Galileo_Ephemeris.E5b_HS := E5b_HS_5 (word_5 m) |>
    <| Galileo_Ephemeris.E1B_HS := E1B_HS_5 (word_5 m) |>
    <| Galileo_Ephemeris.E5b_DVS := E5b_DVS_5 (word_5 m) |>
    <| Galileo_Ephemeris.E1B_DVS := E1B_DVS_5 (word_5 m) |>
    <| Galileo_Ephemeris.BGD_E1E5a := BGD_E1E5a_5 (word_5 m) |>
    <| Galileo_Ephemeris.BGD_E1E5b := BGD_E1E5b_5 (word_5 m) |>
    <| Galileo_Ephemeris.satClkDrift := Galileo_satClkDrift m |>.

Definition get_iono (m : Galileo_Inav_Message) : Galileo_Iono.t :=
  Galileo_Iono.new
    <| Galileo_Iono.ai0 := ai0_5 (word_5 m) |>
    <| Galileo_Iono.ai1 := ai1_5 (word_5 m) |>
    <| Galileo_Iono.ai2 := ai2_5 (word_5 m) |>
    <| Galileo_Iono.tow := TOW_5 (word_5 m) |>
    <| Galileo_Iono.WN := WN_5 (word_5 m) |>
    <| Galileo_Iono.Region1_flag := Region1_flag_5 (word_5 m) |>
    <| Galileo_Iono.Region2_flag := Region2_flag_5 (word_5 m) |>
    <| Galileo_Iono.Region3_flag := Region3_flag_5 (word_5 m) |>
    <| Galileo_Iono.Region4_flag := Region4_flag_5 (word_5 m) |>
    <| Galileo_Iono.Region5_flag := Region5_flag_5 (word_5 m) |>.

Definition get_utc_model (m : Galileo_Inav_Message) : Galileo_Utc_Model.t :=
  Galileo_Utc_Model.new
    <| Galileo_Utc_Model.A0 := A0_6 (word_6 m) |>
    <| Galileo_Utc_Model.A1 := A1_6 (word_6 m) |>
    <| Galileo_Utc_Model.Delta_tLS := Delta_tLS_6 (word_6 m) |>
    <| Galileo_Utc_Model.tot := t0t_6 (word_6 m) |>
    <| Galileo_Utc_Model.WNot := WNot_6 (word_6 m) |>
    <| Galileo_Utc_Model.WN_LSF := WN_LSF_6 (word_6 m) |>
    <| Galileo_Utc_Model.DN := DN_6 (word_6 m) |>
    <| Galileo_Utc_Model.Delta_tLSF := Delta_tLSF_6 (word_6 m) |>
    <| Galileo_Utc_Model.flag_utc_model := flag_utc_model m |>
    <| Galileo_Utc_Model.A_0G := A_0G_10 (word_10 m) |>
    <| Galileo_Utc_Model.A_1G := A_1G_10 (word_10 m) |>
    <| Galileo_Utc_Model.t_0G := t_0G_10 (word_10 m) |>
    <| Galileo_Utc_Model.WN_0G := WN_0G_10 (word_10 m) |>.

Definition get_almanac (m : Galileo_Inav_Message) : Galileo_Almanac_Helper.t :=
  Galileo_Almanac_Helper.new
    <| Galileo_Almanac_Helper.IOD_a_7 := IOD_a_7 (word_7 m) |>
    <| Galileo_Almanac_Helper.WN_a_7 := WN_a_7 (word_7 m) |>
    <| Galileo_Almanac_Helper.t0a_7 := t0a_7 (word_7 m) |>
    <| Galileo_Almanac_Helper.SVID1_7 := SVID1_7 (word_7 m) |>
    <| Galileo_Almanac_Helper.DELTA_A_7 := DELTA_A_7 (word_7 m) |>
    <| Galileo_Almanac_Helper.e_7 := e_7 (word_7 m) |>
    <| Galileo_Almanac_Helper.omega_7 := omega_7 (word_7 m) |>
    <| Galileo_Almanac_Helper.delta_i_7 := delta_i_7 (word_7 m) |>
    <| Galileo_Almanac_Helper.Omega0_7 := Omega0_7 (word_7 m) |>
    <| Galileo_Almanac_Helper.Omega_dot_7 := Omega_dot_7 (word_7 m) |>
    <| Galileo_Almanac_Helper.M0_7 := M0_7 (word_7 m) |>
    <| Galileo_Almanac_Helper.IOD_a_8 := IOD_a_8 (word_8 m) |>
    <| Galileo_Almanac_Helper.af0_8 := af0_8 (word_8 m) |>
    <| Galileo_Almanac_Helper.af1_8 := af1_8 (word_8 m) |>
    <| Galileo_Almanac_Helper.E5b_HS_8 := E5b_HS_8 (word_8 m) |>
    <| Galileo_Almanac_Helper.E1B_HS_8 := E1B_HS_8 (word_8 m) |>
    <| Galileo_Almanac_Helper.SVID2_8 := SVID2_8 (word_8 m) |>
    <| Galileo_Almanac_Helper.DELTA_A_8 := DELTA_A_8 (word_8 m) |>
    <| Galileo_Almanac_Helper.e_8 := e_8 (word_8 m) |>
    <| Galileo_Almanac_Helper.omega_8 := omega_8 (word_8 m) |>
    <| Galileo_Almanac_Helper.delta_i_8 := delta_i_8 (word_8 m) |>
    <| Galileo_Almanac_Helper.Omega0_8 := Omega0_8 (word_8 m) |>
    <| Galileo_Almanac_Helper.Omega_dot_8 := Omega_dot_8 (word_8 m) |>
    <| Galileo_Almanac_Helper.IOD_a_9 := IOD_a_9 (word_9 m) |>
    <| Galileo_Almanac_Helper.WN_a_9 := WN_a_9 (word_9 m) |>
    <| Galileo_Almanac_Helper.t0a_9 := t0a_9 (word_9 m) |>
    <| Galileo_Almanac_Helper.M0_9 := M0_9 (word_9 m) |>
    <| Galileo_Almanac_Helper.af0_9 := af0_9 (word_9 m) |>
    <| Galileo_Almanac_Helper.af1_9 := af1_9 (word_9 m) |>
    <| Galileo_Almanac_Helper.E5b_HS_9 := E5b_HS_9 (word_9 m) |>
    <| Galileo_Almanac_Helper.E1B_HS_9 := E1B_HS_9 (word_9 m) |>
    <| Galileo_Almanac_Helper.SVID3_9 := SVID3_9 (word_9 m) |>
    <| Galileo_Almanac_Helper.DELTA_A_9 := DELTA_A_9 (word_9 m) |>
    <| Galileo_Almanac_Helper.e_9 := e_9 (word_9 m) |>
    <| Galileo_Almanac_Helper.omega_9 := omega_9 (word_9 m) |>
    <| Galileo_Almanac_Helper.delta_i_9 := delta_i_9 (word_9 m) |>
    <| Galileo_Almanac_Helper.IOD_a_10 := IOD_a_10 (word_10 m) |>
    <| Galileo_Almanac_Helper.Omega0_10 := Omega0_10 (word_10 m) |>
    <| Galileo_Almanac_Helper.Omega_dot_10 := Omega_dot_10 (word_10 m) |>
    <| Galileo_Almanac_Helper.M0_10 := M0_10 (word_10 m) |>
    <| Galileo_Almanac_Helper.af0_10 := af0_10 (word_10 m) |>
    <| Galileo_Almanac_Helper.af1_10 := af1_10 (word_10 m) |>
    <| Galileo_Almanac_Helper.E5b_HS_10 := E5b_HS_10 (word_10 m) |>
    <| Galileo_Almanac_Helper.E1B_HS_10 := E1B_HS_10 (word_10 m) |>.

(** The largest of the four IODnav values. *)
Definition max_IOD_nav (m : Galileo_Inav_Message) : Z :=
  fold_left (fun mx v => if mx <? v then v else mx)
    [IOD_nav_2 (word_2 m); IOD_nav_3 (word_3 m); IOD_nav_4 (word_4 m)] (IOD_nav_1 (word_1 m)).

(** [WN_5 * 604800 + TOW + delay], in [int32_t]. *)
Definition TOTRedCED (m : Galileo_Inav_Message) : Z :=
  let week := i32 (WN_5 (word_5 m) * 604800) in
  if TOW_6 (word_6 m) <? TOW_5 (word_5 m)
  then i32 (i32 (week + TOW_5 (word_5 m)) + 4)
  else i32 (i32 (week + TOW_6 (word_6 m)) + 10).

Definition get_reduced_ced `{Libm} (m : Galileo_Inav_Message) : Galileo_Ephemeris.t :=
  compute_eph (Galileo_Reduced_CED.new
    <| Galileo_Reduced_CED.PRN := u32 (SV_ID_PRN_4 (word_4 m)) |>
    <| Galileo_Reduced_CED.TOTRedCED := TOTRedCED m |>
    <| Galileo_Reduced_CED.IODnav := max_IOD_nav m |>
    <| Galileo_Reduced_CED.DeltaAred := ced_DeltaAred (word_16 m) |>
    <| Galileo_Reduced_CED.exred := ced_exred (word_16 m) |>
    <| Galileo_Reduced_CED.eyred := ced_eyred (word_16 m) |>
    <| Galileo_Reduced_CED.Deltai0red := ced_Deltai0red (word_16 m) |>
    <| Galileo_Reduced_CED.Omega0red := ced_Omega0red (word_16 m) |>
    <| Galileo_Reduced_CED.lambda0red := ced_lambda0red (word_16 m) |>
    <| Galileo_Reduced_CED.af0red := ced_af0red (word_16 m) |>
    <| Galileo_Reduced_CED.af1red := ced_af1red (word_16 m) |>).
