(* ===== verification/InavProofs.v ===== *)
(** * InavProofs: lemmas on the octets of the FEC2 collection

    What the octet writers of InavMessage.v put where, and that the octets of
    an ephemeris word determine it: [regenerate_page] on a buffer that holds
    the octets of a word gives the word. *)

From S2P Require Import Prelude Cstring BinString Float64 InavTables InavWords InavReaders.
From S2P Require Import GalileoData InavMessage.
From stdpp Require Import gmap list strings.
From Stdlib Require Import ZArith Lia Ascii.
Local Open Scope Z_scope.
Local Open Scope cxx_scope.

(** ** Writing octets into a bitset *)

Lemma vget_bitset_ulong (N : nat) v i :
  0 <= i < Z.of_nat N ->
  vget false (bitset_of_ulong N v) (Z.of_nat N - i - 1) = vget false (to_bin N v) i.
Proof.
  intros Hi. unfold bitset_of_ulong. rewrite vget_rev by (rewrite length_to_bin; lia).
  rewrite length_to_bin. f_equal. lia.
Qed.

(** [put_octet] writes the digits of the octet, highest first. *)
Lemma put_octet_spec at_bit v (b : bitset) :
  0 <= at_bit -> at_bit + 8 <= Z.of_nat (length b) ->
  length (put_octet at_bit v b) = length b /\
  forall j, vget false (put_octet at_bit v b) j =
    if decide (at_bit <= j < at_bit + 8) then vget false (to_bin 8 v) (j - at_bit)
    else vget false b j.
Proof.
  intros H0 H1. unfold put_octet.
  destruct (vset_loop false (fun i => at_bit + i)
    (fun i => vget false (bitset_of_ulong 8 v) (8 - i - 1)) 0 8 b) as (Hl & Hin & Hout);
    [lia|lia|unfold in_range; lia|].
  split; [exact Hl|]. intros j. case_decide as Hj.
  - replace j with (at_bit + (j - at_bit)) at 1 by lia. rewrite Hin by lia.
    apply (vget_bitset_ulong 8 v). lia.
  - apply Hout. lia.
Qed.

Lemma put_iodnav_spec v (b : bitset) :
  16 <= Z.of_nat (length b) ->
  length (put_iodnav v b) = length b /\
  forall j, vget false (put_iodnav v b) j =
    if decide (6 <= j < 16) then vget false (to_bin 10 v) (j - 6) else vget false b j.
Proof.
  intros H1. unfold put_iodnav.
  destruct (vset_loop false (fun i => 6 + i)
    (fun i => vget false (bitset_of_ulong 10 v) (10 - i - 1)) 0 10 b) as (Hl & Hin & Hout);
    [lia|lia|unfold in_range; lia|].
  split; [exact Hl|]. intros j. case_decide as Hj.
  - replace j with (6 + (j - 6)) at 1 by lia. rewrite Hin by lia.
    apply (vget_bitset_ulong 10 v). lia.
  - apply Hout. lia.
Qed.

(** Octets [g lo], ..., [g (hi - 1)] written one after the other. *)
Lemma put_octets_spec off (g : Z -> Z) lo hi (b : bitset) :
  0 <= lo <= hi -> 0 <= off -> off + hi * 8 <= Z.of_nat (length b) ->
  let r := for_range lo hi (fun k b => put_octet (off + k * 8) (g k) b) b in
  length r = length b /\
  forall j, vget false r j =
    if decide (off + lo * 8 <= j < off + hi * 8)
    then vget false (to_bin 8 (g ((j - off) / 8))) ((j - off) mod 8) else vget false b j.
Proof.
  intros Hlo Hoff Hb. cbv zeta.
  pose (P := fun (n : Z) (r : bitset) => length r = length b /\
    forall j, vget false r j =
      if decide (off + lo * 8 <= j < off + n * 8)
      then vget false (to_bin 8 (g ((j - off) / 8))) ((j - off) mod 8) else vget false b j).
  apply (for_range_ind P); unfold P; [lia| |].
  - split; [done|]. intros j. rewrite decide_False by lia. reflexivity.
  - intros k r Hk (Hl & IH).
    destruct (put_octet_spec (off + k * 8) (g k) r) as [Hl' Hv]; [lia|lia|].
    split; [lia|]. intros j. rewrite Hv. case_decide as H1.
    + rewrite decide_True by lia.
      replace ((j - off) / 8) with k by (apply Z.div_unique with (j - (off + k * 8)); lia).
      replace ((j - off) mod 8) with (j - (off + k * 8))
        by (apply Z.mod_unique with k; lia). reflexivity.
    + rewrite IH. destruct (decide (off + lo * 8 <= j < off + k * 8)) as [H2|H2].
      * rewrite decide_True by lia. reflexivity.
      * rewrite decide_False by lia. reflexivity.
Qed.

Lemma reverse_bits_rev (d : bitset) : length d = 128%nat -> reverse_bits d = rev d.
Proof.
  intros Hd. unfold reverse_bits, GALILEO_DATA_JK_BITS.
  destruct (vset_loop false (fun i => 128 - i - 1) (fun i => vget false d i) 0 128 new_bitset)
    as (Hl & Hin & _); [lia|lia| |].
  { intros i Hi. unfold in_range. change (Z.of_nat (length new_bitset)) with 128. lia. }
  apply (vget_ext false); [rewrite Hl, length_rev, Hd; reflexivity|].
  intros i Hi. rewrite Hl in Hi. change (Z.of_nat (length new_bitset)) with 128 in Hi.
  rewrite vget_rev by lia. rewrite Hd. change (Z.of_nat 128) with 128.
  specialize (Hin (127 - i) ltac:(lia)). cbv beta in Hin.
  replace (128 - (127 - i) - 1) with i in Hin by lia. rewrite Hin. f_equal.
Qed.

(** ** Storing octets *)

Lemma read_octet_at (bs : list bool) (sb : Z) :
  length bs = 128%nat -> 1 <= sb -> sb + 7 <= 128 ->
  read_octet_unsigned (rev bs) [(sb, BITS_IN_OCTET)] = field bs (sb - 1) 8.
Proof.
  intros Hl H1 H2. unfold BITS_IN_OCTET, field, slice.
  pose proof (field_bits_single bs (Z.to_nat sb) 8 Hl ltac:(lia) ltac:(lia)) as E.
  rewrite Z2Nat.id in E by lia. change (Z.of_nat 8) with 8 in E.
  rewrite read_octet_value.
  - rewrite E. do 3 f_equal. lia.
  - repeat constructor. lia.
  - rewrite E, length_take. lia.
Qed.

(** The octets of a word from position [lo] of the buffer on, where position
    [i] holds the octet of the word's bits [16 + 8 (i - lo)] and following. *)
Lemma store_octets_spec (bs : list bool) at_i lo hi (buf : list Z) :
  length bs = 128%nat -> 0 <= lo <= hi -> hi - lo <= 14 -> 0 <= at_i ->
  at_i + hi <= Z.of_nat (length buf) ->
  length (store_octets (rev bs) at_i lo hi buf) = length buf /\
  forall j, vget 0 (store_octets (rev bs) at_i lo hi buf) j =
    if decide (at_i + lo <= j < at_i + hi) then field bs (16 + 8 * (j - at_i - lo)) 8
    else vget 0 buf j.
Proof.
  intros Hl Hlo Hn Hat Hb. unfold store_octets, FIRST_RS_BIT_AFTER_IODNAV.
  pose (P := fun (n : Z) '((r, sb) : list Z * Z) =>
    sb = 17 + 8 * (n - lo) /\ length r = length buf /\
    forall j, vget 0 r j =
      if decide (at_i + lo <= j < at_i + n) then field bs (16 + 8 * (j - at_i - lo)) 8
      else vget 0 buf j).
  pose proof (for_range_ind P lo hi
    (fun i '(buffer, start_bit) =>
      (vset buffer (at_i + i) (read_octet_unsigned (rev bs) [(start_bit, BITS_IN_OCTET)]),
       start_bit + BITS_IN_OCTET)) (buf, 17)) as H.
  destruct (for_range lo hi _ (buf, 17)) as [r sb]. cbn [fst].
  unfold P in H. destruct H as (_ & H1 & H2); [lia| | |auto].
  - split; [lia|]. split; [done|]. intros j. rewrite decide_False by lia. reflexivity.
  - intros i [r' sb'] Hi (-> & Hlr & IH). split; [unfold BITS_IN_OCTET; lia|].
    rewrite length_vset. split; [exact Hlr|]. intros j.
    rewrite read_octet_at by lia.
    destruct (decide (j = at_i + i)) as [->|Hne].
    + rewrite vget_vset_eq by (unfold in_range; lia). rewrite decide_True by lia.
      f_equal. lia.
    + rewrite vget_vset_ne by congruence. rewrite IH.
      destruct (decide (at_i + lo <= j < at_i + i)).
      * rewrite decide_True by lia. reflexivity.
      * rewrite decide_False by lia. reflexivity.
Qed.

(** ** Regenerating a stored word *)

Lemma slice_8 bs p : 0 <= p -> p + 8 <= blen bs -> to_bin 8 (field bs p 8) = slice bs p 8.
Proof.
  intros Hp Hl. unfold field.
  rewrite <- (to_bin_bin_value (slice bs p 8)) at 2.
  rewrite slice_length by lia. reflexivity.
Qed.

Lemma vget_slice bs p n i :
  0 <= p -> 0 <= i < n -> vget false (slice bs p n) i = vget false bs (p + i).
Proof.
  intros Hp Hi. unfold slice, vget.
  destruct (Z.ltb_spec i 0); [lia|]. destruct (Z.ltb_spec (p + i) 0); [lia|].
  rewrite !nth_lookup, lookup_take_lt, lookup_drop by lia. do 2 f_equal. lia.
Qed.

(** Words 2 to 4: the type bits [ty], the IODnav and fourteen octets. *)
Lemma regenerate_word (bs ty : list bool) (iod at_i : Z) (buf : list Z) (d0 : bitset) :
  length bs = 128%nat -> take 6 bs = ty -> length d0 = 128%nat -> take 6 d0 = ty ->
  iod = field bs 6 10 ->
  (forall k, 0 <= k < 14 -> vget 0 buf (k + at_i) = field bs (16 + 8 * k) 8) ->
  reverse_bits
    (for_range 0 14 (fun k b => put_octet (16 + k * 8) (vget 0 buf (k + at_i)) b)
       (put_iodnav iod d0)) = rev bs.
Proof.
  intros Hl Hty Hd0 Hty0 -> Hbuf.
  destruct (put_iodnav_spec (field bs 6 10) d0) as [Hl1 Hv1]; [lia|].
  destruct (put_octets_spec 16 (fun k => vget 0 buf (k + at_i)) 0 14
    (put_iodnav (field bs 6 10) d0)) as [Hl2 Hv2]; [lia|lia|lia|].
  rewrite reverse_bits_rev by congruence. f_equal.
  apply (vget_ext false); [congruence|]. intros j Hj. rewrite Hl2, Hl1, Hd0 in Hj.
  rewrite Hv2. case_decide as H1.
  - pose proof (Z.div_mod (j - 16) 8 ltac:(lia)). pose proof (Z.mod_pos_bound (j - 16) 8 ltac:(lia)).
    rewrite Hbuf by lia. rewrite slice_8 by (unfold blen; lia).
    rewrite vget_slice by lia. f_equal. lia.
  - rewrite Hv1. case_decide as H2.
    + replace (to_bin 10 (field bs 6 10)) with (slice bs 6 10).
      * rewrite vget_slice by lia. f_equal. lia.
      * unfold field. rewrite <- (to_bin_bin_value (slice bs 6 10)) at 1.
        rewrite slice_length by (unfold blen; lia). reflexivity.
    + assert (0 <= j < 6) as Hj6 by lia.
      transitivity (vget false (take 6 d0) j); [|rewrite Hty0, <- Hty];
        unfold vget; destruct (Z.ltb_spec j 0); try lia;
        rewrite !nth_lookup, lookup_take_lt by lia; reflexivity.
Qed.

(** Word 1: the first octet holds the type and two bits of data. *)
Lemma regenerate_first (bs : list bool) (buf : list Z) :
  length bs = 128%nat -> take 6 bs = to_bin 6 1 ->
  vget 0 buf 0 = bin_value (slice bs 0 6 ++ slice bs 14 2) ->
  vget 0 buf 1 = field bs 6 8 ->
  (forall k, 2 <= k < 16 -> vget 0 buf k = field bs (16 + 8 * (k - 2)) 8) ->
  regenerate_page_1 buf = rev bs.
Proof.
  intros Hl Hty H0 H1 Hbuf. unfold regenerate_page_1. rewrite H0, H1. cbv zeta.
  set (d0 := bitset_set new_bitset 5).
  change (for_range 0 8 _ d0) with (put_octet 6 (field bs 6 8) d0).
  destruct (put_octet_spec 6 (field bs 6 8) d0) as [Hl1 Hv1];
    [lia|change (Z.of_nat (length d0)) with 128; lia|].
  set (d1 := put_octet 6 (field bs 6 8) d0) in *.
  set (c0 := bitset_of_ulong 8 _).
  assert (length d1 = 128%nat) as Hd1 by (rewrite Hl1; reflexivity).
  assert (forall i, 0 <= i < 2 -> vget false c0 (1 - i) = vget false bs (14 + i)) as Hc0.
  { intros i Hi. unfold c0. replace (1 - i) with (Z.of_nat 8 - (6 + i) - 1) by lia.
    rewrite vget_bitset_ulong by lia.
    replace (to_bin 8 (bin_value (slice bs 0 6 ++ slice bs 14 2)))
      with (slice bs 0 6 ++ slice bs 14 2).
    - rewrite <- (vget_slice bs 14 2 i) by lia. unfold vget.
      destruct (Z.ltb_spec (6 + i) 0), (Z.ltb_spec i 0); try lia.
      rewrite app_nth2; rewrite slice_length by (unfold blen; lia); [|lia]. f_equal. lia.
    - rewrite <- (to_bin_bin_value (slice bs 0 6 ++ slice bs 14 2)) at 1.
      rewrite length_app, !slice_length by (unfold blen; lia). reflexivity. }
  set (d2 := vset (vset d1 14 (vget false c0 1)) 15 (vget false c0 0)).
  destruct (put_octets_spec 0 (fun k => vget 0 buf k) 2 16 d2) as [Hl2 Hv2];
    [lia|lia|unfold d2; rewrite !length_vset; lia|].
  cbv zeta in Hl2, Hv2.
  assert (length d2 = 128%nat) as Hd2 by (unfold d2; rewrite !length_vset; exact Hd1).
  change (fun k b => put_octet (0 + k * 8) (vget 0 buf k) b)
    with (fun k b => put_octet (k * 8) (vget 0 buf k) b) in Hl2, Hv2.
  rewrite reverse_bits_rev by congruence. f_equal.
  apply (vget_ext false); [congruence|]. intros j Hj. rewrite Hl2, Hd2 in Hj.
  rewrite Hv2. case_decide as Hj1.
  - pose proof (Z.div_mod (j - 0) 8 ltac:(lia)). pose proof (Z.mod_pos_bound (j - 0) 8 ltac:(lia)).
    rewrite Hbuf, slice_8, vget_slice by (unfold blen; lia). f_equal. lia.
  - unfold d2. destruct (decide (j = 15)) as [->|Hn15].
    { rewrite vget_vset_eq by (unfold in_range; rewrite length_vset; lia).
      apply (Hc0 1). lia. }
    rewrite vget_vset_ne by congruence. destruct (decide (j = 14)) as [->|Hn14].
    { rewrite vget_vset_eq by (unfold in_range; lia). apply (Hc0 0). lia. }
    rewrite vget_vset_ne by congruence. rewrite Hv1. case_decide as Hj2.
    + rewrite slice_8, vget_slice by (unfold blen; lia). f_equal. lia.
    + transitivity (vget false (to_bin 6 1) j); [|rewrite <- Hty].
      * assert (j ∈ seqZ 0 6) as Hin by (apply elem_of_seqZ; lia).
        clear -Hin. revert j Hin. apply Forall_forall. vm_compute. repeat constructor.
      * unfold vget. destruct (Z.ltb_spec j 0); [lia|].
        rewrite !nth_lookup, lookup_take_lt by lia. reflexivity.
Qed.

(** ** Storing and regenerating, together *)

Definition regenerate_page (n iod : Z) (decoded : list Z) : bitset :=
  match n with
  | 1 => regenerate_page_1 decoded
  | 2 => regenerate_page_2 iod decoded
  | 3 => regenerate_page_3 iod decoded
  | _ => regenerate_page_4 iod decoded
  end.

Lemma read_unsigned_field bs first len :
  length bs = 128%nat -> 1 <= first -> 0 <= len <= 64 -> first - 1 + len <= 128 ->
  read_navigation_unsigned (rev bs) [(first, len)] = field bs (first - 1) len.
Proof.
  intros Hl H1 H2 H3.
  pose proof (field_bits_single bs (Z.to_nat first) (Z.to_nat len) Hl ltac:(lia) ltac:(lia)) as E.
  rewrite !Z2Nat.id in E by lia.
  rewrite read_unsigned_value.
  - rewrite E. unfold field, slice. do 3 f_equal. lia.
  - repeat constructor. lia.
  - rewrite E, length_take. lia.
Qed.

Lemma iodnav_field bs :
  length bs = 128%nat -> i32 (read_navigation_unsigned (rev bs) [(7, 10)]) = field bs 6 10.
Proof.
  intros Hl. rewrite read_unsigned_field by lia. change (7 - 1) with 6.
  pose proof (field_range bs 6 10). apply swrap_small; lia.
Qed.

Lemma follow_IODnav_current iod m : current_IODnav (follow_IODnav iod m) = iod.
Proof.
  unfold follow_IODnav. destruct (current_IODnav m =? 0); cbn.
  - rewrite Z.eqb_refl. reflexivity.
  - destruct (Z.eqb_spec (current_IODnav m) iod); cbn; congruence.
Qed.

Lemma follow_IODnav_length iod m :
  length (rs_buffer m) = 118%nat -> length (rs_buffer (follow_IODnav iod m)) = 118%nat.
Proof.
  intros H. unfold follow_IODnav. destruct (current_IODnav m =? 0); cbn;
    destruct (negb _); cbn; auto.
Qed.

Lemma field_bits_one bs first len :
  length bs = 128%nat -> 1 <= first -> 0 <= len -> first - 1 + len <= 128 ->
  field_bits GALILEO_DATA_JK_BITS (rev bs) [(first, len)] = slice bs (first - 1) len.
Proof.
  intros Hl H1 H2 H3.
  pose proof (field_bits_single bs (Z.to_nat first) (Z.to_nat len) Hl ltac:(lia) ltac:(lia)) as E.
  rewrite !Z2Nat.id in E by lia. rewrite E. unfold slice. do 2 f_equal. lia.
Qed.

Lemma store_first_octet bs :
  length bs = 128%nat ->
  read_octet_unsigned (rev bs) [(1, 6); (15, 2)] = bin_value (slice bs 0 6 ++ slice bs 14 2).
Proof.
  intros Hl.
  assert (field_bits GALILEO_DATA_JK_BITS (rev bs) [(1, 6); (15, 2)]
          = slice bs 0 6 ++ slice bs 14 2) as E.
  { transitivity (field_bits GALILEO_DATA_JK_BITS (rev bs) [(1, 6)] ++
                  field_bits GALILEO_DATA_JK_BITS (rev bs) [(15, 2)]).
    - unfold field_bits. cbn [map concat]. rewrite !app_nil_r. reflexivity.
    - rewrite !field_bits_one by lia. reflexivity. }
  rewrite read_octet_value; rewrite ?E; [reflexivity|repeat constructor; lia|].
  rewrite length_app, !slice_length by (unfold blen; lia). cbn. lia.
Qed.

(** The buffer and the IODnav after each handler. *)
Lemma store_info_1_buffer bits m :
  rs_buffer (store_info_1 bits m) =
  store_octets bits 0 2 16
    (vset (vset (rs_buffer (follow_IODnav (IOD_nav_1 (word_1 m)) m)) 0
       (read_octet_unsigned bits [(1, 6); (15, 2)])) 1
       (read_octet_unsigned bits [(7, BITS_IN_OCTET)])).
Proof. reflexivity. Qed.

Lemma store_info_2_buffer bits m :
  let m1 := follow_IODnav (IOD_nav_2 (word_2 m)) m in
  rs_buffer (store_info_2 bits m) =
  store_octets bits 0 16 (16 + 14) (vset (rs_buffer m1) 0 (known_octet (current_IODnav m1))).
Proof. reflexivity. Qed.

Lemma store_info_3_buffer bits m :
  let m1 := follow_IODnav (IOD_nav_3 (word_3 m)) m in
  rs_buffer (store_info_3 bits m) =
  store_octets bits 0 30 (30 + 14) (vset (rs_buffer m1) 0 (known_octet (current_IODnav m1))).
Proof. reflexivity. Qed.

Lemma store_info_4_buffer bits m :
  let m1 := follow_IODnav (IOD_nav_4 (word_4 m)) m in
  rs_buffer (store_info_4 bits m) =
  store_octets bits 0 44 (44 + 14) (vset (rs_buffer m1) 0 (known_octet (current_IODnav m1))).
Proof. reflexivity. Qed.

Lemma store_info_current bits m :
  current_IODnav (store_info_1 bits m) = IOD_nav_1 (word_1 m) /\
  current_IODnav (store_info_2 bits m) = IOD_nav_2 (word_2 m) /\
  current_IODnav (store_info_3 bits m) = IOD_nav_3 (word_3 m) /\
  current_IODnav (store_info_4 bits m) = IOD_nav_4 (word_4 m).
Proof.
  split; [exact (follow_IODnav_current (IOD_nav_1 (word_1 m)) m)|].
  split; [exact (follow_IODnav_current (IOD_nav_2 (word_2 m)) m)|].
  split; [exact (follow_IODnav_current (IOD_nav_3 (word_3 m)) m)|].
  exact (follow_IODnav_current (IOD_nav_4 (word_4 m)) m).
Qed.

(** The IODnav of the four words. *)
Lemma read_IOD_nav bs :
  length bs = 128%nat ->
  IOD_nav_1 (read_word_1 (rev bs)) = field bs 6 10 /\
  IOD_nav_2 (read_word_2 (rev bs)) = field bs 6 10 /\
  IOD_nav_3 (read_word_3 (rev bs)) = field bs 6 10 /\
  IOD_nav_4 (read_word_4 (rev bs)) = field bs 6 10.
Proof.
  intros Hl. pose proof (iodnav_field bs Hl) as E.
  split; [exact E|]. split; [exact E|]. split; exact E.
Qed.

Lemma fec2_word_1 bs m :
  length bs = 128%nat -> take 6 bs = to_bin 6 1 -> length (rs_buffer m) = 118%nat ->
  regenerate_page_1 (rs_buffer (store_info_1 (rev bs) m)) = rev bs.
Proof.
  intros Hl Hty Hb. rewrite store_info_1_buffer.
  set (m1 := follow_IODnav _ _).
  assert (length (rs_buffer m1) = 118%nat) as Hb1 by (apply follow_IODnav_length; exact Hb).
  match goal with |- context [store_octets _ _ _ _ ?b] => set (b1 := b) end.
  assert (length b1 = 118%nat) as Hlb by (unfold b1; rewrite !length_vset; exact Hb1).
  destruct (store_octets_spec bs 0 2 16 b1) as [_ Hv]; try lia.
  apply regenerate_first; [exact Hl|exact Hty| | |].
  - rewrite Hv, decide_False by lia. unfold b1. rewrite vget_vset_ne by lia.
    rewrite vget_vset_eq by (unfold in_range; lia). apply store_first_octet, Hl.
  - rewrite Hv, decide_False by lia. unfold b1.
    rewrite vget_vset_eq by (unfold in_range; rewrite length_vset; lia).
    apply (read_octet_at bs 7); lia.
  - intros k Hk. rewrite Hv, decide_True by lia. f_equal. lia.
Qed.

(** The octets of words 2 to 4 after their handler. *)
Lemma stored_octets bs (b : list Z) at_i v :
  length bs = 128%nat -> length b = 118%nat -> 0 < at_i -> at_i + 14 <= 118 ->
  forall k, 0 <= k < 14 ->
  vget 0 (store_octets (rev bs) 0 at_i (at_i + 14) (vset b 0 v)) (k + at_i) =
  field bs (16 + 8 * k) 8.
Proof.
  intros Hl Hb Hat Hhi k Hk.
  destruct (store_octets_spec bs 0 at_i (at_i + 14) (vset b 0 v)) as [_ Hv];
    try (rewrite ?length_vset; lia).
  rewrite Hv, decide_True by lia. f_equal. lia.
Qed.

(** Words 2 to 4, stored in a state that has just read them. *)
Lemma fec2_words_2_4 bs m :
  length bs = 128%nat -> length (rs_buffer m) = 118%nat ->
  (take 6 bs = to_bin 6 2 ->
   regenerate_page_2 (field bs 6 10) (rs_buffer (store_info_2 (rev bs) m)) = rev bs) /\
  (take 6 bs = to_bin 6 3 ->
   regenerate_page_3 (field bs 6 10) (rs_buffer (store_info_3 (rev bs) m)) = rev bs) /\
  (take 6 bs = to_bin 6 4 ->
   regenerate_page_4 (field bs 6 10) (rs_buffer (store_info_4 (rev bs) m)) = rev bs).
Proof.
  intros Hl Hb.
  rewrite store_info_2_buffer, store_info_3_buffer, store_info_4_buffer. cbv zeta.
  split; [|split]; intros Hty; (eapply regenerate_word; [exact Hl|exact Hty|reflexivity|
    reflexivity|reflexivity|]); apply stored_octets; try lia;
    apply follow_IODnav_length; exact Hb.
Qed.
