(* ===== verification/InavFec.v ===== *)
(** * InavFec: the collection of the FEC2 Reed-Solomon code word

    The ephemeris words (types 1 to 4) and the parity words (17 to 20) of an
    I/NAV page each occupy a region of [rs_buffer].  Whatever words arrive and
    in whatever order, the region of a word flagged in [inav_rs_pages] holds
    the octets of the last word of that type; the collection is restarted when
    the IODnav changes.  From any four of the eight words, and a Reed-Solomon
    decoder that restores erasures, the ephemeris words that are missing are
    recovered bit for bit. *)

From S2P Require Import Prelude Cstring BinString Float64 InavTables InavWords InavReaders.
From S2P Require Import GalileoData InavMessage InavProofs.
From stdpp Require Import gmap list strings.
From Stdlib Require Import ZArith Lia Ascii.
Local Open Scope Z_scope.
Local Open Scope cxx_scope.

(** ** Words and their regions *)

Definition word_type (bs : list bool) : Z := field bs 0 6.
Definition word_IODnav (bs : list bool) : Z := field bs 6 10.

(** A word received with its bits [bs], first sent first. *)
Definition receive (bs : list bool) (m : Galileo_Inav_Message) : Galileo_Inav_Message :=
  decode_word (word_type bs) (rev bs) m.

Definition info_types : list Z := [1; 2; 3; 4].
Definition parity_types : list Z := [17; 18; 19; 20].
Definition fec_types : list Z := info_types ++ parity_types.

(** The region of word [n] in [rs_buffer], and its place in [inav_rs_pages]. *)
Definition region (n : Z) : Z * Z :=
  match n with
  | 1 => (0, 16) | 2 => (16, 30) | 3 => (30, 44) | 4 => (44, 58)
  | 17 => (58, 73) | 18 => (73, 88) | 19 => (88, 103) | _ => (103, 118)
  end.
Definition page_index (n : Z) : Z := if n <=? 4 then n - 1 else n - 13.

(** The octet of word [n] that belongs at position [j] of the buffer. *)
Definition octet (n : Z) (bs : list bool) (j : Z) : Z :=
  let lo := (region n).1 in
  if n =? 1 then
    if j =? 0 then bin_value (slice bs 0 6 ++ slice bs 14 2)
    else if j =? 1 then field bs 6 8
    else field bs (16 + 8 * (j - 2)) 8
  else if n <=? 4 then field bs (16 + 8 * (j - lo)) 8
  else if j =? lo then field bs 6 8
  else field bs (16 + 8 * (j - lo - 1)) 8.

(** The region of word [n] holds the octets of [bs]. *)
Definition holds (buffer : list Z) (n : Z) (bs : list bool) : Prop :=
  forall j, (region n).1 <= j < (region n).2 -> vget 0 buffer j = octet n bs j.

Definition in_region (n j : Z) : bool := ((region n).1 <=? j) && (j <? (region n).2).

Lemma in_region_spec n j : in_region n j = true <-> (region n).1 <= j < (region n).2.
Proof. unfold in_region. rewrite andb_true_iff, Z.leb_le, Z.ltb_lt. lia. Qed.

Lemma regions_disjoint n n' j :
  n ∈ fec_types -> n' ∈ fec_types -> in_region n j = true -> in_region n' j = true -> n = n'.
Proof.
  intros Hn Hn'. rewrite !in_region_spec. unfold fec_types, info_types, parity_types in *.
  cbn [app] in *. revert Hn Hn'. rewrite !elem_of_cons, !elem_of_nil.
  intros Hn Hn'. destruct_or! Hn; destruct_or! Hn'; subst; cbn [region fst snd]; try lia; done.
Qed.

(** ** Fields *)

Lemma slice_split bs p a b :
  0 <= p -> 0 <= a -> 0 <= b -> slice bs p (a + b) = slice bs p a ++ slice bs (p + a) b.
Proof.
  intros. unfold slice. rewrite !Z2Nat.inj_add by lia.
  rewrite <- drop_drop, take_take_drop. reflexivity.
Qed.

Lemma field_split bs p a b :
  0 <= p -> 0 <= a -> 0 <= b -> p + a + b <= blen bs ->
  field bs p (a + b) = field bs p a * 2 ^ b + field bs (p + a) b.
Proof.
  intros. unfold field. rewrite slice_split, bin_value_app by lia.
  rewrite slice_length by (unfold blen in *; lia). rewrite Z2Nat.id by lia. reflexivity.
Qed.

(** The first octet of word 1 is the octet that the other words say is known. *)
Lemma first_octet_known bs :
  length bs = 128%nat -> word_type bs = 1 ->
  octet 1 bs 0 = known_octet (word_IODnav bs).
Proof.
  intros Hl Ht. unfold octet. cbn [Z.eqb Pos.eqb]. rewrite bin_value_app.
  rewrite slice_length by (unfold blen; lia).
  change (bin_value (slice bs 0 6)) with (word_type bs).
  change (bin_value (slice bs 14 2)) with (field bs 14 2).
  rewrite Ht. change (2 ^ Z.of_nat (Z.to_nat 2)) with 4.
  unfold known_octet, word_IODnav.
  change (field bs 6 10) with (field bs 6 (8 + 2)).
  rewrite (field_split bs 6 8 2) by (unfold blen; lia). change (6 + 8) with 14.
  change (2 ^ 2) with 4.
  pose proof (field_range bs 14 2). pose proof (field_range bs 6 8).
  rewrite Z.rem_mod_nonneg by lia.
  rewrite (Z.add_comm (field bs 6 8 * 4)), Z.mod_add, (Z.mod_small (field bs 14 2)) by lia. rewrite wrap_small by lia. reflexivity.
Qed.

Lemma type_bits bs n :
  length bs = 128%nat -> word_type bs = n -> take 6 bs = to_bin 6 n.
Proof.
  intros Hl <-. unfold word_type, field. change (slice bs 0 6) with (take 6 bs).
  rewrite <- (to_bin_bin_value (take 6 bs)) at 1. rewrite length_take, Hl. reflexivity.
Qed.

(** ** What a word does to the buffer *)

Lemma store_parity_buffer k bits m :
  rs_buffer (store_parity k bits m) =
  store_octets bits INAV_RS_INFO_VECTOR_LENGTH
    (k * INAV_RS_SUBVECTOR_LENGTH + 1) ((k + 1) * INAV_RS_SUBVECTOR_LENGTH)
    (vset (rs_buffer m) (INAV_RS_INFO_VECTOR_LENGTH + k * INAV_RS_SUBVECTOR_LENGTH)
       (read_octet_unsigned bits [(FIRST_RS_BIT, BITS_IN_OCTET)])).
Proof. reflexivity. Qed.

Lemma store_parity_at bs (k : Z) m :
  length bs = 128%nat -> 0 <= k < 4 -> length (rs_buffer m) = 118%nat ->
  let r := rs_buffer (store_parity k (rev bs) m) in
  length r = 118%nat /\
  forall j, vget 0 r j = if in_region (17 + k) j then octet (17 + k) bs j
                         else vget 0 (rs_buffer m) j.
Proof.
  intros Hl Hk Hb. cbv zeta. rewrite store_parity_buffer.
  unfold INAV_RS_INFO_VECTOR_LENGTH, INAV_RS_SUBVECTOR_LENGTH, FIRST_RS_BIT.
  rewrite read_octet_at by lia. change (7 - 1) with 6.
  destruct (store_octets_spec bs 58 (k * 15 + 1) ((k + 1) * 15)
    (vset (rs_buffer m) (58 + k * 15) (field bs 6 8))) as [Hlen Hv];
    try (rewrite ?length_vset; lia).
  rewrite length_vset in Hlen. split; [lia|]. intros j. rewrite Hv.
  assert (region (17 + k) = (58 + k * 15, 73 + k * 15)) as HR.
  { assert (k = 0 \/ k = 1 \/ k = 2 \/ k = 3) as [->|[->|[->| ->]]] by lia; reflexivity. }
  assert (in_region (17 + k) j = true <-> 58 + k * 15 <= j < 73 + k * 15) as HI
    by (rewrite in_region_spec, HR; reflexivity).
  unfold octet. rewrite HR. cbn [fst].
  destruct (Z.eqb_spec (17 + k) 1); [lia|]. destruct (Z.leb_spec (17 + k) 4); [lia|].
  case_decide as Hj.
  - rewrite (proj2 HI) by lia. destruct (Z.eqb_spec j (58 + k * 15)); [lia|].
    f_equal. lia.
  - destruct (decide (j = 58 + k * 15)) as [->|Hne].
    + rewrite vget_vset_eq by (unfold in_range; lia). rewrite (proj2 HI) by lia.
      rewrite Z.eqb_refl. reflexivity.
    + rewrite vget_vset_ne by congruence. destruct (in_region (17 + k) j); [|done].
      pose proof (proj1 HI eq_refl). lia.
Qed.

(** The buffer after word 1 was stored. *)
Lemma store_info_1_at bs m :
  length bs = 128%nat -> word_type bs = 1 -> length (rs_buffer m) = 118%nat ->
  let b := rs_buffer (follow_IODnav (IOD_nav_1 (word_1 m)) m) in
  let r := rs_buffer (store_info_1 (rev bs) m) in
  length r = 118%nat /\
  forall j, vget 0 r j = if in_region 1 j then octet 1 bs j else vget 0 b j.
Proof.
  intros Hl Ht Hm b r. unfold r. rewrite store_info_1_buffer. fold b.
  assert (length b = 118%nat) as Hb by (apply follow_IODnav_length; exact Hm).
  rewrite store_first_octet, (read_octet_at bs 7) by lia. change (7 - 1) with 6.
  set (b1 := vset (vset b 0 _) 1 _).
  assert (length b1 = 118%nat) as Hb1 by (unfold b1; rewrite !length_vset; exact Hb).
  destruct (store_octets_spec bs 0 2 16 b1) as [Hlen Hv]; try lia.
  split; [lia|]. intros j. rewrite Hv. unfold in_region, octet. cbn [region fst snd].
  cbn [Z.eqb Pos.eqb]. unfold b1.
  destruct (decide (j = 0)) as [->|H0].
  { rewrite decide_False by lia. rewrite vget_vset_ne by lia.
    rewrite vget_vset_eq by (unfold in_range; lia). reflexivity. }
  destruct (decide (j = 1)) as [->|H1].
  { rewrite decide_False by lia.
    rewrite vget_vset_eq by (unfold in_range; rewrite length_vset; lia). reflexivity. }
  destruct (Z.eqb_spec j 0), (Z.eqb_spec j 1); try lia.
  case_decide as Hj.
  - rewrite (proj2 (Z.leb_le 0 j)), (proj2 (Z.ltb_lt j 16)) by lia. cbn. f_equal. lia.
  - rewrite !vget_vset_ne by congruence.
    destruct (Z.leb_spec 0 j), (Z.ltb_spec j 16); try lia; reflexivity.
Qed.

(** The octets of words 2 to 4 from [lo] on. *)
Lemma store_info_at bs n (b : list Z) v :
  length bs = 128%nat -> n ∈ [2; 3; 4] -> length b = 118%nat ->
  let r := store_octets (rev bs) 0 (region n).1 ((region n).1 + 14) (vset b 0 v) in
  length r = 118%nat /\
  forall j, vget 0 r j = if in_region n j then octet n bs j else if j =? 0 then v else vget 0 b j.
Proof.
  intros Hl Hn Hb. cbv zeta.
  assert (16 <= (region n).1 <= 44 /\ (region n).2 = (region n).1 + 14 /\ n <> 1 /\ n <= 4)
    as (H1 & H2 & H3 & H4).
  { revert Hn. rewrite !elem_of_cons, elem_of_nil. intros Hn.
    destruct_or! Hn; subst; cbn; try lia; done. }
  destruct (store_octets_spec bs 0 (region n).1 ((region n).1 + 14) (vset b 0 v)) as [Hlen Hv];
    try (rewrite ?length_vset; lia).
  rewrite length_vset in Hlen. split; [lia|]. intros j. rewrite Hv.
  unfold octet, in_region.
  destruct (Z.eqb_spec n 1); [lia|]. destruct (Z.leb_spec n 4); [|lia]. cbv zeta.
  case_decide as Hj.
  - rewrite (proj2 (Z.leb_le (region n).1 j)), (proj2 (Z.ltb_lt j (region n).2)) by lia.
    cbn. f_equal. lia.
  - destruct (Z.leb_spec (region n).1 j), (Z.ltb_spec j (region n).2); try lia; cbn [andb];
    destruct (Z.eqb_spec j 0) as [->|Hne];
      rewrite ?vget_vset_eq by (unfold in_range; lia); rewrite ?vget_vset_ne by congruence;
      reflexivity.
Qed.

(** ** The invariant of the collection

    [h] remembers the last word received of each type. *)

Definition page (m : Galileo_Inav_Message) (n : Z) : Z :=
  vget 0 (inav_rs_pages m) (page_index n).

Record collection (h : gmap Z (list bool)) (m : Galileo_Inav_Message) : Prop := {
  col_rs : enable_rs m = true;
  col_buffer : length (rs_buffer m) = 118%nat;
  col_pages : length (inav_rs_pages m) = 8%nat;
  col_flags : Forall (fun p => p = 0 \/ p = 1) (inav_rs_pages m);
  col_unset : current_IODnav m = 0 -> forall n, n ∈ info_types -> page m n = 0;
  col_known : forall n, n ∈ info_types -> page m n <> 0 ->
    vget 0 (rs_buffer m) 0 = known_octet (current_IODnav m);
  col_words : forall n, n ∈ fec_types -> page m n <> 0 ->
    exists bs, h !! n = Some bs /\ length bs = 128%nat /\ word_type bs = n /\
      (n ∈ info_types -> word_IODnav bs = current_IODnav m) /\ holds (rs_buffer m) n bs
}.

(** What the collection depends on. *)
Definition rs_view (m : Galileo_Inav_Message) : bool * list Z * list Z * Z :=
  (enable_rs m, rs_buffer m, inav_rs_pages m, current_IODnav m).

Lemma collection_ext h m m' : rs_view m' = rs_view m -> collection h m -> collection h m'.
Proof.
  unfold rs_view. intros E [H1 H2 H3 H4 H5 H6 H7]. injection E as E1 E2 E3 E4.
  unfold page in *. split; unfold page; rewrite ?E1, ?E2, ?E3, ?E4; auto.
Qed.

Lemma info_fec n : n ∈ info_types -> n ∈ fec_types.
Proof. unfold fec_types. rewrite elem_of_app. auto. Qed.

Lemma one_info : 1 ∈ info_types.
Proof. left. Qed.

Lemma one_fec : 1 ∈ fec_types.
Proof. apply info_fec, one_info. Qed.

Lemma region_1_0 : in_region 1 0 = true.
Proof. reflexivity. Qed.
#[local] Hint Resolve info_fec one_info one_fec region_1_0 : core.

Lemma page_index_inj n n' :
  n ∈ fec_types -> n' ∈ fec_types -> page_index n = page_index n' -> n = n'.
Proof.
  unfold fec_types, info_types, parity_types. cbn [app]. rewrite !elem_of_cons, !elem_of_nil.
  intros Hn Hn'. destruct_or! Hn; destruct_or! Hn'; subst; cbn; done.
Qed.

Lemma page_index_range n : n ∈ fec_types -> 0 <= page_index n < 8.
Proof.
  unfold fec_types, info_types, parity_types. cbn [app]. rewrite !elem_of_cons, !elem_of_nil.
  intros Hn. destruct_or! Hn; subst; cbn; lia.
Qed.

(** Restarting the collection. *)
Lemma collection_reset h m iod :
  collection h m ->
  collection h (m <| current_IODnav := iod |> <| rs_buffer := zero_rs_buffer |>
                  <| inav_rs_pages := zero_rs_pages |>).
Proof.
  intros H.
  assert (forall n, vget 0 zero_rs_pages (page_index n) = 0) as Hz.
  { intros n. unfold vget. destruct (_ <? 0); [done|]. unfold zero_rs_pages.
    rewrite nth_lookup. destruct (_ !! _) eqn:E; [|done].
    apply lookup_replicate in E as [-> _]. reflexivity. }
  split; cbn -[zero_rs_pages zero_rs_buffer]; unfold page; cbn -[zero_rs_pages zero_rs_buffer].
  - apply H.
  - reflexivity.
  - reflexivity.
  - apply Forall_replicate. auto.
  - intros _ n _. apply Hz.
  - intros n _ Hn. exfalso. apply Hn, Hz.
  - intros n _ Hn. exfalso. apply Hn, Hz.
Qed.

Lemma collection_follow h m iod :
  collection h m -> iod <> 0 -> collection h (follow_IODnav iod m).
Proof.
  intros H Hi. unfold follow_IODnav.
  destruct (Z.eqb_spec (current_IODnav m) 0) as [E|E].
  - cbn. rewrite Z.eqb_refl. cbn.
    destruct H as [H1 H2 H3 H4 H5 H6 H7]. specialize (H5 E). split; unfold page; cbn -[vget vset]; auto.
    + intros n Hn Hp. exfalso. apply Hp, H5, Hn.
    + intros n Hn Hp. destruct (H7 n Hn Hp) as (bs & A & B & C & D & F).
      exists bs. split_and!; try done. intros Hi'. exfalso. apply Hp, H5, Hi'.
  - destruct (Z.eqb_spec (current_IODnav m) iod) as [E'|E']; cbn [negb]; [exact H|].
    apply collection_reset, H.
Qed.

Lemma collection_check h m lsb : collection h m -> collection h (check_IODnav_LSB lsb m).
Proof.
  intros H. unfold check_IODnav_LSB. destruct (negb _); [|exact H].
  destruct H as [H1 H2 H3 H4 H5 H6 H7].
  assert (forall n, n ∈ fec_types ->
    vget 0 (vset (vset (vset (vset (inav_rs_pages m) 0 0) 1 0) 2 0) 3 0) (page_index n) =
    if n <=? 4 then 0 else page m n) as Hv.
  { intros n Hn. unfold page. assert (page_index n < 4 <-> n <= 4) as Hi.
    { unfold page_index. destruct (Z.leb_spec n 4); [lia|].
      revert Hn. unfold fec_types, info_types, parity_types. cbn [app].
      rewrite !elem_of_cons, !elem_of_nil. intros Hn. destruct_or! Hn; subst; lia. }
    pose proof (page_index_range n Hn). destruct (Z.leb_spec n 4).
    - assert (page_index n = 0 \/ page_index n = 1 \/ page_index n = 2 \/ page_index n = 3)
        as [->|[->|[->| ->]]] by lia;
        rewrite ?vget_vset_ne by lia; apply vget_vset_eq; unfold in_range;
        rewrite ?length_vset; lia.
    - rewrite !vget_vset_ne by lia. reflexivity. }
  assert (forall n, n ∈ info_types -> n <= 4) as Hle.
  { intros n. unfold info_types. rewrite !elem_of_cons, elem_of_nil. lia. }
  split; unfold page; cbn -[vset vget fec_types info_types].
  - exact H1.
  - exact H2.
  - rewrite !length_vset. exact H3.
  - repeat apply Forall_vset; auto.
  - intros _ n Hn. rewrite Hv by auto using info_fec.
    rewrite (proj2 (Z.leb_le n 4)) by auto. reflexivity.
  - intros n Hn. rewrite Hv by auto using info_fec.
    rewrite (proj2 (Z.leb_le n 4)) by auto. congruence.
  - intros n Hn. rewrite Hv by auto. destruct (Z.leb_spec n 4); [congruence|]. apply H7, Hn.
Qed.

(** Storing the octets of the word [n]. *)
Lemma collection_store h m m' n bs :
  collection h m -> n ∈ fec_types -> length bs = 128%nat -> word_type bs = n ->
  (n ∈ info_types -> word_IODnav bs = current_IODnav m /\ current_IODnav m <> 0) ->
  enable_rs m' = true -> current_IODnav m' = current_IODnav m ->
  inav_rs_pages m' = vset (inav_rs_pages m) (page_index n) 1 ->
  length (rs_buffer m') = 118%nat ->
  (forall j, vget 0 (rs_buffer m') j =
     if in_region n j then octet n bs j
     else if (n <=? 4) && (j =? 0) then known_octet (current_IODnav m)
     else vget 0 (rs_buffer m) j) ->
  collection (<[n := bs]> h) m'.
Proof.
  intros [H1 H2 H3 H4 H5 H6 H7] Hn Hl Ht Hi E1 E2 E3 E4 Hv.
  assert (forall k, k ∈ fec_types -> page m' k = if decide (k = n) then 1 else page m k) as Hp.
  { intros k Hk. unfold page. rewrite E3. case_decide as Hkn.
    - subst k. apply vget_vset_eq. pose proof (page_index_range n Hn). unfold in_range. lia.
    - apply vget_vset_ne. intros E. apply Hkn. symmetry. apply page_index_inj; auto. }
  assert (n ∈ info_types <-> n <= 4) as Hn4.
  { revert Hn. unfold fec_types, info_types, parity_types. cbn [app].
    rewrite !elem_of_cons, !elem_of_nil. lia. }
  assert (n <= 4 -> vget 0 (rs_buffer m') 0 = known_octet (current_IODnav m)) as H0.
  { intros Hle. rewrite Hv. destruct (in_region n 0) eqn:E.
    - assert (n = 1) as ->.
      { apply (regions_disjoint n 1 0); auto. }
      rewrite first_octet_known by auto. f_equal. apply Hi, Hn4, Hle.
    - rewrite (proj2 (Z.leb_le n 4)) by auto. reflexivity. }
  split; try done.
  - rewrite E3, length_vset. exact H3.
  - rewrite E3. apply Forall_vset; auto.
  - rewrite E2. intros Hz k Hk. rewrite Hp by auto using info_fec. case_decide as Hkn.
    + subst k. destruct (Hi Hk); contradiction.
    + apply H5; auto.
  - intros k Hk Hpk. rewrite E2. destruct (decide (n <= 4)) as [Hle|Hgt]; [auto|].
    rewrite Hp in Hpk by auto using info_fec. rewrite decide_False in Hpk.
    2:{ intros ->. apply Hgt, Hn4, Hk. }
    rewrite <- (H6 k Hk Hpk), Hv. rewrite (proj2 (Z.leb_gt n 4)) by lia. cbn [andb].
    destruct (in_region n 0) eqn:E; [|done]. exfalso. apply Hgt. rewrite (regions_disjoint n 1 0); auto; lia.
  - intros k Hk Hpk. destruct (decide (k = n)) as [->|Hkn].
    + exists bs. rewrite lookup_insert_eq. split_and!; auto.
      * intros Hin. rewrite E2. apply Hi, Hin.
      * intros j Hj. rewrite Hv, (proj2 (in_region_spec n j)) by exact Hj. reflexivity.
    + rewrite Hp, decide_False in Hpk by auto. destruct (H7 k Hk Hpk) as (bs' & A & B & C & D & F).
      exists bs'. rewrite lookup_insert_ne by congruence. rewrite E2. split_and!; auto.
      intros j Hj. rewrite Hv. destruct (in_region n j) eqn:E.
      { exfalso. apply Hkn. apply (regions_disjoint k n j); auto. apply in_region_spec, Hj. }
      destruct ((n <=? 4) && (j =? 0)) eqn:E0; [|apply F, Hj].
      apply andb_true_iff in E0 as [L0 L1]. apply Z.leb_le in L0. apply Z.eqb_eq in L1. subst j.
      assert (k = 1) as ->.
      { apply (regions_disjoint k 1 0); auto. apply in_region_spec, Hj. }
      rewrite first_octet_known by auto. f_equal. symmetry. auto.
Qed.

(** ** Receiving words *)

Lemma collection_info h m m' n bs iod :
  collection h m -> n ∈ info_types -> length bs = 128%nat -> word_type bs = n ->
  word_IODnav bs <> 0 -> iod = word_IODnav bs ->
  let m1 := follow_IODnav iod m in
  enable_rs m' = enable_rs m1 -> current_IODnav m' = current_IODnav m1 ->
  inav_rs_pages m' = vset (inav_rs_pages m1) (page_index n) 1 ->
  length (rs_buffer m') = 118%nat ->
  (forall j, vget 0 (rs_buffer m') j =
     if in_region n j then octet n bs j
     else if (n <=? 4) && (j =? 0) then known_octet (current_IODnav m1)
     else vget 0 (rs_buffer m1) j) ->
  collection (<[n := bs]> h) m'.
Proof.
  intros H Hn Hl Ht Hi -> m1 E1 E2 E3 E4 Hv.
  assert (collection h m1) as H1 by (apply collection_follow; auto).
  assert (current_IODnav m1 = word_IODnav bs) as Hc by apply follow_IODnav_current.
  apply (collection_store h m1); auto; [intros _; split; congruence|].
  rewrite E1. apply H1.
Qed.

Lemma collection_word_1 h m bs :
  collection h m -> length bs = 128%nat -> word_type bs = 1 -> word_IODnav bs <> 0 ->
  collection (<[1 := bs]> h) (decode_word_1 (rev bs) m).
Proof.
  intros H Hl Ht Hi. unfold decode_word_1.
  assert (collection h (read_page_1 (rev bs) m)) as H1 by (eapply collection_ext, H; reflexivity).
  rewrite (col_rs _ _ H1). destruct (read_IOD_nav bs Hl) as (E & _).
  destruct (store_info_1_at bs (read_page_1 (rev bs) m) Hl Ht (col_buffer _ _ H1)) as [L V].
  eapply collection_info; [exact H1|apply one_info|exact Hl|exact Ht|exact Hi|exact E|
    reflexivity|reflexivity|reflexivity|exact L|].
  intros j. rewrite V. destruct (in_region 1 j) eqn:Ej; [done|].
  destruct (Z.eqb_spec j 0) as [->|]; [discriminate|]. reflexivity.
Qed.

(** One of the words 2 to 4, read into [m1] and stored from the buffer [b]. *)
Ltac stored_word m1 b E :=
  match goal with
  | H : collection ?h ?m, Hl : length ?bs = 128%nat, Ht : word_type ?bs = ?n, Hn : ?n ∈ _ |- _ =>
      let H1 := fresh in
      assert (collection h m1) as H1 by (eapply collection_ext, H; reflexivity);
      rewrite (col_rs _ _ H1);
      destruct (store_info_at bs n (rs_buffer b) (known_octet (current_IODnav b)) Hl Hn)
        as [L V]; [apply follow_IODnav_length, H1|];
      eapply collection_info; [exact H1|right; exact Hn|exact Hl|exact Ht|assumption|exact E|
        reflexivity|reflexivity|reflexivity|exact L|exact V]
  end.

Lemma collection_words_2_4 h m bs n :
  collection h m -> length bs = 128%nat -> word_type bs = n -> n ∈ [2; 3; 4] ->
  word_IODnav bs <> 0 -> collection (<[n := bs]> h) (decode_word n (rev bs) m).
Proof.
  intros H Hl Ht Hn Hi. destruct (read_IOD_nav bs Hl) as (_ & E2 & E3 & E4).
  assert (n = 2 \/ n = 3 \/ n = 4) as Hc
    by (revert Hn; rewrite !elem_of_cons, elem_of_nil; lia).
  destruct_or! Hc; subst n; rewrite Hc in *;
    cbn [decode_word]; unfold decode_word_2, decode_word_3, decode_word_4.
  - set (m1 := read_page_2 (rev bs) m).
    stored_word m1 (follow_IODnav (IOD_nav_2 (word_2 m1)) m1) E2.
  - set (m1 := read_page_3 (rev bs) m).
    stored_word m1 (follow_IODnav (IOD_nav_3 (word_3 m1)) m1) E3.
  - set (m1 := read_page_4 (rev bs) m).
    stored_word m1 (follow_IODnav (IOD_nav_4 (word_4 m1)) m1) E4.
Qed.

Lemma collection_parity h m m1 bs (k : Z) :
  collection h m -> length bs = 128%nat -> 0 <= k < 4 -> word_type bs = 17 + k ->
  (exists lsb m0, rs_view m0 = rs_view m /\ m1 = check_IODnav_LSB lsb m0) ->
  collection (<[17 + k := bs]> h) (page_arrived (4 + k) (store_parity k (rev bs) m1)).
Proof.
  intros H Hl Hk Ht (lsb & m0 & E0 & ->).
  assert (collection h (check_IODnav_LSB lsb m0)) as H1
    by (apply collection_check; eapply collection_ext, H; exact E0).
  set (m1 := check_IODnav_LSB lsb m0) in *.
  destruct (store_parity_at bs k m1 Hl Hk (col_buffer _ _ H1)) as [L V].
  assert (17 + k ∉ info_types) as Hni.
  { unfold info_types. rewrite !elem_of_cons, elem_of_nil. lia. }
  eapply (collection_store h m1); try exact Hl; auto.
  - unfold fec_types, info_types, parity_types. cbn [app]. rewrite !elem_of_cons, elem_of_nil. lia.
  - intros Hin. contradiction.
  - apply H1.
  - unfold page_index. destruct (Z.leb_spec (17 + k) 4); [lia|].
    replace (17 + k - 13) with (4 + k) by lia. reflexivity.
  - intros j. destruct (Z.leb_spec (17 + k) 4); [lia|]. apply V.
Qed.

(** The other words leave the collection alone. *)
Lemma decode_word_other n bits m :
  n ∉ fec_types -> rs_view (decode_word n bits m) = rs_view m.
Proof.
  intros Hn. destruct n as [|p|p]; [|do 5 (try destruct p as [p|p|]; try reflexivity)|reflexivity];
    try (contradiction Hn; unfold fec_types, info_types, parity_types; cbn [app];
         rewrite !elem_of_cons; lia).
  cbn [decode_word]. unfold decode_word_0. cbv zeta.
  destruct (_ =? 2); reflexivity.
Qed.

Lemma collection_insert h m n bs :
  n ∉ fec_types -> collection h m -> collection (<[n := bs]> h) m.
Proof.
  intros Hn [H1 H2 H3 H4 H5 H6 H7]. split; auto. intros k Hk Hp.
  rewrite lookup_insert_ne by (intros ->; contradiction). apply H7; auto.
Qed.

#[local] Instance fec_dec n : Decision (n ∈ fec_types) := _.

Lemma collection_receive h m bs :
  collection h m -> length bs = 128%nat ->
  (word_type bs ∈ info_types -> word_IODnav bs <> 0) ->
  collection (<[word_type bs := bs]> h) (receive bs m).
Proof.
  intros H Hl Hi. unfold receive. remember (word_type bs) as n eqn:Ht. symmetry in Ht.
  destruct (decide (n ∈ fec_types)) as [Hn|Hn].
  2:{ apply collection_insert; [exact Hn|]. eapply collection_ext, H.
      apply decode_word_other, Hn. }
  assert (n = 1 \/ n ∈ [2; 3; 4] \/ n = 17 \/ n = 18 \/ n = 19 \/ n = 20) as Hc.
  { revert Hn. unfold fec_types, info_types, parity_types. cbn [app].
    rewrite !elem_of_cons, !elem_of_nil. lia. }
  destruct Hc as [->|[Hc|Hc]].
  - apply collection_word_1; auto.
  - apply collection_words_2_4; auto. apply Hi. right. exact Hc.
  - pose proof (col_rs _ _ H) as Hrs.
    destruct_or! Hc; subst n; rewrite Hc; cbn [decode_word];
      unfold decode_word_17, decode_word_18, decode_word_19, decode_word_20; rewrite Hrs.
    + apply (collection_parity h m _ bs 0); auto; [lia|]. eexists _, _. split; [|reflexivity]. reflexivity.
    + apply (collection_parity h m _ bs 1); auto; [lia|]. eexists _, _. split; [|reflexivity]. reflexivity.
    + apply (collection_parity h m _ bs 2); auto; [lia|]. eexists _, _. split; [|reflexivity]. reflexivity.
    + apply (collection_parity h m _ bs 3); auto; [lia|]. eexists _, _. split; [|reflexivity]. reflexivity.
Qed.

(** ** The buffers of the collection *)

Lemma fec_types_forall (P : Z -> Prop) :
  P 1 -> P 2 -> P 3 -> P 4 -> P 17 -> P 18 -> P 19 -> P 20 -> forall n, n ∈ fec_types -> P n.
Proof.
  intros H1 H2 H3 H4 H5 H6 H7 H8 n. unfold fec_types, info_types, parity_types. cbn [app].
  rewrite !elem_of_cons, elem_of_nil. intros Hn. destruct_or! Hn; subst; done.
Qed.

(** The sizes and contents that every operation keeps. *)
Record rs_wf (m : Galileo_Inav_Message) : Prop := {
  wf_buffer : length (rs_buffer m) = 118%nat;
  wf_octets : Forall (fun v => 0 <= v < 256) (rs_buffer m);
  wf_pages : length (inav_rs_pages m) = 8%nat;
  wf_flags : Forall (fun p => p = 0 \/ p = 1) (inav_rs_pages m)
}.

Lemma rs_wf_ext m m' : rs_view m' = rs_view m -> rs_wf m -> rs_wf m'.
Proof.
  unfold rs_view. intros E [H1 H2 H3 H4]. injection E as E1 E2 E3 E4.
  split; rewrite ?E2, ?E3; assumption.
Qed.

Lemma rs_wf_set m b p :
  length b = 118%nat -> Forall (fun v => 0 <= v < 256) b ->
  length p = 8%nat -> Forall (fun x => x = 0 \/ x = 1) p ->
  rs_buffer m = b -> inav_rs_pages m = p -> rs_wf m.
Proof. intros H1 H2 H3 H4 <- <-. split; assumption. Qed.

(** The readers of octets return octets. *)
Lemma for_slices_inv {St} (P : St -> Prop) p f (s : St) :
  P s -> (forall first j s, P s -> P (f first j s)) -> P (for_slices p f s).
Proof.
  intros H0 Hf. unfold for_slices. revert s H0. induction p as [|[first len] p IH]; intros s H0;
    [exact H0|]. cbn [fold_left]. apply IH. apply for_range_inv; auto.
Qed.

Lemma read_octet_range bits p : 0 <= read_octet_unsigned bits p < 256.
Proof.
  unfold read_octet_unsigned. apply (for_slices_inv (fun v => 0 <= v < 256)); [lia|].
  intros first j v Hv. cbv zeta.
  destruct (vget _ _ _); apply (wrap_range 8); lia.
Qed.

Lemma known_octet_range v : 0 <= known_octet v < 256.
Proof. apply (wrap_range 8). lia. Qed.

#[local] Hint Resolve read_octet_range known_octet_range : core.

Lemma store_octets_wf bits at_i lo hi b :
  length b = 118%nat -> Forall (fun v => 0 <= v < 256) b ->
  length (store_octets bits at_i lo hi b) = 118%nat /\
  Forall (fun v => 0 <= v < 256) (store_octets bits at_i lo hi b).
Proof.
  intros H1 H2. unfold store_octets.
  pose (P := fun s : list Z * Z =>
    length s.1 = 118%nat /\ Forall (fun v => 0 <= v < 256) s.1).
  apply (for_range_inv P); unfold P; [auto|].
  intros i [b' sb] _ [H3 H4]. cbn [fst] in *. rewrite length_vset. auto using Forall_vset.
Qed.

Lemma rs_wf_follow iod m : rs_wf m -> rs_wf (follow_IODnav iod m).
Proof.
  intros [H1 H2 H3 H4]. unfold follow_IODnav.
  assert (Forall (fun v => 0 <= v < 256) zero_rs_buffer) as Z1
    by (apply Forall_replicate; lia).
  assert (Forall (fun p => p = 0 \/ p = 1) zero_rs_pages) as Z2
    by (apply Forall_replicate; auto).
  destruct (_ =? 0); destruct (negb _); split; cbn -[zero_rs_buffer zero_rs_pages];
    first [assumption | reflexivity].
Qed.

Lemma rs_wf_store m m' buffer k bits at_i lo hi :
  rs_wf m -> length buffer = 118%nat -> Forall (fun v => 0 <= v < 256) buffer ->
  rs_buffer m' = store_octets bits at_i lo hi buffer ->
  inav_rs_pages m' = vset (inav_rs_pages m) k 1 -> rs_wf m'.
Proof.
  intros [H1 H2 H3 H4] Hb Ho E1 E2.
  destruct (store_octets_wf bits at_i lo hi buffer Hb Ho) as [L F].
  split; rewrite ?E1, ?E2, ?length_vset; auto using Forall_vset.
Qed.

Lemma rs_wf_info bits m :
  rs_wf m -> rs_wf (store_info_1 bits m) /\ rs_wf (store_info_2 bits m) /\
             rs_wf (store_info_3 bits m) /\ rs_wf (store_info_4 bits m).
Proof.
  intros H.
  assert (forall iod, rs_wf (follow_IODnav iod m)) as Hf by (intros; apply rs_wf_follow, H).
  pose proof (Hf (IOD_nav_1 (word_1 m))) as F1. pose proof (Hf (IOD_nav_2 (word_2 m))) as F2.
  pose proof (Hf (IOD_nav_3 (word_3 m))) as F3. pose proof (Hf (IOD_nav_4 (word_4 m))) as F4.
  split; [|split; [|split]].
  - eapply rs_wf_store; [exact F1| | |apply store_info_1_buffer|reflexivity];
      [rewrite !length_vset; apply F1|repeat apply Forall_vset; auto; apply F1].
  - eapply rs_wf_store; [exact F2| | |apply store_info_2_buffer|reflexivity];
      [rewrite !length_vset; apply F2|repeat apply Forall_vset; auto; apply F2].
  - eapply rs_wf_store; [exact F3| | |apply store_info_3_buffer|reflexivity];
      [rewrite !length_vset; apply F3|repeat apply Forall_vset; auto; apply F3].
  - eapply rs_wf_store; [exact F4| | |apply store_info_4_buffer|reflexivity];
      [rewrite !length_vset; apply F4|repeat apply Forall_vset; auto; apply F4].
Qed.

Lemma rs_wf_check lsb m : rs_wf m -> rs_wf (check_IODnav_LSB lsb m).
Proof.
  intros [H1 H2 H3 H4]. unfold check_IODnav_LSB. destruct (negb _); split; auto;
    cbn -[vset]; rewrite ?length_vset; auto. repeat apply Forall_vset; auto.
Qed.

Lemma rs_wf_parity k i bits m :
  rs_wf m -> rs_wf (page_arrived i (store_parity k bits m)).
Proof.
  intros H. eapply rs_wf_store; [exact H| | |apply store_parity_buffer|reflexivity];
    [rewrite !length_vset; apply H|apply Forall_vset; auto; apply H].
Qed.

Lemma rs_wf_word n bits m : rs_wf m -> rs_wf (decode_word n bits m).
Proof.
  intros H. destruct (decide (n ∈ fec_types)) as [Hn|Hn].
  2:{ eapply rs_wf_ext, H. apply decode_word_other, Hn. }
  assert (forall m', rs_view m' = rs_view m -> rs_wf m') as Hext
    by (intros m' E; eapply rs_wf_ext; [exact E|exact H]).
  revert n Hn. apply (fec_types_forall (fun n => rs_wf (decode_word n bits m)));
    cbn [decode_word].
  - assert (rs_wf (read_page_1 bits m)) as W by (apply Hext; reflexivity).
    destruct (rs_wf_info bits _ W) as (F & _). unfold decode_word_1. cbv zeta.
    destruct (enable_rs _); [exact F|exact W].
  - assert (rs_wf (read_page_2 bits m)) as W by (apply Hext; reflexivity).
    destruct (rs_wf_info bits _ W) as (_ & F & _). unfold decode_word_2. cbv zeta.
    destruct (enable_rs _); [exact F|exact W].
  - assert (rs_wf (read_page_3 bits m)) as W by (apply Hext; reflexivity).
    destruct (rs_wf_info bits _ W) as (_ & _ & F & _). unfold decode_word_3. cbv zeta.
    destruct (enable_rs _); [exact F|exact W].
  - assert (rs_wf (read_page_4 bits m)) as W by (apply Hext; reflexivity).
    destruct (rs_wf_info bits _ W) as (_ & _ & _ & F). unfold decode_word_4. cbv zeta.
    destruct (enable_rs _); [exact F|exact W].
  - unfold decode_word_17. destruct (enable_rs m); [|exact H].
    apply rs_wf_parity, rs_wf_check, Hext. reflexivity.
  - unfold decode_word_18. destruct (enable_rs m); [|exact H].
    apply rs_wf_parity, rs_wf_check, Hext. reflexivity.
  - unfold decode_word_19. destruct (enable_rs m); [|exact H].
    apply rs_wf_parity, rs_wf_check, Hext. reflexivity.
  - unfold decode_word_20. destruct (enable_rs m); [|exact H].
    apply rs_wf_parity, rs_wf_check, Hext. reflexivity.
Qed.

(** ** Runs *)

Definition receive_all (ws : list (list bool)) (m : Galileo_Inav_Message) : Galileo_Inav_Message :=
  fold_left (fun m bs => receive bs m) ws m.

(** The last word of each type. *)
Definition last_words (h : gmap Z (list bool)) (ws : list (list bool)) : gmap Z (list bool) :=
  fold_left (fun h bs => <[word_type bs := bs]> h) ws h.

(** What the code assumes of an ephemeris word: an IODnav of 0 means "none". *)
Definition admissible (bs : list bool) : Prop :=
  length bs = 128%nat /\ (word_type bs ∈ info_types -> word_IODnav bs <> 0).

Lemma collection_run ws h m :
  Forall admissible ws -> collection h m -> collection (last_words h ws) (receive_all ws m).
Proof.
  intros Hws. revert h m. induction Hws as [|bs ws [Hl Hi] Hws IH]; intros h m H; [exact H|].
  apply IH, collection_receive; assumption.
Qed.

Lemma rs_wf_run ws m : rs_wf m -> rs_wf (receive_all ws m).
Proof.
  revert m. induction ws as [|bs ws IH]; intros m H; [exact H|]. apply IH, rs_wf_word, H.
Qed.

Lemma rs_wf_initial : rs_wf (enable_reed_solomon new_Galileo_Inav_Message).
Proof.
  split; try reflexivity; apply Forall_replicate; [lia|auto].
Qed.

Lemma collection_initial : collection ∅ (enable_reed_solomon new_Galileo_Inav_Message).
Proof.
  assert (forall n, page (enable_reed_solomon new_Galileo_Inav_Message) n = 0) as Hz.
  { intros n. unfold page, vget. destruct (_ <? 0); [done|].
    rewrite nth_lookup. destruct (_ !! _) eqn:E; [|done].
    apply lookup_replicate in E as [-> _]. reflexivity. }
  split; try reflexivity; try (intros; exfalso; auto; fail).
  - apply Forall_replicate. auto.
  - intros _ n _. apply Hz.
Qed.

(** A region that holds the octets of an ephemeris word gives the word. *)
Lemma holds_regenerate buffer n bs :
  length bs = 128%nat -> word_type bs = n -> n ∈ info_types -> holds buffer n bs ->
  regenerate_page n (word_IODnav bs) buffer = rev bs.
Proof.
  intros Hl Ht Hn Hh. pose proof (type_bits bs n Hl Ht) as Hty.
  assert (n = 1 \/ n = 2 \/ n = 3 \/ n = 4) as Hc
    by (revert Hn; unfold info_types; rewrite !elem_of_cons, elem_of_nil; lia).
  unfold holds in Hh.
  destruct_or! Hc; subst n; rewrite Hc in *; cbn [region fst snd] in Hh; cbn [regenerate_page].
  - apply regenerate_first; [exact Hl|exact Hty|apply (Hh 0); lia|apply (Hh 1); lia|].
    intros k Hk. rewrite Hh by lia. unfold octet. cbn [Z.eqb Pos.eqb].
    destruct (Z.eqb_spec k 0), (Z.eqb_spec k 1); lia.
  - eapply regenerate_word; try eassumption; try reflexivity.
    intros k Hk. rewrite Hh by lia. unfold octet. cbn. f_equal. lia.
  - eapply regenerate_word; try eassumption; try reflexivity.
    intros k Hk. rewrite Hh by lia. unfold octet. cbn. f_equal. lia.
  - eapply regenerate_word; try eassumption; try reflexivity.
    intros k Hk. rewrite Hh by lia. unfold octet. cbn. f_equal. lia.
Qed.

(** C31: Whatever admissible words an enabled decoder receives, from its
    construction on and in any order, the octets of every word flagged in
    [inav_rs_pages] are those of the last word of its type; a flagged ephemeris
    word has the IODnav being collected and [regenerate_page_1] to
    [regenerate_page_4] give it back bit for bit. *)
Theorem fec2_collection (ws : list (list bool)) :
  Forall admissible ws ->
  let m := receive_all ws (enable_reed_solomon new_Galileo_Inav_Message) in
  forall n, n ∈ fec_types -> page m n <> 0 ->
  exists bs, last_words ∅ ws !! n = Some bs /\ word_type bs = n /\ holds (rs_buffer m) n bs /\
    (n ∈ info_types -> word_IODnav bs = current_IODnav m /\
       regenerate_page n (current_IODnav m) (rs_buffer m) = rev bs).
Proof.
  intros Hws m n Hn Hp.
  destruct (col_words _ _ (collection_run ws _ _ Hws collection_initial) n Hn Hp)
    as (bs & E & Hl & Ht & Hi & Hh).
  exists bs. split_and!; auto. intros Hin. split; [auto|].
  replace (current_IODnav m) with (word_IODnav bs) by exact (Hi Hin).
  apply holds_regenerate; auto.
Qed.

(** A word of type [n] with the IODnav [iod] and the octets [v], [v + 1], ... *)
Definition sample_word (n iod v : Z) : list bool :=
  to_bin 6 n ++ to_bin 10 iod ++ concat (map (fun k => to_bin 8 (v + k)) (seqZ 0 14)).

#[export] Instance admissible_dec bs : Decision (admissible bs).
Proof. unfold admissible. apply _. Defined.

Lemma fec2_collection_witness :
  let ws := [sample_word 2 77 5; sample_word 18 1 9; sample_word 1 77 20] in
  let m := receive_all ws (enable_reed_solomon new_Galileo_Inav_Message) in
  Forall admissible ws /\ page m 1 = 1 /\
  exists bs, last_words ∅ ws !! 1 = Some bs /\ word_type bs = 1 /\ holds (rs_buffer m) 1 bs /\
    (1 ∈ info_types -> word_IODnav bs = current_IODnav m /\
       regenerate_page 1 (current_IODnav m) (rs_buffer m) = rev bs).
Proof.
  intros ws m.
  assert (Forall admissible ws) as H
    by (apply (bool_decide_eq_true_1 (Forall admissible ws)); vm_compute; reflexivity).
  assert (page m 1 = 1) as Hp by (vm_compute; reflexivity).
  split; [exact H|]. split; [exact Hp|].
  apply (fec2_collection ws H 1 one_fec). intros E.
  pose proof (eq_trans (eq_sym Hp) E). discriminate.
Defined.

(** ** The parameters read from the ephemeris words *)

(** The parameters of word [n] kept in the state are those of [bs]. *)
Definition word_is (m : Galileo_Inav_Message) (n : Z) (bs : list bool) : Prop :=
  match n with
  | 1 => word_1 m = read_word_1 (rev bs)
  | 2 => word_2 m = read_word_2 (rev bs)
  | 3 => word_3 m = read_word_3 (rev bs)
  | _ => word_4 m = read_word_4 (rev bs)
  end.

Definition words_read (h : gmap Z (list bool)) (m : Galileo_Inav_Message) : Prop :=
  forall n bs, n ∈ info_types -> h !! n = Some bs -> word_is m n bs.

Definition ephemeris_words (m : Galileo_Inav_Message) : Word1 * Word2 * Word3 * Word4 :=
  (word_1 m, word_2 m, word_3 m, word_4 m).

Lemma word_is_ext m m' n bs :
  ephemeris_words m' = ephemeris_words m -> word_is m n bs -> word_is m' n bs.
Proof.
  unfold ephemeris_words. intros E. injection E as E1 E2 E3 E4.
  unfold word_is. destruct n as [|p|p]; try congruence.
  do 3 (try destruct p as [p|p|]; try congruence).
Qed.

Lemma info_cases n : n ∈ info_types -> n = 1 \/ n = 2 \/ n = 3 \/ n = 4.
Proof. unfold info_types. rewrite !elem_of_cons, elem_of_nil. lia. Qed.

Lemma follow_words iod m : ephemeris_words (follow_IODnav iod m) = ephemeris_words m.
Proof.
  unfold follow_IODnav. destruct (_ =? 0); cbn; destruct (negb _); reflexivity.
Qed.

Lemma check_words lsb m : ephemeris_words (check_IODnav_LSB lsb m) = ephemeris_words m.
Proof. unfold check_IODnav_LSB. destruct (negb _); reflexivity. Qed.

Lemma store_parity_words k j bits m :
  ephemeris_words (page_arrived j (store_parity k bits m)) = ephemeris_words m.
Proof. reflexivity. Qed.

Lemma store_info_words bits m :
  ephemeris_words (store_info_1 bits m) = ephemeris_words m /\
  ephemeris_words (store_info_2 bits m) = ephemeris_words m /\
  ephemeris_words (store_info_3 bits m) = ephemeris_words m /\
  ephemeris_words (store_info_4 bits m) = ephemeris_words m.
Proof.
  split; [exact (follow_words (IOD_nav_1 (word_1 m)) m)|].
  split; [exact (follow_words (IOD_nav_2 (word_2 m)) m)|].
  split; [exact (follow_words (IOD_nav_3 (word_3 m)) m)|].
  exact (follow_words (IOD_nav_4 (word_4 m)) m).
Qed.

Lemma decode_parity_words m bits :
  ephemeris_words (decode_word_17 bits m) = ephemeris_words m /\
  ephemeris_words (decode_word_18 bits m) = ephemeris_words m /\
  ephemeris_words (decode_word_19 bits m) = ephemeris_words m /\
  ephemeris_words (decode_word_20 bits m) = ephemeris_words m.
Proof.
  unfold decode_word_17, decode_word_18, decode_word_19, decode_word_20.
  destruct (enable_rs m); [|auto]. cbv zeta. rewrite !store_parity_words, !check_words. auto.
Qed.

Lemma decode_ephemeris_words bits m :
  let '(w1, w2, w3, w4) := ephemeris_words m in
  ephemeris_words (decode_word_1 bits m) = (read_word_1 bits, w2, w3, w4) /\
  ephemeris_words (decode_word_2 bits m) = (w1, read_word_2 bits, w3, w4) /\
  ephemeris_words (decode_word_3 bits m) = (w1, w2, read_word_3 bits, w4) /\
  ephemeris_words (decode_word_4 bits m) = (w1, w2, w3, read_word_4 bits).
Proof.
  unfold ephemeris_words at 1.
  unfold decode_word_1, decode_word_2, decode_word_3, decode_word_4.
  split; [|split; [|split]]; cbv zeta.
  - destruct (enable_rs _); [rewrite (proj1 (store_info_words _ _))|]; reflexivity.
  - destruct (enable_rs _); [rewrite (proj1 (proj2 (store_info_words _ _)))|]; reflexivity.
  - destruct (enable_rs _); [rewrite (proj1 (proj2 (proj2 (store_info_words _ _))))|]; reflexivity.
  - destruct (enable_rs _); [rewrite (proj2 (proj2 (proj2 (store_info_words _ _))))|]; reflexivity.
Qed.

Lemma decode_word_words n bits m :
  n ∉ info_types -> ephemeris_words (decode_word n bits m) = ephemeris_words m.
Proof.
  intros Hn. destruct (decode_parity_words m bits) as (E1 & E2 & E3 & E4).
  destruct n as [|p|p];
    [|do 5 (try destruct p as [p|p|]; try reflexivity; try assumption)|reflexivity];
    try (contradiction Hn; unfold info_types; rewrite !elem_of_cons; lia).
  cbn [decode_word]. unfold decode_word_0. cbv zeta. destruct (_ =? 2); reflexivity.
Qed.

Lemma words_read_receive h m bs :
  words_read h m -> words_read (<[word_type bs := bs]> h) (receive bs m).
Proof.
  intros H n bs' Hn. unfold receive.
  destruct (decide (word_type bs = n)) as [E|E].
  - rewrite E, lookup_insert_eq. intros [= <-].
    pose proof (decode_ephemeris_words (rev bs) m) as D. unfold ephemeris_words in D.
    destruct D as (D1 & D2 & D3 & D4).
    injection D1 as D1 _ _ _. injection D2 as _ D2 _ _. injection D3 as _ _ D3 _.
    injection D4 as _ _ _ D4.
    destruct (info_cases n Hn) as [->|[->|[->| ->]]]; assumption.
  - rewrite lookup_insert_ne by exact E. intros Hb. specialize (H n bs' Hn Hb).
    remember (word_type bs) as k eqn:Hk.
    destruct (decide (k ∈ info_types)) as [Hi|Hi].
    2:{ eapply word_is_ext, H. apply decode_word_words, Hi. }
    pose proof (decode_ephemeris_words (rev bs) m) as D. unfold ephemeris_words in D.
    destruct D as (D1 & D2 & D3 & D4).
    injection D1 as _ A1 B1 C1. injection D2 as A2 _ B2 C2. injection D3 as A3 B3 _ C3.
    injection D4 as A4 B4 C4 _.
    destruct (info_cases k Hi) as [K|[K|[K|K]]], (info_cases n Hn) as [N|[N|[N|N]]];
      rewrite K, N in *; try congruence; cbn [word_is decode_word] in *; congruence.
Qed.

Lemma words_read_run ws h m :
  words_read h m -> words_read (last_words h ws) (receive_all ws m).
Proof.
  revert h m. induction ws as [|bs ws IH]; intros h m H; [exact H|].
  apply IH, words_read_receive, H.
Qed.

(** ** The erasures *)

(** The place in the 255-octet code word of position [j] of [rs_buffer]. *)
Definition unshortened (j : Z) : Z := if j <? 58 then j else j + 137.

Fixpoint all_pages (n : nat) : list (list Z) :=
  match n with
  | O => [[]]
  | S n => flat_map (fun p => [0 :: p; 1 :: p]) (all_pages n)
  end.

Lemma in_all_pages pages :
  Forall (fun p => p = 0 \/ p = 1) pages -> pages ∈ all_pages (length pages).
Proof.
  induction 1 as [|p pages Hp H IH]; [left|]. cbn [length all_pages].
  apply list_elem_of_In, in_flat_map. exists pages.
  split; [apply list_elem_of_In, IH|]. destruct Hp as [->| ->]; [left|right; left]; reflexivity.
Qed.

Definition pages_sum (pages : list Z) : Z := fold_left Z.add pages 0.

(** Whether position [j] belongs to a word that has not arrived; the first
    octet is never marked. *)
Definition erased (pages : list Z) (j : Z) : bool :=
  negb (j =? 0) &&
  existsb (fun n => in_region n j && (vget 0 pages (page_index n) =? 0)) fec_types.

Definition positions_ok (pages : list Z) : bool :=
  negb (pages_sum pages =? 4) ||
  (bool_decide (NoDup (erasure_positions pages)) &&
   (57 <=? Z.of_nat (length (erasure_positions pages))) &&
   (Z.of_nat (length (erasure_positions pages)) <=? 60) &&
   forallb (fun p => ((1 <=? p) && (p <? 58)) || ((195 <=? p) && (p <? 255)))
     (erasure_positions pages) &&
   forallb (fun j => Bool.eqb (bool_decide (unshortened j ∈ erasure_positions pages))
                       (erased pages j)) (seqZ 0 118)).

Lemma positions_ok_all : forallb positions_ok (all_pages 8) = true.
Proof. vm_compute. reflexivity. Qed.

(** When four of the eight words have arrived, the erasures reported to the
    Reed-Solomon decoder are distinct, at most the 60 it can restore, inside the
    shortened code word, and exactly the octets (other than the first, which
    any ephemeris word determines) of the words that have not arrived. *)
Theorem erasure_positions_exact (pages : list Z) :
  length pages = 8%nat -> Forall (fun p => p = 0 \/ p = 1) pages -> pages_sum pages = 4 ->
  NoDup (erasure_positions pages) /\
  57 <= Z.of_nat (length (erasure_positions pages)) <= 60 /\
  (forall p, p ∈ erasure_positions pages -> 1 <= p < 58 \/ 195 <= p < 255) /\
  (forall j, 0 <= j < 118 ->
     (unshortened j ∈ erasure_positions pages <-> erased pages j = true)).
Proof.
  intros Hl Hp Hs. pose proof (in_all_pages pages Hp) as Hin. rewrite Hl in Hin.
  pose proof positions_ok_all as Hall. rewrite forallb_forall in Hall.
  specialize (Hall pages (proj1 (list_elem_of_In _ _) Hin)).
  unfold positions_ok in Hall. rewrite Hs in Hall. cbn [Z.eqb Pos.eqb negb orb] in Hall.
  rewrite !andb_true_iff, bool_decide_eq_true, !Z.leb_le, !forallb_forall in Hall.
  destruct Hall as ((((H1 & H2) & H3) & H4) & H5).
  split; [exact H1|]. split; [lia|]. split.
  - intros p Hpp. specialize (H4 p (proj1 (list_elem_of_In _ _) Hpp)).
    rewrite orb_true_iff, !andb_true_iff, !Z.leb_le, !Z.ltb_lt in H4. lia.
  - intros j Hj. specialize (H5 j (proj1 (list_elem_of_In _ _) (proj2 (elem_of_seqZ 0 118 j) ltac:(lia)))).
    apply eqb_prop in H5. rewrite <- H5, bool_decide_eq_true. reflexivity.
Qed.

Lemma erasure_positions_exact_witness :
  length [1; 0; 1; 0; 0; 1; 0; 1] = 8%nat /\
  NoDup (erasure_positions [1; 0; 1; 0; 0; 1; 0; 1]) /\
  57 <= Z.of_nat (length (erasure_positions [1; 0; 1; 0; 0; 1; 0; 1])) <= 60 /\
  (forall p, p ∈ erasure_positions [1; 0; 1; 0; 0; 1; 0; 1] -> 1 <= p < 58 \/ 195 <= p < 255) /\
  (forall j, 0 <= j < 118 ->
     (unshortened j ∈ erasure_positions [1; 0; 1; 0; 0; 1; 0; 1] <->
      erased [1; 0; 1; 0; 0; 1; 0; 1] j = true)).
Proof.
  split; [reflexivity|].
  apply (erasure_positions_exact [1; 0; 1; 0; 0; 1; 0; 1]);
    [reflexivity|repeat (constructor; [lia|]); constructor|reflexivity].
Defined.

(** ** Recovery of the missing ephemeris words *)

(** What the collection asks of the Reed-Solomon decoder: up to 60 erasures of a
    shortened code word are restored, and the number returned is not negative. *)
Class RSErasures `{RSDecoder} (codeword : list Z -> Prop) := rs_restores :
  forall c received positions,
    codeword c -> length received = 118%nat -> Forall (fun v => 0 <= v < 256) received ->
    NoDup positions -> Z.of_nat (length positions) <= 60 ->
    (forall p, p ∈ positions -> 0 <= p < 58 \/ 195 <= p < 255) ->
    (forall j, 0 <= j < 118 -> unshortened j ∉ positions -> vget 0 received j = vget 0 c j) ->
    exists k, 0 <= k /\ rs_decode received positions = (k, c).

Lemma holds_read (c : list Z) n bs m :
  length bs = 128%nat -> word_type bs = n -> n ∈ info_types -> holds c n bs ->
  current_IODnav m = word_IODnav bs -> rs_buffer m = c ->
  regenerate_page n (current_IODnav m) (rs_buffer m) = rev bs.
Proof. intros Hl Ht Hn Hh -> ->. apply holds_regenerate; assumption. Qed.

(** One step of [read_missing_pages]. *)
Definition read_page (n : Z) (bits : bitset) (m : Galileo_Inav_Message) : Galileo_Inav_Message :=
  match n with
  | 1 => read_page_1 bits m
  | 2 => read_page_2 bits m
  | 3 => read_page_3 bits m
  | _ => read_page_4 bits m
  end.

Definition fill (n : Z) (m : Galileo_Inav_Message) : Galileo_Inav_Message :=
  if page m n =? 0 then read_page n (regenerate_page n (current_IODnav m) (rs_buffer m)) m else m.

Lemma read_missing_fill m : read_missing_pages m = fill 4 (fill 3 (fill 2 (fill 1 m))).
Proof.
  assert (forall m, fill 1 m = if vget 0 (inav_rs_pages m) 0 =? 0
    then read_page_1 (regenerate_page_1 (rs_buffer m)) m else m) as E1 by (intros; reflexivity).
  assert (forall m, fill 2 m = if vget 0 (inav_rs_pages m) 1 =? 0
    then read_page_2 (regenerate_page_2 (current_IODnav m) (rs_buffer m)) m else m) as E2
    by (intros; reflexivity).
  assert (forall m, fill 3 m = if vget 0 (inav_rs_pages m) 2 =? 0
    then read_page_3 (regenerate_page_3 (current_IODnav m) (rs_buffer m)) m else m) as E3
    by (intros; reflexivity).
  assert (forall m, fill 4 m = if vget 0 (inav_rs_pages m) 3 =? 0
    then read_page_4 (regenerate_page_4 (current_IODnav m) (rs_buffer m)) m else m) as E4
    by (intros; reflexivity).
  unfold read_missing_pages. rewrite <- E1. set (m1 := fill 1 m). clearbody m1. cbv zeta.
  rewrite <- E2. set (m2 := fill 2 m1). clearbody m2.
  rewrite <- E3. set (m3 := fill 3 m2). clearbody m3. rewrite <- E4. reflexivity.
Qed.

Lemma fill_view n m : rs_view (fill n m) = rs_view m.
Proof.
  unfold fill. destruct (_ =? 0); [|reflexivity].
  unfold read_page. destruct n as [|p|p]; try reflexivity.
  do 3 (try destruct p as [p|p|]; try reflexivity).
Qed.

Lemma read_page_word bits m :
  word_1 (read_page_1 bits m) = read_word_1 bits /\
  word_2 (read_page_2 bits m) = read_word_2 bits /\
  word_3 (read_page_3 bits m) = read_word_3 bits /\
  word_4 (read_page_4 bits m) = read_word_4 bits.
Proof. repeat split. Qed.

Lemma fill_word n m bs :
  n ∈ info_types -> regenerate_page n (current_IODnav m) (rs_buffer m) = rev bs ->
  (page m n <> 0 -> word_is m n bs) -> word_is (fill n m) n bs.
Proof.
  intros Hn Hg Hr. unfold fill. destruct (Z.eqb_spec (page m n) 0) as [E|E]; [|auto].
  rewrite Hg. destruct (info_cases n Hn) as [->|[->|[->| ->]]]; cbn [word_is read_page];
    apply read_page_word.
Qed.

Lemma fill_other n k m bs :
  n ∈ info_types -> k ∈ info_types -> n <> k -> word_is m k bs -> word_is (fill n m) k bs.
Proof.
  intros Hn Hk Hnk Hw. unfold fill. destruct (_ =? 0); [|exact Hw].
  set (bits := regenerate_page _ _ _). clearbody bits.
  destruct (info_cases n Hn) as [->|[->|[->| ->]]], (info_cases k Hk) as [->|[->|[->| ->]]];
    try contradiction; exact Hw.
Qed.

(** Reading the missing words of a buffer that holds all of them. *)
Lemma read_missing_words (W : Z -> list bool) m :
  (forall n, n ∈ info_types ->
     regenerate_page n (current_IODnav m) (rs_buffer m) = rev (W n)) ->
  (forall n, n ∈ info_types -> page m n <> 0 -> word_is m n (W n)) ->
  forall n, n ∈ info_types -> word_is (read_missing_pages m) n (W n).
Proof.
  intros Hg Hr. rewrite read_missing_fill.
  (* the words read so far, and what the next step needs *)
  pose (done_upto := fun k m' => rs_view m' = rs_view m /\
    (forall n, n ∈ info_types -> n <= k -> word_is m' n (W n)) /\
    (forall n, n ∈ info_types -> page m n <> 0 -> word_is m' n (W n))).
  assert (forall k m', k ∈ info_types -> done_upto (k - 1) m' -> done_upto k (fill k m')) as Hstep.
  { intros k m' Hk (Hv & Hd & Hp). pose proof (fill_view k m') as Hfv.
    assert (word_is (fill k m') k (W k)) as Hkw.
    { unfold rs_view in Hv. injection Hv as _ E1 E2 E3. apply fill_word; [exact Hk| |].
      - rewrite E1, E3. apply Hg, Hk.
      - intros Hne. apply Hp; [exact Hk|]. unfold page in *. rewrite <- E2. exact Hne. }
    split; [congruence|]. split.
    - intros n Hn Hle. destruct (decide (k = n)) as [<-|Hne]; [exact Hkw|].
      apply fill_other; auto. apply Hd; [exact Hn|lia].
    - intros n Hn Hpn. destruct (decide (k = n)) as [<-|Hne]; [exact Hkw|].
      apply fill_other; auto. }
  assert (1 ∈ info_types /\ 2 ∈ info_types /\ 3 ∈ info_types /\ 4 ∈ info_types)
    as (I1 & I2 & I3 & I4).
  { unfold info_types. rewrite !elem_of_cons. lia. }
  assert (done_upto 0 m) as H0.
  { split; [reflexivity|]. split; [|exact Hr]. intros n Hn Hle.
    destruct (info_cases n Hn); lia. }
  pose proof (Hstep 4 _ I4 (Hstep 3 _ I3 (Hstep 2 _ I2 (Hstep 1 _ I1 H0)))) as (_ & Hall & _).
  intros n Hn. apply Hall; [exact Hn|]. destruct (info_cases n Hn); lia.
Qed.

(** The four words have arrived in full, with one IODnav: nothing to recover. *)
Definition ephemeris_complete (m : Galileo_Inav_Message) : bool :=
  (flag_ephemeris_1 m && flag_ephemeris_2 m && flag_ephemeris_3 m && flag_ephemeris_4 m
   && flag_iono_and_GST m) && same_IODnav m.

Lemma region_cover j : 0 <= j < 118 -> exists n, n ∈ fec_types /\ in_region n j = true.
Proof.
  intros Hj.
  assert (Exists (fun n => in_region n j = true) fec_types) as H.
  { unfold fec_types, info_types, parity_types, in_region. cbn [app]. rewrite !Exists_cons.
    cbn [region fst snd]. rewrite !andb_true_iff, !Z.leb_le, !Z.ltb_lt. lia. }
  apply Exists_exists in H as (n & Hn & Hr). eauto.
Qed.

(** The octets that are not marked erased agree with the code word. *)
Lemma received_octets h m (W : Z -> list bool) c iod :
  collection h m ->
  (forall n, n ∈ fec_types -> length (W n) = 128%nat /\ word_type (W n) = n /\ holds c n (W n)) ->
  (forall n, n ∈ info_types -> word_IODnav (W n) = iod) ->
  (forall n, n ∈ fec_types -> page m n <> 0 -> h !! n = Some (W n)) ->
  (exists n, n ∈ info_types /\ page m n <> 0) ->
  current_IODnav m = iod /\
  forall j, 0 <= j < 118 -> erased (inav_rs_pages m) j = false ->
    vget 0 (rs_buffer m) j = vget 0 c j.
Proof.
  intros H HW Hiod Hh (n0 & Hn0 & Hp0).
  assert (current_IODnav m = iod) as Hc.
  { destruct (col_words _ _ H n0 (info_fec _ Hn0) Hp0) as (bs & E & _ & _ & Hi & _).
    rewrite (Hh n0 (info_fec _ Hn0) Hp0) in E. injection E as <-.
    rewrite <- (Hi Hn0). apply Hiod, Hn0. }
  split; [exact Hc|]. intros j Hj He. unfold erased in He.
  destruct (Z.eqb_spec j 0) as [->|Hne]; cbn [negb andb] in He.
  - rewrite (col_known _ _ H n0 Hn0 Hp0), Hc.
    destruct (HW 1 one_fec) as (Hl & Ht & Hcw). rewrite Hcw by (cbn; lia).
    rewrite first_octet_known by assumption. rewrite Hiod by apply one_info. reflexivity.
  - destruct (region_cover j Hj) as (n & Hn & Hr).
    assert (page m n <> 0) as Hp.
    { intros E. apply not_true_iff_false in He. apply He, existsb_exists.
      exists n. split; [apply list_elem_of_In, Hn|]. rewrite Hr. apply Z.eqb_eq, E. }
    destruct (col_words _ _ H n Hn Hp) as (bs & E & _ & _ & _ & Hhold).
    rewrite (Hh n Hn Hp) in E. injection E as <-.
    destruct (HW n Hn) as (_ & _ & Hcw). apply in_region_spec in Hr.
    rewrite (Hhold j Hr), (Hcw j Hr). reflexivity.
Qed.

(** [have_new_ephemeris] with four words and a decoder that restored [c]. *)
Lemma recover_ephemeris_decoded `{RSDecoder} m k c :
  pages_sum (inav_rs_pages m) = 4 -> ephemeris_complete m = false -> enable_rs m = true ->
  rs_decode (rs_buffer m) (erasure_positions (inav_rs_pages m)) = (k, c) -> 0 <= k ->
  let m1 := read_missing_pages (m <| rs_buffer := c |>) in
  have_new_ephemeris m =
    (true, set_all_ephemeris (clear_ephemeris_flags (m1 <| inav_rs_pages := zero_rs_pages |>))).
Proof.
  intros Hs Hc Hr Hd Hk m1. unfold have_new_ephemeris.
  change (_ && same_IODnav m) with (ephemeris_complete m). rewrite Hc, Hr.
  unfold recover_ephemeris. change (fold_left Z.add _ 0) with (pages_sum (inav_rs_pages m)).
  rewrite Hs, Hd. cbn [Z.eqb Pos.eqb]. rewrite (proj2 (Z.leb_le 0 k) Hk). reflexivity.
Qed.

(** Four of the eight words suffice, for any decoder that restores erasures:
    when the words flagged are those of one transmitted code word, at least one
    of them an ephemeris word, [have_new_ephemeris] reports an ephemeris whose
    four words are read from the transmitted words bit for bit. *)
Lemma fec2_recovers_interface `{RSErasures codeword} (ws : list (list bool)) (W : Z -> list bool)
    (c : list Z) (iod : Z) :
  Forall admissible ws -> codeword c ->
  (forall n, n ∈ fec_types -> length (W n) = 128%nat /\ word_type (W n) = n /\ holds c n (W n)) ->
  (forall n, n ∈ info_types -> word_IODnav (W n) = iod) ->
  let m := receive_all ws (enable_reed_solomon new_Galileo_Inav_Message) in
  (forall n, n ∈ fec_types -> page m n <> 0 -> last_words ∅ ws !! n = Some (W n)) ->
  (exists n, n ∈ info_types /\ page m n <> 0) ->
  pages_sum (inav_rs_pages m) = 4 -> ephemeris_complete m = false ->
  exists m', have_new_ephemeris m = (true, m') /\
    (forall n, n ∈ info_types -> word_is m' n (W n)) /\
    IOD_ephemeris m' = iod /\ flag_all_ephemeris m' = true /\ enable_rs m' = false /\
    inav_rs_pages m' = zero_rs_pages.
Proof.
  intros Hws Hcw HW Hiod m Hlast Hinfo Hs Hcomp.
  pose proof (collection_run ws _ _ Hws collection_initial) as Hcol. fold m in Hcol.
  assert (words_read (last_words ∅ ws) m) as Hread
    by (apply words_read_run; intros n bs _ Hb; discriminate Hb).
  destruct (received_octets _ m W c iod Hcol HW Hiod Hlast Hinfo) as [Hcur Hoct].
  destruct (erasure_positions_exact _ (col_pages _ _ Hcol) (col_flags _ _ Hcol) Hs)
    as (Hnd & Hlen & Hrange & Hmem).
  destruct (rs_restores c (rs_buffer m) (erasure_positions (inav_rs_pages m)))
    as (k & Hk & Hd); [exact Hcw|apply Hcol|apply rs_wf_run, rs_wf_initial|exact Hnd|lia| | |].
  { intros p Hp. specialize (Hrange p Hp). lia. }
  { intros j Hj Hnot. apply Hoct; [exact Hj|]. apply not_true_iff_false. intros E.
    apply Hnot, Hmem; assumption. }
  eexists. split; [apply (recover_ephemeris_decoded m k c Hs Hcomp (col_rs _ _ Hcol) Hd Hk)|].
  set (m1 := m <| rs_buffer := c |>).
  assert (forall n, n ∈ info_types -> word_is (read_missing_pages m1) n (W n)) as Hwords.
  { apply read_missing_words.
    - intros n Hn. destruct (HW n (info_fec n Hn)) as (Hl & Ht & Hh).
      apply (holds_read c); auto. change (current_IODnav m1) with (current_IODnav m).
      rewrite Hcur. symmetry. apply Hiod, Hn.
    - intros n Hn Hp. apply (word_is_ext m); [reflexivity|]. apply Hread; [exact Hn|].
      apply Hlast; [apply info_fec, Hn|exact Hp]. }
  set (m2 := read_missing_pages m1) in *.
  split_and!; try reflexivity.
  - intros n Hn. apply (word_is_ext m2); [reflexivity|]. apply Hwords, Hn.
  - change (IOD_nav_1 (word_1 m2) = iod). pose proof (Hwords 1 one_info) as Hw.
    cbn [word_is] in Hw. rewrite Hw. destruct (HW 1 one_fec) as (Hl & _ & _).
    rewrite (proj1 (read_IOD_nav (W 1) Hl)). apply Hiod, one_info.
Qed.

(** Sample words. *)
Definition sample_sent (n : Z) : list bool := sample_word n (if n <=? 4 then 77 else 1) (3 * n).

Definition holds_test (c : list Z) (n : Z) (bs : list bool) : bool :=
  forallb (fun j => vget 0 c j =? octet n bs j) (seqZ (region n).1 ((region n).2 - (region n).1)).

Lemma holds_tested c n bs : holds_test c n bs = true -> holds c n bs.
Proof.
  unfold holds_test. rewrite forallb_forall. intros H j Hj. apply Z.eqb_eq, H.
  apply list_elem_of_In, elem_of_seqZ. lia.
Qed.

(** ** Where the bookkeeping of the IODnav fails *)

(** An IODnav of 0 is taken for "no IODnav yet": an ephemeris word with
    IODnav 0 followed by one of another batch are both kept as words of one
    collection, which then never equals a transmitted code word. *)
Theorem iodnav_zero_mixes_batches :
  exists b1 b2 : list bool,
    length b1 = 128%nat /\ length b2 = 128%nat /\ word_type b1 = 1 /\ word_type b2 = 2 /\
    word_IODnav b1 = 0 /\ word_IODnav b2 = 5 /\
    let m := receive_all [b1; b2] (enable_reed_solomon new_Galileo_Inav_Message) in
    page m 1 = 1 /\ page m 2 = 1 /\ current_IODnav m = 5.
Proof.
  exists (sample_word 1 0 20), (sample_word 2 5 40).
  repeat (split; [vm_compute; reflexivity|]). vm_compute. reflexivity.
Qed.

(** The two IODnav bits of the parity words are compared with those of the
    ephemeris words only: parity words of different batches are counted
    together towards the four words that start a decoding. *)
Theorem parity_batches_mixed :
  exists ws : list (list bool),
    Forall admissible ws /\ map word_type ws = parity_types /\
    map (fun bs => field bs 14 2) ws = ([1; 2; 1; 3] : list Z) /\
    let m := receive_all ws (enable_reed_solomon new_Galileo_Inav_Message) in
    pages_sum (inav_rs_pages m) = 4.
Proof.
  exists [sample_word 17 1 5; sample_word 18 2 9; sample_word 19 1 7; sample_word 20 3 1].
  split; [apply (bool_decide_eq_true_1 (Forall admissible _)); vm_compute; reflexivity|].
  repeat (split; [vm_compute; reflexivity|]). vm_compute. reflexivity.
Qed.
