(* ===== verification/InavPages.v ===== *)
(** * InavPages: pages in, words out

    [split_page] on every branch: an even half is kept; an odd half is joined
    with it, its CRC checked, and the word it carries decoded; what is
    malformed throws; and whatever arrives, the buffers of the FEC2 collection
    keep their sizes.  The data sets are reported once each. *)

From S2P Require Import Prelude Cstring BinString Float64 InavTables InavWords InavReaders.
From S2P Require Import GalileoData InavMessage InavProofs InavFec.
From stdpp Require Import gmap list strings.
From Stdlib Require Import ZArith Lia Ascii.
Local Open Scope Z_scope.
Local Open Scope cxx_scope.

(** ** The specification of a page

    The 234 bits of an I/NAV page are the even half (114 bits, [even/odd], [page
    type], [data k]) followed by the odd half (120 bits: [even/odd], [page
    type], [data j], the OSNMA field, SAR, spare, CRC, reserved and tail). *)

Definition word_of_page (page : list bool) : list bool := slice page 2 112 ++ slice page 116 16.
Definition osnma_of_page (page : list bool) : list bool := slice page 132 40.

(** The CRC-24Q of the first 196 bits against the checksum in the page. *)
Definition crc_ok `{Boost} (page : list bool) : bool :=
  CRC_test (rev (slice page 0 196)) (field page 196 24).

(** A page that passed its CRC. *)
Definition accept_page (page : list bool) (m : Galileo_Inav_Message) : Galileo_Inav_Message :=
  (receive (word_of_page page)
    (m <| flag_CRC_test := true |> <| Page_type_time_stamp := word_type (word_of_page page) |>))
    <| data_nav := bits_str (word_of_page page) |>
    <| data_OSNMA := bits_str (osnma_of_page page) |>.

(** ** Reading the bits of a page *)

Lemma bind_substr {A} (bs : list bool) pos len (k : cstring -> prog Galileo_Inav_Message A) m :
  0 <= pos -> 0 <= len -> pos + len <= blen bs -> blen bs < 2 ^ 64 ->
  bind (lift (substr (bits_str bs) pos len)) k m = k (bits_str (slice bs pos len)) m.
Proof.
  intros. unfold bind, lift. rewrite substr_slice by lia. reflexivity.
Qed.

Lemma bind_bitset {A} N (bs : list bool) (k : list bool -> prog Galileo_Inav_Message A) m :
  length bs = N -> bind (lift (bitset_of_string N (bits_str bs))) k m = k (rev bs) m.
Proof. intros. unfold bind, lift. rewrite bitset_of_bits by assumption. reflexivity. Qed.

Lemma page_type_of_bits (bs : list bool) :
  length bs = 6%nat -> i32 (read_page_type_unsigned (rev bs) TYPE) = bin_value bs.
Proof.
  intros Hl. pose proof (bin_value_range bs) as Hr. rewrite Hl in Hr.
  assert (field_bits GALILEO_PAGE_TYPE_BITS (rev bs) TYPE = bs) as E.
  { unfold field_bits, TYPE. cbn [map concat]. rewrite app_nil_r.
    etransitivity; [exact (slice_bits_rev 6 bs 1 6 Hl ltac:(lia) ltac:(lia))|].
    change (1 - 1)%nat with 0%nat. rewrite drop_0. apply take_ge. lia. }
  assert (read_page_type_unsigned (rev bs) TYPE = bin_value bs) as ->.
  { unfold read_page_type_unsigned. cbv zeta. change 0 with (wrap 64 0) at 1.
    rewrite (unsigned_fold 64) by (lia || (repeat constructor; lia)). rewrite E.
    apply wrap_small. change (2 ^ Z.of_nat 6) with 64 in Hr. lia. }
  apply swrap_small; [lia|]. change (2 ^ Z.of_nat 6) with 64 in Hr. lia.
Qed.

Lemma page_type_of_word bs :
  length bs = 128%nat -> i32 (read_navigation_unsigned (rev bs) PAGE_TYPE_BIT) = word_type bs.
Proof.
  intros Hl. unfold PAGE_TYPE_BIT. rewrite read_unsigned_field by lia. change (1 - 1) with 0.
  pose proof (field_range bs 0 6 ltac:(lia)). apply swrap_small; [lia|].
  unfold word_type. lia.
Qed.

Lemma page_jk_decoder_bits bs m :
  length bs = 128%nat -> page_jk_decoder (bits_str bs) m = (Returns (word_type bs), receive bs m).
Proof.
  intros Hl. unfold page_jk_decoder. rewrite bind_bitset by exact Hl.
  rewrite page_type_of_word by exact Hl. reflexivity.
Qed.

Lemma word_of_page_length page : blen page = 234 -> length (word_of_page page) = 128%nat.
Proof.
  intros H. unfold word_of_page. rewrite length_app, !slice_length by lia. reflexivity.
Qed.

Lemma word_of_page_type page :
  blen page = 234 -> word_type (word_of_page page) = bin_value (slice page 2 6).
Proof.
  intros H. unfold word_type, field, word_of_page. f_equal. unfold slice at 1.
  rewrite drop_0, take_app_le by (rewrite slice_length by lia; lia).
  unfold slice. rewrite take_take. f_equal.
Qed.

(** [join_page] with the even half in memory. *)
Lemma join_page_bits `{Boost} (even odd : list bool) m :
  page_Even m = bits_str even -> length even = 114%nat -> length odd = 120%nat ->
  join_page (bits_str odd) m =
  (Returns tt, if crc_ok (even ++ odd) then accept_page (even ++ odd) m
               else m <| flag_CRC_test := false |>).
Proof.
  intros He Hl Ho. unfold join_page. unfold bind at 1. unfold gets. cbv beta iota zeta.
  rewrite He, <- bits_str_app. set (page := even ++ odd).
  assert (blen page = 234) as Hp by (unfold blen, page; rewrite length_app; lia).
  do 11 (rewrite bind_substr by lia).
  unfold GALILEO_DATA_FRAME_BITS. do 2 (rewrite bind_substr by lia).
  rewrite bind_bitset by (rewrite slice_length by lia; reflexivity).
  rewrite bind_bitset by (rewrite slice_length by lia; reflexivity).
  unfold bitset_to_ulong. rewrite rev_involutive.
  change (bin_value (slice page 196 24)) with (field page 196 24).
  rewrite wrap_small by (pose proof (field_range page 196 24 ltac:(lia)); lia).
  fold (crc_ok page). destruct (crc_ok page); [|reflexivity].
  unfold bind at 1, modify at 1. cbv beta iota zeta.
  rewrite bind_substr by (unfold blen; rewrite ?slice_length by lia; lia).
  assert (slice (slice page 2 112) 0 6 = slice page 2 6) as Es.
  { unfold slice. rewrite drop_0, take_take. f_equal. }
  rewrite Es. rewrite bind_bitset by (rewrite slice_length by lia; reflexivity).
  rewrite page_type_of_bits by (rewrite slice_length by lia; reflexivity).
  rewrite <- word_of_page_type by exact Hp.
  rewrite <- bits_str_app. fold (word_of_page page).
  unfold bind at 1, modify at 1. cbv beta iota zeta.
  unfold bind at 1. rewrite page_jk_decoder_bits by (apply word_of_page_length, Hp).
  reflexivity.
Qed.


(** A checksum for concrete runs: the exclusive or of the bytes. *)
#[local] Instance sample_boost : Boost := {|
  to_block_range s :=
    let bits := rev (default [] (char_bits s)) in
    map (fun i => bin_value (rev (take 8 (drop (8 * i) bits)))) (seq 0 ((length bits + 7) / 8));
  crc_galileo_inav bytes := fold_left Z.lxor bytes 0
|}.

(** The two halves of a page that carries [w], its OSNMA field and its checksum. *)
Definition sample_even (w : list bool) : list bool := false :: false :: slice w 0 112.
Definition sample_odd (w osnma : list bool) (crc : Z) : list bool :=
  true :: false :: slice w 112 16 ++ osnma ++ replicate 24 false ++ to_bin 24 crc ++ replicate 14 false.


(** ** The buffers of the collection *)

Lemma rs_wf_split_page `{Boost} s flag : run_inv rs_wf (split_page s flag).
Proof.
  assert (forall f, (forall m, rs_view (f m) = rs_view m) -> run_inv rs_wf (modify f)) as Hmod.
  { intros f Hf m Hm. cbn. eapply rs_wf_ext; [apply Hf|exact Hm]. }
  unfold split_page, join_page, page_jk_decoder.
  repeat first
    [ apply run_inv_bind; [|intros ?] | apply run_inv_lift | apply run_inv_gets
    | apply run_inv_ret | (apply Hmod; reflexivity)
    | (apply run_inv_modify; intros; apply rs_wf_word; assumption)
    | match goal with |- run_inv _ (if ?b then _ else _) => destruct b end ].
Qed.

(** ** Reachable decoders *)

(** The calls that change a decoder, with any arguments; [split_page] changes
    it even when it throws. *)
Inductive inav_step `{Boost} `{RSDecoder} : Galileo_Inav_Message -> Galileo_Inav_Message -> Prop :=
  | step_split_page s flag m : inav_step m (split_page s flag m).2
  | step_have_new_ephemeris m : inav_step m (have_new_ephemeris m).2
  | step_have_new_iono m : inav_step m (have_new_iono_and_GST m).2
  | step_have_new_utc m : inav_step m (have_new_utc_model m).2
  | step_have_new_almanac m : inav_step m (have_new_almanac m).2
  | step_have_new_reduced_ced m : inav_step m (have_new_reduced_ced m).2
  | step_set_flag_TOW_set b m : inav_step m (set_flag_TOW_set b m)
  | step_set_TOW5_flag b m : inav_step m (set_TOW5_flag b m)
  | step_set_TOW6_flag b m : inav_step m (set_TOW6_flag b m)
  | step_set_TOW0_flag b m : inav_step m (set_TOW0_flag b m)
  | step_init_PRN prn m : inav_step m (init_PRN prn m)
  | step_enable_reed_solomon m : inav_step m (enable_reed_solomon m).

(** What the message decoder asks of any Reed-Solomon decoder it is given: the
    data it hands back are as many octets as it was given. *)
Class RSShape `{RSDecoder} := rs_shape : forall data positions,
  Forall (fun v => 0 <= v < 256) data ->
  length (rs_decode data positions).2 = length data /\
  Forall (fun v => 0 <= v < 256) (rs_decode data positions).2.

Lemma read_missing_view m : rs_view (read_missing_pages m) = rs_view m.
Proof. rewrite read_missing_fill, !fill_view. reflexivity. Qed.

Lemma rs_wf_have_new_ephemeris `{RSShape} m : rs_wf m -> rs_wf (have_new_ephemeris m).2.
Proof.
  intros Hm. unfold have_new_ephemeris.
  destruct (_ && same_IODnav m).
  { destruct Hm; split; assumption. }
  destruct (enable_rs m); [|exact Hm]. unfold recover_ephemeris.
  destruct (_ =? 4); [|exact Hm].
  destruct Hm as [H1 H2 H3 H4].
  pose proof (rs_shape (rs_buffer m) (erasure_positions (inav_rs_pages m)) H2) as [S1 S2].
  destruct (rs_decode _ _) as [result data]. cbn [snd] in S1, S2.
  set (m1 := m <| rs_buffer := data |>).
  assert (rs_wf m1) as W by (split; [exact (eq_trans S1 H1)|exact S2|exact H3|exact H4]).
  destruct (0 <=? result); [|exact W].
  assert (rs_wf (read_missing_pages m1)) as W2 by (eapply rs_wf_ext, W; apply read_missing_view).
  set (m2 := read_missing_pages m1) in *. clearbody m2.
  destruct W2 as [V1 V2 V3 V4]. split; [exact V1|exact V2|reflexivity|].
  apply Forall_replicate. auto.
Qed.

Lemma rs_wf_step `{Boost} `{RSShape} m m' : inav_step m m' -> rs_wf m -> rs_wf m'.
Proof.
  intros Hs Hm. destruct Hs; try (destruct Hm; split; assumption).
  - apply rs_wf_split_page, Hm.
  - apply rs_wf_have_new_ephemeris, Hm.
  - unfold have_new_iono_and_GST. destruct (_ && _); destruct Hm; split; assumption.
  - unfold have_new_utc_model. destruct (flag_utc_model m); destruct Hm; split; assumption.
  - unfold have_new_almanac. destruct (_ && _); destruct Hm; split; assumption.
  - unfold have_new_reduced_ced. destruct (_ && _); destruct Hm; split; assumption.
Qed.

(** In every state that calls with any arguments can bring a decoder to,
    pages that throw included, [rs_buffer] holds 118 octets and [inav_rs_pages]
    eight flags, each 0 or 1. *)
Theorem decoder_buffers_wf `{Boost} `{RSShape} (m : Galileo_Inav_Message) :
  rtc inav_step new_Galileo_Inav_Message m -> rs_wf m.
Proof.
  intros Hr. assert (rs_wf new_Galileo_Inav_Message) as Hnew.
  { split; try reflexivity; [apply Forall_replicate; lia|apply Forall_replicate; auto]. }
  revert Hnew. induction Hr as [m|m1 m2 m3 Hs Hr IH]; intros Hm; [exact Hm|].
  apply IH, (rs_wf_step _ _ Hs Hm).
Qed.

#[local] Instance sample_decoder : RSDecoder := {| rs_decode data _ := (-1, data) |}.
#[local] Instance sample_decoder_shape : RSShape.
Proof. intros data p H. split; [reflexivity|exact H]. Defined.

Lemma decoder_buffers_wf_witness :
  rs_wf (split_page (str "01") 0 (enable_reed_solomon new_Galileo_Inav_Message)).2.
Proof.
  apply decoder_buffers_wf. eapply rtc_l; [apply step_enable_reed_solomon|].
  apply rtc_once. apply step_split_page.
Defined.

(** ** Data sets are reported once *)

(** A data set that was just reported is not reported again until new words
    arrive: after any [have_new_...] returned true, asking again returns false
    (a second almanac needs four new words, a recovered ephemeris ends the
    collection). *)
Theorem reported_once `{RSDecoder} (m m' : Galileo_Inav_Message) :
  (have_new_ephemeris m = (true, m') -> (have_new_ephemeris m').1 = false) /\
  (have_new_iono_and_GST m = (true, m') -> (have_new_iono_and_GST m').1 = false) /\
  (have_new_utc_model m = (true, m') -> (have_new_utc_model m').1 = false) /\
  (have_new_almanac m = (true, m') -> (have_new_almanac m').1 = false) /\
  (have_new_reduced_ced m = (true, m') -> (have_new_reduced_ced m').1 = false).
Proof.
  split; [|split; [|split; [|split]]].
  - assert (forall m0, (have_new_ephemeris (set_all_ephemeris (clear_ephemeris_flags m0))).1 = false)
      as Hc by reflexivity.
    unfold have_new_ephemeris at 1.
    destruct (_ && same_IODnav m); [intros [= <-]; apply Hc|].
    destruct (enable_rs m); [|discriminate]. unfold recover_ephemeris.
    destruct (_ =? 4); [|discriminate]. destruct (rs_decode _ _) as [result data].
    destruct (0 <=? result); [|discriminate]. intros E. apply pair_equal_spec in E as [_ <-].
    apply Hc.
  - unfold have_new_iono_and_GST at 1. destruct (_ && _); [intros [= <-]; reflexivity|discriminate].
  - unfold have_new_utc_model at 1. destruct (flag_utc_model m); [intros [= <-]; reflexivity|discriminate].
  - unfold have_new_almanac at 1. destruct (_ && _); [intros [= <-]; reflexivity|discriminate].
  - unfold have_new_reduced_ced at 1. destruct (_ && _); [intros [= <-]; reflexivity|discriminate].
Qed.

Lemma reported_once_witness :
  let m := new_Galileo_Inav_Message <| flag_utc_model := true |> in
  have_new_utc_model m = (true, m <| flag_utc_model := false |>) /\
  (have_new_utc_model (m <| flag_utc_model := false |>)).1 = false.
Proof.
  intros m. assert (have_new_utc_model m = (true, m <| flag_utc_model := false |>)) as E
    by reflexivity.
  split; [exact E|].
  apply (proj1 (proj2 (proj2 (reported_once m (m <| flag_utc_model := false |>))))). exact E.
Defined.

(** ** The transmission time of the reduced ephemeris *)

(** [TOTRedCED] is the week and the later of the two times of week in
    seconds, plus the delay of the word it came with, for every week number up
    to 3549; from week 3551 on the [int32_t] overflows. *)
Theorem TOTRedCED_exact (m : Galileo_Inav_Message) :
  let wn := WN_5 (word_5 m) in let t5 := TOW_5 (word_5 m) in let t6 := TOW_6 (word_6 m) in
  0 <= wn -> 0 <= t5 < 604800 -> 0 <= t6 < 604800 ->
  (wn <= 3549 ->
   TOTRedCED m = wn * 604800 + (if t6 <? t5 then t5 + 4 else t6 + 10)) /\
  (3551 <= wn < 4096 -> TOTRedCED m < 0).
Proof.
  intros wn t5 t6 Hw H5 H6.
  assert (TOTRedCED m = i32 (i32 (i32 (wn * 604800) + (if t6 <? t5 then t5 else t6))
            + (if t6 <? t5 then 4 else 10))) as ->.
  { unfold TOTRedCED. cbv zeta. fold wn t5 t6. destruct (t6 <? t5); reflexivity. }
  split; intros Hwn.
  - rewrite (swrap_small 32 (wn * 604800)) by lia.
    destruct (t6 <? t5); rewrite (swrap_small 32 (wn * 604800 + _)) by lia;
      rewrite swrap_small by lia; lia.
  - assert (i32 (wn * 604800) = wn * 604800 - 2 ^ 32) as ->.
    { unfold swrap. rewrite <- (Z.mod_add _ (-1)) by lia. rewrite Z.mod_small; lia. }
    destruct (t6 <? t5); rewrite (swrap_small 32 (wn * 604800 - 2 ^ 32 + _)) by lia;
      rewrite swrap_small by lia; lia.
Qed.

Lemma TOTRedCED_exact_witness :
  let m := new_Galileo_Inav_Message
    <| word_5 ::= fun w => w <| WN_5 := 1250 |> <| TOW_5 := 7200 |> |> in
  TOTRedCED m = 1250 * 604800 + 7204.
Proof.
  intros m. pose proof (TOTRedCED_exact m) as H. cbv zeta in H.
  destruct H as [H _];
    [vm_compute; discriminate|split; [vm_compute; discriminate|vm_compute; reflexivity]..|].
  rewrite H by (vm_compute; discriminate). vm_compute. reflexivity.
Defined.

(** The almanac handed out for the second satellite of a set never carries
    the E5b health status that word 9 brought. *)
Theorem second_almanac_E5b_HS (m : Galileo_Inav_Message) :
  Galileo_Almanac_Helper.E5b_HS_9 (get_almanac m) = E5b_HS_9 (word_9 m) /\
  Galileo_Almanac.E5b_HS (get_almanac_of (get_almanac m) 2) = 0.
Proof. split; reflexivity. Qed.
