(* ===== verification/ReedSolomon.v ===== *)
(** * ReedSolomon: the RS(255, 255 - nroots) codec over GF(256)

    [class ReedSolomon] of
    [src/src/core/system_parameters/reed_solomon.{h,cc}]: the field tables, the
    two encoders and the errors-and-erasures decoder (syndromes, erasure
    locator, Berlekamp-Massey, Chien search, Forney).  An array or vector is a
    list; the loops are those of the code. *)

From S2P Require Import Prelude Cstring InavMessage ReedSolomonTables.
From stdpp Require Import list strings.
From Stdlib Require Import ZArith Lia.
Local Open Scope Z_scope.

Definition d_symbols_per_block : Z := 255.
Definition d_symsize : Z := 8.

Record ReedSolomon := mkReedSolomon {
  d_alpha_to : list Z;
  d_index_of : list Z;
  d_log_table : list Z;
  d_antilog : list Z;
  d_genmatrix : list (list Z);
  d_genpoly_coeff : list Z;
  d_genpoly_index : list Z;
  d_data_in_block : Z;
  d_rows_G : Z;
  d_columns_G : Z;
  d_info_symbols_shortened : Z;
  d_data_symbols_shortened : Z;
  d_nroots : Z;
  d_prim : Z;
  d_pad : Z;
  d_iprim : Z;
  d_fcr : Z;
  d_shortening : Z;
  d_min_poly : Z;
  d_a0 : Z
}.
#[export] Instance eta_ReedSolomon : Eta ReedSolomon := fun r =>
  mkReedSolomon (d_alpha_to r) (d_index_of r) (d_log_table r) (d_antilog r) (d_genmatrix r)
    (d_genpoly_coeff r) (d_genpoly_index r) (d_data_in_block r) (d_rows_G r) (d_columns_G r)
    (d_info_symbols_shortened r) (d_data_symbols_shortened r) (d_nroots r) (d_prim r) (d_pad r)
    (d_iprim r) (d_fcr r) (d_shortening r) (d_min_poly r) (d_a0 r).

(** The members as their initialisers leave them. *)
Definition blank_ReedSolomon : ReedSolomon := {|
  d_alpha_to := replicate 256 0;
  d_index_of := replicate 256 0;
  d_log_table := replicate 256 0;
  d_antilog := replicate 255 0;
  d_genmatrix := [];
  d_genpoly_coeff := [];
  d_genpoly_index := [];
  d_data_in_block := 0;
  d_rows_G := 0;
  d_columns_G := 0;
  d_info_symbols_shortened := 0;
  d_data_symbols_shortened := 0;
  d_nroots := 0;
  d_prim := 0;
  d_pad := 0;
  d_iprim := 0;
  d_fcr := 0;
  d_shortening := 0;
  d_min_poly := 0;
  d_a0 := 0
|}.

(** ** Arithmetic *)

(** The loop divides by about 256 each time: eight rounds reach the end from
    any [int]. *)
Fixpoint mod255_loop (fuel : nat) (x : Z) : Z :=
  match fuel with
  | O => x
  | S fuel =>
      if d_symbols_per_block <=? x then
        let x := x - d_symbols_per_block in
        mod255_loop fuel (Z.shiftr x d_symsize + Z.land x d_symbols_per_block)
      else x
  end.
Definition mod255 (x : Z) : Z := mod255_loop 8 x.

Definition rs_min (a b : Z) : Z := if a <? b then a else b.

Definition galois_mul (min_poly a b : Z) : Z :=
  (for_range 0 d_symsize
     (fun _ '(p, a, b) =>
        let p := if Z.land b 1 =? 0 then p else Z.lxor p a in
        let carry := Z.land a 128 in
        let a := u8 (Z.shiftl a 1) in
        let a := if carry =? 0 then a else Z.lxor a min_poly in
        (p, a, Z.shiftr b 1))
     (0, a, b)).1.1.

Definition galois_add (a b : Z) : Z := Z.lxor a b.

Definition galois_mul_table (rs : ReedSolomon) (a b : Z) : Z :=
  if (a =? 0) || (b =? 0) then 0 else
  let x := vget 0 (d_log_table rs) a in
  let y := vget 0 (d_log_table rs) b in
  vget 0 (d_antilog rs) (u8 ((x + y) mod d_symbols_per_block)).

(** ** Tables *)

Definition init_log_tables (rs : ReedSolomon) : ReedSolomon :=
  let rs := rs <| d_log_table ::= fun t => vset t 0 0 |> in
  (for_range 0 d_symbols_per_block
     (fun i '(rs, x) =>
        (rs <| d_log_table ::= fun t => vset t x i |> <| d_antilog ::= fun t => vset t i x |>,
         galois_mul (d_min_poly rs) x (d_min_poly rs)))
     (rs, 1)).1.

(** [for (iprim = 1; (iprim % d_prim) != 0; iprim += 255)]; [None] when no
    multiple is found, in which case the loop does not end. *)
Fixpoint find_iprim (fuel : nat) (prim iprim : Z) : option Z :=
  if Z.rem iprim prim =? 0 then Some iprim else
  match fuel with
  | O => None
  | S fuel => find_iprim fuel prim (iprim + d_symbols_per_block)
  end.

(** [None]: the constructor does not return. *)
Definition init_alpha_tables (rs : ReedSolomon) : option ReedSolomon :=
  let rs := rs <| d_index_of ::= fun t => vset t 0 (d_a0 rs) |> in
  let rs := rs <| d_alpha_to ::= fun t => vset t (d_a0 rs) 0 |> in
  let '(rs, sr) := for_range 0 d_symbols_per_block
    (fun i '(rs, sr) =>
       let rs := rs <| d_index_of ::= fun t => vset t sr i |>
                    <| d_alpha_to ::= fun t => vset t i sr |> in
       let sr := Z.shiftl sr 1 in
       let sr := if Z.land sr (Z.shiftl 1 d_symsize) =? 0 then sr else Z.lxor sr (d_min_poly rs) in
       (rs, Z.land sr d_symbols_per_block))
    (rs, 1) in
  if negb (sr =? 1) then Some rs else
  match find_iprim 256 (d_prim rs) 1 with
  | None => None
  | Some iprim =>
      let rs := rs <| d_iprim := Z.quot iprim (d_prim rs) |> in
      Some (for_range 0 (d_nroots rs + 1)
        (fun i rs => rs <| d_genpoly_index ::= fun t =>
           vset t i (vget 0 (d_index_of rs) (vget 0 (d_genpoly_coeff rs) i)) |>) rs)
  end.

(** ** Construction *)

(** The custom constructor; a wrong configuration leaves the blank object. *)
Definition new_ReedSolomon (nroots minpoly prim fcr pad shortening : Z)
    (genpoly_coeff : list Z) (gen_matrix : list (list Z)) : option ReedSolomon :=
  if (fcr <? 0) || (256 <=? fcr) then Some blank_ReedSolomon else
  if (prim <=? 0) || (256 <=? prim) then Some blank_ReedSolomon else
  if (nroots <? 0) || (256 <=? nroots) then Some blank_ReedSolomon else
  if (pad <? 0) || (255 - nroots <=? pad) then Some blank_ReedSolomon else
  if (shortening <? 0) || (255 - nroots <=? shortening) then Some blank_ReedSolomon else
  let rs := blank_ReedSolomon
    <| d_nroots := nroots |> <| d_data_in_block := d_symbols_per_block - nroots |>
    <| d_min_poly := u8 minpoly |> <| d_prim := prim |> <| d_pad := pad |>
    <| d_a0 := u8 d_symbols_per_block |> <| d_fcr := fcr |> <| d_shortening := shortening |>
    <| d_info_symbols_shortened := d_symbols_per_block - nroots - shortening |>
    <| d_data_symbols_shortened := d_symbols_per_block - shortening |>
    <| d_genpoly_coeff :=
         if Z.of_nat (length genpoly_coeff) =? nroots + 1 then genpoly_coeff
         else replicate (Z.to_nat (nroots + 1)) 0 |> in
  let rows_G := Z.of_nat (length gen_matrix) in
  let columns_G := Z.of_nat (length (vget [] gen_matrix 0)) in
  let rs :=
    if (rows_G =? 0) || negb (rows_G =? d_data_symbols_shortened rs)
       || negb (columns_G =? d_info_symbols_shortened rs) then rs
    else rs <| d_rows_G := rows_G |> <| d_columns_G := columns_G |> <| d_genmatrix := gen_matrix |> in
  let rs := rs <| d_genpoly_index := replicate (Z.to_nat (nroots + 1)) 0 |> in
  init_alpha_tables (init_log_tables rs).

(** The default constructor, by signal. *)
Definition new_ReedSolomon_signal (gnss_signal : cstring) : option ReedSolomon :=
  let rs :=
    if bool_decide (gnss_signal = []) || bool_decide (gnss_signal = str "E6B") then
      blank_ReedSolomon
        <| d_nroots := 223 |> <| d_min_poly := 29 |> <| d_prim := 1 |> <| d_fcr := 1 |>
        <| d_pad := 0 |> <| d_shortening := 0 |> <| d_rows_G := 255 |> <| d_columns_G := 32 |>
        <| d_genmatrix := E6B_genmatrix |> <| d_genpoly_coeff := E6B_genpoly_coeff |>
    else if bool_decide (gnss_signal = str "E1B") then
      blank_ReedSolomon
        <| d_nroots := 60 |> <| d_min_poly := 29 |> <| d_prim := 1 |> <| d_fcr := 195 |>
        <| d_pad := 0 |> <| d_shortening := 137 |> <| d_rows_G := 118 |> <| d_columns_G := 58 |>
        <| d_genmatrix := E1B_genmatrix |> <| d_genpoly_coeff := E1B_genpoly_coeff |>
    else
      blank_ReedSolomon
        <| d_nroots := 223 |> <| d_min_poly := 29 |> <| d_prim := 1 |> <| d_fcr := 1 |>
        <| d_pad := 0 |> <| d_shortening := 0 |> <| d_rows_G := 0 |> <| d_columns_G := 0 |>
        <| d_genpoly_coeff := E6B_genpoly_coeff |> in
  let rs := rs <| d_data_in_block := d_symbols_per_block - d_nroots rs |> in
  let rs := rs <| d_info_symbols_shortened := d_data_in_block rs - d_shortening rs |>
               <| d_data_symbols_shortened := d_symbols_per_block - d_shortening rs |>
               <| d_a0 := u8 d_symbols_per_block |>
               <| d_genpoly_index := replicate (Z.to_nat (d_nroots rs + 1)) 0 |> in
  init_alpha_tables (init_log_tables rs).

(** ** Encoding *)

Definition encode_with_generator_matrix (rs : ReedSolomon) (data_to_encode : list Z) : list Z :=
  let encoded_output := replicate (Z.to_nat (d_data_symbols_shortened rs)) 0 in
  if d_rows_G rs =? 0 then encoded_output else
  if negb (Z.of_nat (length data_to_encode) =? d_columns_G rs) then encoded_output else
  for_range 0 (d_rows_G rs)
    (fun i out => for_range 0 (d_columns_G rs)
       (fun k out => vset out i (galois_add (vget 0 out i)
          (galois_mul_table rs (vget 0 (vget [] (d_genmatrix rs) i) k) (vget 0 data_to_encode k))))
       out)
    encoded_output.

(** [memmove(&parity[0], &parity[1], n)]. *)
Definition shift_parity (parity : list Z) (n : Z) : list Z :=
  for_range 0 n (fun k p => vset p k (vget 0 parity (k + 1))) parity.

(** [encode_rs_8(data, parity)], where the two arrays do not overlap. *)
Definition encode_rs_8 (rs : ReedSolomon) (data parity : list Z) : list Z :=
  for_range 0 (d_symbols_per_block - d_nroots rs - d_pad rs)
    (fun i parity =>
       let feedback := vget 0 (d_index_of rs) (Z.lxor (vget 0 data i) (vget 0 parity 0)) in
       let '(feedback, parity) :=
         if feedback =? d_a0 rs then (feedback, parity) else
         let feedback := mod255 (d_symbols_per_block
                           - vget 0 (d_genpoly_index rs) (d_nroots rs) + feedback) in
         (feedback,
          for_range 1 (d_nroots rs)
            (fun j p => vset p j (Z.lxor (vget 0 p j) (vget 0 (d_alpha_to rs)
               (mod255 (feedback + vget 0 (d_genpoly_index rs) (d_nroots rs - j)))))) parity) in
       let parity := shift_parity parity (d_nroots rs - 1) in
       vset parity (d_nroots rs - 1)
         (if feedback =? d_a0 rs then 0
          else vget 0 (d_alpha_to rs) (mod255 (feedback + vget 0 (d_genpoly_index rs) 0))))
    parity.

Definition encode_with_generator_poly (rs : ReedSolomon) (data_to_encode : list Z) : list Z :=
  let encoded_output := replicate (Z.to_nat (d_data_symbols_shortened rs)) 0 in
  if negb (Z.of_nat (length data_to_encode) =? d_info_symbols_shortened rs) then encoded_output else
  let zero_parity := replicate (Z.to_nat (d_nroots rs)) 0 in
  if d_shortening rs =? 0 then data_to_encode ++ encode_rs_8 rs data_to_encode zero_parity
  else
    let unshortened := data_to_encode ++ replicate (Z.to_nat (d_shortening rs)) 0 in
    data_to_encode ++ encode_rs_8 rs unshortened zero_parity.

(** ** Decoding *)

Section Decode.
Variable rs : ReedSolomon.

Local Abbreviation alpha := (fun k => vget 0 (d_alpha_to rs) (mod255 k)).
Local Abbreviation index := (vget 0 (d_index_of rs)).
Local Abbreviation n := (d_nroots rs).
Local Abbreviation a0 := (d_a0 rs).

(** The syndromes, in polynomial form. *)
Definition syndromes (data : list Z) : list Z :=
  for_range 1 (d_symbols_per_block - d_pad rs)
    (fun j s => for_range 0 n
       (fun i s => vset s i
          (if vget 0 s i =? 0 then vget 0 data j
           else Z.lxor (vget 0 data j) (alpha (index (vget 0 s i) + (d_fcr rs + i) * d_prim rs)))) s)
    (replicate (Z.to_nat n) (vget 0 data 0)).

(** [lambda], initialised to the erasure locator polynomial. *)
Definition erasure_locator (eras_pos : list Z) : list Z :=
  let lambda := vset (replicate (Z.to_nat (n + 1)) 0) 0 1 in
  let no_eras := Z.of_nat (length eras_pos) in
  if 0 <? no_eras then
    let lambda := vset lambda 1
      (alpha (d_prim rs * (d_symbols_per_block - 1 - vget 0 eras_pos 0))) in
    for_range 1 no_eras
      (fun i lambda =>
         let u := u8 (mod255 (d_prim rs * (d_symbols_per_block - 1 - vget 0 eras_pos i))) in
         (* for (j = i + 1; j > 0; j--) *)
         for_range 0 (i + 1)
           (fun k lambda =>
              let j := i + 1 - k in
              let tmp := index (vget 0 lambda (j - 1)) in
              if tmp =? a0 then lambda
              else vset lambda j (Z.lxor (vget 0 lambda j) (alpha (u + tmp)))) lambda)
      lambda
  else lambda.

(** One step of Berlekamp-Massey, on [lambda], [b] and [el]. *)
Definition discrepancy (s lambda : list Z) (r : Z) : Z :=
  for_range 0 r
    (fun i discr_r =>
       if negb (vget 0 lambda i =? 0) && negb (vget 0 s (r - i - 1) =? a0)
       then Z.lxor discr_r (alpha (index (vget 0 lambda i) + vget 0 s (r - i - 1)))
       else discr_r) 0.

Definition bm_step (s : list Z) (no_eras r : Z) '((lambda, b, el) : list Z * list Z * Z)
  : list Z * list Z * Z :=
  let discr_r := index (discrepancy s lambda r) in
  if discr_r =? a0 then (lambda, a0 :: b, el) else
  let t := for_range 0 n
    (fun i t => vset t (i + 1)
       (if vget 0 b i =? a0 then vget 0 lambda (i + 1)
        else Z.lxor (vget 0 lambda (i + 1)) (alpha (discr_r + vget 0 b i))))
    (vset (replicate (Z.to_nat (n + 1)) 0) 0 (vget 0 lambda 0)) in
  if 2 * el <=? r + no_eras - 1 then
    let b := for_range 0 (n + 1)
      (fun i b => vset b i
         (if vget 0 lambda i =? 0 then a0
          else mod255 (index (vget 0 lambda i) - discr_r + d_symbols_per_block))) b in
    (t, b, r + no_eras - el)
  else (t, a0 :: b, el).

Definition berlekamp_massey (s lambda : list Z) (no_eras : Z) : list Z :=
  let b := map index lambda in
  (for_range (no_eras + 1) (n + 1) (bm_step s no_eras) (lambda, b, no_eras)).1.1.

(** [lambda] in index form. *)
Definition degree (lambda : list Z) : Z :=
  for_range 0 (n + 1) (fun i deg => if vget 0 lambda i =? a0 then deg else i) 0.

Record chien := mkChien { reg : list Z; k : Z; roots : list Z; locs : list Z; stopped : bool }.

(** One step of the Chien search; [roots] and [locs] grow at their end, and
    [stopped] is the [break]. *)
Definition chien_step (deg_lambda i : Z) (c : chien) : chien :=
  if stopped c then c else
  let '(reg, q) := for_range 0 deg_lambda
    (fun m '(reg, q) =>
       let j := deg_lambda - m in
       if vget 0 reg j =? a0 then (reg, q)
       else let x := mod255 (vget 0 reg j + j) in
            (vset reg j x, Z.lxor q (vget 0 (d_alpha_to rs) x))) (reg c, 1) in
  let next := mod255 (k c + d_iprim rs) in
  if q =? 0 then
    let roots := roots c ++ [i] in
    let locs := locs c ++ [k c] in
    mkChien reg next roots locs (Z.of_nat (length roots) =? deg_lambda)
  else mkChien reg next (roots c) (locs c) false.

Definition chien_search (lambda : list Z) (deg_lambda : Z) : chien :=
  for_range 1 (d_symbols_per_block + 1) (chien_step deg_lambda)
    (mkChien (vset lambda 0 0) (d_iprim rs - 1) [] [] false).

(** The evaluator polynomial, in index form, up to [deg_omega]. *)
Definition evaluator (s lambda : list Z) (deg_omega : Z) : list Z :=
  for_range 0 (deg_omega + 1)
    (fun i omega =>
       let tmp := for_range 0 (i + 1)
         (fun m tmp =>
            let j := i - m in
            if negb (vget 0 s (i - j) =? a0) && negb (vget 0 lambda j =? a0)
            then Z.lxor tmp (alpha (vget 0 s (i - j) + vget 0 lambda j)) else tmp) 0 in
       vset omega i (index tmp))
    (replicate (Z.to_nat (n + 1)) 0).

(** The numerator, the power and the denominator of Forney's formula. *)
Definition forney_num1 (omega : list Z) (deg_omega root : Z) : Z :=
  for_range 0 (deg_omega + 1)
    (fun m num1 =>
       let i := deg_omega - m in
       if vget 0 omega i =? a0 then num1
       else Z.lxor num1 (alpha (vget 0 omega i + i * root))) 0.

Definition forney_num2 (root : Z) : Z := alpha (root * (d_fcr rs - 1) + d_symbols_per_block).

(** [for (i = min(deg_lambda, nroots - 1) & ~1; i >= 0; i -= 2)]. *)
Definition forney_den (lambda : list Z) (deg_lambda root : Z) : Z :=
  let top := Z.land (rs_min deg_lambda (n - 1)) (Z.lnot 1) in
  for_range 0 (top / 2 + 1)
    (fun m den =>
       let i := top - 2 * m in
       if vget 0 lambda (i + 1) =? a0 then den
       else Z.lxor den (alpha (vget 0 lambda (i + 1) + i * root))) 0.

Definition correct (omega lambda : list Z) (deg_lambda deg_omega root loc : Z) (data : list Z)
  : list Z :=
  let num1 := forney_num1 omega deg_omega root in
  let num2 := forney_num2 root in
  let den := forney_den lambda deg_lambda root in
  if negb (num1 =? 0) && (d_pad rs <=? loc) then
    vset data (loc - d_pad rs)
      (Z.lxor (vget 0 data (loc - d_pad rs))
         (alpha (index num1 + index num2 + d_symbols_per_block - index den)))
  else data.

(** The result and the data after. *)
Definition decode_rs_8 (data eras_pos : list Z) : Z * list Z :=
  let no_eras := Z.of_nat (length eras_pos) in
  let s := syndromes data in
  if forallb (fun v => v =? 0) s then (0, data) else
  let s := map index s in
  let lambda := berlekamp_massey s (erasure_locator eras_pos) no_eras in
  let lambda := map index lambda in
  let deg_lambda := degree lambda in
  let c := chien_search lambda deg_lambda in
  let count := Z.of_nat (length (roots c)) in
  if negb (deg_lambda =? count) then (-1, data) else
  let deg_omega := deg_lambda - 1 in
  let omega := evaluator s lambda deg_omega in
  (count,
   for_range 0 count
     (fun m data =>
        let j := count - 1 - m in
        correct omega lambda deg_lambda deg_omega (vget 0 (roots c) j) (vget 0 (locs c) j) data)
     data).

Definition decode (data_to_decode erasure_positions : list Z) : Z * list Z :=
  if n <? Z.of_nat (length erasure_positions) then (-1, data_to_decode) else
  let size_buffer := Z.of_nat (length data_to_decode) in
  if negb (size_buffer =? d_data_symbols_shortened rs) && negb (size_buffer =? d_symbols_per_block)
  then (-1, data_to_decode) else
  if (d_shortening rs =? 0) || (size_buffer =? d_symbols_per_block)
  then decode_rs_8 data_to_decode erasure_positions
  else
    let info := Z.to_nat (d_info_symbols_shortened rs) in
    let in_block := Z.to_nat (d_data_in_block rs) in
    let unshortened := take info data_to_decode ++ replicate (in_block - info) 0
                       ++ drop info data_to_decode in
    let '(result, unshortened) := decode_rs_8 unshortened erasure_positions in
    (result,
     if 0 <=? result then take info unshortened ++ drop in_block unshortened else data_to_decode).

End Decode.

(** The decoder that the I/NAV message decoder makes:
    [ReedSolomon(60, 29, 1, 195, 0, 137)]. *)
Definition inav_rs : ReedSolomon :=
  Eval vm_compute in default blank_ReedSolomon (new_ReedSolomon 60 29 1 195 0 137 [] []).

(** The two objects of the default constructor. *)
Definition E1B_rs : ReedSolomon :=
  Eval vm_compute in default blank_ReedSolomon (new_ReedSolomon_signal (str "E1B")).
Definition E6B_rs : ReedSolomon :=
  Eval vm_compute in default blank_ReedSolomon (new_ReedSolomon_signal (str "E6B")).

#[export] Instance inav_rs_decoder : RSDecoder := {| rs_decode := decode inav_rs |}.
