(* ===== verification/GF256.v ===== *)
(** * GF256: the field behind the Reed-Solomon tables

    The bytes with exclusive or and [galois_mul] of primitive polynomial 29 are
    a field; [d_alpha_to] lists the powers of its generator and [d_index_of]
    their logarithms; and the shift-and-add product, the product by the log
    tables and the product of powers are one.  The field is then available to
    [ring] and [field] as the type [F]. *)

From S2P Require Import Prelude ReedSolomon.
From stdpp Require Import list.
From Stdlib Require Import ZArith Lia Field Eqdep_dec Bool.
Local Open Scope Z_scope.

Definition alpha_table : list Z := d_alpha_to inav_rs.
Definition index_table : list Z := d_index_of inav_rs.

(** [alpha ^ k] for [0 <= k < 255], and the logarithm of a byte but 0. *)
Definition apow (k : Z) : Z := vget 0 alpha_table k.
Definition alog (a : Z) : Z := vget 0 index_table a.

Definition is_byte (z : Z) : bool := (0 <=? z) && (z <? 256).

Lemma is_byte_spec z : is_byte z = true <-> 0 <= z < 256.
Proof. unfold is_byte. rewrite andb_true_iff, Z.leb_le, Z.ltb_lt. lia. Qed.

(** ** [mod255] *)

Lemma mod255_unfold x : 255 <= x -> 0 <= Z.shiftr (x - 255) 8 + Z.land (x - 255) 255 /\
  (Z.shiftr (x - 255) 8 + Z.land (x - 255) 255) mod 255 = x mod 255 /\
  Z.shiftr (x - 255) 8 + Z.land (x - 255) 255 <= (x - 255) / 256 + 255.
Proof.
  intros Hx. set (y := x - 255).
  assert (Z.shiftr y 8 = y / 256) as -> by (apply Z.shiftr_div_pow2; lia).
  assert (Z.land y 255 = y mod 256) as -> by (apply (Z.land_ones y 8); lia).
  pose proof (Z.div_mod y 256 ltac:(lia)) as Hd.
  pose proof (Z.mod_pos_bound y 256 ltac:(lia)).
  assert (0 <= y / 256) by (apply Z.div_pos; lia).
  split; [lia|]. split; [|lia].
  replace (x mod 255) with (y mod 255)
    by (unfold y; replace x with (x - 255 + 1 * 255) at 2 by lia; rewrite Z.mod_add by lia; reflexivity).
  replace y with (y / 256 + y mod 256 + (y / 256) * 255) at 3 by lia.
  rewrite Z.mod_add by lia. reflexivity.
Qed.

Lemma mod255_loop_spec fuel x :
  0 <= x < 255 + 256 ^ Z.of_nat fuel -> fuel <> 0%nat ->
  mod255_loop (S fuel) x = x mod 255.
Proof.
  revert x. induction fuel as [|fuel IH]; intros x Hx Hf; [contradiction|].
  cbn [mod255_loop]. unfold d_symbols_per_block, d_symsize.
  destruct (Z.leb_spec 255 x); [|symmetry; apply Z.mod_small; lia].
  destruct (mod255_unfold x ltac:(lia)) as (H1 & H2 & H3).
  set (x' := Z.shiftr (x - 255) 8 + Z.land (x - 255) 255) in *.
  rewrite <- H2. rewrite Nat2Z.inj_succ, Z.pow_succ_r in Hx by lia.
  destruct (decide (fuel = 0%nat)) as [->|Hfuel].
  - change (256 * 256 ^ Z.of_nat 0) with 256 in Hx.
    assert (0 <= (x - 255) / 256 < 1) by (split; [apply Z.div_pos; lia|apply Z.div_lt_upper_bound; lia]).
    cbn [mod255_loop]. unfold d_symbols_per_block, d_symsize.
    destruct (Z.leb_spec 255 x'); [|symmetry; apply Z.mod_small; lia].
    assert (x' = 255) as -> by lia. reflexivity.
  - assert (0 < 256 ^ Z.of_nat fuel) by (apply Z.pow_pos_nonneg; lia).
    apply IH; [|exact Hfuel]. split; [lia|].
    assert ((x - 255) / 256 < 256 ^ Z.of_nat fuel) by (apply Z.div_lt_upper_bound; lia). lia.
Qed.

(** C40: The division-free loop of [mod255] ends on every non-negative [int]
    with the remainder modulo 255. *)
Theorem mod255_spec (x : Z) : 0 <= x < 2 ^ 31 -> mod255 x = x mod 255.
Proof.
  intros Hx. apply (mod255_loop_spec 7 x); [|discriminate].
  change (256 ^ Z.of_nat 7) with 72057594037927936. lia.
Qed.

Lemma mod255_spec_witness : mod255 65025 = 0 /\ mod255 65025 = 65025 mod 255.
Proof. split; [reflexivity|]. apply mod255_spec. lia. Defined.

(** ** The tables *)

Definition tmul (a b : Z) : Z :=
  if (a =? 0) || (b =? 0) then 0 else apow ((alog a + alog b) mod 255).

Definition bytes : list Z := seqZ 0 256.

Lemma in_bytes a : 0 <= a < 256 -> a ∈ bytes.
Proof. intros H. apply elem_of_seqZ. lia. Qed.

Lemma apow_alog_table :
  forallb (fun k => (alog (apow k) =? k) && (1 <=? apow k) && (apow k <? 256)) (seqZ 0 255) = true /\
  forallb (fun a => (apow (alog a) =? a) && (0 <=? alog a) && (alog a <? 255)) (seqZ 1 255) = true.
Proof. split; vm_compute; reflexivity. Qed.

Lemma apow_spec k : 0 <= k < 255 -> alog (apow k) = k /\ 1 <= apow k < 256.
Proof.
  intros Hk. pose proof (proj1 apow_alog_table) as H. rewrite forallb_forall in H.
  specialize (H k (proj1 (list_elem_of_In _ _) (proj2 (elem_of_seqZ 0 255 k) ltac:(lia)))).
  rewrite !andb_true_iff, Z.eqb_eq, Z.leb_le, Z.ltb_lt in H. lia.
Qed.

Lemma alog_spec a : 1 <= a < 256 -> apow (alog a) = a /\ 0 <= alog a < 255.
Proof.
  intros Ha. pose proof (proj2 apow_alog_table) as H. rewrite forallb_forall in H.
  specialize (H a (proj1 (list_elem_of_In _ _) (proj2 (elem_of_seqZ 1 255 a) ltac:(lia)))).
  rewrite !andb_true_iff, Z.eqb_eq, Z.leb_le, Z.ltb_lt in H. lia.
Qed.

Lemma galois_mul_checked :
  forallb (fun a => forallb (fun b => (galois_mul 29 a b =? tmul a b) &&
    (galois_mul_table E1B_rs a b =? tmul a b)) bytes) bytes = true.
Proof. vm_compute. reflexivity. Qed.

Lemma galois_mul_tmul a b :
  0 <= a < 256 -> 0 <= b < 256 ->
  galois_mul 29 a b = tmul a b /\ galois_mul_table E1B_rs a b = tmul a b.
Proof.
  intros Ha Hb. pose proof galois_mul_checked as H. rewrite forallb_forall in H.
  specialize (H a (proj1 (list_elem_of_In _ _) (in_bytes a Ha))). rewrite forallb_forall in H.
  specialize (H b (proj1 (list_elem_of_In _ _) (in_bytes b Hb))).
  rewrite andb_true_iff, !Z.eqb_eq in H. exact H.
Qed.

Lemma tmul_range a b : 0 <= tmul a b < 256.
Proof.
  unfold tmul. destruct (_ || _); [lia|].
  pose proof (apow_spec ((alog a + alog b) mod 255) ltac:(apply Z.mod_pos_bound; lia)). lia.
Qed.

(** ** Linearity of the shift-and-add product *)

Definition xtime (a : Z) : Z :=
  let a' := u8 (Z.shiftl a 1) in
  if Z.land a 128 =? 0 then a' else Z.lxor a' 29.

Fixpoint shift_add (n : nat) (a b : Z) : Z :=
  match n with
  | O => 0
  | S n => Z.lxor (if Z.land b 1 =? 0 then 0 else a) (shift_add n (xtime a) (Z.shiftr b 1))
  end.

Lemma galois_mul_shift_add a b : galois_mul 29 a b = shift_add 8 a b.
Proof.
  unfold galois_mul, d_symsize.
  assert (forall (n : nat) p a b,
    (fold_left (fun s (_ : Z) => let '(p, a, b) := s in
        let p := if Z.land b 1 =? 0 then p else Z.lxor p a in
        let carry := Z.land a 128 in
        let a := u8 (Z.shiftl a 1) in
        let a := if carry =? 0 then a else Z.lxor a 29 in
        (p, a, Z.shiftr b 1)) (seqZ (8 - Z.of_nat n) (Z.of_nat n)) (p, a, b)).1.1
    = Z.lxor p (shift_add n a b)) as H.
  { clear a b. induction n as [|n IH]; intros p a b; [cbn; rewrite Z.lxor_0_r; reflexivity|].
    rewrite seqZ_cons by lia. cbn [fold_left]. cbv zeta.
    replace (Z.succ (8 - Z.of_nat (S n))) with (8 - Z.of_nat n) by lia.
    replace (Z.pred (Z.of_nat (S n))) with (Z.of_nat n) by lia.
    rewrite IH. cbn [shift_add]. fold (xtime a).
    destruct (Z.land b 1 =? 0); [rewrite Z.lxor_0_l; reflexivity|].
    rewrite Z.lxor_assoc. reflexivity. }
  specialize (H 8%nat 0 a b). rewrite Z.lxor_0_l in H. exact H.
Qed.

Lemma land_1_lxor b c :
  (Z.land (Z.lxor b c) 1 =? 0) = Bool.eqb (Z.land b 1 =? 0) (Z.land c 1 =? 0).
Proof.
  change 1 with (Z.ones 1). rewrite !Z.land_ones by lia. change (2 ^ 1) with 2.
  rewrite !Zmod_odd, <- !Z.bit0_odd, Z.lxor_spec, !Z.bit0_odd.
  destruct (Z.odd b), (Z.odd c); reflexivity.
Qed.

Lemma shift_add_linear n a b c :
  shift_add n a (Z.lxor b c) = Z.lxor (shift_add n a b) (shift_add n a c).
Proof.
  revert a b c. induction n as [|n IH]; intros a b c; [reflexivity|].
  cbn [shift_add]. rewrite land_1_lxor, Z.shiftr_lxor, IH.
  set (p := shift_add n (xtime a) (Z.shiftr b 1)). set (q := shift_add n (xtime a) (Z.shiftr c 1)).
  assert (forall x, Z.lxor (Z.lxor a p) (Z.lxor a x) = Z.lxor p x) as Hx.
  { intros x. rewrite (Z.lxor_comm a p), Z.lxor_assoc, <- (Z.lxor_assoc a a x), Z.lxor_nilpotent,
      Z.lxor_0_l. reflexivity. }
  destruct (Z.land b 1 =? 0), (Z.land c 1 =? 0); cbn [Bool.eqb].
  - rewrite !Z.lxor_0_l. reflexivity.
  - rewrite Z.lxor_0_l, <- !Z.lxor_assoc, (Z.lxor_comm a p). reflexivity.
  - rewrite Z.lxor_0_l, Z.lxor_assoc. reflexivity.
  - rewrite Z.lxor_0_l. symmetry. apply Hx.
Qed.

Lemma lxor_byte a b : 0 <= a < 256 -> 0 <= b < 256 -> 0 <= Z.lxor a b < 256.
Proof.
  intros Ha Hb.
  assert (Z.lxor a b = Z.lxor a b mod 2 ^ 8) as ->; [|apply Z.mod_pos_bound; lia].
  apply Z.bits_inj'. intros i Hi. rewrite Z.lxor_spec.
  destruct (decide (i < 8)).
  - rewrite Z.mod_pow2_bits_low, Z.lxor_spec by lia. reflexivity.
  - rewrite Z.mod_pow2_bits_high by lia.
    rewrite <- (Z.mod_small a (2 ^ 8)), <- (Z.mod_small b (2 ^ 8)) by lia.
    rewrite !Z.mod_pow2_bits_high by lia. reflexivity.
Qed.

Lemma tmul_linear a b c :
  0 <= a < 256 -> 0 <= b < 256 -> 0 <= c < 256 ->
  tmul a (Z.lxor b c) = Z.lxor (tmul a b) (tmul a c).
Proof.
  intros Ha Hb Hc. pose proof (lxor_byte b c Hb Hc).
  rewrite <- !(fun x y Hx Hy => proj1 (galois_mul_tmul x y Hx Hy)) by lia.
  rewrite !galois_mul_shift_add. apply shift_add_linear.
Qed.

(** ** The field *)

Record F : Set := mkF { fval : Z; fbyte : is_byte fval = true }.

Lemma F_eq (x y : F) : fval x = fval y -> x = y.
Proof.
  destruct x as [x Hx], y as [y Hy]. cbn. intros ->. f_equal.
  apply UIP_dec. apply bool_dec.
Qed.

Lemma fval_range (x : F) : 0 <= fval x < 256.
Proof. apply is_byte_spec, fbyte. Qed.

#[export] Instance F_eq_dec : EqDecision F.
Proof.
  intros x y. destruct (decide (fval x = fval y)) as [E|E].
  - left. apply F_eq, E.
  - right. intros ->. contradiction.
Defined.

Definition F0 : F := mkF 0 eq_refl.
Definition F1 : F := mkF 1 eq_refl.

Definition Fadd (x y : F) : F :=
  mkF (Z.lxor (fval x) (fval y))
    (proj2 (is_byte_spec _) (lxor_byte _ _ (fval_range x) (fval_range y))).
Definition Fmul (x y : F) : F :=
  mkF (tmul (fval x) (fval y)) (proj2 (is_byte_spec _) (tmul_range _ _)).

(** The power [k] of the generator, for any integer [k]. *)
Lemma Fexp_byte k : is_byte (apow (k mod 255)) = true.
Proof.
  apply is_byte_spec. pose proof (apow_spec (k mod 255) ltac:(apply Z.mod_pos_bound; lia)). lia.
Qed.
Definition Fexp (k : Z) : F := mkF (apow (k mod 255)) (Fexp_byte k).

(** The logarithm of an element other than 0. *)
Definition Flog (x : F) : Z := alog (fval x).

Definition Finv (x : F) : F := if fval x =? 0 then F0 else Fexp (- Flog x).

Definition Fsub : F -> F -> F := Fadd.
Definition Fopp (x : F) : F := x.
Definition Fdiv (x y : F) : F := Fmul x (Finv y).

Lemma F_nonzero (x : F) : x <> F0 -> 1 <= fval x < 256.
Proof.
  intros H. pose proof (fval_range x). assert (fval x <> 0); [|lia].
  intros E. apply H, F_eq, E.
Qed.

Lemma Fexp_nonzero k : Fexp k <> F0.
Proof.
  intros E. apply (f_equal fval) in E. cbn in E.
  pose proof (apow_spec (k mod 255) ltac:(apply Z.mod_pos_bound; lia)). lia.
Qed.

Lemma Fexp_log x : x <> F0 -> Fexp (Flog x) = x.
Proof.
  intros H. apply F_eq. cbn. destruct (alog_spec (fval x) (F_nonzero x H)) as [E Hr].
  rewrite Z.mod_small by exact Hr. exact E.
Qed.

Lemma Flog_exp k : Flog (Fexp k) = k mod 255.
Proof. unfold Flog. cbn. apply apow_spec, Z.mod_pos_bound. lia. Qed.

Lemma Flog_range x : x <> F0 -> 0 <= Flog x < 255.
Proof. intros H. apply alog_spec, F_nonzero, H. Qed.

Lemma Fexp_mod k : Fexp (k mod 255) = Fexp k.
Proof. apply F_eq. cbn. rewrite Z.mod_mod by lia. reflexivity. Qed.

Lemma Fexp_eq k k' : k mod 255 = k' mod 255 -> Fexp k = Fexp k'.
Proof. intros H. rewrite <- (Fexp_mod k), <- (Fexp_mod k'), H. reflexivity. Qed.

Lemma Fexp_inj k k' : Fexp k = Fexp k' -> k mod 255 = k' mod 255.
Proof. intros H. rewrite <- !Flog_exp, H. reflexivity. Qed.

Lemma Fexp_add k k' : Fmul (Fexp k) (Fexp k') = Fexp (k + k').
Proof.
  apply F_eq. cbn. unfold tmul.
  destruct (apow_spec (k mod 255) ltac:(apply Z.mod_pos_bound; lia)) as [E1 R1].
  destruct (apow_spec (k' mod 255) ltac:(apply Z.mod_pos_bound; lia)) as [E2 R2].
  destruct (Z.eqb_spec (apow (k mod 255)) 0), (Z.eqb_spec (apow (k' mod 255)) 0); try lia.
  cbn [orb]. rewrite E1, E2, <- Z.add_mod by lia. reflexivity.
Qed.

Lemma Fexp_0 : Fexp 0 = F1.
Proof. apply F_eq. reflexivity. Qed.

Lemma Fmul_0_l x : Fmul F0 x = F0.
Proof. apply F_eq. reflexivity. Qed.

Lemma Fmul_comm x y : Fmul x y = Fmul y x.
Proof. apply F_eq. cbn. unfold tmul. rewrite orb_comm, Z.add_comm. reflexivity. Qed.

Lemma Fmul_0_r x : Fmul x F0 = F0.
Proof. rewrite Fmul_comm. apply Fmul_0_l. Qed.

Lemma Fmul_assoc x y z : Fmul x (Fmul y z) = Fmul (Fmul x y) z.
Proof.
  destruct (decide (x = F0)) as [->|Hx]; [rewrite !Fmul_0_l; reflexivity|].
  destruct (decide (y = F0)) as [->|Hy]; [rewrite Fmul_0_l, !Fmul_0_r, Fmul_0_l; reflexivity|].
  destruct (decide (z = F0)) as [->|Hz]; [rewrite !Fmul_0_r; reflexivity|].
  rewrite <- (Fexp_log x Hx), <- (Fexp_log y Hy), <- (Fexp_log z Hz), !Fexp_add.
  f_equal. lia.
Qed.

Lemma Fmul_1_l x : Fmul F1 x = x.
Proof.
  destruct (decide (x = F0)) as [->|Hx]; [apply Fmul_0_r|].
  rewrite <- (Fexp_log x Hx), <- Fexp_0, Fexp_add. reflexivity.
Qed.

Lemma Fadd_comm x y : Fadd x y = Fadd y x.
Proof. apply F_eq, Z.lxor_comm. Qed.

Lemma Fadd_assoc x y z : Fadd x (Fadd y z) = Fadd (Fadd x y) z.
Proof. apply F_eq. symmetry. apply Z.lxor_assoc. Qed.

Lemma Fadd_0_l x : Fadd F0 x = x.
Proof. apply F_eq, Z.lxor_0_l. Qed.

Lemma Fadd_self x : Fadd x x = F0.
Proof. apply F_eq, Z.lxor_nilpotent. Qed.

Lemma Fmul_add_l x y z : Fmul (Fadd x y) z = Fadd (Fmul x z) (Fmul y z).
Proof.
  rewrite !(Fmul_comm _ z). apply F_eq. cbn. apply tmul_linear; apply fval_range.
Qed.

Lemma Finv_l x : x <> F0 -> Fmul (Finv x) x = F1.
Proof.
  intros Hx. unfold Finv. destruct (Z.eqb_spec (fval x) 0) as [E|_].
  { exfalso. apply Hx, F_eq, E. }
  rewrite <- (Fexp_log x Hx) at 2. rewrite Fexp_add, <- Fexp_0. f_equal. lia.
Qed.

Lemma F_ring : ring_theory F0 F1 Fadd Fmul Fsub Fopp (@eq F).
Proof.
  split; auto using Fadd_0_l, Fadd_comm, Fadd_assoc, Fmul_1_l, Fmul_comm, Fmul_assoc,
    Fmul_add_l, Fadd_self.
Qed.

Lemma F_field : field_theory F0 F1 Fadd Fmul Fsub Fopp Fdiv Finv (@eq F).
Proof.
  split; [apply F_ring|discriminate|reflexivity|apply Finv_l].
Qed.

Add Field GF256 : F_field.

(** The Reed-Solomon tables describe a field of 256 elements: with exclusive
    or as the sum, the product that [galois_mul] computes by shifting, the one
    that [galois_mul_table] reads from the logarithm tables and the one of the
    powers in [d_alpha_to] agree on all bytes, and that product makes them a
    field. *)
Theorem tables_are_a_field :
  (forall a b, 0 <= a < 256 -> 0 <= b < 256 ->
     galois_mul 29 a b = tmul a b /\ galois_mul_table E1B_rs a b = tmul a b) /\
  (forall x y : F, fval (Fadd x y) = galois_add (fval x) (fval y) /\
                   fval (Fmul x y) = tmul (fval x) (fval y)) /\
  field_theory F0 F1 Fadd Fmul Fsub Fopp Fdiv Finv (@eq F).
Proof.
  split; [exact galois_mul_tmul|]. split; [|exact F_field]. intros x y. split; reflexivity.
Qed.

Lemma tables_are_a_field_witness :
  galois_mul 29 87 131 = tmul 87 131 /\ galois_mul_table E1B_rs 87 131 = tmul 87 131.
Proof. apply (proj1 tables_are_a_field); lia. Defined.

Notation "x +' y" := (Fadd x y) (at level 50, left associativity).
Notation "x *' y" := (Fmul x y) (at level 40, left associativity).
