(* ===== verification/RSAlgebra.v ===== *)
(** * RSAlgebra: the algebra of erasure correction

    Sums over GF(256), the erasure locator polynomial as the product of its
    factors, what its product with the syndromes is, and Forney's formula: the
    facts that make the decoder of ReedSolomon.v right, stated on coefficients
    and independent of its loops. *)

From S2P Require Import Prelude GF256.
From stdpp Require Import list.
From Stdlib Require Import Lia Field.

(** ** Finite sums and powers *)

Fixpoint fsum (n : nat) (f : nat -> F) : F :=
  match n with
  | O => F0
  | S n => fsum n f +' f n
  end.

Lemma fsum_ext n f g : (forall i, i < n -> f i = g i) -> fsum n f = fsum n g.
Proof.
  induction n as [|n IH]; intros H; [reflexivity|]. cbn. rewrite IH, H by auto. reflexivity.
Qed.

Lemma fsum_0 n f : (forall i, i < n -> f i = F0) -> fsum n f = F0.
Proof.
  induction n as [|n IH]; intros H; [reflexivity|]. cbn. rewrite IH, H by auto. ring.
Qed.

Lemma fsum_add n f g : fsum n (fun i => f i +' g i) = fsum n f +' fsum n g.
Proof. induction n as [|n IH]; cbn; [ring|]. rewrite IH. ring. Qed.

Lemma fsum_mul n c f : fsum n (fun i => c *' f i) = c *' fsum n f.
Proof. induction n as [|n IH]; cbn; [ring|]. rewrite IH. ring. Qed.

Lemma fsum_first n f : fsum (S n) f = f 0 +' fsum n (fun i => f (S i)).
Proof.
  induction n as [|n IH]; [cbn; ring|].
  change (fsum (S (S n)) f) with (fsum (S n) f +' f (S n)). rewrite IH. cbn. ring.
Qed.

Lemma fsum_more n k f : (forall i, n <= i -> f i = F0) -> fsum (n + k) f = fsum n f.
Proof.
  intros H. induction k as [|k IH]; [rewrite Nat.add_0_r; reflexivity|].
  rewrite Nat.add_succ_r. cbn. rewrite IH, H by lia. ring.
Qed.

Lemma fsum_rev n f : fsum n (fun i => f (n - 1 - i)) = fsum n f.
Proof.
  revert f. induction n as [|n IH]; intros f; [reflexivity|]. rewrite fsum_first. cbn [fsum].
  rewrite <- IH. replace (S n - 1 - 0) with n by lia.
  rewrite Fadd_comm. f_equal. apply fsum_ext. intros i Hi. f_equal. lia.
Qed.

(** Sums over a list. *)
Fixpoint lsum {A} (l : list A) (f : A -> F) : F :=
  match l with
  | [] => F0
  | a :: l => f a +' lsum l f
  end.

Lemma lsum_ext {A} (l : list A) f g : (forall a, a ∈ l -> f a = g a) -> lsum l f = lsum l g.
Proof.
  induction l as [|a l IH]; intros H; [reflexivity|]. cbn.
  rewrite (H a) by left. rewrite IH; [reflexivity|]. intros b Hb. apply H. right. exact Hb.
Qed.

Lemma lsum_mul {A} (l : list A) c f : lsum l (fun a => c *' f a) = c *' lsum l f.
Proof. induction l as [|a l IH]; cbn; [ring|]. rewrite IH. ring. Qed.

Lemma lsum_add {A} (l : list A) f g : lsum l (fun a => f a +' g a) = lsum l f +' lsum l g.
Proof. induction l as [|a l IH]; cbn; [ring|]. rewrite IH. ring. Qed.

Lemma lsum_0 {A} (l : list A) f : (forall a, a ∈ l -> f a = F0) -> lsum l f = F0.
Proof.
  induction l as [|a l IH]; intros H; [reflexivity|]. cbn.
  rewrite (H a) by left. rewrite IH; [ring|]. intros b Hb. apply H. right. exact Hb.
Qed.

Lemma fsum_lsum {A} n (l : list A) (f : nat -> A -> F) :
  fsum n (fun i => lsum l (f i)) = lsum l (fun a => fsum n (fun i => f i a)).
Proof.
  induction l as [|a l IH]; cbn; [apply fsum_0; auto|].
  rewrite fsum_add, IH. reflexivity.
Qed.

Lemma lsum_app {A} (l l' : list A) f : lsum (l ++ l') f = lsum l f +' lsum l' f.
Proof. induction l as [|a l IH]; cbn; [ring|]. rewrite IH. ring. Qed.

Lemma lsum_map {A B} (g : A -> B) (l : list A) f : lsum (map g l) f = lsum l (fun a => f (g a)).
Proof. induction l as [|a l IH]; cbn; [reflexivity|]. rewrite IH. reflexivity. Qed.

Lemma lsum_perm {A} (l l' : list A) f : l ≡ₚ l' -> lsum l f = lsum l' f.
Proof.
  induction 1 as [|a l l' _ IH|a b l|l1 l2 l3 _ IH1 _ IH2]; cbn.
  - reflexivity.
  - rewrite IH. reflexivity.
  - ring.
  - rewrite IH1. exact IH2.
Qed.

Lemma lsum_filter {A} (P : A -> Prop) `{!forall a, Decision (P a)} (l : list A) f :
  (forall a, ~ P a -> f a = F0) -> lsum (filter P l) f = lsum l f.
Proof.
  intros Hz. induction l as [|a l IH]; [reflexivity|]. rewrite filter_cons. cbn [lsum].
  destruct (decide (P a)); cbn [lsum]; rewrite IH; [reflexivity|]. rewrite (Hz a) by assumption. ring.
Qed.

Lemma fsum_seqZ n (f : nat -> F) : fsum n f = lsum (seqZ 0 (Z.of_nat n)) (fun k => f (Z.to_nat k)).
Proof.
  induction n as [|n IH]; [reflexivity|]. replace (Z.of_nat (S n)) with (Z.of_nat n + 1)%Z by lia.
  rewrite seqZ_app by lia. rewrite lsum_app, <- IH. cbn [fsum lsum].
  rewrite Z.add_0_l, seqZ_cons by lia. rewrite seqZ_nil by lia. cbn [lsum]. rewrite Nat2Z.id. ring.
Qed.

(** A sum over the even places. *)
Lemma fsum_even h f :
  fsum (S h) (fun m => f (2 * m)) = fsum (S (2 * h)) (fun i => if Nat.even i then f i else F0).
Proof.
  induction h as [|h IH]; [reflexivity|]. change (fsum (S (S h)) ?g) with (fsum (S h) g +' g (S h)).
  cbv beta. rewrite IH. replace (2 * S h) with (S (S (2 * h))) by lia. cbn [fsum].
  rewrite (Nat.even_succ_succ (2 * h)), Nat.even_succ, <- Nat.negb_even.
  rewrite Nat.even_even. cbn [negb]. ring.
Qed.

(** A sum with one term left. *)
Lemma lsum_single {A} (l : list A) a f :
  NoDup l -> a ∈ l -> (forall b, b ∈ l -> b <> a -> f b = F0) -> lsum l f = f a.
Proof.
  induction l as [|b l IH]; intros Hnd Ha H; [inversion Ha|].
  apply NoDup_cons in Hnd as [Hb Hnd]. cbn. apply elem_of_cons in Ha as [->|Ha].
  - rewrite lsum_0; [ring|]. intros x Hx. apply H; [right; exact Hx|]. intros ->. contradiction.
  - rewrite (H b); [|left|intros ->; contradiction]. rewrite IH; auto; [ring|].
    intros x Hx. apply H. right. exact Hx.
Qed.

Fixpoint fpow (x : F) (n : nat) : F :=
  match n with
  | O => F1
  | S n => x *' fpow x n
  end.

Lemma fpow_Fexp k n : fpow (Fexp k) n = Fexp (k * Z.of_nat n).
Proof.
  induction n as [|n IH]; cbn [fpow]; [rewrite Z.mul_0_r, Fexp_0; reflexivity|].
  rewrite IH, Fexp_add. f_equal. lia.
Qed.

Lemma fmul_eq_0 x y : x *' y = F0 -> x = F0 \/ y = F0.
Proof.
  intros H. destruct (decide (x = F0)) as [|Hx]; [auto|]. right.
  transitivity (Finv x *' (x *' y)); [field; exact Hx|rewrite H; ring].
Qed.

Lemma fadd_eq_0 x y : x +' y = F0 -> x = y.
Proof.
  intros H. transitivity (x +' y +' y).
  - rewrite <- Fadd_assoc, Fadd_self. ring.
  - rewrite H. ring.
Qed.

(** ** The erasure locator *)

(** The coefficients of the product of [1 + X x] over the list. *)
Fixpoint Lam (Xs : list F) (i : nat) : F :=
  match Xs with
  | [] => if decide (i = 0) then F1 else F0
  | X :: Xs => Lam Xs i +' match i with O => F0 | S i => X *' Lam Xs i end
  end.

Lemma Lam_0 Xs : Lam Xs 0 = F1.
Proof. induction Xs as [|X Xs IH]; [reflexivity|]. cbn. rewrite IH. ring. Qed.

Lemma Lam_beyond Xs i : length Xs < i -> Lam Xs i = F0.
Proof.
  revert i. induction Xs as [|X Xs IH]; intros i Hi; cbn in *.
  - rewrite decide_False by lia. reflexivity.
  - destruct i as [|i]; [lia|]. rewrite !IH by lia. ring.
Qed.

Lemma Lam_swap X Y Xs i : Lam (X :: Y :: Xs) i = Lam (Y :: X :: Xs) i.
Proof. destruct i as [|[|i]]; cbn; ring. Qed.

Lemma Lam_cons_ext X Xs Ys : (forall i, Lam Xs i = Lam Ys i) ->
  forall i, Lam (X :: Xs) i = Lam (X :: Ys) i.
Proof. intros H i. cbn. rewrite H. destruct i; [reflexivity|]. rewrite H. reflexivity. Qed.

Lemma Lam_perm Xs Ys i : Xs ≡ₚ Ys -> Lam Xs i = Lam Ys i.
Proof.
  intros H. revert i. induction H as [|X Xs Ys H IH|X Y Xs|Xs Ys Zs H1 IH1 H2 IH2]; intros i.
  - reflexivity.
  - apply Lam_cons_ext, IH.
  - apply Lam_swap.
  - rewrite IH1. apply IH2.
Qed.

Fixpoint fprod (l : list F) : F :=
  match l with
  | [] => F1
  | x :: l => x *' fprod l
  end.

Lemma fprod_nonzero l : Forall (fun x => x <> F0) l -> fprod l <> F0.
Proof.
  induction 1 as [|x l Hx H IH]; [discriminate|]. cbn. intros E.
  apply fmul_eq_0 in E as [E|E]; contradiction.
Qed.

Lemma fprod_zero l : F0 ∈ l -> fprod l = F0.
Proof.
  induction l as [|x l IH]; intros H; [inversion H|]. cbn.
  apply elem_of_cons in H as [<-|H]; [ring|]. rewrite IH by exact H. ring.
Qed.

Lemma Lam_top Xs : Lam Xs (length Xs) = fprod Xs.
Proof.
  induction Xs as [|X Xs IH]; [reflexivity|]. cbn. rewrite IH, Lam_beyond by lia. ring.
Qed.

(** Its value at [x]. *)
Definition feval (n : nat) (P : nat -> F) (x : F) : F := fsum n (fun i => P i *' fpow x i).

Lemma Lam_eval Xs x n :
  length Xs < n -> feval n (Lam Xs) x = fprod (map (fun X => F1 +' X *' x) Xs).
Proof.
  unfold feval. revert n. induction Xs as [|X Xs IH]; intros n Hn.
  - destruct n as [|n]; [lia|]. rewrite fsum_first. rewrite fsum_0.
    + cbn [Lam fpow map fprod]. rewrite decide_True by reflexivity. ring.
    + intros i _. cbn [Lam]. rewrite decide_False by lia. ring.
  - cbn [length] in Hn. destruct n as [|n]; [lia|]. cbn [map fprod].
    rewrite <- (IH (S n)) by lia.
    transitivity (fsum (S n) (fun i => Lam Xs i *' fpow x i) +'
                  fsum (S n) (fun i => match i with O => F0 | S i => X *' Lam Xs i end *' fpow x i)).
    { rewrite <- fsum_add. apply fsum_ext. intros i _. cbn [Lam]. ring. }
    rewrite (fsum_first n (fun i => match i with O => F0 | S i => X *' Lam Xs i end *' fpow x i)).
    assert (fsum n (fun i => X *' Lam Xs i *' fpow x (S i)) =
            (X *' x) *' fsum (S n) (fun i => Lam Xs i *' fpow x i)) as ->.
    { rewrite <- fsum_mul. cbn [fsum]. rewrite (Lam_beyond Xs n) by lia.
      replace (X *' x *' (F0 *' fpow x n)) with F0 by ring.
      transitivity (fsum n (fun i => X *' x *' (Lam Xs i *' fpow x i))).
      - apply fsum_ext. intros i _. cbn [fpow]. ring.
      - ring. }
    ring.
Qed.

(** The roots of the locator are the inverses of its [X]. *)
Lemma Lam_root Xs x n :
  length Xs < n -> (feval n (Lam Xs) x = F0 <-> exists X, X ∈ Xs /\ X *' x = F1).
Proof.
  intros Hn. rewrite Lam_eval by exact Hn. split.
  - intros H. destruct (decide (Exists (fun X => X *' x = F1) Xs)) as [He|He].
    + apply Exists_exists in He. exact He.
    + exfalso. revert H. apply fprod_nonzero. apply Forall_forall. intros y Hy.
      apply list_elem_of_fmap in Hy as (X & -> & HX). intros E. apply He, Exists_exists.
      exists X. split; [exact HX|]. symmetry. apply fadd_eq_0, E.
  - intros (X & HX & E). apply fprod_zero. apply list_elem_of_fmap. exists X.
    split; [|exact HX]. rewrite E. symmetry. apply Fadd_self.
Qed.

(** ** The locator against the syndromes *)

(** The product with the series of one location drops its factor. *)
Lemma Lam_convolution X Xs i :
  fsum (S i) (fun j => Lam (X :: Xs) j *' fpow X (i - j)) = Lam Xs i.
Proof.
  induction i as [|i IH].
  - cbn. rewrite Lam_0. ring.
  - change (fsum (S (S i)) ?f) with (fsum (S i) f +' f (S i)). cbv beta.
    rewrite Nat.sub_diag. cbn [fpow].
    transitivity (X *' fsum (S i) (fun j => Lam (X :: Xs) j *' fpow X (i - j)) +'
                  Lam (X :: Xs) (S i) *' F1).
    { f_equal. rewrite <- fsum_mul. apply fsum_ext. intros j Hj.
      replace (S i - j) with (S (i - j)) by lia. cbn [fpow]. ring. }
    rewrite IH. cbn [Lam].
    transitivity ((X *' Lam Xs i +' X *' Lam Xs i) +' Lam Xs (S i)); [ring|].
    rewrite Fadd_self. ring.
Qed.

Section Syndromes.
(** The erased locations, distinct, and a weight for each. *)
Context (Xs : list F) (W : F -> F).
Hypothesis Xs_nodup : NoDup Xs.
Hypothesis Xs_nonzero : Forall (fun X => X <> F0) Xs.

(** The other locations. *)
Definition others (X : F) : list F := filter (fun Y => Y <> X) Xs.

Lemma others_perm X : X ∈ Xs -> Xs ≡ₚ X :: others X.
Proof.
  unfold others. clear Xs_nonzero. induction Xs as [|Y l IH]; intros HX; [inversion HX|].
  apply NoDup_cons in Xs_nodup as [HY Hnd]. rewrite filter_cons.
  destruct (decide (Y = X)) as [->|Hne].
  - rewrite decide_False by auto. f_equiv.
    assert (filter (fun Y => Y <> X) l = l) as ->; [|reflexivity].
    clear -HY. induction l as [|Z l IH]; [reflexivity|]. rewrite filter_cons.
    rewrite decide_True by (intros ->; apply HY; left). f_equal. apply IH.
    intros H. apply HY. right. exact H.
  - rewrite decide_True by exact Hne. apply elem_of_cons in HX as [->|HX]; [contradiction|].
    rewrite (IH Hnd HX) at 1. apply perm_swap.
Qed.

Lemma length_others X : X ∈ Xs -> S (length (others X)) = length Xs.
Proof. intros HX. symmetry. apply (Permutation_length (others_perm X HX)). Qed.

Definition synd (k : nat) : F := lsum Xs (fun X => W X *' fpow X k).

(** The coefficient [i] of the locator times the syndromes. *)
Lemma locator_syndromes i :
  fsum (S i) (fun j => Lam Xs j *' synd (i - j)) = lsum Xs (fun X => W X *' Lam (others X) i).
Proof.
  unfold synd.
  transitivity (fsum (S i) (fun j => lsum Xs (fun X => W X *' (Lam Xs j *' fpow X (i - j))))).
  { apply fsum_ext. intros j _. rewrite <- lsum_mul. apply lsum_ext. intros X _. ring. }
  rewrite fsum_lsum. apply lsum_ext. intros X HX. rewrite fsum_mul. f_equal.
  rewrite <- (Lam_convolution X (others X) i). apply fsum_ext. intros j _.
  rewrite (Lam_perm Xs (X :: others X) j) by (apply others_perm, HX). reflexivity.
Qed.

(** Beyond the number of erasures it vanishes: no discrepancy. *)
Lemma no_discrepancy i :
  length Xs <= i -> fsum (S i) (fun j => Lam Xs j *' synd (i - j)) = F0.
Proof.
  intros Hi. rewrite locator_syndromes. apply lsum_0. intros X HX.
  pose proof (length_others X HX). rewrite Lam_beyond by lia. ring.
Qed.

Definition omega (i : nat) : F := fsum (S i) (fun j => Lam Xs j *' synd (i - j)).

Definition residue (X : F) : F := fprod (map (fun Y => F1 +' Y *' Finv X) (others X)).

Lemma residue_nonzero X : X ∈ Xs -> residue X <> F0.
Proof.
  intros HX. pose proof (proj1 (Forall_forall _ _) Xs_nonzero X HX) as Hnz. cbv beta in Hnz.
  apply fprod_nonzero. apply Forall_forall. intros y Hy.
  apply list_elem_of_fmap in Hy as (Y & -> & HY). intros E. apply fadd_eq_0 in E.
  unfold others in HY. apply list_elem_of_filter in HY as [Hne HY]. apply Hne.
  transitivity (X *' (Y *' Finv X)); [field; exact Hnz|]. rewrite <- E. ring.
Qed.

(** The numerator of Forney's formula. *)
Lemma omega_at X n :
  X ∈ Xs -> length Xs <= n -> feval n omega (Finv X) = W X *' residue X.
Proof.
  intros HX Hn. pose proof (proj1 (Forall_forall _ _) Xs_nonzero X HX) as Hnz. cbv beta in Hnz.
  unfold feval, omega.
  transitivity (fsum n (fun i => lsum Xs (fun Y => W Y *' (Lam (others Y) i *' fpow (Finv X) i)))).
  { apply fsum_ext. intros i _. rewrite locator_syndromes.
    rewrite <- (Fmul_comm (fpow (Finv X) i)), <- lsum_mul. apply lsum_ext. intros Y _. ring. }
  rewrite fsum_lsum.
  assert (forall Y, Y ∈ Xs ->
    fsum n (fun i => W Y *' (Lam (others Y) i *' fpow (Finv X) i)) =
    W Y *' fprod (map (fun Z => F1 +' Z *' Finv X) (others Y))) as HY.
  { intros Y HY. rewrite fsum_mul. f_equal. pose proof (length_others Y HY).
    apply (Lam_eval (others Y) (Finv X) n). lia. }
  rewrite (lsum_single Xs X); [apply HY, HX|exact Xs_nodup|exact HX|].
  intros Y HYin Hne. rewrite HY by exact HYin. rewrite fprod_zero; [ring|].
  apply list_elem_of_fmap. exists X. split.
  - replace (X *' Finv X) with F1 by (field; exact Hnz). symmetry. apply Fadd_self.
  - unfold others. apply list_elem_of_filter. auto.
Qed.

(** The denominator: the odd coefficients are those of the derivative. *)
Lemma derivative_at X n :
  X ∈ Xs -> length Xs <= n ->
  fsum n (fun i => if Nat.even i then Lam Xs (S i) *' fpow (Finv X) i else F0) = X *' residue X.
Proof.
  intros HX Hn. pose proof (proj1 (Forall_forall _ _) Xs_nonzero X HX) as Hnz. cbv beta in Hnz.
  pose proof (length_others X HX) as Hlen.
  set (R := Lam (others X)). set (x := Finv X).
  transitivity (fsum n (fun i => if Nat.even i then R (S i) *' fpow x i +' X *' (R i *' fpow x i)
                                 else F0)).
  { apply fsum_ext. intros i _. destruct (Nat.even i); [|reflexivity].
    rewrite (Lam_perm Xs (X :: others X)) by (apply others_perm, HX).
    cbn [Lam]. fold (R (S i)) (R i). ring. }
  unfold residue. fold x. rewrite <- (Lam_eval (others X) x n) by lia. fold R. unfold feval.
  rewrite <- fsum_mul.
  (* pair the terms up: X R_{i+1} x^{i+1} = R_{i+1} x^i *)
  assert (forall m, fsum m (fun i => if Nat.even i
      then R (S i) *' fpow x i +' X *' (R i *' fpow x i) else F0) +'
      (if Nat.even m then F0 else X *' (R m *' fpow x m)) =
    fsum m (fun i => X *' (R i *' fpow x i))) as Hpair.
  { induction m as [|m IH]; [cbn; ring|]. cbn [fsum]. rewrite <- IH.
    rewrite Nat.even_succ, <- Nat.negb_even.
    destruct (Nat.even m); cbn [negb].
    - cbn [fpow]. unfold x. transitivity (
        fsum m (fun i => if Nat.even i then R (S i) *' fpow (Finv X) i +'
          X *' (R i *' fpow (Finv X) i) else F0) +' (X *' (R m *' fpow (Finv X) m)) +'
        ((R (S m) *' fpow (Finv X) m) +' (R (S m) *' fpow (Finv X) m))).
      + field. exact Hnz.
      + rewrite Fadd_self. ring.
    - transitivity (fsum m (fun i => if Nat.even i then R (S i) *' fpow x i +'
          X *' (R i *' fpow x i) else F0) +' F0); [ring|].
      rewrite <- (Fadd_self (X *' (R m *' fpow x m))). ring. }
  assert (R n = F0) as HRn by (apply Lam_beyond; lia).
  rewrite <- Hpair, HRn.
  destruct (Nat.even n); ring.
Qed.

(** Forney: the weight of each location from the two values. *)
Lemma forney X n m :
  X ∈ Xs -> length Xs <= n -> length Xs <= m ->
  let num := feval n omega (Finv X) in
  let den := fsum m (fun i => if Nat.even i then Lam Xs (S i) *' fpow (Finv X) i else F0) in
  den <> F0 /\ W X *' Finv X = Fdiv num den.
Proof.
  intros HX Hn Hm num den. pose proof (proj1 (Forall_forall _ _) Xs_nonzero X HX) as Hnz.
  cbv beta in Hnz. pose proof (residue_nonzero X HX) as Hres.
  unfold num, den. rewrite omega_at, derivative_at by assumption. split.
  - intros E. apply fmul_eq_0 in E as [E|E]; contradiction.
  - field. auto.
Qed.

End Syndromes.
