(* ===== verification/ReedSolomonProofs.v ===== *)
(** * ReedSolomonProofs: the decoder restores every erasure

    The loops of [decode_rs_8] computed in the field of GF256.v: the syndromes
    as values of the received polynomial, the erasure locator, a
    Berlekamp-Massey that finds no discrepancy, the Chien search and Forney's
    formula; then [decode] on shortened words, which is what the I/NAV message
    decoder needs of it. *)

From S2P Require Import Prelude Cstring InavMessage ReedSolomon GF256 RSAlgebra.
From stdpp Require Import list.
From Stdlib Require Import ZArith Lia Field.
Local Open Scope Z_scope.

(** ** Octets as field elements *)

Definition is_octet (v : Z) : Prop := 0 <= v < 256.

Definition Fz (v : Z) : F :=
  match bool_dec (is_byte v) true with left H => mkF v H | right _ => F0 end.

Lemma fval_Fz v : is_octet v -> fval (Fz v) = v.
Proof.
  intros H. unfold Fz. destruct (bool_dec (is_byte v) true) as [E|E]; [reflexivity|].
  exfalso. apply E, is_byte_spec, H.
Qed.

Lemma Fz_fval x : Fz (fval x) = x.
Proof. apply F_eq, fval_Fz, fval_range. Qed.

Lemma fval_0 x : fval x = 0 <-> x = F0.
Proof. split; [intros H; apply F_eq, H|intros ->; reflexivity]. Qed.

(** A list of octets holding the first [n] values of [P]. *)
Definition holds_poly (l : list Z) (n : Z) (P : nat -> F) : Prop :=
  Z.of_nat (length l) = n /\ forall i, 0 <= i < n -> vget 0 l i = fval (P (Z.to_nat i)).

(** A loop that rewrites each entry from its own value. *)
Lemma pointwise_loop {A} (d : A) (g : Z -> A -> A) n (b : list A) :
  0 <= n <= Z.of_nat (length b) ->
  let r := for_range 0 n (fun i b => vset b i (g i (vget d b i))) b in
  length r = length b /\ forall i, 0 <= i < n -> vget d r i = g i (vget d b i).
Proof.
  intros Hn r.
  assert (length r = length b /\ (forall i, 0 <= i < n -> vget d r i = g i (vget d b i)) /\
    (forall i, n <= i -> vget d r i = vget d b i)) as (H1 & H2 & _); [|split; assumption].
  apply (for_range_ind (fun k r => length r = length b /\
    (forall i, 0 <= i < k -> vget d r i = g i (vget d b i)) /\
    (forall i, k <= i -> vget d r i = vget d b i))); [lia| |].
  - split; [reflexivity|]. split; [lia|auto].
  - intros k s Hk (Hl & Hlow & Hhigh). rewrite length_vset. split; [exact Hl|]. split.
    + intros i Hi. destruct (decide (i = k)) as [->|Hne].
      * rewrite vget_vset_eq by (unfold in_range; lia). rewrite Hhigh by lia. reflexivity.
      * rewrite vget_vset_ne by auto. apply Hlow. lia.
    + intros i Hi. rewrite vget_vset_ne by lia. apply Hhigh. lia.
Qed.

(** A loop that sums. *)
Lemma sum_loop n (f : Z -> Z -> Z) (P : nat -> F) :
  0 <= n -> (forall i acc, 0 <= i < n -> f i (fval acc) = fval (acc +' P (Z.to_nat i))) ->
  for_range 0 n f 0 = fval (fsum (Z.to_nat n) P).
Proof.
  intros Hn H. apply (for_range_ind (fun k acc => acc = fval (fsum (Z.to_nat k) P)));
    [exact Hn|reflexivity|]. intros i acc Hi ->. rewrite H by exact Hi.
  rewrite Z2Nat.inj_add by lia. change (Z.to_nat 1) with 1%nat. rewrite Nat.add_1_r. reflexivity.
Qed.

(** ** Logarithms *)

(** An element in index form: its logarithm, or 255 for 0. *)
Definition idx (x : F) : Z := if decide (x = F0) then 255 else Flog x.

Lemma idx_0 : idx F0 = 255.
Proof. reflexivity. Qed.

Lemma idx_log x : x <> F0 -> idx x = Flog x /\ 0 <= idx x < 255 /\ Fexp (idx x) = x.
Proof.
  intros H. unfold idx. rewrite decide_False by exact H.
  split; [reflexivity|]. split; [apply Flog_range, H|apply Fexp_log, H].
Qed.

Lemma idx_range x : 0 <= idx x <= 255.
Proof.
  destruct (decide (x = F0)) as [->|H]; [rewrite idx_0; lia|].
  destruct (idx_log x H) as (_ & Hr & _). lia.
Qed.

Lemma idx_255 x : idx x = 255 <-> x = F0.
Proof.
  split; [|intros ->; apply idx_0]. intros E. destruct (decide (x = F0)); [assumption|].
  destruct (idx_log x) as (_ & Hr & _); [assumption|]. lia.
Qed.

Lemma index_table_spec x : vget 0 index_table (fval x) = idx x.
Proof.
  unfold idx. destruct (decide (x = F0)) as [->|H]; [reflexivity|]. reflexivity.
Qed.

Lemma alpha_table_spec k : 0 <= k < 2 ^ 31 -> vget 0 alpha_table (mod255 k) = fval (Fexp k).
Proof. intros Hk. rewrite mod255_spec by exact Hk. reflexivity. Qed.

(** The term [x * alpha^k] as the code computes it from the index of [x]. *)
Lemma term_spec x k :
  x <> F0 -> 0 <= k < 2 ^ 30 ->
  vget 0 alpha_table (mod255 (idx x + k)) = fval (x *' Fexp k).
Proof.
  intros Hx Hk. destruct (idx_log x Hx) as (_ & Hr & E).
  rewrite alpha_table_spec by lia. rewrite <- Fexp_add, E. reflexivity.
Qed.

Lemma term_spec2 x y :
  x <> F0 -> y <> F0 -> vget 0 alpha_table (mod255 (idx x + idx y)) = fval (x *' y).
Proof.
  intros Hx Hy. destruct (idx_log y Hy) as (_ & Hr & E).
  rewrite term_spec by (auto; lia). rewrite E. reflexivity.
Qed.

Section Decoder.
Context (rs : ReedSolomon).

(** What the decoder needs of its object: the tables of the field, and
    parameters in the ranges that the constructor checks. *)
Record rs_ok : Prop := {
  ok_alpha : d_alpha_to rs = alpha_table;
  ok_index : d_index_of rs = index_table;
  ok_a0 : d_a0 rs = 255;
  ok_prim : d_prim rs = 1;
  ok_iprim : d_iprim rs = 1;
  ok_pad : d_pad rs = 0;
  ok_nroots : 0 < d_nroots rs < 255;
  ok_fcr : 0 <= d_fcr rs < 256
}.
Hypothesis Hok : rs_ok.
Local Abbreviation n := (d_nroots rs).

Ltac fields := rewrite ?(ok_alpha Hok), ?(ok_index Hok), ?(ok_a0 Hok), ?(ok_prim Hok),
  ?(ok_iprim Hok), ?(ok_pad Hok) in *; cbv beta.

(** ** Syndromes *)

(** The value of the received polynomial at [alpha^(fcr + i)]. *)
Definition root_value (D : nat -> F) (m : nat) (i : Z) : F :=
  fsum m (fun j => D j *' Fexp ((d_fcr rs + i) * (Z.of_nat m - 1 - Z.of_nat j))).

Lemma root_value_S D m i :
  root_value D (S m) i = Fexp (d_fcr rs + i) *' root_value D m i +' D m.
Proof.
  unfold root_value. cbn [fsum]. f_equal.
  - rewrite <- fsum_mul. apply fsum_ext. intros j Hj.
    transitivity (D j *' (Fexp (d_fcr rs + i) *' Fexp ((d_fcr rs + i) * (Z.of_nat m - 1 - Z.of_nat j)))).
    + rewrite Fexp_add. do 2 f_equal. lia.
    + ring.
  - replace ((d_fcr rs + i) * (Z.of_nat (S m) - 1 - Z.of_nat m)) with 0 by lia.
    rewrite Fexp_0. ring.
Qed.

Lemma syndrome_step S d i :
  0 <= i < n ->
  (if fval S =? 0 then fval d
   else Z.lxor (fval d) (vget 0 (d_alpha_to rs)
     (mod255 (vget 0 (d_index_of rs) (fval S) + (d_fcr rs + i) * d_prim rs)))) =
  fval (Fexp (d_fcr rs + i) *' S +' d).
Proof.
  intros Hi. pose proof (ok_nroots Hok). pose proof (ok_fcr Hok). fields.
  rewrite index_table_spec, Z.mul_1_r. destruct (Z.eqb_spec (fval S) 0) as [E|E].
  - apply fval_0 in E. subst S. f_equal. ring.
  - rewrite term_spec; [|intros H'; apply E, fval_0, H'|lia].
    change (Z.lxor (fval d) (fval ?x)) with (fval (d +' x)). f_equal. ring.
Qed.

Lemma syndromes_spec data D :
  holds_poly data 255 D ->
  holds_poly (syndromes rs data) n (fun i => root_value D 255 (Z.of_nat i)).
Proof.
  intros [Hlen HD]. pose proof (ok_nroots Hok). unfold syndromes. rewrite (ok_pad Hok).
  change (d_symbols_per_block - 0) with 255.
  apply (for_range_ind (fun k s => holds_poly s n
    (fun i => root_value D (Z.to_nat k) (Z.of_nat i)))); [lia| |].
  - split; [autorewrite with cxx; lia|]. intros i Hi. unfold vget at 1.
    destruct (Z.ltb_spec i 0); [lia|]. rewrite nth_lookup, lookup_replicate_2 by lia. cbn [default].
    rewrite HD by lia. f_equal. change (Z.to_nat 1) with 1%nat. rewrite root_value_S.
    change (root_value D 0 _) with F0. rewrite Fmul_0_r, Fadd_0_l. reflexivity.
  - intros j s Hj [Hs HP].
    destruct (pointwise_loop 0 (fun i v => if v =? 0 then vget 0 data j else
      Z.lxor (vget 0 data j) (vget 0 (d_alpha_to rs)
        (mod255 (vget 0 (d_index_of rs) v + (d_fcr rs + i) * d_prim rs)))) n s ltac:(lia))
      as [Hl Hv].
    split; [rewrite Hl; exact Hs|]. intros i Hi.
    transitivity (let v := vget 0 s i in if v =? 0 then vget 0 data j else
      Z.lxor (vget 0 data j) (vget 0 (d_alpha_to rs)
        (mod255 (vget 0 (d_index_of rs) v + (d_fcr rs + i) * d_prim rs)))); [apply Hv, Hi|].
    cbv zeta. rewrite HP, HD by lia. rewrite syndrome_step by exact Hi. f_equal.
    rewrite !Z2Nat.id by lia. rewrite Z2Nat.inj_add by lia. change (Z.to_nat 1) with 1%nat.
    rewrite Nat.add_1_r, root_value_S. reflexivity.
Qed.

(** ** The erasure locator *)

(** The location of the coefficient at place [p] of the block. *)
Definition location (p : Z) : F := Fexp (254 - p).

(** Multiplying a polynomial by [1 + X x] in place, from the top down: the
    entries of [r] above [m + 1 - k] are done. *)
Definition half_done (L : list F) (p m k : Z) (r : list Z) : Prop :=
  Z.of_nat (length r) = n + 1 /\ forall i, 0 <= i < n + 1 ->
    vget 0 r i = fval (Lam (if (m + 1 - k <? i) && (i <=? m + 1) then location p :: L else L)
      (Z.to_nat i)).

Lemma done_true m k i : m + 1 - k < i <= m + 1 -> (m + 1 - k <? i) && (i <=? m + 1) = true.
Proof. intros ?. apply andb_true_iff. rewrite Z.ltb_lt, Z.leb_le. lia. Qed.

Lemma done_false m k i : ~ m + 1 - k < i <= m + 1 -> (m + 1 - k <? i) && (i <=? m + 1) = false.
Proof. intros ?. apply andb_false_iff. rewrite Z.ltb_ge, Z.leb_gt. lia. Qed.

Lemma times_factor_step L p m k r :
  0 <= m < n -> 0 <= p < 255 -> 0 <= k < m + 1 -> half_done L p m k r ->
  half_done L p m (k + 1)
    (let j := m + 1 - k in
     let tmp := vget 0 (d_index_of rs) (vget 0 r (j - 1)) in
     if tmp =? d_a0 rs then r
     else vset r j (Z.lxor (vget 0 r j) (vget 0 (d_alpha_to rs) (mod255 (254 - p + tmp))))).
Proof.
  intros Hm Hp Hk [Hlr Hr]. cbv zeta. fields.
  set (j := m + 1 - k). assert (1 <= j <= n) as Hj by lia.
  rewrite (Hr (j - 1)), (Hr j) by lia. rewrite !done_false by lia. rewrite index_table_spec.
  assert (Lam (location p :: L) (Z.to_nat j) =
    Lam L (Z.to_nat j) +' location p *' Lam L (Z.to_nat (j - 1))) as Hcons
    by (replace (Z.to_nat j) with (S (Z.to_nat (j - 1))) by lia; reflexivity).
  assert (forall i, i <> j -> 
    ((m + 1 - (k + 1) <? i) && (i <=? m + 1)) = ((m + 1 - k <? i) && (i <=? m + 1))) as Hsame.
  { intros i Hij. destruct (decide (m + 1 - k < i <= m + 1)) as [Hd|Hd].
    - rewrite !done_true by lia. reflexivity.
    - rewrite !done_false by lia. reflexivity. }
  destruct (Z.eqb_spec (idx (Lam L (Z.to_nat (j - 1)))) 255) as [E|E].
  - split; [exact Hlr|]. intros i Hi. rewrite Hr by exact Hi.
    destruct (decide (i = j)) as [->|Hij]; [|rewrite Hsame by exact Hij; reflexivity].
    rewrite done_false, done_true by lia. rewrite Hcons.
    apply idx_255 in E. rewrite E. f_equal. ring.
  - split; [rewrite length_vset; exact Hlr|]. intros i Hi.
    destruct (decide (i = j)) as [->|Hij].
    + rewrite done_true by lia. rewrite vget_vset_eq by (unfold in_range; lia).
      rewrite Hcons, Z.add_comm, term_spec; [|intros H'; apply E, idx_255, H'|lia].
      change (Z.lxor (fval ?x) (fval ?y)) with (fval (x +' y)). f_equal. unfold location. ring.
    + rewrite vget_vset_ne, Hr by auto. rewrite Hsame by exact Hij. reflexivity.
Qed.

Lemma times_factor l (L : list F) p m :
  holds_poly l (n + 1) (Lam L) -> 0 <= m < n -> 0 <= p < 255 ->
  (forall i, Z.of_nat i > m -> Lam L i = F0) ->
  holds_poly
    (for_range 0 (m + 1)
       (fun k lambda =>
          let j := m + 1 - k in
          let tmp := vget 0 (d_index_of rs) (vget 0 lambda (j - 1)) in
          if tmp =? d_a0 rs then lambda
          else vset lambda j (Z.lxor (vget 0 lambda j)
            (vget 0 (d_alpha_to rs) (mod255 (u8 (mod255 (d_prim rs * (254 - p))) + tmp))))) l)
    (n + 1) (Lam (location p :: L)).
Proof.
  intros [Hl HL] Hm Hp Htop.
  assert (u8 (mod255 (d_prim rs * (254 - p))) = 254 - p) as Hu.
  { fields. rewrite Z.mul_1_l, mod255_spec by lia. rewrite Z.mod_small by lia. unfold u8.
    apply Z.mod_small. lia. }
  rewrite Hu.
  match goal with |- holds_poly ?t _ _ => assert (half_done L p m (m + 1) t) as [H1 H2] end.
  { apply for_range_ind; [lia| |].
    - split; [exact Hl|]. intros i Hi. rewrite done_false by lia. apply HL, Hi.
    - intros k r Hk Hr. apply (times_factor_step L p m k r); assumption. }
  split; [exact H1|]. intros i Hi. rewrite H2 by exact Hi.
  destruct (decide (0 < i <= m + 1)) as [Hd|Hd]; [rewrite done_true by lia; reflexivity|].
  rewrite done_false by lia.
  destruct (decide (i = 0)) as [->|Hi0]; [rewrite !Lam_0; reflexivity|].
  replace (Z.to_nat i) with (S (Z.to_nat (i - 1))) by lia. cbn [Lam].
  rewrite (Htop (Z.to_nat (i - 1))) by lia. f_equal. ring.
Qed.

Lemma rev_take_S (l : list Z) k :
  0 <= k < Z.of_nat (length l) ->
  rev (take (Z.to_nat (k + 1)) l) = vget 0 l k :: rev (take (Z.to_nat k) l).
Proof.
  intros Hk. destruct (lookup_lt_is_Some_2 l (Z.to_nat k)) as [x Hx]; [lia|].
  replace (Z.to_nat (k + 1)) with (S (Z.to_nat k)) by lia.
  rewrite (take_S_r _ _ x) by exact Hx. rewrite rev_app_distr. cbn [rev app]. f_equal.
  unfold vget. destruct (Z.ltb_spec k 0); [lia|]. rewrite nth_lookup, Hx. reflexivity.
Qed.

Lemma vget_in_range_elem (l : list Z) k : 0 <= k < Z.of_nat (length l) -> vget 0 l k ∈ l.
Proof.
  intros Hk. unfold vget. destruct (Z.ltb_spec k 0); [lia|]. rewrite nth_lookup.
  destruct (lookup_lt_is_Some_2 l (Z.to_nat k)) as [x Hx]; [lia|]. rewrite Hx.
  apply (list_elem_of_lookup_2 _ _ _ Hx).
Qed.

Lemma unit_spec :
  holds_poly (vset (replicate (Z.to_nat (n + 1)) 0) 0 1) (n + 1) (Lam []).
Proof.
  pose proof (ok_nroots Hok). split; [autorewrite with cxx; lia|]. intros i Hi.
  destruct (decide (i = 0)) as [->|Hne].
  - rewrite vget_vset_eq by (unfold in_range; autorewrite with cxx; lia). reflexivity.
  - rewrite vget_vset_ne by auto. unfold vget. destruct (Z.ltb_spec i 0); [lia|].
    rewrite nth_lookup, lookup_replicate_2 by lia. rewrite Lam_beyond by (cbn; lia). reflexivity.
Qed.

Lemma erasure_locator_spec eras :
  Forall (fun p => 0 <= p < 255) eras -> 0 < Z.of_nat (length eras) <= n ->
  holds_poly (erasure_locator rs eras) (n + 1) (Lam (map location eras)).
Proof.
  intros Heras Hlen. pose proof (ok_nroots Hok). unfold erasure_locator.
  destruct (Z.ltb_spec 0 (Z.of_nat (length eras))); [|lia].
  assert (forall k, 0 <= k < Z.of_nat (length eras) -> 0 <= vget 0 eras k < 255) as Hp.
  { intros k Hk. rewrite Forall_forall in Heras. apply Heras, vget_in_range_elem, Hk. }
  match goal with |- holds_poly ?t _ _ => assert (holds_poly t (n + 1)
    (Lam (map location (rev (take (Z.to_nat (Z.of_nat (length eras))) eras))))) as HH end.
  { apply (for_range_ind (fun k l =>
      holds_poly l (n + 1) (Lam (map location (rev (take (Z.to_nat k) eras)))))); [lia| |].
    - destruct unit_spec as [Hl Hu]. change (Z.to_nat 1) with (Z.to_nat (0 + 1)).
      rewrite (rev_take_S eras 0) by lia. change (take (Z.to_nat 0) eras) with (@nil Z). cbn [rev map].
      change (d_symbols_per_block - 1 - vget 0 eras 0) with (254 - vget 0 eras 0).
      specialize (Hp 0 ltac:(lia)). fields.
      rewrite Z.mul_1_l, alpha_table_spec by lia. fold (location (vget 0 eras 0)).
      split; [rewrite length_vset; exact Hl|]. intros i Hi. destruct (decide (i = 1)) as [->|Hne].
      + rewrite vget_vset_eq by (unfold in_range; lia). f_equal.
        change (Lam [location (vget 0 eras 0)] (Z.to_nat 1)) with
          (F0 +' location (vget 0 eras 0) *' F1). ring.
      + rewrite vget_vset_ne by auto. rewrite Hu by exact Hi.
        destruct (decide (i = 0)) as [->|]; [reflexivity|].
        rewrite !Lam_beyond by (cbn; lia). reflexivity.
    - intros i l Hi Hl. rewrite rev_take_S by lia. cbn [map].
      apply (times_factor l (map location (rev (take (Z.to_nat i) eras))) (vget 0 eras i) i Hl);
        [lia|apply Hp; lia|].
      intros j Hj. apply Lam_beyond. rewrite length_map, length_rev, length_take. lia. }
  rewrite Nat2Z.id, firstn_all in HH. destruct HH as [H1 H2]. split; [exact H1|].
  intros i Hi. rewrite H2 by exact Hi. f_equal. apply Lam_perm, Permutation_map.
  symmetry. apply Permutation_rev.
Qed.

(** ** Index form and Berlekamp-Massey *)

Definition holds_index (l : list Z) (m : Z) (P : nat -> F) : Prop :=
  Z.of_nat (length l) = m /\ forall i, 0 <= i < m -> vget 0 l i = idx (P (Z.to_nat i)).

Lemma vget_map (f : Z -> Z) l i :
  0 <= i < Z.of_nat (length l) -> vget 0 (map f l) i = f (vget 0 l i).
Proof.
  intros Hi. unfold vget. destruct (Z.ltb_spec i 0); [lia|].
  rewrite (nth_indep (map f l) 0 (f 0)) by (rewrite length_map; lia). apply map_nth.
Qed.

Lemma map_index_spec l m P :
  holds_poly l m P -> holds_index (map (vget 0 (d_index_of rs)) l) m P.
Proof.
  intros [Hl HP]. split; [rewrite length_map; exact Hl|]. intros i Hi.
  rewrite vget_map, HP by lia. fields. apply index_table_spec.
Qed.

(** A term of a convolution, skipped when one of its factors is 0. *)
Lemma conv_term acc x y :
  (if negb (idx x =? 255) && negb (idx y =? 255)
   then Z.lxor (fval acc) (vget 0 alpha_table (mod255 (idx x + idx y))) else fval acc) =
  fval (acc +' x *' y).
Proof.
  destruct (Z.eqb_spec (idx x) 255) as [E|E].
  { apply idx_255 in E. rewrite E. cbn [negb andb]. f_equal. ring. }
  destruct (Z.eqb_spec (idx y) 255) as [E'|E'].
  { apply idx_255 in E'. rewrite E'. cbn [negb andb]. f_equal. ring. }
  cbn [negb andb]. rewrite idx_255 in E, E'. rewrite term_spec2 by assumption. reflexivity.
Qed.

Lemma discrepancy_spec s lambda (S L : nat -> F) r :
  holds_index s n S -> holds_poly lambda (n + 1) L -> 0 <= r <= n ->
  discrepancy rs s lambda r =
  fval (fsum (Z.to_nat r) (fun j => L j *' S (Z.to_nat r - 1 - j)%nat)).
Proof.
  intros [Hs HS] [Hl HL] Hr. unfold discrepancy. apply sum_loop; [lia|].
  intros i acc Hi. rewrite HL, HS by lia. fields. rewrite index_table_spec.
  replace (Z.to_nat (r - i - 1)) with (Z.to_nat r - 1 - Z.to_nat i)%nat by lia.
  rewrite <- conv_term.
  destruct (Z.eqb_spec (idx (L (Z.to_nat i))) 255) as [E|E].
  - apply idx_255 in E. rewrite E. reflexivity.
  - destruct (Z.eqb_spec (fval (L (Z.to_nat i))) 0) as [E'|E']; [|reflexivity].
    exfalso. apply E, idx_255, fval_0, E'.
Qed.

(** With no discrepancy the polynomial stays. *)
Lemma berlekamp_massey_spec s lambda (S L : nat -> F) no_eras :
  holds_index s n S -> holds_poly lambda (n + 1) L -> 0 <= no_eras <= n ->
  (forall r, Z.to_nat no_eras <= r -> fsum (Datatypes.S r) (fun j => L j *' S (r - j)%nat) = F0)%nat ->
  berlekamp_massey rs s lambda no_eras = lambda.
Proof.
  intros Hs Hl Hn Hz. unfold berlekamp_massey.
  apply (for_range_inv (fun st => st.1.1 = lambda)); [reflexivity|].
  intros r [[lam b] el] Hr E. cbn [fst] in E. subst lam. unfold bm_step.
  rewrite (discrepancy_spec s lambda S L) by (auto; lia).
  assert (fsum (Z.to_nat r) (fun j => L j *' S (Z.to_nat r - 1 - j)%nat) = F0) as ->.
  { replace (Z.to_nat r) with (Datatypes.S (Z.to_nat (r - 1))) by lia.
    rewrite <- (Hz (Z.to_nat (r - 1))) by lia. apply fsum_ext. intros j Hj. do 2 f_equal. lia. }
  fields. change (vget 0 index_table (fval F0)) with 255. rewrite Z.eqb_refl. reflexivity.
Qed.

Lemma degree_spec lambda L d :
  holds_index lambda (n + 1) L -> 0 <= d <= n -> L (Z.to_nat d) <> F0 ->
  (forall i, d < i <= n -> L (Z.to_nat i) = F0) -> degree rs lambda = d.
Proof.
  intros [Hl HL] Hd Hnz Hz. unfold degree.
  assert (forall i deg, 0 <= i < n + 1 -> (if vget 0 lambda i =? d_a0 rs then deg else i) =
    if decide (L (Z.to_nat i) = F0) then deg else i) as Hstep.
  { intros i deg Hi. rewrite HL by lia. fields.
    destruct (Z.eqb_spec (idx (L (Z.to_nat i))) 255) as [E|E]; rewrite idx_255 in E.
    - rewrite decide_True by exact E. reflexivity.
    - rewrite decide_False by exact E. reflexivity. }
  assert (n + 1 <= d \/ for_range 0 (n + 1)
    (fun i deg => if vget 0 lambda i =? d_a0 rs then deg else i) 0 = d) as [?|E]; [|lia|exact E].
  apply (for_range_ind (fun k deg => k <= d \/ deg = d)); [lia|lia|].
  intros i deg Hi H. rewrite Hstep by exact Hi. destruct (decide (i < d)); [lia|].
  destruct (decide (i = d)) as [->|Hne].
  - rewrite decide_False by exact Hnz. auto.
  - rewrite decide_True by (apply Hz; lia). right. lia.
Qed.

(** ** The Chien search *)

Lemma idx_shift y k : y <> F0 -> 0 <= k < 2 ^ 30 -> mod255 (idx y + k) = idx (y *' Fexp k).
Proof.
  intros Hy Hk. destruct (idx_log y Hy) as (_ & Hr & E). rewrite mod255_spec by lia.
  rewrite <- E at 2. rewrite Fexp_add.
  destruct (idx_log (Fexp (idx y + k)) (Fexp_nonzero _)) as (-> & _). rewrite Flog_exp. reflexivity.
Qed.

Lemma alpha_idx y : y <> F0 -> vget 0 alpha_table (idx y) = fval y.
Proof.
  intros Hy. destruct (idx_log y Hy) as (_ & Hr & E). rewrite <- E at 2.
  change (fval (Fexp (idx y))) with (apow (idx y mod 255)). rewrite Z.mod_small by lia. reflexivity.
Qed.

(** The term of degree [j] at [alpha^i]. *)
Definition chien_term (L : nat -> F) (i j : Z) : F := L (Z.to_nat j) *' Fexp (i * j).

Lemma chien_term_next L i j :
  chien_term L i j *' Fexp j = chien_term L (i + 1) j.
Proof.
  unfold chien_term. transitivity (L (Z.to_nat j) *' (Fexp (i * j) *' Fexp j)); [ring|].
  rewrite Fexp_add. do 2 f_equal. lia.
Qed.

Lemma chien_term_0 L i j : L (Z.to_nat j) = F0 -> chien_term L i j = F0.
Proof. intros H. unfold chien_term. rewrite H. ring. Qed.

(** [reg] before the step for [alpha^i]. *)
Definition chien_reg (L : nat -> F) (d i : Z) (reg : list Z) : Prop :=
  Z.of_nat (length reg) = n + 1 /\
  forall j, 1 <= j <= d -> vget 0 reg j = idx (chien_term L (i - 1) j).

Definition chien_poly (d : Z) (i m : Z) : list Z * Z -> list Z * Z :=
  fun '(reg, q) =>
    let j := d - m in
    if vget 0 reg j =? d_a0 rs then (reg, q)
    else let x := mod255 (vget 0 reg j + j) in
         (vset reg j x, Z.lxor q (vget 0 (d_alpha_to rs) x)).

Definition chien_done (L : nat -> F) (d i m : Z) (st : list Z * Z) : Prop :=
  Z.of_nat (length st.1) = n + 1 /\
  (forall j, 1 <= j <= d - m -> vget 0 st.1 j = idx (chien_term L (i - 1) j)) /\
  (forall j, d - m < j <= d -> vget 0 st.1 j = idx (chien_term L i j)) /\
  st.2 = fval (F1 +' fsum (Z.to_nat m) (fun t => chien_term L i (d - Z.of_nat t))).

Lemma chien_inner_step L d i m st :
  d <= n -> 0 <= m < d -> chien_done L d i m st ->
  chien_done L d i (m + 1) (chien_poly d i m st).
Proof.
  intros Hd Hm. destruct st as [reg q]. intros (Hl & Hlow & Hhigh & Hq). cbn [fst snd] in *.
  pose proof (ok_nroots Hok). unfold chien_poly. cbv zeta. set (j := d - m).
  rewrite (Hlow j) by lia. fields.
  set (y := chien_term L (i - 1) j).
  assert (chien_term L i j = y *' Fexp j) as Hy
    by (unfold y; rewrite chien_term_next; f_equal; lia).
  assert (fsum (Z.to_nat (m + 1)) (fun t => chien_term L i (d - Z.of_nat t)) =
    fsum (Z.to_nat m) (fun t => chien_term L i (d - Z.of_nat t)) +' y *' Fexp j) as Hsum.
  { replace (Z.to_nat (m + 1)) with (Datatypes.S (Z.to_nat m)) by lia. cbn [fsum]. f_equal.
    rewrite Z2Nat.id by lia. exact Hy. }
  destruct (Z.eqb_spec (idx y) 255) as [E|E]; rewrite idx_255 in E.
  - split; [exact Hl|]. split; [intros k Hk; apply Hlow; lia|]. split.
    + intros k Hk. cbn [fst]. destruct (decide (k = j)) as [->|]; [|apply Hhigh; lia].
      rewrite Hlow, Hy by lia. fold y. rewrite E, Fmul_0_l. reflexivity.
    + cbn [snd]. rewrite Hq, Hsum, E. f_equal. ring.
  - rewrite idx_shift by (auto; lia).
    assert (y *' Fexp j <> F0) as Hnz.
    { intros H'. apply fmul_eq_0 in H' as [H'|H']; [auto|]. apply Fexp_nonzero in H'. exact H'. }
    rewrite alpha_idx by exact Hnz. split; [cbn [fst]; rewrite length_vset; exact Hl|].
    cbn [fst snd]. split; [|split].
    + intros k Hk. rewrite vget_vset_ne by lia. apply Hlow. lia.
    + intros k Hk. destruct (decide (k = j)) as [->|].
      * rewrite vget_vset_eq by (unfold in_range; lia). rewrite Hy. reflexivity.
      * rewrite vget_vset_ne by auto. apply Hhigh. lia.
    + rewrite Hq, Hsum. change (Z.lxor (fval ?x) (fval ?y)) with (fval (x +' y)). f_equal. ring.
Qed.

Lemma chien_inner L d i reg :
  0 <= d <= n -> 0 <= i -> L 0%nat = F1 -> chien_reg L d i reg ->
  exists reg', for_range 0 d (chien_poly d i) (reg, 1) =
    (reg', fval (feval (Datatypes.S (Z.to_nat d)) L (Fexp i))) /\ chien_reg L d (i + 1) reg'.
Proof.
  intros Hd Hi0 HL0 [Hl Hreg].
  assert (chien_done L d i d (for_range 0 d (chien_poly d i) (reg, 1))) as (H1 & H2 & H3 & H4).
  { apply (for_range_ind (chien_done L d i)); [lia| |].
    - split; [exact Hl|]. split; [intros j Hj; apply Hreg; lia|]. split; [intros j Hj; lia|].
      reflexivity.
    - intros m st Hm Hst. apply chien_inner_step; [lia|lia|exact Hst]. }
  destruct (for_range 0 d (chien_poly d i) (reg, 1)) as [reg' q]. cbn [fst snd] in *.
  exists reg'. split; [|split; [exact H1|]].
  - f_equal. rewrite H4. f_equal. unfold feval. rewrite fsum_first, HL0.
    change (fpow (Fexp i) 0) with F1.
    f_equal; [ring|].
    rewrite <- (fsum_rev (Z.to_nat d) (fun k => L (Datatypes.S k) *' fpow (Fexp i) (Datatypes.S k))).
    apply fsum_ext. intros t Ht. unfold chien_term. rewrite fpow_Fexp.
    replace (d - Z.of_nat t) with (Z.of_nat (Datatypes.S (Z.to_nat d - 1 - t))) by lia.
    rewrite Nat2Z.id. reflexivity.
  - intros j Hj. rewrite H3 by lia. do 2 f_equal. lia.
Qed.

(** The erased places below [k], in increasing order. *)
Definition erased_below (eras : list Z) (k : Z) : list Z := filter (fun p => p ∈ eras) (seqZ 0 k).

Lemma erased_below_S eras k :
  0 <= k -> erased_below eras (k + 1) = erased_below eras k ++ (if decide (k ∈ eras) then [k] else []).
Proof.
  intros Hk. unfold erased_below. rewrite seqZ_app by lia. rewrite filter_app. f_equal.
Qed.

Lemma erased_below_perm eras :
  NoDup eras -> Forall (fun p => 0 <= p < 255) eras -> erased_below eras 255 ≡ₚ eras.
Proof.
  intros Hnd Hr. rewrite Forall_forall in Hr. apply NoDup_Permutation.
  - apply NoDup_filter, NoDup_seqZ.
  - exact Hnd.
  - intros p. unfold erased_below. rewrite list_elem_of_filter, elem_of_seqZ. split; [tauto|].
    intros H. specialize (Hr p H). split; [exact H|lia].
Qed.

Lemma erased_below_mono eras k k' :
  0 <= k <= k' -> (length (erased_below eras k) <= length (erased_below eras k'))%nat.
Proof.
  intros H. replace k' with (k + (k' - k)) by lia. unfold erased_below.
  rewrite seqZ_app by lia. rewrite filter_app, length_app. lia.
Qed.

Record chien_inv (L : nat -> F) (eras : list Z) (d i : Z) (c : chien) : Prop := {
  chien_locs : locs c = erased_below eras (i - 1);
  chien_roots : roots c = map (Z.add 1) (erased_below eras (i - 1));
  chien_stopped : stopped c = true -> Z.of_nat (length (locs c)) = d;
  chien_going : stopped c = false ->
    Z.of_nat (length (locs c)) < d /\ chien_reg L d i (reg c) /\ k c = (i - 1) mod 255
}.

Lemma chien_step_spec L eras d i c :
  0 < d <= n -> 1 <= i < 256 -> L 0%nat = F1 ->
  (feval (Datatypes.S (Z.to_nat d)) L (Fexp i) = F0 <-> i - 1 ∈ eras) ->
  Z.of_nat (length (erased_below eras 255)) = d ->
  chien_inv L eras d i c -> chien_inv L eras d (i + 1) (chien_step rs d i c).
Proof.
  intros Hd Hi HL0 Hroot Hcount [Hlocs Hroots Hst Hgo].
  assert (erased_below eras (i + 1 - 1) =
    erased_below eras (i - 1) ++ (if decide (i - 1 ∈ eras) then [i - 1] else [])) as Hnext.
  { replace (i + 1 - 1) with (i - 1 + 1) by lia. apply erased_below_S. lia. }
  unfold chien_step. destruct (stopped c) eqn:Es.
  - specialize (Hst eq_refl).
    assert (erased_below eras (i + 1 - 1) = erased_below eras (i - 1)) as E.
    { pose proof (erased_below_mono eras (i + 1 - 1) 255 ltac:(lia)) as Hmono.
      rewrite Hnext in Hmono |- *. rewrite <- Hlocs in Hmono |- *. rewrite length_app in Hmono.
      destruct (decide (i - 1 ∈ eras)); [cbn in Hmono; lia|apply app_nil_r]. }
    split; rewrite ?E, ?Es; auto; discriminate.
  - destruct (Hgo eq_refl) as (Hlen & Hreg & Hk). rewrite Z.mod_small in Hk by lia.
    destruct (chien_inner L d i (reg c) ltac:(lia) ltac:(lia) HL0 Hreg) as (reg' & Heq & Hreg').
    change (for_range 0 d _ (reg c, 1)) with (for_range 0 d (chien_poly d i) (reg c, 1)).
    rewrite Heq. rewrite Hlocs in Hlen.
    assert (mod255 (k c + d_iprim rs) = (i + 1 - 1) mod 255) as Hknext.
    { rewrite Hk. fields. rewrite mod255_spec by lia. f_equal. lia. }
    destruct (Z.eqb_spec (fval (feval (Datatypes.S (Z.to_nat d)) L (Fexp i))) 0) as [E|E];
      rewrite fval_0, Hroot in E.
    + rewrite decide_True in Hnext by exact E.
      assert (roots c ++ [i] = map (Z.add 1) (erased_below eras (i + 1 - 1))) as Hr.
      { rewrite Hnext, map_app, Hroots. cbn [map]. do 3 f_equal. lia. }
      split; cbn [locs roots stopped reg k].
      * rewrite Hnext, Hlocs, Hk. reflexivity.
      * exact Hr.
      * rewrite Z.eqb_eq, Hr, length_map. rewrite Hlocs, Hk, <- Hnext. auto.
      * rewrite Z.eqb_neq, Hr, length_map. rewrite Hlocs, Hk, <- Hnext. intros Hne.
        pose proof (erased_below_mono eras (i + 1 - 1) 255 ltac:(lia)). split; [lia|].
        split; [exact Hreg'|rewrite <- Hk; exact Hknext].
    + rewrite decide_False, app_nil_r in Hnext by exact E.
      split; cbn [locs roots stopped reg k]; rewrite ?Hnext; auto.
      intros _. rewrite Hlocs. split; [exact Hlen|]. split; [exact Hreg'|exact Hknext].
Qed.

Lemma chien_search_spec lambda L eras d :
  0 < d <= n -> L 0%nat = F1 -> holds_index lambda (n + 1) L ->
  (forall p, 0 <= p < 255 ->
     feval (Datatypes.S (Z.to_nat d)) L (Fexp (p + 1)) = F0 <-> p ∈ eras) ->
  Z.of_nat (length (erased_below eras 255)) = d ->
  let c := chien_search rs lambda d in
  locs c = erased_below eras 255 /\ roots c = map (Z.add 1) (erased_below eras 255).
Proof.
  intros Hd HL0 [Hl HL] Hroot Hcount c.
  assert (chien_inv L eras d 256 c) as [H1 H2 _ _]; [|split; assumption].
  apply (for_range_ind (chien_inv L eras d)); [unfold d_symbols_per_block; lia| |].
  - split; cbn [locs roots stopped reg k]; try reflexivity; [discriminate|]. intros _.
    split; [cbn; lia|]. fields. split; [|reflexivity]. split; [rewrite length_vset; exact Hl|].
    intros j Hj. rewrite vget_vset_ne, HL by lia. f_equal. unfold chien_term.
    replace ((1 - 1) * j) with 0 by lia. rewrite Fexp_0. ring.
  - intros i s Hi Hs. apply chien_step_spec; auto.
    rewrite <- (Hroot (i - 1)) by (unfold d_symbols_per_block in *; lia). replace (i - 1 + 1) with i by lia. reflexivity.
Qed.

(** ** Forney's formula *)

(** A sum by decreasing index. *)
Lemma descending_loop d (f : Z -> Z -> Z) (P : nat -> F) :
  0 <= d -> (forall i acc, 0 <= i <= d -> f i (fval acc) = fval (acc +' P (Z.to_nat i))) ->
  for_range 0 (d + 1) (fun m acc => f (d - m) acc) 0 = fval (fsum (Z.to_nat (d + 1)) P).
Proof.
  intros Hd H. rewrite <- fsum_rev. apply sum_loop; [lia|]. intros m acc Hm.
  rewrite H by lia. do 3 f_equal. lia.
Qed.

Lemma skip_term acc x k :
  0 <= k < 2 ^ 30 ->
  (if idx x =? 255 then fval acc else Z.lxor (fval acc) (vget 0 alpha_table (mod255 (idx x + k)))) =
  fval (acc +' x *' Fexp k).
Proof.
  intros Hk. destruct (Z.eqb_spec (idx x) 255) as [E|E]; rewrite idx_255 in E.
  - rewrite E. f_equal. ring.
  - rewrite term_spec by assumption. reflexivity.
Qed.

Lemma evaluator_spec s lambda (S L : nat -> F) d :
  holds_index s n S -> holds_index lambda (n + 1) L -> 0 < d <= n ->
  forall i, 0 <= i < d -> vget 0 (evaluator rs s lambda (d - 1)) i =
    idx (fsum (Datatypes.S (Z.to_nat i)) (fun j => L j *' S (Z.to_nat i - j)%nat)).
Proof.
  intros [Hs HS] [Hl HL] Hd i Hi. unfold evaluator.
  match goal with |- vget 0 (for_range _ _ (fun i omega => vset omega i (@?f i)) ?b) _ = _ =>
    destruct (vset_loop 0 (fun i => i) f 0 (d - 1 + 1) b) as (_ & H & _);
      [lia|auto|intros k Hk; unfold in_range; autorewrite with cxx; lia|]
  end.
  etransitivity; [apply (H i); lia|]. cbv beta. fields.
  erewrite (descending_loop i (fun j tmp => if negb (vget 0 s (i - j) =? 255) &&
    negb (vget 0 lambda j =? 255) then Z.lxor tmp (vget 0 alpha_table
      (mod255 (vget 0 s (i - j) + vget 0 lambda j))) else tmp)
    (fun j => L j *' S (Z.to_nat i - j)%nat)); [|lia|].
  - rewrite index_table_spec. do 2 f_equal. lia.
  - intros j acc Hj. rewrite HS, HL by lia. rewrite conv_term. do 2 f_equal.
    rewrite Fmul_comm. do 2 f_equal. lia.
Qed.

Lemma forney_num1_spec omega (Om : nat -> F) d root :
  (forall i, 0 <= i < d -> vget 0 omega i = idx (Om (Z.to_nat i))) ->
  0 < d <= n -> 0 <= root < 256 ->
  forney_num1 rs omega (d - 1) root = fval (feval (Z.to_nat d) Om (Fexp root)).
Proof.
  intros Hom Hd Hr. unfold forney_num1. fields. pose proof (ok_nroots Hok).
  erewrite (descending_loop (d - 1) (fun i num1 => if vget 0 omega i =? 255 then num1 else
    Z.lxor num1 (vget 0 alpha_table (mod255 (vget 0 omega i + i * root))))
    (fun i => Om i *' fpow (Fexp root) i)); [|lia|].
  - unfold feval. do 2 f_equal. lia.
  - intros i acc Hi. rewrite Hom by lia. rewrite skip_term by nia.
    rewrite fpow_Fexp, Z2Nat.id by lia. rewrite (Z.mul_comm root). reflexivity.
Qed.

Lemma even_below x : 0 <= x -> Z.land x (Z.lnot 1) = 2 * (x / 2).
Proof.
  intros Hx. rewrite <- Z.ldiff_land. change 1 with (Z.ones 1) at 1.
  rewrite Z.ldiff_ones_r by lia. rewrite Z.shiftl_mul_pow2, Z.shiftr_div_pow2 by lia.
  change (2 ^ 1) with 2. lia.
Qed.

Lemma forney_den_spec lambda L d root :
  holds_index lambda (n + 1) L -> 0 < d <= n -> 0 <= root < 256 ->
  (forall i, d < Z.of_nat i -> L i = F0) ->
  forney_den rs lambda d root =
  fval (fsum (Z.to_nat n) (fun i => if Nat.even i then L (Datatypes.S i) *' fpow (Fexp root) i else F0)).
Proof.
  intros [Hl HL] Hd Hr Hz. unfold forney_den. pose proof (ok_nroots Hok).
  assert (rs_min d (n - 1) = Z.min d (n - 1)) as ->.
  { unfold rs_min. destruct (Z.ltb_spec d (n - 1)); lia. }
  rewrite even_below by lia. set (h := Z.min d (n - 1) / 2).
  pose proof (Z.div_mod (Z.min d (n - 1)) 2 ltac:(lia)) as Hdm. fold h in Hdm.
  pose proof (Z.mod_pos_bound (Z.min d (n - 1)) 2 ltac:(lia)).
  replace (2 * h / 2) with h by (rewrite Z.mul_comm, Z.div_mul; lia). fields.
  transitivity (fval (fsum (Z.to_nat (h + 1))
    (fun m => L (Datatypes.S (2 * m)) *' fpow (Fexp root) (2 * m)))).
  - rewrite <- (fsum_rev (Z.to_nat (h + 1))). apply sum_loop; [lia|]. intros m acc Hm.
    rewrite HL by lia. rewrite skip_term by nia. rewrite fpow_Fexp. do 2 f_equal.
    replace (Z.to_nat (2 * h - 2 * m + 1)) with
      (Datatypes.S (2 * (Z.to_nat (h + 1) - 1 - Z.to_nat m))) by lia.
    f_equal. f_equal. rewrite (Z.mul_comm root). f_equal. lia.
  - f_equal. replace (Z.to_nat (h + 1)) with (Datatypes.S (Z.to_nat h)) by lia.
    rewrite (fsum_even (Z.to_nat h) (fun i => L (Datatypes.S i) *' fpow (Fexp root) i)).
    replace (Z.to_nat n) with
      (Datatypes.S (2 * Z.to_nat h) + (Z.to_nat n - Datatypes.S (2 * Z.to_nat h)))%nat by lia.
    symmetry. apply fsum_more. intros i Hi. destruct (Nat.even i) eqn:Ev; [|reflexivity].
    apply Nat.even_spec in Ev as [j ->]. rewrite Hz by lia. ring.
Qed.

(** ** Errors at known places *)

Lemma location_log p : 0 <= p < 255 -> Flog (location p) = 254 - p.
Proof. intros Hp. unfold location. rewrite Flog_exp. apply Z.mod_small. lia. Qed.

Lemma location_inj p p' : 0 <= p < 255 -> 0 <= p' < 255 -> location p = location p' -> p = p'.
Proof. intros H H' E. apply (f_equal Flog) in E. rewrite !location_log in E by assumption. lia. Qed.

Lemma Fexp_255 k m : Fexp (k + 255 * m) = Fexp k.
Proof. apply Fexp_eq. replace (k + 255 * m) with (k + m * 255) by lia. apply Z.mod_add. lia. Qed.

Lemma location_inv p : Finv (location p) = Fexp (1 + p).
Proof.
  assert (location p <> F0) as Hnz by apply Fexp_nonzero.
  assert (location p *' Fexp (1 + p) = F1) as E.
  { unfold location. rewrite Fexp_add. replace (254 - p + (1 + p)) with (0 + 255 * 1) by lia.
    rewrite Fexp_255. apply Fexp_0. }
  transitivity (Finv (location p) *' (location p *' Fexp (1 + p))); [rewrite E; ring|].
  field. exact Hnz.
Qed.

(** The weight of a location in the syndromes. *)
Definition weight (E : Z -> F) (X : F) : F := E (254 - Flog X) *' Fexp (d_fcr rs * Flog X).

Lemma weight_location E p :
  0 <= p < 255 -> weight E (location p) = E p *' Fexp (d_fcr rs * (254 - p)).
Proof.
  intros Hp. unfold weight. rewrite location_log by exact Hp. do 2 f_equal. lia.
Qed.

Record erased_word (eras : list Z) (D C : nat -> F) (E : Z -> F) : Prop := {
  erased_nodup : NoDup eras;
  erased_range : Forall (fun p => 0 <= p < 255) eras;
  erased_count : Z.of_nat (length eras) <= n;
  erased_codeword : forall i, 0 <= i < n -> root_value C 255 i = F0;
  erased_word_is : forall j, 0 <= j < 255 -> D (Z.to_nat j) = C (Z.to_nat j) +' E j;
  erased_outside : forall p, p ∉ eras -> E p = F0
}.

Lemma erased_in_range eras D C E p : erased_word eras D C E -> p ∈ eras -> 0 <= p < 255.
Proof. intros H. pose proof (erased_range _ _ _ _ H) as Hr. rewrite Forall_forall in Hr. auto. Qed.

Lemma locations_nodup eras D C E : erased_word eras D C E -> NoDup (map location eras).
Proof.
  intros H. pose proof (erased_nodup _ _ _ _ H) as Hnd. pose proof (erased_range _ _ _ _ H) as Hr.
  clear H. induction Hnd as [|p l Hp Hnd IH]; [constructor|]. apply Forall_cons in Hr as [Hr1 Hr2].
  cbn [map]. constructor; [|apply IH, Hr2]. intros Hin. apply list_elem_of_fmap in Hin as (q & Eq & Hq).
  rewrite Forall_forall in Hr2. specialize (Hr2 q Hq). cbv beta in Hr1, Hr2.
  apply location_inj in Eq; [|exact Hr1|exact Hr2]. subst q. contradiction.
Qed.

Lemma locations_nonzero eras : Forall (fun X => X <> F0) (map location eras).
Proof. apply Forall_fmap, Forall_forall. intros p _. apply Fexp_nonzero. Qed.

Lemma syndrome_of_errors eras D C E i :
  erased_word eras D C E -> Z.of_nat i < n ->
  root_value D 255 (Z.of_nat i) = synd (map location eras) (weight E) i.
Proof.
  intros H Hi.
  pose (T := fun p => E p *' Fexp ((d_fcr rs + Z.of_nat i) * (254 - p))).
  transitivity (root_value C 255 (Z.of_nat i) +' fsum 255 (fun j => T (Z.of_nat j))).
  { unfold root_value. rewrite <- fsum_add. apply fsum_ext. intros j Hj.
    pose proof (erased_word_is _ _ _ _ H (Z.of_nat j) ltac:(lia)) as HD.
    rewrite Nat2Z.id in HD. rewrite HD. unfold T.
    change (Z.of_nat 255 - 1) with 254. ring. }
  rewrite (erased_codeword _ _ _ _ H) by lia. rewrite Fadd_0_l, fsum_seqZ.
  transitivity (lsum (seqZ 0 255) T).
  { apply lsum_ext. intros p Hp. apply elem_of_seqZ in Hp. rewrite Z2Nat.id by lia. reflexivity. }
  rewrite <- (lsum_filter (fun p => p ∈ eras) (seqZ 0 255) T).
  2: { intros p Hp. unfold T. rewrite (erased_outside _ _ _ _ H) by exact Hp. ring. }
  change (filter (fun p => p ∈ eras) (seqZ 0 255)) with (erased_below eras 255).
  rewrite (lsum_perm _ _ _ (erased_below_perm eras (erased_nodup _ _ _ _ H) (erased_range _ _ _ _ H))).
  unfold synd. rewrite lsum_map. apply lsum_ext. intros p Hp.
  pose proof (erased_in_range _ _ _ _ p H Hp). rewrite weight_location by assumption.
  unfold T, location. rewrite fpow_Fexp.
  transitivity (E p *' (Fexp (d_fcr rs * (254 - p)) *' Fexp ((254 - p) * Z.of_nat i))); [|ring].
  rewrite Fexp_add. do 2 f_equal. lia.
Qed.

Lemma forney_value eras D C E p num1 den :
  erased_word eras D C E -> p ∈ eras -> den <> F0 ->
  weight E (location p) *' Finv (location p) = Fdiv num1 den ->
  num1 *' Fexp ((1 + p) * (d_fcr rs - 1) + 255) *' Finv den = E p.
Proof.
  intros H Hp Hden Hv. pose proof (erased_in_range _ _ _ _ p H Hp).
  transitivity (Fdiv num1 den *' Fexp ((1 + p) * (d_fcr rs - 1) + 255)); [field; exact Hden|].
  rewrite <- Hv, weight_location, location_inv by assumption.
  transitivity (E p *' (Fexp (d_fcr rs * (254 - p)) *' Fexp (1 + p) *'
                        Fexp ((1 + p) * (d_fcr rs - 1) + 255))); [ring|].
  rewrite !Fexp_add.
  replace (d_fcr rs * (254 - p) + (1 + p) + ((1 + p) * (d_fcr rs - 1) + 255))
    with (0 + 255 * (d_fcr rs + 1)) by lia.
  rewrite Fexp_255, Fexp_0. ring.
Qed.

Lemma correction_value x y z :
  x <> F0 -> y <> F0 -> z <> F0 ->
  vget 0 alpha_table (mod255 (idx x + idx y + 255 - idx z)) = fval (x *' y *' Finv z).
Proof.
  intros Hx Hy Hz. destruct (idx_log x Hx) as (_ & Rx & Ex), (idx_log y Hy) as (_ & Ry & Ey),
    (idx_log z Hz) as (_ & Rz & Ez).
  rewrite alpha_table_spec by lia. f_equal. transitivity (Fexp (idx x + idx y + 255 - idx z) *' z *' Finv z).
  - field. exact Hz.
  - f_equal. rewrite <- Ez at 2. rewrite <- Ex at 2. rewrite <- Ey at 2. rewrite !Fexp_add.
    replace (idx x + idx y + 255 - idx z + idx z) with (idx x + idx y + 255 * 1) by lia.
    apply Fexp_255.
Qed.

(** ** The corrections *)

Section Corrections.
Context (eras : list Z) (D C : nat -> F) (E : Z -> F).
Hypothesis Hw : erased_word eras D C E.
Local Abbreviation Xs := (map location eras).
Local Abbreviation d := (Z.of_nat (length eras)).

Lemma correct_spec omega lambda data p :
  (forall i, 0 <= i < d -> vget 0 omega i = idx (RSAlgebra.omega Xs (weight E) (Z.to_nat i))) ->
  holds_index lambda (n + 1) (Lam Xs) -> p ∈ eras -> Z.of_nat (length data) = 255 ->
  let r := correct rs omega lambda d (d - 1) (1 + p) p data in
  Z.of_nat (length r) = 255 /\ vget 0 r p = Z.lxor (vget 0 data p) (fval (E p)) /\
  (forall i, i <> p -> vget 0 r i = vget 0 data i).
Proof.
  intros Hom Hlam Hp Hlen r. pose proof (erased_in_range _ _ _ _ p Hw Hp) as Hpr.
  pose proof (erased_count _ _ _ _ Hw). pose proof (ok_fcr Hok). pose proof (ok_nroots Hok).
  assert (0 < d) as Hd by (destruct eras; [inversion Hp|cbn; lia]).
  destruct (forney Xs (weight E) (locations_nodup _ _ _ _ Hw) (locations_nonzero eras)
    (location p) (Z.to_nat d) (Z.to_nat n)) as [Hden Hval];
    [apply list_elem_of_fmap; exists p; auto|rewrite length_map; lia..|].
  pose proof (forney_num1_spec omega (RSAlgebra.omega Xs (weight E)) d (1 + p) Hom
    ltac:(lia) ltac:(lia)) as Hn1.
  pose proof (forney_den_spec lambda (Lam Xs) d (1 + p) Hlam ltac:(lia) ltac:(lia)
    ltac:(intros i Hi; apply Lam_beyond; rewrite length_map; lia)) as Hn2.
  rewrite location_inv in Hden, Hval.
  set (num1 := feval (Z.to_nat d) (RSAlgebra.omega Xs (weight E)) (Fexp (1 + p))) in *.
  set (den := fsum (Z.to_nat n) _) in *. rewrite <- location_inv in Hval.
  pose proof (forney_value eras D C E p num1 den Hw Hp Hden Hval) as HE.
  unfold correct in r. cbv zeta in r.
  subst r. rewrite Hn1, Hn2. fields.
  rewrite (proj2 (Z.leb_le 0 p)) by lia. rewrite andb_true_r, Z.sub_0_r.
  unfold forney_num2. fields. unfold d_symbols_per_block. rewrite (alpha_table_spec ((1 + p) * (d_fcr rs - 1) + 255)) by nia.
  destruct (Z.eqb_spec (fval num1) 0) as [Ez|Ez]; rewrite fval_0 in Ez.
  - cbn [negb]. rewrite <- HE, Ez.
    replace (F0 *' Fexp ((1 + p) * (d_fcr rs - 1) + 255) *' Finv den) with F0 by ring.
    rewrite Z.lxor_0_r. auto.
  - cbn [negb]. rewrite !index_table_spec, correction_value, HE;
      [|exact Ez|apply Fexp_nonzero|exact Hden].
    rewrite length_vset. split; [exact Hlen|]. split.
    + apply vget_vset_eq. unfold in_range. lia.
    + intros i Hi. apply vget_vset_ne. auto.
Qed.

(** The received word with the errors at the places of [l] taken out. *)
Definition corrected (l : list Z) (data r : list Z) : Prop :=
  Z.of_nat (length r) = 255 /\ forall i, vget 0 r i =
    if bool_decide (i ∈ l) then Z.lxor (vget 0 data i) (fval (E i)) else vget 0 data i.

Lemma corrections omega lambda data (locs := erased_below eras 255)
    (roots := map (Z.add 1) locs) :
  (forall i, 0 <= i < d -> vget 0 omega i = idx (RSAlgebra.omega Xs (weight E) (Z.to_nat i))) ->
  holds_index lambda (n + 1) (Lam Xs) -> Z.of_nat (length data) = 255 ->
  corrected eras data
    (for_range 0 d (fun m data => let j := d - 1 - m in
       correct rs omega lambda d (d - 1) (vget 0 roots j) (vget 0 locs j) data) data).
Proof.
  intros Hom Hlam Hlen.
  pose proof (erased_below_perm eras (erased_nodup _ _ _ _ Hw) (erased_range _ _ _ _ Hw)) as Hperm.
  fold locs in Hperm. pose proof (Permutation_length Hperm) as Hpl.
  assert (NoDup locs) as Hnd by (rewrite Hperm; apply Hw).
  match goal with |- corrected _ _ ?t =>
    assert (corrected (drop (Z.to_nat (d - d)) locs) data t) as [H1 H2] end.
  { apply (for_range_ind (fun m r => corrected (drop (Z.to_nat (d - m)) locs) data r)); [lia| |].
    - split; [exact Hlen|]. intros i. rewrite drop_ge by lia. reflexivity.
    - intros m r Hm [Hr1 Hr2]. cbv zeta. set (j := d - 1 - m).
      replace (Z.to_nat (d - (m + 1))) with (Z.to_nat j) by lia.
      replace (Z.to_nat (d - m)) with (Datatypes.S (Z.to_nat j)) in Hr2 by lia.
      destruct (lookup_lt_is_Some_2 locs (Z.to_nat j)) as [p Hp]; [lia|].
      assert (vget 0 locs j = p) as Ep.
      { unfold vget. destruct (Z.ltb_spec j 0); [lia|]. rewrite nth_lookup, Hp. reflexivity. }
      assert (vget 0 roots j = 1 + p) as Er by (unfold roots; rewrite vget_map, Ep by lia; reflexivity).
      assert (p ∈ eras) as Hpe by (rewrite <- Hperm; apply (list_elem_of_lookup_2 _ _ _ Hp)).
      rewrite Ep, Er. destruct (correct_spec omega lambda r p Hom Hlam Hpe Hr1) as (Hl & Hpv & Hother).
      split; [exact Hl|]. intros i. rewrite (drop_S _ _ _ Hp).
      assert (p ∉ drop (Datatypes.S (Z.to_nat j)) locs) as Hnot.
      { rewrite <- (take_drop_middle locs (Z.to_nat j) p Hp) in Hnd.
        apply NoDup_app in Hnd as (_ & _ & Hnd). apply NoDup_cons in Hnd as [Hnd _]. exact Hnd. }
      destruct (decide (i = p)) as [->|Hne].
      + rewrite Hpv, Hr2. rewrite bool_decide_eq_false_2 by exact Hnot.
        rewrite bool_decide_eq_true_2 by left. reflexivity.
      + rewrite Hother, Hr2 by exact Hne.
        rewrite (bool_decide_ext (i ∈ p :: _) (i ∈ drop (Datatypes.S (Z.to_nat j)) locs));
          [reflexivity|]. rewrite elem_of_cons. tauto. }
  rewrite Z.sub_diag in H2. change (Z.to_nat 0) with 0%nat in H2. rewrite drop_0 in H2.
  split; [exact H1|]. intros i. rewrite H2.
  rewrite (bool_decide_ext (i ∈ locs) (i ∈ eras)) by (rewrite Hperm; reflexivity). reflexivity.
Qed.

Lemma corrected_is data c r :
  holds_poly data 255 D -> holds_poly c 255 C -> corrected eras data r -> r = c.
Proof.
  intros [Hl HD] [Hc HC] [Hr H]. apply (vget_ext 0); [lia|]. intros i Hi.
  rewrite H, HD, HC by lia.
  pose proof (erased_word_is _ _ _ _ Hw i ltac:(lia)) as Ei.
  assert (fval (C (Z.to_nat i)) = Z.lxor (fval (D (Z.to_nat i))) (fval (E i))) as ->.
  { change (Z.lxor (fval ?x) (fval ?y)) with (fval (x +' y)). f_equal. rewrite Ei.
    transitivity (C (Z.to_nat i) +' (E i +' E i)); [rewrite Fadd_self; ring|ring]. }
  destruct (bool_decide_reflect (i ∈ eras)) as [Hin|Hout]; [reflexivity|].
  rewrite (erased_outside _ _ _ _ Hw i Hout). rewrite Z.lxor_0_r. reflexivity.
Qed.

(** Zero syndromes leave no error at the erased places. *)
Lemma zero_syndromes_no_error p :
  (forall i, Z.of_nat i < n -> synd Xs (weight E) i = F0) -> E p = F0.
Proof.
  intros Hz. destruct (decide (p ∈ eras)) as [Hp|Hp]; [|apply (erased_outside _ _ _ _ Hw), Hp].
  pose proof (erased_count _ _ _ _ Hw). pose proof (ok_nroots Hok).
  destruct (forney Xs (weight E) (locations_nodup _ _ _ _ Hw) (locations_nonzero eras)
    (location p) (length eras) (length eras)) as [Hden Hval];
    [apply list_elem_of_fmap; exists p; auto|rewrite length_map; lia..|].
  rewrite <- (forney_value eras D C E p _ _ Hw Hp Hden Hval).
  assert (feval (length eras) (RSAlgebra.omega Xs (weight E)) (Finv (location p)) = F0) as ->; [|ring].
  apply fsum_0. intros i Hi. unfold RSAlgebra.omega. rewrite fsum_0; [ring|]. intros j Hj.
  rewrite Hz by lia. ring.
Qed.

Lemma locator_root p :
  0 <= p < 255 ->
  feval (Datatypes.S (Z.to_nat d)) (Lam Xs) (Fexp (p + 1)) = F0 <-> p ∈ eras.
Proof.
  intros Hp. rewrite Lam_root by (rewrite length_map; lia). rewrite Z.add_comm, <- location_inv.
  assert (forall q, location q <> F0) as Hnz by (intros q; apply Fexp_nonzero). split.
  - intros (X & HX & HE). apply list_elem_of_fmap in HX as (q & -> & Hq).
    pose proof (erased_in_range _ _ _ _ q Hw Hq).
    assert (location q = location p) as Eqp; [|apply location_inj in Eqp; [subst; exact Hq|lia..]].
    transitivity (location q *' Finv (location p) *' location p); [field; apply Hnz|].
    rewrite HE. ring.
  - intros Hin. exists (location p). split; [apply list_elem_of_fmap; exists p; auto|].
    field. apply Hnz.
Qed.

Lemma decode_rs_8_restores data c :
  holds_poly data 255 D -> holds_poly c 255 C ->
  exists k, 0 <= k /\ decode_rs_8 rs data eras = (k, c).
Proof.
  intros Hdata Hc. pose proof (ok_nroots Hok). pose proof (erased_count _ _ _ _ Hw).
  destruct (syndromes_spec data D Hdata) as [Hsl Hs].
  assert (holds_poly (syndromes rs data) n (synd Xs (weight E))) as Hsyn.
  { split; [exact Hsl|]. intros i Hi. rewrite Hs by exact Hi. f_equal.
    apply (syndrome_of_errors eras D C E); [exact Hw|lia]. }
  unfold decode_rs_8. destruct (forallb (fun v => v =? 0) (syndromes rs data)) eqn:Ez.
  - exists 0. split; [lia|]. f_equal. apply (corrected_is data); [exact Hdata|exact Hc|].
    split; [apply Hdata|]. intros i. rewrite (zero_syndromes_no_error i).
    + rewrite Z.lxor_0_r. destruct (bool_decide _); reflexivity.
    + intros k Hk. apply fval_0. rewrite forallb_forall in Ez.
      rewrite <- (Nat2Z.id k), <- (proj2 Hsyn (Z.of_nat k)) by lia.
      apply Z.eqb_eq, Ez, list_elem_of_In, vget_in_range_elem. lia.
  - assert (0 < d) as Hd.
    { destruct (decide (0 < d)) as [|Hd]; [assumption|exfalso]. apply not_true_iff_false in Ez.
      apply Ez, forallb_forall. intros v Hv. apply list_elem_of_In, list_elem_of_lookup in Hv as [k Hk].
      pose proof (lookup_lt_Some _ _ _ Hk). specialize (Hs (Z.of_nat k) ltac:(lia)).
      unfold vget in Hs. destruct (Z.ltb_spec (Z.of_nat k) 0); [lia|].
      rewrite Nat2Z.id, nth_lookup, Hk in Hs. change (default 0 (Some v)) with v in Hs. rewrite Hs.
      rewrite (syndrome_of_errors eras D C E) by (auto; lia).
      assert (eras = []) as -> by (destruct eras; [reflexivity|cbn in Hd; lia]). reflexivity. }
    pose proof (erased_range _ _ _ _ Hw) as Hrange.
    pose proof (map_index_spec _ _ _ Hsyn) as Hsi.
    pose proof (erasure_locator_spec eras Hrange ltac:(lia)) as Hloc.
    pose proof (map_index_spec _ _ _ Hloc) as Hli.
    rewrite (berlekamp_massey_spec _ _ (synd Xs (weight E)) (Lam Xs)); [|exact Hsi|exact Hloc|lia|].
    2: { intros r Hr. apply no_discrepancy; [apply (locations_nodup _ _ _ _ Hw)|].
         rewrite length_map. lia. }
    assert (Z.of_nat (length (erased_below eras 255)) = d) as Hcount.
    { rewrite (Permutation_length (erased_below_perm eras (erased_nodup _ _ _ _ Hw) Hrange)).
      reflexivity. }
    rewrite (degree_spec _ (Lam Xs) d Hli ltac:(lia)).
    2: { rewrite Nat2Z.id, <- (length_map location eras), Lam_top.
         apply fprod_nonzero, locations_nonzero. }
    2: { intros i Hi. apply Lam_beyond. rewrite length_map. lia. }
    destruct (chien_search_spec _ (Lam Xs) eras d ltac:(lia) (Lam_0 Xs) Hli locator_root Hcount)
      as [Hlocs Hroots].
    rewrite Hlocs, Hroots, length_map, Hcount, Z.eqb_refl. cbn [negb].
    exists d. split; [lia|]. f_equal. apply (corrected_is data); [exact Hdata|exact Hc|].
    apply corrections; [|exact Hli|apply Hdata].
    apply (evaluator_spec _ _ (synd Xs (weight E)) (Lam Xs)); [exact Hsi|exact Hli|lia].
Qed.
End Corrections.
End Decoder.

(** ** The decoders of the program *)

Lemma inav_rs_ok : rs_ok inav_rs.
Proof. split; first [reflexivity|cbn; lia]. Qed.

Lemma E1B_rs_ok : rs_ok E1B_rs.
Proof. split; first [reflexivity|cbn; lia]. Qed.

Lemma E6B_rs_ok : rs_ok E6B_rs.
Proof. split; first [reflexivity|cbn; lia]. Qed.

(** The sizes of a shortened code. *)
Record rs_sizes (rs : ReedSolomon) : Prop := {
  size_info : d_info_symbols_shortened rs = 255 - d_nroots rs - d_shortening rs;
  size_block : d_data_in_block rs = 255 - d_nroots rs;
  size_data : d_data_symbols_shortened rs = 255 - d_shortening rs;
  size_shortening : 0 <= d_shortening rs < 255 - d_nroots rs
}.

Lemma inav_rs_sizes : rs_sizes inav_rs.
Proof. split; first [reflexivity|cbn; lia]. Qed.

Lemma E1B_rs_sizes : rs_sizes E1B_rs.
Proof. split; first [reflexivity|cbn; lia]. Qed.

Lemma E6B_rs_sizes : rs_sizes E6B_rs.
Proof. split; first [reflexivity|cbn; lia]. Qed.

(** The place of the symbol [j] of a shortened word in the block. *)
Definition block_place (rs : ReedSolomon) (j : Z) : Z :=
  if j <? d_info_symbols_shortened rs then j else j + d_shortening rs.

(** A shortened word with its zeros put back. *)
Definition unshorten (rs : ReedSolomon) (w : list Z) : list Z :=
  take (Z.to_nat (d_info_symbols_shortened rs)) w ++ replicate (Z.to_nat (d_shortening rs)) 0 ++
  drop (Z.to_nat (d_info_symbols_shortened rs)) w.

(** A word of the code: its polynomial has every root of the generator. *)
Record codeword (rs : ReedSolomon) (w : list Z) : Prop := {
  cw_length : Z.of_nat (length w) = d_data_symbols_shortened rs;
  cw_octets : Forall is_octet w;
  cw_zero : Forall (fun v => v = 0) (syndromes rs (unshorten rs w))
}.

Definition poly_of (l : list Z) (j : nat) : F := Fz (vget 0 l (Z.of_nat j)).

Lemma holds_poly_of l m :
  Forall is_octet l -> Z.of_nat (length l) = m -> holds_poly l m (poly_of l).
Proof.
  intros Hl Hm. split; [exact Hm|]. intros i Hi. unfold poly_of. rewrite Z2Nat.id by lia.
  symmetry. apply fval_Fz. apply Forall_vget; [exact Hl|unfold is_octet; lia].
Qed.

Section Shortened.
Context (rs : ReedSolomon).
Hypothesis (Hok : rs_ok rs) (Hsz : rs_sizes rs).
Local Abbreviation info := (Z.to_nat (d_info_symbols_shortened rs)).
Local Abbreviation size := (d_data_symbols_shortened rs).

Lemma sizes_nat :
  0 < d_info_symbols_shortened rs /\
  size = d_info_symbols_shortened rs + d_nroots rs /\
  size + d_shortening rs = 255 /\
  0 <= d_shortening rs /\ 0 < d_nroots rs /\
  (Z.to_nat (d_data_in_block rs) = info + Z.to_nat (d_shortening rs))%nat.
Proof. destruct Hsz as [H1 H2 H3 H4]. pose proof (ok_nroots rs Hok). lia. Qed.

Lemma length_unshorten w :
  Z.of_nat (length w) = size -> Z.of_nat (length (unshorten rs w)) = 255.
Proof.
  intros Hw. pose proof sizes_nat. unfold unshorten. autorewrite with cxx. lia.
Qed.

Lemma octets_unshorten w : Forall is_octet w -> Forall is_octet (unshorten rs w).
Proof.
  intros Hw. unfold unshorten. rewrite !Forall_app. split; [apply Forall_take, Hw|].
  split; [apply Forall_replicate; unfold is_octet; lia|apply Forall_drop, Hw].
Qed.

Lemma vget_unshorten w j :
  Z.of_nat (length w) = size -> 0 <= j < size ->
  vget 0 (unshorten rs w) (block_place rs j) = vget 0 w j.
Proof.
  intros Hw Hj. pose proof sizes_nat as (H1 & H2 & H3 & H4 & H5 & _). unfold unshorten, block_place, vget.
  pose proof (size_shortening rs Hsz).
  destruct (Z.ltb_spec j (d_info_symbols_shortened rs)) as [Hji|Hji].
  - destruct (Z.ltb_spec j 0); [lia|]. rewrite !nth_lookup. f_equal.
    rewrite lookup_app_l by (autorewrite with cxx; lia). apply lookup_take_lt. lia.
  - destruct (Z.ltb_spec (j + d_shortening rs) 0), (Z.ltb_spec j 0); try lia.
    rewrite !nth_lookup. f_equal.
    rewrite lookup_app_r by (autorewrite with cxx; lia).
    rewrite lookup_app_r by (autorewrite with cxx; lia). rewrite lookup_drop.
    f_equal. autorewrite with cxx. lia.
Qed.

(** Every other place of the block holds a zero of the shortening. *)
Lemma vget_unshorten_zero w i :
  Z.of_nat (length w) = size -> 0 <= i < 255 -> (forall j, 0 <= j < size -> i <> block_place rs j) ->
  vget 0 (unshorten rs w) i = 0.
Proof.
  intros Hw Hi Hne. pose proof sizes_nat as (H1 & H2 & H3 & H4 & H5 & _). pose proof (size_shortening rs Hsz).
  assert (d_info_symbols_shortened rs <= i < d_info_symbols_shortened rs + d_shortening rs) as Hir.
  { destruct (decide (i < d_info_symbols_shortened rs)).
    - exfalso. apply (Hne i); [lia|]. unfold block_place.
      destruct (Z.ltb_spec i (d_info_symbols_shortened rs)); lia.
    - destruct (decide (d_info_symbols_shortened rs + d_shortening rs <= i)); [|lia].
      exfalso. apply (Hne (i - d_shortening rs)); [lia|]. unfold block_place.
      destruct (Z.ltb_spec (i - d_shortening rs) (d_info_symbols_shortened rs)); lia. }
  unfold unshorten, vget. destruct (Z.ltb_spec i 0); [lia|]. rewrite nth_lookup.
  rewrite lookup_app_r by (autorewrite with cxx; lia).
  rewrite lookup_app_l by (autorewrite with cxx; lia).
  rewrite lookup_replicate_2; [reflexivity|]. autorewrite with cxx. lia.
Qed.

Lemma shorten_unshorten w :
  Z.of_nat (length w) = size ->
  take info (unshorten rs w) ++ drop (Z.to_nat (d_data_in_block rs)) (unshorten rs w) = w.
Proof.
  intros Hw. pose proof sizes_nat as (H1 & H2 & H3 & H4 & H5 & ->). pose proof (ok_nroots rs Hok).
  unfold unshorten.
  rewrite take_app_le by (autorewrite with cxx; lia). rewrite take_take, Nat.min_id.
  rewrite drop_app_ge by (autorewrite with cxx; lia).
  rewrite drop_app_ge by (autorewrite with cxx; lia).
  rewrite drop_drop.
  match goal with |- _ ++ drop ?m w = _ =>
    assert (m = info) as -> by (autorewrite with cxx; lia) end.
  apply take_drop.
Qed.

(** The block of the received word, decoded. *)
Lemma decode_block_restores c received eras :
  codeword rs c -> Z.of_nat (length received) = size -> Forall is_octet received ->
  NoDup eras -> Forall (fun p => 0 <= p < 255) eras -> Z.of_nat (length eras) <= d_nroots rs ->
  (forall j, 0 <= j < size -> block_place rs j ∉ eras -> vget 0 received j = vget 0 c j) ->
  exists k, 0 <= k /\ decode_rs_8 rs (unshorten rs received) eras = (k, unshorten rs c).
Proof.
  intros [Hcl Hco Hcz] Hrl Hro Hnd Hrange Hcount Hsame.
  set (D := poly_of (unshorten rs received)). set (C := poly_of (unshorten rs c)).
  assert (holds_poly (unshorten rs received) 255 D) as HD
    by (apply holds_poly_of; [apply octets_unshorten, Hro|apply length_unshorten, Hrl]).
  assert (holds_poly (unshorten rs c) 255 C) as HC
    by (apply holds_poly_of; [apply octets_unshorten, Hco|apply length_unshorten, Hcl]).
  set (E := fun p => if bool_decide (0 <= p < 255) then D (Z.to_nat p) +' C (Z.to_nat p) else F0).
  apply (decode_rs_8_restores rs Hok eras D C E); [|exact HD|exact HC].
  split; [exact Hnd|exact Hrange|exact Hcount| | |].
  - intros i Hi. destruct (syndromes_spec rs Hok _ C HC) as [Hl Hs]. specialize (Hs i Hi).
    rewrite Z2Nat.id in Hs by lia. apply fval_0. rewrite <- Hs. rewrite Forall_forall in Hcz.
    apply Hcz, vget_in_range_elem. lia.
  - intros j Hj. unfold E. rewrite bool_decide_eq_true_2 by exact Hj.
    transitivity (D (Z.to_nat j) +' (C (Z.to_nat j) +' C (Z.to_nat j))); [rewrite Fadd_self; ring|ring].
  - intros p Hp. unfold E. destruct (bool_decide_reflect (0 <= p < 255)) as [Hr|]; [|reflexivity].
    assert (D (Z.to_nat p) = C (Z.to_nat p)) as ->; [|apply Fadd_self].
    unfold D, C, poly_of. rewrite Z2Nat.id by lia. f_equal.
    destruct (decide (Exists (fun j => p = block_place rs j) (seqZ 0 size))) as [He|He].
    + apply Exists_exists in He as (j & Hj & ->). apply elem_of_seqZ in Hj.
      rewrite !vget_unshorten by (auto; lia). apply Hsame; [lia|exact Hp].
    + rewrite !vget_unshorten_zero; auto; intros j Hj Ej; apply He, Exists_exists; exists j;
        (split; [apply elem_of_seqZ; lia|exact Ej]).
Qed.

Lemma unshorten_full w : d_shortening rs = 0 -> unshorten rs w = w.
Proof. intros H. unfold unshorten. rewrite H. apply take_drop. Qed.

Lemma decode_restores c received eras :
  codeword rs c -> Z.of_nat (length received) = size -> Forall is_octet received ->
  NoDup eras -> Forall (fun p => 0 <= p < 255) eras -> Z.of_nat (length eras) <= d_nroots rs ->
  (forall j, 0 <= j < size -> block_place rs j ∉ eras -> vget 0 received j = vget 0 c j) ->
  exists k, 0 <= k /\ decode rs received eras = (k, c).
Proof.
  intros Hc Hrl Hro Hnd Hrange Hcount Hsame.
  destruct (decode_block_restores c received eras) as (k & Hk & Hd); try assumption.
  pose proof sizes_nat as (H1 & H2 & H3 & H4 & H5 & H6).
  exists k. split; [exact Hk|]. unfold decode.
  destruct (Z.ltb_spec (d_nroots rs) (Z.of_nat (length eras))); [lia|].
  rewrite Hrl, Z.eqb_refl. cbn [negb andb].
  destruct (Z.eqb_spec (d_shortening rs) 0) as [E0|E0].
  - cbn [orb]. rewrite !unshorten_full in Hd by exact E0. exact Hd.
  - assert ((size =? d_symbols_per_block) = false) as ->
      by (apply Z.eqb_neq; unfold d_symbols_per_block; lia).
    cbn [orb]. replace (Z.to_nat (d_data_in_block rs) - info)%nat with (Z.to_nat (d_shortening rs)) by lia.
    fold (unshorten rs received). rewrite Hd. rewrite (proj2 (Z.leb_le 0 k)) by exact Hk.
    rewrite shorten_unshorten by apply Hc. reflexivity.
Qed.
End Shortened.

(** The objects that the program makes: the I/NAV decoder's, and the two of the
    default constructor. *)
Definition program_codes : list ReedSolomon := [inav_rs; E1B_rs; E6B_rs].

Lemma program_codes_ok rs : rs ∈ program_codes -> rs_ok rs /\ rs_sizes rs.
Proof.
  unfold program_codes. rewrite !elem_of_cons. intros [->|[->|[->|H]]]; [..|inversion H].
  - split; [apply inav_rs_ok|apply inav_rs_sizes].
  - split; [apply E1B_rs_ok|apply E1B_rs_sizes].
  - split; [apply E6B_rs_ok|apply E6B_rs_sizes].
Qed.

(** C3: The decoder restores erasures: whenever a word of octets agrees with a
    code word outside at most [nroots] distinct erased places of the block (60
    for the I/NAV ephemeris code, 223 for HAS), [decode] answers with a
    non-negative count and leaves exactly that code word, whatever the erased
    octets hold. *)
Theorem decode_restores_erasures (rs : ReedSolomon) (c received eras : list Z) :
  rs ∈ program_codes -> codeword rs c ->
  Z.of_nat (length received) = d_data_symbols_shortened rs -> Forall is_octet received ->
  NoDup eras -> Forall (fun p => 0 <= p < 255) eras -> Z.of_nat (length eras) <= d_nroots rs ->
  (forall j, 0 <= j < d_data_symbols_shortened rs -> block_place rs j ∉ eras ->
     vget 0 received j = vget 0 c j) ->
  exists k, 0 <= k /\ decode rs received eras = (k, c).
Proof.
  intros Hrs. destruct (program_codes_ok rs Hrs) as [Hok Hsz]. apply decode_restores; assumption.
Qed.

(** A code word of the E1B code, and the word received: the first 60 octets are
    lost. *)
Definition sample_sent_word : list Z :=
  Eval vm_compute in encode_with_generator_matrix E1B_rs (seqZ 1 58).
Definition sample_lost_word : list Z := replicate 60 9 ++ drop 60 sample_sent_word.
(** Their places in the block. *)
Definition sample_lost_places : list Z := map (block_place E1B_rs) (seqZ 0 60).

Lemma sample_sent_codeword : codeword E1B_rs sample_sent_word.
Proof.
  split; [reflexivity| |].
  - apply (bool_decide_eq_true_1 (Forall (fun v => 0 <= v < 256) sample_sent_word)).
    vm_compute. reflexivity.
  - apply (bool_decide_eq_true_1 (Forall (fun v => v = 0)
      (syndromes E1B_rs (unshorten E1B_rs sample_sent_word)))).
    vm_compute. reflexivity.
Qed.

Lemma decode_restores_erasures_witness :
  exists k, 0 <= k /\ decode E1B_rs sample_lost_word sample_lost_places = (k, sample_sent_word).
Proof.
  apply decode_restores_erasures.
  - right. left.
  - exact sample_sent_codeword.
  - reflexivity.
  - apply (bool_decide_eq_true_1 (Forall (fun v => 0 <= v < 256) sample_lost_word)).
    vm_compute. reflexivity.
  - apply (bool_decide_eq_true_1 (NoDup sample_lost_places)). vm_compute. reflexivity.
  - apply (bool_decide_eq_true_1 (Forall (fun p => 0 <= p < 255) sample_lost_places)).
    vm_compute. reflexivity.
  - vm_compute. discriminate.
  - intros j Hj Hnot. destruct (decide (j < 60)) as [Hlt|Hge].
    + exfalso. apply Hnot, list_elem_of_fmap. exists j. split; [reflexivity|].
      apply elem_of_seqZ. lia.
    + unfold sample_lost_word, vget. destruct (Z.ltb_spec j 0); [lia|].
      rewrite !nth_lookup, lookup_app_r by (rewrite length_replicate; lia).
      rewrite length_replicate, lookup_drop. do 2 f_equal. lia.
Defined.

(** ** What every call keeps *)

Section Shape.
Context (rs : ReedSolomon).
Hypothesis Hok : rs_ok rs.

Lemma lxor_alpha_octet v k : is_octet v -> is_octet (Z.lxor v (vget 0 (d_alpha_to rs) k)).
Proof.
  intros Hv. apply lxor_byte; [exact Hv|]. rewrite (ok_alpha rs Hok).
  apply (Forall_vget is_octet); [|unfold is_octet; lia].
  apply Forall_forall. intros a Ha. apply is_byte_spec.
  apply (proj1 (forallb_forall is_byte alpha_table)); [vm_compute; reflexivity|].
  apply list_elem_of_In, Ha.
Qed.

Lemma correct_shape omega lambda dl dom root loc data :
  Forall is_octet data ->
  length (correct rs omega lambda dl dom root loc data) = length data /\
  Forall is_octet (correct rs omega lambda dl dom root loc data).
Proof.
  intros Hd. unfold correct. cbv zeta. destruct (_ && _); [|auto].
  rewrite length_vset. split; [reflexivity|]. apply Forall_vset; [exact Hd|].
  apply lxor_alpha_octet, Forall_vget; [exact Hd|unfold is_octet; lia].
Qed.

Lemma decode_rs_8_shape data eras :
  Forall is_octet data ->
  length (decode_rs_8 rs data eras).2 = length data /\ Forall is_octet (decode_rs_8 rs data eras).2.
Proof.
  intros Hd. unfold decode_rs_8. cbv zeta. destruct (forallb _ _); [auto|].
  destruct (negb _); [auto|]. cbn [snd].
  apply (for_range_inv (fun r => length r = length data /\ Forall is_octet r)); [auto|].
  intros m r _ [Hl Hr]. rewrite <- Hl. apply correct_shape, Hr.
Qed.

Lemma decode_shape data eras :
  rs_sizes rs -> Forall is_octet data ->
  length (decode rs data eras).2 = length data /\ Forall is_octet (decode rs data eras).2.
Proof.
  intros Hsz Hd. unfold decode. destruct (_ <? _); [auto|]. cbv zeta.
  destruct (negb _ && negb _) eqn:Es; [auto|].
  destruct ((d_shortening rs =? 0) || _) eqn:Ef; [apply decode_rs_8_shape, Hd|].
  apply orb_false_iff in Ef as [Ef1 Ef2]. rewrite Ef2 in Es. cbn [negb] in Es.
  rewrite andb_true_r in Es. apply negb_false_iff, Z.eqb_eq in Es.
  destruct (sizes_nat rs Hok Hsz) as (H1 & H2 & H3 & H4 & H5 & H6).
  replace (Z.to_nat (d_data_in_block rs) - Z.to_nat (d_info_symbols_shortened rs))%nat
    with (Z.to_nat (d_shortening rs)) by lia.
  fold (unshorten rs data).
  pose proof (length_unshorten rs Hok Hsz data Es) as Hl.
  destruct (decode_rs_8_shape _ eras (octets_unshorten rs data Hd)) as [Hl' Ho'].
  destruct (decode_rs_8 rs (unshorten rs data) eras) as [r out]. cbn [snd] in *.
  destruct (0 <=? r); [|auto]. rewrite Forall_app. split.
  - autorewrite with cxx. lia.
  - split; [apply Forall_take, Ho'|apply Forall_drop, Ho'].
Qed.
End Shape.

(** A call that cannot be answered leaves the data alone: with more erasures
    than the code has roots, or with data that are neither a shortened word nor
    a whole block, [decode] returns -1; and a word without errors is returned
    as it is, with the count 0, whatever positions are given as erased. *)
Theorem decode_unanswered (rs : ReedSolomon) (data eras : list Z) :
  rs ∈ program_codes ->
  (d_nroots rs < Z.of_nat (length eras) -> decode rs data eras = (-1, data)) /\
  (Z.of_nat (length data) <> d_data_symbols_shortened rs -> length data <> 255%nat ->
     decode rs data eras = (-1, data)) /\
  (codeword rs data -> Z.of_nat (length eras) <= d_nroots rs -> decode rs data eras = (0, data)).
Proof.
  intros Hrs. destruct (program_codes_ok rs Hrs) as [Hok Hsz]. split; [|split].
  - intros H. unfold decode. destruct (Z.ltb_spec (d_nroots rs) (Z.of_nat (length eras))); [|lia].
    reflexivity.
  - intros H1 H2. unfold decode. destruct (_ <? _); [reflexivity|].
    rewrite (proj2 (Z.eqb_neq _ _) H1).
    rewrite (proj2 (Z.eqb_neq (Z.of_nat (length data)) d_symbols_per_block))
      by (unfold d_symbols_per_block; lia). reflexivity.
  - intros [Hl Ho Hz] He. destruct (sizes_nat rs Hok Hsz) as (H1 & H2 & H3 & H4 & H5 & H6).
    assert (decode_rs_8 rs (unshorten rs data) eras = (0, unshorten rs data)) as Hd.
    { unfold decode_rs_8. assert (forallb (fun v => v =? 0) (syndromes rs (unshorten rs data)) = true)
        as ->; [|reflexivity].
      apply forallb_forall. intros v Hv. apply Z.eqb_eq. rewrite Forall_forall in Hz.
      apply Hz, list_elem_of_In, Hv. }
    unfold decode. destruct (Z.ltb_spec (d_nroots rs) (Z.of_nat (length eras))); [lia|].
    rewrite Hl, Z.eqb_refl. cbn [negb andb].
    destruct (Z.eqb_spec (d_shortening rs) 0) as [E0|E0].
    + cbn [orb]. rewrite unshorten_full in Hd by exact E0. exact Hd.
    + rewrite (proj2 (Z.eqb_neq (d_data_symbols_shortened rs) d_symbols_per_block))
        by (unfold d_symbols_per_block; lia).
      cbn [orb].
      replace (Z.to_nat (d_data_in_block rs) - Z.to_nat (d_info_symbols_shortened rs))%nat
        with (Z.to_nat (d_shortening rs)) by lia.
      fold (unshorten rs data). rewrite Hd. cbn [Z.leb Z.compare].
      rewrite shorten_unshorten by assumption. reflexivity.
Qed.

Lemma decode_unanswered_witness :
  decode E1B_rs [1; 2; 3] [] = (-1, [1; 2; 3]) /\
  decode E1B_rs sample_sent_word [7; 8] = (0, sample_sent_word).
Proof.
  split.
  - apply (decode_unanswered E1B_rs [1; 2; 3] []); [right; left|discriminate|discriminate].
  - apply (decode_unanswered E1B_rs sample_sent_word [7; 8]);
      [right; left|exact sample_sent_codeword|vm_compute; discriminate].
Defined.
