(* ===== verification/ReedSolomonEncode.v ===== *)
(** * ReedSolomonEncode: the encoder makes code words

    The shift register of [encode_rs_8] divides by the generator polynomial: the
    parity it leaves makes every root of the generator a root of the word, so
    that encoding, losing up to [nroots] symbols and decoding gives the word
    back. *)

From S2P Require Import Prelude Cstring InavMessage ReedSolomonTables ReedSolomon GF256 RSAlgebra ReedSolomonProofs.
From stdpp Require Import list.
From Stdlib Require Import ZArith Lia Field.
Local Open Scope Z_scope.

(** ** The generator polynomial *)

Definition horner (r : Z) (l : list Z) : Z := fold_right (fun g acc => Z.lxor g (tmul r acc)) 0 l.

Lemma horner_spec (r : F) l :
  Forall is_octet l ->
  horner (fval r) l = fval (feval (length l) (poly_of l) r).
Proof.
  induction 1 as [|g l Hg Hl IH]; [reflexivity|]. cbn [horner fold_right length].
  change (fold_right _ 0 l) with (horner (fval r) l). rewrite IH. unfold feval. rewrite fsum_first.
  rewrite <- (fval_Fz g) at 1 by exact Hg.
  change (tmul (fval r) (fval ?x)) with (fval (r *' x)).
  change (Z.lxor (fval ?x) (fval ?y)) with (fval (x +' y)). f_equal. f_equal.
  - change (poly_of (g :: l) 0) with (Fz g). change (fpow r 0) with F1. ring.
  - rewrite <- fsum_mul. apply fsum_ext. intros i Hi.
    assert (poly_of (g :: l) (S i) = poly_of l i) as ->.
    { unfold poly_of, vget. destruct (Z.ltb_spec (Z.of_nat (S i)) 0), (Z.ltb_spec (Z.of_nat i) 0); try lia.
      rewrite !Nat2Z.id. reflexivity. }
    cbn [fpow]. ring.
Qed.

(** [g] is the polynomial in [d_genpoly_index], and it has the roots of the
    code. *)
Record generator (rs : ReedSolomon) (g : nat -> F) : Prop := {
  gen_index : holds_index (d_genpoly_index rs) (d_nroots rs + 1) g;
  gen_nonzero : forall k, 0 <= k <= d_nroots rs -> g (Z.to_nat k) <> F0;
  gen_roots : forall i, 0 <= i < d_nroots rs ->
    feval (S (Z.to_nat (d_nroots rs))) g (Fexp (d_fcr rs + i)) = F0
}.

Definition generator_checked (rs : ReedSolomon) (coeff : list Z) : bool :=
  (Z.of_nat (length coeff) =? d_nroots rs + 1) && (0 <? d_nroots rs) && forallb is_byte coeff &&
  bool_decide (d_genpoly_index rs = map (vget 0 index_table) coeff) &&
  forallb (fun v => negb (v =? 0)) coeff &&
  forallb (fun i => horner (apow ((d_fcr rs + i) mod 255)) coeff =? 0) (seqZ 0 (d_nroots rs)).

Lemma generator_of_check rs coeff :
  generator_checked rs coeff = true -> generator rs (poly_of coeff).
Proof.
  unfold generator_checked. rewrite !andb_true_iff, Z.eqb_eq, Z.ltb_lt, bool_decide_eq_true,
    !forallb_forall.
  intros [[[[[Hl Hn] Ho] Hi] Hlead] Hr].
  assert (Forall is_octet coeff) as Hoct.
  { apply Forall_forall. intros v Hv. apply is_byte_spec, Ho, list_elem_of_In, Hv. }
  pose proof (holds_poly_of coeff _ Hoct eq_refl) as [_ Hp].
  split.
  - rewrite Hi. split; [rewrite length_map; exact Hl|]. intros i Hir. rewrite vget_map, Hp by lia.
    apply index_table_spec.
  - intros k Hk E. pose proof (Hp k ltac:(lia)) as Hv. rewrite E in Hv.
    assert (vget 0 coeff k ∈ coeff) as Hin by (apply vget_in_range_elem; lia).
    apply list_elem_of_In in Hin. specialize (Hlead _ Hin). rewrite Hv in Hlead. discriminate Hlead.
  - intros i Hir. apply fval_0.
    replace (S (Z.to_nat (d_nroots rs))) with (length coeff) by lia.
    rewrite <- horner_spec by exact Hoct. apply Z.eqb_eq. apply (Hr i).
    apply list_elem_of_In, elem_of_seqZ. lia.
Qed.

Lemma E1B_generator : generator E1B_rs (poly_of E1B_genpoly_coeff).
Proof. apply generator_of_check. vm_compute. reflexivity. Qed.

Lemma E6B_generator : generator E6B_rs (poly_of E6B_genpoly_coeff).
Proof. apply generator_of_check. vm_compute. reflexivity. Qed.

(** ** The shift register *)

Lemma idx_exp k : idx (Fexp k) = k mod 255.
Proof. destruct (idx_log (Fexp k) (Fexp_nonzero k)) as (-> & _). apply Flog_exp. Qed.

Lemma idx_div x y :
  x <> F0 -> y <> F0 -> mod255 (255 - idx y + idx x) = idx (x *' Finv y).
Proof.
  intros Hx Hy. destruct (idx_log x Hx) as (_ & Rx & Ex), (idx_log y Hy) as (_ & Ry & Ey).
  rewrite mod255_spec by lia. rewrite <- idx_exp. f_equal.
  transitivity (Fexp (255 - idx y + idx x) *' y *' Finv y); [field; exact Hy|]. f_equal.
  rewrite <- Ey at 2. rewrite <- Ex at 2. rewrite Fexp_add.
  replace (255 - idx y + idx x + idx y) with (idx x + 255 * 1) by lia. apply Fexp_255.
Qed.

Lemma shift_parity_spec parity m :
  0 <= m < Z.of_nat (length parity) ->
  length (shift_parity parity m) = length parity /\
  forall i, vget 0 (shift_parity parity m) i =
    if (0 <=? i) && (i <? m) then vget 0 parity (i + 1) else vget 0 parity i.
Proof.
  intros Hm. unfold shift_parity.
  apply (for_range_ind (fun k p => length p = length parity /\ forall i, vget 0 p i =
    if (0 <=? i) && (i <? k) then vget 0 parity (i + 1) else vget 0 parity i)); [lia| |].
  - split; [reflexivity|]. intros i. destruct (Z.leb_spec 0 i), (Z.ltb_spec i 0); (lia || reflexivity).
  - intros k p Hk [Hl Hp]. rewrite length_vset. split; [exact Hl|]. intros i.
    destruct (decide (i = k)) as [->|Hne].
    + rewrite vget_vset_eq by (unfold in_range; lia).
      rewrite (proj2 (Z.leb_le 0 k)), (proj2 (Z.ltb_lt k (k + 1))) by lia. reflexivity.
    + rewrite vget_vset_ne, Hp by auto.
      destruct (Z.leb_spec 0 i), (Z.ltb_spec i k), (Z.ltb_spec i (k + 1)); cbn [andb]; (lia || reflexivity).
Qed.

Section Register.
Context (rs : ReedSolomon) (g : nat -> F).
Hypothesis (Hok : rs_ok rs) (Hgen : generator rs g).
Local Abbreviation n := (d_nroots rs).
Local Abbreviation n' := (Z.to_nat (d_nroots rs)).

(** The feedback, and the register after a symbol. *)
Definition feedback_of (P : nat -> F) (d : F) : F := (d +' P 0%nat) *' Finv (g n').
Definition next_register (P : nat -> F) (d : F) (j : nat) : F :=
  (if S j =? n' then F0 else P (S j))%nat +' feedback_of P d *' g (n' - 1 - j)%nat.

(** One turn of the loop of [encode_rs_8]. *)
Definition register_step (d : Z) (parity : list Z) : list Z :=
  let feedback := vget 0 (d_index_of rs) (Z.lxor d (vget 0 parity 0)) in
  let '(feedback, parity) :=
    if feedback =? d_a0 rs then (feedback, parity) else
    let feedback := mod255 (d_symbols_per_block - vget 0 (d_genpoly_index rs) n + feedback) in
    (feedback,
     for_range 1 n
       (fun j p => vset p j (Z.lxor (vget 0 p j) (vget 0 (d_alpha_to rs)
          (mod255 (feedback + vget 0 (d_genpoly_index rs) (n - j)))))) parity) in
  let parity := shift_parity parity (n - 1) in
  vset parity (n - 1)
    (if feedback =? d_a0 rs then 0
     else vget 0 (d_alpha_to rs) (mod255 (feedback + vget 0 (d_genpoly_index rs) 0))).

Lemma encode_rs_8_steps data parity :
  encode_rs_8 rs data parity =
  for_range 0 (d_symbols_per_block - n - d_pad rs)
    (fun i parity => register_step (vget 0 data i) parity) parity.
Proof. reflexivity. Qed.

Lemma register_step_spec parity P d :
  holds_poly parity n P -> holds_poly (register_step (fval d) parity) n (next_register P d).
Proof.
  intros [Hl HP]. pose proof (ok_nroots rs Hok). destruct (gen_index _ _ Hgen) as [_ Hgi].
  unfold register_step. rewrite (HP 0) by lia. change (Z.to_nat 0) with 0%nat.
  change (Z.lxor (fval ?x) (fval ?y)) with (fval (x +' y)).
  rewrite (ok_index rs Hok), (ok_a0 rs Hok), (ok_alpha rs Hok), index_table_spec.
  set (s := d +' P 0%nat). set (f := feedback_of P d).
  assert (g n' <> F0) as Hlead by (apply (gen_nonzero _ _ Hgen); lia).
  destruct (Z.eqb_spec (idx s) 255) as [E|E]; rewrite idx_255 in E.
  - assert (f = F0) as Hf by (unfold f, feedback_of; fold s; rewrite E; ring).
    rewrite E, idx_0. cbn [Z.eqb Pos.eqb].
    destruct (shift_parity_spec parity (n - 1) ltac:(lia)) as [Hsl Hs].
    split; [rewrite length_vset; lia|]. intros i Hi. unfold next_register. fold f. rewrite Hf.
    destruct (Nat.eqb_spec (S (Z.to_nat i)) n') as [En|En].
    + replace i with (n - 1) by lia. rewrite vget_vset_eq by (unfold in_range; lia).
      reflexivity.
    + rewrite vget_vset_ne, Hs by lia.
      rewrite (proj2 (Z.leb_le 0 i)), (proj2 (Z.ltb_lt i (n - 1))) by lia. cbn [andb].
      rewrite HP by lia. f_equal. replace (Z.to_nat (i + 1)) with (S (Z.to_nat i)) by lia. ring.
  - assert (f <> F0) as Hf.
    { unfold f, feedback_of. fold s. intros H'. apply fmul_eq_0 in H' as [H'|H']; [auto|].
      apply Hlead. transitivity (Finv (g n') *' (g n' *' g n')); [field; exact Hlead|]. rewrite H'. ring. }
    rewrite Hgi by lia. unfold d_symbols_per_block. rewrite idx_div by assumption.
    change (s *' Finv (g n')) with f.
    assert (idx f <> 255) as Hfi by (rewrite idx_255; exact Hf).
    rewrite (proj2 (Z.eqb_neq _ _) Hfi).
    assert (forall k, 0 <= k <= n -> vget 0 alpha_table (mod255 (idx f + vget 0 (d_genpoly_index rs) k)) =
      fval (f *' g (Z.to_nat k))) as Hterm.
    { intros k Hk. rewrite Hgi by lia. apply term_spec2; [exact Hf|apply (gen_nonzero _ _ Hgen), Hk]. }
    set (added := for_range 1 n _ parity).
    assert (Z.of_nat (length added) = n /\ forall i, 0 < i < n ->
      vget 0 added i = fval (P (Z.to_nat i) +' f *' g (Z.to_nat (n - i)))) as [Hal Ha].
    { assert (Z.of_nat (length added) = n /\
        (forall i, 0 < i < n -> vget 0 added i = fval (P (Z.to_nat i) +' f *' g (Z.to_nat (n - i)))) /\
        (forall i, n <= i < n -> vget 0 added i = vget 0 parity i)) as (A & B & _); [|split; assumption].
      apply (for_range_ind (fun k p => Z.of_nat (length p) = n /\
        (forall i, 0 < i < k -> vget 0 p i = fval (P (Z.to_nat i) +' f *' g (Z.to_nat (n - i)))) /\
        (forall i, k <= i < n -> vget 0 p i = vget 0 parity i))); [lia| |].
      - split; [exact Hl|]. split; [intros i Hi; lia|reflexivity].
      - intros k p Hk (Hpl & Hlow & Hhigh). rewrite length_vset. split; [exact Hpl|]. split.
        + intros i Hi. destruct (decide (i = k)) as [->|Hne].
          * rewrite vget_vset_eq by (unfold in_range; lia). rewrite Hhigh, HP, Hterm by lia. reflexivity.
          * rewrite vget_vset_ne by auto. apply Hlow. lia.
        + intros i Hi. rewrite vget_vset_ne by lia. apply Hhigh. lia. }
    destruct (shift_parity_spec added (n - 1) ltac:(lia)) as [Hsl Hs].
    split; [rewrite length_vset; lia|]. intros i Hi. unfold next_register. fold f.
    destruct (Nat.eqb_spec (S (Z.to_nat i)) n') as [En|En].
    + replace i with (n - 1) by lia. rewrite vget_vset_eq by (unfold in_range; lia).
      rewrite Hterm by lia. f_equal. replace (n' - 1 - Z.to_nat (n - 1))%nat with (Z.to_nat 0) by lia. ring.
    + rewrite vget_vset_ne, Hs by lia.
      rewrite (proj2 (Z.leb_le 0 i)), (proj2 (Z.ltb_lt i (n - 1))) by lia. cbn [andb].
      rewrite Ha by lia. f_equal. replace (Z.to_nat (i + 1)) with (S (Z.to_nat i)) by lia.
      replace (Z.to_nat (n - (i + 1))) with (n' - 1 - Z.to_nat i)%nat by lia. reflexivity.
Qed.

(** Its value at a root, after a symbol. *)
Lemma next_register_root P d i :
  0 <= i < n ->
  root_value rs (next_register P d) n' i =
  Fexp (d_fcr rs + i) *' root_value rs P n' i +' d *' Fexp ((d_fcr rs + i) * n).
Proof.
  intros Hi. pose proof (ok_nroots rs Hok). set (r := d_fcr rs + i). set (f := feedback_of P d).
  assert (g n' <> F0) as Hlead by (apply (gen_nonzero _ _ Hgen); lia).
  (* f times the generator is 0 at the root *)
  assert (fsum n' (fun j => f *' g (n' - 1 - j)%nat *' Fexp (r * (Z.of_nat n' - 1 - Z.of_nat j))) =
          (d +' P 0%nat) *' Fexp (r * n)) as Hg.
  { rewrite <- fsum_rev.
    transitivity (f *' fsum n' (fun j => g j *' fpow (Fexp r) j)).
    { rewrite <- fsum_mul. apply fsum_ext. intros j Hj. rewrite fpow_Fexp.
      replace (n' - 1 - (n' - 1 - j))%nat with j by lia.
      replace (Z.of_nat n' - 1 - Z.of_nat (n' - 1 - j)) with (Z.of_nat j) by lia. ring. }
    assert (fsum n' (fun j => g j *' fpow (Fexp r) j) = g n' *' fpow (Fexp r) n') as ->.
    { apply fadd_eq_0. exact (gen_roots _ _ Hgen i Hi). }
    unfold f, feedback_of. rewrite fpow_Fexp, Z2Nat.id by lia. field. exact Hlead. }
  unfold root_value. fold r.
  transitivity (fsum n' (fun j => (if S j =? n' then F0 else P (S j))%nat *'
      Fexp (r * (Z.of_nat n' - 1 - Z.of_nat j))) +' (d +' P 0%nat) *' Fexp (r * n)).
  { rewrite <- Hg, <- fsum_add. apply fsum_ext. intros j _. unfold next_register. fold f. ring. }
  (* the shift multiplies by the root and drops the first symbol *)
  assert (fsum n' (fun j => (if S j =? n' then F0 else P (S j))%nat *'
      Fexp (r * (Z.of_nat n' - 1 - Z.of_nat j))) +' P 0%nat *' Fexp (r * n) =
    Fexp r *' fsum n' (fun j => P j *' Fexp (r * (Z.of_nat n' - 1 - Z.of_nat j)))) as Hs.
  { rewrite <- fsum_mul. destruct n' as [|m] eqn:En; [lia|].
    rewrite (fsum_first m (fun j => Fexp r *' _)). cbn [fsum]. rewrite Nat.eqb_refl.
    rewrite Fadd_comm. f_equal.
    - transitivity (P 0%nat *' (Fexp r *' Fexp (r * (Z.of_nat (S m) - 1 - Z.of_nat 0)))); [|ring].
      rewrite Fexp_add. do 2 f_equal. lia.
    - transitivity (fsum m (fun j => (if S j =? S m then F0 else P (S j))%nat *'
        Fexp (r * (Z.of_nat (S m) - 1 - Z.of_nat j)))); [ring|]. apply fsum_ext. intros j Hj.
      rewrite (proj2 (Nat.eqb_neq (S j) (S m))) by lia.
      transitivity (P (S j) *' (Fexp r *' Fexp (r * (Z.of_nat (S m) - 1 - Z.of_nat (S j))))); [|ring].
      rewrite Fexp_add. do 2 f_equal. lia. }
  transitivity ((fsum n' (fun j => (if S j =? n' then F0 else P (S j))%nat *'
      Fexp (r * (Z.of_nat n' - 1 - Z.of_nat j))) +' P 0%nat *' Fexp (r * n)) +' d *' Fexp (r * n)); [ring|].
  rewrite Hs. reflexivity.
Qed.

(** The parity of a whole block of data. *)
Lemma encode_rs_8_root data Df :
  (forall i, 0 <= i < 255 - n -> vget 0 data i = fval (Df (Z.to_nat i))) ->
  exists P, holds_poly (encode_rs_8 rs data (replicate n' 0)) n P /\
    forall i, 0 <= i < n ->
      root_value rs P n' i = Fexp ((d_fcr rs + i) * n) *' root_value rs Df (Z.to_nat (255 - n)) i.
Proof.
  intros Hdata. pose proof (ok_nroots rs Hok). rewrite encode_rs_8_steps, (ok_pad rs Hok).
  unfold d_symbols_per_block. rewrite Z.sub_0_r.
  apply (for_range_ind (fun k parity => exists P, holds_poly parity n P /\ forall i, 0 <= i < n ->
    root_value rs P n' i = Fexp ((d_fcr rs + i) * n) *' root_value rs Df (Z.to_nat k) i)); [lia| |].
  - exists (fun _ => F0). split.
    + split; [autorewrite with cxx; lia|]. intros i Hi. unfold vget. destruct (Z.ltb_spec i 0); [lia|].
      rewrite nth_lookup, lookup_replicate_2 by lia. reflexivity.
    + intros i Hi. unfold root_value at 1. rewrite fsum_0 by (intros; ring).
      change (root_value rs Df (Z.to_nat 0) i) with F0. ring.
  - intros k parity Hk (P & HP & Hroot). rewrite Hdata by lia.
    exists (next_register P (Df (Z.to_nat k))). split; [apply register_step_spec, HP|].
    intros i Hi. rewrite next_register_root, Hroot by exact Hi.
    replace (Z.to_nat (k + 1)) with (S (Z.to_nat k)) by lia. rewrite root_value_S. ring.
Qed.
End Register.

(** ** Encoded words *)

Section Encode.
Context (rs : ReedSolomon) (g : nat -> F).
Hypothesis (Hok : rs_ok rs) (Hsz : rs_sizes rs) (Hgen : generator rs g).
Local Abbreviation n := (d_nroots rs).
Local Abbreviation info := (d_info_symbols_shortened rs).

Definition padded (data : list Z) : list Z := data ++ replicate (Z.to_nat (d_shortening rs)) 0.
Definition parity_of (data : list Z) : list Z :=
  encode_rs_8 rs (padded data) (replicate (Z.to_nat n) 0).

Lemma encode_systematic data :
  Z.of_nat (length data) = info -> encode_with_generator_poly rs data = data ++ parity_of data.
Proof.
  intros Hl. unfold encode_with_generator_poly, parity_of, padded. rewrite Hl, Z.eqb_refl. cbn [negb].
  destruct (Z.eqb_spec (d_shortening rs) 0) as [E|E]; [|reflexivity].
  rewrite E. change (replicate (Z.to_nat 0) 0) with (@nil Z). rewrite app_nil_r. reflexivity.
Qed.

Lemma root_value_app (Df P : nat -> F) (K m : nat) i :
  root_value rs (fun j => if (j <? K)%nat then Df j else P (j - K)%nat) (K + m) i =
  Fexp ((d_fcr rs + i) * Z.of_nat m) *' root_value rs Df K i +' root_value rs P m i.
Proof.
  induction m as [|m IH].
  - rewrite Nat.add_0_r, Z.mul_0_r, Fexp_0. change (root_value rs P 0 i) with F0.
    assert (root_value rs (fun j => if (j <? K)%nat then Df j else P (j - K)%nat) K i =
      root_value rs Df K i) as ->; [|ring].
    apply fsum_ext. intros j Hj. rewrite (proj2 (Nat.ltb_lt j K)) by exact Hj. reflexivity.
  - rewrite Nat.add_succ_r, !root_value_S, IH. rewrite (proj2 (Nat.ltb_ge (K + m) K)) by lia.
    replace (K + m - K)%nat with m by lia.
    replace ((d_fcr rs + i) * Z.of_nat (S m)) with ((d_fcr rs + i) + (d_fcr rs + i) * Z.of_nat m) by lia.
    rewrite <- (Fexp_add (d_fcr rs + i)). ring.
Qed.

Lemma octets_of_poly l m P : holds_poly l m P -> Forall is_octet l.
Proof.
  intros [Hl HP]. apply Forall_forall. intros v Hv. apply list_elem_of_lookup in Hv as [k Hk].
  pose proof (lookup_lt_Some _ _ _ Hk). specialize (HP (Z.of_nat k) ltac:(lia)).
  unfold vget in HP. destruct (Z.ltb_spec (Z.of_nat k) 0); [lia|].
  rewrite Nat2Z.id, nth_lookup, Hk in HP. change (default 0 (Some v)) with v in HP. rewrite HP.
  apply fval_range.
Qed.

Lemma encode_codeword data :
  Z.of_nat (length data) = info -> Forall is_octet data ->
  codeword rs (encode_with_generator_poly rs data).
Proof.
  intros Hl Ho. pose proof (ok_nroots rs Hok). destruct (sizes_nat rs Hok Hsz) as (H1 & H2 & H3 & H4 & H5 & H6).
  rewrite encode_systematic by exact Hl.
  assert (Z.of_nat (length (padded data)) = 255 - n) as Hpl
    by (unfold padded; autorewrite with cxx; lia).
  assert (Forall is_octet (padded data)) as Hpo.
  { apply Forall_app. split; [exact Ho|apply Forall_replicate; unfold is_octet; lia]. }
  destruct (holds_poly_of (padded data) (255 - n) Hpo Hpl) as [_ Hp].
  destruct (encode_rs_8_root rs g Hok Hgen (padded data) (poly_of (padded data)) Hp) as (P & HP & Hroot).
  fold (parity_of data) in HP. pose proof (proj1 HP) as Hparl.
  assert (unshorten rs (data ++ parity_of data) = padded data ++ parity_of data) as Hun.
  { unfold unshorten, padded. rewrite take_app_length' by lia. rewrite drop_app_length' by lia.
    apply app_assoc. }
  split.
  - rewrite length_app. lia.
  - apply Forall_app. split; [exact Ho|apply (octets_of_poly _ _ _ HP)].
  - rewrite Hun. set (K := Z.to_nat (255 - n)).
    assert (holds_poly (padded data ++ parity_of data) 255
      (fun j => if (j <? K)%nat then poly_of (padded data) j else P (j - K)%nat)) as Hall.
    { split; [rewrite length_app; lia|]. intros i Hi. unfold vget. destruct (Z.ltb_spec i 0); [lia|].
      rewrite nth_lookup. destruct (Nat.ltb_spec (Z.to_nat i) K).
      - rewrite lookup_app_l by lia. rewrite <- Hp by lia. unfold vget.
        destruct (Z.ltb_spec i 0); [lia|]. rewrite nth_lookup. reflexivity.
      - rewrite lookup_app_r by lia.
        replace (Z.to_nat i - K)%nat with (Z.to_nat (i - (255 - n))) by lia.
        rewrite <- (proj2 HP (i - (255 - n))) by lia. unfold vget.
        destruct (Z.ltb_spec (i - (255 - n)) 0); [lia|]. rewrite nth_lookup. do 2 f_equal. lia. }
    destruct (syndromes_spec rs Hok _ _ Hall) as [Hsl Hs].
    apply Forall_forall. intros v Hv. apply list_elem_of_lookup in Hv as [k Hk].
    pose proof (lookup_lt_Some _ _ _ Hk). specialize (Hs (Z.of_nat k) ltac:(lia)).
    unfold vget in Hs. destruct (Z.ltb_spec (Z.of_nat k) 0); [lia|].
    rewrite Nat2Z.id, nth_lookup, Hk in Hs. change (default 0 (Some v)) with v in Hs. rewrite Hs.
    apply fval_0. change 255%nat with (Z.to_nat 255). replace (Z.to_nat 255) with (K + Z.to_nat n)%nat by lia.
    rewrite root_value_app, Hroot, Z2Nat.id by lia. apply Fadd_self.
Qed.
End Encode.

(** C38: Encoding and decoding are inverse across losses: a word that the E1B or
    E6B encoder made from octets starts with those octets, and is restored by
    [decode] after any symbols were replaced at up to [nroots] known places. *)
Theorem encode_decode_roundtrip (rs : ReedSolomon) (data received eras : list Z) :
  rs ∈ [E1B_rs; E6B_rs] ->
  Z.of_nat (length data) = d_info_symbols_shortened rs -> Forall is_octet data ->
  let sent := encode_with_generator_poly rs data in
  Z.of_nat (length received) = d_data_symbols_shortened rs -> Forall is_octet received ->
  NoDup eras -> Forall (fun p => 0 <= p < 255) eras -> Z.of_nat (length eras) <= d_nroots rs ->
  (forall j, 0 <= j < d_data_symbols_shortened rs -> block_place rs j ∉ eras ->
     vget 0 received j = vget 0 sent j) ->
  take (length data) sent = data /\
  exists k, 0 <= k /\ decode rs received eras = (k, sent).
Proof.
  intros Hrs Hl Ho sent Hrl Hro Hnd Hr Hn Hsame.
  assert (exists g, rs_ok rs /\ rs_sizes rs /\ generator rs g) as (g & Hok & Hsz & Hgen).
  { rewrite !elem_of_cons in Hrs. destruct Hrs as [->|[->|H]]; [..|inversion H].
    - eexists. split; [apply E1B_rs_ok|]. split; [apply E1B_rs_sizes|apply E1B_generator].
    - eexists. split; [apply E6B_rs_ok|]. split; [apply E6B_rs_sizes|apply E6B_generator]. }
  split.
  - unfold sent. rewrite encode_systematic by assumption. apply take_app_length.
  - apply decode_restores; try assumption. apply (encode_codeword rs g); assumption.
Qed.

(** Octets 0 to 57 sent, and their first 40 and all the parity but 40 lost. *)
Definition lost_places : list Z := seqZ 0 40 ++ seqZ 200 20.
Definition sample_data : list Z := seqZ 0 58.
Definition sample_sent_word : list Z :=
  Eval vm_compute in encode_with_generator_poly E1B_rs sample_data.
Definition sample_received_word : list Z :=
  Eval vm_compute in replicate 40 0 ++ seqZ 40 18 ++ take 5 (drop 58 sample_sent_word) ++
    replicate 20 7 ++ drop 83 sample_sent_word.

Lemma encode_decode_roundtrip_witness :
  take (length sample_data) (encode_with_generator_poly E1B_rs sample_data) = sample_data /\
  exists k, 0 <= k /\ decode E1B_rs sample_received_word lost_places =
    (k, encode_with_generator_poly E1B_rs sample_data).
Proof.
  apply encode_decode_roundtrip.
  - left.
  - reflexivity.
  - apply (bool_decide_eq_true_1 (Forall (fun v => 0 <= v < 256) sample_data)). vm_compute. reflexivity.
  - reflexivity.
  - apply (bool_decide_eq_true_1 (Forall (fun v => 0 <= v < 256) sample_received_word)).
    vm_compute. reflexivity.
  - apply (bool_decide_eq_true_1 (NoDup lost_places)). vm_compute. reflexivity.
  - apply (bool_decide_eq_true_1 (Forall (fun p => 0 <= p < 255) lost_places)). vm_compute. reflexivity.
  - vm_compute. discriminate.
  - assert (encode_with_generator_poly E1B_rs sample_data = sample_sent_word) as ->
      by (vm_compute; reflexivity).
    intros j Hj Hnot. apply Z.eqb_eq.
    assert (forallb (fun j => bool_decide (block_place E1B_rs j ∈ lost_places) ||
      (vget 0 sample_received_word j =? vget 0 sample_sent_word j))
      (seqZ 0 118) = true) as Hall by (vm_compute; reflexivity).
    rewrite forallb_forall in Hall.
    specialize (Hall j (proj1 (list_elem_of_In _ _) (proj2 (elem_of_seqZ 0 118 j) ltac:(cbn in Hj; lia)))).
    rewrite bool_decide_eq_false_2 in Hall by exact Hnot. exact Hall.
Defined.
