(* ===== verification/InavRecovery.v ===== *)
(** * InavRecovery: the ephemeris from any four words, with the program's decoder

    The Reed-Solomon decoder of ReedSolomon.v keeps the promises that the I/NAV
    message decoder of InavMessage.v asks of it ([RSErasures], [RSShape]), so
    that the collection of InavFec.v recovers the ephemeris with the decoder
    that the program makes, [ReedSolomon(60, 29, 1, 195, 0, 137)]. *)

From S2P Require Import Prelude Cstring BinString InavWords InavReaders InavMessage InavProofs InavFec InavPages ReedSolomon GF256 RSAlgebra ReedSolomonProofs.
From stdpp Require Import list gmap.
From Stdlib Require Import ZArith Lia.
Local Open Scope Z_scope.

#[export] Instance inav_rs_shape : @RSShape inav_rs_decoder.
Proof. intros data eras Hd. apply decode_shape; [exact inav_rs_ok|exact inav_rs_sizes|exact Hd]. Qed.

Lemma block_place_unshortened j : block_place inav_rs j = unshortened j.
Proof. reflexivity. Qed.

#[export] Instance inav_rs_erasures : @RSErasures inav_rs_decoder (codeword inav_rs).
Proof.
  intros c received eras Hc Hl Ho Hnd Hn Hr Hsame.
  apply (decode_restores inav_rs inav_rs_ok inav_rs_sizes); [exact Hc|rewrite Hl; reflexivity|exact Ho|
    exact Hnd| |exact Hn|].
  - apply Forall_forall. intros p Hp. specialize (Hr p Hp). lia.
  - intros j Hj Hnot. apply Hsame; assumption.
Qed.

(** C2: With the Reed-Solomon decoder that the program makes, four of the eight
    words suffice: when the words flagged are those of one transmitted code
    word, at least one of them an ephemeris word, [have_new_ephemeris] reports
    an ephemeris whose four words are read from the transmitted words bit for
    bit, sets its IOD, and ends the collection. *)
Theorem ephemeris_from_any_four_words (ws : list (list bool)) (W : Z -> list bool)
    (c : list Z) (iod : Z) :
  Forall admissible ws -> codeword inav_rs c ->
  (forall n, n ∈ fec_types -> length (W n) = 128%nat /\ word_type (W n) = n /\ holds c n (W n)) ->
  (forall n, n ∈ info_types -> word_IODnav (W n) = iod) ->
  let m := receive_all ws (enable_reed_solomon new_Galileo_Inav_Message) in
  (forall n, n ∈ fec_types -> page m n <> 0 -> last_words ∅ ws !! n = Some (W n)) ->
  (exists n, n ∈ info_types /\ page m n <> 0) ->
  pages_sum (inav_rs_pages m) = 4 -> ephemeris_complete m = false ->
  exists m', have_new_ephemeris m = (true, m') /\
    (forall n, n ∈ info_types -> word_is m' n (W n)) /\
    IOD_ephemeris m' = iod /\ flag_all_ephemeris m' = true /\ enable_rs m' = false /\
    inav_rs_pages m' = zero_rs_pages.
Proof. apply (fec2_recovers_interface ws W c iod). Qed.

(** A transmitted set: four ephemeris words with IODnav 77, and the parity words
    that the encoder of the E1B code gives for them. *)
Definition sample_info : list Z :=
  concat (map (fun n => map (octet n (sample_sent n))
    (seqZ (region n).1 ((region n).2 - (region n).1))) info_types).
Definition sample_codeword : list Z :=
  Eval vm_compute in encode_with_generator_matrix E1B_rs sample_info.

Definition parity_word (n : Z) : list bool :=
  let o k := to_bin 8 (vget 0 sample_codeword ((region n).1 + k)) in
  to_bin 6 n ++ o 0 ++ to_bin 2 77 ++ concat (map (fun k => o (k + 1)) (seqZ 0 14)).

Definition transmitted (n : Z) : list bool := if n <=? 4 then sample_sent n else parity_word n.
Definition received_run : list (list bool) := map transmitted [3; 17; 20; 18].

Lemma ephemeris_from_any_four_words_witness :
  let m := receive_all received_run (enable_reed_solomon new_Galileo_Inav_Message) in
  inav_rs_pages m = [0; 0; 1; 0; 1; 1; 0; 1] /\
  exists m', have_new_ephemeris m = (true, m') /\
    (forall n, n ∈ info_types -> word_is m' n (transmitted n)) /\
    IOD_ephemeris m' = 77 /\ flag_all_ephemeris m' = true /\ enable_rs m' = false /\
    inav_rs_pages m' = zero_rs_pages.
Proof.
  intros m.
  assert (inav_rs_pages m = [0; 0; 1; 0; 1; 1; 0; 1]) as Hp by (vm_compute; reflexivity).
  split; [exact Hp|].
  apply (ephemeris_from_any_four_words received_run transmitted sample_codeword 77).
  - apply (bool_decide_eq_true_1 (Forall admissible received_run)). vm_compute. reflexivity.
  - split; [reflexivity| |].
    + apply (bool_decide_eq_true_1 (Forall (fun v => 0 <= v < 256) sample_codeword)).
      vm_compute. reflexivity.
    + apply (bool_decide_eq_true_1 (Forall (fun v => v = 0) (syndromes inav_rs (unshorten inav_rs sample_codeword)))).
      vm_compute. reflexivity.
  - apply fec_types_forall; (split; [reflexivity|]; split; [vm_compute; reflexivity|];
      apply holds_tested; vm_compute; reflexivity).
  - intros n Hn. destruct (info_cases n Hn) as [->|[->|[->| ->]]]; vm_compute; reflexivity.
  - fold m. unfold page. rewrite Hp.
    apply (fec_types_forall (fun n => vget 0 [0; 0; 1; 0; 1; 1; 0; 1] (page_index n) <> 0 ->
      last_words ∅ received_run !! n = Some (transmitted n)));
      intros Hne; (exfalso; apply Hne; reflexivity) || (vm_compute; reflexivity).
  - exists 3. split; [right; right; left|]. fold m. unfold page. rewrite Hp. discriminate.
  - fold m. rewrite Hp. reflexivity.
  - vm_compute. reflexivity.
Defined.

(** The four parity words, and nothing else. *)
Definition parity_only : list (list bool) := map transmitted parity_types.

(** When only parity words have arrived the first octet of [rs_buffer] is
    not known (it still has its initial value, which differs from the code
    word's) and is not marked as an erasure: the decoder has to correct it as an
    error.  The recovery is reported, but words 2 to 4 are regenerated with the
    IODnav 0 of the decoder's state instead of the transmitted 77, so the
    ephemeris reported mixes IODnav values. *)
Theorem parity_only_recovery :
  let m := receive_all parity_only (enable_reed_solomon new_Galileo_Inav_Message) in
  pages_sum (inav_rs_pages m) = 4 /\
  vget 0 (rs_buffer m) 0 = 0 /\ octet 1 (sample_sent 1) 0 = 5 /\
  ~ (0 ∈ erasure_positions (inav_rs_pages m)) /\
  (have_new_ephemeris m).1 = true /\
  IOD_nav_1 (word_1 (have_new_ephemeris m).2) = 77 /\
  IOD_nav_2 (word_2 (have_new_ephemeris m).2) = 0 /\
  IOD_nav_3 (word_3 (have_new_ephemeris m).2) = 0 /\
  IOD_nav_4 (word_4 (have_new_ephemeris m).2) = 0.
Proof.
  intros m.
  split; [vm_compute; reflexivity|]. split; [vm_compute; reflexivity|].
  split; [vm_compute; reflexivity|].
  split; [apply (bool_decide_eq_true_1 (0 ∉ erasure_positions (inav_rs_pages m)));
          vm_compute; reflexivity|].
  repeat (split; [vm_compute; reflexivity|]). vm_compute. reflexivity.
Qed.
