(* ===== verification/Viterbi.v ===== *)
(** * Viterbi: the decoder of the convolutional code

    [class Viterbi_Decoder] of
    [src/src/algorithms/telemetry_decoder/libs/viterbi_decoder.{h,cc}]: the
    trellis of the code, the branch metrics, and the decoder, with its metrics
    in [float].  A call of [decode] keeps the working vectors in the object. *)

From S2P Require Import Prelude Float64.
From stdpp Require Import list.
From Stdlib Require Import ZArith Lia SpecFloat.
Local Open Scope Z_scope.

Record Viterbi_Decoder := mkViterbi_Decoder {
  d_prev_section : list float;
  d_next_section : list float;
  d_rec_array : list float;
  d_metric_c : list float;
  d_prev_bit : list Z;
  d_prev_state : list Z;
  d_g : list Z;
  d_out0 : list Z;
  d_out1 : list Z;
  d_state0 : list Z;
  d_state1 : list Z;
  d_KK : Z;
  d_nn : Z;
  d_LL : Z;
  d_mm : Z;
  d_states : Z;
  d_number_symbols : Z
}.
#[export] Instance eta_Viterbi_Decoder : Eta Viterbi_Decoder := fun d =>
  mkViterbi_Decoder (d_prev_section d) (d_next_section d) (d_rec_array d) (d_metric_c d)
    (d_prev_bit d) (d_prev_state d) (d_g d) (d_out0 d) (d_out1 d) (d_state0 d) (d_state1 d)
    (d_KK d) (d_nn d) (d_LL d) (d_mm d) (d_states d) (d_number_symbols d).

Definition fzero : float := float_of_Z 0.

(** [float d_MAXLOG = 1e7]. *)
Definition d_MAXLOG : float := float_of_Z 10000000.

(** ** The trellis *)

Definition parity_counter (symbol length : Z) : Z :=
  (for_range 0 length
     (fun _ '(temp_parity, symbol) =>
        (Z.lxor temp_parity (Z.land symbol 1), Z.shiftr symbol 1))
     (0, symbol)).1.

(** The output symbol and the next state. *)
Definition nsc_enc_bit (KK nn : Z) (g : list Z) (input state_in : Z) : Z * Z :=
  let state := Z.lxor (Z.shiftl input (KK - 1)) state_in in
  let out_ := for_range 0 nn
    (fun i out_ => Z.shiftl out_ 1 + parity_counter (Z.land state (vget 0 g i)) KK) 0 in
  (out_, Z.shiftr state 1).

Definition nsc_transit (KK nn : Z) (g : list Z) (input : Z) (output_p trans_p : list Z)
  : list Z * list Z :=
  let states := Z.shiftl 1 (KK - 1) in
  for_range 0 states
    (fun state '(output_p, trans_p) =>
       let '(out, nextstate) := nsc_enc_bit KK nn g input state in
       (vset output_p state out, vset trans_p state nextstate))
    (output_p, trans_p).

(** [std::vector<T>(n, x)]. *)
Definition vector {A} (n : Z) (x : A) : list A := replicate (Z.to_nat n) x.

Definition new_Viterbi_Decoder (KK nn LL : Z) (g : list Z) : Viterbi_Decoder :=
  let mm := KK - 1 in
  let states := Z.shiftl 1 mm in
  let '(out0, state0) := nsc_transit KK nn g 0 (vector states 0) (vector states 0) in
  let '(out1, state1) := nsc_transit KK nn g 1 (vector states 0) (vector states 0) in
  {| d_prev_section := vector states (fopp d_MAXLOG);
     d_next_section := vector states (fopp d_MAXLOG);
     d_rec_array := vector nn fzero;
     d_metric_c := vector (Z.shiftl 1 nn) fzero;
     d_prev_bit := vector (states * (LL + mm)) 0;
     d_prev_state := vector (states * (LL + mm)) 0;
     d_g := g;
     d_out0 := out0; d_out1 := out1; d_state0 := state0; d_state1 := state1;
     d_KK := KK; d_nn := nn; d_LL := LL; d_mm := mm;
     d_states := states; d_number_symbols := Z.shiftl 1 nn |}.

(** [reset] recomputes the trellis; the sections and the traceback stay. *)
Definition reset (d : Viterbi_Decoder) : Viterbi_Decoder :=
  let '(out0, state0) :=
    nsc_transit (d_KK d) (d_nn d) (d_g d) 0 (vector (d_states d) 0) (vector (d_states d) 0) in
  let '(out1, state1) :=
    nsc_transit (d_KK d) (d_nn d) (d_g d) 1 (vector (d_states d) 0) (vector (d_states d) 0) in
  d <| d_out0 := out0 |> <| d_out1 := out1 |> <| d_state0 := state0 |> <| d_state1 := state1 |>.

(** ** Decoding *)

Definition Gamma (nn : Z) (rec_array : list float) (symbol : Z) : float :=
  (for_range 0 nn
     (fun i '(rm, mask) =>
        (if Z.land symbol mask =? 0 then rm else fadd rm (vget fzero rec_array (nn - i - 1)),
         Z.shiftl mask 1))
     (fzero, 1)).1.

(** [volk_gnsssdr_32f_index_max_32u]: the first index of the largest value. *)
Definition index_max (src0 : list float) : Z :=
  (for_range 1 (Z.of_nat (length src0))
     (fun i '(index, max) =>
        if fgt (vget fzero src0 i) max then (i, vget fzero src0 i) else (index, max))
     (0, vget fzero src0 0)).1.

(** One branch: into state [next], from [state] with information bit [bit]. *)
Definition branch (t bit state next : Z) (out : Z) (d : Viterbi_Decoder) : Viterbi_Decoder :=
  let metric := fadd (vget fzero (d_prev_section d) state) (vget fzero (d_metric_c d) out) in
  if fgt metric (vget fzero (d_next_section d) next) then
    d <| d_next_section ::= fun v => vset v next metric |>
      <| d_prev_state ::= fun v => vset v (t * d_states d + next) state |>
      <| d_prev_bit ::= fun v => vset v (t * d_states d + next) bit |>
  else d.

(** [std::copy(input + nn * t, input + nn * t + (nn - 1), d_rec_array)]: the
    range excludes its end. *)
Definition copy_symbols (t : Z) (input_c : list float) (d : Viterbi_Decoder) : Viterbi_Decoder :=
  d <| d_rec_array ::=
    for_range 0 (d_nn d - 1) (fun k r => vset r k (vget fzero input_c (d_nn d * t + k))) |>.

Definition branch_metrics (d : Viterbi_Decoder) : Viterbi_Decoder :=
  d <| d_metric_c ::=
    for_range 0 (d_number_symbols d) (fun i m => vset m i (Gamma (d_nn d) (d_rec_array d) i)) |>.

Definition normalize (d : Viterbi_Decoder) : Viterbi_Decoder :=
  let max_val := vget fzero (d_next_section d) (index_max (d_next_section d)) in
  for_range 0 (d_states d)
    (fun state d =>
       d <| d_prev_section ::= fun v => vset v state (fsub (vget fzero (d_next_section d) state) max_val) |>
         <| d_next_section ::= fun v => vset v state (fopp d_MAXLOG) |>) d.

Definition trellis_step (input_c : list float) (t : Z) (d : Viterbi_Decoder) : Viterbi_Decoder :=
  let d := branch_metrics (copy_symbols t input_c d) in
  let d := for_range 0 (d_states d)
    (fun state d =>
       let d := branch t 0 state (vget 0 (d_state0 d) state) (vget 0 (d_out0 d) state) d in
       branch t 1 state (vget 0 (d_state1 d) state) (vget 0 (d_out1 d) state) d) d in
  normalize d.

(** [for (t = hi - 1; t >= lo; t--)]. *)
Definition for_down {St} (lo hi : Z) (body : Z -> St -> St) (s : St) : St :=
  for_range lo hi (fun i => body (hi - 1 - (i - lo))) s.

Definition trace_back (d : Viterbi_Decoder) (output_u_int : list Z) : list Z :=
  let state := for_down (d_LL d) (d_LL d + d_mm d)
    (fun t state => vget 0 (d_prev_state d) (t * d_states d + state)) 0 in
  (for_down 0 (d_LL d)
     (fun t '(output, state) =>
        (vset output t (vget 0 (d_prev_bit d) (t * d_states d + state)),
         vget 0 (d_prev_state d) (t * d_states d + state)))
     (output_u_int, state)).1.

Definition decode (output_u_int : list Z) (input_c : list float) (d : Viterbi_Decoder)
  : list Z * Viterbi_Decoder :=
  let d := d <| d_prev_section ::= fun v => vset v 0 fzero |> in
  let d := for_range 0 (d_LL d + d_mm d) (trellis_step input_c) d in
  (trace_back d output_u_int, d).

(** ** The convolutional encoder that the trellis describes *)

Fixpoint encode_from (KK nn : Z) (g : list Z) (state : Z) (bits : list Z) : list Z :=
  match bits with
  | [] => []
  | b :: bits' =>
      let '(out, next) := nsc_enc_bit KK nn g b state in out :: encode_from KK nn g next bits'
  end.

(** The soft symbols of a symbol sequence, [1.0] for a 1 and [-1.0] for a 0,
    highest bit first. *)
Definition soft (nn : Z) (symbol : Z) : list float :=
  map (fun i => if Z.testbit symbol (nn - 1 - i) then float_of_Z 1 else float_of_Z (-1)) (seqZ 0 nn).
