(* ===== verification/ViterbiProofs.v ===== *)
(** * ViterbiProofs: what the Viterbi decoder guarantees, and what it does not

    The trellis is that of the encoder; the working vectors keep their sizes
    and the decoded values are bits, whatever the input; only the first symbol
    of each group reaches the metrics, so the decoder does not have the error
    correction of the code; and a frame is decoded with what the frame before
    left in the metrics. *)

From S2P Require Import Prelude Float64 Viterbi.
From stdpp Require Import list.
From Stdlib Require Import ZArith Lia SpecFloat.
Local Open Scope Z_scope.

(** ** The trellis of the Galileo code *)

Definition galileo_g : list Z := [121; 91].
Definition galileo_decoder (LL : Z) : Viterbi_Decoder := new_Viterbi_Decoder 7 2 LL galileo_g.

(** The branches of the trellis: from, bit, to, output symbol. *)
Definition branches (d : Viterbi_Decoder) : list (Z * Z * Z * Z) :=
  flat_map (fun s => [(s, 0, vget 0 (d_state0 d) s, vget 0 (d_out0 d) s);
                      (s, 1, vget 0 (d_state1 d) s, vget 0 (d_out1 d) s)]) (seqZ 0 (d_states d)).

(** The output by the definition of the code: the sum modulo 2 of the taps of
    each generator over the last seven bits, the newest first. *)
Definition taps (g : Z) (bits : list bool) : bool :=
  fold_left xorb (imap (fun i b => b && Z.testbit g (6 - Z.of_nat i)) bits) false.

Definition last_bits (state bit : Z) : list bool :=
  negb (bit =? 0) :: map (fun i => Z.testbit state (5 - i)) (seqZ 0 6).

Definition branch_ok (b : Z * Z * Z * Z) : bool :=
  let '(s, bit, s', out) := b in
  (0 <=? s') && (s' <? 64) && (s' =? 32 * bit + s / 2) &&
  (out =? 2 * Z.b2z (taps 121 (last_bits s bit)) + Z.b2z (taps 91 (last_bits s bit))).

Definition predecessors (bs : list (Z * Z * Z * Z)) (s : Z) : list Z :=
  map (fun b => b.1.1.1) (filter (fun b => b.1.2 = s) bs).

Lemma trellis_LL LL : branches (galileo_decoder LL) = branches (galileo_decoder 0).
Proof. reflexivity. Qed.

(** C35: The trellis tables of the Galileo code, for any data length, are those
    of its encoder: from each of the 64 states and for each bit, the next state
    shifts the bit in, and the two output bits are the parities of the taps of
    G1 and G2 over the seven newest bits; every state is entered by exactly the
    two states that differ in the oldest bit. *)
Theorem trellis_is_encoder (LL : Z) :
  Forall (fun b => branch_ok b = true) (branches (galileo_decoder LL)) /\
  forall s, 0 <= s < 64 ->
    predecessors (branches (galileo_decoder LL)) s = [2 * (s mod 32); 2 * (s mod 32) + 1].
Proof.
  rewrite trellis_LL. split.
  - apply Forall_forall. intros b Hb.
    assert (forallb branch_ok (branches (galileo_decoder 0)) = true) as H by (vm_compute; reflexivity).
    rewrite forallb_forall in H. apply H, list_elem_of_In, Hb.
  - intros s Hs. set (bs := branches (galileo_decoder 0)).
    assert (Forall (fun s => predecessors bs s = [2 * (s mod 32); 2 * (s mod 32) + 1]) (seqZ 0 64)) as H.
    { apply (bool_decide_eq_true_1 (Forall _ _)). vm_compute. reflexivity. }
    rewrite Forall_forall in H. apply H, elem_of_seqZ. lia.
Qed.

Lemma trellis_is_encoder_witness :
  predecessors (branches (galileo_decoder 114)) 5 = [10; 11].
Proof. apply (proj2 (trellis_is_encoder 114) 5). lia. Defined.

(** ** What reaches the metrics *)

(** The parameters of the code never change. *)
Definition params (d : Viterbi_Decoder) : Z * Z * Z * Z * Z :=
  (d_nn d, d_LL d, d_mm d, d_states d, d_number_symbols d).

Lemma for_range_params lo hi (f : Z -> Viterbi_Decoder -> Viterbi_Decoder) d :
  (forall i e, params (f i e) = params e) -> params (for_range lo hi f d) = params d.
Proof.
  intros Hf. apply (for_range_inv (fun e => params e = params d)); [done|].
  intros i e _ He. rewrite Hf. exact He.
Qed.

Lemma branch_params t bit s n o d : params (branch t bit s n o d) = params d.
Proof. unfold branch. cbv zeta. destruct (fgt _ _); reflexivity. Qed.

Lemma trellis_step_params x t d : params (trellis_step x t d) = params d.
Proof.
  unfold trellis_step, normalize. cbv zeta. rewrite for_range_params by reflexivity.
  rewrite for_range_params by (intros; rewrite !branch_params; reflexivity). reflexivity.
Qed.

(** Of every group of [d_nn] symbols the last is never read: [std::copy]
    stops one short of the group.  For the rate 1/2 codes, two inputs that agree
    in the first symbol of each pair decode to the same bits and leave the same
    decoder. *)
Theorem last_symbol_ignored (d : Viterbi_Decoder) (output : list Z) (a b : list float) :
  (forall t k, 0 <= t < d_LL d + d_mm d -> 0 <= k < d_nn d - 1 ->
     vget fzero a (d_nn d * t + k) = vget fzero b (d_nn d * t + k)) ->
  decode output a d = decode output b d.
Proof.
  intros Hab. unfold decode. cbv zeta.
  set (d0 := d <| d_prev_section ::= _ |>).
  assert (for_range 0 (d_LL d0 + d_mm d0) (trellis_step a) d0 =
          for_range 0 (d_LL d0 + d_mm d0) (trellis_step b) d0) as ->; [|reflexivity].
  change (d_LL d0) with (d_LL d). change (d_mm d0) with (d_mm d).
  assert (params d0 = params d) as Hd0 by reflexivity. clearbody d0.
  destruct (decide (0 <= d_LL d + d_mm d)) as [Hle|Hgt].
  2:{ rewrite !for_range_nil by lia. reflexivity. }
  apply (for_range_ind (fun t e => e = for_range 0 t (trellis_step b) d0 /\ params e = params d)); auto.
  intros t e Ht [-> Hn]. split; [|rewrite trellis_step_params; exact Hn].
  rewrite for_range_last by lia. set (e := for_range 0 t _ d0) in *.
  unfold trellis_step.
  assert (copy_symbols t a e = copy_symbols t b e) as ->; [|reflexivity].
  assert (forall x, copy_symbols t x e = e <| d_rec_array :=
    for_range 0 (d_nn e - 1) (fun k r => vset r k (vget fzero x (d_nn e * t + k)))
      (d_rec_array e) |>) as Hcopy by reflexivity.
  injection Hn as Hnn _ _ _ _. rewrite !Hcopy, Hnn. erewrite for_range_ext; [reflexivity|].
  intros k r Hk. cbv beta. rewrite Hab by lia. reflexivity.
Qed.

(** ** The working vectors *)

Definition bit_value (b : Z) : Prop := b = 0 \/ b = 1.

Record viterbi_wf (d : Viterbi_Decoder) : Prop := {
  vw_states : 0 < d_states d;
  vw_LL : 0 <= d_LL d;
  vw_mm : 0 <= d_mm d;
  vw_next : Z.of_nat (length (d_next_section d)) = d_states d;
  vw_prev : Z.of_nat (length (d_prev_section d)) = d_states d;
  vw_bits : Z.of_nat (length (d_prev_bit d)) = d_states d * (d_LL d + d_mm d);
  vw_back : Z.of_nat (length (d_prev_state d)) = d_states d * (d_LL d + d_mm d);
  vw_bit_values : Forall bit_value (d_prev_bit d);
  vw_back_values : Forall (fun s => 0 <= s < d_states d) (d_prev_state d);
  vw_state0 : Forall (fun s => 0 <= s < d_states d) (d_state0 d);
  vw_state1 : Forall (fun s => 0 <= s < d_states d) (d_state1 d)
}.

Lemma viterbi_wf_new LL : 0 <= LL -> viterbi_wf (galileo_decoder LL).
Proof.
  intros HLL.
  assert (forall n, 0 <= n -> Z.of_nat (length (vector n 0)) = n) as Hv
    by (intros; unfold vector; rewrite length_replicate; lia).
  split; change (d_states (galileo_decoder LL)) with 64; change (d_LL (galileo_decoder LL)) with LL;
    change (d_mm (galileo_decoder LL)) with 6; try lia; try reflexivity.
  - apply (Hv (64 * (LL + 6))). lia.
  - apply (Hv (64 * (LL + 6))). lia.
  - apply Forall_replicate. left. reflexivity.
  - apply Forall_replicate. lia.
  - change (Forall (fun s => 0 <= s < 64) (d_state0 (galileo_decoder 0))).
    apply (bool_decide_eq_true_1 (Forall _ _)). vm_compute. reflexivity.
  - change (Forall (fun s => 0 <= s < 64) (d_state1 (galileo_decoder 0))).
    apply (bool_decide_eq_true_1 (Forall _ _)). vm_compute. reflexivity.
Qed.

Lemma branch_wf t bit s n o d :
  viterbi_wf d -> bit_value bit -> 0 <= s < d_states d -> viterbi_wf (branch t bit s n o d).
Proof.
  intros [] Hb Hs. unfold branch. cbv zeta. destruct (fgt _ _); [|split; assumption].
  split; cbn -[vset]; rewrite ?length_vset; auto using Forall_vset.
Qed.

Lemma viterbi_wf_ext d d' :
  params d' = params d -> d_next_section d' = d_next_section d ->
  d_prev_section d' = d_prev_section d -> d_prev_bit d' = d_prev_bit d ->
  d_prev_state d' = d_prev_state d -> d_state0 d' = d_state0 d -> d_state1 d' = d_state1 d ->
  viterbi_wf d -> viterbi_wf d'.
Proof.
  unfold params. intros E E1 E2 E3 E4 E5 E6 []. injection E as F1 F2 F3 F4 F5.
  split; rewrite ?E1, ?E2, ?E3, ?E4, ?E5, ?E6, ?F2, ?F3, ?F4; assumption.
Qed.

Lemma trellis_step_wf x t d : viterbi_wf d -> viterbi_wf (trellis_step x t d).
Proof.
  intros Hd. unfold trellis_step, normalize. cbv zeta.
  assert (viterbi_wf (branch_metrics (copy_symbols t x d))) as H1
    by (apply (viterbi_wf_ext d); (reflexivity || assumption)).
  set (d1 := branch_metrics (copy_symbols t x d)) in *. clearbody d1.
  match goal with |- context [for_range 0 (d_states d1) ?f d1] => set (d2 := for_range _ _ f d1) end.
  assert (viterbi_wf d2) as H2.
  { unfold d2. apply (for_range_inv (fun e => viterbi_wf e /\ d_states e = d_states d1)); [auto|].
    intros s e Hs [He Hse]. split.
    - apply branch_wf; [apply branch_wf; [exact He|left; reflexivity|lia]|right; reflexivity|].
      pose proof (branch_params t 0 s (vget 0 (d_state0 e) s) (vget 0 (d_out0 e) s) e) as Hp.
      unfold params in Hp. injection Hp as _ _ _ -> _. lia.
    - pose proof (branch_params t 0 s (vget 0 (d_state0 e) s) (vget 0 (d_out0 e) s) e) as Hp.
      unfold params in Hp. injection Hp as _ _ _ Hp _. rewrite <- Hse, <- Hp.
      match goal with |- d_states (branch ?t ?b ?s ?n ?o ?e) = _ =>
        pose proof (branch_params t b s n o e) as Hq end.
      unfold params in Hq. injection Hq as _ _ _ -> _. reflexivity. }
  clearbody d2. apply for_range_inv; [exact H2|].
  intros s e _ []. split; cbn -[vset]; rewrite ?length_vset; auto.
Qed.

Lemma decode_section_wf x d lo hi :
  viterbi_wf d -> viterbi_wf (for_range lo hi (trellis_step x) d).
Proof.
  intros Hd. apply for_range_inv; [exact Hd|]. intros t e _ He. apply trellis_step_wf, He.
Qed.

Lemma decode_spec (d : Viterbi_Decoder) (output : list Z) (input : list float) :
  viterbi_wf d -> d_LL d <= Z.of_nat (length output) ->
  let '(output', d') := decode output input d in
  length output' = length output /\
  (forall t, 0 <= t < d_LL d -> bit_value (vget 0 output' t)) /\
  (forall t, d_LL d <= t -> vget 0 output' t = vget 0 output t) /\
  viterbi_wf d'.
Proof.
  intros Hd Hlen. unfold decode. cbv zeta.
  set (d0 := d <| d_prev_section ::= _ |>).
  assert (viterbi_wf d0) as H0 by (destruct Hd; split; cbn -[vset]; rewrite ?length_vset; assumption).
  assert (forall lo hi, params (for_range lo hi (trellis_step input) d0) = params d) as Hp.
  { intros lo hi. rewrite for_range_params; [reflexivity|]. intros. apply trellis_step_params. }
  pose proof (decode_section_wf input d0 0 (d_LL d0 + d_mm d0) H0) as H1.
  specialize (Hp 0 (d_LL d0 + d_mm d0)). set (e := for_range 0 (d_LL d0 + d_mm d0) _ d0) in *.
  clearbody e. injection Hp as _ HLL _ _ _.
  assert (forall i, 0 <= vget 0 (d_prev_state e) i < d_states e) as Hst.
  { intros i. apply (Forall_vget (fun s => 0 <= s < d_states e)); [apply H1|].
    pose proof (vw_states e H1). lia. }
  assert (forall i, bit_value (vget 0 (d_prev_bit e) i)) as Hbit.
  { intros i. apply Forall_vget; [apply H1|left; reflexivity]. }
  unfold trace_back, for_down. rewrite HLL.
  set (st0 := for_range (d_LL d) _ _ 0). clearbody st0.
  pose (P := fun (i : Z) (r : list Z * Z) => length r.1 = length output /\
    (forall t, d_LL d - i <= t < d_LL d -> bit_value (vget 0 r.1 t)) /\
    (forall t, d_LL d <= t -> vget 0 r.1 t = vget 0 output t)).
  assert (P (d_LL d) (for_range 0 (d_LL d)
    (fun i '(output, state) =>
       (vset output (d_LL d - 1 - (i - 0))
          (vget 0 (d_prev_bit e) ((d_LL d - 1 - (i - 0)) * d_states e + state)),
        vget 0 (d_prev_state e) ((d_LL d - 1 - (i - 0)) * d_states e + state)))
    (output, st0))) as (R1 & R2 & R3).
  { apply (for_range_ind P); unfold P; [apply Hd| |].
    - split; [done|]. split; [lia|done].
    - intros i [o s] Hi (P1 & P2 & P3). cbn [fst] in *. rewrite length_vset.
      split; [exact P1|]. split.
      + intros t Ht. destruct (decide (t = d_LL d - 1 - (i - 0))) as [->|Hne].
        * rewrite vget_vset_eq by (unfold in_range; lia). apply Hbit.
        * rewrite vget_vset_ne by congruence. apply P2. lia.
      + intros t Ht. rewrite vget_vset_ne by lia. apply P3, Ht. }
  split; [exact R1|]. split; [|split; [exact R3|exact H1]].
  intros t Ht. apply R2. lia.
Qed.

(** Whatever symbols come in, and whatever earlier frames left behind,
    [decode] writes a 0 or a 1 to each of the first [d_LL] entries of its output
    and nothing else, and the decoder's vectors keep their sizes and ranges, so
    every state of the traceback indexes inside them. *)
Theorem decode_gives_bits (d : Viterbi_Decoder) (output : list Z) (input : list float) :
  viterbi_wf d -> d_LL d <= Z.of_nat (length output) ->
  let '(output', d') := decode output input d in
  length output' = length output /\
  (forall t, 0 <= t < d_LL d -> bit_value (vget 0 output' t)) /\
  (forall t, d_LL d <= t -> vget 0 output' t = vget 0 output t) /\
  viterbi_wf d'.
Proof. apply decode_spec. Qed.

(** The parameters of the code, with those that only [reset] reads. *)
Definition code_params (d : Viterbi_Decoder) : Z * list Z * (Z * Z * Z * Z * Z) :=
  (d_KK d, d_g d, params d).

Lemma for_range_keeps {V} (view : Viterbi_Decoder -> V) lo hi f d :
  (forall i e, view (f i e) = view e) -> view (for_range lo hi f d) = view d.
Proof.
  intros Hf. apply (for_range_inv (fun e => view e = view d)); [done|].
  intros i e _ He. rewrite Hf. exact He.
Qed.

Lemma trellis_step_code x t d : code_params (trellis_step x t d) = code_params d.
Proof.
  unfold trellis_step, normalize. cbv zeta. rewrite for_range_keeps by reflexivity.
  rewrite for_range_keeps; [reflexivity|]. intros i e. unfold branch. cbv zeta.
  destruct (fgt _ _); destruct (fgt _ _); reflexivity.
Qed.

Lemma decode_code output input d : code_params (decode output input d).2 = code_params d.
Proof.
  unfold decode. cbv zeta. cbn [snd]. rewrite for_range_keeps; [reflexivity|].
  intros. apply trellis_step_code.
Qed.

(** A decoder of the Galileo code for frames of [LL] bits. *)
Definition galileo_viterbi (LL : Z) (d : Viterbi_Decoder) : Prop :=
  viterbi_wf d /\ code_params d = code_params (galileo_decoder LL).

Lemma galileo_viterbi_new LL : 0 <= LL -> galileo_viterbi LL (galileo_decoder LL).
Proof. intros H. split; [now apply viterbi_wf_new|reflexivity]. Qed.

Lemma galileo_viterbi_decode LL output input d :
  galileo_viterbi LL d -> LL <= Z.of_nat (length output) -> Forall bit_value output ->
  Forall bit_value (decode output input d).1 /\ length (decode output input d).1 = length output /\
  galileo_viterbi LL (decode output input d).2.
Proof.
  intros [W E] Hl Ho. pose proof E as E'. unfold code_params, params in E'.
  injection E' as _ _ _ ELL _ _ _. change (d_LL (galileo_decoder LL)) with LL in ELL.
  pose proof (decode_spec d output input W ltac:(lia)) as H.
  pose proof (decode_code output input d) as Ec.
  destruct (decode output input d) as [out d']. cbn [fst snd] in *. destruct H as (H1 & H2 & H3 & H4).
  split; [|split; [exact H1|split; [exact H4|congruence]]].
  apply (Forall_from_vget 0). intros i Hi. unfold in_range in Hi.
  destruct (decide (i < LL)) as [Hlt|Hge]; [apply H2; lia|].
  rewrite H3 by lia. apply Forall_vget; [exact Ho|now left].
Qed.

Lemma galileo_viterbi_reset LL d : galileo_viterbi LL d -> galileo_viterbi LL (reset d).
Proof.
  intros [W E]. pose proof E as E'. unfold code_params, params in E'.
  injection E' as EK Eg Enn _ _ Es _. unfold reset. rewrite EK, Eg, Enn, Es.
  change (d_KK (galileo_decoder LL)) with 7. change (d_nn (galileo_decoder LL)) with 2.
  change (d_g (galileo_decoder LL)) with galileo_g. change (d_states (galileo_decoder LL)) with 64.
  pose proof (viterbi_wf_new 0 ltac:(lia)) as W0.
  change (d_states (galileo_decoder 0)) with 64 in *.
  destruct (nsc_transit 7 2 galileo_g 0 (vector 64 0) (vector 64 0)) as [o0 s0] eqn:E0.
  destruct (nsc_transit 7 2 galileo_g 1 (vector 64 0) (vector 64 0)) as [o1 s1] eqn:E1.
  assert (d_state0 (galileo_decoder 0) = s0) as <- by
    (change (d_state0 (galileo_decoder 0)) with (nsc_transit 7 2 galileo_g 0 (vector 64 0) (vector 64 0)).2;
     now rewrite E0).
  assert (d_state1 (galileo_decoder 0) = s1) as <- by
    (change (d_state1 (galileo_decoder 0)) with (nsc_transit 7 2 galileo_g 1 (vector 64 0) (vector 64 0)).2;
     now rewrite E1).
  split; [|exact E]. destruct W, W0.
  change (d_states (galileo_decoder LL)) with 64 in Es.
  change (d_states (galileo_decoder 0)) with 64 in *.
  split; try assumption; unfold update; cbn [d_states d_state0 d_state1]; rewrite Es; assumption.
Qed.

(** ** Concrete frames *)

(** A short frame of 20 data bits and the 6 tail bits that end it. *)
Definition sample_bits : list Z := [1;0;1;1;0;0;1;0;1;1;1;1;0;0;0;0;1;0;1;0].
Definition sample_symbols : list float :=
  concat (map (soft 2) (encode_from 7 2 galileo_g 0 (sample_bits ++ replicate 6 0))).
Definition blank : list Z := replicate 26 0.

Definition flip (l : list float) (i : Z) : list float := vset l i (fopp (vget fzero l i)).

Lemma decode_gives_bits_witness :
  let '(output', d') := decode blank sample_symbols (galileo_decoder 20) in
  length output' = length blank /\
  (forall t, 0 <= t < d_LL (galileo_decoder 20) -> bit_value (vget 0 output' t)) /\
  (forall t, d_LL (galileo_decoder 20) <= t -> vget 0 output' t = vget 0 blank t) /\
  viterbi_wf d'.
Proof.
  apply (decode_gives_bits (galileo_decoder 20) blank sample_symbols).
  - apply viterbi_wf_new. lia.
  - vm_compute. discriminate.
Defined.

Lemma last_symbol_ignored_witness :
  decode blank sample_symbols (galileo_decoder 20) =
  decode blank (flip (flip sample_symbols 3) 7) (galileo_decoder 20).
Proof.
  apply last_symbol_ignored. intros t k Ht Hk.
  assert (k = 0) as -> by (change (d_nn (galileo_decoder 20)) with 2 in Hk; lia).
  change (d_nn (galileo_decoder 20)) with 2.
  unfold flip. rewrite !vget_vset_ne by lia. reflexivity.
Defined.

Example decode_noiseless :
  (decode blank sample_symbols (galileo_decoder 20)).1 = sample_bits ++ replicate 6 0.
Proof. vm_compute. reflexivity. Qed.

(** The decoder lacks the error correction of the code, whose free distance
    is 10: a frame with one wrong symbol, the first, is decoded to other bits
    than were sent. *)
Theorem single_error_not_corrected :
  exists bits : list Z,
    let sent := concat (map (soft 2) (encode_from 7 2 galileo_g 0 (bits ++ replicate 6 0))) in
    let d := galileo_decoder (Z.of_nat (length bits)) in
    let out := replicate (length bits + 6) 0 in
    (decode out sent d).1 = bits ++ replicate 6 0 /\
    (decode out (flip sent 0) d).1 <> bits ++ replicate 6 0.
Proof.
  exists sample_bits. split; [vm_compute; reflexivity|].
  apply (bool_decide_eq_true_1 (_ <> _)). vm_compute. reflexivity.
Qed.

(** The start in the all-zeros state holds for the first frame only: the
    metrics of the other states are what the frame before left, so one input is
    decoded differently by a new decoder and by one that decoded a frame. *)
Theorem decode_depends_on_previous_frame :
  exists frame1 frame2 : list float,
    let d := galileo_decoder 20 in
    let d' := (decode blank frame1 d).2 in
    (decode blank frame2 d).1 <> (decode blank frame2 d').1.
Proof.
  exists sample_symbols, (flip sample_symbols 12).
  apply (bool_decide_eq_true_1 (_ <> _)). vm_compute. reflexivity.
Qed.
