(* ===== verification/HasData.v ===== *)
(** * HasData: Galileo HAS pages and messages

    [Galileo_HAS_page] and [Galileo_HAS_data] of
    [src/src/core/system_parameters/galileo_has_page.h] and
    [galileo_has_data.{h,cc}], with the field lengths of [Galileo_CNAV.h].  A
    vector is a list; [vat] and [vput] are the accesses that C++ leaves
    undefined out of range.  The getters that only scale integers by a [float]
    factor are not modelled. *)

From S2P Require Import Prelude Cstring.
From stdpp Require Import list strings.
From Stdlib Require Import ZArith Lia Ascii.
Local Open Scope Z_scope.
Local Open Scope cxx_scope.

(** ** Constants *)

Definition HAS_MSG_NSYS_LENGTH : Z := 4.
Definition HAS_MSG_ID_MASK_LENGTH : Z := 4.
Definition HAS_MSG_SATELLITE_MASK_LENGTH : Z := 40.
Definition HAS_MSG_SIGNAL_MASK_LENGTH : Z := 16.
Definition HAS_MSG_NAV_MESSAGE_LENGTH : Z := 3.
Definition HAS_MSG_MASK_RESERVED_LENGTH : Z := 6.
Definition HAS_MSG_VALIDITY_INDEX_LENGTH : Z := 4.
Definition HAS_MSG_IOD_GPS_LENGTH : Z := 8.
Definition HAS_MSG_IOD_GAL_LENGTH : Z := 10.
Definition HAS_MSG_DELTA_RADIAL_LENGTH : Z := 13.
Definition HAS_MSG_DELTA_IN_TRACK_LENGTH : Z := 12.
Definition HAS_MSG_DELTA_CROSS_TRACK_LENGTH : Z := 12.
Definition HAS_MSG_DELTA_CLOCK_MULTIPLIER_LENGTH : Z := 2.
Definition HAS_MSG_DELTA_CLOCK_CORRECTION_LENGTH : Z := 13.
Definition HAS_MSG_NSYS_SUB_LENGTH : Z := 4.
Definition HAS_MSG_ID_CLOCK_SUBSET_LENGTH : Z := 4.
Definition HAS_MSG_DELTA_CLOCK_MULTIPLIER_SUBSET_LENGTH : Z := 2.
Definition HAS_MSG_DELTA_CLOCK_CORRECTION_SUBSET_LENGTH : Z := 13.
Definition HAS_MSG_CODE_BIAS_LENGTH : Z := 11.
Definition HAS_MSG_PHASE_BIAS_LENGTH : Z := 11.
Definition HAS_MSG_PHASE_DISCONTINUITY_INDICATOR_LENGTH : Z := 2.
Definition MAX_SECONDS_REMEMBERING_MID : Z := 150.
Definition GALILEO_CNAV_INTERLEAVER_ROWS : Z := 8.
Definition GALILEO_CNAV_INTERLEAVER_COLS : Z := 123.
Definition GALILEO_CNAV_HAS_PAGE_DATA_BITS : Z := 448.
Definition GALILEO_CNAV_PAGE_RESERVED_BITS : Z := 14.
Definition GALILEO_CNAV_BYTES_FOR_CRC : Z := 58.
Definition GALILEO_CNAV_CRC_LENGTH : Z := 24.
Definition GALILEO_CNAV_MESSAGE_BITS_PER_PAGE : Z := 424.
Definition GALILEO_CNAV_PAGE_HEADER_BITS : Z := 24.
Definition GALILEO_CNAV_MAX_NUMBER_SYMBOLS_ENCODED_BLOCK : Z := 255.
Definition GALILEO_CNAV_MT1_HEADER_BITS : Z := 32.
Definition GALILEO_CNAV_OCTETS_IN_SUBPAGE : Z := 53.
Definition GALILEO_CNAV_INFORMATION_VECTOR_LENGTH : Z := 32.
Definition GALILEO_CNAV_BITS_FOR_CRC : Z :=
  GALILEO_CNAV_HAS_PAGE_DATA_BITS + GALILEO_CNAV_PAGE_RESERVED_BITS.
Definition HAS_MSG_NUMBER_MASK_IDS : Z := 32.
Definition HAS_MSG_NUMBER_GNSS_IDS : Z := 16.
Definition HAS_MSG_NUMBER_MESSAGE_IDS : Z := 32.
Definition HAS_MSG_NUMBER_SATELLITE_IDS : Z := 40.
Definition HAS_MSG_NUMBER_SIGNAL_MASKS : Z := 16.
Definition HAS_MSG_NUMBER_MAX_TOH : Z := 3599.
Definition HAS_MSG_GPS_SYSTEM : Z := 0.
Definition HAS_MSG_GALILEO_SYSTEM : Z := 2.
Definition HAS_MSG_WRONG_SYSTEM : Z := 255.
Definition GALILEO_HAS_STATUS : Z * Z := (1, 2).
Definition GALILEO_HAS_RESERVED : Z * Z := (3, 2).
Definition GALILEO_HAS_MESSAGE_TYPE : Z * Z := (5, 2).
Definition GALILEO_HAS_MESSAGE_ID : Z * Z := (7, 5).
Definition GALILEO_HAS_MESSAGE_SIZE : Z * Z := (12, 5).
Definition GALILEO_HAS_MESSAGE_PAGE_ID : Z * Z := (17, 8).
Definition GALILEO_MT1_HEADER_TOH : Z * Z := (1, 12).
Definition GALILEO_MT1_HEADER_MASK_FLAG : Z * Z := (13, 1).
Definition GALILEO_MT1_HEADER_ORBIT_CORRECTION_FLAG : Z * Z := (14, 1).
Definition GALILEO_MT1_HEADER_CLOCK_FULLSET_FLAG : Z * Z := (15, 1).
Definition GALILEO_MT1_HEADER_CLOCK_SUBSET_FLAG : Z * Z := (16, 1).
Definition GALILEO_MT1_HEADER_CODE_BIAS_FLAG : Z * Z := (17, 1).
Definition GALILEO_MT1_HEADER_PHASE_BIAS_FLAG : Z * Z := (18, 1).
Definition GALILEO_MT1_HEADER_RESERVED : Z * Z := (19, 4).
Definition GALILEO_MT1_HEADER_MASK_ID : Z * Z := (23, 5).
Definition GALILEO_MT1_HEADER_IOD_SET_ID : Z * Z := (28, 5).

(** [std::numeric_limits<uint32_t>::max()] and its 64-bit counterpart. *)
Definition uint32_max : Z := 2 ^ 32 - 1.
Definition uint64_max : Z := 2 ^ 64 - 1.

(** [std::count(s.begin(), s.end(), '1')]. *)
Definition count_ones (s : cstring) : Z :=
  Z.of_nat (length (filter (fun c => c = "1"%char) s)).

(** ** Pages *)

Record Galileo_HAS_page := mkGalileo_HAS_page {
  has_message_string : cstring;
  time_stamp : Z;
  page_tow : Z;
  has_status : Z;
  page_reserved : Z;
  message_type : Z;
  message_id : Z;
  message_size : Z;
  message_page_id : Z
}.
#[export] Instance eta_Galileo_HAS_page : Eta Galileo_HAS_page := fun r =>
  mkGalileo_HAS_page (has_message_string r) (time_stamp r) (page_tow r) (has_status r)
    (page_reserved r) (message_type r) (message_id r) (message_size r) (message_page_id r).

Definition new_Galileo_HAS_page : Galileo_HAS_page := {|
  has_message_string := [];
  time_stamp := 0;
  page_tow := 0;
  has_status := 0;
  page_reserved := 0;
  message_type := 0;
  message_id := 0;
  message_size := 0;
  message_page_id := 0
|}.

(** ** Messages *)

Record mt1_header := mkmt1_header {
  toh : Z;
  mask_id : Z;
  iod_set_id : Z;
  reserved : Z;
  mask_flag : bool;
  orbit_correction_flag : bool;
  clock_fullset_flag : bool;
  clock_subset_flag : bool;
  code_bias_flag : bool;
  phase_bias_flag : bool
}.
#[export] Instance eta_mt1_header : Eta mt1_header := fun r =>
  mkmt1_header (toh r) (mask_id r) (iod_set_id r) (reserved r) (mask_flag r) (orbit_correction_flag r)
    (clock_fullset_flag r) (clock_subset_flag r) (code_bias_flag r) (phase_bias_flag r).

Definition new_mt1_header : mt1_header := {|
  toh := 0;
  mask_id := 0;
  iod_set_id := 0;
  reserved := 0;
  mask_flag := false;
  orbit_correction_flag := false;
  clock_fullset_flag := false;
  clock_subset_flag := false;
  code_bias_flag := false;
  phase_bias_flag := false
|}.

Record Galileo_HAS_data := mkGalileo_HAS_data {
  gnss_id_mask : list Z;
  satellite_mask : list Z;
  signal_mask : list Z;
  cell_mask_availability_flag : list bool;
  cell_mask : list (list (list bool));
  nav_message : list Z;
  gnss_iod : list Z;
  delta_radial : list Z;
  delta_in_track : list Z;
  delta_cross_track : list Z;
  delta_clock_multiplier : list Z;
  delta_clock_correction : list Z;
  gnss_id_clock_subset : list Z;
  delta_clock_multiplier_clock_subset : list Z;
  satellite_submask : list Z;
  delta_clock_correction_clock_subset : list (list Z);
  code_bias : list (list Z);
  phase_bias : list (list Z);
  phase_discontinuity_indicator : list (list Z);
  has_data_tow : Z;
  header : mt1_header;
  data_has_status : Z;
  data_message_id : Z;
  Nsys : Z;
  Nsys_sub : Z;
  validity_interval_index_orbit_corrections : Z;
  validity_interval_index_clock_fullset_corrections : Z;
  validity_interval_index_clock_subset_corrections : Z;
  validity_interval_index_code_bias_corrections : Z;
  validity_interval_index_phase_bias_corrections : Z
}.
#[export] Instance eta_Galileo_HAS_data : Eta Galileo_HAS_data := fun r =>
  mkGalileo_HAS_data (gnss_id_mask r) (satellite_mask r) (signal_mask r) (cell_mask_availability_flag r)
    (cell_mask r) (nav_message r) (gnss_iod r) (delta_radial r) (delta_in_track r)
    (delta_cross_track r) (delta_clock_multiplier r) (delta_clock_correction r)
    (gnss_id_clock_subset r) (delta_clock_multiplier_clock_subset r) (satellite_submask r)
    (delta_clock_correction_clock_subset r) (code_bias r) (phase_bias r)
    (phase_discontinuity_indicator r) (has_data_tow r) (header r) (data_has_status r)
    (data_message_id r) (Nsys r) (Nsys_sub r) (validity_interval_index_orbit_corrections r)
    (validity_interval_index_clock_fullset_corrections r)
    (validity_interval_index_clock_subset_corrections r)
    (validity_interval_index_code_bias_corrections r)
    (validity_interval_index_phase_bias_corrections r).

(** [Galileo_HAS_data()]. *)
Definition new_Galileo_HAS_data : Galileo_HAS_data := {|
  gnss_id_mask := [];
  satellite_mask := [];
  signal_mask := [];
  cell_mask_availability_flag := [];
  cell_mask := [];
  nav_message := [];
  gnss_iod := [];
  delta_radial := [];
  delta_in_track := [];
  delta_cross_track := [];
  delta_clock_multiplier := [];
  delta_clock_correction := [];
  gnss_id_clock_subset := [];
  delta_clock_multiplier_clock_subset := [];
  satellite_submask := [];
  delta_clock_correction_clock_subset := [];
  code_bias := [];
  phase_bias := [];
  phase_discontinuity_indicator := [];
  has_data_tow := 0;
  header := new_mt1_header;
  data_has_status := 0;
  data_message_id := 0;
  Nsys := 0;
  Nsys_sub := 0;
  validity_interval_index_orbit_corrections := 0;
  validity_interval_index_clock_fullset_corrections := 0;
  validity_interval_index_clock_subset_corrections := 0;
  validity_interval_index_code_bias_corrections := 0;
  validity_interval_index_phase_bias_corrections := 0
|}.

(** ** Getters *)

(** The string of a mask, and the PRNs of its ones. *)
Definition mask_string (N : Z) (mask : Z) : cstring :=
  bitset_to_string (bitset_of_ulong (Z.to_nat N) mask).

Definition prns_of (s : cstring) : list Z :=
  for_range 0 HAS_MSG_NUMBER_SATELLITE_IDS
    (fun i prn => if Ascii.eqb (vget "0"%char s i) "1" then prn ++ [i + 1] else prn) [].

Definition get_PRNs_in_mask (d : Galileo_HAS_data) (nsys : Z) : list Z :=
  if nsys <? Z.of_nat (length (satellite_mask d)) then
    prns_of (mask_string HAS_MSG_NUMBER_SATELLITE_IDS (vget 0 (satellite_mask d) nsys))
  else [].

(** [std::find(v.begin(), v.end(), x) - v.begin()]: the length when absent. *)
Fixpoint find_index (x : Z) (v : list Z) : Z :=
  match v with
  | [] => 0
  | y :: v => if y =? x then 0 else 1 + find_index x v
  end.

(** The lowest [n - 1] bits of a submask, the highest of them first. *)
Definition submask_string (n mask : Z) : cstring :=
  (for_range 0 (n - 1)
     (fun _ '(s, aux) =>
        ((if 1 <=? Z.land aux mask then "1"%char else "0"%char) :: s, u64 (Z.shiftl aux 1)))
     ([], 1)).1.

Definition get_PRNs_in_submask (d : Galileo_HAS_data) (nsys : Z) : outcome (list Z) :=
  if nsys <? Z.of_nat (length (satellite_submask d)) then
    let* gnss_id := vat (gnss_id_clock_subset d) nsys in
    let index := find_index gnss_id (gnss_id_mask d) in
    if index =? Z.of_nat (length (gnss_id_mask d)) then Returns [] else
    let nsys_index_in_mask := vget 0 (gnss_id_mask d) index in
    let* sat_mask := vat (satellite_mask d) nsys_index_in_mask in
    let mask_bit_str := mask_string HAS_MSG_NUMBER_SATELLITE_IDS sat_mask in
    let prn := prns_of mask_bit_str in
    let number_sats_this_gnss_id := count_ones mask_bit_str in
    let* sat_submask := vat (satellite_submask d) nsys in
    let sat_submask_str := submask_string number_sats_this_gnss_id sat_submask in
    (* the character at [size()] is the terminating null *)
    Returns (for_range 0 number_sats_this_gnss_id
      (fun i out => if Ascii.eqb (vget "000"%char sat_submask_str i) "1"
                    then out ++ [vget 0 prn i] else out) [])
  else Returns [].

Definition signal_name (k system : Z) : cstring :=
  let name gps galileo :=
    if system =? 0 then str gps else if system =? 2 then str galileo else str "Unknown" in
  match k with
  | 0 => name "L1 C/A" "E1-B I/NAV OS"
  | 1 => name "Reserved" "E1-C"
  | 2 => name "Reserved" "E1-B + E1-C"
  | 3 => name "L1C(D)" "E5a-I F/NAV OS"
  | 4 => name "L1C(P)" "E5a-Q"
  | 5 => name "L1C(D+P)" "E5a-I+E5a-Q"
  | 6 => name "L2 CM" "E5b-I I/NAV OS"
  | 7 => name "L2 CL" "E5b-Q"
  | 8 => name "L2 CM+CL" "E5b-I+E5b-Q"
  | 9 => name "L2 P" "E5-I"
  | 10 => name "Reserved" "E5-Q"
  | 11 => name "L5 I" "E5-I + E5-Q"
  | 12 => name "L5 Q" "E6-B C/NAV HAS"
  | 13 => name "L5 I + L5 Q" "E6-C"
  | 14 => name "Reserved" "E6-B + E6-C"
  | 15 => name "Reserved" "Reserved"
  | _ => str "Unknown"
  end%string.

Definition get_signals_in_mask (d : Galileo_HAS_data) (nsys : Z) : outcome (list cstring) :=
  if nsys <? Z.of_nat (length (signal_mask d)) then
    let* sig := vat (signal_mask d) nsys in
    let bits_str := mask_string HAS_MSG_NUMBER_SIGNAL_MASKS sig in
    for_range 0 HAS_MSG_NUMBER_SIGNAL_MASKS
      (fun k out =>
         if Ascii.eqb (vget "0"%char bits_str k) "1" then
           let* signals := out in
           let* system := vat (gnss_id_mask d) nsys in
           Returns (signals ++ [signal_name k system])
         else out)
      (Returns [])
  else Returns [].

(** The [return] inside the loop is the [Some] of the accumulator. *)
Definition get_gnss_id (d : Galileo_HAS_data) (nsat : Z) : Z :=
  default HAS_MSG_WRONG_SYSTEM
    (for_range 0 (Nsys d)
       (fun i '(number_sats, found) =>
          match found with
          | Some _ => (number_sats, found)
          | None =>
              let number_sats := number_sats + Z.of_nat (length (get_PRNs_in_mask d i)) in
              (number_sats, if nsat <? number_sats then Some (vget 0 (gnss_id_mask d) i) else None)
          end)
       (0, None)).2.

Definition get_validity_interval_s (validity_interval_index : Z) : Z :=
  match validity_interval_index with
  | 0 => 5 | 1 => 10 | 2 => 15 | 3 => 20 | 4 => 30 | 5 => 60 | 6 => 90 | 7 => 120
  | 8 => 180 | 9 => 240 | 10 => 300 | 11 => 600 | 12 => 900 | 13 => 1800 | 14 => 3600
  | _ => 0
  end.

Definition get_num_satellites (d : Galileo_HAS_data) : outcome (list Z) :=
  if Nsys d =? 0 then Returns [] else
  outcome_mapM
    (fun i => let* mask := vat (satellite_mask d) i in
              Returns (u8 (count_ones (mask_string HAS_MSG_SATELLITE_MASK_LENGTH mask))))
    (seqZ 0 (Nsys d)).

(** The values of one system, out of a vector with one value per satellite:
    [get_gnss_iod(nsys)], and the same loop of [get_delta_radial_m(nsys)] and
    its siblings. *)
Definition values_of_system {A} (num_satellites : list Z) (nsys : Z) (values : list A)
  : outcome (list A) :=
  let* r := for_range 0 (nsys + 1)
    (fun sys acc =>
       let* p := acc in
       let* num_sats_in_system := vat num_satellites sys in
       if negb (sys =? nsys) then Returns (p.1 + num_sats_in_system, p.2)
       else for_range 0 num_sats_in_system
              (fun _ acc => let* q := acc in
                            let* v := vat values q.1 in
                            Returns (q.1 + 1, q.2 ++ [v]))
              (Returns p))
    (Returns (0, [])) in
  Returns r.2.

Definition get_gnss_iod (d : Galileo_HAS_data) (nsys : Z) : outcome (list Z) :=
  if Nsys d <=? nsys then Returns (gnss_iod d) else
  let* num_satellites := get_num_satellites d in
  values_of_system num_satellites nsys (gnss_iod d).

Definition get_nsat (d : Galileo_HAS_data) : outcome Z :=
  let* num_satellites := get_num_satellites d in
  Returns (wrap 16 (fold_left Z.add num_satellites 0)).

Definition get_systems_string (d : Galileo_HAS_data) : outcome (list cstring) :=
  let systems := replicate (length (gnss_id_mask d)) (str "") in
  for_range 0 (Nsys d)
    (fun i acc =>
       let* systems := acc in
       let* id := vat (gnss_id_mask d) i in
       let system := if id =? 0 then str "GPS" else str "Reserved" in
       let system := if id =? 2 then str "Galileo" else system in
       vput systems i system)
    (Returns systems).

Definition get_nsat_sub (d : Galileo_HAS_data) : Z :=
  wrap 16 (Z.of_nat (length (delta_clock_correction_clock_subset d))).
