(* ===== verification/CnavMessage.v ===== *)
(** * CnavMessage: the Galileo E6-B C/NAV message decoder

    [class Galileo_Cnav_Message] of
    [src/src/core/system_parameters/galileo_cnav_message.{h,cc}]: a page is
    accepted when its CRC holds, its header is read unless it is the dummy
    header, and pages of status 0 and 1 are handed on. *)

From S2P Require Import Prelude Cstring InavMessage HasData.
From stdpp Require Import list strings.
From Stdlib Require Import ZArith Lia Ascii.
Local Open Scope Z_scope.
Local Open Scope cxx_scope.

Class Boost_CNAV := {
  (** The checksum of [CRC_Galileo_CNAV_type] after [process_bytes]. *)
  crc_galileo_cnav : list Z -> Z
}.

Record Galileo_Cnav_Message := mkGalileo_Cnav_Message {
  has_page : Galileo_HAS_page;
  d_has_page_status : Z;
  d_has_reserved : Z;
  d_received_message_page_id : Z;
  d_received_message_type : Z;
  d_received_message_id : Z;
  d_received_message_size : Z;
  d_test_mode : bool;
  d_flag_CRC_test : bool;
  d_page_dummy : bool;
  d_new_HAS_page : bool
}.
#[export] Instance eta_Galileo_Cnav_Message : Eta Galileo_Cnav_Message := fun r =>
  mkGalileo_Cnav_Message (has_page r) (d_has_page_status r) (d_has_reserved r)
    (d_received_message_page_id r) (d_received_message_type r) (d_received_message_id r)
    (d_received_message_size r) (d_test_mode r) (d_flag_CRC_test r) (d_page_dummy r)
    (d_new_HAS_page r).

Definition new_Galileo_Cnav_Message : Galileo_Cnav_Message :=
  mkGalileo_Cnav_Message new_Galileo_HAS_page 0 0 0 0 0 0 false false false false.

Definition is_HAS_in_test_mode (m : Galileo_Cnav_Message) : bool := d_test_mode m.
Definition is_HAS_page_dummy (m : Galileo_Cnav_Message) : bool := d_page_dummy m.
Definition have_new_HAS_page (m : Galileo_Cnav_Message) : bool := d_new_HAS_page m.
Definition get_HAS_encoded_page (m : Galileo_Cnav_Message) : Galileo_HAS_page := has_page m.
Definition get_flag_CRC_test_cnav (m : Galileo_Cnav_Message) : bool := d_flag_CRC_test m.
Definition set_time_stamp (t : Z) (m : Galileo_Cnav_Message) : Galileo_Cnav_Message :=
  m <| has_page ::= fun p => p <| time_stamp := t |> |>.
Definition set_tow (tow : Z) (m : Galileo_Cnav_Message) : Galileo_Cnav_Message :=
  m <| has_page ::= fun p => p <| page_tow := tow |> |>.

(** [read_has_page_header_parameter], on the bits of a bitset of [N]. *)
Definition read_parameter (w N : Z) (bits : list bool) (parameter : Z * Z) : Z :=
  for_range 0 parameter.2
    (fun j value =>
       let value := wrap w (Z.shiftl value 1) in
       if vget false bits (N - parameter.1 - j) then wrap w (value + 1) else value)
    0.
Definition read_has_page_header_parameter (bits : list bool) (parameter : Z * Z) : Z :=
  read_parameter 8 GALILEO_CNAV_PAGE_HEADER_BITS bits parameter.

Definition CNAV_CRC_test `{Boost} `{Boost_CNAV} (bits : list bool) (checksum : Z) : bool :=
  let bytes := rev (to_block_range (bitset_to_string bits)) in
  checksum =? crc_galileo_cnav (take (Z.to_nat GALILEO_CNAV_BYTES_FOR_CRC) bytes).

Definition dummy_header : cstring := str "101011110011101111000011".

Definition read_HAS_page_header (page_string : cstring) : prog Galileo_Cnav_Message unit :=
  let dummy := bool_decide (page_string = dummy_header) in
  modify (fun m => m <| d_page_dummy := dummy |>);;
  if dummy then ret tt else
  has_page_header <-
    lift (bitset_of_string (Z.to_nat GALILEO_CNAV_PAGE_HEADER_BITS) page_string);;
  let read := read_has_page_header_parameter has_page_header in
  modify (fun m => m
    <| d_has_page_status := read GALILEO_HAS_STATUS |>
    <| d_has_reserved := read GALILEO_HAS_RESERVED |>
    <| d_received_message_type := read GALILEO_HAS_MESSAGE_TYPE |>
    <| d_received_message_id := read GALILEO_HAS_MESSAGE_ID |>
    <| d_received_message_size := u8 (read GALILEO_HAS_MESSAGE_SIZE + 1) |>
    <| d_received_message_page_id := read GALILEO_HAS_MESSAGE_PAGE_ID |>).

(** The page that an accepted header and message make. *)
Definition store_HAS_page (message : cstring) (m : Galileo_Cnav_Message) : Galileo_Cnav_Message :=
  let m := m <| has_page ::= fun p => p <| has_message_string := message |> |> in
  let m :=
    if d_page_dummy m then m else
    m <| has_page ::= fun p => p
      <| has_status := d_has_page_status m |>
      <| page_reserved := d_has_reserved m |>
      <| message_type := d_received_message_type m |>
      <| message_id := d_received_message_id m |>
      <| message_size := d_received_message_size m |>
      <| message_page_id := d_received_message_page_id m |> |> in
  m <| d_new_HAS_page := true |>.

Definition read_HAS_page `{Boost} `{Boost_CNAV} (page_string : cstring)
  : prog Galileo_Cnav_Message unit :=
  has_page_bits <- lift (substr page_string 0 GALILEO_CNAV_BITS_FOR_CRC);;
  CRC_data <- lift (substr page_string GALILEO_CNAV_BITS_FOR_CRC GALILEO_CNAV_CRC_LENGTH);;
  Word_for_CRC_bits <-
    lift (bitset_of_string (Z.to_nat GALILEO_CNAV_BITS_FOR_CRC) has_page_bits);;
  checksum <- lift (bitset_of_string (Z.to_nat GALILEO_CNAV_CRC_LENGTH) CRC_data);;
  modify (fun m => m <| d_new_HAS_page := false |>
                     <| has_page := new_Galileo_HAS_page <| page_tow := uint32_max |> |>);;
  let ok := CNAV_CRC_test Word_for_CRC_bits (u32 (bitset_to_ulong checksum)) in
  modify (fun m => m <| d_flag_CRC_test := ok |>);;
  if ok then
    page_header <- lift (substr page_string GALILEO_CNAV_PAGE_RESERVED_BITS
                                GALILEO_CNAV_PAGE_HEADER_BITS);;
    read_HAS_page_header page_header;;
    modify (fun m => m <| d_test_mode := negb (d_page_dummy m) && (d_has_page_status m =? 0) |>);;
    use_has <- gets (fun m => negb (d_page_dummy m) &&
                              ((d_has_page_status m =? 0) || (d_has_page_status m =? 1)));;
    dummy <- gets d_page_dummy;;
    if use_has || dummy then
      message <- lift (substr page_string
        (GALILEO_CNAV_PAGE_RESERVED_BITS + GALILEO_CNAV_PAGE_HEADER_BITS)
        GALILEO_CNAV_MESSAGE_BITS_PER_PAGE);;
      modify (store_HAS_page message)
    else ret tt
  else ret tt.
