(* ===== verification/FnavTables.v ===== *)
(** * FnavTables: the layout of the Galileo F/NAV pages

    [src/src/core/system_parameters/Galileo_FNAV.h], and the page structure of
    [Galileo_E5a.h]. *)

From S2P Require Import Prelude Cstring Float64 MathConstants InavTables.
From stdpp Require Import list strings.
From Stdlib Require Import ZArith Lia.
Local Open Scope Z_scope.

Definition GALILEO_E5A_I_SECONDARY_CODE_LENGTH : Z := 20.
Definition GALILEO_E5A_CODE_PERIOD_MS : Z := 1.
Definition GALILEO_FNAV_PREAMBLE_LENGTH_BITS : Z := 12.
Definition GALILEO_FNAV_CODES_PER_SYMBOL : Z := 20.
Definition GALILEO_FNAV_CODES_PER_PREAMBLE : Z := 240.
Definition GALILEO_FNAV_SYMBOLS_PER_PAGE : Z := 500.
Definition GALILEO_FNAV_SECONDS_PER_PAGE : Z := 10.
Definition GALILEO_FNAV_CODES_PER_PAGE : Z := 10000.
Definition GALILEO_FNAV_INTERLEAVER_ROWS : Z := 8.
Definition GALILEO_FNAV_INTERLEAVER_COLS : Z := 61.
Definition GALILEO_FNAV_PAGE_TYPE_BITS : Z := 6.
Definition GALILEO_FNAV_DATA_FRAME_BITS : Z := 214.
Definition GALILEO_FNAV_DATA_FRAME_BYTES : Z := 27.
Definition GALILEO_FNAV_PREAMBLE : cstring := str "101101110000".

Definition FNAV_PAGE_TYPE_BIT : bit_field := [(1, 6)].

(** WORD 1 iono corrections. FNAV (Galileo E5a message) *)
Definition FNAV_SV_ID_PRN_1_BIT : bit_field := [(7, 6)].
Definition FNAV_IO_DNAV_1_BIT : bit_field := [(13, 10)].
Definition FNAV_T0C_1_BIT : bit_field := [(23, 14)].
Definition FNAV_T0C_1_LSB : Z := 60.
Definition FNAV_AF0_1_BIT : bit_field := [(37, 31)].
Definition FNAV_AF0_1_LSB : double := TWO_N34.
Definition FNAV_AF1_1_BIT : bit_field := [(68, 21)].
Definition FNAV_AF1_1_LSB : double := TWO_N46.
Definition FNAV_AF2_1_BIT : bit_field := [(89, 6)].
Definition FNAV_AF2_1_LSB : double := TWO_N59.
Definition FNAV_SISA_1_BIT : bit_field := [(95, 8)].
Definition FNAV_AI0_1_BIT : bit_field := [(103, 11)].
Definition FNAV_AI0_1_LSB : double := TWO_N2.
Definition FNAV_AI1_1_BIT : bit_field := [(114, 11)].
Definition FNAV_AI1_1_LSB : double := TWO_N8.
Definition FNAV_AI2_1_BIT : bit_field := [(125, 14)].
Definition FNAV_AI2_1_LSB : double := TWO_N15.
Definition FNAV_REGION1_1_BIT : bit_field := [(139, 1)].
Definition FNAV_REGION2_1_BIT : bit_field := [(140, 1)].
Definition FNAV_REGION3_1_BIT : bit_field := [(141, 1)].
Definition FNAV_REGION4_1_BIT : bit_field := [(142, 1)].
Definition FNAV_REGION5_1_BIT : bit_field := [(143, 1)].
Definition FNAV_BGD_1_BIT : bit_field := [(144, 10)].
Definition FNAV_BGD_1_LSB : double := TWO_N32.
Definition FNAV_E5AHS_1_BIT : bit_field := [(154, 2)].
Definition FNAV_WN_1_BIT : bit_field := [(156, 12)].
Definition FNAV_TOW_1_BIT : bit_field := [(168, 20)].
Definition FNAV_E5ADVS_1_BIT : bit_field := [(188, 1)].

(** WORD 2 Ephemeris (1/3) *)
Definition FNAV_IO_DNAV_2_BIT : bit_field := [(7, 10)].
Definition FNAV_M0_2_BIT : bit_field := [(17, 32)].
Definition FNAV_M0_2_LSB : double := PI_TWO_N31.
Definition FNAV_OMEGADOT_2_BIT : bit_field := [(49, 24)].
Definition FNAV_OMEGADOT_2_LSB : double := PI_TWO_N43.
Definition FNAV_E_2_BIT : bit_field := [(73, 32)].
Definition FNAV_E_2_LSB : double := TWO_N33.
Definition FNAV_A12_2_BIT : bit_field := [(105, 32)].
Definition FNAV_A12_2_LSB : double := TWO_N19.
Definition FNAV_OMEGA0_2_BIT : bit_field := [(137, 32)].
Definition FNAV_OMEGA0_2_LSB : double := PI_TWO_N31.
Definition FNAV_IDOT_2_BIT : bit_field := [(169, 14)].
Definition FNAV_IDOT_2_LSB : double := PI_TWO_N43.
Definition FNAV_WN_2_BIT : bit_field := [(183, 12)].
Definition FNAV_TOW_2_BIT : bit_field := [(195, 20)].

(** WORD 3 Ephemeris (2/3) *)
Definition FNAV_IO_DNAV_3_BIT : bit_field := [(7, 10)].
Definition FNAV_I0_3_BIT : bit_field := [(17, 32)].
Definition FNAV_I0_3_LSB : double := PI_TWO_N31.
Definition FNAV_W_3_BIT : bit_field := [(49, 32)].
Definition FNAV_W_3_LSB : double := PI_TWO_N31.
Definition FNAV_DELTAN_3_BIT : bit_field := [(81, 16)].
Definition FNAV_DELTAN_3_LSB : double := PI_TWO_N43.
Definition FNAV_CUC_3_BIT : bit_field := [(97, 16)].
Definition FNAV_CUC_3_LSB : double := TWO_N29.
Definition FNAV_CUS_3_BIT : bit_field := [(113, 16)].
Definition FNAV_CUS_3_LSB : double := TWO_N29.
Definition FNAV_CRC_3_BIT : bit_field := [(129, 16)].
Definition FNAV_CRC_3_LSB : double := TWO_N5.
Definition FNAV_CRS_3_BIT : bit_field := [(145, 16)].
Definition FNAV_CRS_3_LSB : double := TWO_N5.
Definition FNAV_T0E_3_BIT : bit_field := [(161, 14)].
Definition FNAV_T0E_3_LSB : Z := 60.
Definition FNAV_WN_3_BIT : bit_field := [(175, 12)].
Definition FNAV_TOW_3_BIT : bit_field := [(187, 20)].

(** WORD 4 Ephemeris (3/3) *)
Definition FNAV_IO_DNAV_4_BIT : bit_field := [(7, 10)].
Definition FNAV_CIC_4_BIT : bit_field := [(17, 16)].
Definition FNAV_CIC_4_LSB : double := TWO_N29.
Definition FNAV_CIS_4_BIT : bit_field := [(33, 16)].
Definition FNAV_CIS_4_LSB : double := TWO_N29.
Definition FNAV_A0_4_BIT : bit_field := [(49, 32)].
Definition FNAV_A0_4_LSB : double := TWO_N30.
Definition FNAV_A1_4_BIT : bit_field := [(81, 24)].
Definition FNAV_A1_4_LSB : double := TWO_N50.
Definition FNAV_DELTATLS_4_BIT : bit_field := [(105, 8)].
Definition FNAV_T0T_4_BIT : bit_field := [(113, 8)].
Definition FNAV_T0T_4_LSB : Z := 3600.
Definition FNAV_W_NOT_4_BIT : bit_field := [(121, 8)].
Definition FNAV_W_NLSF_4_BIT : bit_field := [(129, 8)].
Definition FNAV_DN_4_BIT : bit_field := [(137, 3)].
Definition FNAV_DELTATLSF_4_BIT : bit_field := [(140, 8)].
Definition FNAV_T0G_4_BIT : bit_field := [(148, 8)].
Definition FNAV_T0G_4_LSB : Z := 3600.
Definition FNAV_A0G_4_BIT : bit_field := [(156, 16)].
Definition FNAV_A0G_4_LSB : double := TWO_N35.
Definition FNAV_A1G_4_BIT : bit_field := [(172, 12)].
Definition FNAV_A1G_4_LSB : double := TWO_N51.
Definition FNAV_W_N0G_4_BIT : bit_field := [(184, 6)].
Definition FNAV_TOW_4_BIT : bit_field := [(190, 20)].

(** WORD 5 Almanac SVID1 SVID2(1/2) *)
Definition FNAV_IO_DA_5_BIT : bit_field := [(7, 4)].
Definition FNAV_W_NA_5_BIT : bit_field := [(11, 2)].
Definition FNAV_T0A_5_BIT : bit_field := [(13, 10)].
Definition FNAV_T0A_5_LSB : Z := 600.
Definition FNAV_SVI_D1_5_BIT : bit_field := [(23, 6)].
Definition FNAV_DELTAA12_1_5_BIT : bit_field := [(29, 13)].
Definition FNAV_DELTAA12_5_LSB : double := TWO_N9.
Definition FNAV_E_1_5_BIT : bit_field := [(42, 11)].
Definition FNAV_E_5_LSB : double := TWO_N16.
Definition FNAV_W_1_5_BIT : bit_field := [(53, 16)].
Definition FNAV_W_5_LSB : double := TWO_N15.
Definition FNAV_DELTAI_1_5_BIT : bit_field := [(69, 11)].
Definition FNAV_DELTAI_5_LSB : double := TWO_N14.
Definition FNAV_OMEGA0_1_5_BIT : bit_field := [(80, 16)].
Definition FNAV_OMEGA0_5_LSB : double := TWO_N15.
Definition FNAV_OMEGADOT_1_5_BIT : bit_field := [(96, 11)].
Definition FNAV_OMEGADOT_5_LSB : double := TWO_N33.
Definition FNAV_M0_1_5_BIT : bit_field := [(107, 16)].
Definition FNAV_M0_5_LSB : double := TWO_N15.
Definition FNAV_AF0_1_5_BIT : bit_field := [(123, 16)].
Definition FNAV_AF0_5_LSB : double := TWO_N19.
Definition FNAV_AF1_1_5_BIT : bit_field := [(139, 13)].
Definition FNAV_AF1_5_LSB : double := TWO_N38.
Definition FNAV_E5AHS_1_5_BIT : bit_field := [(152, 2)].
Definition FNAV_SVI_D2_5_BIT : bit_field := [(154, 6)].
Definition FNAV_DELTAA12_2_5_BIT : bit_field := [(160, 13)].
Definition FNAV_E_2_5_BIT : bit_field := [(173, 11)].
Definition FNAV_W_2_5_BIT : bit_field := [(184, 16)].
Definition FNAV_DELTAI_2_5_BIT : bit_field := [(200, 11)].

(** WORD 6 Almanac SVID2(1/2) SVID3 *)
Definition FNAV_IO_DA_6_BIT : bit_field := [(7, 4)].
Definition FNAV_OMEGADOT_2_6_BIT : bit_field := [(23, 11)].
Definition FNAV_M0_2_6_BIT : bit_field := [(34, 16)].
Definition FNAV_AF0_2_6_BIT : bit_field := [(50, 16)].
Definition FNAV_AF1_2_6_BIT : bit_field := [(66, 13)].
Definition FNAV_E5AHS_2_6_BIT : bit_field := [(79, 2)].
Definition FNAV_SVI_D3_6_BIT : bit_field := [(81, 6)].
Definition FNAV_DELTAA12_3_6_BIT : bit_field := [(87, 13)].
Definition FNAV_E_3_6_BIT : bit_field := [(100, 11)].
Definition FNAV_W_3_6_BIT : bit_field := [(111, 16)].
Definition FNAV_DELTAI_3_6_BIT : bit_field := [(127, 11)].
Definition FNAV_OMEGA0_3_6_BIT : bit_field := [(138, 16)].
Definition FNAV_OMEGADOT_3_6_BIT : bit_field := [(154, 11)].
Definition FNAV_M0_3_6_BIT : bit_field := [(165, 16)].
Definition FNAV_AF0_3_6_BIT : bit_field := [(181, 16)].
Definition FNAV_AF1_3_6_BIT : bit_field := [(197, 13)].
Definition FNAV_E5AHS_3_6_BIT : bit_field := [(210, 2)].
