(* ===== verification/FnavMessage.v ===== *)
(** * FnavMessage: the Galileo E5a F/NAV message decoder

    [class Galileo_Fnav_Message] of
    [src/src/core/system_parameters/galileo_fnav_message.{h,cc}]: the CRC gate, the
    six page types, the complete data sets and the getters.  The members that one
    page type fills are grouped in a record of their own. *)

From S2P Require Import Prelude Cstring Float64 MathConstants GalileoData InavTables InavWords InavMessage FnavTables.
From stdpp Require Import list strings.
From Stdlib Require Import ZArith Lia Ascii.
Local Open Scope Z_scope.
Local Open Scope cxx_scope.

Class Boost_FNAV := {
  (** The checksum of [CRC_Galileo_FNAV_type] after [process_bytes]. *)
  crc_galileo_fnav : list Z -> Z
}.

(** ** The readers *)

Definition fnav_read_unsigned (bits : bitset) (parameter : bit_field) : Z :=
  for_slices parameter
    (fun first j value =>
       let value := u64 (Z.shiftl value 1) in
       if vget false bits (GALILEO_FNAV_DATA_FRAME_BITS - first - j)
       then u64 (value + 1) else value)
    0.

(** The sign extension is [value ^= 0x0FFFFFFFFFFFFFFF], of 60 ones: the four
    bits above them are shifted out by a field of four bits or more. *)
Definition fnav_read_signed (bits : bitset) (parameter : bit_field) : Z :=
  let sign := if vget false bits (GALILEO_FNAV_DATA_FRAME_BITS - first_bit parameter)
              then i64 (Z.lxor 0 (Z.ones 60)) else 0 in
  for_slices parameter
    (fun first j value =>
       let value := i64 (Z.land (u64 (i64 (Z.shiftl value 1))) (2 ^ 64 - 2)) in
       if vget false bits (GALILEO_FNAV_DATA_FRAME_BITS - first - j)
       then i64 (value + 1) else value)
    sign.

(** ** Page types *)

(** Read from the bitset of the two pieces of Omega0 joined. *)
Definition om_bit : bit_field := [(0, 12)].

(** Page type 1. *)
Record Fnav1 := mkFnav1 {
  FNAV_SV_ID_PRN_1 : Z;
  FNAV_IODnav_1 : Z;
  FNAV_t0c_1 : Z;
  FNAV_af0_1 : double;
  FNAV_af1_1 : double;
  FNAV_af2_1 : double;
  FNAV_SISA_1 : Z;
  FNAV_ai0_1 : double;
  FNAV_ai1_1 : double;
  FNAV_ai2_1 : double;
  FNAV_region1_1 : bool;
  FNAV_region2_1 : bool;
  FNAV_region3_1 : bool;
  FNAV_region4_1 : bool;
  FNAV_region5_1 : bool;
  FNAV_BGD_1 : double;
  FNAV_E5ahs_1 : Z;
  FNAV_WN_1 : Z;
  FNAV_TOW_1 : Z;
  FNAV_E5advs_1 : bool
}.
Definition new_Fnav1 : Fnav1 :=
  mkFnav1 0 0 0 dzero dzero dzero 0 dzero dzero dzero false false false false false dzero 0 0 0 false.
Definition read_fnav_1 (data_bits : bitset) : Fnav1 := {|
  FNAV_SV_ID_PRN_1 := i32 (fnav_read_unsigned data_bits FNAV_SV_ID_PRN_1_BIT);
  FNAV_IODnav_1 := i32 (fnav_read_unsigned data_bits FNAV_IO_DNAV_1_BIT);
  FNAV_t0c_1 := i32 (i32 (fnav_read_unsigned data_bits FNAV_T0C_1_BIT) * FNAV_T0C_1_LSB);
  FNAV_af0_1 := dmul (double_of_Z (fnav_read_signed data_bits FNAV_AF0_1_BIT)) FNAV_AF0_1_LSB;
  FNAV_af1_1 := dmul (double_of_Z (fnav_read_signed data_bits FNAV_AF1_1_BIT)) FNAV_AF1_1_LSB;
  FNAV_af2_1 := dmul (double_of_Z (fnav_read_signed data_bits FNAV_AF2_1_BIT)) FNAV_AF2_1_LSB;
  FNAV_SISA_1 := i32 (fnav_read_unsigned data_bits FNAV_SISA_1_BIT);
  FNAV_ai0_1 := dmul (double_of_Z (fnav_read_unsigned data_bits FNAV_AI0_1_BIT)) FNAV_AI0_1_LSB;
  FNAV_ai1_1 := dmul (double_of_Z (fnav_read_signed data_bits FNAV_AI1_1_BIT)) FNAV_AI1_1_LSB;
  FNAV_ai2_1 := dmul (double_of_Z (fnav_read_signed data_bits FNAV_AI2_1_BIT)) FNAV_AI2_1_LSB;
  FNAV_region1_1 := negb (fnav_read_unsigned data_bits FNAV_REGION1_1_BIT =? 0);
  FNAV_region2_1 := negb (fnav_read_unsigned data_bits FNAV_REGION2_1_BIT =? 0);
  FNAV_region3_1 := negb (fnav_read_unsigned data_bits FNAV_REGION3_1_BIT =? 0);
  FNAV_region4_1 := negb (fnav_read_unsigned data_bits FNAV_REGION4_1_BIT =? 0);
  FNAV_region5_1 := negb (fnav_read_unsigned data_bits FNAV_REGION5_1_BIT =? 0);
  FNAV_BGD_1 := dmul (double_of_Z (fnav_read_signed data_bits FNAV_BGD_1_BIT)) FNAV_BGD_1_LSB;
  FNAV_E5ahs_1 := i32 (u32 (fnav_read_unsigned data_bits FNAV_E5AHS_1_BIT));
  FNAV_WN_1 := i32 (fnav_read_unsigned data_bits FNAV_WN_1_BIT);
  FNAV_TOW_1 := i32 (fnav_read_unsigned data_bits FNAV_TOW_1_BIT);
  FNAV_E5advs_1 := negb (fnav_read_unsigned data_bits FNAV_E5ADVS_1_BIT =? 0)
|}.

(** Page type 2. *)
Record Fnav2 := mkFnav2 {
  FNAV_IODnav_2 : Z;
  FNAV_M0_2 : double;
  FNAV_omegadot_2 : double;
  FNAV_e_2 : double;
  FNAV_a12_2 : double;
  FNAV_omega0_2 : double;
  FNAV_idot_2 : double;
  FNAV_WN_2 : Z;
  FNAV_TOW_2 : Z
}.
Definition new_Fnav2 : Fnav2 :=
  mkFnav2 0 dzero dzero dzero dzero dzero dzero 0 0.
Definition read_fnav_2 (data_bits : bitset) : Fnav2 := {|
  FNAV_IODnav_2 := i32 (fnav_read_unsigned data_bits FNAV_IO_DNAV_2_BIT);
  FNAV_M0_2 := dmul (double_of_Z (fnav_read_signed data_bits FNAV_M0_2_BIT)) FNAV_M0_2_LSB;
  FNAV_omegadot_2 := dmul (double_of_Z (fnav_read_signed data_bits FNAV_OMEGADOT_2_BIT)) FNAV_OMEGADOT_2_LSB;
  FNAV_e_2 := dmul (double_of_Z (fnav_read_unsigned data_bits FNAV_E_2_BIT)) FNAV_E_2_LSB;
  FNAV_a12_2 := dmul (double_of_Z (fnav_read_unsigned data_bits FNAV_A12_2_BIT)) FNAV_A12_2_LSB;
  FNAV_omega0_2 := dmul (double_of_Z (fnav_read_signed data_bits FNAV_OMEGA0_2_BIT)) FNAV_OMEGA0_2_LSB;
  FNAV_idot_2 := dmul (double_of_Z (fnav_read_signed data_bits FNAV_IDOT_2_BIT)) FNAV_IDOT_2_LSB;
  FNAV_WN_2 := i32 (fnav_read_unsigned data_bits FNAV_WN_2_BIT);
  FNAV_TOW_2 := i32 (fnav_read_unsigned data_bits FNAV_TOW_2_BIT)
|}.

(** Page type 3. *)
Record Fnav3 := mkFnav3 {
  FNAV_IODnav_3 : Z;
  FNAV_i0_3 : double;
  FNAV_w_3 : double;
  FNAV_deltan_3 : double;
  FNAV_Cuc_3 : double;
  FNAV_Cus_3 : double;
  FNAV_Crc_3 : double;
  FNAV_Crs_3 : double;
  FNAV_t0e_3 : Z;
  FNAV_WN_3 : Z;
  FNAV_TOW_3 : Z
}.
Definition new_Fnav3 : Fnav3 :=
  mkFnav3 0 dzero dzero dzero dzero dzero dzero dzero 0 0 0.
Definition read_fnav_3 (data_bits : bitset) : Fnav3 := {|
  FNAV_IODnav_3 := i32 (fnav_read_unsigned data_bits FNAV_IO_DNAV_3_BIT);
  FNAV_i0_3 := dmul (double_of_Z (fnav_read_signed data_bits FNAV_I0_3_BIT)) FNAV_I0_3_LSB;
  FNAV_w_3 := dmul (double_of_Z (fnav_read_signed data_bits FNAV_W_3_BIT)) FNAV_W_3_LSB;
  FNAV_deltan_3 := dmul (double_of_Z (fnav_read_signed data_bits FNAV_DELTAN_3_BIT)) FNAV_DELTAN_3_LSB;
  FNAV_Cuc_3 := dmul (double_of_Z (fnav_read_signed data_bits FNAV_CUC_3_BIT)) FNAV_CUC_3_LSB;
  FNAV_Cus_3 := dmul (double_of_Z (fnav_read_signed data_bits FNAV_CUS_3_BIT)) FNAV_CUS_3_LSB;
  FNAV_Crc_3 := dmul (double_of_Z (fnav_read_signed data_bits FNAV_CRC_3_BIT)) FNAV_CRC_3_LSB;
  FNAV_Crs_3 := dmul (double_of_Z (fnav_read_signed data_bits FNAV_CRS_3_BIT)) FNAV_CRS_3_LSB;
  FNAV_t0e_3 := i32 (i32 (fnav_read_unsigned data_bits FNAV_T0E_3_BIT) * FNAV_T0E_3_LSB);
  FNAV_WN_3 := i32 (fnav_read_unsigned data_bits FNAV_WN_3_BIT);
  FNAV_TOW_3 := i32 (fnav_read_unsigned data_bits FNAV_TOW_3_BIT)
|}.

(** Page type 4. *)
Record Fnav4 := mkFnav4 {
  FNAV_IODnav_4 : Z;
  FNAV_Cic_4 : double;
  FNAV_Cis_4 : double;
  FNAV_A0_4 : double;
  FNAV_A1_4 : double;
  FNAV_deltatls_4 : Z;
  FNAV_t0t_4 : Z;
  FNAV_WNot_4 : Z;
  FNAV_WNlsf_4 : Z;
  FNAV_DN_4 : Z;
  FNAV_deltatlsf_4 : Z;
  FNAV_t0g_4 : Z;
  FNAV_A0g_4 : double;
  FNAV_A1g_4 : double;
  FNAV_WN0g_4 : Z;
  FNAV_TOW_4 : Z
}.
Definition new_Fnav4 : Fnav4 :=
  mkFnav4 0 dzero dzero dzero dzero 0 0 0 0 0 0 0 dzero dzero 0 0.
Definition read_fnav_4 (data_bits : bitset) : Fnav4 := {|
  FNAV_IODnav_4 := i32 (fnav_read_unsigned data_bits FNAV_IO_DNAV_4_BIT);
  FNAV_Cic_4 := dmul (double_of_Z (fnav_read_signed data_bits FNAV_CIC_4_BIT)) FNAV_CIC_4_LSB;
  FNAV_Cis_4 := dmul (double_of_Z (fnav_read_signed data_bits FNAV_CIS_4_BIT)) FNAV_CIS_4_LSB;
  FNAV_A0_4 := dmul (double_of_Z (fnav_read_signed data_bits FNAV_A0_4_BIT)) FNAV_A0_4_LSB;
  FNAV_A1_4 := dmul (double_of_Z (fnav_read_signed data_bits FNAV_A1_4_BIT)) FNAV_A1_4_LSB;
  FNAV_deltatls_4 := i32 (fnav_read_signed data_bits FNAV_DELTATLS_4_BIT);
  FNAV_t0t_4 := i32 (i32 (fnav_read_unsigned data_bits FNAV_T0T_4_BIT) * FNAV_T0T_4_LSB);
  FNAV_WNot_4 := i32 (fnav_read_unsigned data_bits FNAV_W_NOT_4_BIT);
  FNAV_WNlsf_4 := i32 (fnav_read_unsigned data_bits FNAV_W_NLSF_4_BIT);
  FNAV_DN_4 := i32 (fnav_read_unsigned data_bits FNAV_DN_4_BIT);
  FNAV_deltatlsf_4 := i32 (fnav_read_signed data_bits FNAV_DELTATLSF_4_BIT);
  FNAV_t0g_4 := i32 (i32 (fnav_read_unsigned data_bits FNAV_T0G_4_BIT) * FNAV_T0G_4_LSB);
  FNAV_A0g_4 := dmul (double_of_Z (fnav_read_signed data_bits FNAV_A0G_4_BIT)) FNAV_A0G_4_LSB;
  FNAV_A1g_4 := dmul (double_of_Z (fnav_read_signed data_bits FNAV_A1G_4_BIT)) FNAV_A1G_4_LSB;
  FNAV_WN0g_4 := i32 (fnav_read_unsigned data_bits FNAV_W_N0G_4_BIT);
  FNAV_TOW_4 := i32 (fnav_read_unsigned data_bits FNAV_TOW_4_BIT)
|}.

(** Page type 5. *)
Record Fnav5 := mkFnav5 {
  FNAV_IODa_5 : Z;
  FNAV_WNa_5 : Z;
  FNAV_t0a_5 : Z;
  FNAV_SVID1_5 : Z;
  FNAV_Deltaa12_1_5 : double;
  FNAV_e_1_5 : double;
  FNAV_w_1_5 : double;
  FNAV_deltai_1_5 : double;
  FNAV_Omega0_1_5 : double;
  FNAV_Omegadot_1_5 : double;
  FNAV_M0_1_5 : double;
  FNAV_af0_1_5 : double;
  FNAV_af1_1_5 : double;
  FNAV_E5ahs_1_5 : Z;
  FNAV_SVID2_5 : Z;
  FNAV_Deltaa12_2_5 : double;
  FNAV_e_2_5 : double;
  FNAV_w_2_5 : double;
  FNAV_deltai_2_5 : double
}.
Definition new_Fnav5 : Fnav5 :=
  mkFnav5 0 0 0 0 dzero dzero dzero dzero dzero dzero dzero dzero dzero 0 0 dzero dzero dzero dzero.
Definition read_fnav_5 (data_bits : bitset) : Fnav5 := {|
  FNAV_IODa_5 := i32 (fnav_read_unsigned data_bits FNAV_IO_DA_5_BIT);
  FNAV_WNa_5 := i32 (fnav_read_unsigned data_bits FNAV_W_NA_5_BIT);
  FNAV_t0a_5 := i32 (i32 (fnav_read_unsigned data_bits FNAV_T0A_5_BIT) * FNAV_T0A_5_LSB);
  FNAV_SVID1_5 := i32 (fnav_read_unsigned data_bits FNAV_SVI_D1_5_BIT);
  FNAV_Deltaa12_1_5 := dmul (double_of_Z (fnav_read_signed data_bits FNAV_DELTAA12_1_5_BIT)) FNAV_DELTAA12_5_LSB;
  FNAV_e_1_5 := dmul (double_of_Z (fnav_read_unsigned data_bits FNAV_E_1_5_BIT)) FNAV_E_5_LSB;
  FNAV_w_1_5 := dmul (double_of_Z (fnav_read_signed data_bits FNAV_W_1_5_BIT)) FNAV_W_5_LSB;
  FNAV_deltai_1_5 := dmul (double_of_Z (fnav_read_signed data_bits FNAV_DELTAI_1_5_BIT)) FNAV_DELTAI_5_LSB;
  FNAV_Omega0_1_5 := dmul (double_of_Z (fnav_read_signed data_bits FNAV_OMEGA0_1_5_BIT)) FNAV_OMEGA0_5_LSB;
  FNAV_Omegadot_1_5 := dmul (double_of_Z (fnav_read_signed data_bits FNAV_OMEGADOT_1_5_BIT)) FNAV_OMEGADOT_5_LSB;
  FNAV_M0_1_5 := dmul (double_of_Z (fnav_read_signed data_bits FNAV_M0_1_5_BIT)) FNAV_M0_5_LSB;
  FNAV_af0_1_5 := dmul (double_of_Z (fnav_read_signed data_bits FNAV_AF0_1_5_BIT)) FNAV_AF0_5_LSB;
  FNAV_af1_1_5 := dmul (double_of_Z (fnav_read_signed data_bits FNAV_AF1_1_5_BIT)) FNAV_AF1_5_LSB;
  FNAV_E5ahs_1_5 := u32 (fnav_read_unsigned data_bits FNAV_E5AHS_1_5_BIT);
  FNAV_SVID2_5 := i32 (fnav_read_unsigned data_bits FNAV_SVI_D2_5_BIT);
  FNAV_Deltaa12_2_5 := dmul (double_of_Z (fnav_read_signed data_bits FNAV_DELTAA12_2_5_BIT)) FNAV_DELTAA12_5_LSB;
  FNAV_e_2_5 := dmul (double_of_Z (fnav_read_unsigned data_bits FNAV_E_2_5_BIT)) FNAV_E_5_LSB;
  FNAV_w_2_5 := dmul (double_of_Z (fnav_read_signed data_bits FNAV_W_2_5_BIT)) FNAV_W_5_LSB;
  FNAV_deltai_2_5 := dmul (double_of_Z (fnav_read_signed data_bits FNAV_DELTAI_2_5_BIT)) FNAV_DELTAI_5_LSB
|}.

(** Page type 6. *)
Record Fnav6 := mkFnav6 {
  FNAV_IODa_6 : Z;
  FNAV_Omega0_2_6 : double;
  FNAV_Omegadot_2_6 : double;
  FNAV_M0_2_6 : double;
  FNAV_af0_2_6 : double;
  FNAV_af1_2_6 : double;
  FNAV_E5ahs_2_6 : Z;
  FNAV_SVID3_6 : Z;
  FNAV_Deltaa12_3_6 : double;
  FNAV_e_3_6 : double;
  FNAV_w_3_6 : double;
  FNAV_deltai_3_6 : double;
  FNAV_Omega0_3_6 : double;
  FNAV_Omegadot_3_6 : double;
  FNAV_M0_3_6 : double;
  FNAV_af0_3_6 : double;
  FNAV_af1_3_6 : double;
  FNAV_E5ahs_3_6 : Z
}.
Definition new_Fnav6 : Fnav6 :=
  mkFnav6 0 dzero dzero dzero dzero dzero 0 0 dzero dzero dzero dzero dzero dzero dzero dzero dzero 0.
Definition read_fnav_6 (data_bits : bitset) (omega_bits : bitset) : Fnav6 := {|
  FNAV_IODa_6 := i32 (fnav_read_unsigned data_bits FNAV_IO_DA_6_BIT);
  FNAV_Omega0_2_6 := dmul (double_of_Z (fnav_read_signed omega_bits om_bit)) FNAV_OMEGA0_5_LSB;
  FNAV_Omegadot_2_6 := dmul (double_of_Z (fnav_read_signed data_bits FNAV_OMEGADOT_2_6_BIT)) FNAV_OMEGADOT_5_LSB;
  FNAV_M0_2_6 := dmul (double_of_Z (fnav_read_signed data_bits FNAV_M0_2_6_BIT)) FNAV_M0_5_LSB;
  FNAV_af0_2_6 := dmul (double_of_Z (fnav_read_signed data_bits FNAV_AF0_2_6_BIT)) FNAV_AF0_5_LSB;
  FNAV_af1_2_6 := dmul (double_of_Z (fnav_read_signed data_bits FNAV_AF1_2_6_BIT)) FNAV_AF1_5_LSB;
  FNAV_E5ahs_2_6 := i32 (fnav_read_unsigned data_bits FNAV_E5AHS_2_6_BIT);
  FNAV_SVID3_6 := i32 (fnav_read_unsigned data_bits FNAV_SVI_D3_6_BIT);
  FNAV_Deltaa12_3_6 := dmul (double_of_Z (fnav_read_signed data_bits FNAV_DELTAA12_3_6_BIT)) FNAV_DELTAA12_5_LSB;
  FNAV_e_3_6 := dmul (double_of_Z (fnav_read_unsigned data_bits FNAV_E_3_6_BIT)) FNAV_E_5_LSB;
  FNAV_w_3_6 := dmul (double_of_Z (fnav_read_signed data_bits FNAV_W_3_6_BIT)) FNAV_W_5_LSB;
  FNAV_deltai_3_6 := dmul (double_of_Z (fnav_read_signed data_bits FNAV_DELTAI_3_6_BIT)) FNAV_DELTAI_5_LSB;
  FNAV_Omega0_3_6 := dmul (double_of_Z (fnav_read_signed data_bits FNAV_OMEGA0_3_6_BIT)) FNAV_OMEGA0_5_LSB;
  FNAV_Omegadot_3_6 := dmul (double_of_Z (fnav_read_signed data_bits FNAV_OMEGADOT_3_6_BIT)) FNAV_OMEGADOT_5_LSB;
  FNAV_M0_3_6 := dmul (double_of_Z (fnav_read_signed data_bits FNAV_M0_3_6_BIT)) FNAV_M0_5_LSB;
  FNAV_af0_3_6 := dmul (double_of_Z (fnav_read_signed data_bits FNAV_AF0_3_6_BIT)) FNAV_AF0_5_LSB;
  FNAV_af1_3_6 := dmul (double_of_Z (fnav_read_signed data_bits FNAV_AF1_3_6_BIT)) FNAV_AF1_5_LSB;
  FNAV_E5ahs_3_6 := i32 (fnav_read_unsigned data_bits FNAV_E5AHS_3_6_BIT)
|}.

(** ** The message *)

Record Galileo_Fnav_Message := mkGalileo_Fnav_Message {
  omega0_1 : cstring;
  IOD_ephemeris : Z;
  page_type : Z;
  fnav_1 : Fnav1;
  fnav_2 : Fnav2;
  fnav_3 : Fnav3;
  fnav_4 : Fnav4;
  fnav_5 : Fnav5;
  fnav_6 : Fnav6;
  flag_CRC_test : bool;
  flag_all_ephemeris : bool;
  flag_ephemeris_1 : bool;
  flag_ephemeris_2 : bool;
  flag_ephemeris_3 : bool;
  flag_iono_and_GST : bool;
  flag_TOW_1 : bool;
  flag_TOW_2 : bool;
  flag_TOW_3 : bool;
  flag_TOW_4 : bool;
  flag_TOW_set : bool;
  flag_utc_model : bool;
  flag_all_almanac : bool;
  flag_almanac_1 : bool;
  flag_almanac_2 : bool
}.
#[export] Instance eta_Galileo_Fnav_Message : Eta Galileo_Fnav_Message := fun m =>
  mkGalileo_Fnav_Message
    (omega0_1 m) (IOD_ephemeris m) (page_type m) (fnav_1 m) (fnav_2 m) (fnav_3 m) (fnav_4 m)
    (fnav_5 m) (fnav_6 m) (flag_CRC_test m) (flag_all_ephemeris m) (flag_ephemeris_1 m)
    (flag_ephemeris_2 m) (flag_ephemeris_3 m) (flag_iono_and_GST m) (flag_TOW_1 m)
    (flag_TOW_2 m) (flag_TOW_3 m) (flag_TOW_4 m) (flag_TOW_set m) (flag_utc_model m)
    (flag_all_almanac m) (flag_almanac_1 m) (flag_almanac_2 m).

Definition new_Galileo_Fnav_Message : Galileo_Fnav_Message :=
  mkGalileo_Fnav_Message [] 0 0 new_Fnav1 new_Fnav2 new_Fnav3 new_Fnav4 new_Fnav5 new_Fnav6 false false false false false false false false false false false false false false false.

Definition CRC_test `{Boost} `{Boost_FNAV} (bits : bitset) (checksum : Z) : bool :=
  let bytes := rev (to_block_range (bitset_to_string bits)) in
  checksum =? crc_galileo_fnav (take (Z.to_nat GALILEO_FNAV_DATA_FRAME_BYTES) bytes).

Definition decode_page_1 (bits : bitset) (m : Galileo_Fnav_Message) : Galileo_Fnav_Message :=
  m <| fnav_1 := read_fnav_1 bits |>
    <| flag_TOW_1 := true |> <| flag_TOW_set := true |> <| flag_iono_and_GST := true |>.
Definition decode_page_2 (bits : bitset) (m : Galileo_Fnav_Message) : Galileo_Fnav_Message :=
  m <| fnav_2 := read_fnav_2 bits |>
    <| flag_TOW_2 := true |> <| flag_TOW_set := true |> <| flag_ephemeris_1 := true |>.
Definition decode_page_3 (bits : bitset) (m : Galileo_Fnav_Message) : Galileo_Fnav_Message :=
  m <| fnav_3 := read_fnav_3 bits |>
    <| flag_TOW_3 := true |> <| flag_TOW_set := true |> <| flag_ephemeris_2 := true |>.
Definition decode_page_4 (bits : bitset) (m : Galileo_Fnav_Message) : Galileo_Fnav_Message :=
  m <| fnav_4 := read_fnav_4 bits |>
    <| flag_TOW_4 := true |> <| flag_TOW_set := true |> <| flag_ephemeris_3 := true |>
    <| flag_utc_model := true |>.

Definition decode_page_5 (data : cstring) (bits : bitset) : prog Galileo_Fnav_Message unit :=
  modify (fun m => m <| fnav_5 := read_fnav_5 bits |>);;
  piece <- lift (substr data 210 4);;
  modify (fun m => m <| omega0_1 := piece |> <| flag_almanac_1 := true |>).

(** The places that a parameter reads are those of the bitset. *)
Definition in_bitset (N : Z) (parameter : bit_field) : bool :=
  forallb (fun '(first, len) => (1 <=? first) && (first + len - 1 <=? N)) parameter.

(** [om_bit] starts at 0: its first read is of the bit 214 of a bitset of 214,
    which C++ leaves undefined. *)
Definition decode_page_6 (data : cstring) (bits : bitset) : prog Galileo_Fnav_Message unit :=
  modify (fun m => m <| fnav_6 ::= fun w => mkFnav6 (i32 (fnav_read_unsigned bits FNAV_IO_DA_6_BIT))
    (FNAV_Omega0_2_6 w) (FNAV_Omegadot_2_6 w) (FNAV_M0_2_6 w) (FNAV_af0_2_6 w) (FNAV_af1_2_6 w)
    (FNAV_E5ahs_2_6 w) (FNAV_SVID3_6 w) (FNAV_Deltaa12_3_6 w) (FNAV_e_3_6 w) (FNAV_w_3_6 w)
    (FNAV_deltai_3_6 w) (FNAV_Omega0_3_6 w) (FNAV_Omegadot_3_6 w) (FNAV_M0_3_6 w)
    (FNAV_af0_3_6 w) (FNAV_af1_3_6 w) (FNAV_E5ahs_3_6 w) |>);;
  omega0_2 <- lift (substr data 10 12);;
  first_piece <- gets omega0_1;;
  omega_bits <- lift (bitset_of_string (Z.to_nat GALILEO_FNAV_DATA_FRAME_BITS)
                        (first_piece ++ omega0_2));;
  if in_bitset GALILEO_FNAV_DATA_FRAME_BITS om_bit then
    modify (fun m => m <| fnav_6 := read_fnav_6 bits omega_bits |> <| flag_almanac_2 := true |>)
  else throw undefined_behaviour.

Definition decode_page (data : cstring) : prog Galileo_Fnav_Message unit :=
  data_bits <- lift (bitset_of_string (Z.to_nat GALILEO_FNAV_DATA_FRAME_BITS) data);;
  let type := i32 (fnav_read_unsigned data_bits FNAV_PAGE_TYPE_BIT) in
  modify (fun m => m <| page_type := type |>);;
  match type with
  | 1 => modify (decode_page_1 data_bits)
  | 2 => modify (decode_page_2 data_bits)
  | 3 => modify (decode_page_3 data_bits)
  | 4 => modify (decode_page_4 data_bits)
  | 5 => decode_page_5 data data_bits
  | 6 => decode_page_6 data data_bits
  | _ => ret tt
  end.

Definition split_page `{Boost} `{Boost_FNAV} (page_string : cstring)
  : prog Galileo_Fnav_Message unit :=
  message_word <- lift (substr page_string 0 214);;
  CRC_data <- lift (substr page_string 214 24);;
  Word_for_CRC_bits <-
    lift (bitset_of_string (Z.to_nat GALILEO_FNAV_DATA_FRAME_BITS) message_word);;
  checksum <- lift (bitset_of_string 24 CRC_data);;
  if CRC_test Word_for_CRC_bits (u32 (bitset_to_ulong checksum)) then
    modify (fun m => m <| flag_CRC_test := true |>);;
    decode_page message_word
  else modify (fun m => m <| flag_CRC_test := false |>).

(** ** Complete data sets *)

Definition have_new_ephemeris (m : Galileo_Fnav_Message) : bool * Galileo_Fnav_Message :=
  if flag_ephemeris_1 m && flag_ephemeris_2 m && flag_ephemeris_3 m && flag_iono_and_GST m then
    if (FNAV_IODnav_1 (fnav_1 m) =? FNAV_IODnav_2 (fnav_2 m))
       && (FNAV_IODnav_3 (fnav_3 m) =? FNAV_IODnav_4 (fnav_4 m))
       && (FNAV_IODnav_1 (fnav_1 m) =? FNAV_IODnav_3 (fnav_3 m)) then
      (true, m <| flag_ephemeris_1 := false |> <| flag_ephemeris_2 := false |>
               <| flag_ephemeris_3 := false |> <| flag_all_ephemeris := true |>
               <| IOD_ephemeris := FNAV_IODnav_1 (fnav_1 m) |>)
    else (false, m)
  else (false, m).

Definition have_new_iono_and_GST (m : Galileo_Fnav_Message) : bool * Galileo_Fnav_Message :=
  if flag_iono_and_GST m && flag_utc_model m
  then (true, m <| flag_iono_and_GST := false |>) else (false, m).

Definition have_new_utc_model (m : Galileo_Fnav_Message) : bool * Galileo_Fnav_Message :=
  if flag_utc_model m then (true, m <| flag_utc_model := false |>) else (false, m).

Definition have_new_almanac (m : Galileo_Fnav_Message) : bool * Galileo_Fnav_Message :=
  if flag_almanac_1 m && flag_almanac_2 m
  then (true, m <| flag_almanac_1 := false |> <| flag_almanac_2 := false |>
                <| flag_all_almanac := true |>)
  else (false, m).

(** ** Getters and setters *)

Definition get_TOW1 (m : Galileo_Fnav_Message) : Z := FNAV_TOW_1 (fnav_1 m).
Definition get_TOW2 (m : Galileo_Fnav_Message) : Z := FNAV_TOW_2 (fnav_2 m).
Definition get_TOW3 (m : Galileo_Fnav_Message) : Z := FNAV_TOW_3 (fnav_3 m).
Definition get_TOW4 (m : Galileo_Fnav_Message) : Z := FNAV_TOW_4 (fnav_4 m).
Definition get_flag_CRC_test (m : Galileo_Fnav_Message) : bool := flag_CRC_test m.
Definition get_flag_TOW_set (m : Galileo_Fnav_Message) : bool := flag_TOW_set m.
Definition set_flag_TOW_set (flag_tow : bool) (m : Galileo_Fnav_Message) : Galileo_Fnav_Message :=
  m <| flag_TOW_set := flag_tow |>.
Definition is_TOW1_set (m : Galileo_Fnav_Message) : bool := flag_TOW_1 m.
Definition is_TOW2_set (m : Galileo_Fnav_Message) : bool := flag_TOW_2 m.
Definition is_TOW3_set (m : Galileo_Fnav_Message) : bool := flag_TOW_3 m.
Definition is_TOW4_set (m : Galileo_Fnav_Message) : bool := flag_TOW_4 m.
Definition set_TOW1_flag (flag_tow1 : bool) (m : Galileo_Fnav_Message) : Galileo_Fnav_Message :=
  m <| flag_TOW_1 := flag_tow1 |>.
Definition set_TOW2_flag (flag_tow2 : bool) (m : Galileo_Fnav_Message) : Galileo_Fnav_Message :=
  m <| flag_TOW_2 := flag_tow2 |>.
Definition set_TOW3_flag (flag_tow3 : bool) (m : Galileo_Fnav_Message) : Galileo_Fnav_Message :=
  m <| flag_TOW_3 := flag_tow3 |>.
Definition set_TOW4_flag (flag_tow4 : bool) (m : Galileo_Fnav_Message) : Galileo_Fnav_Message :=
  m <| flag_TOW_4 := flag_tow4 |>.

Definition get_ephemeris (m : Galileo_Fnav_Message) : Galileo_Ephemeris.t :=
  Galileo_Ephemeris.new
    <| Galileo_Ephemeris.flag_all_ephemeris := flag_all_ephemeris m |>
    <| Galileo_Ephemeris.IOD_ephemeris := IOD_ephemeris m |>
    <| Galileo_Ephemeris.PRN := u32 (FNAV_SV_ID_PRN_1 (fnav_1 m)) |>
    <| Galileo_Ephemeris.M_0 := FNAV_M0_2 (fnav_2 m) |>
    <| Galileo_Ephemeris.delta_n := FNAV_deltan_3 (fnav_3 m) |>
    <| Galileo_Ephemeris.ecc := FNAV_e_2 (fnav_2 m) |>
    <| Galileo_Ephemeris.sqrtA := FNAV_a12_2 (fnav_2 m) |>
    <| Galileo_Ephemeris.OMEGA_0 := FNAV_omega0_2 (fnav_2 m) |>
    <| Galileo_Ephemeris.i_0 := FNAV_i0_3 (fnav_3 m) |>
    <| Galileo_Ephemeris.omega := FNAV_w_3 (fnav_3 m) |>
    <| Galileo_Ephemeris.OMEGAdot := FNAV_omegadot_2 (fnav_2 m) |>
    <| Galileo_Ephemeris.idot := FNAV_idot_2 (fnav_2 m) |>
    <| Galileo_Ephemeris.Cuc := FNAV_Cuc_3 (fnav_3 m) |>
    <| Galileo_Ephemeris.Cus := FNAV_Cus_3 (fnav_3 m) |>
    <| Galileo_Ephemeris.Crc := FNAV_Crc_3 (fnav_3 m) |>
    <| Galileo_Ephemeris.Crs := FNAV_Crs_3 (fnav_3 m) |>
    <| Galileo_Ephemeris.Cic := FNAV_Cic_4 (fnav_4 m) |>
    <| Galileo_Ephemeris.Cis := FNAV_Cis_4 (fnav_4 m) |>
    <| Galileo_Ephemeris.toe := FNAV_t0e_3 (fnav_3 m) |>
    <| Galileo_Ephemeris.toc := FNAV_t0c_1 (fnav_1 m) |>
    <| Galileo_Ephemeris.af0 := FNAV_af0_1 (fnav_1 m) |>
    <| Galileo_Ephemeris.af1 := FNAV_af1_1 (fnav_1 m) |>
    <| Galileo_Ephemeris.af2 := FNAV_af2_1 (fnav_1 m) |>
    <| Galileo_Ephemeris.WN := FNAV_WN_3 (fnav_3 m) |>
    <| Galileo_Ephemeris.tow := FNAV_TOW_3 (fnav_3 m) |>
    <| Galileo_Ephemeris.E5a_HS := FNAV_E5ahs_1 (fnav_1 m) |>
    <| Galileo_Ephemeris.E5a_DVS := FNAV_E5advs_1 (fnav_1 m) |>.

Definition get_iono (m : Galileo_Fnav_Message) : Galileo_Iono.t :=
  Galileo_Iono.new
    <| Galileo_Iono.ai0 := FNAV_ai0_1 (fnav_1 m) |>
    <| Galileo_Iono.ai1 := FNAV_ai1_1 (fnav_1 m) |>
    <| Galileo_Iono.ai2 := FNAV_ai2_1 (fnav_1 m) |>
    <| Galileo_Iono.Region1_flag := FNAV_region1_1 (fnav_1 m) |>
    <| Galileo_Iono.Region2_flag := FNAV_region2_1 (fnav_1 m) |>
    <| Galileo_Iono.Region3_flag := FNAV_region3_1 (fnav_1 m) |>
    <| Galileo_Iono.Region4_flag := FNAV_region4_1 (fnav_1 m) |>
    <| Galileo_Iono.Region5_flag := FNAV_region5_1 (fnav_1 m) |>
    <| Galileo_Iono.tow := FNAV_TOW_1 (fnav_1 m) |>
    <| Galileo_Iono.WN := FNAV_WN_1 (fnav_1 m) |>.

Definition get_utc_model (m : Galileo_Fnav_Message) : Galileo_Utc_Model.t :=
  Galileo_Utc_Model.new
    <| Galileo_Utc_Model.A0 := FNAV_A0_4 (fnav_4 m) |>
    <| Galileo_Utc_Model.A1 := FNAV_A1_4 (fnav_4 m) |>
    <| Galileo_Utc_Model.Delta_tLS := FNAV_deltatls_4 (fnav_4 m) |>
    <| Galileo_Utc_Model.tot := FNAV_t0t_4 (fnav_4 m) |>
    <| Galileo_Utc_Model.WNot := FNAV_WNot_4 (fnav_4 m) |>
    <| Galileo_Utc_Model.WN_LSF := FNAV_WNlsf_4 (fnav_4 m) |>
    <| Galileo_Utc_Model.DN := FNAV_DN_4 (fnav_4 m) |>
    <| Galileo_Utc_Model.Delta_tLSF := FNAV_deltatlsf_4 (fnav_4 m) |>
    <| Galileo_Utc_Model.flag_utc_model := flag_utc_model m |>.

Definition get_almanac (m : Galileo_Fnav_Message) : Galileo_Almanac_Helper.t :=
  Galileo_Almanac_Helper.new
    <| Galileo_Almanac_Helper.IOD_a_7 := FNAV_IODa_5 (fnav_5 m) |>
    <| Galileo_Almanac_Helper.WN_a_7 := FNAV_WNa_5 (fnav_5 m) |>
    <| Galileo_Almanac_Helper.t0a_7 := FNAV_t0a_5 (fnav_5 m) |>
    <| Galileo_Almanac_Helper.SVID1_7 := FNAV_SVID1_5 (fnav_5 m) |>
    <| Galileo_Almanac_Helper.DELTA_A_7 := FNAV_Deltaa12_1_5 (fnav_5 m) |>
    <| Galileo_Almanac_Helper.e_7 := FNAV_e_1_5 (fnav_5 m) |>
    <| Galileo_Almanac_Helper.omega_7 := FNAV_w_1_5 (fnav_5 m) |>
    <| Galileo_Almanac_Helper.delta_i_7 := FNAV_deltai_1_5 (fnav_5 m) |>
    <| Galileo_Almanac_Helper.Omega0_7 := FNAV_Omega0_1_5 (fnav_5 m) |>
    <| Galileo_Almanac_Helper.Omega_dot_7 := FNAV_Omegadot_1_5 (fnav_5 m) |>
    <| Galileo_Almanac_Helper.M0_7 := FNAV_M0_1_5 (fnav_5 m) |>
    <| Galileo_Almanac_Helper.IOD_a_8 := FNAV_IODa_5 (fnav_5 m) |>
    <| Galileo_Almanac_Helper.af0_8 := FNAV_af0_1_5 (fnav_5 m) |>
    <| Galileo_Almanac_Helper.af1_8 := FNAV_af1_1_5 (fnav_5 m) |>
    <| Galileo_Almanac_Helper.E5a_HS_8 := FNAV_E5ahs_1_5 (fnav_5 m) |>
    <| Galileo_Almanac_Helper.SVID2_8 := FNAV_SVID2_5 (fnav_5 m) |>
    <| Galileo_Almanac_Helper.DELTA_A_8 := FNAV_Deltaa12_2_5 (fnav_5 m) |>
    <| Galileo_Almanac_Helper.e_8 := FNAV_e_2_5 (fnav_5 m) |>
    <| Galileo_Almanac_Helper.omega_8 := FNAV_w_2_5 (fnav_5 m) |>
    <| Galileo_Almanac_Helper.delta_i_8 := FNAV_deltai_2_5 (fnav_5 m) |>
    <| Galileo_Almanac_Helper.Omega0_8 := FNAV_Omega0_2_6 (fnav_6 m) |>
    <| Galileo_Almanac_Helper.Omega_dot_8 := FNAV_Omegadot_2_6 (fnav_6 m) |>
    <| Galileo_Almanac_Helper.IOD_a_9 := FNAV_IODa_6 (fnav_6 m) |>
    <| Galileo_Almanac_Helper.WN_a_9 := FNAV_WNa_5 (fnav_5 m) |>
    <| Galileo_Almanac_Helper.t0a_9 := FNAV_t0a_5 (fnav_5 m) |>
    <| Galileo_Almanac_Helper.M0_9 := FNAV_M0_2_6 (fnav_6 m) |>
    <| Galileo_Almanac_Helper.af0_9 := FNAV_af0_2_6 (fnav_6 m) |>
    <| Galileo_Almanac_Helper.af1_9 := FNAV_af1_2_6 (fnav_6 m) |>
    <| Galileo_Almanac_Helper.E5a_HS_9 := FNAV_E5ahs_2_6 (fnav_6 m) |>
    <| Galileo_Almanac_Helper.SVID3_9 := FNAV_SVID3_6 (fnav_6 m) |>
    <| Galileo_Almanac_Helper.DELTA_A_9 := FNAV_Deltaa12_3_6 (fnav_6 m) |>
    <| Galileo_Almanac_Helper.e_9 := FNAV_e_3_6 (fnav_6 m) |>
    <| Galileo_Almanac_Helper.omega_9 := FNAV_w_3_6 (fnav_6 m) |>
    <| Galileo_Almanac_Helper.delta_i_9 := FNAV_deltai_3_6 (fnav_6 m) |>
    <| Galileo_Almanac_Helper.IOD_a_10 := FNAV_IODa_6 (fnav_6 m) |>
    <| Galileo_Almanac_Helper.Omega0_10 := FNAV_Omega0_3_6 (fnav_6 m) |>
    <| Galileo_Almanac_Helper.Omega_dot_10 := FNAV_Omegadot_3_6 (fnav_6 m) |>
    <| Galileo_Almanac_Helper.M0_10 := FNAV_M0_3_6 (fnav_6 m) |>
    <| Galileo_Almanac_Helper.af0_10 := FNAV_af0_3_6 (fnav_6 m) |>
    <| Galileo_Almanac_Helper.af1_10 := FNAV_af1_3_6 (fnav_6 m) |>
    <| Galileo_Almanac_Helper.E5a_HS_10 := FNAV_E5ahs_3_6 (fnav_6 m) |>.
