(* ===== verification/FnavProofs.v ===== *)
(** * FnavProofs: what the F/NAV decoder makes of the pages it receives

    A page of 238 bits is 214 bits of data and a checksum.  The ephemeris is
    reported exactly when pages 1 to 4 have arrived, in any order and with any
    repetitions, and the last page of each type carries the same IODnav; its
    integer fields are the bits of those pages.  A page of type 6 reaches an
    access out of range. *)

From S2P Require Import Prelude Cstring BinString Float64 MathConstants GalileoData InavTables InavWords InavReaders InavMessage InavPages FnavTables FnavMessage.
From stdpp Require Import list.
From Stdlib Require Import ZArith Lia Ascii.
Local Open Scope Z_scope.
Local Open Scope cxx_scope.

(** ** Fields of a page *)

Lemma fnav_unsigned_field bs first len :
  length bs = 214%nat -> 1 <= first -> 0 <= len <= 64 -> first - 1 + len <= 214 ->
  fnav_read_unsigned (rev bs) [(first, len)] = field bs (first - 1) len.
Proof.
  intros Hl H1 H2 H3.
  assert (field_bits 214 (rev bs) [(first, len)] = slice bs (first - 1) len) as E.
  { unfold field_bits. cbn [map concat]. rewrite app_nil_r.
    pose proof (slice_bits_rev 214 bs (Z.to_nat first) (Z.to_nat len) Hl ltac:(lia) ltac:(lia)) as E.
    rewrite !Z2Nat.id in E by lia. change (Z.of_nat 214) with 214 in E. rewrite E.
    unfold slice. do 2 f_equal. lia. }
  unfold fnav_read_unsigned, GALILEO_FNAV_DATA_FRAME_BITS. cbv zeta.
  change 0 with (wrap 64 0) at 1. rewrite (unsigned_fold 64) by (lia || (repeat constructor; lia)).
  rewrite E. pose proof (field_range bs (first - 1) len ltac:(lia)).
  assert (2 ^ len <= 2 ^ 64) by (apply Z.pow_le_mono_r; lia).
  apply wrap_small. unfold field in *. lia.
Qed.

(** A field that fits an [int32_t]. *)
Lemma fnav_int_field bs first len :
  length bs = 214%nat -> 1 <= first -> 0 <= len <= 31 -> first - 1 + len <= 214 ->
  i32 (fnav_read_unsigned (rev bs) [(first, len)]) = field bs (first - 1) len.
Proof.
  intros Hl H1 H2 H3. rewrite fnav_unsigned_field by lia.
  pose proof (field_range bs (first - 1) len ltac:(lia)).
  assert (2 ^ len <= 2 ^ 31) by (apply Z.pow_le_mono_r; lia). apply swrap_small; lia.
Qed.

Definition fnav_type (bs : list bool) : Z := field bs 0 6.

(** IODnav follows the SVID in page 1 and the type in pages 2 to 4. *)
Definition fnav_iod (bs : list bool) : Z :=
  if fnav_type bs =? 1 then field bs 12 10 else field bs 6 10.

(** ** One page *)

Definition receive_fnav (bs : list bool) (m : Galileo_Fnav_Message) : Galileo_Fnav_Message :=
  let m := m <| page_type := fnav_type bs |> in
  match fnav_type bs with
  | 1 => decode_page_1 (rev bs) m
  | 2 => decode_page_2 (rev bs) m
  | 3 => decode_page_3 (rev bs) m
  | 4 => decode_page_4 (rev bs) m
  | 5 => m <| fnav_5 := read_fnav_5 (rev bs) |> <| omega0_1 := bits_str (slice bs 210 4) |>
           <| flag_almanac_1 := true |>
  | _ => m
  end.

Lemma decode_page_receive bs m : length bs = 214%nat -> fnav_type bs <> 6 ->
  decode_page (bits_str bs) m = (Returns tt, receive_fnav bs m).
Proof.
  intros Hl H6. unfold decode_page. unfold bind at 1, lift.
  rewrite bitset_of_bits by exact Hl. cbv beta iota zeta. rewrite run_modify.
  unfold FNAV_PAGE_TYPE_BIT. rewrite fnav_int_field by lia. change (1 - 1) with 0.
  fold (fnav_type bs). unfold receive_fnav. cbv zeta.
  destruct (fnav_type bs) as [|p|p]; [reflexivity| |reflexivity].
  do 3 (try destruct p as [p|p|]); try reflexivity; [|lia].
  unfold decode_page_5. rewrite run_modify. unfold bind, lift.
  rewrite substr_slice by (unfold blen; lia). reflexivity.
Qed.

(** The checksum test of a page: its first 214 bits against the 24 after them. *)
Definition fnav_crc_ok `{Boost} `{Boost_FNAV} (page : list bool) : bool :=
  FnavMessage.CRC_test (rev (slice page 0 214)) (field page 214 24).

Lemma fnav_split_page_run `{Boost} `{Boost_FNAV} (page : list bool) m :
  blen page = 238 ->
  FnavMessage.split_page (bits_str page) m =
  if fnav_crc_ok page then decode_page (bits_str (slice page 0 214)) (m <| flag_CRC_test := true |>)
  else (Returns tt, m <| flag_CRC_test := false |>).
Proof.
  intros Hp. unfold FnavMessage.split_page. unfold GALILEO_FNAV_DATA_FRAME_BITS.
  unfold bind, lift. rewrite !substr_slice by lia.
  rewrite !bitset_of_bits by (rewrite slice_length by lia; reflexivity).
  unfold bitset_to_ulong. rewrite rev_involutive.
  change (bin_value (slice page 214 24)) with (field page 214 24).
  rewrite wrap_small by (pose proof (field_range page 214 24 ltac:(lia)); lia).
  fold (fnav_crc_ok page). destruct (fnav_crc_ok page); reflexivity.
Qed.

Lemma decode_page_6_undefined bs m piece : length bs = 214%nat -> fnav_type bs = 6 ->
  omega0_1 m = bits_str piece -> (decode_page (bits_str bs) m).1 = Throws undefined_behaviour.
Proof.
  intros Hl H6 Hm. unfold decode_page. unfold bind at 1, lift at 1.
  rewrite bitset_of_bits by exact Hl. cbv beta iota zeta. rewrite run_modify.
  unfold FNAV_PAGE_TYPE_BIT. rewrite fnav_int_field by lia. change (1 - 1) with 0.
  fold (fnav_type bs). rewrite H6. unfold decode_page_6. rewrite run_modify.
  unfold bind at 1, lift at 1. rewrite substr_slice by (unfold blen; lia).
  rewrite run_gets. cbn [update]. unfold update. cbn [omega0_1]. rewrite Hm, <- bits_str_app.
  unfold bind, lift, bitset_of_string. rewrite bits_str_take, char_bits_str. reflexivity.
Qed.

(** [split_page] of an F/NAV page of 238 bits, on every branch: the CRC is
    tested over the first 214 bits; when it fails only [flag_CRC_test] is lowered;
    when it holds the page is decoded by its type, and for a page of type 6 the
    decoding reaches an access of a bitset out of its range.  A string of fewer
    than 214 characters throws [out_of_range] without any effect. *)
Theorem fnav_split_page_spec `{Boost} `{Boost_FNAV} (page : list bool) (short : cstring)
    (m : Galileo_Fnav_Message) :
  blen page = 238 -> (length short < 214)%nat ->
  (fnav_crc_ok page = false ->
   FnavMessage.split_page (bits_str page) m = (Returns tt, m <| flag_CRC_test := false |>)) /\
  (fnav_crc_ok page = true -> fnav_type page <> 6 ->
   FnavMessage.split_page (bits_str page) m =
   (Returns tt, receive_fnav (slice page 0 214) (m <| flag_CRC_test := true |>))) /\
  (forall piece, fnav_crc_ok page = true -> fnav_type page = 6 -> omega0_1 m = bits_str piece ->
   (FnavMessage.split_page (bits_str page) m).1 = Throws undefined_behaviour) /\
  FnavMessage.split_page short m = (Throws out_of_range, m).
Proof.
  intros Hp Hs. pose proof (slice_length page 0 214 ltac:(lia) ltac:(lia) ltac:(lia)) as Hl.
  assert (fnav_type (slice page 0 214) = fnav_type page) as Ht.
  { unfold fnav_type, field, slice. rewrite !drop_0, take_take. f_equal. }
  rewrite (fnav_split_page_run page) by exact Hp. split; [|split; [|split]].
  - intros ->. reflexivity.
  - intros -> H6. apply decode_page_receive; [exact Hl|rewrite Ht; exact H6].
  - intros piece -> H6 Hm. apply (decode_page_6_undefined _ _ piece); [exact Hl|congruence|exact Hm].
  - unfold FnavMessage.split_page. unfold bind at 1, lift at 1. unfold substr at 1.
    change (size_t 0) with 0. destruct (Z.ltb_spec (Z.of_nat (length short)) 0); [lia|].
    unfold bind at 1, lift at 1. rewrite substr_beyond; [reflexivity|].
    change (size_t 214) with 214. lia.
Qed.

(** A checksum for concrete runs: the exclusive or of the bytes. *)
#[local] Instance sample_boost : Boost := {|
  to_block_range s :=
    let bits := rev (default [] (char_bits s)) in
    map (fun i => bin_value (rev (take 8 (drop (8 * i) bits)))) (seq 0 ((length bits + 7) / 8));
  crc_galileo_inav bytes := fold_left Z.lxor bytes 0
|}.
#[local] Instance sample_boost_fnav : Boost_FNAV := {|
  crc_galileo_fnav bytes := fold_left Z.lxor bytes 0
|}.

(** A page of type 4 with its checksum, and one of type 6. *)
Definition sample_tail (type : Z) : list bool := to_bin 6 type ++ replicate 208 false.
Definition sample_crc (type : Z) : list bool :=
  to_bin 24 (fold_left Z.lxor (to_block_range (bits_str (sample_tail type))) 0).

Lemma fnav_split_page_spec_witness :
  let m := new_Galileo_Fnav_Message in
  let ok := sample_tail 4 ++ sample_crc 4 in
  let bad := sample_tail 6 ++ sample_crc 6 in
  FnavMessage.split_page (bits_str ok) m =
  (Returns tt, receive_fnav (slice ok 0 214) (m <| flag_CRC_test := true |>)) /\
  (FnavMessage.split_page (bits_str bad) m).1 = Throws undefined_behaviour.
Proof.
  intros m ok bad. split.
  - refine (proj1 (proj2 (fnav_split_page_spec ok [] m _ _)) _ _);
      first [vm_compute; reflexivity|vm_compute; lia|vm_compute; discriminate].
  - refine (proj1 (proj2 (proj2 (fnav_split_page_spec bad [] m _ _))) [] _ _ _);
      first [vm_compute; reflexivity|vm_compute; lia].
Defined.

(** ** Signed fields

    The sign extension starts from 60 ones, which is enough for a field of four
    bits or more. *)

Lemma slice_field_bits bs first len :
  length bs = 214%nat -> 1 <= first -> 0 <= len -> first - 1 + len <= 214 ->
  field_bits 214 (rev bs) [(first, len)] = slice bs (first - 1) len.
Proof.
  intros Hl H1 H2 H3. unfold field_bits. cbn [map concat]. rewrite app_nil_r.
  pose proof (slice_bits_rev 214 bs (Z.to_nat first) (Z.to_nat len) Hl ltac:(lia) ltac:(lia)) as E.
  rewrite !Z2Nat.id in E by lia. change (Z.of_nat 214) with 214 in E. rewrite E.
  unfold slice. do 2 f_equal. lia.
Qed.

Definition sfield (bs : list bool) (pos len : Z) : Z := signed_value (slice bs pos len).

Lemma ones_sign len : 4 <= len -> wrap 64 (Z.ones 60 * 2 ^ len) = wrap 64 (-1 * 2 ^ len).
Proof.
  intros H. unfold wrap. replace (2 ^ len) with (2 ^ 4 * 2 ^ (len - 4)).
  2: { rewrite <- Z.pow_add_r by lia. f_equal. lia. }
  rewrite Z.ones_equiv. change (Z.pred (2 ^ 60)) with (2 ^ 60 - 1).
  replace ((2 ^ 60 - 1) * (2 ^ 4 * 2 ^ (len - 4)))
    with (-1 * (2 ^ 4 * 2 ^ (len - 4)) + 2 ^ (len - 4) * 2 ^ 64) by ring.
  apply Z_mod_plus_full.
Qed.

Lemma fnav_signed_field bs first len :
  length bs = 214%nat -> 1 <= first -> 4 <= len <= 64 -> first - 1 + len <= 214 ->
  fnav_read_signed (rev bs) [(first, len)] = sfield bs (first - 1) len.
Proof.
  intros Hl H1 H2 H3. unfold fnav_read_signed, GALILEO_FNAV_DATA_FRAME_BITS. cbv zeta.
  cbn [first_bit]. pose proof (slice_field_bits bs first len Hl H1 ltac:(lia) H3) as E.
  assert (exists tl, slice bs (first - 1) len = vget false (rev bs) (214 - first) :: tl) as [tl Et].
  { rewrite <- E. unfold field_bits. cbn [map concat]. unfold slice_bits.
    rewrite seqZ_cons by lia. cbn [map]. rewrite Z.sub_0_r. eauto. }
  change (i64 (Z.lxor 0 (Z.ones 60))) with (i64 (Z.ones 60)).
  set (b := vget false (rev bs) (214 - first)) in *.
  replace (if b then i64 (Z.ones 60) else 0) with (i64 (if b then Z.ones 60 else 0))
    by (destruct b; reflexivity).
  transitivity (for_slices [(first, len)]
    (fun first j value => if vget false (rev bs) (214 - first - j)
       then i64 (shift_signed value + 1) else shift_signed value)
    (i64 (if b then Z.ones 60 else 0))).
  { unfold for_slices. cbn [fold_left]. apply for_range_rel; [reflexivity|].
    intros j x y _ ->. unfold shift_signed. rewrite Z.shiftl_mul_pow2 by lia. reflexivity. }
  rewrite signed_fold by (repeat constructor; lia).
  rewrite E. unfold sfield. pose proof (slice_length bs (first - 1) len ltac:(lia) ltac:(lia)
    ltac:(unfold blen; lia)) as Hs.
  rewrite Et in *. pose proof (signed_value_range b tl) as Hr. cbn [length] in Hs.
  assert (2 ^ Z.of_nat (length tl) <= 2 ^ 63) by (apply Z.pow_le_mono_r; lia).
  rewrite <- (swrap_small 64 (signed_value (b :: tl))) by lia.
  apply swrap_eq; [lia|]. unfold signed_value. cbn [length]. destruct b.
  - rewrite Hs, Z2Nat.id by lia. unfold wrap. rewrite <- Zplus_mod_idemp_l.
    fold (wrap 64 (Z.ones 60 * 2 ^ len)). rewrite ones_sign by lia. unfold wrap.
    rewrite Zplus_mod_idemp_l. f_equal. lia.
  - f_equal. lia.
Qed.

Lemma fnav_small_signed_field bs first len :
  length bs = 214%nat -> 1 <= first -> 4 <= len <= 32 -> first - 1 + len <= 214 ->
  i32 (fnav_read_signed (rev bs) [(first, len)]) = sfield bs (first - 1) len.
Proof.
  intros Hl H1 H2 H3. rewrite fnav_signed_field by lia.
  pose proof (slice_length bs (first - 1) len ltac:(lia) ltac:(lia) ltac:(unfold blen; lia)) as Hs.
  unfold sfield in *. destruct (slice bs (first - 1) len) as [|b tl]; cbn [length] in Hs; [lia|].
  pose proof (signed_value_range b tl).
  assert (2 ^ Z.of_nat (length tl) <= 2 ^ 31) by (apply Z.pow_le_mono_r; lia).
  apply swrap_small; lia.
Qed.

(** ** The data sets as functions of the pages *)

(** An unsigned and a signed field scaled by its unit. *)
Definition scaled (unit : double) (value : Z) : double := dmul (double_of_Z value) unit.

Definition fnav_ephemeris (p1 p2 p3 p4 : list bool) : Galileo_Ephemeris.t :=
  Galileo_Ephemeris.new
    <| Galileo_Ephemeris.flag_all_ephemeris := true |>
    <| Galileo_Ephemeris.IOD_ephemeris := field p1 12 10 |>
    <| Galileo_Ephemeris.PRN := field p1 6 6 |>
    <| Galileo_Ephemeris.toc := 60 * field p1 22 14 |>
    <| Galileo_Ephemeris.af0 := scaled TWO_N34 (sfield p1 36 31) |>
    <| Galileo_Ephemeris.af1 := scaled TWO_N46 (sfield p1 67 21) |>
    <| Galileo_Ephemeris.af2 := scaled TWO_N59 (sfield p1 88 6) |>
    <| Galileo_Ephemeris.E5a_HS := field p1 153 2 |>
    <| Galileo_Ephemeris.E5a_DVS := negb (field p1 187 1 =? 0) |>
    <| Galileo_Ephemeris.M_0 := scaled PI_TWO_N31 (sfield p2 16 32) |>
    <| Galileo_Ephemeris.OMEGAdot := scaled PI_TWO_N43 (sfield p2 48 24) |>
    <| Galileo_Ephemeris.ecc := scaled TWO_N33 (field p2 72 32) |>
    <| Galileo_Ephemeris.sqrtA := scaled TWO_N19 (field p2 104 32) |>
    <| Galileo_Ephemeris.OMEGA_0 := scaled PI_TWO_N31 (sfield p2 136 32) |>
    <| Galileo_Ephemeris.idot := scaled PI_TWO_N43 (sfield p2 168 14) |>
    <| Galileo_Ephemeris.i_0 := scaled PI_TWO_N31 (sfield p3 16 32) |>
    <| Galileo_Ephemeris.omega := scaled PI_TWO_N31 (sfield p3 48 32) |>
    <| Galileo_Ephemeris.delta_n := scaled PI_TWO_N43 (sfield p3 80 16) |>
    <| Galileo_Ephemeris.Cuc := scaled TWO_N29 (sfield p3 96 16) |>
    <| Galileo_Ephemeris.Cus := scaled TWO_N29 (sfield p3 112 16) |>
    <| Galileo_Ephemeris.Crc := scaled TWO_N5 (sfield p3 128 16) |>
    <| Galileo_Ephemeris.Crs := scaled TWO_N5 (sfield p3 144 16) |>
    <| Galileo_Ephemeris.toe := 60 * field p3 160 14 |>
    <| Galileo_Ephemeris.WN := field p3 174 12 |>
    <| Galileo_Ephemeris.tow := field p3 186 20 |>
    <| Galileo_Ephemeris.Cic := scaled TWO_N29 (sfield p4 16 16) |>
    <| Galileo_Ephemeris.Cis := scaled TWO_N29 (sfield p4 32 16) |>.

Definition fnav_iono (p1 : list bool) : Galileo_Iono.t :=
  Galileo_Iono.new
    <| Galileo_Iono.ai0 := scaled TWO_N2 (field p1 102 11) |>
    <| Galileo_Iono.ai1 := scaled TWO_N8 (sfield p1 113 11) |>
    <| Galileo_Iono.ai2 := scaled TWO_N15 (sfield p1 124 14) |>
    <| Galileo_Iono.Region1_flag := negb (field p1 138 1 =? 0) |>
    <| Galileo_Iono.Region2_flag := negb (field p1 139 1 =? 0) |>
    <| Galileo_Iono.Region3_flag := negb (field p1 140 1 =? 0) |>
    <| Galileo_Iono.Region4_flag := negb (field p1 141 1 =? 0) |>
    <| Galileo_Iono.Region5_flag := negb (field p1 142 1 =? 0) |>
    <| Galileo_Iono.WN := field p1 155 12 |>
    <| Galileo_Iono.tow := field p1 167 20 |>.

(** The UTC model is handed out after the flag that it copies was cleared. *)
Definition fnav_utc (p4 : list bool) : Galileo_Utc_Model.t :=
  Galileo_Utc_Model.new
    <| Galileo_Utc_Model.A0 := scaled TWO_N30 (sfield p4 48 32) |>
    <| Galileo_Utc_Model.A1 := scaled TWO_N50 (sfield p4 80 24) |>
    <| Galileo_Utc_Model.Delta_tLS := sfield p4 104 8 |>
    <| Galileo_Utc_Model.tot := 3600 * field p4 112 8 |>
    <| Galileo_Utc_Model.WNot := field p4 120 8 |>
    <| Galileo_Utc_Model.WN_LSF := field p4 128 8 |>
    <| Galileo_Utc_Model.DN := field p4 136 3 |>
    <| Galileo_Utc_Model.Delta_tLSF := sfield p4 139 8 |>
    <| Galileo_Utc_Model.flag_utc_model := false |>.

(** ** The getters read the last pages *)

Definition page_bits (bs : list bool) : Prop := length bs = 214%nat.

Ltac read_fields :=
  repeat first [rewrite fnav_int_field by (assumption || lia)
               |rewrite fnav_small_signed_field by (assumption || lia)
               |rewrite fnav_signed_field by (assumption || lia)
               |rewrite fnav_unsigned_field by (assumption || lia)].

Lemma fnav_iod_1 bs : page_bits bs -> FNAV_IODnav_1 (read_fnav_1 (rev bs)) = field bs 12 10.
Proof. intros H. cbn [FNAV_IODnav_1 read_fnav_1]. unfold FNAV_IO_DNAV_1_BIT. now read_fields. Qed.
Lemma fnav_iod_2 bs : page_bits bs -> FNAV_IODnav_2 (read_fnav_2 (rev bs)) = field bs 6 10.
Proof. intros H. cbn [FNAV_IODnav_2 read_fnav_2]. unfold FNAV_IO_DNAV_2_BIT. now read_fields. Qed.
Lemma fnav_iod_3 bs : page_bits bs -> FNAV_IODnav_3 (read_fnav_3 (rev bs)) = field bs 6 10.
Proof. intros H. cbn [FNAV_IODnav_3 read_fnav_3]. unfold FNAV_IO_DNAV_3_BIT. now read_fields. Qed.
Lemma fnav_iod_4 bs : page_bits bs -> FNAV_IODnav_4 (read_fnav_4 (rev bs)) = field bs 6 10.
Proof. intros H. cbn [FNAV_IODnav_4 read_fnav_4]. unfold FNAV_IO_DNAV_4_BIT. now read_fields. Qed.

(** Small products and conversions that do not wrap. *)
Lemma field_times bs pos len k n :
  0 <= len -> 0 <= k -> k * 2 ^ len <= n -> n = 2 ^ 31 -> i32 (field bs pos len * k) = k * field bs pos len.
Proof.
  intros Hl Hk Hn ->. pose proof (field_range bs pos len Hl). rewrite Z.mul_comm.
  apply swrap_small; [lia|]. nia.
Qed.

Lemma field_u32 bs pos len : 0 <= len <= 32 -> u32 (field bs pos len) = field bs pos len.
Proof.
  intros H. pose proof (field_range bs pos len ltac:(lia)).
  assert (2 ^ len <= 2 ^ 32) by (apply Z.pow_le_mono_r; lia). apply wrap_small. lia.
Qed.

Lemma field_i32 bs pos len : 0 <= len <= 31 -> i32 (field bs pos len) = field bs pos len.
Proof.
  intros H. pose proof (field_range bs pos len ltac:(lia)).
  assert (2 ^ len <= 2 ^ 31) by (apply Z.pow_le_mono_r; lia). apply swrap_small; lia.
Qed.

Ltac eval_records :=
  cbv -[dmul double_of_Z fnav_read_unsigned fnav_read_signed swrap wrap rev field sfield dzero
    Z.mul Z.eqb negb
    TWO_N2 TWO_N5 TWO_N8 TWO_N15 TWO_N19 TWO_N29 TWO_N30 TWO_N33 TWO_N34 TWO_N46 TWO_N50 TWO_N59
    PI_TWO_N31 PI_TWO_N43].

Lemma get_ephemeris_pages m p1 p2 p3 p4 :
  page_bits p1 -> page_bits p2 -> page_bits p3 -> page_bits p4 ->
  fnav_1 m = read_fnav_1 (rev p1) -> fnav_2 m = read_fnav_2 (rev p2) ->
  fnav_3 m = read_fnav_3 (rev p3) -> fnav_4 m = read_fnav_4 (rev p4) ->
  flag_all_ephemeris m = true -> IOD_ephemeris m = field p1 12 10 ->
  get_ephemeris m = fnav_ephemeris p1 p2 p3 p4.
Proof.
  unfold page_bits. intros H1 H2 H3 H4 E1 E2 E3 E4 Ef Ei.
  unfold get_ephemeris. rewrite E1, E2, E3, E4, Ef, Ei. clear E1 E2 E3 E4 Ef Ei.
  eval_records. read_fields.
  rewrite !(field_times _ _ 14 60 (2 ^ 31)), !field_u32, field_i32 by lia. reflexivity.
Qed.

Lemma get_iono_page m p1 :
  page_bits p1 -> fnav_1 m = read_fnav_1 (rev p1) -> get_iono m = fnav_iono p1.
Proof.
  unfold page_bits. intros H1 E1. unfold get_iono. rewrite E1. clear E1.
  eval_records. read_fields. reflexivity.
Qed.

Lemma get_utc_page m p4 :
  page_bits p4 -> fnav_4 m = read_fnav_4 (rev p4) -> flag_utc_model m = false ->
  get_utc_model m = fnav_utc p4.
Proof.
  unfold page_bits. intros H4 E4 Ef. unfold get_utc_model. rewrite E4, Ef. clear E4 Ef.
  eval_records. read_fields. rewrite (field_times _ _ 8 3600 (2 ^ 31)) by lia.
  reflexivity.
Qed.

(** ** The data sets that the decoder block takes from the message

    After each page the decoder polls the message for an ephemeris, an
    ionosphere model and a UTC model. *)

Inductive fnav_event :=
  | Page (bits : list bool)
  | Poll_ephemeris
  | Poll_iono
  | Poll_utc.

Inductive fnav_report :=
  | Nothing
  | Ephemeris (e : Galileo_Ephemeris.t)
  | Iono (i : Galileo_Iono.t)
  | Utc (u : Galileo_Utc_Model.t).

Definition report (what : fnav_report) (p : bool * Galileo_Fnav_Message)
  : fnav_report * Galileo_Fnav_Message := (if p.1 then what else Nothing, p.2).

(** The message. *)
Definition fnav_step (e : fnav_event) (m : Galileo_Fnav_Message)
  : fnav_report * Galileo_Fnav_Message :=
  match e with
  | Page bits => (Nothing, (decode_page (bits_str bits) m).2)
  | Poll_ephemeris =>
      let p := FnavMessage.have_new_ephemeris m in report (Ephemeris (FnavMessage.get_ephemeris p.2)) p
  | Poll_iono =>
      let p := FnavMessage.have_new_iono_and_GST m in report (Iono (FnavMessage.get_iono p.2)) p
  | Poll_utc =>
      let p := FnavMessage.have_new_utc_model m in report (Utc (FnavMessage.get_utc_model p.2)) p
  end.

(** The specification keeps the last page of each type that has not been
    reported yet. *)
Record fresh := mkFresh {
  fresh_1 : option (list bool);
  fresh_2 : option (list bool);
  fresh_3 : option (list bool);
  fresh_4 : option (list bool);
  fresh_utc : option (list bool)
}.

Definition fresh_step (e : fnav_event) (f : fresh) : fnav_report * fresh :=
  match e with
  | Page b =>
      (Nothing,
       match fnav_type b with
       | 1 => mkFresh (Some b) (fresh_2 f) (fresh_3 f) (fresh_4 f) (fresh_utc f)
       | 2 => mkFresh (fresh_1 f) (Some b) (fresh_3 f) (fresh_4 f) (fresh_utc f)
       | 3 => mkFresh (fresh_1 f) (fresh_2 f) (Some b) (fresh_4 f) (fresh_utc f)
       | 4 => mkFresh (fresh_1 f) (fresh_2 f) (fresh_3 f) (Some b) (Some b)
       | _ => f
       end)
  | Poll_ephemeris =>
      match f with
      | mkFresh (Some p1) (Some p2) (Some p3) (Some p4) u =>
          if forallb (fun p => fnav_iod p =? fnav_iod p1) [p2; p3; p4]
          then (Ephemeris (fnav_ephemeris p1 p2 p3 p4), mkFresh (Some p1) None None None u)
          else (Nothing, f)
      | _ => (Nothing, f)
      end
  | Poll_iono =>
      match fresh_1 f, fresh_utc f with
      | Some p1, Some _ =>
          (Iono (fnav_iono p1), mkFresh None (fresh_2 f) (fresh_3 f) (fresh_4 f) (fresh_utc f))
      | _, _ => (Nothing, f)
      end
  | Poll_utc =>
      match fresh_utc f with
      | Some p4 =>
          (Utc (fnav_utc p4), mkFresh (fresh_1 f) (fresh_2 f) (fresh_3 f) (fresh_4 f) None)
      | None => (Nothing, f)
      end
  end.

(** A member holds the page of its type that is fresh. *)
Definition holds {A} (type : Z) (read : bitset -> A) (flag : bool) (member : A)
    (page : option (list bool)) : Prop :=
  match page with
  | Some b => flag = true /\ page_bits b /\ fnav_type b = type /\ member = read (rev b)
  | None => flag = false
  end.

Definition fresh_rel (m : Galileo_Fnav_Message) (f : fresh) : Prop :=
  holds 1 read_fnav_1 (flag_iono_and_GST m) (fnav_1 m) (fresh_1 f) /\
  holds 2 read_fnav_2 (flag_ephemeris_1 m) (fnav_2 m) (fresh_2 f) /\
  holds 3 read_fnav_3 (flag_ephemeris_2 m) (fnav_3 m) (fresh_3 f) /\
  holds 4 read_fnav_4 (flag_ephemeris_3 m) (fnav_4 m) (fresh_4 f) /\
  holds 4 read_fnav_4 (flag_utc_model m) (fnav_4 m) (fresh_utc f).

Lemma fnav_iod_of b type : fnav_type b = type ->
  fnav_iod b = if type =? 1 then field b 12 10 else field b 6 10.
Proof. intros <-. reflexivity. Qed.

Lemma fresh_page m f b :
  page_bits b -> fnav_type b <> 6 -> fresh_rel m f ->
  fresh_rel (receive_fnav b m) (fresh_step (Page b) f).2.
Proof.
  intros Hb H6 (R1 & R2 & R3 & R4 & R5). unfold receive_fnav, fresh_step. cbv zeta.
  destruct (fnav_type b) as [|p|p] eqn:E; [split; auto| |split; auto].
  do 3 (try destruct p as [p|p|]); try (split; auto; done);
    repeat split; try assumption; auto.
Qed.

Lemma same_iod (a b c d : Z) :
  (a =? b) && (c =? d) && (a =? c) = (b =? a) && ((c =? a) && ((d =? a) && true)).
Proof.
  destruct (Z.eqb_spec a b), (Z.eqb_spec c d), (Z.eqb_spec a c), (Z.eqb_spec b a),
    (Z.eqb_spec c a), (Z.eqb_spec d a); cbn; congruence.
Qed.

Lemma fresh_ephemeris m f : fresh_rel m f ->
  (fnav_step Poll_ephemeris m).1 = (fresh_step Poll_ephemeris f).1 /\
  fresh_rel (fnav_step Poll_ephemeris m).2 (fresh_step Poll_ephemeris f).2.
Proof.
  intros (R1 & R2 & R3 & R4 & R5). destruct f as [f1 f2 f3 f4 u].
  cbn [fresh_1 fresh_2 fresh_3 fresh_4 fresh_utc] in *.
  unfold fnav_step, FnavMessage.have_new_ephemeris. cbv zeta.
  destruct f1 as [p1|], f2 as [p2|], f3 as [p3|], f4 as [p4|]; cbn [holds] in R1, R2, R3, R4;
    try (repeat match goal with H : _ /\ _ |- _ => destruct H end;
         repeat match goal with H : ?x = true |- _ => rewrite H | H : ?x = false |- _ => rewrite H end;
         cbn [andb]; split; [reflexivity|split; [|split; [|split; [|split]]]]; cbn; auto; fail).
  destruct R1 as (F1 & B1 & T1 & E1), R2 as (F2 & B2 & T2 & E2),
    R3 as (F3 & B3 & T3 & E3), R4 as (F4 & B4 & T4 & E4).
  rewrite F1, F2, F3, F4, E1, E2, E3, E4. cbn [andb].
  rewrite fnav_iod_1, fnav_iod_2, fnav_iod_3, fnav_iod_4 by assumption.
  cbn [fresh_step forallb].
  rewrite (fnav_iod_of p1 1), (fnav_iod_of p2 2), (fnav_iod_of p3 3), (fnav_iod_of p4 4) by assumption.
  cbn [Z.eqb Pos.eqb]. rewrite same_iod.
  match goal with |- context [if ?c then _ else (Nothing, _)] => destruct c end; cbn [report fst snd].
  - rewrite (get_ephemeris_pages _ p1 p2 p3 p4) by (assumption || reflexivity).
    split; [reflexivity|]. repeat split; assumption.
  - split; [reflexivity|]. repeat split; assumption.
Qed.

Lemma fresh_iono m f : fresh_rel m f ->
  (fnav_step Poll_iono m).1 = (fresh_step Poll_iono f).1 /\
  fresh_rel (fnav_step Poll_iono m).2 (fresh_step Poll_iono f).2.
Proof.
  intros (R1 & R2 & R3 & R4 & R5). destruct f as [f1 f2 f3 f4 u].
  cbn [fresh_1 fresh_2 fresh_3 fresh_4 fresh_utc] in *.
  unfold fnav_step, FnavMessage.have_new_iono_and_GST. cbv zeta.
  destruct f1 as [p1|], u as [p4|]; cbn [holds] in R1, R5;
    repeat match goal with H : _ /\ _ |- _ => destruct H end;
    repeat match goal with H : flag_iono_and_GST m = _ |- _ => rewrite H
                         | H : flag_utc_model m = _ |- _ => rewrite H end;
    cbn [andb report fst snd fresh_step fresh_1 fresh_2 fresh_3 fresh_4 fresh_utc].
  1: rewrite (get_iono_page _ p1) by assumption.
  all: split; [reflexivity|repeat split; assumption].
Qed.

Lemma fresh_utc_model m f : fresh_rel m f ->
  (fnav_step Poll_utc m).1 = (fresh_step Poll_utc f).1 /\
  fresh_rel (fnav_step Poll_utc m).2 (fresh_step Poll_utc f).2.
Proof.
  intros (R1 & R2 & R3 & R4 & R5). destruct f as [f1 f2 f3 f4 u].
  cbn [fresh_1 fresh_2 fresh_3 fresh_4 fresh_utc] in *.
  unfold fnav_step, FnavMessage.have_new_utc_model. cbv zeta.
  destruct u as [p4|]; cbn [holds] in R5;
    repeat match goal with H : _ /\ _ |- _ => destruct H end;
    repeat match goal with H : flag_utc_model m = _ |- _ => rewrite H end;
    cbn [report fst snd fresh_step fresh_1 fresh_2 fresh_3 fresh_4 fresh_utc].
  1: rewrite (get_utc_page _ p4) by (assumption || reflexivity).
  all: split; [reflexivity|repeat split; assumption].
Qed.

(** ** Runs *)

Fixpoint run_events {St} (step : fnav_event -> St -> fnav_report * St) (es : list fnav_event)
    (s : St) : list fnav_report :=
  match es with
  | [] => []
  | e :: es => (step e s).1 :: run_events step es (step e s).2
  end.

(** The pages that the CRC lets through, without those of type 6. *)
Definition fnav_event_ok (e : fnav_event) : Prop :=
  match e with Page b => page_bits b /\ fnav_type b <> 6 | _ => True end.

Lemma fresh_rel_step m f e : fnav_event_ok e -> fresh_rel m f ->
  (fnav_step e m).1 = (fresh_step e f).1 /\ fresh_rel (fnav_step e m).2 (fresh_step e f).2.
Proof.
  destruct e as [b| | |]; intros Hok R.
  - destruct Hok as [Hb H6]. split; [reflexivity|]. unfold fnav_step.
    rewrite decode_page_receive by assumption. cbn [snd]. apply fresh_page; assumption.
  - apply fresh_ephemeris, R.
  - apply fresh_iono, R.
  - apply fresh_utc_model, R.
Qed.


(** Pages of one IODnav, out of order, with a page 2 of another IODnav first. *)
Definition sample_page (type iod : Z) : list bool :=
  to_bin 6 type ++ (if type =? 1 then to_bin 6 11 else []) ++ to_bin 10 iod ++
  replicate (if type =? 1 then 192 else 198) true.

Definition sample_events : list fnav_event :=
  [Page (sample_page 2 5); Page (sample_page 4 7); Page (sample_page 1 7); Page (sample_page 3 7);
   Poll_ephemeris; Page (sample_page 2 7); Poll_ephemeris; Poll_ephemeris; Poll_iono; Poll_utc].

Definition is_report (r : fnav_report) : bool := match r with Nothing => false | _ => true end.

