(* ===== verification/TlmDecoder.v ===== *)
(** * TlmDecoder: the Galileo telemetry decoder block

    [class galileo_telemetry_decoder_gs] of
    [src/src/algorithms/telemetry_decoder/gnuradio_blocks/galileo_telemetry_decoder_gs.{h,cc}]:
    the symbol history, the frame synchroniser, the decoding of I/NAV, F/NAV and
    C/NAV pages, and the time of week of every symbol.  One call of
    [general_work] consumes one symbol and is one program here.

    Of [Gnss_Synchro] the members the block reads or writes are kept.  The
    messages that the block publishes are collected in [published], the last
    first.  Left out: dump files, CRC statistics, what is printed, the time-tag
    comparison that is only printed, and [d_delta_t], which nothing reads. *)

From S2P Require Import Prelude Cstring Float64 MathConstants GalileoData InavTables InavWords InavMessage HasData CnavMessage FnavTables FnavMessage Viterbi.
From stdpp Require Import list strings.
From Stdlib Require Import ZArith Lia Ascii SpecFloat.
Local Open Scope Z_scope.
Local Open Scope cxx_scope.

Definition CRC_ERROR_LIMIT : Z := 6.
Definition GALILEO_E1_CODE_PERIOD_MS : Z := 4.
Definition GALILEO_E6_CODE_PERIOD_MS : Z := 1.
Definition GALILEO_CNAV_SYMBOLS_PER_PAGE : Z := 1000.
Definition GALILEO_CNAV_PREAMBLE_LENGTH_BITS : Z := 16.
Definition GALILEO_CNAV_PREAMBLE : cstring := str "1011011101110000".

(** ** Inputs and outputs *)

Record Gnss_Synchro := mkGnss_Synchro {
  System : ascii;
  Signal : cstring;
  synchro_PRN : Z;
  fs : Z;
  Prompt_I : double;
  Carrier_phase_rads : double;
  Tracking_sample_counter : Z;
  TOW_at_current_symbol_ms : Z;
  Flag_valid_word : bool;
  Flag_PLL_180_deg_phase_locked : bool
}.
#[export] Instance eta_Gnss_Synchro : Eta Gnss_Synchro := fun g =>
  mkGnss_Synchro (System g) (Signal g) (synchro_PRN g) (fs g) (Prompt_I g) (Carrier_phase_rads g)
    (Tracking_sample_counter g) (TOW_at_current_symbol_ms g) (Flag_valid_word g)
    (Flag_PLL_180_deg_phase_locked g).

(** [GnssTime], of which the block uses two members. *)
Record GnssTime := mkGnssTime { week : Z; tow_ms : Z }.
#[export] Instance eta_GnssTime : Eta GnssTime := fun t => mkGnssTime (week t) (tow_ms t).

Record Nav_Message_Packet := mkNav_Message_Packet {
  packet_system : cstring;
  packet_signal : cstring;
  packet_prn : Z;
  packet_tow_at_current_symbol_ms : Z;
  nav_message : cstring
}.

(** A message on one of the output ports. *)
Inductive tlm_message :=
  | telemetry_ephemeris (e : Galileo_Ephemeris.t)
  | telemetry_iono (i : Galileo_Iono.t)
  | telemetry_utc_model (u : Galileo_Utc_Model.t)
  | telemetry_almanac (a : Galileo_Almanac_Helper.t)
  | telemetry_to_OSNMA (o : Galileo_OSNMA)
  | E6_HAS_from_TLM (p : Galileo_HAS_page)
  | TOW_from_TLM (PRN tow_ms sample_counter : Z)
  | telemetry_to_trk (message : Z)
  | Nav_msg_from_TLM (p : Nav_Message_Packet).

Record Tlm_Conf := mkTlm_Conf {
  enable_reed_solomon_conf : bool;
  enable_navdata_monitor : bool;
  there_are_e6_channels : bool;
  enable_osnma : bool
}.

(** ** State *)

Record galileo_tlm := mkgalileo_tlm {
  d_viterbi : Viterbi_Decoder;
  d_preamble_samples : list Z;
  (** [boost::circular_buffer<float>], the oldest first, and its capacity. *)
  d_symbol_history : list float;
  d_satellite_PRN : Z;
  d_cnav_nav : Galileo_Cnav_Message;
  d_inav_nav : Galileo_Inav_Message;
  d_fnav_nav : Galileo_Fnav_Message;
  d_nav_message : cstring;
  d_current_timetag : GnssTime;
  d_symbol_counter : Z;
  d_preamble_index : Z;
  d_last_valid_preamble : Z;
  d_received_sample_counter : Z;
  d_frame_type : Z;
  d_samples_per_preamble : Z;
  d_preamble_period_symbols : Z;
  d_CRC_error_counter : Z;
  d_flag_even_word_arrived : Z;
  d_PRN_code_period_ms : Z;
  d_required_symbols : Z;
  d_frame_length_symbols : Z;
  d_stat : Z;
  d_TOW_at_Preamble_ms : Z;
  d_TOW_at_current_symbol_ms : Z;
  d_max_symbols_without_valid_frame : Z;
  d_received_tow_ms : Z;
  d_band : ascii;
  d_sent_tlm_failed_msg : bool;
  d_flag_frame_sync : bool;
  d_flag_PLL_180_deg_phase_locked : bool;
  d_flag_preamble : bool;
  d_first_eph_sent : bool;
  d_cnav_dummy_page : bool;
  d_print_cnav_page : bool;
  d_enable_navdata_monitor : bool;
  d_enable_reed_solomon_inav : bool;
  d_valid_timetag : bool;
  d_E6_TOW_set : bool;
  d_there_are_e6_channels : bool;
  d_enable_osnma : bool;
  published : list tlm_message
}.
#[export] Instance eta_galileo_tlm : Eta galileo_tlm := fun d =>
  mkgalileo_tlm (d_viterbi d) (d_preamble_samples d) (d_symbol_history d) (d_satellite_PRN d)
    (d_cnav_nav d) (d_inav_nav d) (d_fnav_nav d) (d_nav_message d) (d_current_timetag d)
    (d_symbol_counter d) (d_preamble_index d) (d_last_valid_preamble d)
    (d_received_sample_counter d) (d_frame_type d) (d_samples_per_preamble d)
    (d_preamble_period_symbols d) (d_CRC_error_counter d) (d_flag_even_word_arrived d)
    (d_PRN_code_period_ms d) (d_required_symbols d) (d_frame_length_symbols d) (d_stat d)
    (d_TOW_at_Preamble_ms d) (d_TOW_at_current_symbol_ms d)
    (d_max_symbols_without_valid_frame d) (d_received_tow_ms d) (d_band d)
    (d_sent_tlm_failed_msg d) (d_flag_frame_sync d) (d_flag_PLL_180_deg_phase_locked d)
    (d_flag_preamble d) (d_first_eph_sent d) (d_cnav_dummy_page d) (d_print_cnav_page d)
    (d_enable_navdata_monitor d) (d_enable_reed_solomon_inav d) (d_valid_timetag d)
    (d_E6_TOW_set d) (d_there_are_e6_channels d) (d_enable_osnma d) (published d).

(** The capacity given to the circular buffer. *)
Definition history_capacity (d : galileo_tlm) : Z := d_required_symbols d + 1.

(** [circular_buffer::push_back]: a full buffer drops its oldest element. *)
Definition push_symbol (x : float) (d : galileo_tlm) : galileo_tlm :=
  d <| d_symbol_history ::= fun h =>
    let h := h ++ [x] in
    drop (Z.to_nat (Z.of_nat (length h) - history_capacity d)) h |>.

Definition publish (msg : tlm_message) (d : galileo_tlm) : galileo_tlm :=
  d <| published ::= cons msg |>.

(** ** Construction *)

(** The parameters of the frame type: symbols of the preamble, period of the
    preamble, code period, symbols required, symbols of a frame, and symbols
    without a valid frame that raise the alarm. *)
Record frame_parameters := mkframe_parameters {
  fp_preamble : cstring;
  fp_samples_per_preamble : Z;
  fp_preamble_period : Z;
  fp_code_period_ms : Z;
  fp_required_symbols : Z;
  fp_frame_length : Z;
  fp_max_symbols : Z
}.

Definition parameters_of (frame_type : Z) : frame_parameters :=
  match frame_type with
  | 1 => {| fp_preamble := GALILEO_INAV_PREAMBLE;
            fp_samples_per_preamble := GALILEO_INAV_PREAMBLE_LENGTH_BITS;
            fp_preamble_period := GALILEO_INAV_PREAMBLE_PERIOD_SYMBOLS;
            fp_code_period_ms := GALILEO_E1_CODE_PERIOD_MS;
            fp_required_symbols := GALILEO_INAV_PAGE_SYMBOLS + GALILEO_INAV_PREAMBLE_LENGTH_BITS;
            fp_frame_length := GALILEO_INAV_PAGE_PART_SYMBOLS - GALILEO_INAV_PREAMBLE_LENGTH_BITS;
            fp_max_symbols := GALILEO_INAV_PAGE_SYMBOLS * 30 |}
  | 2 => {| fp_preamble := GALILEO_FNAV_PREAMBLE;
            fp_samples_per_preamble := GALILEO_FNAV_PREAMBLE_LENGTH_BITS;
            fp_preamble_period := GALILEO_FNAV_SYMBOLS_PER_PAGE;
            fp_code_period_ms := GALILEO_E5A_CODE_PERIOD_MS * GALILEO_E5A_I_SECONDARY_CODE_LENGTH;
            fp_required_symbols := GALILEO_FNAV_SYMBOLS_PER_PAGE + GALILEO_FNAV_PREAMBLE_LENGTH_BITS;
            fp_frame_length := GALILEO_FNAV_SYMBOLS_PER_PAGE - GALILEO_FNAV_PREAMBLE_LENGTH_BITS;
            fp_max_symbols := GALILEO_FNAV_SYMBOLS_PER_PAGE * 5 |}
  | 3 => {| fp_preamble := GALILEO_CNAV_PREAMBLE;
            fp_samples_per_preamble := GALILEO_CNAV_PREAMBLE_LENGTH_BITS;
            fp_preamble_period := GALILEO_CNAV_SYMBOLS_PER_PAGE;
            fp_code_period_ms := GALILEO_E6_CODE_PERIOD_MS;
            fp_required_symbols := GALILEO_CNAV_SYMBOLS_PER_PAGE + GALILEO_CNAV_PREAMBLE_LENGTH_BITS;
            fp_frame_length := GALILEO_CNAV_SYMBOLS_PER_PAGE - GALILEO_CNAV_PREAMBLE_LENGTH_BITS;
            fp_max_symbols := GALILEO_CNAV_SYMBOLS_PER_PAGE * 60 |}
  | _ => mkframe_parameters [] 0 0 0 0 0 0
  end.

(** The rate, the constraint length and the polynomials of the code. *)
Definition tlm_nn : Z := 2.
Definition tlm_KK : Z := 7.
Definition g_encoder : list Z := [121; 91].
Definition datalength (frame_length : Z) : Z := frame_length / tlm_nn - (tlm_KK - 1).

Definition new_galileo_tlm (PRN : Z) (conf : Tlm_Conf) (frame_type : Z) : galileo_tlm :=
  let p := parameters_of frame_type in
  let with_rs := (frame_type =? 1) && enable_reed_solomon_conf conf in
  {| d_viterbi := new_Viterbi_Decoder tlm_KK tlm_nn (datalength (fp_frame_length p)) g_encoder;
     d_preamble_samples := map (fun c => if Ascii.eqb c "1" then 1 else -1) (fp_preamble p);
     d_symbol_history := [];
     d_satellite_PRN := PRN;
     d_cnav_nav := new_Galileo_Cnav_Message;
     d_inav_nav := init_PRN PRN
       (if with_rs then enable_reed_solomon new_Galileo_Inav_Message
        else new_Galileo_Inav_Message);
     d_fnav_nav := new_Galileo_Fnav_Message;
     d_nav_message := [];
     d_current_timetag := mkGnssTime 0 0;
     d_symbol_counter := 0;
     d_preamble_index := 0;
     d_last_valid_preamble := 0;
     d_received_sample_counter := 0;
     d_frame_type := frame_type;
     d_samples_per_preamble := fp_samples_per_preamble p;
     d_preamble_period_symbols := fp_preamble_period p;
     d_CRC_error_counter := 0;
     d_flag_even_word_arrived := 0;
     d_PRN_code_period_ms := fp_code_period_ms p;
     d_required_symbols := fp_required_symbols p;
     d_frame_length_symbols := fp_frame_length p;
     d_stat := 0;
     d_TOW_at_Preamble_ms := 0;
     d_TOW_at_current_symbol_ms := 0;
     d_max_symbols_without_valid_frame := fp_max_symbols p;
     d_received_tow_ms := uint32_max;
     d_band := "1"%char;
     d_sent_tlm_failed_msg := false;
     d_flag_frame_sync := false;
     d_flag_PLL_180_deg_phase_locked := false;
     d_flag_preamble := false;
     d_first_eph_sent := false;
     d_cnav_dummy_page := false;
     d_print_cnav_page := true;
     d_enable_navdata_monitor := enable_navdata_monitor conf;
     d_enable_reed_solomon_inav := with_rs;
     d_valid_timetag := false;
     d_E6_TOW_set := false;
     d_there_are_e6_channels := there_are_e6_channels conf;
     d_enable_osnma := enable_osnma conf;
     published := [] |}.

(** ** Decoding a page *)

(** [out[c * rows + r] = in[r * cols + c]]. *)
Definition deinterleaver (rows cols : Z) (input out : list float) : list float :=
  for_range 0 rows (fun r out =>
    for_range 0 cols (fun c out =>
      vset out (c * rows + r) (vget fzero input (r * cols + c))) out) out.

(** The NOT gate of the second polynomial: every second symbol is negated. *)
Definition negate_odd (frame_length : Z) (symbols : list float) : list float :=
  for_range 0 frame_length (fun i symbols =>
    if (i + 1) mod 2 =? 0 then vset symbols i (fopp (vget fzero symbols i)) else symbols) symbols.

(** De-interleaving and Viterbi decoding: the bits of the page as 0 and 1, and
    as a string. *)
Definition decode_symbols (rows cols frame_length : Z) (symbols : list float)
  : prog galileo_tlm (list Z * cstring) := fun d =>
  let soft := negate_odd frame_length
    (deinterleaver rows cols symbols (vector frame_length fzero)) in
  let '(bits, viterbi) := decode (vector (frame_length / 2) 0) soft (d_viterbi d) in
  (Returns (bits, map (fun b => if 0 <? b then "1"%char else "0"%char) bits),
   d <| d_viterbi := viterbi |>).

(** A program of one of the message decoders run on the block. *)
Definition on_inav {A} (c : prog Galileo_Inav_Message A) : prog galileo_tlm A := fun d =>
  let '(o, m) := c (d_inav_nav d) in (o, d <| d_inav_nav := m |>).
Definition on_fnav {A} (c : prog Galileo_Fnav_Message A) : prog galileo_tlm A := fun d =>
  let '(o, m) := c (d_fnav_nav d) in (o, d <| d_fnav_nav := m |>).
Definition on_cnav {A} (c : prog Galileo_Cnav_Message A) : prog galileo_tlm A := fun d =>
  let '(o, m) := c (d_cnav_nav d) in (o, d <| d_cnav_nav := m |>).

(** [if (nav.have_new_...()) publish(nav.get_...())]. *)
Definition report_inav (have : Galileo_Inav_Message -> bool * Galileo_Inav_Message)
    (get : Galileo_Inav_Message -> tlm_message) (d : galileo_tlm) : bool * galileo_tlm :=
  let '(new, m) := have (d_inav_nav d) in
  let d := d <| d_inav_nav := m |> in
  (new, if new : bool then publish (get m) d else d).
Definition report_fnav (have : Galileo_Fnav_Message -> bool * Galileo_Fnav_Message)
    (get : Galileo_Fnav_Message -> tlm_message) (d : galileo_tlm) : galileo_tlm :=
  let '(new, m) := have (d_fnav_nav d) in
  let d := d <| d_fnav_nav := m |> in
  if new : bool then publish (get m) d else d.

(** The OSNMA data of the last page whose CRC held, with the PRN of the block. *)
Definition publish_osnma (d : galileo_tlm) : galileo_tlm :=
  if InavMessage.get_flag_CRC_test (d_inav_nav d) && Ascii.eqb (d_band d) "1" && d_enable_osnma d
  then publish (telemetry_to_OSNMA
         (let o := get_osnma (d_inav_nav d) in
          mkGalileo_OSNMA (d_satellite_PRN d) (OSNMA_data o) (nav_data o))) d
  else d.

Definition keep_nav_message (page : cstring) (d : galileo_tlm) : galileo_tlm :=
  if d_enable_navdata_monitor d then d <| d_nav_message := page |> else d.

(** The new data sets of the I/NAV decoder. *)
Definition report_inav_data `{RSDecoder} `{Libm} (d : galileo_tlm) : galileo_tlm :=
  let '(new_ephemeris, d) := report_inav InavMessage.have_new_ephemeris
    (fun m => telemetry_ephemeris (InavMessage.get_ephemeris m)) d in
  let d :=
    if new_ephemeris : bool then d <| d_first_eph_sent := true |>
    else if Ascii.eqb (d_band d) "1" && negb (d_first_eph_sent d)
    then (report_inav have_new_reduced_ced (fun m => telemetry_ephemeris (get_reduced_ced m)) d).2
    else d in
  let d := (report_inav InavMessage.have_new_iono_and_GST
              (fun m => telemetry_iono (InavMessage.get_iono m)) d).2 in
  let d := (report_inav InavMessage.have_new_utc_model
              (fun m => telemetry_utc_model (InavMessage.get_utc_model m)) d).2 in
  (report_inav InavMessage.have_new_almanac
     (fun m => telemetry_almanac (InavMessage.get_almanac m)) d).2.

Definition decode_INAV_word `{Boost} `{RSDecoder} `{Libm} (page_part_symbols : list float)
    (frame_length : Z) : prog galileo_tlm unit :=
  p <- decode_symbols GALILEO_INAV_INTERLEAVER_ROWS GALILEO_INAV_INTERLEAVER_COLS frame_length
         page_part_symbols;;
  modify (keep_nav_message p.2);;
  flag <- gets d_flag_even_word_arrived;;
  on_inav (InavMessage.split_page p.2 flag);;
  (if vget 0 p.1 0 =? 1 then
     modify publish_osnma;; modify (fun d => d <| d_flag_even_word_arrived := 0 |>)
   else modify (fun d => d <| d_flag_even_word_arrived := 1 |>));;
  modify report_inav_data.

Definition report_fnav_data (d : galileo_tlm) : galileo_tlm :=
  let d := report_fnav FnavMessage.have_new_ephemeris
             (fun m => telemetry_ephemeris (FnavMessage.get_ephemeris m)) d in
  let d := report_fnav FnavMessage.have_new_iono_and_GST
             (fun m => telemetry_iono (FnavMessage.get_iono m)) d in
  report_fnav FnavMessage.have_new_utc_model
    (fun m => telemetry_utc_model (FnavMessage.get_utc_model m)) d.

Definition decode_FNAV_word `{Boost} `{Boost_FNAV} (page_symbols : list float) (frame_length : Z)
  : prog galileo_tlm unit :=
  p <- decode_symbols GALILEO_FNAV_INTERLEAVER_ROWS GALILEO_FNAV_INTERLEAVER_COLS frame_length
         page_symbols;;
  modify (keep_nav_message p.2);;
  on_fnav (FnavMessage.split_page p.2);;
  modify report_fnav_data.

(** A new C/NAV page that is not a dummy is published with its time of week,
    when that is known. *)
Definition report_cnav_page (d : galileo_tlm) : galileo_tlm :=
  if have_new_HAS_page (d_cnav_nav d) then
    if is_HAS_page_dummy (d_cnav_nav d) then
      d <| d_print_cnav_page := true |> <| d_cnav_dummy_page := true |>
    else
      let d := if d_E6_TOW_set d
               then d <| d_cnav_nav ::= set_tow (d_TOW_at_Preamble_ms d / 1000) |> else d in
      (publish (E6_HAS_from_TLM (get_HAS_encoded_page (d_cnav_nav d))) d)
        <| d_print_cnav_page := false |>
  else d.

Definition decode_CNAV_word `{Boost} `{Boost_CNAV} (time_stamp : Z) (page_symbols : list float)
    (page_length : Z) : prog galileo_tlm unit :=
  p <- decode_symbols GALILEO_CNAV_INTERLEAVER_ROWS GALILEO_CNAV_INTERLEAVER_COLS page_length
         page_symbols;;
  modify (keep_nav_message p.2);;
  on_cnav (read_HAS_page p.2);;
  modify (fun d => d <| d_cnav_nav ::= set_time_stamp time_stamp |>);;
  modify report_cnav_page.

(** ** Control from the channel *)

Definition publish_tow_unknown (d : galileo_tlm) : galileo_tlm :=
  if d_there_are_e6_channels d
  then publish (TOW_from_TLM (d_satellite_PRN d) uint32_max 0) d else d.

Definition set_satellite (PRN : Z) (d : galileo_tlm) : galileo_tlm :=
  publish_tow_unknown (d <| d_satellite_PRN := PRN |>
    <| d_last_valid_preamble := d_symbol_counter d |>
    <| d_sent_tlm_failed_msg := false |> <| d_received_tow_ms := uint32_max |>
    <| d_E6_TOW_set := false |> <| d_valid_timetag := false |>).

Definition reset_tlm (d : galileo_tlm) : galileo_tlm :=
  let d := d <| d_flag_frame_sync := false |> <| d_TOW_at_current_symbol_ms := 0 |>
    <| d_TOW_at_Preamble_ms := 0 |>
    <| d_fnav_nav ::= FnavMessage.set_flag_TOW_set false |>
    <| d_inav_nav ::= fun m => set_TOW0_flag false (InavMessage.set_flag_TOW_set false m) |>
    <| d_last_valid_preamble := d_symbol_counter d |> <| d_sent_tlm_failed_msg := false |>
    <| d_E6_TOW_set := false |> <| d_stat := 0 |> <| d_received_tow_ms := uint32_max |>
    <| d_viterbi ::= Viterbi.reset |> <| d_valid_timetag := false |> in
  let d := publish_tow_unknown d in
  if d_enable_reed_solomon_inav d
  then d <| d_inav_nav ::= enable_reed_solomon |> else d.

(** A time-of-week map from another channel: the entry of the block's PRN. *)
Definition msg_handler_read_galileo_tow_map (received_tow_map : list (Z * (Z * Z)))
    (d : galileo_tlm) : galileo_tlm :=
  if d_frame_type d =? 3 then
    match list_find (fun e => e.1 = d_satellite_PRN d) received_tow_map with
    | Some (_, (_, (tow, sample))) =>
        if tow <? 604800000
        then d <| d_received_tow_ms := tow |> <| d_received_sample_counter := sample |> else d
    | None => d
    end
  else d.

(** ** One symbol *)

(** The symbol enters the history. *)
Definition store_symbol (g : Gnss_Synchro) (d : galileo_tlm) : galileo_tlm :=
  (push_symbol (float_of_double (Prompt_I g))
    (d <| d_band := vget "000"%char (Signal g) 0 |>))
    <| d_symbol_counter ::= fun n => u64 (n + 1) |>.

(** The stream tags at the symbol: [None] is a tag of another type. *)
Definition read_tags (tags : list (option GnssTime)) (d : galileo_tlm) : galileo_tlm :=
  fold_left (fun d tag => match tag with
    | Some t => d <| d_current_timetag := t |> <| d_valid_timetag := true |>
    | None => d
    end) tags d.

Definition advance_timetag (period : Z) (t : GnssTime) : GnssTime :=
  let t := t <| tow_ms ::= fun tow => i32 (tow + period) |> in
  if 604800000 <=? tow_ms t
  then t <| tow_ms ::= fun tow => tow - 604800000 |> <| week ::= fun w => w + 1 |> else t.

Definition time_tags (tags : list (option GnssTime)) (d : galileo_tlm) : galileo_tlm :=
  match tags with
  | [] => if d_valid_timetag d
          then d <| d_current_timetag ::= advance_timetag (d_PRN_code_period_ms d) |> else d
  | _ => read_tags tags d
  end.

(** The alarm to the tracking block. *)
Definition check_telemetry (d : galileo_tlm) : galileo_tlm :=
  if negb (d_sent_tlm_failed_msg d)
     && (d_max_symbols_without_valid_frame d <? u64 (d_symbol_counter d - d_last_valid_preamble d))
  then (publish (telemetry_to_trk 1) d) <| d_sent_tlm_failed_msg := true |>
  else d.

(** ** Frame synchronisation *)

Definition history_full (d : galileo_tlm) : bool :=
  d_required_symbols d <? Z.of_nat (length (d_symbol_history d)).

(** The correlation of the oldest symbols with the preamble. *)
Definition correlation (samples : Z) (preamble : list Z) (history : list float) : Z :=
  for_range 0 samples (fun i corr_value =>
    if SFltb (vget fzero history i) fzero then corr_value - vget 0 preamble i
    else corr_value + vget 0 preamble i) 0.

Definition corr_value (d : galileo_tlm) : Z :=
  correlation (d_samples_per_preamble d) (d_preamble_samples d) (d_symbol_history d).

Definition preamble_detected (d : galileo_tlm) : bool :=
  history_full d && (d_samples_per_preamble d <=? Z.abs (corr_value d)).

(** [d_stat == 0]: no preamble information. *)
Definition search_preamble (d : galileo_tlm) : galileo_tlm :=
  if preamble_detected d
  then d <| d_preamble_index := d_symbol_counter d |> <| d_stat := 1 |> else d.

(** [d_stat == 1]: possible preamble lock. *)
Definition confirm_preamble (d : galileo_tlm) : galileo_tlm :=
  if preamble_detected d then
    let preamble_diff := i32 (d_symbol_counter d - d_preamble_index d) in
    if preamble_diff =? d_preamble_period_symbols d then
      d <| d_preamble_index := d_symbol_counter d |> <| d_CRC_error_counter := 0 |>
        <| d_flag_PLL_180_deg_phase_locked := corr_value d <? 0 |> <| d_stat := 2 |>
    else if d_preamble_period_symbols d <? preamble_diff then d <| d_stat := 0 |> else d
  else d.

(** The symbols of the page, inverted when the carrier lock is. *)
Definition fetch_symbols (d : galileo_tlm) : list float :=
  map (fun i =>
    let x := vget fzero (d_symbol_history d) (i + d_samples_per_preamble d) in
    if d_flag_PLL_180_deg_phase_locked d then fopp x else x)
    (seqZ 0 (d_frame_length_symbols d)).

(** [Tracking_sample_counter / static_cast<uint64_t>(fs)]. *)
Definition page_time_stamp (g : Gnss_Synchro) : outcome Z :=
  if u64 (fs g) =? 0 then Throws undefined_behaviour
  else Returns (Tracking_sample_counter g / u64 (fs g)).

(** The call of the decoder; [false] is the [return -1] of an unknown type. *)
Definition decode_page_part `{Boost} `{Boost_FNAV} `{Boost_CNAV} `{RSDecoder} `{Libm}
    (g : Gnss_Synchro) : prog galileo_tlm bool :=
  d <- gets id;;
  match d_frame_type d with
  | 1 => decode_INAV_word (fetch_symbols d) (d_frame_length_symbols d);; ret true
  | 2 => decode_FNAV_word (fetch_symbols d) (d_frame_length_symbols d);; ret true
  | 3 => time_stamp <- lift (page_time_stamp g);;
         decode_CNAV_word time_stamp (fetch_symbols d) (d_frame_length_symbols d);; ret true
  | _ => ret false
  end.

Definition any_crc_ok (d : galileo_tlm) : bool :=
  InavMessage.get_flag_CRC_test (d_inav_nav d) || FnavMessage.get_flag_CRC_test (d_fnav_nav d)
  || get_flag_CRC_test_cnav (d_cnav_nav d).

Definition lose_frame_sync (d : galileo_tlm) : galileo_tlm :=
  let d := d <| d_flag_frame_sync := false |> <| d_stat := 0 |>
    <| d_TOW_at_current_symbol_ms := 0 |> <| d_TOW_at_Preamble_ms := 0 |>
    <| d_E6_TOW_set := false |> <| d_valid_timetag := false |> in
  (publish_tow_unknown d)
    <| d_fnav_nav ::= FnavMessage.set_flag_TOW_set false |>
    <| d_inav_nav ::= InavMessage.set_flag_TOW_set false |>.

(** What follows the decoder. *)
Definition good_page (d : galileo_tlm) : galileo_tlm :=
  d <| d_CRC_error_counter := 0 |> <| d_flag_preamble := true |>
    <| d_last_valid_preamble := d_symbol_counter d |> <| d_flag_frame_sync := true |>.

Definition count_crc_error (d : galileo_tlm) : galileo_tlm :=
  d <| d_CRC_error_counter ::= fun n => i32 (n + 1) |>.

Definition bad_page (d : galileo_tlm) : galileo_tlm :=
  let d := count_crc_error d in
  if CRC_ERROR_LIMIT <? d_CRC_error_counter d then lose_frame_sync d else d.

Definition mark_page (d : galileo_tlm) : galileo_tlm :=
  d <| d_preamble_index := d_symbol_counter d |>.

Definition end_of_page (d : galileo_tlm) : galileo_tlm :=
  let d := mark_page d in if any_crc_ok d then good_page d else bad_page d.

Definition page_complete (d : galileo_tlm) : bool :=
  d_symbol_counter d =? u64 (d_preamble_index d + u64 (d_preamble_period_symbols d)).

(** [d_stat == 2]: preamble acquired. *)
Definition track_pages `{Boost} `{Boost_FNAV} `{Boost_CNAV} `{RSDecoder} `{Libm}
    (g : Gnss_Synchro) : prog galileo_tlm bool :=
  at_end <- gets page_complete;;
  if at_end : bool then
    go_on <- decode_page_part g;;
    (if go_on : bool then modify end_of_page;; ret true else ret false)
  else ret true.

Definition frame_sync `{Boost} `{Boost_FNAV} `{Boost_CNAV} `{RSDecoder} `{Libm}
    (g : Gnss_Synchro) : prog galileo_tlm bool :=
  stat <- gets d_stat;;
  match stat with
  | 0 => modify search_preamble;; ret true
  | 1 => modify confirm_preamble;; ret true
  | 2 => track_pages g
  | _ => ret true
  end.

(** ** The time of week *)

Definition publish_tow (g : Gnss_Synchro) (d : galileo_tlm) : galileo_tlm :=
  if d_there_are_e6_channels d && negb (d_valid_timetag d)
  then publish (TOW_from_TLM (d_satellite_PRN d) (d_TOW_at_current_symbol_ms d)
                  (Tracking_sample_counter g)) d
  else d.

(** A page with the time of week [tow], in seconds, is decoded [delay]
    milliseconds after the instant that the time refers to. *)
Definition set_page_tow (g : Gnss_Synchro) (tow delay : Z) (forget : galileo_tlm -> galileo_tlm)
  : prog galileo_tlm unit :=
  t <- lift (uint32_of_double (tow * 1000));;
  modify (fun d => publish_tow g (forget (d <| d_TOW_at_Preamble_ms := t |>
    <| d_TOW_at_current_symbol_ms := u32 (t + delay) |>))).

Definition advance_tow (period : Z) (d : galileo_tlm) : galileo_tlm :=
  d <| d_TOW_at_current_symbol_ms ::= fun tow => u32 (tow + period) |>.

Definition inav_delay_ms (d : galileo_tlm) : Z :=
  u32 (GALILEO_INAV_PAGE_PART_MS + (d_required_symbols d + 1) * d_PRN_code_period_ms d).
Definition fnav_delay_ms (d : galileo_tlm) : Z :=
  u32 ((d_required_symbols d + 1) * GALILEO_FNAV_CODES_PER_SYMBOL * GALILEO_E5A_CODE_PERIOD_MS).
Definition cnav_delay_ms (d : galileo_tlm) : Z :=
  u32 ((d_required_symbols d + 1) * d_PRN_code_period_ms d).

Definition inav_page_tow (g : Gnss_Synchro) : prog galileo_tlm unit :=
  d <- gets id;;
  let m := d_inav_nav d in
  if InavMessage.get_flag_TOW_set m then
    if is_TOW5_set m then
      set_page_tow g (get_TOW5 m) (inav_delay_ms d)
        (fun d => d <| d_inav_nav ::= set_TOW5_flag false |>)
    else if is_TOW6_set m then
      set_page_tow g (get_TOW6 m) (inav_delay_ms d)
        (fun d => d <| d_inav_nav ::= set_TOW6_flag false |>)
    else if is_TOW0_set m then
      set_page_tow g (get_TOW0 m) (inav_delay_ms d)
        (fun d => d <| d_inav_nav ::= set_TOW0_flag false |>)
    else modify (advance_tow (d_PRN_code_period_ms d))
  else ret tt.

Definition fnav_page_tow (g : Gnss_Synchro) : prog galileo_tlm unit :=
  d <- gets id;;
  let m := d_fnav_nav d in
  if FnavMessage.get_flag_TOW_set m then
    if is_TOW1_set m then
      set_page_tow g (get_TOW1 m) (fnav_delay_ms d)
        (fun d => d <| d_fnav_nav ::= set_TOW1_flag false |>)
    else if is_TOW2_set m then
      set_page_tow g (get_TOW2 m) (fnav_delay_ms d)
        (fun d => d <| d_fnav_nav ::= set_TOW2_flag false |>)
    else if is_TOW3_set m then
      set_page_tow g (get_TOW3 m) (fnav_delay_ms d)
        (fun d => d <| d_fnav_nav ::= set_TOW3_flag false |>)
    else if is_TOW4_set m then
      set_page_tow g (get_TOW4 m) (fnav_delay_ms d)
        (fun d => d <| d_fnav_nav ::= set_TOW4_flag false |>)
    else modify (advance_tow (GALILEO_FNAV_CODES_PER_SYMBOL * GALILEO_E5A_CODE_PERIOD_MS))
  else ret tt.

(** [static_cast<uint32_t>(x)] of any [double]. *)
Definition uint32_cast (x : double) : outcome Z :=
  match x with
  | S754_nan | S754_infinity _ => Throws undefined_behaviour
  | _ => uint32_of_double (trunc_Z x)
  end.

(** The milliseconds from the reference sample to the symbol. *)
Definition time_since_reference_ms (g : Gnss_Synchro) (received_sample_counter : Z) : double :=
  ddiv (dmul (double_of_Z (i64 (Tracking_sample_counter g - received_sample_counter)))
             (double_of_Z 1000))
       (double_of_Z (fs g)).

(** C/NAV pages carry no time: it comes from the time tags, or from the other
    channels through the map. *)
Definition cnav_page_tow (g : Gnss_Synchro) : prog galileo_tlm unit :=
  d <- gets id;;
  if d_valid_timetag d then
    let predicted := u32 (1000 * Z.quot (tow_ms (d_current_timetag d)) 1000) in
    modify (fun d => d <| d_TOW_at_Preamble_ms := predicted |>
      <| d_TOW_at_current_symbol_ms := u32 (predicted + cnav_delay_ms d) |>
      <| d_E6_TOW_set := true |>)
  else if d_received_tow_ms d <? 604800000 then
    elapsed <- lift (uint32_cast (time_since_reference_ms g (d_received_sample_counter d)));;
    let tow := u32 (d_received_tow_ms d + elapsed + GALILEO_E6_CODE_PERIOD_MS) in
    modify (fun d => d <| d_TOW_at_current_symbol_ms := tow |>
      <| d_TOW_at_Preamble_ms := tow / 1000 * 1000 |> <| d_E6_TOW_set := true |>)
  else ret tt.

(** The navigation message monitor. *)
Definition publish_nav_message (g : Gnss_Synchro) (d : galileo_tlm) : galileo_tlm :=
  if d_enable_navdata_monitor d && negb (Nat.eqb (length (d_nav_message d)) 0) then
    (publish (Nav_msg_from_TLM {|
      packet_system := [System g];
      packet_signal := Signal g;
      packet_prn := i32 (synchro_PRN g);
      packet_tow_at_current_symbol_ms := i32 (d_TOW_at_current_symbol_ms d);
      nav_message := d_nav_message d |}) d) <| d_nav_message := [] |>
  else d.

(** At a page: its time. *)
Definition tow_at_page (g : Gnss_Synchro) : prog galileo_tlm unit :=
  frame_type <- gets d_frame_type;;
  match frame_type with
  | 1 => inav_page_tow g;; modify (publish_nav_message g)
  | 2 => fnav_page_tow g;; modify (publish_nav_message g)
  | 3 => cnav_page_tow g;;
         modify (fun d => if d_E6_TOW_set d then publish_nav_message g d else d)
  | _ => ret tt
  end.

(** The time of week is known. *)
Definition tow_set (d : galileo_tlm) : bool :=
  match d_frame_type d with
  | 1 => InavMessage.get_flag_TOW_set (d_inav_nav d)
  | 2 => FnavMessage.get_flag_TOW_set (d_fnav_nav d)
  | 3 => d_E6_TOW_set d
  | _ => false
  end.

(** Elsewhere the time advances by one symbol. *)
Definition tow_at_symbol (d : galileo_tlm) : galileo_tlm :=
  if tow_set d then advance_tow (d_PRN_code_period_ms d) d else d.

(** ** The output *)

(** What [general_work] makes: one output item, none, or the end of the work. *)
Inductive work_result :=
  | produced (g : Gnss_Synchro)
  | no_output
  | work_done.

Definition output_symbol (g : Gnss_Synchro) (d : galileo_tlm) : work_result :=
  let g := if tow_set d then g <| Flag_valid_word := true |> else g in
  if Flag_valid_word g then
    let g := g <| TOW_at_current_symbol_ms := d_TOW_at_current_symbol_ms d |> in
    produced
      (if d_flag_PLL_180_deg_phase_locked d
       then g <| Carrier_phase_rads ::= fun x => dadd x GNSS_PI |>
              <| Flag_PLL_180_deg_phase_locked := true |>
       else g <| Flag_PLL_180_deg_phase_locked := false |>)
  else no_output.

(** ** General work *)

(** One call: the item [g] of the input and the tags at it. *)
Definition receive_symbol (g : Gnss_Synchro) (tags : list (option GnssTime)) (d : galileo_tlm)
  : galileo_tlm :=
  check_telemetry ((time_tags tags (store_symbol g d)) <| d_flag_preamble := false |>).

Definition update_tow (g : Gnss_Synchro) : prog galileo_tlm unit :=
  at_page <- gets d_flag_preamble;;
  if at_page : bool then tow_at_page g else modify tow_at_symbol.

Definition general_work `{Boost} `{Boost_FNAV} `{Boost_CNAV} `{RSDecoder} `{Libm}
    (g : Gnss_Synchro) (tags : list (option GnssTime)) : prog galileo_tlm work_result :=
  modify (receive_symbol g tags);;
  go_on <- frame_sync g;;
  if go_on : bool then update_tow g;; gets (output_symbol g) else ret work_done.
