(* ===== verification/TlmSync.v ===== *)
(** * TlmSync: the frame synchroniser of the telemetry decoder

    An abstract synchroniser of three states, and the proof that [general_work]
    implements it: searching, one preamble seen, and locked with the age of the
    last page boundary and the number of pages in a row whose CRC failed. *)

From S2P Require Import Prelude Cstring Float64 MathConstants GalileoData InavTables InavWords InavMessage HasData CnavMessage FnavTables FnavMessage Viterbi TlmDecoder.
From stdpp Require Import list strings.
From Stdlib Require Import ZArith Lia Ascii SpecFloat.
Local Open Scope Z_scope.
Local Open Scope cxx_scope.

(** ** The abstract synchroniser *)

Inductive sync :=
  | Searching
  | Candidate (age : Z)
  | Locked (age errors : Z) (inverted : bool).

(** One symbol.  [detected] is the preamble that ends the window, with its
    polarity; [crc] is the check of the page that ends here, if one does. *)
Definition sync_step (period : Z) (detected : option bool) (crc : bool) (s : sync) : sync :=
  match s with
  | Searching => match detected with Some _ => Candidate 0 | None => Searching end
  | Candidate age =>
      match detected with
      | None => Candidate (age + 1)
      | Some inverted =>
          if age + 1 =? period then Locked 0 0 inverted
          else if period <? age + 1 then Searching else Candidate (age + 1)
      end
  | Locked age errors inverted =>
      if age + 1 =? period then
        if crc then Locked 0 0 inverted
        else if CRC_ERROR_LIMIT <? errors + 1 then Searching
        else Locked 0 (errors + 1) inverted
      else Locked (age + 1) errors inverted
  end.

(** ** What the synchroniser uses of the decoder *)

Record sync_part := mksync_part {
  sp_preamble : list Z;
  sp_samples : Z;
  sp_period : Z;
  sp_required : Z;
  sp_frame_length : Z;
  sp_frame_type : Z;
  sp_code_period : Z;
  sp_history : list float;
  sp_counter : Z;
  sp_index : Z;
  sp_errors : Z;
  sp_stat : Z;
  sp_inverted : bool
}.
#[export] Instance eta_sync_part : Eta sync_part := fun s =>
  mksync_part (sp_preamble s) (sp_samples s) (sp_period s) (sp_required s) (sp_frame_length s)
    (sp_frame_type s) (sp_code_period s) (sp_history s) (sp_counter s) (sp_index s) (sp_errors s)
    (sp_stat s) (sp_inverted s).

Definition sync_of (d : galileo_tlm) : sync_part :=
  mksync_part (d_preamble_samples d) (d_samples_per_preamble d) (d_preamble_period_symbols d)
    (d_required_symbols d) (d_frame_length_symbols d) (d_frame_type d) (d_PRN_code_period_ms d)
    (d_symbol_history d) (d_symbol_counter d) (d_preamble_index d) (d_CRC_error_counter d)
    (d_stat d) (d_flag_PLL_180_deg_phase_locked d).

Definition age (s : sync_part) : Z := sp_counter s - sp_index s.

Definition abstract (s : sync_part) : sync :=
  if sp_stat s =? 0 then Searching
  else if sp_stat s =? 1 then Candidate (age s)
  else Locked (age s) (sp_errors s) (sp_inverted s).

(** The preamble seen in the window of a full history. *)
Definition detection (s : sync_part) : option bool :=
  let corr := correlation (sp_samples s) (sp_preamble s) (sp_history s) in
  if (sp_required s <? Z.of_nat (length (sp_history s))) && (sp_samples s <=? Z.abs corr)
  then Some (corr <? 0) else None.

(** The history after one more symbol. *)
Definition push (required : Z) (x : float) (h : list float) : list float :=
  drop (Z.to_nat (Z.of_nat (length (h ++ [x])) - (required + 1))) (h ++ [x]).

Definition advance (x : float) (s : sync_part) : sync_part :=
  s <| sp_history ::= push (sp_required s) x |> <| sp_counter ::= fun n => u64 (n + 1) |>.

(** ** The invariant *)

Record sync_wf (s : sync_part) : Prop := {
  sw_type : sp_frame_type s = 1 \/ sp_frame_type s = 2 \/ sp_frame_type s = 3;
  sw_parameters :
    let p := parameters_of (sp_frame_type s) in
    sp_preamble s = map (fun c => if Ascii.eqb c "1" then 1 else -1) (fp_preamble p) /\
    sp_samples s = fp_samples_per_preamble p /\ sp_period s = fp_preamble_period p /\
    sp_required s = fp_required_symbols p /\ sp_frame_length s = fp_frame_length p /\
    sp_code_period s = fp_code_period_ms p;
  sw_stat : 0 <= sp_stat s <= 2;
  sw_history : Z.of_nat (length (sp_history s)) <= sp_required s + 1;
  sw_full : 1 <= sp_stat s -> Z.of_nat (length (sp_history s)) = sp_required s + 1;
  sw_counter : 0 <= sp_index s <= sp_counter s;
  sw_locked : sp_stat s = 2 -> sp_counter s < sp_index s + sp_period s;
  sw_errors : sp_stat s = 2 -> 0 <= sp_errors s <= CRC_ERROR_LIMIT
}.

(** The counters are far from wrapping around: two thousand million symbols
    since a first preamble, and [2^63] in all. *)
Definition sync_bounds (s : sync_part) : Prop :=
  sp_counter s < 2 ^ 63 /\ (sp_stat s = 1 -> age s < 2 ^ 31 - 1).

Lemma new_galileo_tlm_wf PRN conf frame_type :
  1 <= frame_type <= 3 -> sync_wf (sync_of (new_galileo_tlm PRN conf frame_type)).
Proof.
  intros H. assert (frame_type = 1 \/ frame_type = 2 \/ frame_type = 3) as [E|[E|E]] by lia;
    subst; (split; cbn; [auto|repeat split|lia..| |lia|lia|lia|lia]).
  all: vm_compute; discriminate.
Qed.

(** ** What keeps the synchroniser *)

Definition keeps {V A} (view : galileo_tlm -> V) (c : prog galileo_tlm A) : Prop :=
  forall v, run_inv (fun d => view d = v) c.

Lemma keeps_bind {V A B} (view : galileo_tlm -> V) (c : prog galileo_tlm A)
    (k : A -> prog galileo_tlm B) :
  keeps view c -> (forall a, keeps view (k a)) -> keeps view (bind c k).
Proof. intros Hc Hk v. apply run_inv_bind; [apply Hc|intros a; apply Hk]. Qed.
Lemma keeps_ret {V A} (view : galileo_tlm -> V) (a : A) : keeps view (ret a).
Proof. intros v. apply run_inv_ret. Qed.
Lemma keeps_gets {V A} (view : galileo_tlm -> V) (f : galileo_tlm -> A) : keeps view (gets f).
Proof. intros v. apply run_inv_gets. Qed.
Lemma keeps_lift {V A} (view : galileo_tlm -> V) (o : outcome A) : keeps view (lift o).
Proof. intros v. apply run_inv_lift. Qed.
Lemma keeps_modify {V} (view : galileo_tlm -> V) f :
  (forall d, view (f d) = view d) -> keeps view (modify f).
Proof. intros H v. apply run_inv_modify. intros d <-. apply H. Qed.
Lemma keeps_state {V A} (view : galileo_tlm -> V) (c : prog galileo_tlm A) d :
  keeps view c -> view (c d).2 = view d.
Proof. intros H. now apply (H (view d)). Qed.
Lemma keeps_sync_inav {A} (c : prog Galileo_Inav_Message A) : keeps sync_of (on_inav c).
Proof. intros v d <-. unfold on_inav. destruct (c _). reflexivity. Qed.
Lemma keeps_sync_fnav {A} (c : prog Galileo_Fnav_Message A) : keeps sync_of (on_fnav c).
Proof. intros v d <-. unfold on_fnav. destruct (c _). reflexivity. Qed.
Lemma keeps_sync_cnav {A} (c : prog Galileo_Cnav_Message A) : keeps sync_of (on_cnav c).
Proof. intros v d <-. unfold on_cnav. destruct (c _). reflexivity. Qed.
Lemma keeps_sync_decode_symbols rows cols n x : keeps sync_of (decode_symbols rows cols n x).
Proof. intros v d <-. unfold decode_symbols. destruct (decode _ _ _). reflexivity. Qed.
#[export] Hint Resolve keeps_bind keeps_ret keeps_gets keeps_lift
  keeps_sync_inav keeps_sync_fnav keeps_sync_cnav keeps_sync_decode_symbols : cxx.

Lemma sync_publish_tow_unknown d : sync_of (publish_tow_unknown d) = sync_of d.
Proof. unfold publish_tow_unknown. destruct (d_there_are_e6_channels d); reflexivity. Qed.
Lemma sync_publish_tow g d : sync_of (publish_tow g d) = sync_of d.
Proof. unfold publish_tow. destruct (_ && _); reflexivity. Qed.
Lemma sync_publish_osnma d : sync_of (publish_osnma d) = sync_of d.
Proof. unfold publish_osnma. destruct (_ && _); reflexivity. Qed.
Lemma sync_keep_nav_message p d : sync_of (keep_nav_message p d) = sync_of d.
Proof. unfold keep_nav_message. destruct (d_enable_navdata_monitor d); reflexivity. Qed.
Lemma sync_report_inav have get d : sync_of (report_inav have get d).2 = sync_of d.
Proof. unfold report_inav. destruct (have _) as [[] m]; reflexivity. Qed.
Lemma sync_report_fnav have get d : sync_of (report_fnav have get d) = sync_of d.
Proof. unfold report_fnav. destruct (have _) as [[] m]; reflexivity. Qed.

Lemma sync_report_inav_data `{RSDecoder} `{Libm} d : sync_of (report_inav_data d) = sync_of d.
Proof.
  unfold report_inav_data. cbv zeta.
  destruct (report_inav InavMessage.have_new_ephemeris _ d) as [new d1] eqn:E1.
  assert (sync_of d1 = sync_of d) as <-.
  { pose proof (sync_report_inav InavMessage.have_new_ephemeris
      (fun m => telemetry_ephemeris (InavMessage.get_ephemeris m)) d) as E. rewrite E1 in E. exact E. }
  rewrite 3 sync_report_inav. destruct new; [reflexivity|].
  destruct (_ && _); [apply sync_report_inav|reflexivity].
Qed.

Lemma sync_report_fnav_data d : sync_of (report_fnav_data d) = sync_of d.
Proof. unfold report_fnav_data. cbv zeta. now rewrite 3 sync_report_fnav. Qed.

Lemma sync_report_cnav_page d : sync_of (report_cnav_page d) = sync_of d.
Proof.
  unfold report_cnav_page. destruct (have_new_HAS_page _); [|reflexivity].
  destruct (is_HAS_page_dummy _); [reflexivity|]. destruct (d_E6_TOW_set d); reflexivity.
Qed.

Lemma keeps_sync_decode_page_part `{Boost} `{Boost_FNAV} `{Boost_CNAV} `{RSDecoder} `{Libm} g :
  keeps sync_of (decode_page_part g).
Proof.
  apply keeps_bind; [apply keeps_gets|intros d].
  assert (keeps sync_of (ret (S := galileo_tlm) true)) as Ht by auto with cxx.
  destruct (d_frame_type d) as [|[[]|[]|]|]; auto with cxx.
  - apply keeps_bind; [auto with cxx|intros stamp]. apply keeps_bind; [|auto].
    apply keeps_bind; [auto with cxx|intros p]. repeat (apply keeps_bind; [|intros []]);
      auto with cxx; apply keeps_modify; intros d'; auto using sync_keep_nav_message, sync_report_cnav_page.
  - apply keeps_bind; [|auto]. apply keeps_bind; [auto with cxx|intros p].
    repeat (apply keeps_bind; [|intros []]);
      auto with cxx; apply keeps_modify; intros d'; auto using sync_keep_nav_message, sync_report_fnav_data.
  - apply keeps_bind; [|auto]. apply keeps_bind; [auto with cxx|intros p].
    apply keeps_bind; [apply keeps_modify; intros; apply sync_keep_nav_message|intros []].
    apply keeps_bind; [auto with cxx|intros flag].
    apply keeps_bind; [auto with cxx|intros []].
    apply keeps_bind; [|intros []; apply keeps_modify, sync_report_inav_data].
    destruct (_ =? 1).
    + apply keeps_bind; [apply keeps_modify, sync_publish_osnma|intros []].
      now apply keeps_modify.
    + now apply keeps_modify.
Qed.

(** The time of week changes neither the synchroniser nor the CRC flags. *)
Definition sync_crc (d : galileo_tlm) : sync_part * bool := (sync_of d, any_crc_ok d).

Lemma sync_crc_publish_tow g d : sync_crc (publish_tow g d) = sync_crc d.
Proof. unfold publish_tow. destruct (_ && _); reflexivity. Qed.
Lemma sync_crc_publish_tow_unknown d : sync_crc (publish_tow_unknown d) = sync_crc d.
Proof. unfold publish_tow_unknown. destruct (d_there_are_e6_channels d); reflexivity. Qed.
Lemma sync_crc_publish_nav_message g d : sync_crc (publish_nav_message g d) = sync_crc d.
Proof. unfold publish_nav_message. destruct (_ && _); reflexivity. Qed.

Lemma keeps_set_page_tow g tow delay forget :
  (forall d, sync_crc (forget d) = sync_crc d) -> keeps sync_crc (set_page_tow g tow delay forget).
Proof.
  intros Hf. apply keeps_bind; [auto with cxx|intros t]. apply keeps_modify.
  intros d. now rewrite sync_crc_publish_tow, Hf.
Qed.

Lemma keeps_update_tow g : keeps sync_crc (update_tow g).
Proof.
  apply keeps_bind; [auto with cxx|intros []].
  - apply keeps_bind; [auto with cxx|intros ft].
    assert (keeps sync_crc (modify (publish_nav_message g))) as Hp
      by (apply keeps_modify, sync_crc_publish_nav_message).
    destruct ft as [|[[]|[]|]|]; auto with cxx; (apply keeps_bind; [|intros []]); auto with cxx.
    + apply keeps_bind; [auto with cxx|intros d]. destruct (d_valid_timetag d).
      { now apply keeps_modify. }
      destruct (_ <? _); auto with cxx. apply keeps_bind; [auto with cxx|intros e].
      now apply keeps_modify.
    + apply keeps_modify. intros d. destruct (d_E6_TOW_set d); auto using sync_crc_publish_nav_message.
    + apply keeps_bind; [auto with cxx|intros d; cbv zeta]. destruct (FnavMessage.get_flag_TOW_set (d_fnav_nav d)); auto with cxx.
      repeat match goal with |- keeps _ (if ?b then _ else _) => destruct b end;
        try (now apply keeps_set_page_tow); now apply keeps_modify.
    + apply keeps_bind; [auto with cxx|intros d; cbv zeta]. destruct (InavMessage.get_flag_TOW_set (d_inav_nav d)); auto with cxx.
      repeat match goal with |- keeps _ (if ?b then _ else _) => destruct b end;
        try (now apply keeps_set_page_tow); now apply keeps_modify.
  - apply keeps_modify. intros d. unfold tow_at_symbol. destruct (tow_set d); reflexivity.
Qed.

(** ** One symbol *)

Lemma sync_receive_symbol g tags d :
  sync_of (receive_symbol g tags d) = advance (float_of_double (Prompt_I g)) (sync_of d).
Proof.
  unfold receive_symbol, check_telemetry.
  transitivity (sync_of (time_tags tags (store_symbol g d))).
  { destruct (_ && _); reflexivity. }
  transitivity (sync_of (store_symbol g d)); [|reflexivity].
  unfold time_tags. destruct tags as [|t tags].
  - destruct (d_valid_timetag _); reflexivity.
  - unfold read_tags. generalize (store_symbol g d). generalize (t :: tags). clear.
    intros l. induction l as [|[t|] l IH]; intros d; cbn; [reflexivity| |apply IH].
    now rewrite IH.
Qed.

(** The synchroniser after the symbol, as a function of its own state. *)
Definition sync_after (crc : bool) (s : sync_part) : sync_part :=
  if sp_stat s =? 0 then
    match detection s with
    | Some _ => s <| sp_index := sp_counter s |> <| sp_stat := 1 |>
    | None => s
    end
  else if sp_stat s =? 1 then
    match detection s with
    | Some inverted =>
        if i32 (age s) =? sp_period s then
          s <| sp_index := sp_counter s |> <| sp_errors := 0 |> <| sp_inverted := inverted |>
            <| sp_stat := 2 |>
        else if sp_period s <? i32 (age s) then s <| sp_stat := 0 |> else s
    | None => s
    end
  else if sp_stat s =? 2 then
    if sp_counter s =? u64 (sp_index s + u64 (sp_period s)) then
      let s := s <| sp_index := sp_counter s |> in
      if crc then s <| sp_errors := 0 |>
      else let s := s <| sp_errors ::= fun n => i32 (n + 1) |> in
           if CRC_ERROR_LIMIT <? sp_errors s then s <| sp_stat := 0 |> else s
    else s
  else s.

Lemma sync_search d : d_stat d = 0 -> forall b, sync_of (search_preamble d) = sync_after b (sync_of d).
Proof.
  intros E b. unfold sync_after. cbn [sync_of sp_stat]. rewrite E. cbn [Z.eqb].
  unfold search_preamble, detection. change (_ && _) with (preamble_detected d).
  destruct (preamble_detected d); reflexivity.
Qed.

Lemma sync_confirm d : d_stat d = 1 -> forall b, sync_of (confirm_preamble d) = sync_after b (sync_of d).
Proof.
  intros E b. unfold sync_after. cbn [sync_of sp_stat]. rewrite E. cbn [Z.eqb Pos.eqb].
  unfold confirm_preamble, detection. change (_ && _) with (preamble_detected d).
  destruct (preamble_detected d); [|reflexivity]. cbv zeta.
  unfold age. cbn [sync_of sp_counter sp_index sp_period].
  destruct (_ =? _); [reflexivity|]. destruct (_ <? _); reflexivity.
Qed.

Lemma sync_crc_forget_tow d :
  sync_crc (d <| d_fnav_nav ::= FnavMessage.set_flag_TOW_set false |>
              <| d_inav_nav ::= InavMessage.set_flag_TOW_set false |>) = sync_crc d.
Proof. reflexivity. Qed.

Lemma sync_crc_lose d : sync_crc (lose_frame_sync d) = ((sync_of d) <| sp_stat := 0 |>, any_crc_ok d).
Proof.
  unfold lose_frame_sync. cbv zeta. rewrite sync_crc_forget_tow, sync_crc_publish_tow_unknown.
  reflexivity.
Qed.

Lemma sync_crc_good d : sync_crc (good_page d) = ((sync_of d) <| sp_errors := 0 |>, any_crc_ok d).
Proof. reflexivity. Qed.
Lemma sync_crc_count d :
  sync_crc (count_crc_error d) = ((sync_of d) <| sp_errors ::= fun n => i32 (n + 1) |>, any_crc_ok d).
Proof. reflexivity. Qed.
Lemma sync_crc_mark d :
  sync_crc (mark_page d) = ((sync_of d) <| sp_index := sp_counter (sync_of d) |>, any_crc_ok d).
Proof. reflexivity. Qed.

Lemma sync_crc_bad d : sync_crc (bad_page d) =
  (let s := (sync_of d) <| sp_errors ::= fun n => i32 (n + 1) |> in
   if CRC_ERROR_LIMIT <? sp_errors s then s <| sp_stat := 0 |> else s, any_crc_ok d).
Proof.
  pose proof (sync_crc_count d) as E. apply pair_equal_spec in E as [E1 E2].
  unfold bad_page. cbv zeta. rewrite <- E1.
  change (sp_errors (sync_of (count_crc_error d))) with (d_CRC_error_counter (count_crc_error d)).
  destruct (_ <? _).
  - now rewrite sync_crc_lose, E2.
  - unfold sync_crc. now rewrite E2.
Qed.

Lemma sync_crc_end d : sync_crc (end_of_page d) =
  (let s := (sync_of d) <| sp_index := sp_counter (sync_of d) |> in
   if any_crc_ok d then s <| sp_errors := 0 |>
   else let s := s <| sp_errors ::= fun n => i32 (n + 1) |> in
        if CRC_ERROR_LIMIT <? sp_errors s then s <| sp_stat := 0 |> else s, any_crc_ok d).
Proof.
  pose proof (sync_crc_mark d) as E. apply pair_equal_spec in E as [E1 E2].
  unfold end_of_page. cbv zeta. rewrite E2, <- E1. destruct (any_crc_ok d).
  - now rewrite sync_crc_good, E2.
  - rewrite sync_crc_bad, E2. reflexivity.
Qed.

Lemma sync_end_of_page d : d_stat d = 2 -> page_complete d = true ->
  sync_of (end_of_page d) = sync_after (any_crc_ok (end_of_page d)) (sync_of d).
Proof.
  intros E Ep. pose proof (sync_crc_end d) as H. apply pair_equal_spec in H as [H1 H2].
  rewrite H1, H2. unfold sync_after. cbn [sync_of sp_stat]. rewrite E.
  cbn [Z.eqb Pos.eqb]. change (_ =? u64 _) with (page_complete d). now rewrite Ep.
Qed.

Section Work.
Context `{Boost} `{Boost_FNAV} `{Boost_CNAV} `{RSDecoder} `{Libm}.

Lemma sync_decode_page_part g d : sync_of (decode_page_part g d).2 = sync_of d.
Proof. apply keeps_state, keeps_sync_decode_page_part. Qed.

Lemma then_true {A} (c : prog galileo_tlm A) d b d' :
  (c;; ret true) d = (Returns b, d') -> b = true.
Proof. unfold bind. destruct (c d) as [[a|e] d1]; unfold ret; congruence. Qed.

(** The page decoder always goes on for the three frame types. *)
Lemma decode_page_part_goes_on g d go_on d' :
  1 <= d_frame_type d <= 3 -> decode_page_part g d = (Returns go_on, d') -> go_on = true.
Proof.
  intros Hft. unfold decode_page_part, bind at 1, gets, id.
  assert (d_frame_type d = 1 \/ d_frame_type d = 2 \/ d_frame_type d = 3) as [E|[E|E]] by lia;
    rewrite E; try apply then_true.
  unfold bind at 1. destruct (lift _ d) as [[t|e] d0]; [apply then_true|congruence].
Qed.

Lemma frame_sync_after g d go_on d' : 0 <= d_stat d <= 2 -> 1 <= d_frame_type d <= 3 ->
  frame_sync g d = (Returns go_on, d') ->
  go_on = true /\ exists crc, sync_of d' = sync_after crc (sync_of d) /\
    (d_stat d = 2 -> page_complete d = true -> crc = any_crc_ok d').
Proof.
  intros Hs Hft. unfold frame_sync, bind at 1, gets.
  assert (d_stat d = 0 \/ d_stat d = 1 \/ d_stat d = 2) as [E|[E|E]] by lia; rewrite E.
  - intros [= <- <-]. split; [reflexivity|]. exists false. split; [now apply sync_search|lia].
  - intros [= <- <-]. split; [reflexivity|]. exists false. split; [now apply sync_confirm|lia].
  - unfold track_pages, bind at 1, gets. destruct (page_complete d) eqn:Ep.
    + unfold bind at 1. pose proof (sync_decode_page_part g d) as Ed.
      destruct (decode_page_part g d) as [[b|e] d1] eqn:Edec; [|congruence].
      rewrite (decode_page_part_goes_on g d b d1 Hft Edec).
      intros [= <- <-]. cbn [snd] in Ed. split; [reflexivity|].
      exists (any_crc_ok (end_of_page d1)). split; [|auto]. rewrite <- Ed. apply sync_end_of_page.
      * change (sp_stat (sync_of d1) = 2). now rewrite Ed.
      * assert (page_complete d1 = page_complete d) as ->; [|exact Ep].
        change ((sp_counter (sync_of d1) =?
                 u64 (sp_index (sync_of d1) + u64 (sp_period (sync_of d1)))) = page_complete d). now rewrite Ed.
    + intros [= <- <-]. split; [reflexivity|]. exists false. split; [|congruence].
      unfold sync_after. cbn [sync_of sp_stat]. rewrite E. cbn [Z.eqb Pos.eqb].
      change (_ =? u64 _) with (page_complete d). now rewrite Ep.
Qed.

(** One call of [general_work] on the synchroniser. *)
Lemma sync_general_work g tags d r d' : sync_wf (sync_of d) ->
  general_work g tags d = (Returns r, d') ->
  exists crc, let s := advance (float_of_double (Prompt_I g)) (sync_of d) in
    sync_of d' = sync_after crc s /\ r <> work_done /\
    (sp_stat s = 2 -> sp_counter s = u64 (sp_index s + u64 (sp_period s)) -> crc = any_crc_ok d').
Proof.
  intros W. unfold general_work, bind at 1, modify. unfold bind at 1.
  pose proof (sync_receive_symbol g tags d) as Er.
  set (d0 := receive_symbol g tags d) in *.
  destruct (frame_sync g d0) as [[go_on|e] d1] eqn:Ef; [|congruence].
  assert (0 <= d_stat d0 <= 2) as Hstat.
  { change (0 <= sp_stat (sync_of d0) <= 2). rewrite Er. apply (sw_stat _ W). }
  assert (1 <= d_frame_type d0 <= 3) as Hft.
  { change (1 <= sp_frame_type (sync_of d0) <= 3). rewrite Er.
    change (1 <= sp_frame_type (sync_of d) <= 3). destruct (sw_type _ W) as [->|[->| ->]]; lia. }
  destruct (frame_sync_after g d0 go_on d1 Hstat Hft Ef) as (-> & crc & Es & Ec).
  unfold bind. pose proof (keeps_state sync_crc (update_tow g) d1 (keeps_update_tow g)) as Eu.
  destruct (update_tow g d1) as [[[]|e] d2]; [|congruence]. intros [= <- <-].
  cbn [snd] in Eu. unfold sync_crc in Eu. apply pair_equal_spec in Eu as [Eu1 Eu2].
  exists crc. cbv zeta. rewrite <- Er. split; [congruence|]. split.
  - unfold output_symbol. cbv zeta. destruct (Flag_valid_word _); discriminate.
  - intros Hs2 Hp. rewrite Eu2. apply Ec; [exact Hs2|]. apply Z.eqb_eq. exact Hp.
Qed.
End Work.

(** ** The invariant and the refinement *)

Lemma push_length required x h : 0 <= required -> Z.of_nat (length h) <= required + 1 ->
  Z.of_nat (length (push required x h)) = Z.min (Z.of_nat (length h) + 1) (required + 1).
Proof. intros Hr Hh. unfold push. rewrite length_drop, length_app. cbn [length]. lia. Qed.

Lemma parameters_positive s : sync_wf s -> 0 < sp_required s /\ 1 < sp_period s < 2 ^ 16.
Proof.
  intros W. destruct (sw_parameters _ W) as (_ & _ & -> & -> & _).
  destruct (sw_type _ W) as [->|[->| ->]]; vm_compute; repeat split; discriminate.
Qed.

Lemma advance_wf x s : sync_wf s -> sync_bounds s ->
  let s' := advance x s in
  sp_counter s' = sp_counter s + 1 /\ sp_index s' = sp_index s /\ sp_stat s' = sp_stat s /\
  Z.of_nat (length (sp_history s')) <= sp_required s + 1 /\
  (1 <= sp_stat s -> Z.of_nat (length (sp_history s')) = sp_required s + 1).
Proof.
  intros W [B _]. destruct (parameters_positive s W) as [Hr _].
  pose proof (sw_counter _ W) as Hc. pose proof (sw_history _ W) as Hh.
  cbv zeta. unfold advance, update. cbn. rewrite push_length by lia.
  rewrite wrap_small by lia. repeat split; try lia. intros Hs. pose proof (sw_full _ W Hs). lia.
Qed.

Lemma detection_full s inv : detection s = Some inv ->
  sp_required s < Z.of_nat (length (sp_history s)).
Proof. unfold detection. cbv zeta. destruct (sp_required s <? _) eqn:E; [lia|discriminate]. Qed.

(** The fields of a synchroniser that is known to be well formed. *)
Ltac sync_kept Hwf :=
  apply Hwf; unfold update; cbn;
  first [assumption | reflexivity | lia | unfold CRC_ERROR_LIMIT in *; lia].

(** One symbol keeps the invariant and is one step of the abstract machine. *)
Lemma sync_after_step x crc s : sync_wf s -> sync_bounds s ->
  let s1 := advance x s in let s' := sync_after crc s1 in
  sync_wf s' /\ abstract s' = sync_step (sp_period s) (detection s1) crc (abstract s).
Proof.
  intros W B. destruct (advance_wf x s W B) as (A1 & A2 & A3 & A4 & A5).
  destruct (parameters_positive s W) as [Hr Hp]. pose proof (sw_counter _ W) as Hc.
  pose proof (sw_stat _ W) as Hst. pose proof (sw_errors _ W) as He. destruct B as [B1 B2].
  pose proof (sw_locked _ W) as Hl. cbv zeta. set (s1 := advance x s) in *.
  assert (sp_required s1 = sp_required s) as Er by reflexivity.
  assert (sp_period s1 = sp_period s) as Epd by reflexivity.
  assert (sp_errors s1 = sp_errors s) as Eer by reflexivity.
  assert (sp_inverted s1 = sp_inverted s) as Ein by reflexivity.
  assert (sp_frame_type s1 = sp_frame_type s /\ sp_preamble s1 = sp_preamble s /\
    sp_samples s1 = sp_samples s /\ sp_frame_length s1 = sp_frame_length s /\
    sp_code_period s1 = sp_code_period s) as (F1 & F2 & F3 & F4 & F5) by (repeat split).
  assert (forall t, sp_frame_type t = sp_frame_type s -> sp_preamble t = sp_preamble s ->
    sp_samples t = sp_samples s -> sp_period t = sp_period s -> sp_required t = sp_required s ->
    sp_frame_length t = sp_frame_length s -> sp_code_period t = sp_code_period s ->
    sp_history t = sp_history s1 -> 0 <= sp_stat t <= 2 ->
    (1 <= sp_stat t -> sp_required s < Z.of_nat (length (sp_history s1))) ->
    0 <= sp_index t <= sp_counter t -> (sp_stat t = 2 -> sp_counter t < sp_index t + sp_period s) ->
    (sp_stat t = 2 -> 0 <= sp_errors t <= CRC_ERROR_LIMIT) -> sync_wf t) as Hwf.
  { intros t T1 T2 T3 T4 T5 T6 T7 T8 T9 T10 T11 T12 T13.
    destruct W as [Wt Wp _ _ _ _ _ _].
    split; rewrite ?T1, ?T2, ?T3, ?T4, ?T5, ?T6, ?T7, ?T8; auto; try lia. }
  clearbody s1. unfold sync_after, abstract, sync_step. rewrite A3.
  destruct (sp_stat s =? 0) eqn:E0; [|destruct (sp_stat s =? 1) eqn:E1].
  - apply Z.eqb_eq in E0. destruct (detection s1) as [inv|] eqn:Ed.
    + apply detection_full in Ed. unfold update. split.
      * sync_kept Hwf.
      * cbn. unfold age. cbn. f_equal. lia.
    + split; [sync_kept Hwf|]. now rewrite A3, E0.
  - apply Z.eqb_eq in E1. specialize (B2 E1). unfold age in B2.
    assert (i32 (age s1) = age s + 1) as Eage.
    { unfold age. rewrite A1, A2. rewrite swrap_small by lia. lia. }
    specialize (A5 ltac:(lia)).
    destruct (detection s1) as [inv|] eqn:Ed.
    + rewrite Eage, Epd. destruct (age s + 1 =? sp_period s) eqn:Ep.
      { unfold update. split; [sync_kept Hwf|].
        cbn. unfold age. cbn. f_equal. lia. }
      destruct (sp_period s <? age s + 1).
      { unfold update. split; [sync_kept Hwf|reflexivity]. }
      split; [sync_kept Hwf|]. rewrite A3, E1. cbn. unfold age in *. f_equal. lia.
    + split; [sync_kept Hwf|]. rewrite A3, E1. cbn. unfold age in *. f_equal. lia.
  - assert (sp_stat s = 2) as E2 by lia. rewrite E2. cbn [Z.eqb Pos.eqb]. specialize (Hl E2).
    specialize (A5 ltac:(lia)). unfold age. rewrite A2, Epd.
    rewrite (wrap_small _ (sp_period s)), (wrap_small _ (sp_index s + _)), A1 by lia.
    replace (sp_counter s + 1 =? sp_index s + sp_period s)
      with (sp_counter s - sp_index s + 1 =? sp_period s) by lia.
    destruct (_ =? sp_period s) eqn:Ep.
    + destruct crc; unfold update; cbn.
      * split; [sync_kept Hwf|].
        rewrite A3, E2, A1, Ein. cbn. f_equal. lia.
      * rewrite Eer, swrap_small by (unfold CRC_ERROR_LIMIT in *; lia).
        destruct (CRC_ERROR_LIMIT <? sp_errors s + 1) eqn:El.
        -- split; [sync_kept Hwf|reflexivity].
        -- split; [sync_kept Hwf|].
           rewrite A3, E2, Ein, A1. cbn. f_equal. lia.
    + split; [sync_kept Hwf|]. rewrite A3, E2, A1, A2, Eer, Ein. cbn. f_equal. lia.
Qed.

(** ** Runs *)

Section Runs.
Context `{Boost} `{Boost_FNAV} `{Boost_CNAV} `{RSDecoder} `{Libm}.

(** Consecutive calls of [general_work]. *)
Fixpoint work_run (inputs : list (Gnss_Synchro * list (option GnssTime)))
  : prog galileo_tlm (list work_result) :=
  match inputs with
  | [] => ret []
  | (g, tags) :: inputs => r <- general_work g tags;; rs <- work_run inputs;; ret (r :: rs)
  end.

Lemma abstract_step g tags d r d' : sync_wf (sync_of d) -> sync_bounds (sync_of d) ->
  general_work g tags d = (Returns r, d') ->
  let s := advance (float_of_double (Prompt_I g)) (sync_of d) in
  sync_wf (sync_of d') /\ (exists crc, sync_of d' = sync_after crc s) /\
  abstract (sync_of d') =
    sync_step (d_preamble_period_symbols d) (detection s) (any_crc_ok d') (abstract (sync_of d)).
Proof.
  intros W B Hw. destruct (sync_general_work g tags d r d' W Hw) as (crc & E & _ & Hc).
  cbv zeta in *. set (s := advance _ _) in *.
  destruct (sync_after_step (float_of_double (Prompt_I g)) crc _ W B) as [W' A'].
  cbv zeta in W', A'. fold s in W', A'. rewrite <- E in W', A'.
  split; [exact W'|]. split; [eauto|]. rewrite A'.
  destruct (abstract (sync_of d)) as [|n|n e inv] eqn:Ea; try reflexivity.
  cbn. change (sp_period (sync_of d)) with (d_preamble_period_symbols d).
  destruct (n + 1 =? d_preamble_period_symbols d) eqn:Ep; [|reflexivity].
  unfold abstract in Ea. destruct (sp_stat (sync_of d) =? 0) eqn:E0; [discriminate|].
  destruct (sp_stat (sync_of d) =? 1) eqn:E1; [discriminate|]. injection Ea as En _ _.
  pose proof (sw_stat _ W) as Hst. destruct (parameters_positive _ W) as [_ Hp].
  destruct (advance_wf (float_of_double (Prompt_I g)) _ W B) as (A1 & A2 & A3 & _).
  fold s in A1, A2, A3. rewrite Hc; [reflexivity|lia|]. rewrite A1, A2.
  change (sp_period s) with (sp_period (sync_of d)).
  change (d_preamble_period_symbols d) with (sp_period (sync_of d)) in Ep.
  pose proof (sw_counter _ W) as Hcn. destruct B as [B _]. unfold age in En.
  rewrite !wrap_small by (rewrite ?wrap_small; lia). lia.
Qed.

(** [general_work] does not throw while no page is decoded. *)
Lemma unlocked_returns g tags d : sync_wf (sync_of d) -> d_stat d <> 2 ->
  exists r d', general_work g tags d = (Returns r, d').
Proof.
  intros W Hs. unfold general_work, bind at 1, modify. unfold bind at 1.
  pose proof (sync_receive_symbol g tags d) as Er.
  assert (d_flag_preamble (receive_symbol g tags d) = false) as Ef.
  { unfold receive_symbol, check_telemetry. destruct (_ && _); reflexivity. }
  set (d0 := receive_symbol g tags d) in *. clearbody d0.
  assert (d_stat d0 = d_stat d) as Es by (change (sp_stat (sync_of d0) = d_stat d); now rewrite Er).
  assert (d_stat d0 = 0 \/ d_stat d0 = 1) as Hst.
  { pose proof (sw_stat _ W) as Hst. cbn in Hst. lia. }
  assert (exists d1, frame_sync g d0 = (Returns true, d1) /\ d_flag_preamble d1 = false)
    as (d1 & -> & Ef1).
  { unfold frame_sync, bind at 1, gets. destruct Hst as [->| ->]; eexists; (split; [reflexivity|]).
    - unfold search_preamble. destruct (preamble_detected d0); exact Ef.
    - unfold confirm_preamble. destruct (preamble_detected d0); [|exact Ef]. cbv zeta.
      destruct (_ =? _); [exact Ef|]. destruct (_ <? _); exact Ef. }
  unfold update_tow, bind, gets, modify. rewrite Ef1. eauto.
Qed.
End Runs.

(** *** Searching *)

Definition locked (a : sync) : bool := match a with Locked _ _ _ => true | _ => false end.

(** The preambles that the windows of a run show. *)
Fixpoint detections (s : sync_part) (xs : list float) : list (option bool) :=
  match xs with
  | [] => []
  | x :: xs => detection (advance x s) :: detections (advance x s) xs
  end.

Definition is_preamble (o : option bool) : bool := match o with Some _ => true | None => false end.

(** The windows of the preambles: the [first]-th, and then one every [period]. *)
Definition periodic (first period : Z) (n : nat) : list bool :=
  map (fun i => (first <=? i) && ((i - first) mod period =? 0)) (seqZ 1 (Z.of_nat n)).

(** The abstract machine over the first [n] windows. *)
Definition searched (period : Z) (ds : list (option bool)) (n : nat) (a : sync) : sync :=
  fold_left (fun a o => sync_step period o false a) (take n ds) a.

Lemma searched_S period ds n o a : ds !! n = Some o ->
  searched period ds (S n) a = sync_step period o false (searched period ds n a).
Proof. intros E. unfold searched. rewrite (take_S_r _ _ _ E), fold_left_app. reflexivity. Qed.

Section Search.
Context (period : Z) (ds : list (option bool)) (first : Z) (a : sync).
Hypothesis Hperiod : 1 < period.
Hypothesis Hfirst : 1 <= first.
Hypothesis Hds : map is_preamble ds = periodic first period (length ds).
Abbreviation at_window n := (searched period ds (Z.to_nat n) a).

Lemma window_is i : 1 <= i <= Z.of_nat (length ds) -> exists o,
  ds !! Z.to_nat (i - 1) = Some o /\
  is_preamble o = (first <=? i) && ((i - first) mod period =? 0).
Proof using Hds.
  intros Hi. destruct (lookup_lt_is_Some_2 ds (Z.to_nat (i - 1)) ltac:(lia)) as [o E].
  exists o. split; [exact E|]. pose proof (f_equal (fun l => l !! Z.to_nat (i - 1)) Hds) as Hm.
  cbv beta in Hm. unfold periodic in Hm.
  rewrite !list_lookup_fmap, E, lookup_seqZ_lt in Hm by lia. cbn in Hm. injection Hm as Hm.
  rewrite Hm. replace (1 + Z.of_nat (Z.to_nat (i - 1))) with i by lia. reflexivity.
Qed.

(** Between preambles. *)
Lemma quiet_windows (n m : Z) : 0 <= n <= m -> m <= Z.of_nat (length ds) ->
  (forall i, n < i <= m -> i < first \/ (i - first) mod period <> 0) ->
  locked (at_window n) = false ->
  at_window m = match at_window n with Candidate c => Candidate (c + (m - n)) | b => b end.
Proof using Hds.
  intros Hn Hm Hq Hb. remember (Z.to_nat (m - n)) as k eqn:Ek.
  revert m Hn Hm Hq Ek. induction k as [|k IH]; intros m Hn Hm Hq Ek.
  { replace m with n by lia. destruct (at_window n); try reflexivity. f_equal. lia. }
  destruct (window_is m ltac:(lia)) as (o & Eo & Hp).
  assert (is_preamble o = false) as Ho.
  { rewrite Hp. apply andb_false_iff. destruct (Hq m ltac:(lia)) as [Hm1|Hm1]; [left|right]; lia. }
  destruct o; [discriminate|].
  replace (Z.to_nat m) with (S (Z.to_nat (m - 1))) by lia.
  rewrite (searched_S _ _ _ None); [|rewrite <- Eo; f_equal; lia].
  rewrite (IH (m - 1)) by (try lia; intros; apply Hq; lia).
  destruct (at_window n); cbn; try reflexivity; [f_equal; lia|discriminate].
Qed.

(** At a preamble. *)
Lemma preamble_window i : first <= i <= Z.of_nat (length ds) -> (i - first) mod period = 0 ->
  exists inv, at_window i = sync_step period (Some inv) false (at_window (i - 1)).
Proof using Hds Hfirst.
  intros Hi Hmod. destruct (window_is i ltac:(lia)) as (o & Eo & Hp).
  assert (is_preamble o = true) as Ho by (rewrite Hp; lia).
  destruct o as [inv|]; [|discriminate]. exists inv.
  replace (Z.to_nat i) with (S (Z.to_nat (i - 1))) by lia.
  exact (searched_S _ _ _ _ _ Eo).
Qed.

(** From one preamble to the next. *)
Lemma next_preamble j : 0 <= j -> first + (j + 1) * period <= Z.of_nat (length ds) ->
  locked (at_window (first + j * period)) = false ->
  exists inv, at_window (first + (j + 1) * period) = sync_step period (Some inv) false
    match at_window (first + j * period) with
    | Candidate c => Candidate (c + (period - 1))
    | b => b
    end.
Proof using Hds Hfirst Hperiod.
  intros Hj Hl Hu.
  destruct (preamble_window (first + (j + 1) * period)) as [inv E]; [nia| |].
  { replace (first + (j + 1) * period - first) with ((j + 1) * period) by lia. apply Z.mod_mul; lia. }
  exists inv. rewrite E. f_equal.
  rewrite (quiet_windows (first + j * period)) by (try nia; auto;
    intros i Hi; right; replace (i - first) with (i - first - j * period + j * period) by lia;
    rewrite Z.mod_add, Z.mod_small by nia; nia).
  destruct (at_window (first + j * period)); try reflexivity. f_equal. lia.
Qed.

(** Four preambles are enough. *)
Lemma search_locks : locked a = false -> (forall c, a = Candidate c -> 0 <= c) ->
  first + 3 * period <= Z.of_nat (length ds) ->
  exists i, 0 <= i <= first + 3 * period /\ locked (at_window i) = true.
Proof using Hds Hfirst Hperiod.
  intros Ha Hc Hl.
  assert (at_window 0 = a) as E0 by reflexivity.
  destruct (preamble_window first ltac:(lia)) as [inv E]; [now rewrite Z.sub_diag|].
  rewrite (quiet_windows 0 (first - 1)) in E by (rewrite ?E0; auto; lia). rewrite E0 in E.
  assert (forall j, 0 <= j <= 3 -> locked (at_window (first + j * period)) = false \/
    exists i, 0 <= i <= first + 3 * period /\ locked (at_window i) = true) as Hor.
  { intros j Hj. destruct (locked (at_window (first + j * period))) eqn:El; [right|now left].
    exists (first + j * period). split; [nia|exact El]. }
  assert (at_window first = at_window (first + 0 * period)) as Ef by (f_equal; f_equal; lia).
  rewrite Ef in E.
  destruct (Hor 0 ltac:(lia)) as [H0|]; [|assumption].
  destruct (Hor 1 ltac:(lia)) as [H1|]; [|assumption].
  destruct (Hor 2 ltac:(lia)) as [H2|]; [|assumption].
  destruct (Hor 3 ltac:(lia)) as [H3|]; [|assumption]. exfalso.
  destruct (next_preamble 0 ltac:(lia) ltac:(lia) H0) as [inv1 E1].
  destruct (next_preamble 1 ltac:(lia) ltac:(lia) H1) as [inv2 E2].
  destruct (next_preamble 2 ltac:(lia) ltac:(lia) H2) as [inv3 E3].
  replace (0 + 1) with 1 in E1 by lia. replace (1 + 1) with 2 in E2 by lia.
  replace (2 + 1) with 3 in E3 by lia.
  assert (forall c inv', c + 1 = period -> locked (sync_step period (Some inv') false (Candidate c)) = true)
    as Hlock by (intros c inv' Ec; cbn; rewrite (proj2 (Z.eqb_eq _ _) Ec); reflexivity).
  assert (forall j j' inv' inv'', at_window (first + j * period) = Searching ->
    at_window (first + (j + 1) * period) = sync_step period (Some inv') false
      match at_window (first + j * period) with Candidate c => Candidate (c + (period - 1)) | b => b end ->
    at_window (first + j' * period) = sync_step period (Some inv'') false
      match at_window (first + (j + 1) * period) with Candidate c => Candidate (c + (period - 1)) | b => b end ->
    locked (at_window (first + j' * period)) = false -> False) as Hlast.
  { intros j j' inv' inv'' Es E' E'' Hf. rewrite Es in E'. cbn [sync_step] in E'. rewrite E' in E''.
    rewrite E'', Hlock in Hf; [discriminate|lia]. }
  destruct a as [|c|]; [|specialize (Hc c eq_refl)|discriminate].
  - cbn [sync_step] in E. rewrite E in E1. cbv beta iota in E1. rewrite E1, Hlock in H1; [discriminate|lia].
  - cbn [sync_step] in E.
    destruct (c + (first - 1 - 0) + 1 =? period) eqn:Ep; [rewrite E in H0; discriminate|].
    destruct (period <? c + (first - 1 - 0) + 1) eqn:Eq.
    + exact (Hlast 0 2 _ _ E E1 E2 H2).
    + rewrite E in E1. cbn [sync_step] in E1.
      replace (c + (first - 1 - 0) + 1 + (period - 1) + 1 =? period) with false in E1 by lia.
      replace (period <? c + (first - 1 - 0) + 1 + (period - 1) + 1) with true in E1 by lia.
      exact (Hlast 1 3 _ _ E1 E2 E3 H3).
Qed.
End Search.

(** *** The run of the block *)

Section Acquire.
Context `{Boost} `{Boost_FNAV} `{Boost_CNAV} `{RSDecoder} `{Libm}.

Definition prompts (inputs : list (Gnss_Synchro * list (option GnssTime))) : list float :=
  map (fun i => float_of_double (Prompt_I i.1)) inputs.

(** [n] more symbols stay within the bounds of the counters. *)
Definition room_for (n : Z) (s : sync_part) : Prop :=
  0 <= n < 2 ^ 30 /\ sp_counter s + n < 2 ^ 63 /\ (sp_stat s = 1 -> age s + n < 2 ^ 31 - 1).

Lemma detection_ext s s' : sp_preamble s' = sp_preamble s -> sp_samples s' = sp_samples s ->
  sp_required s' = sp_required s -> sp_history s' = sp_history s -> detection s' = detection s.
Proof. intros E1 E2 E3 E4. unfold detection. now rewrite E1, E2, E3, E4. Qed.

Lemma detections_ext xs s s' : sp_preamble s' = sp_preamble s -> sp_samples s' = sp_samples s ->
  sp_required s' = sp_required s -> sp_history s' = sp_history s ->
  detections s' xs = detections s xs.
Proof.
  revert s s'. induction xs as [|x xs IH]; intros s s' E1 E2 E3 E4; [reflexivity|].
  cbn [detections]. assert (sp_history (advance x s') = sp_history (advance x s)) as Eh.
  { unfold advance, update. cbn. now rewrite E3, E4. }
  f_equal; [apply detection_ext|apply IH]; auto.
Qed.

Lemma detections_length s xs : length (detections s xs) = length xs.
Proof. revert s. induction xs; intros s; cbn; auto. Qed.

(** What a symbol leaves of the synchroniser. *)
Lemma sync_after_same crc s : let s' := sync_after crc s in
  sp_preamble s' = sp_preamble s /\ sp_samples s' = sp_samples s /\
  sp_required s' = sp_required s /\ sp_history s' = sp_history s /\
  sp_period s' = sp_period s /\ sp_counter s' = sp_counter s /\
  (sp_index s' = sp_index s \/ sp_index s' = sp_counter s).
Proof.
  cbv zeta. unfold sync_after. destruct (sp_stat s =? 0).
  { destruct (detection s); repeat split; auto. }
  destruct (sp_stat s =? 1).
  { destruct (detection s); [|repeat split; auto]. destruct (_ =? _); [repeat split; auto|].
    destruct (_ <? _); repeat split; auto. }
  destruct (sp_stat s =? 2); [|repeat split; auto].
  destruct (_ =? _); [|repeat split; auto]. cbv zeta. destruct crc; [repeat split; auto|].
  destruct (_ <? _); repeat split; auto.
Qed.

Lemma sync_step_crc period o crc a : locked a = false ->
  sync_step period o crc a = sync_step period o false a.
Proof. destruct a; [reflexivity..|discriminate]. Qed.

Lemma locked_stat s : sync_wf s -> locked (abstract s) = false -> sp_stat s <> 2.
Proof.
  intros W. unfold abstract. destruct (sp_stat s =? 0) eqn:E0; [lia|].
  destruct (sp_stat s =? 1) eqn:E1; [lia|discriminate].
Qed.

Lemma candidate_stat s : sp_stat s = 1 -> abstract s = Candidate (age s).
Proof. intros E. unfold abstract. now rewrite E. Qed.

Lemma candidate_abstract s c : sync_wf s -> abstract s = Candidate c -> sp_stat s = 1 /\ c = age s.
Proof.
  intros W. unfold abstract. destruct (sp_stat s =? 0) eqn:E0; [discriminate|].
  destruct (sp_stat s =? 1) eqn:E1; [|discriminate]. intros [= <-]. split; [lia|reflexivity].
Qed.

(** Until it locks, the block runs as the abstract machine. *)
Lemma run_searched inputs n d : (n <= length inputs)%nat -> sync_wf (sync_of d) ->
  room_for (Z.of_nat (length inputs)) (sync_of d) ->
  let ds := detections (sync_of d) (prompts inputs) in
  let a := abstract (sync_of d) in
  (forall m, (m < n)%nat -> locked (searched (d_preamble_period_symbols d) ds m a) = false) ->
  exists rs d', work_run (take n inputs) d = (Returns rs, d') /\ sync_wf (sync_of d') /\
    abstract (sync_of d') = searched (d_preamble_period_symbols d) ds n a.
Proof.
  revert n d. induction inputs as [|[g tags] inputs IH]; intros n d Hn W R ds a Hu.
  { exists [], d. rewrite take_nil. destruct n; [now split|cbn in Hn; lia]. }
  destruct n as [|n]; [exists [], d; now split|]. cbn in Hn.
  assert (locked a = false) as Ha by apply (Hu 0%nat ltac:(lia)).
  destruct (unlocked_returns g tags d W) as (r & d1 & Ew).
  { change (sp_stat (sync_of d) <> 2). now apply locked_stat. }
  destruct R as (R1 & R2 & R3). cbn [length] in R1, R2, R3.
  assert (sync_bounds (sync_of d)) as B by (split; [|intros Hs; specialize (R3 Hs)]; lia).
  destruct (abstract_step g tags d r d1 W B Ew) as (W1 & (crc & Ec) & Ea). cbv zeta in Ec, Ea.
  fold a in Ea. rewrite (sync_step_crc _ _ _ _ Ha) in Ea.
  destruct (sync_after_same crc (advance (float_of_double (Prompt_I g)) (sync_of d)))
    as (S1 & S2 & S3 & S4 & S5 & S6 & S7). cbv zeta in *. rewrite <- Ec in S1, S2, S3, S4, S5, S6, S7.
  destruct (advance_wf (float_of_double (Prompt_I g)) _ W B) as (A1 & A2 & A3 & _).
  assert (d_preamble_period_symbols d1 = d_preamble_period_symbols d) as Ep by exact S5.
  destruct (IH n d1 ltac:(lia) W1) as (rs & d' & Er & W' & Ea').
  - split; [lia|]. split; [lia|]. intros Hs. rewrite (candidate_stat _ Hs) in Ea.
    destruct a as [|c|] eqn:Eabs; [| |discriminate].
    + cbn in Ea. destruct (detection _); [|discriminate]. injection Ea as Ea. lia.
    + apply candidate_abstract in Eabs as [Hs0 Eage]; [|exact W]. specialize (R3 Hs0).
      enough (age (sync_of d1) = c + 1) by lia.
      cbn in Ea. destruct (detection _); [|now injection Ea].
      destruct (_ =? _); [discriminate|]. destruct (_ <? _); [discriminate|]. now injection Ea.
  - cbv zeta. rewrite Ea, Ep. intros m Hm. specialize (Hu (S m) ltac:(lia)).
    unfold ds in Hu. cbn [prompts map detections] in Hu. unfold searched in *. cbn [take fold_left] in Hu.
    rewrite (detections_ext _ (advance (float_of_double (Prompt_I g)) (sync_of d))); auto.
  - exists (r :: rs), d'. split; [|split; [exact W'|]].
    + cbn [take work_run fst]. unfold bind. rewrite Ew, Er. reflexivity.
    + rewrite Ea', Ea, Ep. unfold ds. cbn [prompts map detections]. unfold searched. cbn [take fold_left].
      rewrite (detections_ext _ (advance (float_of_double (Prompt_I g)) (sync_of d))); auto.
Qed.

Lemma searched_lock period ds n a : locked a = false ->
  locked (searched period ds n a) = true -> (n <= length ds)%nat ->
  (forall m, (m < n)%nat -> locked (searched period ds m a) = false) ->
  exists inv, searched period ds n a = Locked 0 0 inv.
Proof.
  intros Ha Hl Hn Hu. destruct n as [|n]; [change (locked a = true) in Hl; congruence|].
  destruct (lookup_lt_is_Some_2 ds n ltac:(lia)) as [o Eo]. specialize (Hu n ltac:(lia)).
  rewrite (searched_S _ _ _ _ _ Eo) in *.
  destruct (searched period ds n a) as [|c|]; cbn in *; [destruct o; discriminate| |discriminate].
  destruct o as [inv|]; [|discriminate]. exists inv. destruct (_ =? _); [reflexivity|].
  destruct (_ <? _); discriminate.
Qed.

(** C24: acquisition of the frame.  From any state of the block that is not
    locked, when the windows of the coming symbols show a preamble at the
    [first] symbol and then exactly once every period, the block is locked, with
    no CRC error counted, by the fourth of those preambles at the latest, and no
    call of [general_work] before that throws. *)
Theorem sync_acquired (d : galileo_tlm) (inputs : list (Gnss_Synchro * list (option GnssTime)))
    (first : Z) :
  sync_wf (sync_of d) -> d_stat d <> 2 -> 1 <= first ->
  Z.of_nat (length inputs) = first + 3 * d_preamble_period_symbols d ->
  room_for (Z.of_nat (length inputs)) (sync_of d) ->
  map is_preamble (detections (sync_of d) (prompts inputs))
    = periodic first (d_preamble_period_symbols d) (length inputs) ->
  exists n rs d', (n <= length inputs)%nat /\ work_run (take n inputs) d = (Returns rs, d') /\
    sync_wf (sync_of d') /\ d_stat d' = 2 /\ d_CRC_error_counter d' = 0 /\
    d_preamble_index d' = d_symbol_counter d'.
Proof.
  intros W Hs Hf Hlen R Hds.
  destruct (parameters_positive _ W) as [_ Hp].
  assert (length (detections (sync_of d) (prompts inputs)) = length inputs) as Hl
    by (rewrite detections_length; apply length_map).
  rewrite <- Hl in Hds.
  assert (locked (abstract (sync_of d)) = false) as Hu.
  { unfold abstract. pose proof (sw_stat _ W) as Hst.
    change (d_stat d) with (sp_stat (sync_of d)) in Hs.
    destruct (sp_stat (sync_of d) =? 0) eqn:E0; [reflexivity|].
    destruct (sp_stat (sync_of d) =? 1) eqn:E1; [reflexivity|lia]. }
  destruct (search_locks (sp_period (sync_of d)) _ first (abstract (sync_of d)) ltac:(lia) Hf Hds Hu)
    as (i & Hi & Hlk).
  { intros c E. apply candidate_abstract in E as [_ ->]; [|exact W].
    pose proof (sw_counter _ W). unfold age. lia. }
  { change (sp_period (sync_of d)) with (d_preamble_period_symbols d). lia. }
  destruct (least_index (fun n => locked (searched (d_preamble_period_symbols d)
    (detections (sync_of d) (prompts inputs)) n (abstract (sync_of d)))) _ Hlk) as (n & Hn & Hln & Hmin).
  change (sp_period (sync_of d)) with (d_preamble_period_symbols d) in Hi.
  destruct (run_searched inputs n d ltac:(lia) W R Hmin) as (rs & d' & Er & W' & Ea).
  destruct (searched_lock _ _ n _ Hu Hln ltac:(lia) Hmin) as [inv El].
  rewrite El in Ea. exists n, rs, d'. split; [lia|]. split; [exact Er|]. split; [exact W'|].
  revert Ea. unfold abstract. pose proof (sw_stat _ W') as Hst.
  destruct (sp_stat (sync_of d') =? 0) eqn:E0; [discriminate|].
  destruct (sp_stat (sync_of d') =? 1) eqn:E1; [discriminate|]. unfold age.
  intros [= Eage Eerr _]. cbn in *. lia.
Qed.


(** [n] calls of [general_work] that all leave the CRC flags false. *)
Inductive bad_run : Z -> galileo_tlm -> galileo_tlm -> Prop :=
  | bad_run_0 d : bad_run 0 d d
  | bad_run_S n d d1 d2 g tags r : bad_run n d d1 ->
      general_work g tags d1 = (Returns r, d2) -> any_crc_ok d2 = false -> bad_run (n + 1) d d2.

Lemma bad_run_nonneg n d d' : bad_run n d d' -> 0 <= n.
Proof. induction 1; lia. Qed.

(** Symbols until the seventh bad page in a row. *)
Definition symbols_left (s : sync_part) : Z :=
  (CRC_ERROR_LIMIT + 1 - sp_errors s) * sp_period s - age s.

Lemma locked_abstract s : sync_wf s -> sp_stat s = 2 ->
  abstract s = Locked (age s) (sp_errors s) (sp_inverted s).
Proof. intros _ E. unfold abstract. now rewrite E. Qed.

Lemma abstract_stat s : sync_wf s ->
  match abstract s with
  | Searching => sp_stat s = 0
  | Candidate c => sp_stat s = 1 /\ c = age s
  | Locked c e i => sp_stat s = 2 /\ c = age s /\ e = sp_errors s /\ i = sp_inverted s
  end.
Proof.
  intros W. unfold abstract. pose proof (sw_stat _ W) as Hs.
  destruct (sp_stat s =? 0) eqn:E0; [lia|]. destruct (sp_stat s =? 1) eqn:E1; [split; lia|].
  repeat split; lia.
Qed.

Lemma bad_symbol g tags d r d' : sync_wf (sync_of d) -> d_stat d = 2 -> d_symbol_counter d < 2 ^ 63 ->
  general_work g tags d = (Returns r, d') -> any_crc_ok d' = false ->
  sync_wf (sync_of d') /\ d_symbol_counter d' = d_symbol_counter d + 1 /\
  d_preamble_period_symbols d' = d_preamble_period_symbols d /\
  if symbols_left (sync_of d) =? 1 then d_stat d' = 0
  else d_stat d' = 2 /\ symbols_left (sync_of d') = symbols_left (sync_of d) - 1.
Proof.
  intros W Hs Hc Hw Hcrc.
  assert (sync_bounds (sync_of d)) as B by (split; [exact Hc|cbn; lia]).
  destruct (abstract_step g tags d r d' W B Hw) as (W' & (crc & Ec) & E).
  destruct (sync_after_same crc (advance (float_of_double (Prompt_I g)) (sync_of d)))
    as (_ & _ & _ & _ & S5 & S6 & _). cbv zeta in *. rewrite <- Ec in S5, S6.
  destruct (advance_wf (float_of_double (Prompt_I g)) _ W B) as (A1 & _).
  split; [exact W'|]. split; [exact (eq_trans S6 A1)|]. split; [exact S5|].
  rewrite Hcrc, (locked_abstract _ W Hs) in E. cbn [sync_step] in E.
  pose proof (abstract_stat _ W') as Ha. rewrite E in Ha. clear E.
  pose proof (sw_locked _ W Hs) as Hl. pose proof (sw_errors _ W Hs) as He.
  pose proof (sw_counter _ W) as Hcn. destruct (parameters_positive _ W) as [_ Hp].
  change (d_preamble_period_symbols d) with (sp_period (sync_of d)) in Ha.
  assert (sp_period (sync_of d') = sp_period (sync_of d)) as Epd by exact S5.
  change (d_stat d') with (sp_stat (sync_of d')).
  unfold symbols_left, CRC_ERROR_LIMIT in *. rewrite Epd.
  assert (0 <= age (sync_of d) < sp_period (sync_of d)) as Hage by (unfold age; lia).
  destruct (age (sync_of d) + 1 =? sp_period (sync_of d)) eqn:Ep.
  - destruct (6 <? sp_errors (sync_of d) + 1) eqn:E6.
    + replace (_ =? 1) with true by nia. exact Ha.
    + replace (_ =? 1) with false by nia. destruct Ha as (-> & <- & <- & _). nia.
  - replace (_ =? 1) with false by nia. destruct Ha as (-> & <- & <- & _). nia.
Qed.

(** C25: loss of the frame.  Locked, with [e] bad pages behind it, the block stays
    locked for [(7 - e)] pages that fail the CRC, less one symbol, and the last
    symbol of the seventh takes it back to the search. *)
Theorem sync_lost (d d' : galileo_tlm) (n : Z) :
  sync_wf (sync_of d) -> d_stat d = 2 ->
  d_symbol_counter d + symbols_left (sync_of d) < 2 ^ 63 ->
  bad_run n d d' -> n <= symbols_left (sync_of d) ->
  0 < symbols_left (sync_of d) /\
  (n < symbols_left (sync_of d) -> d_stat d' = 2) /\
  (n = symbols_left (sync_of d) -> d_stat d' = 0).
Proof.
  intros W Hs Hc Hrun Hn.
  assert (0 < symbols_left (sync_of d)) as Hpos.
  { pose proof (sw_locked _ W Hs). pose proof (sw_errors _ W Hs). pose proof (sw_counter _ W).
    destruct (parameters_positive _ W). unfold symbols_left, age, CRC_ERROR_LIMIT in *. nia. }
  split; [exact Hpos|].
  assert (sync_wf (sync_of d') /\
    (n < symbols_left (sync_of d) -> d_stat d' = 2 /\ d_symbol_counter d' = d_symbol_counter d + n /\
      symbols_left (sync_of d') = symbols_left (sync_of d) - n) /\
    (n = symbols_left (sync_of d) -> d_stat d' = 0)) as (_ & H5 & H6); [|split; [intros Hlt; apply H5, Hlt|exact H6]].
  induction Hrun as [d|n d d1 d2 g tags r Hrun IH Hw Hcrc].
  { split; [exact W|]. split; [intros _; split; [exact Hs|lia]|lia]. }
  destruct (IH W Hs Hc ltac:(lia) Hpos) as (W1 & I1 & _). specialize (I1 ltac:(lia)).
  destruct I1 as (Hs1 & Hc1 & Hl1). pose proof (bad_run_nonneg _ _ _ Hrun).
  destruct (bad_symbol g tags d1 r d2 W1 Hs1 ltac:(lia) Hw Hcrc) as (W2 & Hc2 & _ & Hif).
  split; [exact W2|]. rewrite Hl1 in Hif.
  destruct (symbols_left (sync_of d) - n =? 1) eqn:E1; split; try lia.
Qed.
End Acquire.

(** ** Concrete runs *)

#[local] Instance sample_boost : Boost := {|
  to_block_range := fun s => map (fun c => Z.of_N (N_of_ascii c)) s;
  crc_galileo_inav := fun bytes => fold_left Z.lxor bytes 0
|}.
#[local] Instance sample_boost_fnav : Boost_FNAV := {| crc_galileo_fnav := fun _ => 0 |}.
#[local] Instance sample_boost_cnav : Boost_CNAV := {| crc_galileo_cnav := fun _ => 0 |}.
#[local] Instance sample_decoder : RSDecoder := {| rs_decode data _ := (-1, data) |}.
#[local] Instance sample_libm : Libm := {| atan2 _ _ := dzero |}.

Definition sample_conf : Tlm_Conf := mkTlm_Conf true false false true.

Definition sample_symbol (x : Z) : Gnss_Synchro * list (option GnssTime) :=
  (mkGnss_Synchro "E"%char (str "1B") 11 4000000 (double_of_Z x) dzero 80000 0 false false, []).

(** A stream whose preambles begin at the positions 1, 251, 501, ... *)
Definition sample_stream (n : Z) : list Z :=
  map (fun i => vget 1 (d_preamble_samples (new_galileo_tlm 11 sample_conf 1)) ((i - 1) mod 250))
    (seqZ 0 n).

(** An I/NAV decoder with a full history, in the state [stat]. *)
Definition sample_tlm (stat index : Z) : galileo_tlm :=
  (new_galileo_tlm 11 sample_conf 1)
    <| d_symbol_history := map float_of_Z (sample_stream 511) |>
    <| d_symbol_counter := 600 |> <| d_preamble_index := index |> <| d_stat := stat |>.

Lemma sample_history stat index :
  length (sp_history (sync_of (sample_tlm stat index))) = 511%nat.
Proof.
  transitivity (length (map float_of_Z (sample_stream 511))); [reflexivity|].
  unfold sample_stream. now rewrite !length_map, length_seqZ.
Qed.

Lemma sample_wf stat index : 0 <= stat <= 2 -> 0 <= index <= 600 -> (stat = 2 -> 600 < index + 250) ->
  sync_wf (sync_of (sample_tlm stat index)).
Proof.
  intros Hs Hi Hl. split; rewrite ?sample_history.
  - left. reflexivity.
  - repeat split; reflexivity.
  - exact Hs.
  - discriminate.
  - reflexivity.
  - exact Hi.
  - exact Hl.
  - intros _. split; discriminate.
Qed.


Lemma sync_acquired_witness :
  let inputs := map sample_symbol (drop 511 (sample_stream (511 + 751))) in
  let d := sample_tlm 1 500 in
  exists n rs d', (n <= 751)%nat /\ work_run (take n inputs) d = (Returns rs, d') /\ d_stat d' = 2.
Proof.
  intros inputs d.
  destruct (sync_acquired d inputs 1) as (n & rs & d' & Hn & Hr & _ & Hs & _).
  - apply sample_wf; lia.
  - discriminate.
  - lia.
  - vm_compute. reflexivity.
  - split; [split; [discriminate|reflexivity]|]. split; reflexivity.
  - vm_compute. reflexivity.
  - exists n, rs, d'. split; [exact Hn|]. split; [exact Hr|exact Hs].
Defined.

Lemma sync_lost_witness :
  let d := sample_tlm 2 500 in
  let g := (sample_symbol 1).1 in
  symbols_left (sync_of d) = 1650 /\ exists d', bad_run 1 d d' /\ d_stat d' = 2.
Proof.
  intros d g. split; [reflexivity|].
  assert (exists r d', general_work g [] d = (Returns r, d') /\ any_crc_ok d' = false) as (r & d' & Hw & Hc).
  { eexists _, _. split; [vm_compute; reflexivity|reflexivity]. }
  assert (bad_run 1 d d') as Hrun by exact (bad_run_S 0 d d d' g [] r (bad_run_0 d) Hw Hc).
  exists d'. split; [exact Hrun|].
  destruct (sync_lost d d' 1) as (_ & H & _); [apply sample_wf; lia|reflexivity|reflexivity|exact Hrun|discriminate|].
  apply H. reflexivity.
Defined.
