(* ===== verification/TlmPages.v ===== *)
(** * TlmPages: the pages of the telemetry decoder

    The block interleaver is undone; an I/NAV decoder never throws, whatever
    symbols arrive: every page string has the length that [split_page] and
    [join_page] rely on, and every time of week fits its conversion. *)

From S2P Require Import Prelude Cstring BinString Float64 MathConstants GalileoData InavTables InavWords InavReaders InavMessage InavProofs InavFec InavPages HasData CnavMessage FnavTables FnavMessage Viterbi ViterbiProofs TlmDecoder TlmSync.
From stdpp Require Import list strings.
From Stdlib Require Import ZArith Lia Ascii SpecFloat.
Local Open Scope Z_scope.
Local Open Scope cxx_scope.

(** ** The block interleaver *)

Section Interleaver.
Context (rows cols : Z) (input : list float).

Definition in_column (r : Z) (out0 : list float) (c : Z) (out : list float) : Prop :=
  length out = length out0 /\
  (forall c', 0 <= c' < c -> vget fzero out (c' * rows + r) = vget fzero input (r * cols + c')) /\
  (forall i, 0 <= i -> i mod rows <> r -> vget fzero out i = vget fzero out0 i).

Lemma fill_row r out : 0 <= r < rows -> 0 <= cols -> Z.of_nat (length out) = rows * cols ->
  in_column r out cols (for_range 0 cols (fun c out =>
    vset out (c * rows + r) (vget fzero input (r * cols + c))) out).
Proof.
  intros Hr Hc Hl. apply (for_range_ind (in_column r out)); [exact Hc| |].
  - split; [reflexivity|]. split; [lia|reflexivity].
  - intros c o Hcc (H1 & H2 & H3). split; [now rewrite length_vset|]. split.
    + intros c' Hc'. destruct (decide (c' = c)) as [->|Hne].
      * apply vget_vset_eq. unfold in_range. rewrite H1, Hl. nia.
      * rewrite vget_vset_ne by nia. apply H2. lia.
    + intros i Hi Hm. rewrite vget_vset_ne; [now apply H3|]. intros <-. apply Hm.
      rewrite Z.add_comm, Z.mod_add, Z.mod_small; lia.
Qed.

Lemma deinterleaver_spec out : 0 <= rows -> 0 <= cols -> Z.of_nat (length out) = rows * cols ->
  length (deinterleaver rows cols input out) = length out /\
  forall r c, 0 <= r < rows -> 0 <= c < cols ->
    vget fzero (deinterleaver rows cols input out) (c * rows + r) = vget fzero input (r * cols + c).
Proof.
  intros Hr Hc Hl. unfold deinterleaver.
  assert ((fun r o => length o = length out /\ forall r' c, 0 <= r' < r -> 0 <= c < cols ->
    vget fzero o (c * rows + r') = vget fzero input (r' * cols + c)) rows
    (for_range 0 rows (fun r out => for_range 0 cols (fun c out =>
      vset out (c * rows + r) (vget fzero input (r * cols + c))) out) out)) as H; [|exact H].
  apply (for_range_ind (fun r o => length o = length out /\ forall r' c, 0 <= r' < r -> 0 <= c < cols ->
    vget fzero o (c * rows + r') = vget fzero input (r' * cols + c))); [exact Hr|split; [reflexivity|lia]|].
  intros r o Hrr [H1 H2]. rewrite <- H1 in Hl.
  destruct (fill_row r o Hrr Hc Hl) as (F1 & F2 & F3). split; [congruence|].
  intros r' c Hr' Hcc. destruct (decide (r' = r)) as [->|Hne]; [now apply F2|].
  rewrite F3; [apply H2; lia|nia|]. rewrite Z.add_comm, Z.mod_add, Z.mod_small; lia.
Qed.
End Interleaver.



(** ** The string of a page *)

Lemma trace_back_length d out : length (trace_back d out) = length out.
Proof.
  unfold trace_back, for_down. set (st := for_range (d_LL d) _ _ 0). clearbody st.
  apply (for_range_inv (fun r : list Z * Z => length r.1 = length out)); [reflexivity|].
  intros i [o s] _ Ho. cbn [fst] in *. now rewrite length_vset.
Qed.

Definition page_bits (bits : list Z) : list bool := map (fun b => 0 <? b) bits.

Lemma decode_symbols_page rows cols n x d : exists bits viterbi,
  decode_symbols rows cols n x d =
    (Returns (bits, bits_str (page_bits bits)), d <| d_viterbi := viterbi |>) /\
  length bits = Z.to_nat (n / 2).
Proof.
  unfold decode_symbols, decode. cbv zeta. eexists _, _. split; [f_equal; f_equal; f_equal|].
  - unfold bits_str, page_bits. rewrite map_map. apply map_ext. intros b. destruct (0 <? b); reflexivity.
  - rewrite trace_back_length. apply length_replicate.
Qed.

(** ** The times of week of the I/NAV words *)

Definition tows (m : Galileo_Inav_Message) : Z * Z * Z :=
  (TOW_5 (word_5 m), TOW_6 (word_6 m), TOW_0 (word_0 m)).
Definition fits20 (t : Z) : Prop := 0 <= t < 2 ^ 20.
Definition tows_fit (m : Galileo_Inav_Message) : Prop :=
  fits20 (TOW_5 (word_5 m)) /\ fits20 (TOW_6 (word_6 m)) /\ fits20 (TOW_0 (word_0 m)).

Lemma tows_fit_ext m m' : tows m' = tows m -> tows_fit m -> tows_fit m'.
Proof. unfold tows, tows_fit. intros [= -> -> ->]. auto. Qed.

Lemma tows_follow iod m : tows (follow_IODnav iod m) = tows m.
Proof. unfold follow_IODnav. destruct (_ =? 0); cbn; destruct (negb _); reflexivity. Qed.
Lemma tows_check lsb m : tows (check_IODnav_LSB lsb m) = tows m.
Proof. unfold check_IODnav_LSB. destruct (negb _); reflexivity. Qed.
Lemma tows_parity k j bits m : tows (page_arrived j (store_parity k bits m)) = tows m.
Proof. reflexivity. Qed.
Lemma tows_info bits m :
  tows (store_info_1 bits m) = tows m /\ tows (store_info_2 bits m) = tows m /\
  tows (store_info_3 bits m) = tows m /\ tows (store_info_4 bits m) = tows m.
Proof.
  split; [exact (tows_follow (IOD_nav_1 (word_1 m)) m)|].
  split; [exact (tows_follow (IOD_nav_2 (word_2 m)) m)|].
  split; [exact (tows_follow (IOD_nav_3 (word_3 m)) m)|].
  exact (tows_follow (IOD_nav_4 (word_4 m)) m).
Qed.

Lemma read_tow bs first : length bs = 128%nat -> 1 <= first <= 109 ->
  fits20 (i32 (read_navigation_unsigned (rev bs) [(first, 20)])).
Proof.
  intros Hl Hf. rewrite read_unsigned_field by lia.
  pose proof (field_range bs (first - 1) 20 ltac:(lia)).
  unfold fits20. rewrite swrap_small by lia. lia.
Qed.

Lemma tows_word bs n m : length bs = 128%nat -> tows_fit m -> tows_fit (decode_word n (rev bs) m).
Proof.
  intros Hl Hm. destruct (tows_info (rev bs) (read_page_1 (rev bs) m)) as (I1 & _).
  destruct (tows_info (rev bs) (read_page_2 (rev bs) m)) as (_ & I2 & _).
  destruct (tows_info (rev bs) (read_page_3 (rev bs) m)) as (_ & _ & I3 & _).
  destruct (tows_info (rev bs) (read_page_4 (rev bs) m)) as (_ & _ & _ & I4).
  assert (forall k j m', tows m' = tows m -> tows_fit (page_arrived j (store_parity k (rev bs) m'))) as Hp.
  { intros k j m' E. apply (tows_fit_ext m); [|exact Hm]. now rewrite tows_parity. }
  destruct n as [|p|p]; [| |exact Hm].
  { cbn [decode_word]. unfold decode_word_0. cbv zeta.
    destruct (_ =? 2); [|exact Hm]. destruct Hm as (H5 & H6 & _).
    split; [exact H5|]. split; [exact H6|]. apply read_tow; [exact Hl|lia]. }
  do 5 (try destruct p as [p|p|]); try exact Hm; cbn [decode_word];
    unfold decode_word_1, decode_word_2, decode_word_3, decode_word_4, decode_word_17,
      decode_word_18, decode_word_19, decode_word_20; cbv zeta;
    try (destruct (enable_rs _); [|exact Hm]);
    try (apply Hp; rewrite tows_check; reflexivity);
    try (apply (tows_fit_ext m); [assumption|exact Hm]).
  - destruct Hm as (_ & H6 & H0). split; [apply read_tow; [exact Hl|lia]|]. split; [exact H6|exact H0].
  - destruct Hm as (H5 & _ & H0). split; [exact H5|]. split; [apply read_tow; [exact Hl|lia]|exact H0].
Qed.

Lemma tows_read_missing m : tows (read_missing_pages m) = tows m.
Proof.
  unfold read_missing_pages. destruct (_ =? 0); destruct (_ =? 0); destruct (_ =? 0);
    destruct (_ =? 0); reflexivity.
Qed.

Lemma tows_have_new_ephemeris `{RSDecoder} m : tows (InavMessage.have_new_ephemeris m).2 = tows m.
Proof.
  unfold InavMessage.have_new_ephemeris. destruct (_ && _); [reflexivity|].
  destruct (enable_rs m); [|reflexivity]. unfold recover_ephemeris. destruct (_ =? 4); [|reflexivity].
  destruct (rs_decode _ _) as [result data]. cbv zeta. destruct (0 <=? result); [|reflexivity].
  exact (tows_read_missing (m <| rs_buffer := data |>)).
Qed.

(** ** Half pages *)

(** The even half that the next odd half is joined with. *)
Definition even_half (m : Galileo_Inav_Message) : Prop :=
  exists even : list bool, length even = 114%nat /\ page_Even m = bits_str even.

Lemma split_page_returns `{Boost} page flag m : length page = 120%nat -> tows_fit m ->
  (flag = 1 -> even_half m) -> exists m',
    InavMessage.split_page (bits_str page) flag m = (Returns tt, m') /\ tows_fit m' /\
    (vget false page 0 = false -> even_half m').
Proof.
  intros Hl Ht Hf. destruct page as [|b page]; [discriminate|].
  unfold InavMessage.split_page. unfold bind at 1, lift at 1.
  assert (str_at (bits_str (b :: page)) 0 = Returns (bit_char b)) as ->
    by (unfold str_at, size_t; reflexivity).
  destruct b; cbn [bit_char Ascii.eqb Bool.eqb andb].
  - destruct (flag =? 1) eqn:Ef.
    + destruct (Hf ltac:(lia)) as (even & He & Ee).
      rewrite (join_page_bits even (true :: page) m Ee He Hl).
      eexists. split; [reflexivity|]. split; [|discriminate].
      destruct (InavPages.crc_ok _); [|exact Ht].
      apply (tows_fit_ext (receive (word_of_page (even ++ true :: page))
        (m <| InavMessage.flag_CRC_test := true |>
           <| Page_type_time_stamp := word_type (word_of_page (even ++ true :: page)) |>)));
        [reflexivity|].
      apply tows_word; [|exact Ht]. apply word_of_page_length. unfold blen. rewrite length_app. lia.
    + exists m. split; [reflexivity|]. split; [exact Ht|discriminate].
  - rewrite bind_substr by (unfold blen; lia). eexists. split; [reflexivity|]. split; [exact Ht|].
    intros _. exists (slice (false :: page) 0 114). split; [|reflexivity].
    rewrite slice_length by (unfold blen; lia). reflexivity.
Qed.

(** ** The state of an I/NAV decoder *)

(** What the safety of the pages rests on, next to the synchroniser. *)
Record nav_part := mknav_part {
  np_even_flag : Z;
  np_even : cstring;
  np_tows : Z * Z * Z;
  np_viterbi : Viterbi_Decoder
}.
Definition nav_of (d : galileo_tlm) : nav_part :=
  mknav_part (d_flag_even_word_arrived d) (page_Even (d_inav_nav d)) (tows (d_inav_nav d))
    (d_viterbi d).

Record nav_ok (d : galileo_tlm) : Prop := {
  no_tows : tows_fit (d_inav_nav d);
  no_even : d_flag_even_word_arrived d = 1 -> even_half (d_inav_nav d);
  no_viterbi : galileo_viterbi 114 (d_viterbi d)
}.

Definition inav_wf (d : galileo_tlm) : Prop :=
  sync_wf (sync_of d) /\ d_frame_type d = 1 /\ nav_ok d.

Lemma nav_ok_ext d d' : nav_of d' = nav_of d -> nav_ok d -> nav_ok d'.
Proof.
  intros E [H1 H2 H3]. unfold nav_of in E. injection E as Ef Ep Et5 Et6 Et0 Ev. split.
  - unfold tows_fit. rewrite Et5, Et6, Et0. exact H1.
  - unfold even_half. rewrite Ef, Ep. exact H2.
  - now rewrite Ev.
Qed.

Lemma new_inav_wf PRN conf : inav_wf (new_galileo_tlm PRN conf 1).
Proof.
  split; [apply new_galileo_tlm_wf; lia|]. split; [reflexivity|]. split; [|discriminate|].
  - apply (tows_fit_ext new_Galileo_Inav_Message).
    + cbn. destruct (enable_reed_solomon_conf conf); reflexivity.
    + repeat split; discriminate.
  - exact (galileo_viterbi_new 114 ltac:(lia)).
Qed.

(** *** What keeps it *)

Lemma nav_publish msg d : nav_of (publish msg d) = nav_of d.
Proof. reflexivity. Qed.
Lemma nav_publish_tow_unknown d : nav_of (publish_tow_unknown d) = nav_of d.
Proof. unfold publish_tow_unknown. destruct (d_there_are_e6_channels d); reflexivity. Qed.
Lemma nav_publish_tow g d : nav_of (publish_tow g d) = nav_of d.
Proof. unfold publish_tow. destruct (_ && _); reflexivity. Qed.
Lemma nav_publish_osnma d : nav_of (publish_osnma d) = nav_of d.
Proof. unfold publish_osnma. destruct (_ && _); reflexivity. Qed.
Lemma nav_keep_nav_message p d : nav_of (keep_nav_message p d) = nav_of d.
Proof. unfold keep_nav_message. destruct (d_enable_navdata_monitor d); reflexivity. Qed.
Lemma nav_publish_nav_message g d : nav_of (publish_nav_message g d) = nav_of d.
Proof. unfold publish_nav_message. destruct (_ && _); reflexivity. Qed.

(** A report that leaves the times of week and the even half. *)
Lemma nav_report_inav have get d :
  (forall m, tows (have m).2 = tows m /\ page_Even (have m).2 = page_Even m) ->
  nav_of (report_inav have get d).2 = nav_of d.
Proof.
  intros H. destruct (H (d_inav_nav d)) as [Ht Hp]. unfold report_inav.
  destruct (have (d_inav_nav d)) as [new m]. cbn [snd] in Ht, Hp.
  unfold nav_of. rewrite <- Ht, <- Hp. destruct new; reflexivity.
Qed.

Lemma even_read_missing m : page_Even (read_missing_pages m) = page_Even m.
Proof.
  unfold read_missing_pages. destruct (_ =? 0); destruct (_ =? 0); destruct (_ =? 0);
    destruct (_ =? 0); reflexivity.
Qed.

Lemma even_have_new_ephemeris `{RSDecoder} m :
  page_Even (InavMessage.have_new_ephemeris m).2 = page_Even m.
Proof.
  unfold InavMessage.have_new_ephemeris. destruct (_ && _); [reflexivity|].
  destruct (enable_rs m); [|reflexivity]. unfold recover_ephemeris. destruct (_ =? 4); [|reflexivity].
  destruct (rs_decode _ _) as [result data]. cbv zeta. destruct (0 <=? result); [|reflexivity].
  exact (even_read_missing (m <| rs_buffer := data |>)).
Qed.

Lemma nav_report_inav_data `{RSDecoder} `{Libm} d : nav_of (report_inav_data d) = nav_of d.
Proof.
  unfold report_inav_data. cbv zeta.
  destruct (report_inav InavMessage.have_new_ephemeris _ d) as [new d1] eqn:E1.
  assert (nav_of d1 = nav_of d) as <-.
  { pose proof (nav_report_inav InavMessage.have_new_ephemeris
      (fun m => telemetry_ephemeris (InavMessage.get_ephemeris m)) d) as E. rewrite E1 in E. apply E.
    intros m. split; [apply tows_have_new_ephemeris|apply even_have_new_ephemeris]. }
  rewrite !nav_report_inav.
  - destruct new; [reflexivity|]. destruct (_ && _); [|reflexivity]. apply nav_report_inav.
    intros m. unfold have_new_reduced_ced. destruct (_ && _); split; reflexivity.
  - intros m. unfold InavMessage.have_new_iono_and_GST. destruct (_ && _); split; reflexivity.
  - intros m. unfold InavMessage.have_new_utc_model. destruct (InavMessage.flag_utc_model m); split; reflexivity.
  - intros m. unfold InavMessage.have_new_almanac. destruct (_ && _); split; reflexivity.
Qed.

(** *** One page *)

(** From [P] the program returns, in a state that satisfies [Q]. *)
Abbreviation total P c Q := (hoare P c (fun _ => Q) (fun _ _ => False)).

Lemma total_modify {S} (P Q : S -> Prop) f : (forall s, P s -> Q (f s)) -> total P (modify f) Q.
Proof. intros H. apply hoare_modify. exact H. Qed.

Lemma nav_modify f : (forall d, nav_of (f d) = nav_of d) -> total nav_ok (modify f) nav_ok.
Proof. intros H. apply total_modify. intros d. apply nav_ok_ext, H. Qed.

Section Page.
Context `{Boost} `{RSDecoder} `{Libm}.

Lemma page_first_bit bits : Forall bit_value bits ->
  (vget 0 bits 0 =? 1) = vget false (page_bits bits) 0.
Proof.
  intros Hb. destruct bits as [|b bits]; [reflexivity|]. apply Forall_inv in Hb.
  cbn. destruct Hb as [->| ->]; reflexivity.
Qed.

Lemma decode_symbols_total rows cols x d : nav_ok d -> exists bits d',
  decode_symbols rows cols 240 x d = (Returns (bits, bits_str (page_bits bits)), d') /\
  length bits = 120%nat /\ Forall bit_value bits /\ nav_ok d'.
Proof.
  intros [N1 N2 N3]. unfold decode_symbols. cbv zeta.
  set (soft := negate_odd _ _). clearbody soft. change (240 / 2) with 120.
  destruct (galileo_viterbi_decode 114 (vector 120 0) soft _ N3) as (D1 & D2 & D3).
  - unfold vector. rewrite length_replicate. discriminate.
  - apply Forall_replicate. now left.
  - destruct (decode (vector 120 0) soft (d_viterbi d)) as [bits v]. cbn [fst snd] in *.
    exists bits, (d <| d_viterbi := v |>). split.
    + do 3 f_equal. unfold bits_str, page_bits. rewrite map_map. apply map_ext. intros b.
      destruct (0 <? b); reflexivity.
    + split; [exact D2|]. split; [exact D1|]. split; [exact N1|exact N2|exact D3].
Qed.

(** An I/NAV page part is decoded without throwing. *)
Lemma decode_INAV_word_total x : total nav_ok (decode_INAV_word x 240) nav_ok.
Proof.
  intros d N. unfold decode_INAV_word, bind at 1.
  destruct (decode_symbols_total GALILEO_INAV_INTERLEAVER_ROWS GALILEO_INAV_INTERLEAVER_COLS x d N)
    as (bits & d1 & -> & Hl & Hb & N1). cbn [fst snd].
  assert (total nav_ok
    (flag <- gets d_flag_even_word_arrived;;
     on_inav (InavMessage.split_page (bits_str (page_bits bits)) flag);;
     (if vget 0 bits 0 =? 1 then
        modify publish_osnma;; modify (fun d => d <| d_flag_even_word_arrived := 0 |>)
      else modify (fun d => d <| d_flag_even_word_arrived := 1 |>));;
     modify report_inav_data) nav_ok) as Hrest.
  { clear d d1 N N1. intros d N. unfold bind at 1, gets.
    destruct (split_page_returns (page_bits bits) (d_flag_even_word_arrived d) (d_inav_nav d))
      as (m' & Es & Ht & He).
    { unfold page_bits. now rewrite length_map. }
    { apply N. }
    { apply N. }
    unfold bind at 1, on_inav. rewrite Es. rewrite page_first_bit by exact Hb.
    assert (total (fun d' => tows_fit (d_inav_nav d') /\ galileo_viterbi 114 (d_viterbi d') /\
        (vget false (page_bits bits) 0 = false -> even_half (d_inav_nav d')))
      ((if vget false (page_bits bits) 0 then
          modify publish_osnma;; modify (fun d => d <| d_flag_even_word_arrived := 0 |>)
        else modify (fun d => d <| d_flag_even_word_arrived := 1 |>));;
       modify report_inav_data) nav_ok) as Hlast.
    { eapply (hoare_bind _ _ _ (fun _ => nav_ok)); [|intros _; apply nav_modify, nav_report_inav_data].
      destruct (vget false (page_bits bits) 0).
      - intros d' (T & V & _). unfold bind, modify. unfold publish_osnma.
        destruct (_ && _); (split; [exact T|discriminate|exact V]).
      - intros d' (T & V & E). split; [exact T|intros _; apply E; reflexivity|exact V]. }
    apply Hlast. split; [exact Ht|]. split; [apply N|exact He]. }
  unfold bind at 1, modify at 1. apply Hrest. revert N1. apply nav_ok_ext, nav_keep_nav_message.
Qed.

(** *** The time of week *)

Lemma tow_conversion t : fits20 t -> uint32_of_double (t * 1000) = Returns (t * 1000).
Proof.
  intros Ht. unfold fits20 in Ht. unfold uint32_of_double.
  destruct (0 <=? t * 1000) eqn:E1; [|lia]. destruct (t * 1000 <? 2 ^ 32) eqn:E2; [reflexivity|lia].
Qed.

Lemma set_page_tow_total g tow delay forget : fits20 tow ->
  (forall d, nav_of (forget d) = nav_of d) -> total nav_ok (set_page_tow g tow delay forget) nav_ok.
Proof.
  intros Ht Hf d N. unfold set_page_tow, bind, lift, modify. rewrite tow_conversion by exact Ht.
  revert N. apply nav_ok_ext. now rewrite nav_publish_tow, Hf.
Qed.

Lemma inav_page_tow_total g : total nav_ok (inav_page_tow g) nav_ok.
Proof.
  intros d N. unfold inav_page_tow, bind at 1, gets, id. cbv zeta.
  destruct (no_tows _ N) as (T5 & T6 & T0).
  destruct (InavMessage.get_flag_TOW_set (d_inav_nav d)); [|exact N].
  destruct (is_TOW5_set _); [now apply set_page_tow_total|].
  destruct (is_TOW6_set _); [now apply set_page_tow_total|].
  destruct (is_TOW0_set _); [now apply set_page_tow_total|].
  now apply nav_modify.
Qed.
End Page.

(** ** One symbol of an I/NAV decoder *)

Section Safety.
Context `{Boost} `{Boost_FNAV} `{Boost_CNAV} `{RSDecoder} `{Libm}.

Lemma nav_receive_symbol g tags d : nav_of (receive_symbol g tags d) = nav_of d.
Proof.
  unfold receive_symbol, check_telemetry.
  transitivity (nav_of (time_tags tags (store_symbol g d))).
  { destruct (_ && _); reflexivity. }
  transitivity (nav_of (store_symbol g d)); [|reflexivity].
  unfold time_tags. destruct tags as [|t tags].
  - destruct (d_valid_timetag _); reflexivity.
  - unfold read_tags. generalize (store_symbol g d). generalize (t :: tags). clear.
    intros l. induction l as [|[t|] l IH]; intros d; cbn; [reflexivity| |apply IH].
    now rewrite IH.
Qed.

Lemma nav_forget_tow d :
  nav_of (d <| d_fnav_nav ::= FnavMessage.set_flag_TOW_set false |>
            <| d_inav_nav ::= InavMessage.set_flag_TOW_set false |>) = nav_of d.
Proof. reflexivity. Qed.

Lemma nav_end_of_page d : nav_of (end_of_page d) = nav_of d.
Proof.
  unfold end_of_page. cbv zeta. transitivity (nav_of (mark_page d)); [|reflexivity].
  destruct (any_crc_ok (mark_page d)); [reflexivity|]. unfold bad_page. cbv zeta.
  destruct (_ <? _); [|reflexivity]. unfold lose_frame_sync. cbv zeta.
  rewrite nav_forget_tow, nav_publish_tow_unknown. reflexivity.
Qed.

Lemma frame_sync_total g : total (fun d => d_frame_type d = 1 /\ d_frame_length_symbols d = 240 /\ nav_ok d)
  (frame_sync g) (fun d => d_frame_type d = 1 /\ nav_ok d).
Proof.
  assert (forall f, (forall d, sync_of (f d) = sync_of d \/ d_frame_type (f d) = d_frame_type d) ->
    (forall d, nav_of (f d) = nav_of d) ->
    total (fun d => d_frame_type d = 1 /\ d_frame_length_symbols d = 240 /\ nav_ok d)
      (modify f;; ret true) (fun d => d_frame_type d = 1 /\ nav_ok d)) as Hmod.
  { intros f Hs Hn d (E1 & E2 & N). unfold bind, modify, ret. split.
    - destruct (Hs d) as [E|E]; [exact (eq_trans (f_equal sp_frame_type E) E1)|congruence].
    - revert N. apply nav_ok_ext, Hn. }
  intros d (E1 & E2 & N). unfold frame_sync, bind at 1, gets.
  destruct (d_stat d) as [|[p|[p|p|]|]|]; try (split; [exact E1|exact N]).
  - apply Hmod; [| |auto]; intros d'; unfold search_preamble; destruct (preamble_detected d'); auto.
  - unfold track_pages, bind at 1, gets. destruct (page_complete d); [|split; [exact E1|exact N]].
    unfold bind at 1, decode_page_part. unfold bind at 1, gets, id. rewrite E1, E2.
    unfold bind at 1. pose proof (decode_INAV_word_total (fetch_symbols d) d N) as Hd.
    assert (sync_of (decode_page_part g d).2 = sync_of d) as Es by apply sync_decode_page_part.
    unfold decode_page_part in Es. unfold bind at 1, gets, id in Es. rewrite E1, E2 in Es.
    unfold bind at 1 in Es.
    destruct (decode_INAV_word (fetch_symbols d) 240 d) as [[[]|e] d1]; [|contradiction].
    cbn in Es. unfold bind, modify, ret.
    assert (sync_of d1 = sync_of d) as Es1 by exact Es. split.
    + pose proof (f_equal fst (sync_crc_end d1)) as Ee. unfold sync_crc in Ee. cbn [fst] in Ee.
      change (sp_frame_type (sync_of (end_of_page d1)) = 1). rewrite Ee. cbv zeta.
      transitivity (sp_frame_type (sync_of d1)); [|rewrite Es1; exact E1].
      destruct (any_crc_ok d1); [reflexivity|]. destruct (_ <? _); reflexivity.
    + revert Hd. apply nav_ok_ext, nav_end_of_page.
  - apply Hmod; [| |auto]; intros d'; unfold confirm_preamble; destruct (preamble_detected d'); auto;
      cbv zeta; destruct (_ =? _); auto; destruct (_ <? _); auto.
Qed.

Lemma update_tow_total g : total (fun d => d_frame_type d = 1 /\ nav_ok d) (update_tow g) nav_ok.
Proof.
  intros d [E N]. unfold update_tow, bind at 1, gets. destruct (d_flag_preamble d).
  - unfold tow_at_page, bind at 1, gets. rewrite E. unfold bind at 1.
    pose proof (inav_page_tow_total g d N) as Hp.
    destruct (inav_page_tow g d) as [[[]|e] d1]; [|contradiction].
    revert Hp. apply nav_ok_ext, nav_publish_nav_message.
  - revert N. apply nav_ok_ext. unfold tow_at_symbol. destruct (tow_set d); reflexivity.
Qed.

Lemma sync_after_type crc s : sp_frame_type (sync_after crc s) = sp_frame_type s.
Proof.
  unfold sync_after. destruct (sp_stat s =? 0); [destruct (detection s); reflexivity|].
  destruct (sp_stat s =? 1).
  { destruct (detection s); [|reflexivity]. destruct (_ =? _); [reflexivity|]. destruct (_ <? _); reflexivity. }
  destruct (sp_stat s =? 2); [|reflexivity]. destruct (_ =? _); [|reflexivity]. cbv zeta.
  destruct crc; [reflexivity|]. destruct (_ <? _); reflexivity.
Qed.

Lemma frame_type_of d d' : sync_of d' = sync_of d -> d_frame_type d' = d_frame_type d.
Proof. intros E. exact (f_equal sp_frame_type E). Qed.

Lemma received_type d d' x : sync_of d' = advance x (sync_of d) ->
  d_frame_type d' = d_frame_type d /\ d_frame_length_symbols d' = d_frame_length_symbols d.
Proof. intros E. split; [exact (f_equal sp_frame_type E)|exact (f_equal sp_frame_length E)]. Qed.

Lemma set_satellite_wf PRN d : inav_wf d -> inav_wf (set_satellite PRN d).
Proof.
  intros (W & E & N).
  assert (sync_of (set_satellite PRN d) = sync_of d) as Es
    by (unfold set_satellite; now rewrite sync_publish_tow_unknown).
  split; [now rewrite Es|]. split; [now rewrite (frame_type_of _ _ Es)|].
  revert N. apply nav_ok_ext. unfold set_satellite. now rewrite nav_publish_tow_unknown.
Qed.

(** [reset] before its last statement. *)
Definition forget_frame (d : galileo_tlm) : galileo_tlm :=
  d <| d_flag_frame_sync := false |> <| d_TOW_at_current_symbol_ms := 0 |>
    <| d_TOW_at_Preamble_ms := 0 |>
    <| d_fnav_nav ::= FnavMessage.set_flag_TOW_set false |>
    <| d_inav_nav ::= fun m => set_TOW0_flag false (InavMessage.set_flag_TOW_set false m) |>
    <| d_last_valid_preamble := d_symbol_counter d |> <| d_sent_tlm_failed_msg := false |>
    <| d_E6_TOW_set := false |> <| d_stat := 0 |> <| d_received_tow_ms := uint32_max |>
    <| d_viterbi ::= Viterbi.reset |> <| d_valid_timetag := false |>.

Lemma reset_is_forget d : reset_tlm d =
  let d' := publish_tow_unknown (forget_frame d) in
  if d_enable_reed_solomon_inav d' then d' <| d_inav_nav ::= enable_reed_solomon |> else d'.
Proof. reflexivity. Qed.

Lemma reset_sync d : sync_of (reset_tlm d) = (sync_of d) <| sp_stat := 0 |>.
Proof.
  rewrite reset_is_forget. cbv zeta.
  transitivity (sync_of (publish_tow_unknown (forget_frame d))).
  { generalize (publish_tow_unknown (forget_frame d)). intros d'.
    destruct (d_enable_reed_solomon_inav d'); reflexivity. }
  now rewrite sync_publish_tow_unknown.
Qed.

Lemma reset_nav d : nav_of (reset_tlm d) = mknav_part (np_even_flag (nav_of d)) (np_even (nav_of d))
  (np_tows (nav_of d)) (Viterbi.reset (np_viterbi (nav_of d))).
Proof.
  rewrite reset_is_forget. cbv zeta.
  transitivity (nav_of (publish_tow_unknown (forget_frame d))).
  { generalize (publish_tow_unknown (forget_frame d)). intros d'.
    destruct (d_enable_reed_solomon_inav d'); reflexivity. }
  now rewrite nav_publish_tow_unknown.
Qed.

Lemma nav_ok_reset d d' :
  nav_of d' = mknav_part (np_even_flag (nav_of d)) (np_even (nav_of d))
    (np_tows (nav_of d)) (Viterbi.reset (np_viterbi (nav_of d))) -> nav_ok d -> nav_ok d'.
Proof.
  intros En [N1 N2 N3]. unfold nav_of in En. injection En as Ef Ep Et5 Et6 Et0 Ev. split.
  - unfold tows_fit. rewrite Et5, Et6, Et0. exact N1.
  - unfold even_half. rewrite Ef, Ep. exact N2.
  - rewrite Ev. now apply galileo_viterbi_reset.
Qed.

Lemma inav_wf_reset d d' : sync_of d' = (sync_of d) <| sp_stat := 0 |> ->
  nav_of d' = mknav_part (np_even_flag (nav_of d)) (np_even (nav_of d))
    (np_tows (nav_of d)) (Viterbi.reset (np_viterbi (nav_of d))) -> inav_wf d -> inav_wf d'.
Proof.
  intros Es En (W & E & N). split; [|split].
  - rewrite Es. destruct W as [W1 W2 W3 W4 W5 W6 W7 W8].
    split; unfold update; cbn [sp_stat sp_frame_type sp_preamble sp_samples sp_period sp_required
      sp_frame_length sp_code_period sp_history sp_index sp_counter sp_errors]; auto; lia.
  - exact (eq_trans (f_equal sp_frame_type Es) E).
  - exact (nav_ok_reset d d' En N).
Qed.

Lemma reset_tlm_wf d : inav_wf d -> inav_wf (reset_tlm d).
Proof. exact (inav_wf_reset d (reset_tlm d) (reset_sync d) (reset_nav d)). Qed.

(** What a change of satellite leaves of the navigation message: neither
    [set_satellite] nor [reset] clears the words, their flags, the CRC flag or the
    half page of the satellite before. *)
Lemma inav_reset d : d_inav_nav (reset_tlm d) =
  (if d_enable_reed_solomon_inav d then enable_reed_solomon else fun m => m)
    (set_TOW0_flag false (InavMessage.set_flag_TOW_set false (d_inav_nav d))).
Proof.
  rewrite reset_is_forget. cbv zeta. unfold publish_tow_unknown.
  change (d_there_are_e6_channels (forget_frame d)) with (d_there_are_e6_channels d).
  destruct (d_there_are_e6_channels d);
    [change (d_enable_reed_solomon_inav (publish _ (forget_frame d))) with (d_enable_reed_solomon_inav d)
    |change (d_enable_reed_solomon_inav (forget_frame d)) with (d_enable_reed_solomon_inav d)];
    destruct (d_enable_reed_solomon_inav d); reflexivity.
Qed.

Lemma inav_set_satellite PRN d : d_inav_nav (set_satellite PRN d) = d_inav_nav d.
Proof. unfold set_satellite, publish_tow_unknown. cbn. destruct (d_there_are_e6_channels d); reflexivity. Qed.

Definition satellite_data (m : Galileo_Inav_Message) :=
  (InavMessage.get_flag_CRC_test m, page_Even m, data_OSNMA m,
   (word_1 m, word_2 m, word_3 m, word_4 m, word_5 m),
   (InavMessage.flag_ephemeris_1 m, InavMessage.flag_ephemeris_2 m, InavMessage.flag_ephemeris_3 m, InavMessage.flag_ephemeris_4 m)).

Lemma satellite_change_keeps_words PRN d :
  satellite_data (d_inav_nav (reset_tlm (set_satellite PRN d))) = satellite_data (d_inav_nav d).
Proof.
  rewrite inav_reset, inav_set_satellite. destruct (d_enable_reed_solomon_inav _); reflexivity.
Qed.

(** C26: no symbol, tag or page can make an I/NAV decoder throw: from a well
    formed state every call of [general_work] returns, never with the end of the
    work, and leaves a well formed state; so do the control calls
    [set_satellite] and [reset]. *)
Theorem inav_decoder_safe (g : Gnss_Synchro) (tags : list (option GnssTime)) (d : galileo_tlm) (PRN : Z) :
  inav_wf d -> sync_bounds (sync_of d) ->
  (exists r d', general_work g tags d = (Returns r, d') /\ r <> work_done /\ inav_wf d') /\
  inav_wf (set_satellite PRN d) /\ inav_wf (reset_tlm d).
Proof.
  intros (W & E & N) B. split; [|split].
  - assert (d_frame_length_symbols d = 240) as El.
    { destruct (sw_parameters _ W) as (_ & _ & _ & _ & El & _). clear - E El.
      change (sp_frame_type (sync_of d)) with (d_frame_type d) in El. rewrite E in El. exact El. }
    pose proof (sync_receive_symbol g tags d) as Er. pose proof (nav_receive_symbol g tags d) as En.
    pose proof (frame_sync_total g (receive_symbol g tags d)) as Hf.
    destruct (received_type _ _ _ Er) as [Rt Rl].
    specialize (Hf ltac:(split; [congruence|split; [congruence|revert N; apply nav_ok_ext, En]])).
    assert (exists r d', general_work g tags d = (Returns r, d') /\ nav_ok d') as (r & d' & Ew & N').
    { unfold general_work, bind at 1, modify. unfold bind at 1.
      destruct (frame_sync g (receive_symbol g tags d)) as [[go_on|e] d1]; [|contradiction].
      destruct go_on; [|exists work_done, d1; split; [reflexivity|apply Hf]].
      pose proof (update_tow_total g d1 Hf) as Hu. unfold bind.
      destruct (update_tow g d1) as [[[]|e] d2]; [|contradiction]. eexists _, _. split; [reflexivity|exact Hu]. }
    destruct (abstract_step g tags d r d' W B Ew) as (W' & (crc & Ec) & _).
    destruct (sync_general_work g tags d r d' W Ew) as (_ & _ & Hr & _).
    exists r, d'. split; [exact Ew|]. split; [exact Hr|]. split; [exact W'|]. split; [|exact N'].
    cbv zeta in Ec. change (sp_frame_type (sync_of d') = 1). rewrite Ec, sync_after_type. exact E.
  - apply set_satellite_wf. split; auto.
  - apply reset_tlm_wf. split; auto.
Qed.
End Safety.

(** A symbol that ends a page. *)
#[local] Existing Instances sample_boost sample_boost_fnav sample_boost_cnav sample_decoder sample_libm.

Lemma inav_decoder_safe_witness :
  let d := sample_tlm 2 351 in
  let g := (sample_symbol 1).1 in
  page_complete (receive_symbol g [] d) = true /\
  (exists r d', general_work g [] d = (Returns r, d') /\ r <> work_done /\ inav_wf d') /\
  inav_wf (set_satellite 12 d) /\ inav_wf (reset_tlm d).
Proof.
  intros d g. split; [reflexivity|]. apply inav_decoder_safe.
  - split; [apply sample_wf; lia|]. split; [reflexivity|]. split.
    + repeat split; discriminate.
    + discriminate.
    + exact (galileo_viterbi_new 114 ltac:(lia)).
  - split; [reflexivity|discriminate].
Defined.
