(* ===== verification/TlmTime.v ===== *)
(** * TlmTime: the time of week of the symbols

    Between page boundaries the time of week of the items produced advances by
    the code period; at a page that carries a time it is that time plus the
    delay of the decoder, and both agree over the two seconds between I/NAV
    pages.  At the end of the week neither wraps around. *)

From S2P Require Import Prelude Cstring Float64 MathConstants GalileoData InavTables InavWords InavMessage HasData CnavMessage FnavTables FnavMessage Viterbi TlmDecoder TlmSync.
From stdpp Require Import list strings.
From Stdlib Require Import ZArith Lia Ascii SpecFloat.
Local Open Scope Z_scope.
Local Open Scope cxx_scope.

(** What the time of week of a symbol depends on. *)
Definition time_of (d : galileo_tlm) : Z * bool * Z :=
  (d_TOW_at_current_symbol_ms d, tow_set d, d_PRN_code_period_ms d).

Lemma time_receive_symbol g tags d : time_of (receive_symbol g tags d) = time_of d.
Proof.
  unfold receive_symbol, check_telemetry.
  transitivity (time_of (time_tags tags (store_symbol g d))).
  { destruct (_ && _); reflexivity. }
  transitivity (time_of (store_symbol g d)); [|reflexivity].
  unfold time_tags. destruct tags as [|t tags].
  - destruct (d_valid_timetag _); reflexivity.
  - unfold read_tags. generalize (store_symbol g d). generalize (t :: tags). clear.
    intros l. induction l as [|[t|] l IH]; intros d; cbn; [reflexivity| |apply IH].
    now rewrite IH.
Qed.

Lemma flag_preamble_receive g tags d : d_flag_preamble (receive_symbol g tags d) = false.
Proof. unfold receive_symbol, check_telemetry. destruct (_ && _); reflexivity. Qed.

Section Time.
Context `{Boost} `{Boost_FNAV} `{Boost_CNAV} `{RSDecoder} `{Libm}.

(** A page ends with the symbol. *)
Definition ends_page (d : galileo_tlm) : bool := (d_stat d =? 2) && page_complete d.

Lemma no_page_frame_sync g d : ends_page d = false ->
  exists d1, frame_sync g d = (Returns true, d1) /\ time_of d1 = time_of d /\
    d_flag_preamble d1 = d_flag_preamble d.
Proof.
  intros He. unfold frame_sync, bind at 1, gets.
  destruct (d_stat d) as [|[p|[p|p|]|]|] eqn:E; try (exists d; auto; fail).
  - eexists. split; [reflexivity|]. unfold search_preamble. destruct (preamble_detected d); auto.
  - exists d. unfold ends_page in He. rewrite E in He. cbn in He.
    unfold track_pages, bind, gets. rewrite He. auto.
  - eexists. split; [reflexivity|]. unfold confirm_preamble. destruct (preamble_detected d); auto.
    cbv zeta. destruct (_ =? _); auto. destruct (_ <? _); auto.
Qed.

(** The clock between pages.  A symbol that ends no page advances the time
    of week by one code period when it is known, and the item produced carries
    that time and is marked valid; when it is not known the time stays, and only
    an item that came in marked valid goes out. *)
Lemma tow_between_pages (g : Gnss_Synchro) (tags : list (option GnssTime)) (d : galileo_tlm) :
  ends_page (receive_symbol g tags d) = false ->
  exists r d', general_work g tags d = (Returns r, d') /\
    tow_set d' = tow_set d /\ d_PRN_code_period_ms d' = d_PRN_code_period_ms d /\
    if tow_set d then
      d_TOW_at_current_symbol_ms d' = u32 (d_TOW_at_current_symbol_ms d + d_PRN_code_period_ms d) /\
      exists q, r = produced q /\ Flag_valid_word q = true /\
        TOW_at_current_symbol_ms q = d_TOW_at_current_symbol_ms d' /\
        Tracking_sample_counter q = Tracking_sample_counter g /\ synchro_PRN q = synchro_PRN g
    else
      d_TOW_at_current_symbol_ms d' = d_TOW_at_current_symbol_ms d /\
      (Flag_valid_word g = false -> r = no_output).
Proof.
  intros He. pose proof (time_receive_symbol g tags d) as Et.
  pose proof (flag_preamble_receive g tags d) as Ef.
  unfold general_work, bind at 1, modify. set (d0 := receive_symbol g tags d) in *. clearbody d0.
  destruct (no_page_frame_sync g d0 He) as (d1 & E1 & T1 & F1).
  unfold bind at 1. rewrite E1. unfold update_tow, bind, gets, modify. rewrite F1, Ef.
  rewrite Et in T1. apply pair_equal_spec in T1 as [T1 T3]. apply pair_equal_spec in T1 as [T1 T2].
  eexists _, _. split; [reflexivity|]. rewrite <- T1, <- T2, <- T3.
  assert (tow_set (tow_at_symbol d1) = tow_set d1) as E2
    by (unfold tow_at_symbol; destruct (tow_set d1) eqn:E3; [exact E3|exact E3]).
  assert (d_PRN_code_period_ms (tow_at_symbol d1) = d_PRN_code_period_ms d1) as E4
    by (unfold tow_at_symbol; destruct (tow_set d1); reflexivity).
  split; [exact E2|]. split; [exact E4|]. unfold output_symbol. rewrite E2. unfold tow_at_symbol.
  destruct (tow_set d1) eqn:E3.
  - split; [reflexivity|]. cbn [Flag_valid_word update]. eexists. split; [reflexivity|].
    destruct (d_flag_PLL_180_deg_phase_locked _); repeat split.
  - split; [reflexivity|]. intros ->. reflexivity.
Qed.

(** Symbols that end no page, and the state after them. *)
Inductive quiet_run : Z -> galileo_tlm -> galileo_tlm -> Prop :=
  | quiet_run_0 d : quiet_run 0 d d
  | quiet_run_S n d d1 d2 g tags r : quiet_run n d d1 ->
      ends_page (receive_symbol g tags d1) = false ->
      general_work g tags d1 = (Returns r, d2) -> quiet_run (n + 1) d d2.

Lemma quiet_run_nonneg n d d' : quiet_run n d d' -> 0 <= n.
Proof. induction 1; lia. Qed.

(** The time of week over symbols that end no page. *)
Lemma tow_quiet_run n d d' : quiet_run n d d' -> tow_set d = true ->
  0 <= d_PRN_code_period_ms d -> 0 <= d_TOW_at_current_symbol_ms d ->
  d_TOW_at_current_symbol_ms d + n * d_PRN_code_period_ms d < 2 ^ 32 ->
  tow_set d' = true /\ d_PRN_code_period_ms d' = d_PRN_code_period_ms d /\
  d_TOW_at_current_symbol_ms d' = d_TOW_at_current_symbol_ms d + n * d_PRN_code_period_ms d.
Proof.
  intros Hrun Hset Hp Ht. induction Hrun as [d|n d d1 d2 g tags r Hrun IH He Hw]; intros Hb.
  { rewrite Z.add_0_r. auto. }
  pose proof (quiet_run_nonneg _ _ _ Hrun) as Hn.
  destruct (IH Hset Hp Ht ltac:(nia)) as (I1 & I2 & I3).
  destruct (tow_between_pages g tags d1 He) as (r' & d2' & Ew & E1 & E2 & E3).
  rewrite Hw in Ew. injection Ew as <- <-. rewrite I1 in E1, E3. rewrite I2 in E2, E3.
  destruct E3 as [E3 _]. split; [exact E1|]. split; [exact E2|].
  rewrite E3, I3, wrap_small; nia.
Qed.

(** The delay of a page of the I/NAV decoder: the even half, and a full history
    with the symbol that pushes its oldest out. *)
Lemma inav_delay d : sync_wf (sync_of d) -> d_frame_type d = 1 -> inav_delay_ms d = 3044.
Proof.
  intros W E. destruct (sw_parameters _ W) as (_ & _ & _ & Er & _ & Ep).
  change (sp_frame_type (sync_of d)) with (d_frame_type d) in Er, Ep. rewrite E in Er, Ep.
  unfold inav_delay_ms.
  change (d_required_symbols d) with (sp_required (sync_of d)).
  change (d_PRN_code_period_ms d) with (sp_code_period (sync_of d)). rewrite Er, Ep. reflexivity.
Qed.

(** C29: the time of week of an I/NAV decoder.  When a page with word 5 has been
    decoded, the symbol that ends it gets the time of that word plus 3044 ms, and
    [n] symbols later, with no further page end, the time of week is that plus
    [4 n] ms: exact, without any wrap-around of the 32-bit counters, and without
    one at the end of the week. *)
Theorem tow_from_page (g : Gnss_Synchro) (d : galileo_tlm) :
  sync_wf (sync_of d) -> d_frame_type d = 1 ->
  InavMessage.get_flag_TOW_set (d_inav_nav d) = true -> is_TOW5_set (d_inav_nav d) = true ->
  0 <= get_TOW5 (d_inav_nav d) < 2 ^ 20 ->
  exists d', inav_page_tow g d = (Returns tt, d') /\
    is_TOW5_set (d_inav_nav d') = false /\
    d_TOW_at_Preamble_ms d' = get_TOW5 (d_inav_nav d) * 1000 /\
    d_TOW_at_current_symbol_ms d' = get_TOW5 (d_inav_nav d) * 1000 + 3044 /\
    forall n d'', quiet_run n d' d'' -> n < 2 ^ 29 ->
      d_TOW_at_current_symbol_ms d'' = get_TOW5 (d_inav_nav d) * 1000 + 3044 + 4 * n.
Proof.
  intros W E Hset H5 Ht. pose proof (inav_delay d W E) as Hd.
  unfold inav_page_tow, bind at 1, gets, id. cbv zeta. rewrite Hset, H5.
  unfold set_page_tow, bind, lift, modify. unfold uint32_of_double.
  replace (0 <=? get_TOW5 (d_inav_nav d) * 1000) with true by lia.
  replace (get_TOW5 (d_inav_nav d) * 1000 <? 2 ^ 32) with true by lia. cbn [andb].
  rewrite Hd, (wrap_small 32 (get_TOW5 (d_inav_nav d) * 1000 + 3044)) by lia.
  set (t := get_TOW5 (d_inav_nav d)) in *.
  set (d1 := (d <| d_TOW_at_Preamble_ms := t * 1000 |>
    <| d_TOW_at_current_symbol_ms := t * 1000 + 3044 |>) <| d_inav_nav ::= set_TOW5_flag false |>).
  assert (d_PRN_code_period_ms d = 4) as Hp.
  { destruct (sw_parameters _ W) as (_ & _ & _ & _ & _ & Ep).
    change (sp_frame_type (sync_of d)) with (d_frame_type d) in Ep. rewrite E in Ep. exact Ep. }
  assert (time_of d1 = (t * 1000 + 3044, tow_set d1, 4)) as T1
    by (unfold time_of; do 2 f_equal; exact Hp).
  assert (tow_set d1 = true) as S1.
  { unfold tow_set. change (d_frame_type d1) with (d_frame_type d). rewrite E. exact Hset. }
  assert (time_of (publish_tow g d1) = time_of d1 /\
    d_inav_nav (publish_tow g d1) = d_inav_nav d1 /\
    d_TOW_at_Preamble_ms (publish_tow g d1) = d_TOW_at_Preamble_ms d1) as (P1 & P2 & P3)
    by (unfold publish_tow; destruct (_ && _); repeat split).
  exists (publish_tow g d1). split; [reflexivity|]. split; [rewrite P2; reflexivity|].
  split; [rewrite P3; reflexivity|]. rewrite T1, S1 in P1.
  apply pair_equal_spec in P1 as [P1 Q3]. apply pair_equal_spec in P1 as [Q1 Q2].
  split; [exact Q1|]. intros n d'' Hrun Hn. pose proof (quiet_run_nonneg _ _ _ Hrun).
  destruct (tow_quiet_run n _ _ Hrun Q2) as (_ & _ & R); rewrite ?Q1, ?Q3 in *; lia.
Qed.
End Time.

#[local] Existing Instances sample_boost sample_boost_fnav sample_boost_cnav sample_decoder sample_libm.

(** Word 5 of the last page of the week. *)
Definition end_of_week : galileo_tlm :=
  (sample_tlm 2 600)
    <| d_inav_nav := new_Galileo_Inav_Message <| InavMessage.flag_TOW_set := true |>
         <| flag_TOW_5 := true |> <| word_5 ::= fun w => w <| TOW_5 := 604799 |> |> |>.

Lemma tow_from_page_witness :
  exists d', inav_page_tow (sample_symbol 1).1 end_of_week = (Returns tt, d') /\
    is_TOW5_set (d_inav_nav d') = false /\ d_TOW_at_current_symbol_ms d' = 604802044.
Proof.
  destruct (tow_from_page (sample_symbol 1).1 end_of_week) as (d' & E & H5 & _ & Ht & _);
    [|reflexivity|reflexivity|reflexivity|split; [discriminate|reflexivity]|].
  - exact (sample_wf 2 600 ltac:(lia) ltac:(lia) ltac:(lia)).
  - exists d'. split; [exact E|]. split; [exact H5|exact Ht].
Defined.
