(* ===== verification/TlmPolarity.v ===== *)
(** * TlmPolarity: the half-cycle ambiguity of the carrier

    A Costas loop locks with either polarity.  The telemetry decoder on the
    negated symbols runs as on the symbols: every message, every time of week
    and every CRC is the same, and only the polarity flag of the items differs,
    whatever the polarity in which the decoder locked. *)

From S2P Require Import Prelude Cstring Float64 MathConstants GalileoData InavTables InavWords InavMessage HasData CnavMessage FnavTables FnavMessage Viterbi TlmDecoder TlmSync.
From stdpp Require Import list strings.
From Stdlib Require Import ZArith Lia Ascii SpecFloat.
Local Open Scope Z_scope.
Local Open Scope cxx_scope.

(** ** Negation of symbols *)

(** A symbol with a sign: not a zero and not a NaN. *)
Definition signed (x : float) : bool :=
  match x with S754_finite _ _ _ | S754_infinity _ => true | _ => false end.

Lemma fopp_involutive x : fopp (fopp x) = x.
Proof. destruct x as [[]|[]| |[] m e]; reflexivity. Qed.

Lemma negative_fopp x : signed x = true -> SFltb (fopp x) fzero = negb (SFltb x fzero).
Proof. destruct x as [[]|[]| |[] m e]; reflexivity || discriminate. Qed.

Lemma binary_round_fopp s m e :
  binary_round 24 128 (negb s) m e = fopp (binary_round 24 128 s m e).
Proof.
  unfold binary_round. destruct (shl_align m e _) as [mz ez].
  unfold binary_round_aux. destruct (shr_fexp 24 128 _ ez loc_Exact) as [mrs' e'].
  destruct (shr_fexp 24 128 _ e' loc_Exact) as [mrs'' e''].
  destruct (shr_m mrs'') as [|p|p]; [destruct s; reflexivity| |reflexivity].
  destruct (e'' <=? 128 - 24); destruct s; reflexivity.
Qed.

Lemma float_of_double_fopp x : float_of_double (fopp x) = fopp (float_of_double x).
Proof.
  destruct x as [s|s| |s m e]; try reflexivity.
  cbn [fopp SFopp float_of_double]. unfold binary_normalize.
  destruct s; cbn [negb]; [exact (binary_round_fopp true m e)|exact (binary_round_fopp false m e)].
Qed.

Lemma correlation_fopp samples preamble h :
  (forall i, 0 <= i < samples -> signed (vget fzero h i) = true) ->
  samples <= Z.of_nat (length h) ->
  correlation samples preamble (map fopp h) = - correlation samples preamble h.
Proof.
  intros Hs Hl. unfold correlation. apply (for_range_rel (fun a b => a = - b)); [reflexivity|].
  intros i a b Hi ->. rewrite (vget_fmap fzero) by (unfold in_range; lia).
  rewrite negative_fopp by (apply Hs; lia). destruct (SFltb _ _); cbn [negb]; lia.
Qed.

(** ** The decoder on the negated symbols *)

Definition flip (d : galileo_tlm) : galileo_tlm :=
  d <| d_symbol_history ::= map fopp |> <| d_flag_PLL_180_deg_phase_locked ::= negb |>.

Definition negated (g : Gnss_Synchro) : Gnss_Synchro := g <| Prompt_I ::= fopp |>.

(** A program that does not look at the symbols. *)
Definition commutes {A} (c : prog galileo_tlm A) : Prop :=
  forall d, c (flip d) = ((c d).1, flip (c d).2).

Lemma commutes_bind {A B} (c : prog galileo_tlm A) (k : A -> prog galileo_tlm B) :
  commutes c -> (forall a, commutes (k a)) -> commutes (bind c k).
Proof.
  intros Hc Hk d. unfold bind. rewrite Hc. destruct (c d) as [[a|e] d']; [apply Hk|reflexivity].
Qed.
Lemma commutes_ret {A} (a : A) : commutes (ret a).
Proof. intros d. reflexivity. Qed.
Lemma commutes_lift {A} (o : outcome A) : commutes (lift o).
Proof. intros d. reflexivity. Qed.
Lemma commutes_gets {A} (f : galileo_tlm -> A) : (forall d, f (flip d) = f d) -> commutes (gets f).
Proof. intros H d. unfold gets. now rewrite H. Qed.
Lemma commutes_modify f : (forall d, f (flip d) = flip (f d)) -> commutes (modify f).
Proof. intros H d. unfold modify. now rewrite H. Qed.
Lemma commutes_inav {A} (c : prog Galileo_Inav_Message A) : commutes (on_inav c).
Proof.
  intros d. unfold on_inav. change (d_inav_nav (flip d)) with (d_inav_nav d).
  destruct (c (d_inav_nav d)). reflexivity.
Qed.
Lemma commutes_fnav {A} (c : prog Galileo_Fnav_Message A) : commutes (on_fnav c).
Proof.
  intros d. unfold on_fnav. change (d_fnav_nav (flip d)) with (d_fnav_nav d).
  destruct (c (d_fnav_nav d)). reflexivity.
Qed.
Lemma commutes_cnav {A} (c : prog Galileo_Cnav_Message A) : commutes (on_cnav c).
Proof.
  intros d. unfold on_cnav. change (d_cnav_nav (flip d)) with (d_cnav_nav d).
  destruct (c (d_cnav_nav d)). reflexivity.
Qed.
Lemma commutes_decode_symbols rows cols n x : commutes (decode_symbols rows cols n x).
Proof.
  intros d. unfold decode_symbols. cbv zeta. change (d_viterbi (flip d)) with (d_viterbi d).
  destruct (decode _ _ _). reflexivity.
Qed.
#[local] Hint Resolve commutes_bind commutes_ret commutes_lift commutes_gets commutes_inav
  commutes_fnav commutes_cnav commutes_decode_symbols : cxx.

(** *** The steps *)

Lemma flip_publish msg d : publish msg (flip d) = flip (publish msg d).
Proof. reflexivity. Qed.
Lemma flip_publish_tow_unknown d : publish_tow_unknown (flip d) = flip (publish_tow_unknown d).
Proof.
  unfold publish_tow_unknown. change (d_there_are_e6_channels (flip d)) with (d_there_are_e6_channels d).
  destruct (d_there_are_e6_channels d); reflexivity.
Qed.
Lemma flip_publish_tow g d : publish_tow g (flip d) = flip (publish_tow g d).
Proof.
  unfold publish_tow. change (d_there_are_e6_channels (flip d)) with (d_there_are_e6_channels d).
  change (d_valid_timetag (flip d)) with (d_valid_timetag d). destruct (_ && _); reflexivity.
Qed.
Lemma flip_publish_osnma d : publish_osnma (flip d) = flip (publish_osnma d).
Proof.
  unfold publish_osnma. change (d_inav_nav (flip d)) with (d_inav_nav d).
  change (d_band (flip d)) with (d_band d). change (d_enable_osnma (flip d)) with (d_enable_osnma d).
  destruct (_ && _); reflexivity.
Qed.
Lemma flip_keep_nav_message p d : keep_nav_message p (flip d) = flip (keep_nav_message p d).
Proof.
  unfold keep_nav_message. change (d_enable_navdata_monitor (flip d)) with (d_enable_navdata_monitor d).
  destruct (d_enable_navdata_monitor d); reflexivity.
Qed.
Lemma flip_publish_nav_message g d : publish_nav_message g (flip d) = flip (publish_nav_message g d).
Proof.
  unfold publish_nav_message.
  change (d_enable_navdata_monitor (flip d)) with (d_enable_navdata_monitor d).
  change (d_nav_message (flip d)) with (d_nav_message d). destruct (_ && _); reflexivity.
Qed.
Lemma flip_report_inav have get d :
  report_inav have get (flip d) = ((report_inav have get d).1, flip (report_inav have get d).2).
Proof.
  unfold report_inav. change (d_inav_nav (flip d)) with (d_inav_nav d).
  destruct (have (d_inav_nav d)) as [[] m]; reflexivity.
Qed.
Lemma flip_report_inav_state have get d :
  (report_inav have get (flip d)).2 = flip (report_inav have get d).2.
Proof. now rewrite flip_report_inav. Qed.
Lemma flip_report_fnav have get d : report_fnav have get (flip d) = flip (report_fnav have get d).
Proof.
  unfold report_fnav. change (d_fnav_nav (flip d)) with (d_fnav_nav d).
  destruct (have (d_fnav_nav d)) as [[] m]; reflexivity.
Qed.

Lemma flip_report_inav_data `{RSDecoder} `{Libm} d :
  report_inav_data (flip d) = flip (report_inav_data d).
Proof.
  unfold report_inav_data. cbv zeta. rewrite flip_report_inav.
  destruct (report_inav InavMessage.have_new_ephemeris _ d) as [new d1]. cbn [fst snd].
  assert ((if new then (flip d1) <| d_first_eph_sent := true |>
    else if Ascii.eqb (d_band (flip d1)) "1" && negb (d_first_eph_sent (flip d1))
    then (report_inav have_new_reduced_ced (fun m => telemetry_ephemeris (get_reduced_ced m)) (flip d1)).2
    else flip d1) = flip (if new then d1 <| d_first_eph_sent := true |>
    else if Ascii.eqb (d_band d1) "1" && negb (d_first_eph_sent d1)
    then (report_inav have_new_reduced_ced (fun m => telemetry_ephemeris (get_reduced_ced m)) d1).2
    else d1)) as E.
  { destruct new; [reflexivity|]. change (d_band (flip d1)) with (d_band d1).
    change (d_first_eph_sent (flip d1)) with (d_first_eph_sent d1). destruct (_ && _); [|reflexivity].
    now rewrite flip_report_inav. }
  rewrite E, !flip_report_inav_state. reflexivity.
Qed.

Lemma flip_report_fnav_data d : report_fnav_data (flip d) = flip (report_fnav_data d).
Proof. unfold report_fnav_data. cbv zeta. now rewrite !flip_report_fnav. Qed.

Lemma flip_report_cnav_page d : report_cnav_page (flip d) = flip (report_cnav_page d).
Proof.
  unfold report_cnav_page. change (d_cnav_nav (flip d)) with (d_cnav_nav d).
  destruct (have_new_HAS_page _); [|reflexivity].
  destruct (is_HAS_page_dummy _); [reflexivity|].
  change (d_E6_TOW_set (flip d)) with (d_E6_TOW_set d). destruct (d_E6_TOW_set d); reflexivity.
Qed.

Section Commute.
Context `{Boost} `{Boost_FNAV} `{Boost_CNAV} `{RSDecoder} `{Libm}.

Lemma commutes_decode_INAV_word x n : commutes (decode_INAV_word x n).
Proof.
  apply commutes_bind; [auto with cxx|intros p].
  apply commutes_bind; [apply commutes_modify; intros; apply flip_keep_nav_message|intros []].
  apply commutes_bind; [now apply commutes_gets|intros flag].
  apply commutes_bind; [auto with cxx|intros []].
  apply commutes_bind; [|intros []; apply commutes_modify, flip_report_inav_data].
  destruct (_ =? 1); [|now apply commutes_modify].
  apply commutes_bind; [apply commutes_modify, flip_publish_osnma|intros []; now apply commutes_modify].
Qed.

Lemma commutes_decode_FNAV_word x n : commutes (decode_FNAV_word x n).
Proof.
  apply commutes_bind; [auto with cxx|intros p].
  apply commutes_bind; [apply commutes_modify; intros; apply flip_keep_nav_message|intros []].
  apply commutes_bind; [auto with cxx|intros []]. apply commutes_modify, flip_report_fnav_data.
Qed.

Lemma commutes_decode_CNAV_word t x n : commutes (decode_CNAV_word t x n).
Proof.
  apply commutes_bind; [auto with cxx|intros p].
  apply commutes_bind; [apply commutes_modify; intros; apply flip_keep_nav_message|intros []].
  apply commutes_bind; [auto with cxx|intros []].
  apply commutes_bind; [now apply commutes_modify|intros []].
  apply commutes_modify, flip_report_cnav_page.
Qed.

Lemma flip_end_of_page d : end_of_page (flip d) = flip (end_of_page d).
Proof.
  assert (forall d, bad_page (flip d) = flip (bad_page d)) as Hbad.
  { clear d. intros d. unfold bad_page. cbv zeta.
    change (count_crc_error (flip d)) with (flip (count_crc_error d)).
    generalize (count_crc_error d). clear d. intros d.
    change (d_CRC_error_counter (flip d)) with (d_CRC_error_counter d).
    destruct (_ <? _); [|reflexivity]. unfold lose_frame_sync. cbv zeta.
    match goal with |- _ = flip (_ <| d_fnav_nav ::= _ |> <| d_inav_nav ::= _ |>) => idtac end.
    set (d1 := d <| d_flag_frame_sync := false |> <| d_stat := 0 |> <| d_TOW_at_current_symbol_ms := 0 |>
      <| d_TOW_at_Preamble_ms := 0 |> <| d_E6_TOW_set := false |> <| d_valid_timetag := false |>).
    change ((flip d) <| d_flag_frame_sync := false |> <| d_stat := 0 |> <| d_TOW_at_current_symbol_ms := 0 |>
      <| d_TOW_at_Preamble_ms := 0 |> <| d_E6_TOW_set := false |> <| d_valid_timetag := false |>)
      with (flip d1). rewrite flip_publish_tow_unknown. generalize (publish_tow_unknown d1). reflexivity. }
  unfold end_of_page. cbv zeta. change (mark_page (flip d)) with (flip (mark_page d)).
  generalize (mark_page d). clear d. intros d.
  change (any_crc_ok (flip d)) with (any_crc_ok d). destruct (any_crc_ok d); [reflexivity|apply Hbad].
Qed.

Lemma commutes_set_page_tow g tow delay forget :
  (forall d, forget (flip d) = flip (forget d)) -> commutes (set_page_tow g tow delay forget).
Proof.
  intros Hf. apply commutes_bind; [auto with cxx|intros t]. apply commutes_modify.
  intros d. rewrite <- flip_publish_tow, <- Hf. reflexivity.
Qed.

(** A branch on a state that [flip] does not change. *)
Lemma commutes_state {A} (c : galileo_tlm -> prog galileo_tlm A) :
  (forall d, c (flip d) = c d) -> (forall d, commutes (c d)) -> commutes (d <- gets id;; c d).
Proof. intros E Hc d. unfold bind, gets, id. rewrite E. apply Hc. Qed.

Lemma commutes_update_tow g : commutes (update_tow g).
Proof.
  apply commutes_bind; [now apply commutes_gets|intros []].
  - apply commutes_bind; [now apply commutes_gets|intros ft].
    assert (commutes (modify (publish_nav_message g))) as Hp
      by (apply commutes_modify, flip_publish_nav_message).
    destruct ft as [|[[]|[]|]|]; auto with cxx; (apply commutes_bind; [|intros []]); auto with cxx.
    + apply commutes_state; [reflexivity|intros d]. destruct (d_valid_timetag d).
      { now apply commutes_modify. }
      destruct (_ <? _); auto with cxx. apply commutes_bind; [auto with cxx|intros e].
      now apply commutes_modify.
    + apply commutes_modify. intros d. change (d_E6_TOW_set (flip d)) with (d_E6_TOW_set d).
      destruct (d_E6_TOW_set d); auto using flip_publish_nav_message.
    + apply commutes_state; [reflexivity|intros d; cbv zeta].
      destruct (FnavMessage.get_flag_TOW_set (d_fnav_nav d)); auto with cxx.
      repeat match goal with |- commutes (if ?b then _ else _) => destruct b end;
        try (now apply commutes_set_page_tow); now apply commutes_modify.
    + apply commutes_state; [reflexivity|intros d; cbv zeta].
      destruct (InavMessage.get_flag_TOW_set (d_inav_nav d)); auto with cxx.
      repeat match goal with |- commutes (if ?b then _ else _) => destruct b end;
        try (now apply commutes_set_page_tow); now apply commutes_modify.
  - apply commutes_modify. intros d. unfold tow_at_symbol.
    change (tow_set (flip d)) with (tow_set d). destruct (tow_set d); reflexivity.
Qed.
End Commute.

(** *** The synchroniser *)

Lemma parameters_fit s : sync_wf s ->
  0 < sp_samples s /\ 0 <= sp_frame_length s /\ sp_frame_length s + sp_samples s <= sp_required s.
Proof.
  intros W. destruct (sw_parameters _ W) as (_ & -> & _ & -> & -> & _).
  destruct (sw_type _ W) as [->|[->| ->]]; vm_compute; repeat split; discriminate.
Qed.

Abbreviation signed_symbols h := (Forall (fun x => signed x = true) h).

Lemma signed_at h i : signed_symbols h -> in_range h i -> signed (vget fzero h i) = true.
Proof. intros Hh Hi. rewrite Forall_lookup in Hh. apply (Hh (Z.to_nat i)). now apply lookup_vget. Qed.

Section Equivariance.
Context `{Boost} `{Boost_FNAV} `{Boost_CNAV} `{RSDecoder} `{Libm}.
Context (d : galileo_tlm).
Hypothesis Hfit : 0 < d_samples_per_preamble d /\ 0 <= d_frame_length_symbols d /\
  d_frame_length_symbols d + d_samples_per_preamble d <= d_required_symbols d.
Hypothesis Hsigned : signed_symbols (d_symbol_history d).

Lemma flip_history_full : history_full (flip d) = history_full d.
Proof. unfold history_full. cbn. now rewrite length_map. Qed.

Lemma flip_corr_value : history_full d = true -> corr_value (flip d) = - corr_value d.
Proof using Hfit Hsigned.
  unfold history_full. intros Hf. unfold corr_value.
  change (d_symbol_history (flip d)) with (map fopp (d_symbol_history d)).
  apply correlation_fopp; [|lia]. intros i Hi. apply signed_at; [exact Hsigned|]. unfold in_range. lia.
Qed.

Lemma flip_preamble_detected : preamble_detected (flip d) = preamble_detected d.
Proof using Hfit Hsigned.
  unfold preamble_detected. rewrite flip_history_full. destruct (history_full d) eqn:Ef; [|reflexivity].
  rewrite flip_corr_value by exact Ef. now rewrite Z.abs_opp.
Qed.

Lemma flip_search_preamble : search_preamble (flip d) = flip (search_preamble d).
Proof using Hfit Hsigned.
  unfold search_preamble. rewrite flip_preamble_detected. destruct (preamble_detected d); reflexivity.
Qed.

Lemma flip_confirm_preamble : confirm_preamble (flip d) = flip (confirm_preamble d).
Proof using Hfit Hsigned.
  unfold confirm_preamble. rewrite flip_preamble_detected.
  destruct (preamble_detected d) eqn:Ed; [|reflexivity]. cbv zeta.
  change (d_symbol_counter (flip d)) with (d_symbol_counter d).
  change (d_preamble_index (flip d)) with (d_preamble_index d).
  change (d_preamble_period_symbols (flip d)) with (d_preamble_period_symbols d).
  destruct (_ =? d_preamble_period_symbols d).
  - unfold preamble_detected in Ed. apply andb_prop in Ed as [Ef Ec].
    rewrite flip_corr_value by exact Ef.
    assert ((- corr_value d <? 0) = negb (corr_value d <? 0)) as -> by lia.
    generalize (corr_value d <? 0). intros inverted. reflexivity.
  - destruct (_ <? _); reflexivity.
Qed.

Lemma flip_fetch_symbols : history_full d = true -> fetch_symbols (flip d) = fetch_symbols d.
Proof using Hfit Hsigned.
  unfold history_full. intros Hf. unfold fetch_symbols.
  change (d_frame_length_symbols (flip d)) with (d_frame_length_symbols d).
  apply map_ext_in. intros i Hi. apply list_elem_of_In, elem_of_seqZ in Hi. cbv zeta.
  change (d_symbol_history (flip d)) with (map fopp (d_symbol_history d)).
  change (d_samples_per_preamble (flip d)) with (d_samples_per_preamble d).
  change (d_flag_PLL_180_deg_phase_locked (flip d)) with (negb (d_flag_PLL_180_deg_phase_locked d)).
  rewrite (vget_fmap fzero) by (unfold in_range; lia).
  destruct (d_flag_PLL_180_deg_phase_locked d); cbn [negb]; [reflexivity|apply fopp_involutive].
Qed.

Lemma flip_decode_page_part g : history_full d = true ->
  decode_page_part (negated g) (flip d) = ((decode_page_part g d).1, flip (decode_page_part g d).2).
Proof using Hfit Hsigned.
  intros Hf. unfold decode_page_part. unfold bind at 1, gets, id.
  rewrite flip_fetch_symbols by exact Hf.
  change (d_frame_type (flip d)) with (d_frame_type d).
  change (d_frame_length_symbols (flip d)) with (d_frame_length_symbols d).
  change (page_time_stamp (negated g)) with (page_time_stamp g).
  assert (forall b, commutes (ret (S := galileo_tlm) (A := bool) b)) as Hret by (intros; apply commutes_ret).
  match goal with |- ?c (flip d) = ((?k d).1, _) => assert (commutes c) as Hc; [|apply Hc] end.
  destruct (d_frame_type d) as [|[[]|[]|]|]; auto.
  - apply commutes_bind; [apply commutes_lift|intros t].
    apply commutes_bind; [apply commutes_decode_CNAV_word|auto].
  - apply commutes_bind; [apply commutes_decode_FNAV_word|auto].
  - apply commutes_bind; [apply commutes_decode_INAV_word|auto].
Qed.

Lemma flip_frame_sync g : (d_stat d = 2 -> history_full d = true) ->
  frame_sync (negated g) (flip d) = ((frame_sync g d).1, flip (frame_sync g d).2).
Proof using Hfit Hsigned.
  intros Hf. unfold frame_sync. rewrite !run_gets. change (d_stat (flip d)) with (d_stat d).
  destruct (d_stat d) as [|[p|[p|p|]|]|] eqn:E; try reflexivity.
  - rewrite !run_modify, flip_search_preamble. reflexivity.
  - unfold track_pages. rewrite !run_gets. change (page_complete (flip d)) with (page_complete d).
    destruct (page_complete d); [|reflexivity].
    unfold bind at 1 3 5. rewrite (flip_decode_page_part g (Hf eq_refl)).
    destruct (decode_page_part g d) as [[[]|e] d1]; try reflexivity. cbn [fst snd].
    rewrite !run_modify, flip_end_of_page. reflexivity.
  - rewrite !run_modify, flip_confirm_preamble. reflexivity.
Qed.
End Equivariance.

Lemma push_fopp r x h : push r (fopp x) (map fopp h) = map fopp (push r x h).
Proof.
  unfold push. change [fopp x] with (map fopp [x]).
  rewrite <- (map_app fopp h [x]), length_map. apply skipn_map.
Qed.

Lemma push_symbol_push x d :
  push_symbol x d = d <| d_symbol_history := push (d_required_symbols d) x (d_symbol_history d) |>.
Proof. reflexivity. Qed.

Lemma flip_set_history h d :
  flip (d <| d_symbol_history := h |>) = (flip d) <| d_symbol_history := map fopp h |>.
Proof. reflexivity. Qed.

Lemma flip_push_symbol x d : push_symbol (fopp x) (flip d) = flip (push_symbol x d).
Proof. rewrite !push_symbol_push, flip_set_history, <- push_fopp. reflexivity. Qed.

Lemma flip_store_symbol g d : store_symbol (negated g) (flip d) = flip (store_symbol g d).
Proof.
  unfold store_symbol.
  change (float_of_double (Prompt_I (negated g))) with (float_of_double (fopp (Prompt_I g))).
  rewrite float_of_double_fopp. change (Signal (negated g)) with (Signal g).
  change ((flip d) <| d_band := vget "000"%char (Signal g) 0 |>)
    with (flip (d <| d_band := vget "000"%char (Signal g) 0 |>)).
  rewrite flip_push_symbol. generalize (push_symbol (float_of_double (Prompt_I g))
    (d <| d_band := vget "000"%char (Signal g) 0 |>)). reflexivity.
Qed.

Lemma flip_receive_symbol g tags d : receive_symbol (negated g) tags (flip d) = flip (receive_symbol g tags d).
Proof.
  unfold receive_symbol. rewrite flip_store_symbol. generalize (store_symbol g d). clear d. intros d.
  assert (time_tags tags (flip d) = flip (time_tags tags d)) as ->.
  { unfold time_tags. destruct tags as [|t tags].
    - change (d_valid_timetag (flip d)) with (d_valid_timetag d). destruct (d_valid_timetag d); reflexivity.
    - unfold read_tags. generalize (t :: tags). clear. intros l. revert d.
      induction l as [|[t|] l IH]; intros d; cbn [fold_left]; [reflexivity| |apply IH]. rewrite <- IH. reflexivity. }
  generalize (time_tags tags d). clear d. intros d.
  change ((flip d) <| d_flag_preamble := false |>) with (flip (d <| d_flag_preamble := false |>)).
  generalize (d <| d_flag_preamble := false |>). clear d. intros d. unfold check_telemetry.
  change (d_sent_tlm_failed_msg (flip d)) with (d_sent_tlm_failed_msg d).
  change (d_max_symbols_without_valid_frame (flip d)) with (d_max_symbols_without_valid_frame d).
  change (d_symbol_counter (flip d)) with (d_symbol_counter d).
  change (d_last_valid_preamble (flip d)) with (d_last_valid_preamble d).
  destruct (_ && _); reflexivity.
Qed.

(** The items that two decoders produce: the same but for the sign of the
    prompt, the polarity and the correction of the phase that goes with it. *)
Definition same_output (o o' : outcome work_result) : Prop :=
  match o, o' with
  | Returns (produced q), Returns (produced q') =>
      q' = q <| Prompt_I ::= fopp |> <| Flag_PLL_180_deg_phase_locked ::= negb |>
             <| Carrier_phase_rads := Carrier_phase_rads q' |>
  | _, _ => o' = o
  end.

Lemma same_output_symbol g d :
  same_output (Returns (output_symbol g d)) (Returns (output_symbol (negated g) (flip d))).
Proof.
  unfold output_symbol. cbv zeta. change (tow_set (flip d)) with (tow_set d).
  assert (forall h, same_output
    (Returns (if Flag_valid_word h then produced
       (let g := h <| TOW_at_current_symbol_ms := d_TOW_at_current_symbol_ms d |> in
        if d_flag_PLL_180_deg_phase_locked d
        then g <| Carrier_phase_rads ::= fun x => dadd x GNSS_PI |> <| Flag_PLL_180_deg_phase_locked := true |>
        else g <| Flag_PLL_180_deg_phase_locked := false |>) else no_output))
    (Returns (if Flag_valid_word (negated h) then produced
       (let g := (negated h) <| TOW_at_current_symbol_ms := d_TOW_at_current_symbol_ms (flip d) |> in
        if d_flag_PLL_180_deg_phase_locked (flip d)
        then g <| Carrier_phase_rads ::= fun x => dadd x GNSS_PI |> <| Flag_PLL_180_deg_phase_locked := true |>
        else g <| Flag_PLL_180_deg_phase_locked := false |>) else no_output))) as Hh.
  { intros h. change (Flag_valid_word (negated h)) with (Flag_valid_word h).
    destruct (Flag_valid_word h); [|reflexivity].
    change (d_flag_PLL_180_deg_phase_locked (flip d)) with (negb (d_flag_PLL_180_deg_phase_locked d)).
    destruct (d_flag_PLL_180_deg_phase_locked d); reflexivity. }
  destruct (tow_set d); [exact (Hh (g <| Flag_valid_word := true |>))|exact (Hh g)].
Qed.

Section Polarity.
Context `{Boost} `{Boost_FNAV} `{Boost_CNAV} `{RSDecoder} `{Libm}.

End Polarity.

#[local] Existing Instances sample_boost sample_boost_fnav sample_boost_cnav sample_decoder sample_libm.

