(* ===== verification/HasReceiver.v ===== *)
(** * HasReceiver: collecting HAS pages and decoding HAS messages

    [class galileo_e6_has_msg_receiver] of
    [src/src/core/libs/galileo_e6_has_msg_receiver.{h,cc}]: pages of one message
    ID are collected until their number is the size of the message, the columns
    of the page matrix are decoded by the Reed-Solomon decoder of
    ReedSolomon.v with the missing pages as erasures, and the message read is
    handed to the PVT block once its mask is known.

    A member that is a vector of fixed size is a list.  The body is read by
    cutting characters off a string: cutting more than it has, reading a
    vector beyond its size and writing an element that [reserve] did not make
    are undefined in C++ and [Throws undefined_behaviour] here.  What the code
    prints or logs is left out. *)

From S2P Require Import Prelude Cstring InavMessage HasData CnavMessage ReedSolomon.
From stdpp Require Import list strings.
From Stdlib Require Import ZArith Lia Ascii.
Local Open Scope Z_scope.
Local Open Scope cxx_scope.

(** ** State *)

Record has_receiver := mkhas_receiver {
  d_HAS_data : Galileo_HAS_data;
  d_received_timestamps : list (list Z);
  d_C_matrix : list (list (list Z));
  d_M_matrix : list (list Z);
  d_received_pids : list (list Z);
  d_printed_timestamps : list Z;
  d_printed_mids : list bool;
  d_nsat_in_mask_id : list Z;
  d_gnss_id_in_mask : list (list Z);
  d_satellite_mask : list (list Z);
  d_signal_mask : list (list Z);
  d_cell_mask_availability_flag : list (list bool);
  d_cell_mask : list (list (list (list bool)));
  d_nsys_in_mask : list Z;
  d_nav_message_mask : list (list Z);
  d_current_has_status : Z;
  d_current_message_id : Z;
  d_new_message : bool;
  (** The data handed to the PVT block, the last first. *)
  has_to_PVT : list Galileo_HAS_data
}.
#[export] Instance eta_has_receiver : Eta has_receiver := fun r =>
  mkhas_receiver (d_HAS_data r) (d_received_timestamps r) (d_C_matrix r) (d_M_matrix r)
    (d_received_pids r) (d_printed_timestamps r) (d_printed_mids r) (d_nsat_in_mask_id r)
    (d_gnss_id_in_mask r) (d_satellite_mask r) (d_signal_mask r)
    (d_cell_mask_availability_flag r) (d_cell_mask r) (d_nsys_in_mask r) (d_nav_message_mask r)
    (d_current_has_status r) (d_current_message_id r) (d_new_message r) (has_to_PVT r).

Definition zeros {A} (n : Z) (x : A) : list A := replicate (Z.to_nat n) x.

(** A page matrix without pages: 255 rows of 53 octets. *)
Definition zero_C : list (list Z) :=
  zeros GALILEO_CNAV_MAX_NUMBER_SYMBOLS_ENCODED_BLOCK (zeros GALILEO_CNAV_OCTETS_IN_SUBPAGE 0).
Definition zero_M : list (list Z) :=
  zeros GALILEO_CNAV_INFORMATION_VECTOR_LENGTH (zeros GALILEO_CNAV_OCTETS_IN_SUBPAGE 0).

Definition new_has_receiver : has_receiver := {|
  d_HAS_data := new_Galileo_HAS_data;
  d_received_timestamps := zeros HAS_MSG_NUMBER_MESSAGE_IDS [];
  d_C_matrix := zeros GALILEO_CNAV_INFORMATION_VECTOR_LENGTH zero_C;
  d_M_matrix := zero_M;
  d_received_pids := zeros HAS_MSG_NUMBER_MESSAGE_IDS [];
  d_printed_timestamps := zeros HAS_MSG_NUMBER_MESSAGE_IDS uint64_max;
  d_printed_mids := zeros HAS_MSG_NUMBER_MESSAGE_IDS false;
  d_nsat_in_mask_id := zeros HAS_MSG_NUMBER_MASK_IDS 0;
  d_gnss_id_in_mask := zeros HAS_MSG_NUMBER_MASK_IDS (zeros HAS_MSG_NUMBER_GNSS_IDS 0);
  d_satellite_mask := zeros HAS_MSG_NUMBER_MASK_IDS (zeros HAS_MSG_NUMBER_GNSS_IDS 0);
  d_signal_mask := zeros HAS_MSG_NUMBER_MASK_IDS (zeros HAS_MSG_NUMBER_GNSS_IDS 0);
  d_cell_mask_availability_flag := zeros HAS_MSG_NUMBER_MASK_IDS (zeros HAS_MSG_NUMBER_GNSS_IDS false);
  d_cell_mask := zeros HAS_MSG_NUMBER_MASK_IDS (zeros HAS_MSG_NUMBER_GNSS_IDS
    (zeros HAS_MSG_NUMBER_SATELLITE_IDS (zeros HAS_MSG_NUMBER_SIGNAL_MASKS false)));
  d_nsys_in_mask := zeros HAS_MSG_NUMBER_MASK_IDS 0;
  d_nav_message_mask := zeros HAS_MSG_NUMBER_MASK_IDS (zeros HAS_MSG_NUMBER_GNSS_IDS 0);
  d_current_has_status := 0;
  d_current_message_id := 0;
  d_new_message := false;
  has_to_PVT := []
|}.

(** Updating one entry of a list of lists. *)
Definition vset2 {A} (l : list (list A)) (i j : Z) (x : A) : list (list A) :=
  vset l i (vset (vget [] l i) j x).

(** ** Reading fields *)

Definition read_has_message_header_parameter_uint16 (bits : list bool) (parameter : Z * Z) : Z :=
  read_parameter 16 GALILEO_CNAV_MT1_HEADER_BITS bits parameter.
Definition read_has_message_header_parameter_uint8 (bits : list bool) (parameter : Z * Z) : Z :=
  read_parameter 8 GALILEO_CNAV_MT1_HEADER_BITS bits parameter.
Definition read_has_message_header_parameter_bool (bits : list bool) (parameter : Z * Z) : bool :=
  vget false bits (GALILEO_CNAV_MT1_HEADER_BITS - parameter.1).

(** [read_has_message_body_uint64], [_uint16] and [_uint8]. *)
Definition read_body_unsigned (w : Z) (bits : cstring) : Z :=
  fold_left (fun value c =>
    let value := wrap w (Z.shiftl value 1) in
    if Ascii.eqb c "1" then wrap w (value + 1) else value) bits 0.
Definition read_has_message_body_uint64 : cstring -> Z := read_body_unsigned 64.
Definition read_has_message_body_uint16 : cstring -> Z := read_body_unsigned 16.
Definition read_has_message_body_uint8 : cstring -> Z := read_body_unsigned 8.

Definition i16 : Z -> Z := swrap 16.

Definition read_has_message_body_int16 (bits : cstring) : Z :=
  let sign := if Ascii.eqb (vget "000"%char bits 0) "1" then i16 (Z.lxor 0 65535) else 0 in
  fold_left (fun value c =>
    let value := i16 (value * 2) in
    let value := i16 (Z.land value 65534) in
    if Ascii.eqb c "1" then i16 (value + 1) else value) bits sign.

(** ** Reading the message *)

Definition read_MT1_header (message_header : cstring) : prog has_receiver unit :=
  has_mt1_header <-
    lift (bitset_of_string (Z.to_nat GALILEO_CNAV_MT1_HEADER_BITS) message_header);;
  let u16 := read_has_message_header_parameter_uint16 has_mt1_header in
  let u8 := read_has_message_header_parameter_uint8 has_mt1_header in
  let flag := read_has_message_header_parameter_bool has_mt1_header in
  modify (fun r => r <| d_HAS_data ::= fun d => d <| header := {|
    toh := u16 GALILEO_MT1_HEADER_TOH;
    mask_flag := flag GALILEO_MT1_HEADER_MASK_FLAG;
    orbit_correction_flag := flag GALILEO_MT1_HEADER_ORBIT_CORRECTION_FLAG;
    clock_fullset_flag := flag GALILEO_MT1_HEADER_CLOCK_FULLSET_FLAG;
    clock_subset_flag := flag GALILEO_MT1_HEADER_CLOCK_SUBSET_FLAG;
    code_bias_flag := flag GALILEO_MT1_HEADER_CODE_BIAS_FLAG;
    phase_bias_flag := flag GALILEO_MT1_HEADER_PHASE_BIAS_FLAG;
    reserved := u8 GALILEO_MT1_HEADER_RESERVED;
    mask_id := u8 GALILEO_MT1_HEADER_MASK_ID;
    iod_set_id := u8 GALILEO_MT1_HEADER_IOD_SET_ID
  |} |> |>).

(** The local variables of [read_MT1_body] that its sections share, and the
    object. *)
Record body_state := mkbody_state {
  message : cstring;
  Nsat : Z;
  have_mask : bool;
  rx : has_receiver
}.
#[export] Instance eta_body_state : Eta body_state := fun r =>
  mkbody_state (message r) (Nsat r) (have_mask r) (rx r).

Definition body (A : Type) : Type := prog body_state A.

Definition get_data {A} (f : Galileo_HAS_data -> A) : body A := gets (fun s => f (d_HAS_data (rx s))).
Definition put_data (f : Galileo_HAS_data -> Galileo_HAS_data) : body unit :=
  modify (fun s => s <| rx ::= fun r => r <| d_HAS_data ::= f |> |>).
Definition put_rx (f : has_receiver -> has_receiver) : body unit :=
  modify (fun s => s <| rx ::= f |>).

(** [message.substr(0, len)]. *)
Definition peek (len : Z) : body cstring := gets (fun s => take (Z.to_nat len) (message s)).

(** [message = std::string(message.begin() + len, message.end())]. *)
Definition cut (len : Z) : body unit := fun s =>
  if Z.of_nat (length (message s)) <? len then (Throws undefined_behaviour, s)
  else (Returns tt, s <| message ::= drop (Z.to_nat len) |>).

(** A field read and cut off. *)
Definition field_of {A} (read : cstring -> A) (len : Z) : body A :=
  bits <- peek len;; cut len;; ret (read bits).

Definition the_mask_id : body Z := get_data (fun d => mask_id (header d)).

(** *** The mask *)

(** The cell mask of the system [i], of [sats] rows and [sigs] columns. *)
Definition read_cell_mask (i sats sigs : Z) : body unit :=
  for_prog 0 sats (fun s =>
    for_prog 0 sigs (fun sig =>
      m <- gets message;;
      c <- lift (vat m (s * sigs + sig));;
      put_data (fun d => d <| cell_mask ::= fun cm =>
        vset cm i (vset2 (vget [] cm i) s sig (Ascii.eqb c "1")) |>)));;
  cut (sats * sigs).

(** One turn of the loop on the systems of the mask. *)
Definition read_mask_system (mid i : Z) : body unit :=
  gnss_id <- field_of read_has_message_body_uint8 HAS_MSG_ID_MASK_LENGTH;;
  put_data (fun d => d <| gnss_id_mask ::= fun v => vset v i gnss_id |>);;
  put_rx (fun r => r <| d_gnss_id_in_mask ::= fun m => vset2 m mid i gnss_id |>);;

  sat_bits <- field_of (fun bits => bits) HAS_MSG_SATELLITE_MASK_LENGTH;;
  let sat_mask := read_has_message_body_uint64 sat_bits in
  put_data (fun d => d <| satellite_mask ::= fun v => vset v i sat_mask |>);;
  put_rx (fun r => r <| d_satellite_mask ::= fun m => vset2 m mid i sat_mask |>);;
  let ones_in_satellite_mask := count_ones sat_bits in
  modify (fun s => s <| Nsat ::= Z.add ones_in_satellite_mask |>);;

  sig_bits <- field_of (fun bits => bits) HAS_MSG_SIGNAL_MASK_LENGTH;;
  let sig_mask := read_has_message_body_uint16 sig_bits in
  put_data (fun d => d <| signal_mask ::= fun v => vset v i sig_mask |>);;
  put_rx (fun r => r <| d_signal_mask ::= fun m => vset2 m mid i sig_mask |>);;
  let ones_in_signal_mask := count_ones sig_bits in
  put_data (fun d => d <| cell_mask ::= fun v =>
    vset v i (zeros ones_in_satellite_mask (zeros ones_in_signal_mask false)) |>);;

  flag <- field_of (fun bits => bool_decide (bits = str "1")) 1;;
  put_data (fun d => d <| cell_mask_availability_flag ::= fun v => vset v i flag |>);;
  put_rx (fun r => r <| d_cell_mask_availability_flag ::= fun m => vset2 m mid i flag |>);;
  (if flag : bool then read_cell_mask i ones_in_satellite_mask ones_in_signal_mask else ret tt);;

  nav <- field_of read_has_message_body_uint8 HAS_MSG_NAV_MESSAGE_LENGTH;;
  put_data (fun d => d <| nav_message ::= fun v => vset v i nav |>);;
  put_rx (fun r => r <| d_nav_message_mask ::= fun m => vset2 m mid i nav |>).

Definition read_mask : body unit :=
  mid <- the_mask_id;;
  bits <- peek HAS_MSG_NSYS_LENGTH;;
  let nsys := read_has_message_body_uint8 bits in
  put_data (fun d => d <| Nsys := nsys |>);;
  put_rx (fun r => r <| d_nsys_in_mask ::= fun v => vset v mid nsys |>);;
  (if nsys =? 0 then ret tt else
     cut HAS_MSG_NSYS_LENGTH;;
     put_data (fun d => d
       <| gnss_id_mask := zeros nsys 0 |>
       <| cell_mask := zeros nsys (zeros HAS_MSG_NUMBER_SATELLITE_IDS
                                     (zeros HAS_MSG_NUMBER_SIGNAL_MASKS false)) |>
       <| cell_mask_availability_flag := zeros nsys false |>
       <| nav_message := zeros nsys 0 |>
       <| satellite_mask := zeros nsys 0 |>
       <| signal_mask := zeros nsys 0 |>);;
     for_prog 0 nsys (read_mask_system mid);;
     modify (fun s => s <| rx ::= fun r => r
       <| d_nsat_in_mask_id ::= fun v => vset v mid (Nsat s) |>
       <| d_cell_mask ::= fun v => vset v mid (cell_mask (d_HAS_data r)) |> |>);;
     cut HAS_MSG_MASK_RESERVED_LENGTH);;
  modify (fun s => if Nsat s =? 0 then s else s <| have_mask := true |>).

(** The mask received before with the same mask ID. *)
Definition recall_mask : body unit :=
  mid <- the_mask_id;;
  modify (fun s => s <| Nsat := vget 0 (d_nsat_in_mask_id (rx s)) mid |>);;
  nsat <- gets Nsat;;
  if nsat =? 0 then ret tt else
  modify (fun s => s <| rx ::= fun r =>
    let nsys := vget 0 (d_nsys_in_mask r) mid in
    let copy {A} (m : list (list A)) : list A := take (Z.to_nat nsys) (vget [] m mid) in
    r <| d_HAS_data ::= fun d => d
      <| Nsys := nsys |>
      <| gnss_id_mask ::= fun v => v ++ copy (d_gnss_id_in_mask r) |>
      <| satellite_mask ::= fun v => v ++ copy (d_satellite_mask r) |>
      <| signal_mask ::= fun v => v ++ copy (d_signal_mask r) |>
      <| cell_mask_availability_flag ::= fun v => v ++ copy (d_cell_mask_availability_flag r) |>
      <| cell_mask := vget [] (d_cell_mask r) mid |>
      <| nav_message ::= fun v => v ++ copy (d_nav_message_mask r) |> |> |>
    <| have_mask := true |>).

(** The time of hour out of range discards the data and the mask. *)
Definition forget_mask : body unit :=
  mid <- the_mask_id;;
  modify (fun s => s <| have_mask := false |>
    <| rx ::= fun r => r <| d_nsat_in_mask_id ::= fun v => vset v mid 0 |> |>).

Definition check_toh : body unit :=
  t <- get_data (fun d => toh (header d));;
  if HAS_MSG_NUMBER_MAX_TOH <? t then forget_mask else ret tt.

(** *** Corrections *)

Definition read_orbit (i : Z) : body unit :=
  id <- get_data (fun d => get_gnss_id d i);;
  let iod (len : Z) : body unit :=
    v <- field_of read_has_message_body_uint16 len;;
    put_data (fun d => d <| gnss_iod ::= fun l => vset l i v |>) in
  (if id =? HAS_MSG_GPS_SYSTEM then iod HAS_MSG_IOD_GPS_LENGTH
   else if id =? HAS_MSG_GALILEO_SYSTEM then iod HAS_MSG_IOD_GAL_LENGTH
   else modify (fun s => s <| have_mask := false |>));;
  ok <- gets have_mask;;
  if ok : bool then
    dr <- field_of read_has_message_body_int16 HAS_MSG_DELTA_RADIAL_LENGTH;;
    put_data (fun d => d <| delta_radial ::= fun l => vset l i dr |>);;
    dit <- field_of read_has_message_body_int16 HAS_MSG_DELTA_IN_TRACK_LENGTH;;
    put_data (fun d => d <| delta_in_track ::= fun l => vset l i dit |>);;
    dct <- field_of read_has_message_body_int16 HAS_MSG_DELTA_CROSS_TRACK_LENGTH;;
    put_data (fun d => d <| delta_cross_track ::= fun l => vset l i dct |>)
  else ret tt.

Definition read_orbits : body unit :=
  vi <- field_of read_has_message_body_uint8 HAS_MSG_VALIDITY_INDEX_LENGTH;;
  n <- gets Nsat;;
  put_data (fun d => d <| validity_interval_index_orbit_corrections := vi |>
    <| gnss_iod := zeros n 0 |> <| delta_radial := zeros n 0 |>
    <| delta_in_track := zeros n 0 |> <| delta_cross_track := zeros n 0 |>);;
  for_prog 0 n read_orbit.

Definition read_clock_fullset : body unit :=
  vi <- field_of read_has_message_body_uint8 HAS_MSG_VALIDITY_INDEX_LENGTH;;
  nsys <- get_data Nsys;;
  put_data (fun d => d <| validity_interval_index_clock_fullset_corrections := vi |>
    <| delta_clock_multiplier := zeros nsys 0 |>);;
  for_prog 0 nsys (fun i =>
    v <- field_of read_has_message_body_uint8 HAS_MSG_DELTA_CLOCK_MULTIPLIER_LENGTH;;
    put_data (fun d => d <| delta_clock_multiplier ::= fun l => vset l i (u8 (v + 1)) |>));;
  n <- gets Nsat;;
  put_data (fun d => d <| delta_clock_correction := zeros n 0 |>);;
  for_prog 0 n (fun i =>
    v <- field_of read_has_message_body_int16 HAS_MSG_DELTA_CLOCK_CORRECTION_LENGTH;;
    put_data (fun d => d <| delta_clock_correction ::= fun l => vset l i v |>)).

(** One system of the clock subset.  The vector of corrections has no element:
    [reserve] does not make any, and the assignment to one is undefined. *)
Definition read_clock_subset_system (i : Z) : body unit :=
  id <- field_of read_has_message_body_uint8 HAS_MSG_ID_CLOCK_SUBSET_LENGTH;;
  put_data (fun d => d <| gnss_id_clock_subset ::= fun l => vset l i id |>);;
  m <- field_of read_has_message_body_uint8 HAS_MSG_DELTA_CLOCK_MULTIPLIER_SUBSET_LENGTH;;
  put_data (fun d => d <| delta_clock_multiplier_clock_subset ::= fun l => vset l i (u8 (m + 1)) |>);;
  gnss_ids <- get_data gnss_id_mask;;
  sat_masks <- get_data satellite_mask;;
  sat_mask <- lift (vat sat_masks (find_index id gnss_ids));;
  let number_sats_this_gnss_id := count_ones (mask_string HAS_MSG_SATELLITE_MASK_LENGTH sat_mask) in
  submask <- field_of read_has_message_body_uint64 number_sats_this_gnss_id;;
  put_data (fun d => d <| satellite_submask ::= fun l => vset l i submask |>);;
  let Nsat_sub := count_ones (submask_string number_sats_this_gnss_id submask) in
  for_prog 0 Nsat_sub (fun j =>
    v <- (bits <- peek HAS_MSG_DELTA_CLOCK_CORRECTION_SUBSET_LENGTH;;
          ret (read_has_message_body_int16 bits));;
    l <- get_data delta_clock_correction_clock_subset;;
    row <- lift (vput (vget [] l i) j v);;
    put_data (fun d => d <| delta_clock_correction_clock_subset ::= fun l => vset l i row |>);;
    cut HAS_MSG_DELTA_CLOCK_CORRECTION_SUBSET_LENGTH).

Definition read_clock_subset : body unit :=
  vi <- field_of read_has_message_body_uint8 HAS_MSG_VALIDITY_INDEX_LENGTH;;
  nsub <- field_of read_has_message_body_uint8 HAS_MSG_NSYS_SUB_LENGTH;;
  put_data (fun d => d <| validity_interval_index_clock_subset_corrections := vi |>
                       <| Nsys_sub := nsub |>);;
  (if nsub =? 0 then forget_mask else ret tt);;
  put_data (fun d => d
    <| gnss_id_clock_subset := zeros nsub 0 |>
    <| delta_clock_multiplier_clock_subset := zeros nsub 0 |>
    <| satellite_submask := zeros nsub 0 |>
    <| delta_clock_correction_clock_subset := zeros nsub [] |>);;
  for_prog 0 nsub read_clock_subset_system.

(** *** Biases *)

(** [while (n) { count += n & 1; n >>= 1; }], for a [uint64_t]. *)
Fixpoint popcount (fuel : nat) (n : Z) : Z :=
  match fuel with
  | O => 0
  | S fuel => if n =? 0 then 0 else Z.land n 1 + popcount fuel (Z.shiftr n 1)
  end.

(** The numbers of satellites and of signals of a system. *)
Definition bias_sizes (d : Galileo_HAS_data) (sys : Z) : outcome (Z * Z) :=
  let* available := vat (cell_mask_availability_flag d) sys in
  if available : bool then
    let* cells := vat (cell_mask d) sys in
    let* row := vat cells 0 in
    Returns (Z.of_nat (length cells), Z.of_nat (length row))
  else
    let* n := vat (satellite_mask d) sys in
    let* m := vat (signal_mask d) sys in
    Returns (popcount 64 n, popcount 64 m).

(** The loop over systems, satellites and signals, with the index [sat] of the
    satellite counted over all systems; [read sat c] reads one bias. *)
Definition read_biases (sizes : list (Z * Z)) (read : Z -> Z -> body unit) : body unit :=
  (fold_left (fun '(sat, p) '(sys, (sats, signals)) =>
     (sat + sats,
      (p : body unit);;
      for_prog 0 sats (fun s =>
        for_prog 0 signals (fun c =>
          d <- get_data (fun d => d);;
          available <- lift (vat (cell_mask_availability_flag d) sys);;
          if available : bool then
            cells <- lift (vat (cell_mask d) sys);;
            row <- lift (vat cells s);;
            cell <- lift (vat row c);;
            if cell : bool then read (sat + s) c else ret tt
          else read (sat + s) c))))
     (zip (seqZ 0 (Z.of_nat (length sizes))) sizes) (0, ret tt)).2.

Definition bias_layout : body (list (Z * Z)) :=
  d <- get_data (fun d => d);;
  lift (outcome_mapM (bias_sizes d) (seqZ 0 (Nsys d))).

Definition max_signals (sizes : list (Z * Z)) : Z := fold_left (fun m p => Z.max m p.2) sizes 0.

(** [m[sat][c] = v], undefined out of range. *)
Definition put_bias (m : list (list Z)) (sat c v : Z) : outcome (list (list Z)) :=
  let* row := vat m sat in
  let* row := vput row c v in
  Returns (vset m sat row).

Definition read_code_bias : body unit :=
  vi <- field_of read_has_message_body_uint8 HAS_MSG_VALIDITY_INDEX_LENGTH;;
  put_data (fun d => d <| validity_interval_index_code_bias_corrections := vi |>);;
  sizes <- bias_layout;;
  n <- gets Nsat;;
  put_data (fun d => d <| code_bias := zeros n (zeros (max_signals sizes) 0) |>);;
  read_biases sizes (fun sat c =>
    bits <- peek HAS_MSG_CODE_BIAS_LENGTH;;
    m <- get_data code_bias;;
    m <- lift (put_bias m sat c (read_has_message_body_int16 bits));;
    put_data (fun d => d <| code_bias := m |>);;
    cut HAS_MSG_CODE_BIAS_LENGTH).

Definition read_phase_bias : body unit :=
  vi <- field_of read_has_message_body_uint8 HAS_MSG_VALIDITY_INDEX_LENGTH;;
  put_data (fun d => d <| validity_interval_index_phase_bias_corrections := vi |>);;
  sizes <- bias_layout;;
  n <- gets Nsat;;
  put_data (fun d => d
    <| phase_bias := zeros n (zeros (max_signals sizes) 0) |>
    <| phase_discontinuity_indicator := zeros n (zeros (max_signals sizes) 0) |>);;
  read_biases sizes (fun sat p =>
    bits <- peek HAS_MSG_PHASE_BIAS_LENGTH;;
    m <- get_data phase_bias;;
    m <- lift (put_bias m sat p (read_has_message_body_int16 bits));;
    put_data (fun d => d <| phase_bias := m |>);;
    cut HAS_MSG_PHASE_BIAS_LENGTH;;
    bits <- peek HAS_MSG_PHASE_DISCONTINUITY_INDICATOR_LENGTH;;
    m <- get_data phase_discontinuity_indicator;;
    m <- lift (put_bias m sat p (read_has_message_body_uint8 bits));;
    put_data (fun d => d <| phase_discontinuity_indicator := m |>);;
    cut HAS_MSG_PHASE_DISCONTINUITY_INDICATOR_LENGTH).

(** A section that is read when its flag is set and the mask is known. *)
Definition section (flag : mt1_header -> bool) (read : body unit) : body unit :=
  present <- get_data (fun d => flag (header d));;
  known <- gets have_mask;;
  if present && known then read else ret tt.

Definition read_body : body unit :=
  with_mask <- get_data (fun d => mask_flag (header d));;
  (if with_mask : bool then read_mask else recall_mask);;
  check_toh;;
  section orbit_correction_flag read_orbits;;
  section clock_fullset_flag read_clock_fullset;;
  section clock_subset_flag read_clock_subset;;
  section code_bias_flag read_code_bias;;
  section phase_bias_flag read_phase_bias.

Definition read_MT1_body (message_body : cstring) : prog has_receiver unit := fun r =>
  let '(o, s) := read_body (mkbody_state message_body 0 false r) in (o, rx s).

(** ** Decoding a message *)

(** The pages missing: of the pages 1 to [message_size], and of 33 to 255. *)
Definition missing_positions (pids : list Z) (lo hi : Z) : list Z :=
  map (fun i => i - 1) (filter (fun i => i ∉ pids) (seqZ lo (hi - lo))).
Definition has_erasure_positions (pids : list Z) (message_size : Z) : list Z :=
  missing_positions pids 1 (message_size + 1) ++
  missing_positions pids (GALILEO_CNAV_INFORMATION_VECTOR_LENGTH + 1)
    (GALILEO_CNAV_MAX_NUMBER_SYMBOLS_ENCODED_BLOCK + 1).

(** The column [col] of the pages received, the others 0. *)
Definition C_column (C : list (list Z)) (pids : list Z) (col : Z) : list Z :=
  fold_left (fun column pid => vset column (pid - 1) (vget 0 (vget [] C (pid - 1)) col)) pids
    (zeros GALILEO_CNAV_MAX_NUMBER_SYMBOLS_ENCODED_BLOCK 0).

(** [for (i = 0; i < 32; i++) d_M_matrix[i][col] = column[i]]. *)
Definition store_column (M : list (list Z)) (col : Z) (column : list Z) : list (list Z) :=
  for_range 0 GALILEO_CNAV_INFORMATION_VECTOR_LENGTH
    (fun i M => vset2 M i col (vget 0 column i)) M.

(** The vertical decoding: whether every column was decoded, and the matrix. *)
Definition decode_columns (C : list (list Z)) (pids erasures : list Z) : bool * list (list Z) :=
  for_range 0 GALILEO_CNAV_OCTETS_IN_SUBPAGE
    (fun col '(ok, M) =>
       if ok : bool then
         let '(result, column) := decode E6B_rs (C_column C pids col) erasures in
         if result <? 0 then (false, M) else (true, store_column M col column)
       else (false, M))
    (true, zero_M).

(** The rows of the matrix as a string. *)
Definition octet_string (v : Z) : cstring := bitset_to_string (bitset_of_ulong 8 v).
Definition decoded_message (M : list (list Z)) (message_size : Z) : cstring :=
  concat (map (fun row => concat (map (fun col => octet_string (vget 0 (vget [] M row) col))
                               (seqZ 0 GALILEO_CNAV_OCTETS_IN_SUBPAGE)))
    (seqZ 0 message_size)).

Definition forget_pages (mid : Z) (r : has_receiver) : has_receiver :=
  r <| d_received_pids ::= fun v => vset v mid [] |> <| d_C_matrix ::= fun v => vset v mid zero_C |>.

(** A handler that returns -1 for an exception. *)
Definition catch_all {S} (c : prog S unit) : prog S Z := fun s =>
  match c s with
  | (Returns _, s) => (Returns 0, s)
  | (Throws undefined_behaviour, s) => (Throws undefined_behaviour, s)
  | (Throws _, s) => (Returns (-1), s)
  end.

(** The header and the body of the decoded message. *)
Definition read_decoded_message (decoded : cstring) : prog has_receiver Z :=
  modify (fun r => r <| d_HAS_data := new_Galileo_HAS_data <| has_data_tow := uint32_max |> |>);;
  read_MT1_header (take (Z.to_nat GALILEO_CNAV_MT1_HEADER_BITS) decoded);;
  if Z.of_nat (length decoded) <? GALILEO_CNAV_MT1_HEADER_BITS then throw undefined_behaviour else
  catch_all (read_MT1_body (drop (Z.to_nat GALILEO_CNAV_MT1_HEADER_BITS) decoded)).

Definition decode_message_type1 (message_id message_size : Z) : prog has_receiver Z :=
  pids <- gets (fun r => vget [] (d_received_pids r) message_id);;
  C <- gets (fun r => vget [] (d_C_matrix r) message_id);;
  let erasure_positions := has_erasure_positions pids message_size in
  if 223 <? Z.of_nat (length erasure_positions) then
    modify (forget_pages message_id);; ret (-1)
  else
    let '(ok, M) := decode_columns C pids erasure_positions in
    modify (fun r => r <| d_M_matrix := M |>);;
    if negb ok then ret (-1) else
    modify (forget_pages message_id);;
    read_decoded_message (decoded_message M message_size).

(** ** Collecting pages *)

(** The oldest time stamp of the pages of a message ID. *)
Definition oldest_time_stamp (pids timestamps : list Z) : Z :=
  for_range 0 (Z.of_nat (length pids))
    (fun j oldest =>
       let timestamp := vget 0 timestamps j in
       if (0 <? timestamp) && (timestamp <? oldest) then timestamp else oldest)
    uint64_max.

Definition outdated (current since : Z) : bool :=
  (since <? current) && (MAX_SECONDS_REMEMBERING_MID <? current - since).

Definition delete_outdated_data (current_time_stamp : Z) (r : has_receiver) : has_receiver :=
  let r := for_range 0 (Z.of_nat (length (d_received_pids r)))
    (fun i r =>
       let oldest := oldest_time_stamp (vget [] (d_received_pids r) i)
                       (vget [] (d_received_timestamps r) i) in
       if outdated current_time_stamp oldest then
         r <| d_received_pids ::= fun v => vset v i [] |>
           <| d_received_timestamps ::= fun v => vset v i [] |>
           <| d_C_matrix ::= fun v => vset v i zero_C |>
       else r) r in
  for_range 0 HAS_MSG_NUMBER_MESSAGE_IDS
    (fun mid r =>
       if vget false (d_printed_mids r) mid &&
          outdated current_time_stamp (vget 0 (d_printed_timestamps r) mid)
       then r <| d_printed_timestamps ::= fun v => vset v mid uint64_max |>
              <| d_printed_mids ::= fun v => vset v mid false |>
       else r) r.

(** The octet [k] of the page. *)
Definition page_octet (page_string : cstring) (k : Z) : outcome Z :=
  let* bits8 := substr page_string (k * 8) 8 in
  let* bs := bitset_of_string 8 bits8 in
  Returns (u8 (bitset_to_ulong bs)).

(** A page of a message type 1 whose PID is new: annotated, then copied. *)
Definition store_page (p : Galileo_HAS_page) : prog has_receiver unit :=
  let mid := message_id p in
  modify (fun r => r
    <| d_received_pids ::= fun v => vset v mid (vget [] v mid ++ [message_page_id p]) |>
    <| d_received_timestamps ::= fun v => vset v mid (vget [] v mid ++ [time_stamp p]) |>);;
  for_prog 0 GALILEO_CNAV_OCTETS_IN_SUBPAGE (fun k =>
    octet <- lift (page_octet (has_message_string p) k);;
    modify (fun r => r <| d_C_matrix ::= fun C =>
      vset C mid (vset2 (vget [] C mid) (message_page_id p - 1) k octet) |>)).

(** A message that was read is announced when its mask is known. *)
Definition announce (res : Z) : prog has_receiver unit :=
  nsat <- gets (fun r => vget 0 (d_nsat_in_mask_id r) (mask_id (header (d_HAS_data r))));;
  if (res =? 0) && negb (nsat =? 0)
  then modify (fun r => r <| d_new_message := true |>) else ret tt.

Definition process_HAS_page (p : Galileo_HAS_page) : prog has_receiver unit :=
  let mid := message_id p in
  (if ((has_status p =? 0) || (has_status p =? 1)) && negb (message_page_id p =? 0)
      && (message_type p =? 1) then
     modify (delete_outdated_data (time_stamp p));;
     pids <- gets (fun r => vget [] (d_received_pids r) mid);;
     if (mid <? HAS_MSG_NUMBER_MESSAGE_IDS) && bool_decide (message_page_id p ∉ pids)
     then store_page p else ret tt
   else ret tt);;
  modify (fun r => r <| d_new_message := false |>);;
  pids <- gets (fun r => vget [] (d_received_pids r) mid);;
  if Z.of_nat (length pids) =? message_size p then
    res <- decode_message_type1 mid (message_size p);;
    announce res
  else ret tt.

(** [std::remainder(x, y)], on integers: the quotient is rounded to the nearest
    integer, to the even one when it is halfway. *)
Definition ieee_remainder (x y : Z) : Z :=
  let q := x / y in
  let r := x mod y in
  if 2 * r <? y then r
  else if y <? 2 * r then r - y
  else if Z.even q then r else r - y.

(** [tow - static_cast<uint32_t>(std::remainder(tow, 3600)) + toh]. *)
Definition has_tow (tow t : Z) : outcome Z :=
  let* s := uint32_of_double (ieee_remainder tow 3600) in
  Returns (u32 (u32 (tow - s) + t)).

(** The data that a decoded message makes, and their delivery. *)
Definition deliver (p : Galileo_HAS_page) : prog has_receiver unit :=
  t <- gets (fun r => toh (header (d_HAS_data r)));;
  tow <- lift (has_tow (page_tow p) t);;
  modify (fun r => r <| d_HAS_data ::= fun d => d
    <| data_has_status := d_current_has_status r |>
    <| data_message_id := d_current_message_id r |>
    <| has_data_tow := tow |> |>);;
  modify (fun r => r
    <| d_printed_mids ::= fun v => vset v (d_current_message_id r) true |>
    <| d_printed_timestamps ::= fun v => vset v (d_current_message_id r) (time_stamp p) |>
    <| has_to_PVT ::= cons (d_HAS_data r) |>
    <| d_new_message := false |>).

Definition deliver_new (p : Galileo_HAS_page) : prog has_receiver unit :=
  ready <- gets d_new_message;;
  if ready : bool then deliver p else ret tt.

(** [msg_handler_galileo_e6_has], on a message of the right type. *)
Definition msg_handler_galileo_e6_has (p : Galileo_HAS_page) : prog has_receiver unit :=
  modify (fun r => r <| d_current_has_status := has_status p |>
                     <| d_current_message_id := message_id p |>);;
  printed <- gets (fun r => vget false (d_printed_mids r) (message_id p));;
  (if printed : bool then ret tt else process_HAS_page p);;
  deliver_new p.
