(* ===== verification/HasProofs.v ===== *)
(** * HasProofs: HAS messages from any sufficient set of pages

    A HAS message of [ms] pages is a matrix of 32 rows of 53 octets of which the
    rows from [ms] on are zero; each column is encoded by the E6B Reed-Solomon
    code, and the page with PID [p] carries the row [p - 1] of the result.  The
    receiver decodes the matrix from any [ms] different pages. *)

From S2P Require Import Prelude Cstring BinString InavMessage HasData CnavMessage HasReceiver ReedSolomonTables ReedSolomon GF256 RSAlgebra ReedSolomonProofs ReedSolomonEncode.
From stdpp Require Import list.
From Stdlib Require Import ZArith Lia Ascii.
Local Open Scope Z_scope.
Local Open Scope cxx_scope.

(** ** Messages and pages *)

Record message_matrix (ms : Z) (M : list (list Z)) : Prop := {
  mm_size : 1 <= ms <= 32;
  mm_rows : length M = 32%nat;
  mm_columns : Forall (fun row => length row = 53%nat /\ Forall is_octet row) M;
  mm_unused : forall i j, ms <= i -> vget 0 (vget [] M i) j = 0
}.

Definition column_of (M : list (list Z)) (col : Z) : list Z := map (fun row => vget 0 row col) M.
Definition sent_column (M : list (list Z)) (col : Z) : list Z :=
  encode_with_generator_poly E6B_rs (column_of M col).
Definition sent_page (M : list (list Z)) (pid : Z) : list Z :=
  map (fun col => vget 0 (sent_column M col) (pid - 1)) (seqZ 0 53).

(** The PIDs that a message of [ms] pages uses. *)
Definition pids_of (ms : Z) : list Z := seqZ 1 ms ++ seqZ 33 223.

(** The pages collected: different ones, and each as it was sent. *)
Record collected (M : list (list Z)) (ms : Z) (pids : list Z) (C : list (list Z)) : Prop := {
  co_nodup : NoDup pids;
  co_pids : Forall (fun p => p ∈ pids_of ms) pids;
  co_pages : Forall (fun p => vget [] C (p - 1) = sent_page M p) pids
}.

Lemma pids_of_range ms p : 1 <= ms <= 32 -> p ∈ pids_of ms -> 1 <= p <= ms \/ 33 <= p <= 255.
Proof. intros Hms. unfold pids_of. rewrite elem_of_app, !elem_of_seqZ. lia. Qed.

Lemma pids_of_nodup ms : 1 <= ms <= 32 -> NoDup (pids_of ms).
Proof.
  intros Hms. unfold pids_of. apply NoDup_app. split; [apply NoDup_seqZ|]. split; [|apply NoDup_seqZ].
  intros p. rewrite !elem_of_seqZ. lia.
Qed.

(** ** Erasures *)

Lemma erasures_filter pids ms :
  has_erasure_positions pids ms = map Z.pred (filter (fun p => p ∉ pids) (pids_of ms)).
Proof.
  unfold has_erasure_positions, missing_positions, pids_of. rewrite filter_app, map_app.
  replace (ms + 1 - 1) with ms by lia. reflexivity.
Qed.

Lemma filter_partition {A} (P : A -> Prop) `{!forall a, Decision (P a)} (l : list A) :
  (length (filter P l) + length (filter (fun a => ~ P a) l) = length l)%nat.
Proof.
  induction l as [|a l IH]; [reflexivity|]. rewrite !filter_cons. cbn [length].
  destruct (decide (P a)).
  - rewrite decide_False by tauto. cbn [length]. lia.
  - rewrite decide_True by assumption. cbn [length]. lia.
Qed.

(** ** Matrices of octets *)

Definition cell (M : list (list Z)) (i j : Z) : Z := vget 0 (vget [] M i) j.

Definition grid (rows cols : Z) (M : list (list Z)) : Prop :=
  Z.of_nat (length M) = rows /\ forall i, 0 <= i < rows -> Z.of_nat (length (vget [] M i)) = cols.

Lemma grid_ext rows cols A B :
  grid rows cols A -> grid rows cols B ->
  (forall i j, 0 <= i < rows -> 0 <= j < cols -> cell A i j = cell B i j) -> A = B.
Proof.
  intros [HA1 HA2] [HB1 HB2] H. apply (vget_ext []); [lia|]. intros i Hi.
  apply (vget_ext 0); [specialize (HA2 i); specialize (HB2 i); lia|]. intros j Hj.
  apply H; [lia|]. specialize (HA2 i). lia.
Qed.

Lemma zero_M_grid : grid 32 53 zero_M.
Proof.
  split; [reflexivity|]. intros i Hi.
  assert (vget [] zero_M i = zeros 53 0) as ->; [|reflexivity].
  apply vget_lookup; [lia|]. apply lookup_replicate_2. change (Z.to_nat _) with 32%nat at 2. lia.
Qed.

Lemma cell_vset2 M i j i' j' x :
  in_range M i -> in_range (vget [] M i) j ->
  cell (vset2 M i j x) i' j' = if decide (i' = i /\ j' = j) then x else cell M i' j'.
Proof.
  intros Hi Hj. unfold cell, vset2. destruct (decide (i' = i)) as [->|Hne].
  - rewrite vget_vset_eq by exact Hi. destruct (decide (j' = j)) as [->|Hne].
    + rewrite vget_vset_eq by exact Hj. rewrite decide_True by auto. reflexivity.
    + rewrite vget_vset_ne by auto. rewrite decide_False by tauto. reflexivity.
  - rewrite vget_vset_ne by auto. rewrite decide_False by tauto. reflexivity.
Qed.

Lemma grid_vset2 rows cols M i j x :
  grid rows cols M -> 0 <= i < rows -> grid rows cols (vset2 M i j x).
Proof.
  intros [H1 H2] Hi. unfold vset2. split; [rewrite length_vset; exact H1|].
  intros k Hk. destruct (decide (k = i)) as [->|Hne].
  - rewrite vget_vset_eq by (unfold in_range; lia). rewrite length_vset. apply H2, Hi.
  - rewrite vget_vset_ne by auto. apply H2, Hk.
Qed.

(** [store_column] writes one column. *)
Lemma store_column_spec D col column :
  grid 32 53 D -> 0 <= col < 53 ->
  grid 32 53 (store_column D col column) /\
  forall i j, 0 <= i < 32 -> cell (store_column D col column) i j =
    if decide (j = col) then vget 0 column i else cell D i j.
Proof.
  intros HD Hcol. unfold store_column.
  assert (forall r, grid 32 53 r -> forall i, 0 <= i < 32 ->
    in_range r i /\ in_range (vget [] r i) col) as Hin.
  { intros r [H1 H2] i Hi. specialize (H2 i Hi). unfold in_range. lia. }
  set (P k r := grid 32 53 r /\ forall i j, 0 <= i < 32 -> cell r i j =
      if (i <? k) && (j =? col) then vget 0 column i else cell D i j).
  assert (P 32 (for_range 0 32 (fun i M => vset2 M i col (vget 0 column i)) D)) as [HG HV].
  { apply (for_range_ind P); [lia| |]; subst P; cbv beta.
    - split; [exact HD|]. intros i j Hi. destruct (Z.ltb_spec i 0); [lia|reflexivity].
    - intros k r Hk [HG HV]. split; [apply grid_vset2; [exact HG|lia]|].
      intros i j Hi. destruct (Hin r HG k Hk) as [Hk1 Hk2].
      rewrite cell_vset2 by assumption. rewrite HV by exact Hi.
      destruct (decide (i = k /\ j = col)) as [[-> ->]|Hne].
      + rewrite (proj2 (Z.ltb_lt k (k + 1))), Z.eqb_refl by lia. reflexivity.
      + destruct (Z.ltb_spec i k), (Z.ltb_spec i (k + 1)), (Z.eqb_spec j col);
          try reflexivity; lia. }
  split; [exact HG|]. intros i j Hi. change GALILEO_CNAV_INFORMATION_VECTOR_LENGTH with 32.
  rewrite HV by exact Hi. rewrite (proj2 (Z.ltb_lt i 32)) by lia. cbn [andb].
  destruct (Z.eqb_spec j col); [rewrite decide_True|rewrite decide_False]; auto.
Qed.

Lemma block_place_E6B j : block_place E6B_rs j = j.
Proof. unfold block_place. change (d_shortening E6B_rs) with 0. destruct (_ <? _); lia. Qed.

Section Message.
Context (M : list (list Z)) (ms : Z).
Hypothesis HM : message_matrix ms M.

Section Collected.
Context (pids : list Z) (C : list (list Z)).
Hypothesis Hc : collected M ms pids C.

Lemma erasures_length :
  Z.of_nat (length pids) = ms -> length (has_erasure_positions pids ms) = 223%nat.
Proof.
  intros Hl. pose proof (mm_size _ _ HM) as Hms. rewrite erasures_filter, length_map.
  pose proof (filter_partition (fun p => p ∈ pids) (pids_of ms)) as Hpart.
  assert (filter (fun p => p ∈ pids) (pids_of ms) ≡ₚ pids) as Hperm.
  { apply NoDup_Permutation; [apply NoDup_filter, pids_of_nodup, Hms|apply Hc|].
    intros p. rewrite list_elem_of_filter. split; [tauto|]. intros Hp.
    split; [exact Hp|]. pose proof (co_pids _ _ _ _ Hc) as Hall. rewrite Forall_forall in Hall. auto. }
  rewrite (Permutation_length Hperm) in Hpart. unfold pids_of in Hpart at 2.
  rewrite length_app, !length_seqZ in Hpart. lia.
Qed.

Lemma erasures_nodup : NoDup (has_erasure_positions pids ms).
Proof.
  rewrite erasures_filter. apply NoDup_fmap_2; [intros a b; lia|].
  apply NoDup_filter, pids_of_nodup, HM.
Qed.

Lemma erasures_range : Forall (fun p => 0 <= p < 255) (has_erasure_positions pids ms).
Proof.
  rewrite erasures_filter. apply Forall_fmap, Forall_forall. intros p Hp.
  apply list_elem_of_filter in Hp as [_ Hp]. apply pids_of_range in Hp; [|apply HM].
  pose proof (mm_size _ _ HM). cbn. lia.
Qed.

(** A place that is not erased was received, or is a zero of the message. *)
Lemma not_erased j :
  0 <= j < 255 -> j ∉ has_erasure_positions pids ms -> j + 1 ∈ pids \/ ms <= j < 32.
Proof.
  intros Hj Hn. pose proof (mm_size _ _ HM) as Hms. rewrite erasures_filter in Hn.
  destruct (decide (j + 1 ∈ pids)) as [|Hp]; [auto|]. right.
  destruct (decide (j + 1 ∈ pids_of ms)) as [Hv|Hv].
  - exfalso. apply Hn, list_elem_of_fmap. exists (j + 1). split; [lia|].
    apply list_elem_of_filter. auto.
  - unfold pids_of in Hv. rewrite elem_of_app, !elem_of_seqZ in Hv. lia.
Qed.

(** ** Columns *)

Lemma message_grid : grid 32 53 M.
Proof.
  split; [rewrite (mm_rows _ _ HM); reflexivity|]. intros i Hi.
  pose proof (mm_columns _ _ HM) as H. rewrite Forall_forall in H.
  destruct (H (vget [] M i)) as [-> _]; [|reflexivity].
  apply elem_of_vget. unfold in_range. rewrite (mm_rows _ _ HM). lia.
Qed.

Lemma length_column_of col : length (column_of M col) = 32%nat.
Proof. unfold column_of. rewrite length_map. apply HM. Qed.

Lemma column_octets col : Forall is_octet (column_of M col).
Proof.
  apply Forall_fmap, Forall_forall. intros row Hrow.
  pose proof (mm_columns _ _ HM) as Hcol. rewrite Forall_forall in Hcol.
  apply (Forall_vget is_octet); [apply Hcol, Hrow|unfold is_octet; lia].
Qed.

Lemma sent_column_codeword col : codeword E6B_rs (sent_column M col).
Proof.
  apply (encode_codeword _ _ E6B_rs_ok E6B_rs_sizes E6B_generator);
    [rewrite length_column_of; reflexivity|apply column_octets].
Qed.

Lemma sent_column_systematic col i :
  0 <= i < 32 -> vget 0 (sent_column M col) i = vget 0 (vget [] M i) col.
Proof.
  intros Hi. pose proof (length_column_of col) as Hl. unfold sent_column.
  rewrite (encode_systematic E6B_rs) by (rewrite Hl; reflexivity).
  rewrite <- (vget_fmap [] 0 (fun row => vget 0 row col)) by (pose proof (mm_rows _ _ HM); unfold in_range; lia).
  fold (column_of M col).
  apply vget_lookup; [lia|]. rewrite lookup_app_l by lia.
  apply lookup_vget. unfold in_range. lia.
Qed.

(** The column that the decoder is given. *)
Lemma C_column_spec col :
  0 <= col < 53 ->
  length (C_column C pids col) = 255%nat /\
  forall j, 0 <= j < 255 -> vget 0 (C_column C pids col) j =
    if bool_decide (j + 1 ∈ pids) then vget 0 (sent_column M col) j else 0.
Proof.
  intros Hcol. unfold C_column.
  assert (forall l b, NoDup l -> length b = 255%nat -> (forall p, p ∈ l -> p ∈ pids) ->
    (forall j, 0 <= j < 255 -> vget 0 b j =
       if bool_decide (j + 1 ∈ pids /\ j + 1 ∉ l) then vget 0 (sent_column M col) j else 0) ->
    let r := fold_left (fun column pid => vset column (pid - 1) (vget 0 (vget [] C (pid - 1)) col)) l b in
    length r = 255%nat /\ forall j, 0 <= j < 255 -> vget 0 r j =
       if bool_decide (j + 1 ∈ pids) then vget 0 (sent_column M col) j else 0) as H.
  { induction l as [|p l IH]; intros b Hnd Hb Hin Hv.
    - split; [exact Hb|]. intros j Hj. cbn [fold_left]. rewrite Hv by exact Hj.
      rewrite (bool_decide_ext (j + 1 ∈ pids /\ j + 1 ∉ []) (j + 1 ∈ pids)); [reflexivity|].
      pose proof (not_elem_of_nil (j + 1)). tauto.
    - apply NoDup_cons in Hnd as [Hpl Hnd].
      cbn [fold_left]. apply IH; [exact Hnd|rewrite length_vset; exact Hb|intros q Hq; apply Hin; right; exact Hq|].
      assert (p ∈ pids) as Hp by (apply Hin; left).
      pose proof (co_pages _ _ _ _ Hc) as Hpages. rewrite Forall_forall in Hpages.
      pose proof (co_pids _ _ _ _ Hc) as Hpids. rewrite Forall_forall in Hpids.
      pose proof (pids_of_range ms p (mm_size _ _ HM) (Hpids p Hp)) as Hpr.
      pose proof (mm_size _ _ HM).
      intros j Hj. destruct (decide (j = p - 1)) as [->|Hne].
      + rewrite vget_vset_eq by (unfold in_range; lia). rewrite (Hpages p Hp).
        replace (p - 1 + 1) with p by lia. unfold sent_page.
        assert (vget 0 (map (fun c => vget 0 (sent_column M c) (p - 1)) (seqZ 0 53)) col =
                vget 0 (sent_column M col) (p - 1)) as ->.
        { rewrite (vget_fmap 0) by (unfold in_range; rewrite length_seqZ; lia).
          rewrite vget_seqZ by lia. reflexivity. }
        rewrite bool_decide_eq_true_2 by tauto. reflexivity.
      + rewrite vget_vset_ne, Hv by auto.
        rewrite (bool_decide_ext (j + 1 ∈ pids /\ j + 1 ∉ p :: l) (j + 1 ∈ pids /\ j + 1 ∉ l));
          [reflexivity|]. rewrite elem_of_cons. assert (j + 1 <> p) by lia. tauto. }
  apply (H pids); [apply Hc|reflexivity|auto|]. intros j Hj.
  rewrite bool_decide_eq_false_2 by tauto. apply (vget_replicate 0).
Qed.

(** *** The matrix decoded *)

(** Every column comes back as it was sent. *)
Lemma column_decoded col :
  Z.of_nat (length pids) = ms -> 0 <= col < 53 ->
  exists k, 0 <= k /\
    decode E6B_rs (C_column C pids col) (has_erasure_positions pids ms) = (k, sent_column M col).
Proof.
  intros Hl Hcol. pose proof (C_column_spec col Hcol) as [HCl HCv].
  pose proof (sent_column_codeword col) as Hcw. pose proof (mm_size _ _ HM) as Hms.
  apply (decode_restores E6B_rs E6B_rs_ok E6B_rs_sizes); [exact Hcw|rewrite HCl; reflexivity| | | | |].
  - apply (Forall_from_vget 0). intros j Hj. unfold in_range in Hj. rewrite HCl in Hj. rewrite HCv by lia.
    destruct (bool_decide _); [|unfold is_octet; lia].
    apply (Forall_vget is_octet); [apply Hcw|unfold is_octet; lia].
  - apply erasures_nodup.
  - apply erasures_range.
  - rewrite erasures_length by exact Hl. cbv. discriminate.
  - intros j Hj Hn. change (d_data_symbols_shortened E6B_rs) with 255 in Hj.
    rewrite block_place_E6B in Hn. rewrite HCv by exact Hj.
    destruct (not_erased j Hj Hn) as [Hp|Hz].
    + rewrite bool_decide_eq_true_2 by exact Hp. reflexivity.
    + rewrite sent_column_systematic, (mm_unused _ _ HM) by lia. destruct (bool_decide _); reflexivity.
Qed.

Lemma decode_columns_restores :
  Z.of_nat (length pids) = ms -> decode_columns C pids (has_erasure_positions pids ms) = (true, M).
Proof.
  intros Hl. unfold decode_columns.
  set (step := fun col '(ok, M) => _).
  assert (let r := for_range 0 GALILEO_CNAV_OCTETS_IN_SUBPAGE step (true, zero_M) in
    r.1 = true /\ grid 32 53 r.2 /\ forall i j, 0 <= i < 32 -> 0 <= j < 53 -> cell r.2 i j = cell M i j) as H.
  { apply (for_range_ind (fun k r => r.1 = true /\ grid 32 53 r.2 /\
      forall i j, 0 <= i < 32 -> 0 <= j < k -> cell r.2 i j = cell M i j)); [cbv; discriminate| |].
    - split; [reflexivity|]. split; [apply zero_M_grid|]. lia.
    - intros col [ok D] Hcol (E & HD & HV). cbn [fst snd] in *. subst ok.
      change (0 <= col < 53) in Hcol.
      destruct (column_decoded col Hl Hcol) as (k & Hk & Hdec). subst step. cbn beta iota.
      rewrite Hdec. rewrite (proj2 (Z.ltb_ge k 0)) by exact Hk. cbn [fst snd].
      destruct (store_column_spec D col (sent_column M col) HD Hcol) as [HG HE].
      split; [reflexivity|]. split; [exact HG|]. intros i j Hi Hj. rewrite HE by exact Hi.
      destruct (decide (j = col)) as [->|Hne]; [apply sent_column_systematic, Hi|apply HV; lia]. }
  destruct (for_range _ _ _ _) as [ok D]. cbn [fst snd] in H. destruct H as (-> & HD & HV).
  f_equal. apply (grid_ext 32 53); [exact HD|apply message_grid|exact HV].
Qed.
End Collected.
End Message.
