(* ===== verification/HasCollection.v ===== *)
(** * HasCollection: from the pages received to the message

    The pages of a HAS message arrive one after the other; when as many as the
    message has were received, in any order and whichever of the encoded pages
    they are, the message is decoded.  The state of the receiver that matters
    for a message ID is its slot: the page IDs, their time stamps and the pages. *)

From S2P Require Import Prelude Cstring BinString InavMessage HasData CnavMessage HasReceiver ReedSolomonTables ReedSolomon GF256 RSAlgebra ReedSolomonProofs ReedSolomonEncode HasProofs.
From stdpp Require Import list.
From Stdlib Require Import ZArith Lia Ascii.
Local Open Scope Z_scope.
Local Open Scope cxx_scope.

(** ** Pages as strings *)

Definition page_text (row : list Z) : cstring := concat (map octet_string row).

Lemma length_octet_string v : length (octet_string v) = 8%nat.
Proof.
  unfold octet_string, bitset_to_string, bitset_of_ulong. rewrite rev_involutive.
  rewrite length_bits_str. apply length_to_bin.
Qed.

(** The [k]-th of the parts of one size of a list. *)
Lemma concat_part {A B} (f : A -> list B) (n : nat) (l : list A) (k : nat) (x : A) :
  (forall a, length (f a) = n) -> l !! k = Some x ->
  take n (drop (n * k) (concat (map f l))) = f x.
Proof.
  intros Hf. revert k. induction l as [|a l IH]; intros [|k]; cbn [lookup list_lookup map concat]; try discriminate.
  - intros [= ->]. rewrite Nat.mul_0_r. change (drop 0 ?l) with l.
    apply take_app_length'. symmetry. apply Hf.
  - intros Hk. rewrite drop_app_ge by (rewrite Hf; lia). rewrite Hf.
    replace (n * S k - n)%nat with (n * k)%nat by lia. apply IH, Hk.
Qed.

Lemma length_page_text row : length (page_text row) = (8 * length row)%nat.
Proof.
  unfold page_text. rewrite (concat_length_const octet_string 8); [reflexivity|].
  apply Forall_true, length_octet_string.
Qed.

(** The octets of a page are read back. *)
Lemma page_octet_text row k :
  Forall is_octet row -> length row = 53%nat -> 0 <= k < 53 ->
  page_octet (page_text row) k = Returns (vget 0 row k).
Proof.
  intros Hrow H53 Hk. unfold page_octet. pose proof (length_page_text row) as Hl.
  rewrite substr_inside_Z by (rewrite ?Hl; lia). cbn [outcome_bind].
  replace (Z.to_nat (k * 8)) with (8 * Z.to_nat k)%nat by lia. change (Z.to_nat 8) with 8%nat.
  unfold page_text. rewrite (concat_part octet_string 8 row _ (vget 0 row k) length_octet_string)
    by (apply lookup_vget; unfold in_range; lia).
  unfold octet_string, bitset_to_string, bitset_of_ulong. rewrite rev_involutive.
  rewrite bitset_of_bits by apply length_to_bin. cbn [outcome_bind]. unfold bitset_to_ulong.
  rewrite rev_involutive, bin_value_to_bin. unfold wrap. change (2 ^ Z.of_nat 8) with 256.
  change (2 ^ 8) with 256. rewrite Z.mod_mod by lia. f_equal. apply Z.mod_small.
  apply (Forall_vget is_octet); [exact Hrow|unfold is_octet; lia].
Qed.

(** ** Programs *)

Lemma bind_ret_r_unit {S} (c : prog S unit) s : (c;; ret tt) s = c s.
Proof. unfold bind. destruct (c s) as [[[]|e] s']; reflexivity. Qed.

(** ** Slots *)

Definition slot : Type := list Z * list Z * list (list Z).
Definition slot_of (mid : Z) (r : has_receiver) : slot :=
  (vget [] (d_received_pids r) mid, vget [] (d_received_timestamps r) mid, vget [] (d_C_matrix r) mid).

Lemma slot_of_inv mid r pids ts C :
  slot_of mid r = (pids, ts, C) ->
  vget [] (d_received_pids r) mid = pids /\ vget [] (d_received_timestamps r) mid = ts /\
  vget [] (d_C_matrix r) mid = C.
Proof. intros H. apply pair_equal_spec in H as [H ?]. apply pair_equal_spec in H. tauto. Qed.

(** The part of the state that collecting pages leaves alone. *)
Definition masks (r : has_receiver) :=
  (d_nsat_in_mask_id r, d_gnss_id_in_mask r, d_satellite_mask r, d_signal_mask r,
   d_cell_mask_availability_flag r, d_cell_mask r, d_nsys_in_mask r, d_nav_message_mask r,
   has_to_PVT r).

Record has_shape (r : has_receiver) : Prop := {
  hs_pids : Z.of_nat (length (d_received_pids r)) = 32;
  hs_timestamps : Z.of_nat (length (d_received_timestamps r)) = 32;
  hs_C : Z.of_nat (length (d_C_matrix r)) = 32
}.

(** A page annotated and copied. *)
Definition annotate (p : Galileo_HAS_page) (r : has_receiver) : has_receiver := r
  <| d_received_pids ::= fun v => vset v (message_id p) (vget [] v (message_id p) ++ [message_page_id p]) |>
  <| d_received_timestamps ::= fun v => vset v (message_id p) (vget [] v (message_id p) ++ [time_stamp p]) |>.
Definition record_page (p : Galileo_HAS_page) (row : list Z) (r : has_receiver) : has_receiver :=
  (annotate p r) <| d_C_matrix ::= fun C =>
    vset C (message_id p) (vset (vget [] C (message_id p)) (message_page_id p - 1) row) |>.

Lemma vset_same {A} (d : A) l i : vset l i (vget d l i) = l.
Proof.
  unfold vset. destruct (Z.ltb_spec i 0) as [|Hi]; [reflexivity|].
  destruct (l !! Z.to_nat i) as [x|] eqn:E.
  - rewrite (vget_lookup d l i x Hi E). apply list_insert_id, E.
  - apply list_insert_ge. apply lookup_ge_None_1, E.
Qed.

Lemma vset_vset {A} (l : list A) i x y : vset (vset l i x) i y = vset l i y.
Proof. unfold vset. destruct (i <? 0); [reflexivity|]. apply list_insert_insert_eq. Qed.

Lemma vget_vset_same {A} (d : A) l i x : vget d l i = x -> vget d (vset l i x) i = x.
Proof. intros <-. rewrite vset_same. reflexivity. Qed.

(** Overwriting the place [k] of a list overwritten up to [k]. *)
Lemma overwrite_step (row old : list Z) k :
  length row = length old -> in_range row k ->
  vset (take (Z.to_nat k) row ++ drop (Z.to_nat k) old) k (vget 0 row k) =
  take (Z.to_nat (k + 1)) row ++ drop (Z.to_nat (k + 1)) old.
Proof.
  intros Hl Hk. pose proof Hk as [H0 H1]. unfold vset. destruct (Z.ltb_spec k 0); [lia|].
  replace (Z.to_nat (k + 1)) with (S (Z.to_nat k)) by lia.
  rewrite insert_app_r_alt by (rewrite length_take; lia).
  rewrite length_take, Nat.min_l, Nat.sub_diag by lia.
  rewrite (take_S_r _ _ (vget 0 row k)) by (apply lookup_vget, Hk). rewrite <- app_assoc. f_equal.
  destruct (lookup_lt_is_Some_2 old (Z.to_nat k)) as [o Ho]; [lia|].
  rewrite (drop_S _ _ _ Ho). reflexivity.
Qed.

(** A page is stored whole. *)
Lemma store_page_spec p row r :
  has_message_string p = page_text row -> Forall is_octet row -> length row = 53%nat ->
  Z.of_nat (length (d_C_matrix r)) = 32 -> 0 <= message_id p < 32 ->
  in_range (vget [] (d_C_matrix r) (message_id p)) (message_page_id p - 1) ->
  length (vget [] (vget [] (d_C_matrix r) (message_id p)) (message_page_id p - 1)) = 53%nat ->
  store_page p r = (Returns tt, record_page p row r).
Proof.
  intros Hs Ho Hrl HC Hmid Hpid Hold. set (mid := message_id p) in *. set (k0 := message_page_id p - 1) in *.
  set (old := vget [] (vget [] (d_C_matrix r) mid) k0) in *.
  set (st := fun k => (annotate p r) <| d_C_matrix ::= fun C => vset C mid (vset (vget [] C mid) k0
      (take (Z.to_nat k) row ++ drop (Z.to_nat k) old)) |>).
  assert (store_page p r = for_prog 0 GALILEO_CNAV_OCTETS_IN_SUBPAGE (fun k =>
    octet <- lift (page_octet (has_message_string p) k);;
    modify (fun r => r <| d_C_matrix ::= fun C =>
      vset C mid (vset2 (vget [] C mid) k0 k octet) |>)) (st 0)) as ->.
  { unfold store_page. fold mid. unfold bind at 1, modify at 1. f_equal. subst st. cbv beta.
    change (take (Z.to_nat 0) row) with (@nil Z). change (drop (Z.to_nat 0) old) with old.
    destruct r. unfold annotate, update. fold mid. cbn. f_equal. subst old. cbn. rewrite !vset_same. reflexivity. }
  assert (record_page p row r = st GALILEO_CNAV_OCTETS_IN_SUBPAGE) as ->.
  { unfold record_page. subst st. cbv beta. fold mid k0.
    rewrite take_ge, drop_ge, app_nil_r by (rewrite ?Hrl, ?Hold; cbv; lia). reflexivity. }
  apply (for_prog_returns st); [cbv; discriminate|]. intros k Hk. change (0 <= k < 53) in Hk.
  rewrite Hs. unfold bind, lift. rewrite page_octet_text by auto.
  unfold modify. f_equal. subst st. cbv beta. unfold in_range in Hpid.
  unfold annotate, update. fold mid. cbn. destruct r. cbn in *. f_equal. unfold vset2.
  rewrite vget_vset_eq by (unfold in_range; lia). rewrite vget_vset_eq by (unfold in_range; lia).
  rewrite !vset_vset. rewrite overwrite_step by (rewrite ?Hrl; auto; unfold in_range; lia). reflexivity.
Qed.

(** ** Deleting what is outdated *)

(** The time stamp that [delete_outdated_data] finds for a slot. *)
Lemma oldest_after pids ts t0 :
  t0 <= uint64_max -> Forall (fun t => t0 <= t) ts -> length pids = length ts ->
  t0 <= oldest_time_stamp pids ts.
Proof.
  intros H0 Hts Hl. unfold oldest_time_stamp.
  apply (for_range_inv (fun o => t0 <= o)); [exact H0|].
  intros j o Hj Ho. destruct ((0 <? vget 0 ts j) && (vget 0 ts j <? o)); [|exact Ho].
  rewrite Forall_forall in Hts. apply Hts, elem_of_vget. unfold in_range. lia.
Qed.

Lemma not_outdated t0 current since :
  t0 <= since -> current <= t0 + MAX_SECONDS_REMEMBERING_MID -> outdated current since = false.
Proof.
  intros H1 H2. unfold outdated. destruct (Z.ltb_spec MAX_SECONDS_REMEMBERING_MID (current - since)); [lia|].
  apply andb_false_r.
Qed.

(** What a page of the message [mid] keeps of the rest of the receiver. *)
Record same_rest (mid : Z) (r r' : has_receiver) : Prop := {
  sr_shape : has_shape r -> has_shape r';
  sr_masks : masks r' = masks r;
  sr_printed : vget false (d_printed_mids r) mid = false -> vget false (d_printed_mids r') mid = false
}.

#[export] Instance same_rest_preorder mid : PreOrder (same_rest mid).
Proof.
  split; [intros r; split; auto|].
  intros a b c [H1 H2 H3] [H1' H2' H3']. split; [auto|congruence|auto].
Qed.

Lemma same_rest_fields mid r r' :
  length (d_received_pids r') = length (d_received_pids r) ->
  length (d_received_timestamps r') = length (d_received_timestamps r) ->
  length (d_C_matrix r') = length (d_C_matrix r) -> masks r' = masks r ->
  d_printed_mids r' = d_printed_mids r -> same_rest mid r r'.
Proof.
  intros E1 E2 E3 Em Ep. split; [intros [H1 H2 H3]; split; congruence|exact Em|rewrite Ep; auto].
Qed.

(** A slot that is not outdated is kept. *)
Lemma delete_outdated_keeps mid t r :
  outdated t (oldest_time_stamp (vget [] (d_received_pids r) mid)
                (vget [] (d_received_timestamps r) mid)) = false ->
  slot_of mid (delete_outdated_data t r) = slot_of mid r /\
  same_rest mid r (delete_outdated_data t r).
Proof.
  intros Hnot. unfold delete_outdated_data.
  set (kept r' := slot_of mid r' = slot_of mid r /\ same_rest mid r r').
  apply (for_range_inv kept).
  - apply (for_range_inv kept); [split; reflexivity|].
    intros i r' _ [Hs Hr]. destruct (decide (i = mid)) as [->|Hne].
    + apply slot_of_inv in Hs as (Ep & Et & EC). rewrite Ep, Et, Hnot. split; [|exact Hr]. unfold slot_of. congruence.
    + clear Hnot. destruct (outdated _ _); [|exact (conj Hs Hr)]. split.
      * rewrite <- Hs. unfold slot_of, update. cbn. rewrite !vget_vset_ne by auto. reflexivity.
      * transitivity r'; [exact Hr|]. apply same_rest_fields; try reflexivity; unfold update; cbn; apply length_vset.
  - intros i r' _ [Hs Hr]. destruct (_ && _); [|exact (conj Hs Hr)]. split; [exact Hs|].
    transitivity r'; [exact Hr|]. split; [intros [H1 H2 H3]; split; [exact H1|exact H2|exact H3]|reflexivity|].
    intros Hp. unfold update. cbn. destruct (decide (i = mid)) as [->|Hne]; [|rewrite vget_vset_ne; auto].
    apply vget_vset_same, Hp.
Qed.

(** ** Collecting *)

Section Collect.
Context (M : list (list Z)) (ms mid t0 : Z).
Hypothesis HM : message_matrix ms M.
Hypothesis Hmid : 0 <= mid < 32.
Hypothesis Ht0 : t0 <= uint64_max.

(** A page of the message, received in time. *)
Record page_of (p : Galileo_HAS_page) : Prop := {
  po_id : message_id p = mid;
  po_type : message_type p = 1;
  po_status : has_status p = 0 \/ has_status p = 1;
  po_size : message_size p = ms;
  po_pid : message_page_id p ∈ pids_of ms;
  po_text : has_message_string p = page_text (sent_page M (message_page_id p));
  po_time : t0 <= time_stamp p <= t0 + MAX_SECONDS_REMEMBERING_MID
}.

(** The receiver after the pages [got]. *)
Record collecting (got : list Galileo_HAS_page) (r : has_receiver) : Prop := {
  cl_slot : slot_of mid r = (map message_page_id got, map time_stamp got, vget [] (d_C_matrix r) mid);
  cl_grid : grid 255 53 (vget [] (d_C_matrix r) mid);
  cl_pages : Forall (fun p => vget [] (vget [] (d_C_matrix r) mid) (message_page_id p - 1) =
                              sent_page M (message_page_id p)) got;
  cl_shape : has_shape r;
  cl_printed : vget false (d_printed_mids r) mid = false
}.

Lemma sent_page_row pid : Forall is_octet (sent_page M pid) /\ length (sent_page M pid) = 53%nat.
Proof.
  split; [|unfold sent_page; rewrite length_map, length_seqZ; reflexivity].
  apply Forall_fmap, Forall_forall. intros col _. cbn.
  apply (Forall_vget is_octet); [apply (sent_column_codeword M ms HM)|unfold is_octet; lia].
Qed.

Lemma page_of_pid p : page_of p -> 0 <= message_page_id p - 1 < 255.
Proof.
  intros Hp. pose proof (mm_size _ _ HM).
  pose proof (pids_of_range ms _ (mm_size _ _ HM) (po_pid _ Hp)). lia.
Qed.

(** A page stored joins those got. *)
Lemma record_page_collects got p r :
  collecting got r -> Forall page_of got -> page_of p ->
  message_page_id p ∉ map message_page_id got ->
  store_page p r = (Returns tt, record_page p (sent_page M (message_page_id p)) r) /\
  collecting (got ++ [p]) (record_page p (sent_page M (message_page_id p)) r) /\
  masks (record_page p (sent_page M (message_page_id p)) r) = masks r.
Proof.
  intros Hc Hgot Hp Hnew. destruct (sent_page_row (message_page_id p)) as [Ho Hl].
  pose proof (page_of_pid p Hp) as Hpid. destruct (cl_grid _ _ Hc) as [HG1 HG2].
  destruct (cl_shape _ _ Hc) as [Hs1 Hs2 Hs3].
  split; [|split; [|reflexivity]].
  - apply store_page_spec; rewrite ?(po_id _ Hp); [apply Hp|exact Ho|exact Hl|exact Hs3|exact Hmid| |].
    + unfold in_range. lia.
    + specialize (HG2 _ Hpid). lia.
  - pose proof (cl_slot _ _ Hc) as E. apply slot_of_inv in E as (Ep & Et & _).
    unfold record_page, annotate. rewrite (po_id _ Hp).
    assert (in_range (d_C_matrix r) mid) as Hr by (unfold in_range; lia).
    assert (in_range (vget [] (d_C_matrix r) mid) (message_page_id p - 1)) as Hr2 by (unfold in_range; lia).
    split; unfold slot_of, update; cbn;
      rewrite ?(vget_vset_eq _ (d_C_matrix r)), ?vget_vset_eq by (try exact Hr; unfold in_range; lia).
    + rewrite Ep, Et, !map_app. reflexivity.
    + split; [rewrite length_vset; exact HG1|]. intros i Hi.
      destruct (decide (i = message_page_id p - 1)) as [->|Hne].
      * rewrite vget_vset_eq by exact Hr2. rewrite Hl. reflexivity.
      * rewrite vget_vset_ne by auto. apply HG2, Hi.
    + apply Forall_app. split; [|constructor; [apply vget_vset_eq, Hr2|constructor]].
      apply Forall_forall. intros q Hq. pose proof (cl_pages _ _ Hc) as Hpages.
      rewrite Forall_forall in Hpages. rewrite vget_vset_ne; [apply Hpages, Hq|].
      intros Eq. apply Hnew, list_elem_of_fmap. exists q. split; [lia|exact Hq].
    + split; cbn; rewrite length_vset; assumption.
    + apply (cl_printed _ _ Hc).
Qed.

(** What deletes old data leaves the message collected as it is. *)
Lemma delete_outdated_collecting got p r :
  collecting got r -> Forall page_of got -> page_of p ->
  collecting got (delete_outdated_data (time_stamp p) r) /\
  masks (delete_outdated_data (time_stamp p) r) = masks r.
Proof.
  intros Hc Hgot Hp. pose proof (cl_slot _ _ Hc) as E. apply slot_of_inv in E as (Ep & Et & _).
  destruct (delete_outdated_keeps mid (time_stamp p) r) as [Hs Hr].
  { apply (not_outdated t0); [|apply Hp]. rewrite Ep, Et. apply oldest_after; [exact Ht0| |].
    - apply Forall_fmap, Forall_forall. intros q Hq. rewrite Forall_forall in Hgot.
      apply (po_time _ (Hgot q Hq)).
    - rewrite !length_map. reflexivity. }
  split; [|apply Hr]. apply slot_of_inv in Hs as (Ep' & Et' & EC').
  split; [unfold slot_of; rewrite Ep', Et', Ep, Et; reflexivity| | | |].
  - rewrite EC'. apply Hc.
  - rewrite EC'. apply Hc.
  - apply Hr, Hc.
  - apply Hr, Hc.
Qed.

(** Changes of the fields that collecting does not look at. *)
Lemma collecting_same got r r' :
  collecting got r -> d_received_pids r' = d_received_pids r ->
  d_received_timestamps r' = d_received_timestamps r -> d_C_matrix r' = d_C_matrix r ->
  d_printed_mids r' = d_printed_mids r -> collecting got r'.
Proof.
  intros [Hs HG HP [H1 H2 H3] Hpr] E1 E2 E3 E4. unfold slot_of in Hs.
  split; [unfold slot_of; congruence|rewrite E3; exact HG|rewrite E3; exact HP| |congruence].
  split; congruence.
Qed.

Lemma collecting_note got r status id :
  collecting got r ->
  collecting got (r <| d_current_has_status := status |> <| d_current_message_id := id |>).
Proof. intros H. apply (collecting_same got r); [exact H|reflexivity..]. Qed.

Lemma collecting_old got r b : collecting got r -> collecting got (r <| d_new_message := b |>).
Proof. intros H. apply (collecting_same got r); [exact H|reflexivity..]. Qed.

Lemma masks_old r b : masks (r <| d_new_message := b |>) = masks r.
Proof. reflexivity. Qed.

(** One page more. *)
Lemma handler_collects got p r :
  collecting got r -> Forall page_of got -> page_of p ->
  message_page_id p ∉ map message_page_id got ->
  exists r1, collecting (got ++ [p]) r1 /\ masks r1 = masks r /\ d_new_message r1 = false /\
    msg_handler_galileo_e6_has p r =
      ((if Z.of_nat (length (got ++ [p])) =? ms
        then res <- decode_message_type1 mid ms;; announce res else ret tt);; deliver_new p) r1.
Proof.
  intros Hc Hgot Hp Hnew.
  set (ra := r <| d_current_has_status := has_status p |> <| d_current_message_id := message_id p |>).
  assert (collecting got ra) as Hca by (apply collecting_note, Hc).
  destruct (delete_outdated_collecting got p ra Hca Hgot Hp) as [Hcb Hmb].
  set (rb := delete_outdated_data (time_stamp p) ra) in *.
  destruct (record_page_collects got p rb Hcb Hgot Hp Hnew) as (Est & Hcc & Hmc).
  set (rc := record_page p _ rb) in *. set (rd := rc <| d_new_message := false |>).
  assert (collecting (got ++ [p]) rd) as Hcd by (apply collecting_old, Hcc).
  exists rd. split; [exact Hcd|]. split; [subst rd; rewrite masks_old, Hmc, Hmb; reflexivity|]. split; [reflexivity|].
  assert (process_HAS_page p ra = (if Z.of_nat (length (got ++ [p])) =? ms
      then res <- decode_message_type1 mid ms;; announce res else ret tt) rd) as E.
  { unfold process_HAS_page.
    assert ((((has_status p =? 0) || (has_status p =? 1)) && negb (message_page_id p =? 0)
      && (message_type p =? 1)) = true) as ->.
    { pose proof (page_of_pid p Hp). rewrite (po_type _ Hp).
      destruct (po_status _ Hp) as [-> | ->], (Z.eqb_spec (message_page_id p) 0); auto; lia. }
    rewrite (bind_returns _ _ ra tt rc).
    - rewrite (bind_returns _ _ rc tt rd) by reflexivity. unfold bind at 1, gets at 1.
      pose proof (cl_slot _ _ Hcd) as Es. apply slot_of_inv in Es as (Ep & _).
      rewrite (po_id _ Hp), Ep, length_map, (po_size _ Hp). reflexivity.
    - rewrite (bind_returns _ _ ra tt rb) by reflexivity. unfold bind at 1, gets at 1.
      pose proof (cl_slot _ _ Hcb) as Es. apply slot_of_inv in Es as (Ep & _).
      rewrite (po_id _ Hp), Ep. rewrite bool_decide_eq_true_2 by exact Hnew.
      rewrite (proj2 (Z.ltb_lt mid HAS_MSG_NUMBER_MESSAGE_IDS)) by (cbv [HAS_MSG_NUMBER_MESSAGE_IDS]; lia).
      exact Est. }
  unfold msg_handler_galileo_e6_has. rewrite (bind_returns _ _ r tt ra) by reflexivity.
  unfold bind at 1, gets at 1. rewrite (po_id _ Hp).
  change (d_printed_mids ra) with (d_printed_mids r). rewrite (cl_printed _ _ Hc).
  unfold bind at 1. rewrite E. reflexivity.
Qed.

Lemma deliver_new_idle p r : d_new_message r = false -> deliver_new p r = (Returns tt, r).
Proof. intros H. unfold deliver_new, bind, gets. rewrite H. reflexivity. Qed.

Lemma iter_prog_app {S A} (a b : list A) (f : A -> prog S unit) :
  iter_prog (a ++ b) f =p (iter_prog a f;; iter_prog b f).
Proof.
  induction a as [|x a IH]; intros s; [reflexivity|]. cbn [app iter_prog].
  rewrite (bind_assoc _ _ _ s). unfold bind at 1 2. destruct (f x s) as [[?|e] s']; [apply IH|reflexivity].
Qed.

(** Too few pages are only kept. *)
Lemma collect_pages pages r :
  collecting [] r -> Forall page_of pages -> NoDup (map message_page_id pages) ->
  Z.of_nat (length pages) < ms ->
  exists r1, collecting pages r1 /\ masks r1 = masks r /\
    iter_prog pages msg_handler_galileo_e6_has r = (Returns tt, r1).
Proof.
  intros Hc. induction pages as [|p pages IH] using rev_ind; intros Hall Hnd Hlen.
  - exists r. auto.
  - apply Forall_app in Hall as [Hall Hp]. apply Forall_inv in Hp.
    rewrite map_app in Hnd. apply NoDup_app in Hnd as (Hnd & Hnew & _).
    rewrite length_app in Hlen. cbn [length] in Hlen.
    destruct IH as (r1 & Hc1 & Hm1 & E1); [exact Hall|exact Hnd|lia|].
    destruct (handler_collects pages p r1 Hc1 Hall Hp) as (r2 & Hc2 & Hm2 & Hn2 & E2).
    { intros H. apply (Hnew _ H). left. }
    exists r2. split; [exact Hc2|]. split; [congruence|].
    rewrite (iter_prog_app _ _ _ r), (bind_returns _ _ r tt r1 E1). cbn [iter_prog].
    rewrite (bind_ret_r_unit _ r1), E2. rewrite length_app. cbn [length].
    rewrite (proj2 (Z.eqb_neq _ _)) by lia. unfold bind at 1, ret at 1. apply deliver_new_idle, Hn2.
Qed.

(** Enough pages are decoded. *)
Lemma decode_collected pages r :
  collecting pages r -> Forall page_of pages -> NoDup (map message_page_id pages) ->
  Z.of_nat (length pages) = ms ->
  decode_message_type1 mid ms r =
  read_decoded_message (decoded_message M ms) (forget_pages mid (r <| d_M_matrix := M |>)).
Proof.
  intros Hc Hall Hnd Hlen. pose proof (cl_slot _ _ Hc) as Es. apply slot_of_inv in Es as (Ep & _).
  assert (collected M ms (map message_page_id pages) (vget [] (d_C_matrix r) mid)) as Hcol.
  { split; [exact Hnd| |].
    - apply Forall_fmap. apply (Forall_impl _ _ _ Hall). intros p Hp. apply Hp.
    - apply Forall_fmap, Hc. }
  assert (Z.of_nat (length (map message_page_id pages)) = ms) as Hl by (rewrite length_map; exact Hlen).
  unfold decode_message_type1. unfold bind at 1, gets at 1. rewrite Ep.
  unfold bind at 1, gets at 1.
  rewrite (erasures_length M ms HM _ _ Hcol Hl). cbv beta. cbn [Z.of_nat].
  change (223 <? Z.of_nat 223) with false. cbv iota.
  rewrite (decode_columns_restores M ms HM _ _ Hcol Hl).
  rewrite (bind_returns _ _ r tt (r <| d_M_matrix := M |>)) by reflexivity. cbn [negb].
  unfold bind at 1, modify at 1. reflexivity.
Qed.
End Collect.

(** What the receiver does with a decoded message that page [p] completed. *)
Definition answer (M : list (list Z)) (ms : Z) (p : Galileo_HAS_page) : prog has_receiver unit :=
  (res <- read_decoded_message (decoded_message M ms);; announce res);;
  deliver_new p.

(** No page of the message ID is kept, and no message of it was announced. *)
Record idle (mid : Z) (r : has_receiver) : Prop := {
  idle_pids : vget [] (d_received_pids r) mid = [];
  idle_timestamps : vget [] (d_received_timestamps r) mid = [];
  idle_grid : grid 255 53 (vget [] (d_C_matrix r) mid);
  idle_shape : has_shape r;
  idle_printed : vget false (d_printed_mids r) mid = false
}.


(** A message of two pages, of which two parity pages are received, the later
    one first. *)
Definition sample_matrix : list (list Z) := [seqZ 1 53; seqZ 101 53] ++ replicate 30 (zeros 53 0).

Definition sample_page (pid t : Z) : Galileo_HAS_page :=
  mkGalileo_HAS_page (page_text (sent_page sample_matrix pid)) t 0 1 0 1 5 2 pid.

Lemma sample_matrix_ok : message_matrix 2 sample_matrix.
Proof.
  split; [lia|reflexivity| |].
  - apply Forall_app. split.
    + constructor; [|constructor; [|constructor]]; (split; [reflexivity|]); apply Forall_forall;
        intros v Hv; apply elem_of_seqZ in Hv; unfold is_octet; lia.
    + apply Forall_replicate. split; [reflexivity|]. apply Forall_replicate. unfold is_octet. lia.
  - intros i j Hi. destruct (decide (i < 32)) as [Hlt|Hge].
    + assert (vget [] sample_matrix i = zeros 53 0) as ->; [|apply (vget_replicate 0)].
      apply vget_lookup; [lia|]. unfold sample_matrix. rewrite lookup_app_r by (cbn; lia).
      apply lookup_replicate_2. cbn [length]. lia.
    + assert (vget [] sample_matrix i = []) as ->; [|unfold vget; destruct (j <? 0), (Z.to_nat j); reflexivity].
      unfold vget. destruct (Z.ltb_spec i 0); [lia|]. apply nth_overflow. cbn. lia.
Qed.

Lemma sample_page_ok pid t :
  pid ∈ pids_of 2 -> 100 <= t <= 250 -> page_of sample_matrix 2 5 100 (sample_page pid t).
Proof. intros Hp Ht. split; [reflexivity|reflexivity|right; reflexivity|reflexivity|exact Hp|reflexivity|exact Ht]. Qed.

Lemma vget_zeros {A} (d x : A) n i : 0 <= i < n -> vget d (zeros n x) i = x.
Proof. intros Hi. apply vget_lookup; [lia|]. apply lookup_replicate_2. lia. Qed.

Lemma zero_C_grid : grid 255 53 zero_C.
Proof.
  split; [reflexivity|]. intros i Hi. unfold zero_C. rewrite vget_zeros by exact Hi. reflexivity.
Qed.

Lemma new_receiver_idle mid : 0 <= mid < 32 -> idle mid new_has_receiver.
Proof.
  intros Hmid. unfold new_has_receiver.
  split; cbn [d_received_pids d_received_timestamps d_C_matrix d_printed_mids]; try (apply vget_zeros, Hmid).
  - rewrite vget_zeros by exact Hmid. apply zero_C_grid.
  - split; reflexivity.
Qed.

