(* ===== verification/HasFields.v ===== *)
(** * HasFields: the values that the HAS receiver reads

    Two's complement fields, the time of week of a message, and three places
    where the code does not do what it means to. *)

From S2P Require Import Prelude Cstring BinString InavMessage HasData CnavMessage HasReceiver ReedSolomon ReedSolomonProofs HasProofs HasCollection.
From stdpp Require Import list strings.
From Stdlib Require Import ZArith Lia Ascii.
Local Open Scope Z_scope.
Local Open Scope cxx_scope.

(** ** Unsigned and signed fields *)

Lemma read_body_unsigned_bits w bs a :
  0 <= a -> (a + 1) * 2 ^ Z.of_nat (length bs) <= 2 ^ w ->
  fold_left (fun value c =>
    let value := wrap w (Z.shiftl value 1) in
    if Ascii.eqb c "1" then wrap w (value + 1) else value) (bits_str bs) a =
  a * 2 ^ Z.of_nat (length bs) + bin_value bs.
Proof.
  revert a. induction bs as [|b bs IH]; intros a Ha Hw.
  - cbn. lia.
  - cbn [bits_str map fold_left length]. fold (bits_str bs).
    cbn [length] in Hw. rewrite Nat2Z.inj_succ, Z.pow_succ_r in Hw |- * by lia.
    set (p := 2 ^ Z.of_nat (length bs)) in *.
    assert (0 < p) by (apply Z.pow_pos_nonneg; lia).
    rewrite Z.shiftl_mul_pow2 by lia. change (2 ^ 1) with 2.
    assert (2 * a + 2 <= 2 ^ w) by nia.
    rewrite bin_value_cons. fold p.
    destruct b; cbn [bit_char Ascii.eqb Bool.eqb]; cbv zeta.
    + change (if Ascii.eqb "1" "1" then ?x else ?y) with x.
      rewrite !wrap_small by (rewrite ?wrap_small; lia). rewrite IH by nia. cbn [Z.b2z]. ring.
    + change (if Ascii.eqb "0" "1" then ?x else ?y) with y.
      rewrite !wrap_small by lia. rewrite IH by nia. cbn [Z.b2z]. ring.
Qed.

(** An unsigned field of at most [w] bits. *)
Lemma read_body_unsigned_value w bs :
  Z.of_nat (length bs) <= w -> read_body_unsigned w (bits_str bs) = bin_value bs.
Proof.
  intros H. unfold read_body_unsigned. rewrite read_body_unsigned_bits; [lia|lia|].
  rewrite Z.mul_1_l. apply Z.pow_le_mono_r; lia.
Qed.

Lemma even_mask_16 v : Z.land (2 * v) 65534 = Z.land (2 * v) 65535.
Proof.
  apply Z.bits_inj'. intros n Hn. rewrite !Z.land_spec.
  destruct (decide (n = 0)) as [->|Hne].
  - replace (Z.testbit (2 * v) 0) with false; [reflexivity|]. rewrite Z.bit0_odd, Z.odd_mul. reflexivity.
  - f_equal. change 65535 with (Z.lor 65534 1). rewrite Z.lor_spec.
    replace (Z.testbit 1 n) with false; [rewrite orb_false_r; reflexivity|].
    symmetry. apply (Z.bits_above_log2 1); cbn; lia.
Qed.

Lemma int16_shift v : - 2 ^ 14 <= v < 2 ^ 14 -> i16 (Z.land (i16 (v * 2)) 65534) = 2 * v.
Proof.
  intros Hv. unfold i16. rewrite (swrap_small 16 (v * 2)) by lia. rewrite Z.mul_comm, even_mask_16.
  change 65535 with (Z.ones 16). rewrite Z.land_ones by lia.
  unfold swrap. change (2 ^ 16) with 65536. change (2 ^ (16 - 1)) with 32768.
  rewrite Zplus_mod_idemp_l. rewrite Z.mod_small by lia. lia.
Qed.

Lemma read_int16_bits bs a :
  - 2 ^ 15 <= a * 2 ^ Z.of_nat (length bs) -> (a + 1) * 2 ^ Z.of_nat (length bs) <= 2 ^ 15 ->
  fold_left (fun value c =>
    let value := i16 (value * 2) in
    let value := i16 (Z.land value 65534) in
    if Ascii.eqb c "1" then i16 (value + 1) else value) (bits_str bs) a =
  a * 2 ^ Z.of_nat (length bs) + bin_value bs.
Proof.
  revert a. induction bs as [|b bs IH]; intros a Ha Hw.
  - cbn. lia.
  - cbn [bits_str map fold_left length]. fold (bits_str bs).
    cbn [length] in Ha, Hw. rewrite Nat2Z.inj_succ, Z.pow_succ_r in Ha, Hw |- * by lia.
    set (p := 2 ^ Z.of_nat (length bs)) in *.
    assert (0 < p) by (apply Z.pow_pos_nonneg; lia).
    assert (- 2 ^ 14 <= a < 2 ^ 14) by nia.
    rewrite bin_value_cons. fold p. cbv zeta. rewrite int16_shift by assumption.
    destruct b.
    + change (if Ascii.eqb (bit_char true) "1" then ?x else ?y) with x.
      change (i16 (2 * a + 1)) with (swrap 16 (2 * a + 1)).
      rewrite swrap_small by lia. rewrite IH by nia. cbn [Z.b2z]. ring.
    + change (if Ascii.eqb (bit_char false) "1" then ?x else ?y) with y.
      rewrite IH by nia. cbn [Z.b2z]. ring.
Qed.

(** A signed field of a HAS message (1 to 16 bits; the code uses 11 to 13) is
    read as the two's complement number that its bits are: the first bit has
    the weight [- 2 ^ n] and the [n] others are an unsigned number.  The result
    needs no wrap-around. *)
Theorem signed_field_value b bs :
  Z.of_nat (length bs) <= 15 ->
  read_has_message_body_int16 (bits_str (b :: bs)) =
  bin_value bs - Z.b2z b * 2 ^ Z.of_nat (length bs).
Proof.
  intros Hl. unfold read_has_message_body_int16.
  pose proof (Z.pow_pos_nonneg 2 (Z.of_nat (length bs))).
  assert (2 ^ Z.of_nat (length bs) <= 2 ^ 15) by (apply Z.pow_le_mono_r; lia).
  destruct b.
  - change (if Ascii.eqb (vget "000"%char (bits_str (true :: bs)) 0) "1" then ?x else ?y) with x.
    change (i16 (Z.lxor 0 65535)) with (-1).
    cbn [bits_str map fold_left]. fold (bits_str bs).
    change (i16 (Z.land (i16 (-1 * 2)) 65534)) with (-2). cbv zeta.
    change (if Ascii.eqb (bit_char true) "1" then i16 (-2 + 1) else -2) with (-1).
    rewrite read_int16_bits by lia. cbn [Z.b2z]. ring.
  - change (if Ascii.eqb (vget "000"%char (bits_str (false :: bs)) 0) "1" then ?x else ?y) with y.
    cbn [bits_str map fold_left]. fold (bits_str bs).
    change (i16 (Z.land (i16 (0 * 2)) 65534)) with 0. cbv zeta.
    change (if Ascii.eqb (bit_char false) "1" then i16 (0 + 1) else 0) with 0.
    rewrite read_int16_bits by lia. cbn [Z.b2z]. ring.
Qed.

Lemma signed_field_value_witness :
  read_has_message_body_int16 (bits_str [true; true; false; true]) = -3.
Proof. exact (signed_field_value true [true; false; true] ltac:(cbn; lia)). Defined.

(** ** The time of week of a message *)

(** The time of week given to a HAS message, for every time of week of its
    last page and every time of hour in its header.  In the first half of an
    hour (and at the middle of an hour of even number) it is the start of the
    hour of the page plus the time of hour.  In the second half of the hour
    [std::remainder] is negative and its conversion to [uint32_t] is undefined. *)
Theorem has_tow_by_half_hour tow t :
  0 <= tow < 604800 -> 0 <= t <= HAS_MSG_NUMBER_MAX_TOH ->
  has_tow tow t =
    if (tow mod 3600 <? 1800) || ((tow mod 3600 =? 1800) && Z.even (tow / 3600))
    then Returns (3600 * (tow / 3600) + t) else Throws undefined_behaviour.
Proof.
  intros Htow Ht. change HAS_MSG_NUMBER_MAX_TOH with 3599 in Ht.
  pose proof (Z.mod_pos_bound tow 3600). pose proof (Z.div_mod tow 3600).
  assert (forall h, 0 <= h < 3600 -> h = tow mod 3600 ->
    (let* s := uint32_of_double h in Returns (u32 (u32 (tow - s) + t))) =
    Returns (3600 * (tow / 3600) + t)) as Hfirst.
  { intros h Hh E. unfold uint32_of_double. rewrite (proj2 (Z.leb_le 0 h)), (proj2 (Z.ltb_lt h (2 ^ 32))) by lia.
    cbn [andb outcome_bind]. rewrite !wrap_small by (rewrite ?wrap_small; lia). f_equal. lia. }
  assert (forall h, h < 0 ->
    (let* s := uint32_of_double h in Returns (u32 (u32 (tow - s) + t))) = Throws undefined_behaviour) as Hsecond.
  { intros h Hh. unfold uint32_of_double. rewrite (proj2 (Z.leb_gt 0 h)) by exact Hh. reflexivity. }
  unfold has_tow, ieee_remainder. cbv zeta.
  destruct (Z.ltb_spec (2 * (tow mod 3600)) 3600), (Z.ltb_spec (tow mod 3600) 1800); try lia.
  - cbn [orb]. apply Hfirst; lia.
  - destruct (Z.ltb_spec 3600 (2 * (tow mod 3600))), (Z.eqb_spec (tow mod 3600) 1800); try lia; cbn [orb andb].
    + apply Hsecond. lia.
    + destruct (Z.even (tow / 3600)); [apply Hfirst|apply Hsecond]; lia.
Qed.

Lemma has_tow_by_half_hour_witness :
  has_tow 345900 100 = Returns 345700 /\ has_tow 348000 100 = Throws undefined_behaviour.
Proof.
  split; [exact (has_tow_by_half_hour 345900 100 ltac:(lia) ltac:(unfold HAS_MSG_NUMBER_MAX_TOH; lia))|
          exact (has_tow_by_half_hour 348000 100 ltac:(lia) ltac:(unfold HAS_MSG_NUMBER_MAX_TOH; lia))].
Defined.

(** ** Stale time stamps

    What [has_message_from_any_pages] leaves for the message ID of a decoded
    message: no page, but the time stamps of its pages.  When the ID is used
    again more than [MAX_SECONDS_REMEMBERING_MID] seconds later, the old time
    stamps are taken for those of the new pages, and the arrival of the second
    page deletes the first. *)

Definition page_at (pid t : Z) : Galileo_HAS_page := new_Galileo_HAS_page
  <| has_message_string := page_text (zeros 53 7) |> <| time_stamp := t |>
  <| has_status := 1 |> <| message_type := 1 |> <| message_id := 3 |>
  <| message_size := 2 |> <| message_page_id := pid |>.

Definition after_message : has_receiver :=
  new_has_receiver <| d_received_timestamps ::= fun v => vset v 3 [100; 101] |>.

Lemma stale_time_stamps_lose_page :
  slot_of 3 (msg_handler_galileo_e6_has (page_at 1 500) after_message).2 =
    ([1], [100; 101; 500], vset zero_C 0 (zeros 53 7)) /\
  slot_of 3 (iter_prog [page_at 1 500; page_at 2 501] msg_handler_galileo_e6_has after_message).2 =
    ([2], [501], vset zero_C 1 (zeros 53 7)).
Proof. vm_compute. split; reflexivity. Qed.

(** ** The clock subset *)

(** Galileo satellites 1 to 3 in the mask, and a submask of all three. *)
Definition subset_data : Galileo_HAS_data := new_Galileo_HAS_data
  <| Nsys := 1 |> <| gnss_id_mask := [2] |> <| satellite_mask := [7 * 2 ^ 37] |>
  <| satellite_submask := [7] |> <| gnss_id_clock_subset := [2] |>.

Definition subset_state : body_state := {|
  message := str "0010" ++ str "00" ++ str "111" ++ concat (replicate 3 (str "0000000000001")) ++ str "0000";
  Nsat := 3; have_mask := true;
  rx := new_has_receiver <| d_HAS_data := subset_data
    <| delta_clock_correction_clock_subset := [[]] |> |>
|}.

(** The first correction of the subset is written out of range. *)
Lemma clock_subset_undefined :
  (read_clock_subset_system 0 subset_state).1 = Throws undefined_behaviour.
Proof. vm_compute. reflexivity. Qed.

(** Three satellites have their bit set; the highest bit is not looked at. *)
Lemma submask_loses_highest : submask_string 3 7 = str "11" /\ submask_string 3 4 = str "00".
Proof. vm_compute. split; reflexivity. Qed.

(** The satellite mask is looked up at the GNSS ID, not at its place: here 2,
    in a vector of one mask. *)
Lemma submask_prns_undefined : get_PRNs_in_submask subset_data 0 = Throws undefined_behaviour.
Proof. vm_compute. reflexivity. Qed.
