(* ===== verification/HasInvariant.v ===== *)
(** * HasInvariant: what every page keeps

    The page IDs kept for a message are distinct and valid, each has its time
    stamp, and the page matrices keep their size, whatever pages arrive and
    whatever a decoded message holds. *)

From S2P Require Import Prelude Cstring BinString InavMessage HasData CnavMessage HasReceiver ReedSolomon ReedSolomonProofs HasProofs HasCollection.
From stdpp Require Import list.
From Stdlib Require Import ZArith Lia Ascii.
Local Open Scope Z_scope.
Local Open Scope cxx_scope.

Record slot_wf (mid : Z) (r : has_receiver) : Prop := {
  sw_distinct : NoDup (vget [] (d_received_pids r) mid);
  sw_valid : Forall (fun pid => 1 <= pid <= 255) (vget [] (d_received_pids r) mid);
  sw_timestamps : (length (vget [] (d_received_pids r) mid) <=
                   length (vget [] (d_received_timestamps r) mid))%nat;
  sw_C : grid 255 53 (vget [] (d_C_matrix r) mid)
}.

Record receiver_wf (r : has_receiver) : Prop := {
  rw_shape : has_shape r;
  rw_slots : forall mid, 0 <= mid < 32 -> slot_wf mid r
}.

(** ** What does not touch the pages *)

Definition pages_part (r : has_receiver) :=
  (d_received_pids r, d_received_timestamps r, d_C_matrix r).

Lemma receiver_wf_same r r' : pages_part r' = pages_part r -> receiver_wf r -> receiver_wf r'.
Proof.
  intros E [[H1 H2 H3] Hs]. apply pair_equal_spec in E as [E EC]. apply pair_equal_spec in E as [Ep Et].
  split; [split; congruence|]. intros mid Hmid. destruct (Hs mid Hmid) as [S1 S2 S3 S4].
  split; congruence.
Qed.

Section Same.
Context (X : list (list Z) * list (list Z) * list (list (list Z))).

Definition keeps_body (s : body_state) : Prop := pages_part (rx s) = X.

Lemma keeps_peek len : run_inv keeps_body (peek len).
Proof. apply run_inv_gets. Qed.
Lemma keeps_cut len : run_inv keeps_body (cut len).
Proof. intros s Hs. unfold cut. destruct (_ <? _); exact Hs. Qed.
Lemma keeps_field {A} (read : cstring -> A) len : run_inv keeps_body (field_of read len).
Proof.
  apply run_inv_bind; [apply keeps_peek|intros bits]. apply run_inv_bind; [apply keeps_cut|intros _].
  apply run_inv_ret.
Qed.
Lemma keeps_put_data f : run_inv keeps_body (put_data f).
Proof. intros s Hs. exact Hs. Qed.
Lemma keeps_get_data {A} (f : Galileo_HAS_data -> A) : run_inv keeps_body (get_data f).
Proof. apply run_inv_gets. Qed.

(** One step of a program of the body. *)
Ltac keep1 :=
  match goal with
  | |- forall _, _ => intro
  | |- run_inv _ (bind _ _) => apply run_inv_bind
  | |- run_inv _ (if ?b then _ else _) => destruct b
  | |- run_inv _ (cut _) => apply keeps_cut
  | |- run_inv _ (peek _) => apply keeps_peek
  | |- run_inv _ (field_of _ _) => apply keeps_field
  | |- run_inv _ (put_data _) => apply keeps_put_data
  | |- run_inv _ (get_data _) => apply keeps_get_data
  | |- run_inv _ the_mask_id => apply keeps_get_data
  | |- run_inv _ (for_prog _ _ _) => apply run_inv_iter
  | |- run_inv _ (ret _) => apply run_inv_ret
  | |- run_inv _ (lift _) => apply run_inv_lift
  | |- run_inv _ (gets _) => apply run_inv_gets
  | |- run_inv _ (put_rx _) => apply run_inv_modify; intros s Hs; exact Hs
  | |- run_inv _ (modify _) => apply run_inv_modify; intros s Hs; try (destruct (Nsat s =? 0)); exact Hs
  end.
Ltac keep := repeat keep1.

Lemma keeps_mask : run_inv keeps_body read_mask.
Proof. unfold read_mask, read_mask_system, read_cell_mask. keep. Qed.
Lemma keeps_recall : run_inv keeps_body recall_mask.
Proof. unfold recall_mask. keep. Qed.
Lemma keeps_forget : run_inv keeps_body forget_mask.
Proof. unfold forget_mask. keep. Qed.
Lemma keeps_orbits : run_inv keeps_body read_orbits.
Proof. unfold read_orbits, read_orbit. keep. Qed.
Lemma keeps_fullset : run_inv keeps_body read_clock_fullset.
Proof. unfold read_clock_fullset. keep. Qed.
Lemma keeps_subset : run_inv keeps_body read_clock_subset.
Proof. unfold read_clock_subset, read_clock_subset_system. keep; apply keeps_forget. Qed.

Lemma keeps_biases sizes read :
  (forall sat c, run_inv keeps_body (read sat c)) -> run_inv keeps_body (read_biases sizes read).
Proof.
  intros Hr. unfold read_biases.
  assert (forall l (a : Z * body unit), run_inv keeps_body a.2 ->
    forall f : Z * body unit -> Z * (Z * Z) -> Z * body unit,
    (forall b x, run_inv keeps_body b.2 -> run_inv keeps_body (f b x).2) ->
    run_inv keeps_body (fold_left f l a).2) as H.
  { induction l as [|x l IH]; intros a Ha f Hf; [exact Ha|]. cbn [fold_left]. apply IH; auto. }
  apply H; [apply run_inv_ret|]. intros [sat p] [sys [sats signals]] Hp. cbn [snd] in *.
  apply run_inv_bind; [exact Hp|intros _]. keep; apply Hr.
Qed.

Lemma keeps_code_bias : run_inv keeps_body read_code_bias.
Proof. unfold read_code_bias, bias_layout. keep. apply keeps_biases. keep. Qed.
Lemma keeps_phase_bias : run_inv keeps_body read_phase_bias.
Proof. unfold read_phase_bias, bias_layout. keep. apply keeps_biases. keep. Qed.

Lemma keeps_section flag read : run_inv keeps_body read -> run_inv keeps_body (section flag read).
Proof. intros H. unfold section. keep. exact H. Qed.

Lemma keeps_read_body : run_inv keeps_body read_body.
Proof.
  unfold read_body, check_toh. keep; first [apply keeps_mask|apply keeps_recall|apply keeps_forget|
    apply keeps_section; first [apply keeps_orbits|apply keeps_fullset|apply keeps_subset|
                                apply keeps_code_bias|apply keeps_phase_bias]].
Qed.

Definition keeps (r : has_receiver) : Prop := pages_part r = X.

Lemma keeps_MT1_body b : run_inv keeps (read_MT1_body b).
Proof.
  intros r Hr. unfold read_MT1_body.
  pose proof (keeps_read_body (mkbody_state b 0 false r) Hr) as H.
  destruct (read_body _) as [o s]. exact H.
Qed.

Lemma keeps_catch_all (c : prog has_receiver unit) : run_inv keeps c -> run_inv keeps (catch_all c).
Proof.
  intros Hc r Hr. specialize (Hc r Hr). unfold catch_all.
  destruct (c r) as [[u|[]] r']; exact Hc.
Qed.

Lemma keeps_decoded d : run_inv keeps (read_decoded_message d).
Proof.
  unfold read_decoded_message, read_MT1_header. keep; try apply run_inv_throw.
  apply keeps_catch_all, keeps_MT1_body.
Qed.

Lemma keeps_announce res : run_inv keeps (announce res).
Proof. unfold announce. keep. Qed.

Lemma keeps_deliver p : run_inv keeps (deliver_new p).
Proof. unfold deliver_new, deliver. keep. Qed.
End Same.

(** A program that keeps the pages keeps them well formed. *)
Lemma keeps_wf {A} (c : prog has_receiver A) :
  (forall X, run_inv (keeps X) c) -> run_inv receiver_wf c.
Proof. intros H r Hr. apply (receiver_wf_same r); [apply (H (pages_part r)); reflexivity|exact Hr]. Qed.

(** ** What does *)

Lemma slot_wf_of mid r : slot_of mid r = ([], [], zero_C) \/ slot_of mid r = ([], vget [] (d_received_timestamps r) mid, zero_C) ->
  slot_wf mid r.
Proof.
  intros [E|E]; apply slot_of_inv in E as (E1 & E2 & E3);
    (split; [rewrite E1; constructor|rewrite E1; constructor|rewrite E1; cbn; lia|rewrite E3; apply zero_C_grid]).
Qed.

Lemma slot_wf_eq mid r r' : slot_of mid r' = slot_of mid r -> slot_wf mid r -> slot_wf mid r'.
Proof.
  intros E [S1 S2 S3 S4]. apply slot_of_inv in E as (E1 & E2 & E3). split; congruence.
Qed.

Lemma delete_outdated_wf t r : receiver_wf r -> receiver_wf (delete_outdated_data t r).
Proof.
  intros Hr. unfold delete_outdated_data. apply (for_range_inv receiver_wf).
  - apply (for_range_inv receiver_wf); [exact Hr|]. intros i r' Hi Hr'.
    destruct (outdated _ _); [|exact Hr']. destruct Hr' as [[H1 H2 H3] Hs].
    split; [split; unfold update; cbn; rewrite length_vset; assumption|]. intros mid Hmid.
    destruct (decide (mid = i)) as [->|Hne].
    + apply slot_wf_of. left. unfold slot_of, update. cbn.
      rewrite !vget_vset_eq by (unfold in_range; lia). reflexivity.
    + apply (slot_wf_eq mid r'); [|apply Hs, Hmid]. unfold slot_of, update. cbn.
      rewrite !vget_vset_ne by auto. reflexivity.
  - intros i r' _ Hr'. destruct (_ && _); [|exact Hr'].
    apply (receiver_wf_same r'); [reflexivity|exact Hr'].
Qed.

Lemma forget_pages_wf mid r : 0 <= mid < 32 -> receiver_wf r -> receiver_wf (forget_pages mid r).
Proof.
  intros Hmid [[H1 H2 H3] Hs]. unfold forget_pages.
  split; [split; unfold update; cbn; rewrite ?length_vset; assumption|]. intros m Hm.
  destruct (decide (m = mid)) as [->|Hne].
  - apply slot_wf_of. right. unfold slot_of, update. cbn.
    rewrite !vget_vset_eq by (unfold in_range; lia). reflexivity.
  - apply (slot_wf_eq m r); [|apply Hs, Hm]. unfold slot_of, update. cbn.
    rewrite !vget_vset_ne by auto. reflexivity.
Qed.

Lemma decode_message_wf mid ms : 0 <= mid < 32 -> run_inv receiver_wf (decode_message_type1 mid ms).
Proof.
  intros Hmid. unfold decode_message_type1.
  apply run_inv_bind; [apply run_inv_gets|intros pids]. apply run_inv_bind; [apply run_inv_gets|intros C].
  assert (run_inv receiver_wf (modify (forget_pages mid))) as Hforget
    by (apply run_inv_modify; intros r; apply forget_pages_wf, Hmid).
  cbv zeta. destruct (_ <? _).
  - apply run_inv_bind; [exact Hforget|intros _; apply run_inv_ret].
  - destruct (decode_columns _ _ _) as [ok M]. apply run_inv_bind.
    + apply run_inv_modify. intros r. apply receiver_wf_same. reflexivity.
    + intros _. destruct (negb ok); [apply run_inv_ret|]. apply run_inv_bind; [exact Hforget|].
      intros _. apply keeps_wf. intros X. apply keeps_decoded.
Qed.

Section Store.
Context (p : Galileo_HAS_page).
Hypothesis (Hmid : 0 <= message_id p < 32) (Hpid : 1 <= message_page_id p <= 255).

Lemma annotate_wf r :
  receiver_wf r -> message_page_id p ∉ vget [] (d_received_pids r) (message_id p) ->
  receiver_wf (annotate p r).
Proof.
  intros [[H1 H2 H3] Hs] Hnew. unfold annotate.
  split; [split; unfold update; cbn; rewrite ?length_vset; assumption|]. intros m Hm.
  destruct (Hs m Hm) as [S1 S2 S3 S4]. destruct (decide (m = message_id p)) as [->|Hne].
  - split; unfold update; cbn; rewrite ?vget_vset_eq by (unfold in_range; lia).
    + apply NoDup_app. split; [exact S1|]. split; [|apply NoDup_singleton].
      intros x Hx Hp. apply list_elem_of_singleton in Hp. subst x. exact (Hnew Hx).
    + apply Forall_app. split; [exact S2|]. constructor; [exact Hpid|constructor].
    + rewrite !length_app. cbn. lia.
    + exact S4.
  - apply (slot_wf_eq m r); [|split; assumption]. unfold slot_of, update. cbn.
    rewrite !vget_vset_ne by auto. reflexivity.
Qed.

Lemma copy_octet_wf k octet :
  run_inv receiver_wf (modify (fun r => r <| d_C_matrix ::= fun C =>
    vset C (message_id p) (vset2 (vget [] C (message_id p)) (message_page_id p - 1) k octet) |>)).
Proof.
  apply run_inv_modify. intros r [[H1 H2 H3] Hs].
  split; [split; unfold update; cbn; rewrite ?length_vset; assumption|]. intros m Hm.
  destruct (Hs m Hm) as [S1 S2 S3 S4]. split; unfold update; cbn; [exact S1|exact S2|exact S3|].
  destruct (decide (m = message_id p)) as [->|Hne].
  - rewrite vget_vset_eq by (unfold in_range; lia). apply grid_vset2; [exact S4|lia].
  - rewrite vget_vset_ne by auto. exact S4.
Qed.

Lemma store_page_wf r :
  receiver_wf r -> message_page_id p ∉ vget [] (d_received_pids r) (message_id p) ->
  receiver_wf (store_page p r).2.
Proof.
  intros Hr Hnew. unfold store_page, bind at 1, modify at 1.
  refine (run_inv_iter receiver_wf _ _ _ _ (annotate_wf r Hr Hnew)). intros k.
  apply run_inv_bind; [apply run_inv_lift|intros octet; apply copy_octet_wf].
Qed.
End Store.

Lemma process_page_wf p :
  0 <= message_id p < 32 -> 0 <= message_page_id p <= 255 -> run_inv receiver_wf (process_HAS_page p).
Proof.
  intros Hmid Hpid. unfold process_HAS_page. apply run_inv_bind; [|intros _].
  - destruct (Z.eqb_spec (message_page_id p) 0) as [E|E]; rewrite ?andb_false_r; [apply run_inv_ret|].
    destruct (_ && _); [|apply run_inv_ret]. apply run_inv_bind.
    { apply run_inv_modify. intros r. apply delete_outdated_wf. }
    intros _ r Hr. unfold bind, gets.
    destruct (Z.ltb_spec (message_id p) HAS_MSG_NUMBER_MESSAGE_IDS); [|exact Hr].
    destruct (bool_decide_reflect (message_page_id p ∉ vget [] (d_received_pids r) (message_id p))) as [Hn|];
      [|exact Hr].
    apply store_page_wf; [exact Hmid|lia|exact Hr|exact Hn].
  - apply run_inv_bind; [apply run_inv_modify; intros r; apply receiver_wf_same; reflexivity|intros _].
    apply run_inv_bind; [apply run_inv_gets|intros pids]. destruct (_ =? _); [|apply run_inv_ret].
    apply run_inv_bind; [apply decode_message_wf, Hmid|intros res].
    apply keeps_wf. intros X. apply keeps_announce.
Qed.

(** C39: The receiver is well formed after every page, for any sequence of pages
    with a message ID of 5 bits and a page ID of 8 bits, also when the handler
    stops in the middle: the page IDs kept for each message are distinct and
    between 1 and 255 (so the matrices are written in range), each has a time
    stamp (so [delete_outdated_data] reads in range), and every page matrix has
    255 rows of 53 octets. *)
Theorem pages_keep_receiver_wf pages r :
  Forall (fun p => 0 <= message_id p < 32 /\ 0 <= message_page_id p <= 255) pages ->
  receiver_wf r ->
  receiver_wf (iter_prog pages msg_handler_galileo_e6_has r).2.
Proof.
  intros Hall. revert r.
  induction Hall as [|p pages [Hmid Hpid] Hall IH]; [intros r Hr; exact Hr|].
  cbn [iter_prog]. apply (run_inv_bind receiver_wf); [|intros _; exact IH].
  unfold msg_handler_galileo_e6_has.
  apply run_inv_bind; [apply run_inv_modify; intros r; apply receiver_wf_same; reflexivity|intros _].
  apply run_inv_bind; [apply run_inv_gets|intros printed]. apply run_inv_bind.
  - destruct printed; [apply run_inv_ret|apply process_page_wf; assumption].
  - intros _. apply keeps_wf. intros X. apply keeps_deliver.
Qed.

Lemma new_receiver_wf : receiver_wf new_has_receiver.
Proof.
  split; [split; reflexivity|]. intros mid Hmid. apply slot_wf_of. left.
  unfold slot_of, new_has_receiver. cbn [d_received_pids d_received_timestamps d_C_matrix].
  rewrite !vget_zeros by exact Hmid.
  reflexivity.
Qed.

Lemma pages_keep_receiver_wf_witness :
  receiver_wf (iter_prog [new_Galileo_HAS_page <| message_type := 1 |> <| message_page_id := 4 |>]
                 msg_handler_galileo_e6_has new_has_receiver).2.
Proof.
  apply pages_keep_receiver_wf; [|exact new_receiver_wf].
  repeat constructor; unfold update; cbn; discriminate.
Defined.
