(* ===== verification/OsnmaSubframe.v ===== *)
(** * OsnmaSubframe: the HKROOT and MACK collected over one subframe

    [src/src/algorithms/security/libs/osnma/osnma_subframe.{h,cc}]: fifteen
    40-bit OSNMA fields, one per I/NAV page, split into the 8-bit HKROOT and
    32-bit MACK parts and concatenated. *)

From S2P Require Import Prelude Cstring.
From stdpp Require Import gmap list strings.
From Stdlib Require Import ZArith Lia Ascii.
Local Open Scope Z_scope.
Local Open Scope cxx_scope.

Definition LIBOSNMA_PAGES_IN_SUBFRAME : Z := 15.
Definition LIBOSNMA_HKROOT_FIELD_LENGTH : Z := 8.
Definition LIBOSNMA_MACK_FIELD_LENGTH : Z := 32.
Definition LIBOSNMA_HKROOT_MESSAGE_LENGTH : Z :=
  LIBOSNMA_PAGES_IN_SUBFRAME * LIBOSNMA_HKROOT_FIELD_LENGTH.
Definition LIBOSNMA_MACK_MESSAGE_LENGTH : Z :=
  LIBOSNMA_PAGES_IN_SUBFRAME * LIBOSNMA_MACK_FIELD_LENGTH.

Record OSNMASubframe := mkOSNMASubframe {
  hkroot_message : cstring;
  mack_message : cstring;
  nav_data_map : gmap Z cstring
}.
#[export] Instance eta_OSNMASubframe : Eta OSNMASubframe :=
  fun s => mkOSNMASubframe (hkroot_message s) (mack_message s) (nav_data_map s).

(** The constructor only reserves capacity. *)
Definition new_OSNMASubframe : OSNMASubframe := mkOSNMASubframe [] [] ∅.

(** [add_page] returns whether the subframe is complete. *)
Definition add_page (word_type : Z) (osnma_data nav_data : cstring)
  : prog OSNMASubframe bool :=
  full <- gets (fun s =>
    (LIBOSNMA_HKROOT_MESSAGE_LENGTH <=? str_size (hkroot_message s)) &&
    (LIBOSNMA_MACK_MESSAGE_LENGTH <=? str_size (mack_message s)));;
  if full : bool then ret true else
  hkroot_field <- lift (substr osnma_data 0 LIBOSNMA_HKROOT_FIELD_LENGTH);;
  mack_field <- lift (substr osnma_data LIBOSNMA_HKROOT_FIELD_LENGTH LIBOSNMA_MACK_FIELD_LENGTH);;
  modify (fun s => s <| hkroot_message ::= fun m => m ++ hkroot_field |>);;
  modify (fun s => s <| mack_message ::= fun m => m ++ mack_field |>);;
  modify (fun s => s <| nav_data_map ::= <[word_type := nav_data]> |>);;
  gets (fun s =>
    (str_size (hkroot_message s) =? LIBOSNMA_HKROOT_MESSAGE_LENGTH) &&
    (str_size (mack_message s) =? LIBOSNMA_MACK_MESSAGE_LENGTH)).

#[global] Arguments add_page : simpl never.

Definition get_hkroot_message (s : OSNMASubframe) : cstring := hkroot_message s.
Definition get_mack_message (s : OSNMASubframe) : cstring := mack_message s.
Definition get_nav_data_map (s : OSNMASubframe) : gmap Z cstring := nav_data_map s.

(** ** What a subframe holds after some pages

    A page is the word type, the 40-character OSNMA field and the 128-character
    navigation word that [feed_page] accepted. *)

Record page := mkPage { p_word : Z; p_osnma : cstring; p_nav : cstring }.

Definition hkroot_of (p : page) : cstring := take 8 (p_osnma p).
Definition mack_of (p : page) : cstring := take 32 (drop 8 (p_osnma p)).

(** The contents that the pages, oldest first, should have left. *)
Definition subframe_of (ps : list page) : OSNMASubframe :=
  mkOSNMASubframe (concat (map hkroot_of ps)) (concat (map mack_of ps))
    (fold_left (fun m p => <[p_word p := p_nav p]> m) ps ∅).

Definition page_ok (p : page) : Prop := length (p_osnma p) = 40%nat.

Lemma hkroot_length ps :
  Forall page_ok ps -> length (hkroot_message (subframe_of ps)) = (8 * length ps)%nat.
Proof.
  intros H. apply concat_length_const. eapply Forall_impl; [exact H|].
  intros p Hp. unfold hkroot_of. rewrite length_take, Hp. reflexivity.
Qed.

Lemma mack_length ps :
  Forall page_ok ps -> length (mack_message (subframe_of ps)) = (32 * length ps)%nat.
Proof.
  intros H. apply concat_length_const. eapply Forall_impl; [exact H|].
  intros p Hp. unfold mack_of. rewrite length_take, length_drop, Hp. reflexivity.
Qed.

(** Adding a page to an incomplete subframe appends its fields and reports
    completion exactly on the fifteenth. *)
Lemma add_page_subframe_of (ps : list page) (p : page) :
  Forall page_ok ps -> page_ok p -> (length ps < 15)%nat ->
  add_page (p_word p) (p_osnma p) (p_nav p) (subframe_of ps) =
  (Returns (Nat.eqb (length ps) 14), subframe_of (ps ++ [p])).
Proof.
  intros Hps Hp Hn.
  pose proof (hkroot_length ps Hps) as H1. pose proof (mack_length ps Hps) as H2.
  pose proof (hkroot_length (ps ++ [p])) as H3. pose proof (mack_length (ps ++ [p])) as H4.
  rewrite length_app in H3, H4. cbn [length] in H3, H4.
  assert (Forall page_ok (ps ++ [p])) as Hall by (apply Forall_app; auto).
  specialize (H3 Hall). specialize (H4 Hall).
  assert (subframe_of (ps ++ [p]) =
    mkOSNMASubframe (hkroot_message (subframe_of ps) ++ hkroot_of p)
      (mack_message (subframe_of ps) ++ mack_of p)
      (<[p_word p := p_nav p]> (nav_data_map (subframe_of ps)))) as Esub.
  { unfold subframe_of. rewrite !map_app, !concat_app, fold_left_app. cbn.
    rewrite !app_nil_r. reflexivity. }
  unfold add_page, bind, gets, str_size at 1 2.
  rewrite H1, H2. unfold LIBOSNMA_HKROOT_MESSAGE_LENGTH, LIBOSNMA_MACK_MESSAGE_LENGTH,
    LIBOSNMA_PAGES_IN_SUBFRAME, LIBOSNMA_HKROOT_FIELD_LENGTH, LIBOSNMA_MACK_FIELD_LENGTH.
  destruct (Z.leb_spec (15 * 8) (Z.of_nat (8 * length ps))) as [?|_]; [lia|].
  cbn [andb]. unfold lift, modify.
  rewrite (substr_inside_Z (p_osnma p) 0 8) by (rewrite ?Hp; lia).
  rewrite (substr_inside_Z (p_osnma p) 8 32) by (rewrite ?Hp; lia).
  change (take (Z.to_nat 8) (drop (Z.to_nat 0) (p_osnma p))) with (hkroot_of p).
  change (take (Z.to_nat 32) (drop (Z.to_nat 8) (p_osnma p))) with (mack_of p).
  rewrite Esub in H3, H4 |- *. cbn [hkroot_message mack_message] in H3, H4.
  cbn -[subframe_of]. f_equal. unfold str_size. rewrite H3, H4.
  destruct (Nat.eqb_spec (length ps) 14) as [->|Hne]; [reflexivity|].
  f_equal. apply andb_false_iff. left. apply Z.eqb_neq. lia.
Qed.

(** A full subframe is left alone and keeps reporting completion. *)
Lemma add_page_full s word_type osnma_data nav_data :
  120 <= str_size (hkroot_message s) -> 480 <= str_size (mack_message s) ->
  add_page word_type osnma_data nav_data s = (Returns true, s).
Proof.
  intros H1 H2. unfold add_page, bind, gets.
  replace (LIBOSNMA_HKROOT_MESSAGE_LENGTH <=? str_size (hkroot_message s)) with true
    by (symmetry; apply Z.leb_le; exact H1).
  replace (LIBOSNMA_MACK_MESSAGE_LENGTH <=? str_size (mack_message s)) with true
    by (symmetry; apply Z.leb_le; exact H2).
  reflexivity.
Qed.
