(* ===== verification/OsnmaDsm.v ===== *)
(** * OsnmaDsm: reassembly and verification of a DSM-KROOT message

    [src/src/algorithms/security/libs/osnma/osnma_dsm_message.h] and
    [process_dsm_kroot_block] of [osnma_processor.cc], with the field layout
    and tables of [osnma_processor.h].

    GnuTLS is not part of the repository: [GnuTLS] is its interface as the code
    uses it.  What the handler prints is the [verdict] of a verification
    attempt, one constructor per branch, with the values printed. *)

From S2P Require Import Prelude Cstring BinString Float64.
From stdpp Require Import gmap list strings.
From Stdlib Require Import ZArith Lia Ascii.
Local Open Scope Z_scope.
Local Open Scope cxx_scope.

(** ** Field layout *)

Definition LIBOSNMA_DSM_BLOCK_LENGTH : Z := 104.
Definition LIBOSNMA_DSM_KROOT_NB_BLOCKS_OFFSET : Z := 0.
Definition LIBOSNMA_DSM_KROOT_NB_BLOCKS_LENGTH : Z := 4.
Definition LIBOSNMA_DSM_KROOT_PKID_OFFSET : Z :=
  LIBOSNMA_DSM_KROOT_NB_BLOCKS_OFFSET + LIBOSNMA_DSM_KROOT_NB_BLOCKS_LENGTH.
Definition LIBOSNMA_DSM_KROOT_PKID_LENGTH : Z := 4.
Definition LIBOSNMA_DSM_KROOT_CIDKR_OFFSET : Z :=
  LIBOSNMA_DSM_KROOT_PKID_OFFSET + LIBOSNMA_DSM_KROOT_PKID_LENGTH.
Definition LIBOSNMA_DSM_KROOT_CIDKR_LENGTH : Z := 2.
Definition LIBOSNMA_DSM_KROOT_RESERVED_1_OFFSET : Z :=
  LIBOSNMA_DSM_KROOT_CIDKR_OFFSET + LIBOSNMA_DSM_KROOT_CIDKR_LENGTH.
Definition LIBOSNMA_DSM_KROOT_RESERVED_1_LENGTH : Z := 2.
Definition LIBOSNMA_DSM_KROOT_HF_OFFSET : Z :=
  LIBOSNMA_DSM_KROOT_RESERVED_1_OFFSET + LIBOSNMA_DSM_KROOT_RESERVED_1_LENGTH.
Definition LIBOSNMA_DSM_KROOT_HF_LENGTH : Z := 2.
Definition LIBOSNMA_DSM_KROOT_MF_OFFSET : Z :=
  LIBOSNMA_DSM_KROOT_HF_OFFSET + LIBOSNMA_DSM_KROOT_HF_LENGTH.
Definition LIBOSNMA_DSM_KROOT_MF_LENGTH : Z := 2.
Definition LIBOSNMA_DSM_KROOT_KS_OFFSET : Z :=
  LIBOSNMA_DSM_KROOT_MF_OFFSET + LIBOSNMA_DSM_KROOT_MF_LENGTH.
Definition LIBOSNMA_DSM_KROOT_KS_LENGTH : Z := 4.
Definition LIBOSNMA_DSM_KROOT_TS_OFFSET : Z :=
  LIBOSNMA_DSM_KROOT_KS_OFFSET + LIBOSNMA_DSM_KROOT_KS_LENGTH.
Definition LIBOSNMA_DSM_KROOT_TS_LENGTH : Z := 4.
Definition LIBOSNMA_DSM_KROOT_MACLT_OFFSET : Z :=
  LIBOSNMA_DSM_KROOT_TS_OFFSET + LIBOSNMA_DSM_KROOT_TS_LENGTH.
Definition LIBOSNMA_DSM_KROOT_MACLT_LENGTH : Z := 8.
Definition LIBOSNMA_DSM_KROOT_RESERVED_OFFSET : Z :=
  LIBOSNMA_DSM_KROOT_MACLT_OFFSET + LIBOSNMA_DSM_KROOT_MACLT_LENGTH.
Definition LIBOSNMA_DSM_KROOT_RESERVED_LENGTH : Z := 4.
Definition LIBOSNMA_DSM_KROOT_WNK_OFFSET : Z :=
  LIBOSNMA_DSM_KROOT_RESERVED_OFFSET + LIBOSNMA_DSM_KROOT_RESERVED_LENGTH.
Definition LIBOSNMA_DSM_KROOT_WNK_LENGTH : Z := 12.
Definition LIBOSNMA_DSM_KROOT_TOWHK_OFFSET : Z :=
  LIBOSNMA_DSM_KROOT_WNK_OFFSET + LIBOSNMA_DSM_KROOT_WNK_LENGTH.
Definition LIBOSNMA_DSM_KROOT_TOWHK_LENGTH : Z := 8.
Definition LIBOSNMA_DSM_KROOT_ALPHA_OFFSET : Z :=
  LIBOSNMA_DSM_KROOT_TOWHK_OFFSET + LIBOSNMA_DSM_KROOT_TOWHK_LENGTH.
Definition LIBOSNMA_DSM_KROOT_ALPHA_LENGTH : Z := 48.
Definition LIBOSNMA_DSM_BLOCK_CIDKR_TO_KROOT_LENGTH : Z :=
  LIBOSNMA_DSM_BLOCK_LENGTH - LIBOSNMA_DSM_KROOT_CIDKR_OFFSET.

(** ** Tables *)

Definition DSM_KROOT_NB_BLOCKS_TABLE : gmap Z Z :=
  list_to_map
    [(0, -1); (1, 7); (2, 8); (3, 9); (4, 10); (5, 11); (6, 12); (7, 13); (8, 14);
     (9, -1); (10, -1); (11, -1); (12, -1); (13, -1); (14, -1); (15, -1)].

Definition DSM_KROOT_KS_TABLE : gmap Z Z :=
  list_to_map
    [(0, 96); (1, 104); (2, 112); (3, 120); (4, 128); (5, 160); (6, 192); (7, 224);
     (8, 256); (9, -1); (10, -1); (11, -1); (12, -1); (13, -1); (14, -1); (15, -1)].

#[global] Arguments DSM_KROOT_NB_BLOCKS_TABLE : simpl never.
#[global] Arguments DSM_KROOT_KS_TABLE : simpl never.

(** [table.at(k)]. *)
Definition table_at (t : gmap Z Z) (k : Z) : outcome Z :=
  match t !! k with Some v => Returns v | None => Throws out_of_range end.
#[global] Arguments table_at : simpl never.

(** ** Keys and the signature library *)

(** The two signature algorithms the code names; any other value of the
    library's enumeration is [OTHER_SIGN]. *)
Inductive sign_algorithm :=
  | GNUTLS_SIGN_ECDSA_SHA256
  | GNUTLS_SIGN_ECDSA_SHA512
  | OTHER_SIGN (n : Z).

#[export] Instance sign_algorithm_eq_dec : EqDecision sign_algorithm.
Proof. solve_decision. Defined.

Class GnuTLS := {
  gnutls_pubkey_t : Type;
  (** [gnutls_hash_fast(GNUTLS_DIG_SHA256, ...)]: the digest it writes. *)
  gnutls_hash_sha256 : list Z -> list Z;
  (** [gnutls_encode_rs_value]: the error code and the encoded signature. *)
  gnutls_encode_rs_value : list Z -> list Z -> Z * list Z;
  (** [gnutls_pubkey_verify_data2(key, algorithm, 0, message, signature)]. *)
  gnutls_pubkey_verify_data2 : gnutls_pubkey_t -> sign_algorithm -> list Z -> list Z -> Z;
  GNUTLS_E_PK_SIG_VERIFY_FAILED : Z
}.

(** A SHA-256 digest is 32 bytes. *)
Class GnuTLSOk (G : GnuTLS) := {
  sha256_length : forall m, length (gnutls_hash_sha256 m) = 32%nat;
  sha256_bytes : forall m, Forall (fun b => 0 <= b < 256) (gnutls_hash_sha256 m)
}.

Record PublicKeyInfo `{GnuTLS} := mkPublicKeyInfo {
  key : gnutls_pubkey_t;
  algorithm : sign_algorithm
}.

Record OSNMA_DSMMessage := mkOSNMA_DSMMessage {
  nb_blocks : Z;
  nma_header : cstring;
  id_block_map : gmap Z cstring;
  is_processed : bool
}.
#[export] Instance eta_OSNMA_DSMMessage : Eta OSNMA_DSMMessage :=
  fun d => mkOSNMA_DSMMessage (nb_blocks d) (nma_header d) (id_block_map d) (is_processed d).

(** [new OSNMA_DSMMessage()] value-initialises every member. *)
Definition new_OSNMA_DSMMessage : OSNMA_DSMMessage := mkOSNMA_DSMMessage 0 [] ∅ false.

(** How one verification attempt ended. *)
Inductive verdict :=
  | NoPublicKey (pkid : Z)
  | UnsupportedAlgorithm
  | PadMismatch
  | EncodingError
  | InvalidSignature (err : Z)
  | Verified (cidkr wnk towhk : Z).

Section Kroot.
Context {G : GnuTLS}.

(** ** The verification of an assembled message *)

Definition signature_length (a : sign_algorithm) : option Z :=
  match a with
  | GNUTLS_SIGN_ECDSA_SHA256 => Some 512
  | GNUTLS_SIGN_ECDSA_SHA512 => Some 1056
  | OTHER_SIGN _ => None
  end.

(** [LIBOSNMA_DSM_BLOCK_LENGTH * ceil(1 + sig_and_key_length / LIBOSNMA_DSM_BLOCK_LENGTH)],
    in [double], then converted to [int32_t]. *)
Definition padded_length (ks l_ds : Z) : Z :=
  let sig_and_key_length := double_of_Z (ks + l_ds) in
  let blocks :=
    dadd (double_of_Z 1) (ddiv sig_and_key_length (double_of_Z LIBOSNMA_DSM_BLOCK_LENGTH)) in
  i32 (trunc_Z (dmul (double_of_Z LIBOSNMA_DSM_BLOCK_LENGTH)
                     (double_of_Z (ceil_Z blocks)))).

(** From the lengths to the signature check, for a key of [ks] bits and a
    signature of [l_ds] bits. *)
Definition check_kroot (public_key_info : PublicKeyInfo)
    (header dsm_kroot_message : cstring) (ks l_ds cidkr wnk towhk : Z) : outcome verdict :=
  let l_dk := padded_length ks l_ds in
  let pad_length := l_dk - LIBOSNMA_DSM_BLOCK_LENGTH - ks - l_ds in
  let* root_key_binstr := substr dsm_kroot_message LIBOSNMA_DSM_BLOCK_LENGTH ks in
  let* sig_binstr := substr dsm_kroot_message (LIBOSNMA_DSM_BLOCK_LENGTH + ks) l_ds in
  let* pad_binstr := substr dsm_kroot_message (LIBOSNMA_DSM_BLOCK_LENGTH + ks + l_ds) pad_length in
  let* chain_info := substr dsm_kroot_message LIBOSNMA_DSM_KROOT_CIDKR_OFFSET
                       LIBOSNMA_DSM_BLOCK_CIDKR_TO_KROOT_LENGTH in
  let m := header ++ chain_info ++ root_key_binstr in
  let* m_bytes := bin_string_to_byte_array m in
  let* sig_bytes := bin_string_to_byte_array sig_binstr in
  let* t_bytes := bin_string_to_byte_array (m ++ sig_binstr) in
  let t_digest := gnutls_hash_sha256 t_bytes in
  let* t_digest_trunc := substr (byte_array_to_bin_str t_digest) 0 pad_length in
  if negb (bool_decide (t_digest_trunc = pad_binstr)) then Returns PadMismatch else
  let half := (length sig_bytes / 2)%nat in
  let signature_r := take half sig_bytes in
  let signature_s := take half (drop half sig_bytes) in
  let '(err, signature) := gnutls_encode_rs_value signature_r signature_s in
  if negb (err =? 0) then Returns EncodingError else
  let err := gnutls_pubkey_verify_data2 (key public_key_info) (algorithm public_key_info)
               m_bytes signature in
  if err <? 0 then Returns (InvalidSignature err)
  else Returns (Verified cidkr wnk towhk).

(** From the first field read of the assembled message to the end.  [keys] is
    the processor's [public_keys] and [header] the message's [nma_header]. *)
Definition verify_kroot (keys : gmap Z PublicKeyInfo) (header dsm_kroot_message : cstring)
  : outcome verdict :=
  let read off len := read_bin_string_as_int dsm_kroot_message off len in
  let* _ := read LIBOSNMA_DSM_KROOT_NB_BLOCKS_OFFSET LIBOSNMA_DSM_KROOT_NB_BLOCKS_LENGTH in
  let* pkid := read LIBOSNMA_DSM_KROOT_PKID_OFFSET LIBOSNMA_DSM_KROOT_PKID_LENGTH in
  let* cidkr := read LIBOSNMA_DSM_KROOT_CIDKR_OFFSET LIBOSNMA_DSM_KROOT_CIDKR_LENGTH in
  let* _ := read LIBOSNMA_DSM_KROOT_HF_OFFSET LIBOSNMA_DSM_KROOT_HF_LENGTH in
  let* _ := read LIBOSNMA_DSM_KROOT_MF_OFFSET LIBOSNMA_DSM_KROOT_MF_LENGTH in
  let* ks_table_index := read LIBOSNMA_DSM_KROOT_KS_OFFSET LIBOSNMA_DSM_KROOT_KS_LENGTH in
  let* _ := read LIBOSNMA_DSM_KROOT_TS_OFFSET LIBOSNMA_DSM_KROOT_TS_LENGTH in
  let* _ := read LIBOSNMA_DSM_KROOT_MACLT_OFFSET LIBOSNMA_DSM_KROOT_MACLT_LENGTH in
  let* wnk := read LIBOSNMA_DSM_KROOT_WNK_OFFSET LIBOSNMA_DSM_KROOT_WNK_LENGTH in
  let* towhk := read LIBOSNMA_DSM_KROOT_TOWHK_OFFSET LIBOSNMA_DSM_KROOT_TOWHK_LENGTH in
  let* _ := substr dsm_kroot_message LIBOSNMA_DSM_KROOT_ALPHA_OFFSET LIBOSNMA_DSM_KROOT_ALPHA_LENGTH in
  let* ks := table_at DSM_KROOT_KS_TABLE ks_table_index in
  match keys !! pkid with
  | None => Returns (NoPublicKey pkid)
  | Some public_key_info =>
      match signature_length (algorithm public_key_info) with
      | None => Returns UnsupportedAlgorithm
      | Some l_ds => check_kroot public_key_info header dsm_kroot_message ks l_ds cidkr wnk towhk
      end
  end.

(** The loop that concatenates the blocks: [id_block_map[i]] inserts an empty
    block where there is none. *)
Definition assemble (nb : Z) (m : gmap Z cstring) : cstring * gmap Z cstring :=
  for_range 0 nb
    (fun i '(msg, m) =>
       let b := default [] (m !! i) in (msg ++ b, <[i := b]> m))
    ([], m).

(** ** The handler of one block

    On the [OSNMA_DSMMessage] of the block's DSM id.  [out] collects the
    verdicts the handler prints. *)

Record dsm_state := mkDsmState { dsm : OSNMA_DSMMessage; out : list verdict }.
#[export] Instance eta_dsm_state : Eta dsm_state := fun s => mkDsmState (dsm s) (out s).

Definition is_message_ready (d : OSNMA_DSMMessage) : bool :=
  (i32 (Z.of_nat (size (id_block_map d))) =? nb_blocks d) && negb (nb_blocks d =? 0).

Definition accept_block (keys : gmap Z PublicKeyInfo) (block_id : Z)
    (dsm_kroot_block header : cstring) : prog dsm_state unit :=
  done <- gets (fun s => is_processed (dsm s));;
  if done : bool then ret tt else
  modify (fun s => s <| dsm ::= fun d => d <| nma_header := header |> |>);;
  modify (fun s => s <| dsm ::= fun d =>
                     d <| id_block_map ::= <[block_id := dsm_kroot_block]> |> |>);;
  (if block_id =? 0 then
     nb_blocks_table_index <- lift (read_bin_string_as_int dsm_kroot_block
       LIBOSNMA_DSM_KROOT_NB_BLOCKS_OFFSET LIBOSNMA_DSM_KROOT_NB_BLOCKS_LENGTH);;
     nb <- lift (table_at DSM_KROOT_NB_BLOCKS_TABLE nb_blocks_table_index);;
     modify (fun s => s <| dsm ::= fun d => d <| nb_blocks := nb |> |>)
   else ret tt);;
  ready <- gets (fun s => is_message_ready (dsm s));;
  if negb ready then ret tt else
  dsm_kroot_message <- gets (fun s => (assemble (nb_blocks (dsm s)) (id_block_map (dsm s))).1);;
  modify (fun s => s <| dsm ::= fun d =>
                     d <| id_block_map ::= fun m => (assemble (nb_blocks d) m).2 |> |>);;
  v <- lift (verify_kroot keys header dsm_kroot_message);;
  modify (fun s => s <| out ::= fun o => o ++ [v] |>);;
  match v with
  | Verified _ _ _ => modify (fun s => s <| dsm ::= fun d => d <| is_processed := true |> |>)
  | _ => ret tt
  end.

End Kroot.

#[global] Arguments accept_block : simpl never.
#[global] Arguments verify_kroot : simpl never.
#[global] Arguments check_kroot : simpl never.
