(* ===== verification/OsnmaDsmProofs.v ===== *)
(** * OsnmaDsmProofs: what the DSM-KROOT handler guarantees

    The floating-point length computation is the integer one; a verification
    attempt on a bit string is [kroot_verdict], a specification on bit lists
    without exceptions; a message is accepted only when it is authentic; blocks
    may arrive in any order; and two ways in which reassembly goes wrong. *)

From S2P Require Import Prelude Cstring BinString Float64 OsnmaDsm.
From stdpp Require Import gmap list strings.
From Stdlib Require Import ZArith Lia Ascii.
Local Open Scope Z_scope.
Local Open Scope cxx_scope.

(** ** Lengths *)

Definition key_sizes : list Z := [96; 104; 112; 120; 128; 160; 192; 224; 256].

Lemma ks_table_cases k ks :
  DSM_KROOT_KS_TABLE !! k = Some ks -> ks = -1 \/ ks ∈ key_sizes.
Proof.
  intros H. apply elem_of_list_to_map_2 in H. unfold key_sizes.
  repeat (apply elem_of_cons in H as [H|H]; [injection H as -> ->; set_solver|]).
  set_solver.
Qed.

Lemma key_sizes_range ks : ks ∈ key_sizes -> 96 <= ks <= 256.
Proof. unfold key_sizes. intros H. repeat (apply elem_of_cons in H as [->|H]; [lia|]). set_solver. Qed.

Lemma signature_length_cases `{GnuTLS} a l :
  signature_length a = Some l -> l = 512 \/ l = 1056.
Proof. destruct a; intros [= <-]; auto. Qed.

(** The smallest whole number of blocks that holds the header block, the key
    and the signature. *)
Definition kroot_length (ks l_ds : Z) : Z := 104 * (1 + (ks + l_ds + 103) / 104).
Definition kroot_pad (ks l_ds : Z) : Z := kroot_length ks l_ds - 104 - ks - l_ds.

Definition lengths_agree (ks l_ds : Z) : bool :=
  padded_length ks l_ds =? kroot_length ks l_ds.

Lemma lengths_agree_all :
  forallb (fun ks => lengths_agree ks 512 && lengths_agree ks 1056) key_sizes = true.
Proof. vm_compute. reflexivity. Qed.

Lemma padded_length_eq ks l_ds :
  ks ∈ key_sizes -> l_ds = 512 \/ l_ds = 1056 ->
  padded_length ks l_ds = kroot_length ks l_ds.
Proof.
  intros Hk Hl. pose proof lengths_agree_all as H.
  rewrite forallb_forall in H. specialize (H ks).
  rewrite <- list_elem_of_In in H. specialize (H Hk).
  apply andb_true_iff in H as [H1 H2]. apply Z.eqb_eq in H1, H2.
  destruct Hl as [->| ->]; assumption.
Qed.

Lemma kroot_pad_range ks l_ds : 0 <= kroot_pad ks l_ds < 104.
Proof.
  unfold kroot_pad, kroot_length.
  pose proof (Z.div_mod (ks + l_ds + 103) 104 ltac:(lia)).
  pose proof (Z.mod_pos_bound (ks + l_ds + 103) 104 ltac:(lia)). lia.
Qed.

Lemma ks_table_all :
  Forall (fun n => is_Some (DSM_KROOT_KS_TABLE !! n)) (seqZ 0 16).
Proof. vm_compute. repeat constructor; eexists; reflexivity. Qed.

Lemma ks_table_total n : 0 <= n < 16 -> is_Some (DSM_KROOT_KS_TABLE !! n).
Proof.
  intros H. eapply (proj1 (Forall_forall _ _) ks_table_all). apply elem_of_seqZ. lia.
Qed.

(** ** The verification as a specification on bit lists *)

Section Authenticity.
Context {G : GnuTLS} {GO : GnuTLSOk G}.
Variable keys : gmap Z PublicKeyInfo.

Definition digest_bits (bs : list bool) : list bool :=
  concat (map (to_bin 8) (gnutls_hash_sha256 (bytes_of bs))).

(** What is signed, the signature, and the padding, for a key of [ks] bits and a
    signature of [l_ds] bits. *)
Definition signed_bits (hdr bs : list bool) (ks : Z) : list bool :=
  hdr ++ slice bs 8 96 ++ slice bs 104 ks.
Definition sig_bits (bs : list bool) (ks l_ds : Z) : list bool :=
  slice bs (104 + ks) l_ds.
Definition pad_bits (bs : list bool) (ks l_ds : Z) : list bool :=
  slice bs (104 + ks + l_ds) (kroot_pad ks l_ds).

(** The signature as the library takes it: two integers of equal size. *)
Definition encoded (sig : list bool) : Z * list Z :=
  let b := bytes_of sig in
  let half := (length b / 2)%nat in
  gnutls_encode_rs_value (take half b) (take half (drop half b)).

(** A message is authentic when its key is known, its padding is the head of
    the digest of everything signed and the signature itself, and the library
    accepts the signature under that key. *)
Definition kroot_authentic (hdr bs : list bool) : Prop :=
  exists info ks l_ds,
    keys !! field bs 4 4 = Some info /\
    DSM_KROOT_KS_TABLE !! field bs 16 4 = Some ks /\
    signature_length (algorithm info) = Some l_ds /\
    take (Z.to_nat (kroot_pad ks l_ds))
      (digest_bits (signed_bits hdr bs ks ++ sig_bits bs ks l_ds)) = pad_bits bs ks l_ds /\
    (encoded (sig_bits bs ks l_ds)).1 = 0 /\
    0 <= gnutls_pubkey_verify_data2 (key info) (algorithm info)
           (bytes_of (signed_bits hdr bs ks)) (encoded (sig_bits bs ks l_ds)).2.

(** The message is long enough for the key and signature it names, and names a
    key size. *)
Definition kroot_fits (bs : list bool) : Prop :=
  104 <= blen bs < 2 ^ 31 /\
  exists ks, DSM_KROOT_KS_TABLE !! field bs 16 4 = Some ks /\ ks ∈ key_sizes /\
    forall info l_ds, keys !! field bs 4 4 = Some info ->
      signature_length (algorithm info) = Some l_ds -> 104 + ks + l_ds <= blen bs.

(** The verdict, without exceptions. *)
Definition kroot_verdict (hdr bs : list bool) : verdict :=
  match keys !! field bs 4 4, DSM_KROOT_KS_TABLE !! field bs 16 4 with
  | Some info, Some ks =>
    match signature_length (algorithm info) with
    | Some l_ds =>
      let m := signed_bits hdr bs ks in
      let sig := sig_bits bs ks l_ds in
      if decide (take (Z.to_nat (kroot_pad ks l_ds)) (digest_bits (m ++ sig))
                 = pad_bits bs ks l_ds)
      then if (encoded sig).1 =? 0 then
             let err := gnutls_pubkey_verify_data2 (key info) (algorithm info)
                          (bytes_of m) (encoded sig).2 in
             if err <? 0 then InvalidSignature err
             else Verified (field bs 8 2) (field bs 36 12) (field bs 48 8)
           else EncodingError
      else PadMismatch
    | None => UnsupportedAlgorithm
    end
  | _, _ => NoPublicKey (field bs 4 4)
  end.

Lemma kroot_verdict_authentic hdr bs c w t :
  kroot_verdict hdr bs = Verified c w t <->
  kroot_authentic hdr bs /\ c = field bs 8 2 /\ w = field bs 36 12 /\ t = field bs 48 8.
Proof.
  unfold kroot_verdict, kroot_authentic. split.
  - destruct (keys !! _) as [info|] eqn:E1; [|done].
    destruct (DSM_KROOT_KS_TABLE !! _) as [ks|] eqn:E2; [|done].
    destruct (signature_length _) as [l|] eqn:E3; [|done].
    case_decide as Hp; [|done]. destruct (Z.eqb_spec (encoded (sig_bits bs ks l)).1 0) as [He|]; [|done].
    cbv zeta. destruct (Z.ltb_spec (gnutls_pubkey_verify_data2 (key info) (algorithm info)
      (bytes_of (signed_bits hdr bs ks)) (encoded (sig_bits bs ks l)).2) 0) as [|Hv]; [done|].
    intros [= <- <- <-]. split; [|auto]. exists info, ks, l. auto 10.
  - intros [(info & ks & l & -> & -> & E3 & Hp & He & Hv) (-> & -> & ->)].
    rewrite E3. rewrite decide_True by exact Hp. rewrite (proj2 (Z.eqb_eq _ _) He).
    cbv zeta. destruct (Z.ltb_spec (gnutls_pubkey_verify_data2 (key info) (algorithm info)
      (bytes_of (signed_bits hdr bs ks)) (encoded (sig_bits bs ks l)).2) 0); [lia|done].
Qed.

Lemma digest_length bs : length (digest_bits bs) = 256%nat.
Proof.
  unfold digest_bits. rewrite (concat_length_const (to_bin 8) 8).
  - rewrite sha256_length. reflexivity.
  - apply Forall_forall. intros x _. apply length_to_bin.
Qed.

Lemma verify_kroot_reads hdr bs ks :
  104 <= blen bs < 2 ^ 31 ->
  DSM_KROOT_KS_TABLE !! field bs 16 4 = Some ks ->
  verify_kroot keys hdr (bits_str bs) =
  match keys !! field bs 4 4 with
  | None => Returns (NoPublicKey (field bs 4 4))
  | Some info =>
    match signature_length (algorithm info) with
    | None => Returns UnsupportedAlgorithm
    | Some l_ds =>
      check_kroot info hdr (bits_str bs) ks l_ds
        (field bs 8 2) (field bs 36 12) (field bs 48 8)
    end
  end.
Proof.
  intros Hl Hks. unfold verify_kroot.
  bit_fields bs.
  change (substr (bits_str bs) LIBOSNMA_DSM_KROOT_ALPHA_OFFSET
    LIBOSNMA_DSM_KROOT_ALPHA_LENGTH) with (substr (bits_str bs) 56 48).
  rewrite (substr_slice bs 56 48) by lia. cbn [outcome_bind].
  unfold table_at. rewrite Hks. reflexivity.
Qed.

Lemma pack_bits_str bs :
  blen bs < 2 ^ 40 -> bin_string_to_byte_array (bits_str bs) = Returns (bytes_of bs).
Proof. unfold blen. intros H. apply pack_returns. lia. Qed.

Lemma check_kroot_long info hdr bs ks l_ds c w t :
  ks ∈ key_sizes -> l_ds = 512 \/ l_ds = 1056 ->
  blen hdr < 2 ^ 31 -> 104 + ks + l_ds <= blen bs < 2 ^ 31 ->
  check_kroot info (bits_str hdr) (bits_str bs) ks l_ds c w t = Returns
   (let m := signed_bits hdr bs ks in
    let sig := sig_bits bs ks l_ds in
    if decide (take (Z.to_nat (kroot_pad ks l_ds)) (digest_bits (m ++ sig))
               = pad_bits bs ks l_ds)
    then if (encoded sig).1 =? 0 then
           let err := gnutls_pubkey_verify_data2 (key info) (algorithm info)
                        (bytes_of m) (encoded sig).2 in
           if err <? 0 then InvalidSignature err else Verified c w t
         else EncodingError
    else PadMismatch).
Proof.
  intros Hks Hds Hhdr Hlen. pose proof (key_sizes_range ks Hks).
  pose proof (kroot_pad_range ks l_ds) as Hpad.
  unfold check_kroot. cbv zeta. rewrite padded_length_eq by assumption.
  unfold LIBOSNMA_DSM_BLOCK_LENGTH. fold (kroot_pad ks l_ds).
  rewrite !substr_slice by lia. cbn [outcome_bind].
  change (substr (bits_str bs) LIBOSNMA_DSM_KROOT_CIDKR_OFFSET
    LIBOSNMA_DSM_BLOCK_CIDKR_TO_KROOT_LENGTH) with (substr (bits_str bs) 8 96).
  rewrite (substr_slice bs 8 96) by lia. cbn [outcome_bind].
  fold (sig_bits bs ks l_ds) (pad_bits bs ks l_ds).
  rewrite <- !bits_str_app. fold (signed_bits hdr bs ks).
  pose proof (length_slice_le bs 8 96 ltac:(lia)). pose proof (length_slice_le bs 104 ks ltac:(lia)).
  pose proof (length_slice_le bs (104 + ks) l_ds ltac:(lia)).
  assert (blen (signed_bits hdr bs ks) < 2 ^ 32) as Hm
    by (unfold signed_bits; rewrite !blen_app; lia).
  rewrite !pack_bits_str by (rewrite ?blen_app; unfold sig_bits; lia). cbn [outcome_bind].
  rewrite byte_array_to_bin_str_flat.
  fold (digest_bits (signed_bits hdr bs ks ++ sig_bits bs ks l_ds)).
  rewrite substr_slice by (unfold blen; rewrite ?digest_length; lia).
  cbn [outcome_bind]. unfold slice at 1. cbn [Z.to_nat drop].
  set (d := take _ _).
  replace (bool_decide (bits_str d = bits_str (pad_bits bs ks l_ds)))
    with (bool_decide (d = pad_bits bs ks l_ds))
    by (apply bool_decide_ext; split; [congruence | apply bits_str_inj]).
  destruct (decide (d = pad_bits bs ks l_ds)) as [Hd|Hd];
    [rewrite bool_decide_true by exact Hd | rewrite bool_decide_false by exact Hd]; [|done].
  cbn [negb]. unfold encoded.
  destruct (gnutls_encode_rs_value _ _) as [err sg] eqn:E. cbn [fst snd].
  destruct (err =? 0); [cbn [negb]|done]. destruct (_ <? 0); done.
Qed.

Lemma check_kroot_short info hdr bs ks l_ds c w t :
  ks ∈ key_sizes -> l_ds = 512 \/ l_ds = 1056 ->
  104 <= blen bs < 104 + ks + l_ds -> blen bs < 2 ^ 31 ->
  check_kroot info hdr (bits_str bs) ks l_ds c w t = Throws out_of_range.
Proof.
  intros Hks Hds Hlen H31. pose proof (key_sizes_range ks Hks).
  unfold check_kroot. cbv zeta. unfold LIBOSNMA_DSM_BLOCK_LENGTH.
  rewrite (substr_slice bs 104 ks) by lia. cbn [outcome_bind].
  assert (forall p n, blen bs < p < 2 ^ 40 -> substr (bits_str bs) p n = Throws out_of_range) as Hs.
  { intros p n Hp. apply substr_beyond. unfold size_t.
    rewrite wrap_small, length_bits_str by lia. unfold blen in Hp. lia. }
  destruct (decide (blen bs < 104 + ks)) as [H1|H1]; [rewrite Hs by lia; done|].
  rewrite substr_slice by lia. cbn [outcome_bind]. rewrite Hs by lia. done.
Qed.

Lemma verify_kroot_spec hdr bs :
  blen hdr < 2 ^ 31 -> kroot_fits bs ->
  verify_kroot keys (bits_str hdr) (bits_str bs) = Returns (kroot_verdict hdr bs).
Proof.
  intros Hh [Hl (ks & Hks & Hin & Hfit)]. rewrite (verify_kroot_reads _ _ ks) by (lia || done).
  unfold kroot_verdict. rewrite Hks.
  destruct (keys !! field bs 4 4) as [info|] eqn:Ek; [|done].
  destruct (signature_length (algorithm info)) as [l|] eqn:El; [|done].
  pose proof (Hfit _ _ eq_refl El). apply check_kroot_long; [exact Hin| |lia|lia].
  eapply signature_length_cases; exact El.
Qed.
End Authenticity.

(** ** The handler of one block *)

Section Blocks.
Context {G : GnuTLS}.
Variable keys : gmap Z PublicKeyInfo.

Definition is_verified (v : verdict) : bool :=
  match v with Verified _ _ _ => true | _ => false end.

(** The block count that a first block announces. *)
Definition nb_of (blk : list bool) : Z :=
  default 0 (DSM_KROOT_NB_BLOCKS_TABLE !! field blk 0 4).

(** The message with one more block. *)
Definition stored (hdr : cstring) (id : Z) (blk : list bool) (d : OSNMA_DSMMessage)
  : OSNMA_DSMMessage :=
  mkOSNMA_DSMMessage (if id =? 0 then nb_of blk else nb_blocks d) hdr
    (<[id := bits_str blk]> (id_block_map d)) false.

Lemma nb_table_all :
  Forall (fun n => exists v, DSM_KROOT_NB_BLOCKS_TABLE !! n = Some v /\ -1 <= v <= 14)
    (seqZ 0 16).
Proof. vm_compute. repeat constructor; (eexists; split; [reflexivity|]; split; discriminate). Qed.

Lemma nb_table_total n :
  0 <= n < 16 -> exists v, DSM_KROOT_NB_BLOCKS_TABLE !! n = Some v /\ -1 <= v <= 14.
Proof.
  intros H. apply (proj1 (Forall_forall _ _) nb_table_all). apply elem_of_seqZ. lia.
Qed.

Lemma nb_of_lookup blk :
  DSM_KROOT_NB_BLOCKS_TABLE !! field blk 0 4 = Some (nb_of blk) /\ -1 <= nb_of blk <= 14.
Proof.
  unfold nb_of. destruct (nb_table_total (field blk 0 4)) as (v & E & Hv).
  - apply (field_range blk 0 4). lia.
  - rewrite E. auto.
Qed.

(** The whole handler, with the message it stores in closed form. *)
Lemma accept_block_stored hdr id blk s :
  is_processed (dsm s) = false -> length blk = 104%nat ->
  accept_block keys id (bits_str blk) hdr s =
  let d := stored hdr id blk (dsm s) in
  if negb (is_message_ready d) then (Returns tt, mkDsmState d (out s)) else
  let m := (assemble (nb_blocks d) (id_block_map d)).2 in
  match verify_kroot keys hdr (assemble (nb_blocks d) (id_block_map d)).1 with
  | Throws e => (Throws e, mkDsmState (d <| id_block_map := m |>) (out s))
  | Returns v =>
      (Returns tt,
       mkDsmState (mkOSNMA_DSMMessage (nb_blocks d) hdr m (is_verified v)) (out s ++ [v]))
  end.
Proof.
  intros Hp Hl. destruct s as [d o]. cbn [dsm out] in *.
  destruct d as [nb h m p]. cbn [is_processed] in Hp. subst p.
  assert (read_bin_string_as_int (bits_str blk) LIBOSNMA_DSM_KROOT_NB_BLOCKS_OFFSET
            LIBOSNMA_DSM_KROOT_NB_BLOCKS_LENGTH = Returns (field blk 0 4)) as Er.
  { apply (read_slice blk 0 4); unfold blen; lia. }
  assert (table_at DSM_KROOT_NB_BLOCKS_TABLE (field blk 0 4) = Returns (nb_of blk)) as Et
    by (unfold table_at; rewrite (proj1 (nb_of_lookup blk)); done).
  unfold accept_block, stored, bind, gets, modify, ret. cbn -[table_at].
  destruct (Z.eqb_spec id 0) as [->|Hid].
  - unfold lift. rewrite Er, Et. cbn.
    destruct (is_message_ready _); [|done]. cbn.
    destruct (verify_kroot _ _ _) as [v|e]; [|done]. destruct v; reflexivity.
  - cbn. destruct (is_message_ready _); [|done]. cbn. unfold lift.
    destruct (verify_kroot _ _ _) as [v|e]; [|done]. destruct v; reflexivity.
Qed.

Lemma accept_block_processed hdr id block s :
  is_processed (dsm s) = true -> accept_block keys id block hdr s = (Returns tt, s).
Proof. intros H. unfold accept_block, bind, gets. rewrite H. reflexivity. Qed.

(** *** Concatenation *)

Definition block_bits (m : gmap Z cstring) (i : Z) : list bool :=
  default [] (m !! i ≫= char_bits).
Definition message_bits (nb : Z) (m : gmap Z cstring) : list bool :=
  concat (map (block_bits m) (seqZ 0 nb)).

(** Block ids have four bits and every block is a string of at most 104 bits; once the number of blocks is
    known, block 0 is there, whole, and announces it. *)
Record dsm_wf (d : OSNMA_DSMMessage) : Prop := {
  wf_ids : map_Forall (fun i _ => 0 <= i < 16) (id_block_map d);
  wf_blocks : map_Forall (fun _ b => exists bs, b = bits_str bs /\ (length bs <= 104)%nat)
                (id_block_map d);
  wf_first : nb_blocks d <> 0 ->
    exists bs, id_block_map d !! 0 = Some (bits_str bs) /\ length bs = 104%nat /\
               nb_blocks d = nb_of bs
}.

Definition fill (m : gmap Z cstring) (i : Z) : gmap Z cstring := <[i := default [] (m !! i)]> m.

Lemma fill_lookup m i j : default [] (fill m i !! j) = default [] (m !! j).
Proof.
  unfold fill. destruct (decide (i = j)) as [<-|Hn].
  - rewrite lookup_insert_eq. reflexivity.
  - rewrite lookup_insert_ne by exact Hn. reflexivity.
Qed.

Lemma fill_present m i : is_Some (m !! i) -> fill m i = m.
Proof. intros [b E]. unfold fill. rewrite E. apply insert_id, E. Qed.

Lemma assemble_eq nb m :
  assemble nb m =
  (concat (map (fun i => default [] (m !! i)) (seqZ 0 nb)), fold_left fill (seqZ 0 nb) m).
Proof.
  unfold assemble, for_range. rewrite Z.sub_0_r.
  assert (forall l acc m', (forall j, default [] (m' !! j) = default [] (m !! j)) ->
    fold_left (fun s i => let '(msg, m0) := s in
                 let b := default [] (m0 !! i) in (msg ++ b, <[i:=b]> m0)) l (acc, m') =
    (acc ++ concat (map (fun i => default [] (m !! i)) l), fold_left fill l m')) as H.
  { induction l as [|i l IH]; intros acc m' Hm'; cbn [fold_left map concat].
    - rewrite app_nil_r. reflexivity.
    - cbv zeta. fold (fill m' i). rewrite IH, Hm', <- app_assoc; [reflexivity|].
      intros j. rewrite fill_lookup. apply Hm'. }
  apply H. reflexivity.
Qed.

Lemma fold_fill_lookup l m j :
  fold_left fill l m !! j =
  if decide (j ∈ l) then Some (default [] (m !! j)) else m !! j.
Proof.
  revert m. induction l as [|i l IH]; intros m; cbn [fold_left].
  - rewrite decide_False by set_solver. reflexivity.
  - rewrite IH, fill_lookup. destruct (decide (j ∈ l)) as [Hj|Hj].
    { rewrite decide_True by (right; exact Hj). reflexivity. }
    unfold fill. destruct (decide (i = j)) as [<-|Hn].
    + rewrite lookup_insert_eq, decide_True by set_solver. reflexivity.
    + rewrite lookup_insert_ne, decide_False by (rewrite ?elem_of_cons; naive_solver).
      reflexivity.
Qed.

Lemma fold_fill_present l m :
  (forall i, i ∈ l -> is_Some (m !! i)) -> fold_left fill l m = m.
Proof.
  intros H. apply map_eq. intros j. rewrite fold_fill_lookup.
  case_decide as Hj; [|done]. destruct (H j Hj) as [b ->]. reflexivity.
Qed.

Lemma block_bits_str m i :
  map_Forall (fun _ b => exists bs, b = bits_str bs /\ (length bs <= 104)%nat) m ->
  default [] (m !! i) = bits_str (block_bits m i) /\ (length (block_bits m i) <= 104)%nat.
Proof.
  intros H. unfold block_bits. destruct (m !! i) as [b|] eqn:E; [|split; [done|simpl; lia]].
  destruct (H i b E) as (bs & -> & Hl). cbn. rewrite char_bits_str. auto.
Qed.

Lemma block_bits_lookup m i bs : m !! i = Some (bits_str bs) -> block_bits m i = bs.
Proof. unfold block_bits. intros ->. cbn. rewrite char_bits_str. reflexivity. Qed.

(** The concatenation loop computes the message of the stored blocks. *)
Lemma assemble_message nb m :
  map_Forall (fun _ b => exists bs, b = bits_str bs /\ (length bs <= 104)%nat) m ->
  (assemble nb m).1 = bits_str (message_bits nb m).
Proof.
  intros H. rewrite assemble_eq. unfold message_bits, bits_str. cbn [fst].
  rewrite concat_map, map_map. f_equal. apply map_ext. intros i.
  apply (block_bits_str m i H).
Qed.

Lemma message_bits_length nb m :
  map_Forall (fun _ b => exists bs, b = bits_str bs /\ (length bs <= 104)%nat) m ->
  (length (message_bits nb m) <= 104 * Z.to_nat nb)%nat.
Proof.
  intros H. unfold message_bits.
  replace (Z.to_nat nb) with (length (seqZ 0 nb)) by (rewrite length_seqZ; done).
  induction (seqZ 0 nb) as [|i l IH]; cbn [map concat length]; [lia|].
  rewrite length_app. pose proof (proj2 (block_bits_str m i H)). lia.
Qed.

Lemma message_bits_first nb m :
  0 < nb -> exists tl, message_bits nb m = block_bits m 0 ++ tl.
Proof.
  intros H. unfold message_bits. rewrite seqZ_cons by lia. cbn [map concat]. eauto.
Qed.

Lemma message_bits_fill nb m : message_bits nb (assemble nb m).2 = message_bits nb m.
Proof.
  unfold message_bits. f_equal. apply map_ext. intros i. unfold block_bits.
  rewrite assemble_eq. cbn [snd]. rewrite fold_fill_lookup.
  case_decide; [|done]. destruct (m !! i); reflexivity.
Qed.

Lemma nb_blocks_range d : dsm_wf d -> -1 <= nb_blocks d <= 14.
Proof.
  intros [_ _ Hf]. destruct (decide (nb_blocks d = 0)) as [->|Hn]; [lia|].
  destruct (Hf Hn) as (bs & _ & _ & ->). apply nb_of_lookup.
Qed.

Lemma ids_bound (m : gmap Z cstring) :
  map_Forall (fun i _ => 0 <= i < 16) m -> (size m <= 16)%nat.
Proof.
  intros H. rewrite <- size_dom.
  assert (dom m ⊆ (list_to_set (seqZ 0 16) : gset Z)) as Hsub.
  { intros i Hi. apply elem_of_dom in Hi as [b E]. apply elem_of_list_to_set, elem_of_seqZ.
    specialize (H i b E). cbn in H. lia. }
  etransitivity; [apply subseteq_size; exact Hsub|]. vm_compute. lia.
Qed.

Lemma stored_wf hdr id blk d :
  length blk = 104%nat -> 0 <= id < 16 -> dsm_wf d -> dsm_wf (stored hdr id blk d).
Proof.
  intros Hl Hid [Hi Hb Hf]. unfold stored. split; cbn [id_block_map nb_blocks].
  - apply map_Forall_insert_2; assumption.
  - apply map_Forall_insert_2; [|exact Hb]. exists blk. split; [done|lia].
  - destruct (Z.eqb_spec id 0) as [->|Hne]; intros Hn.
    + exists blk. rewrite lookup_insert_eq. auto.
    + rewrite lookup_insert_ne by done. auto.
Qed.

Lemma filled_wf d h p :
  dsm_wf d ->
  dsm_wf (mkOSNMA_DSMMessage (nb_blocks d) h (assemble (nb_blocks d) (id_block_map d)).2 p).
Proof.
  intros Hwf. pose proof (nb_blocks_range d Hwf). destruct Hwf as [Hi Hb Hf].
  rewrite assemble_eq. split; cbn [id_block_map nb_blocks snd].
  - intros i b. rewrite fold_fill_lookup. case_decide as Hs; [|apply Hi].
    apply elem_of_seqZ in Hs. lia.
  - intros i b. rewrite fold_fill_lookup. case_decide; [|apply Hb].
    intros [= <-]. destruct (block_bits_str _ i Hb) as [-> Hl].
    eauto.
  - intros Hn. destruct (Hf Hn) as (bs & E & Hl & Hnb). exists bs.
    rewrite fold_fill_lookup, E. case_decide; auto.
Qed.

Lemma accept_block_wf hdr id blk s :
  length blk = 104%nat -> 0 <= id < 16 -> dsm_wf (dsm s) ->
  dsm_wf (dsm (accept_block keys id (bits_str blk) hdr s).2).
Proof.
  intros Hl Hid Hwf. destruct (is_processed (dsm s)) eqn:Hp.
  - rewrite accept_block_processed by exact Hp. exact Hwf.
  - rewrite accept_block_stored by assumption. cbv zeta.
    pose proof (stored_wf hdr id blk _ Hl Hid Hwf) as Hst.
    destruct (is_message_ready _); [|exact Hst]. cbn [negb].
    destruct (verify_kroot _ _ _) as [v|e]; cbn [snd dsm].
    + exact (filled_wf _ hdr (is_verified v) Hst).
    + exact (filled_wf _ _ _ Hst).
Qed.

Lemma new_dsm_wf : dsm_wf new_OSNMA_DSMMessage.
Proof. split; [apply map_Forall_empty .. | done]. Qed.
End Blocks.

Section Soundness.
Context {G : GnuTLS} {GO : GnuTLSOk G}.
Variable keys : gmap Z PublicKeyInfo.

Lemma ready_first d :
  dsm_wf d -> is_message_ready d = true ->
  0 < nb_blocks d <= 14 /\
  104 <= blen (message_bits (nb_blocks d) (id_block_map d)) < 2 ^ 31.
Proof.
  intros Hwf Hr. unfold is_message_ready in Hr. apply andb_true_iff in Hr as [Hs Hn].
  apply Z.eqb_eq in Hs. apply negb_true_iff, Z.eqb_neq in Hn.
  pose proof (ids_bound _ (wf_ids _ Hwf)) as Hsz.
  rewrite swrap_small in Hs by lia.
  destruct (wf_first _ Hwf Hn) as (bs & E & Hl & _).
  pose proof (nb_blocks_range d Hwf). split; [lia|].
  pose proof (message_bits_length (nb_blocks d) (id_block_map d) (wf_blocks _ Hwf)).
  destruct (message_bits_first (nb_blocks d) (id_block_map d)) as [tl Etl]; [lia|].
  unfold blen. split; [|lia].
  rewrite Etl, length_app, (block_bits_lookup _ _ _ E), Hl. lia.
Qed.

(** A verification that succeeds read a message that fits, or a reserved key
    size. *)
Lemma verified_fits hdr bs c w t :
  104 <= blen bs < 2 ^ 31 -> DSM_KROOT_KS_TABLE !! field bs 16 4 <> Some (-1) ->
  verify_kroot keys hdr (bits_str bs) = Returns (Verified c w t) -> kroot_fits keys bs.
Proof.
  intros Hl Hr Hv. split; [exact Hl|].
  destruct (ks_table_total (field bs 16 4)) as [ks Hks]; [apply (field_range bs 16 4); lia|].
  exists ks. destruct (ks_table_cases _ _ Hks) as [->|Hin]; [done|].
  split; [exact Hks|]. split; [exact Hin|]. intros info l Ek El.
  rewrite (verify_kroot_reads keys hdr bs ks Hl Hks), Ek, El in Hv.
  apply Z.le_ngt. intros Hlt. rewrite check_kroot_short in Hv; [done|exact Hin| |lia|lia].
  eapply signature_length_cases; exact El.
Qed.

Lemma accepted_authentic (hdr blk : list bool) (id : Z) (s : dsm_state) :
  dsm_wf (dsm s) -> is_processed (dsm s) = false ->
  length blk = 104%nat -> 0 <= id < 16 -> blen hdr < 2 ^ 31 ->
  let s' := (accept_block keys id (bits_str blk) (bits_str hdr) s).2 in
  is_processed (dsm s') = true ->
  nma_header (dsm s') = bits_str hdr /\
  let bs := message_bits (nb_blocks (dsm s')) (id_block_map (dsm s')) in
  (DSM_KROOT_KS_TABLE !! field bs 16 4 <> Some (-1) -> kroot_authentic keys hdr bs).
Proof.
  intros Hwf Hp Hl Hid Hh. rewrite accept_block_stored by assumption. cbv zeta.
  pose proof (stored_wf (bits_str hdr) id blk _ Hl Hid Hwf) as Hst.
  destruct (is_message_ready _) eqn:Hr; cbn [negb]; [|done].
  destruct (ready_first _ Hst Hr) as [_ Hlen].
  rewrite (assemble_message _ _ (wf_blocks _ Hst)).
  destruct (verify_kroot _ _ _) as [v|e] eqn:Hv; cbn [snd dsm is_processed]; [|done].
  cbn [nb_blocks id_block_map nma_header]. rewrite message_bits_fill.
  destruct v as [| | | | |c w t]; try done. intros _. split; [done|]. intros Hks.
  pose proof (verified_fits _ _ c w t Hlen Hks Hv) as Hfit.
  rewrite verify_kroot_spec in Hv by assumption.
  injection Hv as Hv. apply kroot_verdict_authentic in Hv. apply Hv.
Qed.
End Soundness.

(** ** Sequences of blocks *)

Section Sequences.
Context {G : GnuTLS}.
Variable keys : gmap Z PublicKeyInfo.
Variable hdr : cstring.
Variable blocks : Z -> list bool.

(** Blocks [blocks i] arriving in the order [ids]. *)
Fixpoint feed (ids : list Z) : prog dsm_state unit :=
  match ids with
  | [] => ret tt
  | i :: ids' => accept_block keys i (bits_str (blocks i)) hdr;; feed ids'
  end.

Lemma feed_snoc ids i s :
  feed (ids ++ [i]) s =
  match feed ids s with
  | (Returns _, s') => accept_block keys i (bits_str (blocks i)) hdr s'
  | (Throws e, s') => (Throws e, s')
  end.
Proof.
  revert s. induction ids as [|j ids IH]; intros s; cbn [feed app].
  - unfold bind, ret. destruct (accept_block _ _ _ _ s) as [[[]|e] s']; reflexivity.
  - unfold bind. destruct (accept_block _ _ _ _ s) as [[u|e] s']; [apply IH|reflexivity].
Qed.

Definition map_of (ids : list Z) : gmap Z cstring :=
  fold_left (fun m i => <[i := bits_str (blocks i)]> m) ids ∅.

Lemma map_of_snoc ids i : map_of (ids ++ [i]) = <[i := bits_str (blocks i)]> (map_of ids).
Proof. unfold map_of. rewrite fold_left_app. reflexivity. Qed.

Lemma map_of_lookup ids i :
  map_of ids !! i = if decide (i ∈ ids) then Some (bits_str (blocks i)) else None.
Proof.
  induction ids as [|j ids IH] using rev_ind.
  - rewrite decide_False by set_solver. apply lookup_empty.
  - rewrite map_of_snoc. destruct (decide (j = i)) as [<-|Hne].
    + rewrite lookup_insert_eq, decide_True by set_solver. reflexivity.
    + rewrite lookup_insert_ne, IH by done.
      rewrite (decide_ext (i ∈ ids ++ [j]) (i ∈ ids)) by set_solver. reflexivity.
Qed.

Lemma map_of_dom ids : dom (map_of ids) =@{gset Z} list_to_set ids.
Proof.
  apply leibniz_equiv. intros i. rewrite elem_of_dom, map_of_lookup, elem_of_list_to_set.
  case_decide; rewrite ?is_Some_alt; done.
Qed.

Lemma size_ids nb : 0 <= nb -> Z.of_nat (size (list_to_set (seqZ 0 nb) : gset Z)) = nb.
Proof.
  intros H. rewrite size_list_to_set by apply NoDup_seqZ. rewrite length_seqZ. lia.
Qed.

Lemma map_of_size_full nb ids :
  0 <= nb -> (forall i, i ∈ ids <-> 0 <= i < nb) ->
  Z.of_nat (size (map_of ids)) = nb.
Proof.
  intros Hnb H. rewrite <- size_dom, map_of_dom.
  etransitivity; [|exact (size_ids nb Hnb)]. do 2 f_equal. apply leibniz_equiv. intros i.
  rewrite !elem_of_list_to_set, H, elem_of_seqZ. lia.
Qed.

Lemma map_of_size_part nb ids last :
  0 <= last < nb -> (forall i, i ∈ ids -> 0 <= i < nb) -> last ∉ ids ->
  Z.of_nat (size (map_of ids)) < nb.
Proof.
  intros Hl H Hni. rewrite <- size_dom, map_of_dom.
  eapply Z.lt_le_trans; [|apply Z.eq_le_incl, size_ids; lia].
  apply Nat2Z.inj_lt, subset_size. split.
  - intros i. rewrite !elem_of_list_to_set, elem_of_seqZ. intros Hi%H. lia.
  - intros Hsub. apply Hni. specialize (Hsub last).
    rewrite !elem_of_list_to_set, elem_of_seqZ in Hsub. apply Hsub. lia.
Qed.

(** Until the last block of the message arrives, blocks are only stored. *)
Lemma feed_incomplete nb ids last :
  nb = nb_of (blocks 0) -> (forall i, length (blocks i) = 104%nat) ->
  0 <= last < nb -> (forall i, i ∈ ids -> 0 <= i < nb) -> last ∉ ids ->
  exists h, feed ids (mkDsmState new_OSNMA_DSMMessage []) =
    (Returns tt, mkDsmState (mkOSNMA_DSMMessage (if decide (0 ∈ ids) then nb else 0) h
                               (map_of ids) false) []).
Proof.
  intros Hnb Hbl Hlast. induction ids as [|j ids IH] using rev_ind; intros Hids Hni.
  - exists []. rewrite decide_False by set_solver. reflexivity.
  - destruct IH as [h IH]; [set_solver..|]. exists hdr. rewrite feed_snoc, IH.
    rewrite accept_block_stored by auto. unfold stored. cbn [id_block_map nb_blocks dsm out].
    rewrite <- map_of_snoc.
    replace (if j =? 0 then nb_of (blocks j) else if decide (0 ∈ ids) then nb else 0)
      with (if decide (0 ∈ ids ++ [j]) then nb else 0).
    2: { destruct (Z.eqb_spec j 0) as [->|Hj].
         - rewrite decide_True by set_solver. exact Hnb.
         - rewrite (decide_ext (0 ∈ ids ++ [j]) (0 ∈ ids)) by set_solver. reflexivity. }
    pose proof (map_of_size_part nb (ids ++ [j]) last Hlast Hids Hni) as Hsz.
    cbv zeta. unfold is_message_ready. cbn [nb_blocks id_block_map].
    destruct (nb_of_lookup (blocks 0)) as [_ Hr].
    rewrite swrap_small by lia. destruct (decide (0 ∈ ids ++ [j])) as [H0|H0].
    + replace (Z.of_nat (size (map_of (ids ++ [j]))) =? nb) with false
        by (symmetry; apply Z.eqb_neq; lia). reflexivity.
    + rewrite andb_false_r. reflexivity.
Qed.
End Sequences.

(** ** Properties *)

(** For every key size of the table and both signature lengths, the padded
    message length that the handler computes in [double] arithmetic is the
    exact one: a whole number of 104-bit blocks that holds the header block,
    the key and the signature with less than a block of padding, so the padding
    is always a proper prefix of a 256-bit digest. *)
Theorem padded_length_exact (ks l_ds : Z) :
  ks ∈ key_sizes -> l_ds = 512 \/ l_ds = 1056 ->
  exists n, padded_length ks l_ds = LIBOSNMA_DSM_BLOCK_LENGTH * n /\
    0 <= padded_length ks l_ds - LIBOSNMA_DSM_BLOCK_LENGTH - ks - l_ds
      < LIBOSNMA_DSM_BLOCK_LENGTH.
Proof.
  intros Hk Hl. rewrite padded_length_eq by assumption.
  exists (1 + (ks + l_ds + 103) / 104). split; [reflexivity|].
  apply kroot_pad_range.
Qed.

Lemma padded_length_exact_witness :
  exists n, padded_length 128 512 = 104 * n /\ 0 <= padded_length 128 512 - 104 - 128 - 512 < 104.
Proof. apply (padded_length_exact 128 512); [set_solver|lia]. Defined.

(** C33: On a message that is long enough for the key and signature it names,
    verification raises no exception, and it succeeds exactly when the message
    is authentic: the key it names is known, the padding is the head of the
    digest of header, chain data, root key and signature, and the signature
    library accepts the signature.  What it then reports are the message's
    chain id, week number and time of week. *)
Theorem verify_kroot_correct {G : GnuTLS} {GO : GnuTLSOk G} (keys : gmap Z PublicKeyInfo)
    (hdr bs : list bool) :
  blen hdr < 2 ^ 31 -> kroot_fits keys bs ->
  (exists v, verify_kroot keys (bits_str hdr) (bits_str bs) = Returns v) /\
  forall c w t,
    verify_kroot keys (bits_str hdr) (bits_str bs) = Returns (Verified c w t) <->
    kroot_authentic keys hdr bs /\ c = field bs 8 2 /\ w = field bs 36 12 /\ t = field bs 48 8.
Proof.
  intros Hh Hf. rewrite verify_kroot_spec by assumption. split; [eauto|].
  intros c w t. rewrite <- kroot_verdict_authentic. split; [intros [= <-]|intros ->]; done.
Qed.

(** A message that names a known key of a supported algorithm but is
    shorter than its key and signature makes the handler throw
    [std::out_of_range], which nothing catches: the declared number of blocks
    is never checked against the lengths the message implies. *)
Theorem verify_kroot_short {G : GnuTLS} {GO : GnuTLSOk G} (keys : gmap Z PublicKeyInfo)
    (hdr : cstring) (bs : list bool) (info : PublicKeyInfo) (ks l_ds : Z) :
  keys !! field bs 4 4 = Some info -> signature_length (algorithm info) = Some l_ds ->
  DSM_KROOT_KS_TABLE !! field bs 16 4 = Some ks -> ks ∈ key_sizes ->
  104 <= blen bs < 104 + ks + l_ds ->
  verify_kroot keys hdr (bits_str bs) = Throws out_of_range.
Proof.
  intros Hk Hl Hks Hin Hlen. pose proof (key_sizes_range ks Hin).
  pose proof (signature_length_cases _ _ Hl).
  rewrite (verify_kroot_reads keys hdr bs ks) by (lia || done).
  rewrite Hk, Hl. apply check_kroot_short; auto; lia.
Qed.

(** A DSM message is marked processed only when it is authentic: if the
    handler of one 104-bit block turns [is_processed] on, then the stored
    blocks, concatenated in order, form a message whose padding and signature
    check out under the header that came with that block and a key of the
    store (a message naming a reserved key size apart). *)
Theorem kroot_accepted_authentic {G : GnuTLS} {GO : GnuTLSOk G} (keys : gmap Z PublicKeyInfo)
    (hdr blk : list bool) (id : Z) (s : dsm_state) :
  dsm_wf (dsm s) -> is_processed (dsm s) = false ->
  length blk = 104%nat -> 0 <= id < 16 -> blen hdr < 2 ^ 31 ->
  let s' := (accept_block keys id (bits_str blk) (bits_str hdr) s).2 in
  let bs := message_bits (nb_blocks (dsm s')) (id_block_map (dsm s')) in
  is_processed (dsm s') = true -> DSM_KROOT_KS_TABLE !! field bs 16 4 <> Some (-1) ->
  kroot_authentic keys hdr bs.
Proof.
  intros Hwf Hp Hl Hid Hh s' bs Hp'.
  exact (proj2 (accepted_authentic keys hdr blk id s Hwf Hp Hl Hid Hh Hp')).
Qed.

(** The handler keeps every DSM message well formed, whether it returns or
    throws: block ids fit four bits, blocks are at most 104 bits, and a known
    block count is the one that the stored block 0 announces. *)
Theorem dsm_invariant {G : GnuTLS} (keys : gmap Z PublicKeyInfo)
    (hdr : cstring) (id : Z) (blk : list bool) (s : dsm_state) :
  length blk = 104%nat -> 0 <= id < 16 -> dsm_wf (dsm s) ->
  dsm_wf (dsm (accept_block keys id (bits_str blk) hdr s).2).
Proof. apply accept_block_wf. Qed.

(** C36: Blocks may arrive in any order, with repetitions: when the last missing
    block arrives, the handler has stored exactly the message's blocks and has
    made one verification attempt, on their concatenation in block order. *)
Theorem reassembly_any_order {G : GnuTLS} (keys : gmap Z PublicKeyInfo) (hdr : cstring)
    (blocks : Z -> list bool) (nb last : Z) (ids : list Z) (v : verdict) :
  nb = nb_of (blocks 0) -> (forall i, length (blocks i) = 104%nat) ->
  (forall i, i ∈ ids ++ [last] <-> 0 <= i < nb) -> last ∉ ids ->
  verify_kroot keys hdr (bits_str (concat (map blocks (seqZ 0 nb)))) = Returns v ->
  exists d, feed keys hdr blocks (ids ++ [last]) (mkDsmState new_OSNMA_DSMMessage []) =
      (Returns tt, mkDsmState d [v]) /\
    is_processed d = is_verified v /\ nb_blocks d = nb /\
    forall i, id_block_map d !! i = if decide (0 <= i < nb) then Some (bits_str (blocks i)) else None.
Proof.
  intros Hnb Hbl Hids Hni Hv.
  assert (0 <= last < nb) as Hlast by (apply Hids, elem_of_app; right; left).
  destruct (feed_incomplete keys hdr blocks nb ids last) as [h Hf]; auto.
  { intros i Hi. apply Hids, elem_of_app. left. exact Hi. }
  rewrite feed_snoc, Hf, accept_block_stored by auto.
  unfold stored. cbn [dsm id_block_map nb_blocks out]. rewrite <- map_of_snoc.
  replace (if last =? 0 then nb_of (blocks last) else if decide (0 ∈ ids) then nb else 0)
    with nb.
  2: { destruct (Z.eqb_spec last 0) as [->|Hne]; [done|].
       rewrite decide_True; [done|].
       assert (0 ∈ ids ++ [last]) as H0 by (apply Hids; lia).
       apply elem_of_app in H0 as [H0|H0]; [exact H0|].
       apply elem_of_cons in H0 as [H0|H0]; [lia|]. inversion H0. }
  set (m := map_of blocks (ids ++ [last])).
  pose proof (map_of_size_full blocks nb _ ltac:(lia) Hids) as Hsz. fold m in Hsz.
  assert (i32 nb = nb) as Hi32
    by (destruct (nb_of_lookup (blocks 0)) as [_ Hr]; apply swrap_small; lia).
  assert ((nb =? 0) = false) as Hn0 by (apply Z.eqb_neq; lia).
  assert (forall i, m !! i = if decide (0 <= i < nb) then Some (bits_str (blocks i)) else None)
    as Hm by (intros i; unfold m; rewrite map_of_lookup; apply decide_ext, Hids).
  assert (assemble nb m = (bits_str (concat (map blocks (seqZ 0 nb))), m)) as Ha.
  { rewrite assemble_eq. f_equal.
    - unfold bits_str. rewrite concat_map, map_map. f_equal. apply map_ext_in. intros i Hi.
      apply list_elem_of_In, elem_of_seqZ in Hi. rewrite Hm, decide_True by lia. reflexivity.
    - apply fold_fill_present. intros i Hi%elem_of_seqZ. rewrite Hm, decide_True by lia. eauto. }
  cbv zeta. unfold is_message_ready. cbn [nb_blocks id_block_map].
  rewrite Hsz, Hi32, Z.eqb_refl, Hn0. cbn [andb negb].
  rewrite Ha. cbn [fst snd]. rewrite Hv. eexists. split; [reflexivity|]. auto.
Qed.

(** A message that has stored more blocks than it announces is lost: however
    many blocks follow, as long as block 0 keeps announcing the same count no
    verification is attempted again.  (The handler compares the number of
    stored blocks with the announced one for equality.) *)
Theorem overfull_never_verified {G : GnuTLS} (keys : gmap Z PublicKeyInfo) (hdr : cstring)
    (blocks : Z -> list bool) (ids : list Z) (s : dsm_state) :
  (forall i, length (blocks i) = 104%nat) -> Forall (fun i => 0 <= i < 16) ids ->
  dsm_wf (dsm s) -> is_processed (dsm s) = false ->
  nb_blocks (dsm s) = nb_of (blocks 0) ->
  nb_blocks (dsm s) < Z.of_nat (size (id_block_map (dsm s))) ->
  let s' := (feed keys hdr blocks ids s).2 in
  (feed keys hdr blocks ids s).1 = Returns tt /\ out s' = out s /\ is_processed (dsm s') = false.
Proof.
  intros Hbl Hids. revert s. induction Hids as [|i ids Hi Hids IH]; intros s Hwf Hp Hnb Hsz;
    [done|].
  cbn [feed]. unfold bind. rewrite accept_block_stored by auto.
  pose proof (stored_wf hdr i (blocks i) _ (Hbl i) Hi Hwf) as Hst.
  set (d := stored hdr i (blocks i) (dsm s)) in *.
  assert (nb_blocks d = nb_of (blocks 0)) as Hnb'.
  { subst d. cbn. destruct (Z.eqb_spec i 0) as [->|]; done. }
  assert (nb_blocks d < Z.of_nat (size (id_block_map d))) as Hsz'.
  { eapply Z.lt_le_trans; [rewrite Hnb', <- Hnb; exact Hsz|]. apply Nat2Z.inj_le.
    subst d. cbn. rewrite map_size_insert. destruct (_ !! i); cbn; lia. }
  assert (is_message_ready d = false) as Hnr.
  { unfold is_message_ready. pose proof (ids_bound _ (wf_ids _ Hst)).
    pose proof (nb_blocks_range _ Hst).
    rewrite swrap_small by lia. apply andb_false_iff. left. apply Z.eqb_neq. lia. }
  cbv zeta. rewrite Hnr. cbn [negb]. apply (IH (mkDsmState d (out s))); auto.
Qed.

(** ** Concrete runs

    A signature library that accepts every signature and whose digest starts
    with the bytes 90 and 165, and a message of seven blocks for it: header
    block, 96-bit key, 512-bit signature, 16 bits of padding. *)

Definition toy_gnutls : GnuTLS := {|
  gnutls_pubkey_t := unit;
  gnutls_hash_sha256 := fun _ => 90 :: 165 :: replicate 30 0;
  gnutls_encode_rs_value := fun r s => (0, r ++ s);
  gnutls_pubkey_verify_data2 := fun _ _ _ _ => 0;
  GNUTLS_E_PK_SIG_VERIFY_FAILED := -89
|}.

#[export] Instance toy_gnutls_ok : GnuTLSOk toy_gnutls.
Proof. split; intros; [reflexivity | repeat constructor; lia]. Qed.

Definition toy_keys : gmap Z (@PublicKeyInfo toy_gnutls) :=
  {[ 0 := mkPublicKeyInfo toy_gnutls tt GNUTLS_SIGN_ECDSA_SHA256 ]}.

Definition toy_message : list bool :=
  to_bin 4 1 ++ replicate 4 false ++ to_bin 2 3 ++ replicate 26 false ++
  to_bin 12 1200 ++ to_bin 8 17 ++ replicate 48 true ++ to_bin 96 12345 ++
  replicate 512 true ++ to_bin 8 90 ++ to_bin 8 165.

Definition toy_blocks (i : Z) : list bool :=
  if (0 <=? i) && (i <? 7) then slice toy_message (104 * i) 104 else replicate 104 false.

Definition toy_header : list bool := to_bin 8 82.

Lemma toy_blocks_length i : length (toy_blocks i) = 104%nat.
Proof.
  unfold toy_blocks. destruct (Z.leb_spec 0 i), (Z.ltb_spec i 7); cbn [andb]; try reflexivity.
  assert (i ∈ seqZ 0 7) as Hi by (apply elem_of_seqZ; lia).
  revert i Hi H H0. assert (Forall (fun i => length (slice toy_message (104 * i) 104) = 104%nat)
    (seqZ 0 7)) as F by (vm_compute; repeat constructor).
  intros i Hi _ _. exact (proj1 (Forall_forall _ _) F i Hi).
Qed.

(** The message with all blocks but the last of them. *)
Definition toy_before_last : @dsm_state :=
  (feed (G := toy_gnutls) toy_keys (bits_str toy_header) toy_blocks [3; 0; 1; 2; 4; 5]
    (mkDsmState new_OSNMA_DSMMessage [])).2.

Lemma feed_wf {G : GnuTLS} keys hdr blocks ids s :
  (forall i, length (blocks i) = 104%nat) -> Forall (fun i => 0 <= i < 16) ids ->
  dsm_wf (dsm s) -> dsm_wf (dsm (feed keys hdr blocks ids s).2).
Proof.
  intros Hbl Hids. revert s. induction Hids as [|i ids Hi _ IH]; intros s Hs; [exact Hs|].
  cbn [feed]. unfold bind. pose proof (accept_block_wf keys hdr i (blocks i) s (Hbl i) Hi Hs) as H.
  destruct (accept_block _ _ _ _ s) as [[u|e] s']; [apply IH|]; exact H.
Qed.

Lemma verify_kroot_correct_witness :
  exists c w t, verify_kroot toy_keys (bits_str toy_header) (bits_str toy_message) =
    Returns (Verified c w t) /\ kroot_authentic toy_keys toy_header toy_message.
Proof.
  exists 3, 1200, 17.
  destruct (verify_kroot_correct toy_keys toy_header toy_message) as [_ H].
  - reflexivity.
  - split; [vm_compute; split; [discriminate|reflexivity]|].
    exists 96. split; [vm_compute; reflexivity|]. split; [unfold key_sizes; left|].
    intros info l [= <-] [= <-]. vm_compute. discriminate.
  - assert (verify_kroot toy_keys (bits_str toy_header) (bits_str toy_message) =
      Returns (Verified 3 1200 17)) as E by (vm_compute; reflexivity).
    split; [exact E|]. apply (H 3 1200 17), E.
Defined.

Lemma verify_kroot_short_witness :
  verify_kroot toy_keys (bits_str toy_header) (bits_str (slice toy_message 0 312)) =
  Throws out_of_range.
Proof.
  apply (verify_kroot_short toy_keys (bits_str toy_header) (slice toy_message 0 312)
    (mkPublicKeyInfo toy_gnutls tt GNUTLS_SIGN_ECDSA_SHA256) 96 512).
  - vm_compute. reflexivity.
  - reflexivity.
  - vm_compute. reflexivity.
  - unfold key_sizes. left.
  - vm_compute. split; [discriminate|reflexivity].
Defined.

Lemma toy_ids (ids : list Z) : forallb (fun i => (0 <=? i) && (i <? 16)) ids = true ->
  Forall (fun i => 0 <= i < 16) ids.
Proof.
  rewrite forallb_forall. intros H. apply Forall_forall. intros i Hi.
  apply list_elem_of_In, H, andb_true_iff in Hi. lia.
Qed.

Lemma toy_before_last_wf : dsm_wf (dsm toy_before_last).
Proof.
  apply feed_wf; [exact toy_blocks_length | apply toy_ids; reflexivity | apply new_dsm_wf].
Qed.

Lemma kroot_accepted_authentic_witness :
  kroot_authentic toy_keys toy_header
    (message_bits 7 (id_block_map (dsm (accept_block (G := toy_gnutls) toy_keys 6
       (bits_str (toy_blocks 6)) (bits_str toy_header) toy_before_last).2))).
Proof.
  apply (kroot_accepted_authentic toy_keys toy_header (toy_blocks 6) 6 toy_before_last).
  - apply toy_before_last_wf.
  - vm_compute. reflexivity.
  - apply toy_blocks_length.
  - lia.
  - reflexivity.
  - vm_compute. reflexivity.
  - vm_compute. discriminate.
Defined.

Lemma dsm_invariant_witness :
  dsm_wf (dsm (accept_block (G := toy_gnutls) toy_keys 6 (bits_str (toy_blocks 6))
    (bits_str toy_header) toy_before_last).2).
Proof.
  apply (dsm_invariant toy_keys (bits_str toy_header) 6 (toy_blocks 6) toy_before_last);
    [apply toy_blocks_length | lia | apply toy_before_last_wf].
Defined.

Lemma reassembly_any_order_witness :
  exists d, feed (G := toy_gnutls) toy_keys (bits_str toy_header) toy_blocks
      ([3; 0; 3; 1; 6; 2; 0; 4] ++ [5]) (mkDsmState new_OSNMA_DSMMessage []) =
    (Returns tt, mkDsmState d [Verified 3 1200 17]) /\ is_processed d = true.
Proof.
  destruct (reassembly_any_order toy_keys (bits_str toy_header) toy_blocks 7 5
    [3; 0; 3; 1; 6; 2; 0; 4] (Verified 3 1200 17)) as (d & H1 & H2 & _).
  - vm_compute. reflexivity.
  - apply toy_blocks_length.
  - intros i. rewrite <- (Z.add_0_l 7), <- elem_of_seqZ. unfold seqZ. cbn. set_solver.
  - set_solver.
  - vm_compute. reflexivity.
  - eauto.
Defined.

(** A block with an id beyond the announced count makes the handler take six of
    the seven blocks for the whole message, and throw; the seven blocks then
    never verify. *)
Lemma overfull_never_verified_witness :
  let s := (feed (G := toy_gnutls) toy_keys (bits_str toy_header) toy_blocks
              [9; 0; 1; 2; 3; 4; 5] (mkDsmState new_OSNMA_DSMMessage [])).2 in
  out (feed (G := toy_gnutls) toy_keys (bits_str toy_header) toy_blocks
         [6; 0; 1; 2; 3; 4; 5; 6] s).2 = [].
Proof.
  intros s. destruct (overfull_never_verified toy_keys (bits_str toy_header) toy_blocks
    [6; 0; 1; 2; 3; 4; 5; 6] s) as (_ & H & _).
  - apply toy_blocks_length.
  - apply toy_ids. reflexivity.
  - apply feed_wf; [exact toy_blocks_length | apply toy_ids; reflexivity | apply new_dsm_wf].
  - vm_compute. reflexivity.
  - vm_compute. reflexivity.
  - vm_compute. reflexivity.
  - etransitivity; [exact H|]. vm_compute. reflexivity.
Defined.
