(* ===== verification/OsnmaProcessor.v ===== *)
(** * OsnmaProcessor: pages in, subframes and DSM messages out

    [src/src/algorithms/security/libs/osnma/osnma_processor.{h,cc}]: per
    satellite, the pages of one subframe are collected in the order of
    [GALILEO_E1_INAV_WORD_SEQ]; a complete subframe is parsed and its DSM block
    handed to the message of its DSM id. *)

From S2P Require Import Prelude Cstring BinString GalileoData OsnmaSubframe OsnmaDsm.
From stdpp Require Import gmap list strings.
From Stdlib Require Import ZArith Lia Ascii.
Local Open Scope Z_scope.
Local Open Scope cxx_scope.

(** ** Constants of the header *)

Definition LIBOSNMA_OSNMA_DATA_LENGTH : Z := 40.
Definition LIBOSNMA_NAV_DATA_LENGTH : Z := 128.
Definition LIBOSNMA_WORD_TYPE_OFFSET : Z := 0.
Definition LIBOSNMA_WORD_TYPE_LENGTH : Z := 6.
Definition LIBOSNMA_NMA_HEADER_OFFSET : Z := 0.
Definition LIBOSNMA_NMA_HEADER_LENGTH : Z := 8.
Definition LIBOSNMA_NMAS_OFFSET : Z := 0.
Definition LIBOSNMA_NMAS_LENGTH : Z := 2.
Definition LIBOSNMA_CID_OFFSET : Z := LIBOSNMA_NMAS_OFFSET + LIBOSNMA_NMAS_LENGTH.
Definition LIBOSNMA_CID_LENGTH : Z := 2.
Definition LIBOSNMA_CPKS_OFFSET : Z := LIBOSNMA_CID_OFFSET + LIBOSNMA_CID_LENGTH.
Definition LIBOSNMA_CPKS_LENGTH : Z := 3.
Definition LIBOSNMA_NMAH_RESERVED_OFFSET : Z := LIBOSNMA_CPKS_OFFSET + LIBOSNMA_CPKS_LENGTH.
Definition LIBOSNMA_NMAH_RESERVED_LENGTH : Z := 1.
Definition LIBOSNMA_DSM_ID_OFFSET : Z :=
  LIBOSNMA_NMAH_RESERVED_OFFSET + LIBOSNMA_NMAH_RESERVED_LENGTH.
Definition LIBOSNMA_DSM_ID_LENGTH : Z := 4.
Definition LIBOSNMA_DSM_BLOCK_ID_OFFSET : Z := LIBOSNMA_DSM_ID_OFFSET + LIBOSNMA_DSM_ID_LENGTH.
Definition LIBOSNMA_DSM_BLOCK_ID_LENGTH : Z := 4.
Definition LIBOSNMA_DSM_BLOCK_OFFSET : Z :=
  LIBOSNMA_DSM_BLOCK_ID_OFFSET + LIBOSNMA_DSM_BLOCK_ID_LENGTH.
Definition LIBOSNMA_DSM_ID_PKR_START_ID : Z := 12.

Definition GALILEO_E1_INAV_WORD_SEQ : list (list Z) :=
  [[2]; [4]; [6]; [7; 9]; [8; 10]; [17; 18; 0]; [19; 20; 0]; [16; 0]; [0]; [0];
   [1]; [3]; [5]; [0]; [16; 0]].

(** ** State

    A subframe pointer is [None] when null.  [log] is what the processor has
    reported. *)

Section Processor.
Context {G : GnuTLS}.

Record OSNMAProcessor := mkOSNMAProcessor {
  public_keys : gmap Z PublicKeyInfo;
  prns_next_word_seq_ind : gmap Z Z;
  prn_current_subframe_map : gmap Z (option OSNMASubframe);
  dsm_id_dsm_message_map : gmap Z OSNMA_DSMMessage;
  log : list verdict
}.
#[export] Instance eta_OSNMAProcessor : Eta OSNMAProcessor :=
  fun p => mkOSNMAProcessor (public_keys p) (prns_next_word_seq_ind p)
             (prn_current_subframe_map p) (dsm_id_dsm_message_map p) (log p).

(** The constructor, after [load_keys] has filled [public_keys]. *)
Definition new_OSNMAProcessor (keys : gmap Z PublicKeyInfo) : OSNMAProcessor :=
  mkOSNMAProcessor keys ∅ ∅ ∅ [].

(** ** Operations *)

(** The old subframe, when there is one, is deleted and replaced. *)
Definition reset_current_subframe (prn : Z) : prog OSNMAProcessor unit :=
  modify (fun p => p <| prns_next_word_seq_ind ::= <[prn := 0]> |>);;
  modify (fun p => p <| prn_current_subframe_map ::= <[prn := Some new_OSNMASubframe]> |>).

(** The handler of one block, run on the message that the DSM id points to. *)
Definition process_dsm_kroot_block (dsm_id block_id : Z) (dsm_kroot_block nma_header : cstring)
  : prog OSNMAProcessor unit := fun p =>
  let d := default new_OSNMA_DSMMessage (dsm_id_dsm_message_map p !! dsm_id) in
  let '(o, s) := accept_block (public_keys p) block_id dsm_kroot_block nma_header
                   (mkDsmState d (log p)) in
  (o, p <| dsm_id_dsm_message_map ::= <[dsm_id := dsm s]> |> <| log := out s |>).

(** [read_bin_string_as_int(hkroot, LIBOSNMA_CID_OFFSET, LIBOSNMA_CID_OFFSET)]
    takes the offset for the length; both are 2. *)
Definition process_subframe (subframe : OSNMASubframe) : prog OSNMAProcessor unit :=
  let hkroot := get_hkroot_message subframe in
  nmas <- lift (read_bin_string_as_int hkroot LIBOSNMA_NMAS_OFFSET LIBOSNMA_NMAS_LENGTH);;
  if negb ((nmas =? 1) || (nmas =? 2)) then ret tt else
  lift (read_bin_string_as_int hkroot LIBOSNMA_CID_OFFSET LIBOSNMA_CID_OFFSET);;
  lift (read_bin_string_as_int hkroot LIBOSNMA_CPKS_OFFSET LIBOSNMA_CPKS_LENGTH);;
  dsm_id <- lift (read_bin_string_as_int hkroot LIBOSNMA_DSM_ID_OFFSET LIBOSNMA_DSM_ID_LENGTH);;
  dsm_block_id <- lift (read_bin_string_as_int hkroot LIBOSNMA_DSM_BLOCK_ID_OFFSET
                          LIBOSNMA_DSM_BLOCK_ID_LENGTH);;
  nma_header <- lift (substr hkroot LIBOSNMA_NMA_HEADER_OFFSET LIBOSNMA_NMA_HEADER_LENGTH);;
  dsm_block <- lift (substr hkroot LIBOSNMA_DSM_BLOCK_OFFSET LIBOSNMA_DSM_BLOCK_LENGTH);;
  if LIBOSNMA_DSM_ID_PKR_START_ID <=? dsm_id then ret tt
  else process_dsm_kroot_block dsm_id dsm_block_id dsm_block nma_header.

(** [subframe->add_page(...)] through the pointer of [prn]. *)
Definition add_page_of (prn word_type : Z) (osnma_data nav_data : cstring)
  : prog OSNMAProcessor bool := fun p =>
  match default None (prn_current_subframe_map p !! prn) with
  | None => (Throws undefined_behaviour, p)
  | Some sf =>
      let '(o, sf') := add_page word_type osnma_data nav_data sf in
      (o, p <| prn_current_subframe_map ::= <[prn := Some sf']> |>)
  end.

(** [*subframe], after [add_page] has used the pointer. *)
Definition subframe_of_prn (prn : Z) : prog OSNMAProcessor OSNMASubframe := fun p =>
  match default None (prn_current_subframe_map p !! prn) with
  | None => (Throws undefined_behaviour, p)
  | Some sf => (Returns sf, p)
  end.

(** [GALILEO_E1_INAV_WORD_SEQ[i]] is not bounds-checked. *)
Definition word_seq_at (i : Z) : outcome (list Z) :=
  if i <? 0 then Throws undefined_behaviour else
  match GALILEO_E1_INAV_WORD_SEQ !! Z.to_nat i with
  | Some ws => Returns ws
  | None => Throws undefined_behaviour
  end.

Definition feed_page (prn : Z) (osnma_data nav_data : cstring) : prog OSNMAProcessor unit :=
  if negb (str_size osnma_data =? LIBOSNMA_OSNMA_DATA_LENGTH)
     || negb (str_size nav_data =? LIBOSNMA_NAV_DATA_LENGTH)
  then reset_current_subframe prn else
  known <- gets (fun p => bool_decide (is_Some (prns_next_word_seq_ind p !! prn)));;
  (if negb known then reset_current_subframe prn else ret tt);;
  word_type <- lift (read_bin_string_as_int nav_data LIBOSNMA_WORD_TYPE_OFFSET
                       LIBOSNMA_WORD_TYPE_LENGTH);;
  next_word_seq_ind <- gets (fun p => default 0 (prns_next_word_seq_ind p !! prn));;
  expected_word_types <- lift (word_seq_at next_word_seq_ind);;
  if negb (bool_decide (word_type ∈ expected_word_types)) then reset_current_subframe prn else
  modify (fun p => p <| prns_next_word_seq_ind ::=
    <[prn := u8 ((next_word_seq_ind + 1) mod Z.of_nat (length GALILEO_E1_INAV_WORD_SEQ))]> |>);;
  subframe_ready <- add_page_of prn word_type osnma_data nav_data;;
  if negb subframe_ready then ret tt else
  subframe <- subframe_of_prn prn;;
  process_subframe subframe;;
  reset_current_subframe prn.

(** The OSNMA worker's message handler: one page of one satellite. *)
Definition msg_handler_telemetry_to_OSNMA (gal_osnma : Galileo_OSNMA) : prog OSNMAProcessor unit :=
  feed_page (PRN gal_osnma) (OSNMA_data gal_osnma) (nav_data gal_osnma).

(** A run of the worker; nothing catches an exception, so it ends the run. *)
Fixpoint worker (msgs : list Galileo_OSNMA) : prog OSNMAProcessor unit :=
  match msgs with
  | [] => ret tt
  | m :: msgs' => msg_handler_telemetry_to_OSNMA m;; worker msgs'
  end.

End Processor.

#[global] Arguments process_subframe : simpl never.
#[global] Arguments reset_current_subframe : simpl never.
