(* ===== verification/OsnmaProcessorProofs.v ===== *)
(** * OsnmaProcessorProofs: what the OSNMA processor guarantees

    No input makes the processor dereference a null subframe or index the word
    sequence out of range; on bit strings it refines a specification that keeps,
    per satellite, the list of pages accepted so far; and every DSM message that
    it ever marks processed is authentic. *)

From S2P Require Import Prelude Cstring BinString GalileoData OsnmaSubframe OsnmaDsm OsnmaDsmProofs OsnmaProcessor.
From stdpp Require Import gmap list strings.
From Stdlib Require Import ZArith Lia Ascii.
Local Open Scope Z_scope.
Local Open Scope cxx_scope.

(** ** Safety on arbitrary input *)

Section Safety.
Context {G : GnuTLS}.

(** A satellite with a sequence index has a subframe, and its index is one of
    the word sequence. *)
Definition processor_wf (p : OSNMAProcessor) : Prop :=
  forall prn i, prns_next_word_seq_ind p !! prn = Some i ->
    0 <= i < 15 /\ exists sf, prn_current_subframe_map p !! prn = Some (Some sf).

Definition not_ub {S} (P : S -> Prop) (e : exn) (s : S) : Prop :=
  e <> undefined_behaviour /\ P s.

Lemma wf_insert p prn i sf ks ds lg :
  processor_wf p -> 0 <= i < 15 ->
  processor_wf (mkOSNMAProcessor ks (<[prn := i]> (prns_next_word_seq_ind p))
                  (<[prn := Some sf]> (prn_current_subframe_map p)) ds lg).
Proof.
  intros Hwf Hi prn' j. cbn. destruct (decide (prn = prn')) as [<-|Hne].
  - rewrite !lookup_insert_eq. intros [= <-]. eauto.
  - rewrite !lookup_insert_ne by done. apply Hwf.
Qed.

Lemma reset_eq prn p :
  reset_current_subframe prn p =
  (Returns tt, mkOSNMAProcessor (public_keys p) (<[prn := 0]> (prns_next_word_seq_ind p))
     (<[prn := Some new_OSNMASubframe]> (prn_current_subframe_map p))
     (dsm_id_dsm_message_map p) (log p)).
Proof. reflexivity. Qed.

Lemma reset_wf prn :
  hoare processor_wf (reset_current_subframe prn) (fun _ => processor_wf) (not_ub processor_wf).
Proof. intros p Hp. rewrite reset_eq. apply wf_insert; [exact Hp|lia]. Qed.

Lemma table_at_defined t k : defined (table_at t k).
Proof. unfold table_at. destruct (t !! k); discriminate. Qed.

Hint Resolve table_at_defined : cxx.

Lemma check_kroot_defined info header msg ks l_ds c w t :
  defined (check_kroot info header msg ks l_ds c w t).
Proof.
  unfold check_kroot. cbv zeta.
  repeat (apply defined_bind; [auto with cxx|intros ?]).
  destruct (negb _); [discriminate|]. destruct (gnutls_encode_rs_value _ _) as [err sg].
  destruct (negb _); [discriminate|]. destruct (_ <? 0); discriminate.
Qed.

Lemma verify_kroot_defined keys header msg : defined (verify_kroot keys header msg).
Proof.
  unfold verify_kroot. repeat (apply defined_bind; [auto with cxx|intros ?]).
  destruct (keys !! _) as [info|]; [|discriminate].
  destruct (signature_length _); [apply check_kroot_defined|discriminate].
Qed.

Lemma hoare_pure {S A} (P : S -> Prop) (o : outcome A) :
  defined o -> hoare P (lift o) (fun _ => P) (not_ub P).
Proof.
  intros Ho. apply hoare_lift; [auto|]. intros e s -> Hs. split; [|exact Hs].
  intros ->. apply Ho. reflexivity.
Qed.

Lemma accept_block_defined keys id block header :
  never_ub (accept_block keys id block header).
Proof.
  unfold accept_block.
  apply never_ub_bind; [auto with cxx|intros [|]; [auto with cxx|]].
  do 2 (apply never_ub_bind; [auto with cxx|intros _]).
  apply never_ub_bind; [destruct (id =? 0); auto 8 with cxx|intros _].
  apply never_ub_bind; [auto with cxx|intros [|]; cbn [negb]; [|auto with cxx]].
  do 2 (apply never_ub_bind; [auto with cxx|intros ?]).
  apply never_ub_bind; [apply never_ub_lift, verify_kroot_defined|intros v].
  apply never_ub_bind; [auto with cxx|]. intros _. destruct v; auto with cxx.
Qed.

(** Processing a subframe touches neither indices nor subframes. *)
Definition same_pages (p q : OSNMAProcessor) : Prop :=
  prns_next_word_seq_ind q = prns_next_word_seq_ind p /\
  prn_current_subframe_map q = prn_current_subframe_map p.

Lemma process_dsm_spec dsm_id block_id block header p :
  let '(o, q) := process_dsm_kroot_block dsm_id block_id block header p in
  defined o /\ same_pages p q.
Proof.
  unfold process_dsm_kroot_block.
  pose proof (accept_block_defined (public_keys p) block_id block header
    (mkDsmState (default new_OSNMA_DSMMessage (dsm_id_dsm_message_map p !! dsm_id)) (log p))) as H.
  destruct (accept_block _ _ _ _ _) as [o s]. split; [exact H|]. split; reflexivity.
Qed.

Lemma process_subframe_safe sf p0 :
  hoare (same_pages p0) (process_subframe sf) (fun _ => same_pages p0)
    (not_ub (same_pages p0)).
Proof.
  unfold process_subframe. cbv zeta.
  eapply hoare_bind; [apply hoare_pure; auto with cxx|intros nmas].
  destruct (negb _); [intros p Hp; exact Hp|].
  do 6 (eapply hoare_bind; [apply hoare_pure; auto with cxx|intros ?]).
  destruct (_ <=? _); [intros p Hp; exact Hp|].
  intros p [H1 H2]. match goal with |- context [process_dsm_kroot_block ?a ?b ?c ?d p] =>
    pose proof (process_dsm_spec a b c d p) as Hs;
    destruct (process_dsm_kroot_block a b c d p) as [[u|e] q] end;
  destruct Hs as [Hd [H3 H4]]; [split; congruence|].
  split; [intros ->; apply Hd; reflexivity | split; congruence].
Qed.

Lemma word_seq_at_defined i : 0 <= i < 15 -> exists ws, word_seq_at i = Returns ws.
Proof.
  intros H. unfold word_seq_at. destruct (Z.ltb_spec i 0); [lia|].
  destruct (GALILEO_E1_INAV_WORD_SEQ !! Z.to_nat i) as [ws|] eqn:E; [eauto|].
  apply lookup_ge_None_1 in E. cbn in E. lia.
Qed.

Lemma next_ind_range i : 0 <= u8 ((i + 1) mod Z.of_nat (length GALILEO_E1_INAV_WORD_SEQ)) < 15.
Proof.
  change (Z.of_nat (length GALILEO_E1_INAV_WORD_SEQ)) with 15.
  pose proof (Z.mod_pos_bound (i + 1) 15 ltac:(lia)). rewrite wrap_small; lia.
Qed.

Lemma wf_same_pages p q : same_pages p q -> processor_wf p -> processor_wf q.
Proof. intros [H1 H2] Hp prn i. rewrite H1, H2. apply Hp. Qed.

Lemma add_page_defined w o n : never_ub (add_page w o n).
Proof.
  unfold add_page. apply never_ub_bind; [auto with cxx|intros [|]]; auto 12 with cxx.
Qed.

(** The end of [feed_page], from the word accepted at index [i]. *)
Definition accept_page (prn i word_type : Z) (osnma_data nav_data : cstring)
  : prog OSNMAProcessor unit :=
  modify (fun p => p <| prns_next_word_seq_ind ::=
    <[prn := u8 ((i + 1) mod Z.of_nat (length GALILEO_E1_INAV_WORD_SEQ))]> |>);;
  subframe_ready <- add_page_of prn word_type osnma_data nav_data;;
  if negb subframe_ready then ret tt else
  subframe <- subframe_of_prn prn;;
  process_subframe subframe;;
  reset_current_subframe prn.

Lemma accept_page_safe prn i w o n p :
  processor_wf p -> (exists sf, prn_current_subframe_map p !! prn = Some (Some sf)) ->
  match accept_page prn i w o n p with
  | (Returns _, q) => processor_wf q
  | (Throws e, q) => not_ub processor_wf e q
  end.
Proof.
  intros Hwf [sf Hsf]. unfold accept_page, modify, bind at 1. cbn [fst snd].
  unfold bind at 1, add_page_of. cbn. rewrite Hsf. cbn.
  pose proof (add_page_defined w o n sf) as Hd.
  destruct (add_page w o n sf) as [[ready|e] sf'];
    pose proof (wf_insert p prn _ sf' (public_keys p) (dsm_id_dsm_message_map p) (log p) Hwf
      (next_ind_range i)) as Hwf'.
  2: { split; [intros ->; apply Hd; reflexivity|exact Hwf']. }
  destruct ready; cbn [negb]; [|exact Hwf']. unfold bind at 1, subframe_of_prn. cbn.
  rewrite lookup_insert_eq. cbn. unfold bind.
  match goal with |- context [process_subframe sf' ?q] =>
    pose proof (process_subframe_safe sf' q q (conj eq_refl eq_refl)) as Hs;
    destruct (process_subframe sf' q) as [[u|e] q'] end.
  - apply reset_wf. exact (wf_same_pages _ _ Hs Hwf').
  - destruct Hs as [Hne Hs]. split; [exact Hne|]. exact (wf_same_pages _ _ Hs Hwf').
Qed.

Lemma feed_page_safe prn o n :
  hoare processor_wf (feed_page prn o n) (fun _ => processor_wf) (not_ub processor_wf).
Proof.
  unfold feed_page. destruct (_ || _); [apply reset_wf|].
  eapply hoare_bind with (R := fun b p => processor_wf p /\
    b = bool_decide (is_Some (prns_next_word_seq_ind p !! prn)));
    [apply hoare_gets; auto|intros known].
  eapply hoare_bind with (R := fun _ p => processor_wf p /\
    is_Some (prns_next_word_seq_ind p !! prn)).
  { intros p [Hp ->]. case_bool_decide as Hk; cbn [negb]; [split; assumption|].
    rewrite reset_eq. split; [apply wf_insert; [exact Hp|lia]|].
    cbn. rewrite lookup_insert_eq. eauto. }
  intros _. eapply hoare_bind with (R := fun _ p => processor_wf p /\
    is_Some (prns_next_word_seq_ind p !! prn)).
  { apply hoare_lift; [auto|]. intros e p He [Hp _]. split; [|exact Hp].
    intros ->. exact (read_defined _ _ _ He). }
  intros w p [Hp [i Hi]]. unfold bind at 1, gets at 1. cbn [fst snd]. rewrite Hi. cbn [default from_option id].
  destruct (Hp prn i Hi) as [Hr Hsf]. destruct (word_seq_at_defined i Hr) as [ws Hws].
  unfold bind at 1, lift at 1. rewrite Hws. destruct (negb _); [apply (reset_wf prn p Hp)|].
  apply (accept_page_safe prn i w o n p Hp Hsf).
Qed.

Lemma worker_safe msgs :
  hoare processor_wf (worker msgs) (fun _ => processor_wf) (not_ub processor_wf).
Proof.
  induction msgs as [|m msgs IH]; [apply (hoare_ret tt (fun _ => processor_wf))|].
  cbn [worker].
  eapply hoare_bind with (R := fun _ => processor_wf); [apply feed_page_safe|intros _; exact IH].
Qed.
End Safety.

(** ** Processing of a subframe of bits *)

Section Bits.
Context {G : GnuTLS}.

(** What a complete HKROOT message does to the DSM messages and the log: gated
    by the NMA status and the DSM id, its block goes to the message of its id. *)
Definition handle_hkroot (keys : gmap Z PublicKeyInfo) (hk : list bool)
  : prog (gmap Z OSNMA_DSMMessage * list verdict) unit := fun '(D, L) =>
  if ((field hk 0 2 =? 1) || (field hk 0 2 =? 2)) && (field hk 8 4 <? 12) then
    let '(o, s) := accept_block keys (field hk 12 4) (bits_str (slice hk 16 104))
                     (bits_str (slice hk 0 8))
                     (mkDsmState (default new_OSNMA_DSMMessage (D !! field hk 8 4)) L) in
    (o, (<[field hk 8 4 := dsm s]> D, out s))
  else (Returns tt, (D, L)).

Arguments handle_hkroot : simpl never.

(** A processor with other messages. *)
Definition with_messages (p : OSNMAProcessor)
    (m : gmap Z OSNMA_DSMMessage * list verdict) : OSNMAProcessor :=
  mkOSNMAProcessor (public_keys p) (prns_next_word_seq_ind p) (prn_current_subframe_map p) m.1 m.2.

Definition messages (p : OSNMAProcessor) : gmap Z OSNMA_DSMMessage * list verdict :=
  (dsm_id_dsm_message_map p, log p).

Lemma process_subframe_bits sf hk p :
  hkroot_message sf = bits_str hk -> blen hk = 120 ->
  process_subframe sf p =
  let '(o, m) := handle_hkroot (public_keys p) hk (messages p) in (o, with_messages p m).
Proof.
  intros Hsf Hl. unfold process_subframe, get_hkroot_message. rewrite Hsf.
  unfold bind at 1, lift at 1. bit_fields hk. unfold handle_hkroot, messages.
  destruct (negb _) eqn:Hg.
  - apply negb_true_iff in Hg. rewrite Hg. destruct p. reflexivity.
  - apply negb_false_iff in Hg. rewrite Hg. cbn [andb].
    unfold bind, lift. cbv zeta. bit_fields hk.
    change (substr (bits_str hk) LIBOSNMA_NMA_HEADER_OFFSET LIBOSNMA_NMA_HEADER_LENGTH)
      with (substr (bits_str hk) 0 8).
    change (substr (bits_str hk) LIBOSNMA_DSM_BLOCK_OFFSET LIBOSNMA_DSM_BLOCK_LENGTH)
      with (substr (bits_str hk) 16 104).
    rewrite (substr_slice hk 0 8), (substr_slice hk 16 104) by lia.
    rewrite Z.leb_antisym. change LIBOSNMA_DSM_ID_PKR_START_ID with 12.
    destruct (field hk 8 4 <? 12); cbn [negb]; [|destruct p; reflexivity].
    unfold process_dsm_kroot_block.
    destruct (accept_block _ _ _ _ _) as [o s]. reflexivity.
Qed.

(** A page of bits. *)
Definition cbits (s : cstring) : list bool := default [] (char_bits s).
Definition bits_page (p : page) : Prop :=
  p_osnma p = bits_str (cbits (p_osnma p)) /\ page_ok p.

Definition hkroot_bits (ps : list page) : list bool :=
  concat (map (fun p => take 8 (cbits (p_osnma p))) ps).

Lemma cbits_str bs : cbits (bits_str bs) = bs.
Proof. unfold cbits. rewrite char_bits_str. reflexivity. Qed.

Lemma hkroot_subframe ps :
  Forall bits_page ps -> hkroot_message (subframe_of ps) = bits_str (hkroot_bits ps).
Proof.
  intros H. cbn. unfold hkroot_bits, bits_str. rewrite concat_map, map_map. f_equal.
  apply map_ext_in. intros p Hp. apply list_elem_of_In in Hp.
  destruct (proj1 (Forall_forall _ _) H p Hp) as [E _].
  unfold hkroot_of. rewrite E at 1. apply bits_str_take.
Qed.

Lemma bits_page_ok ps : Forall bits_page ps -> Forall page_ok ps.
Proof. intros H. eapply Forall_impl; [exact H|]. intros p [_ Hp]. exact Hp. Qed.

Lemma hkroot_bits_length ps : Forall bits_page ps -> blen (hkroot_bits ps) = 8 * Z.of_nat (length ps).
Proof.
  intros H. pose proof (hkroot_length ps (bits_page_ok ps H)) as Hl.
  rewrite (hkroot_subframe ps H), length_bits_str in Hl. unfold blen. lia.
Qed.

(** ** The specification: per satellite, the pages accepted so far *)

Definition spec_page (prn : Z) (osnma_data nav_data : cstring) (A : gmap Z (list page))
  : gmap Z (list page) * option (list page) :=
  if decide (length osnma_data = 40%nat /\ length nav_data = 128%nat) then
    let ps := default [] (A !! prn) in
    let w := field (cbits nav_data) 0 6 in
    if decide (w ∈ default [] (GALILEO_E1_INAV_WORD_SEQ !! length ps)) then
      let ps' := ps ++ [mkPage w osnma_data nav_data] in
      if decide (length ps' = 15%nat) then (<[prn := []]> A, Some ps')
      else (<[prn := ps']> A, None)
    else (<[prn := []]> A, None)
  else (<[prn := []]> A, None).

Record represents (A : gmap Z (list page)) (p : OSNMAProcessor) : Prop := {
  rep_ind : prns_next_word_seq_ind p = (fun ps => Z.of_nat (length ps)) <$> A;
  rep_sub : prn_current_subframe_map p = (fun ps => Some (subframe_of ps)) <$> A;
  rep_len : map_Forall (fun _ ps => Forall bits_page ps /\ (length ps < 15)%nat) A
}.

Lemma represents_insert A p prn i sf ps m :
  represents A p -> i = Z.of_nat (length ps) -> sf = subframe_of ps ->
  Forall bits_page ps -> (length ps < 15)%nat ->
  represents (<[prn := ps]> A)
    (mkOSNMAProcessor (public_keys p) (<[prn := i]> (prns_next_word_seq_ind p))
       (<[prn := Some sf]> (prn_current_subframe_map p)) m.1 m.2).
Proof.
  intros [H1 H2 H3] -> -> Hb Hl. split; cbn.
  - rewrite fmap_insert, H1. reflexivity.
  - rewrite fmap_insert, H2. reflexivity.
  - apply map_Forall_insert_2; auto.
Qed.

Lemma represents_messages A p m : represents A p -> represents A (with_messages p m).
Proof. intros [H1 H2 H3]. split; assumption. Qed.

Lemma represents_reset A p prn m :
  represents A p ->
  represents (<[prn := []]> A)
    (mkOSNMAProcessor (public_keys p) (<[prn := 0]> (prns_next_word_seq_ind p))
       (<[prn := Some new_OSNMASubframe]> (prn_current_subframe_map p)) m.1 m.2).
Proof. intros H. apply represents_insert; auto. simpl. lia. Qed.

(** The page accepted at the satellite's index. *)
Lemma accept_page_refines A p prn o n w ps :
  represents A p -> A !! prn = Some ps -> bits_page (mkPage w o n) ->
  let ps' := ps ++ [mkPage w o n] in
  if decide (length ps' = 15%nat) then
    let '(r, m) := handle_hkroot (public_keys p) (hkroot_bits ps') (messages p) in
    exists p', accept_page prn (Z.of_nat (length ps)) w o n p = (r, p') /\
      (r = Returns tt -> represents (<[prn := []]> A) p') /\
      messages p' = m /\ public_keys p' = public_keys p
  else exists p', accept_page prn (Z.of_nat (length ps)) w o n p = (Returns tt, p') /\
      represents (<[prn := ps']> A) p' /\ messages p' = messages p /\
      public_keys p' = public_keys p.
Proof.
  intros Hrep HA Hpg ps'.
  pose proof Hrep as [Hi Hs Hl]. destruct (Hl prn ps HA) as [Hps Hlen].
  assert (Forall bits_page ps') as Hps' by (apply Forall_app; auto).
  assert (length ps' = S (length ps)) as Hlen' by (unfold ps'; rewrite length_app; cbn; lia).
  assert (add_page w o n (subframe_of ps) = (Returns (Nat.eqb (length ps) 14), subframe_of ps'))
    as Hadd by (apply (add_page_subframe_of ps (mkPage w o n));
                [apply bits_page_ok, Hps | apply Hpg | exact Hlen]).
  set (i' := u8 ((Z.of_nat (length ps) + 1) mod Z.of_nat (length GALILEO_E1_INAV_WORD_SEQ))).
  set (p1 := mkOSNMAProcessor (public_keys p) (<[prn := i']> (prns_next_word_seq_ind p))
    (<[prn := Some (subframe_of ps')]> (prn_current_subframe_map p))
    (dsm_id_dsm_message_map p) (log p)).
  assert (accept_page prn (Z.of_nat (length ps)) w o n p =
    if Nat.eqb (length ps) 14
    then (process_subframe (subframe_of ps');; reset_current_subframe prn) p1
    else (Returns tt, p1)) as ->.
  { unfold accept_page, bind at 1, modify. unfold bind at 1, add_page_of. cbn.
    rewrite Hs, lookup_fmap, HA. cbn. rewrite Hadd.
    destruct (Nat.eqb (length ps) 14); [|reflexivity].
    cbn [negb]. unfold bind at 1, subframe_of_prn. cbn. rewrite lookup_insert_eq. reflexivity. }
  destruct (Nat.eqb_spec (length ps) 14) as [E|E].
  - rewrite decide_True by lia. unfold bind.
    rewrite (process_subframe_bits _ (hkroot_bits ps')).
    2: apply hkroot_subframe, Hps'. 2: rewrite hkroot_bits_length by exact Hps'; lia.
    change (messages p1) with (messages p). cbn [p1 public_keys].
    destruct (handle_hkroot _ _ _) as [[[]|e] m]; eexists.
    + split; [apply reset_eq|]. cbn. split; [intros _|destruct m; auto].
      rewrite !insert_insert_eq. apply represents_reset, Hrep.
    + split; [reflexivity|]. split; [done|]. destruct m; auto.
  - rewrite decide_False by lia. eexists. split; [reflexivity|]. split; [|split; reflexivity].
    apply (represents_insert A p prn _ _ ps' (messages p)); auto; [|lia].
    unfold i'. change (Z.of_nat (length GALILEO_E1_INAV_WORD_SEQ)) with 15.
    rewrite Z.mod_small, wrap_small by lia. lia.
Qed.

Lemma feed_page_malformed prn o n p :
  ~ (length o = 40%nat /\ length n = 128%nat) ->
  feed_page prn o n p = reset_current_subframe prn p.
Proof.
  intros H. unfold feed_page. replace (_ || _) with true; [reflexivity|].
  symmetry. apply orb_true_iff. unfold str_size. rewrite !negb_true_iff, !Z.eqb_neq.
  unfold LIBOSNMA_OSNMA_DATA_LENGTH, LIBOSNMA_NAV_DATA_LENGTH. lia.
Qed.

(** A satellite seen for the first time starts a subframe. *)
Lemma known_satellite A p prn :
  represents A p ->
  exists A1 p1, represents A1 p1 /\ A1 !! prn = Some (default [] (A !! prn)) /\
    (forall x, <[prn := x]> A1 = <[prn := x]> A) /\
    messages p1 = messages p /\ public_keys p1 = public_keys p /\
    forall k : prog OSNMAProcessor unit,
    (known <- gets (fun p => bool_decide (is_Some (prns_next_word_seq_ind p !! prn)));;
     (if negb known then reset_current_subframe prn else ret tt);; k) p = k p1.
Proof.
  intros Hrep. unfold bind, gets. rewrite (rep_ind A p Hrep), lookup_fmap.
  destruct (A !! prn) as [ps|] eqn:EA.
  - rewrite bool_decide_true by (cbn; eauto). exists A, p. auto 10.
  - rewrite bool_decide_false by (intros [? ?]; done).
    exists (<[prn := []]> A).
    exists (mkOSNMAProcessor (public_keys p) (<[prn := 0]> (prns_next_word_seq_ind p))
      (<[prn := Some new_OSNMASubframe]> (prn_current_subframe_map p))
      (dsm_id_dsm_message_map p) (log p)).
    split; [exact (represents_reset A p prn (messages p) Hrep)|].
    split; [apply lookup_insert_eq|]. split; [intros x; apply insert_insert_eq|].
    split; [done|]. split; [done|]. intros k. cbn [negb]. rewrite reset_eq. reflexivity.
Qed.

Lemma feed_page_wellformed p p1 prn nbits o (ps : list page) :
  let n := bits_str nbits in
  length o = 40%nat -> length n = 128%nat -> (length ps < 15)%nat ->
  prns_next_word_seq_ind p1 !! prn = Some (Z.of_nat (length ps)) ->
  (forall k : prog OSNMAProcessor unit,
    (known <- gets (fun p => bool_decide (is_Some (prns_next_word_seq_ind p !! prn)));;
     (if negb known then reset_current_subframe prn else ret tt);; k) p = k p1) ->
  let w := field (cbits n) 0 6 in
  feed_page prn o n p =
  (if bool_decide (w ∈ default [] (GALILEO_E1_INAV_WORD_SEQ !! length ps))
   then accept_page prn (Z.of_nat (length ps)) w o n else reset_current_subframe prn) p1.
Proof.
  intros n Ho Hn Hlen Hind Erun w.
  assert (read_bin_string_as_int n LIBOSNMA_WORD_TYPE_OFFSET LIBOSNMA_WORD_TYPE_LENGTH
          = Returns w) as Hw.
  { unfold w, n. rewrite cbits_str. unfold n in Hn. rewrite length_bits_str in Hn.
    apply (read_slice nbits 0 6); unfold blen; lia. }
  unfold feed_page. replace (_ || _) with false
    by (unfold str_size; rewrite Ho, Hn; reflexivity).
  rewrite Erun. unfold bind at 1, lift at 1. rewrite Hw.
  unfold bind at 1, gets at 1. rewrite Hind. cbn [default from_option id].
  destruct (word_seq_at_defined (Z.of_nat (length ps))) as [ws Hws]; [lia|].
  replace (default [] (GALILEO_E1_INAV_WORD_SEQ !! length ps)) with ws.
  - unfold bind at 1, lift at 1. rewrite Hws. destruct (bool_decide (w ∈ ws)); reflexivity.
  - unfold word_seq_at in Hws. rewrite Nat2Z.id in Hws.
    destruct (Z.of_nat (length ps) <? 0); [done|].
    destruct (GALILEO_E1_INAV_WORD_SEQ !! length ps); [|done].
    injection Hws as <-. reflexivity.
Qed.

Lemma feed_page_refines A p prn obits nbits :
  represents A p ->
  let o := bits_str obits in
  let n := bits_str nbits in
  match spec_page prn o n A with
  | (A', None) => exists p', feed_page prn o n p = (Returns tt, p') /\
      represents A' p' /\ messages p' = messages p /\ public_keys p' = public_keys p
  | (A', Some ps) =>
      let '(r, m) := handle_hkroot (public_keys p) (hkroot_bits ps) (messages p) in
      exists p', feed_page prn o n p = (r, p') /\ (r = Returns tt -> represents A' p') /\
        messages p' = m /\ public_keys p' = public_keys p
  end.
Proof.
  intros Hrep o n. unfold spec_page.
  destruct (decide (length o = 40%nat /\ length n = 128%nat)) as [[Ho Hn]|Hbad].
  2: { eexists. rewrite feed_page_malformed by exact Hbad. split; [apply reset_eq|].
       split; [|auto]. exact (represents_reset A p prn (messages p) Hrep). }
  destruct (known_satellite A p prn Hrep)
    as (A1 & p1 & Hrep1 & HA1 & Hins & Hm1 & Hk1 & Erun).
  set (ps := default [] (A !! prn)) in *.
  destruct (rep_len A1 p1 Hrep1 prn ps HA1) as [Hps Hlen].
  set (w := field (cbits n) 0 6).
  assert (prns_next_word_seq_ind p1 !! prn = Some (Z.of_nat (length ps))) as Hind
    by (rewrite (rep_ind A1 p1 Hrep1), lookup_fmap, HA1; reflexivity).
  pose proof (feed_page_wellformed p p1 prn nbits o ps Ho Hn Hlen Hind Erun) as Hfeed.
  cbv zeta in Hfeed. fold n in Hfeed. fold w in Hfeed. rewrite Hfeed. clear Hfeed.
  destruct (decide (w ∈ default [] (GALILEO_E1_INAV_WORD_SEQ !! length ps))) as [Hin|Hni];
    [rewrite bool_decide_true by exact Hin | rewrite bool_decide_false by exact Hni].
  2: { eexists. split; [apply reset_eq|]. rewrite <- Hins, Hk1. split; [|auto].
       rewrite <- Hk1. exact (represents_reset A1 p1 prn (messages p1) Hrep1). }
  pose proof (accept_page_refines A1 p1 prn o n w ps Hrep1 HA1) as Hacc.
  cbv zeta in Hacc. rewrite Hk1, Hm1, (Hins []), (Hins (ps ++ [mkPage w o n])) in Hacc.
  destruct (decide (length (ps ++ [mkPage w o n]) = 15%nat)); apply Hacc;
    (split; [change (o = bits_str (cbits o)); unfold o; rewrite cbits_str; reflexivity|exact Ho]).
Qed.
End Bits.

(** ** Runs of the worker *)

Section Worker.
Context {G : GnuTLS}.
Variable keys : gmap Z PublicKeyInfo.

Definition bits_msg (m : Galileo_OSNMA) : Prop :=
  exists o n, OSNMA_data m = bits_str o /\ nav_data m = bits_str n.

(** The specification of a run: completed subframes go to [handle_hkroot]; an
    exception ends the run. *)
Fixpoint spec_worker (msgs : list Galileo_OSNMA) (A : gmap Z (list page))
    (m : gmap Z OSNMA_DSMMessage * list verdict)
  : outcome unit * (gmap Z OSNMA_DSMMessage * list verdict) :=
  match msgs with
  | [] => (Returns tt, m)
  | msg :: msgs' =>
      match spec_page (PRN msg) (OSNMA_data msg) (nav_data msg) A with
      | (A', None) => spec_worker msgs' A' m
      | (A', Some ps) =>
          match handle_hkroot keys (hkroot_bits ps) m with
          | (Returns _, m') => spec_worker msgs' A' m'
          | (Throws e, m') => (Throws e, m')
          end
      end
  end.

Lemma represents_new : represents ∅ (new_OSNMAProcessor keys).
Proof. split; cbn; [rewrite fmap_empty; reflexivity..|apply map_Forall_empty]. Qed.

Lemma worker_refines msgs A p :
  Forall bits_msg msgs -> represents A p -> public_keys p = keys ->
  ((worker msgs p).1, messages (worker msgs p).2) = spec_worker msgs A (messages p).
Proof.
  intros H. revert A p. induction H as [|msg msgs (o & n & Eo & En) _ IH]; intros A p Hrep Hk;
    [reflexivity|].
  cbn [worker spec_worker]. unfold bind, msg_handler_telemetry_to_OSNMA. rewrite Eo, En.
  pose proof (feed_page_refines A p (PRN msg) o n Hrep) as Hf. cbv zeta in Hf. rewrite Hk in Hf.
  destruct (spec_page _ _ _ A) as [A' [ps|]].
  - destruct (handle_hkroot keys (hkroot_bits ps) (messages p)) as [[[]|e] m'].
    + destruct Hf as (p' & -> & Hrep' & <- & Hk'). apply (IH A'); [apply Hrep'|]; done.
    + destruct Hf as (p' & -> & _ & <- & Hk'). reflexivity.
  - destruct Hf as (p' & -> & Hrep' & Hm & Hk'). rewrite <- Hm. apply (IH A'); done.
Qed.

(** Fifteen pages in sequence make one HKROOT message. *)
Definition page_of (msg : Galileo_OSNMA) : page :=
  mkPage (field (cbits (nav_data msg)) 0 6) (OSNMA_data msg) (nav_data msg).

Definition in_sequence (prn : Z) (k : nat) (msg : Galileo_OSNMA) : Prop :=
  PRN msg = prn /\ length (OSNMA_data msg) = 40%nat /\ length (nav_data msg) = 128%nat /\
  field (cbits (nav_data msg)) 0 6 ∈ default [] (GALILEO_E1_INAV_WORD_SEQ !! k).

Lemma spec_sequence prn msgs A m ps :
  default [] (A !! prn) = ps -> msgs <> [] -> (length ps + length msgs = 15)%nat ->
  (forall i msg, msgs !! i = Some msg -> in_sequence prn (length ps + i) msg) ->
  spec_worker msgs A m = handle_hkroot keys (hkroot_bits (ps ++ map page_of msgs)) m.
Proof.
  revert A ps. induction msgs as [|msg msgs IH]; intros A ps HA Hne Hlen Hseq; [done|].
  destruct (Hseq 0%nat msg eq_refl) as (Eprn & Eo & En & Ew).
  cbn [spec_worker]. unfold spec_page. rewrite decide_True by auto. rewrite Eprn, HA.
  rewrite Nat.add_0_r in Ew. rewrite decide_True by exact Ew.
  cbn [length] in Hlen. rewrite length_app. cbn [length].
  destruct msgs as [|msg' msgs].
  - rewrite decide_True by (cbn in Hlen; lia). cbn [map spec_worker].
    fold (page_of msg).
    destruct (handle_hkroot keys _ m) as [[[]|e] m']; reflexivity.
  - rewrite decide_False by (cbn in Hlen; lia). fold (page_of msg).
    rewrite (IH _ (ps ++ [page_of msg])).
    + rewrite <- app_assoc. reflexivity.
    + rewrite lookup_insert_eq. reflexivity.
    + done.
    + rewrite length_app. cbn [length] in *. lia.
    + intros i msg1 Hi. specialize (Hseq (S i) msg1 Hi). rewrite length_app. cbn [length].
      replace (length ps + 1 + i)%nat with (length ps + S i)%nat by lia. exact Hseq.
Qed.

(** *** Messages are well formed, and processed ones authentic *)

Definition dsm_authentic (d : OSNMA_DSMMessage) : Prop :=
  exists hdr, nma_header d = bits_str hdr /\ length hdr = 8%nat /\
  let bs := message_bits (nb_blocks d) (id_block_map d) in
  (DSM_KROOT_KS_TABLE !! field bs 16 4 <> Some (-1) -> kroot_authentic keys hdr bs).

Definition dsm_ok (d : OSNMA_DSMMessage) : Prop :=
  dsm_wf d /\ (is_processed d = true -> dsm_authentic d).

Lemma handle_hkroot_ok {GO : GnuTLSOk G} hk D L :
  blen hk = 120 -> map_Forall (fun _ => dsm_ok) D ->
  map_Forall (fun _ => dsm_ok) (handle_hkroot keys hk (D, L)).2.1.
Proof.
  intros Hl HD. unfold handle_hkroot. destruct (_ && _); [|exact HD].
  set (d := default new_OSNMA_DSMMessage (D !! field hk 8 4)).
  assert (dsm_ok d) as [Hwf Hau].
  { unfold d. destruct (D !! field hk 8 4) eqn:E; [exact (HD _ _ E)|].
    split; [apply new_dsm_wf|done]. }
  pose proof (field_range hk 12 4 ltac:(lia)) as Hid.
  pose proof (slice_length hk 16 104 ltac:(lia) ltac:(lia) ltac:(lia)) as Hblk.
  pose proof (slice_length hk 0 8 ltac:(lia) ltac:(lia) ltac:(lia)) as Hhdr.
  pose proof (accept_block_wf keys (bits_str (slice hk 0 8)) (field hk 12 4) (slice hk 16 104)
    (mkDsmState d L) Hblk ltac:(lia) Hwf) as Hwf'.
  pose proof (accepted_authentic keys (slice hk 0 8) (slice hk 16 104) (field hk 12 4)
    (mkDsmState d L) Hwf) as Hacc.
  destruct (is_processed d) eqn:Hp.
  - rewrite accept_block_processed by exact Hp. cbn [snd fst dsm].
    apply map_Forall_insert_2; [split; auto|exact HD].
  - destruct (accept_block _ _ _ _ _) as [o s]. cbn [snd fst] in *.
    apply map_Forall_insert_2; [|exact HD]. split; [exact Hwf'|]. intros Hp'.
    destruct Hacc as [H1 H2]; auto; [unfold blen; lia|].
    exists (slice hk 0 8). auto.
Qed.

Lemma spec_page_completed prn o n A A' ps :
  map_Forall (fun _ ps => Forall bits_page ps /\ (length ps < 15)%nat) A ->
  spec_page prn (bits_str o) n A = (A', Some ps) -> blen (hkroot_bits ps) = 120.
Proof.
  intros HA. unfold spec_page. case_decide as Hl; [|done].
  case_decide; [|done]. case_decide as Hlen; [|done]. intros [= _ <-].
  rewrite hkroot_bits_length; [lia|]. apply Forall_app. split.
  - destruct (A !! prn) as [ps0|] eqn:E; [exact (proj1 (HA _ _ E))|apply Forall_nil; done].
  - constructor; [|constructor]. split; [|apply Hl].
    change (bits_str o = bits_str (cbits (bits_str o))). rewrite cbits_str. reflexivity.
Qed.

Lemma worker_ok {GO : GnuTLSOk G} msgs A p :
  Forall bits_msg msgs -> represents A p -> public_keys p = keys ->
  map_Forall (fun _ => dsm_ok) (dsm_id_dsm_message_map p) ->
  map_Forall (fun _ => dsm_ok) (dsm_id_dsm_message_map (worker msgs p).2).
Proof.
  intros H. revert A p. induction H as [|msg msgs (o & n & Eo & En) _ IH]; intros A p Hrep Hk Hok;
    [exact Hok|].
  cbn [worker]. unfold bind, msg_handler_telemetry_to_OSNMA. rewrite Eo, En.
  pose proof (feed_page_refines A p (PRN msg) o n Hrep) as Hf. cbv zeta in Hf. rewrite Hk in Hf.
  destruct (spec_page _ _ _ A) as [A' [ps|]] eqn:Esp.
  - pose proof (spec_page_completed _ _ _ _ _ _ (rep_len A p Hrep) Esp) as Hhk.
    pose proof (handle_hkroot_ok _ (dsm_id_dsm_message_map p) (log p) Hhk Hok) as Hok'.
    fold (messages p) in Hok'.
    destruct (handle_hkroot keys (hkroot_bits ps) (messages p)) as [[[]|e] m'];
      destruct Hf as (p' & -> & Hrep' & <- & Hk').
    + apply (IH A'); auto.
    + exact Hok'.
  - destruct Hf as (p' & -> & Hrep' & Hm & Hk'). apply (IH A'); auto.
    injection Hm as -> _. exact Hok.
Qed.
End Worker.

(** ** Isolation of satellites *)

Section Isolation.
Context {G : GnuTLS}.

Definition same_satellite (prn : Z) (p q : OSNMAProcessor) : Prop :=
  prns_next_word_seq_ind q !! prn = prns_next_word_seq_ind p !! prn /\
  prn_current_subframe_map q !! prn = prn_current_subframe_map p !! prn.

Lemma reset_frame prn prn' p0 :
  prn' <> prn -> run_inv (same_satellite prn' p0) (reset_current_subframe prn).
Proof.
  intros Hne p [H1 H2]. rewrite reset_eq. unfold same_satellite. cbn.
  rewrite !lookup_insert_ne by done. auto.
Qed.

Lemma process_subframe_frame prn p0 sf :
  run_inv (same_satellite prn p0) (process_subframe sf).
Proof.
  intros p [H1 H2]. pose proof (process_subframe_safe sf p p (conj eq_refl eq_refl)) as Hs.
  destruct (process_subframe sf p) as [[u|e] q]; [|destruct Hs as [_ Hs]];
    destruct Hs as [E1 E2]; unfold same_satellite; cbn; rewrite E1, E2; auto.
Qed.

Lemma add_page_of_frame prn prn' w o n p0 :
  prn' <> prn -> run_inv (same_satellite prn' p0) (add_page_of prn w o n).
Proof.
  intros Hne p [H1 H2]. unfold add_page_of. destruct (default None _) as [sf|]; [|split; auto].
  destruct (add_page w o n sf) as [r sf']. unfold same_satellite. cbn.
  rewrite !lookup_insert_ne by done. auto.
Qed.

Lemma feed_page_frame prn prn' o n p0 :
  prn' <> prn -> run_inv (same_satellite prn' p0) (feed_page prn o n).
Proof.
  intros Hne. pose proof (reset_frame prn prn' p0 Hne) as Hreset.
  pose proof (add_page_of_frame prn prn') as Hadd.
  unfold feed_page. destruct (_ || _); [exact Hreset|].
  apply run_inv_bind; [apply run_inv_gets|intros [|]]; cbn [negb];
  (apply run_inv_bind; [first [exact Hreset | apply run_inv_ret]|intros _]);
  (apply run_inv_bind; [apply run_inv_lift|intros w]);
  (apply run_inv_bind; [apply run_inv_gets|intros i]);
  (apply run_inv_bind; [apply run_inv_lift|intros ws]);
  (destruct (negb _); [exact Hreset|]);
  (apply run_inv_bind;
    [apply run_inv_modify; intros p [H1 H2]; unfold same_satellite; cbn;
     rewrite !lookup_insert_ne by done; auto|intros _]);
  (apply run_inv_bind; [apply Hadd, Hne|intros [|]]; cbn [negb]; [|apply run_inv_ret]);
  (apply run_inv_bind;
    [intros p Hp; unfold subframe_of_prn; destruct (default None _); exact Hp|intros sf]);
  (apply run_inv_bind; [apply process_subframe_frame|intros _; exact Hreset]).
Qed.
End Isolation.

(** ** Properties *)

(** C32: Whatever pages arrive, of any length and content, the worker never
    dereferences a null subframe and never indexes the word sequence out of
    range: every run from a new processor ends normally or with a C++ exception,
    in a state where each satellite's index is one of the fifteen of the
    sequence and its subframe exists. *)
Theorem worker_never_undefined {G : GnuTLS} (keys : gmap Z PublicKeyInfo)
    (msgs : list Galileo_OSNMA) :
  defined (worker msgs (new_OSNMAProcessor keys)).1 /\
  processor_wf (worker msgs (new_OSNMAProcessor keys)).2.
Proof.
  assert (processor_wf (new_OSNMAProcessor keys)) as H0 by (intros prn i; cbn; done).
  pose proof (worker_safe msgs _ H0) as H.
  destruct (worker msgs _) as [[u|e] p]; [split; [discriminate|exact H]|].
  destruct H as [He Hp]. split; [|exact Hp]. intros [= ->]. exact (He eq_refl).
Qed.

(** C7: A run of the worker on pages of bits refines the specification that
    keeps, per satellite, the list of pages accepted so far: same outcome, same
    DSM messages, same verdicts, where the fifteenth accepted page hands the
    concatenated HKROOT bits to [handle_hkroot] and any page out of sequence or
    of the wrong size discards what was collected. *)
Theorem worker_refines_spec {G : GnuTLS} (keys : gmap Z PublicKeyInfo)
    (msgs : list Galileo_OSNMA) :
  Forall bits_msg msgs ->
  ((worker msgs (new_OSNMAProcessor keys)).1,
   messages (worker msgs (new_OSNMAProcessor keys)).2) =
  spec_worker keys msgs ∅ (∅, []).
Proof.
  intros H. exact (worker_refines keys msgs ∅ _ H (represents_new keys) eq_refl).
Qed.

(** C1: In every run of the worker on pages of bits, and even when the run ends
    with an exception, each DSM message marked processed is authentic under the
    keys the processor was built with (reserved key sizes apart). *)
Theorem processed_messages_authentic {G : GnuTLS} {GO : GnuTLSOk G}
    (keys : gmap Z PublicKeyInfo) (msgs : list Galileo_OSNMA) (id : Z) (d : OSNMA_DSMMessage) :
  Forall bits_msg msgs ->
  dsm_id_dsm_message_map (worker msgs (new_OSNMAProcessor keys)).2 !! id = Some d ->
  is_processed d = true -> dsm_authentic keys d.
Proof.
  intros H Hd Hp.
  assert (map_Forall (fun _ => dsm_ok keys)
    (dsm_id_dsm_message_map (worker msgs (new_OSNMAProcessor keys)).2)) as Hok.
  { apply (worker_ok keys msgs ∅); [exact H|apply represents_new|done|apply map_Forall_empty]. }
  exact (proj2 (Hok id d Hd) Hp).
Qed.

(** C37: Fifteen pages of one satellite whose words follow the I/NAV sequence
    make the processor handle exactly one HKROOT message: the concatenation of
    the first eight OSNMA bits of each page, in order. *)
Theorem fifteen_pages_one_message {G : GnuTLS} (keys : gmap Z PublicKeyInfo) (prn : Z)
    (msgs : list Galileo_OSNMA) :
  Forall bits_msg msgs -> length msgs = 15%nat ->
  (forall i msg, msgs !! i = Some msg -> in_sequence prn i msg) ->
  ((worker msgs (new_OSNMAProcessor keys)).1,
   messages (worker msgs (new_OSNMAProcessor keys)).2) =
  handle_hkroot keys (concat (map (fun msg => take 8 (cbits (OSNMA_data msg))) msgs)) (∅, []).
Proof.
  intros Hb Hl Hseq.
  rewrite (worker_refines keys msgs ∅ _ Hb (represents_new keys) eq_refl).
  rewrite (spec_sequence keys prn msgs ∅ _ []).
  - unfold hkroot_bits. rewrite app_nil_l, map_map. reflexivity.
  - reflexivity.
  - intros ->. discriminate.
  - cbn [length]. lia.
  - exact Hseq.
Qed.

(** The NMA statuses "reserved" and "don't use", and key-renewal messages. *)
Definition ignored (hk : list bool) : Prop :=
  field hk 0 2 = 0 \/ field hk 0 2 = 3 \/ 12 <= field hk 8 4.

(** A complete subframe whose NMA status is reserved or "don't use", or
    whose DSM id announces a key renewal (12 and above), changes nothing. *)
Theorem subframe_gates {G : GnuTLS} (sf : OSNMASubframe) (hk : list bool) (p : OSNMAProcessor) :
  hkroot_message sf = bits_str hk -> blen hk = 120 ->
  ignored hk -> process_subframe sf p = (Returns tt, p).
Proof.
  intros Hsf Hl Hg. rewrite (process_subframe_bits sf hk p Hsf Hl).
  unfold handle_hkroot, messages.
  replace (((field hk 0 2 =? 1) || (field hk 0 2 =? 2)) && (field hk 8 4 <? 12)) with false
    by (symmetry; destruct Hg as [->|[->|Hg]]; [reflexivity..|]; apply andb_false_iff; right;
        apply Z.ltb_ge; exact Hg).
  destruct p. reflexivity.
Qed.

(** A page of one satellite, whatever it holds and however its handling
    ends, leaves the sequence index and the subframe of every other satellite
    as they were. *)
Theorem satellites_isolated {G : GnuTLS} (prn prn' : Z) (osnma_data nav_data : cstring)
    (p : OSNMAProcessor) :
  prn' <> prn -> same_satellite prn' p (feed_page prn osnma_data nav_data p).2.
Proof. intros Hne. apply feed_page_frame; [exact Hne|split; reflexivity]. Qed.

(** ** Concrete runs *)

(** The pages of satellite 11 that carry HKROOT bits [hk]. *)
Definition toy_words : list Z := [2; 4; 6; 7; 8; 17; 19; 16; 0; 0; 1; 3; 5; 0; 16].
Definition toy_pages (hk : list bool) : list Galileo_OSNMA :=
  imap (fun i w => mkGalileo_OSNMA 11
    (bits_str (take 8 (drop (8 * i) hk) ++ replicate 32 false))
    (bits_str (to_bin 6 w ++ replicate 122 true))) toy_words.

Definition toy_hkroot (block : Z) : list bool :=
  to_bin 8 82 ++ to_bin 4 5 ++ to_bin 4 block ++ toy_blocks block.

Definition toy_msgs : list Galileo_OSNMA :=
  concat (map (fun b => toy_pages (toy_hkroot b)) [3; 0; 1; 6; 2; 4; 5]).

Lemma toy_pages_bits hk : Forall bits_msg (toy_pages hk).
Proof. repeat constructor; do 2 eexists; split; reflexivity. Qed.

Lemma toy_msgs_bits : Forall bits_msg toy_msgs.
Proof. unfold toy_msgs. cbn [map concat]. repeat (apply Forall_app; split; [apply toy_pages_bits|]). constructor. Qed.

Lemma worker_refines_spec_witness :
  (worker (G := toy_gnutls) toy_msgs (new_OSNMAProcessor toy_keys)).1 = Returns tt /\
  log (worker (G := toy_gnutls) toy_msgs (new_OSNMAProcessor toy_keys)).2 = [Verified 3 1200 17].
Proof.
  destruct (pair_eq_inv _ _ _ (worker_refines_spec toy_keys toy_msgs toy_msgs_bits)) as [H1 H2].
  apply pair_eq_inv in H2 as [_ H2]. rewrite H1, H2. split; vm_compute; reflexivity.
Defined.

Lemma processed_messages_authentic_witness :
  exists d, dsm_id_dsm_message_map
      (worker (G := toy_gnutls) toy_msgs (new_OSNMAProcessor toy_keys)).2 !! 5 = Some d /\
    is_processed d = true /\ dsm_authentic toy_keys d.
Proof.
  destruct (dsm_id_dsm_message_map
    (worker (G := toy_gnutls) toy_msgs (new_OSNMAProcessor toy_keys)).2 !! 5) as [d|] eqn:E.
  - assert (is_processed d = true) as Hp.
    { assert (is_processed <$> Some d = Some true) as H
        by (rewrite <- E; vm_compute; reflexivity). injection H as H. exact H. }
    exists d. split; [reflexivity|]. split; [exact Hp|].
    exact (processed_messages_authentic toy_keys toy_msgs 5 d toy_msgs_bits E Hp).
  - exfalso. assert (is_Some (dsm_id_dsm_message_map
      (worker (G := toy_gnutls) toy_msgs (new_OSNMAProcessor toy_keys)).2 !! 5)) as [? H]
      by (vm_compute; eauto). congruence.
Defined.

Lemma fifteen_pages_one_message_witness :
  messages (worker (G := toy_gnutls) (toy_pages (toy_hkroot 3)) (new_OSNMAProcessor toy_keys)).2 =
  (handle_hkroot toy_keys (toy_hkroot 3) (∅, [])).2.
Proof.
  assert (forall i msg, toy_pages (toy_hkroot 3) !! i = Some msg -> in_sequence 11 i msg) as Hseq.
  { intros i msg H. do 15 (destruct i as [|i];
      [injection H as <-; vm_compute; repeat split; repeat (first [left | right])|]).
    discriminate. }
  destruct (pair_eq_inv _ _ _ (fifteen_pages_one_message toy_keys 11 (toy_pages (toy_hkroot 3))
    (toy_pages_bits _) eq_refl Hseq)) as [_ H].
  assert (concat (map (fun msg => take 8 (cbits (OSNMA_data msg))) (toy_pages (toy_hkroot 3)))
    = toy_hkroot 3) as E by (vm_compute; reflexivity).
  rewrite E in H. exact H.
Defined.

Lemma subframe_gates_witness :
  process_subframe (mkOSNMASubframe (bits_str (to_bin 8 200 ++ replicate 112 false)) [] ∅)
    (new_OSNMAProcessor toy_keys) = (Returns tt, new_OSNMAProcessor toy_keys).
Proof.
  apply (subframe_gates _ (to_bin 8 200 ++ replicate 112 false)); [reflexivity..|].
  right. left. vm_compute. reflexivity.
Defined.

Lemma satellites_isolated_witness :
  same_satellite 12 (new_OSNMAProcessor toy_keys)
    (feed_page 11 (str "101") [] (new_OSNMAProcessor toy_keys)).2.
Proof. apply (satellites_isolated 11 12). discriminate. Defined.
