(* ===== verification/GnssSignal.v ===== *)
(** * GnssSignal: satellites and signals

    [Gnss_Satellite] and [Gnss_Signal] of
    [src/src/core/system_parameters/gnss_satellite.{h,cc}] and
    [gnss_signal.{h,cc}].  The constructor maps a PRN that its system does not
    have to PRN 0; two signals are equal as soon as their satellites are. *)

From S2P Require Import Prelude Cstring.
From stdpp Require Import list strings.
From Stdlib Require Import ZArith Lia Ascii.
Local Open Scope Z_scope.

(** ** Satellites *)

Record Gnss_Satellite := mkGnss_Satellite {
  system : cstring;
  block : cstring;
  PRN : Z;
  rf_link : Z
}.
#[export] Instance eta_Gnss_Satellite : Eta Gnss_Satellite := fun s =>
  mkGnss_Satellite (system s) (block s) (PRN s) (rf_link s).

#[export] Instance Gnss_Satellite_eq_dec : EqDecision Gnss_Satellite.
Proof. solve_decision. Defined.

Definition empty_satellite : Gnss_Satellite := mkGnss_Satellite [] [] 0 0.

Definition system_set : list cstring :=
  [str "GPS"; str "Glonass"; str "SBAS"; str "Galileo"; str "Beidou"].

Definition satelliteSystem : list (cstring * cstring) :=
  [(str "GPS", str "G"); (str "Glonass", str "R"); (str "SBAS", str "S");
   (str "Galileo", str "E"); (str "Beidou", str "C")].

Definition reset (s : Gnss_Satellite) : Gnss_Satellite :=
  s <| PRN := 0 |> <| system := [] |> <| block := [] |> <| rf_link := 0 |>.

Definition set_system (system_ : cstring) (s : Gnss_Satellite) : Gnss_Satellite :=
  if bool_decide (system_ ∈ system_set) then s <| system := system_ |> else s <| system := [] |>.

(** The PRNs that a system has. *)
Definition valid_PRN (system_ : cstring) (PRN_ : Z) : bool :=
  if bool_decide (system_ = str "GPS") then negb ((PRN_ <? 1) || (32 <? PRN_))
  else if bool_decide (system_ = str "Glonass") then negb ((PRN_ <? 1) || (24 <? PRN_))
  else if bool_decide (system_ = str "SBAS") then
    (PRN_ =? 120) || (PRN_ =? 123) || (PRN_ =? 131) || (PRN_ =? 135) || (PRN_ =? 136) || (PRN_ =? 138)
  else if bool_decide (system_ = str "Galileo") then negb ((PRN_ <? 1) || (36 <? PRN_))
  else if bool_decide (system_ = str "Beidou") then negb ((PRN_ <? 1) || (63 <? PRN_))
  else false.

Definition set_PRN (PRN_ : Z) (s : Gnss_Satellite) : Gnss_Satellite :=
  if valid_PRN (system s) PRN_ then s <| PRN := PRN_ |> else s <| PRN := 0 |>.

Definition update_PRN (PRN_ : Z) (s : Gnss_Satellite) : Gnss_Satellite :=
  if bool_decide (system s ≠ str "Glonass") then s <| PRN := 0 |> else s <| PRN := PRN_ |>.

Definition gps_block (PRN_ : Z) : cstring :=
  str match PRN_ with
  | 1 => "IIF"
  | 2 => "IIR"
  | 3 => "IIF"
  | 4 => "III"
  | 5 => "IIR-M"
  | 6 => "IIF"
  | 7 => "IIR-M"
  | 8 => "IIF"
  | 9 => "IIF"
  | 10 => "IIF"
  | 11 => "III"
  | 12 => "IIR-M"
  | 13 => "IIR"
  | 14 => "III"
  | 15 => "IIR-M"
  | 16 => "IIR"
  | 17 => "IIR-M"
  | 18 => "III"
  | 19 => "IIR"
  | 20 => "IIR"
  | 21 => "IIR"
  | 22 => "IIR"
  | 23 => "III"
  | 24 => "IIF"
  | 25 => "IIF"
  | 26 => "IIF"
  | 27 => "IIF"
  | 28 => "IIR"
  | 29 => "IIR-M"
  | 30 => "IIF"
  | 31 => "IIR-M"
  | 32 => "IIF"
  | _ => "Unknown"
  end%string.

Definition glonass_block (PRN_ : Z) : cstring :=
  str match PRN_ with
  | 1 => "1"
  | 2 => "-4"
  | 3 => "5"
  | 4 => "6"
  | 5 => "1"
  | 6 => "-4"
  | 7 => "5"
  | 8 => "6"
  | 9 => "-2"
  | 10 => "-7"
  | 11 => "0"
  | 12 => "-1"
  | 13 => "-2"
  | 14 => "-7"
  | 15 => "0"
  | 16 => "-1"
  | 17 => "4"
  | 18 => "-3"
  | 19 => "3"
  | 20 => "2"
  | 21 => "4"
  | 22 => "-3"
  | 23 => "3"
  | 24 => "2"
  | _ => "Unknown"
  end%string.

Definition glonass_rf_link (PRN_ : Z) : option Z :=
  match PRN_ with
  | 1 => Some 1
  | 2 => Some (-4)
  | 3 => Some 5
  | 4 => Some 6
  | 5 => Some 1
  | 6 => Some (-4)
  | 7 => Some 5
  | 8 => Some 6
  | 9 => Some (-2)
  | 10 => Some (-7)
  | 11 => Some 0
  | 12 => Some (-1)
  | 13 => Some (-2)
  | 14 => Some (-7)
  | 15 => Some 0
  | 16 => Some (-1)
  | 17 => Some 4
  | 18 => Some (-3)
  | 19 => Some 3
  | 20 => Some 2
  | 21 => Some 4
  | 22 => Some (-3)
  | 23 => Some 3
  | 24 => Some 2
  | _ => None
  end.

Definition sbas_block (PRN_ : Z) : cstring :=
  str match PRN_ with
  | 120 => "EGNOS Test Platform"
  | 123 => "EGNOS"
  | 131 => "WAAS"
  | 135 => "WAAS"
  | 136 => "EGNOS"
  | 138 => "WAAS"
  | _ => "Unknown"
  end%string.

Definition galileo_block (PRN_ : Z) : cstring :=
  str match PRN_ with
  | 1 => "FOC-FM10"
  | 2 => "FOC-FM11"
  | 3 => "FOC-FM12"
  | 4 => "FOC-FM13"
  | 5 => "FOC-FM14"
  | 7 => "FOC-FM7"
  | 8 => "FOC-FM8"
  | 9 => "FOC-FM9"
  | 10 => "FOC-FM24"
  | 11 => "IOV-PFM"
  | 12 => "IOV-FM2"
  | 13 => "FOC-FM20"
  | 14 => "FOC-FM2*"
  | 15 => "FOC-FM21"
  | 18 => "FOC-FM1*"
  | 19 => "IOV-FM3"
  | 20 => "IOV-FM4**"
  | 21 => "FOC-FM15"
  | 22 => "FOC-FM4**"
  | 24 => "FOC-FM5"
  | 25 => "FOC-FM16"
  | 26 => "FOC-FM3"
  | 27 => "FOC-FM17"
  | 30 => "FOC-FM6"
  | 31 => "FOC-FM18"
  | 33 => "FOC-FM22"
  | 34 => "FOC-FM23"
  | 36 => "FOC-FM19"
  | _ => "Unknown(Simulated)"
  end%string.

Definition beidou_block (PRN_ : Z) : cstring :=
  str match PRN_ with
  | 1 => "BeiDou-2 GEO01*"
  | 2 => "BeiDou-2 GEO06"
  | 3 => "BeiDou-2 GEO07"
  | 4 => "BeiDou-2 GEO04"
  | 5 => "BeiDou-2 GEO05"
  | 6 => "BeiDou-2 IGSO01"
  | 7 => "BeiDou-2 IGSO02"
  | 8 => "BeiDou-2 IGSO03"
  | 9 => "BeiDou-2 IGSO04"
  | 10 => "BeiDou-2 IGSO05"
  | 11 => "BeiDou-2 MEO03*"
  | 12 => "BeiDou-2 MEO04*"
  | 13 => "BeiDou-2 IGSO06"
  | 14 => "BeiDou-2 MEO06*"
  | 16 => "BeiDou-2 IGSO07"
  | 18 => "BeiDou-3 GEOG8"
  | 19 => "BeiDou-3 MEO01"
  | 20 => "BeiDou-3 MEO02"
  | 21 => "BeiDou-3 MEO03"
  | 22 => "BeiDou-3 MEO04"
  | 23 => "BeiDou-3 MEO05"
  | 24 => "BeiDou-3 MEO06"
  | 25 => "BeiDou-3 MEO11"
  | 26 => "BeiDou-3 MEO12"
  | 27 => "BeiDou-3 3M3"
  | 28 => "BeiDou-3 3M4"
  | 29 => "BeiDou-3 3M7"
  | 30 => "BeiDou-3 3M8"
  | 32 => "BeiDou-3 MEO13"
  | 33 => "BeiDou-3 MEO14"
  | 34 => "BeiDou-3 MEO15"
  | 35 => "BeiDou-3 MEO16"
  | 36 => "BeiDou-3 MEO17"
  | 37 => "BeiDou-3 MEO18"
  | 38 => "BeiDou-3 IGSOI1"
  | 39 => "BeiDou-3 IGSOI2"
  | 40 => "BeiDou-3 IGSOI3"
  | 41 => "BeiDou-3 MEO19"
  | 42 => "BeiDou-3 MEO20"
  | 43 => "BeiDou-3 MEO21"
  | 44 => "BeiDou-3 MEO22"
  | 45 => "BeiDou-3 MEO23"
  | 46 => "BeiDou-3 MEO24"
  | 59 => "BeiDou-3 GEOG1"
  | 60 => "BeiDou-3 GEOG2"
  | 61 => "BeiDou-3 GEOG3"
  | _ => "Unknown(Simulated)"
  end%string.
(** The block of a satellite; for a GLONASS satellite its frequency channel is
    written to [rf_link] on the way. *)
Definition what_block (system_ : cstring) (PRN_ : Z) (s : Gnss_Satellite)
  : cstring * Gnss_Satellite :=
  let block_ := str "Unknown" in
  let block_ := if bool_decide (system_ = str "GPS") then gps_block PRN_ else block_ in
  let '(block_, s) :=
    if bool_decide (system_ = str "Glonass") then
      (glonass_block PRN_,
       match glonass_rf_link PRN_ with Some r => s <| rf_link := r |> | None => s end)
    else (block_, s) in
  let block_ := if bool_decide (system_ = str "SBAS") then sbas_block PRN_ else block_ in
  let block_ := if bool_decide (system_ = str "Galileo") then galileo_block PRN_ else block_ in
  let block_ := if bool_decide (system_ = str "Beidou") then beidou_block PRN_ else block_ in
  (block_, s).

Definition set_block (system_ : cstring) (PRN_ : Z) (s : Gnss_Satellite) : Gnss_Satellite :=
  let '(block_, s) := what_block system_ PRN_ s in s <| block := block_ |>.

(** [Gnss_Satellite(system_, PRN_)]. *)
Definition new_Gnss_Satellite (system_ : cstring) (PRN_ : Z) : Gnss_Satellite :=
  set_block system_ PRN_ (set_PRN PRN_ (set_system system_ (reset empty_satellite))).

(** [satelliteSystem.at(system)]. *)
Definition get_system_short (s : Gnss_Satellite) : outcome cstring :=
  match list_find (fun p => p.1 = system s) satelliteSystem with
  | Some (_, (_, short)) => Returns short
  | None => Throws out_of_range
  end.

Definition satellite_eqb (sat1 sat2 : Gnss_Satellite) : bool :=
  if bool_decide (system sat1 = system sat2) then
    if PRN sat1 =? PRN sat2 then rf_link sat1 =? rf_link sat2 else false
  else false.

(** ** Signals *)

Record Gnss_Signal := mkGnss_Signal {
  satellite : Gnss_Satellite;
  signal : cstring
}.

Definition empty_signal : Gnss_Signal := mkGnss_Signal empty_satellite [].

(** [Gnss_Signal(signal_)]. *)
Definition signal_of_string (signal_ : cstring) : Gnss_Signal := mkGnss_Signal empty_satellite signal_.

Definition get_signal_str (s : Gnss_Signal) : cstring := signal s.
Definition get_satellite (s : Gnss_Signal) : Gnss_Satellite := satellite s.

(** [operator==]: the signal of [sig1] is compared with itself. *)
Definition signal_eqb (sig1 sig2 : Gnss_Signal) : bool :=
  if satellite_eqb (get_satellite sig1) (get_satellite sig2) then
    bool_decide (get_signal_str sig1 = get_signal_str sig1)
  else false.

(** ** What equality compares *)

(** Equality compares the system, the PRN and the frequency channel. *)
Definition key (s : Gnss_Signal) : cstring * Z * Z :=
  (system (satellite s), PRN (satellite s), rf_link (satellite s)).

Lemma signal_eqb_key a b : signal_eqb a b = bool_decide (key a = key b).
Proof.
  unfold signal_eqb, satellite_eqb, key, get_satellite, get_signal_str.
  rewrite (bool_decide_eq_true_2 (signal a = signal a)) by reflexivity.
  case_bool_decide as E1.
  - destruct (Z.eqb_spec (PRN (satellite a)) (PRN (satellite b))) as [E2|E2].
    + destruct (Z.eqb_spec (rf_link (satellite a)) (rf_link (satellite b))) as [E3|E3].
      * rewrite bool_decide_eq_true_2 by congruence. reflexivity.
      * rewrite bool_decide_eq_false_2 by congruence. reflexivity.
    + rewrite bool_decide_eq_false_2 by congruence. reflexivity.
  - rewrite bool_decide_eq_false_2 by congruence. reflexivity.
Qed.

(** The signal is not compared: the E1 and E5a signals of a satellite are equal. *)
Lemma signals_of_a_satellite_equal s a b : signal_eqb (mkGnss_Signal s a) (mkGnss_Signal s b) = true.
Proof. rewrite signal_eqb_key. apply bool_decide_eq_true_2. reflexivity. Qed.

(** A satellite of a known system has a short name. *)
Lemma get_system_short_known s : system s ∈ system_set ->
  exists c rest, get_system_short s = Returns (c :: rest).
Proof.
  unfold get_system_short, system_set. intros H.
  repeat (apply elem_of_cons in H as [->|H]; [eexists _, _; vm_compute; reflexivity|]).
  now apply elem_of_nil in H.
Qed.

Lemma new_satellite_system system_ PRN_ : system_ ∈ system_set ->
  system (new_Gnss_Satellite system_ PRN_) = system_.
Proof.
  intros H. unfold new_Gnss_Satellite, set_block, what_block.
  set (s := set_PRN _ _). assert (system s = system_) as Es.
  { subst s. unfold set_PRN, set_system. rewrite bool_decide_eq_true_2 by exact H.
    destruct (valid_PRN _ _); reflexivity. }
  clearbody s. destruct (bool_decide (system_ = str "Glonass")); [|exact Es].
  destruct (glonass_rf_link PRN_); exact Es.
Qed.

(** Two satellites of a system with valid PRNs are told apart by the PRN. *)
Lemma new_satellite_PRN system_ PRN_ : system_ ∈ system_set ->
  PRN (new_Gnss_Satellite system_ PRN_) = if valid_PRN system_ PRN_ then PRN_ else 0.
Proof.
  intros H. unfold new_Gnss_Satellite, set_block, what_block.
  set (s := set_PRN _ _).
  assert (PRN s = if valid_PRN system_ PRN_ then PRN_ else 0) as Es.
  { subst s. unfold set_PRN, set_system. rewrite bool_decide_eq_true_2 by exact H.
    unfold update. cbn [system]. destruct (valid_PRN _ _); reflexivity. }
  clearbody s. destruct (bool_decide (system_ = str "Glonass")); [|exact Es].
  destruct (glonass_rf_link PRN_); exact Es.
Qed.
