(* ===== verification/ChannelFsm.v ===== *)
(** * ChannelFsm: a channel and its state machine

    [class ChannelFsm] of [src/src/algorithms/channel/libs/channel_fsm.{h,cc}],
    the message handler of [channel_msg_receiver_cc.cc] and [class Channel] of
    [src/src/algorithms/channel/adapters/channel.{h,cc}].

    The acquisition, tracking and telemetry blocks that a channel drives are
    known here by the calls made to them, [calls], the last first.  An event of
    the state machine returns what the code returns, the new state and the
    events that it pushes to the control queue. *)

From S2P Require Import Prelude Cstring Float64 GnssSignal.
From stdpp Require Import list strings.
From Stdlib Require Import ZArith Lia Ascii.
Local Open Scope Z_scope.
Local Open Scope cxx_scope.

(** ** The state machine *)

Inductive block_call :=
  | acq_stop_acquisition
  | acq_reset
  | acq_set_local_code
  | acq_set_doppler_center (doppler_center : Z)
  | trk_start_tracking
  | trk_stop_tracking
  | trk_set_gnss_synchro
  | nav_reset
  | nav_set_satellite (satellite : Gnss_Satellite).

(** [Channel_Event]. *)
Record Channel_Event := mkChannel_Event { channel_id : Z; event_type : Z }.

Record ChannelFsm := mkChannelFsm {
  fsm_channel : Z;
  state_ : Z;
  calls : list block_call
}.
#[export] Instance eta_ChannelFsm : Eta ChannelFsm := fun f =>
  mkChannelFsm (fsm_channel f) (state_ f) (calls f).

(** The constructor, and [set_channel]. *)
Definition new_ChannelFsm (channel : Z) : ChannelFsm := mkChannelFsm channel 0 [].

Definition call (c : block_call) (f : ChannelFsm) : ChannelFsm := f <| calls ::= cons c |>.

Definition stop_acquisition (f : ChannelFsm) : ChannelFsm := call acq_stop_acquisition f.
Definition stop_tracking (f : ChannelFsm) : ChannelFsm := call trk_stop_tracking f.
Definition fsm_start_acquisition (f : ChannelFsm) : ChannelFsm := call nav_reset (call acq_reset f).

Definition start_tracking (f : ChannelFsm) : ChannelFsm * list Channel_Event :=
  (call trk_start_tracking f, [mkChannel_Event (fsm_channel f) 1]).
Definition request_satellite (f : ChannelFsm) : ChannelFsm * list Channel_Event :=
  (f, [mkChannel_Event (fsm_channel f) 0]).
Definition notify_stop_tracking (f : ChannelFsm) : ChannelFsm * list Channel_Event :=
  (f, [mkChannel_Event (fsm_channel f) 2]).

Definition fsm_result : Type := bool * ChannelFsm * list Channel_Event.

Definition Event_stop_channel (f : ChannelFsm) : fsm_result :=
  match state_ f with
  | 1 => (true, stop_acquisition (f <| state_ := 0 |>), [])
  | 2 => (true, stop_tracking (f <| state_ := 0 |>), [])
  | _ => (true, f, [])
  end.

Definition Event_start_acquisition_fpga (f : ChannelFsm) : fsm_result :=
  if (state_ f =? 1) || (state_ f =? 2) then (false, f, []) else (true, f <| state_ := 1 |>, []).

Definition Event_start_acquisition (f : ChannelFsm) : fsm_result :=
  if (state_ f =? 1) || (state_ f =? 2) then (false, f, [])
  else (true, fsm_start_acquisition (f <| state_ := 1 |>), []).

Definition Event_valid_acquisition (f : ChannelFsm) : fsm_result :=
  if negb (state_ f =? 1) then (false, f, [])
  else let '(f, pushed) := start_tracking (f <| state_ := 2 |>) in (true, f, pushed).

Definition Event_failed_acquisition_repeat (f : ChannelFsm) : fsm_result :=
  if negb (state_ f =? 1) then (false, f, [])
  else (true, fsm_start_acquisition (f <| state_ := 1 |>), []).

Definition Event_failed_acquisition_no_repeat (f : ChannelFsm) : fsm_result :=
  if negb (state_ f =? 1) then (false, f, [])
  else let '(f, pushed) := request_satellite (f <| state_ := 3 |>) in (true, f, pushed).

Definition Event_failed_tracking_standby (f : ChannelFsm) : fsm_result :=
  if negb (state_ f =? 2) then (false, f, [])
  else let '(f, pushed) := notify_stop_tracking (f <| state_ := 0 |>) in (true, f, pushed).

(** [channel_msg_receiver_cc::msg_handler_channel_events]. *)
Definition msg_handler_channel_events (d_repeat : bool) (message : Z) (f : ChannelFsm) : fsm_result :=
  match message with
  | 1 => Event_valid_acquisition f
  | 2 => if d_repeat then Event_failed_acquisition_repeat f
         else Event_failed_acquisition_no_repeat f
  | 3 => Event_failed_tracking_standby f
  | _ => (false, f, [])
  end.

(** ** The channel *)

Record Channel := mkChannel {
  channel_fsm_ : ChannelFsm;
  gnss_signal_ : Gnss_Signal;
  synchro_Signal : cstring;
  synchro_PRN : Z;
  synchro_System : ascii;
  flag_enable_fpga_ : bool;
  repeat_ : bool
}.
#[export] Instance eta_Channel : Eta Channel := fun c =>
  mkChannel (channel_fsm_ c) (gnss_signal_ c) (synchro_Signal c) (synchro_PRN c)
    (synchro_System c) (flag_enable_fpga_ c) (repeat_ c).

(** The constructor, as far as the state machine goes. *)
Definition new_Channel (channel : Z) (signal_str : cstring) (enable_FPGA repeat_satellite : bool)
  : Channel :=
  mkChannel (new_ChannelFsm channel) (signal_of_string signal_str) [] 0 zero enable_FPGA
    repeat_satellite.

Definition get_signal (c : Channel) : Gnss_Signal := gnss_signal_ c.

Definition call_block (b : block_call) : prog Channel unit :=
  modify (fun c => c <| channel_fsm_ ::= call b |>).

(** [s[i]] of a [const std::string]: at the end the terminating character, beyond it
    undefined. *)
Definition char_at (s : cstring) (i : nat) : outcome ascii :=
  match s !! i with
  | Some c => Returns c
  | None => if Nat.eqb i (length s) then Returns zero else Throws undefined_behaviour
  end.

Definition set_signal (gnss_signal : Gnss_Signal) : prog Channel unit :=
  modify (fun c => c <| gnss_signal_ := gnss_signal |>);;
  str_aux <- gets (fun c => get_signal_str (gnss_signal_ c));;
  c0 <- lift (char_at str_aux 0);;
  c1 <- lift (char_at str_aux 1);;
  modify (fun c => c <| synchro_Signal := [c0; c1] |>
                     <| synchro_PRN := PRN (get_satellite (gnss_signal_ c)) |>);;
  sat <- gets (fun c => get_satellite (gnss_signal_ c));;
  short <- lift (get_system_short sat);;
  sys <- lift (char_at short 0);;
  modify (fun c => c <| synchro_System := sys |>);;
  call_block acq_set_local_code;;
  fpga <- gets flag_enable_fpga_;;
  (if fpga : bool then call_block trk_set_gnss_synchro else ret tt);;
  call_block (nav_set_satellite sat).

(** Running an event of the state machine of a channel. *)
Definition on_fsm (event : ChannelFsm -> fsm_result) (c : Channel)
  : bool * Channel * list Channel_Event :=
  let '(result, f, pushed) := event (channel_fsm_ c) in (result, c <| channel_fsm_ := f |>, pushed).

Definition stop_channel (c : Channel) : Channel :=
  let '(_, c, _) := on_fsm Event_stop_channel c in c.

(** [static_cast<int>] of a [double]. *)
Definition int_of_double (x : double) : outcome Z :=
  match x with
  | SpecFloat.S754_infinity _ | SpecFloat.S754_nan => Throws undefined_behaviour
  | _ => let z := trunc_Z x in
         if (- 2 ^ 31 <=? z) && (z <? 2 ^ 31) then Returns z else Throws undefined_behaviour
  end.

Definition assist_acquisition_doppler (Carrier_Doppler_hz : double) : prog Channel unit :=
  center <- lift (int_of_double Carrier_Doppler_hz);;
  call_block (acq_set_doppler_center center).

(** With the FPGA the acquisition is started whatever the event returns. *)
Definition start_acquisition (c : Channel) : Channel :=
  if negb (flag_enable_fpga_ c) then
    let '(_, c, _) := on_fsm Event_start_acquisition c in c
  else
    let '(_, c, _) := on_fsm Event_start_acquisition_fpga c in
    c <| channel_fsm_ ::= fsm_start_acquisition |>.

(** A message of the acquisition or the tracking block. *)
Definition channel_message (message : Z) (c : Channel) : bool * Channel * list Channel_Event :=
  on_fsm (msg_handler_channel_events (repeat_ c) message) c.
