(* ===== verification/Flowgraph.v ===== *)
(** * Flowgraph: assigning signals to channels

    The acquisition management of [class GNSSFlowgraph] in
    [src/src/core/receiver/gnss_flowgraph.{h,cc}]: the lists of signals still to
    be searched, the assignment of signals to channels, the reaction to channel
    events, and [class channel_status_msg_receiver] of
    [src/src/core/libs/channel_status_msg_receiver.{h,cc}], whose map assists the
    search on secondary frequencies.  [mapStringValues_] and the lists
    [available_..._signals_] are indexed by [StringValue].

    The configuration is a class of the values read from it; the tokenizer that
    reads a list of PRNs is Boost's.  Building and connecting the blocks, the
    hints printed on errors and the FPGA threads are left out. *)

From S2P Require Import Prelude Cstring Float64 GnssSignal ChannelFsm.
From stdpp Require Import list strings.
From Stdlib Require Import ZArith Lia Ascii.
Local Open Scope Z_scope.
Local Open Scope cxx_scope.

Definition FREQ1 : double := double_lit 157542 4.
Definition FREQ2 : double := double_lit 122760 4.
Definition FREQ5 : double := double_lit 117645 4.
Definition FREQ6 : double := double_lit 127875 4.
Definition FREQ7 : double := double_lit 120714 4.

(** ** Signals by their strings *)

Inductive StringValue :=
  | evGPS_1C | evGPS_2S | evGPS_L5 | evSBAS_1C | evGAL_1B | evGAL_5X | evGAL_7X | evGAL_E6
  | evGLO_1G | evGLO_2G | evBDS_B1 | evBDS_B3.

#[export] Instance StringValue_eq_dec : EqDecision StringValue.
Proof. solve_decision. Defined.

Definition signal_strings : list (cstring * StringValue) :=
  [(str "1C", evGPS_1C); (str "2S", evGPS_2S); (str "L5", evGPS_L5); (str "1B", evGAL_1B);
   (str "5X", evGAL_5X); (str "7X", evGAL_7X); (str "E6", evGAL_E6); (str "1G", evGLO_1G);
   (str "2G", evGLO_2G); (str "B1", evBDS_B1); (str "B3", evBDS_B3)].

(** [mapStringValues_[s]]: a string that is not in the map gets the value 0. *)
Definition mapStringValues_ (s : cstring) : StringValue :=
  match list_find (fun p => p.1 = s) signal_strings with
  | Some (_, (_, v)) => v
  | None => evGPS_1C
  end.

(** ** The configuration *)

Class Configuration := {
  (** [Channel<i>.satellite], 0 when it is missing. *)
  channel_satellite : Z -> Z;
  (** [Channels_<signal>.count], 0 when it is missing. *)
  channels_of : StringValue -> Z;
  (** [Channels.in_acquisition]. *)
  in_acquisition : option Z;
  (** [GNSS-SDR.assist_dual_frequency_acq]. *)
  assist_dual_frequency_acq : option bool;
  (** [<system>.prns] and [GNSS-SDR.<system>_banned_prns], empty when missing. *)
  prns : cstring -> cstring;
  banned_prns : cstring -> cstring
}.

(** Boost's tokenizer and [lexical_cast] on a list of PRNs. *)
Class Boost_Tokenizer := tokenize_prns : cstring -> outcome (list Z).

(** ** Channel status *)

(** The members of a [Gnss_Synchro] that the search uses. *)
Record channel_status := mkchannel_status {
  status_Channel_ID : Z;
  status_Signal : cstring;
  status_PRN : Z;
  status_Carrier_Doppler_hz : double;
  status_RX_time : double;
  Flag_valid_pseudorange : bool
}.

(** A [std::map<int, ...>] is a list in the order of its keys. *)
Fixpoint map_insert {A} (k : Z) (v : A) (l : list (Z * A)) : list (Z * A) :=
  match l with
  | [] => [(k, v)]
  | (k', v') :: l' => if k <? k' then (k, v) :: l
                      else if k =? k' then (k, v) :: l' else (k', v') :: map_insert k v l'
  end.
Definition map_erase {A} (k : Z) (l : list (Z * A)) : list (Z * A) :=
  filter (fun p => p.1 ≠ k) l.

Definition msg_handler_channel_status (gnss_synchro_obj : channel_status)
    (d_channel_status_map : list (Z * channel_status)) : list (Z * channel_status) :=
  if Flag_valid_pseudorange gnss_synchro_obj
  then map_insert (status_Channel_ID gnss_synchro_obj) gnss_synchro_obj d_channel_status_map
  else map_erase (status_Channel_ID gnss_synchro_obj) d_channel_status_map.

(** ** The state *)

Record GNSSFlowgraph := mkGNSSFlowgraph {
  channels_ : list Channel;
  channels_state_ : list Z;
  available_signals : StringValue -> list Gnss_Signal;
  status_map : list (Z * channel_status);
  channels_count_ : Z;
  acq_channels_count_ : Z;
  max_acq_channels_ : Z
}.
#[export] Instance eta_GNSSFlowgraph : Eta GNSSFlowgraph := fun g =>
  mkGNSSFlowgraph (channels_ g) (channels_state_ g) (available_signals g) (status_map g)
    (channels_count_ g) (acq_channels_count_ g) (max_acq_channels_ g).

Definition fg (A : Type) : Type := prog GNSSFlowgraph A.

(** Writing one of the lists. *)
Definition set_available (b : StringValue) (f : list Gnss_Signal -> list Gnss_Signal)
    (g : GNSSFlowgraph) : GNSSFlowgraph :=
  g <| available_signals ::= fun a b' => if bool_decide (b' = b) then f (a b') else a b' |>.

(** [list.remove(gs)]: every element that is equal to [gs] goes. *)
Definition remove_equal (gs : Gnss_Signal) (l : list Gnss_Signal) : list Gnss_Signal :=
  filter (fun s => signal_eqb s gs = false) l.

Definition push_back_signal (gs : Gnss_Signal) (g : GNSSFlowgraph) : GNSSFlowgraph :=
  match mapStringValues_ (get_signal_str gs) with
  | evSBAS_1C => g
  | b => set_available b (fun l => remove_equal gs l ++ [gs]) g
  end.

Definition remove_signal (gs : Gnss_Signal) (g : GNSSFlowgraph) : GNSSFlowgraph :=
  match mapStringValues_ (get_signal_str gs) with
  | evSBAS_1C => g
  | b => set_available b (remove_equal gs) g
  end.

Definition project_doppler (searched_signal : cstring) (primary_freq_doppler_hz : double) : double :=
  match mapStringValues_ searched_signal with
  | evGPS_L5 | evGAL_5X => dmul (ddiv primary_freq_doppler_hz FREQ1) FREQ5
  | evGAL_7X => dmul (ddiv primary_freq_doppler_hz FREQ1) FREQ7
  | evGPS_2S => dmul (ddiv primary_freq_doppler_hz FREQ1) FREQ2
  | evGAL_E6 => dmul (ddiv primary_freq_doppler_hz FREQ1) FREQ6
  | _ => primary_freq_doppler_hz
  end.

(** ** Accesses to the channels *)

Definition the_channel (i : Z) : fg Channel := l <- gets channels_;; lift (vat l i).
Definition the_state (i : Z) : fg Z := l <- gets channels_state_;; lift (vat l i).
Definition set_state (i s : Z) : fg unit :=
  l <- gets channels_state_;; l' <- lift (vput l i s);; modify (fun g => g <| channels_state_ := l' |>).

(** A call of a member function of a channel. *)
Definition on_channel {A} (i : Z) (c : prog Channel A) : fg A :=
  ch <- the_channel i;;
  (fun g => let '(o, ch') := c ch in (o, g <| channels_ ::= fun l => vset l i ch' |>)).

Definition channel_start_acquisition (i : Z) : fg unit := on_channel i (modify start_acquisition).
Definition channel_stop (i : Z) : fg unit := on_channel i (modify stop_channel).
Definition channel_set_signal (i : Z) (gs : Gnss_Signal) : fg unit := on_channel i (set_signal gs).

Definition count_up : fg unit := modify (fun g => g <| acq_channels_count_ ::= fun n => i32 (n + 1) |>).
Definition count_down : fg unit :=
  modify (fun g => if 0 <? acq_channels_count_ g
                   then g <| acq_channels_count_ ::= fun n => i32 (n - 1) |> else g).

(** ** The search for a signal *)

(** What [search_next_signal] gives back.  The Doppler and the time of reception
    are only written when assistance is available. *)
Record found := mkfound {
  result : Gnss_Signal;
  is_primary_frequency : bool;
  assistance_available : bool;
  estimated_doppler : option float;
  RX_time : option double
}.

(** [front], [pop_front] and [push_back] of the front. *)
Definition rotate_signal (b : StringValue) : fg Gnss_Signal :=
  l <- gets (fun g => available_signals g b);;
  match l with
  | [] => throw undefined_behaviour
  | s :: l' => modify (set_available b (fun _ => l' ++ [s]));; ret s
  end.

(** The first signal of the list with a PRN, and the list without it. *)
Fixpoint find_PRN (p : Z) (l : list Gnss_Signal) : option (Gnss_Signal * list Gnss_Signal) :=
  match l with
  | [] => None
  | s :: l' =>
      if PRN (get_satellite s) =? p then Some (s, l')
      else match find_PRN p l' with Some (r, l'') => Some (r, s :: l'') | None => None end
  end.

(** The first channel that tracks the primary signal of a satellite of the list. *)
Fixpoint find_assisted (primary : cstring) (current_channels_status : list (Z * channel_status))
    (l : list Gnss_Signal) : option (channel_status * Gnss_Signal * list Gnss_Signal) :=
  match current_channels_status with
  | [] => None
  | (_, st) :: sts =>
      if bool_decide (status_Signal st = primary) then
        match find_PRN (status_PRN st) l with
        | Some (s, l') => Some (st, s, l')
        | None => find_assisted primary sts l
        end
      else find_assisted primary sts l
  end.

Definition search_primary (b : StringValue) : fg found :=
  s <- rotate_signal b;; ret (mkfound s true false None None).

Definition search_unassisted (b : StringValue) : fg found :=
  s <- rotate_signal b;; ret (mkfound s false false None None).

Section Search.
Context `{Configuration}.

Definition search_secondary (primary : cstring) (b : StringValue) : fg found :=
  g <- gets id;;
  match (if 0 <? channels_of (mapStringValues_ primary)
         then find_assisted primary (status_map g) (available_signals g b) else None) with
  | Some (st, s, l') =>
      modify (set_available b (fun _ => l'));;
      ret (mkfound s false true (Some (float_of_double (status_Carrier_Doppler_hz st)))
             (Some (status_RX_time st)))
  | None => search_unassisted b
  end.

Definition search_next_signal (searched_signal : cstring) : fg found :=
  match mapStringValues_ searched_signal with
  | evGPS_1C => search_primary evGPS_1C
  | evGPS_2S => search_secondary (str "1C") evGPS_2S
  | evGPS_L5 => search_secondary (str "1C") evGPS_L5
  | evGAL_1B => search_primary evGAL_1B
  | evGAL_5X => search_secondary (str "1B") evGAL_5X
  | evGAL_7X => search_secondary (str "1B") evGAL_7X
  | evGAL_E6 => search_secondary (str "1B") evGAL_E6
  | evGLO_1G => search_primary evGLO_1G
  | evGLO_2G => search_unassisted evGLO_2G
  | evBDS_B1 => search_primary evBDS_B1
  | evBDS_B3 => search_unassisted evBDS_B3
  | evSBAS_1C =>
      l <- gets (fun g => available_signals g evGPS_1C);;
      match l with
      | [] => ret (mkfound empty_signal false false None None)
      | _ => search_unassisted evGPS_1C
      end
  end.

(** ** The acquisition manager *)

Definition is_multiband : bool :=
  ((0 <? channels_of evGPS_1C) && ((0 <? channels_of evGPS_2S) || (0 <? channels_of evGPS_L5)))
  || ((0 <? channels_of evGAL_1B) &&
      ((0 <? channels_of evGAL_5X) || (0 <? channels_of evGAL_7X) || (0 <? channels_of evGAL_E6)))
  || ((0 <? channels_of evGLO_1G) && (0 <? channels_of evGLO_2G))
  || ((0 <? channels_of evBDS_B1) && (0 <? channels_of evBDS_B3)).

Definition assist_dual : bool := default is_multiband assist_dual_frequency_acq.

(** [static_cast<unsigned>] of [Channel<i>.satellite]. *)
Definition fixed_satellite (i : Z) : Z := u32 (channel_satellite i).

(** Starting the acquisition of the signal that channel [i] was given. *)
Definition begin_acquisition (i : Z) (f : found) : fg unit :=
  set_state i 1;;
  count_up;;
  ch <- the_channel i;;
  (if assistance_available f && assist_dual then
     match estimated_doppler f with
     | Some hz =>
         on_channel i (assist_acquisition_doppler
           (project_doppler (get_signal_str (get_signal ch)) (double_of_float hz)))
     | None => throw undefined_behaviour
     end
   else on_channel i (assist_acquisition_doppler dzero));;
  channel_start_acquisition i.

(** The turn of channel [i] that is idle. *)
Definition serve_channel (i : Z) : fg unit :=
  ch <- the_channel i;;
  if fixed_satellite i =? 0 then
    f <- search_next_signal (get_signal_str (get_signal ch));;
    channel_set_signal i (result f);;
    if is_primary_frequency f || assistance_available f || negb assist_dual
    then begin_acquisition i f
    else modify (push_back_signal (result f))
  else
    channel_set_signal i (get_signal ch);;
    begin_acquisition i (mkfound empty_signal true false None None).

Definition manage_channel (i : Z) : fg unit :=
  g <- gets id;;
  if acq_channels_count_ g <? max_acq_channels_ g then
    s <- the_state i;;
    if s =? 0 then serve_channel i else ret tt
  else ret tt.

Definition acquisition_manager (who : Z) : fg unit :=
  n <- gets channels_count_;;
  for_prog 0 n (fun i => manage_channel (u32 (i + who + 1) mod n)).

(** ** Reacting to events *)

Definition acquisition_failed (who sat : Z) : fg unit :=
  ch <- the_channel who;;
  let gs := get_signal ch in
  set_state who 0;;
  count_down;;
  acquisition_manager who;;
  if sat =? 0 then modify (push_back_signal gs) else ret tt.

Definition acquisition_succeeded (who : Z) : fg unit :=
  ch <- the_channel who;;
  modify (remove_signal (get_signal ch));;
  set_state who 2;;
  count_down;;
  acquisition_manager who.

Definition tracking_failed (who sat : Z) : fg unit :=
  ch <- the_channel who;;
  g <- gets id;;
  if acq_channels_count_ g <? max_acq_channels_ g then
    set_state who 1;;
    count_up;;
    channel_set_signal who (get_signal ch);;
    channel_start_acquisition who
  else
    set_state who 0;;
    if sat =? 0 then modify (push_back_signal (get_signal ch)) else ret tt.

Definition standby_channel (n : Z) : fg unit :=
  s <- the_state n;;
  if (s =? 1) || (s =? 2) then
    ch <- the_channel n;;
    modify (push_back_signal (get_signal ch));;
    channel_stop n;;
    set_state n 0
  else ret tt.

Definition standby : fg unit :=
  n <- gets (fun g => Z.of_nat (length (channels_ g)));;
  for_prog 0 n standby_channel;;
  modify (fun g => g <| acq_channels_count_ := 0 |>).

Definition apply_action (who what : Z) : fg unit :=
  let sat := if who <? 200 then fixed_satellite who else 0 in
  match what with
  | 0 => acquisition_failed who sat
  | 1 => acquisition_succeeded who
  | 2 => tracking_failed who sat
  | 10 => standby
  | _ => ret tt
  end.

(** ** Priority of visible satellites *)

(** Moves a signal to the front of its list when it is there. *)
Definition priorize (b : StringValue) (gs : Gnss_Signal) (g : GNSSFlowgraph) : GNSSFlowgraph :=
  let l := available_signals g b in
  let l' := remove_equal gs l in
  if Nat.ltb (length l') (length l) then set_available b (fun _ => gs :: l') g
  else set_available b (fun _ => l') g.

Definition priorize_satellite (s : Gnss_Satellite) (g : GNSSFlowgraph) : GNSSFlowgraph :=
  if bool_decide (system s = str "GPS") then
    let g := priorize evGPS_1C (mkGnss_Signal s (str "1C")) g in
    let g := priorize evGPS_2S (mkGnss_Signal s (str "2S")) g in
    priorize evGPS_L5 (mkGnss_Signal s (str "L5")) g
  else if bool_decide (system s = str "Galileo") then
    let g := priorize evGAL_1B (mkGnss_Signal s (str "1B")) g in
    let g := priorize evGAL_5X (mkGnss_Signal s (str "5X")) g in
    let g := priorize evGAL_7X (mkGnss_Signal s (str "7X")) g in
    priorize evGAL_E6 (mkGnss_Signal s (str "E6")) g
  else g.

(** Of the pairs of an elevation and a satellite only the satellites are read. *)
Definition priorize_satellites (visible_satellites : list Gnss_Satellite) (g : GNSSFlowgraph)
  : GNSSFlowgraph :=
  fold_left (fun g s => priorize_satellite s g) visible_satellites g.

(** ** Initialization *)

(** A [std::set<unsigned>] is a sorted list. *)
Fixpoint set_insert (x : Z) (l : list Z) : list Z :=
  match l with
  | [] => [x]
  | y :: l' => if x <? y then x :: l else if x =? y then l else y :: set_insert x l'
  end.

Definition set_of (l : list Z) : list Z := fold_left (fun s x => set_insert x s) l [].

(** [std::getline(ss, substr, ',')] as long as the stream is good: the pieces
    between commas. *)
Fixpoint split_commas (s piece : cstring) : list cstring :=
  match s with
  | [] => [rev piece]
  | c :: s' => if Ascii.eqb c "," then rev piece :: split_commas s' [] else split_commas s' (c :: piece)
  end.

Fixpoint digits10 (s : cstring) : list Z :=
  match s with
  | c :: s' => let n := Z.of_nat (Ascii.nat_of_ascii c) - 48 in
               if (0 <=? n) && (n <=? 9) then n :: digits10 s' else []
  | [] => []
  end.

(** [std::stoi(s)]. *)
Definition stoi (s : cstring) : outcome Z :=
  let s := skip_spaces s in
  let '(neg, s) :=
    match s with
    | c :: s' => if Ascii.eqb c "-" then (true, s')
                 else if Ascii.eqb c "+" then (false, s') else (false, s)
    | [] => (false, s)
    end in
  match digits10 s with
  | [] => Throws invalid_argument
  | ds => let v := fold_left (fun v d => 10 * v + d) ds 0 in
          let v := if neg : bool then - v else v in
          if (int_min <=? v) && (v <=? int_max) then Returns v else Throws out_of_range
  end.

(** A banned PRN that is not a number is reported and skipped. *)
Definition ban (available : list Z) (piece : cstring) : list Z :=
  match stoi piece with
  | Returns n => filter (fun x => x ≠ u32 n) available
  | Throws _ => available
  end.

Definition available_prns `{Boost_Tokenizer} (system_ : cstring) (all : list Z) : outcome (list Z) :=
  let* available :=
    (match prns system_ with
     | [] => Returns all
     | sv_list => let* l := tokenize_prns sv_list in
                  Returns (match set_of l with [] => all | s => s end)
     end) in
  Returns (match banned_prns system_ with
           | [] => available
           | sv_banned => fold_left ban (split_commas sv_banned []) available
           end).

Definition available_glonass_prn : list Z := [1; 2; 3; 4; 9; 10; 11; 12; 18; 19; 20; 21; 24].
Definition available_sbas_prn : list Z := [123; 131; 135; 136; 138].

(** The list of one signal, when channels of it are configured. *)
Definition make_list (b : StringValue) (system_ signal_ : cstring) (available : list Z)
    (g : GNSSFlowgraph) : GNSSFlowgraph :=
  if 0 <? channels_of b then
    set_available b (fun l => l ++ map (fun p => mkGnss_Signal (new_Gnss_Satellite system_ p) signal_)
      available) g
  else g.

Definition set_signals_list `{Boost_Tokenizer} : fg unit :=
  galileo <- lift (available_prns (str "Galileo") (seqZ 1 36));;
  gps <- lift (available_prns (str "GPS") (seqZ 1 32));;
  sbas <- lift (available_prns (str "SBAS") available_sbas_prn);;
  glonass <- lift (available_prns (str "Glonass") available_glonass_prn);;
  beidou <- lift (available_prns (str "Beidou") (seqZ 1 63));;
  modify (make_list evGPS_1C (str "GPS") (str "1C") gps);;
  modify (make_list evGPS_2S (str "GPS") (str "2S") gps);;
  modify (make_list evGPS_L5 (str "GPS") (str "L5") gps);;
  modify (make_list evSBAS_1C (str "SBAS") (str "1C") sbas);;
  modify (make_list evGAL_1B (str "Galileo") (str "1B") galileo);;
  modify (make_list evGAL_5X (str "Galileo") (str "5X") galileo);;
  modify (make_list evGAL_7X (str "Galileo") (str "7X") galileo);;
  modify (make_list evGAL_E6 (str "Galileo") (str "E6") galileo);;
  modify (make_list evGLO_1G (str "Glonass") (str "1G") glonass);;
  modify (make_list evGLO_2G (str "Glonass") (str "2G") glonass);;
  modify (make_list evBDS_B1 (str "Beidou") (str "B1") beidou);;
  modify (make_list evBDS_B3 (str "Beidou") (str "B3") beidou).

Definition set_channels_state (g : GNSSFlowgraph) : GNSSFlowgraph :=
  let max := default (channels_count_ g) in_acquisition in
  let max := if channels_count_ g <? max then channels_count_ g else max in
  g <| max_acq_channels_ := max |>
    <| channels_state_ ::= fun l =>
         l ++ map (fun i => if i <? max then 1 else 0) (seqZ 0 (channels_count_ g)) |>
    <| acq_channels_count_ := max |>.

(** Channels with a fixed satellite come first, the last of them before the others. *)
Definition channel_order (n : Z) : list Z :=
  fold_left (fun v i => if fixed_satellite i =? 0 then v ++ [i] else i :: v) (seqZ 0 n) [].

(** The number of channels that [assign_channels] accepts for a signal: one less
    than the satellites, in 64 bits without sign; for GLONASS seven more. *)
Definition max_channels (b : StringValue) (g : GNSSFlowgraph) : Z :=
  let size := Z.of_nat (length (available_signals g b)) in
  match b with
  | evGLO_1G | evGLO_2G => u64 (size + 7)
  | _ => u64 (size - 1)
  end.

Definition checked_signals : list StringValue :=
  [evGPS_1C; evGPS_2S; evGPS_L5; evGAL_1B; evGAL_5X; evGAL_7X; evGAL_E6; evGLO_1G; evGLO_2G;
   evBDS_B1; evBDS_B3].

Definition enough_satellites (g : GNSSFlowgraph) : bool :=
  forallb (fun b => u64 (channels_of b) <=? max_channels b g) checked_signals.

(** The system of a signal, for the channels with a fixed satellite. *)
Definition system_of (b : StringValue) : cstring :=
  match b with
  | evGPS_1C | evGPS_2S | evGPS_L5 | evSBAS_1C => str "GPS"
  | evGAL_1B | evGAL_5X | evGAL_7X | evGAL_E6 => str "Galileo"
  | evGLO_1G | evGLO_2G => str "Glonass"
  | evBDS_B1 | evBDS_B3 => str "Beidou"
  end.

Definition assign_channel (i : Z) : fg unit :=
  ch <- the_channel i;;
  let gnss_signal_str := get_signal_str (get_signal ch) in
  if fixed_satellite i =? 0 then
    f <- search_next_signal gnss_signal_str;;
    channel_set_signal i (result f)
  else
    let b := mapStringValues_ gnss_signal_str in
    let gnss_signal :=
      mkGnss_Signal (new_Gnss_Satellite (system_of b) (fixed_satellite i)) gnss_signal_str in
    modify (set_available (if bool_decide (b = evSBAS_1C) then evGPS_1C else b)
      (remove_equal gnss_signal));;
    channel_set_signal i gnss_signal.

(** 0 when the channels were assigned, 1 when too many are configured. *)
Definition assign_channels : fg Z :=
  n <- gets channels_count_;;
  g <- gets id;;
  if enough_satellites g then iter_prog (channel_order n) assign_channel;; ret 0 else ret 1.

(** The end of [connect_desktop_flowgraph]. *)
Definition activate_channels : fg unit :=
  n <- gets channels_count_;;
  for_prog 0 n (fun i => s <- the_state i;;
    if s =? 1 then channel_start_acquisition i else ret tt).

End Search.

(** [init], with the channels that the block factory made. *)
Definition new_GNSSFlowgraph (channels : list Channel) : GNSSFlowgraph :=
  mkGNSSFlowgraph channels [] (fun _ => []) [] (Z.of_nat (length channels)) 0 0.

Definition init `{Configuration} `{Boost_Tokenizer} : fg unit :=
  set_signals_list;; modify set_channels_state.

(** [init] and the part of [connect] that concerns the assignment. *)
Definition setup `{Configuration} `{Boost_Tokenizer} : fg Z :=
  init;; r <- assign_channels;; if r =? 0 then activate_channels;; ret 0 else ret r.
