(* ===== verification/ControlThread.v ===== *)
(** * ControlThread: the main loop of the receiver

    The dispatch of control messages in [class ControlThread] of
    [src/src/core/receiver/control_thread.{h,cc}], and the receiver as a whole:
    channel state machines that push events to the control queue, and the
    control thread that takes them from it, one message per turn, and otherwise
    runs the acquisition manager.

    The satellites in view are computed from ephemerides through Armadillo and
    RTKLIB; they come with the turn that asks for them.  Threads other than the
    control thread and the channels, and the threads' start and end, are left
    out. *)

From S2P Require Import Prelude Cstring Float64 GnssSignal ChannelFsm Flowgraph.
From stdpp Require Import list strings.
From Stdlib Require Import ZArith Lia Ascii.
Local Open Scope Z_scope.
Local Open Scope cxx_scope.

(** ** The state *)

(** [Command_Event], next to [Channel_Event]. *)
Inductive control_message :=
  | Channel_message (new_event : Channel_Event)
  | Command_message (command_id event_type : Z).

(** Calls to the PVT block and to the assistance reader. *)
Inductive assistance_call := clear_ephemeris | read_assistance_from_XML.

Record ControlThread := mkControlThread {
  flowgraph_ : GNSSFlowgraph;
  control_queue_ : list control_message;
  receiver_on_standby_ : bool;
  stop_ : bool;
  restart_ : bool;
  processed_control_messages_ : Z;
  applied_actions_ : Z;
  assistance_calls : list assistance_call
}.
#[export] Instance eta_ControlThread : Eta ControlThread := fun t =>
  mkControlThread (flowgraph_ t) (control_queue_ t) (receiver_on_standby_ t) (stop_ t) (restart_ t)
    (processed_control_messages_ t) (applied_actions_ t) (assistance_calls t).

Definition new_ControlThread (g : GNSSFlowgraph) : ControlThread :=
  mkControlThread g [] false false false 0 0 [].

(** A call of a member function of the flow graph. *)
Definition on_flowgraph {A} (c : prog GNSSFlowgraph A) : prog ControlThread A :=
  fun t => let '(o, g) := c (flowgraph_ t) in (o, t <| flowgraph_ := g |>).

Definition assist_call (c : assistance_call) (t : ControlThread) : ControlThread :=
  t <| assistance_calls ::= cons c |>.

Section Thread.
Context `{Configuration}.

(** ** Actions and messages *)

(** [ControlThread::apply_action].  The warm start computes the satellites in
    view and drops them. *)
Definition thread_action (what : Z) (visible : list Gnss_Satellite) : prog ControlThread unit :=
  modify (fun t => t <| applied_actions_ ::= fun n => u32 (n + 1) |>);;
  match what with
  | 0 => modify (fun t => t <| stop_ := true |>)
  | 1 => modify (fun t => t <| stop_ := true |> <| restart_ := true |>)
  | 10 => modify (fun t => t <| receiver_on_standby_ := true |>)
  | 11 =>
      modify (assist_call clear_ephemeris);;
      modify (fun t => t <| receiver_on_standby_ := false |>)
  | 12 =>
      on_flowgraph (modify (priorize_satellites visible));;
      modify (fun t => t <| receiver_on_standby_ := false |>)
  | 13 =>
      modify (assist_call clear_ephemeris);;
      modify (assist_call read_assistance_from_XML);;
      on_flowgraph (modify (priorize_satellites []));;
      modify (fun t => t <| receiver_on_standby_ := false |>)
  | _ => ret tt
  end.

(** [event_dispatcher], with the message when there is one. *)
Definition event_dispatcher (msg : option control_message) (visible : list Gnss_Satellite)
  : prog ControlThread unit :=
  match msg with
  | Some m =>
      modify (fun t => t <| processed_control_messages_ ::= fun n => u32 (n + 1) |>);;
      match m with
      | Channel_message new_event =>
          t <- gets id;;
          if negb (receiver_on_standby_ t)
          then on_flowgraph (apply_action (channel_id new_event) (event_type new_event))
          else ret tt
      | Command_message command_id event_type =>
          if command_id =? 200 then thread_action event_type visible
          else
            (if command_id =? 300 then thread_action event_type visible else ret tt);;
            on_flowgraph (apply_action command_id event_type)
      end
  | None =>
      t <- gets id;;
      if negb (receiver_on_standby_ t) then on_flowgraph (acquisition_manager 0) else ret tt
  end.

(** One turn of the main loop: [timed_wait_and_pop], then the dispatcher. *)
Definition turn (visible : list Gnss_Satellite) : prog ControlThread unit :=
  t <- gets id;;
  match control_queue_ t with
  | m :: q => modify (fun t => t <| control_queue_ := q |>);; event_dispatcher (Some m) visible
  | [] => event_dispatcher None visible
  end.

(** The end of [assist_GNSS], before the main loop starts. *)
Definition assist_GNSS (visible_sats : list Gnss_Satellite) : prog ControlThread unit :=
  on_flowgraph (apply_action 0 10);;
  on_flowgraph (modify (priorize_satellites visible_sats));;
  on_flowgraph (apply_action 0 12).

(** ** The receiver *)

(** What happens to the receiver: a message of the acquisition or tracking block
    of a channel, the status of a channel, a command of the user, a turn of the
    main loop, and assistance. *)
Inductive receiver_event :=
  | Block_message (channel message : Z)
  | Channel_status (status : channel_status)
  | Command (command_id event_type : Z)
  | Turn (visible : list Gnss_Satellite)
  | Assist (visible : list Gnss_Satellite).

(** The message handler of channel [i]: its events go to the control queue. *)
Definition block_message (i message : Z) : prog ControlThread unit :=
  t <- gets id;;
  ch <- lift (vat (channels_ (flowgraph_ t)) i);;
  let '(_, ch', pushed) := channel_message message ch in
  modify (fun t => t <| flowgraph_ ::= fun g => g <| channels_ ::= fun l => vset l i ch' |> |>
                     <| control_queue_ ::= fun q => q ++ map Channel_message pushed |>).

Definition receiver_step (e : receiver_event) : prog ControlThread unit :=
  match e with
  | Block_message i message => block_message i message
  | Channel_status status =>
      modify (fun t => t <| flowgraph_ ::= fun g =>
        g <| status_map ::= msg_handler_channel_status status |> |>)
  | Command command_id event_type =>
      modify (fun t => t <| control_queue_ ::= fun q => q ++ [Command_message command_id event_type] |>)
  | Turn visible => turn visible
  | Assist visible => assist_GNSS visible
  end.

Definition receiver_run (es : list receiver_event) : prog ControlThread unit :=
  iter_prog es receiver_step.

End Thread.
