(* ===== verification/FlowgraphProofs.v ===== *)
(** * FlowgraphProofs: no satellite is lost, and the search always finds one

    Every satellite of a signal is in the list of the signal, or is held by a
    channel: one that is acquiring or tracking it, or one that the configuration
    fixed to it.  With more satellites than channels a list that is searched is
    never empty, so that no assignment reaches the [front] of an empty list. *)

From S2P Require Import Prelude Cstring Float64 GnssSignal ChannelFsm Flowgraph.
From stdpp Require Import list strings.
From Stdlib Require Import ZArith Lia Ascii.
Local Open Scope Z_scope.
Local Open Scope cxx_scope.

(** ** Running the accesses to the channels *)

Lemma vset_nat {A} (l : list A) (i : nat) x : vset l (Z.of_nat i) x = <[i:=x]> l.
Proof. unfold vset. destruct (Z.ltb_spec (Z.of_nat i) 0); [lia|]. now rewrite Nat2Z.id. Qed.

Lemma the_channel_run (i : nat) ch g :
  channels_ g !! i = Some ch -> the_channel (Z.of_nat i) g = (Returns ch, g).
Proof.
  intros H. unfold the_channel. rewrite run_gets. unfold lift. now rewrite (vat_lookup _ _ _ H).
Qed.

Lemma the_state_run (i : nat) st g :
  channels_state_ g !! i = Some st -> the_state (Z.of_nat i) g = (Returns st, g).
Proof.
  intros H. unfold the_state. rewrite run_gets. unfold lift. now rewrite (vat_lookup _ _ _ H).
Qed.

Definition with_state (i : nat) (s : Z) (g : GNSSFlowgraph) : GNSSFlowgraph :=
  g <| channels_state_ ::= <[i:=s]> |>.
Definition with_channel (i : nat) (ch : Channel) (g : GNSSFlowgraph) : GNSSFlowgraph :=
  g <| channels_ ::= <[i:=ch]> |>.

Lemma set_state_run (i : nat) st s g : channels_state_ g !! i = Some st ->
  set_state (Z.of_nat i) s g = (Returns tt, with_state i s g).
Proof.
  intros H. unfold set_state. rewrite run_gets. unfold bind at 1, lift, vput.
  rewrite (vat_lookup _ _ _ H). cbn [outcome_bind]. rewrite vset_nat. reflexivity.
Qed.

Lemma on_channel_run {A} (i : nat) ch (c : prog Channel A) g : channels_ g !! i = Some ch ->
  on_channel (Z.of_nat i) c g = ((c ch).1, with_channel i (c ch).2 g).
Proof.
  intros H. unfold on_channel. unfold bind. rewrite (the_channel_run _ _ _ H).
  destruct (c ch) as [o ch']. cbn [fst snd]. unfold with_channel, update. rewrite vset_nat. reflexivity.
Qed.

(** ** Signals in order *)

(** A signal of the band [b], of a known system. *)
Definition signal_good (b : StringValue) (s : Gnss_Signal) : Prop :=
  mapStringValues_ (signal s) = b /\ (1 <= length (signal s))%nat /\
  system (satellite s) ∈ system_set.

(** What [set_signal] leaves of the state machine of a channel. *)
Definition same_fsm (ch ch' : Channel) : Prop :=
  state_ (channel_fsm_ ch') = state_ (channel_fsm_ ch) /\
  fsm_channel (channel_fsm_ ch') = fsm_channel (channel_fsm_ ch) /\
  repeat_ ch' = repeat_ ch /\ flag_enable_fpga_ ch' = flag_enable_fpga_ ch.

Lemma char_at_defined s i : (i <= length s)%nat -> exists c, char_at s i = Returns c.
Proof.
  intros H. unfold char_at. destruct (s !! i) eqn:E; [eauto|].
  apply lookup_ge_None in E. replace i with (length s) by lia. rewrite Nat.eqb_refl. eauto.
Qed.

Lemma set_signal_run b s ch : signal_good b s ->
  exists ch', set_signal s ch = (Returns tt, ch') /\ gnss_signal_ ch' = s /\ same_fsm ch ch'.
Proof.
  intros (_ & Hl & Hs). unfold set_signal. rewrite run_modify, run_gets.
  change (get_signal_str _) with (signal s).
  destruct (char_at_defined (signal s) 0 ltac:(lia)) as [c0 E0].
  destruct (char_at_defined (signal s) 1 ltac:(lia)) as [c1 E1].
  unfold bind at 1, lift at 1. rewrite E0. unfold bind at 1, lift at 1. rewrite E1.
  rewrite run_modify, run_gets.
  destruct (get_system_short_known _ Hs) as (c & rest & Es).
  unfold bind at 1, lift at 1.
  change (get_satellite _) with (satellite s). rewrite Es.
  unfold bind at 1, lift at 1. change (char_at (c :: rest) 0) with (Returns c).
  unfold call_block. rewrite !run_modify, run_gets.
  destruct (flag_enable_fpga_ _) eqn:Ef.
  - rewrite run_modify. eexists. split; [reflexivity|]. split; [reflexivity|]. repeat split.
  - unfold bind, ret. eexists. split; [reflexivity|]. split; [reflexivity|]. repeat split.
Qed.

Lemma mapStringValues_not_SBAS s : mapStringValues_ s <> evSBAS_1C.
Proof.
  unfold mapStringValues_.
  destruct (list_find _ _) as [[i [t v]]|] eqn:E; [|discriminate].
  apply list_find_Some in E as (E & _ & _). apply list_elem_of_lookup_2 in E.
  unfold signal_strings in E.
  repeat (apply elem_of_cons in E as [E|E]; [injection E as _ ->; discriminate|]).
  now apply elem_of_nil in E.
Qed.

Lemma push_back_signal_eq b s g : mapStringValues_ (signal s) = b ->
  push_back_signal s g = set_available b (fun l => remove_equal s l ++ [s]) g.
Proof.
  intros H. unfold push_back_signal, get_signal_str. pose proof (mapStringValues_not_SBAS (signal s)).
  rewrite H in *. destruct b; congruence.
Qed.

Lemma remove_signal_eq b s g : mapStringValues_ (signal s) = b ->
  remove_signal s g = set_available b (remove_equal s) g.
Proof.
  intros H. unfold remove_signal, get_signal_str. pose proof (mapStringValues_not_SBAS (signal s)).
  rewrite H in *. destruct b; congruence.
Qed.

Lemma available_set b f g b' :
  available_signals (set_available b f g) b' =
  if bool_decide (b' = b) then f (available_signals g b') else available_signals g b'.
Proof. reflexivity. Qed.

Lemma elem_remove_equal s t l : t ∈ remove_equal s l <-> t ∈ l /\ key t <> key s.
Proof.
  unfold remove_equal. rewrite list_elem_of_filter, signal_eqb_key, bool_decide_eq_false. tauto.
Qed.

(** ** The invariant *)

(** Every Doppler that may assist a search can be handed to the acquisition. *)
Definition doppler_ok (hz : double) : Prop := forall searched, exists z,
  int_of_double (project_doppler searched (double_of_float (float_of_double hz))) = Returns z.

Definition status_ok (p : Z * channel_status) : Prop := doppler_ok (status_Carrier_Doppler_hz p.2).

Section Invariant.
Context `{Configuration}.

(** [n] channels, the signal of each, and the satellites of each signal. *)
Context (n : nat) (bands : nat -> StringValue) (Sats : StringValue -> list (cstring * Z * Z)).

Definition fixed (i : nat) : Prop := fixed_satellite (Z.of_nat i) <> 0.

(** Each channel has a signal of its own band; the channels of [A] have been given
    a satellite. *)
Record channels_ok (A : nat -> Prop) (g : GNSSFlowgraph) : Prop := {
  ok_channels : length (channels_ g) = n;
  ok_states : length (channels_state_ g) = n;
  ok_count : channels_count_ g = Z.of_nat n;
  ok_band : forall i ch, channels_ g !! i = Some ch ->
    mapStringValues_ (signal (gnss_signal_ ch)) = bands i /\
    (1 <= length (signal (gnss_signal_ ch)))%nat;
  ok_assigned : forall i ch, channels_ g !! i = Some ch -> A i ->
    system (satellite (gnss_signal_ ch)) ∈ system_set;
  ok_available : forall b s, s ∈ available_signals g b -> b = evSBAS_1C \/ signal_good b s;
  ok_status : Forall status_ok (status_map g)
}.

(** A channel holds a satellite while it acquires or tracks it, and when the
    satellite is fixed by the configuration. *)
Definition holder (g : GNSSFlowgraph) (b : StringValue) (k : cstring * Z * Z) : Prop :=
  exists i ch st, channels_ g !! i = Some ch /\ channels_state_ g !! i = Some st /\
    bands i = b /\ key (gnss_signal_ ch) = k /\ (st <> 0 \/ fixed i).

Definition listed (g : GNSSFlowgraph) (b : StringValue) (k : cstring * Z * Z) : Prop :=
  k ∈ map key (available_signals g b).

(** No satellite is lost, but for those of [ps], which an operation has in hand. *)
Definition held (ps : list (StringValue * (cstring * Z * Z))) (g : GNSSFlowgraph) : Prop :=
  forall b k, k ∈ Sats b -> listed g b k \/ holder g b k \/ (b, k) ∈ ps.

Lemma listed_elem g b s : s ∈ available_signals g b -> listed g b (key s).
Proof. intros H1. unfold listed. apply list_elem_of_fmap. eauto. Qed.

Lemma held_weaken ps ps' g : (forall p, p ∈ ps -> p ∈ ps') -> held ps g -> held ps' g.
Proof. intros Hp Hh b k Hk. destruct (Hh b k Hk) as [?|[?|?]]; auto. Qed.

(** ** The operations on the lists *)

Lemma holder_same g g' b k : channels_ g' = channels_ g -> channels_state_ g' = channels_state_ g ->
  holder g b k -> holder g' b k.
Proof. intros E1 E2 (i & ch & st & H'). exists i, ch, st. now rewrite E1, E2. Qed.

(** Membership of a list after [push_back_signal] and [remove_signal]. *)
Lemma listed_push b s g b' k : mapStringValues_ (signal s) = b ->
  listed g b' k \/ (b', k) = (b, key s) -> listed (push_back_signal s g) b' k.
Proof.
  intros Hb H'. rewrite (push_back_signal_eq b) by exact Hb. unfold listed. rewrite available_set.
  case_bool_decide as E; [subst b'|destruct H' as [?|[= -> _]]; [assumption|contradiction]].
  destruct (decide (k = key s)) as [->|Hne].
  - rewrite map_app. apply elem_of_app. right. now apply list_elem_of_singleton.
  - destruct H' as [H'|[= ->]]; [|contradiction].
    apply list_elem_of_fmap in H' as (t & -> & Ht). rewrite map_app. apply elem_of_app. left.
    apply list_elem_of_fmap. exists t. split; [reflexivity|]. now apply elem_remove_equal.
Qed.

Lemma listed_remove b s g b' k : mapStringValues_ (signal s) = b ->
  listed g b' k -> listed (remove_signal s g) b' k \/ (b', k) = (b, key s).
Proof.
  intros Hb H'. rewrite (remove_signal_eq b) by exact Hb. unfold listed in *. rewrite available_set.
  case_bool_decide as E; [subst b'|auto].
  destruct (decide (k = key s)) as [->|Hne]; [auto|left].
  apply list_elem_of_fmap in H' as (t & -> & Ht). apply list_elem_of_fmap. exists t.
  split; [reflexivity|]. now apply elem_remove_equal.
Qed.

Lemma channels_ok_available A g f b :
  (forall s, s ∈ f (available_signals g b) ->
     s ∈ available_signals g b \/ b = evSBAS_1C \/ signal_good b s) ->
  channels_ok A g -> channels_ok A (set_available b f g).
Proof.
  intros Hf [K1 K2 K3 K4 K5 K6 K7]. constructor; try assumption.
  intros b' s Hs. rewrite available_set in Hs. case_bool_decide as E; [subst b'|apply K6, Hs].
  destruct (Hf s Hs); [apply K6|]; assumption.
Qed.

Lemma push_ok A b s g : signal_good b s -> channels_ok A g -> channels_ok A (push_back_signal s g).
Proof.
  intros Hs Hg. rewrite (push_back_signal_eq b) by apply Hs. apply channels_ok_available; [|exact Hg].
  intros t [Ht|Ht]%elem_of_app; [apply elem_remove_equal in Ht; tauto|].
  apply list_elem_of_singleton in Ht as ->. auto.
Qed.

Lemma remove_ok A b s g : signal_good b s -> channels_ok A g -> channels_ok A (remove_signal s g).
Proof.
  intros Hs Hg. rewrite (remove_signal_eq b) by apply Hs. apply channels_ok_available; [|exact Hg].
  intros t Ht. apply elem_remove_equal in Ht. tauto.
Qed.

Lemma push_same b s g : mapStringValues_ (signal s) = b ->
  channels_ (push_back_signal s g) = channels_ g /\
  channels_state_ (push_back_signal s g) = channels_state_ g.
Proof. intros Hb. rewrite (push_back_signal_eq b) by exact Hb. split; reflexivity. Qed.

Lemma remove_same b s g : mapStringValues_ (signal s) = b ->
  channels_ (remove_signal s g) = channels_ g /\
  channels_state_ (remove_signal s g) = channels_state_ g.
Proof. intros Hb. rewrite (remove_signal_eq b) by exact Hb. split; reflexivity. Qed.

(** A signal in hand is pushed back; a signal removed is in hand. *)
Lemma held_push b s ps g : mapStringValues_ (signal s) = b ->
  held ((b, key s) :: ps) g -> held ps (push_back_signal s g).
Proof.
  intros Hb Hh b' k Hk. destruct (push_same b s g Hb) as [E1 E2].
  destruct (Hh b' k Hk) as [Hl|[Hc|Hp]].
  - left. apply (listed_push b); auto.
  - right. left. apply (holder_same g); assumption.
  - apply elem_of_cons in Hp as [Hp|Hp]; [|auto]. left. apply (listed_push b); auto.
Qed.

Lemma held_remove b s ps g : mapStringValues_ (signal s) = b ->
  held ps g -> held ((b, key s) :: ps) (remove_signal s g).
Proof.
  intros Hb Hh b' k Hk. destruct (remove_same b s g Hb) as [E1 E2].
  destruct (Hh b' k Hk) as [Hl|[Hc|Hp]].
  - destruct (listed_remove b s g b' k Hb Hl) as [?| ->]; [auto|]. right. right. left.
  - right. left. apply (holder_same g); assumption.
  - right. right. now right.
Qed.

(** ** The operations on the channels *)

Lemma state_lookup A g i : channels_ok A g -> (i < n)%nat ->
  exists ch st, channels_ g !! i = Some ch /\ channels_state_ g !! i = Some st.
Proof.
  intros K Hi. destruct (lookup_lt_is_Some_2 (channels_ g) i) as [ch E]; [rewrite (ok_channels A); auto|].
  destruct (lookup_lt_is_Some_2 (channels_state_ g) i) as [st E']; [rewrite (ok_states A); auto|].
  eauto.
Qed.

Lemma with_state_ok A i s g : channels_ok A g -> channels_ok A (with_state i s g).
Proof.
  intros [K1 K2 K3 K4 K5 K6 K7]. constructor; try assumption.
  unfold with_state, update. cbn. rewrite length_insert. exact K2.
Qed.

(** Replacing a channel by one with a signal of the same band. *)
Lemma with_channel_ok (A A' : nat -> Prop) i ch ch' g :
  channels_ g !! i = Some ch ->
  mapStringValues_ (signal (gnss_signal_ ch')) = bands i ->
  (1 <= length (signal (gnss_signal_ ch')))%nat ->
  (A' i -> system (satellite (gnss_signal_ ch')) ∈ system_set) ->
  (forall j, A' j -> A j \/ j = i) ->
  channels_ok A g -> channels_ok A' (with_channel i ch' g).
Proof.
  intros E B1 B2 B3 B4 [K1 K2 K3 K4 K5 K6 K7].
  assert (forall j c, <[i:=ch']> (channels_ g) !! j = Some c ->
    (j = i /\ c = ch') \/ (j <> i /\ channels_ g !! j = Some c)) as Hl.
  { intros j c Hj. destruct (decide (j = i)) as [->|Hne].
    - rewrite list_lookup_insert_eq in Hj by (apply lookup_lt_Some in E; exact E). left. split; congruence.
    - rewrite list_lookup_insert_ne in Hj by congruence. auto. }
  constructor; try assumption.
  - unfold with_channel, update. cbn. rewrite length_insert. exact K1.
  - intros j c Hj. apply Hl in Hj as [[-> ->]|[_ Hj]]; [auto|eauto].
  - intros j c Hj Aj. apply Hl in Hj as [[-> ->]|[Hne Hj]]; [auto|].
    destruct (B4 j Aj); [eauto|contradiction].
Qed.

(** Changing the state of a channel: what it held is in hand unless it holds it
    still. *)
Lemma held_with_state i s st ch ps g :
  channels_ g !! i = Some ch -> channels_state_ g !! i = Some st ->
  held ps g -> held ((bands i, key (gnss_signal_ ch)) :: ps) (with_state i s g).
Proof.
  intros Ec Es Hh b k Hk. destruct (Hh b k Hk) as [Hl|[(j & c & t & J1 & J2 & J3 & J4 & J5)|Hp]].
  - now left.
  - destruct (decide (j = i)) as [->|Hne].
    + right. right. rewrite Ec in J1. injection J1 as ->. rewrite J3, J4. left.
    + right. left. exists j, c, t. split; [exact J1|]. split; [|auto].
      unfold with_state, update. cbn. now rewrite list_lookup_insert_ne by congruence.
  - right. right. now right.
Qed.

Lemma held_take i s st ch ps g :
  channels_ g !! i = Some ch -> channels_state_ g !! i = Some st -> s <> 0 \/ fixed i ->
  held ((bands i, key (gnss_signal_ ch)) :: ps) g -> held ps (with_state i s g).
Proof.
  intros Ec Es Hs Hh b k Hk.
  assert (holder (with_state i s g) (bands i) (key (gnss_signal_ ch))) as Hi.
  { exists i, ch, s. split; [exact Ec|]. split; [|auto].
    unfold with_state, update. cbn. apply list_lookup_insert_eq. apply lookup_lt_Some in Es. exact Es. }
  destruct (held_with_state i s st ch _ g Ec Es Hh b k Hk) as [?|[?|Hp]]; auto.
  apply elem_of_cons in Hp as [[= -> ->]|Hp]; [auto|].
  apply elem_of_cons in Hp as [[= -> ->]|Hp]; auto.
Qed.

(** Giving a signal to a channel that holds none, or the same signal again. *)
Lemma held_with_channel i st ch ch' ps g :
  channels_ g !! i = Some ch -> channels_state_ g !! i = Some st ->
  (st = 0 /\ ~ fixed i) \/ gnss_signal_ ch' = gnss_signal_ ch \/
    key (gnss_signal_ ch) ∉ Sats (bands i) ->
  held ps g -> held ps (with_channel i ch' g).
Proof.
  intros Ec Es Hi Hh b k Hk. destruct (Hh b k Hk) as [Hl|[(j & c & t & J1 & J2 & J3 & J4 & J5)|Hp]]; auto.
  right. left. destruct (decide (j = i)) as [->|Hne].
  - destruct Hi as [[-> Hf]|[Hi|Hi]].
    3:{ rewrite Ec in J1. injection J1 as ->. subst. contradiction. }
    + rewrite Es in J2. injection J2 as <-. destruct J5; [contradiction|contradiction].
    + exists i, ch', t. unfold with_channel, update. cbn.
      rewrite list_lookup_insert_eq by (apply lookup_lt_Some in Ec; exact Ec).
      rewrite Ec in J1. injection J1 as ->. rewrite Hi. auto.
  - exists j, c, t. unfold with_channel, update. cbn.
    rewrite list_lookup_insert_ne by congruence. auto.
Qed.

(** ** The search *)

(** Fewer channels than satellites. *)
Definition channels_with (b : StringValue) : list nat := filter (fun j => bands j = b) (seq 0 n).
Definition enough (b : StringValue) : Prop :=
  NoDup (Sats b) /\ (length (channels_with b) < length (Sats b))%nat.

(** Every satellite of the band is in hand or held by another channel: then there
    are no more satellites than channels. *)
Lemma held_by_others b i0 ps g :
  (i0 < n)%nat -> bands i0 = b -> NoDup (Sats b) -> (length ps <= 1)%nat ->
  (forall k, k ∈ Sats b -> (b, k) ∈ ps \/ exists j ch, (j < n)%nat /\ j <> i0 /\ bands j = b /\
     channels_ g !! j = Some ch /\ key (gnss_signal_ ch) = k) ->
  (length (Sats b) <= length (channels_with b))%nat.
Proof.
  intros Hi Hb Hnd Hps Hall.
  set (others := filter (fun j => bands j = b /\ j <> i0) (seq 0 n)).
  set (key_of j := default ([], 0, 0) ((fun ch => key (gnss_signal_ ch)) <$> channels_ g !! j)).
  assert (length (i0 :: others) <= length (channels_with b))%nat as Hlt.
  { apply List.NoDup_incl_length.
    - apply NoDup_ListNoDup. constructor.
      + unfold others. rewrite list_elem_of_filter. tauto.
      + apply NoDup_filter, NoDup_ListNoDup, seq_NoDup.
    - intros j Hj. apply list_elem_of_In in Hj. apply list_elem_of_In. unfold channels_with.
      apply list_elem_of_filter. apply elem_of_cons in Hj as [->|Hj].
      + split; [exact Hb|]. apply elem_of_seq. lia.
      + apply list_elem_of_filter in Hj as [[? _] ?]. auto. }
  assert (length (Sats b) <= length (ps.*2 ++ map key_of others))%nat as Hle.
  { apply List.NoDup_incl_length; [apply NoDup_ListNoDup, Hnd|]. intros k Hk.
    apply list_elem_of_In in Hk. apply list_elem_of_In, elem_of_app.
    destruct (Hall k Hk) as [Hp|(j & ch & Hj & Hne & Hbj & Ec & Ek)].
    - left. apply list_elem_of_fmap. now exists (b, k).
    - right. apply list_elem_of_fmap. exists j. unfold key_of. rewrite Ec. split; [easy|].
      apply list_elem_of_filter. split; [auto|]. apply elem_of_seq. lia. }
  rewrite length_app, !length_map in Hle. cbn [length] in Hlt. lia.
Qed.

Lemma available_nonempty A b i ps g :
  channels_ok A g -> held ps g -> (length ps <= 1)%nat -> enough b -> (i < n)%nat -> bands i = b ->
  (forall ch st, channels_ g !! i = Some ch -> channels_state_ g !! i = Some st ->
     (st = 0 /\ ~ fixed i) \/ key (gnss_signal_ ch) ∉ Sats b) ->
  available_signals g b <> [].
Proof.
  intros K Hh Hps [Hnd He] Hi Hb Hidle Ha.
  pose proof (held_by_others b i ps g Hi Hb Hnd Hps) as Hle.
  assert (length (Sats b) <= length (channels_with b))%nat; [|lia].
  apply Hle. intros k Hk. destruct (Hh b k Hk) as [Hl|[(j & ch & st & J1 & J2 & J3 & J4 & J5)|Hp]].
  - unfold listed in Hl. rewrite Ha in Hl. now apply elem_of_nil in Hl.
  - right. exists j, ch. split; [apply lookup_lt_Some in J1; rewrite <- (ok_channels A g K); exact J1|].
    split; [|auto]. intros ->. destruct (Hidle ch st J1 J2) as [[-> Hf]|Hn].
    + destruct J5; contradiction.
    + now rewrite J4 in Hn.
  - auto.
Qed.

(** Membership of a rotated list. *)
Lemma rotated_listed b s l g b' k : available_signals g b = s :: l ->
  listed (set_available b (fun _ => l ++ [s]) g) b' k <-> listed g b' k.
Proof.
  intros E. unfold listed. rewrite available_set. case_bool_decide as E'; [subst b'|reflexivity].
  rewrite E, map_app. cbn [map]. rewrite elem_of_app, !elem_of_cons, elem_of_nil. tauto.
Qed.

Lemma find_PRN_elem p l s l' : find_PRN p l = Some (s, l') ->
  s ∈ l /\ (forall t, t ∈ l' -> t ∈ l) /\ (forall t, t ∈ l -> t = s \/ t ∈ l').
Proof.
  revert s l'. induction l as [|x l IH]; intros s l'; [discriminate|]. cbn [find_PRN].
  destruct (_ =? _).
  - intros [= <- <-]. split; [left|]. split; [intros t Ht; now right|].
    intros t [?|?]%elem_of_cons; auto.
  - destruct (find_PRN p l) as [[r l'']|]; [|discriminate]. intros [= -> <-].
    destruct (IH s l'' eq_refl) as (I1 & I2 & I3). split; [now right|]. split.
    + intros t [->|Ht]%elem_of_cons; [left|right; auto].
    + intros t [->|Ht]%elem_of_cons; [right; left|]. destruct (I3 t Ht); [auto|right; now right].
Qed.

Lemma find_assisted_elem primary sts l st s l' : find_assisted primary sts l = Some (st, s, l') ->
  (exists i, (i, st) ∈ sts) /\ s ∈ l /\ (forall t, t ∈ l' -> t ∈ l) /\
  (forall t, t ∈ l -> t = s \/ t ∈ l').
Proof.
  induction sts as [|[i st0] sts IH]; [discriminate|]. cbn [find_assisted].
  case_bool_decide.
  - destruct (find_PRN _ l) as [[r l'']|] eqn:Ef.
    + intros [= -> -> ->]. apply find_PRN_elem in Ef. split; [exists i; left|exact Ef].
    + intros Hf. destruct (IH Hf) as ((j & Hj) & ?). split; [exists j; now right|assumption].
  - intros Hf. destruct (IH Hf) as ((j & Hj) & ?). split; [exists j; now right|assumption].
Qed.

(** What a search gives: a good signal of the band, in hand. *)
Record found_ok (A : nat -> Prop) (b : StringValue) ps g f g' : Prop := {
  found_set : exists h, g' = set_available b h g;
  found_channels : channels_ok A g';
  found_held : held ((b, key (result f)) :: ps) g';
  found_good : signal_good b (result f);
  found_doppler : assistance_available f = true ->
    exists hz, estimated_doppler f = Some (float_of_double hz) /\ doppler_ok hz;
  found_listed : assistance_available f = false -> held ps g';
  found_status : status_map g = [] -> assistance_available f = false
}.

Lemma rotate_spec A b ps g : b <> evSBAS_1C -> channels_ok A g -> held ps g -> available_signals g b <> [] ->
  exists s g', rotate_signal b g = (Returns s, g') /\
    forall p, found_ok A b ps g (mkfound s p false None None) g'.
Proof.
  intros Hb K Hh Hne. unfold rotate_signal. rewrite run_gets.
  destruct (available_signals g b) as [|s l] eqn:E; [congruence|].
  exists s, (set_available b (fun _ => l ++ [s]) g). split; [reflexivity|]. intros p.
  assert (forall t, t ∈ l ++ [s] -> t ∈ available_signals g b) as Hin.
  { intros t [?|Ht]%elem_of_app; rewrite E; [now right|].
    apply list_elem_of_singleton in Ht as ->. left. }
  assert (held ps (set_available b (fun _ => l ++ [s]) g)) as Hh'.
  { intros b' k Hk. destruct (Hh b' k Hk) as [Hl|[Hc|?]]; [left|right; left|auto].
    - now apply rotated_listed.
    - now apply (holder_same g). }
  constructor; cbn; try discriminate; try tauto.
  - eauto.
  - apply channels_ok_available; auto.
  - apply (held_weaken ps); [|exact Hh']. intros q Hq. now right.
  - destruct (ok_available A g K b s); [rewrite E; left|contradiction|assumption].
Qed.

Lemma assisted_spec A b primary ps g st s l' : b <> evSBAS_1C -> channels_ok A g -> held ps g ->
  find_assisted primary (status_map g) (available_signals g b) = Some (st, s, l') ->
  found_ok A b ps g (mkfound s false true (Some (float_of_double (status_Carrier_Doppler_hz st)))
    (Some (status_RX_time st))) (set_available b (fun _ => l') g).
Proof.
  intros Hb K Hh Hf. apply find_assisted_elem in Hf as ((j & Hj) & Hs & Hin & Hout).
  constructor; cbn; try discriminate.
  - eauto.
  - apply channels_ok_available; auto.
  - intros b' k Hk. destruct (Hh b' k Hk) as [Hl|[Hc|?]].
    + unfold listed in *. rewrite available_set. case_bool_decide as E; [subst b'|auto].
      apply list_elem_of_fmap in Hl as (t & -> & Ht). destruct (Hout t Ht) as [->|Ht'].
      * right. right. left.
      * left. apply list_elem_of_fmap. eauto.
    + right. left. now apply (holder_same g).
    + right. right. now right.
  - destruct (ok_available A g K b s Hs); [contradiction|assumption].
  - intros _. exists (status_Carrier_Doppler_hz st). split; [reflexivity|].
    pose proof (ok_status A g K) as Hst. rewrite Forall_forall in Hst. exact (Hst _ Hj).
  - intros E. rewrite E in Hj. now apply elem_of_nil in Hj.
Qed.

Lemma search_unassisted_spec A b ps g : b <> evSBAS_1C -> channels_ok A g -> held ps g -> available_signals g b <> [] ->
  exists f g', search_unassisted b g = (Returns f, g') /\ found_ok A b ps g f g'.
Proof.
  intros Hb K Hh Hne. destruct (rotate_spec A b ps g Hb K Hh Hne) as (s & g' & E & Hf).
  unfold search_unassisted, bind. rewrite E. eexists _, g'. split; [reflexivity|apply Hf].
Qed.

Lemma search_primary_spec A b ps g : b <> evSBAS_1C -> channels_ok A g -> held ps g -> available_signals g b <> [] ->
  exists f g', search_primary b g = (Returns f, g') /\ found_ok A b ps g f g' /\
    is_primary_frequency f = true.
Proof.
  intros Hb K Hh Hne. destruct (rotate_spec A b ps g Hb K Hh Hne) as (s & g' & E & Hf).
  unfold search_primary, bind. rewrite E. eexists _, g'. split; [reflexivity|].
  split; [apply Hf|reflexivity].
Qed.

Lemma search_secondary_spec A primary b ps g : b <> evSBAS_1C -> channels_ok A g -> held ps g ->
  available_signals g b <> [] ->
  exists f g', search_secondary primary b g = (Returns f, g') /\ found_ok A b ps g f g'.
Proof.
  intros Hb K Hh Hne. unfold search_secondary. rewrite run_gets. cbn [id].
  destruct (0 <? channels_of _); [|now apply search_unassisted_spec].
  destruct (find_assisted _ _ _) as [[[st s] l']|] eqn:Ef; [|now apply search_unassisted_spec].
  rewrite run_modify. eexists _, _. split; [reflexivity|]. now apply (assisted_spec A b primary).
Qed.

Lemma search_spec A b (str : cstring) ps g : mapStringValues_ str = b ->
  channels_ok A g -> held ps g -> available_signals g b <> [] ->
  exists f g', search_next_signal str g = (Returns f, g') /\ found_ok A b ps g f g'.
Proof.
  intros <- K Hh Hne. unfold search_next_signal.
  pose proof (mapStringValues_not_SBAS str) as Hb.
  destruct (mapStringValues_ str); try congruence;
    try (now apply search_unassisted_spec); try (now apply search_secondary_spec);
    destruct (search_primary_spec A _ ps g Hb K Hh Hne) as (f & g' & E & Hf & _); eauto.
Qed.

(** ** Serving a channel *)

(** A program that keeps the channels and loses no satellite. *)
Definition keeps (ps : list (StringValue * (cstring * Z * Z))) (c : fg unit) : Prop :=
  forall g, channels_ok (fun _ => True) g -> held ps g ->
    exists g', c g = (Returns tt, g') /\ channels_ok (fun _ => True) g' /\ held ps g'.

Lemma keeps_fg_bind ps c k : keeps ps c -> keeps ps k -> keeps ps (bind c (fun _ => k)).
Proof.
  intros Hc Hk g K Hh. destruct (Hc g K Hh) as (g1 & E1 & K1 & H1).
  unfold bind. rewrite E1. now apply Hk.
Qed.

Lemma keeps_fg_ret ps : keeps ps (ret tt).
Proof. intros g K Hh. exists g. auto. Qed.

Lemma keeps_iter {X} ps (l : list X) f : (forall x, x ∈ l -> keeps ps (f x)) -> keeps ps (iter_prog l f).
Proof.
  induction l as [|x l IH]; intros Hf; [apply keeps_fg_ret|]. cbn [iter_prog].
  apply keeps_fg_bind; [apply Hf; left|]. apply IH. intros y Hy. apply Hf. now right.
Qed.

(** Members that the channels and the lists do not depend on. *)
Lemma keeps_counts ps f :
  (forall g, channels_ (f g) = channels_ g /\ channels_state_ (f g) = channels_state_ g /\
    available_signals (f g) = available_signals g /\ status_map (f g) = status_map g /\
    channels_count_ (f g) = channels_count_ g) -> keeps ps (modify f).
Proof.
  intros Hf g [K1 K2 K3 K4 K5 K6 K7] Hh. destruct (Hf g) as (E1 & E2 & E3 & E4 & E5).
  exists (f g). split; [reflexivity|]. split.
  - constructor; rewrite ?E1, ?E2, ?E3, ?E4, ?E5; try assumption.
  - intros b k Hk. destruct (Hh b k Hk) as [Hl|[Hc|?]]; [left|right; left|auto].
    + unfold listed. now rewrite E3.
    + now apply (holder_same g).
Qed.

Lemma keeps_count_up ps : keeps ps count_up.
Proof. apply keeps_counts. intros g. repeat split. Qed.
Lemma keeps_count_down ps : keeps ps count_down.
Proof. apply keeps_counts. intros g. destruct (0 <? _); repeat split. Qed.

(** A call of a channel that returns and leaves its signal. *)
Lemma keeps_on_channel ps i (c : prog Channel unit) : (i < n)%nat ->
  (forall g ch, channels_ok (fun _ => True) g -> channels_ g !! i = Some ch ->
     (c ch).1 = Returns tt /\ gnss_signal_ (c ch).2 = gnss_signal_ ch) ->
  keeps ps (on_channel (Z.of_nat i) c).
Proof.
  intros Hi Hc g K Hh. destruct (state_lookup _ g i K Hi) as (ch & st & Ec & Es).
  rewrite (on_channel_run i ch c g Ec). destruct (Hc g ch K Ec) as [E1 E2]. rewrite E1.
  eexists. split; [reflexivity|]. destruct (ok_band _ g K i ch Ec) as [B1 B2]. split.
  - apply (with_channel_ok (fun _ => True) _ i ch); rewrite ?E2; auto.
    intros _. exact (ok_assigned _ g K i ch Ec I).
  - apply (held_with_channel i st ch); auto.
Qed.

Lemma start_acquisition_signal ch : gnss_signal_ (start_acquisition ch) = gnss_signal_ ch.
Proof.
  unfold start_acquisition, on_fsm. destruct (negb _).
  - destruct (Event_start_acquisition _) as [[r f] p]. reflexivity.
  - destruct (Event_start_acquisition_fpga _) as [[r f] p]. reflexivity.
Qed.

Lemma stop_channel_signal ch : gnss_signal_ (stop_channel ch) = gnss_signal_ ch.
Proof.
  unfold stop_channel, on_fsm. destruct (Event_stop_channel _) as [[r f] p]. reflexivity.
Qed.

Lemma keeps_start ps i : (i < n)%nat -> keeps ps (channel_start_acquisition (Z.of_nat i)).
Proof.
  intros Hi. apply keeps_on_channel; [exact Hi|]. intros g ch _ _.
  split; [reflexivity|]. apply start_acquisition_signal.
Qed.

Lemma keeps_stop ps i : (i < n)%nat -> keeps ps (channel_stop (Z.of_nat i)).
Proof.
  intros Hi. apply keeps_on_channel; [exact Hi|]. intros g ch _ _.
  split; [reflexivity|]. apply stop_channel_signal.
Qed.

Lemma assist_run x z ch : int_of_double x = Returns z ->
  (assist_acquisition_doppler x ch).1 = Returns tt /\
  gnss_signal_ (assist_acquisition_doppler x ch).2 = gnss_signal_ ch.
Proof.
  intros E. unfold assist_acquisition_doppler. unfold bind at 1, lift at 1.
  unfold bind, lift. rewrite E. split; reflexivity.
Qed.

Lemma same_signal_keeps ps i : (i < n)%nat -> forall g ch, channels_ok (fun _ => True) g ->
  channels_ g !! i = Some ch -> held ps g ->
  exists g', channel_set_signal (Z.of_nat i) (get_signal ch) g = (Returns tt, g') /\
    channels_ok (fun _ => True) g' /\ held ps g' /\ channels_state_ g' = channels_state_ g.
Proof.
  intros Hi g ch K Ec Hh. destruct (state_lookup _ g i K Hi) as (ch' & st & Ec' & Es).
  rewrite Ec in Ec'. injection Ec' as <-. destruct (ok_band _ g K i ch Ec) as [B1 B2].
  pose proof (ok_assigned _ g K i ch Ec I) as B3.
  destruct (set_signal_run (bands i) (gnss_signal_ ch) ch) as (c' & E1 & E2 & _); [now split|].
  unfold channel_set_signal. rewrite (on_channel_run i ch _ g Ec). unfold get_signal. rewrite E1.
  eexists. split; [reflexivity|]. cbn [snd]. split; [|split; [|reflexivity]].
  - apply (with_channel_ok (fun _ => True) _ i ch); rewrite ?E2; auto.
  - apply (held_with_channel i st ch); auto.
Qed.

(** A channel to which [c] is applied, with any signal it has. *)
Lemma keeps_the_channel ps i k : (i < n)%nat -> (forall ch, keeps ps (k ch)) ->
  keeps ps (bind (the_channel (Z.of_nat i)) k).
Proof.
  intros Hi Hk g K Hh. destruct (state_lookup _ g i K Hi) as (ch & st & Ec & Es).
  rewrite (bind_returns _ _ _ _ _ (the_channel_run i ch g Ec)). now apply Hk.
Qed.

Lemma keeps_fg_gets {X} ps (f : GNSSFlowgraph -> X) k :
  (forall g, channels_ok (fun _ => True) g ->
    forall x, x = f g -> held ps g -> exists g', k x g = (Returns tt, g') /\
      channels_ok (fun _ => True) g' /\ held ps g') -> keeps ps (bind (gets f) k).
Proof. intros Hk g K Hh. rewrite run_gets. now apply (Hk g K (f g)). Qed.

Lemma begin_spec ps i f g ch st : (i < n)%nat -> channels_ok (fun _ => True) g ->
  channels_ g !! i = Some ch -> channels_state_ g !! i = Some st ->
  held ((bands i, key (gnss_signal_ ch)) :: ps) g ->
  (assistance_available f = true ->
    exists hz, estimated_doppler f = Some (float_of_double hz) /\ doppler_ok hz) ->
  exists g', begin_acquisition (Z.of_nat i) f g = (Returns tt, g') /\
    channels_ok (fun _ => True) g' /\ held ps g'.
Proof.
  intros Hi K Ec Es Hh Hd. unfold begin_acquisition.
  rewrite (bind_returns _ _ _ _ _ (set_state_run i st 1 g Es)).
  apply (keeps_fg_bind ps count_up).
  - apply keeps_count_up.
  - apply keeps_the_channel; [exact Hi|]. intros c. apply keeps_fg_bind; [|now apply keeps_start].
    destruct (assistance_available f && assist_dual) eqn:Ea.
    + apply andb_true_iff in Ea as [Ea _]. destruct (Hd Ea) as (hz & -> & Hz).
      apply keeps_on_channel; [exact Hi|]. intros g' ch' _ _.
      destruct (Hz (get_signal_str (get_signal c))) as [z Ez]. exact (assist_run _ z ch' Ez).
    + apply keeps_on_channel; [exact Hi|]. intros g' ch' _ _. now apply (assist_run _ 0).
  - now apply with_state_ok.
  - apply (held_take i 1 st ch); auto.
Qed.

Context (Henough : forall i, (i < n)%nat -> enough (bands i)).

Lemma serve_spec ps i g st : (i < n)%nat -> (length ps <= 1)%nat ->
  channels_ok (fun _ => True) g -> channels_state_ g !! i = Some st -> st = 0 -> held ps g ->
  exists g', serve_channel (Z.of_nat i) g = (Returns tt, g') /\
    channels_ok (fun _ => True) g' /\ held ps g'.
Proof.
  intros Hi Hps K Es -> Hh. destruct (state_lookup _ g i K Hi) as (ch & st' & Ec & _).
  unfold serve_channel. rewrite (bind_returns _ _ _ _ _ (the_channel_run i ch g Ec)).
  destruct (Z.eqb_spec (fixed_satellite (Z.of_nat i)) 0) as [Ef|Ef].
  - destruct (ok_band _ g K i ch Ec) as [B1 B2].
    assert (available_signals g (bands i) <> []) as Hne.
    { apply (available_nonempty (fun _ => True) (bands i) i ps); auto. intros c s C1 C2.
      left. split; [congruence|]. unfold fixed. lia. }
    destruct (search_spec _ _ (get_signal_str (get_signal ch)) ps g B1 K Hh Hne)
      as (f & g1 & E1 & F).
    rewrite (bind_returns _ _ _ _ _ E1). destruct (found_set _ _ _ _ _ _ F) as [h Eh].
    assert (channels_ g1 !! i = Some ch) as Ec1 by (rewrite Eh; exact Ec).
    assert (channels_state_ g1 !! i = Some 0) as Es1 by (rewrite Eh; exact Es).
    pose proof (found_good _ _ _ _ _ _ F) as Hg. pose proof (found_channels _ _ _ _ _ _ F) as K1.
    destruct (set_signal_run _ (result f) ch Hg) as (c' & D1 & D2 & _).
    assert (channel_set_signal (Z.of_nat i) (result f) g1 = (Returns tt, with_channel i c' g1)) as E2.
    { unfold channel_set_signal. rewrite (on_channel_run i ch _ g1 Ec1), D1. reflexivity. }
    rewrite (bind_returns _ _ _ _ _ E2). destruct Hg as (G1 & G2 & G3).
    assert (channels_ok (fun _ => True) (with_channel i c' g1)) as K2.
    { apply (with_channel_ok (fun _ => True) _ i ch); rewrite ?D2; auto. }
    assert (held ((bands i, key (result f)) :: ps) (with_channel i c' g1)) as H2.
    { apply (held_with_channel i 0 ch); [exact Ec1|exact Es1| |apply (found_held _ _ _ _ _ _ F)].
      left. split; [reflexivity|]. unfold fixed. lia. }
    destruct (_ || negb assist_dual).
    + apply (begin_spec ps i f _ c' 0); auto.
      * unfold with_channel, update. cbn. apply list_lookup_insert_eq.
        apply lookup_lt_Some in Ec1. exact Ec1.
      * rewrite D2. exact H2.
      * apply (found_doppler _ _ _ _ _ _ F).
    + eexists. split; [reflexivity|]. split.
      * apply (push_ok _ (bands i)); [now split|exact K2].
      * apply (held_push (bands i)); [exact G1|exact H2].
  - destruct (same_signal_keeps ps i Hi g ch K Ec Hh) as (g1 & E1 & K1 & H1 & S1).
    rewrite (bind_returns _ _ _ _ _ E1). destruct (state_lookup _ g1 i K1 Hi) as (c1 & s1 & C1 & C2).
    apply (begin_spec ps i _ g1 c1 s1); auto; try discriminate.
    apply (held_weaken ps); [|exact H1]. intros q Hq. now right.
Qed.

Lemma manage_spec ps i : (i < n)%nat -> (length ps <= 1)%nat -> keeps ps (manage_channel (Z.of_nat i)).
Proof.
  intros Hi Hps. apply keeps_fg_gets. intros g K _ -> Hh. cbn [id].
  destruct (_ <? _); [|exists g; auto].
  destruct (state_lookup _ g i K Hi) as (ch & st & Ec & Es).
  rewrite (bind_returns _ _ _ _ _ (the_state_run i st g Es)).
  destruct (Z.eqb_spec st 0) as [E0|E0]; [|exists g; auto]. now apply (serve_spec ps i g st).
Qed.

Lemma manager_spec ps who : (length ps <= 1)%nat -> keeps ps (acquisition_manager who).
Proof.
  intros Hps. apply keeps_fg_gets. intros g K _ -> Hh. rewrite (ok_count _ g K).
  apply (keeps_iter ps); [|exact K|exact Hh]. intros x Hx. apply elem_of_seqZ in Hx.
  set (r := u32 (x + who + 1) mod Z.of_nat n).
  assert (0 <= r < Z.of_nat n) as Hr by (apply Z.mod_pos_bound; lia).
  rewrite <- (Z2Nat.id r) by lia. apply manage_spec; [lia|exact Hps].
Qed.

(** ** The actions *)

Lemma keeps_set_busy ps i s : (i < n)%nat -> s <> 0 \/ fixed i -> keeps ps (set_state (Z.of_nat i) s).
Proof.
  intros Hi Hs g K Hh. destruct (state_lookup _ g i K Hi) as (ch & st & Ec & Es).
  rewrite (set_state_run i st s g Es). eexists. split; [reflexivity|].
  split; [now apply with_state_ok|]. apply (held_take i s st ch); auto.
  apply (held_weaken ps); [|exact Hh]. intros q Hq. now right.
Qed.

Lemma channel_signal_good g i ch : channels_ok (fun _ => True) g -> channels_ g !! i = Some ch ->
  signal_good (bands i) (gnss_signal_ ch).
Proof.
  intros K Ec. destruct (ok_band _ g K i ch Ec). repeat split; auto. exact (ok_assigned _ g K i ch Ec I).
Qed.

(** A satellite in hand around a program that keeps it in hand. *)
Lemma push_after b s c g : signal_good b s -> keeps [(b, key s)] c ->
  channels_ok (fun _ => True) g -> held [(b, key s)] g ->
  exists g', (c;; modify (push_back_signal s)) g = (Returns tt, g') /\
    channels_ok (fun _ => True) g' /\ held [] g'.
Proof.
  intros Hs Hc K Hh. destruct (Hc g K Hh) as (g1 & E1 & K1 & H1).
  rewrite (bind_returns _ _ _ _ _ E1). eexists. split; [reflexivity|].
  split; [now apply (push_ok _ b)|]. apply (held_push b); [apply Hs|exact H1].
Qed.

Lemma failed_spec i sat : (i < n)%nat -> (sat <> 0 -> fixed i) ->
  keeps [] (acquisition_failed (Z.of_nat i) sat).
Proof.
  intros Hi Hsat g K Hh. destruct (state_lookup _ g i K Hi) as (ch & st & Ec & Es).
  unfold acquisition_failed. rewrite (bind_returns _ _ _ _ _ (the_channel_run i ch g Ec)). cbv zeta.
  destruct (Z.eqb_spec sat 0) as [E0|E0].
  - rewrite (bind_returns _ _ _ _ _ (set_state_run i st 0 g Es)).
    change (count_down;; acquisition_manager (Z.of_nat i);; modify (push_back_signal (get_signal ch)))
      with (bind count_down (fun _ => acquisition_manager (Z.of_nat i);;
        modify (push_back_signal (get_signal ch)))).
    pose proof (channel_signal_good g i ch K Ec) as Hg.
    pose proof (held_with_state i 0 st ch [] g Ec Es Hh) as H1.
    destruct (keeps_count_down _ _ (with_state_ok _ i 0 g K) H1) as (g1 & E1 & K1 & H1').
    rewrite (bind_returns _ _ _ _ _ E1).
    apply (push_after (bands i)); auto. apply manager_spec. cbn. lia.
  - apply (keeps_fg_bind []); [now apply keeps_set_busy; auto| |exact K|exact Hh].
    apply keeps_fg_bind; [apply keeps_count_down|]. apply keeps_fg_bind; [|apply keeps_fg_ret].
    apply manager_spec. cbn. lia.
Qed.

Lemma succeeded_spec i : (i < n)%nat -> keeps [] (acquisition_succeeded (Z.of_nat i)).
Proof.
  intros Hi g K Hh. destruct (state_lookup _ g i K Hi) as (ch & st & Ec & Es).
  unfold acquisition_succeeded. rewrite (bind_returns _ _ _ _ _ (the_channel_run i ch g Ec)).
  rewrite run_modify. pose proof (channel_signal_good g i ch K Ec) as Hg.
  destruct (remove_same (bands i) (get_signal ch) g (proj1 Hg)) as [C1 C2].
  pose proof (remove_ok _ (bands i) _ g Hg K) as K1.
  pose proof (held_remove (bands i) _ [] g (proj1 Hg) Hh) as H1.
  set (g1 := remove_signal (get_signal ch) g) in *.
  rewrite <- C1 in Ec. rewrite <- C2 in Es.
  rewrite (bind_returns _ _ _ _ _ (set_state_run i st 2 g1 Es)).
  apply (keeps_fg_bind []); [apply keeps_count_down|apply manager_spec; cbn; lia| |].
  - now apply with_state_ok.
  - apply (held_take i 2 st ch); auto.
Qed.

Lemma tracking_failed_spec i sat : (i < n)%nat -> (sat <> 0 -> fixed i) ->
  keeps [] (tracking_failed (Z.of_nat i) sat).
Proof.
  intros Hi Hsat g K Hh. destruct (state_lookup _ g i K Hi) as (ch & st & Ec & Es).
  unfold tracking_failed. rewrite (bind_returns _ _ _ _ _ (the_channel_run i ch g Ec)).
  rewrite run_gets. cbn [id]. destruct (_ <? _).
  - destruct (keeps_set_busy [] i 1 Hi ltac:(left; discriminate) g K Hh) as (g1 & E1 & K1 & H1).
    rewrite (bind_returns _ _ _ _ _ E1). rewrite (set_state_run i st 1 g Es) in E1. injection E1 as <-.
    destruct (keeps_count_up [] _ K1 H1) as (g2 & E2 & K2 & H2).
    rewrite (bind_returns _ _ _ _ _ E2). injection E2 as <-.
    destruct (same_signal_keeps [] i Hi _ ch K2 Ec H2) as (g3 & E3 & K3 & H3 & _).
    rewrite (bind_returns _ _ _ _ _ E3). now apply keeps_start.
  - destruct (Z.eqb_spec sat 0) as [E0|E0].
    + rewrite (bind_returns _ _ _ _ _ (set_state_run i st 0 g Es)). eexists. split; [reflexivity|].
      pose proof (channel_signal_good g i ch K Ec) as Hg. split.
      * apply (push_ok _ (bands i)); [exact Hg|]. now apply with_state_ok.
      * apply (held_push (bands i)); [apply Hg|]. now apply (held_with_state i 0 st ch).
    + apply (keeps_fg_bind []); [apply keeps_set_busy; auto|apply keeps_fg_ret|exact K|exact Hh].
Qed.

Lemma held_listed b k ps g : listed g b k -> held ((b, k) :: ps) g -> held ps g.
Proof.
  intros Hl Hh b' k' Hk. destruct (Hh b' k' Hk) as [?|[?|Hp]]; auto.
  apply elem_of_cons in Hp as [[= -> ->]|?]; auto.
Qed.

Lemma standby_channel_spec i : (i < n)%nat -> keeps [] (standby_channel (Z.of_nat i)).
Proof.
  intros Hi g K Hh. destruct (state_lookup _ g i K Hi) as (ch & st & Ec & Es).
  unfold standby_channel. rewrite (bind_returns _ _ _ _ _ (the_state_run i st g Es)).
  destruct (_ || _); [|exists g; auto].
  rewrite (bind_returns _ _ _ _ _ (the_channel_run i ch g Ec)), run_modify.
  pose proof (channel_signal_good g i ch K Ec) as Hg.
  set (s := get_signal ch) in *. set (g1 := push_back_signal s g).
  destruct (push_same (bands i) s g (proj1 Hg)) as [C1 C2].
  assert (listed g1 (bands i) (key s)) as Hl by (apply (listed_push (bands i)); [apply Hg|auto]).
  assert (held [] g1) as H1.
  { apply (held_push (bands i)); [apply Hg|]. apply (held_weaken []); [|exact Hh].
    intros q Hq. now right. }
  pose proof (push_ok _ (bands i) s g Hg K) as K1. fold g1 in K1.
  assert (channels_ g1 !! i = Some ch) as Ec1 by (unfold g1; rewrite C1; exact Ec).
  assert (channels_state_ g1 !! i = Some st) as Es1 by (unfold g1; rewrite C2; exact Es).
  clearbody g1. clear Hh K.
  destruct (ok_band _ _ K1 i ch Ec1) as [B1 B2]. set (ch' := stop_channel ch).
  assert (gnss_signal_ ch' = gnss_signal_ ch) as Eg by apply stop_channel_signal.
  assert (channels_ok (fun _ => True) (with_channel i ch' g1)) as K2.
  { apply (with_channel_ok (fun _ => True) _ i ch); rewrite ?Eg; auto. intros _.
    exact (ok_assigned _ _ K1 i ch Ec1 I). }
  assert (held [] (with_channel i ch' g1)) as H2.
  { apply (held_with_channel i st ch); auto. }
  assert (channel_stop (Z.of_nat i) g1 = (Returns tt, with_channel i ch' g1)) as E1
    by exact (on_channel_run i ch (modify stop_channel) g1 Ec1).
  rewrite (bind_returns _ _ _ _ _ E1).
  assert (channels_ (with_channel i ch' g1) !! i = Some ch') as Ec2.
  { unfold with_channel, update. cbn. apply list_lookup_insert_eq. apply lookup_lt_Some in Ec1.
    exact Ec1. }
  rewrite (set_state_run i st 0 (with_channel i ch' g1) Es1).
  eexists. split; [reflexivity|]. split; [now apply with_state_ok|].
  apply (held_listed (bands i) (key s)); [exact Hl|].
  pose proof (held_with_state i 0 st ch' [] _ Ec2 Es1 H2) as H3. rewrite Eg in H3. exact H3.
Qed.

Lemma keeps_for ps m f : (m <= n)%nat -> (forall i, (i < n)%nat -> keeps ps (f (Z.of_nat i))) ->
  keeps ps (for_prog 0 (Z.of_nat m) f).
Proof.
  intros Hm Hf. apply keeps_iter. intros x Hx. apply elem_of_seqZ in Hx.
  rewrite <- (Z2Nat.id x) by lia. apply Hf. lia.
Qed.

Lemma standby_spec : keeps [] standby.
Proof.
  apply keeps_fg_gets. intros g K _ -> Hh. rewrite (ok_channels _ g K).
  apply (keeps_fg_bind []); [|apply keeps_counts; intros g'; repeat split|exact K|exact Hh].
  apply keeps_for; [lia|]. apply standby_channel_spec.
Qed.

(** The events of channels, and actions that name no channel. *)
Definition action_ok (who what : Z) : Prop := 0 <= who < Z.of_nat n \/ ~ (0 <= what <= 2).

Lemma apply_action_spec who what : action_ok who what -> keeps [] (apply_action who what).
Proof.
  intros Hok. unfold apply_action. set (sat := if _ <? _ then _ else _).
  assert (0 <= who < Z.of_nat n -> sat <> 0 -> fixed (Z.to_nat who)) as Hsat.
  { unfold fixed, sat. intros Hw. rewrite Z2Nat.id by lia. destruct (who <? 200); [auto|lia]. }
  assert (0 <= what <= 2 -> 0 <= who < Z.of_nat n) as Hr by (destruct Hok; [auto|lia]).
  destruct (decide (what = 0)) as [->|N0].
  { specialize (Hr ltac:(lia)). rewrite <- (Z2Nat.id who) by lia. apply failed_spec; [lia|auto]. }
  destruct (decide (what = 1)) as [->|N1].
  { specialize (Hr ltac:(lia)). rewrite <- (Z2Nat.id who) by lia. apply succeeded_spec. lia. }
  destruct (decide (what = 2)) as [->|N2].
  { specialize (Hr ltac:(lia)). rewrite <- (Z2Nat.id who) by lia. apply tracking_failed_spec; [lia|auto]. }
  destruct (decide (what = 10)) as [->|N10]; [apply standby_spec|].
  destruct what as [|p|p]; [congruence| |apply keeps_fg_ret].
  do 4 (try destruct p as [p|p|]); try congruence; apply keeps_fg_ret.
Qed.

(** ** Priority *)

Lemma shorter_has (gs : Gnss_Signal) l :
  (length (remove_equal gs l) < length l)%nat <-> exists t, t ∈ l /\ key t = key gs.
Proof.
  unfold remove_equal. induction l as [|x l IH].
  - split; [cbn; lia|intros (t & Ht & _); now apply elem_of_nil in Ht].
  - assert (length (filter (fun s => signal_eqb s gs = false) l) <= length l)%nat as Hle
      by apply length_filter.
    rewrite filter_cons. case_decide as E; rewrite signal_eqb_key in E; cbn [length].
    + apply bool_decide_eq_false in E. rewrite <- Nat.succ_lt_mono, IH.
      split; intros (t & Ht & Ek); exists t; [split; [now right|exact Ek]|].
      apply elem_of_cons in Ht as [->|Ht]; [contradiction|auto].
    + split; [intros _|lia]. exists x. split; [left|].
      destruct (decide (key x = key gs)); [assumption|]. exfalso. apply E.
      now apply bool_decide_eq_false.
Qed.

Lemma priorize_spec b sat sig g ps : mapStringValues_ sig = b -> (1 <= length sig)%nat ->
  channels_ok (fun _ => True) g -> held ps g ->
  channels_ok (fun _ => True) (priorize b (mkGnss_Signal sat sig) g) /\
  held ps (priorize b (mkGnss_Signal sat sig) g).
Proof.
  intros Hb Hl K Hh. set (gs := mkGnss_Signal sat sig). unfold priorize. cbv zeta.
  destruct (Nat.ltb_spec (length (remove_equal gs (available_signals g b)))
    (length (available_signals g b))) as [Hlt|Hge].
  - apply shorter_has in Hlt as (t & Ht & Ek). split.
    + apply channels_ok_available; [|exact K]. intros s [->|Hs]%elem_of_cons.
      * right. destruct (ok_available _ g K b t Ht) as [?|(_ & _ & Hsys)]; [auto|right].
        split; [exact Hb|]. split; [exact Hl|]. unfold key in Ek. injection Ek as Es _ _.
        cbn in Es. cbn. rewrite <- Es. exact Hsys.
      * apply elem_remove_equal in Hs. tauto.
    + intros b' k Hk. destruct (Hh b' k Hk) as [Hl'|[Hc|?]]; [left|right; left|auto].
      * unfold listed in *. rewrite available_set. case_bool_decide as E; [subst b'|exact Hl'].
        apply list_elem_of_fmap in Hl' as (s & -> & Hs). cbn [map].
        destruct (decide (key s = key gs)) as [->|Hne]; [left|right].
        apply list_elem_of_fmap. exists s. split; [reflexivity|]. now apply elem_remove_equal.
      * now apply (holder_same g).
  - assert (forall t, t ∈ available_signals g b -> key t <> key gs) as Hn.
    { intros t Ht E. assert (length (remove_equal gs (available_signals g b)) <
        length (available_signals g b))%nat; [|lia]. apply shorter_has. eauto. }
    split.
    + apply channels_ok_available; [|exact K]. intros s Hs. apply elem_remove_equal in Hs. tauto.
    + intros b' k Hk. destruct (Hh b' k Hk) as [Hl'|[Hc|?]]; [left|right; left|auto].
      * unfold listed in *. rewrite available_set. case_bool_decide as E; [subst b'|exact Hl'].
        apply list_elem_of_fmap in Hl' as (s & -> & Hs). apply list_elem_of_fmap.
        exists s. split; [reflexivity|]. apply elem_remove_equal. auto.
      * now apply (holder_same g).
Qed.

Lemma priorize_satellites_spec visible ps : keeps ps (modify (priorize_satellites visible)).
Proof.
  intros g K Hh. eexists. split; [reflexivity|]. unfold priorize_satellites.
  revert g K Hh. induction visible as [|s visible IH]; intros g K Hh; [auto|]. cbn [fold_left].
  assert (channels_ok (fun _ => True) (priorize_satellite s g) /\ held ps (priorize_satellite s g))
    as [K1 H1].
  { unfold priorize_satellite. cbv zeta.
    case_bool_decide; [|case_bool_decide; [|auto]];
      repeat match goal with
      | |- _ (priorize ?b ?gs ?g') /\ _ =>
          let K' := fresh "K" in let H' := fresh "H" in
          assert (channels_ok (fun _ => True) g' /\ held ps g') as [K' H'];
            [|apply priorize_spec; [reflexivity|cbn; lia|exact K'|exact H']]
      end; auto. }
  now apply IH.
Qed.

(** ** The first assignment *)

Record assigning (done : list Z) (g : GNSSFlowgraph) : Prop := {
  as_ok : channels_ok (fun j => Z.of_nat j ∈ done) g;
  as_held : held [] g;
  as_new : forall j ch, channels_ g !! j = Some ch -> Z.of_nat j ∉ done ->
    key (gnss_signal_ ch) ∉ Sats (bands j);
  as_status : status_map g = []
}.

Lemma assigning_channel done i ch st ch' g :
  channels_ g !! i = Some ch -> channels_state_ g !! i = Some st ->
  key (gnss_signal_ ch) ∉ Sats (bands i) -> signal_good (bands i) (gnss_signal_ ch') ->
  channels_ok (fun j => Z.of_nat j ∈ done) g ->
  (forall j c, channels_ g !! j = Some c -> Z.of_nat j ∉ done ->
    key (gnss_signal_ c) ∉ Sats (bands j)) ->
  status_map g = [] -> held [] (with_channel i ch' g) ->
  assigning (Z.of_nat i :: done) (with_channel i ch' g).
Proof.
  intros Ec Es Hk (G1 & G2 & G3) K Hn Hst Hh. constructor; [|exact Hh| |exact Hst].
  - apply (with_channel_ok (fun j => Z.of_nat j ∈ done) _ i ch); auto.
    intros j [Hj|Hj]%elem_of_cons; [right; lia|auto].
  - intros j c Hj Hd. unfold with_channel, update in Hj. cbn in Hj.
    rewrite not_elem_of_cons in Hd. destruct Hd as [Hne Hd].
    rewrite list_lookup_insert_ne in Hj by lia. eauto.
Qed.

Lemma system_of_known b : system_of b ∈ system_set.
Proof. destruct b; unfold system_set; repeat (first [left; reflexivity|right]). Qed.

Lemma assign_channel_spec i done g : (i < n)%nat -> Z.of_nat i ∉ done -> assigning done g ->
  exists g', assign_channel (Z.of_nat i) g = (Returns tt, g') /\ assigning (Z.of_nat i :: done) g'.
Proof.
  intros Hi Hd [K Hh Hn Hst]. destruct (state_lookup _ g i K Hi) as (ch & st & Ec & Es).
  unfold assign_channel. rewrite (bind_returns _ _ _ _ _ (the_channel_run i ch g Ec)). cbv zeta.
  destruct (ok_band _ g K i ch Ec) as [B1 B2]. pose proof (Hn i ch Ec Hd) as Hk.
  destruct (Z.eqb_spec (fixed_satellite (Z.of_nat i)) 0) as [Ef|Ef].
  - assert (available_signals g (bands i) <> []) as Hne.
    { apply (available_nonempty (fun j => Z.of_nat j ∈ done) (bands i) i []);
        [exact K|exact Hh|cbn; lia|auto|exact Hi|reflexivity|].
      intros c s C1 C2. right. congruence. }
    destruct (search_spec _ _ (get_signal_str (get_signal ch)) [] g B1 K Hh Hne)
      as (f & g1 & E1 & F).
    rewrite (bind_returns _ _ _ _ _ E1). pose proof (found_good _ _ _ _ _ _ F) as Hg.
    pose proof (found_channels _ _ _ _ _ _ F) as K1.
    pose proof (found_listed _ _ _ _ _ _ F (found_status _ _ _ _ _ _ F Hst)) as H1.
    destruct (found_set _ _ _ _ _ _ F) as [h Eh].
    assert (channels_ g1 = channels_ g /\ channels_state_ g1 = channels_state_ g /\
      status_map g1 = status_map g) as (C1 & C2 & C3) by (rewrite Eh; repeat split).
    clear E1 F Eh. destruct (set_signal_run _ (result f) ch Hg) as (c' & D1 & D2 & _).
    rewrite <- C1 in Ec, Hn. rewrite <- C2 in Es. rewrite <- C3 in Hst.
    unfold channel_set_signal. rewrite (on_channel_run i ch _ g1 Ec), D1.
    eexists. split; [reflexivity|]. cbn [snd].
    apply (assigning_channel done i ch st); auto; [now rewrite D2|].
    apply (held_with_channel i st ch); auto.
  - set (gs := mkGnss_Signal _ _).
    assert (signal_good (bands i) gs) as Hg.
    { split; [exact B1|]. split; [exact B2|]. unfold gs. cbn [satellite].
      rewrite new_satellite_system; apply system_of_known. }
    rewrite run_modify. replace (set_available _ _ g) with (remove_signal gs g).
    2:{ rewrite (remove_signal_eq (bands i)) by apply Hg. unfold get_signal_str, get_signal.
        rewrite B1. rewrite bool_decide_eq_false_2; [reflexivity|]. rewrite <- B1.
        apply mapStringValues_not_SBAS. }
    destruct (remove_same (bands i) gs g (proj1 Hg)) as [C1 C2].
    pose proof (remove_ok _ (bands i) gs g Hg K) as K1.
    pose proof (held_remove (bands i) gs [] g (proj1 Hg) Hh) as H1.
    assert (status_map (remove_signal gs g) = []) as Hst1.
    { rewrite (remove_signal_eq (bands i)) by apply Hg. exact Hst. }
    set (g1 := remove_signal gs g) in *. clearbody g1.
    rewrite <- C1 in Ec, Hn. rewrite <- C2 in Es.
    destruct (set_signal_run _ gs ch Hg) as (c' & D1 & D2 & _).
    unfold channel_set_signal. rewrite (on_channel_run i ch _ g1 Ec), D1.
    eexists. split; [reflexivity|]. cbn [snd].
    apply (assigning_channel done i ch st); auto; [now rewrite D2|].
    assert (held [(bands i, key gs)] (with_channel i c' g1)) as H2
      by (apply (held_with_channel i st ch); auto).
    intros b k Hkb. destruct (H2 b k Hkb) as [?|[?|Hp]]; auto. right. left.
    apply list_elem_of_singleton in Hp as [= -> ->]. exists i, c', st.
    split; [|split; [exact Es|split; [reflexivity|split; [now rewrite D2|right; exact Ef]]]].
    unfold with_channel, update. cbn. apply list_lookup_insert_eq. apply lookup_lt_Some in Ec. exact Ec.
Qed.

Lemma assign_all l : forall done g, NoDup l -> (forall x, x ∈ l -> 0 <= x < Z.of_nat n /\ x ∉ done) ->
  assigning done g ->
  exists g' done', iter_prog l assign_channel g = (Returns tt, g') /\ assigning done' g' /\
    (forall x, x ∈ l -> x ∈ done') /\ (forall x, x ∈ done -> x ∈ done').
Proof.
  induction l as [|x l IH]; intros done g Hnd Hl Ha.
  - exists g, done. split; [reflexivity|]. split; [exact Ha|]. split; [|auto].
    intros x Hx. now apply elem_of_nil in Hx.
  - apply NoDup_cons in Hnd as [Hx Hnd]. destruct (Hl x ltac:(left)) as [Hr Hd].
    destruct (assign_channel_spec (Z.to_nat x) done g) as (g1 & E1 & A1);
      [lia|rewrite Z2Nat.id by lia; exact Hd|exact Ha|]. rewrite Z2Nat.id in E1, A1 by lia.
    destruct (IH (x :: done) g1 Hnd) as (g2 & done' & E2 & A2 & I1 & I2); [|exact A1|].
    + intros y Hy. destruct (Hl y ltac:(now right)) as [? ?]. split; [assumption|].
      rewrite not_elem_of_cons. split; [|assumption]. intros ->. contradiction.
    + exists g2, done'. cbn [iter_prog]. rewrite (bind_returns _ _ _ _ _ E1). split; [exact E2|].
      split; [exact A2|]. split.
      * intros y [->|Hy]%elem_of_cons; [apply I2; left|auto].
      * intros y Hy. apply I2. now right.
Qed.

Lemma channel_order_perm m : channel_order m ≡ₚ seqZ 0 m.
Proof.
  unfold channel_order.
  assert (forall l v, fold_left (fun v i => if fixed_satellite i =? 0 then v ++ [i] else i :: v) l v
    ≡ₚ l ++ v) as E; [|rewrite E, app_nil_r; reflexivity].
  induction l as [|x l IH]; intros v; [reflexivity|]. cbn [fold_left]. rewrite IH.
  destruct (_ =? _); cbn [app].
  - rewrite (Permutation_app_comm v [x]). cbn [app]. symmetry. apply Permutation_middle.
  - symmetry. apply Permutation_middle.
Qed.

Lemma assign_channels_spec g : assigning [] g -> enough_satellites g = true ->
  exists g', assign_channels g = (Returns 0, g') /\ channels_ok (fun _ => True) g' /\ held [] g'.
Proof.
  intros Ha He. unfold assign_channels. rewrite run_gets, run_gets. cbn [id]. rewrite He.
  rewrite (ok_count _ g (as_ok _ _ Ha)).
  assert (forall x, x ∈ channel_order (Z.of_nat n) <-> 0 <= x < Z.of_nat n) as Hx.
  { intros x. rewrite channel_order_perm, elem_of_seqZ. lia. }
  destruct (assign_all (channel_order (Z.of_nat n)) [] g) as (g1 & done & E1 & A1 & I1 & _).
  - rewrite channel_order_perm. apply NoDup_seqZ.
  - intros x H1. apply Hx in H1. split; [exact H1|]. apply not_elem_of_nil.
  - exact Ha.
  - rewrite (bind_returns _ _ _ _ _ E1). exists g1. split; [reflexivity|].
    split; [|apply (as_held _ _ A1)]. destruct (as_ok _ _ A1) as [K1 K2 K3 K4 K5 K6 K7].
    constructor; try assumption. intros i ch Ec _. apply (K5 i ch Ec). apply I1, Hx.
    apply lookup_lt_Some in Ec. lia.
Qed.

Lemma activate_spec : keeps [] activate_channels.
Proof.
  apply keeps_fg_gets. intros g K _ -> Hh. rewrite (ok_count _ g K).
  apply (keeps_for [] n); [lia| |exact K|exact Hh]. clear g K Hh. intros i Hi g K Hh.
  destruct (state_lookup _ g i K Hi) as (ch & st & Ec & Es).
  rewrite (bind_returns _ _ _ _ _ (the_state_run i st g Es)).
  destruct (_ =? 1); [now apply keeps_start|exists g; auto].
Qed.

End Invariant.
