(* ===== verification/ReceiverProofs.v ===== *)
(** * ReceiverProofs: the receiver runs, and loses no satellite

    From the state that [setup] leaves, through any sequence of block messages,
    channel statuses, commands and turns of the main loop, no operation throws or
    reads the front of an empty list, and every satellite stays in its list or
    with a channel. *)

From S2P Require Import Prelude Cstring Float64 GnssSignal ChannelFsm Flowgraph FlowgraphProofs ControlThread.
From stdpp Require Import list strings.
From Stdlib Require Import ZArith Lia Ascii.
Local Open Scope Z_scope.
Local Open Scope cxx_scope.

(** ** Channels keep their numbers *)

Definition ids_ok (g : GNSSFlowgraph) : Prop :=
  forall i ch, channels_ g !! i = Some ch -> fsm_channel (channel_fsm_ ch) = Z.of_nat i.

Lemma ids_same g g' : channels_ g' = channels_ g -> ids_ok g -> ids_ok g'.
Proof. intros E Hg i ch. rewrite E. apply Hg. Qed.

Lemma ids_vset g i c c' : channels_ g !! i = Some c ->
  fsm_channel (channel_fsm_ c') = fsm_channel (channel_fsm_ c) ->
  ids_ok g -> ids_ok (g <| channels_ ::= fun l => vset l (Z.of_nat i) c' |>).
Proof.
  intros E Hc Hg j ch Hj. cbn in Hj. rewrite vset_nat in Hj.
  destruct (decide (j = i)) as [->|Hne].
  - rewrite list_lookup_insert_eq in Hj by (apply lookup_lt_Some in E; exact E).
    injection Hj as <-. rewrite Hc. now apply Hg.
  - rewrite list_lookup_insert_ne in Hj by congruence. now apply Hg.
Qed.

(** A member function of a channel that keeps what [m] reads of it, and one that
    keeps its number. *)
Definition keeps_member {X A} (m : Channel -> X) (c : prog Channel A) : Prop :=
  forall ch, m (c ch).2 = m ch.

Definition fsm_id (ch : Channel) : Z := fsm_channel (channel_fsm_ ch).
Definition fsm_state (ch : Channel) : Z := state_ (channel_fsm_ ch).

Lemma vat_some {A} (l : list A) i x : vat l i = Returns x -> exists j, i = Z.of_nat j /\ l !! j = Some x.
Proof.
  unfold vat. destruct (Z.ltb_spec i 0) as [Hi|Hi]; [discriminate|].
  destruct (l !! Z.to_nat i) eqn:E; [|discriminate]. intros [= <-].
  exists (Z.to_nat i). split; [lia|exact E].
Qed.

Lemma ids_on_channel {A} i (c : prog Channel A) : keeps_member fsm_id c -> run_inv ids_ok (on_channel i c).
Proof.
  intros Hc g Hg. unfold on_channel, the_channel, bind, gets, lift.
  destruct (vat (channels_ g) i) as [ch|e] eqn:E; [|exact Hg].
  apply vat_some in E as (j & -> & E). specialize (Hc ch).
  destruct (c ch) as [o ch']. cbn [snd] in *. exact (ids_vset g j ch ch' E Hc Hg).
Qed.

Lemma keeps_member_bind {X A B} (m : Channel -> X) (c : prog Channel A) (k : A -> prog Channel B) :
  keeps_member m c -> (forall a, keeps_member m (k a)) -> keeps_member m (bind c k).
Proof.
  intros Hc Hk ch. unfold bind. specialize (Hc ch). destruct (c ch) as [[a|e] ch'].
  - rewrite <- Hc. apply Hk.
  - exact Hc.
Qed.

Lemma keeps_member_modify {X} (m : Channel -> X) (f : Channel -> Channel) :
  (forall ch, m (f ch) = m ch) -> keeps_member m (modify f).
Proof. intros Hf ch. apply Hf. Qed.

Lemma keeps_member_pure {X A} (m : Channel -> X) (c : prog Channel A) :
  (forall ch, (c ch).2 = ch) -> keeps_member m c.
Proof. intros Hc ch. now rewrite Hc. Qed.

Ltac member_step :=
  match goal with
  | |- keeps_member _ (bind _ _) => apply keeps_member_bind; [|intros ?]
  | |- keeps_member _ (if ?b then _ else _) => destruct b
  | |- keeps_member _ (modify _) => apply keeps_member_modify; reflexivity
  | |- keeps_member _ (call_block _) => apply keeps_member_modify; reflexivity
  | |- keeps_member _ _ => apply keeps_member_pure; reflexivity
  end.

Lemma set_signal_id s : keeps_member fsm_id (set_signal s).
Proof. unfold set_signal. repeat member_step. Qed.

Lemma set_signal_state s : keeps_member fsm_state (set_signal s).
Proof. unfold set_signal. repeat member_step. Qed.

Lemma assist_id x : keeps_member fsm_id (assist_acquisition_doppler x).
Proof. unfold assist_acquisition_doppler. repeat member_step. Qed.

Lemma assist_state x : keeps_member fsm_state (assist_acquisition_doppler x).
Proof. unfold assist_acquisition_doppler. repeat member_step. Qed.

(** The events of the state machine keep its number. *)
Lemma event_channel event f : event ∈ [Event_stop_channel; Event_start_acquisition;
    Event_start_acquisition_fpga; Event_valid_acquisition; Event_failed_acquisition_repeat;
    Event_failed_acquisition_no_repeat; Event_failed_tracking_standby] ->
  fsm_channel (event f).1.2 = fsm_channel f.
Proof.
  intros He. repeat (apply elem_of_cons in He as [->|He]; [|]); try now apply elem_of_nil in He.
  all: unfold Event_stop_channel, Event_start_acquisition, Event_start_acquisition_fpga,
    Event_valid_acquisition, Event_failed_acquisition_repeat, Event_failed_acquisition_no_repeat,
    Event_failed_tracking_standby;
    try (destruct (state_ f) as [|p|p]; [reflexivity| |reflexivity];
         repeat (destruct p as [p|p|]; try reflexivity); fail);
    case_match; reflexivity.
Qed.

Lemma start_acquisition_id : keeps_member fsm_id (modify start_acquisition).
Proof.
  apply keeps_member_modify. intros ch. unfold fsm_id, start_acquisition, on_fsm. destruct (negb _).
  - pose proof (event_channel Event_start_acquisition (channel_fsm_ ch)) as He.
    destruct (Event_start_acquisition _) as [[r f] p]. apply He. repeat (first [left; reflexivity|right]).
  - pose proof (event_channel Event_start_acquisition_fpga (channel_fsm_ ch)) as He.
    destruct (Event_start_acquisition_fpga _) as [[r f] p]. apply He. repeat (first [left; reflexivity|right]).
Qed.

Lemma stop_channel_id : keeps_member fsm_id (modify stop_channel).
Proof.
  apply keeps_member_modify. intros ch. unfold fsm_id, stop_channel, on_fsm.
  pose proof (event_channel Event_stop_channel (channel_fsm_ ch)) as He.
  destruct (Event_stop_channel _) as [[r f] p]. apply He. repeat (first [left; reflexivity|right]).
Qed.

Lemma set_available_channels b f g : channels_ (set_available b f g) = channels_ g.
Proof. reflexivity. Qed.

Lemma push_back_channels s g : channels_ (push_back_signal s g) = channels_ g.
Proof. unfold push_back_signal. destruct (mapStringValues_ _); reflexivity. Qed.

Lemma remove_channels s g : channels_ (remove_signal s g) = channels_ g.
Proof. unfold remove_signal. destruct (mapStringValues_ _); reflexivity. Qed.

Lemma priorize_channels b s g : channels_ (priorize b s g) = channels_ g.
Proof. unfold priorize. destruct (Nat.ltb _ _); reflexivity. Qed.

Lemma priorize_satellites_channels l g : channels_ (priorize_satellites l g) = channels_ g.
Proof.
  unfold priorize_satellites. revert g. induction l as [|s l IH]; intros g; [reflexivity|].
  cbn [fold_left]. rewrite IH. unfold priorize_satellite.
  repeat case_bool_decide; cbv zeta; now rewrite ?priorize_channels.
Qed.

Lemma make_list_channels b y s l g `{Configuration} : channels_ (make_list b y s l g) = channels_ g.
Proof. unfold make_list. destruct (_ <? _); reflexivity. Qed.

Lemma ids_modify f : (forall g, channels_ (f g) = channels_ g) -> run_inv ids_ok (modify f).
Proof. intros Hf. apply run_inv_modify. intros g. apply ids_same, Hf. Qed.

Section Ids.
Context `{Configuration} `{Boost_Tokenizer}.

Ltac ids_step :=
  match goal with
  | |- run_inv _ (bind _ _) => apply run_inv_bind; [|intros ?]
  | |- run_inv _ (ret _) => apply run_inv_ret
  | |- run_inv _ (throw _) => apply run_inv_throw
  | |- run_inv _ (lift _) => apply run_inv_lift
  | |- run_inv _ (gets _) => apply run_inv_gets
  | |- run_inv _ (for_prog _ _ _) => apply run_inv_iter; intros ?
  | |- run_inv _ (iter_prog _ _) => apply run_inv_iter; intros ?
  | |- run_inv _ (on_channel _ _) => apply ids_on_channel
  | |- run_inv _ (modify _) => apply ids_modify; intros ?;
      first [apply push_back_channels | apply remove_channels | apply make_list_channels
            | apply priorize_satellites_channels | reflexivity]
  | |- run_inv _ (match ?x with _ => _ end) => destruct x
  | |- run_inv _ _ => progress (unfold rotate_signal, search_primary, search_unassisted,
      search_secondary, the_channel, the_state, set_state, count_up, count_down,
      channel_start_acquisition, channel_stop, channel_set_signal)
  | |- keeps_member _ (set_signal _) => apply set_signal_id
  | |- keeps_member _ (assist_acquisition_doppler _) => apply assist_id
  | |- keeps_member _ (modify start_acquisition) => apply start_acquisition_id
  | |- keeps_member _ (modify stop_channel) => apply stop_channel_id
  end.

Lemma search_ids s : run_inv ids_ok (search_next_signal s).
Proof. unfold search_next_signal. repeat ids_step. Qed.

Lemma manager_ids who : run_inv ids_ok (acquisition_manager who).
Proof.
  unfold acquisition_manager, manage_channel, serve_channel, begin_acquisition.
  repeat (first [apply search_ids | ids_step]).
Qed.

Lemma count_down_ids : run_inv ids_ok count_down.
Proof. apply ids_modify. intros g. destruct (_ <? _); reflexivity. Qed.

Lemma apply_action_ids who what : run_inv ids_ok (apply_action who what).
Proof.
  unfold apply_action, acquisition_failed, acquisition_succeeded, tracking_failed, standby,
    standby_channel. cbv zeta.
  repeat (first [apply manager_ids | apply count_down_ids | ids_step]).
Qed.

Lemma setup_ids : run_inv ids_ok setup.
Proof.
  unfold setup, init, set_signals_list, assign_channels, assign_channel, activate_channels. cbv zeta.
  repeat (first [apply search_ids | ids_step]).
Qed.

End Ids.

(** ** The state after [init] *)

Section Setup.
Context `{Configuration} `{Boost_Tokenizer}.

Definition band_of (ch : Channel) : StringValue := mapStringValues_ (signal (gnss_signal_ ch)).
Definition bands_of (channels : list Channel) (i : nat) : StringValue :=
  default evGPS_1C (band_of <$> channels !! i).

(** What the block factory and the configuration give: new channels of known
    signals, no more of them than the configuration counts, and for each
    configured signal a list of different satellites that is not empty; for
    GLONASS, whose check is too lax, more satellites than channels. *)
Record well_configured (channels : list Channel) (g0 : GNSSFlowgraph) : Prop := {
  wc_new : forall i ch, channels !! i = Some ch ->
    satellite (gnss_signal_ ch) = empty_satellite /\
    fsm_channel (channel_fsm_ ch) = Z.of_nat i /\ (1 <= length (signal (gnss_signal_ ch)))%nat;
  wc_counts : forall b,
    Z.of_nat (length (channels_with (length channels) (bands_of channels) b)) <= channels_of b < 2 ^ 32;
  wc_satellites : forall b, 0 < channels_of b ->
    NoDup (map key (available_signals g0 b)) /\ available_signals g0 b <> [] /\
    (b = evGLO_1G \/ b = evGLO_2G ->
     channels_of b < Z.of_nat (length (available_signals g0 b)))
}.

Definition satellites_of (g0 : GNSSFlowgraph) (b : StringValue) : list (cstring * Z * Z) :=
  map key (available_signals g0 b).

(** Lists of good signals. *)
Definition lists_good (g : GNSSFlowgraph) : Prop :=
  forall b s, s ∈ available_signals g b ->
    system (satellite s) ∈ system_set /\ (b = evSBAS_1C \/ signal_good b s).

Lemma make_list_good b y s l : y ∈ system_set -> (b = evSBAS_1C \/ mapStringValues_ s = b) ->
  (1 <= length s)%nat -> run_inv lists_good (modify (make_list b y s l)).
Proof.
  intros Hy Hb Hs. apply run_inv_modify. intros g Hg b' t Ht. unfold make_list in Ht.
  destruct (_ <? _); [|now apply Hg]. rewrite available_set in Ht.
  case_bool_decide as E; [subst b'|now apply Hg].
  apply elem_of_app in Ht as [Ht|Ht]; [now apply Hg|].
  apply list_elem_of_fmap in Ht as (p & -> & _). cbn [satellite].
  rewrite new_satellite_system by exact Hy. split; [exact Hy|]. destruct Hb as [?|Hb]; [now left|].
  right. split; [exact Hb|]. split; [exact Hs|]. cbn [satellite]. now rewrite new_satellite_system.
Qed.

Lemma set_signals_list_good : run_inv lists_good set_signals_list.
Proof.
  unfold set_signals_list.
  repeat (apply run_inv_bind; [first [apply run_inv_lift | apply make_list_good]|intros ?];
    try (first [now left | right; reflexivity | cbn; lia
      | unfold system_set; repeat (first [left; reflexivity|right])])).
  apply make_list_good; [unfold system_set; repeat (first [left; reflexivity|right])
    |right; reflexivity|cbn; lia].
Qed.

(** [set_signals_list] writes nothing but the lists. *)
Definition same_but_lists (g g' : GNSSFlowgraph) : Prop :=
  channels_ g' = channels_ g /\ channels_state_ g' = channels_state_ g /\
  status_map g' = status_map g /\ channels_count_ g' = channels_count_ g.

Lemma set_signals_list_same g : run_inv (same_but_lists g) set_signals_list.
Proof.
  unfold set_signals_list.
  repeat (apply run_inv_bind; [|intros ?]);
    first [apply run_inv_lift | apply run_inv_modify; intros g' Hg'; unfold make_list;
      destruct (_ <? _); exact Hg'].
Qed.

Lemma init_assigning channels g0 :
  init (new_GNSSFlowgraph channels) = (Returns tt, g0) -> well_configured channels g0 ->
  assigning (length channels) (bands_of channels) (satellites_of g0) [] g0.
Proof.
  intros E Hw. unfold init in E. set (g := new_GNSSFlowgraph channels) in E.
  pose proof (set_signals_list_good g) as Hl. pose proof (set_signals_list_same g g) as Hs.
  unfold bind in E. destruct (set_signals_list g) as [[[]|e] g1]; [|discriminate].
  injection E as <-. cbn [snd] in *.
  specialize (Hl ltac:(intros b s Hb; now apply elem_of_nil in Hb)).
  destruct (Hs ltac:(repeat split)) as (S1 & S2 & S3 & S4). cbn in S1, S2, S3, S4.
  constructor.
  - constructor; cbn.
    + now rewrite S1.
    + rewrite S2, S4. cbn. rewrite length_map, length_seqZ. lia.
    + exact S4.
    + rewrite S1. intros i ch Ei. destruct (wc_new _ _ Hw i ch Ei) as (_ & _ & Hlen).
      split; [|exact Hlen]. unfold bands_of. now rewrite Ei.
    + intros i ch _ Hi. now apply elem_of_nil in Hi.
    + intros b s Hb. now apply Hl.
    + rewrite S3. constructor.
  - intros b k Hk. now left.
  - cbn. rewrite S1. intros i ch Ei _ Hk. destruct (wc_new _ _ Hw i ch Ei) as (Hsat & _ & _).
    apply list_elem_of_fmap in Hk as (s & Ek & Hk). apply Hl in Hk as [Hk _].
    unfold key in Ek. rewrite Hsat in Ek. injection Ek as Ek _ _. rewrite <- Ek in Hk.
    revert Hk. apply (bool_decide_eq_false_1 (system empty_satellite ∈ system_set)). reflexivity.
  - exact S3.
Qed.

Lemma init_enough channels g0 : well_configured channels g0 -> enough_satellites g0 = true ->
  forall i, (i < length channels)%nat ->
    enough (length channels) (bands_of channels) (satellites_of g0) (bands_of channels i).
Proof.
  intros Hw He i Hi. set (b := bands_of channels i).
  destruct (wc_counts _ _ Hw b) as [Hc Hc'].
  assert (1 <= length (channels_with (length channels) (bands_of channels) b))%nat as H1.
  { assert (i ∈ channels_with (length channels) (bands_of channels) b) as Hin.
    { apply list_elem_of_filter. split; [reflexivity|]. apply elem_of_seq. lia. }
    destruct (channels_with _ _ _); [now apply elem_of_nil in Hin|cbn; lia]. }
  destruct (wc_satellites _ _ Hw b ltac:(lia)) as (Hnd & Hne & Hglo).
  split; [exact Hnd|]. unfold satellites_of. rewrite length_map.
  assert (b ∈ checked_signals) as Hb.
  { assert (b <> evSBAS_1C) as Hn.
    { unfold b, bands_of. destruct (channels !! i) as [ch|]; [|discriminate]. apply mapStringValues_not_SBAS. }
    unfold checked_signals. destruct b; try contradiction; repeat (first [left; reflexivity|right]). }
  unfold enough_satellites in He. rewrite forallb_forall in He.
  apply list_elem_of_In, He in Hb. apply Z.leb_le in Hb. unfold max_channels in Hb.
  assert (1 <= length (available_signals g0 b))%nat as Hs.
  { destruct (available_signals g0 b); [contradiction|cbn; lia]. }
  rewrite wrap_small in Hb by lia.
  assert (b = evGLO_1G \/ b = evGLO_2G \/ ~ (b = evGLO_1G \/ b = evGLO_2G)) as [Eb|[Eb|Eb]]
    by (destruct b; auto; right; right; intros [?|?]; discriminate).
  - specialize (Hglo ltac:(auto)). lia.
  - specialize (Hglo ltac:(auto)). lia.
  - assert (wrap 64 (Z.of_nat (length (available_signals g0 b)) - 1) <=
      Z.of_nat (length (available_signals g0 b)) - 1) by (apply Z.mod_le; lia).
    destruct b; try lia; exfalso; apply Eb; auto.
Qed.

(** [setup] assigns the channels, without losing a satellite. *)
Lemma setup_spec channels g0 g :
  init (new_GNSSFlowgraph channels) = (Returns tt, g0) -> well_configured channels g0 ->
  setup (new_GNSSFlowgraph channels) = (Returns 0, g) ->
  (forall i, (i < length channels)%nat ->
    enough (length channels) (bands_of channels) (satellites_of g0) (bands_of channels i)) /\
  channels_ok (length channels) (bands_of channels) (fun _ => True) g /\
  held (bands_of channels) (satellites_of g0) [] g /\ ids_ok g.
Proof.
  intros Ei Hw Es.
  assert (ids_ok g) as Hids.
  { pose proof (setup_ids (new_GNSSFlowgraph channels)) as Hi. rewrite Es in Hi. apply Hi.
    intros i ch Ec. apply (wc_new _ _ Hw i ch Ec). }
  unfold setup in Es. rewrite (bind_returns _ _ _ _ _ Ei) in Es.
  destruct (enough_satellites g0) eqn:He.
  2:{ unfold assign_channels in Es. unfold bind at 1 in Es. rewrite run_gets, run_gets in Es.
      cbn [id] in Es. rewrite He in Es. discriminate Es. }
  pose proof (init_enough _ _ Hw He) as Hen. split; [exact Hen|].
  destruct (assign_channels_spec _ _ _ Hen g0 (init_assigning _ _ Ei Hw) He) as (g1 & E1 & K1 & H1).
  rewrite (bind_returns _ _ _ _ _ E1) in Es. cbn [Z.eqb] in Es.
  destruct (activate_spec _ _ _ g1 K1 H1) as (g2 & E2 & K2 & H2).
  rewrite (bind_returns _ _ _ _ _ E2) in Es. injection Es as <-. auto.
Qed.

End Setup.

(** ** The receiver *)

Section Receiver.
Context `{Configuration} (n : nat) (bands : nat -> StringValue)
  (Sats : StringValue -> list (cstring * Z * Z))
  (Henough : forall i, (i < n)%nat -> enough n bands Sats (bands i)).

(** The messages that name a channel name one that exists. *)
Definition message_ok (m : control_message) : Prop :=
  match m with
  | Channel_message e => 0 <= channel_id e < Z.of_nat n
  | Command_message id what => id = 200 \/ action_ok n id what
  end.

Definition event_ok (e : receiver_event) : Prop :=
  match e with
  | Block_message i _ => 0 <= i < Z.of_nat n
  | Channel_status status => doppler_ok (status_Carrier_Doppler_hz status)
  | Command id what => id = 200 \/ action_ok n id what
  | Turn _ | Assist _ => True
  end.

Record receiver_ok (t : ControlThread) : Prop := {
  ro_channels : channels_ok n bands (fun _ => True) (flowgraph_ t);
  ro_held : held bands Sats [] (flowgraph_ t);
  ro_ids : ids_ok (flowgraph_ t);
  ro_queue : Forall message_ok (control_queue_ t)
}.

(** A program of the control thread that returns and keeps the invariant. *)
Definition safe (c : prog ControlThread unit) : Prop :=
  forall t, receiver_ok t -> exists t', c t = (Returns tt, t') /\ receiver_ok t'.

Lemma safe_ret : safe (ret tt).
Proof. intros t Ht. now exists t. Qed.

Lemma safe_bind c k : safe c -> safe k -> safe (c;; k).
Proof.
  intros Hc Hk t Ht. destruct (Hc t Ht) as (t1 & E1 & H1).
  rewrite (bind_returns _ _ _ _ _ E1). now apply Hk.
Qed.

Lemma safe_modify f : (forall t, flowgraph_ (f t) = flowgraph_ t /\ control_queue_ (f t) = control_queue_ t) ->
  safe (modify f).
Proof.
  intros Hf t [T1 T2 T3 T4]. eexists. split; [reflexivity|]. destruct (Hf t) as [E1 E2].
  constructor; now rewrite ?E1, ?E2.
Qed.

Lemma safe_on_flowgraph c : keeps n bands Sats [] c -> run_inv ids_ok c -> safe (on_flowgraph c).
Proof.
  intros Hc Hi t [T1 T2 T3 T4]. unfold on_flowgraph. destruct (Hc _ T1 T2) as (g & E & K & Hh).
  specialize (Hi _ T3). rewrite E in *. eexists. split; [reflexivity|]. now constructor.
Qed.

Lemma safe_apply_action who what : action_ok n who what -> safe (on_flowgraph (apply_action who what)).
Proof.
  intros Hok. apply safe_on_flowgraph; [now apply apply_action_spec|apply apply_action_ids].
Qed.

Lemma safe_priorize visible : safe (on_flowgraph (modify (priorize_satellites visible))).
Proof.
  apply safe_on_flowgraph; [apply priorize_satellites_spec|].
  apply ids_modify. intros g. apply priorize_satellites_channels.
Qed.

Lemma safe_manager : safe (on_flowgraph (acquisition_manager 0)).
Proof. apply safe_on_flowgraph; [|apply manager_ids]. apply manager_spec; [exact Henough|cbn; lia]. Qed.

Lemma safe_thread_action what visible : safe (thread_action what visible).
Proof.
  unfold thread_action. apply safe_bind; [now apply safe_modify|].
  repeat case_match; try apply safe_ret;
    repeat (first [apply safe_priorize | apply safe_modify; intros; now split | apply safe_bind]).
Qed.

Lemma safe_dispatcher msg visible : match msg with Some m => message_ok m | None => True end ->
  safe (event_dispatcher msg visible).
Proof.
  intros Hm. unfold event_dispatcher. destruct msg as [[ev|id what]|].
  - apply safe_bind; [now apply safe_modify|]. intros t Ht. rewrite run_gets.
    destruct (negb _); [|now apply safe_ret]. apply safe_apply_action; [|exact Ht]. now left.
  - apply safe_bind; [now apply safe_modify|]. cbn in Hm.
    destruct (Z.eqb_spec id 200) as [->|Hid]; [apply safe_thread_action|].
    destruct Hm as [?|Hm]; [contradiction|].
    apply safe_bind; [|now apply safe_apply_action].
    destruct (id =? 300); [apply safe_thread_action|apply safe_ret].
  - intros t Ht. rewrite run_gets. destruct (negb _); [now apply safe_manager|now apply safe_ret].
Qed.

Lemma safe_turn visible : safe (turn visible).
Proof.
  intros t Ht. unfold turn. rewrite run_gets. cbn [id].
  pose proof (ro_queue t Ht) as Hq. destruct (control_queue_ t) as [|m q] eqn:E.
  - now apply (safe_dispatcher None).
  - rewrite run_modify. apply Forall_cons in Hq as [Hm Hq]. apply (safe_dispatcher (Some m)); [exact Hm|].
    destruct Ht. now constructor.
Qed.

(** Messages of the blocks of a channel *)

Lemma channel_message_spec m ch : let '(_, ch', pushed) := channel_message m ch in
  gnss_signal_ ch' = gnss_signal_ ch /\
  fsm_channel (channel_fsm_ ch') = fsm_channel (channel_fsm_ ch) /\
  Forall (fun e => channel_id e = fsm_channel (channel_fsm_ ch)) pushed.
Proof.
  unfold channel_message, on_fsm, msg_handler_channel_events, Event_valid_acquisition,
    Event_failed_acquisition_repeat, Event_failed_acquisition_no_repeat, Event_failed_tracking_standby.
  destruct m as [|[[p|p|]|[p|p|]|]|p]; try (repeat split; constructor).
  all: repeat match goal with |- context [if ?b then _ else _] => destruct b end;
    repeat split; repeat constructor.
Qed.

Lemma safe_block_message i m : 0 <= i < Z.of_nat n -> safe (block_message i m).
Proof.
  intros Hi t Ht. unfold block_message. rewrite run_gets. cbn [id].
  pose proof Ht as [K Hh Hids Hq].
  destruct (state_lookup n bands _ _ (Z.to_nat i) K ltac:(lia)) as (ch & st & Ec & Es).
  replace i with (Z.of_nat (Z.to_nat i)) by lia. set (j := Z.to_nat i) in *.
  unfold bind at 1, lift. rewrite (vat_lookup _ _ _ Ec).
  pose proof (channel_message_spec m ch) as Hs.
  destruct (channel_message m ch) as [[r ch'] pushed]. destruct Hs as (S1 & S2 & S3).
  set (g' := with_channel j ch' (flowgraph_ t)).
  exists (t <| flowgraph_ := g' |> <| control_queue_ ::= fun q => q ++ map Channel_message pushed |>).
  split; [unfold modify, g', with_channel, update; cbn; now rewrite vset_nat|].
  constructor; cbn [flowgraph_ control_queue_ update].
  - destruct (ok_band _ _ _ _ K j ch Ec).
    apply (with_channel_ok _ _ (fun _ => True) _ j ch); rewrite ?S1; auto.
    intros _. exact (ok_assigned _ _ _ _ K j ch Ec I).
  - apply (held_with_channel _ _ j st ch); auto.
  - intros k c Hk. unfold g', with_channel, update in Hk. cbn in Hk.
    destruct (decide (k = j)) as [->|Hne].
    + rewrite list_lookup_insert_eq in Hk by (apply lookup_lt_Some in Ec; exact Ec).
      injection Hk as <-. rewrite S2. now apply Hids.
    + rewrite list_lookup_insert_ne in Hk by congruence. now apply Hids.
  - apply Forall_app. split; [exact Hq|]. apply Forall_fmap.
    eapply Forall_impl; [exact S3|]. intros e He. cbn. rewrite He, (Hids j ch Ec). lia.
Qed.

Lemma map_insert_elem {A} k (v : A) l p : p ∈ map_insert k v l -> p = (k, v) \/ p ∈ l.
Proof.
  induction l as [|[k' v'] l IH]; cbn [map_insert].
  - intros ->%list_elem_of_singleton. now left.
  - destruct (k <? k'); [|destruct (k =? k')]; intros [->|Hp]%elem_of_cons; auto.
    + right. now right.
    + right. left.
    + destruct (IH Hp); [now left|right; now right].
Qed.

Lemma safe_status status : doppler_ok (status_Carrier_Doppler_hz status) ->
  safe (receiver_step (Channel_status status)).
Proof.
  intros Hd t [K Hh Hids Hq]. eexists. split; [reflexivity|]. constructor; try assumption.
  destruct K as [K1 K2 K3 K4 K5 K6 K7]. constructor; try assumption.
  cbn. apply Forall_forall. intros p Hp. rewrite Forall_forall in K7.
  unfold msg_handler_channel_status in Hp. destruct (Flag_valid_pseudorange status).
  - apply map_insert_elem in Hp as [->|Hp]; [exact Hd|auto].
  - apply list_elem_of_filter in Hp as [_ Hp]. auto.
Qed.

Lemma safe_step e : event_ok e -> safe (receiver_step e).
Proof.
  intros He. destruct e as [i m|status|id what|visible|visible]; cbn [receiver_step].
  - now apply safe_block_message.
  - now apply safe_status.
  - intros t [T1 T2 T3 T4]. eexists. split; [reflexivity|]. constructor; try assumption.
    apply Forall_app. split; [exact T4|]. constructor; [exact He|constructor].
  - apply safe_turn.
  - unfold assist_GNSS. apply safe_bind; [apply safe_apply_action; right; lia|].
    apply safe_bind; [apply safe_priorize|]. apply safe_apply_action. right. lia.
Qed.

Lemma safe_run es : Forall event_ok es -> safe (receiver_run es).
Proof.
  unfold receiver_run. induction 1 as [|e es He _ IH]; [apply safe_ret|]. cbn [iter_prog].
  apply safe_bind; [now apply safe_step|exact IH].
Qed.

End Receiver.

(** ** The receiver from its setup on *)



(** ** A receiver of Galileo signals *)

(** Two channels of E1 and one of E5a, of which one acquires at a time. *)
Module Example_receiver.

#[local] Instance configuration : Configuration := {|
  channel_satellite _ := 0;
  channels_of b := match b with evGAL_1B => 2 | evGAL_5X => 1 | _ => 0 end;
  in_acquisition := Some 1;
  assist_dual_frequency_acq := None;
  prns _ := [];
  banned_prns _ := []
|}.

#[local] Instance tokenizer : Boost_Tokenizer := fun _ => Returns [].

Definition channels : list Channel :=
  [new_Channel 0 (str "1B") false false; new_Channel 1 (str "1B") false false;
   new_Channel 2 (str "5X") false false].

Definition after_init : GNSSFlowgraph := (init (new_GNSSFlowgraph channels)).2.
Definition after_setup : GNSSFlowgraph := (setup (new_GNSSFlowgraph channels)).2.

Lemma init_returns : init (new_GNSSFlowgraph channels) = (Returns tt, after_init).
Proof. unfold after_init. apply run_pair. vm_compute. reflexivity. Qed.

Lemma setup_returns : setup (new_GNSSFlowgraph channels) = (Returns 0, after_setup).
Proof. unfold after_setup. apply run_pair. vm_compute. reflexivity. Qed.

Lemma is_well_configured : well_configured channels after_init.
Proof.
  constructor.
  - intros [|[|[|i]]] ch; cbn; intros [= <-]; repeat split; cbn; lia.
  - intros b. destruct b; vm_compute; split; congruence.
  - intros b Hb. destruct b; try (cbn in Hb; lia).
    + split; [apply (bool_decide_eq_true_1 (NoDup _)); vm_compute; reflexivity|].
      split; [vm_compute; discriminate|intros [?|?]; discriminate].
    + split; [apply (bool_decide_eq_true_1 (NoDup _)); vm_compute; reflexivity|].
      split; [vm_compute; discriminate|intros [?|?]; discriminate].
Qed.

(** The satellite of channel 0 is acquired; its status assists the E5a channel,
    whose acquisition fails; tracking of channel 0 is lost. *)
Definition events : list receiver_event :=
  [Block_message 0 1; Turn [];
   Channel_status (mkchannel_status 0 (str "1B") 1 (double_of_Z 1000) dzero true);
   Block_message 1 2; Turn []; Turn []; Block_message 2 2; Turn []; Block_message 0 3; Turn []].

Lemma events_ok : Forall (event_ok (length channels)) events.
Proof.
  repeat (apply Forall_cons; split); try (cbn; lia); try exact I; [|constructor].
  intros searched. unfold project_doppler.
  destruct (mapStringValues_ searched); eexists; vm_compute; reflexivity.
Qed.


Definition after_events : ControlThread := (receiver_run events (new_ControlThread after_setup)).2.

Lemma run_returns : receiver_run events (new_ControlThread after_setup) = (Returns tt, after_events).
Proof. unfold after_events. apply run_pair. vm_compute. reflexivity. Qed.

(** Galileo E01, which channel 0 acquired and lost. *)
Definition E01 : Gnss_Signal := mkGnss_Signal (new_Gnss_Satellite (str "Galileo") 1) (str "1B").

Lemma E01_listed : E01 ∈ available_signals after_init evGAL_1B.
Proof. apply list_elem_of_lookup. exists 0%nat. vm_compute. reflexivity. Qed.


End Example_receiver.

(** ** Where the check of the number of channels is too lax *)

Module Example_guards.

(** Fourteen channels for the thirteen satellites of GLONASS. *)
#[local] Instance glonass : Configuration := {|
  channel_satellite _ := 0;
  channels_of b := match b with evGLO_1G => 14 | _ => 0 end;
  in_acquisition := None;
  assist_dual_frequency_acq := None;
  prns _ := [];
  banned_prns _ := []
|}.

#[local] Instance tokenizer : Boost_Tokenizer := fun _ => Returns [5].

Definition glonass_channels : list Channel :=
  map (fun i => new_Channel i (str "1G") false false) (seqZ 0 14).

(** Thirteen channels acquire, and the last one fails. *)
Definition all_acquired : list receiver_event :=
  concat (map (fun i => [Block_message i 1; Turn []]) (seqZ 0 13)) ++ [Block_message 13 2; Turn []].

(** The check of [assign_channels] lets seven more GLONASS channels pass than there
    are satellites: the configuration is accepted, and when the satellites run out
    the manager reads the front of an empty list. *)
Lemma glonass_guard_too_lax :
  (setup (new_GNSSFlowgraph glonass_channels)).1 = Returns 0 /\
  (receiver_run all_acquired
    (new_ControlThread (setup (new_GNSSFlowgraph glonass_channels)).2)).1 = Throws undefined_behaviour.
Proof. vm_compute. split; reflexivity. Qed.

(** One GPS channel, whose only satellite is banned. *)
Definition banned : Configuration := {|
  channel_satellite _ := 0;
  channels_of b := match b with evGPS_1C => 1 | _ => 0 end;
  in_acquisition := None;
  assist_dual_frequency_acq := None;
  prns s := if bool_decide (s = str "GPS") then str "5" else [];
  banned_prns s := if bool_decide (s = str "GPS") then str "5" else []
|}.

(** [size() - 1] of an empty list is the largest number: the check passes, and the
    assignment reads the front of the empty list. *)
Lemma empty_list_passes :
  (@setup banned tokenizer (new_GNSSFlowgraph [new_Channel 0 (str "1C") false false])).1
    = Throws undefined_behaviour.
Proof. vm_compute. reflexivity. Qed.

End Example_guards.
