(* ===== verification/ReceiverSync.v ===== *)
(** * ReceiverSync: the flow graph and the channels agree

    The flow graph keeps a state for each channel, and learns what its state
    machine did from events that wait in the control queue.  As long as the
    receiver is not put on standby, the three agree: with the queue taken into
    account, the state of the flow graph is the one the machine is in, and the
    count of acquiring channels is right and within its maximum. *)

From S2P Require Import Prelude Cstring Float64 GnssSignal ChannelFsm Flowgraph FlowgraphProofs ControlThread ReceiverProofs.
From stdpp Require Import list strings.
From Stdlib Require Import ZArith Lia Ascii.
Local Open Scope Z_scope.
Local Open Scope cxx_scope.

(** ** The protocol of a channel *)

(** The state of the flow graph, the state of the machine, and the events of the
    channel that are in the queue. *)
Inductive in_step : Z -> Z -> list Z -> Prop :=
  | idle : in_step 0 0 []
  | idle_failed : in_step 0 3 []
  | acquiring : in_step 1 1 []
  | failed : in_step 1 3 [0]
  | acquired : in_step 1 2 [1]
  | acquired_lost : in_step 1 0 [1; 2]
  | tracking : in_step 2 2 []
  | lost : in_step 2 0 [2].

(** What a message of a block does: the machine moves and the events follow. *)
Lemma in_step_message m s ch pending : in_step s (fsm_state ch) pending ->
  let '(_, ch', pushed) := channel_message m ch in
  in_step s (fsm_state ch') (pending ++ map event_type pushed).
Proof.
  intros Hs. unfold channel_message, on_fsm, msg_handler_channel_events, Event_valid_acquisition,
    Event_failed_acquisition_repeat, Event_failed_acquisition_no_repeat, Event_failed_tracking_standby.
  unfold fsm_state in *.
  destruct m as [|[[p|p|]|[p|p|]|]|p]; try (cbn; rewrite app_nil_r; exact Hs).
  all: destruct (Z.eqb_spec (state_ (channel_fsm_ ch)) 1) as [E1|E1];
    destruct (Z.eqb_spec (state_ (channel_fsm_ ch)) 2) as [E2|E2];
    try destruct (repeat_ ch); cbn -[app]; rewrite ?app_nil_r; try exact Hs;
    first [lia | rewrite ?E1, ?E2 in *; inversion Hs; subst; cbn; constructor].
Qed.

(** Operations on the lists only. *)
Definition only_lists (f : GNSSFlowgraph -> GNSSFlowgraph) : Prop :=
  forall g, exists a, f g = g <| available_signals := a |>.

Lemma only_lists_id : only_lists id.
Proof. intros g. exists (available_signals g). now destruct g. Qed.

Lemma only_lists_set b l : only_lists (set_available b l).
Proof. intros g. eexists. reflexivity. Qed.

Lemma only_lists_push s : only_lists (push_back_signal s).
Proof.
  intros g. unfold push_back_signal.
  destruct (mapStringValues_ _); first [apply only_lists_id | apply only_lists_set].
Qed.

Lemma only_lists_remove s : only_lists (remove_signal s).
Proof.
  intros g. unfold remove_signal.
  destruct (mapStringValues_ _); first [apply only_lists_id | apply only_lists_set].
Qed.

Lemma only_lists_compose f h : only_lists f -> only_lists h -> only_lists (fun g => h (f g)).
Proof.
  intros Hf Hh g. destruct (Hf g) as [a E]. rewrite E. destruct (Hh (g <| available_signals := a |>)) as [a' E'].
  exists a'. rewrite E'. reflexivity.
Qed.

Lemma only_lists_priorize b s : only_lists (priorize b s).
Proof. intros g. unfold priorize. destruct (Nat.ltb _ _); apply only_lists_set. Qed.

Lemma only_lists_priorize_satellites l : only_lists (priorize_satellites l).
Proof.
  unfold priorize_satellites. induction l as [|s l IH]; [apply only_lists_id|]. cbn [fold_left].
  apply (only_lists_compose (priorize_satellite s) (fun g => fold_left _ l g)); [|exact IH].
  intros g. unfold priorize_satellite. cbv zeta.
  case_bool_decide; [|case_bool_decide; [|apply only_lists_id]];
    repeat (apply (only_lists_compose (priorize _ _)); [apply only_lists_priorize|]).
  - refine (only_lists_compose (fun g => priorize _ _ (priorize _ _ g)) _ _ _ g);
      [apply (only_lists_compose (priorize _ _))|]; apply only_lists_priorize.
  - refine (only_lists_compose (fun g => priorize _ _ (priorize _ _ (priorize _ _ g))) _ _ _ g);
      [apply (only_lists_compose (fun g => priorize _ _ (priorize _ _ g)));
       [apply (only_lists_compose (priorize _ _))|]|]; apply only_lists_priorize.
Qed.

(** ** The agreement *)

(** Programs that may throw: what holds when they return. *)
Definition partial {S A} (P : S -> Prop) (c : prog S A) (Q : A -> S -> Prop) : Prop :=
  hoare P c Q (fun _ _ => True).

Lemma partial_bind {S A B} P (c : prog S A) (k : A -> prog S B) R Q :
  partial P c R -> (forall a, partial (R a) (k a) Q) -> partial P (bind c k) Q.
Proof. apply hoare_bind. Qed.

Lemma partial_conseq {S A} (P P' : S -> Prop) (c : prog S A) (Q Q' : A -> S -> Prop) :
  partial P' c Q' -> (forall s, P s -> P' s) -> (forall a s, Q' a s -> Q a s) -> partial P c Q.
Proof. intros Hc HP HQ. eapply hoare_conseq; eauto. Qed.

Lemma partial_inv {S A} (P : S -> Prop) (c : prog S A) : run_inv P c -> partial P c (fun _ => P).
Proof. intros Hc s Hs. specialize (Hc s Hs). now destruct (c s) as [[a|e] s']. Qed.

Section Sync.
Context `{Configuration} (n : nat) (M : Z) (Hn : Z.of_nat n < 2 ^ 31) (HM : M <= Z.of_nat n).

Definition count1 (l : list Z) : Z := Z.of_nat (length (filter (fun s => s = 1) l)).

Lemma count1_insert l i a s : l !! i = Some a ->
  count1 (<[i:=s]> l) = count1 l - Z.b2z (a =? 1) + Z.b2z (s =? 1).
Proof.
  unfold count1. revert i. induction l as [|x l IH]; intros [|i] E; try discriminate.
  - injection E as ->. cbn [insert list_insert]. rewrite !filter_cons.
    destruct (Z.eqb_spec a 1), (Z.eqb_spec s 1); repeat case_decide; cbn [length Z.b2z]; lia.
  - change (<[S i:=s]> (x :: l)) with (x :: <[i:=s]> l). specialize (IH i E).
    rewrite !filter_cons. case_decide; cbn [length]; lia.
Qed.

(** The channels of [R i] states, [k] of them acquiring, and the counter at [c]. *)
Record sync (R : nat -> Z -> Z -> Prop) (k c : Z) (g : GNSSFlowgraph) : Prop := {
  sync_channels : length (channels_ g) = n;
  sync_states : length (channels_state_ g) = n;
  sync_total : channels_count_ g = Z.of_nat n;
  sync_max : max_acq_channels_ g = M;
  sync_agree : forall i ch st, channels_ g !! i = Some ch -> channels_state_ g !! i = Some st ->
    R i st (fsm_state ch);
  sync_acquiring : count1 (channels_state_ g) = k;
  sync_count : acq_channels_count_ g = c
}.

Definition settled (R : nat -> Z -> Z -> Prop) (g : GNSSFlowgraph) : Prop :=
  exists k, k <= M /\ sync R k k g.

(** Another relation for one channel. *)
Definition upd (R : nat -> Z -> Z -> Prop) (i : nat) (P : Z -> Z -> Prop) : nat -> Z -> Z -> Prop :=
  fun j st f => if decide (j = i) then P st f else R j st f.

Lemma sync_weaken R R' k c g : (forall j st f, R j st f -> R' j st f) -> sync R k c g -> sync R' k c g.
Proof. intros Hw [S1 S2 S3 S4 S5 S6 S7]. constructor; auto. Qed.

Lemma sync_upd R R' i (P : Z -> Z -> Prop) k c g : (forall st f, P st f -> R' i st f) ->
  (forall j st f, j <> i -> R j st f -> R' j st f) -> sync (upd R i P) k c g -> sync R' k c g.
Proof.
  intros Hi Hj. apply sync_weaken. intros j st f. unfold upd. case_decide as E; [subst j|]; auto.
Qed.

Lemma sync_lists R k c f g : only_lists f -> sync R k c g -> sync R k c (f g).
Proof. intros Hf [S1 S2 S3 S4 S5 S6 S7]. destruct (Hf g) as [a ->]. now constructor. Qed.

Lemma sync_lookup R k c g i : sync R k c g -> (i < n)%nat ->
  exists ch st, channels_ g !! i = Some ch /\ channels_state_ g !! i = Some st /\ R i st (fsm_state ch).
Proof.
  intros Hs Hi. destruct (lookup_lt_is_Some_2 (channels_ g) i) as [ch E];
    [rewrite (sync_channels _ _ _ _ Hs); exact Hi|].
  destruct (lookup_lt_is_Some_2 (channels_state_ g) i) as [st E'];
    [rewrite (sync_states _ _ _ _ Hs); exact Hi|].
  exists ch, st. split; [exact E|]. split; [exact E'|]. exact (sync_agree _ _ _ _ Hs i ch st E E').
Qed.

(** *** The accesses *)

Lemma p_lists R k c f : only_lists f -> partial (sync R k c) (modify f) (fun _ => sync R k c).
Proof. intros Hf g Hg. now apply sync_lists. Qed.

Lemma p_set_state R k c i a s : (i < n)%nat -> (forall st f, R i st f -> st = a) ->
  partial (sync R k c) (set_state (Z.of_nat i) s)
    (fun _ => sync (upd R i (fun st f => st = s /\ R i a f)) (k - Z.b2z (a =? 1) + Z.b2z (s =? 1)) c).
Proof.
  intros Hi Ha g Hg. destruct (sync_lookup _ _ _ _ i Hg Hi) as (ch & st & Ec & Es & HR).
  rewrite (set_state_run i st s g Es). pose proof (Ha _ _ HR) as ->.
  destruct Hg as [S1 S2 S3 S4 S5 S6 S7]. constructor; try assumption.
  - unfold with_state, update. cbn. rewrite length_insert. exact S2.
  - intros j c' t Hc Ht. unfold with_state, update in Hc, Ht. cbn in Hc, Ht.
    unfold upd. case_decide as E; [subst j|].
    + rewrite list_lookup_insert_eq in Ht by (apply lookup_lt_Some in Es; exact Es).
      injection Ht as <-. rewrite Ec in Hc. injection Hc as <-. auto.
    + rewrite list_lookup_insert_ne in Ht by congruence. eauto.
  - unfold with_state, update. cbn. rewrite (count1_insert _ _ a) by exact Es. now rewrite S6.
Qed.

Lemma p_on_channel {A} R k c i (m : prog Channel A) (P : Z -> Z -> Prop) : (i < n)%nat ->
  (forall ch st a ch', R i st (fsm_state ch) -> m ch = (Returns a, ch') -> P st (fsm_state ch')) ->
  partial (sync R k c) (on_channel (Z.of_nat i) m) (fun _ => sync (upd R i P) k c).
Proof.
  intros Hi Hm g Hg. destruct (sync_lookup _ _ _ _ i Hg Hi) as (ch & st & Ec & Es & HR).
  rewrite (on_channel_run i ch m g Ec). destruct (m ch) as [[a|e] ch'] eqn:Em; [|exact I].
  cbn [fst snd]. specialize (Hm ch st a ch' HR Em).
  destruct Hg as [S1 S2 S3 S4 S5 S6 S7]. constructor; try assumption.
  - unfold with_channel, update. cbn. rewrite length_insert. exact S1.
  - intros j c' t Hc Ht. unfold with_channel, update in Hc, Ht. cbn in Hc, Ht.
    unfold upd. case_decide as E; [subst j|].
    + rewrite list_lookup_insert_eq in Hc by (apply lookup_lt_Some in Ec; exact Ec).
      injection Hc as <-. rewrite Es in Ht. injection Ht as <-. exact Hm.
    + rewrite list_lookup_insert_ne in Hc by congruence. eauto.
Qed.

Lemma p_keep_channel {A} R k c i (m : prog Channel A) : (i < n)%nat -> keeps_member fsm_state m ->
  partial (sync R k c) (on_channel (Z.of_nat i) m) (fun _ => sync R k c).
Proof.
  intros Hi Hm. eapply partial_conseq; [apply (p_on_channel R k c i m (R i)); [exact Hi|]|auto|].
  - intros ch st a ch' HR Em. specialize (Hm ch). rewrite Em in Hm. cbn in Hm. now rewrite Hm.
  - intros a g. apply sync_upd; auto.
Qed.

Lemma p_count_up R k c : 0 <= c < 2 ^ 31 - 1 -> partial (sync R k c) count_up (fun _ => sync R k (c + 1)).
Proof.
  intros Hc g [S1 S2 S3 S4 S5 S6 S7]. constructor; try assumption. cbn. rewrite S7.
  apply swrap_small; lia.
Qed.

Lemma p_count_down R k c : 0 < c < 2 ^ 31 -> partial (sync R k c) count_down (fun _ => sync R k (c - 1)).
Proof.
  intros Hc g [S1 S2 S3 S4 S5 S6 S7]. unfold count_down, modify. rewrite S7.
  destruct (Z.ltb_spec 0 c); [|lia]. constructor; try assumption. cbn. rewrite S7.
  apply swrap_small; lia.
Qed.

(** A channel read from the state. *)
Lemma p_the_channel {B} (P : GNSSFlowgraph -> Prop) i (k : Channel -> fg B) Q :
  (forall ch, partial P (k ch) Q) -> partial P (bind (the_channel i) k) Q.
Proof.
  intros Hk g Hg. unfold the_channel, bind, gets, lift.
  destruct (vat _ _); [now apply Hk|exact I].
Qed.

Lemma p_the_state {B} R k c i (f : Z -> fg B) Q : (i < n)%nat ->
  (forall s, partial (sync (upd R i (fun st f => st = s /\ R i st f)) k c) (f s) Q) ->
  partial (sync R k c) (bind (the_state (Z.of_nat i)) f) Q.
Proof.
  intros Hi Hf g Hg. destruct (sync_lookup _ _ _ _ i Hg Hi) as (ch & st & Ec & Es & HR).
  rewrite (bind_returns _ _ _ _ _ (the_state_run i st g Es)). apply Hf.
  destruct Hg as [S1 S2 S3 S4 S5 S6 S7]. constructor; try assumption.
  intros j c' t Hc Ht. unfold upd. case_decide as E; [subst j|]; [|eauto].
  split; [congruence|eauto].
Qed.

Lemma p_search R k c s : partial (sync R k c) (search_next_signal s) (fun _ => sync R k c).
Proof.
  apply partial_inv. unfold search_next_signal.
  repeat match goal with
  | |- run_inv _ (bind _ _) => apply run_inv_bind; [|intros ?]
  | |- run_inv _ (ret _) => apply run_inv_ret
  | |- run_inv _ (throw _) => apply run_inv_throw
  | |- run_inv _ (gets _) => apply run_inv_gets
  | |- run_inv _ (modify _) => apply run_inv_modify; intros ?; apply sync_lists, only_lists_set
  | |- run_inv _ (match ?x with _ => _ end) => destruct x
  | |- run_inv _ _ => progress (unfold rotate_signal, search_primary, search_unassisted, search_secondary)
  end.
Qed.

(** *** Starting an acquisition *)

Lemma partial_pure {A} (P : GNSSFlowgraph -> Prop) (c : fg A) Q (F : Prop) :
  (forall g, P g -> F) -> (F -> partial P c Q) -> partial P c Q.
Proof. intros H1 H2 g Hg. exact (H2 (H1 g Hg) g Hg). Qed.

Lemma start_acquisition_state ch : fsm_state ch = 0 \/ fsm_state ch = 3 ->
  fsm_state (start_acquisition ch) = 1.
Proof.
  unfold fsm_state, start_acquisition, on_fsm, Event_start_acquisition, Event_start_acquisition_fpga.
  intros [E|E]; rewrite E; destruct (negb _); reflexivity.
Qed.

Lemma p_start R k c i (P : Z -> Z -> Prop) : (i < n)%nat ->
  (forall st f, R i st f -> (f = 0 \/ f = 3) /\ P st 1) ->
  partial (sync R k c) (channel_start_acquisition (Z.of_nat i)) (fun _ => sync (upd R i P) k c).
Proof.
  intros Hi HR. apply p_on_channel; [exact Hi|]. intros ch st a ch' Hch [= _ <-].
  destruct (HR _ _ Hch). rewrite start_acquisition_state; auto.
Qed.

(** A channel at rest. *)
Definition at_rest (R : nat -> Z -> Z -> Prop) (i : nat) (s : Z) : Prop :=
  forall st f, R i st f -> st = s /\ (f = 0 \/ f = 3).

Lemma p_begin R k i (f : found) : (i < n)%nat -> at_rest R i 0 -> 0 <= k < M ->
  partial (sync R k k) (begin_acquisition (Z.of_nat i) f)
    (fun _ => sync (upd R i (fun st f => st = 1 /\ f = 1)) (k + 1) (k + 1)).
Proof.
  intros Hi HR Hk. unfold begin_acquisition.
  eapply partial_bind; [apply (p_set_state R k k i 0 1 Hi); apply HR|intros ?; cbn beta].
  replace (k - Z.b2z (0 =? 1) + Z.b2z (1 =? 1)) with (k + 1) by (cbn; lia).
  eapply partial_bind; [apply p_count_up; lia|intros ?; cbn beta].
  apply p_the_channel. intros ch.
  eapply partial_bind with (R := fun _ => sync (upd R i (fun st f => st = 1 /\ R i 0 f)) (k + 1) (k + 1)).
  { destruct (assistance_available f && assist_dual).
    - destruct (estimated_doppler f); [|intros g Hg; exact I].
      apply p_keep_channel; [exact Hi|apply assist_state].
    - apply p_keep_channel; [exact Hi|apply assist_state]. }
  intros ?; cbn beta. eapply partial_conseq; [apply (p_start (upd R i (fun st f => st = 1 /\ R i 0 f)) (k + 1) (k + 1) i
    (fun st f => st = 1 /\ f = 1) Hi)|auto|].
  - intros st f0. unfold upd. rewrite decide_True by reflexivity. intros [-> HR0]. apply HR in HR0. tauto.
  - intros b g. apply sync_weaken. intros j st f0. unfold upd. case_decide; auto.
Qed.

(** Relations under which the idle channels can be served. *)
Definition servable (R : nat -> Z -> Z -> Prop) : Prop :=
  forall i f, R i 0 f -> (f = 0 \/ f = 3) /\ R i 1 1.

Lemma count1_nonneg l : 0 <= count1 l.
Proof. unfold count1. lia. Qed.

Lemma sync_k R k c g : sync R k c g -> 0 <= k.
Proof. intros Hs. rewrite <- (sync_acquiring _ _ _ _ Hs). apply count1_nonneg. Qed.

(** The signals that are searched without assistance. *)
Definition primary (b : StringValue) : Prop := b ∈ [evGPS_1C; evGAL_1B; evGLO_1G; evBDS_B1].

Lemma search_primary_result s g f g' : search_next_signal s g = (Returns f, g') ->
  primary (mapStringValues_ s) -> is_primary_frequency f = true.
Proof.
  intros E Hp. unfold search_next_signal in E. revert E.
  repeat (apply elem_of_cons in Hp as [->|Hp]; [|]); try now apply elem_of_nil in Hp.
  all: unfold search_primary, rotate_signal; unfold bind at 1; rewrite run_gets;
    destruct (available_signals g _); [discriminate|]; now intros [= <- _].
Qed.

(** Channel [i] is not idle, or it may wait: [W]. *)
Definition served (R : nat -> Z -> Z -> Prop) (W : Prop) (i : nat) : nat -> Z -> Z -> Prop :=
  upd R i (fun st f => R i st f /\ (st <> 0 \/ W)).

(** A channel that can be served without waiting. *)
Definition ready (i : nat) (ch : Channel) : Prop :=
  primary (mapStringValues_ (signal (gnss_signal_ ch))) \/ assist_dual = false \/
  fixed_satellite (Z.of_nat i) <> 0.

(** A channel that is idle, when there is room for one more acquisition. *)
Lemma p_serve R k i (W : Prop) g : (i < n)%nat -> servable R -> k < M ->
  (forall ch, channels_ g !! i = Some ch -> ready i ch \/ W) ->
  sync (upd R i (fun st f => st = 0 /\ R i st f)) k k g ->
  match serve_channel (Z.of_nat i) g with (Returns _, g') => settled (served R W i) g' | _ => True end.
Proof.
  intros Hi HR Hk HW Hg. pose proof (sync_k _ _ _ _ Hg) as Hk0.
  destruct (sync_lookup _ _ _ _ i Hg Hi) as (ch & st & Ec & _ & Hst).
  assert (R i 1 1) as H11.
  { unfold upd in Hst. rewrite decide_True in Hst by reflexivity. destruct Hst as [-> Hst].
    now apply HR in Hst. }
  specialize (HW ch Ec). unfold serve_channel. rewrite (bind_returns _ _ _ _ _ (the_channel_run i ch g Ec)).
  clear Ec Hst st. revert g Hg. set (R0 := upd R i (fun st f => st = 0 /\ R i st f)).
  assert (forall f, partial (sync R0 k k) (begin_acquisition (Z.of_nat i) f) (fun _ => settled (served R W i)))
    as Hbegin.
  { intros f. eapply partial_conseq; [apply (p_begin R0 k i f Hi); [|lia]|auto|].
    - intros st f0. unfold R0, upd. rewrite decide_True by reflexivity. intros [-> H0].
      apply HR in H0. tauto.
    - intros [] g Hg. exists (k + 1). split; [lia|]. revert Hg. apply sync_weaken.
      intros j st f0. unfold served, upd, R0, upd. case_decide as E; [subst j|auto].
      intros [-> ->]. split; [exact H11|now left]. }
  destruct (Z.eqb_spec (fixed_satellite (Z.of_nat i)) 0) as [Ef|Ef].
  - eapply partial_bind with (R := fun f g => sync R0 k k g /\
      (primary (mapStringValues_ (signal (gnss_signal_ ch))) -> is_primary_frequency f = true)).
    { intros g Hg. pose proof (p_search R0 k k (get_signal_str (get_signal ch)) g Hg) as Hs.
      destruct (search_next_signal _ g) as [[f|e] g'] eqn:E; [|exact I]. split; [exact Hs|].
      exact (search_primary_result _ _ _ _ E). }
    intros f. apply (partial_pure _ _ _ (primary (mapStringValues_ (signal (gnss_signal_ ch))) ->
      is_primary_frequency f = true)); [intros g [_ Hp]; exact Hp|]. intros Hp.
    eapply partial_conseq with (P' := sync R0 k k); [|tauto|intros ? ? Hx; exact Hx].
    eapply partial_bind; [apply p_keep_channel; [exact Hi|apply set_signal_state]|intros ?; cbn beta].
    destruct (_ || _) eqn:Eb; [apply Hbegin|].
    assert W as HW'.
    { apply orb_false_iff in Eb as [Eb Ed]. apply orb_false_iff in Eb as [Eb _].
      apply negb_false_iff in Ed. destruct HW as [[Hb|[?|?]]|HW]; [|congruence|contradiction|exact HW].
      apply Hp in Hb. congruence. }
    eapply partial_conseq; [apply (p_lists R0 k k); apply only_lists_push|auto|].
    intros b g Hg. exists k. split; [lia|]. revert Hg. apply sync_weaken.
    intros j st f0. unfold R0, served, upd. case_decide as E; [subst j; tauto|auto].
  - change (partial (sync R0 k k) (channel_set_signal (Z.of_nat i) (get_signal ch);;
      begin_acquisition (Z.of_nat i) (mkfound empty_signal true false None None))
      (fun _ => settled (served R W i))).
    eapply partial_bind; [apply p_keep_channel; [exact Hi|apply set_signal_state]|intros ?; cbn beta].
    apply Hbegin.
Qed.

(** The turn of one channel: it is served, unless all acquisitions are in use. *)
Lemma p_manage_served R i (W : Prop) g : (i < n)%nat -> servable R ->
  (forall ch, channels_ g !! i = Some ch -> ready i ch \/ W) -> settled R g ->
  match manage_channel (Z.of_nat i) g with
  | (Returns _, g') => settled (served R W i) g' \/ (settled R g' /\ acq_channels_count_ g' = M)
  | _ => True
  end.
Proof.
  intros Hi HR HW (k & Hk & Hg). unfold manage_channel. rewrite run_gets. cbn [id].
  rewrite (sync_count _ _ _ _ Hg), (sync_max _ _ _ _ Hg).
  destruct (Z.ltb_spec k M) as [Hlt|Hge].
  2:{ right. split; [exists k; auto|]. rewrite (sync_count _ _ _ _ Hg). lia. }
  destruct (sync_lookup _ _ _ _ i Hg Hi) as (ch & st & Ec & Es & HRi).
  rewrite (bind_returns _ _ _ _ _ (the_state_run i st g Es)).
  assert (sync (upd R i (fun st' f => st' = st /\ R i st' f)) k k g) as Hg'.
  { destruct Hg as [S1 S2 S3 S4 S5 S6 S7]. constructor; try assumption.
    intros j c' t Hc Ht. unfold upd. case_decide as E; [subst j|eauto]. split; [congruence|eauto]. }
  destruct (Z.eqb_spec st 0) as [->|Hst].
  - pose proof (p_serve R k i W g Hi HR Hlt HW Hg') as Hs.
    destruct (serve_channel (Z.of_nat i) g) as [[[]|e] g']; [now left|exact I].
  - left. exists k. split; [exact Hk|]. revert Hg'. apply sync_weaken.
    intros j st' f. unfold served, upd. case_decide; [|auto]. intros [-> ?]. auto.
Qed.

Lemma p_manage R i : (i < n)%nat -> servable R ->
  partial (settled R) (manage_channel (Z.of_nat i)) (fun _ => settled R).
Proof.
  intros Hi HR g Hg. pose proof (p_manage_served R i True g Hi HR ltac:(auto) Hg) as Hs.
  destruct (manage_channel (Z.of_nat i) g) as [[[]|e] g']; [|exact I].
  destruct Hs as [(k & Hk & Hs)|[Hs _]]; [|exact Hs]. exists k. split; [exact Hk|].
  revert Hs. apply sync_upd; [tauto|auto].
Qed.

Lemma p_manager R who : servable R -> partial (settled R) (acquisition_manager who) (fun _ => settled R).
Proof.
  intros HR g Hg. pose proof Hg as (k & _ & Hs). unfold acquisition_manager. rewrite run_gets.
  rewrite (sync_total _ _ _ _ Hs). revert g Hg Hs. intros g Hg _. revert g Hg. apply hoare_iter.
  intros x Hx. apply elem_of_seqZ in Hx. set (r := u32 (x + who + 1) mod Z.of_nat n).
  assert (0 <= r < Z.of_nat n) as Hr by (apply Z.mod_pos_bound; lia).
  rewrite <- (Z2Nat.id r) by lia. apply p_manage; [lia|exact HR].
Qed.

(** *** The actions *)

Definition agree (E : nat -> list Z) : nat -> Z -> Z -> Prop := fun i st f => in_step st f (E i).

Lemma agree_servable E : servable (agree E).
Proof. intros i f Hs. unfold agree in *. inversion Hs; subst; split; auto; constructor. Qed.

(** The first event of a channel, and those that stay in the queue. *)
Definition takes (E E' : nat -> list Z) (who : nat) (what : Z) : Prop :=
  E who = what :: E' who /\ forall j, j <> who -> E' j = E j.

Lemma agree_upd E E' who what (P : Z -> Z -> Prop) k c g : takes E E' who what ->
  (forall st f, P st f -> in_step st f (E' who)) -> sync (upd (agree E) who P) k c g ->
  sync (agree E') k c g.
Proof.
  intros [_ He] HP. apply sync_upd; [exact HP|]. intros j st f Hj. unfold agree. now rewrite He.
Qed.

Lemma p_failed E E' who sat : (who < n)%nat -> takes E E' who 0 ->
  partial (settled (agree E)) (acquisition_failed (Z.of_nat who) sat) (fun _ => settled (agree E')).
Proof.
  intros Hw Ht g (k & Hk & Hg). revert g Hg.
  change (partial (sync (agree E) k k) (acquisition_failed (Z.of_nat who) sat) (fun _ => settled (agree E'))).
  assert (forall st f, agree E who st f -> st = 1 /\ f = 3 /\ E' who = []) as Hst.
  { intros st f. unfold agree. rewrite (proj1 Ht). intros Hs. inversion Hs; subst; auto. }
  unfold acquisition_failed. apply p_the_channel. intros ch.
  eapply partial_bind; [apply (p_set_state _ k k who 1 0 Hw); apply Hst|intros ?; cbn beta].
  replace (k - Z.b2z (1 =? 1) + Z.b2z (0 =? 1)) with (k - 1) by (cbn; lia).
  eapply partial_pure; [apply sync_k|]. intros Hk1.
  eapply partial_bind; [apply p_count_down; lia|intros ?; cbn beta].
  eapply partial_bind with (R := fun _ => settled (agree E')).
  - eapply partial_conseq; [apply p_manager, agree_servable| |intros ? ? Hx; exact Hx].
    intros g Hg. exists (k - 1). split; [lia|]. revert Hg. apply agree_upd with (what := 0); [exact Ht|].
    intros st f [-> Hf]. apply Hst in Hf as (_ & -> & ->). constructor.
  - intros ?; cbn beta. destruct (sat =? 0); [|intros g Hg; exact Hg].
    intros g (k' & Hk' & Hg). exists k'. split; [exact Hk'|]. apply sync_lists; [apply only_lists_push|exact Hg].
Qed.

Lemma p_succeeded E E' who : (who < n)%nat -> takes E E' who 1 ->
  partial (settled (agree E)) (acquisition_succeeded (Z.of_nat who)) (fun _ => settled (agree E')).
Proof.
  intros Hw Ht g (k & Hk & Hg). revert g Hg.
  change (partial (sync (agree E) k k) (acquisition_succeeded (Z.of_nat who)) (fun _ => settled (agree E'))).
  assert (forall st f, agree E who st f -> st = 1 /\ in_step 2 f (E' who)) as Hst.
  { intros st f. unfold agree. rewrite (proj1 Ht). intros Hs. inversion Hs; subst; split; auto; constructor. }
  unfold acquisition_succeeded. apply p_the_channel. intros ch.
  eapply partial_bind; [apply p_lists, only_lists_remove|intros ?; cbn beta].
  eapply partial_bind; [apply (p_set_state _ k k who 1 2 Hw); apply Hst|intros ?; cbn beta].
  replace (k - Z.b2z (1 =? 1) + Z.b2z (2 =? 1)) with (k - 1) by (cbn; lia).
  eapply partial_pure; [apply sync_k|]. intros Hk1.
  eapply partial_bind; [apply p_count_down; lia|intros ?; cbn beta].
  eapply partial_conseq; [apply p_manager, agree_servable| |intros ? ? Hx; exact Hx].
  intros g Hg. exists (k - 1). split; [lia|]. revert Hg. apply agree_upd with (what := 1); [exact Ht|].
  intros st f [-> Hf]. now apply Hst in Hf.
Qed.

Lemma p_tracking_failed E E' who sat : (who < n)%nat -> takes E E' who 2 ->
  partial (settled (agree E)) (tracking_failed (Z.of_nat who) sat) (fun _ => settled (agree E')).
Proof.
  intros Hw Ht g (k & Hk & Hg).
  assert (forall st f, agree E who st f -> st = 2 /\ f = 0 /\ E' who = []) as Hst.
  { intros st f. unfold agree. rewrite (proj1 Ht). intros Hs. inversion Hs; subst; auto. }
  assert (E' who = []) as He.
  { destruct (sync_lookup _ _ _ _ who Hg Hw) as (ch & st & _ & _ & Hs). now apply Hst in Hs. }
  unfold tracking_failed. revert g Hg. apply p_the_channel. intros ch g Hg. rewrite run_gets. cbn [id].
  rewrite (sync_count _ _ _ _ Hg), (sync_max _ _ _ _ Hg). pose proof (sync_k _ _ _ _ Hg) as Hk0.
  revert g Hg. destruct (Z.ltb_spec k M) as [Hlt|_].
  - change (partial (sync (agree E) k k) (set_state (Z.of_nat who) 1;; count_up;;
      channel_set_signal (Z.of_nat who) (get_signal ch);; channel_start_acquisition (Z.of_nat who))
      (fun _ => settled (agree E'))).
    eapply partial_bind; [apply (p_set_state _ k k who 2 1 Hw); apply Hst|intros ?; cbn beta].
    replace (k - Z.b2z (2 =? 1) + Z.b2z (1 =? 1)) with (k + 1) by (cbn; lia).
    eapply partial_bind; [apply p_count_up; lia|intros ?; cbn beta].
    eapply partial_bind; [apply p_keep_channel; [exact Hw|apply set_signal_state]|intros ?; cbn beta].
    eapply partial_conseq; [apply (p_start (upd (agree E) who (fun st f => st = 1 /\ agree E who 2 f))
      (k + 1) (k + 1) who (fun st f => st = 1 /\ f = 1) Hw)|auto|].
    + intros st f. unfold upd. rewrite decide_True by reflexivity. intros [-> Hf].
      apply Hst in Hf. tauto.
    + intros b g Hg. exists (k + 1). split; [lia|]. apply (agree_upd E E' who 2 (fun st f => st = 1 /\ f = 1));
        [exact Ht|intros st f [-> ->]; rewrite He; constructor|].
      revert Hg. apply sync_weaken. intros j st f. unfold upd. case_decide; auto.
  - change (partial (sync (agree E) k k) (set_state (Z.of_nat who) 0;;
      (if sat =? 0 then modify (push_back_signal (get_signal ch)) else ret tt)) (fun _ => settled (agree E'))).
    eapply partial_bind; [apply (p_set_state _ k k who 2 0 Hw); apply Hst|intros ?; cbn beta].
    replace (k - Z.b2z (2 =? 1) + Z.b2z (0 =? 1)) with k by (cbn; lia).
    assert (forall g, sync (upd (agree E) who (fun st f => st = 0 /\ agree E who 2 f)) k k g ->
      settled (agree E') g) as Hend.
    { intros g Hg. exists k. split; [exact Hk|]. revert Hg. apply agree_upd with (what := 2); [exact Ht|].
      intros st f [-> Hf]. apply Hst in Hf as (_ & -> & ->). constructor. }
    destruct (sat =? 0); intros g Hg; apply Hend; [|exact Hg].
    apply sync_lists; [apply only_lists_push|exact Hg].
Qed.

(** Every event that a channel sent is the one that its state calls for. *)
Lemma p_action E E' who what : (who < n)%nat -> takes E E' who what ->
  partial (settled (agree E)) (apply_action (Z.of_nat who) what) (fun _ => settled (agree E')).
Proof.
  intros Hw Ht g Hg.
  assert (what = 0 \/ what = 1 \/ what = 2) as Hwhat.
  { destruct Hg as (k & _ & Hg). destruct (sync_lookup _ _ _ _ who Hg Hw) as (ch & st & _ & _ & Hs).
    unfold agree in Hs. rewrite (proj1 Ht) in Hs. inversion Hs; auto. }
  revert g Hg. unfold apply_action. destruct Hwhat as [-> | [-> | ->]].
  - now apply p_failed.
  - now apply p_succeeded.
  - now apply p_tracking_failed.
Qed.

(** An action that is neither of a channel nor the standby does nothing. *)
Lemma other_action who what g : ~ (0 <= what <= 2) -> what <> 10 -> apply_action who what g = (Returns tt, g).
Proof.
  intros H1 H2. unfold apply_action. destruct what as [|p|p]; [lia| |reflexivity].
  do 4 (try destruct p as [p|p|]); try reflexivity; lia.
Qed.

(** ** The control thread *)

(** The events of channel [i] that wait in the queue. *)
Definition pending (q : list control_message) (i : nat) : list Z :=
  omap (fun m => match m with
                 | Channel_message e => if channel_id e =? Z.of_nat i then Some (event_type e) else None
                 | Command_message _ _ => None
                 end) q.

(** Commands other than the standby and the actions of channels. *)
Definition command_ok (id what : Z) : Prop := what <> 10 /\ (id = 200 \/ ~ (0 <= what <= 2)).

Definition queued_ok (m : control_message) : Prop :=
  match m with
  | Channel_message e => 0 <= channel_id e < Z.of_nat n
  | Command_message id what => command_ok id what
  end.

Record thread_sync (t : ControlThread) : Prop := {
  ts_agree : settled (agree (pending (control_queue_ t))) (flowgraph_ t);
  ts_ids : ids_ok (flowgraph_ t);
  ts_running : receiver_on_standby_ t = false;
  ts_queue : Forall queued_ok (control_queue_ t)
}.

Definition tsafe (c : prog ControlThread unit) : Prop := partial thread_sync c (fun _ => thread_sync).

Lemma tsafe_bind c k : tsafe c -> tsafe k -> tsafe (c;; k).
Proof. intros Hc Hk. eapply partial_bind; [exact Hc|intros ?; exact Hk]. Qed.

Lemma tsafe_ret : tsafe (ret tt).
Proof. intros t Ht. exact Ht. Qed.

Lemma tsafe_modify f : (forall t, receiver_on_standby_ t = false ->
    flowgraph_ (f t) = flowgraph_ t /\ control_queue_ (f t) = control_queue_ t /\
    receiver_on_standby_ (f t) = false) -> tsafe (modify f).
Proof.
  intros Hf t [T1 T2 T3 T4]. destruct (Hf t T3) as (E1 & E2 & E3).
  constructor; rewrite ?E1, ?E2; assumption.
Qed.

Lemma settled_lists R f g : only_lists f -> settled R g -> settled R (f g).
Proof. intros Hf (k & Hk & Hg). exists k. split; [exact Hk|now apply sync_lists]. Qed.

Lemma tsafe_on_flowgraph c : (forall R, servable R -> partial (settled R) c (fun _ => settled R)) ->
  run_inv ids_ok c -> tsafe (on_flowgraph c).
Proof.
  intros Hc Hi t [T1 T2 T3 T4]. unfold on_flowgraph.
  specialize (Hc _ (agree_servable _) _ T1). specialize (Hi _ T2).
  destruct (c (flowgraph_ t)) as [[[]|e] g]; [|exact I]. now constructor.
Qed.

Lemma tsafe_priorize visible : tsafe (on_flowgraph (modify (priorize_satellites visible))).
Proof.
  apply tsafe_on_flowgraph.
  - intros R _ g Hg. apply settled_lists; [apply only_lists_priorize_satellites|exact Hg].
  - apply ids_modify. intros g. apply priorize_satellites_channels.
Qed.

Lemma tsafe_thread_action what visible : what <> 10 -> tsafe (thread_action what visible).
Proof.
  intros H10. unfold thread_action. apply tsafe_bind; [now apply tsafe_modify|].
  repeat case_match; try congruence; try apply tsafe_ret;
    repeat (first [apply tsafe_priorize | apply tsafe_modify; intros; now repeat split | apply tsafe_bind]).
Qed.

Lemma takes_pending e q : 0 <= channel_id e ->
  takes (pending (Channel_message e :: q)) (pending q) (Z.to_nat (channel_id e)) (event_type e).
Proof.
  intros He. split.
  - unfold pending. cbn. rewrite Z2Nat.id by exact He. now rewrite Z.eqb_refl.
  - intros j Hj. unfold pending. cbn. destruct (Z.eqb_spec (channel_id e) (Z.of_nat j)); [lia|reflexivity].
Qed.

Lemma tsafe_turn visible : tsafe (turn visible).
Proof.
  intros t [T1 T2 T3 T4]. unfold turn. rewrite run_gets. cbn [id].
  destruct (control_queue_ t) as [|[e|id what] q] eqn:Eq.
  - unfold event_dispatcher. rewrite run_gets. cbn [id]. rewrite T3. cbn [negb].
    apply tsafe_on_flowgraph; [intros R HR; now apply p_manager|apply manager_ids|].
    constructor; rewrite ?Eq; assumption.
  - rewrite run_modify. unfold event_dispatcher. rewrite run_modify, run_gets. cbn [id].
    cbn [receiver_on_standby_ update]. rewrite T3. cbn [negb].
    apply Forall_cons in T4 as [He T4]. cbn in He. unfold on_flowgraph. cbn [flowgraph_ update].
    pose proof (p_action _ _ (Z.to_nat (channel_id e)) (event_type e) ltac:(lia)
      (takes_pending e q (proj1 He)) _ T1) as Ha. rewrite Z2Nat.id in Ha by lia.
    pose proof (apply_action_ids (channel_id e) (event_type e) _ T2) as Hi.
    destruct (apply_action _ _ (flowgraph_ t)) as [[[]|x] g]; [|exact I]. now constructor.
  - apply Forall_cons in T4 as [[H10 Hid] T4]. rewrite run_modify. unfold event_dispatcher.
    rewrite run_modify.
    match goal with |- match ?c ?t' with _ => _ end => enough (tsafe c) as Hs end.
    { apply Hs. constructor; try assumption. }
    destruct (Z.eqb_spec id 200) as [->|Hne]; [now apply tsafe_thread_action|].
    apply tsafe_bind.
    + destruct (id =? 300); [now apply tsafe_thread_action|apply tsafe_ret].
    + intros t' Ht'. unfold on_flowgraph. rewrite other_action by (tauto || lia).
      destruct Ht'. now constructor.
Qed.

Lemma tsafe_block_message i m : 0 <= i < Z.of_nat n -> tsafe (block_message i m).
Proof.
  intros Hi t [(k & Hk & Hs) T2 T3 T4]. unfold block_message. rewrite run_gets. cbn [id].
  destruct (sync_lookup _ _ _ _ (Z.to_nat i) Hs ltac:(lia)) as (ch & st & Ec & Es & Hst).
  replace i with (Z.of_nat (Z.to_nat i)) by lia. set (j := Z.to_nat i) in *.
  unfold bind at 1, lift. rewrite (vat_lookup _ _ _ Ec).
  pose proof (channel_message_spec m ch) as Hm. pose proof (in_step_message m st ch _ Hst) as Hstep.
  destruct (channel_message m ch) as [[r ch'] pushed]. destruct Hm as (S1 & S2 & S3).
  rewrite (T2 j ch Ec) in S3.
  assert (forall i', pending (control_queue_ t ++ map Channel_message pushed) i' =
    pending (control_queue_ t) i' ++ (if decide (i' = j) then map event_type pushed else [])) as Ep.
  { intros i'. unfold pending. rewrite omap_app. f_equal. clear - S3.
    induction S3 as [|e l He _ IH]; [now case_decide|]. cbn. rewrite He, IH.
    case_decide as E; [subst i'; now rewrite Z.eqb_refl|]. destruct (Z.eqb_spec (Z.of_nat j) (Z.of_nat i')); [lia|reflexivity]. }
  constructor.
  - exists k. split; [exact Hk|]. destruct Hs as [Q1 Q2 Q3 Q4 Q5 Q6 Q7].
    constructor; try assumption.
    + cbn. rewrite length_vset. exact Q1.
    + cbn. rewrite vset_nat. intros a c s Hc Hsa. unfold agree. rewrite Ep.
      destruct (decide (a = j)) as [->|Hne].
      * rewrite list_lookup_insert_eq in Hc by (apply lookup_lt_Some in Ec; exact Ec).
        injection Hc as <-. rewrite Es in Hsa. injection Hsa as <-. exact Hstep.
      * rewrite list_lookup_insert_ne in Hc by congruence. rewrite app_nil_r. exact (Q5 a c s Hc Hsa).
  - now apply (ids_vset (flowgraph_ t) j ch).
  - exact T3.
  - cbn. apply Forall_app. split; [exact T4|]. apply Forall_fmap. eapply Forall_impl; [exact S3|].
    intros e He. cbn. rewrite He. lia.
Qed.

(** Everything but the standby and the assistance, which begins with one. *)
Definition calm (e : receiver_event) : Prop :=
  match e with
  | Block_message i _ => 0 <= i < Z.of_nat n
  | Channel_status _ | Turn _ => True
  | Command id what => command_ok id what
  | Assist _ => False
  end.

Lemma tsafe_step e : calm e -> tsafe (receiver_step e).
Proof.
  intros He. destruct e as [i m|status|id what|visible|visible]; cbn [receiver_step].
  - now apply tsafe_block_message.
  - intros t [(k & Hk & [Q1 Q2 Q3 Q4 Q5 Q6 Q7]) T2 T3 T4]. constructor; try assumption.
    exists k. split; [exact Hk|]. now constructor.
  - intros t [T1 T2 T3 T4]. constructor; try assumption.
    + destruct T1 as (k & Hk & T1). exists k. split; [exact Hk|]. revert T1. apply sync_weaken.
      intros j st f. unfold agree, pending. cbn. rewrite omap_app. cbn. now rewrite app_nil_r.
    + apply Forall_app. split; [exact T4|]. constructor; [exact He|constructor].
  - apply tsafe_turn.
  - destruct He.
Qed.

Lemma tsafe_run es : Forall calm es -> tsafe (receiver_run es).
Proof.
  unfold receiver_run. induction 1 as [|e es He _ IH]; [apply tsafe_ret|]. cbn [iter_prog].
  apply tsafe_bind; [now apply tsafe_step|exact IH].
Qed.

End Sync.

(** ** The setup *)

Section Setup.
Context `{Configuration} `{Boost_Tokenizer}.

(** The maximum that [set_channels_state] takes. *)
Definition max_acquiring (n : Z) : Z := let max := default n in_acquisition in if n <? max then n else max.

Lemma count1_first M m : forall a,
  count1 (map (fun i => if i <? M then 1 else 0) (seqZ a (Z.of_nat m))) = Z.max 0 (Z.min (Z.of_nat m) (M - a)).
Proof.
  unfold count1. induction m as [|m IH]; intros a; [change (0 = Z.max 0 (Z.min 0 (M - a))); lia|].
  rewrite seqZ_cons by lia. replace (Z.pred (Z.of_nat (S m))) with (Z.of_nat m) by lia.
  cbn [map]. rewrite filter_cons. specialize (IH (Z.succ a)).
  destruct (Z.ltb_spec a M); case_decide; try lia; cbn [length]; lia.
Qed.

(** The machines have not started. *)
Definition not_started (channels : list Channel) : Prop :=
  forall i ch, channels !! i = Some ch -> fsm_id ch = Z.of_nat i /\ fsm_state ch = 0.

Definition before_start (j : Z) (i : nat) (st f : Z) : Prop :=
  (st = 0 /\ f = 0) \/ (st = 1 /\ f = if Z.of_nat i <? j then 1 else 0).

Lemma init_sync channels g0 : not_started channels ->
  0 <= max_acquiring (Z.of_nat (length channels)) ->
  init (new_GNSSFlowgraph channels) = (Returns tt, g0) ->
  let M := max_acquiring (Z.of_nat (length channels)) in
  sync (length channels) M (before_start 0) M M g0.
Proof.
  intros Hns HM E M. unfold init in E. set (g := new_GNSSFlowgraph channels) in E.
  pose proof (set_signals_list_same g g ltac:(repeat split)) as Hs.
  unfold bind in E. destruct (set_signals_list g) as [[[]|e] g1]; [|discriminate].
  injection E as <-. destruct Hs as (S1 & S2 & _ & S4). cbn in S1, S2, S4.
  assert (channels_state_ (set_channels_state g1) =
    map (fun i => if i <? M then 1 else 0) (seqZ 0 (Z.of_nat (length channels)))) as Est.
  { unfold set_channels_state, update. cbn. rewrite S2, S4. reflexivity. }
  constructor.
  - cbn. now rewrite S1.
  - rewrite Est, length_map, length_seqZ. lia.
  - exact S4.
  - cbn. now rewrite S4.
  - intros i ch st Ec Es. rewrite Est in Es. change (channels_ g1 !! i = Some ch) in Ec.
    rewrite S1 in Ec. destruct (Hns i ch Ec) as [_ ->]. unfold before_start.
    destruct (Z.ltb_spec (Z.of_nat i) 0); [lia|].
    change (map (fun i => if i <? M then 1 else 0) (seqZ 0 (Z.of_nat (length channels))) !! i = Some st) in Es.
    apply list_lookup_fmap_Some in Es as (x & -> & _). destruct (x <? M); auto.
  - rewrite Est, count1_first. unfold M, max_acquiring in *.
    destruct (Z.ltb_spec (Z.of_nat (length channels)) (default (Z.of_nat (length channels)) in_acquisition)); lia.
  - cbn. now rewrite S4.
Qed.

Lemma p_assign_channel n M R k c i : (i < n)%nat ->
  partial (sync n M R k c) (assign_channel (Z.of_nat i)) (fun _ => sync n M R k c).
Proof.
  intros Hi. unfold assign_channel. apply p_the_channel. intros ch. cbv zeta. destruct (_ =? 0).
  - eapply partial_bind; [apply p_search|intros f; cbn beta].
    apply p_keep_channel; [exact Hi|apply set_signal_state].
  - eapply partial_bind; [apply p_lists, only_lists_set|intros ?; cbn beta].
    apply p_keep_channel; [exact Hi|apply set_signal_state].
Qed.

Lemma p_assign n M R k c : partial (sync n M R k c) assign_channels (fun _ => sync n M R k c).
Proof.
  intros g Hg. unfold assign_channels. rewrite run_gets, run_gets. cbn [id].
  rewrite (sync_total _ _ _ _ _ _ Hg). destruct (enough_satellites g); [|exact Hg].
  revert g Hg. change (partial (sync n M R k c)
    (iter_prog (channel_order (Z.of_nat n)) assign_channel;; ret 0) (fun _ => sync n M R k c)).
  eapply partial_bind; [|intros ?; cbn beta; intros g Hg; exact Hg]. apply hoare_iter.
  intros x Hx. rewrite channel_order_perm in Hx. apply elem_of_seqZ in Hx.
  rewrite <- (Z2Nat.id x) by lia. apply p_assign_channel. lia.
Qed.

Lemma p_activate n M k c : (Z.of_nat n < 2 ^ 31) -> M <= Z.of_nat n ->
  partial (sync n M (before_start 0) k c) activate_channels
    (fun _ => sync n M (agree (fun _ => [])) k c).
Proof.
  intros Hn HM g Hg. unfold activate_channels. rewrite run_gets. rewrite (sync_total _ _ _ _ _ _ Hg).
  revert g Hg.
  eapply partial_conseq; [apply (hoare_for (fun j => sync n M (before_start j) k c)); [lia|]|auto|].
  - intros j Hj. assert (exists i, j = Z.of_nat i /\ (i < n)%nat) as (i & -> & Hi)
      by (exists (Z.to_nat j); lia).
    apply p_the_state; [lia|]. intros s.
    assert (forall g, sync n M (upd (upd (before_start (Z.of_nat i)) i
        (fun st f => st = s /\ before_start (Z.of_nat i) i st f)) i (fun st f => st = 1 /\ f = 1)) k c g ->
      sync n M (before_start (Z.of_nat i + 1)) k c g) as Hend.
    { intros g. apply sync_weaken. intros a st f. unfold upd. case_decide as E.
      - subst a. intros [-> ->]. right. destruct (Z.ltb_spec (Z.of_nat i) (Z.of_nat i + 1)); [auto|lia].
      - unfold before_start. destruct (Z.ltb_spec (Z.of_nat a) (Z.of_nat i)), (Z.ltb_spec (Z.of_nat a) (Z.of_nat i + 1)); auto; lia. }
    destruct (Z.eqb_spec s 1) as [->|Hs].
    + eapply partial_conseq; [apply (p_start n M (upd (before_start (Z.of_nat i)) i
        (fun st f => st = 1 /\ before_start (Z.of_nat i) i st f)) k c i (fun st f => st = 1 /\ f = 1)); [lia|]
        |intros g Hg; exact Hg|].
      * intros st f. unfold upd. rewrite decide_True by reflexivity. intros [-> [[? _]|[_ ->]]]; [lia|].
        rewrite Z.ltb_irrefl. auto.
      * intros ? g. apply Hend.
    + intros g Hg. revert Hg. apply sync_weaken. intros a st f. unfold upd. case_decide as E.
      * subst a. intros [-> [[-> ->]|[-> _]]]; [now left|contradiction].
      * unfold before_start. destruct (Z.ltb_spec (Z.of_nat a) (Z.of_nat i)), (Z.ltb_spec (Z.of_nat a) (Z.of_nat i + 1)); auto; lia.
  - intros ? g Hg. pose proof (sync_channels _ _ _ _ _ _ Hg) as L1.
    destruct Hg as [Q1 Q2 Q3 Q4 Q5 Q6 Q7]. constructor; try assumption.
    intros i ch st Ec Es. pose proof (lookup_lt_Some _ _ _ Ec). unfold agree.
    destruct (Q5 i ch st Ec Es) as [[-> ->]|[-> ->]]; [constructor|].
    destruct (Z.ltb_spec (Z.of_nat i) (Z.of_nat n)); [constructor|lia].
Qed.

Lemma setup_sync channels g : not_started channels -> Z.of_nat (length channels) < 2 ^ 31 ->
  0 <= max_acquiring (Z.of_nat (length channels)) ->
  setup (new_GNSSFlowgraph channels) = (Returns 0, g) ->
  let M := max_acquiring (Z.of_nat (length channels)) in
  M <= Z.of_nat (length channels) /\ ids_ok g /\
  settled (length channels) M (agree (fun _ => [])) g.
Proof.
  intros Hns Hn HM Es M.
  assert (M <= Z.of_nat (length channels)) as HMn.
  { unfold M, max_acquiring. destruct (Z.ltb_spec (Z.of_nat (length channels))
      (default (Z.of_nat (length channels)) in_acquisition)); lia. }
  split; [exact HMn|]. split.
  { pose proof (setup_ids (new_GNSSFlowgraph channels)) as Hi. rewrite Es in Hi. apply Hi.
    intros i ch Ec. apply (Hns i ch Ec). }
  unfold setup in Es. destruct (init (new_GNSSFlowgraph channels)) as [[[]|e] g0] eqn:Ei;
    [|unfold bind in Es; rewrite Ei in Es; discriminate].
  rewrite (bind_returns _ _ _ _ _ Ei) in Es.
  pose proof (init_sync channels g0 Hns HM Ei) as I0. cbv zeta in I0. fold M in I0.
  pose proof (p_assign _ _ _ _ _ g0 I0) as I1.
  destruct (assign_channels g0) as [[r|e] g1] eqn:E1; [|unfold bind in Es; rewrite E1 in Es; discriminate].
  rewrite (bind_returns _ _ _ _ _ E1) in Es. destruct (Z.eqb_spec r 0) as [->|Hr]; [|injection Es; congruence].
  pose proof (p_activate _ _ _ _ Hn HMn g1 I1) as I2. unfold bind in Es.
  destruct (activate_channels g1) as [[[]|e] g2]; [|discriminate]. injection Es as <-.
  exists M. split; [lia|exact I2].
Qed.

(** C10: as long as the receiver is not put on standby, the state that the flow graph
    keeps for a channel is the one its state machine is in, with the events of the
    channel that are still in the control queue taken into account: every event
    that is dispatched meets the state it was sent for. *)
Theorem events_match_states channels g es t i ch st :
  not_started channels -> Z.of_nat (length channels) < 2 ^ 31 ->
  0 <= max_acquiring (Z.of_nat (length channels)) ->
  setup (new_GNSSFlowgraph channels) = (Returns 0, g) ->
  Forall (calm (length channels)) es ->
  receiver_run es (new_ControlThread g) = (Returns tt, t) ->
  channels_ (flowgraph_ t) !! i = Some ch -> channels_state_ (flowgraph_ t) !! i = Some st ->
  in_step st (state_ (channel_fsm_ ch)) (pending (control_queue_ t) i).
Proof.
  intros Hns Hn HM Es Hes Er Ec Est. destruct (setup_sync _ _ Hns Hn HM Es) as (HMn & Hids & Hs).
  assert (thread_sync (length channels) (max_acquiring (Z.of_nat (length channels))) (new_ControlThread g))
    as Ht by (constructor; auto).
  pose proof (tsafe_run _ _ Hn HMn es Hes _ Ht) as Hr. rewrite Er in Hr.
  destruct (ts_agree _ _ _ Hr) as (k & _ & Hk). exact (sync_agree _ _ _ _ _ _ Hk i ch st Ec Est).
Qed.


End Setup.

(** ** The example receiver *)

Module Example_sync.
Import Example_receiver.
#[local] Existing Instance configuration.
#[local] Existing Instance tokenizer.

Lemma channels_not_started : not_started channels.
Proof. intros [|[|[|i]]] ch; cbn; intros [= <-]; split; reflexivity. Qed.

Lemma events_calm : Forall (calm (length channels)) events.
Proof. repeat (apply Forall_cons; split); try (cbn; lia); try exact I. apply Forall_nil_2. Qed.

(** Channel 1, whose second acquisition is still running. *)
Lemma events_match_states_witness : exists ch st,
  channels_ (flowgraph_ after_events) !! 1%nat = Some ch /\
  channels_state_ (flowgraph_ after_events) !! 1%nat = Some st /\
  in_step st (state_ (channel_fsm_ ch)) (pending (control_queue_ after_events) 1).
Proof.
  destruct (channels_ (flowgraph_ after_events) !! 1%nat) as [ch|] eqn:Ec; [|exfalso; revert Ec; vm_compute; discriminate].
  destruct (channels_state_ (flowgraph_ after_events) !! 1%nat) as [st|] eqn:Es; [|exfalso; revert Es; vm_compute; discriminate].
  exists ch, st. split; [reflexivity|]. split; [reflexivity|].
  refine (events_match_states channels after_setup events after_events 1 ch st channels_not_started
    _ _ setup_returns events_calm run_returns Ec Es); vm_compute; congruence.
Defined.


(** An event that is in the queue when [assist_GNSS] stops the channels is taken
    for an event of the stopped channel: channel 0 is then tracking for the flow
    graph and idle for its machine, no event of it is on its way, and its
    satellite is in no list.  Turns of the main loop do not change that. *)
Definition stale_events : list receiver_event :=
  [Block_message 0 1; Assist []; Turn []; Turn []; Turn []].

Lemma stale_event_strands_channel :
  let t := (receiver_run stale_events (new_ControlThread after_setup)).2 in
  map (fun p => (p.1, fsm_state p.2)) (zip (channels_state_ (flowgraph_ t)) (channels_ (flowgraph_ t)))
    = [(2, 0); (1, 1); (0, 0)] /\
  control_queue_ t = [] /\
  forallb (fun s => negb (signal_eqb s E01)) (available_signals (flowgraph_ t) evGAL_1B) = true.
Proof. vm_compute. repeat split. Qed.

End Example_sync.
