(* ===== verification/ReceiverLive.v ===== *)
(** * ReceiverLive: no channel is left idle without a reason

    A turn of the main loop with nothing in the queue runs the acquisition manager
    over all channels.  Afterwards all the acquisitions that may run at a time are
    running, or a channel is idle only because its secondary signal waits for the
    primary signal of a satellite to be tracked. *)

From S2P Require Import Prelude Cstring Float64 GnssSignal ChannelFsm Flowgraph FlowgraphProofs ControlThread ReceiverProofs ReceiverSync.
From stdpp Require Import list strings.
From Stdlib Require Import ZArith Lia Ascii.
Local Open Scope Z_scope.
Local Open Scope cxx_scope.

Section Live.
Context `{Configuration} (n : nat) (M : Z) (Hn : Z.of_nat n < 2 ^ 31) (HM : M <= Z.of_nat n).
Context (bands : nat -> StringValue) (Sats : StringValue -> list (cstring * Z * Z))
  (Henough : forall i, (i < n)%nat -> enough n bands Sats (bands i)).

(** A channel that may wait for the primary signal of a satellite. *)
Definition waits (i : nat) : Prop :=
  ~ primary (bands i) /\ assist_dual = true /\ fixed_satellite (Z.of_nat i) = 0.

#[local] Instance primary_dec b : Decision (primary b).
Proof. unfold primary. apply _. Defined.

Lemma ready_or_waits A g i ch : channels_ok n bands A g -> channels_ g !! i = Some ch ->
  ready i ch \/ waits i.
Proof.
  intros K Ec. destruct (ok_band _ _ _ _ K i ch Ec) as [B _]. unfold ready, waits. rewrite B.
  destruct (decide (primary (bands i))); [tauto|].
  destruct (assist_dual); [|tauto]. destruct (decide (fixed_satellite (Z.of_nat i) = 0)); tauto.
Qed.

(** The channels of [J] have been served. *)
Definition after (R : nat -> Z -> Z -> Prop) (J : list nat) : nat -> Z -> Z -> Prop :=
  fun i st f => R i st f /\ (i ∈ J -> st <> 0 \/ waits i).

Lemma after_servable R J : servable R -> servable (after R J).
Proof.
  intros HR i f [Hf Hj]. destruct (HR i f Hf) as [? ?]. split; [assumption|].
  split; [assumption|]. intros _. left. lia.
Qed.

Lemma served_after R J i g : settled n M (served (after R J) (waits i) i) g -> settled n M (after R (i :: J)) g.
Proof.
  intros (k & Hk & Hg). exists k. split; [exact Hk|]. revert Hg. apply sync_weaken.
  intros j st f. unfold served, upd, after. case_decide as E.
  - subst j. intros [[? ?] ?]. auto.
  - intros [? ?]. split; [assumption|]. intros [?|?]%elem_of_cons; [contradiction|auto].
Qed.

(** The flow graph with its invariants. *)
Definition flow_ok (g : GNSSFlowgraph) : Prop :=
  channels_ok n bands (fun _ => True) g /\ held bands Sats [] g.

Definition full (R : nat -> Z -> Z -> Prop) (g : GNSSFlowgraph) : Prop :=
  settled n M R g /\ acq_channels_count_ g = M.

Lemma manage_keeps i g : (i < n)%nat -> flow_ok g ->
  exists g', manage_channel (Z.of_nat i) g = (Returns tt, g') /\ flow_ok g'.
Proof.
  intros Hi [K Hh]. destruct (manage_spec n bands Sats Henough [] i Hi ltac:(cbn; lia) g K Hh)
    as (g' & E & K' & H'). exists g'. split; [exact E|now split].
Qed.

Lemma manage_full R i g : full R g -> (i < n)%nat -> manage_channel (Z.of_nat i) g = (Returns tt, g).
Proof.
  intros [(k & _ & Hg) Hc] Hi. unfold manage_channel. rewrite run_gets. cbn [id].
  rewrite Hc, (sync_max _ _ _ _ _ _ Hg), Z.ltb_irrefl. reflexivity.
Qed.

Lemma manage_all R l : servable R -> Forall (fun x => 0 <= x < Z.of_nat n) l -> forall J g,
  flow_ok g -> settled n M (after R J) g \/ full R g ->
  exists g', iter_prog l manage_channel g = (Returns tt, g') /\ flow_ok g' /\
    (settled n M (after R (rev (map Z.to_nat l) ++ J)) g' \/ full R g').
Proof.
  intros HR. induction 1 as [|x l Hx _ IH]; intros J g Hf Hg; [exists g; auto|].
  destruct (manage_keeps (Z.to_nat x) g ltac:(lia) Hf) as (g1 & E & Hf1).
  assert (settled n M (after R (Z.to_nat x :: J)) g1 \/ full R g1) as Hg1.
  { destruct Hg as [Hg|Hg].
    - pose proof (p_manage_served n M Hn HM (after R J) (Z.to_nat x) (waits (Z.to_nat x)) g ltac:(lia)
        (after_servable R J HR) (fun ch => ready_or_waits _ g _ ch (proj1 Hf)) Hg) as Hs.
      rewrite E in Hs. destruct Hs as [Hs|[(k & Hk & Hs) Hc]]; [left; now apply served_after|right].
      split; [|exact Hc]. exists k. split; [exact Hk|]. revert Hs. apply sync_weaken. now intros j st f [? _].
    - right. rewrite (manage_full R) in E by (assumption || lia). now injection E as <-. }
  rewrite Z2Nat.id in E by lia. cbn [iter_prog map rev]. rewrite (bind_returns _ _ _ _ _ E).
  rewrite <- app_assoc. exact (IH (Z.to_nat x :: J) g1 Hf1 Hg1).
Qed.

(** The manager visits every channel. *)
Lemma manager_visits who i : 0 <= who -> who + Z.of_nat n < 2 ^ 32 -> (i < n)%nat ->
  i ∈ map Z.to_nat (map (fun x => u32 (x + who + 1) mod Z.of_nat n) (seqZ 0 (Z.of_nat n))).
Proof.
  intros Hw Hs Hi. apply list_elem_of_fmap. exists (Z.of_nat i). split; [lia|].
  apply list_elem_of_fmap. exists ((Z.of_nat i - who - 1) mod Z.of_nat n).
  pose proof (Z.mod_pos_bound (Z.of_nat i - who - 1) (Z.of_nat n) ltac:(lia)) as Hb.
  split; [|apply elem_of_seqZ; lia]. rewrite wrap_small by lia.
  rewrite <- (Z.mod_small (Z.of_nat i) (Z.of_nat n)) at 1 by lia.
  replace (Z.of_nat i) with (Z.of_nat i - who - 1 + (who + 1)) at 1 by lia.
  rewrite <- Z.add_assoc. now rewrite Zplus_mod_idemp_l.
Qed.

Lemma iter_prog_map {S A B} (h : A -> B) l (f : B -> prog S unit) s :
  iter_prog l (fun x => f (h x)) s = iter_prog (map h l) f s.
Proof.
  revert s. induction l as [|x l IH]; intros s; [reflexivity|]. cbn [iter_prog map]. unfold bind.
  destruct (f (h x) s) as [[[]|e] s']; [apply IH|reflexivity].
Qed.

Lemma manager_serves R who g : servable R -> 0 <= who -> who + Z.of_nat n < 2 ^ 32 ->
  flow_ok g -> settled n M R g ->
  exists g', acquisition_manager who g = (Returns tt, g') /\ flow_ok g' /\ settled n M R g' /\
    (acq_channels_count_ g' = max_acq_channels_ g' \/
     forall i st, channels_state_ g' !! i = Some st -> st <> 0 \/ waits i).
Proof.
  intros HR Hw Hs Hf Hg. unfold acquisition_manager. rewrite run_gets.
  rewrite (ok_count _ _ _ _ (proj1 Hf)). unfold for_prog. rewrite Z.sub_0_r.
  rewrite (iter_prog_map (fun x => u32 (x + who + 1) mod Z.of_nat n) _ manage_channel).
  set (l := map _ (seqZ 0 (Z.of_nat n))).
  destruct (manage_all R l HR) with (J := @nil nat) (g := g) as (g' & E & Hf' & Hg'); [|exact Hf| |].
  - apply Forall_fmap, Forall_forall. intros x Hx. apply elem_of_seqZ in Hx. cbn.
    apply Z.mod_pos_bound. lia.
  - left. destruct Hg as (k & Hk & Hg). exists k. split; [exact Hk|]. revert Hg. apply sync_weaken.
    intros j st f HRj. split; [exact HRj|]. intros Hj. now apply elem_of_nil in Hj.
  - exists g'. split; [exact E|]. split; [exact Hf'|]. destruct Hg' as [(k & Hk & Hs')|[Hs' Hc]].
    + split.
      { exists k. split; [exact Hk|]. revert Hs'. apply sync_weaken. now intros j st f [? _]. }
      right. intros i st Est.
      assert (i < n)%nat as Hi by (apply lookup_lt_Some in Est; now rewrite (sync_states _ _ _ _ _ _ Hs') in Est).
      destruct (sync_lookup _ _ _ _ _ _ i Hs' Hi) as (ch & st' & _ & Est' & _ & Hst).
      rewrite Est in Est'. injection Est' as <-. apply Hst. rewrite app_nil_r.
      apply list_elem_of_In. rewrite <- in_rev. apply list_elem_of_In. now apply manager_visits.
    + split; [exact Hs'|]. left. destruct Hs' as (k & _ & Hs'). now rewrite Hc, (sync_max _ _ _ _ _ _ Hs').
Qed.

End Live.


Module Example_live.
Import Example_receiver Example_sync.
#[local] Existing Instance configuration.
#[local] Existing Instance tokenizer.


End Example_live.
