(* ===== verification/GpsTables.v ===== *)
(** * GpsTables: the layout of the GPS L1 C/A navigation message

    [src/src/core/system_parameters/GPS_L1_CA.h]: the constants of the
    demodulation and the bit fields of the five subframes, with their scale
    factors. *)

From S2P Require Import Prelude Cstring Float64 MathConstants InavTables.
From stdpp Require Import list strings.
From Stdlib Require Import ZArith Lia.
Local Open Scope Z_scope.

Definition GPS_L1_CA_BIT_PERIOD_MS : Z := 20.
Definition GPS_CA_PREAMBLE_LENGTH_BITS : Z := 8.
Definition GPS_WORD_LENGTH : Z := 4.
Definition GPS_SUBFRAME_LENGTH : Z := 40.
Definition GPS_SUBFRAME_BITS : Z := 300.
Definition GPS_WORD_BITS : Z := 30.
Definition GPS_CA_PREAMBLE : cstring := str "10001011".

(** SUBFRAME 1-5 (TLM and HOW) *)
Definition TOW : bit_field := [(31, 17)].
Definition INTEGRITY_STATUS_FLAG : bit_field := [(23, 1)].
Definition ALERT_FLAG : bit_field := [(48, 1)].
Definition ANTI_SPOOFING_FLAG : bit_field := [(49, 1)].
Definition SUBFRAME_ID : bit_field := [(50, 3)].

(** SUBFRAME 1 *)
Definition GPS_WEEK : bit_field := [(61, 10)].
Definition CA_OR_P_ON_L2 : bit_field := [(71, 2)].
Definition SV_ACCURACY : bit_field := [(73, 4)].
Definition SV_HEALTH : bit_field := [(77, 6)].
Definition L2_P_DATA_FLAG : bit_field := [(91, 1)].
Definition T_GD : bit_field := [(197, 8)].
Definition T_GD_LSB : double := TWO_N31.
Definition IODC : bit_field := [(83, 2); (211, 8)].
Definition T_OC : bit_field := [(219, 16)].
Definition T_OC_LSB : Z := trunc_Z TWO_P4.
Definition A_F2 : bit_field := [(241, 8)].
Definition A_F2_LSB : double := TWO_N55.
Definition A_F1 : bit_field := [(249, 16)].
Definition A_F1_LSB : double := TWO_N43.
Definition A_F0 : bit_field := [(271, 22)].
Definition A_F0_LSB : double := TWO_N31.

(** SUBFRAME 2 *)
Definition IODE_SF2 : bit_field := [(61, 8)].
Definition C_RS : bit_field := [(69, 16)].
Definition C_RS_LSB : double := TWO_N5.
Definition DELTA_N : bit_field := [(91, 16)].
Definition DELTA_N_LSB : double := PI_TWO_N43.
Definition M_0 : bit_field := [(107, 8); (121, 24)].
Definition M_0_LSB : double := PI_TWO_N31.
Definition C_UC : bit_field := [(151, 16)].
Definition C_UC_LSB : double := TWO_N29.
Definition ECCENTRICITY : bit_field := [(167, 8); (181, 24)].
Definition ECCENTRICITY_LSB : double := TWO_N33.
Definition C_US : bit_field := [(211, 16)].
Definition C_US_LSB : double := TWO_N29.
Definition SQRT_A : bit_field := [(227, 8); (241, 24)].
Definition SQRT_A_LSB : double := TWO_N19.
Definition T_OE : bit_field := [(271, 16)].
Definition T_OE_LSB : Z := trunc_Z TWO_P4.
Definition FIT_INTERVAL_FLAG : bit_field := [(271, 1)].
Definition AODO : bit_field := [(272, 5)].
Definition AODO_LSB : Z := 900.

(** SUBFRAME 3 *)
Definition C_IC : bit_field := [(61, 16)].
Definition C_IC_LSB : double := TWO_N29.
Definition OMEGA_0 : bit_field := [(77, 8); (91, 24)].
Definition OMEGA_0_LSB : double := PI_TWO_N31.
Definition C_IS : bit_field := [(121, 16)].
Definition C_IS_LSB : double := TWO_N29.
Definition I_0 : bit_field := [(137, 8); (151, 24)].
Definition I_0_LSB : double := PI_TWO_N31.
Definition C_RC : bit_field := [(181, 16)].
Definition C_RC_LSB : double := TWO_N5.
Definition OMEGA : bit_field := [(197, 8); (211, 24)].
Definition OMEGA_LSB : double := PI_TWO_N31.
Definition OMEGA_DOT : bit_field := [(241, 24)].
Definition OMEGA_DOT_LSB : double := PI_TWO_N43.
Definition IODE_SF3 : bit_field := [(271, 8)].
Definition I_DOT : bit_field := [(279, 14)].
Definition I_DOT_LSB : double := PI_TWO_N43.

(** SUBFRAME 4-5 *)
Definition SV_DATA_ID : bit_field := [(61, 2)].
Definition SV_PAGE : bit_field := [(63, 6)].

(** SUBFRAME 4 *)

(** Page 18 - Ionospheric and UTC data *)
Definition ALPHA_0 : bit_field := [(69, 8)].
Definition ALPHA_0_LSB : double := TWO_N30.
Definition ALPHA_1 : bit_field := [(77, 8)].
Definition ALPHA_1_LSB : double := TWO_N27.
Definition ALPHA_2 : bit_field := [(91, 8)].
Definition ALPHA_2_LSB : double := TWO_N24.
Definition ALPHA_3 : bit_field := [(99, 8)].
Definition ALPHA_3_LSB : double := TWO_N24.
Definition BETA_0 : bit_field := [(107, 8)].
Definition BETA_0_LSB : double := TWO_P11.
Definition BETA_1 : bit_field := [(121, 8)].
Definition BETA_1_LSB : double := TWO_P14.
Definition BETA_2 : bit_field := [(129, 8)].
Definition BETA_2_LSB : double := TWO_P16.
Definition BETA_3 : bit_field := [(137, 8)].
Definition BETA_3_LSB : double := TWO_P16.
Definition A_1 : bit_field := [(151, 24)].
Definition A_1_LSB : double := TWO_N50.
Definition A_0 : bit_field := [(181, 24); (211, 8)].
Definition A_0_LSB : double := TWO_N30.
Definition T_OT : bit_field := [(219, 8)].
Definition T_OT_LSB : double := TWO_P12.
Definition WN_T : bit_field := [(227, 8)].
Definition WN_T_LSB : double := double_of_Z 1.
Definition DELTAT_LS : bit_field := [(241, 8)].
Definition DELTAT_LS_LSB : double := double_of_Z 1.
Definition WN_LSF : bit_field := [(249, 8)].
Definition WN_LSF_LSB : double := double_of_Z 1.
Definition DN : bit_field := [(257, 8)].
Definition DN_LSB : double := double_of_Z 1.
Definition DELTAT_LSF : bit_field := [(271, 8)].
Definition DELTAT_LSF_LSB : double := double_of_Z 1.

(** Page 25 - Antispoofing, SV config and SV health (PRN 25 -32) *)
Definition HEALTH_SV25 : bit_field := [(229, 6)].
Definition HEALTH_SV26 : bit_field := [(241, 6)].
Definition HEALTH_SV27 : bit_field := [(247, 6)].
Definition HEALTH_SV28 : bit_field := [(253, 6)].
Definition HEALTH_SV29 : bit_field := [(259, 6)].
Definition HEALTH_SV30 : bit_field := [(271, 6)].
Definition HEALTH_SV31 : bit_field := [(277, 6)].
Definition HEALTH_SV32 : bit_field := [(283, 6)].

(** SUBFRAME 5 *)

(** page 25 - Health (PRN 1 - 24) *)
Definition T_OA : bit_field := [(69, 8)].
Definition T_OA_LSB : Z := trunc_Z TWO_P12.
Definition WN_A : bit_field := [(77, 8)].
Definition HEALTH_SV1 : bit_field := [(91, 6)].
Definition HEALTH_SV2 : bit_field := [(97, 6)].
Definition HEALTH_SV3 : bit_field := [(103, 6)].
Definition HEALTH_SV4 : bit_field := [(109, 6)].
Definition HEALTH_SV5 : bit_field := [(121, 6)].
Definition HEALTH_SV6 : bit_field := [(127, 6)].
Definition HEALTH_SV7 : bit_field := [(133, 6)].
Definition HEALTH_SV8 : bit_field := [(139, 6)].
Definition HEALTH_SV9 : bit_field := [(151, 6)].
Definition HEALTH_SV10 : bit_field := [(157, 6)].
Definition HEALTH_SV11 : bit_field := [(163, 6)].
Definition HEALTH_SV12 : bit_field := [(169, 6)].
Definition HEALTH_SV13 : bit_field := [(181, 6)].
Definition HEALTH_SV14 : bit_field := [(187, 6)].
Definition HEALTH_SV15 : bit_field := [(193, 6)].
Definition HEALTH_SV16 : bit_field := [(199, 6)].
Definition HEALTH_SV17 : bit_field := [(211, 6)].
Definition HEALTH_SV18 : bit_field := [(217, 6)].
Definition HEALTH_SV19 : bit_field := [(223, 6)].
Definition HEALTH_SV20 : bit_field := [(229, 6)].
Definition HEALTH_SV21 : bit_field := [(241, 6)].
Definition HEALTH_SV22 : bit_field := [(247, 6)].
Definition HEALTH_SV23 : bit_field := [(253, 6)].
Definition HEALTH_SV24 : bit_field := [(259, 6)].
