(* ===== verification/GpsMessage.v ===== *)
(** * GpsMessage: the GPS L1 C/A navigation message decoder

    [class Gps_Navigation_Message] of
    [src/src/core/system_parameters/gps_navigation_message.{h,cc}]: the bit
    readers, the five subframes, the validation of an ephemeris set and the
    getters, with the classes they fill ([gps_ephemeris.h], [gps_iono.h],
    [gps_utc_model.h]).  The members that one subframe fills are grouped in a
    record of their own.  Left out: [satelliteBlock], which nothing reads, and
    [utc_time], which nothing calls. *)

From S2P Require Import Prelude Cstring Float64 MathConstants InavTables InavWords GpsTables.
From stdpp Require Import gmap list strings.
From Stdlib Require Import ZArith Lia.
Local Open Scope Z_scope.

(** ** The data classes *)

(** [class Gps_Ephemeris : public Gnss_Ephemeris]: the members that
    [get_ephemeris] fills. *)
Module Gps_Ephemeris.
Record t := mk {
  PRN : Z; tow : Z;
  Crs : double; delta_n : double; M_0 : double;
  Cuc : double; ecc : double; Cus : double; sqrtA : double;
  toe : Z; toc : Z;
  Cic : double; OMEGA_0 : double; Cis : double; i_0 : double;
  Crc : double; omega : double; OMEGAdot : double; idot : double;
  code_on_L2 : Z; WN : Z; L2_P_data_flag : bool;
  SV_accuracy : Z; SV_health : Z; TGD : double;
  IODC : Z; IODE_SF2 : Z; IODE_SF3 : Z; AODO : Z;
  fit_interval_flag : bool;
  spare1 : double; spare2 : double;
  af0 : double; af1 : double; af2 : double;
  integrity_status_flag : bool; alert_flag : bool; antispoofing_flag : bool
}.
End Gps_Ephemeris.

(** [class Gps_Iono]. *)
Module Gps_Iono.
Record t := mk {
  alpha0 : double; alpha1 : double; alpha2 : double; alpha3 : double;
  beta0 : double; beta1 : double; beta2 : double; beta3 : double;
  valid : bool
}.
End Gps_Iono.

(** [class Gps_Utc_Model]; [A2] belongs to the CNAV message. *)
Module Gps_Utc_Model.
Record t := mk {
  A0 : double; A1 : double; A2 : double;
  tot : Z; WN_T : Z; DeltaT_LS : Z; WN_LSF : Z; DN : Z; DeltaT_LSF : Z;
  valid : bool
}.
End Gps_Utc_Model.

(** ** The readers *)

Definition gps_read_bool (bits : bitset) (parameter : bit_field) : bool :=
  vget false bits (GPS_SUBFRAME_BITS - first_bit parameter).

Definition gps_read_unsigned (bits : bitset) (parameter : bit_field) : Z :=
  for_slices parameter
    (fun first j value =>
       let value := u64 (Z.shiftl value 1) in
       if vget false bits (GPS_SUBFRAME_BITS - first - j) then u64 (value + 1) else value)
    0.

Definition gps_read_signed (bits : bitset) (parameter : bit_field) : Z :=
  let sign := if vget false bits (GPS_SUBFRAME_BITS - first_bit parameter) then -1 else 0 in
  for_slices parameter
    (fun first j value =>
       let value := shift_signed value in
       if vget false bits (GPS_SUBFRAME_BITS - first - j) then i64 (value + 1) else value)
    sign.

(** ** Subframes *)

(** Subframe 1: the week, the health and the clock. *)
Record Subframe1 := mkSubframe1 {
  i_GPS_week : Z;
  i_SV_accuracy : Z;
  i_SV_health : Z;
  b_L2_P_data_flag : bool;
  i_code_on_L2 : Z;
  d_TGD : double;
  d_IODC : Z;
  d_Toc : Z;
  d_A_f0 : double;
  d_A_f1 : double;
  d_A_f2 : double
}.
Definition new_Subframe1 : Subframe1 := mkSubframe1 0 0 0 false 0 dzero 0 0 dzero dzero dzero.
Definition read_subframe_1 (subframe_bits : bitset) : Subframe1 := {|
  i_GPS_week := i32 (gps_read_unsigned subframe_bits GPS_WEEK);
  i_SV_accuracy := i32 (gps_read_unsigned subframe_bits SV_ACCURACY);
  i_SV_health := i32 (gps_read_unsigned subframe_bits SV_HEALTH);
  b_L2_P_data_flag := gps_read_bool subframe_bits L2_P_DATA_FLAG;
  i_code_on_L2 := i32 (gps_read_unsigned subframe_bits CA_OR_P_ON_L2);
  d_TGD := dmul (double_of_Z (gps_read_signed subframe_bits T_GD)) T_GD_LSB;
  d_IODC := i32 (gps_read_unsigned subframe_bits IODC);
  d_Toc := i32 (i32 (gps_read_unsigned subframe_bits T_OC) * T_OC_LSB);
  d_A_f0 := dmul (double_of_Z (gps_read_signed subframe_bits A_F0)) A_F0_LSB;
  d_A_f1 := dmul (double_of_Z (gps_read_signed subframe_bits A_F1)) A_F1_LSB;
  d_A_f2 := dmul (double_of_Z (gps_read_signed subframe_bits A_F2)) A_F2_LSB
|}.

(** Subframe 2: the ephemeris, first part. *)
Record Subframe2 := mkSubframe2 {
  d_IODE_SF2 : Z;
  d_Crs : double;
  d_Delta_n : double;
  d_M_0 : double;
  d_Cuc : double;
  d_e_eccentricity : double;
  d_Cus : double;
  d_sqrt_A : double;
  d_Toe : Z;
  b_fit_interval_flag : bool;
  i_AODO : Z
}.
Definition new_Subframe2 : Subframe2 := mkSubframe2 0 dzero dzero dzero dzero dzero dzero dzero
    0 false 0.
Definition read_subframe_2 (subframe_bits : bitset) : Subframe2 := {|
  d_IODE_SF2 := i32 (gps_read_unsigned subframe_bits IODE_SF2);
  d_Crs := dmul (double_of_Z (gps_read_signed subframe_bits C_RS)) C_RS_LSB;
  d_Delta_n := dmul (double_of_Z (gps_read_signed subframe_bits DELTA_N)) DELTA_N_LSB;
  d_M_0 := dmul (double_of_Z (gps_read_signed subframe_bits M_0)) M_0_LSB;
  d_Cuc := dmul (double_of_Z (gps_read_signed subframe_bits C_UC)) C_UC_LSB;
  d_e_eccentricity := dmul (double_of_Z (gps_read_unsigned subframe_bits ECCENTRICITY)) ECCENTRICITY_LSB;
  d_Cus := dmul (double_of_Z (gps_read_signed subframe_bits C_US)) C_US_LSB;
  d_sqrt_A := dmul (double_of_Z (gps_read_unsigned subframe_bits SQRT_A)) SQRT_A_LSB;
  d_Toe := i32 (i32 (gps_read_unsigned subframe_bits T_OE) * T_OE_LSB);
  b_fit_interval_flag := gps_read_bool subframe_bits FIT_INTERVAL_FLAG;
  i_AODO := i32 (i32 (gps_read_unsigned subframe_bits AODO) * AODO_LSB)
|}.

(** Subframe 3: the ephemeris, second part. *)
Record Subframe3 := mkSubframe3 {
  d_Cic : double;
  d_OMEGA0 : double;
  d_Cis : double;
  d_i_0 : double;
  d_Crc : double;
  d_OMEGA : double;
  d_OMEGA_DOT : double;
  d_IODE_SF3 : Z;
  d_IDOT : double
}.
Definition new_Subframe3 : Subframe3 := mkSubframe3 dzero dzero dzero dzero dzero dzero dzero 0
    dzero.
Definition read_subframe_3 (subframe_bits : bitset) : Subframe3 := {|
  d_Cic := dmul (double_of_Z (gps_read_signed subframe_bits C_IC)) C_IC_LSB;
  d_OMEGA0 := dmul (double_of_Z (gps_read_signed subframe_bits OMEGA_0)) OMEGA_0_LSB;
  d_Cis := dmul (double_of_Z (gps_read_signed subframe_bits C_IS)) C_IS_LSB;
  d_i_0 := dmul (double_of_Z (gps_read_signed subframe_bits I_0)) I_0_LSB;
  d_Crc := dmul (double_of_Z (gps_read_signed subframe_bits C_RC)) C_RC_LSB;
  d_OMEGA := dmul (double_of_Z (gps_read_signed subframe_bits OMEGA)) OMEGA_LSB;
  d_OMEGA_DOT := dmul (double_of_Z (gps_read_signed subframe_bits OMEGA_DOT)) OMEGA_DOT_LSB;
  d_IODE_SF3 := i32 (gps_read_unsigned subframe_bits IODE_SF3);
  d_IDOT := dmul (double_of_Z (gps_read_signed subframe_bits I_DOT)) I_DOT_LSB
|}.

(** Page 18 of subframe 4: the ionosphere and UTC. *)
Record Page18 := mkPage18 {
  d_alpha0 : double;
  d_alpha1 : double;
  d_alpha2 : double;
  d_alpha3 : double;
  d_beta0 : double;
  d_beta1 : double;
  d_beta2 : double;
  d_beta3 : double;
  d_A1 : double;
  d_A0 : double;
  d_t_OT : Z;
  i_WN_T : Z;
  d_DeltaT_LS : Z;
  i_WN_LSF : Z;
  i_DN : Z;
  d_DeltaT_LSF : Z
}.
Definition new_Page18 : Page18 := mkPage18 dzero dzero dzero dzero dzero dzero dzero dzero dzero
    dzero 0 0 0 0 0 0.
Definition read_page_18 (subframe_bits : bitset) : Page18 := {|
  d_alpha0 := dmul (double_of_Z (gps_read_signed subframe_bits ALPHA_0)) ALPHA_0_LSB;
  d_alpha1 := dmul (double_of_Z (gps_read_signed subframe_bits ALPHA_1)) ALPHA_1_LSB;
  d_alpha2 := dmul (double_of_Z (gps_read_signed subframe_bits ALPHA_2)) ALPHA_2_LSB;
  d_alpha3 := dmul (double_of_Z (gps_read_signed subframe_bits ALPHA_3)) ALPHA_3_LSB;
  d_beta0 := dmul (double_of_Z (gps_read_signed subframe_bits BETA_0)) BETA_0_LSB;
  d_beta1 := dmul (double_of_Z (gps_read_signed subframe_bits BETA_1)) BETA_1_LSB;
  d_beta2 := dmul (double_of_Z (gps_read_signed subframe_bits BETA_2)) BETA_2_LSB;
  d_beta3 := dmul (double_of_Z (gps_read_signed subframe_bits BETA_3)) BETA_3_LSB;
  d_A1 := dmul (double_of_Z (gps_read_signed subframe_bits A_1)) A_1_LSB;
  d_A0 := dmul (double_of_Z (gps_read_signed subframe_bits A_0)) A_0_LSB;
  d_t_OT := trunc_Z (dmul (double_of_Z (i32 (gps_read_unsigned subframe_bits T_OT))) T_OT_LSB);
  i_WN_T := i32 (gps_read_unsigned subframe_bits WN_T);
  d_DeltaT_LS := i32 (gps_read_signed subframe_bits DELTAT_LS);
  i_WN_LSF := i32 (gps_read_unsigned subframe_bits WN_LSF);
  i_DN := i32 (gps_read_unsigned subframe_bits DN);
  d_DeltaT_LSF := i32 (gps_read_signed subframe_bits DELTAT_LSF)
|}.

(** ** State *)

Record Gps_Navigation_Message := mkGps_Navigation_Message {
  almanacHealth : gmap Z Z;
  d_TOW : Z;
  d_TOW_SF1 : Z;
  d_TOW_SF2 : Z;
  d_TOW_SF3 : Z;
  d_TOW_SF4 : Z;
  d_TOW_SF5 : Z;
  subframe_1 : Subframe1;
  subframe_2 : Subframe2;
  subframe_3 : Subframe3;
  page_18 : Page18;
  d_spare1 : double;
  d_spare2 : double;
  i_Toa : Z;
  i_WN_A : Z;
  i_channel_ID : Z;
  i_satellite_PRN : Z;
  b_valid_ephemeris_set_flag : bool;
  flag_iono_valid : bool;
  flag_utc_model_valid : bool;
  b_integrity_status_flag : bool;
  b_alert_flag : bool;
  b_antispoofing_flag : bool
}.
#[export] Instance eta_Gps_Navigation_Message : Eta Gps_Navigation_Message := fun m =>
  mkGps_Navigation_Message (almanacHealth m) (d_TOW m) (d_TOW_SF1 m) (d_TOW_SF2 m) (d_TOW_SF3 m)
    (d_TOW_SF4 m) (d_TOW_SF5 m) (subframe_1 m) (subframe_2 m) (subframe_3 m) (page_18 m)
    (d_spare1 m) (d_spare2 m) (i_Toa m) (i_WN_A m) (i_channel_ID m) (i_satellite_PRN m)
    (b_valid_ephemeris_set_flag m) (flag_iono_valid m) (flag_utc_model_valid m)
    (b_integrity_status_flag m) (b_alert_flag m) (b_antispoofing_flag m).

Definition new_Gps_Navigation_Message : Gps_Navigation_Message := {|
  almanacHealth := for_range 1 33 (fun i health => <[i := 0]> health) ∅;
  d_TOW := 0; d_TOW_SF1 := 0; d_TOW_SF2 := 0; d_TOW_SF3 := 0; d_TOW_SF4 := 0; d_TOW_SF5 := 0;
  subframe_1 := new_Subframe1; subframe_2 := new_Subframe2; subframe_3 := new_Subframe3;
  page_18 := new_Page18;
  d_spare1 := dzero; d_spare2 := dzero;
  i_Toa := 0; i_WN_A := 0;
  i_channel_ID := 0; i_satellite_PRN := 0;
  b_valid_ephemeris_set_flag := false; flag_iono_valid := false; flag_utc_model_valid := false;
  b_integrity_status_flag := false; b_alert_flag := false; b_antispoofing_flag := false |}.

Definition get_TOW (m : Gps_Navigation_Message) : Z := d_TOW m.
Definition get_GPS_week (m : Gps_Navigation_Message) : Z := i_GPS_week (subframe_1 m).
Definition set_satellite_PRN (prn : Z) (m : Gps_Navigation_Message) : Gps_Navigation_Message :=
  m <| i_satellite_PRN := prn |>.
Definition get_satellite_PRN (m : Gps_Navigation_Message) : Z := i_satellite_PRN m.
Definition set_channel_ID (channel_id : Z) (m : Gps_Navigation_Message) : Gps_Navigation_Message :=
  m <| i_channel_ID := channel_id |>.
Definition get_flag_iono_valid (m : Gps_Navigation_Message) : bool := flag_iono_valid m.
Definition get_flag_utc_model_valid (m : Gps_Navigation_Message) : bool := flag_utc_model_valid m.

(** ** Decoding a subframe *)

(** The ten words of a subframe, each a [uint32_t]; their 30 low bits joined. *)
Definition unpack_words (subframe : list Z) : bitset :=
  for_range 0 10 (fun i subframe_bits =>
    let word_bits := bitset_of_ulong 32 (vget 0 subframe i) in
    for_range 0 GPS_WORD_BITS (fun j subframe_bits =>
      vset subframe_bits (GPS_WORD_BITS * (9 - i) + j) (vget false word_bits j)) subframe_bits)
    (replicate (Z.to_nat GPS_SUBFRAME_BITS) false).

(** The time of week, which every case reads first. *)
Definition read_TOW (subframe_bits : bitset) : Z :=
  i32 (i32 (gps_read_unsigned subframe_bits TOW) * 6).

(** What every case reads of the words TLM and HOW. *)
Definition read_how (subframe_bits : bitset) (m : Gps_Navigation_Message) : Gps_Navigation_Message :=
  m <| d_TOW := read_TOW subframe_bits |>
    <| b_integrity_status_flag := gps_read_bool subframe_bits INTEGRITY_STATUS_FLAG |>
    <| b_alert_flag := gps_read_bool subframe_bits ALERT_FLAG |>
    <| b_antispoofing_flag := gps_read_bool subframe_bits ANTI_SPOOFING_FLAG |>.

Definition store_health (subframe_bits : bitset) (first : Z) (fields : list bit_field)
    (m : Gps_Navigation_Message) : Gps_Navigation_Message :=
  m <| almanacHealth ::= fun health =>
    foldl (fun health '(sv, field) => <[sv := i32 (gps_read_unsigned subframe_bits field)]> health)
      health (zip (seqZ first (Z.of_nat (length fields))) fields) |>.

(** Pages 25 of subframes 4 and 5. *)
Definition health_25_32 : list bit_field :=
  [HEALTH_SV25; HEALTH_SV26; HEALTH_SV27; HEALTH_SV28; HEALTH_SV29; HEALTH_SV30; HEALTH_SV31;
   HEALTH_SV32].
Definition health_1_24 : list bit_field :=
  [HEALTH_SV1; HEALTH_SV2; HEALTH_SV3; HEALTH_SV4; HEALTH_SV5; HEALTH_SV6; HEALTH_SV7; HEALTH_SV8;
   HEALTH_SV9; HEALTH_SV10; HEALTH_SV11; HEALTH_SV12; HEALTH_SV13; HEALTH_SV14; HEALTH_SV15;
   HEALTH_SV16; HEALTH_SV17; HEALTH_SV18; HEALTH_SV19; HEALTH_SV20; HEALTH_SV21; HEALTH_SV22;
   HEALTH_SV23; HEALTH_SV24].

Definition decode_subframe_4 (subframe_bits : bitset) (m : Gps_Navigation_Message)
  : Gps_Navigation_Message :=
  let m := read_how subframe_bits (m <| d_TOW_SF4 := read_TOW subframe_bits |>) in
  let SV_page := i32 (gps_read_unsigned subframe_bits SV_PAGE) in
  let m :=
    if SV_page =? 56
    then m <| page_18 := read_page_18 subframe_bits |> <| flag_iono_valid := true |>
           <| flag_utc_model_valid := true |>
    else m in
  if SV_page =? 63 then store_health subframe_bits 25 health_25_32 m else m.

Definition decode_subframe_5 (subframe_bits : bitset) (m : Gps_Navigation_Message)
  : Gps_Navigation_Message :=
  let m := read_how subframe_bits (m <| d_TOW_SF5 := read_TOW subframe_bits |>) in
  let SV_page_5 := i32 (gps_read_unsigned subframe_bits SV_PAGE) in
  if SV_page_5 =? 51 then
    store_health subframe_bits 1 health_1_24
      (m <| i_Toa := i32 (i32 (gps_read_unsigned subframe_bits T_OA) * T_OA_LSB) |>
         <| i_WN_A := i32 (gps_read_unsigned subframe_bits WN_A) |>)
  else m.

(** The decoder after the words are unpacked. *)
Definition decode_bits (subframe_bits : bitset) (m : Gps_Navigation_Message)
  : Z * Gps_Navigation_Message :=
  let subframe_ID := i32 (gps_read_unsigned subframe_bits SUBFRAME_ID) in
  (subframe_ID,
   match subframe_ID with
   | 1 => read_how subframe_bits (m <| d_TOW_SF1 := read_TOW subframe_bits |>
            <| subframe_1 := read_subframe_1 subframe_bits |>)
   | 2 => read_how subframe_bits (m <| d_TOW_SF2 := read_TOW subframe_bits |>
            <| subframe_2 := read_subframe_2 subframe_bits |>)
   | 3 => read_how subframe_bits (m <| d_TOW_SF3 := read_TOW subframe_bits |>
            <| subframe_3 := read_subframe_3 subframe_bits |>)
   | 4 => decode_subframe_4 subframe_bits m
   | 5 => decode_subframe_5 subframe_bits m
   | _ => m
   end).

Definition subframe_decoder (subframe : list Z) (m : Gps_Navigation_Message)
  : Z * Gps_Navigation_Message :=
  decode_bits (unpack_words subframe) m.

(** ** What the block gets *)

Definition get_ephemeris (m : Gps_Navigation_Message) : Gps_Ephemeris.t :=
  let s1 := subframe_1 m in let s2 := subframe_2 m in let s3 := subframe_3 m in {|
  Gps_Ephemeris.PRN := i_satellite_PRN m;
  Gps_Ephemeris.tow := d_TOW m;
  Gps_Ephemeris.Crs := d_Crs s2;
  Gps_Ephemeris.delta_n := d_Delta_n s2;
  Gps_Ephemeris.M_0 := d_M_0 s2;
  Gps_Ephemeris.Cuc := d_Cuc s2;
  Gps_Ephemeris.ecc := d_e_eccentricity s2;
  Gps_Ephemeris.Cus := d_Cus s2;
  Gps_Ephemeris.sqrtA := d_sqrt_A s2;
  Gps_Ephemeris.toe := d_Toe s2;
  Gps_Ephemeris.toc := d_Toc s1;
  Gps_Ephemeris.Cic := d_Cic s3;
  Gps_Ephemeris.OMEGA_0 := d_OMEGA0 s3;
  Gps_Ephemeris.Cis := d_Cis s3;
  Gps_Ephemeris.i_0 := d_i_0 s3;
  Gps_Ephemeris.Crc := d_Crc s3;
  Gps_Ephemeris.omega := d_OMEGA s3;
  Gps_Ephemeris.OMEGAdot := d_OMEGA_DOT s3;
  Gps_Ephemeris.idot := d_IDOT s3;
  Gps_Ephemeris.code_on_L2 := i_code_on_L2 s1;
  Gps_Ephemeris.WN := i_GPS_week s1;
  Gps_Ephemeris.L2_P_data_flag := b_L2_P_data_flag s1;
  Gps_Ephemeris.SV_accuracy := i_SV_accuracy s1;
  Gps_Ephemeris.SV_health := i_SV_health s1;
  Gps_Ephemeris.TGD := d_TGD s1;
  Gps_Ephemeris.IODC := d_IODC s1;
  Gps_Ephemeris.IODE_SF2 := d_IODE_SF2 s2;
  Gps_Ephemeris.IODE_SF3 := d_IODE_SF3 s3;
  Gps_Ephemeris.AODO := i_AODO s2;
  Gps_Ephemeris.fit_interval_flag := b_fit_interval_flag s2;
  Gps_Ephemeris.spare1 := d_spare1 m;
  Gps_Ephemeris.spare2 := d_spare2 m;
  Gps_Ephemeris.af0 := d_A_f0 s1;
  Gps_Ephemeris.af1 := d_A_f1 s1;
  Gps_Ephemeris.af2 := d_A_f2 s1;
  Gps_Ephemeris.integrity_status_flag := b_integrity_status_flag m;
  Gps_Ephemeris.alert_flag := b_alert_flag m;
  Gps_Ephemeris.antispoofing_flag := b_antispoofing_flag m |}.

(** The flags are cleared so that the same data is not sent again. *)
Definition get_iono (m : Gps_Navigation_Message) : Gps_Iono.t * Gps_Navigation_Message :=
  let p := page_18 m in
  ({| Gps_Iono.alpha0 := d_alpha0 p; Gps_Iono.alpha1 := d_alpha1 p;
      Gps_Iono.alpha2 := d_alpha2 p; Gps_Iono.alpha3 := d_alpha3 p;
      Gps_Iono.beta0 := d_beta0 p; Gps_Iono.beta1 := d_beta1 p;
      Gps_Iono.beta2 := d_beta2 p; Gps_Iono.beta3 := d_beta3 p;
      Gps_Iono.valid := flag_iono_valid m |},
   m <| flag_iono_valid := false |>).

Definition get_utc_model (m : Gps_Navigation_Message) : Gps_Utc_Model.t * Gps_Navigation_Message :=
  let p := page_18 m in
  ({| Gps_Utc_Model.A0 := d_A0 p; Gps_Utc_Model.A1 := d_A1 p; Gps_Utc_Model.A2 := dzero;
      Gps_Utc_Model.tot := d_t_OT p; Gps_Utc_Model.WN_T := i_WN_T p;
      Gps_Utc_Model.DeltaT_LS := d_DeltaT_LS p; Gps_Utc_Model.WN_LSF := i_WN_LSF p;
      Gps_Utc_Model.DN := i_DN p; Gps_Utc_Model.DeltaT_LSF := d_DeltaT_LSF p;
      Gps_Utc_Model.valid := flag_utc_model_valid m |},
   m <| flag_utc_model_valid := false |>).

(** The three subframes were received and belong to one data set. *)
Definition satellite_validation (m : Gps_Navigation_Message) : bool * Gps_Navigation_Message :=
  let m := m <| b_valid_ephemeris_set_flag := false |> in
  if negb (d_TOW_SF1 m =? 0) && negb (d_TOW_SF2 m =? 0) && negb (d_TOW_SF3 m =? 0) then
    if (d_IODE_SF2 (subframe_2 m) =? d_IODE_SF3 (subframe_3 m))
       && (d_IODC (subframe_1 m) =? d_IODE_SF2 (subframe_2 m))
       && negb (d_IODC (subframe_1 m) =? -1)
    then (true, m <| b_valid_ephemeris_set_flag := true |>)
    else (false, m)
  else (false, m).
