(* ===== verification/GpsTlm.v ===== *)
(** * GpsTlm: the GPS L1 C/A telemetry decoder block

    [class gps_l1_ca_telemetry_decoder_gs] of
    [src/src/algorithms/telemetry_decoder/gnuradio_blocks/gps_l1_ca_telemetry_decoder_gs.{h,cc}]:
    the symbol history, the preamble search, the words of a subframe with their
    parity, and the time of week of every symbol.  One call of [general_work]
    consumes one symbol and is one program here.

    The array [subframe] of 40 bytes is kept as its ten words, each written and
    read by one [memcpy].  Left out: dump files, CRC statistics, what is printed,
    and [d_dump], [d_dump_mat] and [d_remove_dat], which govern the files. *)

From S2P Require Import Prelude Cstring Float64 MathConstants InavTables InavWords GnssSignal Viterbi TlmDecoder GpsTables GpsMessage.
From stdpp Require Import gmap list strings.
From Stdlib Require Import ZArith Lia Ascii SpecFloat.
Local Open Scope Z_scope.
Local Open Scope cxx_scope.

(** ** Messages and state *)

(** A message on one of the output ports. *)
Inductive gps_message :=
  | telemetry_gps_ephemeris (e : Gps_Ephemeris.t)
  | telemetry_gps_iono (i : Gps_Iono.t)
  | telemetry_gps_utc_model (u : Gps_Utc_Model.t)
  | gps_telemetry_to_trk (message : Z)
  | gps_Nav_msg_from_TLM (p : Nav_Message_Packet).

Record gps_tlm := mkgps_tlm {
  d_nav : Gps_Navigation_Message;
  d_satellite : Gnss_Satellite;
  d_nav_msg_packet : Nav_Message_Packet;
  d_preamble_samples : list Z;
  (** [boost::circular_buffer<float>] of capacity [d_required_symbols], the
      oldest first. *)
  d_symbol_history : list float;
  d_sample_counter : Z;
  d_preamble_index : Z;
  d_last_valid_preamble : Z;
  d_samples_per_preamble : Z;
  d_preamble_period_symbols : Z;
  d_CRC_error_counter : Z;
  d_channel : Z;
  d_required_symbols : Z;
  d_prev_GPS_frame_4bytes : Z;
  d_max_symbols_without_valid_frame : Z;
  d_stat : Z;
  d_TOW_at_Preamble_ms : Z;
  d_TOW_at_current_symbol_ms : Z;
  d_flag_frame_sync : bool;
  d_flag_preamble : bool;
  d_sent_tlm_failed_msg : bool;
  d_flag_PLL_180_deg_phase_locked : bool;
  d_flag_TOW_set : bool;
  d_enable_navdata_monitor : bool;
  (** The messages published, the last first. *)
  published : list gps_message
}.
#[export] Instance eta_gps_tlm : Eta gps_tlm := fun d =>
  mkgps_tlm (d_nav d) (d_satellite d) (d_nav_msg_packet d) (d_preamble_samples d)
    (d_symbol_history d) (d_sample_counter d) (d_preamble_index d) (d_last_valid_preamble d)
    (d_samples_per_preamble d) (d_preamble_period_symbols d) (d_CRC_error_counter d)
    (d_channel d) (d_required_symbols d) (d_prev_GPS_frame_4bytes d)
    (d_max_symbols_without_valid_frame d) (d_stat d) (d_TOW_at_Preamble_ms d)
    (d_TOW_at_current_symbol_ms d) (d_flag_frame_sync d) (d_flag_preamble d)
    (d_sent_tlm_failed_msg d) (d_flag_PLL_180_deg_phase_locked d) (d_flag_TOW_set d)
    (d_enable_navdata_monitor d) (published d).

Definition publish (msg : gps_message) (d : gps_tlm) : gps_tlm :=
  d <| published ::= cons msg |>.

Definition new_gps_tlm (satellite : Gnss_Satellite) (conf : Tlm_Conf) : gps_tlm := {|
  d_nav := new_Gps_Navigation_Message;
  d_satellite := new_Gnss_Satellite (system satellite) (PRN satellite);
  d_nav_msg_packet :=
    if enable_navdata_monitor conf then mkNav_Message_Packet (str "G") (str "1C") 0 0 []
    else mkNav_Message_Packet [] [] 0 0 [];
  d_preamble_samples := map (fun c => if Ascii.eqb c "1" then 1 else -1) GPS_CA_PREAMBLE;
  d_symbol_history := [];
  d_sample_counter := 0;
  d_preamble_index := 0;
  d_last_valid_preamble := 0;
  d_samples_per_preamble := GPS_CA_PREAMBLE_LENGTH_BITS;
  d_preamble_period_symbols := GPS_SUBFRAME_BITS;
  d_CRC_error_counter := 0;
  d_channel := 0;
  d_required_symbols := GPS_SUBFRAME_BITS;
  d_prev_GPS_frame_4bytes := 0;
  d_max_symbols_without_valid_frame := GPS_SUBFRAME_BITS * 20;
  d_stat := 0;
  d_TOW_at_Preamble_ms := 0;
  d_TOW_at_current_symbol_ms := 0;
  d_flag_frame_sync := false;
  d_flag_preamble := false;
  d_sent_tlm_failed_msg := false;
  d_flag_PLL_180_deg_phase_locked := false;
  d_flag_TOW_set := false;
  d_enable_navdata_monitor := enable_navdata_monitor conf;
  published := [] |}.

(** ** Control from the channel *)

Definition set_satellite (satellite : Gnss_Satellite) (d : gps_tlm) : gps_tlm :=
  let satellite := new_Gnss_Satellite (system satellite) (PRN satellite) in
  d <| d_nav := set_satellite_PRN (PRN satellite) new_Gps_Navigation_Message |>
    <| d_satellite := satellite |>.

Definition set_channel (channel : Z) (d : gps_tlm) : gps_tlm :=
  d <| d_channel := channel |> <| d_nav ::= set_channel_ID channel |>.

Definition reset_gps_tlm (d : gps_tlm) : gps_tlm :=
  d <| d_last_valid_preamble := d_sample_counter d |> <| d_sent_tlm_failed_msg := false |>
    <| d_flag_TOW_set := false |> <| d_symbol_history := [] |> <| d_stat := 0 |>.

(** ** The parity of a word *)

(** [std::rotl] of a [uint32_t]. *)
Definition rotl (x n : Z) : Z := Z.lxor (u32 (Z.shiftl x n)) (Z.shiftr x (32 - n)).

(** The five groups of six bits, each the exclusive or of data bits. *)
Definition parity_groups (gpsword : Z) : Z :=
  let d1 := Z.land gpsword 0xFBFFBF00 in
  let d2 := Z.land (rotl gpsword 1) 0x07FFBF01 in
  let d3 := Z.land (rotl gpsword 2) 0xFC0F8100 in
  let d4 := Z.land (rotl gpsword 3) 0xF81FFE02 in
  let d5 := Z.land (rotl gpsword 4) 0xFC00000E in
  let d6 := Z.land (rotl gpsword 5) 0x07F00001 in
  let d7 := Z.land (rotl gpsword 6) 0x00003000 in
  Z.lxor (Z.lxor (Z.lxor (Z.lxor (Z.lxor (Z.lxor d1 d2) d3) d4) d5) d6) d7.

Definition fold_parity (t : Z) : Z :=
  Z.land (Z.lxor (Z.lxor (Z.lxor (Z.lxor t (rotl t 6)) (rotl t 12)) (rotl t 18)) (rotl t 24)) 0x3F.

Definition gps_word_parityCheck (gpsword : Z) : bool :=
  fold_parity (parity_groups gpsword) =? Z.land gpsword 0x3F.

(** ** The words of a subframe *)

(** The local variables of the loop over the history. *)
Record frame_state := mkframe_state {
  GPS_frame_4bytes : Z;
  frame_bit_index : Z;
  word_index : Z;
  prev_GPS_frame_4bytes : Z;
  subframe_synchro_confirmation : bool;
  subframe : list Z
}.
#[export] Instance eta_frame_state : Eta frame_state := fun s =>
  mkframe_state (GPS_frame_4bytes s) (frame_bit_index s) (word_index s)
    (prev_GPS_frame_4bytes s) (subframe_synchro_confirmation s) (subframe s).

Definition new_frame_state (prev : Z) : frame_state :=
  mkframe_state 0 0 0 prev true (replicate 10 0).

(** The bit of a symbol. *)
Definition symbol_bit (flag_invert : bool) (subframe_symbol : float) : bool :=
  if flag_invert then SFltb subframe_symbol fzero else SFltb fzero subframe_symbol.

(** The two last bits of the word ahead, and the data bits inverted when the
    last one is set. *)
Definition extend_word (prev word : Z) : Z :=
  let word := if Z.land prev 1 =? 0 then word else Z.lor word 0x40000000 in
  let word := if Z.land prev 2 =? 0 then word else Z.lor word 0x80000000 in
  if Z.land word 0x40000000 =? 0 then word else Z.lxor word 0x3FFFFFC0.

(** [memcpy(&subframe[word_index * GPS_WORD_LENGTH], ...)]: beyond the array it
    is undefined. *)
Definition end_of_word (s : frame_state) : outcome frame_state :=
  let word := extend_word (prev_GPS_frame_4bytes s) (GPS_frame_4bytes s) in
  if (word_index s + 1) * GPS_WORD_LENGTH <=? GPS_SUBFRAME_LENGTH then
    Returns {|
      GPS_frame_4bytes := 0;
      frame_bit_index := 0;
      word_index := word_index s + 1;
      prev_GPS_frame_4bytes := word;
      subframe_synchro_confirmation :=
        subframe_synchro_confirmation s && gps_word_parityCheck word;
      subframe := vset (subframe s) (word_index s) word |}
  else Throws undefined_behaviour.

(** One symbol of the history. *)
Definition add_symbol (flag_invert : bool) (s : frame_state) (subframe_symbol : float)
  : outcome frame_state :=
  let s := if symbol_bit flag_invert subframe_symbol
           then s <| GPS_frame_4bytes ::= fun w => u32 (w + 1) |> else s in
  let s := s <| frame_bit_index ::= Z.succ |> in
  if frame_bit_index s =? 30 then end_of_word s
  else Returns (s <| GPS_frame_4bytes ::= fun w => u32 (Z.shiftl w 1) |>).

Fixpoint collect_words (flag_invert : bool) (history : list float) (s : frame_state)
  : outcome frame_state :=
  match history with
  | [] => Returns s
  | x :: history => let* s := add_symbol flag_invert s x in collect_words flag_invert history s
  end.

(** ** Decoding a subframe *)

Definition keep_nav_message (words : list Z) (d : gps_tlm) : gps_tlm :=
  if d_enable_navdata_monitor d then
    d <| d_nav_msg_packet ::= fun p =>
      mkNav_Message_Packet (packet_system p) (packet_signal p) (packet_prn p)
        (packet_tow_at_current_symbol_ms p) (bitset_to_string (unpack_words words)) |>
  else d.

(** [if (d_nav.satellite_validation() == true)] publish the ephemeris. *)
Definition publish_ephemeris (d : gps_tlm) : gps_tlm :=
  let '(valid, nav) := satellite_validation (d_nav d) in
  let d := d <| d_nav := nav |> in
  if valid : bool then publish (telemetry_gps_ephemeris (get_ephemeris (d_nav d))) d else d.

Definition publish_iono (d : gps_tlm) : gps_tlm :=
  if get_flag_iono_valid (d_nav d) then
    let '(iono, nav) := get_iono (d_nav d) in publish (telemetry_gps_iono iono) (d <| d_nav := nav |>)
  else d.

Definition publish_utc_model (d : gps_tlm) : gps_tlm :=
  if get_flag_utc_model_valid (d_nav d) then
    let '(utc, nav) := get_utc_model (d_nav d) in
    publish (telemetry_gps_utc_model utc) (d <| d_nav := nav |>)
  else d.

(** What a new subframe makes the block publish. *)
Definition report_subframe (subframe_ID : Z) (d : gps_tlm) : gps_tlm :=
  match subframe_ID with
  | 1 | 2 | 3 => publish_ephemeris d
  | 4 => publish_utc_model (publish_iono d)
  | _ => d
  end.

(** The subframe of a history whose parity held. *)
Definition accept_subframe (words : list Z) : prog gps_tlm bool := fun d =>
  let d := keep_nav_message words d in
  let '(subframe_ID, nav) := subframe_decoder words (d_nav d) in
  let d := d <| d_nav := nav |> in
  if (0 <? subframe_ID) && (subframe_ID <? 6)
  then (Returns true, report_subframe subframe_ID d) else (Returns false, d).

Definition decode_subframe (flag_invert : bool) : prog gps_tlm bool :=
  d <- gets id;;
  s <- lift (collect_words flag_invert (d_symbol_history d)
               (new_frame_state (d_prev_GPS_frame_4bytes d)));;
  modify (fun d => d <| d_prev_GPS_frame_4bytes := prev_GPS_frame_4bytes s |>);;
  if subframe_synchro_confirmation s then accept_subframe (subframe s) else ret false.

(** ** One symbol *)

(** [circular_buffer::push_back]: a full buffer drops its oldest element. *)
Definition push_symbol (x : float) (d : gps_tlm) : gps_tlm :=
  (d <| d_symbol_history ::= fun h =>
    let h := h ++ [x] in
    drop (Z.to_nat (Z.of_nat (length h) - d_required_symbols d)) h |>)
    <| d_sample_counter ::= fun n => u64 (n + 1) |>.

(** A new satellite: tracking has found the preamble, which is entered first. *)
Definition insert_preamble (g : Gnss_Synchro) (d : gps_tlm) : gps_tlm :=
  match d_symbol_history d with
  | [] =>
      for_range 0 GPS_CA_PREAMBLE_LENGTH_BITS (fun i d =>
        let s := vget 0 (d_preamble_samples d) i in
        push_symbol (float_of_Z
          (if TlmDecoder.Flag_PLL_180_deg_phase_locked g then - s else s)) d) d
  | _ => d
  end.

(** The alarm to the tracking block. *)
Definition check_telemetry (d : gps_tlm) : gps_tlm :=
  if (d_stat d <? 2) && negb (d_sent_tlm_failed_msg d)
     && (d_max_symbols_without_valid_frame d <? u64 (d_sample_counter d - d_last_valid_preamble d))
  then (publish (gps_telemetry_to_trk 1) d) <| d_sent_tlm_failed_msg := true |>
  else d.

Definition receive_symbol (g : Gnss_Synchro) (d : gps_tlm) : gps_tlm :=
  check_telemetry
    ((push_symbol (float_of_double (Prompt_I g)) (insert_preamble g d)) <| d_flag_preamble := false |>).

(** ** Frame synchronisation *)

(** The correlation of the oldest symbols with the preamble. *)
Definition corr_value (d : gps_tlm) : Z :=
  if d_required_symbols d <=? Z.of_nat (length (d_symbol_history d))
  then correlation GPS_CA_PREAMBLE_LENGTH_BITS (d_preamble_samples d) (d_symbol_history d)
  else 0.

(** A subframe was decoded. *)
Definition good_subframe (d : gps_tlm) : gps_tlm :=
  d <| d_CRC_error_counter := 0 |> <| d_flag_preamble := true |>
    <| d_last_valid_preamble := d_sample_counter d |> <| d_flag_frame_sync := true |>.

Definition lose_frame_sync (d : gps_tlm) : gps_tlm :=
  d <| d_flag_frame_sync := false |> <| d_stat := 0 |> <| d_TOW_at_current_symbol_ms := 0 |>
    <| d_TOW_at_Preamble_ms := 0 |> <| d_CRC_error_counter := 0 |> <| d_flag_TOW_set := false |>.

Definition bad_subframe (d : gps_tlm) : gps_tlm :=
  let d := d <| d_CRC_error_counter ::= fun n => i32 (n + 1) |> in
  if 2 <? d_CRC_error_counter d then lose_frame_sync d else d.

(** [d_stat == 0]: no preamble information. *)
Definition search_preamble : prog gps_tlm unit :=
  d <- gets id;;
  (if d_samples_per_preamble d <=? Z.abs (corr_value d) then
     let flag_invert := corr_value d <? 0 in
     modify (fun d => d <| d_preamble_index := d_sample_counter d |>
       <| d_flag_PLL_180_deg_phase_locked := flag_invert |> <| d_prev_GPS_frame_4bytes := 0 |>);;
     good <- decode_subframe flag_invert;;
     modify (fun d => if good : bool then (good_subframe d) <| d_stat := 1 |> else d)
   else ret tt);;
  modify (fun d => d <| d_flag_TOW_set := false |>).

(** [d_stat == 1]: preamble acquired. *)
Definition track_subframes : prog gps_tlm unit :=
  d <- gets id;;
  if u64 (d_preamble_index d + u64 (d_preamble_period_symbols d)) <=? d_sample_counter d then
    modify (fun d => d <| d_preamble_index := d_sample_counter d |>);;
    good <- decode_subframe (d_flag_PLL_180_deg_phase_locked d);;
    modify (fun d => if good : bool then good_subframe d else bad_subframe d)
  else ret tt.

Definition frame_sync : prog gps_tlm unit :=
  stat <- gets d_stat;;
  match stat with
  | 0 => search_preamble
  | 1 => track_subframes
  | _ => ret tt
  end.

(** ** The time of week *)

Definition update_tow : prog gps_tlm unit :=
  d <- gets id;;
  if d_flag_preamble d then
    if negb (get_TOW (d_nav d) =? 0) then
      t <- lift (uint32_of_double (get_TOW (d_nav d) * 1000));;
      modify (fun d => d <| d_TOW_at_current_symbol_ms := t |> <| d_TOW_at_Preamble_ms := t |>
        <| d_flag_TOW_set := true |>)
    else ret tt
  else
    if d_flag_TOW_set d then
      modify (fun d => d <| d_TOW_at_current_symbol_ms ::= fun t => u32 (t + GPS_L1_CA_BIT_PERIOD_MS) |>)
    else ret tt.

(** ** The output *)

(** The navigation message monitor. *)
Definition publish_nav_message (g : Gnss_Synchro) (d : gps_tlm) : gps_tlm :=
  let p := d_nav_msg_packet d in
  if d_enable_navdata_monitor d && negb (Nat.eqb (length (nav_message p)) 0) then
    let p := mkNav_Message_Packet (packet_system p) (packet_signal p) (i32 (synchro_PRN g))
               (i32 (d_TOW_at_current_symbol_ms d)) (nav_message p) in
    (publish (gps_Nav_msg_from_TLM p) d) <| d_nav_msg_packet :=
      mkNav_Message_Packet (packet_system p) (packet_signal p) (packet_prn p)
        (packet_tow_at_current_symbol_ms p) [] |>
  else d.

Definition output_symbol (g : Gnss_Synchro) (d : gps_tlm) : Gnss_Synchro :=
  let g := g <| TlmDecoder.TOW_at_current_symbol_ms := d_TOW_at_current_symbol_ms d |>
             <| TlmDecoder.Flag_valid_word := d_flag_TOW_set d |> in
  if d_flag_PLL_180_deg_phase_locked d
  then g <| TlmDecoder.Carrier_phase_rads ::= fun x => dadd x GNSS_PI |>
         <| TlmDecoder.Flag_PLL_180_deg_phase_locked := true |>
  else g <| TlmDecoder.Flag_PLL_180_deg_phase_locked := false |>.

(** The item produced, if any, and the time tags that go with it.  A tag of
    another type ([None]) is dropped. *)
Definition make_output (g : Gnss_Synchro) (tags : list (option GnssTime))
  : prog gps_tlm (option (Gnss_Synchro * list GnssTime)) :=
  set <- gets d_flag_TOW_set;;
  if set : bool then
    modify (publish_nav_message g);;
    g <- gets (output_symbol g);;
    ret (Some (g, omap id tags))
  else ret None.

(** ** General work *)

Definition general_work (g : Gnss_Synchro) (tags : list (option GnssTime))
  : prog gps_tlm (option (Gnss_Synchro * list GnssTime)) :=
  modify (receive_symbol g);;
  frame_sync;;
  update_tow;;
  make_output g tags.
