(* ===== verification/GpsParity.v ===== *)
(** * GpsParity: the parity of a GPS word

    The parity check of GpsTlm against the six equations of IS-GPS-200 (Table
    20-XIV), and the distance of the code: the check is linear over GF(2), so
    both facts follow from its value on the 32 single bits. *)

From S2P Require Import Prelude Cstring GpsTables GpsMessage GpsTlm.
From stdpp Require Import list.
From Stdlib Require Import ZArith Lia Btauto.
Local Open Scope Z_scope.

(** ** The equations

    The bits of a word are numbered as in IS-GPS-200: 1 to 24 are the data,
    25 to 30 the parity, and -1 and 0 are the last two bits of the word ahead.
    Bit [i] of the standard is bit [30 - i] of the [uint32_t]. *)

Definition gps_bit (w i : Z) : bool := Z.testbit w (30 - i).

Definition xor_all : list bool -> bool := foldr xorb false.

(** The right-hand sides of the equations of the bits 25 to 30. *)
Definition parity_equations : list (list Z) :=
  [[-1; 1; 2; 3; 5; 6; 10; 11; 12; 13; 14; 17; 18; 20; 23];
   [0; 2; 3; 4; 6; 7; 11; 12; 13; 14; 15; 18; 19; 21; 24];
   [-1; 1; 3; 4; 5; 7; 8; 12; 13; 14; 15; 16; 19; 20; 22];
   [0; 2; 4; 5; 6; 8; 9; 13; 14; 15; 16; 17; 20; 21; 23];
   [0; 1; 3; 5; 6; 7; 9; 10; 14; 15; 16; 17; 18; 21; 22; 24];
   [-1; 3; 5; 6; 8; 9; 10; 11; 13; 15; 19; 22; 23; 24]].

Definition equation (k : nat) : list Z := nth k parity_equations [].

(** Equation [k] with the two sides added: false when it holds. *)
Definition equation_error (w : Z) (k : nat) : bool :=
  xorb (gps_bit w (25 + Z.of_nat k)) (xor_all (map (gps_bit w) (equation k))).

Definition equations_hold (w : Z) : bool :=
  forallb (fun k => negb (equation_error w k)) (seq 0 6).

(** ** Linear functions of a word *)

Definition additive (f : Z -> Z) : Prop := forall a b, f (Z.lxor a b) = Z.lxor (f a) (f b).
Definition additive_bit (f : Z -> bool) : Prop := forall a b, f (Z.lxor a b) = xorb (f a) (f b).

Lemma additive_0 f : additive f -> f 0 = 0.
Proof. intros H. specialize (H 0 0). rewrite !Z.lxor_nilpotent in H. exact H. Qed.

Lemma additive_bit_0 f : additive_bit f -> f 0 = false.
Proof. intros H. specialize (H 0 0). rewrite Z.lxor_nilpotent, xorb_nilpotent in H. exact H. Qed.

Lemma additive_id : additive (fun w => w).
Proof. intros a b. reflexivity. Qed.

Lemma additive_land f m : additive f -> additive (fun w => Z.land (f w) m).
Proof.
  intros H a b. rewrite (H a b). apply Z.bits_inj'. intros n Hn.
  rewrite Z.land_spec, !Z.lxor_spec, !Z.land_spec. btauto.
Qed.

Lemma additive_lxor f g : additive f -> additive g -> additive (fun w => Z.lxor (f w) (g w)).
Proof.
  intros Hf Hg a b. rewrite (Hf a b), (Hg a b). apply Z.bits_inj'. intros n Hn.
  rewrite !Z.lxor_spec. btauto.
Qed.

Lemma additive_u32 f : additive f -> additive (fun w => u32 (f w)).
Proof.
  intros H a b. rewrite (H a b). apply Z.bits_inj'. intros n Hn. unfold wrap.
  rewrite Z.lxor_spec. destruct (Z_lt_ge_dec n 32).
  - rewrite !Z.mod_pow2_bits_low, Z.lxor_spec by lia. reflexivity.
  - rewrite !Z.mod_pow2_bits_high by lia. reflexivity.
Qed.

Lemma additive_rotl f n : 0 <= n <= 32 -> additive f -> additive (fun w => rotl (f w) n).
Proof.
  intros Hn Hf. unfold rotl. apply additive_lxor.
  - apply additive_u32. intros a b. rewrite (Hf a b). apply Z.shiftl_lxor.
  - intros a b. rewrite (Hf a b). apply Z.shiftr_lxor.
Qed.

Lemma additive_comp f g : additive f -> additive g -> additive (fun w => f (g w)).
Proof. intros Hf Hg a b. rewrite (Hg a b). apply Hf. Qed.

Lemma additive_testbit f i : additive f -> additive_bit (fun w => Z.testbit (f w) i).
Proof. intros H a b. rewrite (H a b). apply Z.lxor_spec. Qed.

Lemma additive_bit_xorb f g : additive_bit f -> additive_bit g ->
  additive_bit (fun w => xorb (f w) (g w)).
Proof. intros Hf Hg a b. rewrite (Hf a b), (Hg a b). btauto. Qed.

Create HintDb gf2.
#[export] Hint Resolve additive_id additive_land additive_lxor additive_u32 additive_testbit
  additive_bit_xorb : gf2.
#[export] Hint Extern 3 (additive (fun w => rotl (@?f w) ?n)) =>
  (apply (additive_rotl f); [lia|]) : gf2.

(** The bits of a word below [n], and the word as the sum of them. *)
Definition set_bits (n : nat) (w : Z) : list Z :=
  List.filter (Z.testbit w) (map Z.of_nat (seq 0 n)).
Definition lxor_all : list Z -> Z := foldr Z.lxor 0.

Lemma lxor_all_app l l' : lxor_all (l ++ l') = Z.lxor (lxor_all l) (lxor_all l').
Proof.
  induction l as [|x l IH]; [reflexivity|]. cbn [app lxor_all foldr].
  fold (lxor_all (l ++ l')) (lxor_all l). now rewrite IH, Z.lxor_assoc.
Qed.

Lemma set_bits_S n w : set_bits (S n) w =
  set_bits n w ++ (if Z.testbit w (Z.of_nat n) then [Z.of_nat n] else []).
Proof.
  unfold set_bits. rewrite seq_S, map_app, List.filter_app. cbn [map List.filter Nat.add]. destruct (Z.testbit _ _); reflexivity.
Qed.

Lemma set_bits_sum n w : lxor_all (map (Z.pow 2) (set_bits n w)) = w mod 2 ^ Z.of_nat n.
Proof.
  induction n as [|n IH]; [cbn; now rewrite Z.mod_1_r|].
  rewrite set_bits_S, map_app, lxor_all_app, IH. apply Z.bits_inj'. intros k Hk.
  rewrite Z.lxor_spec. destruct (Z.testbit w (Z.of_nat n)) eqn:E; cbn [map lxor_all foldr].
  - rewrite Z.lxor_0_r, Z.pow2_bits_eqb by lia. destruct (Z.eqb_spec (Z.of_nat n) k) as [<-|Hne].
    + rewrite Z.mod_pow2_bits_high, Z.mod_pow2_bits_low by lia. now rewrite E.
    + rewrite xorb_false_r. destruct (Z_lt_ge_dec k (Z.of_nat n)).
      * rewrite !Z.mod_pow2_bits_low by lia. reflexivity.
      * rewrite !Z.mod_pow2_bits_high by lia. reflexivity.
  - rewrite Z.bits_0, xorb_false_r. destruct (Z_lt_ge_dec k (Z.of_nat n)).
    + rewrite !Z.mod_pow2_bits_low by lia. reflexivity.
    + rewrite Z.mod_pow2_bits_high by lia. destruct (Z.eqb_spec (Z.of_nat n) k) as [<-|Hne].
      * rewrite Z.mod_pow2_bits_low by lia. now rewrite E.
      * rewrite Z.mod_pow2_bits_high by lia. reflexivity.
Qed.

(** A linear function is determined by the single bits. *)
Lemma additive_sum f l : additive f -> f (lxor_all l) = lxor_all (map f l).
Proof.
  intros Hf. induction l as [|x l IH]; [apply additive_0, Hf|]. cbn. rewrite Hf. f_equal. exact IH.
Qed.

Lemma additive_bits f n w : additive f -> 0 <= w < 2 ^ Z.of_nat n ->
  f w = lxor_all (map (fun i => f (2 ^ i)) (set_bits n w)).
Proof.
  intros Hf Hw. rewrite <- (Z.mod_small w (2 ^ Z.of_nat n)) at 1 by exact Hw.
  rewrite <- set_bits_sum, additive_sum by exact Hf. now rewrite map_map.
Qed.

Lemma set_bits_in n w i : In i (set_bits n w) -> 0 <= i < Z.of_nat n.
Proof.
  intros Hi. apply filter_In in Hi as [Hi _]. apply in_map_iff in Hi as (k & <- & Hk).
  apply in_seq in Hk. lia.
Qed.

Lemma set_bits_nodup n w : List.NoDup (set_bits n w).
Proof.
  apply List.NoDup_filter, Finite.Injective_map_NoDup; [|apply List.seq_NoDup].
  intros a b. apply Nat2Z.inj.
Qed.

Lemma additive_ext f g n : additive f -> additive g ->
  (forall i, 0 <= i < Z.of_nat n -> f (2 ^ i) = g (2 ^ i)) ->
  forall w, 0 <= w < 2 ^ Z.of_nat n -> f w = g w.
Proof.
  intros Hf Hg H w Hw. rewrite (additive_bits f n w Hf Hw), (additive_bits g n w Hg Hw).
  f_equal. apply map_ext_in. intros i Hi. apply H, (set_bits_in n w i Hi).
Qed.

(** ** The check of the code *)

(** The computed parity and the received one, added. *)
Definition syndrome (w : Z) : Z := Z.lxor (fold_parity (parity_groups w)) (Z.land w 0x3F).

Lemma parity_check_syndrome w : gps_word_parityCheck w = (syndrome w =? 0).
Proof.
  unfold gps_word_parityCheck, syndrome. apply eq_true_iff_eq. rewrite !Z.eqb_eq.
  symmetry. apply Z.lxor_eq_0_iff.
Qed.

Lemma additive_groups : additive parity_groups.
Proof. unfold parity_groups. cbv zeta. auto 20 with gf2. Qed.

Lemma additive_fold : additive fold_parity.
Proof. unfold fold_parity. auto 20 with gf2. Qed.

Lemma additive_syndrome : additive syndrome.
Proof.
  unfold syndrome. apply additive_lxor; [|auto with gf2].
  exact (additive_comp _ _ additive_fold additive_groups).
Qed.

(** The errors of the equations as a number: equation [k] at bit [5 - k]. *)
Definition equations_syndrome (w : Z) : Z :=
  lxor_all (map (fun k => if equation_error w k then 2 ^ (5 - Z.of_nat k) else 0) (seq 0 6)).

Lemma additive_xor_all (fs : list (Z -> bool)) :
  Forall additive_bit fs -> additive_bit (fun w => xor_all (map (fun f => f w) fs)).
Proof.
  induction 1 as [|f fs Hf _ IH]; [intros a b; reflexivity|].
  exact (additive_bit_xorb _ _ Hf IH).
Qed.

Lemma additive_gps_bit i : additive_bit (fun w => gps_bit w i).
Proof. intros a b. apply Z.lxor_spec. Qed.

Lemma additive_error k : additive_bit (fun w => equation_error w k).
Proof.
  apply additive_bit_xorb; [apply additive_gps_bit|].
  intros a b. pose proof (additive_xor_all (map (fun i w => gps_bit w i) (equation k))) as H.
  assert (Forall additive_bit (map (fun i w => gps_bit w i) (equation k))) as Hf.
  { apply List.Forall_forall. intros f Hf. apply in_map_iff in Hf as (i & <- & _).
    apply additive_gps_bit. }
  specialize (H Hf a b). cbv beta in H. rewrite !map_map in H. exact H.
Qed.

Lemma additive_if c (f : Z -> bool) : additive_bit f -> additive (fun w => if f w then c else 0).
Proof.
  intros Hf a b. rewrite (Hf a b). destruct (f a), (f b); cbn;
    now rewrite ?Z.lxor_nilpotent, ?Z.lxor_0_r, ?Z.lxor_0_l.
Qed.

Lemma additive_equations : additive equations_syndrome.
Proof.
  unfold equations_syndrome. cbn [map seq lxor_all foldr].
  repeat (apply additive_lxor; [apply additive_if, additive_error|]). intros a b. reflexivity.
Qed.

Lemma syndrome_equations w : 0 <= w < 2 ^ 32 -> syndrome w = equations_syndrome w.
Proof.
  apply (additive_ext syndrome equations_syndrome 32 additive_syndrome additive_equations).
  intros i Hi. apply Z.eqb_eq.
  assert (forallb (fun i => syndrome (2 ^ i) =? equations_syndrome (2 ^ i)) (map Z.of_nat (seq 0 32))
          = true) as H by (vm_compute; reflexivity).
  rewrite forallb_forall in H. apply H. apply in_map_iff. exists (Z.to_nat i).
  split; [lia|]. apply in_seq. lia.
Qed.

Lemma parity_check_equations w : 0 <= w < 2 ^ 32 -> gps_word_parityCheck w = equations_hold w.
Proof.
  intros Hw. rewrite parity_check_syndrome, syndrome_equations by exact Hw.
  unfold equations_syndrome, equations_hold. cbn [seq map forallb].
  destruct (equation_error w 0), (equation_error w 1), (equation_error w 2),
    (equation_error w 3), (equation_error w 4), (equation_error w 5); reflexivity.
Qed.

(** ** The distance of the code

    A received word with the two last bits of the word ahead, before the data
    bits are inverted. *)

Definition uninvert (w : Z) : Z :=
  if Z.land w 0x40000000 =? 0 then w else Z.lxor w 0x3FFFFFC0.

Definition raw_window (prev word : Z) : Z :=
  let word := if Z.land prev 1 =? 0 then word else Z.lor word 0x40000000 in
  if Z.land prev 2 =? 0 then word else Z.lor word 0x80000000.

Lemma extend_word_window prev word : extend_word prev word = uninvert (raw_window prev word).
Proof. reflexivity. Qed.

Lemma land_pow2_test w k : 0 <= k -> (Z.land w (2 ^ k) =? 0) = negb (Z.testbit w k).
Proof.
  intros Hk. destruct (Z.testbit w k) eqn:E.
  - apply Z.eqb_neq. intros H. apply (f_equal (fun z => Z.testbit z k)) in H.
    now rewrite Z.land_spec, E, Z.pow2_bits_true, Z.bits_0 in H by lia.
  - apply Z.eqb_eq, Z.bits_inj'. intros n Hn. rewrite Z.land_spec, Z.bits_0, Z.pow2_bits_eqb by lia.
    destruct (Z.eqb_spec k n) as [<-|]; [now rewrite E|apply andb_false_r].
Qed.

(** [uninvert] is linear: the mask is added when bit 30 is set. *)
Lemma uninvert_testbit w : uninvert w = Z.lxor w (if Z.testbit w 30 then 0x3FFFFFC0 else 0).
Proof.
  unfold uninvert. replace 0x40000000 with (2 ^ 30) by reflexivity.
  rewrite land_pow2_test by lia.
  destruct (Z.testbit w 30); cbn [negb]; [reflexivity|now rewrite Z.lxor_0_r].
Qed.

Lemma additive_uninvert : additive uninvert.
Proof.
  intros a b. rewrite !uninvert_testbit.
  apply (additive_lxor (fun w => w) (fun w => if Z.testbit w 30 then 0x3FFFFFC0 else 0));
    [apply additive_id|]. apply (additive_if _ (fun w => Z.testbit w 30)).
  apply additive_testbit, additive_id.
Qed.

Definition raw_syndrome (w : Z) : Z := syndrome (uninvert w).

Lemma additive_raw : additive raw_syndrome.
Proof. exact (additive_comp _ _ additive_syndrome additive_uninvert). Qed.

(** The syndromes of one, two and three wrong bits. *)
Definition columns : list Z := map (fun i => raw_syndrome (2 ^ Z.of_nat i)) (seq 0 32).

Definition columns_apart : bool :=
  forallb (fun i =>
    let a := vget 0 columns i in
    negb (a =? 0) &&
    forallb (fun j =>
      let b := Z.lxor a (vget 0 columns j) in
      (i =? j) || negb (b =? 0) &&
      forallb (fun k => (i =? k) || (j =? k) || negb (Z.lxor b (vget 0 columns k) =? 0))
        (seqZ 0 32)) (seqZ 0 32)) (seqZ 0 32).

Lemma columns_are_apart : columns_apart = true.
Proof. vm_compute. reflexivity. Qed.

Lemma column_is i : 0 <= i < 32 -> vget 0 columns i = raw_syndrome (2 ^ i).
Proof.
  intros Hi. unfold vget. destruct (Z.ltb_spec i 0); [lia|]. unfold columns.
  erewrite nth_indep by (rewrite length_map, length_seq; lia).
  rewrite (map_nth (fun i => raw_syndrome (2 ^ Z.of_nat i)) (seq 0 32) 0%nat).
  rewrite seq_nth by lia. f_equal. f_equal. lia.
Qed.

(** A wrong window with up to three wrong bits has a syndrome of its own. *)
Lemma few_bits_syndrome e : 0 < e < 2 ^ 32 -> (length (set_bits 32 e) <= 3)%nat -> raw_syndrome e <> 0.
Proof.
  intros He Hl. pose proof (set_bits_in 32 e) as Hin. pose proof (set_bits_nodup 32 e) as Hnd.
  rewrite (additive_bits raw_syndrome 32 e additive_raw) by (cbn; lia).
  pose proof (set_bits_sum 32 e) as Hsum. rewrite Z.mod_small in Hsum by (cbn; lia).
  pose proof columns_are_apart as Ha. unfold columns_apart in Ha. rewrite forallb_forall in Ha.
  destruct (set_bits 32 e) as [|i [|j [|k [|? ?]]]]; cbn [length] in Hl; try lia; [cbn in Hsum; lia| | |];
    cbn [map lxor_all foldr]; rewrite Z.lxor_0_r;
    specialize (Ha i ltac:(apply list_elem_of_In, elem_of_seqZ; apply (Hin i); now left));
    apply andb_true_iff in Ha as [Hi Ha]; rewrite column_is in Hi, Ha by (apply (Hin i); now left).
  - now apply negb_true_iff, Z.eqb_neq in Hi.
  - rewrite forallb_forall in Ha.
    specialize (Ha j ltac:(apply list_elem_of_In, elem_of_seqZ; apply (Hin j); right; now left)).
    rewrite column_is in Ha by (apply (Hin j); right; now left).
    apply orb_true_iff in Ha as [Ha|Ha].
    + apply Z.eqb_eq in Ha as ->. inversion Hnd as [|? ? Hx]. destruct Hx. now left.
    + apply andb_true_iff in Ha as [Ha _]. now apply negb_true_iff, Z.eqb_neq in Ha.
  - rewrite forallb_forall in Ha.
    specialize (Ha j ltac:(apply list_elem_of_In, elem_of_seqZ; apply (Hin j); right; now left)).
    rewrite column_is in Ha by (apply (Hin j); right; now left).
    inversion Hnd as [|? ? Hx Hnd' E]; subst. inversion Hnd' as [|? ? Hy Hnd'' E]; subst.
    apply orb_true_iff in Ha as [Ha|Ha].
    { apply Z.eqb_eq in Ha as ->. destruct Hx. now left. }
    apply andb_true_iff in Ha as [_ Ha]. rewrite forallb_forall in Ha.
    specialize (Ha k ltac:(apply list_elem_of_In, elem_of_seqZ; apply (Hin k); do 2 right; now left)).
    rewrite column_is in Ha by (apply (Hin k); do 2 right; now left).
    apply orb_true_iff in Ha as [Ha|Ha].
    { apply orb_true_iff in Ha as [Ha|Ha]; apply Z.eqb_eq in Ha as ->;
        [destruct Hx; right; now left|destruct Hy; now left]. }
    apply negb_true_iff, Z.eqb_neq in Ha. now rewrite Z.lxor_assoc in Ha.
Qed.

Lemma raw_check prev word : gps_word_parityCheck (extend_word prev word) =
  (raw_syndrome (raw_window prev word) =? 0).
Proof. rewrite parity_check_syndrome, extend_word_window. unfold raw_syndrome. reflexivity. Qed.

(** Two windows that pass the check are the same or differ in four bits. *)
Lemma windows_distance a b : 0 <= a < 2 ^ 32 -> 0 <= b < 2 ^ 32 ->
  raw_syndrome a = 0 -> raw_syndrome b = 0 -> a <> b -> (4 <= length (set_bits 32 (Z.lxor a b)))%nat.
Proof.
  intros Ha Hb Sa Sb Hne.
  destruct (le_lt_dec 4 (length (set_bits 32 (Z.lxor a b)))) as [|Hl]; [assumption|].
  exfalso. assert (0 <= Z.lxor a b < 2 ^ 32) as He.
  { split; [apply Z.lxor_nonneg; lia|].
    destruct (Z.eq_dec (Z.lxor a b) 0) as [->|Hn]; [lia|].
    assert (0 <= Z.lxor a b) by (apply Z.lxor_nonneg; lia).
    apply Z.log2_lt_pow2; [lia|].
    destruct (Z.eq_dec a 0) as [->|]; [rewrite Z.lxor_0_l in *; apply Z.log2_lt_pow2; lia|].
    destruct (Z.eq_dec b 0) as [->|]; [rewrite Z.lxor_0_r in *; apply Z.log2_lt_pow2; lia|].
    pose proof (Z.log2_lxor a b ltac:(lia) ltac:(lia)).
    assert (Z.log2 a < 32) by (apply Z.log2_lt_pow2; lia).
    assert (Z.log2 b < 32) by (apply Z.log2_lt_pow2; lia). lia. }
  assert (Z.lxor a b <> 0) by (rewrite Z.lxor_eq_0_iff; exact Hne).
  apply (few_bits_syndrome (Z.lxor a b)); [lia|lia|].
  rewrite (additive_raw a b), Sa, Sb. reflexivity.
Qed.
