(* ===== verification/GpsFrames.v ===== *)
(** * GpsFrames: from symbols to the words of a subframe

    What the loop of [decode_subframe] computes (GpsTlm): the ten words of a
    history of 300 symbols, whether the parity of all of them holds, and the
    bits that the message decoder reads; a subframe with up to three wrong
    symbols is never accepted. *)

From S2P Require Import Prelude Cstring BinString Float64 InavWords InavReaders FieldLayout GpsTables GpsMessage GpsTlm GpsParity.
From stdpp Require Import list.
From Stdlib Require Import ZArith Lia SpecFloat.
Local Open Scope Z_scope.
Local Open Scope cxx_scope.

(** ** The words of a list of bits *)

(** Each chunk of bits makes a word, with the last bits of the word ahead. *)
Fixpoint words_of (prev : Z) (chunks : list (list bool)) : list Z :=
  match chunks with
  | [] => []
  | c :: chunks => let w := extend_word prev (bin_value c) in w :: words_of w chunks
  end.

Definition is_word (c : list bool) : Prop := length c = 30%nat.

Lemma length_words_of prev chunks : length (words_of prev chunks) = length chunks.
Proof. revert prev. induction chunks as [|c chunks IH]; intros prev; [reflexivity|]. cbn. now rewrite IH. Qed.

(** ** The loop over the history *)

Lemma collect_app flag_invert h1 h2 s : collect_words flag_invert (h1 ++ h2) s =
  (let* s := collect_words flag_invert h1 s in collect_words flag_invert h2 s).
Proof.
  revert s. induction h1 as [|x h1 IH]; intros s; [reflexivity|]. cbn [app collect_words].
  destruct (add_symbol flag_invert s x) as [s'|e]; [apply IH|reflexivity].
Qed.

(** Within a word the bits are shifted in; the last shift leaves a zero. *)
Lemma collect_part flag_invert h acc s :
  GPS_frame_4bytes s = 2 * bin_value acc -> frame_bit_index s = Z.of_nat (length acc) ->
  (length acc + length h < 30)%nat ->
  collect_words flag_invert h s =
    Returns (s <| GPS_frame_4bytes := 2 * bin_value (acc ++ map (symbol_bit flag_invert) h) |>
               <| frame_bit_index := Z.of_nat (length acc + length h) |>).
Proof.
  revert acc s. induction h as [|x h IH]; intros acc s Hw Hi Hl.
  - cbn [map collect_words]. rewrite app_nil_r, Nat.add_0_r, <- Hw, <- Hi. now destruct s.
  - cbn [collect_words length] in *.
    pose proof (bin_value_range (acc ++ [symbol_bit flag_invert x])) as Hr.
    rewrite length_app in Hr. cbn [length] in Hr.
    assert (2 ^ Z.of_nat (length acc + 1) <= 2 ^ 29) by (apply Z.pow_le_mono_r; lia).
    assert (add_symbol flag_invert s x = Returns
      (s <| GPS_frame_4bytes := 2 * bin_value (acc ++ [symbol_bit flag_invert x]) |>
         <| frame_bit_index := Z.of_nat (length (acc ++ [symbol_bit flag_invert x])) |>)) as ->.
    { unfold add_symbol. rewrite bin_value_snoc in *. rewrite length_app. cbn [length].
      destruct (symbol_bit flag_invert x); cbn [Z.b2z] in *; cbn; rewrite Hi;
        (destruct (Z.eqb_spec (Z.succ (Z.of_nat (length acc))) 30); [lia|]);
        f_equal; unfold update; cbn -[Z.mul Z.pow]; rewrite Hw; f_equal; try lia;
        rewrite ?(wrap_small 32 (2 * bin_value acc + 1)) by lia;
        rewrite Z.shiftl_mul_pow2, wrap_small by lia; lia. }
    cbn [outcome_bind]. rewrite (IH (acc ++ [symbol_bit flag_invert x])).
    + rewrite <- app_assoc, length_app. cbn [app length]. now rewrite <- Nat.add_assoc.
    + reflexivity.
    + reflexivity.
    + rewrite length_app. cbn. lia.
Qed.

(** At the start of a word. *)
Definition at_word (s : frame_state) : Prop := GPS_frame_4bytes s = 0 /\ frame_bit_index s = 0.

Definition store_word (w : Z) (s : frame_state) : frame_state := {|
  GPS_frame_4bytes := 0;
  frame_bit_index := 0;
  word_index := word_index s + 1;
  prev_GPS_frame_4bytes := w;
  subframe_synchro_confirmation := subframe_synchro_confirmation s && gps_word_parityCheck w;
  subframe := vset (subframe s) (word_index s) w |}.

Lemma collect_word flag_invert h s : at_word s -> length h = 30%nat -> 0 <= word_index s < 10 ->
  collect_words flag_invert h s = Returns (store_word
    (extend_word (prev_GPS_frame_4bytes s) (bin_value (map (symbol_bit flag_invert) h))) s).
Proof.
  intros [H0 Hi] Hl Hw.
  destruct (exists_last (l := h)) as (h' & x & ->); [now intros ->|].
  rewrite length_app in Hl. cbn in Hl. rewrite collect_app.
  rewrite (collect_part flag_invert h' []) by (cbn; lia || exact H0 || exact Hi).
  cbn [app outcome_bind collect_words]. rewrite map_app. cbn [map].
  set (bits := map (symbol_bit flag_invert) h').
  assert (length bits = 29%nat) as Hb by (unfold bits; rewrite length_map; lia).
  pose proof (bin_value_range (bits ++ [symbol_bit flag_invert x])) as Hr.
  rewrite length_app, Hb in Hr. rewrite bin_value_snoc in *. cbn in Hr.
  unfold add_symbol, end_of_word, store_word.
  replace (length [] + length h')%nat with 29%nat by (cbn; lia).
  destruct (symbol_bit flag_invert x); cbn -[extend_word gps_word_parityCheck vset bin_value] in *.
  - rewrite wrap_small by lia. destruct (Z.leb_spec ((word_index s + 1) * GPS_WORD_LENGTH) GPS_SUBFRAME_LENGTH);
      [reflexivity|unfold GPS_WORD_LENGTH, GPS_SUBFRAME_LENGTH in *; lia].
  - rewrite Z.add_0_r. destruct (Z.leb_spec ((word_index s + 1) * GPS_WORD_LENGTH) GPS_SUBFRAME_LENGTH);
      [reflexivity|unfold GPS_WORD_LENGTH, GPS_SUBFRAME_LENGTH in *; lia].
Qed.

(** All the words of a history. *)
Definition store_words (ws : list Z) (s : frame_state) : frame_state :=
  foldl (fun s w => store_word w s) s ws.

Lemma collect_chunks flag_invert hs s : at_word s -> Forall (fun h => length h = 30%nat) hs ->
  0 <= word_index s -> word_index s + Z.of_nat (length hs) <= 10 ->
  collect_words flag_invert (concat hs) s = Returns (store_words
    (words_of (prev_GPS_frame_4bytes s) (map (map (symbol_bit flag_invert)) hs)) s).
Proof.
  intros Hs Hhs. revert s Hs. induction Hhs as [|h hs Hh _ IH]; intros s Hs H0 Hn; [reflexivity|].
  cbn [concat length map words_of] in *. rewrite collect_app, collect_word by (assumption || lia).
  cbn [outcome_bind]. rewrite IH; [reflexivity| | |]; cbn [store_word word_index];
    [split; reflexivity|lia|lia].
Qed.

Lemma last_cons_default {A} (ws : list A) w d : List.last (w :: ws) d = List.last ws w.
Proof.
  revert w d. induction ws as [|a ws IH]; intros w d; [reflexivity|].
  transitivity (List.last (a :: ws) d); [reflexivity|]. now rewrite !IH.
Qed.

Lemma store_words_spec ws s : 0 <= word_index s -> at_word s ->
  let s' := store_words ws s in
  prev_GPS_frame_4bytes s' = List.last ws (prev_GPS_frame_4bytes s) /\
  subframe_synchro_confirmation s' =
    subframe_synchro_confirmation s && forallb gps_word_parityCheck ws /\
  length (subframe s') = length (subframe s) /\
  forall i, 0 <= i -> word_index s + Z.of_nat (length ws) <= Z.of_nat (length (subframe s)) ->
    vget 0 (subframe s') i =
      if (word_index s <=? i) && (i <? word_index s + Z.of_nat (length ws))
      then vget 0 ws (i - word_index s) else vget 0 (subframe s) i.
Proof.
  cbv zeta. revert s. induction ws as [|w ws IH]; intros s H0 Hs.
  { cbn. rewrite andb_true_r. split; [reflexivity|split; [reflexivity|split; [reflexivity|]]].
    intros i Hi _. destruct (Z.leb_spec (word_index s) i), (Z.ltb_spec i (word_index s + Z.of_nat 0));
      try reflexivity; lia. }
  cbn [store_words foldl]. fold (store_words ws (store_word w s)).
  destruct (IH (store_word w s)) as (E1 & E2 & E3 & E4); [cbn; lia|split; reflexivity|].
  rewrite E1, E2, E3. cbn [store_word prev_GPS_frame_4bytes subframe_synchro_confirmation subframe word_index] in *.
  rewrite length_vset in *. split; [|split; [|split]].
  - symmetry. apply last_cons_default.
  - cbn [forallb]. now rewrite andb_assoc.
  - reflexivity.
  - intros i Hi Hn. cbn [length] in Hn. rewrite E4 by lia. cbn [length].
    destruct (Z.eq_dec i (word_index s)) as [->|Hne].
    + destruct (Z.leb_spec (word_index s + 1) (word_index s)); [lia|]. cbn [andb].
      rewrite vget_vset_eq by (unfold in_range; lia). rewrite Z.leb_refl.
      destruct (Z.ltb_spec (word_index s) (word_index s + Z.of_nat (S (length ws)))); [|lia].
      cbn [andb]. now rewrite Z.sub_diag.
    + rewrite vget_vset_ne by lia.
      destruct (Z.leb_spec (word_index s + 1) i), (Z.leb_spec (word_index s) i); try lia; cbn [andb]; [|reflexivity].
      destruct (Z.ltb_spec i (word_index s + 1 + Z.of_nat (length ws))),
        (Z.ltb_spec i (word_index s + Z.of_nat (S (length ws)))); try lia.
      unfold vget. destruct (Z.ltb_spec (i - (word_index s + 1)) 0), (Z.ltb_spec (i - word_index s) 0); try lia.
      replace (Z.to_nat (i - word_index s)) with (S (Z.to_nat (i - (word_index s + 1)))) by lia.
      reflexivity.
Qed.

(** The ten chunks of a history of 300 symbols. *)
Definition frame_chunks {A} (l : list A) : list (list A) :=
  map (fun k => take 30 (drop (30 * k) l)) (seq 0 10).

Lemma frame_chunks_concat {A} (l : list A) : length l = 300%nat -> concat (frame_chunks l) = l.
Proof.
  intros Hl. unfold frame_chunks. rewrite concat_chunks. apply take_ge. lia.
Qed.

Lemma frame_chunks_length {A} (l : list A) : length l = 300%nat ->
  Forall (fun h => length h = 30%nat) (frame_chunks l).
Proof.
  intros Hl. apply Forall_map, Forall_seq. intros k Hk. rewrite length_take, length_drop. lia.
Qed.

Lemma map_frame_chunks {A B} (f : A -> B) l : map (map f) (frame_chunks l) = frame_chunks (map f l).
Proof.
  unfold frame_chunks. rewrite map_map. apply map_ext. intros k.
  now rewrite skipn_map, firstn_map.
Qed.

(** The words of the history. *)
Definition history_words (flag_invert : bool) (d : gps_tlm) : list Z :=
  words_of (d_prev_GPS_frame_4bytes d)
    (frame_chunks (map (symbol_bit flag_invert) (d_symbol_history d))).

Lemma history_words_length flag_invert d : length (history_words flag_invert d) = 10%nat.
Proof. unfold history_words. now rewrite length_words_of. Qed.

(** [decode_subframe] on a full history: the parity of every word decides. *)
Lemma decode_subframe_spec flag_invert d : length (d_symbol_history d) = 300%nat ->
  decode_subframe flag_invert d =
    (let ws := history_words flag_invert d in
     let d' := d <| d_prev_GPS_frame_4bytes := List.last ws (d_prev_GPS_frame_4bytes d) |> in
     if forallb gps_word_parityCheck ws then accept_subframe ws d' else (Returns false, d')).
Proof.
  intros Hl. cbv zeta.
  pose proof (collect_chunks flag_invert (frame_chunks (d_symbol_history d))
    (new_frame_state (d_prev_GPS_frame_4bytes d))) as H.
  rewrite frame_chunks_concat, map_frame_chunks in H by exact Hl.
  specialize (H ltac:(split; reflexivity) (frame_chunks_length _ Hl) ltac:(cbn; lia) ltac:(cbn; lia)).
  cbn [prev_GPS_frame_4bytes new_frame_state] in H. fold (history_words flag_invert d) in H.
  unfold decode_subframe. rewrite run_gets. unfold bind at 1, lift. cbn [id]. unfold id.
  change (mkframe_state 0 0 0 (d_prev_GPS_frame_4bytes d) true (replicate 10 0))
    with (new_frame_state (d_prev_GPS_frame_4bytes d)) in H.
  rewrite H, run_modify.
  pose proof (history_words_length flag_invert d) as Hw.
  destruct (store_words_spec (history_words flag_invert d) (new_frame_state (d_prev_GPS_frame_4bytes d)))
    as (E1 & E2 & E3 & E4); [cbn; lia|split; reflexivity|].
  rewrite E1, E2. cbn [subframe_synchro_confirmation prev_GPS_frame_4bytes new_frame_state andb].
  assert (subframe (store_words (history_words flag_invert d)
    (new_frame_state (d_prev_GPS_frame_4bytes d))) = history_words flag_invert d) as ->.
  { apply (vget_ext 0); [rewrite E3, Hw; reflexivity|]. intros i Hi.
    rewrite E3 in Hi. unfold in_range in Hi. cbn [subframe new_frame_state] in Hi.
    rewrite length_replicate in Hi. rewrite E4; [|lia|rewrite Hw; cbn; lia].
    cbn [word_index new_frame_state]. rewrite Hw, Z.sub_0_r.
    destruct (Z.leb_spec 0 i), (Z.ltb_spec i (0 + Z.of_nat 10)); try lia. reflexivity. }
  destruct (forallb _ _); reflexivity.
Qed.

(** ** Wrong symbols *)

Fixpoint differences (a b : list bool) : nat :=
  match a, b with
  | x :: a, y :: b => (if xorb x y then 1 else 0) + differences a b
  | _, _ => 0
  end.

Lemma differences_0 a b : length a = length b -> differences a b = 0%nat -> a = b.
Proof.
  revert b. induction a as [|x a IH]; intros [|y b] Hl Hd; cbn in *; try discriminate; [reflexivity|].
  destruct x, y; cbn in *; try lia; f_equal; apply IH; lia.
Qed.

Lemma differences_app a b a' b' : length a = length b ->
  differences (a ++ a') (b ++ b') = (differences a b + differences a' b')%nat.
Proof.
  revert b. induction a as [|x a IH]; intros [|y b] Hl; cbn in *; try discriminate; [reflexivity|].
  rewrite IH by lia. lia.
Qed.

Lemma differences_refl a : differences a a = 0%nat.
Proof. induction a as [|x a IH]; [reflexivity|]. cbn. now rewrite xorb_nilpotent. Qed.

(** The bits of a binary numeral. *)
Lemma testbit_bin_value x a i : 0 <= i -> Z.testbit (bin_value (x :: a)) i =
  if i =? Z.of_nat (length a) then x else Z.testbit (bin_value a) i.
Proof.
  intros Hi. pose proof (bin_value_range a) as Hr. pose proof (bin_value_range (x :: a)) as Hr'.
  cbn [length] in Hr'. destruct (Z.eqb_spec i (Z.of_nat (length a))) as [->|Hne].
  - rewrite bin_value_cons, Z.testbit_eqb, Z.div_add_l, Z.div_small by lia. destruct x; reflexivity.
  - destruct (Z_lt_ge_dec i (Z.of_nat (length a))) as [Hlt|Hge].
    + rewrite <- (Z.mod_pow2_bits_low _ (Z.of_nat (length a)) i) by lia.
      rewrite bin_value_cons, Z.add_comm, Z.mod_add, Z.mod_small by lia. reflexivity.
    + rewrite <- (Z.mod_small _ _ Hr), <- (Z.mod_small _ _ Hr').
      rewrite !Z.mod_pow2_bits_high by lia. reflexivity.
Qed.

Lemma testbit_bin_value_high a i : Z.of_nat (length a) <= i -> Z.testbit (bin_value a) i = false.
Proof.
  intros Hi. pose proof (bin_value_range a) as Hr. rewrite <- (Z.mod_small _ _ Hr).
  apply Z.mod_pow2_bits_high. lia.
Qed.

Lemma set_bits_ext n w w' : (forall i, 0 <= i < Z.of_nat n -> Z.testbit w i = Z.testbit w' i) ->
  set_bits n w = set_bits n w'.
Proof.
  intros H. induction n as [|n IH]; [reflexivity|]. rewrite !set_bits_S, IH by (intros; apply H; lia).
  now rewrite (H (Z.of_nat n)) by lia.
Qed.

Lemma differences_bits a b : length a = length b ->
  length (set_bits (length a) (Z.lxor (bin_value a) (bin_value b))) = differences a b.
Proof.
  revert b. induction a as [|x a IH]; intros [|y b] Hl; cbn [length differences] in *; try discriminate;
    [reflexivity|].
  rewrite set_bits_S, length_app, Z.lxor_spec, !testbit_bin_value by lia.
  injection Hl as Hl. rewrite <- Hl, Z.eqb_refl.
  rewrite (set_bits_ext _ _ (Z.lxor (bin_value a) (bin_value b))).
  - rewrite IH by exact Hl. destruct (xorb x y); cbn; lia.
  - intros i Hi. rewrite !Z.lxor_spec, !testbit_bin_value, <- Hl by lia.
    destruct (Z.eqb_spec i (Z.of_nat (length a))); [lia|reflexivity].
Qed.

(** The window of a word: the two bits ahead and the thirty of the word. *)
Lemma raw_window_bits prev c : is_word c ->
  raw_window prev (bin_value c) = bin_value (Z.testbit prev 1 :: Z.testbit prev 0 :: c).
Proof.
  intros Hc. unfold raw_window. replace 0x40000000 with (2 ^ 30) by reflexivity.
  replace 0x80000000 with (2 ^ 31) by reflexivity.
  replace (Z.land prev 1) with (Z.land prev (2 ^ 0)) by reflexivity.
  replace (Z.land prev 2) with (Z.land prev (2 ^ 1)) by reflexivity.
  rewrite !land_pow2_test by lia. apply Z.bits_inj'. intros i Hi.
  rewrite !testbit_bin_value by lia. cbn [length]. rewrite Hc.
  change (Z.of_nat 31) with 31. change (Z.of_nat 30) with 30.
  pose proof (testbit_bin_value_high c) as Hh. rewrite Hc in Hh.
  assert (forall (b : bool) w k, 0 <= k ->
    Z.testbit (if negb b then w else Z.lor w (2 ^ k)) i = Z.testbit w i || (b && (k =? i))) as Hlor.
  { intros b w k Hk. destruct b; cbn [negb andb]; [|now rewrite orb_false_r].
    now rewrite Z.lor_spec, Z.pow2_bits_eqb by lia. }
  rewrite !Hlor, (Z.eqb_sym i 31), (Z.eqb_sym i 30) by lia.
  destruct (Z.eqb_spec 31 i) as [<-|]; [rewrite Hh by lia; now rewrite andb_false_r, andb_true_r|].
  destruct (Z.eqb_spec 30 i) as [<-|]; [rewrite Hh by lia; now rewrite andb_false_r, andb_true_r, orb_false_r|].
  now rewrite !andb_false_r, !orb_false_r.
Qed.

Lemma wrong_word_rejected prev c c' : is_word c -> is_word c' ->
  gps_word_parityCheck (extend_word prev (bin_value c)) = true ->
  (1 <= differences c c' <= 3)%nat ->
  gps_word_parityCheck (extend_word prev (bin_value c')) = false.
Proof.
  intros Hc Hc' Hok Hd. rewrite raw_check in *. apply Z.eqb_eq in Hok.
  destruct (Z.eqb_spec (raw_syndrome (raw_window prev (bin_value c'))) 0) as [Hbad|]; [|reflexivity].
  exfalso. rewrite raw_window_bits in Hok, Hbad by assumption.
  set (l := Z.testbit prev 1 :: Z.testbit prev 0 :: c) in *.
  set (l' := Z.testbit prev 1 :: Z.testbit prev 0 :: c') in *.
  assert (length l = 32%nat /\ length l' = 32%nat) as [Hl Hl'] by (unfold l, l', is_word in *; cbn; lia).
  assert (differences l l' = differences c c') as Hdl.
  { unfold l, l'. cbn. now rewrite !xorb_nilpotent. }
  pose proof (bin_value_range l) as Hr. pose proof (bin_value_range l') as Hr'. rewrite Hl in Hr. rewrite Hl' in Hr'.
  pose proof (windows_distance (bin_value l) (bin_value l') Hr Hr' Hok Hbad) as H.
  rewrite <- Hl, differences_bits in H by lia.
  assert (bin_value l <> bin_value l') as Hne.
  { intros E. apply bin_value_inj in E; [|lia]. rewrite E, differences_refl in Hdl. lia. }
  specialize (H Hne). lia.
Qed.

Lemma words_ok_cons prev c chunks : forallb gps_word_parityCheck (words_of prev (c :: chunks)) =
  gps_word_parityCheck (extend_word prev (bin_value c))
  && forallb gps_word_parityCheck (words_of (extend_word prev (bin_value c)) chunks).
Proof. reflexivity. Qed.

Lemma wrong_words_rejected prev chunks chunks' :
  Forall is_word chunks -> Forall is_word chunks' -> length chunks = length chunks' ->
  forallb gps_word_parityCheck (words_of prev chunks) = true ->
  (1 <= differences (concat chunks) (concat chunks') <= 3)%nat ->
  forallb gps_word_parityCheck (words_of prev chunks') = false.
Proof.
  intros Hc. revert prev chunks'. induction Hc as [|c chunks Hc _ IH]; intros prev [|c' chunks'] Hc' Hl Hok Hd;
    cbn [length concat] in *; try discriminate; [cbn in Hd; lia|].
  rewrite words_ok_cons in *. apply Forall_cons in Hc' as [Hw Hc']. apply andb_true_iff in Hok as [Hok1 Hok2].
  rewrite differences_app in Hd by (unfold is_word in *; lia).
  destruct (Nat.eq_dec (differences c c') 0) as [E|E].
  - apply differences_0 in E; [|unfold is_word in *; lia]. subst c'. rewrite Hok1. cbn [andb].
    apply IH; try assumption; [lia|]. rewrite differences_refl in Hd. lia.
  - rewrite (wrong_word_rejected prev c c'); [reflexivity|assumption|assumption|exact Hok1|lia].
Qed.

(** ** The bits that the message decoder reads *)

(** The data and parity bits of ten words, in the order of transmission. *)
Definition word_bits (ws : list Z) : list bool := concat (map (to_bin 30) ws).

Lemma unpack_words_loop ws :
  length (unpack_words ws) = 300%nat /\
  forall i j, 0 <= i < 10 -> 0 <= j < 30 ->
    vget false (unpack_words ws) (30 * (9 - i) + j) = Z.testbit (vget 0 ws i) j.
Proof.
  unfold unpack_words.
  apply (for_range_ind (fun k r => length r = 300%nat /\
    forall i j, 0 <= i < k -> 0 <= j < 30 -> vget false r (30 * (9 - i) + j) = Z.testbit (vget 0 ws i) j));
    [lia|split; [apply length_replicate|intros; lia]|].
  intros k r Hk [Hl Hr].
  destruct (vset_loop false (fun j => GPS_WORD_BITS * (9 - k) + j)
    (fun j => vget false (bitset_of_ulong 32 (vget 0 ws k)) j) 0 GPS_WORD_BITS r) as (E1 & E2 & E3);
    [unfold GPS_WORD_BITS; lia|intros; lia|unfold in_range, GPS_WORD_BITS; intros; lia|].
  unfold GPS_WORD_BITS in *. split; [lia|]. intros i j Hi Hj.
  destruct (Z.eq_dec i k) as [->|Hne].
  - rewrite E2 by lia. unfold bitset_of_ulong. rewrite vget_rev by (rewrite length_to_bin; lia).
    rewrite length_to_bin, vget_to_bin by lia. f_equal. lia.
  - rewrite E3 by (intros; lia). apply Hr; lia.
Qed.

Lemma unpack_words_bits ws : length ws = 10%nat -> unpack_words ws = rev (word_bits ws).
Proof.
  intros Hw. destruct (unpack_words_loop ws) as [Hl Hr].
  assert (length (word_bits ws) = 300%nat) as Hb.
  { unfold word_bits. rewrite (concat_length_const _ 30), Hw; [reflexivity|].
    apply Forall_forall. intros w _. apply length_to_bin. }
  apply (vget_ext false); [rewrite length_rev; lia|]. intros q Hq. rewrite Hl in Hq.
  rewrite vget_rev, Hb by lia.
  assert (exists i j, 0 <= i < 10 /\ 0 <= j < 30 /\ q = 30 * (9 - i) + j) as (i & j & Hi & Hj & ->)
    by (exists (9 - q / 30), (q mod 30); pose proof (Z.div_mod q 30); pose proof (Z.mod_pos_bound q 30); lia).
  rewrite Hr by lia.
  replace (Z.of_nat 300 - 1 - (30 * (9 - i) + j)) with (30 * i + (29 - j)) by lia.
  unfold word_bits. rewrite (vget_concat false 30) by
    (try lia; apply Forall_map, Forall_forall; intros w _; unfold compose; now rewrite length_to_bin).
  rewrite (vget_fmap 0) by (unfold in_range; lia).
  rewrite vget_to_bin by lia. f_equal. lia.
Qed.
