(* ===== verification/GpsEncode.v ===== *)
(** * GpsEncode: a GPS subframe as IS-GPS-200 transmits it, and its decoding

    The reference encoder: the data bits of a subframe, the parity of its words
    and the values of its fields.  The block (GpsTlm) accepts what the encoder
    makes, in either polarity, and the message decoder (GpsMessage) reads the
    fields back. *)

From S2P Require Import Prelude Cstring BinString Float64 InavTables InavWords InavReaders GpsTables GpsMessage GpsTlm GpsParity FieldLayout GpsFrames.
From stdpp Require Import list.
From Stdlib Require Import ZArith Lia.
Local Open Scope Z_scope.
Local Open Scope cxx_scope.

(** ** Words *)

(** The bits on the right-hand sides of the equations. *)
Definition source_bit (D29 D30 : bool) (data : list bool) (i : Z) : bool :=
  if i =? -1 then D29 else if i =? 0 then D30 else vget false data (i - 1).

Definition parity_bits (D29 D30 : bool) (data : list bool) : list bool :=
  map (fun e => xor_all (map (source_bit D29 D30 data) e)) parity_equations.

(** The 24 data bits, inverted when the last bit of the word ahead is set, and
    the six parity bits. *)
Definition encode_word (D29 D30 : bool) (data : list bool) : list bool :=
  map (xorb D30) data ++ parity_bits D29 D30 data.

Fixpoint encode_words (D29 D30 : bool) (datas : list (list bool)) : list (list bool) :=
  match datas with
  | [] => []
  | data :: datas =>
      let c := encode_word D29 D30 data in
      c :: encode_words (vget false c 28) (vget false c 29) datas
  end.

Definition is_data (data : list bool) : Prop := length data = 24%nat.

Lemma encode_word_length D29 D30 data : is_data data -> is_word (encode_word D29 D30 data).
Proof. intros H. unfold is_word, encode_word, is_data in *. rewrite length_app, length_map, H. reflexivity. Qed.

Lemma encode_words_length D29 D30 datas : length (encode_words D29 D30 datas) = length datas.
Proof.
  revert D29 D30. induction datas as [|data datas IH]; intros D29 D30; [reflexivity|].
  cbn [encode_words length]. now rewrite IH.
Qed.

Lemma encode_words_are_words D29 D30 datas : Forall is_data datas ->
  Forall is_word (encode_words D29 D30 datas).
Proof.
  intros H. revert D29 D30. induction H as [|data datas Hd _ IH]; intros D29 D30; constructor; [|apply IH].
  now apply encode_word_length.
Qed.

(** The bits of a numeral, by position. *)
Lemma testbit_vget l i : 0 <= i < Z.of_nat (length l) ->
  Z.testbit (bin_value l) i = vget false l (Z.of_nat (length l) - 1 - i).
Proof.
  intros Hi. rewrite <- (to_bin_bin_value l) at 2. rewrite vget_to_bin by lia. f_equal. lia.
Qed.

Lemma lxor_bin_value a b : length a = length b ->
  Z.lxor (bin_value a) (bin_value b) = bin_value (zip_with xorb a b).
Proof.
  revert b. induction a as [|x a IH]; intros [|y b] Hl; cbn in Hl; try discriminate; [reflexivity|].
  injection Hl as Hl. apply Z.bits_inj'. intros i Hi. cbn [zip_with].
  rewrite Z.lxor_spec, !testbit_bin_value by lia. rewrite length_zip_with, <- Hl, Nat.min_id.
  destruct (Z.eqb_spec i (Z.of_nat (length a))) as [E|E]; [reflexivity|].
  now rewrite <- Z.lxor_spec, IH.
Qed.

(** The decoded word: the two bits ahead, the data and the parity. *)
Definition decoded_bits (D29 D30 : bool) (data : list bool) : list bool :=
  D29 :: D30 :: data ++ parity_bits D29 D30 data.

Lemma decoded_length D29 D30 data : is_data data -> length (decoded_bits D29 D30 data) = 32%nat.
Proof. intros H. unfold decoded_bits, is_data in *. cbn [length]. rewrite length_app, H. reflexivity. Qed.

Lemma xor_data D30 data n : length data = n ->
  zip_with xorb (map (xorb D30) data) (replicate n D30) = data.
Proof.
  intros <-. induction data as [|x data IH]; [reflexivity|]. cbn. rewrite IH. f_equal. destruct D30, x; reflexivity.
Qed.

Lemma xor_zeros l n : length l = n -> zip_with xorb l (replicate n false) = l.
Proof. intros <-. induction l as [|x l IH]; [reflexivity|]. cbn. rewrite IH. f_equal. apply xorb_false_r. Qed.

Lemma encoded_word_extends prev data : is_data data ->
  let D29 := Z.testbit prev 1 in let D30 := Z.testbit prev 0 in
  extend_word prev (bin_value (encode_word D29 D30 data)) = bin_value (decoded_bits D29 D30 data).
Proof.
  intros Hd. cbv zeta. rewrite extend_word_window, raw_window_bits by now apply encode_word_length.
  set (D29 := Z.testbit prev 1). set (D30 := Z.testbit prev 0).
  rewrite uninvert_testbit. set (l := D29 :: D30 :: encode_word D29 D30 data).
  assert (length l = 32%nat) as Hl.
  { unfold l. cbn [length]. pose proof (encode_word_length D29 D30 data Hd) as H. unfold is_word in H. now rewrite H. }
  rewrite testbit_vget by (rewrite Hl; lia). rewrite Hl. change (vget false l (Z.of_nat 32 - 1 - 30)) with D30.
  assert ((if D30 then 0x3FFFFFC0 else 0) =
    bin_value (replicate 2 false ++ replicate 24 D30 ++ replicate 6 false)) as ->
    by (destruct D30; vm_compute; reflexivity).
  rewrite lxor_bin_value by exact Hl. f_equal. unfold l, decoded_bits, encode_word. change (replicate 2 false) with [false; false].
  cbn [app zip_with].
  rewrite !xorb_false_r. do 2 f_equal.
  rewrite zip_with_app by (rewrite length_map, length_replicate; exact Hd).
  f_equal; [now apply xor_data|now apply xor_zeros].
Qed.

(** The encoder satisfies the equations. *)
Lemma decoded_bit D29 D30 data i : is_data data -> -1 <= i <= 24 ->
  gps_bit (bin_value (decoded_bits D29 D30 data)) i = source_bit D29 D30 data i.
Proof.
  intros Hd Hi. unfold gps_bit. pose proof (decoded_length D29 D30 data Hd) as Hl.
  rewrite testbit_vget by (rewrite Hl; lia). rewrite Hl. unfold source_bit, decoded_bits.
  destruct (Z.eqb_spec i (-1)) as [->|]; [reflexivity|]. destruct (Z.eqb_spec i 0) as [->|]; [reflexivity|].
  unfold vget. destruct (Z.ltb_spec (Z.of_nat 32 - 1 - (30 - i)) 0), (Z.ltb_spec (i - 1) 0); try lia.
  replace (Z.to_nat (Z.of_nat 32 - 1 - (30 - i))) with (S (S (Z.to_nat (i - 1)))) by lia. cbn [nth].
  apply app_nth1. unfold is_data in Hd. lia.
Qed.

Lemma decoded_parity D29 D30 data k : is_data data -> (k < 6)%nat ->
  gps_bit (bin_value (decoded_bits D29 D30 data)) (25 + Z.of_nat k) =
  xor_all (map (source_bit D29 D30 data) (equation k)).
Proof.
  intros Hd Hk. unfold gps_bit. pose proof (decoded_length D29 D30 data Hd) as Hl.
  rewrite testbit_vget by (rewrite Hl; lia). rewrite Hl. unfold decoded_bits.
  unfold vget. destruct (Z.ltb_spec (Z.of_nat 32 - 1 - (30 - (25 + Z.of_nat k))) 0); [lia|].
  replace (Z.to_nat (Z.of_nat 32 - 1 - (30 - (25 + Z.of_nat k)))) with (S (S (length data + k)))
    by (unfold is_data in Hd; lia). cbn [nth].
  rewrite app_nth2 by lia. replace (length data + k - length data)%nat with k by lia.
  unfold parity_bits, equation. erewrite nth_indep by (rewrite length_map; cbn; lia).
  apply (map_nth (fun e => xor_all (map (source_bit D29 D30 data) e))).
Qed.

Lemma encoded_word_ok prev data : is_data data ->
  gps_word_parityCheck (extend_word prev
    (bin_value (encode_word (Z.testbit prev 1) (Z.testbit prev 0) data))) = true.
Proof.
  intros Hd. rewrite encoded_word_extends by exact Hd.
  set (D29 := Z.testbit prev 1). set (D30 := Z.testbit prev 0).
  pose proof (bin_value_range (decoded_bits D29 D30 data)) as Hr. rewrite decoded_length in Hr by exact Hd.
  rewrite parity_check_equations by exact Hr. apply forallb_forall. intros k Hk. apply in_seq in Hk.
  unfold equation_error. rewrite decoded_parity by (exact Hd || lia).
  rewrite (map_ext_in (gps_bit (bin_value (decoded_bits D29 D30 data))) (source_bit D29 D30 data) (equation k)).
  - now rewrite xorb_nilpotent.
  - intros i Hi. apply decoded_bit; [exact Hd|].
    assert (forallb (fun e => forallb (fun i => (-1 <=? i) && (i <=? 24)) e) parity_equations = true) as H
      by reflexivity.
    rewrite forallb_forall in H. specialize (H (equation k)).
    rewrite forallb_forall in H. specialize (H ltac:(apply nth_In; cbn; lia) i Hi). lia.
Qed.

Lemma vget_app_right {A} (d : A) a b k : 0 <= k -> vget d (a ++ b) (Z.of_nat (length a) + k) = vget d b k.
Proof.
  intros Hk. unfold vget. destruct (Z.ltb_spec (Z.of_nat (length a) + k) 0), (Z.ltb_spec k 0); try lia.
  rewrite app_nth2 by lia. f_equal. lia.
Qed.

Lemma next_bits D29 D30 data : is_data data ->
  let w := bin_value (decoded_bits D29 D30 data) in let c := encode_word D29 D30 data in
  Z.testbit w 1 = vget false c 28 /\ Z.testbit w 0 = vget false c 29.
Proof.
  intros Hd. cbv zeta. pose proof (decoded_length D29 D30 data Hd) as Hl.
  rewrite !testbit_vget by (rewrite Hl; lia). rewrite Hl. unfold is_data in Hd.
  assert (forall k, 0 <= k ->
    vget false (decoded_bits D29 D30 data) (26 + k) = vget false (encode_word D29 D30 data) (24 + k)) as H.
  { intros k Hk. unfold encode_word. replace 24 with (Z.of_nat (length (map (xorb D30) data)))
      by (rewrite length_map, Hd; reflexivity).
    rewrite vget_app_right by exact Hk. unfold decoded_bits.
    replace 26 with (Z.of_nat (length (D29 :: D30 :: data))) by (cbn [length]; rewrite Hd; reflexivity).
    apply (vget_app_right false (D29 :: D30 :: data)), Hk. }
  split; [exact (H 4 ltac:(lia))|exact (H 5 ltac:(lia))].
Qed.

Lemma low_bits x y l : to_bin (length l) (bin_value (x :: y :: l)) = l.
Proof.
  rewrite <- (to_bin_bin_value l) at 3. apply to_bin_ext.
  rewrite !bin_value_cons. cbn [length]. rewrite Nat2Z.inj_succ, Z.pow_succ_r by lia.
  replace (Z.b2z x * (2 * 2 ^ Z.of_nat (length l)) + (Z.b2z y * 2 ^ Z.of_nat (length l) + bin_value l))
    with (bin_value l + (2 * Z.b2z x + Z.b2z y) * 2 ^ Z.of_nat (length l)) by ring.
  now rewrite Z.mod_add by lia.
Qed.

(** A word and the data it carries. *)
Definition carries (w : Z) (data : list bool) : Prop :=
  exists parity, length parity = 6%nat /\ to_bin 30 w = data ++ parity.

Lemma encoded_words prev datas : Forall is_data datas ->
  let ws := words_of prev (encode_words (Z.testbit prev 1) (Z.testbit prev 0) datas) in
  forallb gps_word_parityCheck ws = true /\ Forall2 carries ws datas.
Proof.
  intros H. cbv zeta. revert prev. induction H as [|data datas Hd _ IH]; intros prev; [split; constructor|].
  cbn [encode_words]. rewrite words_ok_cons, encoded_word_ok by exact Hd. cbn [words_of andb].
  destruct (next_bits (Z.testbit prev 1) (Z.testbit prev 0) data Hd) as [E1 E0].
  rewrite <- E1, <- E0, encoded_word_extends by exact Hd.
  destruct (IH (bin_value (decoded_bits (Z.testbit prev 1) (Z.testbit prev 0) data))) as [IH1 IH2].
  split; [exact IH1|]. constructor; [|exact IH2].
  exists (parity_bits (Z.testbit prev 1) (Z.testbit prev 0) data). split; [reflexivity|].
  pose proof (low_bits (Z.testbit prev 1) (Z.testbit prev 0)
    (data ++ parity_bits (Z.testbit prev 1) (Z.testbit prev 0) data)) as Hb.
  unfold is_data in Hd. rewrite length_app, Hd in Hb. exact Hb.
Qed.

(** ** Frames

    The 300 bits of a subframe: of each word the first 24 are the data. *)

Definition frame_data (frame : list bool) : list (list bool) := map (take 24) (frame_chunks frame).

Definition encode_frame (D29 D30 : bool) (frame : list bool) : list bool :=
  concat (encode_words D29 D30 (frame_data frame)).

(** A slice of data bits of one word. *)
Definition data_slice (s : Z * Z) : bool :=
  let '(first, len) := s in
  (1 <=? first) && (first <=? 300) && (0 <=? len) && ((first - 1) mod 30 + len <=? 24).
Definition data_field (p : bit_field) : bool := forallb data_slice p.

Lemma frame_data_are_data frame : length frame = 300%nat -> Forall is_data (frame_data frame).
Proof.
  intros Hf. apply Forall_map. eapply Forall_impl; [apply frame_chunks_length, Hf|].
  intros c Hc. unfold compose, is_data. rewrite length_take, Hc. reflexivity.
Qed.

Lemma frame_data_length frame : length (frame_data frame) = 10%nat.
Proof. reflexivity. Qed.

Lemma frame_data_bit frame i q : length frame = 300%nat -> 0 <= i < 10 -> 0 <= q < 24 ->
  vget false (vget [] (frame_data frame) i) q = vget false frame (30 * i + q).
Proof.
  intros Hf Hi Hq. unfold frame_data, frame_chunks.
  rewrite (vget_fmap []) by (unfold in_range; rewrite length_map, length_seq; lia).
  assert (vget [] (map (fun k => take 30 (drop (30 * k) frame)) (seq 0 10)) i
    = take 30 (drop (30 * Z.to_nat i) frame)) as ->.
  { unfold vget. destruct (Z.ltb_spec i 0); [lia|].
    erewrite nth_indep by (rewrite length_map, length_seq; lia).
    rewrite (map_nth (fun k => take 30 (drop (30 * k) frame)) (seq 0 10) 0%nat).
    rewrite seq_nth by lia. reflexivity. }
  unfold vget. destruct (Z.ltb_spec q 0), (Z.ltb_spec (30 * i + q) 0); try lia.
  rewrite !nth_lookup, lookup_take_lt, lookup_take_lt, lookup_drop by lia. do 2 f_equal. lia.
Qed.

(** The word bits at a data position. *)
Lemma carried_bit ws frame i q : length frame = 300%nat -> Forall2 carries ws (frame_data frame) ->
  0 <= i < 10 -> 0 <= q < 24 -> vget false (word_bits ws) (30 * i + q) = vget false frame (30 * i + q).
Proof.
  intros Hf Hc Hi Hq. pose proof (Forall2_length _ _ _ Hc) as Hl. rewrite frame_data_length in Hl.
  unfold word_bits. rewrite (vget_concat false 30) by
    (try lia; apply Forall_map, Forall_forall; intros w _; unfold compose; now rewrite length_to_bin).
  rewrite (vget_fmap 0) by (unfold in_range; lia).
  rewrite <- frame_data_bit by (assumption || lia).
  destruct (lookup_lt_is_Some_2 ws (Z.to_nat i)) as [w Ew]; [lia|].
  destruct (Forall2_lookup_l _ _ _ _ _ Hc Ew) as (data & Ed & parity & Hp & E).
  pose proof (Forall_lookup_1 _ _ _ _ (frame_data_are_data frame Hf) Ed) as Hd. unfold is_data in Hd.
  rewrite (vget_lookup 0 ws i w), (vget_lookup [] (frame_data frame) i data) by (lia || assumption).
  rewrite E. unfold vget. destruct (Z.ltb_spec q 0); [lia|]. apply app_nth1. lia.
Qed.

(** ** The readers see the frame *)

Lemma for_slices_ext {St} p (f g : Z -> Z -> St -> St) s :
  (forall first len, In (first, len) p -> forall j t, 0 <= j < len -> f first j t = g first j t) ->
  for_slices p f s = for_slices p g s.
Proof.
  unfold for_slices. revert s. induction p as [|[first len] p IH]; intros s H; [reflexivity|].
  cbn [fold_left]. rewrite IH by (intros; eapply H; [right; eassumption|assumption]).
  f_equal. apply for_range_ext. intros j t Hj. eapply H; [now left|exact Hj].
Qed.

Section agree.
Context (ws : list Z) (frame : list bool).
Hypothesis Hf : length frame = 300%nat.
Hypothesis Hc : Forall2 carries ws (frame_data frame).

Lemma unpacked_bit first len j : data_slice (first, len) = true -> 0 <= j < len ->
  vget false (unpack_words ws) (300 - first - j) = vget false (rev frame) (300 - first - j).
Proof.
  intros Hs Hj. cbn in Hs. rewrite !andb_true_iff in Hs.
  pose proof (Forall2_length _ _ _ Hc) as Hl. rewrite frame_data_length in Hl.
  pose proof (Z.div_mod (first - 1) 30). pose proof (Z.mod_pos_bound (first - 1) 30).
  rewrite unpack_words_bits by exact Hl.
  assert (length (word_bits ws) = 300%nat) as Hb.
  { unfold word_bits. rewrite (concat_length_const _ 30), Hl; [reflexivity|].
    apply Forall_forall. intros w _. apply length_to_bin. }
  rewrite !vget_rev, Hb, Hf by lia.
  replace (Z.of_nat 300 - 1 - (300 - first - j)) with (30 * ((first - 1) / 30) + ((first - 1) mod 30 + j)) by lia.
  apply carried_bit; (assumption || lia).
Qed.

Lemma data_field_slice p first len : data_field p = true -> In (first, len) p -> data_slice (first, len) = true.
Proof. intros H Hi. unfold data_field in H. rewrite forallb_forall in H. exact (H _ Hi). Qed.

Lemma agree_unsigned p : data_field p = true ->
  gps_read_unsigned (unpack_words ws) p = gps_read_unsigned (rev frame) p.
Proof.
  intros Hp. apply for_slices_ext. intros first len Hi j t Hj. unfold GPS_SUBFRAME_BITS.
  now rewrite (unpacked_bit first len j (data_field_slice p first len Hp Hi) Hj).
Qed.

Lemma agree_first p : data_field p = true -> (0 <? (first_length p)) = true ->
  vget false (unpack_words ws) (GPS_SUBFRAME_BITS - first_bit p) =
  vget false (rev frame) (GPS_SUBFRAME_BITS - first_bit p).
Proof.
  intros Hp Hl. destruct p as [|[first len] p]; [discriminate|]. cbn [first_bit first_length] in *.
  pose proof (unpacked_bit first len 0 (data_field_slice _ first len Hp (or_introl eq_refl)) ltac:(lia)) as H.
  rewrite Z.sub_0_r in H. exact H.
Qed.

Lemma agree_bool p : data_field p = true -> (0 <? (first_length p)) = true ->
  gps_read_bool (unpack_words ws) p = gps_read_bool (rev frame) p.
Proof. exact (agree_first p). Qed.

Lemma agree_signed p : data_field p = true -> (0 <? (first_length p)) = true ->
  gps_read_signed (unpack_words ws) p = gps_read_signed (rev frame) p.
Proof.
  intros Hp Hl. unfold gps_read_signed. rewrite agree_first by assumption.
  apply for_slices_ext. intros first len Hi j t Hj. unfold GPS_SUBFRAME_BITS.
  now rewrite (unpacked_bit first len j (data_field_slice p first len Hp Hi) Hj).
Qed.

Lemma agree_health first fields m : forallb data_field fields = true ->
  store_health (unpack_words ws) first fields m = store_health (rev frame) first fields m.
Proof.
  intros Hp. unfold store_health, update. f_equal. generalize (almanacHealth m) as health.
  generalize (seqZ first (Z.of_nat (length fields))) as svs. intros svs. revert svs.
  induction fields as [|p fields IH]; intros [|sv svs] health; try reflexivity.
  cbn [forallb] in Hp. apply andb_true_iff in Hp as [Hp Hps].
  cbn [zip_with foldl]. rewrite agree_unsigned by exact Hp. now apply IH.
Qed.

(** The message decoder reads data bits only. *)
Lemma agree_decode m : decode_bits (unpack_words ws) m = decode_bits (rev frame) m.
Proof.
  unfold decode_bits, decode_subframe_4, decode_subframe_5, read_how, read_TOW,
    read_subframe_1, read_subframe_2, read_subframe_3, read_page_18.
  rewrite !agree_health, !agree_unsigned, !agree_signed, !agree_bool by reflexivity. reflexivity.
Qed.
End agree.

(** ** Streams of frames *)

Lemma concat_words_inj (cs cs' : list (list bool)) : Forall is_word cs -> Forall is_word cs' ->
  concat cs = concat cs' -> cs = cs'.
Proof.
  intros H. revert cs'. induction H as [|c cs Hc _ IH]; intros cs' H' E.
  - destruct H' as [|c' cs' Hc' _]; [reflexivity|]. unfold is_word in Hc'. destruct c'; discriminate.
  - destruct H' as [|c' cs' Hc' H']; [unfold is_word in Hc; destruct c; discriminate|].
    cbn [concat] in E. apply app_inj_1 in E as [-> E]; [|unfold is_word in *; congruence].
    f_equal. now apply IH.
Qed.

Lemma encode_frame_length D29 D30 frame : length frame = 300%nat ->
  length (encode_frame D29 D30 frame) = 300%nat.
Proof.
  intros Hf. pose proof (encode_words_are_words D29 D30 _ (frame_data_are_data frame Hf)) as H.
  unfold encode_frame. rewrite <- (map_id (encode_words D29 D30 (frame_data frame))).
  rewrite (concat_length_const (fun c => c) 30) by exact H. rewrite encode_words_length. reflexivity.
Qed.

Lemma encode_frame_chunks D29 D30 frame : length frame = 300%nat ->
  frame_chunks (encode_frame D29 D30 frame) = encode_words D29 D30 (frame_data frame).
Proof.
  intros Hf. pose proof (encode_frame_length D29 D30 frame Hf) as Hl.
  apply concat_words_inj; [exact (frame_chunks_length _ Hl)| |now apply frame_chunks_concat].
  apply encode_words_are_words, frame_data_are_data, Hf.
Qed.

Lemma encode_words_cons D29 D30 data datas : encode_words D29 D30 (data :: datas) =
  encode_word D29 D30 data ::
  encode_words (vget false (encode_word D29 D30 data) 28) (vget false (encode_word D29 D30 data) 29) datas.
Proof. reflexivity. Qed.

Lemma words_of_cons prev c chunks : words_of prev (c :: chunks) =
  extend_word prev (bin_value c) :: words_of (extend_word prev (bin_value c)) chunks.
Proof. reflexivity. Qed.

(** The last two bits of what was sent are the bits ahead of the next word. *)
Lemma last_bits prev data datas : is_data data -> Forall is_data datas ->
  let enc := encode_words (Z.testbit prev 1) (Z.testbit prev 0) (data :: datas) in
  let w := List.last (words_of prev enc) prev in
  Z.testbit w 1 = vget false (concat enc) (30 * Z.of_nat (length datas) + 28) /\
  Z.testbit w 0 = vget false (concat enc) (30 * Z.of_nat (length datas) + 29).
Proof.
  intros Hd H. cbv zeta. revert prev data Hd. induction H as [|data' datas Hd' _ IH]; intros prev data Hd.
  - cbn [encode_words words_of List.last]. rewrite encoded_word_extends by exact Hd.
    cbn [concat]. rewrite app_nil_r. apply next_bits, Hd.
  - rewrite encode_words_cons. destruct (next_bits (Z.testbit prev 1) (Z.testbit prev 0) data Hd) as [E1 E0].
    rewrite <- E1, <- E0.
    specialize (IH (bin_value (decoded_bits (Z.testbit prev 1) (Z.testbit prev 0) data)) data' Hd').
    set (tl := encode_words _ _ (data' :: datas)) in *.
    rewrite words_of_cons, encoded_word_extends, last_cons_default by exact Hd.
    destruct IH as [I1 I0]. rewrite I1, I0. cbn [length concat].
    pose proof (encode_word_length (Z.testbit prev 1) (Z.testbit prev 0) data Hd) as Hw. unfold is_word in Hw.
    assert (forall k, 0 <= k -> vget false (concat tl) k =
      vget false (encode_word (Z.testbit prev 1) (Z.testbit prev 0) data ++ concat tl) (30 + k)) as Happ.
    { intros k Hk. rewrite <- (vget_app_right false (encode_word (Z.testbit prev 1) (Z.testbit prev 0) data))
        by exact Hk. now rewrite Hw. }
    split; rewrite Happ by lia; f_equal; lia.
Qed.

(** Subframe after subframe, the words linked by their last bits. *)
Fixpoint encode_frames (D29 D30 : bool) (frames : list (list bool)) : list bool :=
  match frames with
  | [] => []
  | frame :: frames =>
      let c := encode_frame D29 D30 frame in
      c ++ encode_frames (vget false c 298) (vget false c 299) frames
  end.
