(* ===== verification/GpsFields.v ===== *)
(** * GpsFields: writing the fields of a subframe, and reading them back

    A frame is written field by field; the readers of GpsMessage return what was
    written, for any set of fields that do not overlap. *)

From S2P Require Import Prelude Cstring Float64 InavTables InavWords InavReaders FieldLayout GpsTables GpsMessage GpsFrames GpsEncode.
From stdpp Require Import list.
From Stdlib Require Import ZArith Lia.
Local Open Scope Z_scope.

(** ** A frame of 300 bits *)

Definition write_fields : list (bit_field * Z) -> list bool := write_bits 300.
Definition layout_ok : list (bit_field * Z) -> bool := layout_in 300.

Lemma write_fields_length fields : length (write_fields fields) = 300%nat.
Proof. apply write_bits_length. Qed.

Lemma field_bits_positions fields p : Forall (fun pos => 1 <= pos <= 300) (positions p) ->
  field_bits 300 (rev (write_fields fields)) p = map (bit_at fields) (positions p).
Proof. apply (field_bits_written 300). Qed.

Lemma field_written fields p v : layout_ok fields = true -> In (p, v) fields ->
  field_bits 300 (rev (write_fields fields)) p = to_bin (length (positions p)) v.
Proof. apply (field_written_in 300). Qed.

(** What the readers return. *)
Lemma read_written_unsigned fields p v : layout_ok fields = true -> In (p, v) fields ->
  width_ok p = true -> 0 <= v < 2 ^ width p ->
  gps_read_unsigned (rev (write_fields fields)) p = v.
Proof.
  intros Hok Hin Hw Hv. pose proof (width_ok_nonneg p Hw) as Hp.
  unfold width_ok in Hw. rewrite !andb_true_iff in Hw. destruct Hw as [_ Hw].
  pose proof (field_written fields p v Hok Hin) as E.
  transitivity (bin_value (field_bits 300 (rev (write_fields fields)) p)).
  - apply (unsigned_reader 64); [lia|exact Hp|]. rewrite E, length_to_bin. unfold width in Hw. lia.
  - rewrite E, bin_value_to_bin. apply Z.mod_small. exact Hv.
Qed.

Lemma read_written_signed fields p v : layout_ok fields = true -> In (p, v) fields ->
  width_ok p = true -> - 2 ^ (width p - 1) <= v < 2 ^ (width p - 1) ->
  gps_read_signed (rev (write_fields fields)) p = v.
Proof.
  intros Hok Hin Hw Hv. pose proof (width_ok_nonneg p Hw) as Hp.
  unfold width_ok in Hw. rewrite !andb_true_iff in Hw. destruct Hw as [[_ Hl] Hw].
  pose proof (field_written fields p v Hok Hin) as E.
  destruct p as [|[first len] p]; [discriminate|]. cbn [first_length] in Hl.
  apply Forall_cons in Hp as [Hlen Hp].
  transitivity (signed_value (field_bits 300 (rev (write_fields fields)) ((first, len) :: p))).
  - apply signed_reader; [lia|exact Hp|]. rewrite E, length_to_bin. unfold width in Hw. lia.
  - rewrite E. apply signed_to_bin; [|exact Hv]. unfold positions. cbn [map concat].
    rewrite length_app, length_seqZ. lia.
Qed.

Lemma read_written_bool fields first b : layout_ok fields = true ->
  In ([(first, 1)], Z.b2z b) fields -> gps_read_bool (rev (write_fields fields)) [(first, 1)] = b.
Proof.
  intros Hok Hin. pose proof (field_written fields _ _ Hok Hin) as E.
  unfold gps_read_bool. cbn [first_bit]. generalize dependent (rev (write_fields fields)). intros bits E.
  unfold field_bits, slice_bits in E.
  replace (length (positions [(first, 1)])) with 1%nat in E
    by (unfold positions; cbn [map concat]; now rewrite app_nil_r, length_seqZ).
  cbn [map concat app to_bin] in E. change (seqZ 0 1) with [0] in E. cbn [map app] in E.
  rewrite Z.sub_0_r in E. unfold GPS_SUBFRAME_BITS. injection E as ->. destruct b; reflexivity.
Qed.
