(* ===== verification/GpsBroadcast.v ===== *)
(** * GpsBroadcast: what a GPS satellite transmits

    The raw fields of the subframes, at their positions in IS-GPS-200, and what
    the receiver makes of them: every field arrives, except the fit interval
    flag and the age of data offset, for which bits of the reference time of
    the ephemeris are read. *)

From S2P Require Import Prelude Cstring Float64 MathConstants InavTables InavWords InavReaders FieldLayout GpsTables GpsMessage GpsEncode GpsFields.
From stdpp Require Import list.
From Stdlib Require Import ZArith Lia.
Local Open Scope Z_scope.

(** ** The fields of the standard *)

Definition fits_u (p : bit_field) (v : Z) : bool := (0 <=? v) && (v <? 2 ^ width p).
Definition fits_s (p : bit_field) (v : Z) : bool :=
  (- 2 ^ (width p - 1) <=? v) && (v <? 2 ^ (width p - 1)).

(** The telemetry and hand-over words: the preamble, the flags, the time of
    week in units of six seconds, and the subframe identifier. *)
Record Raw_How := mkRaw_How {
  raw_TOW : Z;
  raw_integrity_status_flag : bool;
  raw_alert_flag : bool;
  raw_antispoofing_flag : bool
}.

Definition how_fields (subframe_ID : Z) (h : Raw_How) : list (bit_field * Z) :=
  [([(1, 8)], 139); ([(23, 1)], Z.b2z (raw_integrity_status_flag h)); ([(31, 17)], raw_TOW h);
   ([(48, 1)], Z.b2z (raw_alert_flag h)); ([(49, 1)], Z.b2z (raw_antispoofing_flag h));
   ([(50, 3)], subframe_ID)].

Definition ok_how (h : Raw_How) : bool := fits_u [(31, 17)] (raw_TOW h).

(** The data and page identifiers of subframes 4 and 5. *)
Definition page_fields (SV_page : Z) : list (bit_field * Z) := [([(61, 2)], 1); ([(63, 6)], SV_page)].

(** The raw fields of subframe 1. *)
Record Raw1 := mkRaw1 {
  raw_GPS_week : Z;
  raw_SV_accuracy : Z;
  raw_SV_health : Z;
  raw_L2_P_data_flag : bool;
  raw_code_on_L2 : Z;
  raw_TGD : Z;
  raw_IODC : Z;
  raw_Toc : Z;
  raw_A_f0 : Z;
  raw_A_f1 : Z;
  raw_A_f2 : Z
}.

Definition fields_1 (r : Raw1) : list (bit_field * Z) :=
  [([(61, 10)], raw_GPS_week r); ([(73, 4)], raw_SV_accuracy r);
   ([(77, 6)], raw_SV_health r); ([(91, 1)], Z.b2z (raw_L2_P_data_flag r));
   ([(71, 2)], raw_code_on_L2 r); ([(197, 8)], raw_TGD r);
   ([(83, 2); (211, 8)], raw_IODC r); ([(219, 16)], raw_Toc r); ([(271, 22)], raw_A_f0 r);
   ([(249, 16)], raw_A_f1 r); ([(241, 8)], raw_A_f2 r)].

Definition ok_1 (r : Raw1) : bool :=
  fits_u [(61, 10)] (raw_GPS_week r) && fits_u [(73, 4)] (raw_SV_accuracy r) &&
  fits_u [(77, 6)] (raw_SV_health r) && fits_u [(71, 2)] (raw_code_on_L2 r) &&
  fits_s [(197, 8)] (raw_TGD r) && fits_u [(83, 2); (211, 8)] (raw_IODC r) &&
  fits_u [(219, 16)] (raw_Toc r) && fits_s [(271, 22)] (raw_A_f0 r) &&
  fits_s [(249, 16)] (raw_A_f1 r) && fits_s [(241, 8)] (raw_A_f2 r).

(** What the receiver makes of them. *)
Definition value_1 (r : Raw1) : Subframe1 := {|
  i_GPS_week := raw_GPS_week r;
  i_SV_accuracy := raw_SV_accuracy r;
  i_SV_health := raw_SV_health r;
  b_L2_P_data_flag := raw_L2_P_data_flag r;
  i_code_on_L2 := raw_code_on_L2 r;
  d_TGD := dmul (double_of_Z (raw_TGD r)) TWO_N31;
  d_IODC := raw_IODC r;
  d_Toc := raw_Toc r * 16;
  d_A_f0 := dmul (double_of_Z (raw_A_f0 r)) TWO_N31;
  d_A_f1 := dmul (double_of_Z (raw_A_f1 r)) TWO_N43;
  d_A_f2 := dmul (double_of_Z (raw_A_f2 r)) TWO_N55
|}.

(** The raw fields of subframe 2; the fit interval flag is bit 287 and the
    age of data offset bits 288 to 292 (IS-GPS-200, 20.3.3.4.1). *)
Record Raw2 := mkRaw2 {
  raw_IODE_SF2 : Z;
  raw_Crs : Z;
  raw_Delta_n : Z;
  raw_M_0 : Z;
  raw_Cuc : Z;
  raw_e_eccentricity : Z;
  raw_Cus : Z;
  raw_sqrt_A : Z;
  raw_Toe : Z;
  raw_fit_interval_flag : bool;
  raw_AODO : Z
}.

Definition fields_2 (r : Raw2) : list (bit_field * Z) :=
  [([(61, 8)], raw_IODE_SF2 r); ([(69, 16)], raw_Crs r); ([(91, 16)], raw_Delta_n r);
   ([(107, 8); (121, 24)], raw_M_0 r); ([(151, 16)], raw_Cuc r);
   ([(167, 8); (181, 24)], raw_e_eccentricity r); ([(211, 16)], raw_Cus r);
   ([(227, 8); (241, 24)], raw_sqrt_A r); ([(271, 16)], raw_Toe r);
   ([(287, 1)], Z.b2z (raw_fit_interval_flag r)); ([(288, 5)], raw_AODO r)].

Definition ok_2 (r : Raw2) : bool :=
  fits_u [(61, 8)] (raw_IODE_SF2 r) && fits_s [(69, 16)] (raw_Crs r) &&
  fits_s [(91, 16)] (raw_Delta_n r) && fits_s [(107, 8); (121, 24)] (raw_M_0 r) &&
  fits_s [(151, 16)] (raw_Cuc r) && fits_u [(167, 8); (181, 24)] (raw_e_eccentricity r) &&
  fits_s [(211, 16)] (raw_Cus r) && fits_u [(227, 8); (241, 24)] (raw_sqrt_A r) &&
  fits_u [(271, 16)] (raw_Toe r) && fits_u [(288, 5)] (raw_AODO r).

(** What the receiver makes of them. *)
Definition value_2 (r : Raw2) : Subframe2 := {|
  d_IODE_SF2 := raw_IODE_SF2 r;
  d_Crs := dmul (double_of_Z (raw_Crs r)) TWO_N5;
  d_Delta_n := dmul (double_of_Z (raw_Delta_n r)) PI_TWO_N43;
  d_M_0 := dmul (double_of_Z (raw_M_0 r)) PI_TWO_N31;
  d_Cuc := dmul (double_of_Z (raw_Cuc r)) TWO_N29;
  d_e_eccentricity := dmul (double_of_Z (raw_e_eccentricity r)) TWO_N33;
  d_Cus := dmul (double_of_Z (raw_Cus r)) TWO_N29;
  d_sqrt_A := dmul (double_of_Z (raw_sqrt_A r)) TWO_N19;
  d_Toe := raw_Toe r * 16;
  b_fit_interval_flag := Z.testbit (raw_Toe r) 15;
  i_AODO := bin_value (map (Z.testbit (raw_Toe r)) [14; 13; 12; 11; 10]) * 900
|}.

(** The raw fields of subframe 3. *)
Record Raw3 := mkRaw3 {
  raw_Cic : Z;
  raw_OMEGA0 : Z;
  raw_Cis : Z;
  raw_i_0 : Z;
  raw_Crc : Z;
  raw_OMEGA : Z;
  raw_OMEGA_DOT : Z;
  raw_IODE_SF3 : Z;
  raw_IDOT : Z
}.

Definition fields_3 (r : Raw3) : list (bit_field * Z) :=
  [([(61, 16)], raw_Cic r); ([(77, 8); (91, 24)], raw_OMEGA0 r); ([(121, 16)], raw_Cis r);
   ([(137, 8); (151, 24)], raw_i_0 r); ([(181, 16)], raw_Crc r);
   ([(197, 8); (211, 24)], raw_OMEGA r); ([(241, 24)], raw_OMEGA_DOT r);
   ([(271, 8)], raw_IODE_SF3 r); ([(279, 14)], raw_IDOT r)].

Definition ok_3 (r : Raw3) : bool :=
  fits_s [(61, 16)] (raw_Cic r) && fits_s [(77, 8); (91, 24)] (raw_OMEGA0 r) &&
  fits_s [(121, 16)] (raw_Cis r) && fits_s [(137, 8); (151, 24)] (raw_i_0 r) &&
  fits_s [(181, 16)] (raw_Crc r) && fits_s [(197, 8); (211, 24)] (raw_OMEGA r) &&
  fits_s [(241, 24)] (raw_OMEGA_DOT r) && fits_u [(271, 8)] (raw_IODE_SF3 r) &&
  fits_s [(279, 14)] (raw_IDOT r).

(** What the receiver makes of them. *)
Definition value_3 (r : Raw3) : Subframe3 := {|
  d_Cic := dmul (double_of_Z (raw_Cic r)) TWO_N29;
  d_OMEGA0 := dmul (double_of_Z (raw_OMEGA0 r)) PI_TWO_N31;
  d_Cis := dmul (double_of_Z (raw_Cis r)) TWO_N29;
  d_i_0 := dmul (double_of_Z (raw_i_0 r)) PI_TWO_N31;
  d_Crc := dmul (double_of_Z (raw_Crc r)) TWO_N5;
  d_OMEGA := dmul (double_of_Z (raw_OMEGA r)) PI_TWO_N31;
  d_OMEGA_DOT := dmul (double_of_Z (raw_OMEGA_DOT r)) PI_TWO_N43;
  d_IODE_SF3 := raw_IODE_SF3 r;
  d_IDOT := dmul (double_of_Z (raw_IDOT r)) PI_TWO_N43
|}.

(** The raw fields of page 18 of subframe 4. *)
Record Raw18 := mkRaw18 {
  raw_alpha0 : Z;
  raw_alpha1 : Z;
  raw_alpha2 : Z;
  raw_alpha3 : Z;
  raw_beta0 : Z;
  raw_beta1 : Z;
  raw_beta2 : Z;
  raw_beta3 : Z;
  raw_A1 : Z;
  raw_A0 : Z;
  raw_t_OT : Z;
  raw_WN_T : Z;
  raw_DeltaT_LS : Z;
  raw_WN_LSF : Z;
  raw_DN : Z;
  raw_DeltaT_LSF : Z
}.

Definition fields_18 (r : Raw18) : list (bit_field * Z) :=
  [([(69, 8)], raw_alpha0 r); ([(77, 8)], raw_alpha1 r); ([(91, 8)], raw_alpha2 r);
   ([(99, 8)], raw_alpha3 r); ([(107, 8)], raw_beta0 r); ([(121, 8)], raw_beta1 r);
   ([(129, 8)], raw_beta2 r); ([(137, 8)], raw_beta3 r); ([(151, 24)], raw_A1 r);
   ([(181, 24); (211, 8)], raw_A0 r); ([(219, 8)], raw_t_OT r); ([(227, 8)], raw_WN_T r);
   ([(241, 8)], raw_DeltaT_LS r); ([(249, 8)], raw_WN_LSF r); ([(257, 8)], raw_DN r);
   ([(271, 8)], raw_DeltaT_LSF r)].

Definition ok_18 (r : Raw18) : bool :=
  fits_s [(69, 8)] (raw_alpha0 r) && fits_s [(77, 8)] (raw_alpha1 r) &&
  fits_s [(91, 8)] (raw_alpha2 r) && fits_s [(99, 8)] (raw_alpha3 r) &&
  fits_s [(107, 8)] (raw_beta0 r) && fits_s [(121, 8)] (raw_beta1 r) &&
  fits_s [(129, 8)] (raw_beta2 r) && fits_s [(137, 8)] (raw_beta3 r) &&
  fits_s [(151, 24)] (raw_A1 r) && fits_s [(181, 24); (211, 8)] (raw_A0 r) &&
  fits_u [(219, 8)] (raw_t_OT r) && fits_u [(227, 8)] (raw_WN_T r) &&
  fits_s [(241, 8)] (raw_DeltaT_LS r) && fits_u [(249, 8)] (raw_WN_LSF r) &&
  fits_u [(257, 8)] (raw_DN r) && fits_s [(271, 8)] (raw_DeltaT_LSF r).

(** What the receiver makes of them. *)
Definition value_18 (r : Raw18) : Page18 := {|
  d_alpha0 := dmul (double_of_Z (raw_alpha0 r)) TWO_N30;
  d_alpha1 := dmul (double_of_Z (raw_alpha1 r)) TWO_N27;
  d_alpha2 := dmul (double_of_Z (raw_alpha2 r)) TWO_N24;
  d_alpha3 := dmul (double_of_Z (raw_alpha3 r)) TWO_N24;
  d_beta0 := dmul (double_of_Z (raw_beta0 r)) TWO_P11;
  d_beta1 := dmul (double_of_Z (raw_beta1 r)) TWO_P14;
  d_beta2 := dmul (double_of_Z (raw_beta2 r)) TWO_P16;
  d_beta3 := dmul (double_of_Z (raw_beta3 r)) TWO_P16;
  d_A1 := dmul (double_of_Z (raw_A1 r)) TWO_N50;
  d_A0 := dmul (double_of_Z (raw_A0 r)) TWO_N30;
  d_t_OT := raw_t_OT r * 4096;
  i_WN_T := raw_WN_T r;
  d_DeltaT_LS := raw_DeltaT_LS r;
  i_WN_LSF := raw_WN_LSF r;
  i_DN := raw_DN r;
  d_DeltaT_LSF := raw_DeltaT_LSF r
|}.

(** ** Reading them *)

Lemma read_written_flag fields p b : layout_ok fields = true ->
  In (p, Z.b2z b) fields -> p = [(first_bit p, 1)] -> gps_read_bool (rev (write_fields fields)) p = b.
Proof. intros L Hin Hp. rewrite Hp in *. now apply read_written_bool. Qed.

(** The bounds of the fields, with the width evaluated. *)
Ltac use_fits H :=
  rewrite ?andb_true_iff in H;
  repeat match goal with
  | H : _ /\ _ |- _ => destruct H
  end;
  repeat match goal with
  | H : fits_u ?p ?v = true |- _ =>
      unfold fits_u in H; apply andb_true_iff in H;
      let w := eval vm_compute in (2 ^ width p) in change (2 ^ width p) with w in H
  | H : fits_s ?p ?v = true |- _ =>
      unfold fits_s in H; apply andb_true_iff in H;
      let w := eval vm_compute in (2 ^ (width p - 1)) in change (2 ^ (width p - 1)) with w in H
  end.

(** The conditions of the lemmas on written fields. *)
Ltac written :=
  lazymatch goal with
  | |- In _ _ => cbn [app how_fields page_fields fields_1 fields_2 fields_3 fields_18 In];
                 repeat (first [left; reflexivity | right])
  | |- width_ok _ = true => vm_compute; reflexivity
  | |- _ = [(_, _)] => reflexivity
  | |- _ <= _ < 2 ^ width ?p => let w := eval vm_compute in (2 ^ width p) in
                                change (2 ^ width p) with w; lia
  | |- _ <= _ < 2 ^ (width ?p - 1) => let w := eval vm_compute in (2 ^ (width p - 1)) in
                                      change (2 ^ (width p - 1)) with w; lia
  | |- _ => assumption
  end.

Lemma tot_scaled v : 0 <= v < 256 -> trunc_Z (dmul (double_of_Z v) T_OT_LSB) = v * 4096.
Proof.
  intros Hv. apply Z.eqb_eq.
  assert (forallb (fun v => trunc_Z (dmul (double_of_Z v) T_OT_LSB) =? v * 4096) (seqZ 0 256) = true) as H
    by (vm_compute; reflexivity).
  rewrite forallb_forall in H. apply H, list_elem_of_In, elem_of_seqZ. lia.
Qed.

Ltac finish_fields :=
  change T_OC_LSB with 16; change T_OE_LSB with 16; change AODO_LSB with 900;
  repeat match goal with
  | |- context [swrap 32 ?x] =>
      lazymatch x with context [swrap] => fail | _ => rewrite (swrap_small 32 x) by lia end
  end;
  rewrite ?tot_scaled by lia; reflexivity.

(** Bits 271 to 276, read as the fit interval flag and the age of data offset,
    are the first bits of the reference time. *)
Lemma fit_flag_read h r : gps_read_bool (rev (write_fields (how_fields 2 h ++ fields_2 r))) FIT_INTERVAL_FLAG =
  Z.testbit (raw_Toe r) 15.
Proof.
  unfold gps_read_bool. change (GPS_SUBFRAME_BITS - first_bit FIT_INTERVAL_FLAG) with 29.
  rewrite vget_rev, write_fields_length by (rewrite write_fields_length; lia).
  unfold write_fields, write_bits. rewrite (vget_fmap 0) by (unfold in_range; rewrite length_seqZ; lia).
  lazy -[Z.testbit]. reflexivity.
Qed.

Lemma aodo_read h r : gps_read_unsigned (rev (write_fields (how_fields 2 h ++ fields_2 r))) AODO =
  bin_value (map (Z.testbit (raw_Toe r)) [14; 13; 12; 11; 10]).
Proof.
  assert (layout_ok (how_fields 2 h ++ fields_2 r) = true) as L by (vm_compute; reflexivity).
  assert (Forall (fun pos => 1 <= pos <= 300) (positions AODO)) as Hp
    by (repeat (constructor; [lia|]); constructor).
  pose proof (field_bits_positions (how_fields 2 h ++ fields_2 r) AODO Hp) as E.
  transitivity (bin_value (field_bits 300 (rev (write_fields (how_fields 2 h ++ fields_2 r))) AODO)).
  - apply (unsigned_reader 64); [lia|repeat (constructor; [cbn; lia|]); constructor|].
    rewrite E, length_map. change (length (positions AODO)) with 5%nat. lia.
  - rewrite E. reflexivity.
Qed.

Lemma read_written_1 h r : ok_1 r = true ->
  read_subframe_1 (rev (write_fields (how_fields 1 h ++ fields_1 r))) = value_1 r.
Proof.
  intros Hr. unfold ok_1 in Hr. use_fits Hr.
  assert (layout_ok (how_fields 1 h ++ fields_1 r) = true) as L by (vm_compute; reflexivity).
  unfold read_subframe_1, value_1.
  rewrite (read_written_unsigned _ GPS_WEEK (raw_GPS_week r) L),
    (read_written_unsigned _ SV_ACCURACY (raw_SV_accuracy r) L),
    (read_written_unsigned _ SV_HEALTH (raw_SV_health r) L),
    (read_written_unsigned _ CA_OR_P_ON_L2 (raw_code_on_L2 r) L),
    (read_written_unsigned _ IODC (raw_IODC r) L),
    (read_written_unsigned _ T_OC (raw_Toc r) L) by written.
  rewrite (read_written_signed _ T_GD (raw_TGD r) L),
    (read_written_signed _ A_F0 (raw_A_f0 r) L), (read_written_signed _ A_F1 (raw_A_f1 r) L),
    (read_written_signed _ A_F2 (raw_A_f2 r) L) by written.
  rewrite (read_written_flag _ L2_P_DATA_FLAG (raw_L2_P_data_flag r) L) by written.
  finish_fields.
Qed.

Lemma read_written_2 h r : ok_2 r = true ->
  read_subframe_2 (rev (write_fields (how_fields 2 h ++ fields_2 r))) = value_2 r.
Proof.
  intros Hr. unfold ok_2 in Hr. use_fits Hr.
  assert (layout_ok (how_fields 2 h ++ fields_2 r) = true) as L by (vm_compute; reflexivity).
  unfold read_subframe_2, value_2.
  rewrite (read_written_unsigned _ IODE_SF2 (raw_IODE_SF2 r) L),
    (read_written_unsigned _ ECCENTRICITY (raw_e_eccentricity r) L),
    (read_written_unsigned _ SQRT_A (raw_sqrt_A r) L),
    (read_written_unsigned _ T_OE (raw_Toe r) L) by written.
  rewrite (read_written_signed _ C_RS (raw_Crs r) L),
    (read_written_signed _ DELTA_N (raw_Delta_n r) L),
    (read_written_signed _ M_0 (raw_M_0 r) L), (read_written_signed _ C_UC (raw_Cuc r) L),
    (read_written_signed _ C_US (raw_Cus r) L) by written.
  rewrite fit_flag_read, aodo_read.
  assert (0 <= bin_value (map (Z.testbit (raw_Toe r)) [14; 13; 12; 11; 10]) < 32)
    by exact (bin_value_range (map (Z.testbit (raw_Toe r)) [14; 13; 12; 11; 10])).
  finish_fields.
Qed.

Lemma read_written_3 h r : ok_3 r = true ->
  read_subframe_3 (rev (write_fields (how_fields 3 h ++ fields_3 r))) = value_3 r.
Proof.
  intros Hr. unfold ok_3 in Hr. use_fits Hr.
  assert (layout_ok (how_fields 3 h ++ fields_3 r) = true) as L by (vm_compute; reflexivity).
  unfold read_subframe_3, value_3.
  rewrite (read_written_unsigned _ IODE_SF3 (raw_IODE_SF3 r) L) by written.
  rewrite (read_written_signed _ C_IC (raw_Cic r) L),
    (read_written_signed _ OMEGA_0 (raw_OMEGA0 r) L),
    (read_written_signed _ C_IS (raw_Cis r) L), (read_written_signed _ I_0 (raw_i_0 r) L),
    (read_written_signed _ C_RC (raw_Crc r) L), (read_written_signed _ OMEGA (raw_OMEGA r) L),
    (read_written_signed _ OMEGA_DOT (raw_OMEGA_DOT r) L),
    (read_written_signed _ I_DOT (raw_IDOT r) L) by written.
  finish_fields.
Qed.

Lemma read_written_18 h r : ok_18 r = true ->
  read_page_18 (rev (write_fields (how_fields 4 h ++ page_fields 56 ++ fields_18 r))) = value_18 r.
Proof.
  intros Hr. unfold ok_18 in Hr. use_fits Hr.
  assert (layout_ok (how_fields 4 h ++ page_fields 56 ++ fields_18 r) = true) as L by (vm_compute; reflexivity).
  unfold read_page_18, value_18.
  rewrite (read_written_unsigned _ T_OT (raw_t_OT r) L),
    (read_written_unsigned _ WN_T (raw_WN_T r) L),
    (read_written_unsigned _ WN_LSF (raw_WN_LSF r) L),
    (read_written_unsigned _ DN (raw_DN r) L) by written.
  rewrite (read_written_signed _ ALPHA_0 (raw_alpha0 r) L),
    (read_written_signed _ ALPHA_1 (raw_alpha1 r) L),
    (read_written_signed _ ALPHA_2 (raw_alpha2 r) L),
    (read_written_signed _ ALPHA_3 (raw_alpha3 r) L),
    (read_written_signed _ BETA_0 (raw_beta0 r) L),
    (read_written_signed _ BETA_1 (raw_beta1 r) L),
    (read_written_signed _ BETA_2 (raw_beta2 r) L),
    (read_written_signed _ BETA_3 (raw_beta3 r) L), (read_written_signed _ A_1 (raw_A1 r) L),
    (read_written_signed _ A_0 (raw_A0 r) L),
    (read_written_signed _ DELTAT_LS (raw_DeltaT_LS r) L),
    (read_written_signed _ DELTAT_LSF (raw_DeltaT_LSF r) L) by written.
  finish_fields.
Qed.
