(* ===== verification/GpsReceiver.v ===== *)
(** * GpsReceiver: the GPS block against a specification

    The specification hears one subframe after another: a subframe updates the
    navigation message and may make an ephemeris, or ionospheric and UTC data.
    The block (GpsTlm) implements it symbol by symbol: from the first symbols of
    a satellite it finds the subframes, in either polarity of the carrier, and
    gives every symbol its time of week. *)

From S2P Require Import Prelude Cstring BinString Float64 InavTables InavWords Viterbi TlmDecoder GpsTables GpsMessage GpsTlm GpsParity GpsFrames GpsEncode.
From stdpp Require Import list.
From Stdlib Require Import ZArith Lia SpecFloat.
Local Open Scope Z_scope.
Local Open Scope cxx_scope.

(** ** The specification *)

(** What a subframe makes of the message and of the messages published. *)
Definition report (subframe_ID : Z) (nav : Gps_Navigation_Message) (msgs : list gps_message)
  : Gps_Navigation_Message * list gps_message :=
  match subframe_ID with
  | 1 | 2 | 3 =>
      let '(valid, nav) := satellite_validation nav in
      (nav, if valid then telemetry_gps_ephemeris (get_ephemeris nav) :: msgs else msgs)
  | 4 =>
      let '(nav, msgs) :=
        if get_flag_iono_valid nav
        then ((get_iono nav).2, telemetry_gps_iono (get_iono nav).1 :: msgs) else (nav, msgs) in
      if get_flag_utc_model_valid nav
      then ((get_utc_model nav).2, telemetry_gps_utc_model (get_utc_model nav).1 :: msgs)
      else (nav, msgs)
  | _ => (nav, msgs)
  end.

Definition hear (state : Gps_Navigation_Message * list gps_message) (frame : list bool)
  : Gps_Navigation_Message * list gps_message :=
  let '(subframe_ID, nav) := decode_bits (rev frame) state.1 in report subframe_ID nav state.2.

(** The part of the block that the specification describes. *)
Definition is_telemetry (msg : gps_message) : bool :=
  match msg with
  | telemetry_gps_ephemeris _ | telemetry_gps_iono _ | telemetry_gps_utc_model _ => true
  | _ => false
  end.
Definition heard (d : gps_tlm) : Gps_Navigation_Message * list gps_message :=
  (d_nav d, List.filter is_telemetry (published d)).

(** A subframe that the block accepts: an identifier from 1 to 5 and a time of
    week that is not zero. *)
Definition frame_ID (frame : list bool) : Z := i32 (gps_read_unsigned (rev frame) SUBFRAME_ID).
Definition frame_TOW (frame : list bool) : Z := read_TOW (rev frame).
Definition good_frame (frame : list bool) : Prop :=
  length frame = 300%nat /\ 1 <= frame_ID frame <= 5 /\ 0 < frame_TOW frame * 1000 < 2 ^ 32.

(** The same without the time of week. *)
Definition sound_frame (frame : list bool) : Prop :=
  length frame = 300%nat /\ 1 <= frame_ID frame <= 5.

Lemma good_is_sound frame : good_frame frame -> sound_frame frame.
Proof. intros (H1 & H2 & _). now split. Qed.

Lemma report_TOW id nav msgs : d_TOW (report id nav msgs).1 = d_TOW nav.
Proof.
  unfold report. destruct id as [|p|p]; try reflexivity.
  assert (d_TOW (satellite_validation nav).2 = d_TOW nav) as Hv.
  { unfold satellite_validation. cbv zeta. repeat case_match; reflexivity. }
  do 3 (try destruct p as [p|p|]); try reflexivity;
    try (destruct (satellite_validation nav) as [[] n']; exact Hv).
  unfold get_flag_iono_valid, get_flag_utc_model_valid. repeat case_match; simplify_eq; reflexivity.
Qed.

Lemma how_TOW bits m : d_TOW (read_how bits m) = read_TOW bits.
Proof. reflexivity. Qed.

Lemma health_TOW bits first fields m : d_TOW (store_health bits first fields m) = d_TOW m.
Proof. reflexivity. Qed.

Lemma page_18_TOW p m : d_TOW (m <| page_18 := p |> <| flag_iono_valid := true |>
  <| flag_utc_model_valid := true |>) = d_TOW m.
Proof. reflexivity. Qed.

Lemma almanac_TOW toa wn m : d_TOW (m <| i_Toa := toa |> <| i_WN_A := wn |>) = d_TOW m.
Proof. reflexivity. Qed.

Lemma decode_TOW bits m : 1 <= (decode_bits bits m).1 <= 5 -> d_TOW (decode_bits bits m).2 = read_TOW bits.
Proof.
  unfold decode_bits. cbn [fst snd]. generalize (i32 (gps_read_unsigned bits SUBFRAME_ID)) as id.
  intros id Hid. assert (id = 1 \/ id = 2 \/ id = 3 \/ id = 4 \/ id = 5) as H by lia.
  destruct H as [-> | [-> | [-> | [-> | ->]]]]; cbv beta iota; [apply how_TOW|apply how_TOW|apply how_TOW| |].
  - unfold decode_subframe_4. cbv zeta. destruct (_ =? 63); [rewrite health_TOW|];
      (destruct (_ =? 56); [rewrite page_18_TOW|]; apply how_TOW).
  - unfold decode_subframe_5. cbv zeta. destruct (_ =? 51); [rewrite health_TOW, almanac_TOW|]; apply how_TOW.
Qed.

Lemma hear_TOW state frame : sound_frame frame -> d_TOW (hear state frame).1 = frame_TOW frame.
Proof.
  intros (_ & Hid). unfold hear.
  pose proof (decode_TOW (rev frame) state.1 Hid) as H.
  destruct (decode_bits (rev frame) state.1) as [id nav]. rewrite report_TOW. exact H.
Qed.

(** ** One subframe in the block *)

Lemma heard_report id d : heard (report_subframe id d) = report id (d_nav d) (heard d).2.
Proof.
  unfold report_subframe, report. destruct id as [|p|p]; try reflexivity.
  assert (heard (publish_ephemeris d) = let '(valid, nav) := satellite_validation (d_nav d) in
    (nav, if valid then telemetry_gps_ephemeris (get_ephemeris nav) :: (heard d).2 else (heard d).2)) as He.
  { unfold publish_ephemeris. destruct (satellite_validation (d_nav d)) as [[] nav]; reflexivity. }
  do 3 (try destruct p as [p|p|]); try reflexivity; try exact He.
  unfold publish_utc_model, publish_iono, get_flag_iono_valid, get_flag_utc_model_valid.
  destruct (flag_iono_valid (d_nav d)); cbn; destruct (flag_utc_model_valid (d_nav d)); reflexivity.
Qed.

Lemma heard_keep ws d : heard (keep_nav_message ws d) = heard d.
Proof. unfold keep_nav_message. destruct (d_enable_navdata_monitor d); reflexivity. Qed.

(** The members that decoding a subframe leaves as they are. *)
Record sync_view := mksync_view {
  sv_history : list float; sv_counter : Z; sv_index : Z; sv_last : Z; sv_errors : Z; sv_required : Z;
  sv_period : Z; sv_max : Z; sv_stat : Z; sv_TOW : Z; sv_samples : Z; sv_preamble : list Z;
  sv_sync : bool; sv_flag_preamble : bool; sv_sent : bool; sv_inverted : bool; sv_TOW_set : bool
}.
Definition sync (d : gps_tlm) : sync_view := mksync_view
  (d_symbol_history d) (d_sample_counter d) (d_preamble_index d) (d_last_valid_preamble d)
  (d_CRC_error_counter d) (d_required_symbols d) (d_preamble_period_symbols d)
  (d_max_symbols_without_valid_frame d) (d_stat d) (d_TOW_at_current_symbol_ms d)
  (d_samples_per_preamble d) (d_preamble_samples d) (d_flag_frame_sync d) (d_flag_preamble d)
  (d_sent_tlm_failed_msg d) (d_flag_PLL_180_deg_phase_locked d) (d_flag_TOW_set d).

Lemma sync_report id d : sync (report_subframe id d) = sync d /\
  d_prev_GPS_frame_4bytes (report_subframe id d) = d_prev_GPS_frame_4bytes d.
Proof.
  unfold report_subframe. destruct id as [|p|p]; try (split; reflexivity).
  assert (sync (publish_ephemeris d) = sync d /\
    d_prev_GPS_frame_4bytes (publish_ephemeris d) = d_prev_GPS_frame_4bytes d) as He.
  { unfold publish_ephemeris. destruct (satellite_validation (d_nav d)) as [[] nav]; split; reflexivity. }
  do 3 (try destruct p as [p|p|]); try (split; reflexivity); try exact He.
  unfold publish_utc_model, publish_iono, get_flag_iono_valid, get_flag_utc_model_valid.
  destruct (flag_iono_valid (d_nav d)); cbn; destruct (flag_utc_model_valid (d_nav d)); split; reflexivity.
Qed.

(** The bits ahead of the next word. *)
Definition ahead (d : gps_tlm) : bool * bool :=
  (Z.testbit (d_prev_GPS_frame_4bytes d) 1, Z.testbit (d_prev_GPS_frame_4bytes d) 0).

(** A history that holds an encoded subframe is accepted and heard. *)
Lemma decode_heard flag_invert d frame : sound_frame frame ->
  map (symbol_bit flag_invert) (d_symbol_history d) = encode_frame (ahead d).1 (ahead d).2 frame ->
  exists d', decode_subframe flag_invert d = (Returns true, d') /\ heard d' = hear (heard d) frame /\
    sync d' = sync d /\
    ahead d' = (vget false (encode_frame (ahead d).1 (ahead d).2 frame) 298,
                vget false (encode_frame (ahead d).1 (ahead d).2 frame) 299).
Proof.
  intros (Hf & Hid) Hh. cbn [fst snd ahead] in Hh |- *.
  assert (length (d_symbol_history d) = 300%nat) as Hl.
  { rewrite <- (length_map (symbol_bit flag_invert)), Hh. now apply encode_frame_length. }
  rewrite decode_subframe_spec by exact Hl. cbv zeta.
  set (prev := d_prev_GPS_frame_4bytes d) in *. set (ws := history_words flag_invert d).
  assert (ws = words_of prev (encode_words (Z.testbit prev 1) (Z.testbit prev 0) (frame_data frame))) as Ews.
  { unfold ws, history_words. fold prev. now rewrite Hh, encode_frame_chunks. }
  destruct (encoded_words prev (frame_data frame) (frame_data_are_data frame Hf)) as [Hok Hc].
  rewrite <- Ews in Hok, Hc. rewrite Hok. unfold accept_subframe, subframe_decoder. cbv zeta.
  rewrite (agree_decode ws frame Hf Hc). unfold decode_bits. fold (frame_ID frame).
  set (d1 := keep_nav_message ws _).
  assert (d_nav d1 = d_nav d /\ heard d1 = heard d /\ sync d1 = sync d /\
    d_prev_GPS_frame_4bytes d1 = List.last ws prev) as (N1 & H1 & S1 & P1).
  { unfold d1, keep_nav_message. destruct (d_enable_navdata_monitor _); repeat split. }
  destruct (Z.ltb_spec 0 (frame_ID frame)), (Z.ltb_spec (frame_ID frame) 6); try lia. cbn [andb].
  eexists. split; [reflexivity|]. rewrite N1. destruct (sync_report (frame_ID frame)
    (d1 <| d_nav := (decode_bits (rev frame) (d_nav d)).2 |>)) as [Es Ep].
  split; [|split].
  - rewrite heard_report. unfold hear. cbn [heard fst]. unfold decode_bits at 1. fold (frame_ID frame).
    f_equal. exact (f_equal snd H1).
  - exact (eq_trans Es S1).
  - unfold ahead. unfold decode_bits in Ep. cbn [snd] in Ep. fold (frame_ID frame) in Ep. rewrite Ep.
    cbn [d_prev_GPS_frame_4bytes]. change (d_prev_GPS_frame_4bytes (d1 <| d_nav := _ |>))
      with (d_prev_GPS_frame_4bytes d1). rewrite P1, Ews.
    pose proof (frame_data_are_data frame Hf) as Hd.
    pose proof (frame_data_length frame) as Hlen. unfold encode_frame.
    destruct (frame_data frame) as [|data datas]; [discriminate|].
    apply Forall_cons in Hd as [Hd Hds]. destruct (last_bits prev data datas Hd Hds) as [E1 E0].
    rewrite E1, E0. cbn [length] in Hlen. injection Hlen as ->. reflexivity.
Qed.

(** ** The block in lock *)

(** The constants that [new_gps_tlm] sets. *)
Definition sized (d : gps_tlm) : Prop :=
  d_required_symbols d = 300 /\ d_preamble_period_symbols d = 300 /\
  d_max_symbols_without_valid_frame d = 6000 /\ d_samples_per_preamble d = 8 /\
  d_preamble_samples d = [1; -1; -1; -1; 1; -1; 1; 1].

(** In lock, [k] symbols after a subframe that ended at the time [T], in
    milliseconds of the week. *)
Record tracking (T k : Z) (d : gps_tlm) : Prop := {
  tr_sized : sized d;
  tr_stat : d_stat d = 1;
  tr_full : length (d_symbol_history d) = 300%nat;
  tr_count : d_sample_counter d = d_preamble_index d + k;
  tr_range : 0 <= k < 300 /\ 0 <= d_preamble_index d /\ d_sample_counter d < 2 ^ 63;
  tr_last : d_last_valid_preamble d = d_preamble_index d;
  tr_errors : d_CRC_error_counter d = 0;
  tr_set : d_flag_TOW_set d = true;
  tr_tow : d_TOW_at_current_symbol_ms d = u32 (T + 20 * k)
}.

Lemma sized_ext d d' : sync d' = sync d -> sized d -> sized d'.
Proof.
  intros E H. injection E as E1 E2 E3 E4 E5 E6 E7 E8 E9 E10 E11 E12 E13 E14 E15 E16 E17.
  unfold sized. rewrite E6, E7, E8, E11, E12. exact H.
Qed.

Lemma tracking_ext T k d d' : sync d' = sync d -> tracking T k d -> tracking T k d'.
Proof.
  intros E [H1 H2 H3 H4 H5 H6 H7 H8 H9]. injection E as E1 E2 E3 E4 E5 E6 E7 E8 E9 E10 E11 E12 E13 E14 E15 E16 E17.
  unfold sized in *. constructor; unfold sized; rewrite ?E1, ?E2, ?E3, ?E4, ?E5, ?E6, ?E7, ?E8, ?E9, ?E10, ?E11, ?E12, ?E17; assumption.
Qed.

(** The history after a symbol. *)
Definition next_history (x : float) (h : list float) : list float := drop 1 (h ++ [x]).

Definition stored (x : float) (d : gps_tlm) : gps_tlm :=
  d <| d_symbol_history := next_history x (d_symbol_history d) |>
    <| d_sample_counter := d_sample_counter d + 1 |> <| d_flag_preamble := false |>.

Lemma receive_tracking T k g d : tracking T k d ->
  receive_symbol g d = stored (float_of_double (Prompt_I g)) d.
Proof.
  intros [(Hreq & _ & Hmax & _) Hst Hfull Hcount Hrange Hlast _ _ _]. unfold receive_symbol.
  assert (insert_preamble g d = d) as ->.
  { unfold insert_preamble. destruct (d_symbol_history d); [discriminate|reflexivity]. }
  assert ((push_symbol (float_of_double (Prompt_I g)) d) <| d_flag_preamble := false |> =
    stored (float_of_double (Prompt_I g)) d) as ->.
  { unfold push_symbol, stored, next_history, update. cbn. f_equal.
    - rewrite Hreq, length_app, Hfull. reflexivity.
    - apply wrap_small. lia. }
  unfold check_telemetry.
  assert ((d_max_symbols_without_valid_frame (stored (float_of_double (Prompt_I g)) d) <?
    u64 (d_sample_counter (stored (float_of_double (Prompt_I g)) d) -
         d_last_valid_preamble (stored (float_of_double (Prompt_I g)) d))) = false) as ->;
    [|now rewrite andb_false_r].
  unfold stored. cbn. rewrite Hmax, Hlast, Hcount, wrap_small by lia. apply Z.ltb_ge. lia.
Qed.

(** What the monitor adds does not matter here. *)
Lemma publish_nav_view g d : heard (publish_nav_message g d) = heard d /\
  sync (publish_nav_message g d) = sync d /\
  d_prev_GPS_frame_4bytes (publish_nav_message g d) = d_prev_GPS_frame_4bytes d.
Proof. unfold publish_nav_message. destruct (_ && _); repeat split. Qed.

Lemma make_output_set g tags d : d_flag_TOW_set d = true ->
  make_output g tags d =
    (Returns (Some (output_symbol g (publish_nav_message g d), omap id tags)), publish_nav_message g d).
Proof. intros H. unfold make_output. rewrite run_gets, H. reflexivity. Qed.

Lemma output_TOW g d : TlmDecoder.TOW_at_current_symbol_ms (output_symbol g d) =
  d_TOW_at_current_symbol_ms d.
Proof. unfold output_symbol. destruct (d_flag_PLL_180_deg_phase_locked d); reflexivity. Qed.

(** An output item of time of week [t]. *)
Definition timed (t : Z) (o : option (Gnss_Synchro * list GnssTime)) : Prop :=
  exists g tags, o = Some (g, tags) /\ TlmDecoder.TOW_at_current_symbol_ms g = t.

(** A symbol inside a subframe. *)
Lemma quiet_symbol T k g tags d : tracking T k d -> k + 1 < 300 -> d_sample_counter d + 1 < 2 ^ 63 ->
  exists o d', general_work g tags d = (Returns o, d') /\ tracking T (k + 1) d' /\
    timed (u32 (T + 20 * (k + 1))) o /\ heard d' = heard d /\ ahead d' = ahead d /\
    d_symbol_history d' = next_history (float_of_double (Prompt_I g)) (d_symbol_history d) /\
    d_flag_PLL_180_deg_phase_locked d' = d_flag_PLL_180_deg_phase_locked d /\
    d_sample_counter d' = d_sample_counter d + 1.
Proof.
  intros Ht Hk Hc. unfold general_work. rewrite run_modify, (receive_tracking T k g d Ht).
  destruct Ht as [Hsz Hst Hfull Hcount Hrange Hlast Herr Hset Htow].
  set (d1 := stored (float_of_double (Prompt_I g)) d).
  assert (frame_sync d1 = (Returns tt, d1)) as E1.
  { unfold frame_sync. rewrite run_gets. change (d_stat d1) with (d_stat d). rewrite Hst.
    unfold track_subframes. rewrite run_gets. unfold id.
    change (d_preamble_period_symbols d1) with (d_preamble_period_symbols d).
    change (d_preamble_index d1) with (d_preamble_index d).
    change (d_sample_counter d1) with (d_sample_counter d + 1).
    destruct Hsz as (_ & -> & _). rewrite (wrap_small 64 300), wrap_small by lia.
    destruct (Z.leb_spec (d_preamble_index d + 300) (d_sample_counter d + 1)); [lia|reflexivity]. }
  rewrite (bind_returns _ _ _ _ _ E1).
  set (d2 := d1 <| d_TOW_at_current_symbol_ms := u32 (T + 20 * (k + 1)) |>).
  assert (update_tow d1 = (Returns tt, d2)) as E2.
  { unfold update_tow. rewrite run_gets. unfold id. change (d_flag_preamble d1) with false. cbv iota.
    change (d_flag_TOW_set d1) with (d_flag_TOW_set d). rewrite Hset. unfold modify, d2. apply (f_equal (pair (Returns tt))).
    change (d_TOW_at_current_symbol_ms d) with (d_TOW_at_current_symbol_ms d1) in Htow. unfold update.
    f_equal. rewrite Htow. unfold GPS_L1_CA_BIT_PERIOD_MS, wrap.
    rewrite Zplus_mod_idemp_l. f_equal. lia. }
  rewrite (bind_returns _ _ _ _ _ E2), make_output_set by exact Hset.
  destruct (publish_nav_view g d2) as (V1 & V2 & V3).
  eexists _, _. split; [reflexivity|]. split; [|split; [|split; [exact V1|split; [|split; [|split]]]]].
  - apply (tracking_ext _ _ d2); [exact V2|]. constructor; cbn; try assumption; try lia.
    unfold next_history. rewrite length_drop, length_app, Hfull. reflexivity.
  - exists (output_symbol g (publish_nav_message g d2)), (omap id tags). split; [reflexivity|].
    rewrite output_TOW. exact (f_equal sv_TOW V2).
  - unfold ahead. now rewrite V3.
  - exact (f_equal sv_history V2).
  - exact (f_equal sv_inverted V2).
  - exact (f_equal sv_counter V2).
Qed.

#[local] Opaque frame_TOW.

(** A subframe was decoded: its time of week is that of the symbol. *)
Lemma good_TOW d frame state : good_frame frame -> d_flag_preamble d = true ->
  heard d = hear state frame ->
  update_tow d = (Returns tt, d <| d_TOW_at_current_symbol_ms := frame_TOW frame * 1000 |>
    <| d_TOW_at_Preamble_ms := frame_TOW frame * 1000 |> <| d_flag_TOW_set := true |>).
Proof.
  intros Hg Hp Hh. pose proof (hear_TOW state frame (good_is_sound _ Hg)) as HT. rewrite <- Hh in HT.
  change (d_TOW (d_nav d) = frame_TOW frame) in HT. destruct Hg as (_ & _ & Hr).
  unfold update_tow. rewrite run_gets. unfold id. rewrite Hp. unfold get_TOW. rewrite HT.
  destruct (Z.eqb_spec (frame_TOW frame) 0); [lia|]. cbn [negb].
  unfold uint32_of_double. destruct (Z.leb_spec 0 (frame_TOW frame * 1000)); [|lia].
  destruct (Z.ltb_spec (frame_TOW frame * 1000) (2 ^ 32)); [|lia]. reflexivity.
Qed.

(** The end of a subframe, in lock or at its acquisition. *)
Lemma good_end g tags d frame state : good_frame frame -> heard d = hear state frame ->
  sized d -> d_stat d = 1 -> length (d_symbol_history d) = 300%nat ->
  d_preamble_index d = d_sample_counter d -> 0 <= d_sample_counter d < 2 ^ 63 ->
  exists o d', (update_tow;; make_output g tags) (good_subframe d) = (Returns o, d') /\
    tracking (frame_TOW frame * 1000) 0 d' /\ timed (frame_TOW frame * 1000) o /\
    heard d' = hear state frame /\ ahead d' = ahead d /\
    d_symbol_history d' = d_symbol_history d /\
    d_flag_PLL_180_deg_phase_locked d' = d_flag_PLL_180_deg_phase_locked d /\
    d_sample_counter d' = d_sample_counter d.
Proof.
  intros Hg Hh Hsz Hst Hfull Hidx Hc.
  rewrite (bind_returns _ _ _ _ _ (good_TOW (good_subframe d) frame state Hg eq_refl Hh)).
  rewrite make_output_set by reflexivity.
  set (d1 := (good_subframe d) <| d_TOW_at_current_symbol_ms := frame_TOW frame * 1000 |>
    <| d_TOW_at_Preamble_ms := frame_TOW frame * 1000 |> <| d_flag_TOW_set := true |>).
  destruct (publish_nav_view g d1) as (V1 & V2 & V3). destruct Hg as (_ & _ & Hr).
  eexists _, _. split; [reflexivity|]. split; [|split; [|split; [|split; [|split; [|split]]]]].
  - apply (tracking_ext _ _ d1); [exact V2|]. constructor; cbn; try assumption; try lia; try reflexivity.
    rewrite wrap_small; lia.
  - exists (output_symbol g (publish_nav_message g d1)), (omap id tags). split; [reflexivity|].
    rewrite output_TOW. exact (f_equal sv_TOW V2).
  - rewrite V1. exact Hh.
  - unfold ahead. now rewrite V3.
  - exact (f_equal sv_history V2).
  - exact (f_equal sv_inverted V2).
  - exact (f_equal sv_counter V2).
Qed.

(** The state after the last symbol of a subframe in lock, once it is decoded. *)
Definition ended (g : Gnss_Synchro) (d : gps_tlm) : gps_tlm :=
  (stored (float_of_double (Prompt_I g)) d) <| d_preamble_index := d_sample_counter d + 1 |>.

Lemma end_sync T g d frame : tracking T 299 d -> sound_frame frame ->
  map (symbol_bit (d_flag_PLL_180_deg_phase_locked d))
    (next_history (float_of_double (Prompt_I g)) (d_symbol_history d)) =
    encode_frame (ahead d).1 (ahead d).2 frame ->
  exists d3, frame_sync (stored (float_of_double (Prompt_I g)) d) = (Returns tt, good_subframe d3) /\
    heard d3 = hear (heard d) frame /\ sync d3 = sync (ended g d) /\ sized d3 /\
    ahead d3 = (vget false (encode_frame (ahead d).1 (ahead d).2 frame) 298,
                vget false (encode_frame (ahead d).1 (ahead d).2 frame) 299).
Proof.
  intros [Hsz Hst Hfull Hcount Hrange Hlast Herr Hset Htow] Hg Hh.
  destruct (decode_heard (d_flag_PLL_180_deg_phase_locked d) (ended g d) frame Hg Hh) as (d3 & E3 & H3 & S3 & A3).
  exists d3. split; [|split; [exact H3|split; [exact S3|split; [exact (sized_ext (ended g d) d3 S3 Hsz)|exact A3]]]].
  set (d1 := stored (float_of_double (Prompt_I g)) d).
  unfold frame_sync. rewrite run_gets. change (d_stat d1) with (d_stat d). rewrite Hst.
  unfold track_subframes. rewrite run_gets. unfold id.
  change (d_preamble_period_symbols d1) with (d_preamble_period_symbols d).
  change (d_preamble_index d1) with (d_preamble_index d).
  change (d_sample_counter d1) with (d_sample_counter d + 1).
  change (d_flag_PLL_180_deg_phase_locked d1) with (d_flag_PLL_180_deg_phase_locked d).
  destruct Hsz as (_ & -> & _). rewrite (wrap_small 64 300), wrap_small by lia.
  destruct (Z.leb_spec (d_preamble_index d + 300) (d_sample_counter d + 1)); [|lia].
  rewrite run_modify. change (d1 <| d_preamble_index := d_sample_counter d + 1 |>) with (ended g d).
  now rewrite (bind_returns _ _ _ _ _ E3).
Qed.

Lemma ended_full T k g d : tracking T k d -> length (d_symbol_history (ended g d)) = 300%nat.
Proof.
  intros [_ _ Hfull _ _ _ _ _ _]. change (length (next_history (float_of_double (Prompt_I g)) (d_symbol_history d)) = 300%nat).
  unfold next_history. rewrite length_drop, length_app, Hfull. reflexivity.
Qed.

(** The last symbol of a subframe in lock. *)
Lemma end_symbol T g tags d frame : tracking T 299 d -> d_sample_counter d + 1 < 2 ^ 63 -> good_frame frame ->
  map (symbol_bit (d_flag_PLL_180_deg_phase_locked d))
    (next_history (float_of_double (Prompt_I g)) (d_symbol_history d)) =
    encode_frame (ahead d).1 (ahead d).2 frame ->
  exists o d', general_work g tags d = (Returns o, d') /\ tracking (frame_TOW frame * 1000) 0 d' /\
    timed (frame_TOW frame * 1000) o /\ heard d' = hear (heard d) frame /\
    ahead d' = (vget false (encode_frame (ahead d).1 (ahead d).2 frame) 298,
                vget false (encode_frame (ahead d).1 (ahead d).2 frame) 299) /\
    d_symbol_history d' = next_history (float_of_double (Prompt_I g)) (d_symbol_history d) /\
    d_flag_PLL_180_deg_phase_locked d' = d_flag_PLL_180_deg_phase_locked d /\
    d_sample_counter d' = d_sample_counter d + 1.
Proof.
  intros Ht Hc Hg Hh. unfold general_work. rewrite run_modify, (receive_tracking T 299 g d Ht).
  destruct (end_sync T g d frame Ht (good_is_sound _ Hg) Hh) as (d3 & E3 & H3 & S3 & Z3 & A3).
  pose proof (ended_full T 299 g d Ht) as Hfull.
  destruct Ht as [Hsz Hst _ Hcount Hrange Hlast Herr Hset Htow].
  rewrite (bind_returns _ _ _ _ _ E3).
  destruct (good_end g tags d3 frame (heard d) Hg H3) as (o & d' & E & Ht' & Ho & Hh' & Ha & Hhis & Hinv & Hcnt).
  - exact Z3.
  - rewrite (f_equal sv_stat S3 : d_stat d3 = d_stat (ended g d)). exact Hst.
  - rewrite (f_equal sv_history S3 : d_symbol_history d3 = d_symbol_history (ended g d)). exact Hfull.
  - rewrite (f_equal sv_index S3 : d_preamble_index d3 = d_preamble_index (ended g d)).
    rewrite (f_equal sv_counter S3 : d_sample_counter d3 = d_sample_counter (ended g d)). reflexivity.
  - rewrite (f_equal sv_counter S3 : d_sample_counter d3 = d_sample_counter (ended g d)).
    change (d_sample_counter (ended g d)) with (d_sample_counter d + 1). lia.
  - exists o, d'. split; [exact E|]. split; [exact Ht'|]. split; [exact Ho|].
    split; [exact Hh'|]. split; [rewrite Ha; exact A3|].
    split; [rewrite Hhis; exact (f_equal sv_history S3)|].
    split; [rewrite Hinv; exact (f_equal sv_inverted S3)|].
    rewrite Hcnt. exact (f_equal sv_counter S3).
Qed.

(** At the turn of the week the time of week of a subframe is zero, which the
    block takes for an unknown one: its last symbol keeps the time of the symbol
    before, and so the symbols of the next subframe are late. *)
Lemma end_of_week T g tags d frame : tracking T 299 d -> d_sample_counter d + 1 < 2 ^ 63 ->
  sound_frame frame -> frame_TOW frame = 0 ->
  map (symbol_bit (d_flag_PLL_180_deg_phase_locked d))
    (next_history (float_of_double (Prompt_I g)) (d_symbol_history d)) =
    encode_frame (ahead d).1 (ahead d).2 frame ->
  exists o d', general_work g tags d = (Returns o, d') /\ tracking (T + 5980) 0 d' /\
    timed (u32 (T + 5980)) o /\ heard d' = hear (heard d) frame.
Proof.
  intros Ht Hc Hg H0 Hh. unfold general_work. rewrite run_modify, (receive_tracking T 299 g d Ht).
  destruct (end_sync T g d frame Ht Hg Hh) as (d3 & E3 & H3 & S3 & Z3 & A3).
  pose proof (ended_full T 299 g d Ht) as Hfull.
  destruct Ht as [Hsz Hst _ Hcount Hrange Hlast Herr Hset Htow].
  rewrite (bind_returns _ _ _ _ _ E3).
  assert (update_tow (good_subframe d3) = (Returns tt, good_subframe d3)) as E.
  { unfold update_tow. rewrite run_gets. unfold id. change (d_flag_preamble (good_subframe d3)) with true.
    cbv iota. pose proof (hear_TOW (heard d) frame Hg) as HT. rewrite <- H3, H0 in HT.
    unfold get_TOW. change (d_TOW (d_nav (good_subframe d3))) with (d_TOW (heard d3).1). rewrite HT. reflexivity. }
  rewrite (bind_returns _ _ _ _ _ E).
  injection S3 as S1 S2 S4 S5 S6 S7 S8 S9 S10 S11 S12 S13 S14 S15 S16 S17 S18.
  rewrite make_output_set by (change (d_flag_TOW_set d3 = true); rewrite S18; exact Hset).
  destruct (publish_nav_view g (good_subframe d3)) as (V1 & V2 & V3).
  assert (d_TOW_at_current_symbol_ms d3 = u32 (T + 5980)) as HT.
  { rewrite S11. change (d_TOW_at_current_symbol_ms d = u32 (T + 5980)). rewrite Htow. reflexivity. }
  eexists _, _. split; [reflexivity|]. split; [|split; [|rewrite V1; exact H3]].
  - apply (tracking_ext _ _ (good_subframe d3) _ V2).
    constructor; cbn [Z.mul]; try exact Z3; cbn; rewrite ?S1, ?S2, ?S4, ?S10, ?S18, ?HT, ?Z.add_0_r; cbn;
      try assumption; try lia; reflexivity.
  - exists (output_symbol g (publish_nav_message g (good_subframe d3))), (omap id tags). split; [reflexivity|].
    rewrite output_TOW. exact (eq_trans (f_equal sv_TOW V2) HT).
Qed.

(** ** Streams of symbols *)

Abbreviation symbol := (Gnss_Synchro * list (option GnssTime))%type.

Fixpoint gps_run (inputs : list symbol) : prog gps_tlm (list (option (Gnss_Synchro * list GnssTime))) :=
  match inputs with
  | [] => ret []
  | (g, tags) :: inputs => o <- general_work g tags;; os <- gps_run inputs;; ret (o :: os)
  end.

Definition prompts (inputs : list symbol) : list float :=
  map (fun i => float_of_double (Prompt_I i.1)) inputs.

Lemma gps_run_cons g tags inputs d o d1 os d2 : general_work g tags d = (Returns o, d1) ->
  gps_run inputs d1 = (Returns os, d2) -> gps_run ((g, tags) :: inputs) d = (Returns (o :: os), d2).
Proof.
  intros E1 E2. cbn [gps_run]. rewrite (bind_returns _ _ _ _ _ E1), (bind_returns _ _ _ _ _ E2). reflexivity.
Qed.

Lemma gps_run_app i1 i2 d os1 d1 os2 d2 : gps_run i1 d = (Returns os1, d1) ->
  gps_run i2 d1 = (Returns os2, d2) -> gps_run (i1 ++ i2) d = (Returns (os1 ++ os2), d2).
Proof.
  revert d os1. induction i1 as [|[g tags] i1 IH]; intros d os1 E1 E2.
  - cbn in E1. injection E1 as <- <-. exact E2.
  - cbn [gps_run] in E1. unfold bind at 1 in E1.
    destruct (general_work g tags d) as [[o|e] d'] eqn:E; [|discriminate].
    unfold bind in E1. destruct (gps_run i1 d') as [[os|e] d''] eqn:E'; [|discriminate].
    cbn in E1. injection E1 as <- <-. cbn [app]. eapply gps_run_cons; [exact E|]. now apply IH.
Qed.

(** The times of week of [n] symbols that follow the time [T]. *)
Definition times (T n : Z) : list Z := map (fun j => u32 (T + 20 * j)) (seqZ 1 n).

Lemma next_histories xs h : (length xs <= length h)%nat ->
  foldl (fun h x => next_history x h) h xs = drop (length xs) (h ++ xs).
Proof.
  revert h. induction xs as [|x xs IH]; intros h Hl; [now rewrite app_nil_r|]. cbn [foldl length] in *.
  destruct h as [|y h]; [cbn in Hl; lia|]. unfold next_history at 2. cbn [app drop length] in *.
  rewrite drop_0, IH by (rewrite ?drop_0, length_app; cbn; lia). now rewrite <- app_assoc.
Qed.

Lemma quiet_run inputs : forall T k d, tracking T k d -> k + Z.of_nat (length inputs) < 300 ->
  d_sample_counter d + Z.of_nat (length inputs) < 2 ^ 63 ->
  exists os d', gps_run inputs d = (Returns os, d') /\ tracking T (k + Z.of_nat (length inputs)) d' /\
    Forall2 timed (map (fun j => u32 (T + 20 * j)) (seqZ (k + 1) (Z.of_nat (length inputs)))) os /\
    heard d' = heard d /\ ahead d' = ahead d /\
    d_symbol_history d' = foldl (fun h x => next_history x h) (d_symbol_history d) (prompts inputs) /\
    d_flag_PLL_180_deg_phase_locked d' = d_flag_PLL_180_deg_phase_locked d /\
    d_sample_counter d' = d_sample_counter d + Z.of_nat (length inputs).
Proof.
  induction inputs as [|[g tags] inputs IH]; intros T k d Ht Hk Hc; cbn [length] in *.
  - exists [], d. rewrite Z.add_0_r. split; [reflexivity|]. split; [exact Ht|].
    split; [constructor|]. repeat split; lia.
  - destruct (quiet_symbol T k g tags d Ht ltac:(lia) ltac:(lia)) as
      (o & d1 & E1 & T1 & O1 & H1 & A1 & His1 & I1 & C1).
    destruct (IH T (k + 1) d1 T1 ltac:(lia) ltac:(lia)) as (os & d' & E & T' & O & H & A & His & I & C).
    exists (o :: os), d'. split; [exact (gps_run_cons _ _ _ _ _ _ _ _ E1 E)|].
    split; [replace (k + Z.of_nat (S (length inputs))) with (k + 1 + Z.of_nat (length inputs)) by lia; exact T'|].
    split.
    { rewrite seqZ_cons by lia. cbn [map]. constructor; [exact O1|].
      replace (Z.pred (Z.of_nat (S (length inputs)))) with (Z.of_nat (length inputs)) by lia.
      replace (Z.succ (k + 1)) with (k + 1 + 1) by lia. exact O. }
    rewrite H, A, His, I, C, His1. repeat split; try assumption. lia.
Qed.

(** A whole subframe in lock. *)
Lemma frame_run T d inputs frame : tracking T 0 d -> length inputs = 300%nat ->
  d_sample_counter d + 300 < 2 ^ 63 -> good_frame frame -> frame_TOW frame * 1000 = T + 6000 ->
  map (symbol_bit (d_flag_PLL_180_deg_phase_locked d)) (prompts inputs) =
    encode_frame (ahead d).1 (ahead d).2 frame ->
  exists os d', gps_run inputs d = (Returns os, d') /\ tracking (T + 6000) 0 d' /\
    Forall2 timed (times T 300) os /\ heard d' = hear (heard d) frame /\
    ahead d' = (vget false (encode_frame (ahead d).1 (ahead d).2 frame) 298,
                vget false (encode_frame (ahead d).1 (ahead d).2 frame) 299) /\
    d_flag_PLL_180_deg_phase_locked d' = d_flag_PLL_180_deg_phase_locked d /\
    d_sample_counter d' = d_sample_counter d + 300.
Proof.
  intros Ht Hl Hc Hg HT Hb. destruct (exists_last (l := inputs)) as (front & [g tags] & ->); [now intros ->|].
  rewrite length_app in Hl. cbn in Hl. assert (length front = 299%nat) as Hf by lia.
  destruct (quiet_run front T 0 d Ht ltac:(lia) ltac:(lia)) as (os & d1 & E1 & T1 & O1 & H1 & A1 & His1 & I1 & C1).
  rewrite Hf in *. change (0 + Z.of_nat 299) with 299 in *.
  assert (next_history (float_of_double (Prompt_I g)) (d_symbol_history d1) = prompts (front ++ [(g, tags)])) as Eh.
  { assert (length (prompts front) = 299%nat) as Hp by (unfold prompts; rewrite length_map; exact Hf).
    pose proof (tr_full _ _ _ Ht) as Hfull. rewrite His1, next_histories, Hp by lia.
    unfold next_history. rewrite <- drop_app_le by (rewrite length_app; lia). rewrite <- app_assoc, drop_drop.
    unfold prompts. rewrite map_app. apply drop_app_length'. cbn. lia. }
  destruct (end_symbol T g tags d1 frame T1 ltac:(lia) Hg) as (o & d' & E & T' & O & H & A & His & I & C).
  { rewrite Eh, I1, A1. exact Hb. }
  exists (os ++ [o]), d'. split.
  { eapply gps_run_app; [exact E1|]. eapply gps_run_cons; [exact E|reflexivity]. }
  rewrite HT in T', O. split; [exact T'|]. split.
  { unfold times. change (seqZ 1 300) with (seqZ (0 + 1) (Z.of_nat 299) ++ [300]). rewrite map_app.
    apply Forall2_app; [exact O1|]. constructor; [|constructor]. cbn [map].
    destruct Hg as (_ & _ & Hr). rewrite wrap_small by lia. exact O. }
  rewrite H, A, I, C, H1, A1, I1, C1. repeat split; try assumption. lia.
Qed.

(** Subframes in a row: the times of week follow one another. *)
Fixpoint in_order (T : Z) (frames : list (list bool)) : Prop :=
  match frames with
  | [] => True
  | frame :: frames => good_frame frame /\ frame_TOW frame * 1000 = T + 6000 /\ in_order (T + 6000) frames
  end.

Lemma times_app T n m : 0 <= n -> 0 <= m -> times T (n + m) = times T n ++ times (T + 20 * n) m.
Proof.
  intros Hn Hm. unfold times. rewrite seqZ_app, map_app by lia. f_equal.
  assert (seqZ (1 + n) m = map (Z.add n) (seqZ 1 m)) as ->
    by (rewrite Z.add_comm; symmetry; apply fmap_add_seqZ). rewrite map_map. apply map_ext. intros j. f_equal. lia.
Qed.

Lemma stream_run frames : forall T d inputs, tracking T 0 d ->
  Z.of_nat (length inputs) = 300 * Z.of_nat (length frames) ->
  d_sample_counter d + Z.of_nat (length inputs) < 2 ^ 63 -> in_order T frames ->
  map (symbol_bit (d_flag_PLL_180_deg_phase_locked d)) (prompts inputs) =
    encode_frames (ahead d).1 (ahead d).2 frames ->
  exists os d', gps_run inputs d = (Returns os, d') /\
    tracking (T + 6000 * Z.of_nat (length frames)) 0 d' /\
    Forall2 timed (times T (300 * Z.of_nat (length frames))) os /\
    heard d' = foldl hear (heard d) frames.
Proof.
  induction frames as [|frame frames IH]; intros T d inputs Ht Hl Hc Ho Hb; cbn [length] in *.
  - destruct inputs; [|cbn in Hl; lia]. exists [], d. split; [reflexivity|].
    rewrite Z.mul_0_r, Z.add_0_r. split; [exact Ht|]. split; [constructor|reflexivity].
  - destruct Ho as (Hg & HT & Ho). cbn [encode_frames] in Hb.
    set (c := encode_frame (ahead d).1 (ahead d).2 frame) in *.
    assert (length c = 300%nat) as Hcl by (apply encode_frame_length, Hg).
    rewrite <- (take_drop 300 inputs) in Hb |- *. unfold prompts in Hb. rewrite !map_app in Hb.
    apply app_inj_1 in Hb as [Hb1 Hb2];
      [|rewrite !length_map, length_take; lia].
    destruct (frame_run T d (take 300 inputs) frame Ht ltac:(rewrite length_take; lia) ltac:(lia) Hg HT Hb1)
      as (os1 & d1 & E1 & T1 & O1 & H1 & A1 & I1 & C1).
    destruct (IH (T + 6000) d1 (drop 300 inputs) T1 ltac:(rewrite length_drop; lia)
      ltac:(rewrite length_drop; lia) Ho) as (os2 & d' & E2 & T2 & O2 & H2).
    { rewrite I1, A1. exact Hb2. }
    exists (os1 ++ os2), d'. split; [exact (gps_run_app _ _ _ _ _ _ _ E1 E2)|].
    split; [replace (T + 6000 * Z.of_nat (S (length frames))) with
      (T + 6000 + 6000 * Z.of_nat (length frames)) by lia; exact T2|].
    split; [|cbn [foldl]; now rewrite H2, H1].
    replace (300 * Z.of_nat (S (length frames))) with (300 + 300 * Z.of_nat (length frames)) by lia.
    rewrite times_app by lia. apply Forall2_app; [exact O1|exact O2].
Qed.

(** ** Acquisition *)

(** The preamble as it is inserted, in the polarity of the carrier. *)
Definition preamble_symbols (inverted : bool) : list float :=
  map (fun s => float_of_Z (if inverted then - s else s)) [1; -1; -1; -1; 1; -1; 1; 1].

Definition preamble_bits : list bool := [true; false; false; false; true; false; true; true].

(** Before the first subframe: no time of week is known, and the alarm is far. *)
Record searching (h : list float) (d : gps_tlm) : Prop := {
  se_sized : sized d;
  se_stat : d_stat d = 0;
  se_history : d_symbol_history d = h;
  se_short : (length h < 300)%nat;
  se_last : 0 <= d_last_valid_preamble d;
  se_count : d_sample_counter d = d_last_valid_preamble d + Z.of_nat (length h);
  se_range : d_sample_counter d < 2 ^ 63;
  se_set : d_flag_TOW_set d = false
}.

Lemma push_short x d : sized d -> (length (d_symbol_history d) < 300)%nat ->
  0 <= d_sample_counter d < 2 ^ 63 ->
  push_symbol x d = d <| d_symbol_history := d_symbol_history d ++ [x] |>
    <| d_sample_counter := d_sample_counter d + 1 |>.
Proof.
  intros (Hr & _) Hl Hc. unfold push_symbol, update. cbn. f_equal.
  - rewrite Hr, length_app. cbn [length].
    replace (Z.to_nat (Z.of_nat (length (d_symbol_history d) + 1) - 300)) with 0%nat by lia. reflexivity.
  - apply wrap_small. lia.
Qed.

(** The first symbol of a satellite. *)
Lemma insert_first g d : searching [] d -> d_sample_counter d + 8 < 2 ^ 63 ->
  let inverted := TlmDecoder.Flag_PLL_180_deg_phase_locked g in
  insert_preamble g d = d <| d_symbol_history := preamble_symbols inverted |>
    <| d_sample_counter := d_sample_counter d + 8 |>.
Proof.
  intros [Hsz Hst Hh Hs Hl Hc Hr Hset] Hc8. cbv zeta. set (inverted := TlmDecoder.Flag_PLL_180_deg_phase_locked g).
  unfold insert_preamble. rewrite Hh. fold inverted. cbn [length] in Hc.
  assert (forall k, 0 <= k <= 8 ->
    for_range 0 k (fun i d => let s := vget 0 (d_preamble_samples d) i in
      push_symbol (float_of_Z (if inverted then - s else s)) d) d =
    d <| d_symbol_history := take (Z.to_nat k) (preamble_symbols inverted) |>
      <| d_sample_counter := d_sample_counter d + k |>) as H.
  { intros k Hk. apply (for_range_ind (fun k t => 0 <= k <= 8 -> t =
      d <| d_symbol_history := take (Z.to_nat k) (preamble_symbols inverted) |>
        <| d_sample_counter := d_sample_counter d + k |>)); [lia| | |lia].
    - intros _. rewrite Z.add_0_r. unfold update. cbn. destruct d. cbn in *. now subst.
    - intros i t Hi IH Hi8. rewrite IH by lia. cbv zeta. rewrite push_short.
      + unfold update. cbn -[Z.add preamble_symbols]. destruct Hsz as (_ & _ & _ & _ & Hp). rewrite Hp. f_equal; [|lia].
        replace (Z.to_nat (i + 1)) with (S (Z.to_nat i)) by lia.
        erewrite take_S_r; [reflexivity|]. unfold preamble_symbols. rewrite list_lookup_fmap.
        unfold vget. destruct (Z.ltb_spec i 0); [lia|].
        destruct (lookup_lt_is_Some_2 [1; -1; -1; -1; 1; -1; 1; 1] (Z.to_nat i)) as [s Es]; [cbn; lia|].
        now rewrite (nth_lookup_Some _ _ _ _ Es), Es.
      + exact Hsz.
      + cbn. rewrite length_take. cbn. lia.
      + cbn. lia. }
  exact (H 8 ltac:(lia)).
Qed.

Definition started (inverted : bool) (x : float) : list float := preamble_symbols inverted ++ [x].

(** The history with one more symbol. *)
Definition grown (h : list float) (d : gps_tlm) : gps_tlm :=
  d <| d_symbol_history := h |> <| d_sample_counter := d_last_valid_preamble d + Z.of_nat (length h) |>
    <| d_flag_preamble := false |>.

Lemma check_far h d : sized d -> 0 <= d_last_valid_preamble d < 2 ^ 63 -> (length h <= 300)%nat ->
  check_telemetry (grown h d) = grown h d.
Proof.
  intros (_ & _ & Hmax & _) Hl Hh. unfold check_telemetry.
  assert ((d_max_symbols_without_valid_frame (grown h d) <?
    u64 (d_sample_counter (grown h d) - d_last_valid_preamble (grown h d))) = false) as ->;
    [|now rewrite andb_false_r].
  unfold grown. cbn. rewrite Hmax, wrap_small by lia. apply Z.ltb_ge. lia.
Qed.

Lemma preamble_length inverted : length (preamble_symbols inverted) = 8%nat.
Proof. reflexivity. Qed.

Lemma store_twice h c h' c' d :
  (d <| d_symbol_history := h |> <| d_sample_counter := c |>)
    <| d_symbol_history := h' |> <| d_sample_counter := c' |> =
  d <| d_symbol_history := h' |> <| d_sample_counter := c' |>.
Proof. now destruct d. Qed.

#[local] Opaque preamble_symbols.

Lemma receive_first g d : searching [] d -> d_sample_counter d + 9 < 2 ^ 63 ->
  receive_symbol g d =
    grown (started (TlmDecoder.Flag_PLL_180_deg_phase_locked g) (float_of_double (Prompt_I g))) d.
Proof.
  intros Hse Hc9. unfold receive_symbol. rewrite insert_first by (assumption || lia).
  destruct Hse as [Hsz Hst Hh Hs Hl Hc Hr Hset]. cbn [length] in Hc.
  rewrite push_short; [|exact Hsz|cbn; rewrite preamble_length; lia|cbn; lia].
  rewrite <- check_far; [|exact Hsz|lia|unfold started; rewrite length_app, preamble_length; cbn; lia].
  f_equal. rewrite store_twice. unfold grown.
  replace (d_last_valid_preamble d + Z.of_nat (length (started _ _))) with (d_sample_counter d + 8 + 1)
    by (unfold started; rewrite length_app, preamble_length; cbn; lia). reflexivity.
Qed.

Lemma receive_search h g d : searching h d -> h <> [] -> d_sample_counter d + 1 < 2 ^ 63 ->
  receive_symbol g d = grown (h ++ [float_of_double (Prompt_I g)]) d.
Proof.
  intros [Hsz Hst Hh Hs Hl Hc Hr Hset] Hne Hc1. unfold receive_symbol.
  assert (insert_preamble g d = d) as ->.
  { unfold insert_preamble. rewrite Hh. now destruct h. }
  rewrite push_short; [|exact Hsz|now rewrite Hh|lia].
  rewrite <- check_far; [|exact Hsz|lia|rewrite length_app; cbn; lia]. f_equal.
  unfold grown, update. cbn -[Z.add]. rewrite Hh. f_equal. rewrite Hc, length_app. cbn. lia.
Qed.

(** While the history is short there is nothing to find. *)
Lemma search_short h d : sized d -> d_stat d = 0 -> d_flag_TOW_set d = false -> (length h < 300)%nat ->
  0 <= d_last_valid_preamble d -> d_last_valid_preamble d + Z.of_nat (length h) < 2 ^ 63 -> forall g tags,
  exists d', (frame_sync;; update_tow;; make_output g tags) (grown h d) = (Returns None, d') /\
    searching h d' /\ heard d' = heard d /\ d_last_valid_preamble d' = d_last_valid_preamble d.
Proof.
  intros Hsz Hst Hset Hh Hl Hc g tags. set (d1 := grown h d).
  assert (corr_value d1 = 0) as Hcorr.
  { unfold corr_value. change (d_required_symbols d1) with (d_required_symbols d).
    destruct Hsz as (-> & _). change (d_symbol_history d1) with h.
    destruct (Z.leb_spec 300 (Z.of_nat (length h))); [lia|reflexivity]. }
  set (d2 := d1 <| d_flag_TOW_set := false |>).
  assert (frame_sync d1 = (Returns tt, d2)) as E.
  { unfold frame_sync. rewrite run_gets. change (d_stat d1) with (d_stat d). rewrite Hst.
    unfold search_preamble. rewrite run_gets. unfold id. rewrite Hcorr.
    change (d_samples_per_preamble d1) with (d_samples_per_preamble d).
    destruct Hsz as (_ & _ & _ & -> & _). reflexivity. }
  exists d2. rewrite (bind_returns _ _ _ _ _ E). split; [reflexivity|].
  split; [|split; reflexivity]. constructor; cbn; try assumption; reflexivity.
Qed.

#[local] Transparent preamble_symbols.

Lemma preamble_correlation inverted rest :
  correlation 8 [1; -1; -1; -1; 1; -1; 1; 1] (preamble_symbols inverted ++ rest) =
  if inverted then -8 else 8.
Proof. destruct inverted; reflexivity. Qed.

#[local] Opaque preamble_symbols.

(** The symbol that completes the first subframe. *)
Lemma lock_symbol inverted rest g tags d frame : searching (preamble_symbols inverted ++ rest) d ->
  length rest = 291%nat -> d_sample_counter d + 1 < 2 ^ 63 -> good_frame frame ->
  map (symbol_bit inverted) (preamble_symbols inverted ++ rest ++ [float_of_double (Prompt_I g)]) =
    encode_frame false false frame ->
  exists o d', general_work g tags d = (Returns o, d') /\ tracking (frame_TOW frame * 1000) 0 d' /\
    timed (frame_TOW frame * 1000) o /\ heard d' = hear (heard d) frame /\
    ahead d' = (vget false (encode_frame false false frame) 298,
                vget false (encode_frame false false frame) 299) /\
    d_flag_PLL_180_deg_phase_locked d' = inverted /\ d_sample_counter d' = d_sample_counter d + 1.
Proof.
  intros Hse Hrest Hc Hg Hb. unfold general_work.
  rewrite run_modify, (receive_search _ g d Hse) by (first [exact Hc | intros E; apply app_nil in E as [E _]; discriminate (f_equal length E)]).
  destruct Hse as [Hsz Hst Hh Hs Hl Hcount Hr Hset]. rewrite <- app_assoc.
  set (h := preamble_symbols inverted ++ rest ++ [float_of_double (Prompt_I g)]) in *.
  assert (length h = 300%nat) as Hlen by (unfold h; rewrite !length_app, preamble_length, Hrest; reflexivity).
  set (d1 := grown h d).
  set (d2 := d1 <| d_preamble_index := d_sample_counter d1 |>
    <| d_flag_PLL_180_deg_phase_locked := inverted |> <| d_prev_GPS_frame_4bytes := 0 |>).
  assert (corr_value d1 = if inverted then -8 else 8) as Hcorr.
  { unfold corr_value. change (d_required_symbols d1) with (d_required_symbols d).
    change (d_preamble_samples d1) with (d_preamble_samples d).
    destruct Hsz as (-> & _ & _ & _ & ->). change (d_symbol_history d1) with h. rewrite Hlen.
    change (300 <=? Z.of_nat 300) with true. apply preamble_correlation. }
  destruct (decode_heard inverted d2 frame (good_is_sound _ Hg) Hb) as (d3 & E3 & H3 & S3 & A3).
  set (d4 := d3 <| d_stat := 1 |> <| d_flag_TOW_set := false |>).
  assert (frame_sync d1 = (Returns tt, good_subframe d4)) as E1.
  { unfold frame_sync. rewrite run_gets. change (d_stat d1) with (d_stat d). rewrite Hst.
    unfold search_preamble. rewrite run_gets. unfold id. rewrite Hcorr.
    change (d_samples_per_preamble d1) with (d_samples_per_preamble d).
    destruct Hsz as (_ & _ & _ & -> & _).
    replace (8 <=? Z.abs (if inverted then -8 else 8)) with true by (destruct inverted; reflexivity).
    replace ((if inverted then -8 else 8) <? 0) with inverted by (destruct inverted; reflexivity).
    erewrite bind_returns; [|rewrite run_modify; change (d1 <| d_preamble_index := _ |>
      <| d_flag_PLL_180_deg_phase_locked := _ |> <| d_prev_GPS_frame_4bytes := _ |>) with d2;
      rewrite (bind_returns _ _ _ _ _ E3); reflexivity]. reflexivity. }
  rewrite (bind_returns _ _ _ _ _ E1).
  assert (d_sample_counter d3 = d_last_valid_preamble d + 300) as C3.
  { rewrite (f_equal sv_counter S3 : d_sample_counter d3 = d_sample_counter d2). cbn. rewrite Hlen. reflexivity. }
  assert (d_sample_counter d + 1 = d_last_valid_preamble d + 300) as Hc0.
  { rewrite Hcount, length_app, preamble_length, Hrest. lia. }
  destruct (good_end g tags d4 frame (heard d2) Hg H3) as (o & d' & E & Ht' & Ho & Hh' & Ha & _ & Hinv & Hcnt).
  - exact (sized_ext d2 d3 S3 Hsz).
  - reflexivity.
  - change (length (d_symbol_history d3) = 300%nat).
    rewrite (f_equal sv_history S3 : d_symbol_history d3 = d_symbol_history d2). exact Hlen.
  - change (d_preamble_index d3 = d_sample_counter d3).
    rewrite (f_equal sv_index S3 : d_preamble_index d3 = d_preamble_index d2).
    rewrite (f_equal sv_counter S3 : d_sample_counter d3 = d_sample_counter d2). reflexivity.
  - change (0 <= d_sample_counter d3 < 2 ^ 63). lia.
  - exists o, d'. split; [exact E|]. split; [exact Ht'|]. split; [exact Ho|]. split; [exact Hh'|].
    split; [rewrite Ha; exact A3|]. split; [rewrite Hinv; exact (f_equal sv_inverted S3)|].
    rewrite Hcnt. change (d_sample_counter d3 = d_sample_counter d + 1). lia.
Qed.

Lemma search_run inputs : forall h d, searching h d -> h <> [] ->
  (length h + length inputs < 300)%nat -> d_sample_counter d + Z.of_nat (length inputs) < 2 ^ 63 ->
  exists d', gps_run inputs d = (Returns (replicate (length inputs) None), d') /\
    searching (h ++ prompts inputs) d' /\ heard d' = heard d /\
    d_last_valid_preamble d' = d_last_valid_preamble d.
Proof.
  induction inputs as [|[g tags] inputs IH]; intros h d Hse Hne Hl Hc; cbn [length] in *.
  - exists d. cbn [prompts map replicate]. rewrite app_nil_r. split; [reflexivity|]. split; [exact Hse|].
    split; reflexivity.
  - pose proof Hse as [Hsz Hst Hh Hs Hlast Hcount Hr Hset].
    destruct (search_short (h ++ [float_of_double (Prompt_I g)]) d Hsz Hst Hset
      ltac:(rewrite length_app; cbn; lia) Hlast ltac:(rewrite length_app; cbn; lia) g tags)
      as (d1 & E1 & S1 & H1 & L1).
    destruct (IH _ d1 S1 ltac:(now destruct h) ltac:(rewrite length_app; cbn; lia)) as (d' & E & S & H & L).
    { rewrite (se_count _ _ S1), L1, length_app. cbn. lia. }
    exists d'. split.
    { cbn [replicate]. eapply gps_run_cons; [|exact E]. unfold general_work.
      rewrite run_modify, (receive_search h g d Hse Hne) by lia. exact E1. }
    unfold prompts. cbn [map fst]. rewrite H, L. split; [|split; assumption].
    now rewrite <- app_assoc in S.
Qed.

Lemma preamble_first frame : length frame = 300%nat ->
  take 8 (encode_frame false false frame) = take 8 frame.
Proof.
  intros Hf. unfold encode_frame, frame_data, frame_chunks. cbn [seq map]. rewrite encode_words_cons.
  cbn [concat]. unfold encode_word at 1. rewrite <- app_assoc, take_app_le by
    (rewrite length_map, !length_take, length_drop; lia).
  rewrite <- firstn_map. rewrite take_take, drop_0.
  assert (forall l, map (xorb false) l = l) as -> by (induction l as [|[] l IH]; cbn; congruence).
  rewrite !take_take. reflexivity.
Qed.

Lemma preamble_is inverted : map (symbol_bit inverted) (preamble_symbols inverted) = preamble_bits.
Proof. destruct inverted; reflexivity. Qed.

(** The first subframe of a satellite, whose preamble is inserted. *)
Lemma first_frame d g tags mid g' tags' frame inverted : searching [] d -> good_frame frame ->
  take 8 frame = preamble_bits -> length mid = 290%nat -> d_sample_counter d + 300 < 2 ^ 63 ->
  TlmDecoder.Flag_PLL_180_deg_phase_locked g = inverted ->
  map (symbol_bit inverted) (prompts ((g, tags) :: mid ++ [(g', tags')])) =
    drop 8 (encode_frame false false frame) ->
  exists o d', gps_run ((g, tags) :: mid ++ [(g', tags')]) d = (Returns (replicate 291 None ++ [o]), d') /\
    tracking (frame_TOW frame * 1000) 0 d' /\ timed (frame_TOW frame * 1000) o /\
    heard d' = hear (heard d) frame /\
    ahead d' = (vget false (encode_frame false false frame) 298,
                vget false (encode_frame false false frame) 299) /\
    d_flag_PLL_180_deg_phase_locked d' = inverted /\ d_sample_counter d' = d_sample_counter d + 300.
Proof.
  intros Hse Hg Hp Hmid Hc Hinv Hb.
  set (x := float_of_double (Prompt_I g)). set (x' := float_of_double (Prompt_I g')).
  assert (prompts ((g, tags) :: mid ++ [(g', tags')]) = (x :: prompts mid) ++ [x']) as Ep
    by (unfold prompts; cbn [map]; rewrite map_app; reflexivity).
  rewrite Ep in Hb.
  assert (map (symbol_bit inverted) (preamble_symbols inverted ++ (x :: prompts mid) ++ [x']) =
      encode_frame false false frame) as Hbits.
  { rewrite map_app, preamble_is, Hb, <- Hp, <- preamble_first by apply Hg. apply take_drop. }
  pose proof Hse as [Hsz Hst Hh Hs Hlast Hcount Hr Hset]. cbn [length] in Hcount.
  assert (length (prompts mid) = 290%nat) as Hpm by (unfold prompts; now rewrite length_map).
  destruct (search_short (started inverted x) d Hsz Hst Hset
    ltac:(unfold started; rewrite length_app, preamble_length; cbn; lia) Hlast
    ltac:(unfold started; rewrite length_app, preamble_length; cbn; lia) g tags) as (d1 & E1 & S1 & H1 & L1).
  destruct (search_run mid _ d1 S1) as (d2 & E2 & S2 & H2 & L2).
  { unfold started. intros E. apply (f_equal length) in E. rewrite length_app, preamble_length in E. discriminate. }
  { unfold started. rewrite length_app, preamble_length, Hmid. cbn. lia. }
  { rewrite (se_count _ _ S1), L1. unfold started. rewrite length_app, preamble_length. cbn. lia. }
  unfold started in S2. rewrite <- app_assoc in S2. cbn [app] in S2.
  assert (d_sample_counter d2 = d_sample_counter d + 299) as C2.
  { rewrite (se_count _ _ S2), L2, L1, length_app, preamble_length. cbn [length]. lia. }
  destruct (lock_symbol inverted (x :: prompts mid) g' tags' d2 frame S2
    ltac:(cbn [length]; lia) ltac:(lia) Hg Hbits) as (o & d' & E & T' & O & H & A & I & C).
  exists o, d'. split.
  { replace 291%nat with (S (length mid)) by lia. cbn [replicate app].
    eapply gps_run_cons; [|eapply gps_run_app; [exact E2|]].
    - unfold general_work. rewrite run_modify, (receive_first g d Hse) by lia. rewrite Hinv. exact E1.
    - eapply gps_run_cons; [exact E|reflexivity]. }
  split; [exact T'|]. split; [exact O|]. rewrite H, H2, H1. split; [reflexivity|].
  split; [exact A|]. split; [exact I|]. lia.
Qed.

(** From the first symbol of a satellite: the subframes are heard from the
    first one on, and every symbol from its end on has its time of week. *)
Lemma acquisition d inputs frame frames inverted : searching [] d -> good_frame frame ->
  take 8 frame = preamble_bits -> in_order (frame_TOW frame * 1000) frames ->
  Z.of_nat (length inputs) = 292 + 300 * Z.of_nat (length frames) ->
  d_sample_counter d + 8 + Z.of_nat (length inputs) < 2 ^ 63 ->
  (exists g tags rest, inputs = (g, tags) :: rest /\
     TlmDecoder.Flag_PLL_180_deg_phase_locked g = inverted) ->
  map (symbol_bit inverted) (prompts inputs) = drop 8 (encode_frames false false (frame :: frames)) ->
  let T := frame_TOW frame * 1000 in
  exists os d', gps_run inputs d = (Returns (replicate 291 None ++ os), d') /\
    tracking (T + 6000 * Z.of_nat (length frames)) 0 d' /\
    Forall2 timed (T :: times T (300 * Z.of_nat (length frames))) os /\
    heard d' = foldl hear (heard d) (frame :: frames).
Proof.
  intros Hse Hg Hp Ho Hl Hc (g & tags & rest & -> & Hinv) Hb. cbv zeta. cbn [length] in *.
  pose proof (encode_frame_length false false frame (proj1 Hg)) as Hcl.
  assert (exists mid g' tags' rest', rest = (mid ++ [(g', tags')]) ++ rest' /\ length mid = 290%nat) as
    (mid & g' & tags' & rest' & -> & Hmid).
  { exists (take 290 rest). destruct (drop 290 rest) as [|[g' tags'] rest'] eqn:E.
    - apply (f_equal length) in E. rewrite length_drop in E. cbn in E. lia.
    - exists g', tags', rest'. split; [|rewrite length_take; lia].
      rewrite <- app_assoc. cbn [app]. rewrite <- E. symmetry. apply take_drop. }
  rewrite !length_app in Hl, Hc. cbn [length] in Hl, Hc.
  rewrite app_comm_cons in Hb |- *. unfold prompts in Hb. rewrite !map_app in Hb.
  change (map (fun i => float_of_double (Prompt_I i.1)) ?l) with (prompts l) in Hb.
  cbn [encode_frames] in Hb. rewrite drop_app_le in Hb by lia.
  apply app_inj_1 in Hb as [Hb1 Hb2].
  2: { rewrite length_drop, Hcl. unfold prompts. rewrite !length_map. cbn [length]. rewrite length_app, Hmid. reflexivity. }
  destruct (first_frame d g tags mid g' tags' frame inverted Hse Hg Hp Hmid ltac:(lia) Hinv Hb1)
    as (o & d1 & E1 & T1 & O1 & H1 & A1 & I1 & C1).
  destruct (stream_run frames _ d1 rest' T1 ltac:(lia) ltac:(lia) Ho) as (os & d' & E & T' & O & H).
  { rewrite I1, A1. exact Hb2. }
  exists (o :: os), d'. split.
  { pose proof (gps_run_app _ _ _ _ _ _ _ E1 E) as Er. rewrite <- app_assoc in Er. exact Er. }
  split; [exact T'|]. split; [constructor; assumption|]. cbn [foldl]. now rewrite H, H1.
Qed.
