(* ===== verification/GpsSafety.v ===== *)
(** * GpsSafety: the GPS block never fails

    A well-formedness invariant of the state of GpsTlm: from a new block on, no
    symbol, change of satellite or reset breaks it, and in a state that
    satisfies it [general_work] returns: no word is stored beyond the subframe
    and every time of week fits its type.  No ephemeris is ever published that
    joins subframes of different issues of data. *)

From S2P Require Import Prelude Cstring Float64 InavTables InavWords InavReaders GnssSignal Viterbi TlmDecoder GpsTables GpsMessage GpsTlm GpsParity GpsFrames GpsEncode GpsReceiver.
From stdpp Require Import list.
From Stdlib Require Import ZArith Lia SpecFloat.
Local Open Scope Z_scope.
Local Open Scope cxx_scope.

(** ** The invariant *)

Definition tow_ok (m : Gps_Navigation_Message) : Prop := 0 <= d_TOW m < 2 ^ 20.

(** Subframes 1, 2 and 3 of an ephemeris carry the same issue of data. *)
Definition one_issue (msg : gps_message) : Prop :=
  match msg with
  | telemetry_gps_ephemeris e =>
      Gps_Ephemeris.IODC e = Gps_Ephemeris.IODE_SF2 e /\
      Gps_Ephemeris.IODE_SF2 e = Gps_Ephemeris.IODE_SF3 e
  | _ => True
  end.

Record gps_wf (d : gps_tlm) : Prop := {
  gw_sized : sized d;
  gw_history : (length (d_symbol_history d) <= 300)%nat;
  gw_counter : 0 <= d_sample_counter d < 2 ^ 64;
  gw_stat : d_stat d = 0 \/ (d_stat d = 1 /\ length (d_symbol_history d) = 300%nat);
  gw_errors : 0 <= d_CRC_error_counter d <= 2;
  gw_tow : tow_ok (d_nav d);
  gw_published : Forall one_issue (published d)
}.

Lemma new_gps_wf satellite conf : gps_wf (new_gps_tlm satellite conf).
Proof.
  constructor; [repeat split|cbn; lia|cbn; lia|now left|cbn; lia|unfold tow_ok; cbn; lia|constructor].
Qed.

Lemma set_satellite_gps_wf satellite d : gps_wf d -> gps_wf (GpsTlm.set_satellite satellite d).
Proof. intros [H1 H2 H3 H4 H5 H6 H7]. constructor; try assumption. unfold tow_ok. cbn. lia. Qed.

Lemma set_channel_gps_wf channel d : gps_wf d -> gps_wf (GpsTlm.set_channel channel d).
Proof. intros [H1 H2 H3 H4 H5 H6 H7]. now constructor. Qed.

Lemma reset_gps_wf d : gps_wf d -> gps_wf (reset_gps_tlm d).
Proof. intros [H1 H2 H3 H4 H5 H6 H7]. constructor; try assumption; [cbn; lia|now left]. Qed.

(** ** The message decoder keeps the time of week in range *)

Lemma read_TOW_range bits : 0 <= read_TOW bits < 2 ^ 20.
Proof.
  assert (gps_read_unsigned bits TOW = bin_value (field_bits 300 bits TOW)) as E.
  { apply (unsigned_reader 64); [lia|repeat (constructor; [lia|]); constructor|].
    unfold field_bits, TOW. cbn [map concat]. rewrite app_nil_r, slice_bits_length; lia. }
  pose proof (bin_value_range (field_bits 300 bits TOW)) as H. rewrite <- E in H.
  assert (Z.of_nat (length (field_bits 300 bits TOW)) = 17) as El.
  { unfold field_bits, TOW. cbn [map concat]. rewrite app_nil_r. apply slice_bits_length. lia. }
  rewrite El in H. unfold read_TOW. rewrite !swrap_small by (rewrite ?swrap_small by lia; lia). lia.
Qed.

Lemma decode_other bits m : ~ 1 <= (decode_bits bits m).1 <= 5 -> (decode_bits bits m).2 = m.
Proof.
  unfold decode_bits. cbn [fst snd]. generalize (i32 (gps_read_unsigned bits SUBFRAME_ID)) as id.
  intros [|p|p] Hid; [reflexivity| |reflexivity].
  do 3 (destruct p as [p|p|]; try reflexivity; try lia).
Qed.

Lemma decode_tow_ok bits m : tow_ok m -> tow_ok (decode_bits bits m).2.
Proof.
  intros Hm. pose proof (read_TOW_range bits) as Hr.
  destruct (Z_le_dec 1 (decode_bits bits m).1) as [H1|H1], (Z_le_dec (decode_bits bits m).1 5) as [H5|H5];
    [unfold tow_ok; rewrite decode_TOW; [exact Hr|lia]|..];
    rewrite decode_other by lia; exact Hm.
Qed.

Lemma report_tow_ok id nav msgs : tow_ok nav -> tow_ok (report id nav msgs).1.
Proof. unfold tow_ok. now rewrite report_TOW. Qed.

(** ** Issues of data *)

Lemma validated_one_issue m m' : satellite_validation m = (true, m') ->
  one_issue (telemetry_gps_ephemeris (get_ephemeris m')).
Proof.
  unfold satellite_validation. cbv zeta. intros E.
  destruct (negb _ && negb _ && negb _); [|discriminate].
  destruct ((_ =? _) && (_ =? _) && _) eqn:Hi; [|discriminate].
  rewrite !andb_true_iff in Hi. destruct Hi as [[H1 H2] _].
  apply (f_equal snd) in E. cbn [snd] in E. subst m'.
  apply Z.eqb_eq in H1, H2. split; [exact H2|exact H1].
Qed.

Lemma report_one_issue id d : Forall one_issue (published d) ->
  Forall one_issue (published (report_subframe id d)).
Proof.
  intros H. unfold report_subframe. destruct id as [|p|p]; try exact H.
  assert (Forall one_issue (published (publish_ephemeris d))) as He.
  { unfold publish_ephemeris. destruct (satellite_validation (d_nav d)) as [[] nav] eqn:E; [|exact H].
    constructor; [exact (validated_one_issue _ _ E)|exact H]. }
  do 3 (try destruct p as [p|p|]); try exact H; try exact He.
  unfold publish_utc_model, publish_iono, get_flag_iono_valid, get_flag_utc_model_valid.
  destruct (flag_iono_valid (d_nav d)); cbn; destruct (flag_utc_model_valid (d_nav d));
    repeat (constructor; [exact I|]); exact H.
Qed.

(** ** Decoding any full history *)

Lemma sync_nav nav d : sync (d <| d_nav := nav |>) = sync d.
Proof. reflexivity. Qed.

Lemma accept_subframe_safe ws d : exists b d', accept_subframe ws d = (Returns b, d') /\
  sync d' = sync d /\ (tow_ok (d_nav d) -> tow_ok (d_nav d')) /\
  (Forall one_issue (published d) -> Forall one_issue (published d')).
Proof.
  unfold accept_subframe, subframe_decoder. cbv zeta.
  assert (d_nav (keep_nav_message ws d) = d_nav d /\ sync (keep_nav_message ws d) = sync d /\
    published (keep_nav_message ws d) = published d) as (En & Es & Ep).
  { unfold keep_nav_message. destruct (d_enable_navdata_monitor d); repeat split. }
  rewrite En, <- Ep. pose proof (decode_tow_ok (unpack_words ws) (d_nav d)) as Ht.
  destruct (decode_bits (unpack_words ws) (d_nav d)) as [id nav]. cbn [snd] in Ht.
  generalize dependent (keep_nav_message ws d). intros d1 En Es Ep.
  destruct ((0 <? id) && (id <? 6)); eexists _, _; (split; [reflexivity|]).
  - split; [exact (eq_trans (proj1 (sync_report id (d1 <| d_nav := nav |>))) (eq_trans (sync_nav nav d1) Es))|].
    split; [|intros Hp; apply report_one_issue; exact Hp].
    intros Hm. pose proof (heard_report id (d1 <| d_nav := nav |>)) as Hh.
    apply (f_equal fst) in Hh. cbn [heard fst] in Hh. rewrite Hh. apply report_tow_ok. auto.
  - rewrite sync_nav. split; [exact Es|]. split; [exact Ht|intros Hp; exact Hp].
Qed.

Lemma decode_subframe_safe flag_invert d : length (d_symbol_history d) = 300%nat ->
  exists b d', decode_subframe flag_invert d = (Returns b, d') /\
    sync d' = sync d /\ (tow_ok (d_nav d) -> tow_ok (d_nav d')) /\
    (Forall one_issue (published d) -> Forall one_issue (published d')).
Proof.
  intros Hl. rewrite decode_subframe_spec by exact Hl. cbv zeta.
  set (ws := history_words flag_invert d).
  set (d1 := d <| d_prev_GPS_frame_4bytes := List.last ws (d_prev_GPS_frame_4bytes d) |>).
  destruct (forallb gps_word_parityCheck ws); [exact (accept_subframe_safe ws d1)|].
  exists false, d1. split; [reflexivity|]. split; [reflexivity|]. split; intros Hp; exact Hp.
Qed.

(** ** One symbol *)

Lemma push_wf x d : gps_wf d -> gps_wf (push_symbol x d).
Proof.
  intros [H1 H2 H3 H4 H5 H6 H7]. pose proof H1 as (Hr & _).
  assert (length (d_symbol_history (push_symbol x d)) =
    Nat.min 300 (length (d_symbol_history d) + 1)) as El.
  { change (length (drop (Z.to_nat (Z.of_nat (length (d_symbol_history d ++ [x])) - d_required_symbols d))
      (d_symbol_history d ++ [x])) = Nat.min 300 (length (d_symbol_history d) + 1)).
    rewrite Hr, length_drop, length_app. cbn [length]. lia. }
  constructor; try assumption.
  - lia.
  - unfold push_symbol. cbn. apply Z.mod_pos_bound. lia.
  - destruct H4 as [H4|[H4 Hl]]; [now left|]. right. split; [exact H4|lia].
Qed.

Lemma insert_wf g d : gps_wf d -> gps_wf (insert_preamble g d).
Proof.
  intros H. unfold insert_preamble. destruct (d_symbol_history d); [|exact H].
  apply (for_range_ind (fun _ d => gps_wf d)); [unfold GPS_CA_PREAMBLE_LENGTH_BITS; lia|exact H|].
  intros i t _ Ht. apply push_wf, Ht.
Qed.

Lemma receive_wf g d : gps_wf d -> gps_wf (receive_symbol g d).
Proof.
  intros H. unfold receive_symbol, check_telemetry.
  pose proof (push_wf (float_of_double (Prompt_I g)) _ (insert_wf g d H)) as [H1 H2 H3 H4 H5 H6 H7].
  set (d1 := push_symbol _ _) in *. destruct (_ && _ && _); constructor; try assumption.
  constructor; [exact I|exact H7].
Qed.

(** The same except for members that the invariant does not mention. *)
Lemma gps_wf_ext d d' : gps_wf d -> d_required_symbols d' = d_required_symbols d ->
  d_preamble_period_symbols d' = d_preamble_period_symbols d ->
  d_max_symbols_without_valid_frame d' = d_max_symbols_without_valid_frame d ->
  d_samples_per_preamble d' = d_samples_per_preamble d -> d_preamble_samples d' = d_preamble_samples d ->
  d_symbol_history d' = d_symbol_history d -> d_sample_counter d' = d_sample_counter d ->
  d_stat d' = 0 \/ (d_stat d' = 1 /\ length (d_symbol_history d) = 300%nat) ->
  0 <= d_CRC_error_counter d' <= 2 -> tow_ok (d_nav d') ->
  Forall one_issue (published d') -> gps_wf d'.
Proof.
  intros [(S1 & S2 & S3 & S4 & S5) H2 H3 _ _ _ _] E1 E2 E3 E4 E5 E6 E7 H4 H5 H6 H7.
  constructor; rewrite ?E6, ?E7; try assumption. repeat split; congruence.
Qed.

Lemma frame_sync_wf d : gps_wf d -> exists d', frame_sync d = (Returns tt, d') /\ gps_wf d'.
Proof.
  intros Hwf. pose proof Hwf as [Hsz H2 H3 H4 H5 H6 H7]. unfold frame_sync. rewrite run_gets.
  destruct H4 as [Hst|[Hst Hfull]]; rewrite Hst.
  - unfold search_preamble. rewrite run_gets. unfold id.
    destruct (Z.leb_spec (d_samples_per_preamble d) (Z.abs (corr_value d))) as [Hcorr|_].
    2: { eexists. split; [reflexivity|]. apply (gps_wf_ext d); try reflexivity; try assumption. now left. }
    assert (length (d_symbol_history d) = 300%nat) as Hfull.
    { unfold corr_value in Hcorr. destruct Hsz as (Hr & _ & _ & Hp & _). rewrite Hr, Hp in Hcorr.
      destruct (Z.leb_spec 300 (Z.of_nat (length (d_symbol_history d)))); [lia|cbn in Hcorr; lia]. }
    set (d1 := d <| d_preamble_index := d_sample_counter d |>
      <| d_flag_PLL_180_deg_phase_locked := corr_value d <? 0 |> <| d_prev_GPS_frame_4bytes := 0 |>).
    destruct (decode_subframe_safe (corr_value d <? 0) d1 Hfull) as (good & d2 & E & S & Ht & Hp).
    eexists. split.
    { erewrite bind_returns; [|rewrite run_modify; change (d <| d_preamble_index := _ |>
        <| d_flag_PLL_180_deg_phase_locked := _ |> <| d_prev_GPS_frame_4bytes := _ |>) with d1;
        rewrite (bind_returns _ _ _ _ _ E); reflexivity]. reflexivity. }
    injection S as S1 S2 S3 S4 S5 S6 S7 S8 S9 S10 S11 S12 S13 S14 S15 S16 S17.
    apply (gps_wf_ext d); destruct good; try assumption; try (now apply Ht); try (now apply Hp); cbn; try lia;
      rewrite ?S5, ?S9; cbn; lia.
  - unfold track_subframes. rewrite run_gets. unfold id.
    destruct (_ <=? d_sample_counter d).
    2: { exists d. split; [reflexivity|exact Hwf]. }
    rewrite run_modify. set (d1 := d <| d_preamble_index := d_sample_counter d |>).
    destruct (decode_subframe_safe (d_flag_PLL_180_deg_phase_locked d) d1 Hfull) as (good & d2 & E & S & Ht & Hp).
    rewrite (bind_returns _ _ _ _ _ E). eexists. split; [reflexivity|].
    injection S as S1 S2 S3 S4 S5 S6 S7 S8 S9 S10 S11 S12 S13 S14 S15 S16 S17.
    destruct good.
    + apply (gps_wf_ext d); try assumption; try (now apply Ht); try (now apply Hp); cbn; [|lia].
      rewrite S9. right. split; [exact Hst|exact Hfull].
    + unfold bad_subframe. cbv zeta.
      assert (i32 (d_CRC_error_counter d2 + 1) = d_CRC_error_counter d + 1) as Ec
        by (rewrite S5; apply swrap_small; cbn; lia).
      change (d_CRC_error_counter (d2 <| d_CRC_error_counter ::= fun n => i32 (n + 1) |>))
        with (i32 (d_CRC_error_counter d2 + 1)). rewrite Ec.
      destruct (Z.ltb_spec 2 (d_CRC_error_counter d + 1)).
      * apply (gps_wf_ext d); try assumption; try (now apply Ht); try (now apply Hp); cbn; [now left|lia].
      * apply (gps_wf_ext d); try assumption; try (now apply Ht); try (now apply Hp); cbn; [|lia].
        rewrite S9. right. split; [exact Hst|exact Hfull].
Qed.

Lemma update_tow_wf d : gps_wf d -> exists d', update_tow d = (Returns tt, d') /\ gps_wf d'.
Proof.
  intros Hwf. pose proof Hwf as [Hsz H2 H3 H4 H5 H6 H7]. unfold update_tow. rewrite run_gets. unfold id.
  destruct (d_flag_preamble d).
  - destruct (negb (get_TOW (d_nav d) =? 0)); [|exists d; split; [reflexivity|exact Hwf]].
    unfold tow_ok in H6. unfold get_TOW, uint32_of_double.
    destruct (Z.leb_spec 0 (d_TOW (d_nav d) * 1000)), (Z.ltb_spec (d_TOW (d_nav d) * 1000) (2 ^ 32)); try lia.
    cbn [andb]. eexists. split; [reflexivity|]. now apply (gps_wf_ext d).
  - destruct (d_flag_TOW_set d); [|exists d; split; [reflexivity|exact Hwf]].
    eexists. split; [reflexivity|]. now apply (gps_wf_ext d).
Qed.

Lemma make_output_wf g tags d : gps_wf d -> exists o d', make_output g tags d = (Returns o, d') /\ gps_wf d'.
Proof.
  intros Hwf. unfold make_output. rewrite run_gets. destruct (d_flag_TOW_set d).
  - eexists _, _. split; [reflexivity|]. unfold publish_nav_message.
    pose proof Hwf as [Hsz H2 H3 H4 H5 H6 H7].
    destruct (_ && _); [|exact Hwf]. apply (gps_wf_ext d); try reflexivity; try assumption.
    constructor; [exact I|exact H7].
  - exists None, d. split; [reflexivity|exact Hwf].
Qed.

Lemma general_work_wf g tags d : gps_wf d ->
  exists o d', GpsTlm.general_work g tags d = (Returns o, d') /\ gps_wf d'.
Proof.
  intros H. unfold GpsTlm.general_work. rewrite run_modify.
  destruct (frame_sync_wf _ (receive_wf g d H)) as (d1 & E1 & W1). rewrite (bind_returns _ _ _ _ _ E1).
  destruct (update_tow_wf d1 W1) as (d2 & E2 & W2). rewrite (bind_returns _ _ _ _ _ E2).
  exact (make_output_wf g tags d2 W2).
Qed.
