(* ===== verification/GpsProofs.v ===== *)
(** * GpsProofs: what the GPS telemetry decoder guarantees

    The parity check is that of the standard, few wrong symbols are never
    accepted, the block never fails, subframes are heard from the first one on,
    and the ephemeris that a satellite broadcasts is the one that is published. *)

From S2P Require Import Prelude Cstring Float64 MathConstants InavTables InavWords InavReaders FieldLayout GnssSignal Viterbi TlmDecoder GpsTables GpsMessage GpsTlm GpsParity GpsFrames GpsEncode GpsFields GpsBroadcast GpsReceiver GpsSafety.
From stdpp Require Import list strings.
From Stdlib Require Import ZArith Lia SpecFloat Ascii.
Local Open Scope Z_scope.
Local Open Scope cxx_scope.

(** ** Broadcast frames *)

Definition frame_1 (h : Raw_How) (r : Raw1) : list bool := write_fields (how_fields 1 h ++ fields_1 r).
Definition frame_2 (h : Raw_How) (r : Raw2) : list bool := write_fields (how_fields 2 h ++ fields_2 r).
Definition frame_3 (h : Raw_How) (r : Raw3) : list bool := write_fields (how_fields 3 h ++ fields_3 r).

(** What every subframe tells. *)
Definition told (h : Raw_How) (m : Gps_Navigation_Message) : Gps_Navigation_Message :=
  m <| d_TOW := raw_TOW h * 6 |>
    <| b_integrity_status_flag := raw_integrity_status_flag h |>
    <| b_alert_flag := raw_alert_flag h |> <| b_antispoofing_flag := raw_antispoofing_flag h |>.

(** The message after each of them. *)
Definition told_1 (h : Raw_How) (r : Raw1) (m : Gps_Navigation_Message) : Gps_Navigation_Message :=
  told h (m <| d_TOW_SF1 := raw_TOW h * 6 |> <| subframe_1 := value_1 r |>).
Definition told_2 (h : Raw_How) (r : Raw2) (m : Gps_Navigation_Message) : Gps_Navigation_Message :=
  told h (m <| d_TOW_SF2 := raw_TOW h * 6 |> <| subframe_2 := value_2 r |>).
Definition told_3 (h : Raw_How) (r : Raw3) (m : Gps_Navigation_Message) : Gps_Navigation_Message :=
  told h (m <| d_TOW_SF3 := raw_TOW h * 6 |> <| subframe_3 := value_3 r |>).
Definition not_valid (m : Gps_Navigation_Message) : Gps_Navigation_Message :=
  m <| b_valid_ephemeris_set_flag := false |>.

(** What an ephemeris is made of, apart from what the last subframe told. *)
Record collected := mkcollected {
  c_TOW_SF1 : Z; c_TOW_SF2 : Z; c_TOW_SF3 : Z;
  c_subframe_1 : Subframe1; c_subframe_2 : Subframe2; c_subframe_3 : Subframe3;
  c_PRN : Z; c_spare1 : double; c_spare2 : double
}.
Definition collect (m : Gps_Navigation_Message) : collected :=
  mkcollected (d_TOW_SF1 m) (d_TOW_SF2 m) (d_TOW_SF3 m) (subframe_1 m) (subframe_2 m) (subframe_3 m)
    (i_satellite_PRN m) (d_spare1 m) (d_spare2 m).

Lemma collect_not_valid m : collect (not_valid m) = collect m.
Proof. now destruct m. Qed.

Lemma collect_1 h r m : collect (told_1 h r m) =
  mkcollected (raw_TOW h * 6) (d_TOW_SF2 m) (d_TOW_SF3 m) (value_1 r) (subframe_2 m) (subframe_3 m)
    (i_satellite_PRN m) (d_spare1 m) (d_spare2 m).
Proof. now destruct m. Qed.

Lemma collect_2 h r m : collect (told_2 h r m) =
  mkcollected (d_TOW_SF1 m) (raw_TOW h * 6) (d_TOW_SF3 m) (subframe_1 m) (value_2 r) (subframe_3 m)
    (i_satellite_PRN m) (d_spare1 m) (d_spare2 m).
Proof. now destruct m. Qed.

Lemma collect_3 h r m : collect (told_3 h r m) =
  mkcollected (d_TOW_SF1 m) (d_TOW_SF2 m) (raw_TOW h * 6) (subframe_1 m) (subframe_2 m) (value_3 r)
    (i_satellite_PRN m) (d_spare1 m) (d_spare2 m).
Proof. now destruct m. Qed.

Lemma told_3_how h r m : d_TOW (told_3 h r m) = raw_TOW h * 6 /\
  b_integrity_status_flag (told_3 h r m) = raw_integrity_status_flag h /\
  b_alert_flag (told_3 h r m) = raw_alert_flag h /\ b_antispoofing_flag (told_3 h r m) = raw_antispoofing_flag h.
Proof. now destruct m. Qed.

Section how.
Context (id : Z) (h : Raw_How) (fields : list (bit_field * Z)).
Hypothesis Hid : 0 <= id < 8.
Hypothesis Hh : ok_how h = true.
Hypothesis L : layout_ok (how_fields id h ++ fields) = true.
Let bits := rev (write_fields (how_fields id h ++ fields)).

Lemma how_TOW_read : read_TOW bits = raw_TOW h * 6.
Proof.
  assert (0 <= raw_TOW h < 2 ^ 17) as Hr.
  { apply andb_true_iff in Hh as [H1 H2]. change (width [(31, 17)]) with 17 in H2. lia. }
  unfold read_TOW, bits. rewrite (read_written_unsigned _ TOW (raw_TOW h) L) by written.
  rewrite !swrap_small by (rewrite ?swrap_small by lia; lia). reflexivity.
Qed.

Lemma how_ID_read : i32 (gps_read_unsigned bits SUBFRAME_ID) = id.
Proof.
  unfold bits. rewrite (read_written_unsigned _ SUBFRAME_ID id L) by written. apply swrap_small; lia.
Qed.

Lemma how_read m : read_how bits m = told h m.
Proof.
  unfold read_how, told. rewrite how_TOW_read. unfold bits.
  rewrite (read_written_flag _ INTEGRITY_STATUS_FLAG (raw_integrity_status_flag h) L),
    (read_written_flag _ ALERT_FLAG (raw_alert_flag h) L),
    (read_written_flag _ ANTI_SPOOFING_FLAG (raw_antispoofing_flag h) L) by written.
  reflexivity.
Qed.
End how.

Lemma layout_1 h r : layout_ok (how_fields 1 h ++ fields_1 r) = true.
Proof. vm_compute. reflexivity. Qed.
Lemma layout_2 h r : layout_ok (how_fields 2 h ++ fields_2 r) = true.
Proof. vm_compute. reflexivity. Qed.
Lemma layout_3 h r : layout_ok (how_fields 3 h ++ fields_3 r) = true.
Proof. vm_compute. reflexivity. Qed.

Lemma hear_1 h r m msgs : ok_how h = true -> ok_1 r = true ->
  hear (m, msgs) (frame_1 h r) =
    report 1 (told_1 h r m) msgs.
Proof.
  intros Hh Hr. unfold hear, frame_1, decode_bits. cbn [fst snd].
  rewrite (how_ID_read 1 h _ ltac:(lia) (layout_1 h r)).
  rewrite (how_TOW_read 1 h _ Hh (layout_1 h r)), (how_read 1 h _ Hh (layout_1 h r)).
  now rewrite read_written_1.
Qed.

Lemma hear_2 h r m msgs : ok_how h = true -> ok_2 r = true ->
  hear (m, msgs) (frame_2 h r) =
    report 2 (told_2 h r m) msgs.
Proof.
  intros Hh Hr. unfold hear, frame_2, decode_bits. cbn [fst snd].
  rewrite (how_ID_read 2 h _ ltac:(lia) (layout_2 h r)).
  rewrite (how_TOW_read 2 h _ Hh (layout_2 h r)), (how_read 2 h _ Hh (layout_2 h r)).
  now rewrite read_written_2.
Qed.

Lemma hear_3 h r m msgs : ok_how h = true -> ok_3 r = true ->
  hear (m, msgs) (frame_3 h r) =
    report 3 (told_3 h r m) msgs.
Proof.
  intros Hh Hr. unfold hear, frame_3, decode_bits. cbn [fst snd].
  rewrite (how_ID_read 3 h _ ltac:(lia) (layout_3 h r)).
  rewrite (how_TOW_read 3 h _ Hh (layout_3 h r)), (how_read 3 h _ Hh (layout_3 h r)).
  now rewrite read_written_3.
Qed.

(** The ephemeris of three subframes, in physical units. *)
Definition broadcast_ephemeris (prn : Z) (h : Raw_How) (r1 : Raw1) (r2 : Raw2) (r3 : Raw3)
  : Gps_Ephemeris.t := {|
  Gps_Ephemeris.PRN := prn;
  Gps_Ephemeris.tow := raw_TOW h * 6;
  Gps_Ephemeris.Crs := dmul (double_of_Z (raw_Crs r2)) TWO_N5;
  Gps_Ephemeris.delta_n := dmul (double_of_Z (raw_Delta_n r2)) PI_TWO_N43;
  Gps_Ephemeris.M_0 := dmul (double_of_Z (raw_M_0 r2)) PI_TWO_N31;
  Gps_Ephemeris.Cuc := dmul (double_of_Z (raw_Cuc r2)) TWO_N29;
  Gps_Ephemeris.ecc := dmul (double_of_Z (raw_e_eccentricity r2)) TWO_N33;
  Gps_Ephemeris.Cus := dmul (double_of_Z (raw_Cus r2)) TWO_N29;
  Gps_Ephemeris.sqrtA := dmul (double_of_Z (raw_sqrt_A r2)) TWO_N19;
  Gps_Ephemeris.toe := raw_Toe r2 * 16;
  Gps_Ephemeris.toc := raw_Toc r1 * 16;
  Gps_Ephemeris.Cic := dmul (double_of_Z (raw_Cic r3)) TWO_N29;
  Gps_Ephemeris.OMEGA_0 := dmul (double_of_Z (raw_OMEGA0 r3)) PI_TWO_N31;
  Gps_Ephemeris.Cis := dmul (double_of_Z (raw_Cis r3)) TWO_N29;
  Gps_Ephemeris.i_0 := dmul (double_of_Z (raw_i_0 r3)) PI_TWO_N31;
  Gps_Ephemeris.Crc := dmul (double_of_Z (raw_Crc r3)) TWO_N5;
  Gps_Ephemeris.omega := dmul (double_of_Z (raw_OMEGA r3)) PI_TWO_N31;
  Gps_Ephemeris.OMEGAdot := dmul (double_of_Z (raw_OMEGA_DOT r3)) PI_TWO_N43;
  Gps_Ephemeris.idot := dmul (double_of_Z (raw_IDOT r3)) PI_TWO_N43;
  Gps_Ephemeris.code_on_L2 := raw_code_on_L2 r1;
  Gps_Ephemeris.WN := raw_GPS_week r1;
  Gps_Ephemeris.L2_P_data_flag := raw_L2_P_data_flag r1;
  Gps_Ephemeris.SV_accuracy := raw_SV_accuracy r1;
  Gps_Ephemeris.SV_health := raw_SV_health r1;
  Gps_Ephemeris.TGD := dmul (double_of_Z (raw_TGD r1)) TWO_N31;
  Gps_Ephemeris.IODC := raw_IODC r1;
  Gps_Ephemeris.IODE_SF2 := raw_IODE_SF2 r2;
  Gps_Ephemeris.IODE_SF3 := raw_IODE_SF3 r3;
  Gps_Ephemeris.AODO := bin_value (map (Z.testbit (raw_Toe r2)) [14; 13; 12; 11; 10]) * 900;
  Gps_Ephemeris.fit_interval_flag := Z.testbit (raw_Toe r2) 15;
  Gps_Ephemeris.spare1 := dzero;
  Gps_Ephemeris.spare2 := dzero;
  Gps_Ephemeris.af0 := dmul (double_of_Z (raw_A_f0 r1)) TWO_N31;
  Gps_Ephemeris.af1 := dmul (double_of_Z (raw_A_f1 r1)) TWO_N43;
  Gps_Ephemeris.af2 := dmul (double_of_Z (raw_A_f2 r1)) TWO_N55;
  Gps_Ephemeris.integrity_status_flag := raw_integrity_status_flag h;
  Gps_Ephemeris.alert_flag := raw_alert_flag h;
  Gps_Ephemeris.antispoofing_flag := raw_antispoofing_flag h |}.

(** ** Joining three subframes *)

(** Until the three have come there is no ephemeris. *)
Lemma report_early id m msgs : 1 <= id <= 3 -> d_TOW_SF2 m = 0 \/ d_TOW_SF3 m = 0 ->
  report id m msgs = (not_valid m, msgs).
Proof.
  intros Hid Hm. assert (satellite_validation m = (false, m <| b_valid_ephemeris_set_flag := false |>)) as E.
  { unfold satellite_validation. cbv zeta.
    change (d_TOW_SF2 (m <| b_valid_ephemeris_set_flag := false |>)) with (d_TOW_SF2 m).
    change (d_TOW_SF3 (m <| b_valid_ephemeris_set_flag := false |>)) with (d_TOW_SF3 m).
    destruct Hm as [-> | ->]; now rewrite ?andb_false_r. }
  unfold report. rewrite E. assert (id = 1 \/ id = 2 \/ id = 3) as [-> | [-> | ->]] by lia; reflexivity.
Qed.

(** With the three, and one issue of data, there is. *)
Lemma report_complete id m msgs : 1 <= id <= 3 ->
  d_TOW_SF1 m <> 0 -> d_TOW_SF2 m <> 0 -> d_TOW_SF3 m <> 0 -> 0 <= d_IODC (subframe_1 m) ->
  d_IODC (subframe_1 m) = d_IODE_SF2 (subframe_2 m) -> d_IODE_SF2 (subframe_2 m) = d_IODE_SF3 (subframe_3 m) ->
  (report id m msgs).2 = telemetry_gps_ephemeris (get_ephemeris m) :: msgs.
Proof.
  intros Hid T1 T2 T3 H0 I1 I2. assert (satellite_validation m = (true, m <| b_valid_ephemeris_set_flag := true |>)) as E.
  { unfold satellite_validation. cbv zeta.
    change (d_TOW_SF1 (m <| b_valid_ephemeris_set_flag := false |>)) with (d_TOW_SF1 m).
    change (d_TOW_SF2 (m <| b_valid_ephemeris_set_flag := false |>)) with (d_TOW_SF2 m).
    change (d_TOW_SF3 (m <| b_valid_ephemeris_set_flag := false |>)) with (d_TOW_SF3 m).
    change (subframe_1 (m <| b_valid_ephemeris_set_flag := false |>)) with (subframe_1 m).
    change (subframe_2 (m <| b_valid_ephemeris_set_flag := false |>)) with (subframe_2 m).
    change (subframe_3 (m <| b_valid_ephemeris_set_flag := false |>)) with (subframe_3 m).
    apply Z.eqb_neq in T1, T2, T3. rewrite T1, T2, T3. cbn [negb andb].
    apply Z.eqb_eq in I2. rewrite I2. apply Z.eqb_eq in I1. rewrite I1. cbn [andb].
    destruct (Z.eqb_spec (d_IODC (subframe_1 m)) (-1)); [lia|reflexivity]. }
  unfold report. rewrite E. assert (id = 1 \/ id = 2 \/ id = 3) as [-> | [-> | ->]] by lia; reflexivity.
Qed.

Lemma ok_1_IODC r : ok_1 r = true -> 0 <= raw_IODC r.
Proof. intros H. unfold ok_1 in H. use_fits H. lia. Qed.

#[local] Opaque told_1 told_2 told_3 not_valid value_1 value_2 value_3 dmul.

Lemma ephemeris_collected prn h1 h2 h r1 r2 r3 m :
  collect m = mkcollected (raw_TOW h1 * 6) (raw_TOW h2 * 6) (raw_TOW h * 6)
    (value_1 r1) (value_2 r2) (value_3 r3) prn dzero dzero ->
  d_TOW m = raw_TOW h * 6 /\ b_integrity_status_flag m = raw_integrity_status_flag h /\
  b_alert_flag m = raw_alert_flag h /\ b_antispoofing_flag m = raw_antispoofing_flag h ->
  get_ephemeris m = broadcast_ephemeris prn h r1 r2 r3.
Proof.
  intros E (E10 & E11 & E12 & E13). injection E as _ _ _ E4 E5 E6 E7 E8 E9.
  unfold get_ephemeris. rewrite E4, E5, E6, E7, E8, E9, E10, E11, E12, E13. reflexivity.
Qed.

(** The three subframes heard by a receiver that knows nothing yet. *)
Lemma hear_ephemeris prn h1 h2 h3 r1 r2 r3 msgs :
  ok_how h1 = true -> ok_how h2 = true -> ok_how h3 = true ->
  ok_1 r1 = true -> ok_2 r2 = true -> ok_3 r3 = true ->
  0 < raw_TOW h1 -> 0 < raw_TOW h2 -> 0 < raw_TOW h3 ->
  raw_IODC r1 = raw_IODE_SF2 r2 -> raw_IODE_SF2 r2 = raw_IODE_SF3 r3 ->
  (foldl hear (set_satellite_PRN prn new_Gps_Navigation_Message, msgs)
    [frame_1 h1 r1; frame_2 h2 r2; frame_3 h3 r3]).2 =
  telemetry_gps_ephemeris (broadcast_ephemeris prn h3 r1 r2 r3) :: msgs.
Proof.
  intros Hh1 Hh2 Hh3 Hr1 Hr2 Hr3 T1 T2 T3 I1 I2. cbn [foldl].
  pose proof (collect_1 h1 r1 (set_satellite_PRN prn new_Gps_Navigation_Message)) as C1.
  rewrite hear_1 by assumption.
  rewrite report_early; [|lia|left; exact (f_equal c_TOW_SF2 C1)].
  rewrite <- collect_not_valid in C1.
  revert C1. generalize (not_valid (told_1 h1 r1 (set_satellite_PRN prn new_Gps_Navigation_Message))).
  intros m1 C1. pose proof (collect_2 h2 r2 m1) as C2. rewrite hear_2 by assumption.
  rewrite report_early; [|lia|right; exact (eq_trans (f_equal c_TOW_SF3 C2) (f_equal c_TOW_SF3 C1))].
  rewrite <- collect_not_valid in C2. revert C2. generalize (not_valid (told_2 h2 r2 m1)).
  intros m2 C2. pose proof (collect_3 h3 r3 m2) as C3. rewrite hear_3 by assumption.
  assert (collect (told_3 h3 r3 m2) = mkcollected (raw_TOW h1 * 6) (raw_TOW h2 * 6) (raw_TOW h3 * 6)
    (value_1 r1) (value_2 r2) (value_3 r3) prn dzero dzero) as C.
  { injection C1 as A1 A2 A3 A4 A5 A6 A7 A8 A9. injection C2 as B1 B2 B3 B4 B5 B6 B7 B8 B9.
    rewrite C3. f_equal; congruence. }
  rewrite report_complete.
  - rewrite (ephemeris_collected prn h1 h2 h3 r1 r2 r3 _ C); [reflexivity|apply told_3_how].
  - lia.
  - rewrite (f_equal c_TOW_SF1 C : d_TOW_SF1 (told_3 h3 r3 m2) = raw_TOW h1 * 6). lia.
  - rewrite (f_equal c_TOW_SF2 C : d_TOW_SF2 (told_3 h3 r3 m2) = raw_TOW h2 * 6). lia.
  - rewrite (f_equal c_TOW_SF3 C : d_TOW_SF3 (told_3 h3 r3 m2) = raw_TOW h3 * 6). lia.
  - rewrite (f_equal c_subframe_1 C : subframe_1 (told_3 h3 r3 m2) = value_1 r1). exact (ok_1_IODC r1 Hr1).
  - rewrite (f_equal c_subframe_1 C : subframe_1 (told_3 h3 r3 m2) = value_1 r1),
      (f_equal c_subframe_2 C : subframe_2 (told_3 h3 r3 m2) = value_2 r2). exact I1.
  - rewrite (f_equal c_subframe_2 C : subframe_2 (told_3 h3 r3 m2) = value_2 r2),
      (f_equal c_subframe_3 C : subframe_3 (told_3 h3 r3 m2) = value_3 r3). exact I2.
Qed.

(** ** The page of the ionosphere and UTC *)

Definition frame_18 (h : Raw_How) (r : Raw18) : list bool :=
  write_fields (how_fields 4 h ++ page_fields 56 ++ fields_18 r).

Lemma layout_18 h r : layout_ok (how_fields 4 h ++ page_fields 56 ++ fields_18 r) = true.
Proof. vm_compute. reflexivity. Qed.

Definition broadcast_iono (r : Raw18) : Gps_Iono.t := {|
  Gps_Iono.alpha0 := dmul (double_of_Z (raw_alpha0 r)) TWO_N30;
  Gps_Iono.alpha1 := dmul (double_of_Z (raw_alpha1 r)) TWO_N27;
  Gps_Iono.alpha2 := dmul (double_of_Z (raw_alpha2 r)) TWO_N24;
  Gps_Iono.alpha3 := dmul (double_of_Z (raw_alpha3 r)) TWO_N24;
  Gps_Iono.beta0 := dmul (double_of_Z (raw_beta0 r)) TWO_P11;
  Gps_Iono.beta1 := dmul (double_of_Z (raw_beta1 r)) TWO_P14;
  Gps_Iono.beta2 := dmul (double_of_Z (raw_beta2 r)) TWO_P16;
  Gps_Iono.beta3 := dmul (double_of_Z (raw_beta3 r)) TWO_P16;
  Gps_Iono.valid := true |}.

Definition broadcast_utc_model (r : Raw18) : Gps_Utc_Model.t := {|
  Gps_Utc_Model.A0 := dmul (double_of_Z (raw_A0 r)) TWO_N30;
  Gps_Utc_Model.A1 := dmul (double_of_Z (raw_A1 r)) TWO_N50;
  Gps_Utc_Model.A2 := dzero;
  Gps_Utc_Model.tot := raw_t_OT r * 4096;
  Gps_Utc_Model.WN_T := raw_WN_T r;
  Gps_Utc_Model.DeltaT_LS := raw_DeltaT_LS r;
  Gps_Utc_Model.WN_LSF := raw_WN_LSF r;
  Gps_Utc_Model.DN := raw_DN r;
  Gps_Utc_Model.DeltaT_LSF := raw_DeltaT_LSF r;
  Gps_Utc_Model.valid := true |}.

Lemma report_page_18 p m msgs :
  (report 4 (m <| page_18 := p |> <| flag_iono_valid := true |> <| flag_utc_model_valid := true |>) msgs).2 =
  telemetry_gps_utc_model {| Gps_Utc_Model.A0 := d_A0 p; Gps_Utc_Model.A1 := d_A1 p; Gps_Utc_Model.A2 := dzero;
      Gps_Utc_Model.tot := d_t_OT p; Gps_Utc_Model.WN_T := i_WN_T p;
      Gps_Utc_Model.DeltaT_LS := d_DeltaT_LS p; Gps_Utc_Model.WN_LSF := i_WN_LSF p;
      Gps_Utc_Model.DN := i_DN p; Gps_Utc_Model.DeltaT_LSF := d_DeltaT_LSF p; Gps_Utc_Model.valid := true |} ::
  telemetry_gps_iono {| Gps_Iono.alpha0 := d_alpha0 p; Gps_Iono.alpha1 := d_alpha1 p;
      Gps_Iono.alpha2 := d_alpha2 p; Gps_Iono.alpha3 := d_alpha3 p;
      Gps_Iono.beta0 := d_beta0 p; Gps_Iono.beta1 := d_beta1 p;
      Gps_Iono.beta2 := d_beta2 p; Gps_Iono.beta3 := d_beta3 p; Gps_Iono.valid := true |} :: msgs.
Proof. destruct m. reflexivity. Qed.

Lemma hear_18 h r state : ok_18 r = true ->
  (hear state (frame_18 h r)).2 =
  telemetry_gps_utc_model (broadcast_utc_model r) :: telemetry_gps_iono (broadcast_iono r) :: state.2.
Proof.
  intros Hr. destruct state as [m msgs]. unfold hear, frame_18, decode_bits. cbn [fst snd].
  rewrite (how_ID_read 4 h _ ltac:(lia) (layout_18 h r)). unfold decode_subframe_4.
  rewrite (read_written_unsigned _ SV_PAGE 56 (layout_18 h r)) by written.
  change (i32 56) with 56. cbv beta iota zeta. change (56 =? 56) with true. change (56 =? 63) with false. cbv iota.
  rewrite read_written_18 by exact Hr. rewrite report_page_18. reflexivity.
Qed.

(** ** The frames are good ones *)

Section good.
Context (id : Z) (h : Raw_How) (fields : list (bit_field * Z)).
Hypothesis Hid : 1 <= id <= 5.
Hypothesis Hh : ok_how h = true.
Hypothesis HT : 0 < raw_TOW h.
Hypothesis L : layout_ok (how_fields id h ++ fields) = true.
Let frame := write_fields (how_fields id h ++ fields).

Lemma frame_good : good_frame frame /\ frame_TOW frame = raw_TOW h * 6.
Proof.
  assert (raw_TOW h < 2 ^ 17) as Hr.
  { apply andb_true_iff in Hh as [H1 H2]. change (width [(31, 17)]) with 17 in H2. lia. }
  pose proof (how_TOW_read id h fields Hh L) as E. fold frame in E.
  split; [|exact E]. split; [apply write_fields_length|]. split.
  - unfold frame_ID. unfold frame. rewrite (how_ID_read id h fields) by (assumption || lia). lia.
  - unfold frame_TOW. rewrite E. lia.
Qed.

Lemma frame_preamble : take 8 frame = preamble_bits.
Proof.
  unfold frame, write_fields, write_bits. change (seqZ 1 (Z.of_nat 300)) with (seqZ 1 8 ++ seqZ 9 292).
  rewrite map_app, take_app_le by reflexivity.
  rewrite firstn_all2 by (rewrite length_map; reflexivity).
  reflexivity.
Qed.
End good.

(** ** A block without a past *)

Lemma new_searching satellite conf : searching [] (new_gps_tlm satellite conf).
Proof. constructor; try reflexivity; cbn; try lia. repeat split. Qed.

Lemma set_satellite_searching satellite d : searching [] d -> searching [] (GpsTlm.set_satellite satellite d).
Proof. intros [H1 H2 H3 H4 H5 H6 H7 H8]. now constructor. Qed.

Lemma heard_satellite satellite d : heard (GpsTlm.set_satellite satellite d) =
  (set_satellite_PRN (PRN (new_Gnss_Satellite (system satellite) (PRN satellite))) new_Gps_Navigation_Message,
   (heard d).2).
Proof.
  unfold GpsTlm.set_satellite. cbv zeta. generalize new_Gps_Navigation_Message.
  generalize (new_Gnss_Satellite (system satellite) (PRN satellite)). intros. now destruct d.
Qed.

Lemma encode_frames_length frames : Forall (fun frame => length frame = 300%nat) frames -> forall D29 D30,
  length (encode_frames D29 D30 frames) = (300 * length frames)%nat.
Proof.
  intros H. induction H as [|frame frames Hf _ IH]; intros D29 D30; [reflexivity|].
  cbn [encode_frames]. cbv zeta. rewrite length_app, IH, encode_frame_length by exact Hf. cbn [length]. lia.
Qed.

(** A reset begins a new search, whatever came before. *)
Lemma reset_searching d : gps_wf d -> d_sample_counter d < 2 ^ 63 -> searching [] (reset_gps_tlm d).
Proof.
  intros [H1 H2 H3 H4 H5 H6 H7] Hc. constructor; cbn; try reflexivity; try assumption; lia.
Qed.

(** ** The properties *)

(** C19: the parity check of a word, which the code computes with rotations and
    masks, accepts exactly the words that satisfy the six parity equations of
    IS-GPS-200. *)
Theorem parity_check_is_standard w : 0 <= w < 2 ^ 32 -> gps_word_parityCheck w = equations_hold w.
Proof. exact (parity_check_equations w). Qed.

Lemma parity_check_is_standard_witness :
  0 <= 0x22C000E4 < 2 ^ 32 /\ gps_word_parityCheck 0x22C000E4 = equations_hold 0x22C000E4.
Proof. split; [lia|apply parity_check_is_standard; lia]. Defined.

(** C14: when a history of 300 symbols is accepted as a subframe, every history
    in which one, two or three of the symbols have the other sign is refused,
    and the refusal changes only the word kept for the next subframe: no field
    of the navigation message and nothing published comes from it. *)
Theorem few_wrong_symbols_rejected flag_invert d d1 history' :
  length (d_symbol_history d) = 300%nat -> length history' = 300%nat ->
  decode_subframe flag_invert d = (Returns true, d1) ->
  (1 <= differences (map (symbol_bit flag_invert) (d_symbol_history d))
                    (map (symbol_bit flag_invert) history') <= 3)%nat ->
  exists prev', decode_subframe flag_invert (d <| d_symbol_history := history' |>) =
    (Returns false, d <| d_symbol_history := history' |> <| d_prev_GPS_frame_4bytes := prev' |>).
Proof.
  intros Hl Hl' E Hd. rewrite decode_subframe_spec in E by exact Hl. cbv zeta in E.
  set (b := map (symbol_bit flag_invert) (d_symbol_history d)) in *.
  set (b' := map (symbol_bit flag_invert) history') in *.
  destruct (forallb gps_word_parityCheck (history_words flag_invert d)) eqn:Hok; [|discriminate].
  assert (length b = 300%nat /\ length b' = 300%nat) as [Hb Hb'] by (unfold b, b'; rewrite !length_map; lia).
  assert (forallb gps_word_parityCheck
    (words_of (d_prev_GPS_frame_4bytes d) (frame_chunks b')) = false) as Hno.
  { apply (wrong_words_rejected _ (frame_chunks b)); try reflexivity; try exact Hok;
      try (now apply frame_chunks_length). now rewrite !frame_chunks_concat. }
  eexists. rewrite decode_subframe_spec by exact Hl'. cbv zeta.
  change (history_words flag_invert (d <| d_symbol_history := history' |>))
    with (words_of (d_prev_GPS_frame_4bytes d) (frame_chunks b')).
  rewrite Hno. reflexivity.
Qed.

(** A broadcast for the witnesses. *)
Definition a_how (tow : Z) : Raw_How := mkRaw_How tow false true false.
Definition an_ephemeris_1 : Raw1 := mkRaw1 331 2 0 false 1 (-23) 77 13500 (-4021) (-12) 0.
Definition an_ephemeris_2 : Raw2 :=
  mkRaw2 77 (-1024) 12345 (-1431655765) (-300) 5123456 4711 2702000000 13500 false 27.
Definition an_ephemeris_3 : Raw3 :=
  mkRaw3 (-15) 987654321 31 660000000 7000 (-123456789) (-22000) 77 (-901).
Definition an_ionosphere : Raw18 := mkRaw18 12 1 (-1) (-2) 45 (-3) 2 (-7) (-19) 3 61 75 18 137 7 18.

Definition a_symbol (inverted b : bool) : symbol :=
  (mkGnss_Synchro "G"%char (str "1C") 7 4000000 (double_of_Z (if xorb inverted b then 3 else -2)) dzero
     80000 0 false inverted, []).
Definition a_history (frame : list bool) : list float :=
  map (fun b => float_of_Z (if b : bool then 1 else -1)) (encode_frame false false frame).
Definition flip_at (k : nat) (bits : list bool) : list bool := list_alter negb k bits.
Definition with_errors (frame : list bool) : list float :=
  map (fun b => float_of_Z (if b : bool then 1 else -1))
    (flip_at 40 (flip_at 75 (flip_at 299 (encode_frame false false frame)))).
Definition a_block : gps_tlm :=
  new_gps_tlm (new_Gnss_Satellite (str "GPS") 7) (mkTlm_Conf false true false false).
Definition a_full_block : gps_tlm :=
  a_block <| d_symbol_history := a_history (frame_2 (a_how 1001) an_ephemeris_2) |>.

Lemma few_wrong_symbols_rejected_witness :
  exists prev', decode_subframe false
      (a_full_block <| d_symbol_history := with_errors (frame_2 (a_how 1001) an_ephemeris_2) |>) =
    (Returns false, a_full_block <| d_symbol_history := with_errors (frame_2 (a_how 1001) an_ephemeris_2) |>
       <| d_prev_GPS_frame_4bytes := prev' |>).
Proof.
  apply (few_wrong_symbols_rejected false a_full_block (decode_subframe false a_full_block).2).
  - vm_compute. reflexivity.
  - vm_compute. reflexivity.
  - vm_compute. reflexivity.
  - assert (differences (map (symbol_bit false) (d_symbol_history a_full_block))
      (map (symbol_bit false) (with_errors (frame_2 (a_how 1001) an_ephemeris_2))) = 3%nat) as ->
      by (vm_compute; reflexivity). lia.
Defined.

(** What can happen to a block. *)
Inductive gps_event :=
  | a_new_symbol (g : Gnss_Synchro) (tags : list (option GnssTime))
  | a_new_satellite (satellite : Gnss_Satellite)
  | a_new_channel (channel : Z)
  | a_reset.

Definition gps_step (e : gps_event) : prog gps_tlm unit :=
  match e with
  | a_new_symbol g tags => _ <- GpsTlm.general_work g tags;; ret tt
  | a_new_satellite satellite => modify (GpsTlm.set_satellite satellite)
  | a_new_channel channel => modify (GpsTlm.set_channel channel)
  | a_reset => modify reset_gps_tlm
  end.

Fixpoint gps_steps (events : list gps_event) : prog gps_tlm unit :=
  match events with
  | [] => ret tt
  | e :: events => gps_step e;; gps_steps events
  end.

Lemma gps_step_wf e d : gps_wf d -> exists d', gps_step e d = (Returns tt, d') /\ gps_wf d'.
Proof.
  intros H. destruct e as [g tags|satellite|channel|]; unfold gps_step.
  - destruct (general_work_wf g tags d H) as (o & d' & E & W). exists d'.
    rewrite (bind_returns _ _ _ _ _ E). split; [reflexivity|exact W].
  - eexists. split; [reflexivity|]. now apply set_satellite_gps_wf.
  - eexists. split; [reflexivity|]. now apply set_channel_gps_wf.
  - eexists. split; [reflexivity|]. now apply reset_gps_wf.
Qed.

Lemma gps_steps_wf events d : gps_wf d -> exists d', gps_steps events d = (Returns tt, d') /\ gps_wf d'.
Proof.
  revert d. induction events as [|e events IH]; intros d H.
  - exists d. split; [reflexivity|exact H].
  - destruct (gps_step_wf e d H) as (d1 & E1 & W1). destruct (IH d1 W1) as (d2 & E2 & W2).
    exists d2. cbn [gps_steps]. rewrite (bind_returns _ _ _ _ _ E1). split; [exact E2|exact W2].
Qed.

(** C18: whatever sequence of symbols (of any content), changes of satellite and
    of channel and resets a new block goes through, every call returns: no word
    is stored outside the subframe, no conversion of a time of week is out of
    range.  The state stays well formed, and every ephemeris published joins
    subframes of one issue of data. *)
Theorem gps_block_safe satellite conf events :
  exists d, gps_steps events (new_gps_tlm satellite conf) = (Returns tt, d) /\ gps_wf d.
Proof. apply gps_steps_wf, new_gps_wf. Qed.


Definition some_events : list gps_event :=
  [a_new_satellite (new_Gnss_Satellite (str "GPS") 7); a_new_channel 3;
   a_new_symbol (a_symbol true true).1 []; a_new_symbol (a_symbol false true).1 []].
Definition some_block : gps_tlm := (gps_steps some_events a_block).2.


Lemma frame_1_good h r : ok_how h = true -> 0 < raw_TOW h ->
  good_frame (frame_1 h r) /\ frame_TOW (frame_1 h r) = raw_TOW h * 6.
Proof. intros Hh HT. exact (frame_good 1 h _ ltac:(lia) Hh HT (layout_1 h r)). Qed.

Lemma frame_2_good h r : ok_how h = true -> 0 < raw_TOW h ->
  good_frame (frame_2 h r) /\ frame_TOW (frame_2 h r) = raw_TOW h * 6.
Proof. intros Hh HT. exact (frame_good 2 h _ ltac:(lia) Hh HT (layout_2 h r)). Qed.

Lemma frame_3_good h r : ok_how h = true -> 0 < raw_TOW h ->
  good_frame (frame_3 h r) /\ frame_TOW (frame_3 h r) = raw_TOW h * 6.
Proof. intros Hh HT. exact (frame_good 3 h _ ltac:(lia) Hh HT (layout_3 h r)). Qed.

Lemma frame_18_good h r : ok_how h = true -> 0 < raw_TOW h ->
  good_frame (frame_18 h r) /\ frame_TOW (frame_18 h r) = raw_TOW h * 6.
Proof. intros Hh HT. exact (frame_good 4 h _ ltac:(lia) Hh HT (layout_18 h r)). Qed.

Lemma frame_1_preamble h r : take 8 (frame_1 h r) = preamble_bits.
Proof. apply frame_preamble. Qed.

Lemma heard_new satellite conf : heard (new_gps_tlm satellite conf) = (new_Gps_Navigation_Message, []).
Proof. reflexivity. Qed.

Lemma counter_fresh satellite satellite0 conf :
  d_sample_counter (GpsTlm.set_satellite satellite (new_gps_tlm satellite0 conf)) = 0.
Proof. reflexivity. Qed.

#[local] Opaque hear frame_1 frame_2 frame_3 frame_18.

Lemma hear_broadcast prn h1 h2 h3 h4 r1 r2 r3 r4 :
  ok_how h1 = true -> ok_how h2 = true -> ok_how h3 = true ->
  ok_1 r1 = true -> ok_2 r2 = true -> ok_3 r3 = true -> ok_18 r4 = true ->
  0 < raw_TOW h1 -> 0 < raw_TOW h2 -> 0 < raw_TOW h3 ->
  raw_IODC r1 = raw_IODE_SF2 r2 -> raw_IODE_SF2 r2 = raw_IODE_SF3 r3 ->
  (foldl hear (set_satellite_PRN prn new_Gps_Navigation_Message, [])
    [frame_1 h1 r1; frame_2 h2 r2; frame_3 h3 r3; frame_18 h4 r4]).2 =
  [telemetry_gps_utc_model (broadcast_utc_model r4); telemetry_gps_iono (broadcast_iono r4);
   telemetry_gps_ephemeris (broadcast_ephemeris prn h3 r1 r2 r3)].
Proof.
  intros Hh1 Hh2 Hh3 Hr1 Hr2 Hr3 Hr4 T1 T2 T3 I1 I2.
  pose proof (hear_ephemeris prn h1 h2 h3 r1 r2 r3 [] Hh1 Hh2 Hh3 Hr1 Hr2 Hr3 T1 T2 T3 I1 I2) as He.
  cbn [foldl] in He |- *. revert He.
  generalize (hear (hear (hear (set_satellite_PRN prn new_Gps_Navigation_Message, [])
    (frame_1 h1 r1)) (frame_2 h2 r2)) (frame_3 h3 r3)).
  intros state He. rewrite hear_18 by exact Hr4. now rewrite He.
Qed.



(** ** What is not received *)

(** the issue of data of the clock has ten bits (IS-GPS-200, 20.3.3.3.1.5)
    and its low eight are the issue of data of the ephemeris; the block compares
    all ten.  While a satellite broadcasts an issue of 256 or more, its subframe 1
    never makes an ephemeris, whatever subframes 2 and 3 are. *)
Theorem high_issue_never_published id r1 r2 m msgs : 1 <= id <= 3 -> ok_2 r2 = true ->
  subframe_1 m = value_1 r1 -> subframe_2 m = value_2 r2 -> 256 <= raw_IODC r1 ->
  (report id m msgs).2 = msgs.
Proof.
  intros Hid Hr2 E1 E2 Hi.
  assert (raw_IODE_SF2 r2 < 256) as H2.
  { unfold ok_2 in Hr2. use_fits Hr2. lia. }
  assert ((satellite_validation m).1 = false) as E.
  { unfold satellite_validation. cbv zeta.
    change (subframe_1 (m <| b_valid_ephemeris_set_flag := false |>)) with (subframe_1 m).
    change (subframe_2 (m <| b_valid_ephemeris_set_flag := false |>)) with (subframe_2 m).
    rewrite E1, E2. destruct (negb _ && negb _ && negb _); [|reflexivity].
    replace (d_IODC (value_1 r1) =? d_IODE_SF2 (value_2 r2)) with false; [now rewrite andb_false_r|].
    symmetry. apply Z.eqb_neq. change (raw_IODC r1 <> raw_IODE_SF2 r2). lia. }
  unfold report. assert (id = 1 \/ id = 2 \/ id = 3) as [-> | [-> | ->]] by lia;
    destruct (satellite_validation m) as [v m']; cbn in E; subst v; reflexivity.
Qed.

Definition a_high_issue : Raw1 := mkRaw1 331 2 0 false 1 (-23) 333 13500 (-4021) (-12) 0.
Definition a_mixed_message : Gps_Navigation_Message :=
  new_Gps_Navigation_Message <| subframe_1 := value_1 a_high_issue |> <| subframe_2 := value_2 an_ephemeris_2 |>.

Lemma high_issue_never_published_witness : (report 3 a_mixed_message []).2 = [].
Proof.
  apply (high_issue_never_published 3 a_high_issue an_ephemeris_2); try reflexivity; try lia.
  unfold a_high_issue. cbn. lia.
Defined.

(** C22: at the turn of the week the time of week of a subframe is zero, which
    the block takes for an unknown one.  The last symbol of that subframe gets
    the time of the symbol before it, [T + 5980] for a subframe that began at
    [T] milliseconds, and the block stays in lock with this time: the symbols of
    the next subframe are timed 20 milliseconds late, in the old week. *)
Theorem week_turns_late T g tags d frame : tracking T 299 d -> d_sample_counter d + 1 < 2 ^ 63 ->
  sound_frame frame -> frame_TOW frame = 0 ->
  map (symbol_bit (d_flag_PLL_180_deg_phase_locked d))
    (next_history (float_of_double (Prompt_I g)) (d_symbol_history d)) =
    encode_frame (ahead d).1 (ahead d).2 frame ->
  exists o d', GpsTlm.general_work g tags d = (Returns o, d') /\ tracking (T + 5980) 0 d' /\
    timed (u32 (T + 5980)) o /\ heard d' = hear (heard d) frame.
Proof. apply end_of_week. Qed.

(** The last subframe of a week and all but one symbol of the next one. *)
Definition turn_symbols : list symbol :=
  map (a_symbol false) (drop 8 (encode_frames false false
    [frame_2 (a_how 100799) an_ephemeris_2; frame_3 (a_how 0) an_ephemeris_3])).
Definition before_turn : gps_tlm := (gps_run (take 591 turn_symbols) a_block).2.
Definition last_symbol : symbol := List.last turn_symbols (a_symbol false false).

Lemma week_turns_late_witness :
  exists o d', GpsTlm.general_work last_symbol.1 last_symbol.2 before_turn = (Returns o, d') /\
    tracking 604799980 0 d' /\ timed 604799980 o /\
    heard d' = hear (heard before_turn) (frame_3 (a_how 0) an_ephemeris_3).
Proof.
  apply (week_turns_late 604794000).
  - constructor; try (vm_compute; reflexivity).
    + repeat split; vm_compute; reflexivity.
    + repeat split; vm_compute; congruence.
  - vm_compute. reflexivity.
  - split; [vm_compute; reflexivity|split; vm_compute; congruence].
  - vm_compute. reflexivity.
  - vm_compute. reflexivity.
Defined.
