(* ===== verification/GnavTables.v ===== *)
(** * GnavTables: the layout of the GLONASS GNAV message

    [src/src/core/system_parameters/GLONASS_L1_L2_CA.h]: the constants of the
    demodulation, the index sets of the Hamming code, the leap seconds, and the
    bit fields of the fifteen strings.  Positions count from 1, the first bit
    received; the index sets count from 1, the last bit received. *)

From S2P Require Import Prelude Float64 InavTables.
From stdpp Require Import list.
From Stdlib Require Import ZArith Lia.
Local Open Scope Z_scope.

Definition GLONASS_GNAV_PREAMBLE : list Z :=
  [1; 1; 1; 1; 1; 0; 0; 0; 1; 1; 0; 1; 1; 1; 0; 1; 0; 1; 0; 0; 0; 0; 1; 0; 0; 1; 0; 1; 1; 0].
Definition GLONASS_GNAV_PREAMBLE_DURATION_S : double := double_lit 300 (-3).
Definition GLONASS_L1_CA_CODE_PERIOD_S : double := double_lit 1 (-3).
Definition GLONASS_CA_NBR_SATS : Z := 24.
Definition GLONASS_GNAV_PREAMBLE_LENGTH_BITS : Z := 30.
Definition GLONASS_GNAV_PREAMBLE_LENGTH_SYMBOLS : Z := 300.
Definition GLONASS_GNAV_PREAMBLE_PERIOD_SYMBOLS : Z := 2000.
Definition GLONASS_GNAV_TELEMETRY_SYMBOLS_PER_BIT : Z := 10.
Definition GLONASS_GNAV_TELEMETRY_SYMBOLS_PER_PREAMBLE_BIT : Z := 10.
Definition GLONASS_GNAV_STRING_SYMBOLS : Z := 2000.
Definition GLONASS_GNAV_STRING_BITS : Z := 85.
Definition GLONASS_GNAV_DATA_SYMBOLS : Z := 1700.

(** Year, month, day, hour, minute, second, UTC - GPST; the code ends the table
    with a row of zeros. *)
Definition GLONASS_LEAP_SECONDS : list (Z * Z * Z * Z * Z * Z * Z) :=
  [(2017, 1, 1, 0, 0, 0, -18); (2015, 7, 1, 0, 0, 0, -17); (2012, 7, 1, 0, 0, 0, -16);
   (2009, 1, 1, 0, 0, 0, -15); (2006, 1, 1, 0, 0, 0, -14); (1999, 1, 1, 0, 0, 0, -13);
   (1997, 7, 1, 0, 0, 0, -12); (1996, 1, 1, 0, 0, 0, -11); (1994, 7, 1, 0, 0, 0, -10);
   (1993, 7, 1, 0, 0, 0, -9); (1992, 7, 1, 0, 0, 0, -8); (1991, 1, 1, 0, 0, 0, -7);
   (1990, 1, 1, 0, 0, 0, -6); (1988, 1, 1, 0, 0, 0, -5); (1985, 7, 1, 0, 0, 0, -4);
   (1983, 7, 1, 0, 0, 0, -3); (1982, 7, 1, 0, 0, 0, -2); (1981, 7, 1, 0, 0, 0, -1)].

(** The data bits that each checksum covers. *)
Definition GLONASS_GNAV_CRC_I_INDEX : list Z :=
  [9; 10; 12; 13; 15; 17; 19; 20; 22; 24; 26; 28; 30; 32; 34; 35; 37; 39; 41; 43; 45; 47;
   49; 51; 53; 55; 57; 59; 61; 63; 65; 66; 68; 70; 72; 74; 76; 78; 80; 82; 84].
Definition GLONASS_GNAV_CRC_J_INDEX : list Z :=
  [9; 11; 12; 14; 15; 18; 19; 21; 22; 25; 26; 29; 30; 33; 34; 36; 37; 40; 41; 44; 45; 48;
   49; 52; 53; 56; 57; 60; 61; 64; 65; 67; 68; 71; 72; 75; 76; 79; 80; 83; 84].
Definition GLONASS_GNAV_CRC_K_INDEX : list Z :=
  [10; 11; 12; 16; 17; 18; 19; 23; 24; 25; 26; 31; 32; 33; 34; 38; 39; 40; 41; 46; 47; 48;
   49; 54; 55; 56; 57; 62; 63; 64; 65; 69; 70; 71; 72; 77; 78; 79; 80; 85].
Definition GLONASS_GNAV_CRC_L_INDEX : list Z :=
  [13; 14; 15; 16; 17; 18; 19; 27; 28; 29; 30; 31; 32; 33; 34; 42; 43; 44; 45; 46; 47; 48;
   49; 58; 59; 60; 61; 62; 63; 64; 65; 73; 74; 75; 76; 77; 78; 79; 80].
Definition GLONASS_GNAV_CRC_M_INDEX : list Z :=
  [20; 21; 22; 23; 24; 25; 26; 27; 28; 29; 30; 31; 32; 33; 34; 50; 51; 52; 53; 54; 55; 56;
   57; 58; 59; 60; 61; 62; 63; 64; 65; 81; 82; 83; 84; 85].
Definition GLONASS_GNAV_CRC_N_INDEX : list Z :=
  [35; 36; 37; 38; 39; 40; 41; 42; 43; 44; 45; 46; 47; 48; 49; 50; 51; 52; 53; 54; 55; 56;
   57; 58; 59; 60; 61; 62; 63; 64; 65].
Definition GLONASS_GNAV_CRC_P_INDEX : list Z :=
  [66; 67; 68; 69; 70; 71; 72; 73; 74; 75; 76; 77; 78; 79; 80; 81; 82; 83; 84; 85].
Definition GLONASS_GNAV_CRC_Q_INDEX : list Z :=
  [9; 10; 11; 12; 13; 14; 15; 16; 17; 18; 19; 20; 21; 22; 23; 24; 25; 26; 27; 28; 29; 30;
   31; 32; 33; 34; 35; 36; 37; 38; 39; 40; 41; 42; 43; 44; 45; 46; 47; 48; 49; 50; 51; 52;
   53; 54; 55; 56; 57; 58; 59; 60; 61; 62; 63; 64; 65; 66; 67; 68; 69; 70; 71; 72; 73; 74;
   75; 76; 77; 78; 79; 80; 81; 82; 83; 84; 85].

(** COMMON FIELDS *)
Definition STRING_ID : bit_field := [(2, 4)].
Definition KX : bit_field := [(78, 8)].

(** STRING 1 *)
Definition P1 : bit_field := [(8, 2)].
Definition T_K_HR : bit_field := [(10, 5)].
Definition T_K_MIN : bit_field := [(15, 6)].
Definition T_K_SEC : bit_field := [(21, 1)].
Definition X_N_DOT : bit_field := [(22, 24)].
Definition X_N_DOT_DOT : bit_field := [(46, 5)].
Definition X_N : bit_field := [(51, 27)].

(** STRING 2 *)
Definition B_N : bit_field := [(6, 3)].
Definition P2 : bit_field := [(9, 1)].
Definition T_B : bit_field := [(10, 7)].
Definition Y_N_DOT : bit_field := [(22, 24)].
Definition Y_N_DOT_DOT : bit_field := [(46, 5)].
Definition Y_N : bit_field := [(51, 27)].

(** STRING 3 *)
Definition P3 : bit_field := [(6, 1)].
Definition GAMMA_N : bit_field := [(7, 11)].
Definition P : bit_field := [(19, 2)].
Definition EPH_L_N : bit_field := [(21, 1)].
Definition Z_N_DOT : bit_field := [(22, 24)].
Definition Z_N_DOT_DOT : bit_field := [(46, 5)].
Definition Z_N : bit_field := [(51, 27)].

(** STRING 4 *)
Definition TAU_N : bit_field := [(6, 22)].
Definition DELTA_TAU_N : bit_field := [(28, 5)].
Definition E_N : bit_field := [(33, 5)].
Definition P4 : bit_field := [(52, 1)].
Definition F_T : bit_field := [(53, 4)].
Definition N_T : bit_field := [(60, 11)].
Definition N : bit_field := [(71, 5)].
Definition M : bit_field := [(76, 2)].

(** STRING 5 *)
Definition DAY_NUMBER_A : bit_field := [(6, 11)].
Definition TAU_C : bit_field := [(17, 32)].
Definition N_4 : bit_field := [(50, 5)].
Definition TAU_GPS : bit_field := [(55, 22)].
Definition ALM_L_N : bit_field := [(77, 1)].

(** STRING 6, 8, 10, 12, 14 *)
Definition C_N : bit_field := [(6, 1)].
Definition M_N_A : bit_field := [(7, 2)].
Definition N_A : bit_field := [(9, 5)].
Definition TAU_N_A : bit_field := [(14, 10)].
Definition LAMBDA_N_A : bit_field := [(24, 21)].
Definition DELTA_I_N_A : bit_field := [(45, 18)].
Definition EPSILON_N_A : bit_field := [(63, 15)].

(** STRING 7, 9, 11, 13, 15 *)
Definition OMEGA_N_A : bit_field := [(6, 16)].
Definition T_LAMBDA_N_A : bit_field := [(22, 21)].
Definition DELTA_T_N_A : bit_field := [(43, 22)].
Definition DELTA_T_DOT_N_A : bit_field := [(65, 7)].
Definition H_N_A : bit_field := [(72, 5)].

(** STRING 14 FRAME 5 *)
Definition B1 : bit_field := [(6, 11)].
Definition B2 : bit_field := [(17, 10)].
