(* ===== verification/GnavMessage.v ===== *)
(** * GnavMessage: the GLONASS GNAV navigation message decoder

    [class Glonass_Gnav_Navigation_Message] of
    [src/src/core/system_parameters/glonass_gnav_navigation_message.{h,cc}]: the
    Hamming check, the bit readers, the fifteen strings, the detection of new
    data; with the classes it fills ([glonass_gnav_ephemeris.{h,cc}],
    [glonass_gnav_almanac.h], [glonass_gnav_utc_model.h]).

    Members of type [double] that only ever hold integers far below 2^53 are
    [Z] here: their arithmetic is exact.  The members that one string fills are
    grouped in a record of their own.  Left out: [satelliteBlock], which nothing
    reads, the clock drift and the conversions to dates of the ephemeris, which
    this class does not call, and members that nothing writes.

    The dates are Boost's: [day_number] is a parameter. *)

From S2P Require Import Prelude Cstring Float64 MathConstants InavTables InavWords GnavTables.
From stdpp Require Import list.
From Stdlib Require Import ZArith Lia Ascii.
Local Open Scope Z_scope.
Local Open Scope cxx_scope.

(** ** The Hamming check *)

(** The sum of the bits of an index set, each index from 1. *)
Definition sum_bits (index : list Z) (string_bits : bitset) : Z :=
  foldl (fun s i => u32 (s + Z.b2z (vget false string_bits (i - 1)))) 0 index.

(** Checksum [k]: bit [k] against the parity of its index set. *)
Definition checksum (index : list Z) (k : Z) (string_bits : bitset) : Z :=
  Z.lxor (Z.b2z (vget false string_bits k)) (sum_bits index string_bits mod 2).

Definition checksums (bits : bitset) : list Z :=
  [checksum GLONASS_GNAV_CRC_I_INDEX 0 bits; checksum GLONASS_GNAV_CRC_J_INDEX 1 bits;
   checksum GLONASS_GNAV_CRC_K_INDEX 2 bits; checksum GLONASS_GNAV_CRC_L_INDEX 3 bits;
   checksum GLONASS_GNAV_CRC_M_INDEX 4 bits; checksum GLONASS_GNAV_CRC_N_INDEX 5 bits;
   checksum GLONASS_GNAV_CRC_P_INDEX 6 bits].

Definition sum_hamming (bits : bitset) : Z :=
  for_range 0 8 (fun q s => s + Z.b2z (vget false bits q)) 0.

Definition C_Sigma (bits : bitset) : Z :=
  Z.lxor (sum_hamming bits mod 2) (sum_bits GLONASS_GNAV_CRC_Q_INDEX bits mod 2).

(** All the checksums hold, or only one of the seven does not. *)
Definition CRC_test (bits : bitset) : bool :=
  let sum := foldl Z.add 0 (checksums bits) in
  if sum + C_Sigma bits =? 0 then true
  else (C_Sigma bits =? 1) && (sum =? 1).

(** ** The readers *)

Definition gnav_read_bool (bits : bitset) (parameter : bit_field) : bool :=
  vget false bits (GLONASS_GNAV_STRING_BITS - first_bit parameter).

Definition gnav_read_unsigned (bits : bitset) (parameter : bit_field) : Z :=
  for_slices parameter
    (fun first j value =>
       let value := u64 (Z.shiftl value 1) in
       if vget false bits (GLONASS_GNAV_STRING_BITS - first - j) then u64 (value + 1) else value)
    0.

(** Sign and magnitude: the first bit of every slice is skipped. *)
Definition gnav_read_signed (bits : bitset) (parameter : bit_field) : Z :=
  let sign := if vget false bits (GLONASS_GNAV_STRING_BITS - first_bit parameter) then -1 else 1 in
  let value :=
    fold_left (fun value '(first, len) =>
      for_range 1 len (fun j value =>
        let value := i64 (Z.shiftl value 1) in
        if vget false bits (GLONASS_GNAV_STRING_BITS - first - j) then i64 (value + 1) else value) value)
      parameter 0 in
  i64 (sign * value).

(** ** Strings *)

(** String 1: the time of the frame and the first coordinate. *)
Record String1 := mkString1 {
  d_P_1 : Z;
  d_t_k : Z;
  d_VXn : double;
  d_AXn : double;
  d_Xn : double
}.
Definition new_String1 : String1 := mkString1 0 0 dzero dzero dzero.
Definition read_string_1 (string_bits : bitset) : String1 := {|
  d_P_1 := (gnav_read_unsigned string_bits P1 + 1) * 15;
  d_t_k := gnav_read_unsigned string_bits T_K_HR * 3600 +
           gnav_read_unsigned string_bits T_K_MIN * 60 +
           gnav_read_unsigned string_bits T_K_SEC * 30;
  d_VXn := dmul (double_of_Z (gnav_read_signed string_bits X_N_DOT)) TWO_N20;
  d_AXn := dmul (double_of_Z (gnav_read_signed string_bits X_N_DOT_DOT)) TWO_N30;
  d_Xn := dmul (double_of_Z (gnav_read_signed string_bits X_N)) TWO_N11
|}.

(** String 2: the reference time and the second coordinate. *)
Record String2 := mkString2 {
  d_B_n : Z;
  d_P_2 : bool;
  d_t_b : Z;
  d_VYn : double;
  d_AYn : double;
  d_Yn : double;
  d_iode : Z
}.
Definition new_String2 : String2 := mkString2 0 false 0 dzero dzero dzero 0.
Definition read_string_2 (string_bits : bitset) : String2 := {|
  d_B_n := gnav_read_unsigned string_bits B_N;
  d_P_2 := gnav_read_bool string_bits P2;
  d_t_b := gnav_read_unsigned string_bits T_B * 15 * 60;
  d_VYn := dmul (double_of_Z (gnav_read_signed string_bits Y_N_DOT)) TWO_N20;
  d_AYn := dmul (double_of_Z (gnav_read_signed string_bits Y_N_DOT_DOT)) TWO_N30;
  d_Yn := dmul (double_of_Z (gnav_read_signed string_bits Y_N)) TWO_N11;
  d_iode := gnav_read_unsigned string_bits T_B
|}.

(** String 3: the frequency and the third coordinate. *)
Record String3 := mkString3 {
  d_P_3 : bool;
  d_gamma_n : double;
  d_P : Z;
  d_l3rd_n : bool;
  d_VZn : double;
  d_AZn : double;
  d_Zn : double
}.
Definition new_String3 : String3 := mkString3 false dzero 0 false dzero dzero dzero.
Definition read_string_3 (string_bits : bitset) : String3 := {|
  d_P_3 := gnav_read_bool string_bits P3;
  d_gamma_n := dmul (double_of_Z (gnav_read_signed string_bits GAMMA_N)) TWO_N40;
  d_P := gnav_read_unsigned string_bits P;
  d_l3rd_n := gnav_read_bool string_bits EPH_L_N;
  d_VZn := dmul (double_of_Z (gnav_read_signed string_bits Z_N_DOT)) TWO_N20;
  d_AZn := dmul (double_of_Z (gnav_read_signed string_bits Z_N_DOT_DOT)) TWO_N30;
  d_Zn := dmul (double_of_Z (gnav_read_signed string_bits Z_N)) TWO_N11
|}.

(** String 4: the clock, the day and the slot. *)
Record String4 := mkString4 {
  d_tau_n : double;
  d_Delta_tau_n : double;
  d_E_n : Z;
  d_P_4 : bool;
  d_F_T : Z;
  d_N_T : Z;
  d_n : Z;
  d_M : Z
}.
Definition new_String4 : String4 := mkString4 dzero dzero 0 false 0 0 0 0.
Definition read_string_4 (string_bits : bitset) : String4 := {|
  d_tau_n := dmul (double_of_Z (gnav_read_signed string_bits TAU_N)) TWO_N30;
  d_Delta_tau_n := dmul (double_of_Z (gnav_read_signed string_bits DELTA_TAU_N)) TWO_N30;
  d_E_n := gnav_read_unsigned string_bits E_N;
  d_P_4 := gnav_read_bool string_bits P4;
  d_F_T := gnav_read_unsigned string_bits F_T;
  d_N_T := gnav_read_unsigned string_bits N_T;
  d_n := gnav_read_unsigned string_bits GnavTables.N;
  d_M := gnav_read_unsigned string_bits M
|}.

(** [class Glonass_Gnav_Ephemeris]. *)
Record Glonass_Gnav_Ephemeris := mkGlonass_Gnav_Ephemeris {
  string_1 : String1;
  string_2 : String2;
  string_3 : String3;
  string_4 : String4;
  d_l5th_n : bool;
  i_satellite_freq_channel : Z;
  PRN : Z;
  i_satellite_slot_number : Z;
  d_yr : Z;
  d_tau_c : double;
  d_TOW : double;
  d_WN : Z;
  d_tod : Z
}.
#[export] Instance eta_Glonass_Gnav_Ephemeris : Eta Glonass_Gnav_Ephemeris := fun e =>
  mkGlonass_Gnav_Ephemeris (string_1 e) (string_2 e) (string_3 e) (string_4 e) (d_l5th_n e)
    (i_satellite_freq_channel e) (PRN e) (i_satellite_slot_number e) (d_yr e) (d_tau_c e)
    (d_TOW e) (d_WN e) (d_tod e).
Definition new_Glonass_Gnav_Ephemeris : Glonass_Gnav_Ephemeris :=
  mkGlonass_Gnav_Ephemeris new_String1 new_String2 new_String3 new_String4 false 0 0 0 1972 dzero
    dzero 0 0.

(** [class Glonass_Gnav_Utc_Model]. *)
Record Glonass_Gnav_Utc_Model := mkGlonass_Gnav_Utc_Model {
  utc_valid : bool;
  utc_tau_c : double;
  d_tau_gps : double;
  d_N_4 : Z;
  d_N_A : Z;
  d_B1 : Z;
  d_B2 : Z
}.
#[export] Instance eta_Glonass_Gnav_Utc_Model : Eta Glonass_Gnav_Utc_Model := fun u =>
  mkGlonass_Gnav_Utc_Model (utc_valid u) (utc_tau_c u) (d_tau_gps u) (d_N_4 u) (d_N_A u) (d_B1 u)
    (d_B2 u).
Definition new_Glonass_Gnav_Utc_Model : Glonass_Gnav_Utc_Model :=
  mkGlonass_Gnav_Utc_Model false dzero dzero 0 0 0 0.

(** The first half of an almanac: strings 6, 8, 10, 12 and 14. *)
Record Almanac_even := mkAlmanac_even {
  d_C_n : bool;
  d_M_n_A : Z;
  d_n_A : Z;
  d_tau_n_A : double;
  d_lambda_n_A : double;
  d_Delta_i_n_A : double;
  d_epsilon_n_A : double
}.
Definition new_Almanac_even : Almanac_even := mkAlmanac_even false 0 0 dzero dzero dzero dzero.
Definition read_almanac_even (string_bits : bitset) : Almanac_even := {|
  d_C_n := gnav_read_bool string_bits C_N;
  d_M_n_A := gnav_read_unsigned string_bits M_N_A;
  d_n_A := gnav_read_unsigned string_bits N_A;
  d_tau_n_A := dmul (double_of_Z (gnav_read_unsigned string_bits TAU_N_A)) TWO_N18;
  d_lambda_n_A := dmul (dmul (double_of_Z (gnav_read_signed string_bits LAMBDA_N_A)) TWO_N20) GNSS_PI;
  d_Delta_i_n_A := dmul (dmul (double_of_Z (gnav_read_signed string_bits DELTA_I_N_A)) TWO_N20) GNSS_PI;
  d_epsilon_n_A := dmul (double_of_Z (gnav_read_unsigned string_bits EPSILON_N_A)) TWO_N20
|}.

(** The second half: strings 7, 9, 11, 13 and 15. *)
Record Almanac_odd := mkAlmanac_odd {
  d_omega_n_A : double;
  d_t_lambda_n_A : double;
  d_Delta_T_n_A : double;
  d_Delta_T_n_A_dot : double;
  d_H_n_A : Z;
  d_l_n : bool
}.
Definition new_Almanac_odd : Almanac_odd := mkAlmanac_odd dzero dzero dzero dzero 0 false.
Definition read_almanac_odd (string_bits : bitset) : Almanac_odd := {|
  d_omega_n_A := dmul (dmul (double_of_Z (gnav_read_signed string_bits OMEGA_N_A)) TWO_N15) GNSS_PI;
  d_t_lambda_n_A := dmul (double_of_Z (gnav_read_unsigned string_bits T_LAMBDA_N_A)) TWO_N5;
  d_Delta_T_n_A := dmul (double_of_Z (gnav_read_signed string_bits DELTA_T_N_A)) TWO_N9;
  d_Delta_T_n_A_dot := dmul (double_of_Z (gnav_read_signed string_bits DELTA_T_DOT_N_A)) TWO_N14;
  d_H_n_A := gnav_read_unsigned string_bits H_N_A;
  d_l_n := gnav_read_bool string_bits ALM_L_N
|}.

(** [class Glonass_Gnav_Almanac]. *)
Record Glonass_Gnav_Almanac := mkGlonass_Gnav_Almanac {
  almanac_even : Almanac_even;
  almanac_odd : Almanac_odd;
  alm_satellite_freq_channel : Z;
  alm_PRN : Z;
  alm_satellite_slot_number : Z
}.
#[export] Instance eta_Glonass_Gnav_Almanac : Eta Glonass_Gnav_Almanac := fun a =>
  mkGlonass_Gnav_Almanac (almanac_even a) (almanac_odd a) (alm_satellite_freq_channel a) (alm_PRN a)
    (alm_satellite_slot_number a).
Definition new_Glonass_Gnav_Almanac : Glonass_Gnav_Almanac :=
  mkGlonass_Gnav_Almanac new_Almanac_even new_Almanac_odd 0 0 0.

(** Strings 7, 9, ...: the second half, and the identification. *)
Definition store_almanac_odd (string_bits : bitset) (a : Glonass_Gnav_Almanac)
  : Glonass_Gnav_Almanac :=
  let odd := read_almanac_odd string_bits in
  let a := a <| almanac_odd := odd |> in
  let a := if 24 <? d_H_n_A odd
           then a <| alm_satellite_freq_channel := i32 (d_H_n_A odd - 32) |> else a in
  a <| alm_satellite_slot_number := d_n_A (almanac_even a) |>
    <| alm_PRN := d_n_A (almanac_even a) |>.

(** ** State *)

Record Glonass_Gnav_Navigation_Message := mkGlonass_Gnav_Navigation_Message {
  gnav_ephemeris : Glonass_Gnav_Ephemeris;
  gnav_utc_model : Glonass_Gnav_Utc_Model;
  gnav_almanac : list Glonass_Gnav_Almanac;
  d_previous_tb : Z;
  d_previous_Na : list Z;
  d_frame_ID : Z;
  d_string_ID : Z;
  i_alm_satellite_slot_number : Z;
  flag_CRC_test : bool;
  flag_update_slot_number : bool;
  flag_all_ephemeris : bool;
  flag_ephemeris_str_1 : bool;
  flag_ephemeris_str_2 : bool;
  flag_ephemeris_str_3 : bool;
  flag_ephemeris_str_4 : bool;
  (** [flag_almanac_str_6] to [flag_almanac_str_15]. *)
  flag_almanac_str : list bool;
  flag_utc_model_str_5 : bool;
  flag_TOW_set : bool;
  flag_TOW_new : bool
}.
#[export] Instance eta_Glonass_Gnav_Navigation_Message : Eta Glonass_Gnav_Navigation_Message :=
  fun m => mkGlonass_Gnav_Navigation_Message (gnav_ephemeris m) (gnav_utc_model m)
    (gnav_almanac m) (d_previous_tb m) (d_previous_Na m) (d_frame_ID m) (d_string_ID m)
    (i_alm_satellite_slot_number m) (flag_CRC_test m) (flag_update_slot_number m)
    (flag_all_ephemeris m) (flag_ephemeris_str_1 m) (flag_ephemeris_str_2 m)
    (flag_ephemeris_str_3 m) (flag_ephemeris_str_4 m) (flag_almanac_str m)
    (flag_utc_model_str_5 m) (flag_TOW_set m) (flag_TOW_new m).

Definition new_Glonass_Gnav_Navigation_Message : Glonass_Gnav_Navigation_Message := {|
  gnav_ephemeris := new_Glonass_Gnav_Ephemeris;
  gnav_utc_model := new_Glonass_Gnav_Utc_Model;
  gnav_almanac := replicate (Z.to_nat GLONASS_CA_NBR_SATS) new_Glonass_Gnav_Almanac;
  d_previous_tb := 0;
  d_previous_Na := replicate (Z.to_nat GLONASS_CA_NBR_SATS) 0;
  d_frame_ID := 0;
  d_string_ID := 0;
  i_alm_satellite_slot_number := 0;
  flag_CRC_test := false;
  flag_update_slot_number := false;
  flag_all_ephemeris := false;
  flag_ephemeris_str_1 := false;
  flag_ephemeris_str_2 := false;
  flag_ephemeris_str_3 := false;
  flag_ephemeris_str_4 := false;
  flag_almanac_str := replicate 10 false;
  flag_utc_model_str_5 := false;
  flag_TOW_set := false;
  flag_TOW_new := false |}.

Definition flag_almanac (k : Z) (m : Glonass_Gnav_Navigation_Message) : bool :=
  vget false (flag_almanac_str m) (k - 6).
Definition set_flag_almanac (k : Z) (b : bool) (m : Glonass_Gnav_Navigation_Message)
  : Glonass_Gnav_Navigation_Message :=
  m <| flag_almanac_str ::= fun flags => vset flags (k - 6) b |>.

Definition get_flag_CRC_test (m : Glonass_Gnav_Navigation_Message) : bool := flag_CRC_test m.
Definition get_flag_update_slot_number (m : Glonass_Gnav_Navigation_Message) : bool :=
  flag_update_slot_number m.
Definition set_flag_update_slot_number (b : bool) (m : Glonass_Gnav_Navigation_Message)
  : Glonass_Gnav_Navigation_Message := m <| flag_update_slot_number := b |>.
Definition get_flag_TOW_new (m : Glonass_Gnav_Navigation_Message) : bool := flag_TOW_new m.
Definition set_flag_TOW_new (b : bool) (m : Glonass_Gnav_Navigation_Message)
  : Glonass_Gnav_Navigation_Message := m <| flag_TOW_new := b |>.
Definition is_flag_TOW_set (m : Glonass_Gnav_Navigation_Message) : bool := flag_TOW_set m.
Definition get_alm_satellite_slot_number (m : Glonass_Gnav_Navigation_Message) : Z :=
  i_alm_satellite_slot_number m.
Definition set_rf_link (rf_link : Z) (m : Glonass_Gnav_Navigation_Message)
  : Glonass_Gnav_Navigation_Message :=
  m <| gnav_ephemeris ::= fun e => e <| i_satellite_freq_channel := rf_link |> |>.
Definition get_ephemeris (m : Glonass_Gnav_Navigation_Message) : Glonass_Gnav_Ephemeris :=
  gnav_ephemeris m.
Definition get_utc_model (m : Glonass_Gnav_Navigation_Message) : Glonass_Gnav_Utc_Model :=
  gnav_utc_model m.

(** ** GLONASS time to GPS time *)

(** [boost::gregorian::date(year, month, day)], as a number of days. *)
Class Calendar := day_number : Z -> Z -> Z -> Z.

(** The year of the four-year interval. *)
Definition interval_year (N_T : Z) : Z :=
  if (1 <=? N_T) && (N_T <=? 366) then 1
  else if (367 <=? N_T) && (N_T <=? 731) then 2
  else if (732 <=? N_T) && (N_T <=? 1096) then 3
  else if (1097 <=? N_T) && (N_T <=? 1461) then 4
  else 0.

Section time.
Context `{Calendar}.

(** A [boost::posix_time::ptime] is a number of seconds. *)
Definition leap_time (l : Z * Z * Z * Z * Z * Z * Z) : Z :=
  let '(year, month, day, hour, minute, second, _) := l in
  day_number year month day * 86400 + hour * 3600 + minute * 60 + second.

Fixpoint leap_seconds (table : list (Z * Z * Z * Z * Z * Z * Z)) (utc_time : Z) : option Z :=
  match table with
  | [] => None
  | l :: table => if leap_time l <=? utc_time then Some (Z.abs l.2) else leap_seconds table utc_time
  end.

Definition glot_utc_time (e : Glonass_Gnav_Ephemeris) (tod_offset : Z) : Z :=
  let tod := tod_offset - 3 * 3600 in
  (day_number (d_yr e - interval_year (d_N_T (string_4 e)) + 1) 1 1 + (d_N_T (string_4 e) - 1))
    * 86400 + tod.

(** The week number and the time of week.  Without an entry of the table in the
    past the date that is read is not one. *)
Definition glot_to_gpst (e : Glonass_Gnav_Ephemeris) (tod_offset : Z)
    (glot2utc_corr glot2gpst_corr : double) : outcome (Z * double) :=
  let gps_epoch := day_number 1980 1 6 in
  let utc_time := glot_utc_time e tod_offset in
  let utc_date := utc_time / 86400 in
  match leap_seconds GLONASS_LEAP_SECONDS utc_time with
  | None => Throws undefined_behaviour
  | Some leap =>
      let gps_time := utc_time + leap in
      let days := utc_date - gps_epoch in
      let sec_of_day := gps_time mod 86400 in
      let total_sec := days * 86400 + sec_of_day in
      Returns (i32 (total_sec / 604800),
               dadd (double_of_Z (total_sec - 604800 * (total_sec / 604800)))
                 (dadd glot2utc_corr glot2gpst_corr))
  end.

(** ** Decoding a string *)

Definition get_frame_number (satellite_slot_number : Z) : Z :=
  let s := satellite_slot_number in
  if (1 <=? s) && (s <=? 5) then 1
  else if (6 <=? s) && (s <=? 10) then 2
  else if (11 <=? s) && (s <=? 15) then 3
  else if (16 <=? s) && (s <=? 20) then 4
  else if (21 <=? s) && (s <=? 24) then 5
  else 0.

Abbreviation msg_prog := (prog Glonass_Gnav_Navigation_Message).

Definition decode_string_1 (string_bits : bitset) : msg_prog unit :=
  modify (fun m => m <| gnav_ephemeris ::= fun e => e <| string_1 := read_string_1 string_bits |> |>
    <| flag_ephemeris_str_1 := true |>).

Definition decode_string_2 (string_bits : bitset) : msg_prog unit :=
  modify (fun m =>
    if flag_ephemeris_str_1 m then
      m <| gnav_ephemeris ::= fun e => e <| string_2 := read_string_2 string_bits |> |>
        <| flag_ephemeris_str_2 := true |>
    else m).

Definition decode_string_3 (string_bits : bitset) : msg_prog unit :=
  modify (fun m =>
    if flag_ephemeris_str_2 m then
      m <| gnav_ephemeris ::= fun e => e <| string_3 := read_string_3 string_bits |> |>
        <| flag_ephemeris_str_3 := true |>
    else m).

Definition decode_string_4 (string_bits : bitset) : msg_prog unit :=
  modify (fun m =>
    if flag_ephemeris_str_3 m then
      let s := read_string_4 string_bits in
      m <| gnav_ephemeris ::= fun e => e <| string_4 := s |>
             <| i_satellite_slot_number := u32 (d_n s) |> <| PRN := u32 (d_n s) |> |>
        <| flag_update_slot_number := true |> <| flag_ephemeris_str_4 := true |>
    else m).

(** What string 5 writes before the time of week. *)
Definition store_string_5 (string_bits : bitset) (m : Glonass_Gnav_Navigation_Message)
  : Glonass_Gnav_Navigation_Message :=
  let m := m
    <| gnav_utc_model ::= fun u =>
         u <| d_N_A := gnav_read_unsigned string_bits DAY_NUMBER_A |>
           <| utc_tau_c := dmul (double_of_Z (gnav_read_signed string_bits TAU_C)) TWO_N31 |>
           <| d_N_4 := gnav_read_unsigned string_bits N_4 |>
           <| d_tau_gps := dmul (double_of_Z (gnav_read_signed string_bits TAU_GPS)) TWO_N30 |> |>
    <| gnav_ephemeris ::= fun e => e <| d_l5th_n := gnav_read_bool string_bits ALM_L_N |> |>
    <| flag_utc_model_str_5 := true |> in
  m <| gnav_ephemeris ::= fun e =>
         e <| d_yr := 1996 + 4 * (d_N_4 (gnav_utc_model m) - 1) +
                      (interval_year (d_N_T (string_4 e)) - 1) |>
           <| d_tau_c := utc_tau_c (gnav_utc_model m) |> |>.

Definition decode_string_5 (string_bits : bitset) : msg_prog unit :=
  m <- gets id;;
  if flag_ephemeris_str_4 m then
    modify (store_string_5 string_bits);;
    m <- gets id;;
    (if flag_ephemeris_str_1 m then
       wn_tow <- lift (glot_to_gpst (gnav_ephemeris m) (d_t_k (string_1 (gnav_ephemeris m)) + 10)
                         (utc_tau_c (gnav_utc_model m)) (d_tau_gps (gnav_utc_model m)));;
       modify (fun m => m
         <| gnav_ephemeris ::= fun e => e <| d_WN := wn_tow.1 |> <| d_TOW := wn_tow.2 |> |>
         <| flag_TOW_set := true |> <| flag_TOW_new := true |>)
     else ret tt);;
    modify (fun m => m <| gnav_ephemeris ::= fun e =>
      e <| d_tod := d_t_k (string_1 e) + 2 * d_string_ID m |> |>)
  else ret tt.

(** [gnav_almanac[i_alm_satellite_slot_number - 1]], a [uint32_t] index. *)
Definition update_almanac (f : Glonass_Gnav_Almanac -> Glonass_Gnav_Almanac) : msg_prog unit :=
  m <- gets id;;
  let i := u32 (i_alm_satellite_slot_number m - 1) in
  a <- lift (vat (gnav_almanac m) i);;
  modify (fun m => m <| gnav_almanac ::= fun l => vset l i (f a) |>).

(** Strings 6, 8, 10, 12 and 14: whether the slot is one. *)
Definition decode_almanac_even (k : Z) (string_bits : bitset) : msg_prog bool :=
  modify (fun m => m <| i_alm_satellite_slot_number := u32 (gnav_read_unsigned string_bits N_A) |>);;
  modify (fun m => m <| d_frame_ID := get_frame_number (i_alm_satellite_slot_number m) |>);;
  frame_ID <- gets d_frame_ID;;
  if frame_ID =? 0 then ret false else
  update_almanac (fun a => a <| almanac_even := read_almanac_even string_bits |>);;
  modify (set_flag_almanac k true);;
  ret true.

(** String 7 also keeps the frequency channel of the satellite received. *)
Definition keep_freq_channel (m : Glonass_Gnav_Navigation_Message)
  : Glonass_Gnav_Navigation_Message :=
  if i_alm_satellite_slot_number m =? i_satellite_slot_number (gnav_ephemeris m) then
    m <| gnav_ephemeris ::= fun e => e <| i_satellite_freq_channel :=
      alm_satellite_freq_channel
        (vget new_Glonass_Gnav_Almanac (gnav_almanac m)
           (u32 (i_alm_satellite_slot_number m - 1))) |> |>
  else m.

(** Strings 7, 9, 11 and 13. *)
Definition decode_almanac_odd (k : Z) (string_bits : bitset) : msg_prog unit :=
  m <- gets id;;
  if flag_almanac (k - 1) m then
    update_almanac (store_almanac_odd string_bits);;
    modify (fun m => set_flag_almanac k true (if k =? 7 then keep_freq_channel m else m))
  else ret tt.

Definition decode_string_14 (string_bits : bitset) : msg_prog bool :=
  m <- gets id;;
  if d_frame_ID m =? 5 then
    modify (fun m => m <| gnav_utc_model ::= fun u =>
      u <| d_B1 := gnav_read_unsigned string_bits B1 |>
        <| d_B2 := gnav_read_unsigned string_bits B2 |> |>);;
    ret true
  else decode_almanac_even 14 string_bits.

Definition decode_string_15 (string_bits : bitset) : msg_prog unit :=
  m <- gets id;;
  if negb (d_frame_ID m =? 5) then decode_almanac_odd 15 string_bits else ret tt.

(** The string of each identifier; whether the identifier is returned. *)
Definition decode_by_ID (string_ID : Z) (string_bits : bitset) : msg_prog bool :=
  match string_ID with
  | 1 => decode_string_1 string_bits;; ret true
  | 2 => decode_string_2 string_bits;; ret true
  | 3 => decode_string_3 string_bits;; ret true
  | 4 => decode_string_4 string_bits;; ret true
  | 5 => decode_string_5 string_bits;; ret true
  | 6 | 8 | 10 | 12 => decode_almanac_even string_ID string_bits
  | 7 | 9 | 11 | 13 => decode_almanac_odd string_ID string_bits;; ret true
  | 14 => decode_string_14 string_bits
  | 15 => decode_string_15 string_bits;; ret true
  | _ => ret true
  end.

Definition string_decoder (frame_string : cstring) : msg_prog Z :=
  modify (fun m => m <| d_frame_ID := 0 |>);;
  string_bits <- lift (bitset_of_string (Z.to_nat GLONASS_GNAV_STRING_BITS) frame_string);;
  modify (fun m => m <| flag_CRC_test := CRC_test string_bits |>);;
  crc_ok <- gets flag_CRC_test;;
  if negb crc_ok then ret 0 else
  modify (fun m => m <| d_string_ID := u32 (gnav_read_unsigned string_bits STRING_ID) |>);;
  string_ID <- gets d_string_ID;;
  known <- decode_by_ID string_ID string_bits;;
  ret (if known : bool then i32 string_ID else 0).

End time.

(** ** New data *)

Definition get_almanac (satellite_slot_number : Z) (m : Glonass_Gnav_Navigation_Message)
  : outcome Glonass_Gnav_Almanac :=
  vat (gnav_almanac m) (u32 (satellite_slot_number - 1)).

Definition have_new_ephemeris (m : Glonass_Gnav_Navigation_Message)
  : bool * Glonass_Gnav_Navigation_Message :=
  if flag_ephemeris_str_1 m && flag_ephemeris_str_2 m && flag_ephemeris_str_3 m
     && flag_ephemeris_str_4 m && flag_utc_model_str_5 m then
    if negb (d_previous_tb m =? d_t_b (string_2 (gnav_ephemeris m))) then
      (true, m <| flag_ephemeris_str_1 := false |> <| flag_ephemeris_str_2 := false |>
               <| flag_ephemeris_str_3 := false |> <| flag_ephemeris_str_4 := false |>
               <| flag_all_ephemeris := true |>
               <| d_previous_tb := d_t_b (string_2 (gnav_ephemeris m)) |>)
    else (false, m)
  else (false, m).

Definition have_new_utc_model (m : Glonass_Gnav_Navigation_Message)
  : bool * Glonass_Gnav_Navigation_Message :=
  if flag_utc_model_str_5 m then (true, m <| flag_utc_model_str_5 := false |>) else (false, m).

(** One pair of strings: [d_previous_Na] has 24 elements. *)
Definition new_almanac_pair (k : Z) (new_alm : bool) : prog Glonass_Gnav_Navigation_Message bool :=
  m <- gets id;;
  if flag_almanac k m && flag_almanac (k + 1) m then
    previous <- lift (vat (d_previous_Na m) (i_alm_satellite_slot_number m));;
    if negb (previous =? d_N_A (gnav_utc_model m)) then
      modify (fun m => set_flag_almanac (k + 1) false (set_flag_almanac k false m));;
      ret true
    else ret new_alm
  else ret new_alm.

Definition have_new_almanac : prog Glonass_Gnav_Navigation_Message bool :=
  new_alm <- new_almanac_pair 6 false;;
  new_alm <- new_almanac_pair 8 new_alm;;
  new_alm <- new_almanac_pair 10 new_alm;;
  new_alm <- new_almanac_pair 12 new_alm;;
  new_almanac_pair 14 new_alm.
