(* ===== verification/GnavTlm.v ===== *)
(** * GnavTlm: the GLONASS C/A telemetry decoder blocks

    [class glonass_l1_ca_telemetry_decoder_gs] of
    [src/src/algorithms/telemetry_decoder/gnuradio_blocks/glonass_l1_ca_telemetry_decoder_gs.{h,cc}]
    and [class glonass_l2_ca_telemetry_decoder_gs] of
    [glonass_l2_ca_telemetry_decoder_gs.{h,cc}], which repeats it statement by
    statement and differs in the name of its signal ([band_signal]): the search of the time mark, the bi-binary and relative codes of a string,
    the publication of what it completes, and the time of week of every symbol.
    One call of [general_work] consumes one symbol and is one program here.

    Left out: dump files, CRC statistics and what is printed. *)

From S2P Require Import Prelude Cstring Float64 GnssSignal Viterbi TlmDecoder GnavTables GnavMessage.
From stdpp Require Import list strings.
From Stdlib Require Import ZArith Lia Ascii SpecFloat.
Local Open Scope Z_scope.
Local Open Scope cxx_scope.

(** ** Messages and state *)

(** A message on one of the output ports. *)
Inductive gnav_message :=
  | telemetry_gnav_ephemeris (e : Glonass_Gnav_Ephemeris)
  | telemetry_gnav_utc_model (u : Glonass_Gnav_Utc_Model)
  | telemetry_gnav_almanac (a : Glonass_Gnav_Almanac)
  | preamble_timestamp_samples (t : double)
  | gnav_Nav_msg_from_TLM (p : Nav_Message_Packet).

Record gnav_tlm := mkgnav_tlm {
  d_preambles_symbols : list Z;
  (** [boost::circular_buffer<Gnss_Synchro>], the oldest first. *)
  d_symbol_history : list Gnss_Synchro;
  d_nav : Glonass_Gnav_Navigation_Message;
  d_satellite : Gnss_Satellite;
  d_nav_msg_packet : Nav_Message_Packet;
  d_preamble_time_samples : double;
  d_TOW_at_current_symbol : double;
  d_sample_counter : Z;
  d_preamble_index : Z;
  d_stat : Z;
  d_CRC_error_counter : Z;
  d_channel : Z;
  d_flag_frame_sync : bool;
  d_flag_preamble : bool;
  d_enable_navdata_monitor : bool;
  (** The messages published, the last first. *)
  published : list gnav_message
}.
#[export] Instance eta_gnav_tlm : Eta gnav_tlm := fun d =>
  mkgnav_tlm (d_preambles_symbols d) (d_symbol_history d) (d_nav d) (d_satellite d)
    (d_nav_msg_packet d) (d_preamble_time_samples d) (d_TOW_at_current_symbol d)
    (d_sample_counter d) (d_preamble_index d) (d_stat d) (d_CRC_error_counter d) (d_channel d)
    (d_flag_frame_sync d) (d_flag_preamble d) (d_enable_navdata_monitor d) (published d).

Definition publish (msg : gnav_message) (d : gnav_tlm) : gnav_tlm :=
  d <| published ::= cons msg |>.

(** The time mark: every bit is ten symbols of 1 or -1. *)
Definition preamble_samples : list Z :=
  concat (map (fun bit => replicate (Z.to_nat GLONASS_GNAV_TELEMETRY_SYMBOLS_PER_PREAMBLE_BIT)
                            (if bit =? 1 then 1 else -1)) GLONASS_GNAV_PREAMBLE).

(** Which of the two blocks. *)
Inductive gnav_band := L1_CA | L2_CA.

Definition band_signal (band : gnav_band) : cstring :=
  match band with L1_CA => str "1G" | L2_CA => str "2G" end.

Definition new_gnav_tlm (band : gnav_band) (satellite : Gnss_Satellite) (conf : Tlm_Conf) : gnav_tlm := {|
  d_preambles_symbols := preamble_samples;
  d_symbol_history := [];
  d_nav := new_Glonass_Gnav_Navigation_Message;
  d_satellite := new_Gnss_Satellite (system satellite) (GnssSignal.PRN satellite);
  d_nav_msg_packet :=
    if enable_navdata_monitor conf then mkNav_Message_Packet (str "R") (band_signal band) 0 0 []
    else mkNav_Message_Packet [] [] 0 0 [];
  d_preamble_time_samples := dzero;
  d_TOW_at_current_symbol := dzero;
  d_sample_counter := 0;
  d_preamble_index := 0;
  d_stat := 0;
  d_CRC_error_counter := 0;
  d_channel := 0;
  d_flag_frame_sync := false;
  d_flag_preamble := false;
  d_enable_navdata_monitor := enable_navdata_monitor conf;
  published := [] |}.

(** ** Control from the channel *)

Definition set_satellite (satellite : Gnss_Satellite) (d : gnav_tlm) : gnav_tlm :=
  d <| d_satellite := new_Gnss_Satellite (system satellite) (GnssSignal.PRN satellite) |>.

Definition set_channel (channel : Z) (d : gnav_tlm) : gnav_tlm := d <| d_channel := channel |>.

(** [inline void reset(){};] *)
Definition reset_gnav_tlm (d : gnav_tlm) : gnav_tlm := d.

(** ** From symbols to bits *)

(** One symbol: the sum of the chip, the symbols in it and the code so far. *)
Definition add_to_chip (s : double * Z * cstring) (symbol : double) : double * Z * cstring :=
  let '(chip_acc, chip_acc_counter, bi_binary_code) := s in
  let chip_acc := dadd chip_acc symbol in
  let chip_acc_counter := chip_acc_counter + 1 in
  if chip_acc_counter =? GLONASS_GNAV_TELEMETRY_SYMBOLS_PER_BIT
  then (dzero, 0, bi_binary_code ++ [bit_char (SFltb dzero chip_acc)])
  else (chip_acc, chip_acc_counter, bi_binary_code).

Definition bi_binary (frame_symbols : list double) : cstring :=
  (foldl add_to_chip (dzero, 0, []) frame_symbols).2.

(** A bit is the pair of chips 1, 0. *)
Definition relative (bi_binary_code : cstring) : cstring :=
  map (fun i => bit_char (Ascii.eqb (vget "0"%char bi_binary_code (2 * i)) "1" &&
                          Ascii.eqb (vget "0"%char bi_binary_code (2 * i + 1)) "0"))
    (seqZ 0 GLONASS_GNAV_STRING_BITS).

(** A data bit is the change from a bit of the relative code to the next. *)
Definition data_bits (relative_code : cstring) : cstring :=
  "0"%char :: map (fun i => bit_char (negb (Ascii.eqb (vget "0"%char relative_code (i - 1))
                                                      (vget "0"%char relative_code i))))
                (seqZ 1 (GLONASS_GNAV_STRING_BITS - 1)).

(** ** Publication *)

Definition keep_nav_message (bits : cstring) (d : gnav_tlm) : gnav_tlm :=
  if d_enable_navdata_monitor d then
    d <| d_nav_msg_packet ::= fun p =>
      mkNav_Message_Packet (packet_system p) (packet_signal p) (packet_prn p)
        (packet_tow_at_current_symbol_ms p) bits |>
  else d.

Definition publish_ephemeris (d : gnav_tlm) : gnav_tlm :=
  let '(new, nav) := have_new_ephemeris (d_nav d) in
  if new : bool then
    let d := d <| d_nav := set_rf_link (rf_link (d_satellite d)) nav |> in
    publish (telemetry_gnav_ephemeris (get_ephemeris (d_nav d))) d
  else d <| d_nav := nav |>.

Definition publish_utc_model (d : gnav_tlm) : gnav_tlm :=
  let '(new, nav) := have_new_utc_model (d_nav d) in
  let d := d <| d_nav := nav |> in
  if new : bool then publish (telemetry_gnav_utc_model (get_utc_model (d_nav d))) d else d.

(** A program on the message decoder of the block. *)
Definition with_nav {A} (c : prog Glonass_Gnav_Navigation_Message A) : prog gnav_tlm A := fun d =>
  let '(o, nav) := c (d_nav d) in (o, d <| d_nav := nav |>).

Definition publish_almanac : prog gnav_tlm unit :=
  new <- with_nav have_new_almanac;;
  if new : bool then
    d <- gets id;;
    a <- lift (get_almanac (get_alm_satellite_slot_number (d_nav d)) (d_nav d));;
    modify (publish (telemetry_gnav_almanac a))
  else ret tt.

(** String 4 tells which satellite is received. *)
Definition update_slot_number (d : gnav_tlm) : gnav_tlm :=
  if get_flag_update_slot_number (d_nav d) then
    let n := d_n (string_4 (get_ephemeris (d_nav d))) in
    let s := update_PRN (u32 n) (d_satellite d) in
    let s := (what_block (system s) (u32 n) s).2 in
    d <| d_satellite := s |> <| d_nav ::= set_flag_update_slot_number false |>
  else d.

Section block.
Context `{Calendar}.

(** The bits of a string to the message decoder, and what is new to the ports. *)
Definition decode_bits (bits : cstring) : prog gnav_tlm unit :=
  modify (keep_nav_message bits);;
  with_nav (string_decoder bits);;
  modify publish_ephemeris;;
  modify publish_utc_model;;
  publish_almanac;;
  modify update_slot_number.

Definition decode_string (frame_symbols : list double) : prog gnav_tlm unit :=
  decode_bits (data_bits (relative (bi_binary frame_symbols))).

(** ** One symbol *)

Definition receive_symbol (g : Gnss_Synchro) (d : gnav_tlm) : gnav_tlm :=
  (d <| d_symbol_history ::= fun h =>
    let h := h ++ [g] in
    drop (Z.to_nat (Z.of_nat (length h) - GLONASS_GNAV_STRING_SYMBOLS)) h |>)
    <| d_sample_counter ::= fun n => u64 (n + 1) |>
    <| d_flag_preamble := false |>.

(** ** Frame synchronisation *)

Definition corr_value (d : gnav_tlm) : Z :=
  if GLONASS_GNAV_PREAMBLE_LENGTH_SYMBOLS <=? Z.of_nat (length (d_symbol_history d))
  then correlation GLONASS_GNAV_PREAMBLE_LENGTH_SYMBOLS (d_preambles_symbols d)
         (map Prompt_I (d_symbol_history d))
  else 0.

Definition preamble_detected (d : gnav_tlm) : bool :=
  GLONASS_GNAV_PREAMBLE_LENGTH_SYMBOLS <=? Z.abs (corr_value d).

(** [static_cast<double>(d_symbol_history[0].Tracking_sample_counter)]. *)
Definition oldest_sample (d : gnav_tlm) : double :=
  match d_symbol_history d with
  | g :: _ => double_of_Z (Tracking_sample_counter g)
  | [] => dzero
  end.

(** [d_stat == 0]: no preamble information. *)
Definition search_preamble (d : gnav_tlm) : gnav_tlm :=
  if preamble_detected d then
    d <| d_preamble_index := d_sample_counter d |> <| d_stat := 1 |>
      <| d_preamble_time_samples := oldest_sample d |>
  else d.

(** [d_stat == 1]: possible preamble lock. *)
Definition confirm_preamble (d : gnav_tlm) : gnav_tlm :=
  if preamble_detected d then
    let preamble_diff := i32 (d_sample_counter d - d_preamble_index d) in
    let d := d <| d_preamble_time_samples := oldest_sample d |> in
    if Z.abs (preamble_diff - GLONASS_GNAV_PREAMBLE_PERIOD_SYMBOLS) =? 0 then
      (publish (preamble_timestamp_samples (d_preamble_time_samples d))
        (d <| d_preamble_index := d_sample_counter d |>)) <| d_stat := 2 |>
    else if GLONASS_GNAV_PREAMBLE_PERIOD_SYMBOLS <? preamble_diff then d <| d_stat := 0 |> else d
  else d.

(** The data symbols of the string in the history, upright. *)
Definition string_symbols (d : gnav_tlm) : list double :=
  map (fun i =>
    let x := vget dzero (map Prompt_I (d_symbol_history d))
               (i + GLONASS_GNAV_PREAMBLE_LENGTH_SYMBOLS) in
    if 0 <? corr_value d then x else SFopp x)
    (seqZ 0 (GLONASS_GNAV_STRING_SYMBOLS - GLONASS_GNAV_PREAMBLE_LENGTH_SYMBOLS)).

Definition good_string (d : gnav_tlm) : gnav_tlm :=
  d <| d_CRC_error_counter := 0 |> <| d_flag_preamble := true |>
    <| d_preamble_index := d_sample_counter d |> <| d_flag_frame_sync := true |>.

Definition CRC_ERROR_LIMIT : Z := 6.

Definition bad_string (d : gnav_tlm) : gnav_tlm :=
  let d := d <| d_CRC_error_counter ::= fun n => i32 (n + 1) |>
             <| d_preamble_index := d_sample_counter d |> in
  if CRC_ERROR_LIMIT <? d_CRC_error_counter d
  then d <| d_flag_frame_sync := false |> <| d_stat := 0 |> else d.

(** [d_stat == 2]: a string ends. *)
Definition end_string : prog gnav_tlm unit :=
  d <- gets id;;
  if d_sample_counter d =? u64 (d_preamble_index d + u64 GLONASS_GNAV_STRING_SYMBOLS) then
    decode_string (string_symbols d);;
    modify (fun d => if get_flag_CRC_test (d_nav d) then good_string d else bad_string d)
  else ret tt.

Definition frame_sync : prog gnav_tlm unit :=
  stat <- gets d_stat;;
  match stat with
  | 0 => modify search_preamble
  | 1 => modify confirm_preamble
  | 2 => end_string
  | _ => ret tt
  end.

(** ** The time of week *)

(** [floor((d_TOW - GLONASS_GNAV_PREAMBLE_DURATION_S) * 1000) / 1000]. *)
Definition preamble_TOW (TOW : double) : double :=
  ddiv (double_of_Z (floor_Z (dmul (dsub TOW GLONASS_GNAV_PREAMBLE_DURATION_S) (double_of_Z 1000))))
    (double_of_Z 1000).

Definition update_tow (d : gnav_tlm) : gnav_tlm :=
  if d_flag_preamble d && get_flag_TOW_new (d_nav d) then
    d <| d_TOW_at_current_symbol := preamble_TOW (d_TOW (get_ephemeris (d_nav d))) |>
      <| d_nav ::= set_flag_TOW_new false |>
  else
    d <| d_TOW_at_current_symbol ::= fun t => dadd t GLONASS_L1_CA_CODE_PERIOD_S |>.

(** ** The output *)

(** [round], of a finite number: halves away from zero. *)
Definition round_Z (x : double) : Z :=
  match x with
  | S754_finite s m e =>
      let n := if 0 <=? e then Zpos m * 2 ^ e else (Zpos m + 2 ^ (- e - 1)) / 2 ^ (- e) in
      if s then - n else n
  | _ => 0
  end.

Definition flag_valid_word (d : gnav_tlm) : bool := d_flag_frame_sync d && is_flag_TOW_set (d_nav d).

(** The navigation message monitor. *)
Definition publish_nav_message (g : Gnss_Synchro) (d : gnav_tlm) : gnav_tlm :=
  let p := d_nav_msg_packet d in
  if d_enable_navdata_monitor d && negb (Nat.eqb (length (nav_message p)) 0) then
    let p := mkNav_Message_Packet (packet_system p) (packet_signal p) (i32 (synchro_PRN g))
               (i32 (TlmDecoder.TOW_at_current_symbol_ms g)) (nav_message p) in
    (publish (gnav_Nav_msg_from_TLM p) d) <| d_nav_msg_packet :=
      mkNav_Message_Packet (packet_system p) (packet_signal p) (packet_prn p)
        (packet_tow_at_current_symbol_ms p) [] |>
  else d.

Definition make_output (g : Gnss_Synchro) : prog gnav_tlm Gnss_Synchro :=
  d <- gets id;;
  tow <- lift (uint32_of_double (round_Z (dmul (d_TOW_at_current_symbol d) (double_of_Z 1000))));;
  let g := g <| synchro_PRN := GnssSignal.PRN (d_satellite d) |>
             <| TlmDecoder.TOW_at_current_symbol_ms := tow |>
             <| TlmDecoder.Flag_valid_word := flag_valid_word d |> in
  (if flag_valid_word d then modify (publish_nav_message g) else ret tt);;
  ret g.

(** ** General work *)

Definition general_work (g : Gnss_Synchro) : prog gnav_tlm Gnss_Synchro :=
  modify (receive_symbol g);;
  frame_sync;;
  modify update_tow;;
  make_output g.

End block.
