(* ===== verification/FloatBounds.v ===== *)
(** * FloatBounds: how far [double] arithmetic is from exact

    For the operations of Float64 on numbers that are not negative: the rounding
    of an exact result is within 2^-53 of it, relatively, or below the smallest
    normal number.  Values are integers here, in units of 2^-2200, far below the
    smallest number that a [double] holds, so that exact products are integers
    as well. *)

From S2P Require Import Prelude Float64.
From stdpp Require Import list.
From Stdlib Require Import ZArith Lia SpecFloat.
Local Open Scope Z_scope.

Definition scale : Z := 2200.

Definition units (x : double) : Z :=
  match x with
  | S754_finite s m e => (if s then -1 else 1) * (Zpos m * 2 ^ (e + scale))
  | _ => 0
  end.

(** A finite number that is not negative. *)
Definition nonneg (x : double) : bool :=
  match x with
  | S754_zero _ => true
  | S754_finite false _ e => (-1074 <=? e) && (e <=? 971)
  | _ => false
  end.

(** The unit of an absolute error. *)
Definition tiny : Z := 2 ^ (scale - 1022).

(** [x] is the value [v], up to rounding. *)
Definition rounds (x : double) (v : Z) : Prop :=
  nonneg x = true /\ Z.abs (units x - v) * 2 ^ 53 <= Z.max v tiny.

(** ** Digits *)

Lemma digits2_bounds p : 2 ^ (Zpos (digits2_pos p) - 1) <= Zpos p < 2 ^ Zpos (digits2_pos p).
Proof.
  induction p as [p IH|p IH|]; cbn [digits2_pos]; [..|cbn; lia];
    rewrite Pos2Z.inj_succ; replace (Z.succ (Zpos (digits2_pos p)) - 1) with (Z.succ (Zpos (digits2_pos p) - 1)) by lia;
    rewrite !Z.pow_succ_r by lia; lia.
Qed.

Lemma digits2_le p k : 0 <= k -> Zpos p < 2 ^ k -> Zpos (digits2_pos p) <= k.
Proof.
  intros Hk Hp. destruct (Z_le_gt_dec (Zpos (digits2_pos p)) k); [assumption|exfalso].
  pose proof (digits2_bounds p). pose proof (Z.pow_le_mono_r 2 k (Zpos (digits2_pos p) - 1)). lia.
Qed.

(** ** Shifting to the right *)

Lemma iter_pos_nat {A} (f : A -> A) p : forall x, iter_pos f p x = Nat.iter (Pos.to_nat p) f x.
Proof.
  induction p as [p IH|p IH|]; intros x; cbn [iter_pos]; [..|reflexivity].
  - rewrite !IH. replace (Pos.to_nat p~1) with (Pos.to_nat p + (Pos.to_nat p + 1))%nat by lia.
    now rewrite !Nat.iter_add.
  - rewrite !IH. replace (Pos.to_nat p~0) with (Pos.to_nat p + Pos.to_nat p)%nat by lia.
    now rewrite !Nat.iter_add.
Qed.

(** [M] after [n] steps to the right. *)
Definition shifted (M n : Z) : shr_record :=
  if n =? 0 then Build_shr_record M false false
  else Build_shr_record (M / 2 ^ n) (Z.odd (M / 2 ^ (n - 1))) (negb (M mod 2 ^ (n - 1) =? 0)).

Lemma shr_1_nonneg M r s : 0 <= M ->
  shr_1 (Build_shr_record M r s) = Build_shr_record (M / 2) (Z.odd M) (r || s).
Proof.
  intros HM. destruct M as [|[p|p|]|p]; try lia; cbn [shr_1 Z.odd]; try reflexivity; f_equal.
  - change (Zpos p~1) with (2 * Zpos p + 1). apply (Z.div_unique _ _ _ 1); lia.
  - change (Zpos p~0) with (2 * Zpos p). apply (Z.div_unique _ _ _ 0); lia.
Qed.

Lemma shifted_step M n : 0 <= M -> 0 <= n -> shr_1 (shifted M n) = shifted M (n + 1).
Proof.
  intros HM Hn. unfold shifted at 2. replace (n + 1 =? 0) with false by lia.
  replace (n + 1 - 1) with n by lia. pose proof (Z.pow_pos_nonneg 2 n ltac:(lia) Hn) as Hp.
  assert (M / 2 ^ (n + 1) = M / 2 ^ n / 2) as Ed
    by (rewrite Z.pow_add_r by lia; symmetry; apply Z.div_div; lia).
  unfold shifted. destruct (Z.eqb_spec n 0) as [->|Hne].
  - rewrite shr_1_nonneg by exact HM. change (2 ^ 0) with 1. rewrite Z.mod_1_r, Z.div_1_r. f_equal.
  - rewrite shr_1_nonneg by (apply Z.div_pos; lia). f_equal; [now symmetry|].
    set (h := 2 ^ (n - 1)). assert (2 ^ n = h * 2) as E2.
    { unfold h. replace n with (n - 1 + 1) at 1 by lia. now rewrite Z.pow_add_r by lia. }
    assert (0 < h) as Hh by (apply Z.pow_pos_nonneg; lia).
    rewrite E2, Z.rem_mul_r by lia. rewrite Zmod_odd.
    pose proof (Z.mod_pos_bound M h Hh). destruct (Z.odd (M / h)); cbn [orb].
    + symmetry. apply negb_true_iff, Z.eqb_neq. lia.
    + f_equal. f_equal. lia.
Qed.

Lemma shifted_iter M p : 0 <= M -> iter_pos shr_1 p (Build_shr_record M false false) = shifted M (Zpos p).
Proof.
  intros HM. rewrite iter_pos_nat. replace (Zpos p) with (Z.of_nat (Pos.to_nat p)) by lia.
  induction (Pos.to_nat p) as [|n IH]; [reflexivity|]. transitivity (shr_1 (shifted M (Z.of_nat n))); [rewrite <- IH; reflexivity|]. rewrite shifted_step by lia.
  f_equal. lia.
Qed.

(** Rounding to nearest is within half a unit. *)
Lemma nearest_close M n : 0 <= M -> 0 < n ->
  let q := round_nearest_even (shr_m (shifted M n)) (loc_of_shr_record (shifted M n)) in
  0 <= q /\ 2 * Z.abs (q * 2 ^ n - M) <= 2 ^ n.
Proof.
  intros HM Hn. unfold shifted. replace (n =? 0) with false by lia. cbn [shr_m loc_of_shr_record].
  set (h := 2 ^ (n - 1)). assert (2 ^ n = h * 2) as E2.
  { unfold h. replace n with (n - 1 + 1) at 1 by lia. now rewrite Z.pow_add_r by lia. }
  assert (0 < h) as Hh by (apply Z.pow_pos_nonneg; lia). rewrite E2, <- Z.div_div by lia.
  pose proof (Z.div_mod M h ltac:(lia)) as EM. pose proof (Z.mod_pos_bound M h Hh) as Hm.
  pose proof (Z.div_mod (M / h) 2 ltac:(lia)) as Ea. rewrite Zmod_odd in Ea.
  pose proof (Z.div_pos M h HM Hh). pose proof (Z.div_pos (M / h) 2 ltac:(lia) ltac:(lia)).
  set (a := M / h / 2) in *. set (l := M mod h) in *. set (b := M / h) in *.
  assert (M = h * 2 * a + h * (if Z.odd b then 1 else 0) + l) as E by (rewrite EM, Ea at 1; ring).
  clearbody a l h. clear EM Ea E2.
  destruct (Z.odd b), (Z.eqb_spec l 0); cbn [negb round_nearest_even]; try destruct (Z.even a); split; nia.
Qed.

(** ** Rounding a number *)

Lemma fexp_eq e : fexp 53 1024 e = Z.max (e - 53) (-1074).
Proof. reflexivity. Qed.

(** A number of at most 53 digits keeps its value. *)
Lemma round_exact p e : Zpos (digits2_pos p) <= 53 -> -1074 <= e <= 971 ->
  binary_round_aux 53 1024 false (Zpos p) e loc_Exact = S754_finite false p e.
Proof.
  intros Hd He. unfold binary_round_aux, shr_fexp. cbn [Zdigits2 shr_record_of_loc]. rewrite !fexp_eq.
  assert (forall z, z <= 0 -> shr (Build_shr_record (Zpos p) false false) e z = (Build_shr_record (Zpos p) false false, e)) as Hs
    by (intros [|z|z] Hz; [reflexivity|lia|reflexivity]).
  rewrite Hs by lia. cbn [shr_m loc_of_shr_record round_nearest_even Zdigits2 shr_record_of_loc].
  rewrite fexp_eq, Hs by lia. cbn [shr_m]. now replace (e <=? 1024 - 53) with true by lia.
Qed.

(** The second adjustment, after a rounding upwards to 2^53. *)
Lemma second_shift q E : 0 <= q <= 2 ^ 53 -> -1074 <= E <= 970 ->
  let '(mrs, e) := shr_fexp 53 1024 q E loc_Exact in
  let x := match shr_m mrs with
           | 0 => S754_zero false
           | Zpos m => if e <=? 1024 - 53 then S754_finite false m e else S754_infinity false
           | Zneg _ => S754_nan
           end in
  nonneg x = true /\ units x = q * 2 ^ (E + scale).
Proof.
  intros Hq HE. unfold shr_fexp. rewrite fexp_eq. destruct (Z.eq_dec q (2 ^ 53)) as [->|Hne].
  - assert (Z.max (Zdigits2 (2 ^ 53) + E - 53) (-1074) - E = 1) as ->
      by (change (Zdigits2 (2 ^ 53)) with 54; lia).
    cbn [shr shr_record_of_loc iter_pos]. change (shr_1 (Build_shr_record (2 ^ 53) false false)) with
      (Build_shr_record (2 ^ 52) false false). cbn [shr_m].
    change (2 ^ 52) with (Zpos 4503599627370496). cbv iota. replace (E + 1 <=? 1024 - 53) with true by lia.
    split; [cbn [nonneg]; lia|]. cbn [units]. change (Zpos 4503599627370496) with (2 ^ 52).
    replace (E + 1 + scale) with (1 + (E + scale)) by lia. unfold scale. rewrite (Z.pow_add_r 2 1) by lia.
    change (2 ^ 53) with (2 ^ 52 * 2). ring.
  - assert (Zdigits2 q <= 53) as Hd.
    { destruct q as [|p|p]; cbn [Zdigits2]; [lia| |lia]. apply digits2_le; lia. }
    assert (shr (shr_record_of_loc q loc_Exact) E (Z.max (Zdigits2 q + E - 53) (-1074) - E) =
      (Build_shr_record q false false, E)) as ->.
    { assert (Z.max (Zdigits2 q + E - 53) (-1074) - E <= 0) as Hz by lia.
      destruct (Z.max (Zdigits2 q + E - 53) (-1074) - E); [reflexivity|lia|reflexivity]. }
    cbn [shr_m]. destruct q as [|p|p]; [split; reflexivity| |lia].
    replace (E <=? 1024 - 53) with true by lia. split; [cbn [nonneg]; lia|]. cbn [units]. ring.
Qed.

Lemma round_aux_close p e : - scale <= e -> Zpos p * 2 ^ (e + scale) <= 2 ^ (900 + scale) ->
  rounds (binary_round_aux 53 1024 false (Zpos p) e loc_Exact) (Zpos p * 2 ^ (e + scale)).
Proof.
  intros He Hv. pose proof (digits2_bounds p) as [Hd1 Hd2].
  set (d := Zpos (digits2_pos p)) in *. assert (1 <= d) as Hd by (unfold d; lia).
  assert (d - 1 + e <= 900) as Hde.
  { assert (2 ^ (d - 1 + (e + scale)) <= 2 ^ (900 + scale)) as H.
    { rewrite Z.pow_add_r by lia. pose proof (Z.pow_pos_nonneg 2 (e + scale)). nia. }
    apply Z.pow_le_mono_r_iff in H; unfold scale in *; lia. }
  set (E := Z.max (d + e - 53) (-1074)). set (n := E - e).
  destruct (Z_le_gt_dec n 0) as [Hn|Hn].
  { rewrite round_exact by (fold d; unfold n, E in Hn; lia). split; [cbn [nonneg]; lia|].
    cbn [units]. rewrite Z.mul_1_l, Z.sub_diag. cbn [Z.abs]. unfold tiny, scale.
    pose proof (Z.pow_pos_nonneg 2 (2200 - 1022)). lia. }
  unfold binary_round_aux at 1. unfold shr_fexp at 1. cbn [Zdigits2 shr_record_of_loc]. fold d.
  rewrite fexp_eq. fold E. fold n.
  assert (shr (Build_shr_record (Zpos p) false false) e n = (shifted (Zpos p) n, E)) as ->.
  { unfold shr. destruct n as [|k|k] eqn:En; [lia| |lia]. rewrite shifted_iter by lia. f_equal. lia. }
  pose proof (nearest_close (Zpos p) n ltac:(lia) ltac:(lia)) as [Hq0 Hq]. cbv zeta in Hq0, Hq.
  set (q := round_nearest_even (shr_m (shifted (Zpos p) n)) (loc_of_shr_record (shifted (Zpos p) n))) in *.
  assert (0 < 2 ^ n) as Hpn by (apply Z.pow_pos_nonneg; lia).
  assert (q <= 2 ^ 53) as Hq53.
  { destruct (Z_le_gt_dec q (2 ^ 53)); [assumption|exfalso].
    assert (2 ^ d <= 2 ^ 53 * 2 ^ n) by (rewrite <- Z.pow_add_r by lia; apply Z.pow_le_mono_r; lia). nia. }
  pose proof (second_shift q E ltac:(lia) ltac:(lia)) as Hs.
  destruct (shr_fexp 53 1024 q E loc_Exact) as [mrs e2]. destruct Hs as [Hs1 Hs2].
  split; [exact Hs1|]. rewrite Hs2.
  replace (E + scale) with (n + (e + scale)) by lia. rewrite Z.pow_add_r by (unfold scale in *; lia).
  assert (0 < 2 ^ (e + scale)) as Hpe by (apply Z.pow_pos_nonneg; lia).
  rewrite Z.mul_assoc, <- Z.mul_sub_distr_r, Z.abs_mul, (Z.abs_eq (2 ^ (e + scale))) by lia.
  assert (2 ^ n = 2 * 2 ^ (n - 1)) as E2 by (rewrite <- Z.pow_succ_r by lia; f_equal; lia).
  assert (Z.abs (q * 2 ^ n - Zpos p) <= 2 ^ (n - 1)) as Hh by lia.
  destruct (Z_le_gt_dec (-1074) (d + e - 53)) as [Hc|Hc].
  - assert (2 ^ (n - 1) * 2 ^ 53 = 2 ^ (d - 1)) as E3 by (rewrite <- Z.pow_add_r by lia; f_equal; lia).
    transitivity (Zpos p * 2 ^ (e + scale)); [|lia].
    transitivity (2 ^ (n - 1) * 2 ^ 53 * 2 ^ (e + scale)); [|rewrite E3; nia].
    nia.
  - assert (2 ^ (n - 1) * 2 ^ 53 * 2 ^ (e + scale) = tiny) as E3.
    { unfold tiny. rewrite <- !Z.pow_add_r by lia. f_equal. lia. }
    transitivity tiny; [|lia]. rewrite <- E3. nia.
Qed.

Lemma shift_left_value p d : Zpos (Pos.iter xO p d) = Zpos p * 2 ^ Zpos d.
Proof.
  induction d as [|d IH] using Pos.peano_ind; [cbn; lia|].
  rewrite Pos.iter_succ, Pos2Z.inj_succ, Z.pow_succ_r by lia. change (Zpos (Pos.iter xO p d)~0) with (2 * Zpos (Pos.iter xO p d)).
  rewrite IH. ring.
Qed.

Lemma shift_left_digits p d : Zpos (digits2_pos (Pos.iter xO p d)) = Zpos (digits2_pos p) + Zpos d.
Proof.
  induction d as [|d IH] using Pos.peano_ind; [cbn [Pos.iter digits2_pos]; lia|].
  rewrite Pos.iter_succ. cbn [digits2_pos]. lia.
Qed.

(** Aligning to a smaller exponent keeps the value. *)
Lemma shl_align_value p e e' : - scale <= e' -> - scale <= e ->
  let '(m, f) := shl_align p e e' in
  Zpos m * 2 ^ (f + scale) = Zpos p * 2 ^ (e + scale) /\ f = Z.min e e' /\
  Zpos (digits2_pos m) + f = Zpos (digits2_pos p) + e.
Proof.
  intros He' He. unfold shl_align. destruct (e' - e) as [|d|d] eqn:E; (split; [|split; [lia|]]); try lia.
  - rewrite shift_left_value, <- Z.mul_assoc, <- Z.pow_add_r by lia. do 2 f_equal. lia.
  - rewrite shift_left_digits. lia.
Qed.

Lemma round_close p e : - scale <= e -> Zpos p * 2 ^ (e + scale) <= 2 ^ (900 + scale) ->
  rounds (binary_round 53 1024 false p e) (Zpos p * 2 ^ (e + scale)).
Proof.
  intros He Hv. unfold binary_round. rewrite fexp_eq.
  pose proof (shl_align_value p e (Z.max (Zpos (digits2_pos p) + e - 53) (-1074)) ltac:(unfold scale; lia) He) as Ha.
  destruct (shl_align p e _) as [m f]. destruct Ha as (Ev & Ef & _). rewrite <- Ev in *.
  apply round_aux_close; [unfold scale in *; lia|exact Hv].
Qed.

Lemma rounds_self x : nonneg x = true -> rounds x (units x).
Proof.
  intros Hx. split; [exact Hx|]. rewrite Z.sub_diag. unfold tiny, scale.
  pose proof (Z.pow_pos_nonneg 2 (2200 - 1022)). cbn [Z.abs]. lia.
Qed.

Lemma units_nonneg x : nonneg x = true -> 0 <= units x.
Proof.
  destruct x as [s|s| |[] m e]; cbn [nonneg units]; intros H; try discriminate; try lia.
Qed.

Lemma units_pos m e : -1074 <= e -> 0 < units (S754_finite false m e).
Proof. intros He. cbn [units]. pose proof (Z.pow_pos_nonneg 2 (e + scale)). unfold scale in *. lia. Qed.

(** Two numbers brought to the smaller exponent. *)
Lemma aligned_value m e f : -1074 <= e -> -1074 <= f -> f <= e ->
  Zpos (fst (shl_align m e f)) * 2 ^ (f + scale) = Zpos m * 2 ^ (e + scale).
Proof.
  intros He Hf Hle. pose proof (shl_align_value m e f ltac:(unfold scale; lia) ltac:(unfold scale; lia)) as H.
  destruct (shl_align m e f) as [k g]. destruct H as (Ev & Ef & _). cbn [fst]. rewrite <- Ev. do 2 f_equal. lia.
Qed.

(** ** Sums and differences *)

Lemma dadd_rounds x y : nonneg x = true -> nonneg y = true -> units x + units y <= 2 ^ (900 + scale) ->
  rounds (dadd x y) (units x + units y).
Proof.
  intros Hx Hy Hs. unfold dadd.
  destruct x as [s|s| |[] m e]; try discriminate; destruct y as [t|t| |[] n f]; try discriminate; cbn [SFadd].
  - destruct s, t; apply (rounds_self (S754_zero _)); reflexivity.
  - apply (rounds_self (S754_finite false n f)). exact Hy.
  - change (units (S754_zero t)) with 0. rewrite Z.add_0_r. apply rounds_self. exact Hx.
  - cbn [nonneg] in Hx, Hy. cbn [cond_Zopp units] in *. rewrite !Z.mul_1_l in *. set (g := Z.min e f).
    rewrite <- (aligned_value m e g), <- (aligned_value n f g), <- Z.mul_add_distr_r in * by lia.
    rewrite <- Pos2Z.inj_add in *. cbn [binary_normalize]. apply round_close; [unfold scale; lia|exact Hs].
Qed.

Lemma dsub_rounds x y : nonneg x = true -> nonneg y = true -> units y <= units x ->
  units x <= 2 ^ (900 + scale) -> rounds (dsub x y) (units x - units y).
Proof.
  intros Hx Hy Hle Hs. pose proof (units_nonneg y Hy) as Hy0. unfold dsub.
  destruct x as [s|s| |[] m e]; try discriminate; destruct y as [t|t| |[] n f]; try discriminate; cbn [SFsub].
  - destruct s, t; apply (rounds_self (S754_zero _)); reflexivity.
  - exfalso. pose proof (units_pos n f ltac:(cbn [nonneg] in Hy; lia)). cbn [units] in *. lia.
  - change (units (S754_zero t)) with 0. rewrite Z.sub_0_r. apply rounds_self. exact Hx.
  - cbn [nonneg] in Hx, Hy. cbn [cond_Zopp units] in *. rewrite !Z.mul_1_l in *. set (g := Z.min e f).
    rewrite <- (aligned_value m e g), <- (aligned_value n f g), <- Z.mul_sub_distr_r in * by lia.
    assert (0 < 2 ^ (g + scale)) as Hg by (apply Z.pow_pos_nonneg; unfold scale; lia).
    destruct (Zpos (fst (shl_align m e g)) - Zpos (fst (shl_align n f g))) as [|k|k] eqn:Ek; [| |nia]; cbn [binary_normalize].
    + apply (rounds_self (S754_zero false)). reflexivity.
    + apply round_close; [unfold scale; lia|]. rewrite <- Ek. nia.
Qed.

(** ** Products *)

Lemma dmul_rounds x y v : nonneg x = true -> nonneg y = true -> v * 2 ^ scale = units x * units y ->
  v <= 2 ^ (900 + scale) -> rounds (dmul x y) v.
Proof.
  intros Hx Hy Ev Hs. assert (0 < 2 ^ scale) as Hp by (apply Z.pow_pos_nonneg; unfold scale; lia). unfold dmul.
  destruct x as [s|s| |[] m e]; try discriminate; destruct y as [t|t| |[] n f]; try discriminate; cbn [SFmul].
  1-3: cbn [units] in Ev; assert (v = 0) as -> by nia; apply (rounds_self (S754_zero _)); reflexivity.
  cbn [nonneg] in Hx, Hy. cbn [xorb]. cbn [units] in Ev. rewrite !Z.mul_1_l in Ev.
  assert (v = Zpos (m * n) * 2 ^ (e + f + scale)) as ->.
  { assert (2 ^ (e + scale) * 2 ^ (f + scale) = 2 ^ (e + f + scale) * 2 ^ scale) as E2
      by (rewrite <- !Z.pow_add_r by (unfold scale; lia); f_equal; lia).
    apply (Z.mul_reg_r _ _ (2 ^ scale)); [lia|]. rewrite Ev, Pos2Z.inj_mul.
    rewrite <- (Z.mul_assoc (Zpos m * Zpos n)), <- E2. ring. }
  apply round_aux_close; [unfold scale; lia|exact Hs].
Qed.

(** ** Integers *)

Lemma double_of_Z_exact n : 0 <= n < 2 ^ 53 -> nonneg (double_of_Z n) = true /\ units (double_of_Z n) = n * 2 ^ scale.
Proof.
  intros Hn. unfold double_of_Z. destruct n as [|p|p]; [split; reflexivity| |lia]. cbn [binary_normalize].
  unfold binary_round. rewrite fexp_eq. pose proof (digits2_le p 53 ltac:(lia) ltac:(lia)) as Hd.
  pose proof (shl_align_value p 0 (Z.max (Zpos (digits2_pos p) + 0 - 53) (-1074)) ltac:(unfold scale; lia) ltac:(unfold scale; lia)) as Ha.
  destruct (shl_align p 0 _) as [m f]. destruct Ha as (Ev & Ef & Ed).
  rewrite round_exact by lia. split; [cbn [nonneg]; lia|]. cbn [units]. now rewrite Z.mul_1_l, Ev.
Qed.

Lemma floor_units x : nonneg x = true -> floor_Z x = units x / 2 ^ scale.
Proof.
  destruct x as [s|s| |[] m e]; cbn [nonneg]; intros H; try discriminate; [reflexivity|].
  cbn [floor_Z units]. rewrite Z.mul_1_l. destruct (Z.leb_spec 0 e).
  - rewrite Z.pow_add_r, Z.mul_assoc, Z.div_mul by (unfold scale; lia || (apply Z.pow_nonzero; lia)). reflexivity.
  - symmetry. replace (2 ^ scale) with (2 ^ (- e) * 2 ^ (e + scale)) by (rewrite <- Z.pow_add_r by (unfold scale; lia); f_equal; lia).
    apply Z.div_mul_cancel_r; apply Z.pow_nonzero; unfold scale; lia.
Qed.

(** ** Quotients, coarsely *)

Lemma shr_iter_m p : forall M r s, 0 <= M ->
  shr_m (Nat.iter p shr_1 (Build_shr_record M r s)) = M / 2 ^ Z.of_nat p.
Proof.
  intros M r s HM. cut (exists r' s', Nat.iter p shr_1 (Build_shr_record M r s) = Build_shr_record (M / 2 ^ Z.of_nat p) r' s').
  { intros (r' & s' & ->). reflexivity. }
  induction p as [|p (r' & s' & IH)].
  - exists r, s. change (2 ^ Z.of_nat 0) with 1. now rewrite Z.div_1_r.
  - change (Nat.iter (S p) shr_1 (Build_shr_record M r s)) with (shr_1 (Nat.iter p shr_1 (Build_shr_record M r s))).
    rewrite IH, shr_1_nonneg by (apply Z.div_pos; lia). rewrite Z.div_div by lia.
    rewrite Nat2Z.inj_succ, Z.pow_succ_r, (Z.mul_comm 2) by lia. eauto.
Qed.

Lemma round_even_bound q l : q <= round_nearest_even q l <= q + 1.
Proof. destruct l as [|[]]; cbn; try destruct (Z.even q); lia. Qed.

Lemma round_aux_bound M e l : 0 <= M -> -1074 <= e -> M * 2 ^ (e + scale) <= 2 ^ (800 + scale) -> e <= 800 ->
  let x := binary_round_aux 53 1024 false M e l in
  nonneg x = true /\ Z.abs (units x - M * 2 ^ (e + scale)) * 2 ^ 52 <= (M + 2 ^ 52) * 2 ^ (e + scale).
Proof.
  intros HM He Hv He8. cbv zeta.
  set (good := fun x => nonneg x = true /\ Z.abs (units x - M * 2 ^ (e + scale)) * 2 ^ 52 <= (M + 2 ^ 52) * 2 ^ (e + scale)).
  change (good (binary_round_aux 53 1024 false M e l)).
  unfold binary_round_aux. unfold shr_fexp at 1. rewrite fexp_eq.
  assert (0 < 2 ^ (e + scale)) as Hpe by (apply Z.pow_pos_nonneg; unfold scale; lia).
  assert (M < 2 ^ Zdigits2 M) as Hd.
  { destruct M as [|p|p]; [cbn; lia|apply digits2_bounds|lia]. }
  assert (0 < M -> 2 ^ (Zdigits2 M - 1) <= M) as Hd'.
  { destruct M as [|p|p]; intros H; try lia. apply digits2_bounds. }
  set (d := Zdigits2 M) in *. set (n := Z.max (d + e - 53) (-1074) - e).
  assert (0 <= d) as Hd0 by (unfold d; destruct M; cbn; lia).
  assert (forall q E, 0 <= q <= 2 ^ 53 -> -1074 <= E <= 970 -> Z.abs (q * 2 ^ (E + scale) - M * 2 ^ (e + scale)) * 2 ^ 52 <= (M + 2 ^ 52) * 2 ^ (e + scale) ->
    good (let '(mrs, e'') := shr_fexp 53 1024 q E loc_Exact in
          match shr_m mrs with
          | 0 => S754_zero false
          | Zpos m => if e'' <=? 1024 - 53 then S754_finite false m e'' else S754_infinity false
          | Zneg _ => S754_nan
          end)) as Hend.
  { intros q E Hq HE Hle. pose proof (second_shift q E Hq HE) as Hs.
    destruct (shr_fexp 53 1024 q E loc_Exact) as [mrs e2]. destruct Hs as [H1 H2]. unfold good.
    split; [exact H1|]. now rewrite H2. }
  assert (shr_m (shr_record_of_loc M l) = M) as Hm by (destruct l as [|[]]; reflexivity).
  destruct (Z_le_gt_dec n 0) as [Hn|Hn].
  - assert (shr (shr_record_of_loc M l) e n = (shr_record_of_loc M l, e)) as ->
      by (destruct n; [reflexivity|lia|reflexivity]).
    rewrite Hm. pose proof (round_even_bound M (loc_of_shr_record (shr_record_of_loc M l))) as Hq.
    assert (2 ^ d <= 2 ^ 53) by (apply Z.pow_le_mono_r; lia).
    apply Hend; [lia|lia|]. rewrite <- Z.mul_sub_distr_r, Z.abs_mul, (Z.abs_eq (2 ^ (e + scale))) by lia. nia.
  - assert (exists mrs, shr (shr_record_of_loc M l) e n = (mrs, e + n) /\ shr_m mrs = M / 2 ^ n) as (mrs & -> & Em).
    { destruct n as [|k|k] eqn:En; [lia| |lia]. eexists. split; [reflexivity|]. rewrite iter_pos_nat.
      destruct (shr_record_of_loc M l) as [M' r s] eqn:Er. cbn [shr_m] in Hm. subst M'.
      rewrite shr_iter_m by exact HM. do 2 f_equal. lia. }
    rewrite Em. pose proof (round_even_bound (M / 2 ^ n) (loc_of_shr_record mrs)) as Hq.
    assert (n = d - 53) as En by lia. assert (0 < 2 ^ n) as Hpn by (apply Z.pow_pos_nonneg; lia).
    assert (0 < M) as HM0.
    { destruct (Z.eq_dec M 0) as [E0|]; [|lia]. unfold d in En. rewrite E0 in En. cbn in En. lia. }
    assert (2 ^ n <= M) as HnM by (transitivity (2 ^ (d - 1)); [apply Z.pow_le_mono_r; lia|auto]).
    assert (M / 2 ^ n < 2 ^ 53) as Hlt.
    { apply Z.div_lt_upper_bound; [lia|]. rewrite <- Z.pow_add_r by lia. replace (n + 53) with d by lia. exact Hd. }
    pose proof (Z.div_pos M (2 ^ n) HM Hpn) as Hp. pose proof (Z.mul_div_le M (2 ^ n) Hpn) as Hle.
    assert (d - 1 <= 800 - e) as Hde.
    { assert (2 ^ (d - 1) * 2 ^ (e + scale) <= 2 ^ (800 + scale)) as H by nia.
      rewrite <- Z.pow_add_r in H by (unfold scale; lia). apply Z.pow_le_mono_r_iff in H; unfold scale in *; lia. }
    apply Hend; [lia|lia|].
    replace (e + n + scale) with (n + (e + scale)) by lia. rewrite Z.pow_add_r by (unfold scale; lia).
    rewrite Z.mul_assoc, <- Z.mul_sub_distr_r, Z.abs_mul, (Z.abs_eq (2 ^ (e + scale))) by lia.
    pose proof (Z.mod_pos_bound M (2 ^ n) Hpn) as Hmod. pose proof (Z.div_mod M (2 ^ n) ltac:(lia)) as HM2.
    assert (Z.abs (round_nearest_even (M / 2 ^ n) (loc_of_shr_record mrs) * 2 ^ n - M) <= 2 ^ n) as Hab by nia.
    assert (2 ^ n * 2 ^ 52 <= M) as Hn52 by (rewrite <- Z.pow_add_r by lia; replace (n + 52) with (d - 1) by lia; auto).
    nia.
Qed.

(** The quotient of an integer by 1000. *)
Lemma ddiv_1000 x : nonneg x = true -> units x <= 2 ^ (40 + scale) ->
  (forall m e, x = S754_finite false m e -> -60 <= e) ->
  nonneg (ddiv x (double_of_Z 1000)) = true /\
  Z.abs (units (ddiv x (double_of_Z 1000)) * 1000 - units x) * 2 ^ 52 <= 4 * units x.
Proof.
  intros Hx Hs He. change (double_of_Z 1000) with (S754_finite false 8796093022208000 (-43)). unfold ddiv.
  destruct x as [s|s| |[] m e]; try discriminate; [split; [reflexivity|cbn; lia]|].
  specialize (He m e eq_refl). cbn [nonneg] in Hx. cbn [SFdiv]. unfold SFdiv_core_binary. rewrite fexp_eq.
  change (Zdigits2 (Zpos 8796093022208000)) with 53. cbn [Zdigits2].
  pose proof (digits2_bounds m) as [Hm1 Hm2]. set (d := Zpos (digits2_pos m)) in *.
  assert (1 <= d) as Hd by (unfold d; lia).
  assert (-60 <= e <= 40 /\ d - 1 + e <= 40) as [Hee Hdm].
  { cbn [units] in Hs. rewrite Z.mul_1_l in Hs. split; [split; [lia|]|].
    - assert (2 ^ (e + scale) <= 2 ^ (40 + scale)) as H by (pose proof (Z.pow_pos_nonneg 2 (e + scale)); nia).
      apply Z.pow_le_mono_r_iff in H; unfold scale in *; lia.
    - assert (2 ^ (d - 1 + (e + scale)) <= 2 ^ (40 + scale)) as H.
      { rewrite Z.pow_add_r by (unfold scale; lia). pose proof (Z.pow_pos_nonneg 2 (e + scale)). nia. }
      apply Z.pow_le_mono_r_iff in H; unfold scale in *; lia. }
  set (e' := Z.min _ _). set (k := e - -43 - e').
  assert (-1074 <= e' <= -20) as He' by (unfold e'; lia).
  assert (53 - d + 53 <= k) as Hk by (unfold k, e'; lia). assert (0 <= k) as Hk0 by (unfold k, e'; lia).
  assert (match k with Zpos _ => Z.shiftl (Zpos m) k | 0 => Zpos m | Zneg _ => 0 end = Zpos m * 2 ^ k) as ->.
  { destruct k as [|j|j] eqn:Ek; [lia|apply Z.shiftl_mul_pow2; lia|lia]. }
  pose proof (Z_div_mod_full (Zpos m * 2 ^ k) (Zpos 8796093022208000) ltac:(lia)) as Hdiv.
  destruct (Z.div_eucl (Zpos m * 2 ^ k) (Zpos 8796093022208000)) as [q r]. destruct Hdiv as [Eq Hr].
  assert (0 <= r < Zpos 8796093022208000) as Hr' by (destruct Hr; lia).
  assert (0 < 2 ^ k) as Hpk by (apply Z.pow_pos_nonneg; lia).
  assert (0 < 2 ^ (e' + scale)) as Hpe by (apply Z.pow_pos_nonneg; unfold scale; lia).
  assert (2 ^ 105 <= Zpos m * 2 ^ k) as Hbig.
  { transitivity (2 ^ (d - 1) * 2 ^ k); [|nia]. rewrite <- Z.pow_add_r by lia. apply Z.pow_le_mono_r; lia. }
  change (Zpos 8796093022208000) with (1000 * 2 ^ 43) in *.
  assert (2 ^ 52 <= q) as Hq by nia.
  cbn [units] in *. rewrite Z.mul_1_l in *.
  assert (Zpos m * 2 ^ k * 2 ^ (e' + scale) = Zpos m * 2 ^ (e + scale) * 2 ^ 43) as Ev.
  { rewrite <- !Z.mul_assoc, <- !Z.pow_add_r by (unfold scale; lia). do 2 f_equal. lia. }
  rewrite Eq in Ev. set (P := 2 ^ (e' + scale)) in *. set (X := Zpos m * 2 ^ (e + scale)) in *.
  assert (q * 1000 * P <= X < (q * 1000 + 1000) * P) as [Hlo Hhi] by nia.
  destruct (round_aux_bound q e' (new_location (1000 * 2 ^ 43) r) ltac:(lia) ltac:(lia)) as [H1 H2].
  - fold P. transitivity (2 ^ (40 + scale)); [nia|]. apply Z.pow_le_mono_r; lia.
  - lia.
  - fold P in H2. cbn [xorb]. split; [exact H1|].
    set (u := units (binary_round_aux 53 1024 false q e' (new_location (1000 * 2 ^ 43) r))) in *.
    clearbody u P X. clear Eq Ev Hs Hr Hr' Hbig Hm1 Hm2 Hee Hdm. assert (2 ^ 52 * P <= q * P) by nia.
    assert (Z.abs (u - q * P) * 2 ^ 52 <= 2 * (q * P)) as H3 by lia.
    assert (Z.abs (u * 1000 - q * 1000 * P) * 2 ^ 52 <= 2 * (q * 1000 * P)) as H4 by lia. lia.
Qed.

(** ** Signed numbers *)

Definition finite (x : double) : bool :=
  match x with
  | S754_zero _ => true
  | S754_finite _ _ e => (-1074 <=? e) && (e <=? 971)
  | _ => false
  end.

(** [x] is the value [v], up to rounding. *)
Definition rounds_signed (x : double) (v : Z) : Prop :=
  finite x = true /\ Z.abs (units x - v) * 2 ^ 53 <= Z.max (Z.abs v) tiny.

Lemma units_opp x : units (SFopp x) = - units x.
Proof. destruct x as [s|s| |s m e]; try reflexivity. cbn [SFopp units]. destruct s; cbn [negb]; lia. Qed.

Lemma finite_nonneg x : finite x = true -> 0 <= units x -> nonneg x = true.
Proof.
  destruct x as [s|s| |[] m e]; cbn [finite nonneg units]; intros Hf Hu; try exact Hf.
  exfalso. pose proof (Z.pow_pos_nonneg 2 (e + scale)). unfold scale in *. lia.
Qed.

Lemma nonneg_finite x : nonneg x = true -> finite x = true.
Proof. destruct x as [s|s| |[] m e]; cbn [nonneg finite]; intros H; try exact H; discriminate. Qed.

Lemma rounds_opp x v : 0 <= v -> rounds x v -> rounds_signed (SFopp x) (- v).
Proof.
  intros Hv [H1 H2]. split; [destruct x as [s|s| |[] m e]; exact H1 || discriminate|].
  rewrite units_opp. replace (- units x - - v) with (- (units x - v)) by lia. rewrite !Z.abs_opp. lia.
Qed.

Lemma rounds_pos x v : 0 <= v -> rounds x v -> rounds_signed x v.
Proof. intros Hv [H1 H2]. split; [now apply nonneg_finite|]. rewrite (Z.abs_eq v) by exact Hv. exact H2. Qed.

Lemma round_aux_sign m e l : binary_round_aux 53 1024 true m e l = SFopp (binary_round_aux 53 1024 false m e l).
Proof.
  unfold binary_round_aux. destruct (shr_fexp 53 1024 m e l) as [mrs e1].
  destruct (shr_fexp 53 1024 _ e1 loc_Exact) as [mrs2 e2]. destruct (shr_m mrs2); try reflexivity.
  now destruct (e2 <=? 1024 - 53).
Qed.

Lemma normalize_signed n e : - scale <= e -> Z.abs n * 2 ^ (e + scale) <= 2 ^ (900 + scale) ->
  rounds_signed (binary_normalize 53 1024 n e false) (n * 2 ^ (e + scale)).
Proof.
  intros He Hn. destruct n as [|p|p]; cbn [binary_normalize].
  - split; [reflexivity|]. cbn [units Z.mul Z.sub Z.opp Z.abs]. unfold tiny. pose proof (Z.pow_nonneg 2 (scale - 1022)). lia.
  - apply rounds_pos; [pose proof (Z.pow_nonneg 2 (e + scale)); lia|]. now apply round_close.
  - assert (binary_round 53 1024 true p e = SFopp (binary_round 53 1024 false p e)) as ->.
    { unfold binary_round. destruct (shl_align p e _) as [m f]. apply round_aux_sign. }
    change (Z.neg p * 2 ^ (e + scale)) with (- (Zpos p) * 2 ^ (e + scale)). rewrite Z.mul_opp_l.
    apply rounds_opp; [pose proof (Z.pow_nonneg 2 (e + scale)); lia|]. now apply round_close.
Qed.

Lemma dadd_signed x y : finite x = true -> finite y = true -> Z.abs (units x) + Z.abs (units y) <= 2 ^ (900 + scale) ->
  rounds_signed (dadd x y) (units x + units y).
Proof.
  intros Hx Hy Hs.
  assert (forall z, finite z = true -> rounds_signed z (units z)) as Hself.
  { intros z Hz. split; [exact Hz|]. rewrite Z.sub_diag. cbn [Z.abs Z.mul]. unfold tiny. pose proof (Z.pow_nonneg 2 (scale - 1022)). lia. }
  unfold dadd. destruct x as [s|s| |s m e]; try discriminate; destruct y as [t|t| |t n f]; try discriminate; cbn [SFadd].
  - destruct s, t; apply (Hself (S754_zero _)); reflexivity.
  - change (units (S754_zero s)) with 0. rewrite Z.add_0_l. apply Hself. exact Hy.
  - change (units (S754_zero t)) with 0. rewrite Z.add_0_r. apply Hself. exact Hx.
  - cbn [finite] in Hx, Hy. set (g := Z.min e f).
    set (M := Z.add (cond_Zopp s _) (cond_Zopp t _)).
    assert (units (S754_finite s m e) + units (S754_finite t n f) = M * 2 ^ (g + scale)) as E.
    { unfold M. cbn [units]. rewrite <- (aligned_value m e g), <- (aligned_value n f g) by lia.
      destruct s, t; cbn [cond_Zopp]; ring. }
    rewrite E. apply normalize_signed; [unfold scale; lia|].
    rewrite <- (Z.abs_eq (2 ^ (g + scale))) at 1 by (apply Z.pow_nonneg; lia). rewrite <- Z.abs_mul, <- E. lia.
Qed.

Lemma dmul_signed x y v : finite x = true -> finite y = true -> v * 2 ^ scale = units x * units y ->
  Z.abs v <= 2 ^ (900 + scale) -> rounds_signed (dmul x y) v.
Proof.
  intros Hx Hy Ev Hs. assert (0 < 2 ^ scale) as Hp by (apply Z.pow_pos_nonneg; unfold scale; lia).
  assert (forall b, rounds_signed (S754_zero b) 0) as Hz.
  { intros b. split; [reflexivity|]. cbn [units Z.sub Z.opp Z.abs Z.mul]. unfold tiny. pose proof (Z.pow_nonneg 2 (scale - 1022)). lia. }
  unfold dmul. destruct x as [s|s| |s m e]; try discriminate; destruct y as [t|t| |t n f]; try discriminate; cbn [SFmul].
  1-3: cbn [units] in Ev; assert (v = 0) as -> by nia; apply Hz.
  cbn [finite] in Hx, Hy.
  set (w := Zpos (m * n) * 2 ^ (e + f + scale)).
  assert (w * 2 ^ scale = Zpos m * 2 ^ (e + scale) * (Zpos n * 2 ^ (f + scale))) as Ew.
  { assert (2 ^ (e + scale) * 2 ^ (f + scale) = 2 ^ (e + f + scale) * 2 ^ scale) as E2
      by (rewrite <- !Z.pow_add_r by (unfold scale; lia); f_equal; lia).
    unfold w. rewrite Pos2Z.inj_mul, <- (Z.mul_assoc (Zpos m * Zpos n)), <- E2. ring. }
  assert (0 <= w) as Hw by (unfold w; pose proof (Z.pow_nonneg 2 (e + f + scale)); lia).
  assert (v = if xorb s t then - w else w) as Evw.
  { apply (Z.mul_reg_r _ _ (2 ^ scale)); [lia|]. rewrite Ev. cbn [units].
    destruct s, t; cbn [xorb]; rewrite ?Z.mul_opp_l, ?Ew; ring. }
  assert (rounds (binary_round_aux 53 1024 false (Zpos (m * n)) (e + f) loc_Exact) w) as Hr.
  { apply round_aux_close; [unfold scale; lia|]. fold w. destruct (xorb s t); lia. }
  rewrite Evw. destruct (xorb s t); [rewrite round_aux_sign; now apply rounds_opp|now apply rounds_pos].
Qed.

Lemma double_of_Z_signed n : - 2 ^ 53 < n < 2 ^ 53 ->
  finite (double_of_Z n) = true /\ units (double_of_Z n) = n * 2 ^ scale.
Proof.
  intros Hn. destruct (Z_le_gt_dec 0 n) as [H|H].
  - destruct (double_of_Z_exact n ltac:(lia)) as [H1 H2]. split; [now apply nonneg_finite|exact H2].
  - destruct (double_of_Z_exact (- n) ltac:(lia)) as [H1 H2].
    assert (double_of_Z n = SFopp (double_of_Z (- n))) as ->.
    { destruct n as [|p|p]; try lia. unfold double_of_Z. change (- Z.neg p) with (Z.pos p). cbn [binary_normalize]. unfold binary_round.
      destruct (shl_align p 0 _) as [m f]. apply round_aux_sign. }
    split; [destruct (double_of_Z (- n)) as [s|s| |[] m e]; exact H1 || discriminate|].
    rewrite units_opp, H2. ring.
Qed.
