(* ===== verification/GnavTime.v ===== *)
(** * GnavTime: GLONASS time and the time of week of the symbols

    [glot_to_gpst] of GnavMessage gives the GPS week and the time of week of a
    frame exactly.  The time of week that the block then counts symbol by symbol
    in a [double] is the exact number of milliseconds for more than an hour of
    symbols, and never leaves the range of its type. *)

From S2P Require Import Prelude Cstring Float64 FloatBounds MathConstants GnssSignal InavTables TlmDecoder GnavTables GnavMessage GnavTlm.
From stdpp Require Import list.
From Stdlib Require Import ZArith Lia SpecFloat.
Local Open Scope Z_scope.

(** ** Dates *)

(** The day of a date of the Gregorian calendar, counted from an old one: the
    documented meaning of Boost's dates. *)
Definition gregorian_day (year month day : Z) : Z :=
  let a := (14 - month) / 12 in
  let y := year + 4800 - a in
  let m := month + 12 * a - 3 in
  day + (153 * m + 2) / 5 + 365 * y + y / 4 - y / 100 + y / 400 - 32045.

Class Gregorian `{Calendar} : Prop :=
  day_of_date : forall year month day, 1400 <= year <= 9999 -> 1 <= month <= 12 -> 1 <= day <= 31 ->
    day_number year month day = gregorian_day year month day.

Section dates.
Context `{Gregorian}.

(** The leap seconds of the table are between 1 and 18. *)
Lemma leap_seconds_range utc_time leap :
  leap_seconds GLONASS_LEAP_SECONDS utc_time = Some leap -> 1 <= leap <= 18.
Proof.
  assert (forall table, forallb (fun l => (1 <=? Z.abs (snd l)) && (Z.abs (snd l) <=? 18)) table = true ->
    leap_seconds table utc_time = Some leap -> 1 <= leap <= 18) as H1; [|now apply H1].
  induction table as [|l table IH]; intros Ht E; [discriminate|].
  cbn [forallb] in Ht. apply andb_true_iff in Ht as [Hl Ht]. cbn [leap_seconds] in E.
  destruct (leap_time l <=? utc_time); [injection E as <-; lia|now apply IH].
Qed.

Lemma leap_seconds_found utc_time : gregorian_day 1981 7 1 * 86400 <= utc_time ->
  exists leap, leap_seconds GLONASS_LEAP_SECONDS utc_time = Some leap.
Proof.
  intros Hu. assert (forall table, (exists l, In l table /\ leap_time l <= utc_time) ->
    exists leap, leap_seconds table utc_time = Some leap) as H1.
  { induction table as [|l table IH]; intros (x & Hx & Hle); [destruct Hx|]. cbn [leap_seconds].
    destruct (Z.leb_spec (leap_time l) utc_time); [eauto|]. destruct Hx as [->|Hx]; [lia|eauto]. }
  apply H1. exists (1981, 7, 1, 0, 0, 0, -1). split.
  - unfold GLONASS_LEAP_SECONDS. do 17 right. now left.
  - unfold leap_time. rewrite day_of_date by lia. lia.
Qed.

(** ** The GPS time of a GLONASS time *)

(** Seconds of GPS time. *)
Definition gps_seconds (e : Glonass_Gnav_Ephemeris) (tod_offset leap : Z) : Z :=
  glot_utc_time e tod_offset + leap - gregorian_day 1980 1 6 * 86400.

(** The times of frames are multiples of 30 s. *)
Lemma glot_to_gpst_exact e tod_offset leap c1 c2 : tod_offset mod 30 = 10 ->
  leap_seconds GLONASS_LEAP_SECONDS (glot_utc_time e tod_offset) = Some leap ->
  let t := gps_seconds e tod_offset leap in
  glot_to_gpst e tod_offset c1 c2 =
    Returns (i32 (t / 604800), dadd (double_of_Z (t mod 604800)) (dadd c1 c2)) /\
  11 <= t mod 604800 < 604800.
Proof.
  intros Ht El. pose proof (leap_seconds_range _ _ El) as Hl. cbv zeta. unfold glot_to_gpst. cbv zeta. rewrite El.
  rewrite day_of_date by lia. unfold gps_seconds.
  assert (glot_utc_time e tod_offset mod 30 = 10) as Hu.
  { unfold glot_utc_time. cbv zeta. set (D := day_number _ _ _ + _).
    replace (D * 86400 + (tod_offset - 3 * 3600)) with (tod_offset + (D * 2880 - 360) * 30) by ring.
    now rewrite Z.mod_add by lia. }
  set (u := glot_utc_time e tod_offset) in *. set (E := gregorian_day 1980 1 6). clearbody u E.
  pose proof (Z.div_mod u 86400 ltac:(lia)) as Ed. pose proof (Z.mod_pos_bound u 86400 ltac:(lia)) as Hm.
  set (D := u / 86400) in *. set (s := u mod 86400) in *. clearbody D s.
  assert (s mod 30 = 10) as Hs.
  { rewrite <- Hu, Ed. replace (86400 * D + s) with (s + (2880 * D) * 30) by ring. now rewrite Z.mod_add by lia. }
  assert (s <= 86380) as Hs2 by (pose proof (Z.div_mod s 30 ltac:(lia)); lia).
  assert ((u + leap) mod 86400 = s + leap) as Eg by (symmetry; apply (Z.mod_unique _ _ D); lia).
  assert ((D - E) * 86400 + (u + leap) mod 86400 = u + leap - E * 86400) as -> by (rewrite Eg; lia).
  split.
  - rewrite (Z.mod_eq _ 604800) by lia. reflexivity.
  - set (t := u + leap - E * 86400). assert (t mod 30 = 10 + leap) as Ht30.
    { unfold t. rewrite Ed. replace (86400 * D + s + leap - E * 86400) with (s + leap + (2880 * D - 2880 * E) * 30) by ring.
      rewrite Z.mod_add by lia. pose proof (Z.div_mod s 30 ltac:(lia)) as E30.
      symmetry. apply (Z.mod_unique _ _ (s / 30)); lia. }
    pose proof (Z.mod_pos_bound t 604800 ltac:(lia)) as Hb. split; [|lia].
    assert (t mod 604800 mod 30 = 10 + leap) as H30.
    { rewrite <- Ht30. apply Z.mod_mod_divide. exists 20160. reflexivity. }
    pose proof (Z.div_mod (t mod 604800) 30 ltac:(lia)). pose proof (Z.div_pos (t mod 604800) 30). lia.
Qed.
End dates.

(** ** Milliseconds in a [double] of seconds *)

Definition ms_unit : Z := 2 ^ (scale - 53).

(** [x] seconds are [n] milliseconds, within [b] units of 2^-53 ms. *)
Definition close_ms (x : double) (n b : Z) : Prop :=
  nonneg x = true /\ Z.abs (units x * 1000 - n * 2 ^ scale) <= b * ms_unit.

(** What one addition may add to the error. *)
Definition tick_error : Z := 1000 * 2 ^ 20 + 1.

Lemma scale_units : 2 ^ scale = 2 ^ 53 * ms_unit /\ 0 < ms_unit.
Proof. split; [|apply Z.pow_pos_nonneg; unfold scale; lia]. unfold ms_unit. rewrite <- Z.pow_add_r by (unfold scale; lia). reflexivity. Qed.

Lemma tiny_small : tiny <= ms_unit.
Proof. unfold tiny, ms_unit. apply Z.pow_le_mono_r; unfold scale; lia. Qed.

Lemma huge_range : 2 ^ 40 * 2 ^ scale <= 2 ^ (900 + scale).
Proof. rewrite <- Z.pow_add_r by (unfold scale; lia). apply Z.pow_le_mono_r; lia. Qed.

Lemma period_units : nonneg GLONASS_L1_CA_CODE_PERIOD_S = true /\
  Z.abs (units GLONASS_L1_CA_CODE_PERIOD_S * 1000 - 2 ^ scale) <= ms_unit.
Proof. split; [reflexivity|]. apply Z.leb_le. vm_compute. reflexivity. Qed.

Lemma tick x n b : 0 <= n <= 10 ^ 9 -> 0 <= b <= 2 ^ 52 -> close_ms x n b ->
  close_ms (dadd x GLONASS_L1_CA_CODE_PERIOD_S) (n + 1) (b + tick_error).
Proof.
  intros Hn Hb [Hx Hc]. destruct period_units as [Hp Hu]. destruct scale_units as [Es Hm].
  pose proof tiny_small as Ht. pose proof huge_range as Hh. pose proof (units_nonneg x Hx) as Hx0.
  set (u := units GLONASS_L1_CA_CODE_PERIOD_S) in *. rewrite Es in *.
  assert (units x + u <= 2 ^ 20 * (2 ^ 53 * ms_unit)) as Hv by (clear Hh; clearbody u; generalize dependent ms_unit; intros; nia).
  destruct (dadd_rounds x GLONASS_L1_CA_CODE_PERIOD_S Hx Hp) as [Hr1 Hr2]; [fold u; lia|]. fold u in Hr2.
  split; [exact Hr1|]. set (y := dadd x GLONASS_L1_CA_CODE_PERIOD_S) in *. clearbody y. unfold tick_error. rewrite Es.
  assert (Z.abs (units y - (units x + u)) <= 2 ^ 20 * ms_unit) as Hd by lia.
  lia.
Qed.

Lemma round_units x : nonneg x = true -> round_Z x = (units x + 2 ^ (scale - 1)) / 2 ^ scale.
Proof.
  destruct x as [s|s| |[] m e]; cbn [nonneg]; intros H; try discriminate; [reflexivity|].
  cbn [round_Z units]. rewrite Z.mul_1_l. destruct (Z.leb_spec 0 e).
  - rewrite Z.pow_add_r, Z.mul_assoc, Z.div_add_l by (unfold scale; lia || (apply Z.pow_nonzero; lia)).
    rewrite Z.div_small; [lia|]. split; [apply Z.pow_nonneg; lia|apply Z.pow_lt_mono_r; unfold scale; lia].
  - symmetry. replace (2 ^ scale) with (2 ^ (- e) * 2 ^ (e + scale)) by (rewrite <- Z.pow_add_r by (unfold scale; lia); f_equal; lia).
    replace (2 ^ (scale - 1)) with (2 ^ (- e - 1) * 2 ^ (e + scale)) by (rewrite <- Z.pow_add_r by (unfold scale; lia); f_equal; lia).
    rewrite <- Z.mul_add_distr_r. apply Z.div_mul_cancel_r; apply Z.pow_nonzero; unfold scale; lia.
Qed.

Lemma thousand : nonneg (double_of_Z 1000) = true /\ units (double_of_Z 1000) = 1000 * 2 ^ scale.
Proof. apply double_of_Z_exact. lia. Qed.

Lemma times_1000 x : nonneg x = true -> units x <= 2 ^ 23 * 2 ^ scale ->
  rounds (dmul x (double_of_Z 1000)) (units x * 1000).
Proof.
  intros Hx Hs. destruct thousand as [Ht Hu]. pose proof huge_range as Hh. pose proof (units_nonneg x Hx).
  apply dmul_rounds; [exact Hx|exact Ht|rewrite Hu; ring|].
  assert (0 < 2 ^ scale) by (apply Z.pow_pos_nonneg; unfold scale; lia). nia.
Qed.

(** The milliseconds that the block announces. *)
Lemma announced_ms x n b : 0 <= n <= 10 ^ 9 + 1 -> 0 <= b < 2 ^ 52 - 2 ^ 31 -> close_ms x n b ->
  round_Z (dmul x (double_of_Z 1000)) = n.
Proof.
  intros Hn Hb [Hx Hc]. destruct scale_units as [Es Hm]. pose proof tiny_small as Ht.
  assert (units x * 1000 <= 2 ^ 31 * 2 ^ scale) as Hv by (rewrite Es in *; nia).
  destruct (times_1000 x Hx) as [H1 H2]; [lia|]. rewrite round_units by exact H1.
  set (y := dmul x (double_of_Z 1000)) in *. clearbody y.
  assert (2 ^ (scale - 1) = 2 ^ 52 * ms_unit) as Eh
    by (unfold ms_unit; rewrite <- Z.pow_add_r by (unfold scale; lia); reflexivity).
  rewrite Eh, Es in *. pose proof (units_nonneg x Hx).
  assert (Z.abs (units y - units x * 1000) <= 2 ^ 31 * ms_unit) as Hd by lia.
  symmetry. apply (Z.div_unique _ _ _ (units y + 2 ^ 52 * ms_unit - 2 ^ 53 * ms_unit * n)); [left|ring].
  assert (b * ms_unit <= (2 ^ 52 - 2 ^ 31 - 1) * ms_unit) by (apply Z.mul_le_mono_nonneg_r; lia). lia.
Qed.

(** ** The range of the time of week *)

(** [x] is at most [v] thousandths of a second. *)
Definition at_most_ms (v : Z) (x : double) : Prop := nonneg x = true /\ units x * 1000 <= v * 2 ^ scale.

Lemma tick_range x v : at_most_ms v x -> 0 <= v <= 2 ^ 32 -> at_most_ms (v + 2) (dadd x GLONASS_L1_CA_CODE_PERIOD_S).
Proof.
  intros [Hx Hv] Hr. destruct period_units as [Hp Hu]. destruct scale_units as [Es Hm].
  pose proof tiny_small as Ht. pose proof huge_range as Hh. pose proof (units_nonneg x Hx) as Hx0.
  set (u := units GLONASS_L1_CA_CODE_PERIOD_S) in *. rewrite Es in *.
  assert (units x + u <= 2 ^ 33 * (2 ^ 53 * ms_unit)) as Hs by (clear Hh; clearbody u; generalize dependent ms_unit; intros; nia).
  destruct (dadd_rounds x GLONASS_L1_CA_CODE_PERIOD_S Hx Hp) as [Hr1 Hr2]; [fold u; lia|]. fold u in Hr2.
  split; [exact Hr1|]. set (y := dadd x GLONASS_L1_CA_CODE_PERIOD_S) in *. clearbody y. rewrite Es.
  assert (Z.abs (units y - (units x + u)) <= 2 ^ 33 * ms_unit) as Hd by lia. lia.
Qed.

Lemma at_most_fits x v : at_most_ms v x -> v <= 2 ^ 32 - 2 ^ 10 ->
  uint32_of_double (round_Z (dmul x (double_of_Z 1000))) = Returns (round_Z (dmul x (double_of_Z 1000))).
Proof.
  intros [Hx Hv] Hr. destruct scale_units as [Es Hm]. pose proof tiny_small as Ht. pose proof (units_nonneg x Hx) as Hx0.
  destruct (times_1000 x Hx) as [H1 H2]; [rewrite Es in *; nia|]. unfold uint32_of_double. rewrite round_units by exact H1.
  set (y := dmul x (double_of_Z 1000)) in *. pose proof (units_nonneg y H1) as Hy. clearbody y.
  assert (0 <= 2 ^ (scale - 1) <= 2 ^ scale) as Hh.
  { split; [apply Z.pow_nonneg; lia|apply Z.pow_le_mono_r; unfold scale; lia]. }
  assert ((units y + 2 ^ (scale - 1)) / 2 ^ scale < 2 ^ 32) as Hlt.
  { apply Z.div_lt_upper_bound; [lia|]. rewrite Es in *. nia. }
  assert (0 <= (units y + 2 ^ (scale - 1)) / 2 ^ scale) as Hge by (apply Z.div_pos; lia).
  apply Z.leb_le in Hge. apply Z.ltb_lt in Hlt. now rewrite Hge, Hlt.
Qed.

(** ** The time of week at the time mark *)

Lemma double_of_Z_form n m e : 0 <= n < 2 ^ 53 -> double_of_Z n = S754_finite false m e -> -60 <= e.
Proof.
  intros Hn. unfold double_of_Z. destruct n as [|p|p]; [discriminate| |lia]. cbn [binary_normalize].
  unfold binary_round. rewrite fexp_eq. pose proof (digits2_le p 53 ltac:(lia) ltac:(lia)) as Hd.
  pose proof (shl_align_value p 0 (Z.max (Zpos (digits2_pos p) + 0 - 53) (-1074)) ltac:(unfold scale; lia) ltac:(unfold scale; lia)) as Ha.
  destruct (shl_align p 0 _) as [k f]. destruct Ha as (_ & Ef & Ed). rewrite round_exact by lia.
  intros [= _ <-]. lia.
Qed.

Lemma preamble_TOW_range x s : nonneg x = true -> 0 <= s <= 2 ^ 20 ->
  units GLONASS_GNAV_PREAMBLE_DURATION_S <= units x <= s * 2 ^ scale ->
  at_most_ms (2000 * s + 2 ^ 10) (preamble_TOW x).
Proof.
  intros Hx Hs [Hlo Hhi]. destruct scale_units as [Es Hm]. pose proof tiny_small as Ht. pose proof huge_range as Hh.
  assert (nonneg GLONASS_GNAV_PREAMBLE_DURATION_S = true) as Hp by reflexivity.
  pose proof (units_nonneg _ Hp) as Hp0.
  destruct (dsub_rounds x GLONASS_GNAV_PREAMBLE_DURATION_S Hx Hp Hlo) as [H1 H2].
  { etransitivity; [exact Hhi|]. etransitivity; [|exact Hh]. apply Z.mul_le_mono_nonneg_r; lia. }
  unfold preamble_TOW. set (y := dsub x GLONASS_GNAV_PREAMBLE_DURATION_S) in *. clearbody y.
  set (u := units GLONASS_GNAV_PREAMBLE_DURATION_S) in *. clearbody u. pose proof (units_nonneg y H1) as Hy0.
  assert (s * 2 ^ scale <= 2 ^ 20 * 2 ^ scale) as Hss by (apply Z.mul_le_mono_nonneg_r; lia).
  assert (units y <= s * 2 ^ scale + ms_unit * 2 ^ 20) as Hy by (rewrite Es in *; lia).
  destruct (times_1000 y H1) as [H3 H4]; [rewrite Es in *; lia|].
  set (z := dmul y (double_of_Z 1000)) in *. clearbody z. pose proof (units_nonneg z H3) as Hz0.
  assert (units z <= (1000 * s + 1) * 2 ^ scale) as Hz by (rewrite Es in *; lia).
  rewrite floor_units by exact H3. set (n := units z / 2 ^ scale).
  assert (0 <= n <= 1000 * s + 1) as Hn.
  { split; [apply Z.div_pos; lia|apply Z.div_le_upper_bound; lia]. }
  clearbody n. destruct (double_of_Z_exact n ltac:(lia)) as [H5 H6].
  destruct (ddiv_1000 (double_of_Z n) H5) as [H7 H8].
  - rewrite H6, Z.pow_add_r by (unfold scale; lia). apply Z.mul_le_mono_nonneg_r; lia.
  - intros m e E. eapply double_of_Z_form; [|exact E]. lia.
  - split; [exact H7|]. rewrite H6 in H8. assert (n * 2 ^ scale <= (1000 * s + 1) * 2 ^ scale) by (apply Z.mul_le_mono_nonneg_r; lia).
    lia.
Qed.

(** The corrections that string 5 carries are of a second at most. *)
Lemma scaled_range a (c : double) (w v : Z) : - 2 ^ w < a < 2 ^ w -> 0 <= w <= 40 -> finite c = true ->
  units c = 2 ^ (scale - v) -> w <= v <= 60 ->
  finite (dmul (double_of_Z a) c) = true /\ Z.abs (units (dmul (double_of_Z a) c)) <= 2 * 2 ^ scale.
Proof.
  intros Ha Hw Hc Eu Hv. assert (2 ^ w <= 2 ^ 40) as Hw40 by (apply Z.pow_le_mono_r; lia).
  destruct (double_of_Z_signed a ltac:(lia)) as [H1 H2].
  destruct scale_units as [Es Hm]. pose proof tiny_small as Ht. pose proof huge_range as Hh.
  assert (2 ^ w * 2 ^ (scale - v) <= 2 ^ scale) as Hp.
  { rewrite <- Z.pow_add_r by (unfold scale; lia). apply Z.pow_le_mono_r; lia. }
  assert (0 < 2 ^ (scale - v)) as Hq by (apply Z.pow_pos_nonneg; unfold scale; lia).
  assert (Z.abs (a * 2 ^ (scale - v)) <= 2 ^ scale) as Hav by (rewrite Z.abs_mul, (Z.abs_eq (2 ^ (scale - v))) by lia; nia).
  destruct (dmul_signed (double_of_Z a) c (a * 2 ^ (scale - v)) H1 Hc) as [H3 H4].
  - rewrite H2, Eu. ring.
  - lia.
  - split; [exact H3|]. rewrite Es in *. lia.
Qed.

Lemma corrected_TOW_fits sec a b : 11 <= sec < 604800 -> - 2 ^ 31 < a < 2 ^ 31 -> - 2 ^ 21 < b < 2 ^ 21 ->
  at_most_ms (2 ^ 31) (preamble_TOW (dadd (double_of_Z sec)
    (dadd (dmul (double_of_Z a) TWO_N31) (dmul (double_of_Z b) TWO_N30)))).
Proof.
  intros Hs Ha Hb.
  destruct (scaled_range a TWO_N31 31 31 Ha) as [A1 A2]; [lia|reflexivity|vm_compute; reflexivity|lia|].
  destruct (scaled_range b TWO_N30 21 30 Hb) as [B1 B2]; [lia|reflexivity|vm_compute; reflexivity|lia|].
  destruct scale_units as [Es Hm]. pose proof tiny_small as Ht. pose proof huge_range as Hh.
  set (x := dmul (double_of_Z a) TWO_N31) in *. set (y := dmul (double_of_Z b) TWO_N30) in *. clearbody x y.
  destruct (dadd_signed x y A1 B1) as [C1 C2]; [lia|].
  assert (Z.abs (units (dadd x y)) <= 5 * 2 ^ scale) as C3 by (rewrite Es in *; lia).
  set (z := dadd x y) in *. clearbody z.
  destruct (double_of_Z_signed sec ltac:(lia)) as [S1 S2].
  assert (sec * 2 ^ scale <= 604799 * 2 ^ scale) as S3 by (apply Z.mul_le_mono_nonneg_r; lia).
  assert (11 * 2 ^ scale <= sec * 2 ^ scale) as S4 by (apply Z.mul_le_mono_nonneg_r; lia).
  destruct (dadd_signed (double_of_Z sec) z S1 C1) as [D1 D2]; [rewrite S2; lia|]. rewrite S2 in D2.
  set (t := dadd (double_of_Z sec) z) in *. clearbody t.
  assert (5 * 2 ^ scale <= units t <= 604810 * 2 ^ scale) as Ht2 by (rewrite Es in *; lia).
  assert (units GLONASS_GNAV_PREAMBLE_DURATION_S <= 2 ^ scale) as Hp by (apply Z.leb_le; vm_compute; reflexivity).
  destruct (preamble_TOW_range t 604810) as [P1 P2].
  - apply finite_nonneg; [exact D1|lia].
  - lia.
  - lia.
  - split; [exact P1|]. lia.
Qed.

(** ** Counting from the time mark *)

Lemma mark_ms N : 0 <= N <= 10 ^ 9 -> close_ms (ddiv (double_of_Z N) (double_of_Z 1000)) N (8 * N).
Proof.
  intros HN. destruct (double_of_Z_exact N ltac:(lia)) as [H1 H2]. destruct scale_units as [Es Hm].
  destruct (ddiv_1000 (double_of_Z N) H1) as [H3 H4].
  - rewrite H2, Z.pow_add_r by (unfold scale; lia). apply Z.mul_le_mono_nonneg_r; lia.
  - intros m e E. eapply double_of_Z_form; [|exact E]. lia.
  - split; [exact H3|]. rewrite H2, Es in *. lia.
Qed.
