(* ===== verification/GnavHamming.v ===== *)
(** * GnavHamming: the Hamming code of the GLONASS strings

    The checksums of [CRC_test] are linear in the bits of the string: the
    syndrome of a sum of errors is the sum of their columns.  So a string that
    satisfies all of them is accepted, as is one whose only error is in its
    first seven check bits, which no field reads; any other error of one bit,
    and every error of two bits, is rejected. *)

From S2P Require Import Prelude Cstring Float64 MathConstants InavTables InavWords GnavTables GnavMessage.
From stdpp Require Import list.
From Stdlib Require Import ZArith Lia Bool.
Local Open Scope Z_scope.
Local Open Scope cxx_scope.

(** ** Parities *)

Section parity.
(** The bits of a string, by their index from 0. *)
Implicit Types f g : Z -> bool.

Definition parity (index : list Z) f : bool :=
  foldr (fun i p => xorb (f (i - 1)) p) false index.

Lemma parity_cons i index f : parity (i :: index) f = xorb (f (i - 1)) (parity index f).
Proof. reflexivity. Qed.

Lemma parity_xor index f g :
  parity index (fun i => xorb (f i) (g i)) = xorb (parity index f) (parity index g).
Proof.
  induction index as [|i index IH]; [reflexivity|]. rewrite !parity_cons, IH.
  now destruct (f (i - 1)), (g (i - 1)), (parity index f), (parity index g).
Qed.

Lemma parity_ext index f g : (forall i, In i index -> f (i - 1) = g (i - 1)) ->
  parity index f = parity index g.
Proof.
  intros E. induction index as [|i index IH]; [reflexivity|]. rewrite !parity_cons.
  rewrite IH by (intros; apply E; now right). now rewrite E by now left.
Qed.

(** The seven checksums and the overall one. *)
Definition check_sets : list (list Z) :=
  [1 :: GLONASS_GNAV_CRC_I_INDEX; 2 :: GLONASS_GNAV_CRC_J_INDEX; 3 :: GLONASS_GNAV_CRC_K_INDEX;
   4 :: GLONASS_GNAV_CRC_L_INDEX; 5 :: GLONASS_GNAV_CRC_M_INDEX; 6 :: GLONASS_GNAV_CRC_N_INDEX;
   7 :: GLONASS_GNAV_CRC_P_INDEX].
Definition overall_set : list Z := seqZ 1 8 ++ GLONASS_GNAV_CRC_Q_INDEX.

Definition syndrome f : list bool * bool := (map (fun s => parity s f) check_sets, parity overall_set f).

(** The syndromes [CRC_test] accepts. *)
Definition accepted (s : list bool * bool) : bool :=
  let failed := length (List.filter id s.1) in
  (Nat.eqb failed 0 && negb s.2) || (s.2 && Nat.eqb failed 1).

Definition xor_syndromes (s t : list bool * bool) : list bool * bool :=
  (zip_with xorb s.1 t.1, xorb s.2 t.2).

Lemma syndrome_xor f g :
  syndrome (fun i => xorb (f i) (g i)) = xor_syndromes (syndrome f) (syndrome g).
Proof. unfold syndrome, xor_syndromes. cbn [fst snd check_sets map zip_with]. now rewrite !parity_xor. Qed.
End parity.

(** ** The checksums of the code are these parities *)

Lemma u32_mod_2 x : u32 x mod 2 = x mod 2.
Proof. unfold wrap. apply Z.mod_mod_divide. exists (2 ^ 31). reflexivity. Qed.

Lemma b2z_xor_mod b x : (Z.b2z b + x) mod 2 = Z.b2z (xorb b (Z.odd x)).
Proof.
  rewrite Zmod_odd, Z.odd_add. destruct b; cbn; now destruct (Z.odd x).
Qed.

Lemma sum_bits_parity index bits :
  sum_bits index bits mod 2 = Z.b2z (parity index (vget false bits)).
Proof.
  unfold sum_bits. transitivity (Z.b2z (xorb (Z.odd 0) (parity index (vget false bits)))); [|reflexivity].
  generalize 0 as s. induction index as [|i index IH]; intros s.
  - cbn. rewrite Zmod_odd. now destruct (Z.odd s).
  - cbn [foldl]. rewrite IH, parity_cons. f_equal.
    assert (Z.odd (u32 (s + Z.b2z (vget false bits (i - 1)))) = xorb (Z.odd s) (vget false bits (i - 1))) as ->.
    { assert (forall x, Z.odd (u32 x) = Z.odd x) as Eo.
      { intros x. pose proof (u32_mod_2 x) as E. rewrite !Zmod_odd in E.
        destruct (Z.odd (u32 x)), (Z.odd x); congruence. }
      rewrite Eo, Z.odd_add. now destruct (vget false bits (i - 1)). }
    now rewrite xorb_assoc.
Qed.

Lemma checksum_parity index k bits :
  checksum index k bits = Z.b2z (parity (Z.succ k :: index) (vget false bits)).
Proof.
  unfold checksum. rewrite sum_bits_parity, parity_cons.
  replace (Z.succ k - 1) with k by lia.
  now destruct (vget false bits k), (parity index (vget false bits)).
Qed.

Lemma checksums_parity bits :
  checksums bits = map Z.b2z (map (fun s => parity s (vget false bits)) check_sets).
Proof. unfold checksums. now rewrite !checksum_parity. Qed.

Lemma C_Sigma_parity bits : C_Sigma bits = Z.b2z (parity overall_set (vget false bits)).
Proof.
  unfold C_Sigma. rewrite sum_bits_parity.
  assert (sum_hamming bits mod 2 = Z.b2z (parity (seqZ 1 8) (vget false bits))) as ->.
  { unfold sum_hamming. change (seqZ 1 8) with [1; 2; 3; 4; 5; 6; 7; 8]. unfold for_range.
    change (seqZ 0 (8 - 0)) with [0; 1; 2; 3; 4; 5; 6; 7]. cbn [fold_left].
    change (parity [1; 2; 3; 4; 5; 6; 7; 8] (vget false bits)) with
      (foldr xorb false (map (vget false bits) [0; 1; 2; 3; 4; 5; 6; 7])). cbn [map foldr].
    destruct (vget false bits 0), (vget false bits 1), (vget false bits 2), (vget false bits 3),
      (vget false bits 4), (vget false bits 5), (vget false bits 6), (vget false bits 7); reflexivity. }
  unfold overall_set. assert (forall a b f, parity (a ++ b) f = xorb (parity a f) (parity b f)) as ->.
  { intros a b f. unfold parity. induction a as [|i a IH]; cbn; [now destruct (foldr _ _ b)|].
    now rewrite IH, xorb_assoc. }
  now destruct (parity (seqZ 1 8) _), (parity GLONASS_GNAV_CRC_Q_INDEX _).
Qed.

Lemma CRC_test_syndrome bits : CRC_test bits = accepted (syndrome (vget false bits)).
Proof.
  unfold CRC_test. rewrite C_Sigma_parity, checksums_parity.
  change (syndrome (vget false bits)) with
    (map (fun s => parity s (vget false bits)) check_sets, parity overall_set (vget false bits)).
  generalize (parity overall_set (vget false bits)) as s.
  assert (length (map (fun s => parity s (vget false bits)) check_sets) = 7%nat) as Hl by reflexivity.
  revert Hl. generalize (map (fun s => parity s (vget false bits)) check_sets) as bs. intros bs Hl s.
  do 7 (destruct bs as [|[] bs]; [discriminate|..]; cbn in Hl); destruct bs; try discriminate;
    now destruct s.
Qed.

(** ** Errors *)

(** The string with its bit [i] inverted. *)
Definition invert_bit (i : Z) (bits : bitset) : bitset := vset bits i (negb (vget false bits i)).

Lemma vget_flip i bits j : in_range bits i ->
  vget false (invert_bit i bits) j = xorb (vget false bits j) (j =? i).
Proof.
  intros Hi. unfold invert_bit. destruct (Z.eqb_spec j i) as [->|Hne].
  - rewrite vget_vset_eq by exact Hi. now destruct (vget false bits i).
  - rewrite vget_vset_ne by congruence. now destruct (vget false bits j).
Qed.

Lemma length_flip i bits : length (invert_bit i bits) = length bits.
Proof. apply length_vset. Qed.

(** The syndrome of an error in one bit. *)
Definition column (i : Z) : list bool * bool := syndrome (fun j => j =? i).

Lemma syndrome_ext f g : (forall j, f j = g j) -> syndrome f = syndrome g.
Proof.
  intros E. unfold syndrome. f_equal; [apply map_ext; intros s|]; apply parity_ext; intros; apply E.
Qed.

Lemma syndrome_flip i bits : in_range bits i ->
  syndrome (vget false (invert_bit i bits)) = xor_syndromes (syndrome (vget false bits)) (column i).
Proof.
  intros Hi. unfold column. rewrite <- syndrome_xor. apply syndrome_ext. intros j. now apply vget_flip.
Qed.

(** A string that satisfies every check. *)
Definition code_word (bits : bitset) : Prop :=
  length bits = Z.to_nat GLONASS_GNAV_STRING_BITS /\
  checksums bits = replicate 7 0 /\ C_Sigma bits = 0.

Definition no_error : list bool * bool := (replicate 7 false, false).

Lemma code_word_syndrome bits : code_word bits -> syndrome (vget false bits) = no_error.
Proof.
  intros (_ & Hc & Hs). rewrite checksums_parity in Hc. rewrite C_Sigma_parity in Hs.
  unfold syndrome, no_error. f_equal.
  - assert (Inj (=) (=) Z.b2z) by (now intros [] []). apply (inj (fmap Z.b2z)). exact Hc.
  - now destruct (parity overall_set (vget false bits)).
Qed.

Lemma syndrome_code_word bits : length bits = Z.to_nat GLONASS_GNAV_STRING_BITS ->
  syndrome (vget false bits) = no_error -> code_word bits.
Proof.
  intros Hl E. split; [exact Hl|]. rewrite checksums_parity, C_Sigma_parity.
  apply pair_equal_spec in E as [Hc Hs]. rewrite Hs. split; [|reflexivity].
  transitivity (map Z.b2z (replicate 7 false)); [f_equal; exact Hc|reflexivity].
Qed.

(** The columns of the code, tried out. *)
Lemma single_columns : forallb (fun i => Bool.eqb (accepted (xor_syndromes no_error (column i))) (i <? 7))
  (seqZ 0 85) = true.
Proof. vm_compute. reflexivity. Qed.

Lemma double_columns : forallb (fun i => forallb (fun j =>
    negb (accepted (xor_syndromes (xor_syndromes no_error (column j)) (column i)))) (seqZ (i + 1) (84 - i)))
  (seqZ 0 85) = true.
Proof. vm_compute. reflexivity. Qed.

Lemma in_seqZ x m n : m <= x < m + n -> In x (seqZ m n).
Proof. intros H. apply list_elem_of_In, elem_of_seqZ. exact H. Qed.

Lemma single_error bits i : code_word bits -> 0 <= i < 85 -> CRC_test (invert_bit i bits) = (i <? 7).
Proof.
  intros Hc Hi. assert (in_range bits i) as Hr by (unfold in_range; rewrite (proj1 Hc); unfold GLONASS_GNAV_STRING_BITS; lia).
  rewrite CRC_test_syndrome, syndrome_flip, (code_word_syndrome bits Hc) by exact Hr.
  pose proof single_columns as H. rewrite forallb_forall in H.
  apply eqb_prop, H, in_seqZ. lia.
Qed.

Lemma double_error bits i j : code_word bits -> 0 <= i < j -> j < 85 ->
  CRC_test (invert_bit i (invert_bit j bits)) = false.
Proof.
  intros Hc Hi Hj. assert (length bits = 85%nat) as Hl by (now rewrite (proj1 Hc)).
  rewrite CRC_test_syndrome, !syndrome_flip, (code_word_syndrome bits Hc)
    by (unfold in_range; rewrite ?length_flip, Hl; lia).
  pose proof double_columns as H. rewrite forallb_forall in H.
  specialize (H i (in_seqZ i 0 85 ltac:(lia))). rewrite forallb_forall in H.
  apply negb_true_iff, H, in_seqZ. lia.
Qed.

Lemma code_word_accepted bits : code_word bits -> CRC_test bits = true.
Proof. intros Hc. now rewrite CRC_test_syndrome, (code_word_syndrome bits Hc). Qed.

(** ** The check bits are not read *)

(** Two strings that differ at most in their check bits. *)
Definition same_data (a b : bitset) : Prop := forall j, 8 <= j -> vget false a j = vget false b j.

(** The fields end before the check bits. *)
Definition before_check (p : bit_field) : bool := forallb (fun '(first, len) => first + len <=? 78) p.

Lemma flip_same_data i bits : 0 <= i < 8 -> in_range bits i -> same_data (invert_bit i bits) bits.
Proof. intros Hi Hr j Hj. rewrite vget_flip by exact Hr. replace (j =? i) with false by lia. apply xorb_false_r. Qed.

Section same_data.
Context (a b : bitset) (E : same_data a b).

Lemma slices_same {St} (p : bit_field) (step : bool -> St -> St) s : before_check p = true ->
  for_slices p (fun first j => step (vget false a (GLONASS_GNAV_STRING_BITS - first - j))) s =
  for_slices p (fun first j => step (vget false b (GLONASS_GNAV_STRING_BITS - first - j))) s.
Proof.
  unfold for_slices. revert s. induction p as [|[first len] p IH]; intros s Hp; [reflexivity|].
  cbn [before_check forallb] in Hp. apply andb_true_iff in Hp as [H1 H2]. cbn [fold_left].
  rewrite IH by exact H2. f_equal. apply for_range_ext. intros j t Hj. rewrite E; [reflexivity|].
  unfold GLONASS_GNAV_STRING_BITS. lia.
Qed.

Lemma read_unsigned_same p : before_check p = true -> gnav_read_unsigned a p = gnav_read_unsigned b p.
Proof.
  apply (slices_same p (fun x value => let value := u64 (Z.shiftl value 1) in if x then u64 (value + 1) else value)).
Qed.

Lemma read_bool_same p : first_bit p <= 77 -> gnav_read_bool a p = gnav_read_bool b p.
Proof. intros H. apply E. unfold GLONASS_GNAV_STRING_BITS. lia. Qed.

Lemma read_signed_same p : before_check p = true -> first_bit p <= 77 ->
  gnav_read_signed a p = gnav_read_signed b p.
Proof.
  intros Hp Hf. unfold gnav_read_signed. cbv zeta.
  rewrite (E (GLONASS_GNAV_STRING_BITS - first_bit p)) by (unfold GLONASS_GNAV_STRING_BITS; lia).
  do 2 f_equal. generalize 0 as s. clear Hf. induction p as [|[first len] p IH]; intros s; [reflexivity|].
  cbn [before_check forallb] in Hp. apply andb_true_iff in Hp as [H1 H2]. cbn [fold_left].
  rewrite IH by exact H2. f_equal. apply for_range_ext. intros j t Hj. rewrite E; [reflexivity|].
  unfold GLONASS_GNAV_STRING_BITS. lia.
Qed.

(** Every field of a string, one after the other. *)
Ltac same_fields :=
  repeat first
    [ rewrite read_unsigned_same by reflexivity
    | rewrite read_signed_same by (reflexivity || (vm_compute; discriminate))
    | rewrite read_bool_same by (vm_compute; discriminate) ];
  reflexivity.

Lemma string_1_same : read_string_1 a = read_string_1 b.
Proof. unfold read_string_1. same_fields. Qed.
Lemma string_2_same : read_string_2 a = read_string_2 b.
Proof. unfold read_string_2. same_fields. Qed.
Lemma string_3_same : read_string_3 a = read_string_3 b.
Proof. unfold read_string_3. same_fields. Qed.
Lemma string_4_same : read_string_4 a = read_string_4 b.
Proof. unfold read_string_4. same_fields. Qed.
Lemma string_5_same : store_string_5 a = store_string_5 b.
Proof. unfold store_string_5. same_fields. Qed.
Lemma even_same : read_almanac_even a = read_almanac_even b.
Proof. unfold read_almanac_even. same_fields. Qed.
Lemma odd_same : read_almanac_odd a = read_almanac_odd b.
Proof. unfold read_almanac_odd. same_fields. Qed.
Lemma store_odd_same : store_almanac_odd a = store_almanac_odd b.
Proof. unfold store_almanac_odd. now rewrite odd_same. Qed.

Lemma decode_even_same k : decode_almanac_even k a = decode_almanac_even k b.
Proof. unfold decode_almanac_even. rewrite even_same. same_fields. Qed.
Lemma decode_odd_same k : decode_almanac_odd k a = decode_almanac_odd k b.
Proof. unfold decode_almanac_odd. now rewrite store_odd_same. Qed.

Lemma decode_same `{Calendar} string_ID : decode_by_ID string_ID a = decode_by_ID string_ID b.
Proof.
  unfold decode_by_ID, decode_string_1, decode_string_2, decode_string_3, decode_string_4,
    decode_string_5, decode_string_14, decode_string_15.
  rewrite string_1_same, string_2_same, string_3_same, string_4_same, string_5_same.
  rewrite (read_unsigned_same B1), (read_unsigned_same B2) by reflexivity.
  now rewrite !decode_even_same, !decode_odd_same.
Qed.
End same_data.

(** A received string, from its bits in the order received. *)
Lemma string_decoder_bits `{Calendar} bs m : length bs = Z.to_nat GLONASS_GNAV_STRING_BITS ->
  string_decoder (bits_str bs) m =
  (modify (fun m => m <| flag_CRC_test := CRC_test (rev bs) |>);;
   crc_ok <- gets flag_CRC_test;;
   if negb crc_ok then ret 0 else
   modify (fun m => m <| d_string_ID := u32 (gnav_read_unsigned (rev bs) STRING_ID) |>);;
   string_ID <- gets d_string_ID;;
   known <- decode_by_ID string_ID (rev bs);;
   ret (if known : bool then i32 string_ID else 0)) (m <| d_frame_ID := 0 |>).
Proof.
  intros Hl. unfold string_decoder. rewrite run_modify. unfold lift at 1. unfold bind at 1.
  now rewrite bitset_of_bits by exact Hl.
Qed.

(** An error in one of the first seven check bits changes nothing. *)
Lemma check_bit_harmless `{Calendar} bs i m : code_word (rev bs) -> 0 <= i < 7 ->
  string_decoder (bits_str (rev (invert_bit i (rev bs)))) m = string_decoder (bits_str bs) m.
Proof.
  intros Hc Hi. assert (length bs = 85%nat) as Hl by (rewrite <- length_rev; apply Hc).
  assert (same_data (invert_bit i (rev bs)) (rev bs)) as Hs.
  { apply flip_same_data; [lia|]. unfold in_range. rewrite length_rev, Hl. lia. }
  rewrite !string_decoder_bits by (rewrite ?length_rev, ?length_flip, ?length_rev; exact Hl).
  rewrite rev_involutive, (single_error (rev bs) i Hc) by lia.
  rewrite (code_word_accepted (rev bs) Hc). replace (i <? 7) with true by lia.
  rewrite (read_unsigned_same _ _ Hs STRING_ID) by reflexivity.
  rewrite !run_modify, !run_gets.
  change (flag_CRC_test (_ <| flag_CRC_test := true |>)) with true. cbn [negb]. rewrite !run_modify, !run_gets.
  now rewrite (decode_same _ _ Hs).
Qed.
