(* ===== verification/GnavCode.v ===== *)
(** * GnavCode: the strings as the satellite sends them

    The transmitter's side of the GLONASS strings: the check bits, the relative
    code, the bi-binary code and the time mark.  What [bi_binary], [relative] and
    [data_bits] of GnavTlm recover from the symbols is the string sent, whichever
    the polarity; and the time mark is found at the beginning of the strings and
    nowhere else, since no data looks like it. *)

From S2P Require Import Prelude Cstring Float64 GnssSignal InavTables InavWords Viterbi TlmDecoder GnavTables GnavMessage GnavTlm GnavHamming.
From stdpp Require Import list.
From Stdlib Require Import ZArith Lia Bool Ascii SpecFloat.
Local Open Scope Z_scope.

(** ** The check bits *)

(** The eight check bits, the first one first, of the 77 bits before them. *)
Definition check_bits (data : list bool) : list bool :=
  let s := syndrome (vget false (replicate 8 false ++ rev data)) in
  s.1 ++ [xorb s.2 (foldr xorb false s.1)].

Definition add_check_bits (data : list bool) : list bool := data ++ rev (check_bits data).

Lemma check_bits_length data : length (check_bits data) = 8%nat.
Proof. reflexivity. Qed.

Lemma vget_app {A} (d : A) (a b : list A) i : 0 <= i ->
  vget d (a ++ b) i = if i <? Z.of_nat (length a) then vget d a i else vget d b (i - Z.of_nat (length a)).
Proof.
  intros Hi. unfold vget. destruct (Z.ltb_spec i 0); [lia|].
  destruct (Z.ltb_spec i (Z.of_nat (length a))).
  - apply app_nth1. lia.
  - destruct (Z.ltb_spec (i - Z.of_nat (length a)) 0); [lia|].
    rewrite app_nth2 by lia. f_equal. lia.
Qed.

Lemma vget_out {A} (d : A) (l : list A) i : Z.of_nat (length l) <= i -> vget d l i = d.
Proof. intros Hi. unfold vget. destruct (i <? 0); [reflexivity|]. apply nth_overflow. lia. Qed.

(** The check bits are their own syndrome. *)
Lemma syndrome_of_check_bits (s : list bool) b : length s = 7%nat ->
  syndrome (vget false (s ++ [xorb b (foldr xorb false s)])) = (s, b).
Proof.
  intros Hl. do 7 (destruct s as [|[] s]; [discriminate|..]; cbn in Hl); destruct s; try discriminate;
    destruct b; vm_compute; reflexivity.
Qed.

Lemma syndrome_pointwise f g : (forall j, 0 <= j -> f j = g j) -> syndrome f = syndrome g.
Proof.
  intros E. unfold syndrome. f_equal; [apply map_ext_in; intros s Hs|]; apply parity_ext; intros i Hi; apply E.
  - assert (forallb (fun s => forallb (fun i => 0 <=? i - 1) s) check_sets = true) as H by reflexivity.
    rewrite forallb_forall in H. specialize (H s Hs). rewrite forallb_forall in H. specialize (H i Hi). lia.
  - assert (forallb (fun i => 0 <=? i - 1) overall_set = true) as H by reflexivity.
    rewrite forallb_forall in H. specialize (H i Hi). lia.
Qed.

Lemma add_check_bits_length data : length data = 77%nat -> length (add_check_bits data) = 85%nat.
Proof. intros Hl. unfold add_check_bits. rewrite length_app, length_rev, Hl. reflexivity. Qed.

Lemma add_check_bits_word data : length data = 77%nat -> code_word (rev (add_check_bits data)).
Proof.
  intros Hl. apply syndrome_code_word.
  { now rewrite length_rev, add_check_bits_length by exact Hl. }
  unfold add_check_bits. rewrite rev_app_distr, rev_involutive.
  set (base := replicate 8 false ++ rev data).
  rewrite (syndrome_pointwise _ (fun j => xorb (vget false base j) (vget false (check_bits data) j))).
  - rewrite syndrome_xor. unfold check_bits. fold base. cbv zeta.
    rewrite (syndrome_of_check_bits (syndrome (vget false base)).1) by reflexivity.
    destruct (syndrome (vget false base)) as [s b] eqn:Es. unfold xor_syndromes, no_error. cbn [fst snd].
    rewrite xorb_nilpotent. f_equal.
    assert (length s = 7%nat) as H7 by (apply (f_equal fst) in Es; cbn [fst] in Es; now rewrite <- Es).
    clear -H7. do 7 (destruct s as [|[] s]; [discriminate|..]; cbn in H7); now destruct s.
  - intros j Hj. unfold base. rewrite !vget_app, check_bits_length, length_replicate by exact Hj.
    rewrite vget_replicate. change (Z.of_nat 8) with 8. destruct (Z.ltb_spec j 8).
    + reflexivity.
    + rewrite (vget_out false (check_bits data)) by (rewrite check_bits_length; lia).
      now rewrite xorb_false_r.
Qed.

(** ** The relative and bi-binary codes *)

(** Each bit of the relative code is the one before it, changed by a data bit of
    1.  [r] is the state of the encoder. *)
Fixpoint relative_code (r : bool) (bits : list bool) : list bool :=
  match bits with
  | [] => []
  | a :: bits => xorb r a :: relative_code (xorb r a) bits
  end.

Definition bi_binary_chips (rel : list bool) : list bool := concat (map (fun r => [r; negb r]) rel).

Definition mark : list bool := map (Z.eqb 1) GLONASS_GNAV_PREAMBLE.

(** A string is sent with its time mark before it: 200 chips. *)
Definition string_chips (r : bool) (bits : list bool) : list bool :=
  mark ++ bi_binary_chips (relative_code r bits).

(** ** Received symbols *)

Definition upright (inverted : bool) (x : double) : double := if inverted then SFopp x else x.

(** Ten symbols received for a chip: each has its sign, and so has their sum. *)
Record heard_chip (inverted c : bool) (gs : list Gnss_Synchro) : Prop := {
  hc_length : length gs = 10%nat;
  hc_signs : Forall (fun g => SFltb (Prompt_I g) dzero = xorb inverted (negb c)) gs;
  hc_sum : SFltb dzero (foldl dadd dzero (map (fun g => upright inverted (Prompt_I g)) gs)) = c
}.

Lemma relative_code_length bits : forall r, length (relative_code r bits) = length bits.
Proof. induction bits as [|a bits IH]; intros r; cbn; [reflexivity|]. now rewrite IH. Qed.

Lemma bi_binary_length rel : length (bi_binary_chips rel) = (2 * length rel)%nat.
Proof. apply concat_length_const. apply Forall_true. reflexivity. Qed.

Lemma string_chips_length r bits : length bits = 85%nat -> length (string_chips r bits) = 200%nat.
Proof.
  intros Hl. unfold string_chips. rewrite length_app, bi_binary_length, relative_code_length, Hl. reflexivity.
Qed.

(** ** Ten symbols make a chip *)

Lemma chip_part xs : forall acc k code, 0 <= k -> k + Z.of_nat (length xs) < 10 ->
  foldl add_to_chip (acc, k, code) xs = (foldl dadd acc xs, k + Z.of_nat (length xs), code).
Proof.
  induction xs as [|x xs IH]; intros acc k code Hk Hl; cbn [foldl length].
  - now rewrite Z.add_0_r.
  - cbn [length] in Hl. unfold add_to_chip at 2. unfold GLONASS_GNAV_TELEMETRY_SYMBOLS_PER_BIT.
    replace (k + 1 =? 10) with false by lia. rewrite IH by lia. f_equal. f_equal. lia.
Qed.

Lemma one_chip xs code : length xs = 10%nat ->
  foldl add_to_chip (dzero, 0, code) xs = (dzero, 0, code ++ [bit_char (SFltb dzero (foldl dadd dzero xs))]).
Proof.
  intros Hl. destruct xs as [|y ys] using rev_ind; [discriminate|]. clear IHys.
  rewrite length_app in Hl. cbn in Hl. rewrite !foldl_app, chip_part by lia. cbn [foldl].
  unfold add_to_chip, GLONASS_GNAV_TELEMETRY_SYMBOLS_PER_BIT.
  now replace (0 + Z.of_nat (length ys) + 1 =? 10) with true by lia.
Qed.

Lemma chips_heard inverted chips groups : Forall2 (heard_chip inverted) chips groups ->
  bi_binary (map (fun g => upright inverted (Prompt_I g)) (concat groups)) = bits_str chips.
Proof.
  intros Hh. unfold bi_binary.
  assert (forall code, (foldl add_to_chip (dzero, 0, code)
    (map (fun g => upright inverted (Prompt_I g)) (concat groups))).2 = code ++ bits_str chips) as H; [|apply H].
  induction Hh as [|c gs chips groups [Hl _ Hs] _ IH]; intros code; cbn [concat map].
  - cbn. now rewrite app_nil_r.
  - rewrite map_app, foldl_app, one_chip by (rewrite length_map; exact Hl). rewrite IH, Hs.
    now rewrite <- app_assoc.
Qed.

(** ** From chips to data bits *)

Lemma vget_bits_str bs i : vget "0"%char (bits_str bs) i = bit_char (vget false bs i).
Proof.
  unfold vget. destruct (i <? 0); [reflexivity|]. unfold bits_str.
  exact (map_nth bit_char bs false (Z.to_nat i)).
Qed.

Lemma bit_char_eqb a b : Ascii.eqb (bit_char a) (bit_char b) = Bool.eqb a b.
Proof. now destruct a, b. Qed.

Lemma vget_chips rel i j : 0 <= i < Z.of_nat (length rel) -> 0 <= j < 2 ->
  vget false (bi_binary_chips rel) (2 * i + j) = xorb (vget false rel i) (j =? 1).
Proof.
  intros Hi Hj. unfold bi_binary_chips. rewrite (vget_concat false 2); [|lia|lia|].
  - rewrite (vget_fmap false) by (unfold in_range; lia).
    assert (j = 0 \/ j = 1) as [->| ->] by lia; now destruct (vget false rel i).
  - apply Forall_map, Forall_true. reflexivity.
Qed.

Lemma relative_heard rel : length rel = 85%nat -> relative (bits_str (bi_binary_chips rel)) = bits_str rel.
Proof.
  intros Hl. unfold relative. apply (vget_ext "0"%char).
  { rewrite length_map, length_seqZ, length_bits_str, Hl. reflexivity. }
  rewrite length_map, length_seqZ. unfold GLONASS_GNAV_STRING_BITS. intros i Hi.
  rewrite (vget_fmap 0) by (unfold in_range; rewrite length_seqZ; lia).
  rewrite vget_seqZ by lia.
  rewrite !vget_bits_str. f_equal. rewrite Z.add_0_l.
  rewrite <- (Z.add_0_r (2 * i)) at 1. rewrite !vget_chips by lia.
  now destruct (vget false rel i).
Qed.

Lemma relative_step bits : forall r i, 0 < i < Z.of_nat (length bits) ->
  vget false (relative_code r bits) i = xorb (vget false (relative_code r bits) (i - 1)) (vget false bits i).
Proof.
  induction bits as [|a bits IH]; intros r i Hi; [cbn in Hi; lia|]. cbn [length] in Hi. cbn [relative_code].
  assert (forall {A} (d : A) x l j, 0 < j -> vget d (x :: l) j = vget d l (j - 1)) as Hc.
  { intros A d x l j Hj. change (x :: l) with ([x] ++ l). rewrite vget_app by lia.
    replace (j <? Z.of_nat (length [x])) with false by (change (Z.of_nat (length [x])) with 1; lia). reflexivity. }
  rewrite !(Hc _ _ _ _ i) by lia. destruct (Z.eq_dec i 1) as [->|Hne].
  - destruct bits as [|b bits]; [cbn in Hi; lia|]. reflexivity.
  - rewrite (Hc _ _ _ _ (i - 1)) by lia. apply IH. lia.
Qed.

Lemma data_bits_heard r bits : length bits = 85%nat -> vget false bits 0 = false ->
  data_bits (bits_str (relative_code r bits)) = bits_str bits.
Proof.
  intros Hl H0. destruct bits as [|b0 bits]; [discriminate|]. change (b0 = false) in H0. subst b0.
  unfold data_bits. cbn [bits_str map]. f_equal.
  set (all := false :: bits). set (rel := relative_code r all).
  assert (forall i, 0 < i < 85 -> vget false rel i = xorb (vget false rel (i - 1)) (vget false all i)) as Hs.
  { intros i Hi. apply relative_step. unfold all. rewrite Hl. lia. }
  apply (vget_ext "0"%char).
  { rewrite length_map, length_seqZ, length_map. cbn [length] in Hl. unfold GLONASS_GNAV_STRING_BITS. lia. }
  rewrite length_map, length_seqZ. unfold GLONASS_GNAV_STRING_BITS. intros i Hi.
  rewrite (vget_fmap 0) by (unfold in_range; rewrite length_seqZ; lia). rewrite vget_seqZ by lia.
  change (map bit_char bits) with (bits_str bits). fold rel.
  rewrite !vget_bits_str, bit_char_eqb. f_equal. rewrite (Hs (1 + i)) by lia.
  assert (vget false all (1 + i) = vget false bits i) as ->.
  { unfold all. change (false :: bits) with ([false] ++ bits). rewrite vget_app by lia. change (Z.of_nat (length [false])) with 1.
    replace (1 + i <? 1) with false by lia. f_equal. lia. }
  destruct (vget false rel (1 + i - 1)), (vget false bits i); reflexivity.
Qed.

(** What the block takes from the symbols of a string, in either polarity. *)
Lemma string_heard inverted r bits groups : length bits = 85%nat -> vget false bits 0 = false ->
  Forall2 (heard_chip inverted) (bi_binary_chips (relative_code r bits)) groups ->
  data_bits (relative (bi_binary (map (fun g => upright inverted (Prompt_I g)) (concat groups)))) =
  bits_str bits.
Proof.
  intros Hl H0 Hh. rewrite (chips_heard _ _ _ Hh), relative_heard by (rewrite relative_code_length; exact Hl).
  now apply data_bits_heard.
Qed.
