(* ===== verification/GnavMark.v ===== *)
(** * GnavMark: the time mark is never mistaken

    The correlation of GnavTlm reaches its threshold only on the time mark
    itself: no run of 300 symbols of a stream of strings, whatever data they
    carry, matches the time mark or its opposite unless it begins a string. *)

From S2P Require Import Prelude Cstring Float64 GnssSignal InavTables InavWords Viterbi TlmDecoder GnavTables GnavMessage GnavTlm GnavHamming GnavCode.
From stdpp Require Import list.
From Stdlib Require Import ZArith Lia Bool Ascii SpecFloat.
Local Open Scope Z_scope.

Lemma Forall_in_vget {A} {P : A -> Prop} (d : A) (l : list A) i : Forall P l -> in_range l i -> P (vget d l i).
Proof. intros H Hi. rewrite Forall_forall in H. apply H, elem_of_vget. exact Hi. Qed.

(** ** The correlation *)

Section correlation.
Context (samples : Z) (preamble : list Z) (history : list float).
Hypothesis unit_preamble : forall i, 0 <= i < samples -> vget 0 preamble i = 1 \/ vget 0 preamble i = -1.

Let below (i : Z) : bool := SFltb (vget fzero history i) fzero.

(** The symbols agree with the preamble, or are all opposite to it. *)
Definition matches (inverted : bool) (n : Z) : Prop :=
  forall i, 0 <= i < n -> below i = xorb inverted (vget 0 preamble i <? 0).

Lemma correlation_bound : 0 <= samples ->
  let c := correlation samples preamble history in
  - samples <= c <= samples /\ (c = samples -> matches false samples) /\ (c = - samples -> matches true samples).
Proof.
  intros Hs. unfold correlation.
  apply (for_range_ind (fun n c => - n <= c <= n /\ (c = n -> matches false n) /\ (c = - n -> matches true n)));
    [exact Hs|split; [lia|split; intros _ i Hi; lia]|].
  intros n c Hn (Hb & Hp & Hm). cbv beta. change (SFltb (vget fzero history n) fzero) with (below n).
  destruct (unit_preamble n Hn) as [E|E]; rewrite E; destruct (below n) eqn:Eb; split; try lia; split; intros Hc;
    try (exfalso; lia); intros i Hi; (destruct (Z.eq_dec i n) as [->|Hne]; [rewrite Eb, E; reflexivity|]);
    (apply Hp || apply Hm); lia.
Qed.

Lemma correlation_match inverted : 0 <= samples -> matches inverted samples ->
  correlation samples preamble history = if inverted then - samples else samples.
Proof.
  intros Hs Hm. unfold correlation.
  apply (for_range_ind (fun n c => c = if inverted then - n else n)); [exact Hs|now destruct inverted|].
  intros n c Hn ->. specialize (Hm n Hn). unfold below in Hm. rewrite Hm.
  destruct (unit_preamble n Hn) as [E|E]; rewrite E; destruct inverted; cbn; lia.
Qed.
End correlation.

(** ** The chips of a stream of strings *)

Record string_shape (chips : list bool) : Prop := {
  ss_length : length chips = 200%nat;
  ss_mark : take 30 chips = mark;
  ss_data : forall i, 15 <= i < 100 -> vget false chips (2 * i + 1) = negb (vget false chips (2 * i))
}.

Lemma string_chips_shape r bits : length bits = 85%nat -> string_shape (string_chips r bits).
Proof.
  intros Hl. constructor; [now apply string_chips_length|reflexivity|]. intros i Hi. unfold string_chips.
  rewrite !vget_app by lia. change (Z.of_nat (length mark)) with 30.
  replace (2 * i + 1 <? 30) with false by lia. replace (2 * i <? 30) with false by lia.
  replace (2 * i + 1 - 30) with (2 * (i - 15) + 1) by lia.
  replace (2 * i - 30) with (2 * (i - 15) + 0) by lia.
  rewrite !vget_chips by (rewrite ?relative_code_length; lia). cbn [Z.eqb].
  now destruct (vget false _ _).
Qed.

Section stream.
Context (strings : list (list bool)).
Hypothesis shapes : Forall string_shape strings.
Let C (q : Z) : bool := vget false (concat strings) q.
Let n : Z := Z.of_nat (length strings).

Lemma stream_chip k p : 0 <= k -> 0 <= p < 200 -> C (200 * k + p) = vget false (vget [] strings k) p.
Proof.
  intros Hk Hp. apply vget_concat; [exact Hk|exact Hp|].
  eapply Forall_impl; [exact shapes|]. intros c [Hl _ _]. lia.
Qed.

Lemma stream_shape k : 0 <= k < n -> string_shape (vget [] strings k).
Proof. intros Hk. exact (Forall_in_vget _ _ _ shapes Hk). Qed.

Lemma stream_mark k p : 0 <= k < n -> 0 <= p < 30 -> C (200 * k + p) = vget false mark p.
Proof.
  intros Hk Hp. rewrite stream_chip by lia. destruct (stream_shape k Hk) as [Hl Hm _].
  rewrite <- Hm. unfold vget. destruct (p <? 0); [reflexivity|].
  rewrite nth_firstn. destruct (Nat.ltb_spec (Z.to_nat p) 30); [reflexivity|lia].
Qed.

Lemma stream_pair k i : 0 <= k < n -> 15 <= i < 100 ->
  C (200 * k + (2 * i + 1)) = negb (C (200 * k + 2 * i)).
Proof. intros Hk Hi. rewrite !stream_chip by lia. now apply (stream_shape k Hk). Qed.

(** Within the mark, five equal chips are found only at its beginning. *)
Lemma mark_runs : forallb (fun p => existsb (fun j => (p + j + 1 <? 30) &&
    negb (Bool.eqb (vget false mark (p + j)) (vget false mark (p + j + 1)))) [0; 1; 2; 3]) (seqZ 1 28) = true.
Proof. reflexivity. Qed.

(** Five equal chips followed by an opposite one begin a string. *)
Lemma five_equal_chips q b : 0 <= q -> q + 30 <= 200 * n ->
  (forall j, 0 <= j < 5 -> C (q + j) = b) -> C (q + 5) = negb b -> q mod 200 = 0.
Proof.
  intros Hq Hn He Ho. set (k := q / 200). set (p := q mod 200).
  assert (q = 200 * k + p) as Eq by (apply Z.div_mod; lia).
  assert (0 <= p < 200) as Hp by (apply Z.mod_pos_bound; lia). clearbody k p.
  destruct (Z.eq_dec p 0) as [H0|H0]; [exact H0|exfalso].
  assert (forall j j', 0 <= j < 5 -> 0 <= j' < 5 -> C (200 * k + (p + j)) = C (200 * k + (p + j'))) as Hs.
  { intros j j' Hj Hj'. rewrite !Z.add_assoc, <- Eq, !He by lia. reflexivity. }
  assert (0 <= k < n) as Hk by lia.
  assert (p <= 28 \/ 29 <= p < 199 \/ p = 199) as [Hc|[Hc| ->]] by lia.
  - pose proof mark_runs as Hr. rewrite forallb_forall in Hr.
    specialize (Hr p (in_seqZ p 1 28 ltac:(lia))). apply existsb_exists in Hr as (j & Hj & Hr).
    assert (0 <= j < 4) as Hj4 by (cbn in Hj; lia).
    apply andb_true_iff in Hr as [H1 H2]. apply Z.ltb_lt in H1.
    specialize (Hs j (j + 1) ltac:(lia) ltac:(lia)). rewrite !stream_mark in Hs by lia.
    rewrite Z.add_assoc in Hs. rewrite Hs in H2. now rewrite eqb_reflx in H2.
  - set (i := (p + 1) / 2).
    assert (2 * i = p \/ 2 * i = p + 1) as Ei by (pose proof (Z.div_mod (p + 1) 2); pose proof (Z.mod_pos_bound (p + 1) 2); lia).
    pose proof (stream_pair k i Hk ltac:(lia)) as Hpair.
    specialize (Hs (2 * i - p + 1) (2 * i - p) ltac:(lia) ltac:(lia)).
    replace (p + (2 * i - p + 1)) with (2 * i + 1) in Hs by lia.
    replace (p + (2 * i - p)) with (2 * i) in Hs by lia. rewrite Hpair in Hs.
    now destruct (C (200 * k + 2 * i)).
  - specialize (He 1 ltac:(lia)).
    replace (q + 1) with (200 * (k + 1) + 0) in He by lia. replace (q + 5) with (200 * (k + 1) + 4) in Ho by lia.
    rewrite stream_mark in He, Ho by lia. change (vget false mark 0) with true in He.
    change (vget false mark 4) with true in Ho. now subst b.
Qed.

(** A run of 300 symbols like the mark begins a string. *)
Lemma window_of_mark w inverted : 0 <= w -> w + 300 <= 2000 * n ->
  (forall i, 0 <= i < 300 -> C ((w + i) / 10) = xorb inverted (vget false mark (i / 10))) -> w mod 2000 = 0.
Proof.
  intros Hw Hn Hm. set (q := w / 10). set (r := w mod 10).
  assert (w = 10 * q + r) as Ew by (apply Z.div_mod; lia).
  assert (0 <= r < 10) as Hr by (apply Z.mod_pos_bound; lia). clearbody q r.
  assert (forall i j, 0 <= i < 300 -> 10 * j <= r + i < 10 * j + 10 ->
    C (q + j) = xorb inverted (vget false mark (i / 10))) as H.
  { intros i j Hi Hj. rewrite <- Hm by exact Hi. f_equal.
    apply (Z.div_unique _ _ _ (r + i - 10 * j)); lia. }
  assert (forall j, 0 <= j < 5 -> C (q + j) = xorb inverted true) as He.
  { intros j Hj. rewrite (H (10 * j) j) by lia. f_equal.
    rewrite Z.mul_comm, Z.div_mul by lia.
    assert (j = 0 \/ j = 1 \/ j = 2 \/ j = 3 \/ j = 4) as Hc by lia.
    now repeat destruct Hc as [->|Hc]; [..|subst j]. }
  assert (C (q + 5) = xorb inverted false) as Ho by (rewrite (H 50 5) by lia; reflexivity).
  destruct (Z.eq_dec r 0) as [->|Hne].
  - assert (q mod 200 = 0) as Hq.
    { apply (five_equal_chips q (xorb inverted true)); [lia|lia|exact He|]. rewrite Ho. now destruct inverted. }
    rewrite Ew, Z.add_0_r. change 2000 with (10 * 200). rewrite Z.mul_mod_distr_l by lia. lia.
  - exfalso. rewrite (H 49 5) in Ho by lia. change (vget false mark (49 / 10)) with true in Ho.
    now destruct inverted.
Qed.
End stream.

(** ** The symbols of a stream *)

Lemma preamble_sign : forallb (fun i => Bool.eqb (vget 0 preamble_samples i <? 0) (negb (vget false mark (i / 10))) &&
    (Z.abs (vget 0 preamble_samples i) =? 1)) (seqZ 0 300) = true.
Proof. vm_compute. reflexivity. Qed.

Lemma preamble_sign_at i : 0 <= i < 300 ->
  (vget 0 preamble_samples i <? 0) = negb (vget false mark (i / 10)) /\
  (vget 0 preamble_samples i = 1 \/ vget 0 preamble_samples i = -1).
Proof.
  intros Hi. pose proof preamble_sign as H. rewrite forallb_forall in H.
  specialize (H i (in_seqZ i 0 300 ltac:(lia))). apply andb_true_iff in H as [H1 H2].
  split; [now apply eqb_prop|lia].
Qed.

(** The sign of the symbols received for a list of chips. *)
Lemma heard_sign inverted chips groups a : Forall2 (heard_chip inverted) chips groups ->
  0 <= a < 10 * Z.of_nat (length chips) ->
  SFltb (vget fzero (map Prompt_I (concat groups)) a) fzero = xorb inverted (negb (vget false chips (a / 10))).
Proof.
  intros Hh Ha. pose proof (Z.div_mod a 10 ltac:(lia)) as Ea. pose proof (Z.mod_pos_bound a 10 ltac:(lia)) as Hr.
  set (k := a / 10) in *. set (r := a mod 10) in *. clearbody k r.
  assert (exists c gs, chips !! Z.to_nat k = Some c /\ groups !! Z.to_nat k = Some gs /\ heard_chip inverted c gs)
    as (c & gs & Ec & Eg & [Hl Hs _]).
  { destruct (lookup_lt_is_Some_2 chips (Z.to_nat k) ltac:(lia)) as [c Ec].
    destruct (Forall2_lookup_l _ _ _ _ _ Hh Ec) as (gs & Eg & Hc). eauto. }
  rewrite concat_map, Ea. rewrite (vget_concat fzero 10); [|lia|lia|].
  - assert (vget [] (map (map Prompt_I) groups) k = map Prompt_I gs) as ->.
    { apply vget_lookup; [lia|]. transitivity (map Prompt_I <$> (groups !! Z.to_nat k)); [apply list_lookup_fmap|now rewrite Eg]. }
    assert (vget false chips k = c) as ->.
    { apply vget_lookup; [lia|exact Ec]. }
    assert (in_range (map Prompt_I gs) r) as Hin by (unfold in_range; rewrite length_map, Hl; lia).
    apply (Forall_in_vget (P := fun x => SFltb x fzero = xorb inverted (negb c))); [|exact Hin].
    apply Forall_map. exact Hs.
  - apply Forall_map. clear -Hh. induction Hh as [|c gs cs groups [Hl _ _] _ IH]; constructor; [|exact IH].
    rewrite length_map. lia.
Qed.

Lemma strings_length strings : Forall string_shape strings ->
  length (concat strings) = (200 * length strings)%nat.
Proof.
  induction 1 as [|c strings Hc _ IH]; [reflexivity|]. cbn [concat length].
  rewrite length_app, IH, (ss_length _ Hc). lia.
Qed.

Lemma groups_length inverted chips groups : Forall2 (heard_chip inverted) chips groups ->
  length (concat groups) = (10 * length chips)%nat.
Proof.
  induction 1 as [|c gs chips groups [Hl _ _] _ IH]; [reflexivity|]. cbn [concat length].
  rewrite length_app, IH, Hl. lia.
Qed.

Section symbols.
Context (inverted : bool) (strings : list (list bool)) (groups : list (list Gnss_Synchro)).
Hypothesis shapes : Forall string_shape strings.
Hypothesis heard : Forall2 (heard_chip inverted) (concat strings) groups.

(** What the block has before it when the oldest symbol it keeps is number [w]
    of the stream. *)
Definition window (w : Z) : list float := map Prompt_I (drop (Z.to_nat w) (concat groups)).

Lemma vget_window w i : 0 <= w -> 0 <= i -> vget fzero (window w) i = vget fzero (map Prompt_I (concat groups)) (w + i).
Proof.
  intros Hw Hi. unfold window. rewrite <- skipn_map. unfold vget.
  destruct (Z.ltb_spec i 0), (Z.ltb_spec (w + i) 0); try lia.
  rewrite nth_skipn. f_equal. lia.
Qed.

Lemma no_false_mark w history : 0 <= w -> w + 300 <= 2000 * Z.of_nat (length strings) ->
  (forall i, 0 <= i < 300 -> vget fzero history i = vget fzero (window w) i) ->
  (300 <=? Z.abs (correlation 300 preamble_samples history)) = (w mod 2000 =? 0) /\
  (w mod 2000 = 0 -> correlation 300 preamble_samples history = if inverted then -300 else 300).
Proof.
  intros Hw Hn Hh.
  assert (forall i, 0 <= i < 300 -> vget 0 preamble_samples i = 1 \/ vget 0 preamble_samples i = -1) as Hu
    by (intros i Hi; apply preamble_sign_at; exact Hi).
  assert (forall i, 0 <= i < 300 -> SFltb (vget fzero history i) fzero =
      xorb inverted (negb (vget false (concat strings) ((w + i) / 10)))) as Hs.
  { intros i Hi. rewrite Hh, vget_window by lia. apply heard_sign; [exact heard|]. rewrite strings_length by exact shapes. lia. }
  destruct (Z.eqb_spec (w mod 2000) 0) as [E|E].
  - assert (correlation 300 preamble_samples history = if inverted then -300 else 300) as Ec.
    { apply (correlation_match 300 _ _ Hu inverted); [lia|]. intros i Hi. rewrite Hs by exact Hi.
      rewrite (proj1 (preamble_sign_at i Hi)). do 2 f_equal.
      set (k := w / 2000). assert (w = 2000 * k) as Ew by (pose proof (Z.div_mod w 2000); lia).
      assert (0 <= k < Z.of_nat (length strings)) as Hk by lia.
      assert (0 <= i / 10 < 30) as Hd by (split; [apply Z.div_pos; lia|apply Z.div_lt_upper_bound; lia]).
      rewrite <- (stream_mark strings shapes k (i / 10) Hk Hd). f_equal.
      rewrite Ew. replace (2000 * k + i) with (i + 200 * k * 10) by lia. rewrite Z.div_add by lia. lia. }
    rewrite Ec. split; [now destruct inverted|reflexivity].
  - split; [|lia]. apply Z.leb_gt.
    destruct (correlation_bound 300 preamble_samples history Hu ltac:(lia)) as (Hb & Hp & Hm). cbv zeta in *.
    assert (forall inv, matches preamble_samples history inv 300 -> False) as Hx.
    { intros inv M. apply E. apply (window_of_mark strings shapes w (xorb inv inverted)); [exact Hw|exact Hn|].
      intros i Hi. specialize (M i Hi). cbv beta in M. rewrite Hs in M by exact Hi.
      rewrite (proj1 (preamble_sign_at i Hi)) in M.
      destruct (vget false (concat strings) ((w + i) / 10)), (vget false mark (i / 10)), inv, inverted;
        cbn in *; congruence. }
    destruct (Z.eq_dec (correlation 300 preamble_samples history) 300) as [E1|E1]; [destruct (Hx _ (Hp E1))|].
    destruct (Z.eq_dec (correlation 300 preamble_samples history) (-300)) as [E2|E2]; [destruct (Hx _ (Hm E2))|].
    lia.
Qed.
End symbols.
