(* ===== verification/GnavReceiver.v ===== *)
(** * GnavReceiver: what the GLONASS block makes of a stream of strings

    The block of GnavTlm, symbol by symbol, on the symbols of a stream of strings
    in either polarity that it begins to hear in the middle of a string: two time
    marks 2000 symbols apart synchronise it, no symbol in between does, and from
    then on every string reaches the message decoder with the bits sent. *)

From S2P Require Import Prelude Cstring Float64 FloatBounds GnssSignal InavTables InavWords Viterbi TlmDecoder GnavTables GnavMessage GnavTlm GnavTime GnavHamming GnavCode GnavMark.
From stdpp Require Import list.
From Stdlib Require Import ZArith Lia Bool Ascii SpecFloat.
Local Open Scope Z_scope.
Local Open Scope cxx_scope.

(** ** What a string makes of the message decoder *)

Definition is_telemetry (msg : gnav_message) : bool :=
  match msg with
  | telemetry_gnav_ephemeris _ | telemetry_gnav_utc_model _ | telemetry_gnav_almanac _ => true
  | _ => false
  end.

(** The navigation data, the satellite and the data sets published. *)
Record hearing := mkhearing {
  h_nav : Glonass_Gnav_Navigation_Message;
  h_satellite : Gnss_Satellite;
  h_msgs : list gnav_message
}.

Definition heard (d : gnav_tlm) : hearing :=
  mkhearing (d_nav d) (d_satellite d) (List.filter is_telemetry (published d)).

(** A block that has heard just this. *)
Definition blank (h : hearing) : gnav_tlm :=
  (new_gnav_tlm L1_CA empty_satellite (mkTlm_Conf false false false false))
    <| d_nav := h_nav h |> <| d_satellite := h_satellite h |> <| published := h_msgs h |>.

Definition hear `{Calendar} (bits : cstring) (h : hearing) : outcome hearing :=
  let '(o, d) := decode_bits bits (blank h) in
  let* _ := o in Returns (heard d).

(** The state that synchronisation uses. *)
Definition sync (d : gnav_tlm) : list Z * list Gnss_Synchro * double * Z * Z * Z * Z * bool * bool :=
  (d_preambles_symbols d, d_symbol_history d, d_TOW_at_current_symbol d, d_sample_counter d,
   d_preamble_index d, d_stat d, d_CRC_error_counter d, d_flag_frame_sync d, d_flag_preamble d).

(** A program that does the same to what was heard in any two blocks, and
    nothing to their synchronisation. *)
Definition hears {A} (c : prog gnav_tlm A) : Prop := forall d e, heard d = heard e ->
  (c d).1 = (c e).1 /\ heard (c d).2 = heard (c e).2 /\ sync (c d).2 = sync d.

Lemma hears_bind {A B} (c : prog gnav_tlm A) (k : A -> prog gnav_tlm B) :
  hears c -> (forall a, hears (k a)) -> hears (bind c k).
Proof.
  intros Hc Hk d e E. destruct (Hc d e E) as (E1 & E2 & E3). unfold bind.
  destruct (c d) as [o1 d1], (c e) as [o2 e1]. cbn [fst snd] in *. subst o2.
  destruct o1 as [a|x]; [|repeat split; assumption].
  destruct (Hk a d1 e1 E2) as (F1 & F2 & F3). now rewrite F3.
Qed.

Lemma hears_ret {A} (a : A) : hears (ret a).
Proof. intros d e E. now repeat split. Qed.

Lemma hears_lift {A} (o : outcome A) : hears (lift o).
Proof. intros d e E. now repeat split. Qed.

Lemma hears_modify f : (forall d e, heard d = heard e -> heard (f d) = heard (f e)) ->
  (forall d, sync (f d) = sync d) -> hears (modify f).
Proof. intros H1 H2 d e E. split; [reflexivity|]. split; [now apply H1|apply H2]. Qed.

Lemma heard_parts d e : heard d = heard e <->
  d_nav d = d_nav e /\ d_satellite d = d_satellite e /\
  List.filter is_telemetry (published d) = List.filter is_telemetry (published e).
Proof. unfold heard. split; [intros [= -> -> ->]; auto|intros (-> & -> & ->); reflexivity]. Qed.

Lemma hears_keep bits : hears (modify (keep_nav_message bits)).
Proof.
  apply hears_modify; intros d; unfold keep_nav_message.
  - intros e E. destruct (d_enable_navdata_monitor d), (d_enable_navdata_monitor e); exact E.
  - destruct (d_enable_navdata_monitor d); reflexivity.
Qed.

Lemma hears_with_nav {A} (c : prog Glonass_Gnav_Navigation_Message A) : hears (with_nav c).
Proof.
  intros d e E. apply heard_parts in E as (En & Es & Ep). unfold with_nav. rewrite <- En.
  destruct (c (d_nav d)) as [o nav]. cbn [fst snd]. split; [reflexivity|]. split; [|reflexivity].
  unfold heard. cbn [d_nav d_satellite published update]. now rewrite <- Es, <- Ep.
Qed.

Lemma hears_ephemeris : hears (modify publish_ephemeris).
Proof.
  apply hears_modify; intros d; unfold publish_ephemeris.
  - intros e E. apply heard_parts in E as (En & Es & Ep). rewrite En, Es.
    destruct (have_new_ephemeris (d_nav e)) as [[] nav]; apply heard_parts; repeat split; try exact Es; try exact Ep.
    cbn [published publish List.filter is_telemetry update]. f_equal. exact Ep.
  - now destruct (have_new_ephemeris (d_nav d)) as [[] nav].
Qed.

Lemma hears_utc_model : hears (modify publish_utc_model).
Proof.
  apply hears_modify; intros d; unfold publish_utc_model.
  - intros e E. apply heard_parts in E as (En & Es & Ep). rewrite En.
    destruct (have_new_utc_model (d_nav e)) as [[] nav]; apply heard_parts; repeat split; try exact Es; try exact Ep.
    cbn [published publish List.filter is_telemetry update]. f_equal. exact Ep.
  - now destruct (have_new_utc_model (d_nav d)) as [[] nav].
Qed.

Lemma hears_almanac : hears publish_almanac.
Proof.
  unfold publish_almanac. apply hears_bind; [apply hears_with_nav|]. intros []; [|apply hears_ret].
  intros d e E. pose proof E as (En & Es & Ep)%heard_parts. unfold bind, gets, lift, modify, id. rewrite En.
  destruct (get_almanac _ _) as [a|x]; (split; [reflexivity|]); (split; [|reflexivity]); [|exact E].
  apply heard_parts. repeat split; [exact En|exact Es|].
  cbn [published publish List.filter is_telemetry update snd]. f_equal. exact Ep.
Qed.

Lemma hears_slot : hears (modify update_slot_number).
Proof.
  apply hears_modify; intros d; unfold update_slot_number.
  - intros e E. pose proof E as (En & Es & Ep)%heard_parts. rewrite En, Es.
    destruct (get_flag_update_slot_number (d_nav e)); [|exact E].
    apply heard_parts. repeat split; [|exact Ep]. cbn [d_nav update]. now rewrite En.
  - now destruct (get_flag_update_slot_number (d_nav d)).
Qed.

Lemma hears_decode `{Calendar} bits : hears (decode_bits bits).
Proof.
  unfold decode_bits. apply hears_bind; [apply hears_keep|intros _].
  apply hears_bind; [apply hears_with_nav|intros _]. apply hears_bind; [apply hears_ephemeris|intros _].
  apply hears_bind; [apply hears_utc_model|intros _]. apply hears_bind; [apply hears_almanac|intros _].
  apply hears_slot.
Qed.

Lemma filter_telemetry_idemp l : List.filter is_telemetry (List.filter is_telemetry l) = List.filter is_telemetry l.
Proof. induction l as [|x l IH]; [reflexivity|]. cbn. destruct (is_telemetry x) eqn:E; cbn; [rewrite E|]; congruence. Qed.

Lemma heard_blank d : heard (blank (heard d)) = heard d.
Proof. unfold heard, blank. cbn [d_nav d_satellite published update h_nav h_satellite h_msgs]. now rewrite filter_telemetry_idemp. Qed.

Lemma hear_decode `{Calendar} bits d h : hear bits (heard d) = Returns h ->
  exists d', decode_bits bits d = (Returns tt, d') /\ heard d' = h /\ sync d' = sync d.
Proof.
  intros E. destruct (hears_decode bits d (blank (heard d)) (eq_sym (heard_blank d))) as (E1 & E2 & E3).
  unfold hear in E. destruct (decode_bits bits (blank (heard d))) as [o e]. cbn [fst snd] in *.
  destruct o as [[]|x]; [|discriminate]. cbn [outcome_bind] in E. injection E as <-.
  destruct (decode_bits bits d) as [o d']. cbn [fst snd] in *. subst o. exists d'. split; [reflexivity|].
  split; [exact E2|exact E3].
Qed.

(** A new time of week that the block can count from. *)
Definition tow_fits (h : hearing) : Prop := flag_TOW_new (h_nav h) = true ->
  at_most_ms (2 ^ 31) (preamble_TOW (d_TOW (gnav_ephemeris (h_nav h)))).

(** The time of week is taken. *)
Definition take_TOW (h : hearing) : hearing :=
  mkhearing (set_flag_TOW_new false (h_nav h)) (h_satellite h) (h_msgs h).

(** The strings heard, the first one first. *)
Inductive hear_strings `{Calendar} : list (list bool) -> hearing -> hearing -> Prop :=
  | hear_none h : hear_strings [] h h
  | hear_one bits rest h h1 h2 : hear (bits_str bits) h = Returns h1 -> tow_fits h1 ->
      hear_strings rest (take_TOW h1) h2 -> hear_strings (bits :: rest) h h2.

(** ** The result of the Hamming check *)

Section crc.
Context `{Calendar} (b : bool).
Let P (m : Glonass_Gnav_Navigation_Message) : Prop := flag_CRC_test m = b.

Lemma crc_modify f : (forall m, flag_CRC_test (f m) = flag_CRC_test m) -> run_inv P (modify f).
Proof. intros E. apply run_inv_modify. intros m Hm. unfold P. now rewrite E. Qed.

#[local] Hint Resolve run_inv_ret run_inv_lift run_inv_gets : core.

Lemma crc_update_almanac f : run_inv P (update_almanac f).
Proof.
  unfold update_almanac. apply run_inv_bind; [auto|intros m]. cbv zeta.
  apply run_inv_bind; [auto|intros a]. now apply crc_modify.
Qed.

Lemma crc_even k bits : run_inv P (decode_almanac_even k bits).
Proof.
  unfold decode_almanac_even. apply run_inv_bind; [now apply crc_modify|intros _].
  apply run_inv_bind; [now apply crc_modify|intros _]. apply run_inv_bind; [auto|intros frame_ID].
  destruct (frame_ID =? 0); [auto|]. apply run_inv_bind; [apply crc_update_almanac|intros _].
  apply run_inv_bind; [now apply crc_modify|auto].
Qed.

Lemma crc_odd k bits : run_inv P (decode_almanac_odd k bits).
Proof.
  unfold decode_almanac_odd. apply run_inv_bind; [auto|intros m]. destruct (flag_almanac (k - 1) m); [|auto].
  apply run_inv_bind; [apply crc_update_almanac|intros _]. apply crc_modify. intros n.
  destruct (k =? 7); [|reflexivity]. unfold keep_freq_channel. now destruct (_ =? _).
Qed.

Lemma crc_string_5 bits : run_inv P (decode_string_5 bits).
Proof.
  unfold decode_string_5. apply run_inv_bind; [auto|intros m]. destruct (flag_ephemeris_str_4 m); [|auto].
  apply run_inv_bind; [now apply crc_modify|intros _]. apply run_inv_bind; [auto|intros m1].
  apply run_inv_bind; [|intros _; now apply crc_modify].
  destruct (flag_ephemeris_str_1 m1); [|auto]. apply run_inv_bind; [auto|intros t]. now apply crc_modify.
Qed.

Lemma crc_by_ID string_ID bits : run_inv P (decode_by_ID string_ID bits).
Proof.
  assert (forall c : prog Glonass_Gnav_Navigation_Message unit, run_inv P c -> run_inv P (c;; ret true)) as Hr
    by (intros c Hc; apply run_inv_bind; auto).
  assert (forall f, (forall m, flag_CRC_test (f m) = flag_CRC_test m) -> run_inv P (modify f;; ret true)) as Hf
    by (intros f Hf; apply Hr; now apply crc_modify).
  unfold decode_by_ID, decode_string_1, decode_string_2, decode_string_3, decode_string_4.
  destruct string_ID as [|p|p]; [auto| |auto].
  do 4 (try destruct p as [p|p|]); auto using crc_even, crc_odd, crc_string_5;
    try (apply Hf; intros m; cbv zeta; first [reflexivity|match goal with |- context [if ?c then _ else _] => now destruct c end]).
  - unfold decode_string_15. apply Hr. apply run_inv_bind; [auto|intros m].
    destruct (negb _); [apply crc_odd|auto].
  - unfold decode_string_14. apply run_inv_bind; [auto|intros m]. destruct (_ =? 5); [|apply crc_even].
    now apply Hf.
Qed.
End crc.

Lemma crc_string_decoder `{Calendar} bs m : length bs = Z.to_nat GLONASS_GNAV_STRING_BITS ->
  flag_CRC_test (string_decoder (bits_str bs) m).2 = CRC_test (rev bs).
Proof.
  intros Hl. rewrite string_decoder_bits by exact Hl. rewrite run_modify, run_gets.
  change (flag_CRC_test (_ <| flag_CRC_test := ?c |>)) with c.
  destruct (CRC_test (rev bs)) eqn:Ec; cbn [negb]; [|reflexivity]. rewrite run_modify, run_gets.
  match goal with |- flag_CRC_test (bind (decode_by_ID ?i ?r) ?k ?s).2 = _ =>
    pose proof (run_inv_bind (fun m => flag_CRC_test m = true) (decode_by_ID i r) k (crc_by_ID true i r)
      (fun a => run_inv_ret _ _) s) as Hi end.
  apply Hi. reflexivity.
Qed.

Lemma crc_almanac_pair b k n : run_inv (fun m => flag_CRC_test m = b) (new_almanac_pair k n).
Proof.
  unfold new_almanac_pair. apply run_inv_bind; [apply run_inv_gets|intros m].
  destruct (_ && _); [|apply run_inv_ret]. apply run_inv_bind; [apply run_inv_lift|intros p].
  destruct (negb _); [|apply run_inv_ret]. apply run_inv_bind; [now apply crc_modify|intros _; apply run_inv_ret].
Qed.

Lemma crc_almanac b : run_inv (fun m => flag_CRC_test m = b) have_new_almanac.
Proof.
  unfold have_new_almanac. repeat (apply run_inv_bind; [apply crc_almanac_pair|intros]). apply crc_almanac_pair.
Qed.

Lemma decode_bits_crc `{Calendar} bs d : length bs = Z.to_nat GLONASS_GNAV_STRING_BITS ->
  get_flag_CRC_test (d_nav (decode_bits (bits_str bs) d).2) = CRC_test (rev bs).
Proof.
  intros Hl. set (b := CRC_test (rev bs)). set (P := fun d => flag_CRC_test (d_nav d) = b).
  assert (run_inv P (modify publish_ephemeris;; modify publish_utc_model;; publish_almanac;; modify update_slot_number)) as Hp.
  { apply run_inv_bind; [apply run_inv_modify; intros e He|intros _].
    { unfold P, publish_ephemeris, have_new_ephemeris in *.
      destruct (_ && _); [|exact He]. now destruct (negb _). }
    apply run_inv_bind; [apply run_inv_modify; intros e He|intros _].
    { unfold P, publish_utc_model, have_new_utc_model in *. now destruct (flag_utc_model_str_5 (d_nav e)). }
    apply run_inv_bind; [|intros _; apply run_inv_modify; intros e He].
    - unfold publish_almanac. apply run_inv_bind.
      + intros e He. unfold with_nav. pose proof (crc_almanac b (d_nav e) He) as Ha.
        destruct (have_new_almanac (d_nav e)) as [o nav]. exact Ha.
      + intros []; [|apply run_inv_ret]. apply run_inv_bind; [apply run_inv_gets|intros e].
        apply run_inv_bind; [apply run_inv_lift|intros a]. apply run_inv_modify. intros e' He. exact He.
    - unfold P, update_slot_number in *. now destruct (get_flag_update_slot_number (d_nav e)). }
  unfold decode_bits.
  set (report := modify publish_ephemeris;; _) in *. clearbody report.
  rewrite run_modify. generalize (keep_nav_message (bits_str bs) d). clear d. intros d. unfold bind, with_nav.
  pose proof (crc_string_decoder bs (d_nav d) Hl) as Hc.
  destruct (string_decoder (bits_str bs) (d_nav d)) as [[id|x] nav]; [|exact Hc].
  assert (P (d <| d_nav := nav |>)) as H1 by exact Hc. exact (Hp _ H1).
Qed.

(** ** The time of week and the output *)

(** What of the synchronisation the output leaves alone. *)
Definition locked (d : gnav_tlm) : list Z * list Gnss_Synchro * Z * Z * Z * Z * bool :=
  (d_preambles_symbols d, d_symbol_history d, d_sample_counter d, d_preamble_index d, d_stat d,
   d_CRC_error_counter d, d_flag_frame_sync d).

Lemma take_TOW_none h : flag_TOW_new (h_nav h) = false -> take_TOW h = h.
Proof. destruct h as [nav s msgs]. cbn [h_nav]. intros E. unfold take_TOW. cbn. f_equal. destruct nav. cbn in *. now subst. Qed.

Lemma heard_nav d nav : heard (d <| d_nav := nav |>) = mkhearing nav (d_satellite d) (h_msgs (heard d)).
Proof. reflexivity. Qed.

Lemma update_tow_new d : flag_TOW_new (d_nav d) = true -> d_flag_preamble d = true ->
  d_TOW_at_current_symbol (update_tow d) = preamble_TOW (d_TOW (gnav_ephemeris (d_nav d))) /\
  heard (update_tow d) = take_TOW (heard d) /\ locked (update_tow d) = locked d.
Proof. intros E Ep. unfold update_tow, get_flag_TOW_new. rewrite E, Ep. now repeat split. Qed.

Lemma update_tow_tick d : d_flag_preamble d = false \/ flag_TOW_new (d_nav d) = false ->
  d_TOW_at_current_symbol (update_tow d) = dadd (d_TOW_at_current_symbol d) GLONASS_L1_CA_CODE_PERIOD_S /\
  heard (update_tow d) = heard d /\ locked (update_tow d) = locked d.
Proof.
  intros Hc. unfold update_tow, get_flag_TOW_new.
  assert (d_flag_preamble d && flag_TOW_new (d_nav d) = false) as -> by (destruct Hc as [-> | ->]; [reflexivity|apply andb_false_r]).
  now repeat split.
Qed.

(** The output announces the time of week of the block. *)
Lemma make_output_fits g d v : at_most_ms v (d_TOW_at_current_symbol d) -> v <= 2 ^ 32 - 2 ^ 10 ->
  exists o d', make_output g d = (Returns o, d') /\ heard d' = heard d /\ locked d' = locked d /\
    d_TOW_at_current_symbol d' = d_TOW_at_current_symbol d /\
    synchro_PRN o = GnssSignal.PRN (d_satellite d) /\
    TlmDecoder.TOW_at_current_symbol_ms o = round_Z (dmul (d_TOW_at_current_symbol d) (double_of_Z 1000)) /\
    TlmDecoder.Flag_valid_word o = flag_valid_word d.
Proof.
  intros Hv Hr. pose proof (at_most_fits _ _ Hv Hr) as Hu. unfold make_output. rewrite run_gets. unfold id.
  rewrite Hu. unfold bind, lift. generalize (round_Z (dmul (d_TOW_at_current_symbol d) (double_of_Z 1000))) as t. intros t.
  destruct (flag_valid_word d); eexists _, _; (split; [reflexivity|]); [|now repeat split].
  unfold publish_nav_message. destruct (_ && _); now repeat split.
Qed.

(** ** Runs of the block *)

Fixpoint gnav_run `{Calendar} (inputs : list Gnss_Synchro) : prog gnav_tlm (list Gnss_Synchro) :=
  match inputs with
  | [] => ret []
  | g :: inputs => o <- general_work g;; os <- gnav_run inputs;; ret (o :: os)
  end.

Lemma gnav_run_cons `{Calendar} g inputs d o d1 os d2 : general_work g d = (Returns o, d1) ->
  gnav_run inputs d1 = (Returns os, d2) -> gnav_run (g :: inputs) d = (Returns (o :: os), d2).
Proof. intros E1 E2. cbn [gnav_run]. unfold bind. now rewrite E1, E2. Qed.

Lemma gnav_run_app `{Calendar} i1 i2 : forall d os1 d1 os2 d2, gnav_run i1 d = (Returns os1, d1) ->
  gnav_run i2 d1 = (Returns os2, d2) -> gnav_run (i1 ++ i2) d = (Returns (os1 ++ os2), d2).
Proof.
  induction i1 as [|g i1 IH]; intros d os1 d1 os2 d2 E1 E2; [injection E1 as <- <-; exact E2|].
  cbn [gnav_run] in E1. unfold bind in E1. destruct (general_work g d) as [[o|x] d'] eqn:Eg; [|discriminate].
  destruct (gnav_run i1 d') as [[os|x] d''] eqn:Er; [|discriminate]. injection E1 as <- <-.
  cbn [app]. exact (gnav_run_cons _ _ _ _ _ _ _ Eg (IH _ _ _ _ _ Er E2)).
Qed.

(** ** The stream *)

(** A string sent: the state of the relative code before it, and its bits. *)
Definition sent_ok (s : bool * list bool) : Prop :=
  vget false s.2 0 = false /\ code_word (rev s.2).

Lemma sent_length s : sent_ok s -> length s.2 = 85%nat.
Proof. intros [_ [Hl _]]. now rewrite length_rev in Hl. Qed.

Lemma concat_drop {A} (m : nat) (ls : list (list A)) : Forall (fun l => length l = m) ls ->
  forall j, concat (drop j ls) = drop (m * j) (concat ls).
Proof.
  induction 1 as [|l ls Hl _ IH]; intros j; [cbn; now rewrite !drop_nil|].
  destruct j as [|j]; [now rewrite Nat.mul_0_r|]. cbn [drop concat]. rewrite IH.
  replace (m * S j)%nat with (length l + m * j)%nat by lia. now rewrite drop_app_add.
Qed.

Lemma concat_take {A} (m : nat) (ls : list (list A)) : Forall (fun l => length l = m) ls ->
  forall j, concat (take j ls) = take (m * j) (concat ls).
Proof.
  induction 1 as [|l ls Hl _ IH]; intros j; [cbn; now rewrite !take_nil|].
  destruct j as [|j]; [now rewrite Nat.mul_0_r|]. cbn [take concat]. rewrite IH.
  replace (m * S j)%nat with (length l + m * j)%nat by lia. now rewrite take_app_add.
Qed.

Lemma chips_sized inverted chips groups : Forall2 (heard_chip inverted) chips groups ->
  Forall (fun gs => length gs = 10%nat) groups.
Proof. induction 1 as [|c gs cs gss [Hl _ _] _ IH]; constructor; assumption. Qed.

(** A part of a list read index by index. *)
Lemma read_part {A B} (d : A) (f : A -> B) (l : list A) c n : 0 <= c -> 0 <= n -> c + n <= Z.of_nat (length l) ->
  map (fun i => f (vget d l (i + c))) (seqZ 0 n) = map f (take (Z.to_nat n) (drop (Z.to_nat c) l)).
Proof.
  intros Hc Hn Hl. rewrite <- (map_map (fun i => vget d l (i + c)) f). f_equal. apply (vget_ext d).
  { rewrite length_map, length_seqZ, length_take, length_drop. lia. }
  rewrite length_map, length_seqZ. intros i Hi.
  rewrite (vget_fmap 0) by (unfold in_range; rewrite length_seqZ; lia). rewrite vget_seqZ by lia.
  unfold vget. destruct (Z.ltb_spec (0 + i + c) 0), (Z.ltb_spec i 0); try lia.
  rewrite nth_firstn, nth_skipn. destruct (Nat.ltb_spec (Z.to_nat i) (Z.to_nat n)); [|lia]. f_equal. lia.
Qed.

Section stream.
Context `{Calendar} (inverted : bool) (sent : list (bool * list bool)) (groups : list (list Gnss_Synchro)).
Let strings : list (list bool) := map (fun s => string_chips s.1 s.2) sent.
Hypothesis sent_all : Forall sent_ok sent.
Hypothesis heard_all : Forall2 (heard_chip inverted) (concat strings) groups.
Let symbols : list Gnss_Synchro := concat groups.
(** The block begins to hear at symbol [k], in the first string. *)
Context (k : Z) (Hk : 0 < k < 2000).
Let n : Z := Z.of_nat (length sent).
Hypothesis short : 2000 * n <= 10 ^ 9.

Lemma shapes : Forall string_shape strings.
Proof.
  apply Forall_map. eapply Forall_impl; [exact sent_all|]. intros s Hs. apply string_chips_shape, sent_length. exact Hs.
Qed.

Lemma symbols_length : Z.of_nat (length symbols) = 2000 * n.
Proof.
  unfold symbols. rewrite (groups_length _ _ _ heard_all), (strings_length _ shapes). unfold strings, n.
  rewrite length_map. lia.
Qed.

(** The oldest symbol in the history when [a] symbols of the stream are past. *)
Definition oldest (a : Z) : Z := Z.max k (a - 2000).

Definition history_at (a : Z) : list Gnss_Synchro := drop (Z.to_nat (oldest a)) (take (Z.to_nat a) symbols).

Lemma history_length a : k <= a <= 2000 * n -> Z.of_nat (length (history_at a)) = a - oldest a.
Proof.
  intros Ha. pose proof symbols_length. unfold history_at, oldest. rewrite length_drop, length_take. lia.
Qed.

Lemma history_next a g : k <= a < 2000 * n -> symbols !! Z.to_nat a = Some g ->
  drop (Z.to_nat (Z.of_nat (length (history_at a ++ [g])) - 2000)) (history_at a ++ [g]) = history_at (a + 1).
Proof.
  intros Ha Eg. pose proof symbols_length as Hs.
  assert (history_at a ++ [g] = drop (Z.to_nat (oldest a)) (take (Z.to_nat (a + 1)) symbols)) as E.
  { replace (Z.to_nat (a + 1)) with (S (Z.to_nat a)) by lia. rewrite (take_S_r _ _ _ Eg).
    rewrite drop_app_le by (rewrite length_take; unfold oldest; lia). reflexivity. }
  rewrite length_app, Nat2Z.inj_add, history_length by lia. rewrite E, drop_drop.
  unfold history_at. f_equal. change (Z.of_nat (length [g])) with 1. unfold oldest. lia.
Qed.

Lemma vget_history a i : k <= a <= 2000 * n -> 0 <= i < a - oldest a ->
  vget fzero (map Prompt_I (history_at a)) i = vget fzero (map Prompt_I symbols) (oldest a + i).
Proof.
  intros Ha Hi. pose proof symbols_length as Hs. unfold history_at.
  rewrite <- skipn_map, <- firstn_map. unfold vget.
  destruct (Z.ltb_spec i 0), (Z.ltb_spec (oldest a + i) 0); try (unfold oldest in *; lia).
  rewrite nth_skipn, nth_firstn.
  destruct (Nat.ltb_spec (Z.to_nat (oldest a) + Z.to_nat i) (Z.to_nat a)); [|unfold oldest in *; lia].
  f_equal. unfold oldest. lia.
Qed.

(** The time mark, in a block that has heard the stream up to symbol [a]. *)
Record heard_upto (a : Z) (d : gnav_tlm) : Prop := {
  hu_preamble : d_preambles_symbols d = preamble_samples;
  hu_history : d_symbol_history d = history_at a;
  hu_counter : d_sample_counter d = a - k
}.

Lemma mark_at a d : heard_upto a d -> k <= a <= 2000 * n ->
  preamble_detected d = (a mod 2000 =? 0) && (4000 <=? a) /\
  (a mod 2000 = 0 -> 4000 <= a -> corr_value d = if inverted then -300 else 300).
Proof.
  intros [Hp Hh Hc] Ha. unfold preamble_detected, corr_value, GLONASS_GNAV_PREAMBLE_LENGTH_SYMBOLS.
  rewrite Hp, Hh, history_length by exact Ha.
  destruct (Z.leb_spec 300 (a - oldest a)) as [Hl|Hl].
  - destruct (no_false_mark inverted strings groups shapes heard_all (oldest a) (map Prompt_I (history_at a))) as [H1 H2].
    + unfold oldest. lia.
    + unfold strings. rewrite length_map. fold n. lia.
    + intros i Hi. rewrite vget_window by (unfold oldest; lia). apply vget_history; lia.
    + rewrite H1. assert ((oldest a mod 2000 =? 0) = (a mod 2000 =? 0) && (4000 <=? a)) as E.
      { unfold oldest. pose proof (Z.mod_small k 2000). pose proof (Z.div_mod a 2000 ltac:(lia)).
        destruct (Z.max_spec k (a - 2000)) as [[Hm Em]|[Hm Em]]; rewrite Em.
        - assert ((a - 2000) mod 2000 = a mod 2000) as ->
            by (replace a with (a - 2000 + 1 * 2000) at 2 by lia; now rewrite Z.mod_add by lia).
          destruct (Z.eqb_spec (a mod 2000) 0); [|reflexivity]. cbn [andb]. symmetry. apply Z.leb_le. lia.
        - replace (k mod 2000 =? 0) with false by lia. symmetry.
          destruct (Z.eqb_spec (a mod 2000) 0); [|reflexivity]. cbn [andb]. apply Z.leb_gt. lia. }
      split; [exact E|]. intros Hm H4. apply H2. apply Z.eqb_eq. rewrite E.
      rewrite Hm. apply Z.leb_le in H4. now rewrite H4.
  - split; [|intros _ H4; exfalso; unfold oldest in *; lia]. cbn [Z.abs Z.leb Z.compare].
    destruct (Z.eqb_spec (a mod 2000) 0); [|reflexivity]. symmetry. apply Z.leb_gt. unfold oldest in *. lia.
Qed.

(** ** The bits of a string *)

Definition bits_of (i : Z) : list bool := (vget (false, []) sent i).2.

Lemma groups_sized : Forall (fun gs => length gs = 10%nat) groups.
Proof. exact (chips_sized _ _ _ heard_all). Qed.

Lemma strings_sized : Forall (fun c => length c = 200%nat) strings.
Proof. eapply Forall_impl; [exact shapes|]. intros c Hc. apply Hc. Qed.

Lemma string_chips_at i : 0 <= i < n ->
  take 200 (drop (200 * Z.to_nat i) (concat strings)) =
  string_chips (vget (false, []) sent i).1 (bits_of i).
Proof.
  intros Hi. rewrite <- (concat_drop 200 strings strings_sized).
  assert (strings !! Z.to_nat i = Some (string_chips (vget (false, []) sent i).1 (bits_of i))) as E.
  { unfold strings. transitivity ((fun s => string_chips s.1 s.2) <$> sent !! Z.to_nat i); [apply list_lookup_fmap|].
    now rewrite (lookup_vget (false, [])) by exact Hi. }
  rewrite (drop_S _ _ _ E). cbn [concat]. rewrite take_app_le.
  - apply take_ge. pose proof (Forall_lookup_1 _ _ _ _ strings_sized E) as Hl. cbn beta in Hl. lia.
  - pose proof (Forall_lookup_1 _ _ _ _ strings_sized E) as Hl. cbn beta in Hl. lia.
Qed.

(** The symbols of string [i] after its time mark. *)
Definition data_of (i : Z) : list Gnss_Synchro := take 1700 (drop (2000 * Z.to_nat i + 300) symbols).

Lemma data_heard i : 0 <= i < n ->
  data_bits (relative (bi_binary (map (fun g => upright inverted (Prompt_I g)) (data_of i)))) =
  bits_str (bits_of i).
Proof.
  intros Hi. assert (sent_ok (vget (false, []) sent i)) as Hs by (now apply Forall_in_vget).
  pose proof (sent_length _ Hs) as Hl. destruct Hs as [H0 _]. fold (bits_of i) in *.
  assert (data_of i = concat (take 170 (drop (200 * Z.to_nat i + 30) groups))) as ->.
  { unfold data_of, symbols. rewrite (concat_take 10), (concat_drop 10) by
      (first [exact groups_sized|apply Forall_drop; exact groups_sized]).
    f_equal. f_equal. lia. }
  apply (string_heard inverted (vget (false, []) sent i).1); [exact Hl|exact H0|].
  assert (bi_binary_chips (relative_code (vget (false, []) sent i).1 (bits_of i)) =
    take 170 (drop (200 * Z.to_nat i + 30) (concat strings))) as ->.
  { transitivity (drop 30 (string_chips (vget (false, []) sent i).1 (bits_of i))); [reflexivity|].
    rewrite <- string_chips_at by exact Hi. rewrite skipn_firstn_comm, drop_drop. reflexivity. }
  apply Forall2_take, Forall2_drop. exact heard_all.
Qed.

Lemma string_symbols_at i d : 1 <= i < n -> heard_upto (2000 * (i + 1)) d ->
  string_symbols d = map (fun g => upright inverted (Prompt_I g)) (data_of i).
Proof.
  intros Hi Hd. pose proof symbols_length as Hs.
  destruct (mark_at _ _ Hd ltac:(lia)) as [_ Hc].
  assert (corr_value d = if inverted then -300 else 300) as Ec.
  { apply Hc; [|lia]. rewrite Z.mul_comm. apply Z.mod_mul. lia. }
  assert (oldest (2000 * (i + 1)) = 2000 * i) as Eo by (unfold oldest; lia).
  unfold string_symbols. rewrite Ec, (hu_history _ _ Hd).
  unfold GLONASS_GNAV_STRING_SYMBOLS, GLONASS_GNAV_PREAMBLE_LENGTH_SYMBOLS.
  transitivity (map (fun j => upright inverted (vget dzero (map Prompt_I (history_at (2000 * (i + 1)))) (j + 300))) (seqZ 0 1700)).
  { apply map_ext. intros j. cbv zeta. now destruct inverted. }
  rewrite read_part by (rewrite ?length_map, ?history_length, ?Eo; lia).
  unfold history_at. rewrite Eo, <- skipn_map, <- firstn_map, <- (map_map Prompt_I (upright inverted)).
  rewrite !skipn_map, !firstn_map, !map_map. f_equal. unfold data_of.
  rewrite drop_drop, skipn_firstn_comm, take_take. f_equal; [lia|]. f_equal. lia.
Qed.

(** ** One symbol of the stream *)

(** A block that follows the stream up to symbol [a]. *)
Record following (a : Z) (d : gnav_tlm) : Prop := {
  fo_heard : heard_upto a d;
  fo_stat : if a <? 4000 then d_stat d = 0
            else if a <? 6000 then d_stat d = 1 /\ d_preamble_index d = 4000 - k
            else d_stat d = 2 /\ d_preamble_index d = 2000 * (a / 2000) - k;
  fo_errors : d_CRC_error_counter d = 0;
  fo_sync : d_flag_frame_sync d = (8000 <=? a);
  fo_tow : at_most_ms (2 ^ 31 + 2 * a) (d_TOW_at_current_symbol d);
  fo_new : flag_TOW_new (d_nav d) = false
}.

Lemma heard_upto_locked a d d' : locked d' = locked d -> heard_upto a d -> heard_upto a d'.
Proof. intros [= H1 H2 H3 H4 H5 H6 H7] [P1 P2 P3]. constructor; congruence. Qed.

Lemma receive_upto a g d : heard_upto a d -> k <= a < 2000 * n -> symbols !! Z.to_nat a = Some g ->
  heard_upto (a + 1) (receive_symbol g d).
Proof.
  intros [H1 H2 H3] Ha Eg. constructor.
  - exact H1.
  - cbn [receive_symbol d_symbol_history update]. rewrite H2. apply history_next; assumption.
  - cbn [receive_symbol d_sample_counter update]. rewrite H3, wrap_small by lia. lia.
Qed.

(** The end of a symbol once synchronisation is done with it. *)
Lemma end_of_symbol a g d : 0 <= a + 1 <= 10 ^ 9 -> flag_TOW_new (d_nav d) = false ->
  at_most_ms (2 ^ 31 + 2 * a) (d_TOW_at_current_symbol d) ->
  exists o d', (modify update_tow;; make_output g) d = (Returns o, d') /\ heard d' = heard d /\
    locked d' = locked d /\ at_most_ms (2 ^ 31 + 2 * (a + 1)) (d_TOW_at_current_symbol d').
Proof.
  intros Ha En Ht. rewrite run_modify.
  destruct (update_tow_tick d (or_intror En)) as (E1 & E2 & E3).
  assert (at_most_ms (2 ^ 31 + 2 * (a + 1)) (d_TOW_at_current_symbol (update_tow d))) as Ht'.
  { rewrite E1. replace (2 ^ 31 + 2 * (a + 1)) with (2 ^ 31 + 2 * a + 2) by lia. apply tick_range; [exact Ht|lia]. }
  destruct (make_output_fits g _ _ Ht' ltac:(lia)) as (o & d' & E & F1 & F2 & F3 & _).
  exists o, d'. split; [exact E|]. rewrite F1, F2, F3. auto.
Qed.

Lemma frame_sync_quiet a d : following a d -> k <= a < 2000 * n ->
  (a + 1) mod 2000 <> 0 \/ a + 1 < 8000 -> forall d1, heard_upto (a + 1) d1 ->
  (d_stat d1, d_preamble_index d1, d_CRC_error_counter d1, d_flag_frame_sync d1) =
  (d_stat d, d_preamble_index d, d_CRC_error_counter d, d_flag_frame_sync d) ->
  exists d2, frame_sync d1 = (Returns tt, d2) /\ heard d2 = heard d1 /\ heard_upto (a + 1) d2 /\
    d_TOW_at_current_symbol d2 = d_TOW_at_current_symbol d1 /\
    (if a + 1 <? 4000 then d_stat d2 = 0
     else if a + 1 <? 6000 then d_stat d2 = 1 /\ d_preamble_index d2 = 4000 - k
     else d_stat d2 = 2 /\ d_preamble_index d2 = 2000 * ((a + 1) / 2000) - k) /\
    d_CRC_error_counter d2 = 0 /\ d_flag_frame_sync d2 = (8000 <=? a + 1).
Proof.
  intros [Hh Hst He Hsy Ht Hn] Ha Hq d1 H1 [= E1 E2 E3 E4].
  destruct (mark_at (a + 1) d1 H1 ltac:(lia)) as [Hm _]. pose proof (hu_counter _ _ H1) as Hc.
  rewrite <- E1, <- E2 in Hst. rewrite He in E3. rewrite Hsy in E4.
  assert ((a + 1) mod 2000 = 0 \/ (a + 1) mod 2000 <> 0) as Hz by lia.
  pose proof (Z.div_mod (a + 1) 2000 ltac:(lia)) as Ed. pose proof (Z.mod_pos_bound (a + 1) 2000 ltac:(lia)) as Hb.
  pose proof (Z.div_mod a 2000 ltac:(lia)) as Ed0. pose proof (Z.mod_pos_bound a 2000 ltac:(lia)) as Hb0.
  assert ((8000 <=? a + 1) = (8000 <=? a)) as E8 by (destruct (Z.leb_spec 8000 (a + 1)), (Z.leb_spec 8000 a); lia).
  unfold frame_sync. rewrite run_gets.
  destruct (Z.ltb_spec a 4000) as [H4|H4]; [|destruct (Z.ltb_spec a 6000) as [H6|H6]].
  - rewrite Hst. exists (search_preamble d1). split; [reflexivity|]. unfold search_preamble. rewrite Hm, E8.
    destruct (Z.eq_dec (a + 1) 4000) as [E|Hne].
    + rewrite E. cbn [Z.modulo Z.eqb Z.leb Z.ltb andb]. change (4000 mod 2000 =? 0) with true. cbn [andb].
      change (4000 <=? 4000) with true. change (4000 <? 4000) with false. change (4000 <? 6000) with true. cbv iota.
      rewrite E in *. repeat split; try assumption; try apply H1; cbn [d_preamble_index update]; lia.
    + assert (((a + 1) mod 2000 =? 0) && (4000 <=? a + 1) = false) as ->.
      { destruct (Z.leb_spec 4000 (a + 1)); [lia|apply andb_false_r]. }
      replace (a + 1 <? 4000) with true by lia. auto 10.
  - destruct Hst as [Hst Hi]. rewrite Hst. exists (confirm_preamble d1). split; [reflexivity|].
    unfold confirm_preamble. rewrite Hm, E8. replace (a + 1 <? 4000) with false by lia.
    destruct (Z.eq_dec (a + 1) 6000) as [E|Hne].
    + assert (((a + 1) mod 2000 =? 0) && (4000 <=? a + 1) = true) as -> by (rewrite E; reflexivity).
      cbv zeta. rewrite Hi, Hc, E. replace (6000 - k - (4000 - k)) with 2000 by lia.
      change (i32 2000) with 2000. change (Z.abs (2000 - GLONASS_GNAV_PREAMBLE_PERIOD_SYMBOLS) =? 0) with true. cbv iota.
      change (6000 <? 6000) with false. change (2000 * (6000 / 2000)) with 6000. rewrite E in *. cbv iota.
      repeat split; try assumption; try apply H1; cbn [d_preamble_index publish update]; lia.
    + assert (((a + 1) mod 2000 =? 0) = false) as -> by (apply Z.eqb_neq; lia). cbn [andb].
      replace (a + 1 <? 6000) with true by lia. auto 10.
  - destruct Hst as [Hst Hi]. rewrite Hst. exists d1.
    assert ((a + 1) mod 2000 <> 0) as Hne by lia.
    assert ((a + 1) / 2000 = a / 2000) as Eq by lia.
    replace (a + 1 <? 4000) with false by lia. replace (a + 1 <? 6000) with false by lia. rewrite E8, Eq.
    split; [|auto 10]. unfold end_string. rewrite run_gets. unfold id, GLONASS_GNAV_STRING_SYMBOLS.
    rewrite Hc, Hi. change (u64 2000) with 2000. rewrite wrap_small by lia.
    replace (a + 1 - k =? 2000 * (a / 2000) - k + 2000) with false by lia. reflexivity.
Qed.

Lemma quiet_step a g d : following a d -> k <= a < 2000 * n -> symbols !! Z.to_nat a = Some g ->
  (a + 1) mod 2000 <> 0 \/ a + 1 < 8000 ->
  exists o d', general_work g d = (Returns o, d') /\ following (a + 1) d' /\ heard d' = heard d.
Proof.
  intros Hf Ha Eg Hq. pose proof Hf as [Hh Hst He Hsy Ht Hn].
  destruct (frame_sync_quiet a d Hf Ha Hq (receive_symbol g d) (receive_upto a g d Hh Ha Eg) eq_refl)
    as (d2 & E2 & Eh & Hu & Et & Hs & Hc & Hf2).
  assert (heard (receive_symbol g d) = heard d) as Er by reflexivity.
  assert (flag_TOW_new (d_nav d2) = false) as Hn2.
  { transitivity (flag_TOW_new (h_nav (heard d2))); [reflexivity|]. rewrite Eh, Er. exact Hn. }
  destruct (end_of_symbol a g d2 ltac:(lia) Hn2) as (o & d' & E & F1 & F2 & F3); [rewrite Et; exact Ht|].
  exists o, d'. split.
  { unfold general_work. rewrite run_modify. unfold bind at 1. rewrite E2. exact E. }
  split; [|rewrite F1, Eh; exact Er]. pose proof F2 as [= G1 G2 G3 G4 G5 G6 G7].
  constructor; [exact (heard_upto_locked _ _ _ F2 Hu)|rewrite G4, G5; exact Hs|congruence|congruence|exact F3|].
  transitivity (flag_TOW_new (h_nav (heard d'))); [reflexivity|]. now rewrite F1.
Qed.

Lemma string_end i d : 3 <= i < n -> following (2000 * (i + 1) - 1) d ->
  forall d1 h, heard_upto (2000 * (i + 1)) d1 -> d_stat d1 = d_stat d -> d_preamble_index d1 = d_preamble_index d ->
  heard d1 = heard d -> hear (bits_str (bits_of i)) (heard d) = Returns h ->
  exists d2, frame_sync d1 = (Returns tt, d2) /\ heard d2 = h /\ d_flag_preamble d2 = true /\
    d_TOW_at_current_symbol d2 = d_TOW_at_current_symbol d1 /\
    locked d2 = (preamble_samples, history_at (2000 * (i + 1)), 2000 * (i + 1) - k, 2000 * (i + 1) - k, 2, 0, true).
Proof.
  intros Hi [_ Hst _ _ _ _] d1 h H1 E1 E2 E3 Eh.
  assert (sent_ok (vget (false, []) sent i)) as Hs by (apply Forall_in_vget; [exact sent_all|unfold in_range; fold n; lia]).
  pose proof (sent_length _ Hs) as Hl. destruct Hs as [_ Hcode]. fold (bits_of i) in *.
  replace (2000 * (i + 1) - 1 <? 4000) with false in Hst by lia.
  replace (2000 * (i + 1) - 1 <? 6000) with false in Hst by lia.
  replace ((2000 * (i + 1) - 1) / 2000) with i in Hst by (apply (Z.div_unique _ _ _ 1999); lia).
  destruct Hst as [Hst Hx]. rewrite <- E1 in Hst. rewrite <- E2 in Hx.
  unfold frame_sync. rewrite run_gets, Hst. unfold end_string. rewrite run_gets. unfold id, GLONASS_GNAV_STRING_SYMBOLS.
  rewrite (hu_counter _ _ H1), Hx. change (u64 2000) with 2000. rewrite wrap_small by lia.
  replace (2000 * (i + 1) - k =? 2000 * i - k + 2000) with true by lia.
  rewrite (string_symbols_at i d1 ltac:(lia) H1). unfold decode_string. rewrite (data_heard i ltac:(lia)).
  rewrite <- E3 in Eh. destruct (hear_decode _ d1 h Eh) as (d2 & Ed & Eh2 & Es).
  pose proof (decode_bits_crc (bits_of i) d1 Hl) as Hc. rewrite Ed in Hc. cbn [snd] in Hc.
  rewrite (code_word_accepted _ Hcode) in Hc.
  exists (good_string d2). unfold bind at 1. rewrite Ed. unfold modify. rewrite Hc.
  pose proof Es as [= F1 F2 F3 F4 F5 F6 F7 F8 F9].
  split; [reflexivity|]. split; [exact Eh2|]. split; [reflexivity|]. split; [exact F3|].
  unfold locked, good_string. cbn [update d_preambles_symbols d_symbol_history d_sample_counter d_preamble_index d_stat d_CRC_error_counter d_flag_frame_sync].
  rewrite F1, F2, F4, F6, (hu_preamble _ _ H1), (hu_history _ _ H1), (hu_counter _ _ H1), Hst. reflexivity.
Qed.

Lemma string_step i g d h : 3 <= i < n -> following (2000 * (i + 1) - 1) d ->
  symbols !! Z.to_nat (2000 * (i + 1) - 1) = Some g ->
  hear (bits_str (bits_of i)) (heard d) = Returns h -> tow_fits h ->
  exists o d', general_work g d = (Returns o, d') /\ following (2000 * (i + 1)) d' /\ heard d' = take_TOW h.
Proof.
  intros Hi Hf Eg Eh Hfit. pose proof Hf as [Hh Hst He Hsy Ht Hn].
  pose proof (receive_upto _ g d Hh ltac:(lia) Eg) as H1.
  replace (2000 * (i + 1) - 1 + 1) with (2000 * (i + 1)) in H1 by lia.
  destruct (string_end i d Hi Hf (receive_symbol g d) h H1 eq_refl eq_refl eq_refl Eh) as (d2 & E2 & Eh2 & Ep & Et & El).
  assert (exists o d', (modify update_tow;; make_output g) d2 = (Returns o, d') /\ heard d' = take_TOW h /\
    locked d' = locked d2 /\ at_most_ms (2 ^ 31 + 2 * (2000 * (i + 1))) (d_TOW_at_current_symbol d')) as (o & d' & E & F1 & F2 & F3).
  { assert (flag_TOW_new (d_nav d2) = flag_TOW_new (h_nav h)) as En by (now rewrite <- Eh2).
    destruct (flag_TOW_new (h_nav h)) eqn:Enew.
    - destruct (update_tow_new d2 En Ep) as (U1 & U2 & U3). specialize (Hfit Enew).
      rewrite run_modify. destruct (make_output_fits g (update_tow d2) (2 ^ 31)) as (o & d' & E & G1 & G2 & G3 & _).
      { rewrite U1. rewrite <- Eh2 in Hfit. exact Hfit. }
      { lia. }
      exists o, d'. split; [exact E|]. rewrite G1, U2, Eh2, G2, U3, G3, U1. split; [reflexivity|]. split; [reflexivity|].
      rewrite <- Eh2 in Hfit. destruct Hfit as [P1 P2]. split; [exact P1|]. etransitivity; [exact P2|].
      apply Z.mul_le_mono_nonneg_r; [apply Z.pow_nonneg|]; lia.
    - rewrite (take_TOW_none h Enew).
      destruct (end_of_symbol (2000 * (i + 1) - 1) g d2 ltac:(lia) En) as (o & d' & E & G1 & G2 & G3); [rewrite Et; exact Ht|].
      replace (2000 * (i + 1) - 1 + 1) with (2000 * (i + 1)) in G3 by lia.
      exists o, d'. rewrite G1, Eh2. auto. }
  exists o, d'. split.
  { unfold general_work. rewrite run_modify. unfold bind at 1. rewrite E2. exact E. }
  split; [|exact F1]. rewrite El in F2. injection F2 as G1 G2 G3 G4 G5 G6 G7.
  constructor; [now constructor| |exact G6| |exact F3|].
  - replace (2000 * (i + 1) <? 4000) with false by lia. replace (2000 * (i + 1) <? 6000) with false by lia.
    replace (2000 * (i + 1) / 2000) with (i + 1) by (apply (Z.div_unique _ _ _ 0); lia). auto.
  - rewrite G7. symmetry. apply Z.leb_le. lia.
  - transitivity (flag_TOW_new (h_nav (heard d'))); [reflexivity|]. now rewrite F1.
Qed.

(** ** The stream, from its beginning *)

Lemma strings_quiet m : forall a d, following a d -> k <= a -> a + Z.of_nat m <= 2000 * n ->
  (forall j, a < j <= a + Z.of_nat m -> j mod 2000 <> 0 \/ j < 8000) ->
  exists os d', gnav_run (take m (drop (Z.to_nat a) symbols)) d = (Returns os, d') /\
    following (a + Z.of_nat m) d' /\ heard d' = heard d /\ length os = m.
Proof.
  induction m as [|m IH]; intros a d Hf Ha Hn Hq.
  - exists [], d. rewrite Z.add_0_r. now rewrite take_0.
  - destruct (lookup_lt_is_Some_2 symbols (Z.to_nat a)) as [g Eg]; [pose proof symbols_length; lia|].
    destruct (quiet_step a g d Hf ltac:(lia) Eg (Hq (a + 1) ltac:(lia))) as (o & d1 & E1 & Hf1 & Eh1).
    destruct (IH (a + 1) d1 Hf1 ltac:(lia) ltac:(lia)) as (os & d2 & E2 & Hf2 & Eh2 & Hl).
    { intros j Hj. apply Hq. lia. }
    exists (o :: os), d2. rewrite (drop_S _ _ _ Eg). cbn [take].
    replace (S (Z.to_nat a)) with (Z.to_nat (a + 1)) by lia.
    split; [exact (gnav_run_cons g _ d o d1 os d2 E1 E2)|].
    replace (a + Z.of_nat (S m)) with (a + 1 + Z.of_nat m) by lia.
    split; [exact Hf2|]. split; [congruence|]. cbn. now rewrite Hl.
Qed.

Definition bits_from (i : Z) : list (list bool) := map snd (drop (Z.to_nat i) sent).

Lemma bits_from_step i : 0 <= i < n -> bits_from i = bits_of i :: bits_from (i + 1).
Proof.
  intros Hi. unfold bits_from, bits_of. assert (sent !! Z.to_nat i = Some (vget (false, []) sent i)) as E.
  { apply lookup_vget. exact Hi. }
  rewrite (drop_S _ _ _ E). replace (Z.to_nat (i + 1)) with (S (Z.to_nat i)) by lia. reflexivity.
Qed.

Lemma strings_run m : forall i d h, 3 <= i -> i + 1 + Z.of_nat m = n -> following (2000 * (i + 1) - 1) d ->
  hear_strings (bits_from i) (heard d) h ->
  exists os d', gnav_run (drop (Z.to_nat (2000 * (i + 1) - 1)) symbols) d = (Returns os, d') /\
    following (2000 * n) d' /\ heard d' = h.
Proof.
  induction m as [|m IH]; intros i d h Hi Hm Hf Hh; rewrite bits_from_step in Hh by lia;
    inversion Hh as [|bits rest h0 h1 h2 Hb Hfit Hr E1 E2]; subst; clear Hh.
  all: destruct (lookup_lt_is_Some_2 symbols (Z.to_nat (2000 * (i + 1) - 1))) as [g Eg]; [pose proof symbols_length; lia|].
  all: destruct (string_step i g d h1 ltac:(lia) Hf Eg Hb Hfit) as (o & d1 & F1 & Hf1 & Eh1).
  all: rewrite (drop_S _ _ _ Eg); replace (S (Z.to_nat (2000 * (i + 1) - 1))) with (Z.to_nat (2000 * (i + 1))) by lia.
  - assert (i + 1 = n) as En by lia. rewrite En in *.
    assert (bits_from n = []) as Ez by (unfold bits_from; rewrite drop_ge by (unfold n; lia); reflexivity).
    rewrite Ez in Hr. inversion Hr. subst.
    rewrite drop_ge by (pose proof symbols_length; lia).
    exists [o], d1. split; [|auto]. exact (gnav_run_cons g [] d o d1 [] d1 F1 eq_refl).
  - destruct (strings_quiet 1999 (2000 * (i + 1)) d1 Hf1 ltac:(lia) ltac:(lia)) as (os1 & d2 & F2 & Hf2 & Eh2 & _).
    { intros j Hj. left. intros E. pose proof (Z.div_mod j 2000 ltac:(lia)). lia. }
    replace (2000 * (i + 1) + Z.of_nat 1999) with (2000 * (i + 1 + 1) - 1) in Hf2 by lia.
    rewrite <- Eh1, <- Eh2 in Hr.
    destruct (IH (i + 1) d2 h ltac:(lia) ltac:(lia) Hf2 Hr) as (os2 & d3 & F3 & Hf3 & Eh3).
    exists (o :: os1 ++ os2), d3. split; [|auto].
    apply (gnav_run_cons _ _ _ _ d1); [exact F1|].
    rewrite <- (take_drop 1999 (drop (Z.to_nat (2000 * (i + 1))) symbols)), drop_drop.
    replace (Z.to_nat (2000 * (i + 1)) + 1999)%nat with (Z.to_nat (2000 * (i + 1 + 1) - 1)) by lia.
    exact (gnav_run_app _ _ _ _ _ _ _ F2 F3).
Qed.

(** A block that begins to hear the stream hears all its strings from the fourth. *)
Lemma strings_heard d h : 4 <= n -> following k d -> hear_strings (bits_from 3) (heard d) h ->
  exists os d', gnav_run (drop (Z.to_nat k) symbols) d = (Returns os, d') /\ following (2000 * n) d' /\ heard d' = h.
Proof.
  intros Hn Hf Hh.
  destruct (strings_quiet (Z.to_nat (7999 - k)) k d Hf ltac:(lia) ltac:(lia)) as (os1 & d1 & E1 & Hf1 & Eh1 & _).
  { intros j Hj. right. lia. }
  replace (k + Z.of_nat (Z.to_nat (7999 - k))) with (2000 * (3 + 1) - 1) in Hf1 by lia. rewrite <- Eh1 in Hh.
  destruct (strings_run (Z.to_nat (n - 4)) 3 d1 h ltac:(lia) ltac:(lia) Hf1 Hh) as (os2 & d2 & E2 & Hf2 & Eh2).
  exists (os1 ++ os2), d2. split; [|auto].
  rewrite <- (take_drop (Z.to_nat (7999 - k)) (drop (Z.to_nat k) symbols)), drop_drop.
  replace (Z.to_nat k + Z.to_nat (7999 - k))%nat with (Z.to_nat (2000 * (3 + 1) - 1)) by lia.
  exact (gnav_run_app _ _ _ _ _ _ _ E1 E2).
Qed.
End stream.
