(* ===== verification/GnavFields.v ===== *)
(** * GnavFields: the strings of an ephemeris, field by field

    The five strings of the immediate data of a GLONASS frame as the satellite
    fills them: each field at the bits that the interface control document gives
    it, counted there from 85 down to 1, signed fields in sign and magnitude,
    then the check bits.  What the readers of GnavMessage find in them is what
    was written. *)

From S2P Require Import Prelude Cstring Float64 MathConstants InavTables InavWords InavReaders FieldLayout GnavTables GnavMessage GnavHamming GnavCode.
From stdpp Require Import list.
From Stdlib Require Import ZArith Lia Bool.
Local Open Scope Z_scope.

(** ** Writing *)

(** [len] bits, of which the first one is bit [first] of the document. *)
Definition icd (first len : Z) : bit_field := [(86 - first, len)].

(** Sign and magnitude. *)
Definition sign_magnitude (len v : Z) : Z := if v <? 0 then 2 ^ (len - 1) - v else v.

Definition signed_field (first len v : Z) : bit_field * Z := (icd first len, sign_magnitude len v).

Definition fits_u (len v : Z) : bool := (0 <=? v) && (v <? 2 ^ len).
Definition fits_m (len v : Z) : bool := (- 2 ^ (len - 1) <? v) && (v <? 2 ^ (len - 1)).

(** A string: the data bits, of which the first one is idle, and the check bits. *)
Definition write_string (fields : list (bit_field * Z)) : list bool := add_check_bits (write_bits 77 fields).

Lemma write_string_word fields : length (write_string fields) = 85%nat /\ code_word (rev (write_string fields)).
Proof.
  split; [apply add_check_bits_length, write_bits_length|apply add_check_bits_word, write_bits_length].
Qed.

(** ** Reading *)

Lemma vget_data data c pos : length data = 77%nat -> length c = 8%nat -> 1 <= pos <= 77 ->
  vget false (rev (data ++ c)) (85 - pos) = vget false data (pos - 1).
Proof.
  intros Hd Hc Hp. rewrite vget_rev by (rewrite length_app, Hd, Hc; lia).
  rewrite length_app, Hd, Hc, vget_app by lia. rewrite Hd.
  change (Z.of_nat (77 + 8)) with 85. change (Z.of_nat 77) with 77. replace (85 - 1 - (85 - pos)) with (pos - 1) by lia.
  now replace (pos - 1 <? 77) with true by lia.
Qed.

Lemma string_field fields first len v : layout_in 77 fields = true -> In ([(first, len)], v) fields -> 0 <= len ->
  slice_bits 85 (rev (write_string fields)) first len = to_bin (Z.to_nat len) v.
Proof.
  intros Hok Hin Hlen. pose proof (field_written_in 77 fields _ v Hok Hin) as E.
  pose proof (positions_inside 77 fields _ v Hok Hin) as Hp.
  assert (positions [(first, len)] = seqZ first len) as Es by (unfold positions; cbn [map concat]; apply app_nil_r).
  rewrite Es, length_seqZ in E. rewrite Es in Hp. rewrite <- E.
  unfold field_bits. cbn [map concat]. rewrite app_nil_r. unfold slice_bits. apply map_ext_in. intros j Hj.
  rewrite Forall_forall in Hp. specialize (Hp (first + j)).
  assert (1 <= first + j <= 77) as Hr.
  { apply Hp. apply list_elem_of_In, elem_of_seqZ in Hj. apply elem_of_seqZ. lia. }
  unfold write_string, add_check_bits.
  replace (85 - first - j) with (85 - (first + j)) by lia.
  rewrite vget_data by (reflexivity || apply write_bits_length || (rewrite length_rev; reflexivity) || lia).
  rewrite vget_rev by (rewrite write_bits_length; lia). rewrite write_bits_length. f_equal. lia.
Qed.

Section reading.
Context (fields : list (bit_field * Z)) (Hok : layout_in 77 fields = true).
Let bits := rev (write_string fields).

Lemma read_unsigned first len v : In ([(first, len)], v) fields -> 0 <= len <= 64 -> 0 <= v < 2 ^ len ->
  gnav_read_unsigned bits [(first, len)] = v.
Proof.
  intros Hin Hlen Hv. pose proof (string_field fields first len v Hok Hin ltac:(lia)) as E. fold bits in E.
  assert (field_bits 85 bits [(first, len)] = to_bin (Z.to_nat len) v) as Ef
    by (unfold field_bits; cbn [map concat]; now rewrite app_nil_r).
  transitivity (bin_value (field_bits 85 bits [(first, len)])).
  - apply (unsigned_reader 64); [lia|constructor; [lia|constructor]|]. rewrite Ef, length_to_bin. lia.
  - rewrite Ef, bin_value_to_bin, Z2Nat.id by lia. now apply Z.mod_small.
Qed.

Lemma read_bool first b : In ([(first, 1)], Z.b2z b) fields -> gnav_read_bool bits [(first, 1)] = b.
Proof.
  intros Hin. pose proof (string_field fields first 1 _ Hok Hin ltac:(lia)) as E. fold bits in E.
  unfold gnav_read_bool. cbn [first_bit]. unfold GLONASS_GNAV_STRING_BITS. clearbody bits.
  unfold slice_bits in E. change (seqZ 0 1) with [0] in E. cbn [map] in E. rewrite Z.sub_0_r in E.
  change (to_bin (Z.to_nat 1) (Z.b2z b)) with [Z.testbit (Z.b2z b) 0] in E. injection E as ->. now destruct b.
Qed.

(** The magnitude, below the sign. *)
Lemma magnitude_bits len v : 1 < len -> - 2 ^ (len - 1) < v < 2 ^ (len - 1) ->
  to_bin (Z.to_nat len) (sign_magnitude len v) = (v <? 0) :: to_bin (Z.to_nat (len - 1)) (Z.abs v).
Proof.
  intros Hlen Hv. set (P := 2 ^ (len - 1)) in *. assert (0 < P) as HP by (apply Z.pow_pos_nonneg; lia).
  assert (sign_magnitude len v = Z.b2z (v <? 0) * P + Z.abs v) as ->.
  { unfold sign_magnitude. fold P. destruct (Z.ltb_spec v 0); cbn [Z.b2z]; lia. }
  set (b := v <? 0). clearbody b. assert (0 <= Z.abs v < P) as Ha by lia. set (a := Z.abs v) in *. clearbody a.
  rewrite <- (to_bin_bin_value (b :: to_bin (Z.to_nat (len - 1)) a)). cbn [length]. rewrite length_to_bin.
  replace (S (Z.to_nat (len - 1))) with (Z.to_nat len) by lia. f_equal.
  rewrite bin_value_cons, length_to_bin, bin_value_to_bin, Z2Nat.id by lia. fold P. rewrite Z.mod_small by lia. reflexivity.
Qed.

Lemma read_signed first len v : In (signed_field (86 - first) len v) fields -> 1 < len <= 60 ->
  - 2 ^ (len - 1) < v < 2 ^ (len - 1) -> gnav_read_signed bits [(first, len)] = v.
Proof.
  intros Hin Hlen Hv. unfold signed_field, icd in Hin. replace (86 - (86 - first)) with first in Hin by lia.
  pose proof (string_field fields first len _ Hok Hin ltac:(lia)) as E. fold bits in E.
  rewrite magnitude_bits in E by lia. unfold slice_bits in E. rewrite seqZ_cons in E by lia. cbn [map] in E.
  rewrite Z.sub_0_r in E. injection E as Es Em.
  unfold gnav_read_signed. cbn [first_bit fold_left]. cbv zeta. unfold GLONASS_GNAV_STRING_BITS. rewrite Es.
  assert (for_range 1 len (fun j value =>
    if vget false bits (85 - first - j) then i64 (i64 (Z.shiftl value 1) + 1) else i64 (Z.shiftl value 1)) 0 = Z.abs v) as ->.
  - cut (for_range 1 len (fun j value =>
      if vget false bits (85 - first - j) then i64 (i64 (Z.shiftl value 1) + 1) else i64 (Z.shiftl value 1)) 0 =
      bin_value (map (fun j => vget false bits (85 - first - j)) (seqZ 1 (len - 1)))).
    { intros ->. change (Z.succ 0) with 1 in Em. change (Z.pred len) with (len - 1) in Em. rewrite Em.
      rewrite bin_value_to_bin, Z2Nat.id by lia. apply Z.mod_small. lia. }
    assert (len <= 60) as H60 by lia. clear Es Em Hin Hv.
    apply (for_range_ind (fun m value =>
      value = bin_value (map (fun j => vget false bits (85 - first - j)) (seqZ 1 (m - 1))))); [lia|reflexivity|].
    intros m t Hm ->. replace (m + 1 - 1) with (m - 1 + 1) by lia. rewrite seqZ_app by lia.
    rewrite map_app, (seqZ_cons (1 + (m - 1)) 1), (seqZ_nil _ (Z.pred 1)) by lia. cbn [map].
    replace (1 + (m - 1)) with m by lia. rewrite bin_value_snoc.
    set (bs := map _ (seqZ 1 (m - 1))). pose proof (bin_value_range bs) as Hr.
    assert (Z.of_nat (length bs) = m - 1) as El by (unfold bs; rewrite length_map, length_seqZ; lia).
    rewrite El in Hr. assert (2 ^ (m - 1) <= 2 ^ 60) by (apply Z.pow_le_mono_r; lia).
    rewrite Z.shiftl_mul_pow2 by lia. change (2 ^ 1) with 2.
    rewrite (swrap_small 64 (bin_value bs * 2)) by lia.
    destruct (vget false bits (85 - first - m)); cbn [Z.b2z]; [rewrite swrap_small by lia; lia|lia].
  - assert (2 ^ (len - 1) <= 2 ^ 60) by (apply Z.pow_le_mono_r; lia).
    destruct (Z.ltb_spec v 0); rewrite swrap_small by lia; lia.
Qed.

(** The fields of the decoder's tables. *)
Definition one_slice (p : bit_field) : bool :=
  match p with [(_, len)] => (0 <? len) && (len <=? 60) | _ => false end.

Lemma read_u p v : In (p, v) fields -> one_slice p = true -> fits_u (first_length p) v = true ->
  gnav_read_unsigned bits p = v.
Proof.
  intros Hin Hp Hv. destruct p as [|[first len] [|]]; try discriminate. cbn [one_slice first_length] in *.
  unfold fits_u in Hv. apply read_unsigned; [exact Hin|lia|lia].
Qed.

Lemma read_s p v : In (p, sign_magnitude (first_length p) v) fields -> one_slice p = true ->
  (1 <? first_length p) = true -> fits_m (first_length p) v = true -> gnav_read_signed bits p = v.
Proof.
  intros Hin Hp Hl Hv. destruct p as [|[first len] [|]]; try discriminate. cbn [one_slice first_length] in *.
  unfold fits_m in Hv. apply read_signed; [|lia|lia].
  unfold signed_field, icd. now replace (86 - (86 - first)) with first by lia.
Qed.

Lemma read_b p b : In (p, Z.b2z b) fields -> p = [(first_bit p, 1)] -> gnav_read_bool bits p = b.
Proof. intros Hin Hp. rewrite Hp in *. now apply read_bool. Qed.
End reading.

(** ** The five strings *)

(** The string number, at the same place in every string. *)
Definition string_number (m : Z) : bit_field * Z := (icd 84 4, m).

(** String 1. *)
Record Raw1 := mkRaw1 {
  raw_P1 : Z;
  raw_hours : Z;
  raw_minutes : Z;
  raw_half_minutes : Z;
  raw_x_dot : Z;
  raw_x_dot_dot : Z;
  raw_x : Z
}.
Definition fields_1 (r : Raw1) : list (bit_field * Z) :=
  [string_number 1; (icd 78 2, raw_P1 r); (icd 76 5, raw_hours r); (icd 71 6, raw_minutes r);
   (icd 65 1, raw_half_minutes r); signed_field 64 24 (raw_x_dot r);
   signed_field 40 5 (raw_x_dot_dot r); signed_field 35 27 (raw_x r)].
Definition ok_1 (r : Raw1) : bool :=
  fits_u 2 (raw_P1 r) && fits_u 5 (raw_hours r) && fits_u 6 (raw_minutes r) &&
  fits_u 1 (raw_half_minutes r) && fits_m 24 (raw_x_dot r) && fits_m 5 (raw_x_dot_dot r) &&
  fits_m 27 (raw_x r).
Definition value_1 (r : Raw1) : String1 := {|
  d_P_1 := (raw_P1 r + 1) * 15;
  d_t_k := raw_hours r * 3600 + raw_minutes r * 60 + raw_half_minutes r * 30;
  d_VXn := dmul (double_of_Z (raw_x_dot r)) TWO_N20;
  d_AXn := dmul (double_of_Z (raw_x_dot_dot r)) TWO_N30;
  d_Xn := dmul (double_of_Z (raw_x r)) TWO_N11
|}.

(** String 2. *)
Record Raw2 := mkRaw2 {
  raw_B_n : Z;
  raw_P2 : bool;
  raw_t_b : Z;
  raw_y_dot : Z;
  raw_y_dot_dot : Z;
  raw_y : Z
}.
Definition fields_2 (r : Raw2) : list (bit_field * Z) :=
  [string_number 2; (icd 80 3, raw_B_n r); (icd 77 1, Z.b2z (raw_P2 r)); (icd 76 7, raw_t_b r);
   signed_field 64 24 (raw_y_dot r); signed_field 40 5 (raw_y_dot_dot r);
   signed_field 35 27 (raw_y r)].
Definition ok_2 (r : Raw2) : bool :=
  fits_u 3 (raw_B_n r) && fits_u 7 (raw_t_b r) && fits_m 24 (raw_y_dot r) &&
  fits_m 5 (raw_y_dot_dot r) && fits_m 27 (raw_y r).
Definition value_2 (r : Raw2) : String2 := {|
  d_B_n := raw_B_n r;
  d_P_2 := raw_P2 r;
  d_t_b := raw_t_b r * 15 * 60;
  d_VYn := dmul (double_of_Z (raw_y_dot r)) TWO_N20;
  d_AYn := dmul (double_of_Z (raw_y_dot_dot r)) TWO_N30;
  d_Yn := dmul (double_of_Z (raw_y r)) TWO_N11;
  d_iode := raw_t_b r
|}.

(** String 3. *)
Record Raw3 := mkRaw3 {
  raw_P3 : bool;
  raw_gamma : Z;
  raw_P : Z;
  raw_l_3 : bool;
  raw_z_dot : Z;
  raw_z_dot_dot : Z;
  raw_z : Z
}.
Definition fields_3 (r : Raw3) : list (bit_field * Z) :=
  [string_number 3; (icd 80 1, Z.b2z (raw_P3 r)); signed_field 79 11 (raw_gamma r);
   (icd 67 2, raw_P r); (icd 65 1, Z.b2z (raw_l_3 r)); signed_field 64 24 (raw_z_dot r);
   signed_field 40 5 (raw_z_dot_dot r); signed_field 35 27 (raw_z r)].
Definition ok_3 (r : Raw3) : bool :=
  fits_m 11 (raw_gamma r) && fits_u 2 (raw_P r) && fits_m 24 (raw_z_dot r) &&
  fits_m 5 (raw_z_dot_dot r) && fits_m 27 (raw_z r).
Definition value_3 (r : Raw3) : String3 := {|
  d_P_3 := raw_P3 r;
  d_gamma_n := dmul (double_of_Z (raw_gamma r)) TWO_N40;
  d_P := raw_P r;
  d_l3rd_n := raw_l_3 r;
  d_VZn := dmul (double_of_Z (raw_z_dot r)) TWO_N20;
  d_AZn := dmul (double_of_Z (raw_z_dot_dot r)) TWO_N30;
  d_Zn := dmul (double_of_Z (raw_z r)) TWO_N11
|}.

(** String 4. *)
Record Raw4 := mkRaw4 {
  raw_tau : Z;
  raw_delta_tau : Z;
  raw_E_n : Z;
  raw_P4 : bool;
  raw_F_T : Z;
  raw_N_T : Z;
  raw_n : Z;
  raw_M : Z
}.
Definition fields_4 (r : Raw4) : list (bit_field * Z) :=
  [string_number 4; signed_field 80 22 (raw_tau r); signed_field 58 5 (raw_delta_tau r);
   (icd 53 5, raw_E_n r); (icd 34 1, Z.b2z (raw_P4 r)); (icd 33 4, raw_F_T r);
   (icd 26 11, raw_N_T r); (icd 15 5, raw_n r); (icd 10 2, raw_M r)].
Definition ok_4 (r : Raw4) : bool :=
  fits_m 22 (raw_tau r) && fits_m 5 (raw_delta_tau r) && fits_u 5 (raw_E_n r) &&
  fits_u 4 (raw_F_T r) && fits_u 11 (raw_N_T r) && fits_u 5 (raw_n r) && fits_u 2 (raw_M r).
Definition value_4 (r : Raw4) : String4 := {|
  d_tau_n := dmul (double_of_Z (raw_tau r)) TWO_N30;
  d_Delta_tau_n := dmul (double_of_Z (raw_delta_tau r)) TWO_N30;
  d_E_n := raw_E_n r;
  d_P_4 := raw_P4 r;
  d_F_T := raw_F_T r;
  d_N_T := raw_N_T r;
  d_n := raw_n r;
  d_M := raw_M r
|}.

(** String 5. *)
Record Raw5 := mkRaw5 {
  raw_N_A : Z;
  raw_tau_c : Z;
  raw_N_4 : Z;
  raw_tau_GPS : Z;
  raw_l_5 : bool
}.
Definition fields_5 (r : Raw5) : list (bit_field * Z) :=
  [string_number 5; (icd 80 11, raw_N_A r); signed_field 69 32 (raw_tau_c r); (icd 36 5, raw_N_4 r);
   signed_field 31 22 (raw_tau_GPS r); (icd 9 1, Z.b2z (raw_l_5 r))].
Definition ok_5 (r : Raw5) : bool :=
  fits_u 11 (raw_N_A r) && fits_m 32 (raw_tau_c r) && fits_u 5 (raw_N_4 r) &&
  fits_m 22 (raw_tau_GPS r).

(** What string 5 leaves in the decoder before the time of week. *)
Definition utc_5 (r : Raw5) (u : Glonass_Gnav_Utc_Model) : Glonass_Gnav_Utc_Model :=
  mkGlonass_Gnav_Utc_Model (utc_valid u) (dmul (double_of_Z (raw_tau_c r)) TWO_N31)
    (dmul (double_of_Z (raw_tau_GPS r)) TWO_N30) (raw_N_4 r) (raw_N_A r) (d_B1 u) (d_B2 u).

(** ** What is read *)

(** The bounds of every field. *)
Ltac use_ranges :=
  repeat match goal with
  | Hx : (_ && _) = true |- _ => apply andb_true_iff in Hx as [? ?]
  end.

(** A field is among those written. *)
Ltac field_in := first [assumption|reflexivity|repeat first [left; reflexivity|right]].

Lemma layout_string_1 r : layout_in 77 (fields_1 r) = true.
Proof. reflexivity. Qed.
Lemma layout_string_2 r : layout_in 77 (fields_2 r) = true.
Proof. reflexivity. Qed.
Lemma layout_string_3 r : layout_in 77 (fields_3 r) = true.
Proof. reflexivity. Qed.
Lemma layout_string_4 r : layout_in 77 (fields_4 r) = true.
Proof. reflexivity. Qed.
Lemma layout_string_5 r : layout_in 77 (fields_5 r) = true.
Proof. reflexivity. Qed.

Lemma number_read m rest : layout_in 77 (string_number m :: rest) = true -> 0 <= m < 16 ->
  gnav_read_unsigned (rev (write_string (string_number m :: rest))) STRING_ID = m.
Proof. intros L Hm. apply (read_unsigned _ L 2 4 m); [now left|lia|lia]. Qed.

Lemma read_1 r : ok_1 r = true -> read_string_1 (rev (write_string (fields_1 r))) = value_1 r.
Proof.
  intros Hr. unfold ok_1 in Hr. use_ranges. pose proof (layout_string_1 r) as L. unfold read_string_1, value_1.
  rewrite (read_u _ L P1 (raw_P1 r)), (read_u _ L T_K_HR (raw_hours r)),
    (read_u _ L T_K_MIN (raw_minutes r)), (read_u _ L T_K_SEC (raw_half_minutes r)),
    (read_s _ L X_N_DOT (raw_x_dot r)), (read_s _ L X_N_DOT_DOT (raw_x_dot_dot r)),
    (read_s _ L X_N (raw_x r)) by field_in. reflexivity.
Qed.

Lemma read_2 r : ok_2 r = true -> read_string_2 (rev (write_string (fields_2 r))) = value_2 r.
Proof.
  intros Hr. unfold ok_2 in Hr. use_ranges. pose proof (layout_string_2 r) as L. unfold read_string_2, value_2.
  rewrite (read_u _ L B_N (raw_B_n r)), (read_b _ L P2 (raw_P2 r)),
    (read_u _ L T_B (raw_t_b r)), (read_s _ L Y_N_DOT (raw_y_dot r)),
    (read_s _ L Y_N_DOT_DOT (raw_y_dot_dot r)), (read_s _ L Y_N (raw_y r)) by field_in.
  reflexivity.
Qed.

Lemma read_3 r : ok_3 r = true -> read_string_3 (rev (write_string (fields_3 r))) = value_3 r.
Proof.
  intros Hr. unfold ok_3 in Hr. use_ranges. pose proof (layout_string_3 r) as L. unfold read_string_3, value_3.
  rewrite (read_b _ L P3 (raw_P3 r)), (read_s _ L GAMMA_N (raw_gamma r)),
    (read_u _ L P (raw_P r)), (read_b _ L EPH_L_N (raw_l_3 r)),
    (read_s _ L Z_N_DOT (raw_z_dot r)), (read_s _ L Z_N_DOT_DOT (raw_z_dot_dot r)),
    (read_s _ L Z_N (raw_z r)) by field_in. reflexivity.
Qed.

Lemma read_4 r : ok_4 r = true -> read_string_4 (rev (write_string (fields_4 r))) = value_4 r.
Proof.
  intros Hr. unfold ok_4 in Hr. use_ranges. pose proof (layout_string_4 r) as L. unfold read_string_4, value_4.
  rewrite (read_s _ L TAU_N (raw_tau r)), (read_s _ L DELTA_TAU_N (raw_delta_tau r)),
    (read_u _ L E_N (raw_E_n r)), (read_b _ L P4 (raw_P4 r)),
    (read_u _ L F_T (raw_F_T r)), (read_u _ L N_T (raw_N_T r)),
    (read_u _ L GnavTables.N (raw_n r)), (read_u _ L M (raw_M r)) by field_in. reflexivity.
Qed.

(** The decoder after string 5, its ephemeris being of [raw_N_T] days. *)
Definition stored_5 (r : Raw5) (m : Glonass_Gnav_Navigation_Message) : Glonass_Gnav_Navigation_Message :=
  m <| gnav_utc_model ::= utc_5 r |> <| flag_utc_model_str_5 := true |>
    <| gnav_ephemeris ::= fun e =>
         e <| d_l5th_n := raw_l_5 r |>
           <| d_yr := 1996 + 4 * (raw_N_4 r - 1) + (interval_year (d_N_T (string_4 e)) - 1) |>
           <| d_tau_c := dmul (double_of_Z (raw_tau_c r)) TWO_N31 |> |>.

Lemma read_5 r m : ok_5 r = true -> store_string_5 (rev (write_string (fields_5 r))) m = stored_5 r m.
Proof.
  intros Hr. unfold ok_5 in Hr. use_ranges. pose proof (layout_string_5 r) as L. unfold store_string_5.
  rewrite (read_u _ L DAY_NUMBER_A (raw_N_A r)), (read_s _ L TAU_C (raw_tau_c r)),
    (read_u _ L N_4 (raw_N_4 r)), (read_s _ L TAU_GPS (raw_tau_GPS r)),
    (read_b _ L ALM_L_N (raw_l_5 r)) by field_in.
  destruct m as [[] [] ? ? ? ? ? ? ? ? ? ? ? ? ? ? ? ? ?]. reflexivity.
Qed.
