(* ===== verification/GnavBroadcast.v ===== *)
(** * GnavBroadcast: an ephemeris received from the air

    The five strings of GnavFields heard by a new block of GnavTlm: the
    ephemeris and the model of time they make it publish. *)

From S2P Require Import Prelude Cstring Float64 FloatBounds MathConstants GnssSignal InavTables InavWords Viterbi TlmDecoder GnavTables GnavMessage GnavTlm GnavTime GnavHamming GnavCode GnavMark GnavReceiver FieldLayout GnavFields.
From stdpp Require Import list.
From Stdlib Require Import ZArith Lia Bool Ascii SpecFloat.
Local Open Scope Z_scope.
Local Open Scope cxx_scope.

(** ** One string *)

(** What the block does once the message decoder has read a string. *)
Definition report (nav : Glonass_Gnav_Navigation_Message) (s : Gnss_Satellite) (msgs : list gnav_message)
  : outcome hearing :=
  let '(o, d) := (modify publish_ephemeris;; modify publish_utc_model;; publish_almanac;; modify update_slot_number)
    (blank (mkhearing nav s msgs)) in
  let* _ := o in Returns (heard d).

Lemma hear_report `{Calendar} bs id h b nav : length bs = 85%nat -> code_word (rev bs) ->
  gnav_read_unsigned (rev bs) STRING_ID = id -> 0 <= id < 16 ->
  decode_by_ID id (rev bs) ((h_nav h) <| d_frame_ID := 0 |> <| flag_CRC_test := true |> <| d_string_ID := id |>) =
    (Returns b, nav) ->
  hear (bits_str bs) h = report nav (h_satellite h) (h_msgs h).
Proof.
  intros Hl Hc Hid Hr Hd. unfold hear, decode_bits, report.
  set (rest := modify publish_ephemeris;; _). clearbody rest.
  rewrite run_modify. change (keep_nav_message (bits_str bs) (blank h)) with (blank h).
  unfold bind at 1. unfold with_nav. change (d_nav (blank h)) with (h_nav h).
  rewrite string_decoder_bits by exact Hl. rewrite run_modify, run_gets, (code_word_accepted _ Hc).
  change (flag_CRC_test (_ <| flag_CRC_test := true |>)) with true. cbn [negb].
  rewrite run_modify, run_gets, Hid. rewrite (wrap_small 32 id) by lia.
  change (d_string_ID (_ <| d_string_ID := id |>)) with id.
  unfold bind at 1. rewrite Hd. reflexivity.
Qed.

(** An ephemeris of another reference time than the last one is published. *)
Lemma publish_new d :
  flag_ephemeris_str_1 (d_nav d) && flag_ephemeris_str_2 (d_nav d) && flag_ephemeris_str_3 (d_nav d) &&
    flag_ephemeris_str_4 (d_nav d) && flag_utc_model_str_5 (d_nav d) = true ->
  d_previous_tb (d_nav d) <> d_t_b (string_2 (gnav_ephemeris (d_nav d))) ->
  publish_ephemeris d =
  let nav := set_rf_link (rf_link (d_satellite d)) ((d_nav d)
    <| flag_ephemeris_str_1 := false |> <| flag_ephemeris_str_2 := false |>
    <| flag_ephemeris_str_3 := false |> <| flag_ephemeris_str_4 := false |>
    <| flag_all_ephemeris := true |> <| d_previous_tb := d_t_b (string_2 (gnav_ephemeris (d_nav d))) |>) in
  publish (telemetry_gnav_ephemeris (gnav_ephemeris nav)) (d <| d_nav := nav |>).
Proof.
  intros Hf Hb. apply Z.eqb_neq in Hb. unfold publish_ephemeris, have_new_ephemeris. rewrite Hf, Hb. reflexivity.
Qed.

(** ** The strings of an ephemeris *)

Section ephemeris.
Context `{Calendar} (r1 : Raw1) (r2 : Raw2) (r3 : Raw3) (r4 : Raw4) (r5 : Raw5).
Hypothesis (Ok1 : ok_1 r1 = true) (Ok2 : ok_2 r2 = true) (Ok3 : ok_3 r3 = true) (Ok4 : ok_4 r4 = true)
  (Ok5 : ok_5 r5 = true).
(** The satellite that the channel was told to receive. *)
Context (s : Gnss_Satellite).

Definition string_bits (fields : list (bit_field * Z)) : cstring := bits_str (write_string fields).

(** The message decoder after each of the strings 1 to 4. *)
Definition nav_1 (v1 : String1) : Glonass_Gnav_Navigation_Message :=
  new_Glonass_Gnav_Navigation_Message <| flag_CRC_test := true |> <| d_string_ID := 1 |>
    <| gnav_ephemeris ::= fun e => e <| string_1 := v1 |> |> <| flag_ephemeris_str_1 := true |>.
Definition nav_2 (v1 : String1) (v2 : String2) : Glonass_Gnav_Navigation_Message :=
  (nav_1 v1) <| d_string_ID := 2 |>
    <| gnav_ephemeris ::= fun e => e <| string_2 := v2 |> |> <| flag_ephemeris_str_2 := true |>.
Definition nav_3 (v1 : String1) (v2 : String2) (v3 : String3) : Glonass_Gnav_Navigation_Message :=
  (nav_2 v1 v2) <| d_string_ID := 3 |>
    <| gnav_ephemeris ::= fun e => e <| string_3 := v3 |> |> <| flag_ephemeris_str_3 := true |>.
Definition nav_4 (v1 : String1) (v2 : String2) (v3 : String3) (v4 : String4) : Glonass_Gnav_Navigation_Message :=
  (nav_3 v1 v2 v3) <| d_string_ID := 4 |>
    <| gnav_ephemeris ::= fun e => e <| string_4 := v4 |>
         <| i_satellite_slot_number := d_n v4 |> <| PRN := d_n v4 |> |>
    <| flag_ephemeris_str_4 := true |>.

(** The satellite of a slot. *)
Definition slot_satellite (n : Z) (s : Gnss_Satellite) : Gnss_Satellite :=
  let s := update_PRN n s in (what_block (system s) n s).2.

Ltac hear_string id fields :=
  match goal with |- hear (string_bits (?f ?r)) ?h = _ =>
    destruct (write_string_word (f r)) as [Hl Hc];
    eapply eq_trans; [eapply (hear_report _ id h true _ Hl Hc); [apply number_read; [reflexivity|lia]|lia|]|]
  end.

Lemma hear_string_1 : hear (string_bits (fields_1 r1)) (mkhearing new_Glonass_Gnav_Navigation_Message s []) =
  Returns (mkhearing (nav_1 (value_1 r1)) s []).
Proof.
  hear_string 1 (fields_1 r1).
  - unfold decode_by_ID, decode_string_1. rewrite read_1 by exact Ok1. reflexivity.
  - generalize (value_1 r1). intros v1. vm_compute. reflexivity.
Qed.

Lemma hear_string_2 v1 : hear (string_bits (fields_2 r2)) (mkhearing (nav_1 v1) s []) =
  Returns (mkhearing (nav_2 v1 (value_2 r2)) s []).
Proof.
  hear_string 2 (fields_2 r2).
  - unfold decode_by_ID, decode_string_2. rewrite read_2 by exact Ok2. reflexivity.
  - generalize (value_2 r2). intros v2. vm_compute. reflexivity.
Qed.

Lemma hear_string_3 v1 v2 : hear (string_bits (fields_3 r3)) (mkhearing (nav_2 v1 v2) s []) =
  Returns (mkhearing (nav_3 v1 v2 (value_3 r3)) s []).
Proof.
  hear_string 3 (fields_3 r3).
  - unfold decode_by_ID, decode_string_3. rewrite read_3 by exact Ok3. reflexivity.
  - generalize (value_3 r3). intros v3. vm_compute. reflexivity.
Qed.

Lemma hear_string_4 v1 v2 v3 : hear (string_bits (fields_4 r4)) (mkhearing (nav_3 v1 v2 v3) s []) =
  Returns (mkhearing (nav_4 v1 v2 v3 (value_4 r4)) (slot_satellite (raw_n r4) s) []).
Proof.
  assert (u32 (d_n (value_4 r4)) = raw_n r4) as Hn.
  { unfold ok_4 in Ok4. use_ranges. apply wrap_small. cbn [value_4 d_n]. unfold fits_u in *. lia. }
  hear_string 4 (fields_4 r4).
  - unfold decode_by_ID, decode_string_4. rewrite read_4 by exact Ok4. reflexivity.
  - assert (d_n (value_4 r4) = raw_n r4) as En by reflexivity. revert Hn En. generalize (value_4 r4), (raw_n r4).
    intros v4 n Hn En. cbv -[wrap what_block update_PRN d_n system]. rewrite Hn, En. reflexivity.
Qed.

(** The last string: the time of the frame, and what is published. *)
Definition frame_utc : Z :=
  (day_number (1992 + 4 * raw_N_4 r5) 1 1 + (raw_N_T r4 - 1)) * 86400 + (d_t_k (value_1 r1) + 10 - 3 * 3600).

Definition sent_utc : Glonass_Gnav_Utc_Model := utc_5 r5 new_Glonass_Gnav_Utc_Model.

(** The ephemeris sent, of GPS time [t], from the satellite of the slot [raw_n]. *)
Definition sent_ephemeris (t : Z) : Glonass_Gnav_Ephemeris := {|
  string_1 := value_1 r1;
  string_2 := value_2 r2;
  string_3 := value_3 r3;
  string_4 := value_4 r4;
  d_l5th_n := raw_l_5 r5;
  i_satellite_freq_channel := rf_link (slot_satellite (raw_n r4) s);
  PRN := raw_n r4;
  i_satellite_slot_number := raw_n r4;
  d_yr := 1996 + 4 * (raw_N_4 r5 - 1) + (interval_year (raw_N_T r4) - 1);
  d_tau_c := dmul (double_of_Z (raw_tau_c r5)) TWO_N31;
  d_TOW := dadd (double_of_Z (t mod 604800))
             (dadd (dmul (double_of_Z (raw_tau_c r5)) TWO_N31) (dmul (double_of_Z (raw_tau_GPS r5)) TWO_N30));
  d_WN := i32 (t / 604800);
  d_tod := d_t_k (value_1 r1) + 10
|}.

Context `{!Gregorian} (leap : Z).
Hypothesis Hleap : leap_seconds GLONASS_LEAP_SECONDS frame_utc = Some leap.
(** The seconds of GPS time of the frame. *)
Definition frame_gps : Z := frame_utc + leap - gregorian_day 1980 1 6 * 86400.

Lemma frame_time e c1 c2 : d_yr e = 1996 + 4 * (raw_N_4 r5 - 1) + (interval_year (raw_N_T r4) - 1) ->
  d_N_T (string_4 e) = raw_N_T r4 ->
  glot_to_gpst e (d_t_k (value_1 r1) + 10) c1 c2 =
  Returns (i32 (frame_gps / 604800), dadd (double_of_Z (frame_gps mod 604800)) (dadd c1 c2)) /\
  11 <= frame_gps mod 604800 < 604800.
Proof.
  intros Ey En.
  assert (glot_utc_time e (d_t_k (value_1 r1) + 10) = frame_utc) as Eu.
  { unfold glot_utc_time, frame_utc. cbv zeta. rewrite Ey, En.
    replace (1996 + 4 * (raw_N_4 r5 - 1) + (interval_year (raw_N_T r4) - 1) - interval_year (raw_N_T r4) + 1)
      with (1992 + 4 * raw_N_4 r5) by lia. reflexivity. }
  assert (frame_gps = gps_seconds e (d_t_k (value_1 r1) + 10) leap) as -> by (unfold frame_gps, gps_seconds; now rewrite Eu).
  apply glot_to_gpst_exact; [|now rewrite Eu]. cbn [value_1 d_t_k].
  replace (raw_hours r1 * 3600 + raw_minutes r1 * 60 + raw_half_minutes r1 * 30 + 10)
    with (10 + (raw_hours r1 * 120 + raw_minutes r1 * 2 + raw_half_minutes r1) * 30) by ring.
  now rewrite Z.mod_add by lia.
Qed.

(** The message decoder after string 5. *)
Definition after_5 (m : Glonass_Gnav_Navigation_Message) (wn : Z) (tow : double) : Glonass_Gnav_Navigation_Message :=
  (stored_5 r5 m)
    <| gnav_ephemeris ::= fun e => e <| d_WN := wn |> <| d_TOW := tow |> |>
    <| flag_TOW_set := true |> <| flag_TOW_new := true |>
    <| gnav_ephemeris ::= fun e => e <| d_tod := d_t_k (string_1 (gnav_ephemeris m)) + 2 * d_string_ID m |> |>.

Lemma decode_5 m wn tow : flag_ephemeris_str_4 m = true -> flag_ephemeris_str_1 m = true ->
  glot_to_gpst (gnav_ephemeris (stored_5 r5 m)) (d_t_k (string_1 (gnav_ephemeris m)) + 10)
    (dmul (double_of_Z (raw_tau_c r5)) TWO_N31) (dmul (double_of_Z (raw_tau_GPS r5)) TWO_N30) = Returns (wn, tow) ->
  decode_string_5 (rev (write_string (fields_5 r5))) m = (Returns tt, after_5 m wn tow).
Proof.
  intros H4 H1 Et. unfold decode_string_5. rewrite run_gets. unfold id at 1. rewrite H4, run_modify, read_5 by exact Ok5.
  rewrite run_gets. unfold id. change (flag_ephemeris_str_1 (stored_5 r5 m)) with (flag_ephemeris_str_1 m). rewrite H1.
  change (string_1 (gnav_ephemeris (stored_5 r5 m))) with (string_1 (gnav_ephemeris m)).
  change (utc_tau_c (gnav_utc_model (stored_5 r5 m))) with (dmul (double_of_Z (raw_tau_c r5)) TWO_N31).
  change (d_tau_gps (gnav_utc_model (stored_5 r5 m))) with (dmul (double_of_Z (raw_tau_GPS r5)) TWO_N30).
  rewrite Et. reflexivity.
Qed.

Lemma report_5 v1 v2 v3 v4 s5 wn tow : d_t_b v2 <> 0 -> exists nav,
  report (after_5 ((nav_4 v1 v2 v3 v4) <| d_frame_ID := 0 |> <| flag_CRC_test := true |> <| d_string_ID := 5 |>) wn tow) s5 [] =
  Returns (mkhearing nav s5 [telemetry_gnav_utc_model sent_utc;
    telemetry_gnav_ephemeris (mkGlonass_Gnav_Ephemeris v1 v2 v3 v4 (raw_l_5 r5) (rf_link s5) (d_n v4) (d_n v4)
      (1996 + 4 * (raw_N_4 r5 - 1) + (interval_year (d_N_T v4) - 1))
      (dmul (double_of_Z (raw_tau_c r5)) TWO_N31) tow wn (d_t_k v1 + 2 * 5))]) /\
  flag_TOW_new nav = true /\ d_TOW (gnav_ephemeris nav) = tow.
Proof.
  intros Hb. unfold sent_utc, after_5, stored_5, utc_5.
  generalize (dmul (double_of_Z (raw_tau_c r5)) TWO_N31), (dmul (double_of_Z (raw_tau_GPS r5)) TWO_N30).
  intros c1 c2. unfold report. rewrite run_modify, publish_new; [|reflexivity|].
  - eexists. split; [vm_compute; reflexivity|]. split; reflexivity.
  - exact (not_eq_sym Hb).
Qed.

Lemma hear_string_5 : 0 < raw_t_b r2 -> exists nav,
  hear (string_bits (fields_5 r5))
    (mkhearing (nav_4 (value_1 r1) (value_2 r2) (value_3 r3) (value_4 r4)) (slot_satellite (raw_n r4) s) []) =
  Returns (mkhearing nav (slot_satellite (raw_n r4) s)
    [telemetry_gnav_utc_model sent_utc; telemetry_gnav_ephemeris (sent_ephemeris frame_gps)]) /\
  tow_fits (mkhearing nav (slot_satellite (raw_n r4) s)
    [telemetry_gnav_utc_model sent_utc; telemetry_gnav_ephemeris (sent_ephemeris frame_gps)]).
Proof.
  intros Hb.
  set (m := nav_4 (value_1 r1) (value_2 r2) (value_3 r3) (value_4 r4)).
  set (m5 := m <| d_frame_ID := 0 |> <| flag_CRC_test := true |> <| d_string_ID := 5 |>).
  destruct (frame_time (gnav_ephemeris (stored_5 r5 m5)) (dmul (double_of_Z (raw_tau_c r5)) TWO_N31)
    (dmul (double_of_Z (raw_tau_GPS r5)) TWO_N30)) as [Et Hr]; [reflexivity|reflexivity|].
  assert (d_t_b (value_2 r2) <> 0) as Hb2 by (cbn [value_2 d_t_b]; lia).
  destruct (report_5 (value_1 r1) (value_2 r2) (value_3 r3) (value_4 r4) (slot_satellite (raw_n r4) s)
    (i32 (frame_gps / 604800)) (dadd (double_of_Z (frame_gps mod 604800))
      (dadd (dmul (double_of_Z (raw_tau_c r5)) TWO_N31) (dmul (double_of_Z (raw_tau_GPS r5)) TWO_N30))) Hb2)
    as (nav & Er & En & Ew).
  exists nav. split.
  - destruct (write_string_word (fields_5 r5)) as [Hl Hc].
    eapply eq_trans; [eapply (hear_report _ 5 (mkhearing m _ []) true _ Hl Hc); [apply number_read; [reflexivity|lia]|lia|]|].
    + unfold decode_by_ID. unfold bind. cbn [h_nav]. fold m5. rewrite (decode_5 m5 _ _ eq_refl eq_refl Et). reflexivity.
    + exact Er.
  - intros _. cbn [h_nav]. rewrite Ew. apply corrected_TOW_fits; [exact Hr|..];
      unfold ok_5 in Ok5; use_ranges; unfold fits_m in *; lia.
Qed.
End ephemeris.
