(* ===== verification/GnavProofs.v ===== *)
(** * GnavProofs: the properties of the GLONASS decoder *)

From S2P Require Import Prelude Cstring Float64 FloatBounds MathConstants GnssSignal InavTables InavWords Viterbi TlmDecoder GnavTables GnavMessage GnavTlm GnavTime GnavHamming GnavCode GnavMark GnavReceiver FieldLayout GnavFields GnavBroadcast.
From stdpp Require Import list strings.
From Stdlib Require Import ZArith Lia Bool Ascii SpecFloat.
Local Open Scope Z_scope.
Local Open Scope cxx_scope.

(** ** Concrete strings *)

(** The Gregorian calendar, for the witnesses. *)
#[local] Instance gregorian : Calendar := gregorian_day.
#[local] Instance gregorian_law : Gregorian.
Proof. intros year month day _ _ _. reflexivity. Qed.

Definition blank_string : list bool := write_string [].

(** Ten symbols of strength 1 for a chip. *)
Definition unit_chip (inverted c : bool) : list Gnss_Synchro :=
  replicate 10 (mkGnss_Synchro "R" (str "1G") 1 0 (double_of_Z (if xorb inverted c then 1 else -1)) dzero 0 0 false false).

Lemma unit_chip_heard inverted c : heard_chip inverted c (unit_chip inverted c).
Proof. constructor; [reflexivity| |]; destruct inverted, c; try (repeat constructor); reflexivity. Qed.

Lemma unit_chips_heard inverted chips : Forall2 (heard_chip inverted) chips (map (unit_chip inverted) chips).
Proof. induction chips as [|c chips IH]; constructor; [apply unit_chip_heard|exact IH]. Qed.

(** The idle bit of a string of fields is zero. *)
Lemma write_string_ok q fields : bit_at fields 1 = false -> sent_ok (q, write_string fields).
Proof.
  intros H. split; [|apply write_string_word]. cbn [snd]. unfold write_string, add_check_bits.
  rewrite vget_app by lia. rewrite write_bits_length. change (0 <? Z.of_nat 77) with true. cbv iota. exact H.
Qed.

(** ** The Hamming code *)

(** C15: The Hamming check of the GLONASS strings.  A string that satisfies every
    check is accepted; with one bit of it inverted it is accepted exactly when
    that bit is one of the first seven check bits, and the decoder then does with
    it what it does with the string sent; with any two bits inverted it is
    rejected. *)
Theorem gnav_hamming `{Calendar} bs m : code_word (rev bs) ->
  CRC_test (rev bs) = true /\
  (forall i, 0 <= i < 85 -> CRC_test (invert_bit i (rev bs)) = (i <? 7)) /\
  (forall i, 0 <= i < 7 -> string_decoder (bits_str (rev (invert_bit i (rev bs)))) m = string_decoder (bits_str bs) m) /\
  (forall i j, 0 <= i < j -> j < 85 -> CRC_test (invert_bit i (invert_bit j (rev bs))) = false).
Proof.
  intros Hc. split; [now apply code_word_accepted|]. split; [intros i; now apply single_error|].
  split; [intros i Hi; now apply check_bit_harmless|intros i j; now apply double_error].
Qed.

Lemma gnav_hamming_witness : code_word (rev blank_string) /\
  CRC_test (invert_bit 3 (invert_bit 40 (rev blank_string))) = false.
Proof.
  assert (code_word (rev blank_string)) as Hc by exact (proj2 (write_string_word [])). split; [exact Hc|].
  pose proof (gnav_hamming blank_string new_Glonass_Gnav_Navigation_Message Hc) as (_ & _ & _ & H2). apply H2; lia.
Defined.

(** ** The time mark *)

(** C16: The time mark is never mistaken.  In the symbols of any stream of strings,
    upright or inverted, the correlation of 300 symbols with the time mark
    reaches the threshold exactly where a string begins, and has there the sign
    of the polarity. *)
Theorem gnav_time_mark inverted strings groups w : Forall string_shape strings ->
  Forall2 (heard_chip inverted) (concat strings) groups ->
  0 <= w -> w + 300 <= 2000 * Z.of_nat (length strings) ->
  let c := correlation 300 preamble_samples (window groups w) in
  (300 <=? Z.abs c) = (w mod 2000 =? 0) /\ (w mod 2000 = 0 -> c = if inverted then -300 else 300).
Proof. intros Hs Hh Hw Hn. apply (no_false_mark inverted strings groups Hs Hh w); [exact Hw|exact Hn|reflexivity]. Qed.

Definition two_strings : list (list bool) := [string_chips true blank_string; string_chips false blank_string].

Lemma gnav_time_mark_witness :
  (300 <=? Z.abs (correlation 300 preamble_samples (window (map (unit_chip true) (concat two_strings)) 1990))) = false.
Proof.
  assert (Forall string_shape two_strings) as Hs by (repeat constructor; apply string_chips_shape; exact (proj1 (write_string_word []))).
  pose proof (unit_chips_heard true (concat two_strings)) as Hh.
  destruct (gnav_time_mark true two_strings _ 1990 Hs Hh) as [H1 _]; [lia|change (length two_strings) with 2%nat; lia|].
  exact H1.
Defined.

(** ** An ephemeris from the air *)

(** Three strings of any kind, by which the block synchronises, then the five of
    an ephemeris; [q] is the state of the encoder at each of the five. *)
Definition broadcast (first : list (bool * list bool)) (q : nat -> bool) (r1 : Raw1) (r2 : Raw2)
    (r3 : Raw3) (r4 : Raw4) (r5 : Raw5) : list (bool * list bool) :=
  first ++ [(q 1%nat, write_string (fields_1 r1)); (q 2%nat, write_string (fields_2 r2));
            (q 3%nat, write_string (fields_3 r3)); (q 4%nat, write_string (fields_4 r4));
            (q 5%nat, write_string (fields_5 r5))].

Lemma broadcast_ok first q r1 r2 r3 r4 r5 : Forall sent_ok first ->
  Forall sent_ok (broadcast first q r1 r2 r3 r4 r5).
Proof.
  intros Hf. apply Forall_app. split; [exact Hf|].
  repeat constructor; apply write_string_ok; reflexivity.
Qed.

Lemma new_following k band satellite conf : 0 < k < 2000 -> forall groups,
  following groups k k (new_gnav_tlm band satellite conf).
Proof.
  intros Hk groups. constructor.
  - constructor; [reflexivity| |cbn; lia]. unfold history_at, oldest. cbn [d_symbol_history new_gnav_tlm].
    rewrite drop_ge; [reflexivity|]. rewrite length_take. lia.
  - replace (k <? 4000) with true by lia. reflexivity.
  - reflexivity.
  - cbn [d_flag_frame_sync new_gnav_tlm]. symmetry. apply Z.leb_gt. lia.
  - split; [reflexivity|]. cbn [d_TOW_at_current_symbol new_gnav_tlm]. change (units dzero) with 0.
    pose proof (Z.pow_nonneg 2 scale). nia.
  - reflexivity.
Qed.

(** The years of string 5 are later than the first leap second. *)
Lemma sent_years `{!Calendar, !Gregorian} r1 r4 r5 : ok_1 r1 = true -> ok_4 r4 = true -> ok_5 r5 = true ->
  exists leap, leap_seconds GLONASS_LEAP_SECONDS (frame_utc r1 r4 r5) = Some leap.
Proof.
  intros O1 O4 O5. apply leap_seconds_found. unfold ok_1, ok_4, ok_5 in *. use_ranges. unfold fits_u in *. use_ranges.
  assert (forallb (fun y => gregorian_day 1981 7 1 + 3 <=? gregorian_day (1992 + 4 * y) 1 1) (seqZ 0 32) = true) as Hy by reflexivity.
  rewrite forallb_forall in Hy. specialize (Hy (raw_N_4 r5) (in_seqZ (raw_N_4 r5) 0 32 ltac:(lia))).
  unfold frame_utc. rewrite day_of_date by lia. cbn [value_1 d_t_k].
  set (g := gregorian_day (1992 + 4 * raw_N_4 r5) 1 1) in *. set (g0 := gregorian_day 1981 7 1) in *. clearbody g g0. lia.
Qed.

(** C5: An ephemeris received.  A new block of either band begins to hear, in the middle of a
    string and in either polarity, a stream of strings of which the fourth to the
    eighth are the strings 1 to 5 of a frame.  It never fails, it is in frame
    synchronisation at the end, and what it has published is the model of time
    and the ephemeris with every field of the five strings, of the slot sent, in
    the GPS week and at the time of week of the frame. *)
Theorem gnav_broadcast_received `{!Calendar, !Gregorian} band satellite conf inverted first q r1 r2 r3 r4 r5 groups k :
  0 < k < 2000 -> length first = 3%nat -> Forall sent_ok first ->
  ok_1 r1 = true -> ok_2 r2 = true -> ok_3 r3 = true -> ok_4 r4 = true -> ok_5 r5 = true -> 0 < raw_t_b r2 ->
  Forall2 (heard_chip inverted)
    (concat (map (fun s => string_chips s.1 s.2) (broadcast first q r1 r2 r3 r4 r5))) groups ->
  exists leap outputs d,
    leap_seconds GLONASS_LEAP_SECONDS (frame_utc r1 r4 r5) = Some leap /\
    gnav_run (drop (Z.to_nat k) (concat groups)) (new_gnav_tlm band satellite conf) = (Returns outputs, d) /\
    d_flag_frame_sync d = true /\
    List.filter is_telemetry (published d) =
      [telemetry_gnav_utc_model (sent_utc r5);
       telemetry_gnav_ephemeris (sent_ephemeris r1 r2 r3 r4 r5
         (new_Gnss_Satellite (system satellite) (GnssSignal.PRN satellite)) (frame_gps r1 r4 r5 leap))].
Proof.
  intros Hk H3 Hf O1 O2 O3 O4 O5 Hb Hh. destruct (sent_years r1 r4 r5 O1 O4 O5) as [leap El].
  pose proof (broadcast_ok first q r1 r2 r3 r4 r5 Hf) as Hs.
  set (s := new_Gnss_Satellite (system satellite) (GnssSignal.PRN satellite)).
  destruct (hear_string_5 r1 r2 r3 r4 r5 O5 s leap El Hb) as (nav & E5 & Hfit).
  set (h5 := mkhearing nav _ _) in *.
  assert (length (broadcast first q r1 r2 r3 r4 r5) = 8%nat) as H8 by (unfold broadcast; rewrite length_app, H3; reflexivity).
  destruct (strings_heard inverted (broadcast first q r1 r2 r3 r4 r5) groups Hs Hh k Hk ltac:(lia)
    (new_gnav_tlm band satellite conf) (take_TOW h5) ltac:(lia) (new_following k band satellite conf Hk groups))
    as (outputs & d & E & Hd & Ed).
  - assert (bits_from (broadcast first q r1 r2 r3 r4 r5) 3 =
      [write_string (fields_1 r1); write_string (fields_2 r2); write_string (fields_3 r3);
       write_string (fields_4 r4); write_string (fields_5 r5)]) as ->.
    { unfold bits_from, broadcast. rewrite drop_app_length' by (rewrite H3; reflexivity). reflexivity. }
    econstructor; [exact (hear_string_1 r1 O1 s)|intros Hn; discriminate Hn|].
    econstructor; [exact (hear_string_2 r2 O2 s (value_1 r1))|intros Hn; discriminate Hn|].
    econstructor; [exact (hear_string_3 r3 O3 s (value_1 r1) (value_2 r2))|intros Hn; discriminate Hn|].
    econstructor; [exact (hear_string_4 r4 O4 s (value_1 r1) (value_2 r2) (value_3 r3))|intros Hn; discriminate Hn|].
    econstructor; [exact E5|exact Hfit|]. constructor.
  - exists leap, outputs, d. split; [exact El|]. split; [exact E|]. split.
    + rewrite (fo_sync _ _ _ _ Hd). apply Z.leb_le. lia.
    + transitivity (h_msgs (heard d)); [reflexivity|]. rewrite Ed. reflexivity.
Qed.

Definition three_blanks : list (bool * list bool) := replicate 3 (true, blank_string).
Definition a_raw1 : Raw1 := mkRaw1 1 13 27 1 (-4000) 3 (-60000000).
Definition a_raw2 : Raw2 := mkRaw2 0 true 65 250000 (-2) 12345678.
Definition a_raw3 : Raw3 := mkRaw3 true (-17) 3 false 3000000 1 (-42).
Definition a_raw4 : Raw4 := mkRaw4 (-98765) 2 1 false 3 1300 11 1.
Definition a_raw5 : Raw5 := mkRaw5 1299 (-150) 5 12 false.

Lemma gnav_broadcast_received_witness : exists leap outputs d,
  leap_seconds GLONASS_LEAP_SECONDS (frame_utc a_raw1 a_raw4 a_raw5) = Some leap /\
  gnav_run (drop 777 (concat (map (unit_chip true) (concat (map (fun s => string_chips s.1 s.2)
    (broadcast three_blanks (fun _ => false) a_raw1 a_raw2 a_raw3 a_raw4 a_raw5))))))
    (new_gnav_tlm L2_CA (new_Gnss_Satellite (str "Glonass") 4) (mkTlm_Conf false true false false)) = (Returns outputs, d) /\
  d_flag_frame_sync d = true /\
  List.filter is_telemetry (published d) =
    [telemetry_gnav_utc_model (sent_utc a_raw5);
     telemetry_gnav_ephemeris (sent_ephemeris a_raw1 a_raw2 a_raw3 a_raw4 a_raw5
       (new_Gnss_Satellite (system (new_Gnss_Satellite (str "Glonass") 4))
          (GnssSignal.PRN (new_Gnss_Satellite (str "Glonass") 4)))
       (frame_gps a_raw1 a_raw4 a_raw5 leap))].
Proof.
  assert (Forall sent_ok three_blanks) as Hf by (repeat constructor; try exact (proj2 (write_string_word []))).
  apply (gnav_broadcast_received L2_CA (new_Gnss_Satellite (str "Glonass") 4) (mkTlm_Conf false true false false) true
    three_blanks (fun _ => false) a_raw1 a_raw2 a_raw3 a_raw4 a_raw5 _ 777); try reflexivity; try exact Hf; try lia.
  apply unit_chips_heard.
Defined.

(** ** The time of week *)

(** A run of the block during which no time of week arrives. *)
Inductive untimed_run `{Calendar} : gnav_tlm -> list Gnss_Synchro -> list Gnss_Synchro -> gnav_tlm -> Prop :=
  | untimed_nil d : untimed_run d [] [] d
  | untimed_cons g inputs d o d1 outputs d' :
      general_work g d = (Returns o, d1) ->
      (let d2 := (frame_sync (receive_symbol g d)).2 in d_flag_preamble d2 && flag_TOW_new (d_nav d2) = false) ->
      untimed_run d1 inputs outputs d' -> untimed_run d (g :: inputs) (o :: outputs) d'.

Lemma frame_sync_TOW `{Calendar} d : d_TOW_at_current_symbol (frame_sync d).2 = d_TOW_at_current_symbol d.
Proof.
  unfold frame_sync. rewrite run_gets. destruct (d_stat d) as [|[p|[p|p|]|]|p]; try reflexivity.
  - unfold modify, search_preamble. cbn [snd]. now destruct (preamble_detected d).
  - unfold end_string. rewrite run_gets. unfold id. destruct (_ =? _); [|reflexivity].
    unfold decode_string, bind at 1.
    destruct (hears_decode (data_bits (relative (bi_binary (string_symbols d)))) d d eq_refl) as (_ & _ & Es).
    destruct (decode_bits _ d) as [[[]|x] d1]; cbn [snd] in Es; injection Es as E1 E2 E3; [|exact E3].
    unfold modify. cbn [snd]. unfold bad_string. destruct (get_flag_CRC_test (d_nav d1)); [exact E3|].
    cbv zeta. destruct (_ <? _); exact E3.
  - unfold modify, confirm_preamble. cbn [snd]. destruct (preamble_detected d); [|reflexivity].
    cbv zeta. destruct (_ =? _); [reflexivity|]. now destruct (_ <? _).
Qed.

Lemma publish_nav_TOW g d : d_TOW_at_current_symbol (publish_nav_message g d) = d_TOW_at_current_symbol d.
Proof. unfold publish_nav_message. now destruct (_ && _). Qed.

(** One symbol in which no time of week arrives. *)
Lemma untimed_symbol `{Calendar} g d o d1 : general_work g d = (Returns o, d1) ->
  (let d2 := (frame_sync (receive_symbol g d)).2 in d_flag_preamble d2 && flag_TOW_new (d_nav d2) = false) ->
  d_TOW_at_current_symbol d1 = dadd (d_TOW_at_current_symbol d) GLONASS_L1_CA_CODE_PERIOD_S /\
  TlmDecoder.TOW_at_current_symbol_ms o = round_Z (dmul (d_TOW_at_current_symbol d1) (double_of_Z 1000)).
Proof.
  intros E Hn. unfold general_work in E. rewrite run_modify in E. unfold bind at 1 in E.
  pose proof (frame_sync_TOW (receive_symbol g d)) as Ht. change (d_TOW_at_current_symbol (receive_symbol g d)) with (d_TOW_at_current_symbol d) in Ht.
  cbv zeta in Hn. destruct (frame_sync (receive_symbol g d)) as [[[]|x] d2]; cbn [snd] in *; [|discriminate].
  rewrite run_modify in E. unfold update_tow, get_flag_TOW_new in E. rewrite Hn in E.
  set (d3 := d2 <| d_TOW_at_current_symbol ::= fun t => dadd t GLONASS_L1_CA_CODE_PERIOD_S |>) in *.
  assert (d_TOW_at_current_symbol d3 = dadd (d_TOW_at_current_symbol d) GLONASS_L1_CA_CODE_PERIOD_S) as E3
    by (unfold d3; cbn [d_TOW_at_current_symbol update]; now rewrite Ht).
  clearbody d3. unfold make_output in E. rewrite run_gets in E. unfold id, bind, lift in E.
  unfold uint32_of_double in E. set (r := round_Z (dmul (d_TOW_at_current_symbol d3) (double_of_Z 1000))) in *.
  assert (d_TOW_at_current_symbol d1 = d_TOW_at_current_symbol d3 /\ TlmDecoder.TOW_at_current_symbol_ms o = r) as [F1 F2].
  { destruct ((0 <=? r) && (r <? 2 ^ 32)); [|discriminate].
    destruct (flag_valid_word d3); unfold modify, ret in E; injection E as <- <-; [|split; reflexivity].
    split; [apply publish_nav_TOW|reflexivity]. }
  rewrite F1, F2. split; [exact E3|reflexivity].
Qed.

(** C17: The time of week is counted exactly.  After a time mark of [N]
    milliseconds, as long as no other time of week arrives, the block announces
    [N + 1], [N + 2], ... for each of four million symbols, more than an hour: the
    rounding errors of the additions of 1 ms never show. *)
Theorem gnav_tow_exact `{Calendar} d inputs outputs d' N :
  untimed_run d inputs outputs d' -> 0 <= N < 604800000 ->
  d_TOW_at_current_symbol d = ddiv (double_of_Z N) (double_of_Z 1000) ->
  Z.of_nat (length inputs) <= 4000000 ->
  map TlmDecoder.TOW_at_current_symbol_ms outputs = seqZ (N + 1) (Z.of_nat (length inputs)).
Proof.
  intros Hr HN Ed Hl. pose proof (mark_ms N ltac:(lia)) as Hc. rewrite <- Ed in Hc. clear Ed.
  assert (8 * N + Z.of_nat (length inputs) * tick_error < 2 ^ 52 - 2 ^ 31) as Hb by (unfold tick_error; lia).
  assert (N + Z.of_nat (length inputs) <= 10 ^ 9) as Hm by lia. clear Hl.
  assert (0 <= 8 * N) as H8 by lia. revert Hc Hb H8. generalize (8 * N) as b. revert Hm. destruct HN as [HN _]. revert HN.
  generalize N as n. clear N.
  induction Hr as [d|g inputs d o d1 outputs d' E Hn Hr IH]; intros n Hn0 Hm b Hc Hb H8; [reflexivity|].
  cbn [length] in *. destruct (untimed_symbol g d o d1 E Hn) as [Et Eo].
  assert (0 < tick_error) as Hte by reflexivity.
  pose proof (tick _ n b ltac:(lia) ltac:(lia) Hc) as Hc1. rewrite <- Et in Hc1.
  cbn [map]. rewrite Eo, (announced_ms _ (n + 1) (b + tick_error)) by (lia || exact Hc1).
  rewrite (IH (n + 1) ltac:(lia) ltac:(lia) (b + tick_error) Hc1 ltac:(lia) ltac:(lia)).
  rewrite (seqZ_cons (n + 1)) by lia. f_equal. f_equal; lia.
Qed.

Definition counting_block : gnav_tlm :=
  (new_gnav_tlm L1_CA (new_Gnss_Satellite (str "Glonass") 4) (mkTlm_Conf false true false false))
    <| d_TOW_at_current_symbol := ddiv (double_of_Z 27700) (double_of_Z 1000) |>.

Lemma gnav_tow_exact_witness : exists outputs d',
  untimed_run counting_block (take 2 (unit_chip false true)) outputs d' /\
  map TlmDecoder.TOW_at_current_symbol_ms outputs = [27701; 27702].
Proof.
  assert (exists outputs d', untimed_run counting_block (take 2 (unit_chip false true)) outputs d') as (outputs & d' & Hr).
  { eexists _, _. eapply untimed_cons; [vm_compute; reflexivity|vm_compute; reflexivity|].
    eapply untimed_cons; [vm_compute; reflexivity|vm_compute; reflexivity|]. constructor. }
  exists outputs, d'. split; [exact Hr|].
  exact (gnav_tow_exact counting_block (take 2 (unit_chip false true)) outputs d' 27700 Hr
    ltac:(lia) eq_refl ltac:(cbn; lia)).
Defined.

(** The milliseconds announced at the time mark of a frame whose time of week is
    [s] seconds, and the exact ones. *)
Definition mark_announced (s : double) : Z := round_Z (dmul (preamble_TOW s) (double_of_Z 1000)).
Definition mark_exact (s : Z) : Z := 1000 * s - 300.

(** The time of week is announced one millisecond early at some time marks.
    [floor] drops what rounding takes from the product: for the frames of the
    first hour of a week the time mark is announced right except at 2068 s, and
    at every frame from 32788 s to 33538 s, as at 524308 s, it is announced 1 ms
    too early; so it is when the corrections of string 5 are negative, by however
    little. *)
Theorem gnav_mark_one_ms_early :
  Forall (fun s => mark_announced (double_of_Z s) = mark_exact s - (if s =? 2068 then 1 else 0))
    (map (fun k => 30 * k + 28) (seqZ 0 120)) /\
  Forall (fun s => mark_announced (double_of_Z s) = mark_exact s - 1) (map (fun k => 30 * k + 28) (seqZ 1092 26)) /\
  mark_announced (double_of_Z 524308) = mark_exact 524308 - 1 /\
  mark_announced (dadd (double_of_Z 28) (dmul (double_of_Z (-1)) TWO_N31)) = mark_exact 28 - 1.
Proof.
  assert (forall l c, forallb (fun s => mark_announced (double_of_Z s) =? mark_exact s - c s) l = true ->
    Forall (fun s => mark_announced (double_of_Z s) = mark_exact s - c s) l) as Hb.
  { intros l c Hl. apply Forall_forall. intros s Hs. rewrite forallb_forall in Hl. apply Z.eqb_eq, Hl. now apply list_elem_of_In. }
  split; [apply (Hb _ (fun s => if s =? 2068 then 1 else 0)); vm_compute; reflexivity|].
  split; [apply (Hb _ (fun _ => 1)); vm_compute; reflexivity|]. split; vm_compute; reflexivity.
Qed.

(** ** A change of satellite *)

(** A change of satellite leaves the output valid.  In a block in frame
    synchronisation that has had a time of week, [set_satellite] and [reset]
    change only the satellite: the next symbol, in the middle of a string, is
    announced as valid, with the PRN of the new satellite and the time of week
    counted for the old one. *)
Theorem gnav_stale_time `{Calendar} satellite g d v : d_stat d = 2 -> flag_valid_word d = true ->
  u64 (d_sample_counter d + 1) <> u64 (d_preamble_index d + 2000) ->
  at_most_ms v (d_TOW_at_current_symbol d) -> 0 <= v <= 2 ^ 31 ->
  exists o d', general_work g (reset_gnav_tlm (GnavTlm.set_satellite satellite d)) = (Returns o, d') /\
    TlmDecoder.Flag_valid_word o = true /\
    synchro_PRN o = GnssSignal.PRN (new_Gnss_Satellite (system satellite) (GnssSignal.PRN satellite)) /\
    TlmDecoder.TOW_at_current_symbol_ms o =
      round_Z (dmul (dadd (d_TOW_at_current_symbol d) GLONASS_L1_CA_CODE_PERIOD_S) (double_of_Z 1000)).
Proof.
  intros Hst Hv Hc Ht Hr. unfold reset_gnav_tlm.
  set (d1 := receive_symbol g (GnavTlm.set_satellite satellite d)).
  assert (frame_sync d1 = (Returns tt, d1)) as Ef.
  { unfold frame_sync. rewrite run_gets. change (d_stat d1) with (d_stat d). rewrite Hst.
    unfold end_string. rewrite run_gets. unfold id, GLONASS_GNAV_STRING_SYMBOLS. change (u64 2000) with 2000.
    change (d_sample_counter d1) with (u64 (d_sample_counter d + 1)). change (d_preamble_index d1) with (d_preamble_index d).
    apply Z.eqb_neq in Hc. rewrite Hc. reflexivity. }
  unfold general_work. rewrite run_modify. fold d1. unfold bind at 1. rewrite Ef, run_modify.
  destruct (update_tow_tick d1 (or_introl eq_refl)) as (E1 & E2 & E3).
  destruct (make_output_fits g (update_tow d1) (v + 2)) as (o & d' & E & _ & _ & _ & F1 & F2 & F3).
  - rewrite E1. apply tick_range; [exact Ht|lia].
  - lia.
  - exists o, d'. split; [exact E|]. rewrite F1, F2, F3, E1.
    pose proof (f_equal h_satellite E2) as Es. cbn [heard h_satellite] in Es. rewrite Es.
    pose proof (f_equal h_nav E2) as En. cbn [heard h_nav] in En.
    split; [|split; reflexivity]. unfold flag_valid_word. rewrite En. 
    pose proof (f_equal snd E3) as E7. cbn [locked snd] in E7. rewrite E7. exact Hv.
Qed.

Definition a_valid_block : gnav_tlm :=
  counting_block <| d_stat := 2 |> <| d_flag_frame_sync := true |> <| d_nav ::= fun m => m <| flag_TOW_set := true |> |>.

Lemma gnav_stale_time_witness : exists o d',
  general_work (hd (mkGnss_Synchro "R" [] 0 0 dzero dzero 0 0 false false) (unit_chip false true))
    (reset_gnav_tlm (GnavTlm.set_satellite (new_Gnss_Satellite (str "Glonass") 9) a_valid_block)) = (Returns o, d') /\
  TlmDecoder.Flag_valid_word o = true /\
  synchro_PRN o = GnssSignal.PRN (new_Gnss_Satellite (system (new_Gnss_Satellite (str "Glonass") 9)) (GnssSignal.PRN (new_Gnss_Satellite (str "Glonass") 9))) /\
  TlmDecoder.TOW_at_current_symbol_ms o =
    round_Z (dmul (dadd (d_TOW_at_current_symbol a_valid_block) GLONASS_L1_CA_CODE_PERIOD_S) (double_of_Z 1000)).
Proof.
  apply (gnav_stale_time (new_Gnss_Satellite (str "Glonass") 9) _ a_valid_block 27701); try reflexivity.
  - vm_compute. discriminate.
  - split; [reflexivity|apply Z.leb_le; vm_compute; reflexivity].
  - lia.
Defined.

(** ** Almanacs *)

Lemma hear_almanac_6 `{Calendar} b6 s : code_word (rev b6) ->
  gnav_read_unsigned (rev b6) STRING_ID = 6 -> gnav_read_unsigned (rev b6) N_A = 24 ->
  exists a, hear (bits_str b6) (mkhearing new_Glonass_Gnav_Navigation_Message s []) =
    Returns (mkhearing (new_Glonass_Gnav_Navigation_Message <| flag_CRC_test := true |> <| d_string_ID := 6 |>
      <| i_alm_satellite_slot_number := 24 |> <| d_frame_ID := 5 |>
      <| gnav_almanac := vset (replicate 24 new_Glonass_Gnav_Almanac) 23 a |>
      <| flag_almanac_str := vset (replicate 10 false) 0 true |>) s []).
Proof.
  intros Hc Hid Hn. assert (length b6 = 85%nat) as Hl by (rewrite <- length_rev; apply Hc).
  exists (new_Glonass_Gnav_Almanac <| almanac_even := read_almanac_even (rev b6) |>).
  set (h := mkhearing new_Glonass_Gnav_Navigation_Message s []).
  rewrite (hear_report b6 6 h true
    (decode_by_ID 6 (rev b6) ((h_nav h) <| d_frame_ID := 0 |> <| flag_CRC_test := true |> <| d_string_ID := 6 |>)).2
    Hl Hc Hid ltac:(lia));
    unfold h, decode_by_ID, decode_almanac_even; rewrite Hn; generalize (read_almanac_even (rev b6)); intros v;
    vm_compute; reflexivity.
Qed.

Lemma hear_almanac_7 `{Calendar} b7 s a : code_word (rev b7) -> gnav_read_unsigned (rev b7) STRING_ID = 7 ->
  hear (bits_str b7) (mkhearing (new_Glonass_Gnav_Navigation_Message <| flag_CRC_test := true |> <| d_string_ID := 6 |>
      <| i_alm_satellite_slot_number := 24 |> <| d_frame_ID := 5 |>
      <| gnav_almanac := vset (replicate 24 new_Glonass_Gnav_Almanac) 23 a |>
      <| flag_almanac_str := vset (replicate 10 false) 0 true |>) s []) = Throws undefined_behaviour.
Proof.
  intros Hc Hid. assert (length b7 = 85%nat) as Hl by (rewrite <- length_rev; apply Hc).
  match goal with |- hear _ ?h0 = _ => set (h := h0) end.
  rewrite (hear_report b7 7 h true
    (decode_by_ID 7 (rev b7) ((h_nav h) <| d_frame_ID := 0 |> <| flag_CRC_test := true |> <| d_string_ID := 7 |>)).2
    Hl Hc Hid ltac:(lia));
    unfold h, decode_by_ID, decode_almanac_odd; generalize (store_almanac_odd (rev b7)); intros f;
    vm_compute; reflexivity.
Qed.

(** C21: The almanac of slot 24.  In a new block, a string 6 of the almanac of the
    satellite of slot 24 and a string 7, of whatever contents, make the block read
    beyond the end of [d_previous_Na], whose 24 elements are indexed by the slot
    itself: the behaviour is undefined. *)
Theorem gnav_slot_24_undefined `{Calendar} band satellite conf b6 b7 :
  code_word (rev b6) -> gnav_read_unsigned (rev b6) STRING_ID = 6 -> gnav_read_unsigned (rev b6) N_A = 24 ->
  code_word (rev b7) -> gnav_read_unsigned (rev b7) STRING_ID = 7 ->
  exists d, decode_bits (bits_str b6) (new_gnav_tlm band satellite conf) = (Returns tt, d) /\
    (decode_bits (bits_str b7) d).1 = Throws undefined_behaviour.
Proof.
  intros H6 I6 N6 H7 I7. set (s := new_Gnss_Satellite (system satellite) (GnssSignal.PRN satellite)).
  destruct (hear_almanac_6 b6 s H6 I6 N6) as [a E6].
  destruct (hear_decode (bits_str b6) (new_gnav_tlm band satellite conf) _ E6) as (d & Ed & Eh & _).
  exists d. split; [exact Ed|]. pose proof (hear_almanac_7 b7 s a H7 I7) as E7. rewrite <- Eh in E7.
  destruct (hears_decode (bits_str b7) d (blank (heard d)) (eq_sym (heard_blank d))) as [-> _].
  unfold hear in E7. destruct (decode_bits (bits_str b7) (blank (heard d))) as [[[]|x] e]; [discriminate|injection E7 as ->; reflexivity].
Qed.

Lemma gnav_slot_24_undefined_witness : exists d,
  decode_bits (string_bits [string_number 6; (icd 77 5, 24)])
    (new_gnav_tlm L1_CA (new_Gnss_Satellite (str "Glonass") 4) (mkTlm_Conf false true false false)) = (Returns tt, d) /\
  (decode_bits (string_bits [string_number 7]) d).1 = Throws undefined_behaviour.
Proof.
  apply (gnav_slot_24_undefined L1_CA (new_Gnss_Satellite (str "Glonass") 4) (mkTlm_Conf false true false false)
    (write_string [string_number 6; (icd 77 5, 24)]) (write_string [string_number 7]));
    try exact (proj2 (write_string_word _)); vm_compute; reflexivity.
Defined.

(** ** The corrections of UT1 *)

Section utc.
Context `{Calendar} (b1 b2 : Z).
Let P (m : Glonass_Gnav_Navigation_Message) : Prop :=
  d_B1 (gnav_utc_model m) = b1 /\ d_B2 (gnav_utc_model m) = b2.

(** A program that leaves the corrections alone. *)
Ltac leaves_utc :=
  repeat first
    [ apply run_inv_ret | apply run_inv_lift | apply run_inv_gets
    | apply run_inv_modify; let Hn := fresh in intros ? Hn; first [exact Hn|cbv zeta; case_match; exact Hn]
    | apply run_inv_bind; [|intros ?]
    | case_match ].

Lemma utc_update_almanac f : run_inv P (update_almanac f).
Proof. unfold update_almanac. cbv zeta. leaves_utc. Qed.

Lemma utc_even k bits : run_inv P (decode_almanac_even k bits).
Proof.
  unfold decode_almanac_even. apply run_inv_bind; [leaves_utc|intros _]. apply run_inv_bind; [leaves_utc|intros _].
  apply run_inv_bind; [leaves_utc|intros frame_ID]. destruct (frame_ID =? 0); [apply run_inv_ret|].
  apply run_inv_bind; [apply utc_update_almanac|intros _]. leaves_utc.
Qed.

Lemma utc_odd k bits : run_inv P (decode_almanac_odd k bits).
Proof.
  unfold decode_almanac_odd. apply run_inv_bind; [apply run_inv_gets|intros m].
  destruct (flag_almanac (k - 1) m); [|apply run_inv_ret].
  apply run_inv_bind; [apply utc_update_almanac|intros _]. apply run_inv_modify. intros n Hn.
  destruct (k =? 7); [|exact Hn]. unfold keep_freq_channel. case_match; exact Hn.
Qed.

Lemma utc_by_ID string_ID bits m : d_frame_ID m = 0 -> P m -> P (decode_by_ID string_ID bits m).2.
Proof.
  intros Hf Hm.
  assert (forall c : prog Glonass_Gnav_Navigation_Message unit, run_inv P c -> run_inv P (c;; ret true)) as Hr
    by (intros c Hc; apply run_inv_bind; [exact Hc|intros _; apply run_inv_ret]).
  assert (run_inv P (decode_string_1 bits) /\ run_inv P (decode_string_2 bits) /\
    run_inv P (decode_string_3 bits) /\ run_inv P (decode_string_4 bits) /\ run_inv P (decode_string_5 bits)) as (R1 & R2 & R3 & R4 & R5).
  { unfold decode_string_1, decode_string_2, decode_string_3, decode_string_4, decode_string_5.
    split; [leaves_utc|]. split; [leaves_utc|]. split; [leaves_utc|]. split; leaves_utc. }
  assert (run_inv P (decode_string_15 bits)) as R15.
  { unfold decode_string_15. apply run_inv_bind; [apply run_inv_gets|intros n].
    destruct (negb _); [apply utc_odd|apply run_inv_ret]. }
  unfold decode_by_ID. destruct string_ID as [|p|p]; [exact Hm| |exact Hm].
  do 4 (try destruct p as [p|p|]); try exact Hm;
    try (apply Hr; [assumption || apply utc_odd|exact Hm]); try (apply utc_even; exact Hm).
  unfold decode_string_14. rewrite run_gets. unfold id. rewrite Hf. apply utc_even. exact Hm.
Qed.
End utc.

(** C20: The corrections of UT1 are never received.  No string, whatever its
    contents, changes [d_B1] or [d_B2]: they are read from string 14 of frame 5,
    and [string_decoder] forgets the frame before it decodes each string. *)
Theorem gnav_UT1_never_read `{Calendar} frame_string m :
  let m' := (string_decoder frame_string m).2 in
  d_B1 (gnav_utc_model m') = d_B1 (gnav_utc_model m) /\ d_B2 (gnav_utc_model m') = d_B2 (gnav_utc_model m).
Proof.
  cbv zeta. pattern (string_decoder frame_string m).2. set (P := fun n => _ /\ _).
  assert (P m) as Hm by (split; reflexivity).
  unfold string_decoder. rewrite run_modify. unfold lift at 1. unfold bind at 1.
  destruct (bitset_of_string _ frame_string) as [bits|x]; [|exact Hm].
  rewrite run_modify, run_gets. destruct (negb _); [exact Hm|]. rewrite run_modify, run_gets. unfold bind at 1.
  match goal with |- context [decode_by_ID ?i ?b ?n] =>
    pose proof (utc_by_ID (d_B1 (gnav_utc_model m)) (d_B2 (gnav_utc_model m)) i b n eq_refl Hm) as Hp;
    destruct (decode_by_ID i b n) as [[known|x] m']; exact Hp
  end.
Qed.
